(* ===== verification/_CoqProject ===== *)
-Q . S2P
Prelude.v
Api.v
Packed.v
Signals.v
Timer.v
Limiter.v
Util.v
Types.v
Iefb.v
IefbFacts.v
IefbRoundtrip.v
File.v
FileFacts.v
Slmp.v
SlmpFacts.v
Slave.v
SlaveIefb.v
SlaveInv.v
SlaveActions.v
SlaveFsm.v
SlaveSafety.v
SlaveSlmp.v
SlaveReach.v
SlaveSignals.v
SlaveProps.v
SlaveExchange.v
SlaveCalls.v
SlaveApi.v
Master.v
Literals.v
MasterIefb.v
MasterConfig.v
MasterConfigSpec.v
MasterSlmp.v
MasterInv.v
MasterFrame.v
MasterDevice.v
MasterGroup.v
MasterScan.v
MasterFsm.v
MasterEvents.v
MasterControl.v
MasterSafety.v
MasterResponse.v
MasterSettings.v
MasterOutgoing.v
MasterInputs.v
MasterStart.v
MasterReach.v
MasterProps.v
MasterExchange.v
MasterLeaves.v
MasterCalls.v
MasterModes.v
MasterArbitration.v
MasterRequests.v
MasterSockets.v
MasterApi.v
Cycle.v
Exchange.v
Link.v
Duplicate.v
Discovery.v
MasterSupervision.v
