(* ===== verification/Prelude.v ===== *)
(** * c-link: a verification development of the CC-Link IE Field Basic stack

    c-link is a master and a slave stack for CC-Link IE Field Basic, an
    industrial protocol over UDP: a master sends one cyclic request per group
    of slaves (a link scan), every slave answers it with its own data, and a
    second protocol, SLMP, finds slaves and changes their IP addresses. The
    sources are under src/src (common, master and slave) and src/include.

    ** The parts and how they interact

    An application starts an instance, calls its periodic function over and
    over, and reads and writes bits and registers in between. Everything
    happens in these calls: the periodic function reads the clock, evaluates
    timers, and takes datagrams out of the sockets until they are empty. The
    model follows this. An instance is a record ([clm] in Master.v, [cls] in
    Slave.v) with every field of the C structure, arrays as lists of their
    declared length, integers as [Z] with the wrap-around written out. A C
    function is a program over this state ([prog] below): it reads and
    changes the instance, emits what the environment observes (frames,
    callbacks, sockets opened and closed) and either returns or stops at a
    failing CC_ASSERT ([AssertFailed]), which also stands for an access
    outside of an array. The clock and the datagrams are arguments.

    - Foundations: Prelude (integers, byte strings, records, programs and
      their weakest preconditions), Packed (packed structs as codecs with
      round trips), Signals (bits and registers in a byte array), Api
      (handles that may be NULL).
    - Common code: Timer (cl_timer.c), Limiter (cl_limiter.c), Util
      (cl_util.c), Types (the frame layouts of cl_types.h), Iefb (cl_iefb.c:
      building, parsing and validating cyclic frames), File (cl_file.c), Slmp
      (cl_slmp.c and cl_slmp_udp.c), Literals (cl_literals.c). IefbFacts,
      IefbRoundtrip, FileFacts and SlmpFacts hold their theorems.
    - Slave: Slave (its data), SlaveIefb (cls_iefb.c), SlaveSlmp (cls_slmp.c,
      cls_slave.c and the part of cl_eth.c that it calls), SlaveApi
      (cls_api.c).
    - Master: Master (its data), MasterIefb (clm_iefb.c), MasterConfig and
      MasterSlmp (clm_master.c, clm_slmp.c, cl_eth.c), MasterApi (clm_api.c).

    A definition has the name of the C function it models. Where one function
    is split, or a loop is a definition of its own, a comment says so. A
    state machine is its table ([transitions], [device_transitions],
    [group_transitions]), the actions are constructors, and an event loop
    takes rounds until no event is left, as in the source.

    ** What the theorems show

    - Slave: SlaveInv states the invariant, SlaveActions and SlaveFsm give
      the effect of every operation and event, SlaveSafety and SlaveReach
      that every reachable instance has the invariant: no call stops at an
      assertion, whatever arrives, and only frames that the master's parser
      accepts are sent. SlaveSignals, SlaveProps and SlaveExchange state what
      this is for: what the states mean, how a master connects, exchanges
      data, is rejected and times out, also when the supervision period
      wraps around. SlaveCalls lifts the handlers to the
      calls of the periodic function that receive a datagram.
    - Master: MasterConfigSpec (which configurations are accepted), MasterInv
      (the invariant), MasterFrame, MasterDevice, MasterGroup, MasterScan,
      MasterFsm, MasterEvents and MasterControl (devices, groups and their
      events), MasterSafety, MasterResponse, MasterSettings, MasterOutgoing
      (the requests of events, and the devices they ask again), MasterInputs
      and MasterStart (every operation), MasterReach (reachable instances),
      MasterProps and MasterExchange (safety, meaning of the states, what a
      link scan sends and what a response changes). MasterLeaves separates
      the cyclic communication from SLMP; on it rest MasterRequests (node
      searches and changes of an IP address refine a specification with one
      pending request of each kind) and MasterSockets (no socket leaks in a
      life of a master). MasterCalls says which requests a call sends and
      how a call that receives a datagram is composed. MasterModes states the
      contract of all groups together, a machine with the modes ARBITRATION,
      RUNNING and STANDBY ([mode_change], [permitted]), and that any sequence
      of calls is a run of it ([mode_run]); MasterArbitration what a call
      does that hears another master. MasterSupervision follows a device that
      falls silent through any number of calls to its one disconnection.
    - Both stacks, through their periodic functions: Cycle has the halves
      (how a slave that is connected, free or taken sees a request, and how
      the master takes the answer), Exchange puts them together: a slave that
      has just started gets connected, and once both are connected what
      either application reads is what the other has written, and they are
      paired as before ([paired]), so that the next scan finds them so. Link
      iterates this: the two, the frame between them and their applications
      are a transition system ([link_step]) with an invariant ([link_up]);
      over any number of steps the link lasts, scans go on, and every frame
      carries the data of its sender.
      Duplicate has two masters: a newcomer gives way during its arbitration
      to the one that scans, and a master whose request reaches a slave of
      another one withdraws, while that slave goes on as before. Discovery
      composes the stacks for a node search.
    - API: MasterApi and SlaveApi show that every function, on every handle
      and with all arguments of its types that the documentation admits,
      returns a value in its declared range.

    ** Bounds and fuel

    The stack's clock is a [uint32_t] of microseconds that wraps around;
    theorems about time speak of unbounded times [T] with [u32 T] passed to
    the code, and say how long a pause between calls may be. The event loops
    have fuel 2 ([FSM_FUEL], [MASTER_FSM_FUEL]); for each of the three state
    machines it is proved that no reachable state needs more, and running out
    of fuel is not a normal return. All other loops are structural, over
    arrays of declared length or over the datagrams that have arrived. The
    options of the build (numbers of groups, stations and search results)
    are class fields with the ranges that the build system allows.

    ** What is not modelled, and why

    - The operating system layer (clal.h, os functions): its implementation
      is not part of the repository. Sockets, network settings, files and
      the wall clock are classes ([Clal], [ClalNet], [ClalFile],
      [ClalClock]); laws that are relied on, for example that a saved file
      is loaded unchanged, are class fields of their own ([ClalFileOk]). The
      result of such a call is a function of its arguments (and, for files,
      of the files): two calls with the same arguments do not differ in it.
      No failure that clal.h documents is excluded.
    - Log output, except the limited warnings whose limiter is part of the
      state, and the functions that print the state of an instance
      (cl_timer_show, cl_util_buffer_show, the show functions of both
      stacks): they change nothing.
    - Access to the arrays of groups and devices outside of their length:
      [group_at], [device_at] and their updates are total, with a default
      value and no effect there. Theorems about them speak of indices that
      are in range; copies and stores in the memory areas do check theirs.
    - The sample applications, the fuzzing targets and the tests.

    ** Plan

    Modelled first were the frames, then the slave, the master and their
    compositions: single cycles, two masters in one network, and a master
    and a slave over any number of link scans. In the last the frames arrive
    in time, and the other devices of the group are silent; what is left is
    to let frames be lost, repeated or late there too. *)

From stdpp Require Export base tactics numbers list option.
From Stdlib Require Export ZArith Lia.

#[global] Open Scope Z_scope.

(** ** Machine integers *)

Definition u8 (x : Z) : Z := x mod 2 ^ 8.
Definition u16 (x : Z) : Z := x mod 2 ^ 16.
Definition u32 (x : Z) : Z := x mod 2 ^ 32.
Definition u64 (x : Z) : Z := x mod 2 ^ 64.

Definition is_u8 (x : Z) : Prop := 0 <= x < 2 ^ 8.
Definition is_u16 (x : Z) : Prop := 0 <= x < 2 ^ 16.
Definition is_u32 (x : Z) : Prop := 0 <= x < 2 ^ 32.
Definition is_u64 (x : Z) : Prop := 0 <= x < 2 ^ 64.

Definition UINT8_MAX : Z := 0xFF.
Definition UINT16_MAX : Z := 0xFFFF.
Definition UINT32_MAX : Z := 0xFFFFFFFF.

(** The bit mask macro of the OS abstraction layer, [1U << n]. *)
Definition BIT (n : Z) : Z := Z.shiftl 1 n.

(** Exchange of the two bytes of a 16-bit word. *)
Definition bswap16 (x : Z) : Z := (x mod 256) * 256 + (x / 256) mod 256.

(** ** Byte strings *)

Definition is_byte (b : Z) : Prop := 0 <= b < 256.
Definition bytes (l : list Z) : Prop := Forall is_byte l.

(** Part of a memory area, and a memory area with a part overwritten. *)
Definition slice (off n : nat) (l : list Z) : list Z := take n (drop off l).
Definition splice (off : nat) (d l : list Z) : list Z :=
  take off l ++ d ++ drop (off + length d) l.

Definition zeros (n : nat) : list Z := replicate n 0.

Fixpoint le_split (n : nat) (v : Z) : list Z :=
  match n with
  | O => []
  | S n' => v mod 256 :: le_split n' (v / 256)
  end.

Fixpoint le_combine (l : list Z) : Z :=
  match l with
  | [] => 0
  | b :: l' => b + 256 * le_combine l'
  end.

(** ** Record update

    [Settable R] rebuilds a record from its projections; from it the update
    of one field is derived when it is used. *)

Class Settable (R : Type) : Type := rebuild : R -> R.
Class Field {R A : Type} (proj : R -> A) : Type := update : (A -> A) -> R -> R.
Arguments update {R A} proj {_} _ _ /.

Ltac derive_field :=
  lazymatch goal with
  | |- @Field ?R ?A ?proj =>
      let inst := constr:(_ : Settable R) in
      let f := fresh "f" in
      let r := fresh "r" in
      unfold Field; intros f r;
      let body := eval hnf in inst in
      let whole := eval cbv beta in (body r) in
      lazymatch whole with
      | context C [proj r] => let res := context C [f (proj r)] in exact res
      end
  end.
#[global] Hint Extern 1 (Field _) => derive_field : typeclass_instances.

Declare Scope clink_scope.
Delimit Scope clink_scope with clink.
Notation "r <| p := v |>" := (update p (fun _ => v) r)
  (at level 1, left associativity, p at level 1, v at level 200,
   format "r  <| p  :=  v |>")
  : clink_scope.
Notation "r <| p ::= f |>" := (update p f r)
  (at level 1, left associativity, p at level 1, f at level 200,
   format "r  <| p  ::=  f |>")
  : clink_scope.
#[global] Open Scope clink_scope.

(** ** Effects

    A function of the stack works on a state [S], emits outputs [O] (frames
    handed to the socket layer, calls of the application's callbacks) and may
    stop at a [CC_ASSERT]. *)

Inductive outcome (A : Type) : Type :=
| Done (a : A)
| AssertFailed.
Arguments Done {A} a.
Arguments AssertFailed {A}.

Definition prog (S O A : Type) : Type := S -> outcome (A * S * list O).

Section Prog.
Context {S O : Type}.

#[export] Instance prog_ret : MRet (prog S O) := fun A a s => Done (a, s, []).
#[export] Instance prog_bind : MBind (prog S O) := fun A B k m s =>
  match m s with
  | Done (a, s', o) =>
      match k a s' with
      | Done (b, s'', o') => Done (b, s'', o ++ o')
      | AssertFailed => AssertFailed
      end
  | AssertFailed => AssertFailed
  end.

Definition get : prog S O S := fun s => Done (s, s, []).
Definition modify (f : S -> S) : prog S O unit := fun s => Done (tt, f s, []).
Definition emit (o : O) : prog S O unit := fun s => Done (tt, s, [o]).
Definition cc_assert (b : bool) : prog S O unit :=
  fun s => if b then Done (tt, s, []) else AssertFailed.
(** [when (cb != NULL) { ... }] *)
Definition when (b : bool) (m : prog S O unit) : prog S O unit :=
  if b then m else mret tt.
Definition lift_outcome {A} (x : outcome A) : prog S O A :=
  fun s => match x with Done a => Done (a, s, []) | AssertFailed => AssertFailed end.
End Prog.

(** A program on a part of the state. *)
Definition zoom {S S' O O' A} (view : S' -> S) (put : S -> S' -> S') (inj : O -> O')
  (m : prog S O A) : prog S' O' A := fun s =>
  match m (view s) with
  | Done (a, p, o) => Done (a, put p s, map inj o)
  | AssertFailed => AssertFailed
  end.

(** Weakest precondition: the program stops at no assertion and its result,
    final state and outputs satisfy [Q]. *)
Definition wp {S O A} (m : prog S O A) (Q : A -> S -> list O -> Prop) (s : S) : Prop :=
  match m s with
  | Done (a, s', o) => Q a s' o
  | AssertFailed => False
  end.

(** ** Lemmas: machine integers *)

Create HintDb clink.

Lemma u8_id x : is_u8 x -> u8 x = x.
Proof. apply Z.mod_small. Qed.
Lemma u16_id x : is_u16 x -> u16 x = x.
Proof. apply Z.mod_small. Qed.
Lemma u32_id x : is_u32 x -> u32 x = x.
Proof. apply Z.mod_small. Qed.

Lemma u8_range x : is_u8 (u8 x).
Proof. apply Z.mod_pos_bound; lia. Qed.
Lemma u16_range x : is_u16 (u16 x).
Proof. apply Z.mod_pos_bound; lia. Qed.
Lemma u32_range x : is_u32 (u32 x).
Proof. apply Z.mod_pos_bound; lia. Qed.
Lemma u64_range x : is_u64 (u64 x).
Proof. apply Z.mod_pos_bound; lia. Qed.

#[export] Hint Resolve u8_range u16_range u32_range u64_range : clink.

Lemma BIT_pow n : 0 <= n -> BIT n = 2 ^ n.
Proof. intros. unfold BIT. rewrite Z.shiftl_mul_pow2 by lia. lia. Qed.

Lemma land_bit_testbit x n : 0 <= n -> (0 <? Z.land x (2 ^ n)) = Z.testbit x n.
Proof.
  intros Hn. assert (0 < 2 ^ n) by (apply Z.pow_pos_nonneg; lia).
  replace (Z.land x (2 ^ n)) with (if Z.testbit x n then 2 ^ n else 0).
  - destruct (Z.testbit x n); [apply Z.ltb_lt | apply Z.ltb_ge]; lia.
  - apply Z.bits_inj'. intros m Hm. rewrite Z.land_spec, Z.pow2_bits_eqb by lia.
    destruct (Z.eqb_spec n m) as [->|Hne]; destruct (Z.testbit x _) eqn:E;
      rewrite ?Z.testbit_0_l, ?Z.pow2_bits_eqb, ?E, ?Z.eqb_refl, ?andb_false_r by lia;
      try reflexivity.
    destruct (Z.eqb_spec n m); [lia|reflexivity].
Qed.

Lemma testbit_high x w n : 0 <= x < 2 ^ w -> 0 <= w <= n -> Z.testbit x n = false.
Proof.
  intros Hx Hw. rewrite <- (Z.mod_small x (2 ^ w)) by lia.
  apply Z.mod_pow2_bits_high. lia.
Qed.

Lemma land_low_mask x w : 0 <= w -> Z.land x (2 ^ w - 1) = x mod 2 ^ w.
Proof.
  intros. rewrite <- Z.land_ones by lia. f_equal. rewrite Z.ones_equiv. lia.
Qed.

(** Disjoint parts of a word may be added. *)
Lemma lor_shifted_add a b n : 0 <= n -> 0 <= b < 2 ^ n ->
  Z.lor (a * 2 ^ n) b = a * 2 ^ n + b.
Proof.
  intros Hn Hb. rewrite <- Z.add_lor_land.
  replace (Z.land (a * 2 ^ n) b) with 0; [lia|].
  symmetry. apply Z.bits_inj'. intros i Hi. rewrite Z.land_spec, Z.testbit_0_l.
  destruct (Z.lt_ge_cases i n).
  - rewrite Z.mul_pow2_bits_low by lia. reflexivity.
  - rewrite (testbit_high b n) by lia. apply andb_false_r.
Qed.

Lemma bounded_by_bits w y : 0 <= w ->
  (forall m, w <= m -> Z.testbit y m = false) -> 0 <= y -> y < 2 ^ w.
Proof.
  intros Hw Hbits Hy. destruct (Z.eq_dec y 0) as [->|].
  - apply Z.pow_pos_nonneg; lia.
  - apply Z.log2_lt_pow2; [lia|].
    destruct (Z.lt_ge_cases (Z.log2 y) w) as [|Hge]; [assumption|].
    pose proof (Z.bit_log2 y ltac:(lia)) as Hb.
    rewrite (Hbits _ Hge) in Hb. discriminate.
Qed.

(** ** Lemmas: byte strings *)

Lemma bytes_app l1 l2 : bytes (l1 ++ l2) <-> bytes l1 /\ bytes l2.
Proof. apply Forall_app. Qed.
Lemma bytes_take n l : bytes l -> bytes (take n l).
Proof. apply Forall_take. Qed.
Lemma bytes_drop n l : bytes l -> bytes (drop n l).
Proof. apply Forall_drop. Qed.
Lemma bytes_slice off n l : bytes l -> bytes (slice off n l).
Proof. intros. apply bytes_take, bytes_drop. assumption. Qed.
Lemma bytes_zeros n : bytes (zeros n).
Proof. apply Forall_replicate. unfold is_byte. lia. Qed.
Lemma bytes_splice off d l : bytes d -> bytes l -> bytes (splice off d l).
Proof.
  intros. unfold splice. rewrite !bytes_app.
  auto using bytes_take, bytes_drop.
Qed.
#[export] Hint Resolve bytes_take bytes_drop bytes_slice bytes_zeros bytes_splice : clink.

Lemma length_zeros n : length (zeros n) = n.
Proof. apply length_replicate. Qed.
Lemma length_slice off n l : (off + n <= length l)%nat -> length (slice off n l) = n.
Proof. intros. unfold slice. rewrite length_take, length_drop. lia. Qed.
Lemma length_splice off d l :
  (off + length d <= length l)%nat -> length (splice off d l) = length l.
Proof.
  intros. unfold splice. rewrite !length_app, length_take, length_drop. lia.
Qed.

(** What a write changes: it is read back, and disjoint parts keep their
    contents. *)
Lemma slice_splice_same off d l :
  (off + length d <= length l)%nat -> slice off (length d) (splice off d l) = d.
Proof.
  intros. unfold slice, splice. rewrite drop_app_length' by (rewrite length_take; lia).
  apply take_app_length.
Qed.

Lemma lookup_splice off d l i : (off + length d <= length l)%nat ->
  splice off d l !! i =
    (if decide (off <= i < off + length d)%nat then d !! (i - off)%nat else l !! i).
Proof.
  intros Hlen. unfold splice. rewrite lookup_app, length_take.
  destruct (decide (off <= i < off + length d)%nat) as [Hin|Hout].
  - rewrite lookup_take_ge by lia. rewrite Nat.min_l by lia.
    rewrite lookup_app_l by lia. reflexivity.
  - destruct (decide (i < off)%nat).
    + destruct (lookup_lt_is_Some_2 l i) as [x Hx]; [lia|].
      rewrite lookup_take_lt by lia. rewrite Hx. reflexivity.
    + rewrite lookup_take_ge by lia. rewrite Nat.min_l by lia.
      rewrite lookup_app_r by lia. rewrite lookup_drop. f_equal. lia.
Qed.

Lemma lookup_slice off n l i :
  slice off n l !! i = (if decide (i < n)%nat then l !! (off + i)%nat else None).
Proof.
  unfold slice. destruct (decide (i < n)%nat).
  - rewrite lookup_take_lt by lia. apply lookup_drop.
  - apply lookup_take_ge. lia.
Qed.

Lemma slice_splice_disjoint off n off' d l :
  (off' + length d <= length l)%nat ->
  (off + n <= off' \/ off' + length d <= off)%nat ->
  slice off n (splice off' d l) = slice off n l.
Proof.
  intros Hlen Hdisj. apply list_eq. intros i. rewrite !lookup_slice.
  destruct (decide (i < n)%nat); [|reflexivity].
  rewrite lookup_splice by lia. rewrite decide_False by lia. reflexivity.
Qed.

Lemma slice_app_l off n l1 l2 :
  (off + n <= length l1)%nat -> slice off n (l1 ++ l2) = slice off n l1.
Proof.
  intros. unfold slice. rewrite drop_app_le by lia.
  apply take_app_le. rewrite length_drop. lia.
Qed.

Lemma slice_app_r off n l1 l2 :
  (length l1 <= off)%nat -> slice off n (l1 ++ l2) = slice (off - length l1) n l2.
Proof. intros. unfold slice. rewrite drop_app_ge by lia. reflexivity. Qed.

Lemma slice_slice o1 n1 o2 n2 l :
  (o2 + n2 <= n1)%nat -> slice o2 n2 (slice o1 n1 l) = slice (o1 + o2) n2 l.
Proof.
  intros. apply list_eq. intros i. rewrite !lookup_slice.
  destruct (decide (i < n2)%nat); [|reflexivity].
  rewrite decide_True by lia. f_equal. lia.
Qed.

(** ** Lemmas: little-endian numbers *)

Lemma length_le_split n v : length (le_split n v) = n.
Proof. revert v. induction n; intros; simpl; [reflexivity|]. f_equal. auto. Qed.

Lemma bytes_le_split n v : bytes (le_split n v).
Proof.
  revert v. induction n; intros; simpl; constructor; [|apply IHn].
  apply Z.mod_pos_bound. lia.
Qed.
#[export] Hint Resolve bytes_le_split : clink.

Lemma le_combine_range l : bytes l -> 0 <= le_combine l < 2 ^ (8 * Z.of_nat (length l)).
Proof.
  induction 1 as [|b l Hb Hl IH]; simpl; [lia|].
  replace (8 * Z.of_nat (S (length l))) with (8 + 8 * Z.of_nat (length l)) by lia.
  rewrite Z.pow_add_r by lia. unfold is_byte in Hb. lia.
Qed.

Lemma le_combine_split n v : le_combine (le_split n v) = v mod 2 ^ (8 * Z.of_nat n).
Proof.
  revert v. induction n as [|n IH]; intros v.
  - simpl. rewrite Z.mod_1_r. reflexivity.
  - cbn [le_split le_combine]. rewrite IH.
    replace (8 * Z.of_nat (S n)) with (8 + 8 * Z.of_nat n) by lia.
    rewrite Z.pow_add_r, Z.rem_mul_r by lia. reflexivity.
Qed.

Lemma le_combine_split_id n v :
  0 <= v < 2 ^ (8 * Z.of_nat n) -> le_combine (le_split n v) = v.
Proof. intros. rewrite le_combine_split. apply Z.mod_small. assumption. Qed.

Lemma le_split_combine l : bytes l -> le_split (length l) (le_combine l) = l.
Proof.
  induction 1 as [|b l Hb Hl IH]; simpl; [reflexivity|]. unfold is_byte in Hb.
  rewrite (Z.mul_comm 256), Z_mod_plus_full, Z.mod_small by lia.
  rewrite Z.div_add, Z.div_small, Z.add_0_l by lia. f_equal. exact IH.
Qed.

(** ** Lemmas: programs *)

Section WeakestPrecondition.
Context {S O : Type}.
Implicit Types s : S.

Lemma wp_ret {A} (a : A) (Q : A -> S -> list O -> Prop) s :
  Q a s [] -> wp (mret a) Q s.
Proof. exact (fun H => H). Qed.

Lemma wp_bind {A B} (m : prog S O A) (k : A -> prog S O B) Q s :
  wp m (fun a s' o => wp (k a) (fun b s'' o' => Q b s'' (o ++ o')) s') s ->
  wp (m ≫= k) Q s.
Proof.
  unfold wp, mbind, prog_bind. destruct (m s) as [[[a s'] o]|]; [|tauto].
  destruct (k a s') as [[[b s''] o']|]; tauto.
Qed.

Lemma wp_get (Q : S -> S -> list O -> Prop) s : Q s s [] -> wp get Q s.
Proof. exact (fun H => H). Qed.

Lemma wp_modify f (Q : unit -> S -> list O -> Prop) s : Q tt (f s) [] -> wp (modify f) Q s.
Proof. exact (fun H => H). Qed.

Lemma wp_emit o (Q : unit -> S -> list O -> Prop) s : Q tt s [o] -> wp (emit o) Q s.
Proof. exact (fun H => H). Qed.

Lemma wp_assert b (Q : unit -> S -> list O -> Prop) s :
  b = true -> Q tt s [] -> wp (cc_assert b) Q s.
Proof. intros ->. exact (fun H => H). Qed.

Lemma wp_lift {A} (a : A) (Q : A -> S -> list O -> Prop) s :
  Q a s [] -> wp (lift_outcome (Done a)) Q s.
Proof. exact (fun H => H). Qed.

Lemma wp_when b m (Q : unit -> S -> list O -> Prop) s :
  (b = true -> wp m Q s) -> (b = false -> Q tt s []) -> wp (when b m) Q s.
Proof. destruct b; cbn; auto. Qed.

Lemma wp_if {A} (b : bool) (m1 m2 : prog S O A) Q s :
  (b = true -> wp m1 Q s) -> (b = false -> wp m2 Q s) -> wp (if b then m1 else m2) Q s.
Proof. destruct b; auto. Qed.

Lemma wp_mono {A} (m : prog S O A) (Q Q' : A -> S -> list O -> Prop) s :
  wp m Q s -> (forall a s' o, Q a s' o -> Q' a s' o) -> wp m Q' s.
Proof. unfold wp. destruct (m s) as [[[a s'] o]|]; auto. Qed.

Lemma wp_and {A} (m : prog S O A) (Q Q' : A -> S -> list O -> Prop) s :
  wp m Q s -> wp m Q' s -> wp m (fun a s' o => Q a s' o /\ Q' a s' o) s.
Proof. unfold wp. destruct (m s) as [[[a s'] o]|]; auto. Qed.

Lemma wp_done {A} (m : prog S O A) Q s :
  wp m Q s <-> exists a s' o, m s = Done (a, s', o) /\ Q a s' o.
Proof.
  unfold wp. split.
  - destruct (m s) as [[[a s'] o]|]; [eauto 6|tauto].
  - intros (a & s' & o & -> & HQ). exact HQ.
Qed.

Lemma wp_zoom {S' O' A} (view : S' -> S) put (inj : O -> O') (m : prog S O A) Q (s : S') :
  wp m (fun a p o => Q a (put p s) (map inj o)) (view s) -> wp (zoom view put inj m) Q s.
Proof. unfold wp, zoom. destruct (m (view s)) as [[[a p] o]|]; auto. Qed.
End WeakestPrecondition.

(** ** Tactics *)

Ltac unfold_widths :=
  unfold is_u8, is_u16, is_u32, is_u64, is_byte, UINT8_MAX, UINT16_MAX, UINT32_MAX in *.

(** Linear arithmetic with the widths unfolded and the divisions explained. *)
Ltac zlia := unfold_widths; Z.to_euclidean_division_equations; lia.

(** Case analysis on the boolean tests of the goal, as propositions. *)
Ltac destruct_tests :=
  repeat match goal with
  | |- context [?a =? ?b] => destruct (Z.eqb_spec a b)
  | |- context [?a <? ?b] => destruct (Z.ltb_spec a b)
  | |- context [?a <=? ?b] => destruct (Z.leb_spec a b)
  end.

(** Executes a [prog] on its state as far as its tests allow. *)
Ltac run_prog :=
  cbv beta iota delta [mbind prog_bind mret prog_ret get modify emit when cc_assert
    lift_outcome app].

(** One step of symbolic execution of a weakest precondition; branches are
    left to the caller. *)
Ltac wp_step :=
  lazymatch goal with
  | |- wp (mbind _ _) _ _ => apply wp_bind
  | |- wp (mret _) _ _ => apply wp_ret
  | |- wp get _ _ => apply wp_get
  | |- wp (modify _) _ _ => apply wp_modify
  | |- wp (emit _) _ _ => apply wp_emit
  | |- wp (lift_outcome (Done _)) _ _ => apply wp_lift
  | |- wp (when true _) _ _ => unfold when
  | |- wp (when false _) _ _ => unfold when
  | |- wp (if true then _ else _) _ _ => cbv iota
  | |- wp (if false then _ else _) _ _ => cbv iota
  end; cbv beta.
Ltac wp_steps := repeat wp_step.
