(* ===== verification/Api.v ===== *)
(** * Handles of the public API

    The functions of clm_api.c and cls_api.c take a pointer to an instance.
    Here is what they share: how they treat [NULL], and how an instance is
    allocated. *)

From S2P Require Import Prelude.

Section Api.
Context {S O : Type}.

(** A program on a handle: the instance behind the pointer, [None] for
    [NULL]. *)
Definition handle_prog (A : Type) : Type := prog (option S) O A.

(** Runs a function of the stack on the instance. *)
Definition on_instance {A} (null : outcome (A * option S * list O)) (f : prog S O A)
  : handle_prog A := fun handle =>
  match handle with
  | None => null
  | Some s =>
      match f s with Done (a, s', o) => Done (a, Some s', o) | AssertFailed => AssertFailed end
  end.

(** [CC_ASSERT (clm != NULL)] in front of the call. *)
Definition asserted {A} (f : prog S O A) : handle_prog A := on_instance AssertFailed f.

(** [if (clm == NULL) return d] in front of the call. *)
Definition null_returns {A} (d : A) (f : prog S O A) : handle_prog A :=
  on_instance (Done (d, None, [])) f.

(** A function that reads the instance only. *)
Definition query {A} (f : S -> A) : prog S O A := s ← get; mret (f s).
Definition checked_query {A} (f : S -> outcome A) : prog S O A := s ← get; lift_outcome (f s).

(** The functions that return 0 or -1. *)
Definition int_of_success (success : bool) : Z := if success then 0 else -1.
Definition returns_int (f : prog S O bool) : prog S O Z := success ← f; mret (int_of_success success).

(** Allocates an instance, if there is memory, and starts it; the memory is
    freed when that fails. *)
Definition allocate_and_init (zero : S) (memory_left : bool) (init_only : handle_prog Z)
  : outcome (option S * list O) :=
  if negb memory_left then Done (None, [])
  else
    match init_only (Some zero) with
    | Done (result, handle, o) => Done (if result =? 0 then handle else None, o)
    | AssertFailed => AssertFailed
    end.

(** ** Lemmas *)

Lemma on_instance_done {A} null (f : prog S O A) s a s' o : f s = Done (a, s', o) ->
  on_instance null f (Some s) = Done (a, Some s', o).
Proof. intros Hf. cbn. rewrite Hf. reflexivity. Qed.

Lemma returns_int_done f s b s' o : f s = Done (b, s', o) ->
  returns_int f s = Done (int_of_success b, s', o).
Proof.
  intros Hf. unfold returns_int, mbind, prog_bind. rewrite Hf. cbn. rewrite app_nil_r. reflexivity.
Qed.

Lemma checked_query_done {A} (f : S -> outcome A) s a : f s = Done a ->
  checked_query f s = Done (a, s, []).
Proof. intros Hf. unfold checked_query, mbind, prog_bind, get, lift_outcome. rewrite Hf. reflexivity. Qed.

(** An instance is either returned in the state its start left, or not at
    all. *)
Lemma allocated_started zero memory_left (init : prog S O bool) handle o :
  allocate_and_init zero memory_left (null_returns (-1) (returns_int init)) = Done (handle, o) ->
  handle = None \/ exists s, handle = Some s /\ init zero = Done (true, s, o).
Proof.
  unfold allocate_and_init. destruct memory_left; cbn; [|intros [= <- <-]; auto].
  destruct (init zero) as [[[b s] o1]|] eqn:Hi; [|unfold returns_int, mbind, prog_bind; rewrite Hi; discriminate].
  rewrite (returns_int_done init zero b s o1 Hi). cbn. intros [= <- <-].
  destruct b; cbn; [right; eauto|left; reflexivity].
Qed.

Lemma allocation_runs zero memory_left (init : prog S O bool) b s o :
  init zero = Done (b, s, o) -> exists handle o',
    allocate_and_init zero memory_left (null_returns (-1) (returns_int init)) = Done (handle, o').
Proof.
  intros Hi. unfold allocate_and_init. destruct memory_left; cbn; [|eauto].
  rewrite (returns_int_done init zero b s o Hi). cbn. eauto.
Qed.

End Api.

Arguments handle_prog : clear implicits.
