(* ===== verification/Packed.v ===== *)
(** * Packed C structs as codecs

    The stack overlays its receive and send buffers with packed structs
    ([CC_PACKED], src/src/common/cl_types.h) and converts every multi-byte
    field with [CC_FROM_LE16], [CC_TO_BE16] and the like.  A [codec A]
    describes such an overlay: the number of bytes, the bytes of a value and
    the value read from the start of a buffer.  Fields hold the converted
    (host) values.  Codecs are closed under sequencing, arrays of bytes and
    change of representation, and [CodecOk] states the laws the rest of the
    development uses: what is written is read back, reading looks at the
    first [c_size] bytes only, and writing back what was read changes
    nothing. *)

From S2P Require Import Prelude.

Record codec (A : Type) : Type := Codec {
  c_size : nat;
  c_enc : A -> list Z;
  c_dec : list Z -> A;
  c_wf : A -> Prop
}.
Arguments c_size {A} _.
Arguments c_enc {A} _ _.
Arguments c_dec {A} _ _.
Arguments c_wf {A} _ _.

Definition c_u8 : codec Z :=
  Codec Z 1 (le_split 1) (fun l => le_combine (take 1 l)) is_u8.
Definition c_u16le : codec Z :=
  Codec Z 2 (le_split 2) (fun l => le_combine (take 2 l)) is_u16.
Definition c_u16be : codec Z :=
  Codec Z 2 (fun v => reverse (le_split 2 v))
    (fun l => le_combine (reverse (take 2 l))) is_u16.
Definition c_u32be : codec Z :=
  Codec Z 4 (fun v => reverse (le_split 4 v))
    (fun l => le_combine (reverse (take 4 l))) is_u32.
Definition c_u32le : codec Z :=
  Codec Z 4 (le_split 4) (fun l => le_combine (take 4 l)) is_u32.
Definition c_u64le : codec Z :=
  Codec Z 8 (le_split 8) (fun l => le_combine (take 8 l)) is_u64.
(** [uint8_t x[n]] *)
Definition c_array (n : nat) : codec (list Z) :=
  Codec (list Z) n (fun l => l) (take n) (fun l => length l = n /\ bytes l).

Definition c_pair {A B} (ca : codec A) (cb : codec B) : codec (A * B) :=
  Codec (A * B) (c_size ca + c_size cb)
    (fun v => c_enc ca v.1 ++ c_enc cb v.2)
    (fun l => (c_dec ca l, c_dec cb (drop (c_size ca) l)))
    (fun v => c_wf ca v.1 /\ c_wf cb v.2).

(** A struct is its fields in order. *)
Definition c_struct {A B} (mk : A -> B) (fields : B -> A) (ca : codec A) : codec B :=
  Codec B (c_size ca) (fun b => c_enc ca (fields b)) (fun l => mk (c_dec ca l))
    (fun b => c_wf ca (fields b)).

Infix "⊗" := c_pair (at level 39, right associativity) : clink_scope.

Definition sizeof {A} (c : codec A) : Z := Z.of_nat (c_size c).

(** The struct at an offset of a memory area. *)
Definition read_at {A} (c : codec A) (mem : list Z) (off : Z) : A :=
  c_dec c (drop (Z.to_nat off) mem).

(** Assignment to fields through a pointer to the struct at the start of a
    buffer. *)
Definition poke {A} (c : codec A) (f : A -> A) (buf : list Z) : list Z :=
  splice 0 (c_enc c (f (c_dec c buf))) buf.

Class CodecOk {A} (c : codec A) : Prop := {
  codec_length : forall v, c_wf c v -> length (c_enc c v) = c_size c;
  codec_bytes : forall v, c_wf c v -> bytes (c_enc c v);
  codec_roundtrip : forall v rest, c_wf c v -> c_dec c (c_enc c v ++ rest) = v;
  codec_wf : forall l, bytes l -> (c_size c <= length l)%nat -> c_wf c (c_dec c l);
  codec_rewrite : forall l, bytes l -> (c_size c <= length l)%nat ->
    c_enc c (c_dec c l) = take (c_size c) l;
  codec_prefix : forall l, c_dec c l = c_dec c (take (c_size c) l)
}.

(** ** Instances *)

Lemma take_own_prefix {A} n (l : list A) : take n l = take n (take n l).
Proof. rewrite take_take. f_equal. lia. Qed.

Section LittleEndianField.
Context (n : nat) (P : Z -> Prop).
Hypothesis P_range : forall v, P v <-> 0 <= v < 2 ^ (8 * Z.of_nat n).

Lemma le_field_ok : CodecOk (Codec Z n (le_split n) (fun l => le_combine (take n l)) P).
Proof.
  split; simpl; intros.
  - apply length_le_split.
  - apply bytes_le_split.
  - rewrite take_app_length' by (symmetry; apply length_le_split).
    apply le_combine_split_id, P_range. assumption.
  - apply P_range. pose proof (le_combine_range (take n l) (bytes_take _ _ H)) as Hr.
    rewrite length_take, Nat.min_l in Hr by assumption. exact Hr.
  - rewrite <- (le_split_combine (take n l)) at 2 by (apply bytes_take; assumption).
    rewrite length_take, Nat.min_l by assumption. reflexivity.
  - rewrite <- take_own_prefix. reflexivity.
Qed.
End LittleEndianField.

#[export] Instance c_u8_ok : CodecOk c_u8.
Proof. apply (le_field_ok 1). intros. unfold is_u8. simpl. lia. Qed.
#[export] Instance c_u16le_ok : CodecOk c_u16le.
Proof. apply (le_field_ok 2). intros. unfold is_u16. simpl. lia. Qed.
#[export] Instance c_u32le_ok : CodecOk c_u32le.
Proof. apply (le_field_ok 4). intros. unfold is_u32. simpl. lia. Qed.
#[export] Instance c_u64le_ok : CodecOk c_u64le.
Proof. apply (le_field_ok 8). intros. unfold is_u64. simpl. lia. Qed.

Lemma bytes_reverse l : bytes l -> bytes (reverse l).
Proof. apply Forall_reverse. Qed.

Section BigEndianField.
Context (n : nat) (P : Z -> Prop).
Hypothesis P_range : forall v, P v <-> 0 <= v < 2 ^ (8 * Z.of_nat n).

Lemma be_field_ok : CodecOk (Codec Z n (fun v => reverse (le_split n v))
  (fun l => le_combine (reverse (take n l))) P).
Proof.
  split; cbn [c_size c_enc c_dec c_wf]; intros.
  - rewrite length_reverse. apply length_le_split.
  - apply bytes_reverse, bytes_le_split.
  - rewrite take_app_length' by (rewrite length_reverse, length_le_split; reflexivity).
    rewrite reverse_involutive. apply le_combine_split_id, P_range. assumption.
  - apply P_range. pose proof (le_combine_range (reverse (take n l))
      (bytes_reverse _ (bytes_take _ _ H))) as Hr.
    rewrite length_reverse, length_take, Nat.min_l in Hr by assumption. exact Hr.
  - assert (Hlen : length (reverse (take n l)) = n)
      by (rewrite length_reverse, length_take; lia).
    rewrite <- Hlen at 1.
    rewrite le_split_combine by (apply bytes_reverse, bytes_take; assumption).
    apply reverse_involutive.
  - rewrite <- take_own_prefix. reflexivity.
Qed.
End BigEndianField.

#[export] Instance c_u16be_ok : CodecOk c_u16be.
Proof. apply (be_field_ok 2). intros. unfold is_u16. simpl. lia. Qed.
#[export] Instance c_u32be_ok : CodecOk c_u32be.
Proof. apply (be_field_ok 4). intros. unfold is_u32. simpl. lia. Qed.

#[export] Instance c_array_ok n : CodecOk (c_array n).
Proof.
  split; cbn [c_array c_size c_enc c_dec c_wf].
  - tauto.
  - tauto.
  - intros v rest [Hlen _]. apply take_app_length'. congruence.
  - intros l Hb Hlen. split; [rewrite length_take; lia | apply bytes_take; assumption].
  - reflexivity.
  - intros. apply take_own_prefix.
Qed.

#[export] Instance c_pair_ok {A B} (ca : codec A) (cb : codec B) :
  CodecOk ca -> CodecOk cb -> CodecOk (ca ⊗ cb).
Proof.
  intros Ha Hb. split; cbn [c_pair c_size c_enc c_dec c_wf].
  - intros [a b] [Wa Wb]. rewrite length_app, !codec_length by assumption. reflexivity.
  - intros [a b] [Wa Wb]. apply bytes_app. split; apply codec_bytes; assumption.
  - intros [a b] rest [Wa Wb]. simpl in *. rewrite <- app_assoc. f_equal.
    + apply codec_roundtrip. assumption.
    + rewrite drop_app_length' by (rewrite codec_length; auto).
      apply codec_roundtrip. assumption.
  - intros l Hl Hlen. split; apply codec_wf; auto using bytes_drop;
      rewrite ?length_drop; lia.
  - intros l Hl Hlen. simpl.
    rewrite !codec_rewrite by (auto using bytes_drop; rewrite ?length_drop; lia).
    rewrite take_take_drop. reflexivity.
  - intros l. f_equal.
    + rewrite (codec_prefix l), (codec_prefix (take (c_size ca + c_size cb) l)), take_take.
      do 2 f_equal. lia.
    + rewrite (codec_prefix (drop _ l)). rewrite <- take_drop_commute. reflexivity.
Qed.

Lemma c_struct_ok {A B} (mk : A -> B) (fields : B -> A) (ca : codec A) :
  CodecOk ca -> (forall b, mk (fields b) = b) -> (forall a, fields (mk a) = a) ->
  CodecOk (c_struct mk fields ca).
Proof.
  intros Ha Hmk Hf. split; cbn [c_struct c_size c_enc c_dec c_wf].
  - intros. apply codec_length. assumption.
  - intros. apply codec_bytes. assumption.
  - intros. rewrite codec_roundtrip by assumption. apply Hmk.
  - intros. rewrite Hf. apply codec_wf; assumption.
  - intros. rewrite Hf. apply codec_rewrite; assumption.
  - intros. rewrite codec_prefix. reflexivity.
Qed.

(** Discharges the laws of a struct codec: both directions of the change of
    representation hold by case analysis. *)
Ltac struct_ok :=
  apply c_struct_ok; [typeclasses eauto | intros []; reflexivity | intros; repeat
    match goal with a : (_ * _)%type |- _ => destruct a end; reflexivity].

(** ** Writing through a struct pointer *)

Section Poke.
Context {A : Type} (c : codec A) `{!CodecOk c}.
Context (f : A -> A) (buf : list Z).
Hypothesis buf_bytes : bytes buf.
Hypothesis buf_len : (c_size c <= length buf)%nat.
Hypothesis f_wf : c_wf c (c_dec c buf) -> c_wf c (f (c_dec c buf)).

Lemma poke_wf : c_wf c (f (c_dec c buf)).
Proof. apply f_wf, codec_wf; assumption. Qed.

Lemma poke_eq : poke c f buf = c_enc c (f (c_dec c buf)) ++ drop (c_size c) buf.
Proof.
  unfold poke, splice. rewrite codec_length by apply poke_wf. reflexivity.
Qed.

Lemma poke_dec : c_dec c (poke c f buf) = f (c_dec c buf).
Proof. rewrite poke_eq. apply codec_roundtrip, poke_wf. Qed.

Lemma poke_length : length (poke c f buf) = length buf.
Proof.
  rewrite poke_eq, length_app, codec_length, length_drop by apply poke_wf. lia.
Qed.

Lemma poke_bytes : bytes (poke c f buf).
Proof.
  rewrite poke_eq. apply bytes_app. split; [apply codec_bytes, poke_wf|].
  apply bytes_drop. assumption.
Qed.

Lemma poke_slice off n : (c_size c <= off)%nat ->
  slice off n (poke c f buf) = slice off n buf.
Proof.
  intros Hoff. rewrite poke_eq, slice_app_r by (rewrite codec_length by apply poke_wf; lia).
  rewrite codec_length by apply poke_wf. unfold slice. rewrite drop_drop.
  do 2 f_equal. lia.
Qed.
End Poke.

(** ** Frames under construction *)

Lemma splice_all d l : length d = length l -> splice 0 d l = d.
Proof.
  intros Hl. unfold splice. rewrite take_0, Hl, drop_ge by lia. apply app_nil_r.
Qed.

(** Well-formedness of a struct written with constants and bounded values. *)
Ltac struct_wf :=
  cbn; unfold_widths; repeat split;
  solve [lia | reflexivity | let H := fresh in intro H; discriminate H | apply bytes_zeros |
         apply (bytes_zeros 14)].

(** The shape of a frame buffer: its header, and the room behind it. *)
Definition frame_shape {A} (c : codec A) (buffer : list Z) (size : nat) (h : A) : Prop :=
  bytes buffer /\ length buffer = size /\ (c_size c <= size)%nat /\ c_dec c buffer = h.

Lemma poke_frame_shape {A} (c : codec A) `{!CodecOk c} f buffer size h h' :
  frame_shape c buffer size h -> f h = h' -> (c_wf c h -> c_wf c h') ->
  frame_shape c (poke c f buffer) size h'.
Proof.
  intros (Hb & Hl & Hs & <-) <- Hf.
  assert (c_size c <= length buffer)%nat by lia.
  repeat split; [apply poke_bytes | rewrite poke_length | | apply poke_dec]; auto.
Qed.

Lemma poke_frame_slice {A} (c : codec A) `{!CodecOk c} f buffer size h h' off n :
  frame_shape c buffer size h -> f h = h' -> (c_wf c h -> c_wf c h') -> (c_size c <= off)%nat ->
  slice off n (poke c f buffer) = slice off n buffer.
Proof.
  intros (Hb & Hl & Hs & <-) <- Hf Hoff. apply poke_slice; [assumption..| lia | auto | assumption].
Qed.

Lemma splice_frame_shape {A} (c : codec A) `{!CodecOk c} buffer size h off d :
  frame_shape c buffer size h -> bytes d -> (c_size c <= off)%nat ->
  (off + length d <= size)%nat -> frame_shape c (splice off d buffer) size h.
Proof.
  intros (Hb & Hl & Hs & <-) Hd Hoff Hfit. repeat split; auto with clink.
  - rewrite length_splice; lia.
  - rewrite codec_prefix, (codec_prefix buffer). f_equal.
    unfold splice. rewrite take_app_le by (rewrite length_take; lia).
    rewrite take_take. f_equal. lia.
Qed.

(** The received bytes start with the sent part of the frame. *)
Lemma frame_shape_sent {A} (c : codec A) `{!CodecOk c} buffer size h sent rest :
  frame_shape c buffer size h -> (c_size c <= sent <= size)%nat ->
  c_dec c (take sent buffer ++ rest) = h.
Proof.
  intros (Hb & Hl & Hs & <-) Hsent.
  rewrite codec_prefix, (codec_prefix buffer). f_equal.
  rewrite take_app_le by (rewrite length_take; lia). rewrite take_take. f_equal. lia.
Qed.

Lemma cleared_frame_shape {A} (c : codec A) `{!CodecOk c} buffer :
  (c_size c <= length buffer)%nat ->
  frame_shape c (splice 0 (zeros (length buffer)) buffer) (length buffer)
    (c_dec c (zeros (length buffer))).
Proof.
  intros Hs. rewrite splice_all by apply length_zeros.
  repeat split; auto with clink. apply length_zeros.
Qed.
