(* ===== verification/Signals.v ===== *)
(** * Signals: bits and registers in memory

    The cyclic data of both stacks is an array of bytes, in which the
    application accesses bits (RX, RY) and registers (RWr, RWw).  Signal [n]
    is bit [n mod 8] of byte [n / 8], register [n] the word at [2 * n];
    writing one leaves all others alone. *)

From S2P Require Import Prelude Packed.

(** A byte of a memory area, and the area with the byte replaced. *)
Definition byte_at (mem : list Z) (off : Z) : Z := mem !!! Z.to_nat off.
Definition set_byte (mem : list Z) (off v : Z) : list Z := splice (Z.to_nat off) [v] mem.

Definition bit_in (mem : list Z) (n : Z) : bool := Z.testbit (byte_at mem (n / 8)) (n mod 8).
Definition register_in (mem : list Z) (n : Z) : Z := le_combine (slice (Z.to_nat (2 * n)) 2 mem).

Lemma bit_position n : 0 <= n -> n / 64 * 8 + n / 8 mod 8 = n / 8.
Proof. intros. zlia. Qed.
Lemma register_position n : n / 32 * 64 + 2 * (n mod 32) = 2 * n.
Proof. zlia. Qed.

Lemma slice_of_drop off n k l : slice off n (drop k l) = slice (k + off) n l.
Proof. unfold slice. rewrite drop_drop. reflexivity. Qed.

Lemma byte_of_slice mem off : (off < length mem)%nat ->
  le_combine (slice off 1 mem) = byte_at mem (Z.of_nat off).
Proof.
  intros Ho. unfold byte_at. rewrite Nat2Z.id.
  destruct (lookup_lt_is_Some_2 mem off Ho) as [b Hb].
  rewrite list_lookup_total_alt, Hb. unfold slice.
  rewrite (drop_S _ b) by exact Hb. cbn [take le_combine].
  rewrite Z.mul_0_r. apply Z.add_0_r.
Qed.

Lemma byte_at_drop mem k n : 0 <= k -> 0 <= n ->
  byte_at (drop (Z.to_nat k) mem) n = byte_at mem (k + n).
Proof.
  intros. unfold byte_at. rewrite lookup_total_drop. f_equal. lia.
Qed.

Lemma read_register mem k n : 0 <= k -> 0 <= n ->
  read_at c_u16le mem (k + 2 * n) = register_in (drop (Z.to_nat k) mem) n.
Proof.
  intros. unfold read_at, register_in, slice. cbn [c_u16le c_dec]. rewrite drop_drop.
  do 3 f_equal. lia.
Qed.

Lemma byte_at_splice mem off d i : (off + length d <= length mem)%nat -> 0 <= i < Z.of_nat (length mem) ->
  byte_at (splice off d mem) i =
    (if decide (off <= Z.to_nat i < off + length d)%nat then d !!! (Z.to_nat i - off)%nat
     else byte_at mem i).
Proof.
  intros Hl Hi. unfold byte_at. rewrite !list_lookup_total_alt, lookup_splice by exact Hl.
  destruct (decide _); reflexivity.
Qed.

(** The byte with one bit replaced, as the code computes it. *)
Definition put_bit (b n : Z) (v : bool) : Z :=
  if v then u8 (Z.lor b (2 ^ n)) else u8 (Z.land b (Z.lnot (2 ^ n))).

Lemma put_bit_spec b n v m : 0 <= n < 8 -> 0 <= m < 8 ->
  Z.testbit (put_bit b n v) m = if m =? n then v else Z.testbit b m.
Proof.
  intros Hn Hm. unfold put_bit, u8.
  destruct v; rewrite Z.mod_pow2_bits_low by lia;
    rewrite ?Z.lor_spec, ?Z.land_spec, ?Z.lnot_spec, Z.pow2_bits_eqb by lia;
    rewrite (Z.eqb_sym n m); destruct (m =? n);
    rewrite ?orb_true_r, ?orb_false_r, ?andb_true_r, ?andb_false_r; reflexivity.
Qed.

Lemma bit_in_put mem off n v m : 0 <= off -> 0 <= n -> 0 <= m ->
  off + n / 8 < Z.of_nat (length mem) -> off + m / 8 < Z.of_nat (length mem) ->
  bit_in (drop (Z.to_nat off)
            (set_byte mem (off + n / 8) (put_bit (byte_at mem (off + n / 8)) (n mod 8) v))) m =
    if m =? n then v else bit_in (drop (Z.to_nat off) mem) m.
Proof.
  intros Ho Hn Hm Hln Hlm. unfold bit_in, set_byte.
  assert (0 <= n / 8) by (apply Z.div_pos; lia). assert (0 <= m / 8) by (apply Z.div_pos; lia).
  assert (0 <= n mod 8 < 8) by (apply Z.mod_pos_bound; lia).
  assert (0 <= m mod 8 < 8) by (apply Z.mod_pos_bound; lia).
  rewrite !byte_at_drop by lia. rewrite byte_at_splice by (cbn [length]; lia). cbn [length].
  pose proof (Z.div_mod n 8). pose proof (Z.div_mod m 8).
  destruct (decide _) as [Heq|Hne].
  - replace (Z.to_nat (off + m / 8) - Z.to_nat (off + n / 8))%nat with 0%nat by lia.
    cbn [lookup_total list_lookup_total]. rewrite put_bit_spec by lia.
    assert (m / 8 = n / 8) as Hd by lia. rewrite Hd.
    destruct (Z.eqb_spec (m mod 8) (n mod 8)), (Z.eqb_spec m n); try lia; reflexivity.
  - destruct (Z.eqb_spec m n); [subst; lia|reflexivity].
Qed.

Lemma put_bit_byte b n v : is_byte (put_bit b n v).
Proof. unfold put_bit. destruct v; apply u8_range. Qed.

Lemma register_in_put mem off n v m : 0 <= off -> 0 <= n -> 0 <= m -> is_u16 v ->
  off + 2 * n + 2 <= Z.of_nat (length mem) ->
  register_in (drop (Z.to_nat off) (splice (Z.to_nat (off + 2 * n)) (c_enc c_u16le v) mem)) m =
    if m =? n then v else register_in (drop (Z.to_nat off) mem) m.
Proof.
  intros Ho Hn Hm Hv Hln. unfold register_in.
  rewrite !slice_of_drop, <- Z2Nat.inj_add by lia. cbn [c_u16le c_enc].
  destruct (Z.eqb_spec m n) as [->|Hne].
  - pose proof (slice_splice_same (Z.to_nat (off + 2 * n)) (le_split 2 v) mem) as Hs.
    rewrite length_le_split in Hs. rewrite Hs by lia. apply le_combine_split_id. exact Hv.
  - rewrite slice_splice_disjoint by (rewrite length_le_split; lia). reflexivity.
Qed.

(** ** Parts of memory *)

Lemma byte_at_start d mem i : (length d <= length mem)%nat -> 0 <= i < Z.of_nat (length d) ->
  byte_at (splice 0 d mem) i = byte_at d i.
Proof.
  intros Hl Hi. rewrite byte_at_splice, decide_True by lia. unfold byte_at. f_equal. lia.
Qed.

Lemma byte_at_slice off k l i : 0 <= i < Z.of_nat k ->
  byte_at (slice off k l) i = byte_at (drop off l) i.
Proof.
  intros Hi. unfold byte_at, slice. rewrite !list_lookup_total_alt, lookup_take_lt by lia.
  reflexivity.
Qed.

Lemma byte_at_zeros k i : 0 <= i < Z.of_nat k -> byte_at (zeros k) i = 0.
Proof.
  intros Hi. unfold byte_at, zeros. rewrite list_lookup_total_alt, lookup_replicate_2 by lia.
  reflexivity.
Qed.

Lemma slice_zeros off k n : (off + k <= n)%nat -> slice off k (zeros n) = zeros k.
Proof.
  intros Hk. unfold slice, zeros. rewrite drop_replicate, take_replicate. f_equal. lia.
Qed.

(** ** Signals of a part that is replaced *)

Lemma bit_in_splice mem off part n : (off + length part <= length mem)%nat ->
  0 <= n < 8 * Z.of_nat (length mem) ->
  bit_in (splice off part mem) n =
    if decide (8 * Z.of_nat off <= n < 8 * Z.of_nat (off + length part))
    then bit_in part (n - 8 * Z.of_nat off) else bit_in mem n.
Proof.
  intros Hl Hn. unfold bit_in. rewrite byte_at_splice by zlia.
  destruct (decide (8 * Z.of_nat off <= n < 8 * Z.of_nat (off + length part))).
  - rewrite decide_True by zlia. replace ((n - 8 * Z.of_nat off) mod 8) with (n mod 8) by zlia.
    unfold byte_at. do 3 f_equal. zlia.
  - rewrite decide_False by zlia. reflexivity.
Qed.

Lemma register_in_splice mem off part n : (2 * off + length part <= length mem)%nat ->
  Nat.Even (length part) -> 0 <= n ->
  register_in (splice (2 * off) part mem) n =
    if decide (Z.of_nat off <= n < Z.of_nat (off + Nat.div2 (length part)))
    then register_in part (n - Z.of_nat off) else register_in mem n.
Proof.
  intros Hl [h Hh] Hn. rewrite Hh, Nat.div2_double. unfold register_in.
  destruct (decide (Z.of_nat off <= n < Z.of_nat (off + h))).
  - replace (Z.to_nat (2 * n)) with (2 * off + Z.to_nat (2 * (n - Z.of_nat off)))%nat by lia.
    rewrite <- (slice_slice (2 * off) (length part)) by lia. rewrite slice_splice_same by lia. reflexivity.
  - rewrite slice_splice_disjoint by lia. reflexivity.
Qed.

Lemma bit_in_slice off k l n : 0 <= n < 8 * Z.of_nat k -> bit_in (slice off k l) n = bit_in (drop off l) n.
Proof. intros Hn. unfold bit_in. rewrite byte_at_slice by zlia. reflexivity. Qed.

Lemma bit_in_zeros k n : 0 <= n < 8 * Z.of_nat k -> bit_in (zeros k) n = false.
Proof. intros Hn. unfold bit_in. rewrite byte_at_zeros by zlia. apply Z.bits_0. Qed.

Lemma register_in_slice off k l n : 0 <= n -> (Z.to_nat (2 * n) + 2 <= k)%nat ->
  register_in (slice off k l) n = register_in (drop off l) n.
Proof. intros Hn Hk. unfold register_in. rewrite slice_slice, slice_of_drop by lia. reflexivity. Qed.

Lemma register_in_zeros k n : (Z.to_nat (2 * n) + 2 <= k)%nat -> register_in (zeros k) n = 0.
Proof. intros Hk. unfold register_in. rewrite slice_zeros by lia. reflexivity. Qed.
