(* ===== verification/Timer.v ===== *)
(** * Timers (src/src/common/cl_timer.c)

    A timer stores the microsecond time at which it was started, as a 32-bit
    counter that wraps around about every 71 minutes, and its period.  The
    theorems relate the wrapping counter to unbounded time. *)

From S2P Require Import Prelude.

Inductive cl_timer_state := CL_TIMER_STOPPED | CL_TIMER_RUNNING.

#[export] Instance cl_timer_state_eq_dec : EqDecision cl_timer_state.
Proof. solve_decision. Defined.

Record cl_timer := Timer {
  t_state : cl_timer_state;
  t_period : Z;
  t_timestamp : Z
}.
#[export] Instance cl_timer_settable : Settable cl_timer :=
  fun t => Timer (t_state t) (t_period t) (t_timestamp t).

Definition CL_TIMER_MICROSECONDS_PER_MILLISECOND : Z := 1000.

(** The value of a timer in memory that was cleared. *)
Definition cl_timer_zero : cl_timer := Timer CL_TIMER_STOPPED 0 0.

Definition cl_timer_start (timer : cl_timer) (period now : Z) : cl_timer :=
  timer <| t_state := CL_TIMER_RUNNING |> <| t_period := period |> <| t_timestamp := now |>.

Definition cl_timer_start_if_not_running (timer : cl_timer) (period now : Z) : cl_timer :=
  match t_state timer with
  | CL_TIMER_RUNNING => timer
  | CL_TIMER_STOPPED => cl_timer_start timer period now
  end.

Definition cl_timer_restart (timer : cl_timer) (now : Z) : cl_timer :=
  match t_state timer with
  | CL_TIMER_STOPPED => timer
  | CL_TIMER_RUNNING => timer <| t_timestamp := now |>
  end.

Definition cl_timer_stop (timer : cl_timer) : cl_timer :=
  timer <| t_state := CL_TIMER_STOPPED |> <| t_period := 0 |> <| t_timestamp := 0 |>.

Definition cl_timer_is_expired (timer : cl_timer) (now : Z) : bool :=
  match t_state timer with
  | CL_TIMER_STOPPED => false
  | CL_TIMER_RUNNING =>
      let delta := u32 (now - t_timestamp timer) in
      if Z.shiftr UINT32_MAX 1 <? delta then false
      else t_period timer <=? delta
  end.

Definition cl_timer_is_running (timer : cl_timer) : bool :=
  bool_decide (t_state timer = CL_TIMER_RUNNING).

(** ** Properties *)

Lemma timer_stop_zero t : cl_timer_stop t = cl_timer_zero.
Proof. reflexivity. Qed.

Lemma timer_start_canonical t p now :
  cl_timer_start t p now = Timer CL_TIMER_RUNNING p now.
Proof. reflexivity. Qed.

Lemma stopped_not_expired now : cl_timer_is_expired cl_timer_zero now = false.
Proof. reflexivity. Qed.


Lemma u32_elapsed T d : 0 <= d < 2 ^ 32 -> u32 (u32 (T + d) - u32 T) = d.
Proof.
  intros. unfold u32. rewrite <- Zminus_mod. replace (T + d - T) with d by lia.
  apply Z.mod_small. assumption.
Qed.

(** Expiry in unbounded time: [T] is when the timer was (re)started. *)
Lemma timer_expired_elapsed p T T' :
  0 <= T' - T < 2 ^ 31 ->
  cl_timer_is_expired (Timer CL_TIMER_RUNNING p (u32 T)) (u32 T') = (p <=? T' - T).
Proof.
  intros Hd. unfold cl_timer_is_expired; cbn [t_state t_timestamp t_period].
  replace T' with (T + (T' - T)) by lia. rewrite u32_elapsed by lia.
  change (Z.shiftr UINT32_MAX 1) with 2147483647.
  destruct (Z.ltb_spec 2147483647 (T + (T' - T) - T)); [lia|].
  replace (T + (T' - T) - T) with (T' - T) by lia.
  destruct (Z.ltb_spec 2147483647 (T' - T)); [lia|reflexivity].
Qed.

(** C33: A running timer expires exactly on time although its clock wraps
    around: for every start time [T], every period and every later time less
    than 2^31 microseconds away, the 32-bit comparison of the code gives the
    same answer as the comparison of unbounded times, whatever was stored in
    the timer before.  The period counts as passed when exactly that much
    time has elapsed, other than the comment in cl_timer.h, where the elapsed
    time must be greater; [expires_at_period] shows the difference. *)
Theorem timer_expires_on_time (t : cl_timer) (p T T' : Z) :
  0 <= T' - T < 2 ^ 31 ->
  cl_timer_is_expired (cl_timer_start t p (u32 T)) (u32 T') = true <-> T + p <= T'.
Proof.
  intros Hd. rewrite timer_start_canonical, timer_expired_elapsed by assumption.
  rewrite Z.leb_le. lia.
Qed.

(** At the very end of the period, and one microsecond earlier. *)
Example expires_at_period :
  cl_timer_is_expired (cl_timer_start cl_timer_zero 500 100) 600 = true /\
  cl_timer_is_expired (cl_timer_start cl_timer_zero 500 100) 599 = false.
Proof. vm_compute. split; reflexivity. Qed.

Lemma timer_expires_on_time_witness :
  0 <= (2 ^ 32 + 400) - (2 ^ 32 - 100) < 2 ^ 31 /\
  (cl_timer_is_expired (cl_timer_start cl_timer_zero 500 (u32 (2 ^ 32 - 100)))
     (u32 (2 ^ 32 + 400)) = true <-> 2 ^ 32 - 100 + 500 <= 2 ^ 32 + 400).
Proof.
  split; [lia|]. apply (timer_expires_on_time cl_timer_zero 500 (2 ^ 32 - 100) (2 ^ 32 + 400)).
  lia.
Defined.

(** A timer whose period is 2^31 microseconds or more never expires,
    whatever the time is: periods above about 35.8 minutes cannot be used. *)
Lemma long_timer_never_expires (t : cl_timer) (p start now : Z) :
  2 ^ 31 <= p -> cl_timer_is_expired (cl_timer_start t p start) now = false.
Proof.
  intros Hp. rewrite timer_start_canonical.
  unfold cl_timer_is_expired; cbn [t_state t_timestamp t_period].
  change (Z.shiftr UINT32_MAX 1) with 2147483647.
  destruct (Z.ltb_spec 2147483647 (u32 (now - start))); [reflexivity|].
  apply Z.leb_gt. lia.
Qed.

Lemma long_timer_never_expires_witness :
  2 ^ 31 <= 2 ^ 31 /\
  cl_timer_is_expired (cl_timer_start cl_timer_zero (2 ^ 31) 7) 2147483660 = false.
Proof.
  split; [lia|].
  apply (long_timer_never_expires cl_timer_zero (2 ^ 31) 7 2147483660). lia.
Defined.
