(* ===== verification/Limiter.v ===== *)
(** * Rate limiter for log messages and error callbacks
    (src/src/common/cl_limiter.c)

    The limiter lets a message through unless the same message was seen
    recently.  It is refined to a specification in unbounded time: the last
    message seen and the time it was seen at, forgotten by the first periodic
    call after a quiet period. *)

From S2P Require Import Prelude Timer.

Record cl_limiter := Limiter {
  l_timer : cl_timer;
  l_period : Z;
  l_previous_message : Z;
  l_number_of_calls : Z;
  l_number_of_outputs : Z
}.
#[export] Instance cl_limiter_settable : Settable cl_limiter := fun l =>
  Limiter (l_timer l) (l_period l) (l_previous_message l) (l_number_of_calls l)
    (l_number_of_outputs l).

Definition cl_limiter_init (limiter : cl_limiter) (period : Z) : cl_limiter :=
  limiter <| l_period := period |> <| l_number_of_calls := 0 |>
    <| l_number_of_outputs := 0 |> <| l_previous_message := 0 |>
    <| l_timer ::= cl_timer_stop |>.

Definition cl_limiter_should_run_now (limiter : cl_limiter) (message now : Z)
  : bool * cl_limiter :=
  let was_running := cl_timer_is_running (l_timer limiter) in
  let limiter := limiter <| l_number_of_calls ::= (fun n => u16 (n + 1)) |> in
  let limiter := limiter <| l_timer := cl_timer_start (l_timer limiter) (l_period limiter) now |> in
  if was_running && negb (l_period limiter =? 0) && (message =? l_previous_message limiter)
  then (false, limiter)
  else (true, limiter <| l_number_of_outputs ::= (fun n => u16 (n + 1)) |>
                      <| l_previous_message := message |>).

Definition cl_limiter_periodic (limiter : cl_limiter) (now : Z) : cl_limiter :=
  if cl_timer_is_expired (l_timer limiter) now
  then limiter <| l_timer ::= cl_timer_stop |>
  else limiter.

(** ** Use of a limiter over time *)

Inductive limiter_event :=
| Call (message T : Z)
| Tick (T : Z).

(** Results of the calls, with the times truncated to the 32-bit clock. *)
Fixpoint limiter_run (l : cl_limiter) (evs : list limiter_event) : list bool :=
  match evs with
  | [] => []
  | Call m T :: evs =>
      let (b, l) := cl_limiter_should_run_now l m (u32 T) in b :: limiter_run l evs
  | Tick T :: evs => limiter_run (cl_limiter_periodic l (u32 T)) evs
  end.

(** The specification: what was seen last and when, if still remembered. *)
Definition limiter_spec_state : Type := option (Z * Z).

Definition spec_call (s : limiter_spec_state) (m T : Z) : bool * limiter_spec_state :=
  (match s with Some (m', _) => negb (m =? m') | None => true end, Some (m, T)).

Definition spec_tick (period : Z) (s : limiter_spec_state) (T : Z) : limiter_spec_state :=
  match s with
  | Some (m, last) => if period <=? T - last then None else s
  | None => None
  end.

Fixpoint spec_run (period : Z) (s : limiter_spec_state) (evs : list limiter_event)
  : list bool :=
  match evs with
  | [] => []
  | Call m T :: evs => let (b, s) := spec_call s m T in b :: spec_run period s evs
  | Tick T :: evs => spec_run period (spec_tick period s T) evs
  end.

(** Time runs forward from the last call and the periodic function is called
    at least every 2^31 microseconds. *)
Fixpoint timely (last : option Z) (evs : list limiter_event) : Prop :=
  match evs with
  | [] => True
  | Call _ T :: evs => timely (Some T) evs
  | Tick T :: evs =>
      match last with Some t => 0 <= T - t < 2 ^ 31 | None => True end /\ timely last evs
  end.

(** ** Properties *)

(** The simulation relation. *)
Definition limiter_rel (l : cl_limiter) (s : limiter_spec_state) : Prop :=
  match s with
  | None => l_timer l = cl_timer_zero
  | Some (m, T) =>
      l_timer l = Timer CL_TIMER_RUNNING (l_period l) (u32 T) /\ l_previous_message l = m
  end.

Lemma limiter_call_sim l s m T :
  l_period l <> 0 -> limiter_rel l s ->
  let (b, l') := cl_limiter_should_run_now l m (u32 T) in
  let (b', s') := spec_call s m T in
  b = b' /\ limiter_rel l' s' /\ l_period l' = l_period l.
Proof.
  intros Hp Hrel. apply Z.eqb_neq in Hp. unfold cl_limiter_should_run_now, spec_call.
  cbn [update l_period l_previous_message l_timer l_number_of_calls]. rewrite Hp.
  destruct s as [[m' T0]|]; simpl in Hrel; [destruct Hrel as [-> ->]|rewrite Hrel];
    simpl; [destruct (Z.eqb_spec m m')|]; simpl; repeat split; auto.
Qed.

Lemma limiter_tick_sim l s T :
  limiter_rel l s ->
  match s with Some (_, t) => 0 <= T - t < 2 ^ 31 | None => True end ->
  let l' := cl_limiter_periodic l (u32 T) in
  limiter_rel l' (spec_tick (l_period l) s T) /\ l_period l' = l_period l.
Proof.
  intros Hrel Ht. unfold cl_limiter_periodic, spec_tick.
  destruct s as [[m t]|]; simpl in Hrel.
  - destruct Hrel as [Htm Hm]. rewrite Htm, timer_expired_elapsed by assumption.
    destruct (l_period l <=? T - t); simpl; auto.
  - rewrite Hrel, stopped_not_expired. auto.
Qed.

Lemma limiter_run_sim evs : forall l s,
  l_period l <> 0 -> limiter_rel l s -> timely (snd <$> s) evs ->
  limiter_run l evs = spec_run (l_period l) s evs.
Proof.
  induction evs as [|[m T|T] evs IH]; intros l s Hp Hrel Ht; cbn [limiter_run spec_run].
  - reflexivity.
  - pose proof (limiter_call_sim l s m T Hp Hrel) as Hsim.
    destruct (cl_limiter_should_run_now l m (u32 T)) as [b l'].
    unfold spec_call in *. destruct Hsim as (-> & Hrel' & Hper). f_equal.
    rewrite (IH l' (Some (m, T))); [rewrite Hper; reflexivity | congruence | assumption | assumption].
  - destruct Ht as [HT Ht].
    destruct (limiter_tick_sim l s T Hrel) as [Hrel' Hper].
    { destruct s as [[? ?]|]; assumption. }
    rewrite (IH _ (spec_tick (l_period l) s T)).
    + rewrite Hper. reflexivity.
    + congruence.
    + assumption.
    + destruct s as [[m t]|]; simpl in *; [|assumption].
      destruct (l_period l <=? T - t); [|assumption].
      clear -Ht. generalize dependent (Some t). induction evs as [|[] evs IH]; simpl; intros o Ho; auto.
      split; [exact I|]. apply (IH o). tauto.
Qed.

(** C34: The limiter implements its specification.  Started with a non-zero
    period, over any sequence of messages and periodic calls in which time
    runs forward and the periodic function runs at least every 2^31
    microseconds, each message is let through exactly when no message is
    remembered or a different one is, where a message is forgotten by the
    first periodic call that comes a full period after its last
    occurrence. *)
Theorem limiter_implements_spec (l : cl_limiter) (period : Z) (evs : list limiter_event) :
  period <> 0 -> timely None evs ->
  limiter_run (cl_limiter_init l period) evs = spec_run period None evs.
Proof.
  intros Hp Ht. apply (limiter_run_sim evs (cl_limiter_init l period) None);
    [exact Hp | reflexivity | exact Ht].
Qed.

Definition limiter_demo : list limiter_event :=
  [Call 1 10; Call 1 500; Call 2 900; Tick 1800; Call 2 1850; Tick 2900; Call 2 2950].

Lemma limiter_implements_spec_witness :
  limiter_run (cl_limiter_init (Limiter cl_timer_zero 0 0 0 0) 1000) limiter_demo =
    [true; false; true; false; true].
Proof.
  rewrite (limiter_implements_spec (Limiter cl_timer_zero 0 0 0 0) 1000 limiter_demo);
    [reflexivity | lia | simpl; lia].
Defined.
