(* ===== verification/Util.v ===== *)
(** * Address utilities (src/src/common/cl_util.c)

    MAC addresses are six bytes; IPv4 addresses and netmasks are 32-bit
    numbers.  A netmask is accepted exactly when it is a block of ones
    followed by a block of zeros. *)

From S2P Require Import Prelude.
From Stdlib Require Import Ascii Wf_nat.
Open Scope Z_scope.

Definition CL_IPADDR_INVALID : Z := 0x00000000.
Definition CL_IPADDR_ANY : Z := 0x00000000.
Definition CL_IPADDR_LOCAL_BROADCAST : Z := 0xFFFFFFFF.
Definition CL_INET_ADDRSTR_SIZE : nat := 16.

(** [CL_MAKEU32] *)
Definition CL_MAKEU32 (a b c d : Z) : Z :=
  Z.lor (Z.lor (Z.lor (Z.shiftl (Z.land a 0xff) 24) (Z.shiftl (Z.land b 0xff) 16))
    (Z.shiftl (Z.land c 0xff) 8)) (Z.land d 0xff).

(** [uint8_t [6]] *)
Definition is_mac (m : list Z) : Prop := length m = 6%nat /\ bytes m.

Definition cl_util_copy_mac (src : list Z) : list Z :=
  [src !!! 0%nat; src !!! 1%nat; src !!! 2%nat; src !!! 3%nat; src !!! 4%nat; src !!! 5%nat].

Definition cl_util_copy_mac_reverse (src : list Z) : list Z :=
  [src !!! 5%nat; src !!! 4%nat; src !!! 3%nat; src !!! 2%nat; src !!! 1%nat; src !!! 0%nat].

(** Bitwise complement of an [unsigned int]. *)
Definition not32 (x : Z) : Z := u32 (Z.lnot x).

Definition cl_util_calc_broadcast_address (netmask ip_addr : Z) : Z :=
  if ip_addr =? CL_IPADDR_INVALID then CL_IPADDR_INVALID
  else Z.lor ip_addr (not32 netmask).

Definition cl_utils_is_netmask_valid (netmask : Z) : bool :=
  Z.land netmask (Z.shiftr (not32 netmask) 1) =? 0.

Definition cl_utils_is_ipaddr_range_valid (ip_addr : Z) : bool :=
  if ip_addr =? CL_IPADDR_INVALID then false
  else if 0xDFFFFFFE <? ip_addr then false
  else true.

(** The conversion [%u] of [printf], for the octets of an address. *)
Definition digit (n : Z) : ascii := ascii_of_N (Z.to_N (48 + n)).
Definition print_u8 (n : Z) : list ascii :=
  (if 100 <=? n then [digit (n / 100)] else []) ++
  (if 10 <=? n then [digit (n / 10 mod 10)] else []) ++ [digit (n mod 10)].

(** [clal_snprintf] stores at most [size - 1] characters and a terminator; its
    result is not used. *)
Definition cl_util_ip_to_string (ip : Z) : list ascii :=
  take (CL_INET_ADDRSTR_SIZE - 1)
    (print_u8 (u8 (Z.land (Z.shiftr ip 24) UINT8_MAX)) ++ "."%char ::
     print_u8 (u8 (Z.land (Z.shiftr ip 16) UINT8_MAX)) ++ "."%char ::
     print_u8 (u8 (Z.land (Z.shiftr ip 8) UINT8_MAX)) ++ "."%char ::
     print_u8 (u8 (Z.land ip UINT8_MAX))).

(** A reader of dotted addresses, for the round trip. *)
Definition digit_value (c : ascii) : option Z :=
  let n := Z.of_N (N_of_ascii c) - 48 in
  if (0 <=? n) && (n <=? 9) then Some n else None.

Fixpoint read_dec (acc : Z) (s : list ascii) : Z * list ascii :=
  match s with
  | c :: s' => match digit_value c with
               | Some d => read_dec (acc * 10 + d) s'
               | None => (acc, s)
               end
  | [] => (acc, [])
  end.

Definition ip_of_string (s : list ascii) : Z :=
  let '(a, s) := read_dec 0 s in
  let '(b, s) := read_dec 0 (tail s) in
  let '(c, s) := read_dec 0 (tail s) in
  let '(d, s) := read_dec 0 (tail s) in
  CL_MAKEU32 a b c d.

(** ** Properties *)

Lemma copy_mac_id m : is_mac m -> cl_util_copy_mac m = m.
Proof. intros [Hl _]. do 7 (destruct m as [|? m]; try discriminate). reflexivity. Qed.

Lemma copy_mac_reverse_eq m : is_mac m -> cl_util_copy_mac_reverse m = reverse m.
Proof. intros [Hl _]. do 7 (destruct m as [|? m]; try discriminate). reflexivity. Qed.

Lemma is_mac_reverse m : is_mac m -> is_mac (cl_util_copy_mac_reverse m).
Proof.
  intros Hm. rewrite copy_mac_reverse_eq by assumption. destruct Hm as [Hl Hb].
  split; [rewrite length_reverse; assumption | apply Forall_reverse; assumption].
Qed.

Lemma copy_mac_reverse_involutive m :
  is_mac m -> cl_util_copy_mac_reverse (cl_util_copy_mac_reverse m) = m.
Proof.
  intros Hm. rewrite (copy_mac_reverse_eq m), copy_mac_reverse_eq by
    (rewrite <- ?copy_mac_reverse_eq by assumption; auto using is_mac_reverse).
  apply reverse_involutive.
Qed.
#[export] Hint Resolve is_mac_reverse : clink.

Lemma not32_testbit x i : 0 <= i ->
  Z.testbit (not32 x) i = negb (Z.testbit x i) && (i <? 32).
Proof.
  intros. unfold not32, u32. destruct (Z.ltb_spec i 32).
  - rewrite Z.mod_pow2_bits_low, Z.lnot_spec, andb_true_r by lia. reflexivity.
  - rewrite Z.mod_pow2_bits_high, andb_false_r by lia. reflexivity.
Qed.

(** The reference netmask with [k] host bits. *)
Definition netmask_of_host_bits (k : Z) : Z := 2 ^ 32 - 2 ^ k.

Lemma netmask_testbit k i : 0 <= k <= 32 -> 0 <= i ->
  Z.testbit (netmask_of_host_bits k) i = (k <=? i) && (i <? 32).
Proof.
  intros Hk Hi. unfold netmask_of_host_bits.
  replace (2 ^ 32 - 2 ^ k) with (Z.shiftl (Z.ones (32 - k)) k).
  - rewrite Z.shiftl_spec by lia. destruct (Z.leb_spec k i); simpl.
    + destruct (Z.ltb_spec i 32); [apply Z.ones_spec_low | apply Z.ones_spec_high]; lia.
    + apply Z.testbit_neg_r. lia.
  - rewrite Z.shiftl_mul_pow2, Z.ones_equiv by lia.
    replace (2 ^ 32) with (2 ^ (32 - k) * 2 ^ k) by (rewrite <- Z.pow_add_r by lia; f_equal; lia).
    lia.
Qed.

(** In a valid netmask a one is followed by ones up to bit 31. *)
Lemma netmask_valid_bits m : is_u32 m ->
  cl_utils_is_netmask_valid m = true <->
  (forall i, 0 <= i < 31 -> Z.testbit m i = true -> Z.testbit m (i + 1) = true).
Proof.
  intros Hm. unfold cl_utils_is_netmask_valid. rewrite Z.eqb_eq.
  assert (Hbit : forall i, 0 <= i -> Z.testbit (Z.land m (Z.shiftr (not32 m) 1)) i =
    Z.testbit m i && (negb (Z.testbit m (i + 1)) && (i + 1 <? 32))).
  { intros. rewrite Z.land_spec, Z.shiftr_spec, not32_testbit by lia. reflexivity. }
  split.
  - intros H0 i Hi Hb. specialize (Hbit i ltac:(lia)).
    rewrite H0, Z.testbit_0_l, Hb in Hbit. destruct (Z.testbit m (i + 1)); [reflexivity|].
    destruct (Z.ltb_spec (i + 1) 32); [discriminate|lia].
  - intros H. apply Z.bits_inj'. intros i Hi. rewrite Z.testbit_0_l, Hbit by lia.
    destruct (Z.testbit m i) eqn:Hb; [|reflexivity]. simpl.
    destruct (Z.ltb_spec (i + 1) 32); [|apply andb_false_r].
    rewrite H by (lia || assumption). reflexivity.
Qed.

Lemma monotone_bits_upward (m : Z) :
  (forall i, 0 <= i < 31 -> Z.testbit m i = true -> Z.testbit m (i + 1) = true) ->
  forall n i, 0 <= i -> i + Z.of_nat n < 32 -> Z.testbit m i = true ->
  Z.testbit m (i + Z.of_nat n) = true.
Proof.
  intros H. induction n as [|n IH]; intros i Hi Hn Hb.
  - rewrite Z.add_0_r. assumption.
  - replace (i + Z.of_nat (S n)) with ((i + 1) + Z.of_nat n) by lia.
    apply IH; [lia | lia | apply H; [lia | assumption]].
Qed.

(** A non-zero word has a lowest bit that is set. *)
Lemma lowest_bit w m : 0 < m < 2 ^ w -> 0 <= w ->
  exists k, 0 <= k < w /\ Z.testbit m k = true /\
    forall i, 0 <= i < k -> Z.testbit m i = false.
Proof.
  intros Hm Hw.
  destruct (dec_inh_nat_subset_has_unique_least_element
    (fun n => Z.testbit m (Z.of_nat n) = true)) as (k & [Hk Hmin] & _).
  - intros n. destruct (Z.testbit m (Z.of_nat n)); auto.
  - exists (Z.to_nat (Z.log2 m)). pose proof (Z.log2_nonneg m).
    rewrite Z2Nat.id by lia. apply Z.bit_log2. lia.
  - exists (Z.of_nat k). repeat split; [lia | | assumption |].
    + destruct (Z.lt_ge_cases (Z.of_nat k) w); [assumption|].
      rewrite (testbit_high m w) in Hk by lia. discriminate.
    + intros i Hi. destruct (Z.testbit m i) eqn:Hb; [|reflexivity].
      specialize (Hmin (Z.to_nat i)). cbv beta in Hmin.
      rewrite Z2Nat.id in Hmin by lia. apply Hmin in Hb. lia.
Qed.

(** C40: The netmask test, one expression of bit operations, accepts a 32-bit
    number exactly when it is a netmask: [32 - k] ones followed by [k]
    zeros for some [k] from 0 to 32. *)
Theorem netmask_valid_spec (m : Z) : is_u32 m ->
  cl_utils_is_netmask_valid m = true <->
  exists k, 0 <= k <= 32 /\ m = netmask_of_host_bits k.
Proof.
  intros Hm. rewrite netmask_valid_bits by assumption. split.
  - intros Hup. destruct (Z.eq_dec m 0) as [->|Hm0]; [exists 32; split; [lia|reflexivity]|].
    destruct (lowest_bit 32 m) as (k & Hk & Hbit & Hlow); [unfold_widths; lia | lia |].
    exists k. split; [lia|]. apply Z.bits_inj'. intros i Hi. rewrite netmask_testbit by lia.
    destruct (Z.ltb_spec i 32); [rewrite andb_true_r | rewrite andb_false_r;
      apply (testbit_high m 32); unfold_widths; lia].
    destruct (Z.leb_spec k i); [|apply Hlow; lia].
    replace i with (k + Z.of_nat (Z.to_nat (i - k))) by lia.
    apply (monotone_bits_upward m Hup); lia || assumption.
  - intros (k & Hk & ->) i Hi. rewrite !netmask_testbit by lia.
    rewrite !andb_true_iff, !Z.leb_le, !Z.ltb_lt. lia.
Qed.

Lemma netmask_valid_spec_witness :
  is_u32 0xFFFFFF00 /\
  (cl_utils_is_netmask_valid 0xFFFFFF00 = true <->
   exists k, 0 <= k <= 32 /\ 0xFFFFFF00 = netmask_of_host_bits k).
Proof.
  assert (H : is_u32 0xFFFFFF00) by (unfold is_u32; lia).
  split; [exact H|]. apply (netmask_valid_spec 0xFFFFFF00 H).
Defined.

(** The broadcast address of a host: the network part is kept and the host
    part is all ones. *)
Lemma broadcast_address_host_bits ip k : is_u32 ip -> ip <> 0 -> 0 <= k <= 32 ->
  cl_util_calc_broadcast_address (netmask_of_host_bits k) ip =
    ip / 2 ^ k * 2 ^ k + (2 ^ k - 1).
Proof.
  intros Hip Hnz Hk. unfold cl_util_calc_broadcast_address, CL_IPADDR_INVALID.
  rewrite (proj2 (Z.eqb_neq ip 0) Hnz).
  assert (Hones : not32 (netmask_of_host_bits k) = Z.ones k).
  { apply Z.bits_inj'. intros i Hi. rewrite not32_testbit, netmask_testbit by lia.
    destruct (Z.leb_spec k i), (Z.ltb_spec i 32); simpl;
      rewrite ?Z.ones_spec_high, ?Z.ones_spec_low by lia; reflexivity. }
  rewrite Hones. replace (2 ^ k - 1) with (Z.ones k) by (rewrite Z.ones_equiv; lia).
  rewrite <- Z.shiftr_div_pow2, <- Z.shiftl_mul_pow2 by lia.
  assert (Hdisj : Z.land (Z.shiftl (Z.shiftr ip k) k) (Z.ones k) = 0).
  { apply Z.bits_inj'. intros i Hi. rewrite Z.land_spec, Z.shiftl_spec, Z.testbit_0_l by lia.
    destruct (Z.lt_ge_cases i k);
      [rewrite (Z.testbit_neg_r _ (i - k)) by lia | rewrite Z.ones_spec_high by lia];
      [reflexivity | apply andb_false_r]. }
  rewrite <- Z.add_lor_land, Hdisj, Z.add_0_r. apply Z.bits_inj'. intros i Hi.
  rewrite !Z.lor_spec, Z.shiftl_spec by lia. destruct (Z.lt_ge_cases i k).
  - rewrite Z.ones_spec_low, !orb_true_r by lia. reflexivity.
  - rewrite Z.shiftr_spec by lia. replace (i - k + k) with i by lia. reflexivity.
Qed.

(** Statements about all octets are checked by evaluation. *)
Lemma octet_forall (f : Z -> bool) :
  forallb f (seqZ 0 256) = true -> forall n, is_byte n -> f n = true.
Proof.
  intros H n Hn. rewrite forallb_forall in H.
  apply H, list_elem_of_In, elem_of_seqZ. unfold is_byte in Hn. lia.
Qed.

Lemma length_print_u8 n : is_byte n -> (length (print_u8 n) <= 3)%nat.
Proof.
  unfold print_u8. intros. rewrite !length_app.
  destruct (100 <=? n), (10 <=? n); simpl; lia.
Qed.

Lemma read_dec_digits ds : forall acc rest,
  forallb (fun c => bool_decide (is_Some (digit_value c))) ds = true ->
  hd "."%char rest = "."%char ->
  read_dec acc (ds ++ rest) = ((read_dec acc ds).1, rest).
Proof.
  induction ds as [|c ds IH]; intros acc rest Hd Hr.
  - destruct rest as [|c rest]; simpl in *; [|subst c]; reflexivity.
  - simpl in *. apply andb_prop in Hd as [Hc Hd]. apply bool_decide_eq_true in Hc as [d Hc].
    rewrite Hc. apply IH; assumption.
Qed.

Lemma read_print_u8 rest n : hd "."%char rest = "."%char -> is_byte n ->
  read_dec 0 (print_u8 n ++ rest) = (n, rest).
Proof.
  intros Hr Hn.
  assert (Hcheck : (forallb (fun c => bool_decide (is_Some (digit_value c))) (print_u8 n)
    && ((read_dec 0 (print_u8 n)).1 =? n)) = true).
  { revert n Hn. apply octet_forall. vm_compute. reflexivity. }
  apply andb_prop in Hcheck as [Hd Hv]. apply Z.eqb_eq in Hv.
  rewrite read_dec_digits, Hv by assumption. reflexivity.
Qed.

Lemma CL_MAKEU32_octets a b c d : is_byte a -> is_byte b -> is_byte c -> is_byte d ->
  CL_MAKEU32 a b c d = a * 2 ^ 24 + b * 2 ^ 16 + c * 2 ^ 8 + d.
Proof.
  intros Ha Hb Hc Hd. unfold CL_MAKEU32. change 0xff with (2 ^ 8 - 1).
  rewrite !land_low_mask, !Z.mod_small by (unfold_widths; lia).
  rewrite !Z.shiftl_mul_pow2 by lia. unfold_widths.
  rewrite (lor_shifted_add a (b * 2 ^ 16) 24) by lia.
  replace (a * 2 ^ 24 + b * 2 ^ 16) with ((a * 2 ^ 8 + b) * 2 ^ 16) by lia.
  rewrite (lor_shifted_add _ (c * 2 ^ 8) 16) by lia.
  replace ((a * 2 ^ 8 + b) * 2 ^ 16 + c * 2 ^ 8) with (((a * 2 ^ 8 + b) * 2 ^ 8 + c) * 2 ^ 8) by lia.
  rewrite (lor_shifted_add _ d 8) by lia. lia.
Qed.

Lemma ip_octets ip : is_u32 ip ->
  CL_MAKEU32 (ip / 2 ^ 24 mod 2 ^ 8) (ip / 2 ^ 16 mod 2 ^ 8) (ip / 2 ^ 8 mod 2 ^ 8)
    (ip mod 2 ^ 8) = ip.
Proof.
  intros Hip. rewrite CL_MAKEU32_octets by (unfold is_byte; apply Z.mod_pos_bound; lia).
  unfold is_u32 in Hip. Z.to_euclidean_division_equations. lia.
Qed.

Lemma length_dotted a b c d : is_byte a -> is_byte b -> is_byte c -> is_byte d ->
  (length (print_u8 a ++ "."%char :: print_u8 b ++ "."%char :: print_u8 c ++
    "."%char :: print_u8 d) <= 15)%nat.
Proof.
  intros Ha Hb Hc Hd. apply length_print_u8 in Ha, Hb, Hc, Hd.
  repeat (rewrite length_app; simpl). lia.
Qed.

(** The text form of an IPv4 address always fits the 16 bytes of the
    buffers that receive it, terminator included, so that it is never cut
    short, and reading it back gives the address: different addresses have
    different texts. *)
Lemma ip_string_roundtrip (ip : Z) : is_u32 ip ->
  (length (cl_util_ip_to_string ip) < CL_INET_ADDRSTR_SIZE)%nat /\
  ip_of_string (cl_util_ip_to_string ip) = ip.
Proof.
  intros Hip. unfold cl_util_ip_to_string, UINT8_MAX, CL_INET_ADDRSTR_SIZE.
  change 0xFF with (2 ^ 8 - 1).
  rewrite !land_low_mask, !Z.shiftr_div_pow2 by lia. unfold u8. rewrite !Z.mod_mod by lia.
  assert (Hb : forall x, is_byte (x mod 2 ^ 8)) by (intros; apply Z.mod_pos_bound; lia).
  pose proof (length_dotted _ _ _ _ (Hb (ip / 2 ^ 24)) (Hb (ip / 2 ^ 16)) (Hb (ip / 2 ^ 8))
    (Hb ip)) as Hlen.
  rewrite take_ge by exact Hlen. split; [lia|]. unfold ip_of_string.
  do 3 (rewrite read_print_u8 by auto; cbn [tail]).
  rewrite <- (app_nil_r (print_u8 (ip mod _))), read_print_u8 by auto.
  apply ip_octets. assumption.
Qed.

Lemma ip_string_roundtrip_witness :
  is_u32 0xC0A803FE /\
  cl_util_ip_to_string 0xC0A803FE =
    ["1"; "9"; "2"; "."; "1"; "6"; "8"; "."; "3"; "."; "2"; "5"; "4"]%char /\
  ip_of_string (cl_util_ip_to_string 0xC0A803FE) = 0xC0A803FE.
Proof.
  assert (H : is_u32 0xC0A803FE) by (unfold is_u32; lia).
  split; [exact H|]. split; [vm_compute; reflexivity|].
  exact (proj2 (ip_string_roundtrip 0xC0A803FE H)).
Defined.
