(* ===== verification/Types.v ===== *)
(** * Frame layouts and protocol constants
    (src/src/common/cl_types.h, src/include/cl_common.h)

    One record and one codec per packed struct, field by field in the order
    of the source.  The sizes the source asserts statically are theorems. *)

From S2P Require Import Prelude Packed.

Definition CL_CCIEFB_PORT : Z := 61450.
Definition CL_SLMP_PORT : Z := 61451.
Definition CL_CCIEFB_MIN_SUPPORTED_PROTOCOL_VER : Z := 1.
Definition CL_CCIEFB_MAX_SUPPORTED_PROTOCOL_VER : Z := 2.
Definition CL_CCIEFB_MIN_TIMEOUT : Z := 1.
Definition CL_CCIEFB_DEFAULT_TIMEOUT : Z := 500.
Definition CL_CCIEFB_MIN_TIMEOUT_COUNT : Z := 1.
Definition CL_CCIEFB_DEFAULT_TIMEOUT_COUNT : Z := 3.
Definition CL_BUFFER_LEN : Z := 1500.
Definition CL_ADDRSIZE_IPV4 : Z := 4.

Definition CL_SLMP_ENDCODE_SUCCESS : Z := 0x0000.
Definition CL_SLMP_ENDCODE_COMMAND_REQUEST_MSG : Z := 0xC05C.
Definition CL_SLMP_ENDCODE_CCIEFB_MASTER_DUPLICATION : Z := 0xCFE0.
Definition CL_SLMP_ENDCODE_CCIEFB_WRONG_NUMBER_OCCUPIED_STATIONS : Z := 0xCFE1.
Definition CL_SLMP_ENDCODE_CCIEFB_SLAVE_ERROR : Z := 0xCFF0.
Definition CL_SLMP_ENDCODE_CCIEFB_SLAVE_REQUESTS_DISCONNECT : Z := 0xCFFF.

Definition CL_SLMP_DSTPROCNO_DEFAULT : Z := 0x03FF.
Definition CL_SLMP_COMMAND_NODE_SEARCH : Z := 0x0E30.
Definition CL_SLMP_COMMAND_NODE_IPADDRESS_SET : Z := 0x0E31.
Definition CL_SLMP_COMMAND_CCIEFB_CYCLIC : Z := 0x0E70.
Definition CL_SLMP_SUBCOMMAND_CCIEFB_CYCLIC : Z := 0x0000.
Definition CL_SLMP_SUBCOMMAND_NODE_SEARCH : Z := 0x0000.
Definition CL_SLMP_SUBCOMMAND_NODE_IPADDRESS_SET : Z := 0x0000.

Definition CL_CCIEFB_MIN_GROUP_NO : Z := 1.
Definition CL_CCIEFB_MAX_GROUP_NO : Z := 64.
Definition CL_CCIEFB_MIN_OCCUPIED_STATIONS_PER_GROUP : Z := 1.
Definition CL_CCIEFB_MAX_OCCUPIED_STATIONS_PER_GROUP : Z := 16.

Definition CL_CCIEFB_REQ_HEADER_DL_OFFSET : Z := 9.
Definition CL_CCIEFB_REQ_HEADER_RESERVED1 : Z := 0x5000.
Definition CL_CCIEFB_REQ_HEADER_RESERVED2 : Z := 0x00.
Definition CL_CCIEFB_REQ_HEADER_RESERVED3 : Z := 0xFF.
Definition CL_CCIEFB_REQ_HEADER_RESERVED4 : Z := 0x03FF.
Definition CL_CCIEFB_REQ_HEADER_RESERVED5 : Z := 0x00.
Definition CL_CCIEFB_REQ_HEADER_RESERVED6 : Z := 0x0000.
Definition CL_CCIEFB_RESP_HEADER_DL_OFFSET : Z := 9.
Definition CL_CCIEFB_RESP_HEADER_RESERVED1 : Z := 0xD000.
Definition CL_CCIEFB_RESP_HEADER_RESERVED2 : Z := 0x00.
Definition CL_CCIEFB_RESP_HEADER_RESERVED3 : Z := 0xFF.
Definition CL_CCIEFB_RESP_HEADER_RESERVED4 : Z := 0x03FF.
Definition CL_CCIEFB_RESP_HEADER_RESERVED5 : Z := 0x00.
Definition CL_CCIEFB_RESP_HEADER_RESERVED6 : Z := 0x0000.
Definition CL_CCIEFB_CYCLIC_REQ_HEADER_RESERVED1 : Z := 0x0000.
Definition CL_CCIEFB_CYCLIC_REQ_HEADER_RESERVED2 : Z := 0x00.
Definition CL_CCIEFB_CYCLIC_REQ_CYCLIC_OFFSET : Z := 36.
Definition CL_CCIEFB_CYCLIC_RESP_HEADER_RESERVED1 : Z := 0x00.
Definition CL_CCIEFB_CYCLIC_RESP_CYCLIC_OFFSET : Z := 40.
Definition CL_CCIEFB_MASTER_STATION_NOTIFICATION_RESERVED : Z := 0x0000.
Definition CL_CCIEFB_MASTER_STATION_NOTIFICATION_MASK_BITS_VER1 : Z := 0xFFFE.
Definition CL_CCIEFB_MASTER_STATION_NOTIFICATION_MASK_BITS_VER2 : Z := 0xFFFC.
Definition CL_CCIEFB_MASTER_LOCAL_UNIT_INFO_STOPPED : Z := 0x0000.
Definition CL_CCIEFB_MASTER_LOCAL_UNIT_INFO_RUNNING : Z := 0x0001.
Definition CL_CCIEFB_MASTER_LOCAL_UNIT_INFO_STOPPED_BY_USER : Z := 0x0002.
Definition CL_CCIEFB_SLAVE_STATION_NOTIFICATION_RESERVED1 : Z := 0x0000.
Definition CL_CCIEFB_SLAVE_STATION_NOTIFICATION_RESERVED2 : Z := 0x0000.
Definition CL_CCIEFB_SLAVE_STATION_NOTIFICATION_MASK_BITS : Z := 0xFFFE.
Definition CL_CCIEFB_SLAVE_STATION_NOTIFICATION_DEFAULT_SLAVE_ERR_CODE : Z := 0x0000.
Definition CL_CCIEFB_SLAVE_STATION_NOTIFICATION_DEFAULT_LOCAL_MANAG_INFO : Z := 0.
Definition CL_CCIEFB_CYCLIC_REQ_DATA_HEADER_RESERVED3 : Z := 0x00.
Definition CL_CCIEFB_CYCLIC_REQ_DATA_HEADER_RESERVED4 : Z := 0x0000.
Definition CL_CCIEFB_CYCLIC_REQ_DATA_HEADER_CYCLIC_TR_STATE_ALL_OFF : Z := 0x0000.
Definition CL_CCIEFB_CYCLIC_RESP_DATA_HEADER_RESERVED2 : Z := 0x00.
Definition CL_CCIEFB_MULTISTATION_INDICATOR : Z := UINT32_MAX.

Definition CL_SLMP_HEADER_NETWORK_NUMBER : Z := 0x00.
Definition CL_SLMP_HEADER_UNIT_NUMBER : Z := 0xFF.
Definition CL_SLMP_HEADER_IO_NUMBER : Z := CL_SLMP_DSTPROCNO_DEFAULT.
Definition CL_SLMP_HEADER_EXTENSION : Z := 0x00.
Definition CL_SLMP_REQ_HEADER_LENGTH_OFFSET : Z := 13.
Definition CL_SLMP_REQ_HEADER_SUB1 : Z := 0x5400.
Definition CL_SLMP_REQ_HEADER_SUB2 : Z := 0x0000.
Definition CL_SLMP_REQ_HEADER_TIMER : Z := 0.
Definition CL_SLMP_RESP_HEADER_LENGTH_OFFSET : Z := 13.
Definition CL_SLMP_RESP_HEADER_SUB1 : Z := 0xD400.
Definition CL_SLMP_RESP_HEADER_SUB2 : Z := 0x0000.
Definition CL_SLMP_NODE_SEARCH_RESP_SLAVE_DEFAULT_GATEWAY : Z := UINT32_MAX.
Definition CL_SLMP_NODE_SEARCH_RESP_SLAVE_HOSTNAME_SIZE : Z := 0x00.
Definition CL_SLMP_NODE_SEARCH_RESP_TARGET_IP_ADDR : Z := UINT32_MAX.
Definition CL_SLMP_NODE_SEARCH_RESP_TARGET_PORT : Z := UINT16_MAX.
Definition CL_SLMP_NODE_SEARCH_RESP_SERVER_STATUS_NORMAL : Z := 0x0000.
Definition CL_SLMP_PROTOCOL_IDENTIFIER_UDP : Z := 0x01.
Definition CL_SLMP_SET_IP_REQ_SLAVE_DEFAULT_GATEWAY : Z := UINT32_MAX.
Definition CL_SLMP_SET_IP_REQ_SLAVE_HOSTNAME_SIZE : Z := 0x00.
Definition CL_SLMP_SET_IP_REQ_TARGET_IP_ADDR : Z := UINT32_MAX.
Definition CL_SLMP_SET_IP_REQ_TARGET_PORT : Z := UINT16_MAX.

Definition CL_SLAVE_APPL_OPERATION_STATUS_STOPPED : Z := 0.
Definition CL_SLAVE_APPL_OPERATION_STATUS_OPERATING : Z := 1.

(** Sizes of the data areas of one station. *)
Definition sizeof_ipaddr : Z := 4.
Definition sizeof_rww : Z := 64.
Definition sizeof_ry : Z := 8.
Definition sizeof_rwr : Z := 64.
Definition sizeof_rx : Z := 8.

(** Header of a cyclic request frame. *)
Record cl_cciefb_req_header := CciefbReqHeader {
  rqh_reserved1 : Z;
  rqh_reserved2 : Z;
  rqh_reserved3 : Z;
  rqh_reserved4 : Z;
  rqh_reserved5 : Z;
  rqh_dl : Z;
  rqh_reserved6 : Z;
  rqh_command : Z;
  rqh_sub_command : Z
}.
#[export] Instance cl_cciefb_req_header_settable : Settable cl_cciefb_req_header := fun r =>
  CciefbReqHeader
    (rqh_reserved1 r) (rqh_reserved2 r) (rqh_reserved3 r) (rqh_reserved4 r)
    (rqh_reserved5 r) (rqh_dl r) (rqh_reserved6 r) (rqh_command r) (rqh_sub_command r).
Definition c_cl_cciefb_req_header : codec cl_cciefb_req_header :=
  c_struct
    (fun '(x0, (x1, (x2, (x3, (x4, (x5, (x6, (x7, x8)))))))) =>
       CciefbReqHeader x0 x1 x2 x3 x4 x5 x6 x7 x8)
    (fun r =>
       (rqh_reserved1 r, (rqh_reserved2 r, (rqh_reserved3 r, (rqh_reserved4 r,
       (rqh_reserved5 r, (rqh_dl r, (rqh_reserved6 r, (rqh_command r,
       rqh_sub_command r)))))))))
    (c_u16be ⊗ c_u8 ⊗ c_u8 ⊗ c_u16le ⊗ c_u8 ⊗ c_u16le ⊗ c_u16le ⊗ c_u16le ⊗ c_u16le).

(** Header of a cyclic response frame. *)
Record cl_cciefb_resp_header := CciefbRespHeader {
  rsh_reserved1 : Z;
  rsh_reserved2 : Z;
  rsh_reserved3 : Z;
  rsh_reserved4 : Z;
  rsh_reserved5 : Z;
  rsh_dl : Z;
  rsh_reserved6 : Z
}.
#[export] Instance cl_cciefb_resp_header_settable : Settable cl_cciefb_resp_header := fun r =>
  CciefbRespHeader
    (rsh_reserved1 r) (rsh_reserved2 r) (rsh_reserved3 r) (rsh_reserved4 r)
    (rsh_reserved5 r) (rsh_dl r) (rsh_reserved6 r).
Definition c_cl_cciefb_resp_header : codec cl_cciefb_resp_header :=
  c_struct
    (fun '(x0, (x1, (x2, (x3, (x4, (x5, x6)))))) =>
       CciefbRespHeader x0 x1 x2 x3 x4 x5 x6)
    (fun r =>
       (rsh_reserved1 r, (rsh_reserved2 r, (rsh_reserved3 r, (rsh_reserved4 r,
       (rsh_reserved5 r, (rsh_dl r, rsh_reserved6 r)))))))
    (c_u16be ⊗ c_u8 ⊗ c_u8 ⊗ c_u16le ⊗ c_u8 ⊗ c_u16le ⊗ c_u16le).

Record cl_cciefb_cyclic_req_header := CciefbCyclicReqHeader {
  cqh_protocol_ver : Z;
  cqh_reserved1 : Z;
  cqh_cyclic_info_offset_addr : Z;
  cqh_reserved2 : list Z
}.
#[export] Instance cl_cciefb_cyclic_req_header_settable : Settable cl_cciefb_cyclic_req_header := fun r =>
  CciefbCyclicReqHeader
    (cqh_protocol_ver r) (cqh_reserved1 r) (cqh_cyclic_info_offset_addr r)
    (cqh_reserved2 r).
Definition c_cl_cciefb_cyclic_req_header : codec cl_cciefb_cyclic_req_header :=
  c_struct
    (fun '(x0, (x1, (x2, x3))) =>
       CciefbCyclicReqHeader x0 x1 x2 x3)
    (fun r =>
       (cqh_protocol_ver r, (cqh_reserved1 r, (cqh_cyclic_info_offset_addr r,
       cqh_reserved2 r))))
    (c_u16le ⊗ c_u16le ⊗ c_u16le ⊗ c_array 14).

Record cl_cciefb_cyclic_resp_header := CciefbCyclicRespHeader {
  csh_protocol_ver : Z;
  csh_end_code : Z;
  csh_cyclic_info_offset_addr : Z;
  csh_reserved1 : list Z
}.
#[export] Instance cl_cciefb_cyclic_resp_header_settable : Settable cl_cciefb_cyclic_resp_header := fun r =>
  CciefbCyclicRespHeader
    (csh_protocol_ver r) (csh_end_code r) (csh_cyclic_info_offset_addr r) (csh_reserved1 r).
Definition c_cl_cciefb_cyclic_resp_header : codec cl_cciefb_cyclic_resp_header :=
  c_struct
    (fun '(x0, (x1, (x2, x3))) =>
       CciefbCyclicRespHeader x0 x1 x2 x3)
    (fun r =>
       (csh_protocol_ver r, (csh_end_code r, (csh_cyclic_info_offset_addr r,
       csh_reserved1 r))))
    (c_u16le ⊗ c_u16le ⊗ c_u16le ⊗ c_array 14).

Record cl_cciefb_master_station_notification := CciefbMasterStationNotification {
  msn_master_local_unit_info : Z;
  msn_reserved : Z;
  msn_clock_info : Z
}.
#[export] Instance cl_cciefb_master_station_notification_settable : Settable cl_cciefb_master_station_notification := fun r =>
  CciefbMasterStationNotification
    (msn_master_local_unit_info r) (msn_reserved r) (msn_clock_info r).
Definition c_cl_cciefb_master_station_notification : codec cl_cciefb_master_station_notification :=
  c_struct
    (fun '(x0, (x1, x2)) =>
       CciefbMasterStationNotification x0 x1 x2)
    (fun r =>
       (msn_master_local_unit_info r, (msn_reserved r, msn_clock_info r)))
    (c_u16le ⊗ c_u16le ⊗ c_u64le).

Record cl_cciefb_slave_station_notification := CciefbSlaveStationNotification {
  ssn_vendor_code : Z;
  ssn_reserved1 : Z;
  ssn_model_code : Z;
  ssn_equipment_ver : Z;
  ssn_reserved2 : Z;
  ssn_slave_local_unit_info : Z;
  ssn_slave_err_code : Z;
  ssn_local_management_info : Z
}.
#[export] Instance cl_cciefb_slave_station_notification_settable : Settable cl_cciefb_slave_station_notification := fun r =>
  CciefbSlaveStationNotification
    (ssn_vendor_code r) (ssn_reserved1 r) (ssn_model_code r) (ssn_equipment_ver r)
    (ssn_reserved2 r) (ssn_slave_local_unit_info r) (ssn_slave_err_code r)
    (ssn_local_management_info r).
Definition c_cl_cciefb_slave_station_notification : codec cl_cciefb_slave_station_notification :=
  c_struct
    (fun '(x0, (x1, (x2, (x3, (x4, (x5, (x6, x7))))))) =>
       CciefbSlaveStationNotification x0 x1 x2 x3 x4 x5 x6 x7)
    (fun r =>
       (ssn_vendor_code r, (ssn_reserved1 r, (ssn_model_code r, (ssn_equipment_ver r,
       (ssn_reserved2 r, (ssn_slave_local_unit_info r, (ssn_slave_err_code r,
       ssn_local_management_info r))))))))
    (c_u16le ⊗ c_u16le ⊗ c_u32le ⊗ c_u16le ⊗ c_u16le ⊗ c_u16le ⊗ c_u16le ⊗ c_u32le).

Record cl_cciefb_cyclic_req_data_header := CciefbCyclicReqDataHeader {
  qdh_master_id : Z;
  qdh_group_no : Z;
  qdh_reserved3 : Z;
  qdh_frame_sequence_no : Z;
  qdh_timeout_value : Z;
  qdh_parallel_off_timeout_count : Z;
  qdh_parameter_no : Z;
  qdh_slave_total_occupied_station_count : Z;
  qdh_cyclic_transmission_state : Z;
  qdh_reserved4 : Z
}.
#[export] Instance cl_cciefb_cyclic_req_data_header_settable : Settable cl_cciefb_cyclic_req_data_header := fun r =>
  CciefbCyclicReqDataHeader
    (qdh_master_id r) (qdh_group_no r) (qdh_reserved3 r) (qdh_frame_sequence_no r)
    (qdh_timeout_value r) (qdh_parallel_off_timeout_count r) (qdh_parameter_no r)
    (qdh_slave_total_occupied_station_count r) (qdh_cyclic_transmission_state r)
    (qdh_reserved4 r).
Definition c_cl_cciefb_cyclic_req_data_header : codec cl_cciefb_cyclic_req_data_header :=
  c_struct
    (fun '(x0, (x1, (x2, (x3, (x4, (x5, (x6, (x7, (x8, x9))))))))) =>
       CciefbCyclicReqDataHeader x0 x1 x2 x3 x4 x5 x6 x7 x8 x9)
    (fun r =>
       (qdh_master_id r, (qdh_group_no r, (qdh_reserved3 r, (qdh_frame_sequence_no r,
       (qdh_timeout_value r, (qdh_parallel_off_timeout_count r, (qdh_parameter_no r,
       (qdh_slave_total_occupied_station_count r, (qdh_cyclic_transmission_state r,
       qdh_reserved4 r))))))))))
    (c_u32le ⊗ c_u8 ⊗ c_u8 ⊗ c_u16le ⊗ c_u16le ⊗ c_u16le ⊗ c_u16le ⊗ c_u16le ⊗ c_u16le ⊗
    c_u16le).

Record cl_cciefb_cyclic_resp_data_header := CciefbCyclicRespDataHeader {
  sdh_slave_id : Z;
  sdh_group_no : Z;
  sdh_reserved2 : Z;
  sdh_frame_sequence_no : Z
}.
#[export] Instance cl_cciefb_cyclic_resp_data_header_settable : Settable cl_cciefb_cyclic_resp_data_header := fun r =>
  CciefbCyclicRespDataHeader
    (sdh_slave_id r) (sdh_group_no r) (sdh_reserved2 r) (sdh_frame_sequence_no r).
Definition c_cl_cciefb_cyclic_resp_data_header : codec cl_cciefb_cyclic_resp_data_header :=
  c_struct
    (fun '(x0, (x1, (x2, x3))) =>
       CciefbCyclicRespDataHeader x0 x1 x2 x3)
    (fun r =>
       (sdh_slave_id r, (sdh_group_no r, (sdh_reserved2 r, sdh_frame_sequence_no r))))
    (c_u32le ⊗ c_u8 ⊗ c_u8 ⊗ c_u16le).

Record cl_cciefb_cyclic_req_full_headers := CciefbCyclicReqFullHeaders {
  fq_req_header : cl_cciefb_req_header;
  fq_cyclic_header : cl_cciefb_cyclic_req_header;
  fq_master_station_notification : cl_cciefb_master_station_notification;
  fq_cyclic_data_header : cl_cciefb_cyclic_req_data_header
}.
#[export] Instance cl_cciefb_cyclic_req_full_headers_settable : Settable cl_cciefb_cyclic_req_full_headers := fun r =>
  CciefbCyclicReqFullHeaders
    (fq_req_header r) (fq_cyclic_header r) (fq_master_station_notification r)
    (fq_cyclic_data_header r).
Definition c_cl_cciefb_cyclic_req_full_headers : codec cl_cciefb_cyclic_req_full_headers :=
  c_struct
    (fun '(x0, (x1, (x2, x3))) =>
       CciefbCyclicReqFullHeaders x0 x1 x2 x3)
    (fun r =>
       (fq_req_header r, (fq_cyclic_header r, (fq_master_station_notification r,
       fq_cyclic_data_header r))))
    (c_cl_cciefb_req_header ⊗ c_cl_cciefb_cyclic_req_header ⊗
    c_cl_cciefb_master_station_notification ⊗ c_cl_cciefb_cyclic_req_data_header).

Record cl_cciefb_cyclic_resp_full_headers := CciefbCyclicRespFullHeaders {
  fs_resp_header : cl_cciefb_resp_header;
  fs_cyclic_header : cl_cciefb_cyclic_resp_header;
  fs_slave_station_notification : cl_cciefb_slave_station_notification;
  fs_cyclic_data_header : cl_cciefb_cyclic_resp_data_header
}.
#[export] Instance cl_cciefb_cyclic_resp_full_headers_settable : Settable cl_cciefb_cyclic_resp_full_headers := fun r =>
  CciefbCyclicRespFullHeaders
    (fs_resp_header r) (fs_cyclic_header r) (fs_slave_station_notification r)
    (fs_cyclic_data_header r).
Definition c_cl_cciefb_cyclic_resp_full_headers : codec cl_cciefb_cyclic_resp_full_headers :=
  c_struct
    (fun '(x0, (x1, (x2, x3))) =>
       CciefbCyclicRespFullHeaders x0 x1 x2 x3)
    (fun r =>
       (fs_resp_header r, (fs_cyclic_header r, (fs_slave_station_notification r,
       fs_cyclic_data_header r))))
    (c_cl_cciefb_resp_header ⊗ c_cl_cciefb_cyclic_resp_header ⊗
    c_cl_cciefb_slave_station_notification ⊗ c_cl_cciefb_cyclic_resp_data_header).

(** SLMP request header. *)
Record cl_slmp_req_header := SlmpReqHeader {
  lqh_sub1 : Z;
  lqh_serial : Z;
  lqh_sub2 : Z;
  lqh_network_number : Z;
  lqh_unit_number : Z;
  lqh_io_number : Z;
  lqh_extension : Z;
  lqh_length : Z;
  lqh_timer : Z;
  lqh_command : Z;
  lqh_sub_command : Z
}.
#[export] Instance cl_slmp_req_header_settable : Settable cl_slmp_req_header := fun r =>
  SlmpReqHeader
    (lqh_sub1 r) (lqh_serial r) (lqh_sub2 r) (lqh_network_number r) (lqh_unit_number r)
    (lqh_io_number r) (lqh_extension r) (lqh_length r) (lqh_timer r) (lqh_command r)
    (lqh_sub_command r).
Definition c_cl_slmp_req_header : codec cl_slmp_req_header :=
  c_struct
    (fun '(x0, (x1, (x2, (x3, (x4, (x5, (x6, (x7, (x8, (x9, x10)))))))))) =>
       SlmpReqHeader x0 x1 x2 x3 x4 x5 x6 x7 x8 x9 x10)
    (fun r =>
       (lqh_sub1 r, (lqh_serial r, (lqh_sub2 r, (lqh_network_number r,
       (lqh_unit_number r, (lqh_io_number r, (lqh_extension r, (lqh_length r,
       (lqh_timer r, (lqh_command r, lqh_sub_command r)))))))))))
    (c_u16be ⊗ c_u16le ⊗ c_u16le ⊗ c_u8 ⊗ c_u8 ⊗ c_u16le ⊗ c_u8 ⊗ c_u16le ⊗ c_u16le ⊗
    c_u16le ⊗ c_u16le).

(** SLMP response header. *)
Record cl_slmp_resp_header := SlmpRespHeader {
  lsh_sub1 : Z;
  lsh_serial : Z;
  lsh_sub2 : Z;
  lsh_network_number : Z;
  lsh_unit_number : Z;
  lsh_io_number : Z;
  lsh_extension : Z;
  lsh_length : Z;
  lsh_endcode : Z
}.
#[export] Instance cl_slmp_resp_header_settable : Settable cl_slmp_resp_header := fun r =>
  SlmpRespHeader
    (lsh_sub1 r) (lsh_serial r) (lsh_sub2 r) (lsh_network_number r) (lsh_unit_number r)
    (lsh_io_number r) (lsh_extension r) (lsh_length r) (lsh_endcode r).
Definition c_cl_slmp_resp_header : codec cl_slmp_resp_header :=
  c_struct
    (fun '(x0, (x1, (x2, (x3, (x4, (x5, (x6, (x7, x8)))))))) =>
       SlmpRespHeader x0 x1 x2 x3 x4 x5 x6 x7 x8)
    (fun r =>
       (lsh_sub1 r, (lsh_serial r, (lsh_sub2 r, (lsh_network_number r,
       (lsh_unit_number r, (lsh_io_number r, (lsh_extension r, (lsh_length r,
       lsh_endcode r)))))))))
    (c_u16be ⊗ c_u16le ⊗ c_u16le ⊗ c_u8 ⊗ c_u8 ⊗ c_u16le ⊗ c_u8 ⊗ c_u16le ⊗ c_u16le).

Record cl_slmp_node_search_request := SlmpNodeSearchRequest {
  nsq_header : cl_slmp_req_header;
  nsq_master_mac_addr : list Z;
  nsq_master_ip_addr_size : Z;
  nsq_master_ip_addr : Z
}.
#[export] Instance cl_slmp_node_search_request_settable : Settable cl_slmp_node_search_request := fun r =>
  SlmpNodeSearchRequest
    (nsq_header r) (nsq_master_mac_addr r) (nsq_master_ip_addr_size r)
    (nsq_master_ip_addr r).
Definition c_cl_slmp_node_search_request : codec cl_slmp_node_search_request :=
  c_struct
    (fun '(x0, (x1, (x2, x3))) =>
       SlmpNodeSearchRequest x0 x1 x2 x3)
    (fun r =>
       (nsq_header r, (nsq_master_mac_addr r, (nsq_master_ip_addr_size r,
       nsq_master_ip_addr r))))
    (c_cl_slmp_req_header ⊗ c_array 6 ⊗ c_u8 ⊗ c_u32le).

Record cl_slmp_node_search_resp := SlmpNodeSearchResp {
  nsr_header : cl_slmp_resp_header;
  nsr_master_mac_addr : list Z;
  nsr_master_ip_addr_size : Z;
  nsr_master_ip_addr : Z;
  nsr_slave_mac_addr : list Z;
  nsr_slave_ip_addr_size : Z;
  nsr_slave_ip_addr : Z;
  nsr_slave_netmask : Z;
  nsr_slave_default_gateway : Z;
  nsr_slave_hostname_size : Z;
  nsr_vendor_code : Z;
  nsr_model_code : Z;
  nsr_equipment_ver : Z;
  nsr_target_ip_addr_size : Z;
  nsr_target_ip_addr : Z;
  nsr_target_port : Z;
  nsr_slave_status : Z;
  nsr_slave_port : Z;
  nsr_slave_protocol_settings : Z
}.
#[export] Instance cl_slmp_node_search_resp_settable : Settable cl_slmp_node_search_resp := fun r =>
  SlmpNodeSearchResp
    (nsr_header r) (nsr_master_mac_addr r) (nsr_master_ip_addr_size r)
    (nsr_master_ip_addr r) (nsr_slave_mac_addr r) (nsr_slave_ip_addr_size r)
    (nsr_slave_ip_addr r) (nsr_slave_netmask r) (nsr_slave_default_gateway r)
    (nsr_slave_hostname_size r) (nsr_vendor_code r) (nsr_model_code r)
    (nsr_equipment_ver r) (nsr_target_ip_addr_size r) (nsr_target_ip_addr r)
    (nsr_target_port r) (nsr_slave_status r) (nsr_slave_port r)
    (nsr_slave_protocol_settings r).
Definition c_cl_slmp_node_search_resp : codec cl_slmp_node_search_resp :=
  c_struct
    (fun '(x0, (x1, (x2, (x3, (x4, (x5, (x6, (x7, (x8, (x9, (x10, (x11, (x12, (x13, (x14, (x15, (x16, (x17, x18)))))))))))))))))) =>
       SlmpNodeSearchResp x0 x1 x2 x3 x4 x5 x6 x7 x8 x9 x10 x11 x12 x13 x14 x15 x16 x17 x18)
    (fun r =>
       (nsr_header r, (nsr_master_mac_addr r, (nsr_master_ip_addr_size r,
       (nsr_master_ip_addr r, (nsr_slave_mac_addr r, (nsr_slave_ip_addr_size r,
       (nsr_slave_ip_addr r, (nsr_slave_netmask r, (nsr_slave_default_gateway r,
       (nsr_slave_hostname_size r, (nsr_vendor_code r, (nsr_model_code r,
       (nsr_equipment_ver r, (nsr_target_ip_addr_size r, (nsr_target_ip_addr r,
       (nsr_target_port r, (nsr_slave_status r, (nsr_slave_port r,
       nsr_slave_protocol_settings r)))))))))))))))))))
    (c_cl_slmp_resp_header ⊗ c_array 6 ⊗ c_u8 ⊗ c_u32le ⊗ c_array 6 ⊗ c_u8 ⊗ c_u32le ⊗
    c_u32le ⊗ c_u32le ⊗ c_u8 ⊗ c_u16le ⊗ c_u32le ⊗ c_u16le ⊗ c_u8 ⊗ c_u32le ⊗ c_u16le ⊗
    c_u16le ⊗ c_u16le ⊗ c_u8).

Record cl_slmp_set_ipaddr_request := SlmpSetIpaddrRequest {
  siq_header : cl_slmp_req_header;
  siq_master_mac_addr : list Z;
  siq_master_ip_addr_size : Z;
  siq_master_ip_addr : Z;
  siq_slave_mac_addr : list Z;
  siq_slave_ip_addr_size : Z;
  siq_slave_new_ip_addr : Z;
  siq_slave_new_netmask : Z;
  siq_slave_default_gateway : Z;
  siq_slave_hostname_size : Z;
  siq_target_ip_addr_size : Z;
  siq_target_ip_addr : Z;
  siq_target_port : Z;
  siq_slave_protocol_settings : Z
}.
#[export] Instance cl_slmp_set_ipaddr_request_settable : Settable cl_slmp_set_ipaddr_request := fun r =>
  SlmpSetIpaddrRequest
    (siq_header r) (siq_master_mac_addr r) (siq_master_ip_addr_size r)
    (siq_master_ip_addr r) (siq_slave_mac_addr r) (siq_slave_ip_addr_size r)
    (siq_slave_new_ip_addr r) (siq_slave_new_netmask r) (siq_slave_default_gateway r)
    (siq_slave_hostname_size r) (siq_target_ip_addr_size r) (siq_target_ip_addr r)
    (siq_target_port r) (siq_slave_protocol_settings r).
Definition c_cl_slmp_set_ipaddr_request : codec cl_slmp_set_ipaddr_request :=
  c_struct
    (fun '(x0, (x1, (x2, (x3, (x4, (x5, (x6, (x7, (x8, (x9, (x10, (x11, (x12, x13))))))))))))) =>
       SlmpSetIpaddrRequest x0 x1 x2 x3 x4 x5 x6 x7 x8 x9 x10 x11 x12 x13)
    (fun r =>
       (siq_header r, (siq_master_mac_addr r, (siq_master_ip_addr_size r,
       (siq_master_ip_addr r, (siq_slave_mac_addr r, (siq_slave_ip_addr_size r,
       (siq_slave_new_ip_addr r, (siq_slave_new_netmask r, (siq_slave_default_gateway r,
       (siq_slave_hostname_size r, (siq_target_ip_addr_size r, (siq_target_ip_addr r,
       (siq_target_port r, siq_slave_protocol_settings r))))))))))))))
    (c_cl_slmp_req_header ⊗ c_array 6 ⊗ c_u8 ⊗ c_u32le ⊗ c_array 6 ⊗ c_u8 ⊗ c_u32le ⊗
    c_u32le ⊗ c_u32le ⊗ c_u8 ⊗ c_u8 ⊗ c_u32le ⊗ c_u16le ⊗ c_u8).

Record cl_slmp_set_ipaddr_resp := SlmpSetIpaddrResp {
  sir_header : cl_slmp_resp_header;
  sir_master_mac_addr : list Z
}.
#[export] Instance cl_slmp_set_ipaddr_resp_settable : Settable cl_slmp_set_ipaddr_resp := fun r =>
  SlmpSetIpaddrResp
    (sir_header r) (sir_master_mac_addr r).
Definition c_cl_slmp_set_ipaddr_resp : codec cl_slmp_set_ipaddr_resp :=
  c_struct
    (fun '(x0, x1) =>
       SlmpSetIpaddrResp x0 x1)
    (fun r =>
       (sir_header r, sir_master_mac_addr r))
    (c_cl_slmp_resp_header ⊗ c_array 6).

Record cl_slmp_error_resp := SlmpErrorResp {
  ser_header : cl_slmp_resp_header;
  ser_error_network_number : Z;
  ser_error_unit_number : Z;
  ser_error_io_number : Z;
  ser_error_extension : Z;
  ser_command : Z;
  ser_sub_command : Z
}.
#[export] Instance cl_slmp_error_resp_settable : Settable cl_slmp_error_resp := fun r =>
  SlmpErrorResp
    (ser_header r) (ser_error_network_number r) (ser_error_unit_number r)
    (ser_error_io_number r) (ser_error_extension r) (ser_command r) (ser_sub_command r).
Definition c_cl_slmp_error_resp : codec cl_slmp_error_resp :=
  c_struct
    (fun '(x0, (x1, (x2, (x3, (x4, (x5, x6)))))) =>
       SlmpErrorResp x0 x1 x2 x3 x4 x5 x6)
    (fun r =>
       (ser_header r, (ser_error_network_number r, (ser_error_unit_number r,
       (ser_error_io_number r, (ser_error_extension r, (ser_command r,
       ser_sub_command r)))))))
    (c_cl_slmp_resp_header ⊗ c_u8 ⊗ c_u8 ⊗ c_u16le ⊗ c_u8 ⊗ c_u16le ⊗ c_u16le).
(** ** The codecs obey the codec laws *)

#[export] Instance c_cl_cciefb_req_header_ok : CodecOk c_cl_cciefb_req_header.
Proof. unfold c_cl_cciefb_req_header. struct_ok. Qed.
#[export] Instance c_cl_cciefb_resp_header_ok : CodecOk c_cl_cciefb_resp_header.
Proof. unfold c_cl_cciefb_resp_header. struct_ok. Qed.
#[export] Instance c_cl_cciefb_cyclic_req_header_ok : CodecOk c_cl_cciefb_cyclic_req_header.
Proof. unfold c_cl_cciefb_cyclic_req_header. struct_ok. Qed.
#[export] Instance c_cl_cciefb_cyclic_resp_header_ok : CodecOk c_cl_cciefb_cyclic_resp_header.
Proof. unfold c_cl_cciefb_cyclic_resp_header. struct_ok. Qed.
#[export] Instance c_cl_cciefb_master_station_notification_ok : CodecOk c_cl_cciefb_master_station_notification.
Proof. unfold c_cl_cciefb_master_station_notification. struct_ok. Qed.
#[export] Instance c_cl_cciefb_slave_station_notification_ok : CodecOk c_cl_cciefb_slave_station_notification.
Proof. unfold c_cl_cciefb_slave_station_notification. struct_ok. Qed.
#[export] Instance c_cl_cciefb_cyclic_req_data_header_ok : CodecOk c_cl_cciefb_cyclic_req_data_header.
Proof. unfold c_cl_cciefb_cyclic_req_data_header. struct_ok. Qed.
#[export] Instance c_cl_cciefb_cyclic_resp_data_header_ok : CodecOk c_cl_cciefb_cyclic_resp_data_header.
Proof. unfold c_cl_cciefb_cyclic_resp_data_header. struct_ok. Qed.
#[export] Instance c_cl_cciefb_cyclic_req_full_headers_ok : CodecOk c_cl_cciefb_cyclic_req_full_headers.
Proof. unfold c_cl_cciefb_cyclic_req_full_headers. struct_ok. Qed.
#[export] Instance c_cl_cciefb_cyclic_resp_full_headers_ok : CodecOk c_cl_cciefb_cyclic_resp_full_headers.
Proof. unfold c_cl_cciefb_cyclic_resp_full_headers. struct_ok. Qed.
#[export] Instance c_cl_slmp_req_header_ok : CodecOk c_cl_slmp_req_header.
Proof. unfold c_cl_slmp_req_header. struct_ok. Qed.
#[export] Instance c_cl_slmp_resp_header_ok : CodecOk c_cl_slmp_resp_header.
Proof. unfold c_cl_slmp_resp_header. struct_ok. Qed.
#[export] Instance c_cl_slmp_node_search_request_ok : CodecOk c_cl_slmp_node_search_request.
Proof. unfold c_cl_slmp_node_search_request. struct_ok. Qed.
#[export] Instance c_cl_slmp_node_search_resp_ok : CodecOk c_cl_slmp_node_search_resp.
Proof. unfold c_cl_slmp_node_search_resp. struct_ok. Qed.
#[export] Instance c_cl_slmp_set_ipaddr_request_ok : CodecOk c_cl_slmp_set_ipaddr_request.
Proof. unfold c_cl_slmp_set_ipaddr_request. struct_ok. Qed.
#[export] Instance c_cl_slmp_set_ipaddr_resp_ok : CodecOk c_cl_slmp_set_ipaddr_resp.
Proof. unfold c_cl_slmp_set_ipaddr_resp. struct_ok. Qed.
#[export] Instance c_cl_slmp_error_resp_ok : CodecOk c_cl_slmp_error_resp.
Proof. unfold c_cl_slmp_error_resp. struct_ok. Qed.

(** ** The sizes the source asserts *)

Lemma struct_sizes :
  sizeof c_cl_cciefb_req_header = 15 /\ sizeof c_cl_cciefb_resp_header = 11 /\
  sizeof c_cl_cciefb_cyclic_req_header = 20 /\ sizeof c_cl_cciefb_cyclic_resp_header = 20 /\
  sizeof c_cl_cciefb_master_station_notification = 12 /\
  sizeof c_cl_cciefb_slave_station_notification = 20 /\
  sizeof c_cl_cciefb_cyclic_req_data_header = 20 /\
  sizeof c_cl_cciefb_cyclic_resp_data_header = 8 /\
  sizeof c_cl_cciefb_cyclic_req_full_headers = 67 /\
  sizeof c_cl_cciefb_cyclic_resp_full_headers = 59 /\
  sizeof c_cl_slmp_req_header = 19 /\ sizeof c_cl_slmp_resp_header = 15 /\
  sizeof c_cl_slmp_node_search_request = 19 + 11 /\
  sizeof c_cl_slmp_node_search_resp = 15 + 51 /\
  sizeof c_cl_slmp_set_ipaddr_request = 19 + 39 /\
  sizeof c_cl_slmp_set_ipaddr_resp = 15 + 6 /\
  sizeof c_cl_slmp_error_resp = 15 + 9.
Proof. repeat split. Qed.
