(* ===== verification/Iefb.v ===== *)
(** * Cyclic frames: building, parsing and validating
    (src/src/common/cl_iefb.c)

    Functions that return 0 or -1 and nothing else are boolean ([true] for
    0); functions with result parameters return an option ([None] for -1, or
    for a null pointer).  Pointers into a frame are byte offsets in it.  A
    failing [CC_ASSERT] is the outcome [AssertFailed].  Frames under
    construction own the buffer their [frame_info] points to. *)

From S2P Require Import Prelude Packed Timer Util Types.

(** Incoming request, as seen by the slave. *)
Record cls_cciefb_cyclic_request_info := ClsRequestInfo {
  rq_remote_ip : Z;
  rq_remote_port : Z;
  rq_slave_ip_addr : Z;
  rq_full_headers : cl_cciefb_cyclic_req_full_headers;
  rq_buffer : list Z;
  rq_first_slave_id : Z;
  rq_first_rww : option Z;
  rq_first_ry : option Z
}.

(** Outgoing request, as built by the master. *)
Record clm_cciefb_cyclic_request_info := ClmRequestInfo {
  qi_buffer : list Z;
  qi_buf_size : Z;
  qi_udp_payload_len : Z;
  qi_first_slave_id : Z;
  qi_first_rww : Z;
  qi_first_ry : Z
}.
#[export] Instance clm_cciefb_cyclic_request_info_settable :
  Settable clm_cciefb_cyclic_request_info := fun r =>
  ClmRequestInfo (qi_buffer r) (qi_buf_size r) (qi_udp_payload_len r)
    (qi_first_slave_id r) (qi_first_rww r) (qi_first_ry r).

(** Outgoing response, as built by the slave. *)
Record cls_cciefb_cyclic_response_info := ClsResponseInfo {
  ri_buffer : list Z;
  ri_buf_size : Z;
  ri_udp_payload_len : Z;
  ri_first_rwr : Z;
  ri_first_rx : Z
}.
#[export] Instance cls_cciefb_cyclic_response_info_settable :
  Settable cls_cciefb_cyclic_response_info := fun r =>
  ClsResponseInfo (ri_buffer r) (ri_buf_size r) (ri_udp_payload_len r)
    (ri_first_rwr r) (ri_first_rx r).

(** Incoming response, as seen by the master. *)
Record clm_cciefb_cyclic_response_info := ClmResponseInfo {
  si_remote_port : Z;
  si_remote_ip : Z;
  si_number_of_occupied : Z;
  si_reception_timestamp : Z;
  si_full_headers : cl_cciefb_cyclic_resp_full_headers;
  si_buffer : list Z;
  si_first_rwr : Z;
  si_first_rx : Z
}.

(** ** Sizes *)

Definition cl_calculate_cyclic_request_size (slave_total_occupied_station_count : Z) : Z :=
  sizeof c_cl_cciefb_req_header + sizeof c_cl_cciefb_cyclic_req_header +
  sizeof c_cl_cciefb_master_station_notification +
  sizeof c_cl_cciefb_cyclic_req_data_header +
  slave_total_occupied_station_count * (sizeof_ipaddr + sizeof_rww + sizeof_ry).

Definition cl_calculate_cyclic_response_size (occupied_stations : Z) : Z :=
  sizeof c_cl_cciefb_resp_header + sizeof c_cl_cciefb_cyclic_resp_header +
  sizeof c_cl_cciefb_slave_station_notification +
  sizeof c_cl_cciefb_cyclic_resp_data_header +
  occupied_stations * (sizeof_rwr + sizeof_rx).

(** [size_t] arithmetic is modulo 2^64. *)
Definition cl_calculate_number_of_occupied_stations (response_udp_payload_size : Z) : Z :=
  let occupied_stations := Z.land (u64 (response_udp_payload_size - 59) / 72) UINT16_MAX in
  let remainder :=
    u64 (response_udp_payload_size - cl_calculate_cyclic_response_size occupied_stations) in
  if negb (remainder =? 0) then 0 else occupied_stations.

(** ** Building requests *)

Definition cl_iefb_initialise_request_frame
  (buffer : list Z) (buf_size protocol_ver timeout_value parallel_off_timeout_count
   master_id group_no occupied_stations parameter_no : Z)
  : outcome clm_cciefb_cyclic_request_info :=
  let udp_payload_len := cl_calculate_cyclic_request_size occupied_stations in
  if buf_size <? udp_payload_len then AssertFailed else
  let buffer := splice 0 (zeros (Z.to_nat buf_size)) buffer in
  let buffer := poke c_cl_cciefb_cyclic_req_full_headers (fun h => h
    <| fq_req_header := CciefbReqHeader
         CL_CCIEFB_REQ_HEADER_RESERVED1 CL_CCIEFB_REQ_HEADER_RESERVED2
         CL_CCIEFB_REQ_HEADER_RESERVED3 CL_CCIEFB_REQ_HEADER_RESERVED4
         CL_CCIEFB_REQ_HEADER_RESERVED5
         (u16 (udp_payload_len - CL_CCIEFB_REQ_HEADER_DL_OFFSET))
         CL_CCIEFB_REQ_HEADER_RESERVED6 CL_SLMP_COMMAND_CCIEFB_CYCLIC
         CL_SLMP_SUBCOMMAND_CCIEFB_CYCLIC |>
    <| fq_cyclic_header := CciefbCyclicReqHeader
         protocol_ver CL_CCIEFB_CYCLIC_REQ_HEADER_RESERVED1
         CL_CCIEFB_CYCLIC_REQ_CYCLIC_OFFSET (zeros 14) |>
    <| fq_master_station_notification := CciefbMasterStationNotification
         0 CL_CCIEFB_MASTER_STATION_NOTIFICATION_RESERVED 0 |>
    <| fq_cyclic_data_header := CciefbCyclicReqDataHeader
         master_id (Z.land group_no UINT8_MAX) CL_CCIEFB_CYCLIC_REQ_DATA_HEADER_RESERVED3
         0 timeout_value parallel_off_timeout_count parameter_no occupied_stations
         0 CL_CCIEFB_CYCLIC_REQ_DATA_HEADER_RESERVED4 |>) buffer in
  let first_slave_id := sizeof c_cl_cciefb_cyclic_req_full_headers in
  let first_rww := first_slave_id + occupied_stations * sizeof_ipaddr in
  let first_ry := first_rww + occupied_stations * sizeof_rww in
  let pos := first_ry + occupied_stations * sizeof_ry in
  if buf_size <? pos then AssertFailed else
  Done (ClmRequestInfo buffer buf_size udp_payload_len first_slave_id first_rww first_ry).

Definition cl_iefb_update_request_frame_headers (frame_info : clm_cciefb_cyclic_request_info)
  (frame_sequence_no clock_info master_local_unit_info cyclic_transmission_state : Z)
  : clm_cciefb_cyclic_request_info :=
  frame_info <| qi_buffer ::= poke c_cl_cciefb_cyclic_req_full_headers (fun h => h
    <| fq_master_station_notification ::= (fun n => n
         <| msn_master_local_unit_info := master_local_unit_info |>
         <| msn_clock_info := clock_info |>) |>
    <| fq_cyclic_data_header ::= (fun d => d
         <| qdh_frame_sequence_no := frame_sequence_no |>
         <| qdh_cyclic_transmission_state := cyclic_transmission_state |>) |>) |>.

(** ** Parsing and validating requests *)

Definition cl_iefb_parse_request_header (buffer : list Z) (recv_len : Z)
  : option cl_cciefb_req_header :=
  if recv_len <? sizeof c_cl_cciefb_req_header then None
  else Some (read_at c_cl_cciefb_req_header buffer 0).

Definition cl_iefb_validate_request_header (header : cl_cciefb_req_header) (recv_len : Z)
  : bool :=
  if negb (rqh_dl header + CL_CCIEFB_REQ_HEADER_DL_OFFSET =? recv_len) then false
  else if
    negb (rqh_reserved1 header =? CL_CCIEFB_REQ_HEADER_RESERVED1) ||
    negb (rqh_reserved2 header =? CL_CCIEFB_REQ_HEADER_RESERVED2) ||
    negb (rqh_reserved3 header =? CL_CCIEFB_REQ_HEADER_RESERVED3) ||
    negb (rqh_reserved4 header =? CL_CCIEFB_REQ_HEADER_RESERVED4) ||
    negb (rqh_reserved5 header =? CL_CCIEFB_REQ_HEADER_RESERVED5) ||
    negb (rqh_reserved6 header =? CL_CCIEFB_REQ_HEADER_RESERVED6)
  then false else true.

Definition unsupported_protocol_ver (protocol_ver : Z) : bool :=
  (protocol_ver <? CL_CCIEFB_MIN_SUPPORTED_PROTOCOL_VER) ||
  (CL_CCIEFB_MAX_SUPPORTED_PROTOCOL_VER <? protocol_ver).

Definition cl_iefb_validate_cyclic_request_header
  (cyclic_header : cl_cciefb_cyclic_req_header) : bool :=
  if unsupported_protocol_ver (cqh_protocol_ver cyclic_header) then false
  else if negb (cqh_cyclic_info_offset_addr cyclic_header =? CL_CCIEFB_CYCLIC_REQ_CYCLIC_OFFSET)
  then false
  else if negb (cqh_reserved1 cyclic_header =? CL_CCIEFB_CYCLIC_REQ_HEADER_RESERVED1)
  then false
  else forallb (fun b => b =? CL_CCIEFB_CYCLIC_REQ_HEADER_RESERVED2)
         (cqh_reserved2 cyclic_header).

Definition cl_iefb_validate_master_station_notification
  (n : cl_cciefb_master_station_notification) (protocol_ver : Z) : bool :=
  let reserved_ok :=
    msn_reserved n =? CL_CCIEFB_MASTER_STATION_NOTIFICATION_RESERVED in
  if protocol_ver =? 1 then
    if 0 <? Z.land (msn_master_local_unit_info n)
              CL_CCIEFB_MASTER_STATION_NOTIFICATION_MASK_BITS_VER1
    then false else reserved_ok
  else if protocol_ver =? 2 then
    if 0 <? Z.land (msn_master_local_unit_info n)
              CL_CCIEFB_MASTER_STATION_NOTIFICATION_MASK_BITS_VER2
    then false else reserved_ok
  else false.

Definition cl_iefb_validate_req_cyclic_data_header
  (d : cl_cciefb_cyclic_req_data_header) (remote_ip : Z) : bool :=
  if (qdh_group_no d <? CL_CCIEFB_MIN_GROUP_NO) || (CL_CCIEFB_MAX_GROUP_NO <? qdh_group_no d)
  then false
  else if
    (qdh_slave_total_occupied_station_count d <?
       CL_CCIEFB_MIN_OCCUPIED_STATIONS_PER_GROUP) ||
    (CL_CCIEFB_MAX_OCCUPIED_STATIONS_PER_GROUP <?
       qdh_slave_total_occupied_station_count d)
  then false
  else if
    negb (qdh_reserved3 d =? CL_CCIEFB_CYCLIC_REQ_DATA_HEADER_RESERVED3) ||
    negb (qdh_reserved4 d =? CL_CCIEFB_CYCLIC_REQ_DATA_HEADER_RESERVED4)
  then false
  else if (qdh_master_id d =? CL_IPADDR_INVALID) || negb (qdh_master_id d =? remote_ip)
  then false
  else true.

Definition bad_station_count (n : Z) : bool :=
  (n <? CL_CCIEFB_MIN_OCCUPIED_STATIONS_PER_GROUP) ||
  (CL_CCIEFB_MAX_OCCUPIED_STATIONS_PER_GROUP <? n).

(** Offsets of the first slave id, the first RWw area and the first RY area. *)
Definition cl_iefb_parse_request_cyclic_data
  (recv_len slave_total_occupied_station_count : Z) : option (Z * Z * Z) :=
  let pos := sizeof c_cl_cciefb_cyclic_req_full_headers in
  if bad_station_count slave_total_occupied_station_count then None else
  let first_slave_id := pos in
  let pos := pos + slave_total_occupied_station_count * sizeof_ipaddr in
  let first_rww := pos in
  let pos := pos + slave_total_occupied_station_count * sizeof_rww in
  let first_ry := pos in
  let pos := pos + slave_total_occupied_station_count * sizeof_ry in
  if recv_len <? pos then None else Some (first_slave_id, first_rww, first_ry).

Definition cl_iefb_validate_req_cyclic_frame_size
  (protocol_ver recv_len dl slave_total_occupied_station_count
   cyclic_info_offset_addr : Z) : bool :=
  if unsupported_protocol_ver protocol_ver then false
  else if negb (recv_len =? dl + CL_CCIEFB_REQ_HEADER_DL_OFFSET) then false
  else if negb (recv_len =? cl_calculate_cyclic_request_size slave_total_occupied_station_count)
  then false
  else if negb (cyclic_info_offset_addr =? CL_CCIEFB_CYCLIC_REQ_CYCLIC_OFFSET) then false
  else true.

Definition cl_iefb_parse_req_full_cyclic_headers (buffer : list Z) (recv_len : Z)
  : option cl_cciefb_cyclic_req_full_headers :=
  if recv_len <? sizeof c_cl_cciefb_cyclic_req_full_headers then None
  else Some (read_at c_cl_cciefb_cyclic_req_full_headers buffer 0).

Definition cl_iefb_validate_req_full_cyclic_headers
  (h : cl_cciefb_cyclic_req_full_headers) (recv_len remote_ip : Z) : bool :=
  if negb (cl_iefb_validate_cyclic_request_header (fq_cyclic_header h)) then false
  else if negb (cl_iefb_validate_master_station_notification
                  (fq_master_station_notification h)
                  (cqh_protocol_ver (fq_cyclic_header h))) then false
  else if negb (cl_iefb_validate_req_cyclic_data_header (fq_cyclic_data_header h) remote_ip)
  then false
  else if negb (cl_iefb_validate_req_cyclic_frame_size
                  (cqh_protocol_ver (fq_cyclic_header h)) recv_len
                  (rqh_dl (fq_req_header h))
                  (qdh_slave_total_occupied_station_count (fq_cyclic_data_header h))
                  (cqh_cyclic_info_offset_addr (fq_cyclic_header h))) then false
  else true.

Definition cl_iefb_parse_cyclic_request
  (buffer : list Z) (recv_len remote_ip remote_port local_ip : Z)
  : outcome (option cls_cciefb_cyclic_request_info) :=
  match cl_iefb_parse_req_full_cyclic_headers buffer recv_len with
  | None => Done None
  | Some h =>
      if negb (cl_iefb_validate_req_full_cyclic_headers h recv_len remote_ip)
      then Done None
      else
        match cl_iefb_parse_request_cyclic_data recv_len
          (qdh_slave_total_occupied_station_count (fq_cyclic_data_header h)) with
        | None => AssertFailed
        | Some (first_slave_id, first_rww, first_ry) =>
            Done (Some (ClsRequestInfo remote_ip remote_port local_ip h buffer
                          first_slave_id (Some first_rww) (Some first_ry)))
        end
  end.

(** ** Access to the parts of a request *)

Definition cl_iefb_request_get_area (request : cls_cciefb_cyclic_request_info)
  (first : option Z) (area_size abs_slave_station : Z) : option Z :=
  let total := qdh_slave_total_occupied_station_count
                 (fq_cyclic_data_header (rq_full_headers request)) in
  if bad_station_count abs_slave_station || (total <? abs_slave_station) then None
  else match first with
       | None => None
       | Some p => Some (p + (abs_slave_station - 1) * area_size)
       end.

Definition cl_iefb_request_get_rww (request : cls_cciefb_cyclic_request_info)
  (abs_slave_station : Z) : option Z :=
  cl_iefb_request_get_area request (rq_first_rww request) sizeof_rww abs_slave_station.

Definition cl_iefb_request_get_ry (request : cls_cciefb_cyclic_request_info)
  (abs_slave_station : Z) : option Z :=
  cl_iefb_request_get_area request (rq_first_ry request) sizeof_ry abs_slave_station.

Definition cl_iefb_request_get_slave_id (buffer : list Z) (first_slave_id : Z)
  (abs_slave_station total_occupied : Z) : option Z :=
  if bad_station_count total_occupied then None
  else if bad_station_count abs_slave_station || (total_occupied <? abs_slave_station)
  then None
  else Some (read_at c_u32le buffer (first_slave_id + (abs_slave_station - 1) * 4)).

(** The search loop, one step per station; [None] is [goto error].  The
    state is the three result parameters and [look_for_multistation]. *)
Fixpoint analyze_slave_ids_loop (buffer : list Z) (first_slave_id my_slave_id total_occupied : Z)
  (n : nat) (abs_slave_station : Z) (found : bool) (station_no count : Z)
  (look_for_multistation : bool) : option (bool * Z * Z) :=
  match n with
  | O => Some (found, station_no, count)
  | S n =>
      match cl_iefb_request_get_slave_id buffer first_slave_id abs_slave_station
              total_occupied with
      | None => None
      | Some req_slave_id =>
          let continue := analyze_slave_ids_loop buffer first_slave_id my_slave_id
                            total_occupied n (abs_slave_station + 1) in
          if req_slave_id =? my_slave_id then
            if found then None else continue true abs_slave_station 1 true
          else if look_for_multistation then
            if req_slave_id =? CL_CCIEFB_MULTISTATION_INDICATOR
            then continue found station_no (u16 (count + 1)) true
            else continue found station_no count false
          else continue found station_no count false
      end
  end.

(** Found, station number, implied number of occupied stations. *)
Definition cl_iefb_analyze_slave_ids (my_slave_id total_occupied : Z)
  (buffer : list Z) (request_first_slave_id : Z) : option (bool * Z * Z) :=
  if my_slave_id =? CL_IPADDR_INVALID then None
  else if total_occupied <? CL_CCIEFB_MIN_OCCUPIED_STATIONS_PER_GROUP then None
  else analyze_slave_ids_loop buffer request_first_slave_id my_slave_id total_occupied
         (Z.to_nat total_occupied) 1 false 0 0 false.

(** ** Transmission state, timeouts and area numbers *)

Definition cl_iefb_set_cyclic_transmission_state
  (cyclic_transmission_state slave_station_no : Z) (state : bool) : Z :=
  if (slave_station_no =? 0) || (CL_CCIEFB_MAX_OCCUPIED_STATIONS_PER_GROUP <? slave_station_no)
  then cyclic_transmission_state
  else
    let mask := Z.land (BIT (slave_station_no - 1)) UINT16_MAX in
    if state then u16 (Z.lor cyclic_transmission_state mask)
    else u16 (Z.land cyclic_transmission_state (Z.lnot mask)).

Definition cl_iefb_extract_my_transmission_state
  (cyclic_transmission_state my_slave_station_no : Z) : bool :=
  if bad_station_count my_slave_station_no then false
  else
    let mask := Z.land (BIT (my_slave_station_no - 1)) UINT16_MAX in
    0 <? Z.land cyclic_transmission_state mask.

Definition cl_calculate_total_timeout_us
  (timeout_value parallel_off_timeout_count : Z) : Z :=
  let timeout := if timeout_value <? CL_CCIEFB_MIN_TIMEOUT
                 then CL_CCIEFB_DEFAULT_TIMEOUT else timeout_value in
  let count := if parallel_off_timeout_count <? CL_CCIEFB_MIN_TIMEOUT_COUNT
               then CL_CCIEFB_DEFAULT_TIMEOUT_COUNT else parallel_off_timeout_count in
  u64 (u32 (timeout * count) * CL_TIMER_MICROSECONDS_PER_MILLISECOND).

(** Area number, byte in the area, mask of the bit in the byte. *)
Definition cl_iefb_bit_calculate_areanumber (number : Z) : Z * Z * Z :=
  let bitnumber := Z.land number 0x07 in
  let bitmask := Z.land (BIT bitnumber) UINT8_MAX in
  let byte_in_area := Z.land (Z.shiftr number 3) 0x07 in
  (Z.shiftr number 6, byte_in_area, bitmask).

(** Area number, register in the area. *)
Definition cl_iefb_register_calculate_areanumber (number : Z) : Z * Z :=
  (Z.shiftr number 5, Z.land number 0x1F).

(** ** Building responses *)

Definition cl_is_slave_endcode_valid (end_code : Z) : bool :=
  (end_code =? CL_SLMP_ENDCODE_SUCCESS) ||
  (end_code =? CL_SLMP_ENDCODE_CCIEFB_MASTER_DUPLICATION) ||
  (end_code =? CL_SLMP_ENDCODE_CCIEFB_WRONG_NUMBER_OCCUPIED_STATIONS) ||
  (end_code =? CL_SLMP_ENDCODE_CCIEFB_SLAVE_ERROR) ||
  (end_code =? CL_SLMP_ENDCODE_CCIEFB_SLAVE_REQUESTS_DISCONNECT).

Definition cl_iefb_initialise_cyclic_response_frame
  (buffer : list Z) (buf_size occupied_stations vendor_code model_code equipment_ver : Z)
  : outcome cls_cciefb_cyclic_response_info :=
  let udp_payload_len := cl_calculate_cyclic_response_size occupied_stations in
  if buf_size <? udp_payload_len then AssertFailed else
  let buffer := splice 0 (zeros (Z.to_nat buf_size)) buffer in
  let buffer := poke c_cl_cciefb_cyclic_resp_full_headers (fun h => h
    <| fs_resp_header := CciefbRespHeader
         CL_CCIEFB_RESP_HEADER_RESERVED1 CL_CCIEFB_RESP_HEADER_RESERVED2
         CL_CCIEFB_RESP_HEADER_RESERVED3 CL_CCIEFB_RESP_HEADER_RESERVED4
         CL_CCIEFB_RESP_HEADER_RESERVED5
         (u16 (Z.land udp_payload_len UINT16_MAX - CL_CCIEFB_RESP_HEADER_DL_OFFSET))
         CL_CCIEFB_RESP_HEADER_RESERVED6 |>
    <| fs_cyclic_header := CciefbCyclicRespHeader
         CL_CCIEFB_MAX_SUPPORTED_PROTOCOL_VER CL_SLMP_ENDCODE_SUCCESS
         CL_CCIEFB_CYCLIC_RESP_CYCLIC_OFFSET (zeros 14) |>
    <| fs_slave_station_notification := CciefbSlaveStationNotification
         vendor_code CL_CCIEFB_SLAVE_STATION_NOTIFICATION_RESERVED1 model_code
         equipment_ver CL_CCIEFB_SLAVE_STATION_NOTIFICATION_RESERVED2
         CL_SLAVE_APPL_OPERATION_STATUS_OPERATING
         CL_CCIEFB_SLAVE_STATION_NOTIFICATION_DEFAULT_SLAVE_ERR_CODE
         CL_CCIEFB_SLAVE_STATION_NOTIFICATION_DEFAULT_LOCAL_MANAG_INFO |>
    <| fs_cyclic_data_header ::= (fun d => d
         <| sdh_group_no := 0 |>
         <| sdh_reserved2 := CL_CCIEFB_CYCLIC_RESP_DATA_HEADER_RESERVED2 |>
         <| sdh_frame_sequence_no := 0 |>) |>) buffer in
  let first_rwr := sizeof c_cl_cciefb_cyclic_resp_full_headers in
  let first_rx := first_rwr + occupied_stations * sizeof_rwr in
  let pos := first_rx + occupied_stations * sizeof_rx in
  if buf_size <? pos then AssertFailed else
  Done (ClsResponseInfo buffer buf_size udp_payload_len first_rwr first_rx).

Definition cl_iefb_update_cyclic_response_frame
  (frame_info : cls_cciefb_cyclic_response_info)
  (slave_id end_code group_no frame_sequence_no slave_local_unit_info slave_err_code
   local_management_info : Z) : cls_cciefb_cyclic_response_info :=
  frame_info <| ri_buffer ::= poke c_cl_cciefb_cyclic_resp_full_headers (fun h => h
    <| fs_cyclic_header ::= (fun c => c <| csh_end_code := u16 end_code |>) |>
    <| fs_slave_station_notification ::= (fun n => n
         <| ssn_slave_local_unit_info := u16 slave_local_unit_info |>
         <| ssn_slave_err_code := slave_err_code |>
         <| ssn_local_management_info := local_management_info |>) |>
    <| fs_cyclic_data_header ::= (fun d => d
         <| sdh_slave_id := slave_id |>
         <| sdh_group_no := Z.land group_no UINT8_MAX |>
         <| sdh_frame_sequence_no := frame_sequence_no |>) |>) |>.

(** Byte offset of an RX or RWr area in the response frame. *)
Definition cl_iefb_get_rx_area (frame_info : cls_cciefb_cyclic_response_info)
  (area_number : Z) : Z := ri_first_rx frame_info + area_number * sizeof_rx.

Definition cl_iefb_get_rwr_area (frame_info : cls_cciefb_cyclic_response_info)
  (area_number : Z) : Z := ri_first_rwr frame_info + area_number * sizeof_rwr.

(** ** Parsing and validating responses *)

Definition cl_iefb_parse_response_header (buffer : list Z) (recv_len : Z)
  : option cl_cciefb_resp_header :=
  if recv_len <? sizeof c_cl_cciefb_resp_header then None
  else Some (read_at c_cl_cciefb_resp_header buffer 0).

Definition cl_iefb_validate_response_header (header : cl_cciefb_resp_header) (recv_len : Z)
  : bool :=
  if negb (rsh_dl header + CL_CCIEFB_RESP_HEADER_DL_OFFSET =? recv_len) then false
  else if
    negb (rsh_reserved1 header =? CL_CCIEFB_RESP_HEADER_RESERVED1) ||
    negb (rsh_reserved2 header =? CL_CCIEFB_RESP_HEADER_RESERVED2) ||
    negb (rsh_reserved3 header =? CL_CCIEFB_RESP_HEADER_RESERVED3) ||
    negb (rsh_reserved4 header =? CL_CCIEFB_RESP_HEADER_RESERVED4) ||
    negb (rsh_reserved5 header =? CL_CCIEFB_RESP_HEADER_RESERVED5) ||
    negb (rsh_reserved6 header =? CL_CCIEFB_REQ_HEADER_RESERVED6)
  then false else true.

Definition cl_iefb_parse_resp_full_cyclic_headers (buffer : list Z) (recv_len : Z)
  : option cl_cciefb_cyclic_resp_full_headers :=
  if recv_len <? sizeof c_cl_cciefb_cyclic_resp_full_headers then None
  else Some (read_at c_cl_cciefb_cyclic_resp_full_headers buffer 0).

Definition cl_iefb_validate_cyclic_resp_header
  (cyclic_header : cl_cciefb_cyclic_resp_header) : bool :=
  if unsupported_protocol_ver (csh_protocol_ver cyclic_header) then false
  else if negb (csh_cyclic_info_offset_addr cyclic_header =? CL_CCIEFB_CYCLIC_RESP_CYCLIC_OFFSET)
  then false
  else forallb (fun b => b =? CL_CCIEFB_CYCLIC_RESP_HEADER_RESERVED1)
         (csh_reserved1 cyclic_header).

Definition cl_iefb_validate_slave_station_notification
  (n : cl_cciefb_slave_station_notification) : bool :=
  if 0 <? Z.land (ssn_slave_local_unit_info n)
            CL_CCIEFB_SLAVE_STATION_NOTIFICATION_MASK_BITS then false
  else if
    negb (ssn_reserved1 n =? CL_CCIEFB_SLAVE_STATION_NOTIFICATION_RESERVED1) ||
    negb (ssn_reserved2 n =? CL_CCIEFB_SLAVE_STATION_NOTIFICATION_RESERVED2)
  then false else true.

Definition cl_iefb_validate_resp_cyclic_data_header
  (d : cl_cciefb_cyclic_resp_data_header) (remote_ip : Z) : bool :=
  if (sdh_group_no d <? CL_CCIEFB_MIN_GROUP_NO) || (CL_CCIEFB_MAX_GROUP_NO <? sdh_group_no d)
  then false
  else if negb (sdh_reserved2 d =? CL_CCIEFB_CYCLIC_RESP_DATA_HEADER_RESERVED2) then false
  else if (sdh_slave_id d =? CL_IPADDR_INVALID) || negb (sdh_slave_id d =? remote_ip)
  then false
  else true.

Definition cl_iefb_validate_resp_cyclic_frame_size (protocol_ver recv_len dl : Z) : bool :=
  if unsupported_protocol_ver protocol_ver then false
  else if negb (recv_len =? dl + CL_CCIEFB_REQ_HEADER_DL_OFFSET) then false
  else true.

Definition cl_iefb_validate_resp_full_cyclic_headers
  (h : cl_cciefb_cyclic_resp_full_headers) (recv_len remote_ip : Z) : bool :=
  if negb (cl_iefb_validate_cyclic_resp_header (fs_cyclic_header h)) then false
  else if negb (cl_iefb_validate_slave_station_notification
                  (fs_slave_station_notification h)) then false
  else if negb (cl_iefb_validate_resp_cyclic_data_header (fs_cyclic_data_header h) remote_ip)
  then false
  else if negb (cl_iefb_validate_resp_cyclic_frame_size
                  (csh_protocol_ver (fs_cyclic_header h)) recv_len
                  (rsh_dl (fs_resp_header h))) then false
  else true.

(** Offsets of the first RWr area and the first RX area. *)
Definition cl_iefb_parse_response_cyclic_data (recv_len number_of_occupied_stations : Z)
  : option (Z * Z) :=
  let pos := sizeof c_cl_cciefb_cyclic_resp_full_headers in
  if bad_station_count number_of_occupied_stations then None else
  let first_rwr := pos in
  let pos := pos + number_of_occupied_stations * sizeof_rwr in
  let first_rx := pos in
  let pos := pos + number_of_occupied_stations * sizeof_rx in
  if recv_len <? pos then None else Some (first_rwr, first_rx).

Definition cl_iefb_parse_cyclic_response
  (buffer : list Z) (recv_len remote_ip remote_port now : Z)
  : outcome (option clm_cciefb_cyclic_response_info) :=
  match cl_iefb_parse_resp_full_cyclic_headers buffer recv_len with
  | None => Done None
  | Some h =>
      if negb (cl_iefb_validate_resp_full_cyclic_headers h recv_len remote_ip)
      then Done None
      else
        let number_of_occupied_stations :=
          cl_calculate_number_of_occupied_stations recv_len in
        if number_of_occupied_stations =? 0 then Done None
        else
          match cl_iefb_parse_response_cyclic_data recv_len number_of_occupied_stations with
          | None => AssertFailed
          | Some (first_rwr, first_rx) =>
              Done (Some (ClmResponseInfo remote_port remote_ip
                            number_of_occupied_stations now h buffer first_rwr first_rx))
          end
  end.
