(* ===== verification/IefbFacts.v ===== *)
(** * Properties of the cyclic frames

    Sizes, safety of the two parsers, the station search, the bit fields and
    the round trips between the frames one side builds and the other side
    parses. *)

From S2P Require Import Prelude Packed Timer Util Types Iefb.

(** ** Reference definitions *)

(** The slave ids of a request, in host order. *)
Definition slave_ids (buffer : list Z) (first_slave_id total : Z) : list Z :=
  map (fun i => read_at c_u32le buffer (first_slave_id + i * 4)) (seqZ 0 total).

(** Length of the longest prefix of entries equal to [x]. *)
Fixpoint run_length (x : Z) (l : list Z) : Z :=
  match l with
  | y :: l => if y =? x then 1 + run_length x l else 0
  | [] => 0
  end.

(** Where a slave is in a list of ids, and how many stations it is given:
    itself and the multistation entries that follow it. *)
Fixpoint locate_slave (my_slave_id : Z) (pos : Z) (ids : list Z) : option (bool * Z * Z) :=
  match ids with
  | [] => Some (false, 0, 0)
  | id :: ids =>
      if id =? my_slave_id then
        if existsb (Z.eqb my_slave_id) ids then None
        else Some (true, pos, 1 + run_length CL_CCIEFB_MULTISTATION_INDICATOR ids)
      else locate_slave my_slave_id (pos + 1) ids
  end.

(** ** Sizes *)

Lemma request_size n : cl_calculate_cyclic_request_size n = 67 + 76 * n.
Proof.
  unfold cl_calculate_cyclic_request_size, sizeof, sizeof_ipaddr, sizeof_rww, sizeof_ry.
  cbn. lia.
Qed.

Lemma response_size n : cl_calculate_cyclic_response_size n = 59 + 72 * n.
Proof.
  unfold cl_calculate_cyclic_response_size, sizeof, sizeof_rwr, sizeof_rx. cbn. lia.
Qed.

Lemma req_headers_size : sizeof c_cl_cciefb_cyclic_req_full_headers = 67.
Proof. reflexivity. Qed.
Lemma resp_headers_size : sizeof c_cl_cciefb_cyclic_resp_full_headers = 59.
Proof. reflexivity. Qed.

Lemma bad_station_count_false n : bad_station_count n = false <-> 1 <= n <= 16.
Proof.
  unfold bad_station_count, CL_CCIEFB_MIN_OCCUPIED_STATIONS_PER_GROUP,
    CL_CCIEFB_MAX_OCCUPIED_STATIONS_PER_GROUP.
  rewrite orb_false_iff, !Z.ltb_ge. lia.
Qed.

Lemma unsupported_protocol_ver_false v :
  unsupported_protocol_ver v = false <-> 1 <= v <= 2.
Proof.
  unfold unsupported_protocol_ver, CL_CCIEFB_MIN_SUPPORTED_PROTOCOL_VER,
    CL_CCIEFB_MAX_SUPPORTED_PROTOCOL_VER.
  rewrite orb_false_iff, !Z.ltb_ge. lia.
Qed.

Lemma occupied_stations_eq (size n : Z) : is_u64 size -> 0 < n ->
  cl_calculate_number_of_occupied_stations size = n <->
  n <= 65535 /\ size = cl_calculate_cyclic_response_size n.
Proof.
  intros Hs Hn. unfold cl_calculate_number_of_occupied_stations, UINT16_MAX.
  rewrite !response_size. change 0xFFFF with (2 ^ 16 - 1).
  rewrite land_low_mask by lia.
  set (occ := (u64 (size - 59) / 72) mod 2 ^ 16).
  assert (Hocc : 0 <= occ < 2 ^ 16) by (apply Z.mod_pos_bound; lia).
  unfold is_u64 in Hs. unfold u64.
  destruct (Z.eqb_spec ((size - (59 + 72 * occ)) mod 2 ^ 64) 0) as [Hr|Hr]; simpl negb; cbn iota.
  - assert (size = 59 + 72 * occ) by (Z.to_euclidean_division_equations; lia). lia.
  - split; [lia|]. intros [Hn2 ->]. exfalso. apply Hr. unfold occ, u64.
    rewrite (Z.mod_small (59 + 72 * n - 59)) by lia.
    replace ((59 + 72 * n - 59) / 72) with n by (Z.to_euclidean_division_equations; lia).
    rewrite (Z.mod_small n) by lia. rewrite Z.sub_diag. reflexivity.
Qed.

(** The number of occupied stations computed from the size of a response
    inverts the size computation, for every possible size: the result is
    [n], not zero, exactly when [n] is a 16-bit count and the size is the
    size of a response with [n] stations.  In particular sizes below the
    fixed part, for which the unsigned subtraction in the code wraps around,
    and sizes with a remainder give zero. *)
Lemma occupied_stations_inverts_size (size n : Z) : is_u64 size -> 0 < n ->
  cl_calculate_number_of_occupied_stations size = n <->
  n <= 65535 /\ size = cl_calculate_cyclic_response_size n.
Proof. apply occupied_stations_eq. Qed.

Lemma occupied_stations_inverts_size_witness :
  is_u64 1211 /\ 0 < 16 /\
  (cl_calculate_number_of_occupied_stations 1211 = 16 <->
   16 <= 65535 /\ 1211 = cl_calculate_cyclic_response_size 16).
Proof.
  split; [unfold is_u64; lia|]. split; [lia|].
  apply (occupied_stations_inverts_size 1211 16); unfold is_u64; lia.
Defined.

(** ** The parser of requests *)

(** Everything a validated request is known to satisfy. *)
Lemma validate_req_full_inv h recv_len remote_ip :
  cl_iefb_validate_req_full_cyclic_headers h recv_len remote_ip = true ->
  let d := fq_cyclic_data_header h in
  1 <= qdh_slave_total_occupied_station_count d <= 16 /\
  1 <= qdh_group_no d <= 64 /\
  qdh_master_id d = remote_ip /\ remote_ip <> CL_IPADDR_INVALID /\
  1 <= cqh_protocol_ver (fq_cyclic_header h) <= 2 /\
  recv_len = rqh_dl (fq_req_header h) + CL_CCIEFB_REQ_HEADER_DL_OFFSET /\
  recv_len = cl_calculate_cyclic_request_size (qdh_slave_total_occupied_station_count d).
Proof.
  unfold cl_iefb_validate_req_full_cyclic_headers, cl_iefb_validate_cyclic_request_header,
    cl_iefb_validate_master_station_notification, cl_iefb_validate_req_cyclic_data_header,
    cl_iefb_validate_req_cyclic_frame_size.
  repeat (case_match; simpl in *; try discriminate).
  all: intros _; rewrite ?negb_false_iff, ?negb_true_iff, ?orb_false_iff in *;
    destruct_and?; rewrite ?negb_false_iff in *;
    repeat match goal with
    | H : unsupported_protocol_ver _ = false |- _ => apply unsupported_protocol_ver_false in H
    | H : (_ =? _) = true |- _ => apply Z.eqb_eq in H
    | H : (_ =? _) = false |- _ => apply Z.eqb_neq in H
    | H : (_ <? _) = false |- _ => apply Z.ltb_ge in H
    end;
    unfold CL_CCIEFB_MIN_OCCUPIED_STATIONS_PER_GROUP, CL_CCIEFB_MAX_OCCUPIED_STATIONS_PER_GROUP,
      CL_CCIEFB_MIN_GROUP_NO, CL_CCIEFB_MAX_GROUP_NO, CL_IPADDR_INVALID in *;
    repeat split; congruence || lia.
Qed.

Lemma parse_request_cyclic_data_ok recv_len n :
  1 <= n <= 16 -> recv_len = cl_calculate_cyclic_request_size n ->
  cl_iefb_parse_request_cyclic_data recv_len n = Some (67, 67 + 4 * n, 67 + 68 * n).
Proof.
  intros Hn ->. unfold cl_iefb_parse_request_cyclic_data.
  rewrite (proj2 (bad_station_count_false n) Hn), request_size, req_headers_size.
  unfold sizeof_ipaddr, sizeof_rww, sizeof_ry.
  destruct (Z.ltb_spec (67 + 76 * n) (67 + n * 4 + n * 64 + n * 8)); [lia|].
  do 2 f_equal; [f_equal|]; lia.
Qed.

(** C26: Parsing an incoming request is memory safe and never stops at its
    assertion, for any buffer contents and length.  An accepted request has
    1 to 16 stations, a group number from 1 to 64, the protocol version 1 or
    2, the sender's own address as the master id, and the slave ids, the RWw
    areas and the RY areas of all its stations fill the rest of the received
    bytes exactly. *)
Theorem parse_cyclic_request_safe (buffer : list Z) (recv_len remote_ip remote_port local_ip : Z) :
  match cl_iefb_parse_cyclic_request buffer recv_len remote_ip remote_port local_ip with
  | AssertFailed => False
  | Done None => True
  | Done (Some request) =>
      let d := fq_cyclic_data_header (rq_full_headers request) in
      let n := qdh_slave_total_occupied_station_count d in
      1 <= n <= 16 /\ 1 <= qdh_group_no d <= 64 /\
      1 <= cqh_protocol_ver (fq_cyclic_header (rq_full_headers request)) <= 2 /\
      qdh_master_id d = remote_ip /\ remote_ip <> CL_IPADDR_INVALID /\
      rq_first_slave_id request = sizeof c_cl_cciefb_cyclic_req_full_headers /\
      rq_first_rww request = Some (rq_first_slave_id request + n * sizeof_ipaddr) /\
      rq_first_ry request =
        Some (rq_first_slave_id request + n * sizeof_ipaddr + n * sizeof_rww) /\
      rq_first_slave_id request + n * sizeof_ipaddr + n * sizeof_rww + n * sizeof_ry = recv_len
  end.
Proof.
  unfold cl_iefb_parse_cyclic_request.
  destruct (cl_iefb_parse_req_full_cyclic_headers buffer recv_len) as [h|]; [|exact I].
  destruct (cl_iefb_validate_req_full_cyclic_headers h recv_len remote_ip) eqn:Hv;
    simpl negb; cbn iota; [|exact I].
  apply validate_req_full_inv in Hv as (Hn & Hg & Hid & Hip & Hver & _ & Hsize).
  rewrite (parse_request_cyclic_data_ok _ _ Hn Hsize).
  rewrite request_size in Hsize. cbn [rq_full_headers rq_first_slave_id rq_first_rww rq_first_ry].
  rewrite req_headers_size. unfold sizeof_ipaddr, sizeof_rww, sizeof_ry.
  repeat split; try assumption; try lia; f_equal; lia.
Qed.

(** ** The parser of responses *)

(** C27: Parsing an incoming response stops at an assertion, that is, aborts
    the master, for every well-formed response that claims 17 to 20 occupied
    stations and fits the 1500-byte receive buffer.  The comment at the
    assertion says that this was excluded earlier; the validation of response
    headers does not look at the number of stations.  No other response
    reaches the assertion. *)
Theorem parse_cyclic_response_assert_iff
  (buffer : list Z) (recv_len remote_ip remote_port now : Z) :
  0 <= recv_len <= CL_BUFFER_LEN ->
  cl_iefb_parse_cyclic_response buffer recv_len remote_ip remote_port now = AssertFailed <->
  cl_iefb_validate_resp_full_cyclic_headers
    (read_at c_cl_cciefb_cyclic_resp_full_headers buffer 0) recv_len remote_ip = true /\
  exists n, 17 <= n <= 20 /\ recv_len = cl_calculate_cyclic_response_size n.
Proof.
  intros Hlen. unfold CL_BUFFER_LEN in Hlen.
  unfold cl_iefb_parse_cyclic_response, cl_iefb_parse_resp_full_cyclic_headers.
  rewrite resp_headers_size.
  pose proof (occupied_stations_eq recv_len) as Hinv.
  destruct (Z.ltb_spec recv_len 59) as [Hs|Hs].
  { split; [discriminate|]. intros (_ & n & Hn & ->). rewrite response_size in *. lia. }
  destruct (cl_iefb_validate_resp_full_cyclic_headers _ _ _); simpl negb; cbn iota;
    [|split; [discriminate | intros [[=] _]]].
  destruct (Z.eqb_spec (cl_calculate_number_of_occupied_stations recv_len) 0) as [H0|H0].
  { split; [discriminate|]. intros (_ & n & Hn & Hsz).
    specialize (Hinv n ltac:(unfold is_u64; lia) ltac:(lia)). lia. }
  set (n := cl_calculate_number_of_occupied_stations recv_len) in *.
  assert (Hn : 0 < n).
  { assert (0 <= n); [|lia]. unfold n, cl_calculate_number_of_occupied_stations.
    case_match; [lia|]. unfold UINT16_MAX. change 0xFFFF with (2 ^ 16 - 1).
    rewrite land_low_mask by lia. apply Z.mod_pos_bound. lia. }
  destruct (proj1 (Hinv n ltac:(unfold is_u64; lia) Hn) eq_refl) as [Hn2 Hsz].
  rewrite response_size in Hsz. unfold cl_iefb_parse_response_cyclic_data.
  rewrite resp_headers_size. unfold sizeof_rwr, sizeof_rx.
  destruct (bad_station_count n) eqn:Hb.
  - split; [|reflexivity]. intros _. split; [reflexivity|]. exists n.
    rewrite response_size. split; [|assumption].
    enough (~ 1 <= n <= 16) by lia. rewrite <- bad_station_count_false. congruence.
  - apply bad_station_count_false in Hb.
    destruct (Z.ltb_spec recv_len (59 + n * 64 + n * 8)); [lia|].
    split; [discriminate|]. intros (_ & m & Hm & Hsz'). rewrite response_size in Hsz'. lia.
Qed.

(** A response with 17 stations from 192.168.3.101, group 1. *)
Definition oversized_response : list Z :=
  c_enc c_cl_cciefb_cyclic_resp_full_headers
    (CciefbCyclicRespFullHeaders
       (CciefbRespHeader 0xD000 0 0xFF 0x03FF 0 (59 + 72 * 17 - 9) 0)
       (CciefbCyclicRespHeader 2 0 40 (zeros 14))
       (CciefbSlaveStationNotification 0x1234 0 1 1 0 1 0 0)
       (CciefbCyclicRespDataHeader 0xC0A80365 1 0 0)) ++ zeros (72 * 17).

Lemma parse_cyclic_response_assert_iff_witness :
  0 <= 1283 <= CL_BUFFER_LEN /\
  cl_iefb_parse_cyclic_response oversized_response 1283 0xC0A80365 61450 0 = AssertFailed.
Proof.
  assert (H : 0 <= 1283 <= CL_BUFFER_LEN) by (unfold CL_BUFFER_LEN; lia).
  split; [exact H|].
  apply (parse_cyclic_response_assert_iff oversized_response 1283 0xC0A80365 61450 0 H).
  split; [vm_compute; reflexivity|]. exists 17. split; [lia|reflexivity].
Defined.

(** ** The search for a slave among the ids of a request *)

Lemma slave_id_in_range buffer first total i :
  1 <= total <= 16 -> 1 <= i <= total ->
  cl_iefb_request_get_slave_id buffer first i total =
    Some (read_at c_u32le buffer (first + (i - 1) * 4)).
Proof.
  intros Ht Hi. unfold cl_iefb_request_get_slave_id.
  rewrite (proj2 (bad_station_count_false total) Ht).
  rewrite (proj2 (bad_station_count_false i)) by lia. simpl.
  destruct (Z.ltb_spec total i); [lia|reflexivity].
Qed.

Lemma slave_id_bad_total buffer first total i :
  bad_station_count total = true -> cl_iefb_request_get_slave_id buffer first i total = None.
Proof. intros H. unfold cl_iefb_request_get_slave_id. rewrite H. reflexivity. Qed.

Lemma run_length_bounds x l : 0 <= run_length x l <= Z.of_nat (length l).
Proof. induction l as [|y l IH]; simpl; [lia|]. destruct (y =? x); lia. Qed.

(** The loop over the part of the ids that is still to be visited. *)
Section SearchLoop.
Context (buffer : list Z) (first my total : Z).
Hypothesis total_ok : 1 <= total <= 16.

Let loop := analyze_slave_ids_loop buffer first my total.
Let rest (abs : Z) (n : nat) : list Z :=
  map (fun i => read_at c_u32le buffer (first + i * 4)) (seqZ (abs - 1) (Z.of_nat n)).

Lemma rest_cons abs n :
  rest abs (S n) = read_at c_u32le buffer (first + (abs - 1) * 4) :: rest (abs + 1) n.
Proof.
  unfold rest. rewrite Nat2Z.inj_succ, <- Z.add_1_r, Z.add_1_r, seqZ_cons by lia.
  simpl. do 2 f_equal. f_equal; lia.
Qed.

Lemma loop_step abs n found no cnt look : 1 <= abs <= total ->
  loop (S n) abs found no cnt look =
    let id := read_at c_u32le buffer (first + (abs - 1) * 4) in
    if id =? my then if found then None else loop n (abs + 1) true abs 1 true
    else if look then
      if id =? CL_CCIEFB_MULTISTATION_INDICATOR
      then loop n (abs + 1) found no (u16 (cnt + 1)) true
      else loop n (abs + 1) found no cnt false
    else loop n (abs + 1) found no cnt false.
Proof.
  intros Habs. unfold loop. cbn [analyze_slave_ids_loop].
  rewrite slave_id_in_range by lia. reflexivity.
Qed.

Lemma loop_found n : forall abs no cnt look,
  1 <= abs -> abs + Z.of_nat n = total + 1 -> 0 <= cnt -> cnt + Z.of_nat n < 2 ^ 16 ->
  loop n abs true no cnt look =
    (if existsb (Z.eqb my) (rest abs n) then None
     else Some (true, no, cnt + (if look : bool then run_length CL_CCIEFB_MULTISTATION_INDICATOR
                                        (rest abs n) else 0))).
Proof.
  induction n as [|n IH]; intros abs no cnt look Habs Hn Hc0 Hc.
  - unfold loop, rest. simpl. destruct look; rewrite Z.add_0_r; reflexivity.
  - rewrite loop_step, rest_cons by lia. cbn [existsb run_length].
    set (id := read_at c_u32le buffer (first + (abs - 1) * 4)).
    rewrite (Z.eqb_sym my id). destruct (id =? my); [reflexivity|]. simpl orb.
    destruct look; [destruct (id =? CL_CCIEFB_MULTISTATION_INDICATOR)|].
    + rewrite (u16_id (cnt + 1)) by (unfold is_u16; lia).
      rewrite IH by lia. destruct (existsb _ _); [reflexivity|]. do 2 f_equal. lia.
    + rewrite IH by lia. reflexivity.
    + rewrite IH by lia. reflexivity.
Qed.

Lemma loop_searching n : forall abs,
  1 <= abs -> abs + Z.of_nat n = total + 1 ->
  loop n abs false 0 0 false = locate_slave my abs (rest abs n).
Proof.
  induction n as [|n IH]; intros abs Habs Hn; [reflexivity|].
  rewrite loop_step, rest_cons by lia. cbn [locate_slave].
  destruct (_ =? my); [|apply IH; lia].
  rewrite loop_found by lia. reflexivity.
Qed.
End SearchLoop.

Lemma analyze_slave_ids_eq my total buffer first :
  cl_iefb_analyze_slave_ids my total buffer first =
    if (my =? CL_IPADDR_INVALID) || bad_station_count total then None
    else locate_slave my 1 (slave_ids buffer first total).
Proof.
  unfold cl_iefb_analyze_slave_ids. destruct (my =? CL_IPADDR_INVALID); [reflexivity|]. simpl.
  destruct (bad_station_count total) eqn:Hb.
  - destruct (Z.ltb_spec total CL_CCIEFB_MIN_OCCUPIED_STATIONS_PER_GROUP) as [|Hmin]; [reflexivity|].
    unfold CL_CCIEFB_MIN_OCCUPIED_STATIONS_PER_GROUP in Hmin.
    destruct (Z.to_nat total) as [|n] eqn:Hn; [lia|].
    cbn [analyze_slave_ids_loop]. rewrite slave_id_bad_total by assumption. reflexivity.
  - apply bad_station_count_false in Hb.
    destruct (Z.ltb_spec total CL_CCIEFB_MIN_OCCUPIED_STATIONS_PER_GROUP) as [Hlt|_];
      [unfold CL_CCIEFB_MIN_OCCUPIED_STATIONS_PER_GROUP in Hlt; lia|].
    rewrite loop_searching by lia. unfold slave_ids.
    rewrite Z2Nat.id by lia. reflexivity.
Qed.

(** C29: The search for the slave's own id in a request, a loop with several
    flags, computes what it should.  It fails when the slave has no address,
    when the number of stations is not 1 to 16 and when the id occurs twice;
    otherwise it reports whether the id occurs, the station number it occurs
    at, and one plus the number of multistation entries right behind it. *)
Theorem analyze_slave_ids_spec (my total : Z) (buffer : list Z) (first : Z) :
  cl_iefb_analyze_slave_ids my total buffer first =
    if (my =? CL_IPADDR_INVALID) || bad_station_count total then None
    else locate_slave my 1 (slave_ids buffer first total).
Proof. apply analyze_slave_ids_eq. Qed.

(** The search in a list that gives the slave its stations and nobody else
    its address. *)
Lemma run_length_repeat x k l : match l with y :: _ => y <> x | [] => True end ->
  run_length x (replicate k x ++ l) = Z.of_nat k.
Proof.
  intros Hl. induction k as [|k IH]; [|cbn [replicate app run_length]; rewrite Z.eqb_refl, IH; lia].
  destruct l as [|y l]; [reflexivity|]. cbn. destruct (Z.eqb_spec y x); [contradiction|reflexivity].
Qed.

Lemma locate_slave_here my pos before k after : Forall (fun id => id <> my) before ->
  Forall (fun id => id <> my) after -> my <> CL_CCIEFB_MULTISTATION_INDICATOR ->
  match after with id :: _ => id <> CL_CCIEFB_MULTISTATION_INDICATOR | [] => True end ->
  locate_slave my pos (before ++ my :: replicate k CL_CCIEFB_MULTISTATION_INDICATOR ++ after) =
    Some (true, pos + Z.of_nat (length before), 1 + Z.of_nat k).
Proof.
  intros Hb Ha Hm Hnext. revert pos. induction Hb as [|id before Hid _ IH]; intros pos.
  - cbn [app locate_slave length]. rewrite Z.eqb_refl. destruct (existsb _ _) eqn:Hex.
    + exfalso. apply existsb_exists in Hex as (id & Hin & Heq%Z.eqb_eq). subst id.
      apply in_app_or in Hin as [Hin|Hin].
      * apply list_elem_of_In, elem_of_replicate in Hin as [Heq _]. contradiction.
      * rewrite Forall_forall in Ha. exact (Ha _ Hin eq_refl).
    + rewrite run_length_repeat by exact Hnext. f_equal. f_equal. f_equal. lia.
  - cbn [app locate_slave length]. destruct (Z.eqb_spec id my); [contradiction|]. rewrite IH.
    do 3 f_equal. lia.
Qed.

(** ** Bit fields *)

Lemma station_mask no : 1 <= no <= 16 -> Z.land (BIT (no - 1)) UINT16_MAX = 2 ^ (no - 1).
Proof.
  intros Hno. rewrite BIT_pow by lia. unfold UINT16_MAX. change 0xFFFF with (2 ^ 16 - 1).
  rewrite land_low_mask by lia. apply Z.mod_small. split; [lia|].
  apply Z.pow_lt_mono_r; lia.
Qed.

Lemma extract_transmission_state_testbit st no : 1 <= no <= 16 ->
  cl_iefb_extract_my_transmission_state st no = Z.testbit st (no - 1).
Proof.
  intros Hno. unfold cl_iefb_extract_my_transmission_state.
  rewrite (proj2 (bad_station_count_false no) Hno), station_mask by lia.
  apply land_bit_testbit. lia.
Qed.

Lemma set_transmission_state_testbit st no b i : is_u16 st -> 1 <= no <= 16 -> 0 <= i ->
  Z.testbit (cl_iefb_set_cyclic_transmission_state st no b) i =
    if i =? no - 1 then b else Z.testbit st i.
Proof.
  intros Hst Hno Hi. unfold cl_iefb_set_cyclic_transmission_state.
  destruct (Z.eqb_spec no 0); [lia|].
  destruct (Z.ltb_spec CL_CCIEFB_MAX_OCCUPIED_STATIONS_PER_GROUP no) as [Hx|_];
    [unfold CL_CCIEFB_MAX_OCCUPIED_STATIONS_PER_GROUP in Hx; lia|].
  cbn [orb]. rewrite station_mask by lia. unfold u16.
  destruct (Z.lt_ge_cases i 16) as [Hi16|Hi16].
  - destruct b; rewrite Z.mod_pow2_bits_low, ?Z.lor_spec, ?Z.land_spec, ?Z.lnot_spec,
      Z.pow2_bits_eqb by lia; rewrite (Z.eqb_sym (no - 1)); destruct (i =? no - 1); simpl;
      rewrite ?orb_true_r, ?orb_false_r, ?andb_false_r, ?andb_true_r; reflexivity.
  - destruct (Z.eqb_spec i (no - 1)); [lia|].
    rewrite (testbit_high st 16) by (unfold is_u16 in Hst; lia).
    destruct b; apply Z.mod_pow2_bits_high; lia.
Qed.

(** Setting the transmission bit of one station makes exactly that
    station read the new value; every other station of the group keeps its
    bit, and station numbers outside 1 to 16 change nothing and read as
    off. *)
Lemma transmission_state_set_extract (st no no' : Z) (b : bool) : is_u16 st -> is_u16 no ->
  cl_iefb_extract_my_transmission_state (cl_iefb_set_cyclic_transmission_state st no b) no' =
    if (no =? no') && negb (bad_station_count no) then b
    else cl_iefb_extract_my_transmission_state st no'.
Proof.
  intros Hst Hno16. destruct (bad_station_count no') eqn:Hb'.
  - unfold cl_iefb_extract_my_transmission_state. rewrite Hb'.
    destruct (Z.eqb_spec no no') as [->|]; [rewrite Hb'|]; reflexivity.
  - apply bad_station_count_false in Hb'. rewrite !extract_transmission_state_testbit by lia.
    destruct (bad_station_count no) eqn:Hb; simpl negb.
    + rewrite andb_false_r. f_equal. unfold cl_iefb_set_cyclic_transmission_state.
      replace ((no =? 0) || (CL_CCIEFB_MAX_OCCUPIED_STATIONS_PER_GROUP <? no)) with true;
        [reflexivity|]. rewrite <- Hb. unfold bad_station_count. f_equal.
      unfold is_u16, CL_CCIEFB_MIN_OCCUPIED_STATIONS_PER_GROUP in *.
      destruct_tests; reflexivity || lia.
    + rewrite andb_true_r. apply bad_station_count_false in Hb.
      rewrite set_transmission_state_testbit by lia || assumption.
      destruct (Z.eqb_spec (no' - 1) (no - 1)), (Z.eqb_spec no no'); reflexivity || lia.
Qed.

Lemma transmission_state_set_extract_witness :
  is_u16 0x8001 /\ is_u16 5 /\
  cl_iefb_extract_my_transmission_state (cl_iefb_set_cyclic_transmission_state 0x8001 5 true) 16 = true.
Proof.
  assert (H : is_u16 0x8001) by (unfold is_u16; lia).
  assert (H5 : is_u16 5) by (unfold is_u16; lia).
  split; [exact H|]. split; [exact H5|].
  rewrite (transmission_state_set_extract 0x8001 5 16 true H H5). reflexivity.
Defined.

Lemma bit_areanumber_parts n : 0 <= n ->
  cl_iefb_bit_calculate_areanumber n = (n / 64, n / 8 mod 8, 2 ^ (n mod 8)).
Proof.
  intros Hn. unfold cl_iefb_bit_calculate_areanumber, UINT8_MAX.
  change 0x07 with (2 ^ 3 - 1). change 0xFF with (2 ^ 8 - 1).
  rewrite !land_low_mask, !Z.shiftr_div_pow2 by lia.
  rewrite BIT_pow by (apply Z.mod_pos_bound; lia).
  rewrite (Z.mod_small (2 ^ (n mod 2 ^ 3))); [reflexivity|].
  pose proof (Z.mod_pos_bound n (2 ^ 3) ltac:(lia)).
  split; [lia|]. apply Z.pow_lt_mono_r; lia.
Qed.

Lemma register_areanumber_parts n :
  cl_iefb_register_calculate_areanumber n = (n / 32, n mod 32).
Proof.
  unfold cl_iefb_register_calculate_areanumber. change 0x1F with (2 ^ 5 - 1).
  rewrite land_low_mask, Z.shiftr_div_pow2 by lia. reflexivity.
Qed.

(** The shift and mask arithmetic that locates a bit or a register is
    division: bit [n] is bit [n mod 8] of byte [n / 8 mod 8] of area
    [n / 64], and its mask has that single bit; register [n] is register
    [n mod 32] of area [n / 32].  No two numbers share a location. *)
Lemma areanumber_decomposition (n : Z) : is_u16 n ->
  let '(area, byte_in_area, mask) := cl_iefb_bit_calculate_areanumber n in
  let '(rarea, register_in_area) := cl_iefb_register_calculate_areanumber n in
  (0 <= area < 1024 /\ 0 <= byte_in_area < 8 /\
   exists k, 0 <= k < 8 /\ mask = 2 ^ k /\ n = (area * 8 + byte_in_area) * 8 + k) /\
  (0 <= rarea < 2048 /\ 0 <= register_in_area < 32 /\ n = rarea * 32 + register_in_area).
Proof.
  intros Hn. rewrite bit_areanumber_parts, register_areanumber_parts by (unfold is_u16 in Hn; lia).
  split; [|zlia]. split; [zlia|]. split; [apply Z.mod_pos_bound; lia|].
  exists (n mod 8). split; [apply Z.mod_pos_bound; lia|]. split; [reflexivity|].
  change 64 with (8 * 8). rewrite <- Z.div_div by lia.
  pose proof (Z.div_mod n 8). pose proof (Z.div_mod (n / 8) 8). lia.
Qed.

Lemma areanumber_decomposition_witness :
  is_u16 1023 /\ cl_iefb_bit_calculate_areanumber 1023 = (15, 7, 128) /\
  (let '(area, byte_in_area, mask) := cl_iefb_bit_calculate_areanumber 1023 in
   let '(rarea, register_in_area) := cl_iefb_register_calculate_areanumber 1023 in
   (0 <= area < 1024 /\ 0 <= byte_in_area < 8 /\
    exists k, 0 <= k < 8 /\ mask = 2 ^ k /\ 1023 = (area * 8 + byte_in_area) * 8 + k) /\
   (0 <= rarea < 2048 /\ 0 <= register_in_area < 32 /\ 1023 = rarea * 32 + register_in_area)).
Proof.
  assert (H : is_u16 1023) by (unfold is_u16; lia).
  split; [exact H|]. split; [reflexivity|]. exact (areanumber_decomposition 1023 H).
Defined.

(** ** Timeouts *)

Lemma total_timeout_exact timeout count : is_u16 timeout -> is_u16 count ->
  cl_calculate_total_timeout_us timeout count =
    (if timeout =? 0 then 500 else timeout) * (if count =? 0 then 3 else count) * 1000.
Proof.
  intros Ht Hc. unfold cl_calculate_total_timeout_us, CL_CCIEFB_MIN_TIMEOUT,
    CL_CCIEFB_MIN_TIMEOUT_COUNT, CL_CCIEFB_DEFAULT_TIMEOUT, CL_CCIEFB_DEFAULT_TIMEOUT_COUNT,
    CL_TIMER_MICROSECONDS_PER_MILLISECOND, u32, u64, is_u16 in *.
  destruct (Z.ltb_spec timeout 1), (Z.eqb_spec timeout 0); try lia;
    destruct (Z.ltb_spec count 1), (Z.eqb_spec count 0); try lia.
  all: rewrite (Z.mod_small _ (2 ^ 32)) by nia; rewrite Z.mod_small by nia; reflexivity.
Qed.
