(* ===== verification/IefbRoundtrip.v ===== *)
(** * Round trips of the cyclic frames

    The frames the master builds are accepted by the slave's parser, and the
    frames the slave builds by the master's, with every header field
    delivered unchanged, whatever the data areas hold. *)

From S2P Require Import Prelude Packed Timer Util Types Iefb IefbFacts.

(** The header of a request as the master means it. *)
Definition request_headers (protocol_ver timeout_value parallel_off_timeout_count master_id
  group_no n parameter_no frame_sequence_no clock_info master_local_unit_info
  cyclic_transmission_state : Z) : cl_cciefb_cyclic_req_full_headers :=
  CciefbCyclicReqFullHeaders
    (CciefbReqHeader 0x5000 0 0xFF 0x03FF 0 (58 + 76 * n) 0
       CL_SLMP_COMMAND_CCIEFB_CYCLIC CL_SLMP_SUBCOMMAND_CCIEFB_CYCLIC)
    (CciefbCyclicReqHeader protocol_ver 0 CL_CCIEFB_CYCLIC_REQ_CYCLIC_OFFSET (zeros 14))
    (CciefbMasterStationNotification master_local_unit_info 0 clock_info)
    (CciefbCyclicReqDataHeader master_id group_no 0 frame_sequence_no timeout_value
       parallel_off_timeout_count parameter_no n cyclic_transmission_state 0).

(** The header of a response as the slave means it. *)
Definition response_headers (n vendor_code model_code equipment_ver slave_id end_code group_no
  frame_sequence_no slave_local_unit_info slave_err_code local_management_info : Z)
  : cl_cciefb_cyclic_resp_full_headers :=
  CciefbCyclicRespFullHeaders
    (CciefbRespHeader 0xD000 0 0xFF 0x03FF 0 (50 + 72 * n) 0)
    (CciefbCyclicRespHeader 2 end_code CL_CCIEFB_CYCLIC_RESP_CYCLIC_OFFSET (zeros 14))
    (CciefbSlaveStationNotification vendor_code 0 model_code equipment_ver 0
       slave_local_unit_info slave_err_code local_management_info)
    (CciefbCyclicRespDataHeader slave_id group_no 0 frame_sequence_no).

(** Parameters of a request that the types and the configuration of the
    master guarantee. *)
Record request_params_ok (protocol_ver timeout_value parallel_off_timeout_count master_id
  group_no n parameter_no : Z) : Prop := {
  rp_ver : 1 <= protocol_ver <= 2;
  rp_timeout : is_u16 timeout_value;
  rp_count : is_u16 parallel_off_timeout_count;
  rp_master : is_u32 master_id /\ master_id <> CL_IPADDR_INVALID;
  rp_group : 1 <= group_no <= 64;
  rp_n : 1 <= n <= 16;
  rp_param : is_u16 parameter_no
}.

(** What the runtime values written before sending satisfy; the unit info has
    the bits the protocol version knows. *)
Definition request_values_ok (protocol_ver seq clock info state : Z) : Prop :=
  is_u16 seq /\ is_u64 clock /\ 0 <= info < 2 ^ protocol_ver /\ is_u16 state.

(** ** Lemmas *)

Lemma land_group_no g : 0 <= g <= 255 -> Z.land g UINT8_MAX = g.
Proof.
  intros. unfold UINT8_MAX. change 0xFF with (2 ^ 8 - 1).
  rewrite land_low_mask by lia. apply Z.mod_small. lia.
Qed.

(** Initialisation and update of a request frame. *)
Lemma initialise_request_frame_shape buffer ver timeout count master group n param :
  request_params_ok ver timeout count master group n param ->
  length buffer = 1500%nat ->
  exists fi,
    cl_iefb_initialise_request_frame buffer 1500 ver timeout count master group n param = Done fi /\
    frame_shape c_cl_cciefb_cyclic_req_full_headers (qi_buffer fi) 1500
      (request_headers ver timeout count master group n param 0 0 0 0) /\
    qi_buf_size fi = 1500 /\ qi_udp_payload_len fi = 67 + 76 * n /\
    qi_first_slave_id fi = 67 /\ qi_first_rww fi = 67 + 4 * n /\ qi_first_ry fi = 67 + 68 * n.
Proof.
  intros [Hver Ht Hc [Hm Hm0] Hg Hn Hp] Hl.
  unfold cl_iefb_initialise_request_frame. rewrite request_size, req_headers_size.
  unfold sizeof_ipaddr, sizeof_rww, sizeof_ry, CL_CCIEFB_REQ_HEADER_DL_OFFSET.
  destruct (Z.ltb_spec 1500 (67 + 76 * n)); [lia|].
  destruct (Z.ltb_spec 1500 (67 + n * 4 + n * 64 + n * 8)); [lia|].
  eexists. split; [reflexivity|]. cbn [qi_buffer qi_buf_size qi_udp_payload_len
    qi_first_slave_id qi_first_rww qi_first_ry]. split; [|repeat split; lia].
  unfold request_headers. rewrite land_group_no, u16_id by (unfold is_u16; lia).
  replace (67 + 76 * n - 9) with (58 + 76 * n) by lia.
  change (Z.to_nat 1500) with 1500%nat. rewrite <- Hl.
  refine (poke_frame_shape _ _ _ _ _ _ (cleared_frame_shape _ _ _) _ _).
  - rewrite Hl. cbn. lia.
  - reflexivity.
  - intros _. struct_wf.
Qed.

Lemma update_request_frame_shape fi size ver timeout count master group n param
  seq0 clock0 info0 state0 seq clock info state :
  frame_shape c_cl_cciefb_cyclic_req_full_headers (qi_buffer fi) size
    (request_headers ver timeout count master group n param seq0 clock0 info0 state0) ->
  1 <= ver <= 2 -> request_values_ok ver seq clock info state ->
  frame_shape c_cl_cciefb_cyclic_req_full_headers
    (qi_buffer (cl_iefb_update_request_frame_headers fi seq clock info state)) size
    (request_headers ver timeout count master group n param seq clock info state).
Proof.
  intros Hs Hver (Hseq & Hclock & Hinfo & Hstate).
  apply (poke_frame_shape _ _ _ _ _ _ Hs); [reflexivity|]. cbn. intros Hwf.
  assert (is_u16 info) by (unfold is_u16; assert (2 ^ ver <= 2 ^ 2) by (apply Z.pow_le_mono_r; lia); lia).
  tauto.
Qed.

Lemma update_request_frame_slice fi size ver timeout count master group n param
  seq0 clock0 info0 state0 seq clock info state off k :
  frame_shape c_cl_cciefb_cyclic_req_full_headers (qi_buffer fi) size
    (request_headers ver timeout count master group n param seq0 clock0 info0 state0) ->
  1 <= ver <= 2 -> request_values_ok ver seq clock info state -> (67 <= off)%nat ->
  slice off k (qi_buffer (cl_iefb_update_request_frame_headers fi seq clock info state)) =
    slice off k (qi_buffer fi).
Proof.
  intros Hs Hver (Hseq & Hclock & Hinfo & Hstate) Hoff.
  apply (poke_frame_slice _ _ _ _ _ _ _ _ Hs eq_refl); [|exact Hoff]. cbn. intros Hwf.
  assert (is_u16 info) by (unfold is_u16; assert (2 ^ ver <= 2 ^ 2) by (apply Z.pow_le_mono_r; lia); lia).
  tauto.
Qed.

Lemma unit_info_no_reserved_bits info ver : 1 <= ver <= 2 -> 0 <= info < 2 ^ ver ->
  (0 <? Z.land info (2 ^ 16 - 2 ^ ver)) = false.
Proof.
  intros Hver Hinfo.
  assert (Hc : (ver = 1 \/ ver = 2) /\ (info = 0 \/ info = 1 \/ info = 2 \/ info = 3)).
  { split; [lia|]. assert (2 ^ ver <= 2 ^ 2) by (apply Z.pow_le_mono_r; lia). lia. }
  destruct Hc as [[-> | ->] [-> | [-> | [-> | ->]]]]; reflexivity || (simpl in Hinfo; lia).
Qed.

(** Headers the master means pass the slave's validation. *)
Lemma request_headers_valid ver timeout count master group n param seq clock info state len :
  request_params_ok ver timeout count master group n param ->
  request_values_ok ver seq clock info state -> len = 67 + 76 * n ->
  let h := request_headers ver timeout count master group n param seq clock info state in
  cl_iefb_validate_request_header (fq_req_header h) len = true /\
  cl_iefb_validate_req_full_cyclic_headers h len master = true.
Proof.
  intros [Hver Ht Hc [Hm Hm0] Hg Hn Hp] (Hseq & Hclock & Hinfo & Hstate) ->. cbv zeta. split.
  - unfold cl_iefb_validate_request_header, request_headers; cbn.
    replace (58 + 76 * n + CL_CCIEFB_REQ_HEADER_DL_OFFSET =? 67 + 76 * n) with true; [reflexivity|].
    symmetry. apply Z.eqb_eq. unfold CL_CCIEFB_REQ_HEADER_DL_OFFSET. lia.
  - unfold cl_iefb_validate_req_full_cyclic_headers, cl_iefb_validate_cyclic_request_header,
      cl_iefb_validate_master_station_notification, cl_iefb_validate_req_cyclic_data_header,
      cl_iefb_validate_req_cyclic_frame_size, request_headers.
    cbn [fq_req_header fq_cyclic_header fq_master_station_notification fq_cyclic_data_header
      cqh_protocol_ver cqh_cyclic_info_offset_addr cqh_reserved1 cqh_reserved2
      msn_master_local_unit_info msn_reserved rqh_dl qdh_group_no
      qdh_slave_total_occupied_station_count qdh_reserved3 qdh_reserved4 qdh_master_id].
    rewrite (proj2 (unsupported_protocol_ver_false ver) Hver), request_size.
    pose proof (unit_info_no_reserved_bits info ver Hver Hinfo) as Hbits.
    change CL_CCIEFB_MASTER_STATION_NOTIFICATION_MASK_BITS_VER1 with (2 ^ 16 - 2 ^ 1).
    change CL_CCIEFB_MASTER_STATION_NOTIFICATION_MASK_BITS_VER2 with (2 ^ 16 - 2 ^ 2).
    unfold CL_CCIEFB_MIN_GROUP_NO, CL_CCIEFB_MAX_GROUP_NO,
      CL_CCIEFB_MIN_OCCUPIED_STATIONS_PER_GROUP, CL_CCIEFB_MAX_OCCUPIED_STATIONS_PER_GROUP,
      CL_CCIEFB_REQ_HEADER_DL_OFFSET.
    rewrite (proj2 (Z.ltb_ge group 1)), (proj2 (Z.ltb_ge 64 group)), (proj2 (Z.ltb_ge n 1)),
      (proj2 (Z.ltb_ge 16 n)), (proj2 (Z.eqb_neq master _) Hm0), !Z.eqb_refl by lia.
    replace (67 + 76 * n =? 58 + 76 * n + 9) with true by (symmetry; apply Z.eqb_eq; lia).
    assert (Hv : ver = 1 \/ ver = 2) by lia.
    destruct Hv as [-> | ->]; cbn -[Z.land Z.pow Z.ltb]; rewrite Hbits; reflexivity.
Qed.

(** A received frame that starts with the headers of a request. *)
Lemma request_accepted received ver timeout count master group n param seq clock info state
  port local :
  let h := request_headers ver timeout count master group n param seq clock info state in
  request_params_ok ver timeout count master group n param ->
  request_values_ok ver seq clock info state ->
  c_dec c_cl_cciefb_cyclic_req_full_headers received = h ->
  cl_iefb_parse_request_header received (67 + 76 * n) = Some (fq_req_header h) /\
  cl_iefb_validate_request_header (fq_req_header h) (67 + 76 * n) = true /\
  cl_iefb_parse_cyclic_request received (67 + 76 * n) master port local =
    Done (Some (ClsRequestInfo master port local h received 67 (Some (67 + 4 * n))
                  (Some (67 + 68 * n)))).
Proof.
  cbv zeta. intros Hp Hv Hdec. pose proof (rp_n _ _ _ _ _ _ _ Hp) as Hn.
  destruct (request_headers_valid _ _ _ _ _ _ _ _ _ _ _ (67 + 76 * n) Hp Hv eq_refl)
    as [Hhdr Hfull].
  split; [|split; [exact Hhdr|]].
  - unfold cl_iefb_parse_request_header. change (sizeof c_cl_cciefb_req_header) with 15.
    destruct (Z.ltb_spec (67 + 76 * n) 15); [lia|]. rewrite <- Hdec. reflexivity.
  - unfold cl_iefb_parse_cyclic_request, cl_iefb_parse_req_full_cyclic_headers.
    rewrite req_headers_size. destruct (Z.ltb_spec (67 + 76 * n) 67); [lia|].
    change (read_at ?c received 0) with (c_dec c received).
    rewrite Hdec, Hfull. cbn [negb].
    rewrite (parse_request_cyclic_data_ok _ n Hn) by (rewrite request_size; reflexivity).
    reflexivity.
Qed.

(** C24: Requests travel from the master to the slave unchanged.  For every
    admissible configuration and every value of the runtime fields, the
    frame the master initialises and updates, with arbitrary slave ids and
    cyclic data written behind the headers, is accepted by the slave when it
    arrives from the master's address, even when the receive buffer holds
    old bytes behind it; the slave sees exactly the header values the master
    meant and finds slave ids, RWw and RY at the places the master put
    them. *)
Theorem request_roundtrip buffer ver timeout count master group n param
  seq clock info state data rest port local :
  request_params_ok ver timeout count master group n param ->
  request_values_ok ver seq clock info state ->
  length buffer = 1500%nat -> bytes data -> length data = Z.to_nat (76 * n) ->
  exists fi,
    cl_iefb_initialise_request_frame buffer CL_BUFFER_LEN ver timeout count master group n param
      = Done fi /\
    let fi := cl_iefb_update_request_frame_headers fi seq clock info state in
    let len := qi_udp_payload_len fi in
    let received := take (Z.to_nat len) (splice 67 data (qi_buffer fi)) ++ rest in
    let h := request_headers ver timeout count master group n param seq clock info state in
    (exists hdr, cl_iefb_parse_request_header received len = Some hdr /\
       cl_iefb_validate_request_header hdr len = true /\
       rqh_command hdr = CL_SLMP_COMMAND_CCIEFB_CYCLIC /\
       rqh_sub_command hdr = CL_SLMP_SUBCOMMAND_CCIEFB_CYCLIC) /\
    cl_iefb_parse_cyclic_request received len master port local =
      Done (Some (ClsRequestInfo master port local h received (qi_first_slave_id fi)
                    (Some (qi_first_rww fi)) (Some (qi_first_ry fi)))).
Proof.
  intros Hp Hv Hl Hd Hdl. pose proof (rp_n _ _ _ _ _ _ _ Hp) as Hn.
  pose proof (rp_ver _ _ _ _ _ _ _ Hp) as Hver.
  destruct (initialise_request_frame_shape buffer _ _ _ _ _ _ _ Hp Hl)
    as (fi & Hinit & Hshape & Hsz & Hlen & Hid & Hrww & Hry).
  exists fi. split; [exact Hinit|].
  apply (update_request_frame_shape _ _ _ _ _ _ _ _ _ _ _ _ _ seq clock info state) in Hshape;
    [|assumption..].
  apply (splice_frame_shape _ _ _ _ 67 data) in Hshape; [|assumption|cbn; lia|lia].
  apply (frame_shape_sent _ _ _ _ (Z.to_nat (67 + 76 * n)) rest) in Hshape;
    [|change (c_size _) with 67%nat; lia].
  set (fi' := cl_iefb_update_request_frame_headers _ _ _ _ _) in *.
  change (qi_udp_payload_len fi) with (qi_udp_payload_len fi') in Hlen.
  change (qi_first_slave_id fi) with (qi_first_slave_id fi') in Hid.
  change (qi_first_rww fi) with (qi_first_rww fi') in Hrww.
  change (qi_first_ry fi) with (qi_first_ry fi') in Hry.
  clearbody fi'. cbv zeta. rewrite Hlen, Hid, Hrww, Hry.
  destruct (request_accepted _ _ _ _ _ _ _ _ _ _ _ _ port local Hp Hv Hshape)
    as (Hparse & Hvalid & Hreq).
  split; [|exact Hreq]. eexists. split; [exact Hparse|]. auto.
Qed.

Lemma request_roundtrip_witness :
  request_params_ok 2 500 3 0xC0A80301 7 2 1 /\
  exists fi,
    cl_iefb_initialise_request_frame (zeros 1500) CL_BUFFER_LEN 2 500 3 0xC0A80301 7 2 1
      = Done fi /\ qi_first_ry fi = 67 + 68 * 2.
Proof.
  assert (Hp : request_params_ok 2 500 3 0xC0A80301 7 2 1)
    by (split; unfold_widths; try split; try lia; intro H; discriminate H).
  split; [exact Hp|].
  destruct (request_roundtrip (zeros 1500) 2 500 3 0xC0A80301 7 2 1 9 77 1 3
    (replicate 152 0x5A) [1; 2] 61450 0xC0A80364 Hp) as (fi & Hfi & _ & Hreq).
  - unfold request_values_ok. unfold_widths. lia.
  - reflexivity.
  - apply Forall_replicate. unfold is_byte. lia.
  - reflexivity.
  - exists fi. split; [exact Hfi|]. apply (f_equal (fun f => match f with
      Done f => qi_first_ry f | _ => 0 end)) in Hfi.
    rewrite <- Hfi. vm_compute. reflexivity.
Defined.

(** ** Responses *)

(** Parameters of a response: the station count of the slave and the types of
    the identification fields. *)
Record response_params_ok (n vendor_code model_code equipment_ver : Z) : Prop := {
  sp_n : 1 <= n <= 16;
  sp_vendor : is_u16 vendor_code;
  sp_model : is_u32 model_code;
  sp_equipment : is_u16 equipment_ver
}.

(** Runtime values of a response; the unit info is stopped or operating. *)
Record response_values_ok (slave_id end_code group_no seq info err manag : Z) : Prop := {
  sv_slave : is_u32 slave_id /\ slave_id <> CL_IPADDR_INVALID;
  sv_end_code : is_u16 end_code;
  sv_group : 1 <= group_no <= 64;
  sv_seq : is_u16 seq;
  sv_info : 0 <= info <= 1;
  sv_err : is_u16 err;
  sv_manag : is_u32 manag
}.

Lemma initialise_response_frame_shape buffer n vendor model equipment :
  response_params_ok n vendor model equipment -> length buffer = 1500%nat ->
  exists fi,
    cl_iefb_initialise_cyclic_response_frame buffer CL_BUFFER_LEN n vendor model equipment
      = Done fi /\
    frame_shape c_cl_cciefb_cyclic_resp_full_headers (ri_buffer fi) 1500
      (response_headers n vendor model equipment 0 0 0 0 1 0 0) /\
    ri_udp_payload_len fi = 59 + 72 * n /\ ri_first_rwr fi = 59 /\ ri_first_rx fi = 59 + 64 * n /\
    forall off k, (59 <= off)%nat -> slice off k (ri_buffer fi) = slice off k (zeros 1500).
Proof.
  intros [Hn Hv Hm He] Hl.
  unfold cl_iefb_initialise_cyclic_response_frame. rewrite response_size, resp_headers_size.
  unfold sizeof_rwr, sizeof_rx, CL_CCIEFB_RESP_HEADER_DL_OFFSET, CL_BUFFER_LEN, UINT16_MAX.
  destruct (Z.ltb_spec 1500 (59 + 72 * n)); [lia|].
  destruct (Z.ltb_spec 1500 (59 + n * 64 + n * 8)); [lia|].
  eexists. split; [reflexivity|].
  cbn [ri_buffer ri_udp_payload_len ri_first_rwr ri_first_rx].
  change 0xFFFF with (2 ^ 16 - 1).
  rewrite land_low_mask, Z.mod_small, u16_id by (unfold is_u16; lia).
  change (Z.to_nat 1500) with 1500%nat. rewrite <- Hl.
  assert (Hclear := cleared_frame_shape c_cl_cciefb_cyclic_resp_full_headers buffer
    ltac:(rewrite Hl; cbn; lia)).
  split; [|split; [lia|split; [lia|split; [lia|]]]].
  - refine (poke_frame_shape _ _ _ _ _ _ Hclear _ _).
    + rewrite Hl. unfold response_headers. replace (50 + 72 * n) with (59 + 72 * n - 9) by lia.
      reflexivity.
    + intros _. struct_wf.
  - intros off k Hoff. rewrite (poke_frame_slice _ _ _ _ _ _ off k Hclear eq_refl); [| |].
    + rewrite splice_all by apply length_zeros. reflexivity.
    + intros _. rewrite Hl. struct_wf.
    + exact Hoff.
Qed.

Lemma update_response_frame_shape fi size n vendor model equipment
  slave0 ec0 g0 seq0 info0 err0 manag0 slave ec g seq info err manag :
  frame_shape c_cl_cciefb_cyclic_resp_full_headers (ri_buffer fi) size
    (response_headers n vendor model equipment slave0 ec0 g0 seq0 info0 err0 manag0) ->
  response_values_ok slave ec g seq info err manag ->
  let fi' := cl_iefb_update_cyclic_response_frame fi slave ec g seq info err manag in
  frame_shape c_cl_cciefb_cyclic_resp_full_headers (ri_buffer fi') size
    (response_headers n vendor model equipment slave ec g seq info err manag) /\
  forall off k, (59 <= off)%nat -> slice off k (ri_buffer fi') = slice off k (ri_buffer fi).
Proof.
  intros Hs [[Hsl _] Hec Hg Hseq Hinfo Herr Hman] fi'.
  assert (Hwf : c_wf c_cl_cciefb_cyclic_resp_full_headers
      (response_headers n vendor model equipment slave0 ec0 g0 seq0 info0 err0 manag0) ->
    c_wf c_cl_cciefb_cyclic_resp_full_headers
      (response_headers n vendor model equipment slave ec g seq info err manag)).
  { cbn. intros Hwf. assert (is_u16 info) by (unfold is_u16; lia).
    assert (is_u8 g) by (unfold is_u8; lia). tauto. }
  split.
  - apply (poke_frame_shape _ _ _ _ _ _ Hs); [|exact Hwf].
    unfold response_headers. cbn. rewrite !u16_id, land_group_no by (unfold_widths; lia).
    reflexivity.
  - intros off k Hoff. apply (poke_frame_slice _ _ _ _ _ _ _ _ Hs eq_refl); [|exact Hoff].
    intros Hwf0. apply Hwf in Hwf0. revert Hwf0. unfold response_headers. cbn.
    rewrite !u16_id, land_group_no by (unfold_widths; lia). exact (fun H => H).
Qed.

(** A received frame that starts with the headers of a response. *)
Lemma response_accepted received n vendor model equipment slave ec g seq info err manag port now :
  let h := response_headers n vendor model equipment slave ec g seq info err manag in
  response_params_ok n vendor model equipment ->
  response_values_ok slave ec g seq info err manag ->
  c_dec c_cl_cciefb_cyclic_resp_full_headers received = h ->
  cl_iefb_parse_response_header received (59 + 72 * n) = Some (fs_resp_header h) /\
  cl_iefb_validate_response_header (fs_resp_header h) (59 + 72 * n) = true /\
  cl_iefb_parse_cyclic_response received (59 + 72 * n) slave port now =
    Done (Some (ClmResponseInfo port slave n now h received 59 (59 + 64 * n))).
Proof.
  cbv zeta. intros [Hn _ _ _] [[_ Hsl] _ Hg _ Hinfo _ _] Hdec. split; [|split].
  - unfold cl_iefb_parse_response_header. change (sizeof c_cl_cciefb_resp_header) with 11.
    destruct (Z.ltb_spec (59 + 72 * n) 11); [lia|]. rewrite <- Hdec. reflexivity.
  - unfold cl_iefb_validate_response_header, response_headers; cbn.
    replace (50 + 72 * n + CL_CCIEFB_RESP_HEADER_DL_OFFSET =? 59 + 72 * n) with true;
      [reflexivity|]. symmetry. apply Z.eqb_eq. unfold CL_CCIEFB_RESP_HEADER_DL_OFFSET. lia.
  - unfold cl_iefb_parse_cyclic_response, cl_iefb_parse_resp_full_cyclic_headers.
    rewrite resp_headers_size. destruct (Z.ltb_spec (59 + 72 * n) 59); [lia|].
    change (read_at ?c received 0) with (c_dec c received). rewrite Hdec.
    replace (cl_iefb_validate_resp_full_cyclic_headers _ _ _) with true; [cbn [negb]|symmetry].
    + rewrite (proj2 (occupied_stations_eq (59 + 72 * n) n ltac:(unfold is_u64; lia) ltac:(lia)))
        by (rewrite response_size; lia).
      destruct (Z.eqb_spec n 0); [lia|]. unfold cl_iefb_parse_response_cyclic_data.
      rewrite (proj2 (bad_station_count_false n) Hn), resp_headers_size.
      unfold sizeof_rwr, sizeof_rx.
      destruct (Z.ltb_spec (59 + 72 * n) (59 + n * 64 + n * 8)); [lia|].
      replace (59 + n * 64) with (59 + 64 * n) by lia. reflexivity.
    + unfold cl_iefb_validate_resp_full_cyclic_headers, cl_iefb_validate_resp_cyclic_data_header,
        cl_iefb_validate_resp_cyclic_frame_size, response_headers.
      cbn [fs_resp_header fs_cyclic_header fs_slave_station_notification fs_cyclic_data_header
        rsh_dl csh_protocol_ver sdh_group_no sdh_reserved2 sdh_slave_id].
      unfold CL_CCIEFB_MIN_GROUP_NO, CL_CCIEFB_MAX_GROUP_NO, CL_CCIEFB_REQ_HEADER_DL_OFFSET.
      rewrite (proj2 (Z.ltb_ge g 1)), (proj2 (Z.ltb_ge 64 g)), (proj2 (Z.eqb_neq slave _) Hsl),
        !Z.eqb_refl by lia.
      replace (59 + 72 * n =? 50 + 72 * n + 9) with true by (symmetry; apply Z.eqb_eq; lia).
      assert (Hi : info = 0 \/ info = 1) by lia. destruct Hi as [-> | ->]; reflexivity.
Qed.

(** C25: Responses travel from the slave to the master unchanged.  For every
    identification of the slave, every station count up to the maximum and
    every end code, the frame the slave initialises and updates, with
    arbitrary cyclic data written into its RWr and RX areas, is accepted by
    the master when it arrives from the slave's address; the master derives
    the station count from the length alone, sees exactly the header values
    the slave meant and finds RWr and RX where the slave put them. *)
Theorem response_roundtrip buffer n vendor model equipment slave ec g seq info err manag
  data rest port now :
  response_params_ok n vendor model equipment ->
  response_values_ok slave ec g seq info err manag ->
  length buffer = 1500%nat -> bytes data -> length data = Z.to_nat (72 * n) ->
  exists fi,
    cl_iefb_initialise_cyclic_response_frame buffer CL_BUFFER_LEN n vendor model equipment
      = Done fi /\
    let fi := cl_iefb_update_cyclic_response_frame fi slave ec g seq info err manag in
    let len := ri_udp_payload_len fi in
    let received := take (Z.to_nat len) (splice 59 data (ri_buffer fi)) ++ rest in
    let h := response_headers n vendor model equipment slave ec g seq info err manag in
    (exists hdr, cl_iefb_parse_response_header received len = Some hdr /\
       cl_iefb_validate_response_header hdr len = true) /\
    cl_iefb_parse_cyclic_response received len slave port now =
      Done (Some (ClmResponseInfo port slave n now h received (ri_first_rwr fi)
                    (ri_first_rx fi))).
Proof.
  intros Hp Hv Hl Hd Hdl. pose proof (sp_n _ _ _ _ Hp) as Hn.
  destruct (initialise_response_frame_shape buffer _ _ _ _ Hp Hl)
    as (fi & Hinit & Hshape & Hlen & Hrwr & Hrx & _).
  exists fi. split; [exact Hinit|].
  apply (update_response_frame_shape _ _ _ _ _ _ _ _ _ _ _ _ _ slave ec g seq info err manag)
    in Hshape as [Hshape _]; [|assumption].
  apply (splice_frame_shape _ _ _ _ 59 data) in Hshape; [|assumption|cbn; lia|lia].
  apply (frame_shape_sent _ _ _ _ (Z.to_nat (59 + 72 * n)) rest) in Hshape;
    [|change (c_size _) with 59%nat; lia].
  set (fi' := cl_iefb_update_cyclic_response_frame _ _ _ _ _ _ _ _) in *.
  change (ri_udp_payload_len fi) with (ri_udp_payload_len fi') in Hlen.
  change (ri_first_rwr fi) with (ri_first_rwr fi') in Hrwr.
  change (ri_first_rx fi) with (ri_first_rx fi') in Hrx.
  clearbody fi'. cbv zeta. rewrite Hlen, Hrwr, Hrx.
  destruct (response_accepted _ _ _ _ _ _ _ _ _ _ _ _ port now Hp Hv Hshape)
    as (Hparse & Hvalid & Hresp).
  split; [|exact Hresp]. eexists. split; [exact Hparse | exact Hvalid].
Qed.

Lemma response_roundtrip_witness :
  response_params_ok 2 0x1234 0x56789ABC 0x1111 /\
  response_values_ok 0xC0A80364 0xCFF0 64 0xFFFF 1 0xBEEF 0xCAFE /\
  exists fi,
    cl_iefb_initialise_cyclic_response_frame (zeros 1500) CL_BUFFER_LEN 2 0x1234 0x56789ABC 0x1111
      = Done fi.
Proof.
  assert (Hp : response_params_ok 2 0x1234 0x56789ABC 0x1111) by (split; unfold_widths; lia).
  assert (Hv : response_values_ok 0xC0A80364 0xCFF0 64 0xFFFF 1 0xBEEF 0xCAFE)
    by (split; unfold_widths; try split; try lia; intro H; discriminate H).
  split; [exact Hp|]. split; [exact Hv|].
  destruct (response_roundtrip (zeros 1500) 2 0x1234 0x56789ABC 0x1111 0xC0A80364 0xCFF0 64
    0xFFFF 1 0xBEEF 0xCAFE (replicate 144 0x5A) [] 61450 5 Hp Hv) as (fi & Hfi & _).
  - reflexivity.
  - apply Forall_replicate. unfold is_byte. lia.
  - reflexivity.
  - exists fi. exact Hfi.
Defined.
