(* ===== verification/File.v ===== *)
(** * The settings file (src/src/common/cl_file.c)

    Objects are stored behind a header with a magic number and a version.
    The file system is a parameter; what the stack relies on is that a file
    that was saved can be loaded. *)

From Stdlib Require Import String.
From stdpp Require Import strings.
From S2P Require Import Prelude Packed Types.

#[local] Open Scope Z_scope.

Definition CL_FILE_MAGIC : Z := 0x434C4E4B.
Definition CL_FILE_VERSION : Z := 0x00000001.
Definition CL_MAX_FILENAME_SIZE : Z := 30.
Definition CLM_FILENAME_PARAM_NO : string := "clm_data_param_no.bin".

(** Build options: the size of a directory name, and whether paths have
    backslashes. *)
Class FileOptions := {
  CL_MAX_DIRECTORYPATH_SIZE : Z;
  CL_USE_BACKSLASH_PATH_SEPARATOR : bool
}.
Definition CL_MAX_FILE_FULLPATH_SIZE `{FileOptions} : Z :=
  CL_MAX_DIRECTORYPATH_SIZE + CL_MAX_FILENAME_SIZE.

Record cl_file_header := FileHeader { fh_magic : Z; fh_version : Z }.
Definition c_cl_file_header : codec cl_file_header :=
  c_struct (fun '(magic, version) => FileHeader magic version)
    (fun h => (fh_magic h, fh_version h)) (c_u32be ⊗ c_u32be).

(** The file system of the operating system: loading reads the two objects
    of the given sizes one after the other, saving writes two objects. *)
Class ClalFile := {
  file_system : Type;
  clal_load_file : file_system -> string -> Z -> Z -> option (list Z * list Z);
  clal_save_file : file_system -> string -> list Z -> list Z -> bool * file_system;
  clal_clear_file : file_system -> string -> file_system
}.

(** What is relied on: a file that was saved is loaded unchanged, and what
    is loaded are bytes of the size that was asked for. *)
Class ClalFileOk `{ClalFile} : Prop := {
  load_saved : forall fs path object_1 object_2 fs', bytes object_1 -> bytes object_2 ->
    clal_save_file fs path object_1 object_2 = (true, fs') ->
    clal_load_file fs' path (Z.of_nat (List.length object_1)) (Z.of_nat (List.length object_2)) =
      Some (object_1, object_2);
  loaded_object : forall fs path size_1 size_2 object_1 object_2, 0 <= size_1 -> 0 <= size_2 ->
    clal_load_file fs path size_1 size_2 = Some (object_1, object_2) ->
    bytes object_2 /\ Z.of_nat (List.length object_2) = size_2
}.

(** ** Paths *)

(** The length in bytes, and the last character, of a C string. *)
Definition strlen (s : string) : Z := Z.of_nat (String.length s).
Definition last_char (s : string) : option Ascii.ascii := String.get (String.length s - 1) s.

(** [clal_snprintf] as clal.h documents it: at most [size - 1] characters are
    written; the result is their number, or -1 when the string is truncated. *)
Definition clal_snprintf (size : Z) (s : string) : string * Z :=
  if strlen s <? size then (s, strlen s)
  else (String.substring 0 (Z.to_nat (size - 1)) s, -1).

(** [None] as directory is a null pointer, as result the value -1. *)
Definition cl_file_join_directory_filename (directory filename : option string) (size : Z)
  (use_windows_path : bool) : outcome (option string) :=
  let separator := if use_windows_path then "\"%string else "/"%string in
  match filename with
  | None => Done None
  | Some filename =>
      if strlen filename <? 1 then Done None else
      let dir := match directory with Some d => d | None => EmptyString end in
      let use_directory := 0 <? strlen dir in
      let add_slash := use_directory && negb (bool_decide (last_char dir = last_char separator)) in
      let required_buffer_size :=
        (if use_directory then strlen dir else 0) + (if add_slash then 1 else 0) +
        strlen filename + 1 in
      if size <? required_buffer_size then Done None else
      let (fullpath, num_written_characters) :=
        clal_snprintf size ((if use_directory then dir else EmptyString) ++
          (if add_slash then separator else EmptyString) ++ filename)%string in
      if num_written_characters =? required_buffer_size - 1 then Done (Some fullpath)
      else AssertFailed
  end.

Section File.
Context `{FileOptions, ClalFile}.

Definition file_path (directory : option string) (filename : string) : outcome (option string) :=
  cl_file_join_directory_filename directory (Some filename) CL_MAX_FILE_FULLPATH_SIZE
    CL_USE_BACKSLASH_PATH_SEPARATOR.

(** ** Load, save and clear *)

(** The object that was loaded, [None] on failure. *)
Definition cl_file_load (fs : file_system) (directory : option string) (filename : string)
  (size : Z) : outcome (option (list Z)) :=
  match file_path directory filename with
  | AssertFailed => AssertFailed
  | Done None => Done None
  | Done (Some path) =>
      match clal_load_file fs path (sizeof c_cl_file_header) size with
      | None => Done None
      | Some (header, object) =>
          let file_header := c_dec c_cl_file_header header in
          if negb (fh_magic file_header =? CL_FILE_MAGIC) then Done None
          else if negb (fh_version file_header =? CL_FILE_VERSION) then Done None
          else Done (Some object)
      end
  end.

Definition cl_file_save (fs : file_system) (directory : option string) (filename : string)
  (object : list Z) : outcome (bool * file_system) :=
  match file_path directory filename with
  | AssertFailed => AssertFailed
  | Done None => Done (false, fs)
  | Done (Some path) =>
      Done (clal_save_file fs path
              (c_enc c_cl_file_header (FileHeader CL_FILE_MAGIC CL_FILE_VERSION)) object)
  end.

(** 0 when the file had the object already, 1 when it was updated, 2 when it
    was created, -1 on failure. *)
Definition cl_file_save_if_modified (fs : file_system) (directory : option string)
  (filename : string) (object : list Z) : outcome (Z * file_system) :=
  match cl_file_load fs directory filename (Z.of_nat (List.length object)) with
  | AssertFailed => AssertFailed
  | Done loaded =>
      let '(ret, save) :=
        match loaded with
        | Some temp => if bool_decide (temp = object) then (0, false) else (1, true)
        | None => (2, true)
        end in
      if save : bool then
        match cl_file_save fs directory filename object with
        | AssertFailed => AssertFailed
        | Done (true, fs') => Done (ret, fs')
        | Done (false, fs') => Done (-1, fs')
        end
      else Done (ret, fs)
  end.

Definition cl_file_clear (fs : file_system) (directory : option string) (filename : string)
  : outcome file_system :=
  match file_path directory filename with
  | AssertFailed => AssertFailed
  | Done None => Done fs
  | Done (Some path) => Done (clal_clear_file fs path)
  end.

End File.
