(* ===== verification/FileFacts.v ===== *)
(** * Facts about the settings file

    Paths never overflow their buffer, a saved object is loaded unchanged,
    and saving what the file has already does not write. *)

From Stdlib Require Import String.
From stdpp Require Import strings.
From S2P Require Import Prelude Packed Types File.

#[local] Open Scope Z_scope.

Lemma strlen_app s1 s2 : strlen (s1 ++ s2) = strlen s1 + strlen s2.
Proof.
  induction s1 as [|c s1 IH]; [reflexivity|].
  change (strlen (String c (s1 ++ s2)) = strlen (String c s1) + strlen s2).
  unfold strlen in *. cbn [String.length]. lia.
Qed.

(** The path of a file, by the directory, the separator and the name. *)
Definition joined (directory filename : string) (use_windows_path : bool) : string :=
  let separator := if use_windows_path then "\"%string else "/"%string in
  if 0 <? strlen directory then
    if bool_decide (last_char directory = last_char separator)
    then (directory ++ filename)%string
    else (directory ++ separator ++ filename)%string
  else filename.

Lemma join_eq directory filename size use_windows_path :
  let dir := match directory with Some d => d | None => EmptyString end in
  cl_file_join_directory_filename directory (Some filename) size use_windows_path =
    Done (if (1 <=? strlen filename) && (strlen (joined dir filename use_windows_path) <? size)
          then Some (joined dir filename use_windows_path) else None).
Proof.
  intros dir. unfold cl_file_join_directory_filename. fold dir.
  destruct (Z.ltb_spec (strlen filename) 1), (Z.leb_spec 1 (strlen filename)); try lia;
    [reflexivity|]. cbn [andb].
  set (sep := if use_windows_path then "\"%string else "/"%string).
  assert (Hsep : strlen sep = 1) by (subst sep; destruct use_windows_path; reflexivity).
  set (full := ((if (0 <? strlen dir)%Z then dir else EmptyString) ++
    (if (0 <? strlen dir)%Z && negb (bool_decide (last_char dir = last_char sep))
     then sep else EmptyString) ++ filename)%string).
  assert (Hfull : full = joined dir filename use_windows_path).
  { unfold full, joined. fold sep. destruct (0 <? strlen dir); [|reflexivity].
    destruct (bool_decide _); reflexivity. }
  match goal with |- context [size <? ?r] => assert (Hr : r = strlen full + 1) end.
  { unfold full. rewrite !strlen_app. destruct (0 <? strlen dir), (bool_decide _);
      cbn [andb negb]; rewrite ?Hsep; change (strlen EmptyString) with 0; lia. }
  rewrite Hr, <- Hfull. destruct (Z.ltb_spec size (strlen full + 1)), (Z.ltb_spec (strlen full) size);
    try lia; [reflexivity|].
  unfold clal_snprintf. replace (strlen full + 1 - 1) with (strlen full) by lia.
  rewrite (proj2 (Z.ltb_lt _ _)) by lia. rewrite Z.eqb_refl. reflexivity.
Qed.

#[export] Instance c_cl_file_header_ok : CodecOk c_cl_file_header.
Proof. struct_ok. Qed.

Section FileFacts.
Context `{FileOptions, ClalFileOk}.

Definition own_header : list Z := c_enc c_cl_file_header (FileHeader CL_FILE_MAGIC CL_FILE_VERSION).

Lemma own_header_read : c_dec c_cl_file_header own_header = FileHeader CL_FILE_MAGIC CL_FILE_VERSION.
Proof. reflexivity. Qed.

Lemma file_path_done directory filename : exists path, file_path directory filename = Done path.
Proof. unfold file_path. rewrite join_eq. eauto. Qed.

Lemma own_header_bytes : bytes own_header.
Proof. apply codec_bytes. split; split; discriminate || reflexivity. Qed.

Lemma load_after_save fs fs' directory filename object : bytes object ->
  cl_file_save fs directory filename object = Done (true, fs') ->
  cl_file_load fs' directory filename (Z.of_nat (List.length object)) = Done (Some object).
Proof.
  intros Hby. unfold cl_file_save, cl_file_load.
  destruct (file_path directory filename) as [[path|]|]; try discriminate. intros Hs.
  assert (Hs' : clal_save_file fs path own_header object = (true, fs')) by (injection Hs; auto).
  pose proof (load_saved _ _ _ _ _ own_header_bytes Hby Hs') as Hl.
  change (Z.of_nat (List.length own_header)) with (sizeof c_cl_file_header) in Hl.
  rewrite Hl, own_header_read. reflexivity.
Qed.

Lemma load_done fs directory filename size :
  exists loaded, cl_file_load fs directory filename size = Done loaded.
Proof.
  unfold cl_file_load. destruct (file_path_done directory filename) as [[path|] ->]; [|eauto].
  repeat case_match; eauto.
Qed.

Lemma save_done fs directory filename object :
  exists r, cl_file_save fs directory filename object = Done r.
Proof.
  unfold cl_file_save. destruct (file_path_done directory filename) as [[path|] ->]; eauto.
Qed.

Lemma save_known fs directory filename object :
  cl_file_load fs directory filename (Z.of_nat (List.length object)) = Done (Some object) ->
  cl_file_save_if_modified fs directory filename object = Done (0, fs).
Proof.
  intros Hl. unfold cl_file_save_if_modified. rewrite Hl, bool_decide_eq_true_2; reflexivity.
Qed.

(** ** Properties *)

(** C35: The settings file is reliable.  A path always fits its buffer, so no
    call stops at an assertion, and an object that was saved is loaded
    unchanged; saving it once more finds it in the file and does not write.
    A file whose header is not the current magic number and version is
    never loaded, and is replaced by the next save. *)
Theorem settings_file_roundtrip fs directory filename object : bytes object ->
  exists ret fs',
    cl_file_save_if_modified fs directory filename object = Done (ret, fs') /\
    (ret <> -1 ->
       cl_file_load fs' directory filename (Z.of_nat (List.length object)) = Done (Some object) /\
       cl_file_save_if_modified fs' directory filename object = Done (0, fs')) /\
    (ret = 0 -> fs' = fs) /\
    (cl_file_load fs directory filename (Z.of_nat (List.length object)) = Done None ->
       ret = 2 \/ ret = -1) /\
    (forall path header data, file_path directory filename = Done (Some path) ->
       clal_load_file fs path (sizeof c_cl_file_header) (Z.of_nat (List.length object)) =
         Some (header, data) ->
       c_dec c_cl_file_header header <> FileHeader CL_FILE_MAGIC CL_FILE_VERSION ->
       ret = 2 \/ ret = -1).
Proof.
  intros Hby.
  destruct (cl_file_load fs directory filename (Z.of_nat (List.length object))) as [loaded|] eqn:Hl;
    [|destruct (load_done fs directory filename (Z.of_nat (List.length object))); congruence].
  destruct (save_done fs directory filename object) as ([saved fs'] & Hs).
  assert (Hbad : forall path header data, file_path directory filename = Done (Some path) ->
    clal_load_file fs path (sizeof c_cl_file_header) (Z.of_nat (List.length object)) =
      Some (header, data) ->
    c_dec c_cl_file_header header <> FileHeader CL_FILE_MAGIC CL_FILE_VERSION -> loaded = None).
  { intros path header data Hp Hr Hh. unfold cl_file_load in Hl. rewrite Hp, Hr in Hl.
    destruct (c_dec c_cl_file_header header) as [magic version]. cbn [fh_magic fh_version] in Hl.
    destruct (Z.eqb_spec magic CL_FILE_MAGIC), (Z.eqb_spec version CL_FILE_VERSION); subst;
      cbn [negb] in Hl; congruence. }
  unfold cl_file_save_if_modified at 1. rewrite Hl.
  destruct loaded as [temp|]; [destruct (decide (temp = object)) as [->|Hne]|].
  - rewrite bool_decide_eq_true_2 by reflexivity. exists 0, fs. split; [reflexivity|].
    split; [intros _; split; [exact Hl|apply save_known, Hl]|]. split; [reflexivity|].
    split; [discriminate|]. intros path header data Hp Hr Hh.
    specialize (Hbad _ _ _ Hp Hr Hh). discriminate.
  - rewrite bool_decide_eq_false_2 by exact Hne. rewrite Hs.
    exists (if saved then 1 else -1), fs'. destruct saved; (split; [reflexivity|]);
      (split; [|split; [discriminate|split; [discriminate|]]]).
    + intros _. pose proof (load_after_save _ _ _ _ _ Hby Hs) as Hl'. split; [exact Hl'|apply save_known, Hl'].
    + intros path header data Hp Hr Hh. specialize (Hbad _ _ _ Hp Hr Hh). discriminate.
    + intros []. reflexivity.
    + intros path header data Hp Hr Hh. specialize (Hbad _ _ _ Hp Hr Hh). discriminate.
  - rewrite Hs. exists (if saved then 2 else -1), fs'. destruct saved; (split; [reflexivity|]);
      (split; [|split; [discriminate|auto]]).
    + intros _. pose proof (load_after_save _ _ _ _ _ Hby Hs) as Hl'. split; [exact Hl'|apply save_known, Hl'].
    + intros []. reflexivity.
Qed.

End FileFacts.

(** A file system that keeps the contents of its files, for the witness. *)
Module SampleFiles.
#[export] Instance options : FileOptions :=
  { CL_MAX_DIRECTORYPATH_SIZE := 240; CL_USE_BACKSLASH_PATH_SEPARATOR := false }.

Definition files : Type := list (string * list Z).

Definition load (fs : files) (path : string) (size_1 size_2 : Z) : option (list Z * list Z) :=
  match List.find (fun f => String.eqb f.1 path) fs with
  | Some f =>
      if (Z.of_nat (List.length f.2) =? size_1 + size_2) && bool_decide (bytes f.2)
      then Some (take (Z.to_nat size_1) f.2, drop (Z.to_nat size_1) f.2) else None
  | None => None
  end.

#[export] Instance file : ClalFile :=
  { file_system := files; clal_load_file := load;
    clal_save_file := fun fs path a b => (true, (path, (a ++ b)%list) :: fs);
    clal_clear_file := fun fs path => List.filter (fun f => negb (String.eqb f.1 path)) fs }.

Definition empty : @file_system file := [] : files.

#[export] Instance file_ok : ClalFileOk.
Proof.
  split.
  - intros fs path a b fs' Ha Hb Hs. injection Hs as <-. cbn. unfold load. cbn [List.find fst snd].
    rewrite String.eqb_refl. cbn [snd]. rewrite length_app, Nat2Z.inj_add, Z.eqb_refl, Nat2Z.id.
    rewrite bool_decide_eq_true_2 by (apply bytes_app; split; assumption). cbn [andb].
    rewrite take_app_length, drop_app_length. reflexivity.
  - intros fs path n1 n2 a b H1 H2 Hl. cbn in Hl. unfold load in Hl.
    destruct (List.find _ fs) as [f|]; [|discriminate].
    destruct (Z.eqb_spec (Z.of_nat (List.length f.2)) (n1 + n2)); [|discriminate].
    destruct (bool_decide _) eqn:Hby in Hl; [|discriminate]. apply bool_decide_eq_true in Hby.
    injection Hl as <- <-. split; [apply bytes_drop, Hby|]. rewrite length_drop. lia.
Qed.
End SampleFiles.

Section Witness.
Import SampleFiles.

Lemma settings_file_roundtrip_witness :
  exists fs',
    cl_file_save_if_modified empty
      (Some "/var/clink"%string) CLM_FILENAME_PARAM_NO [7; 0] = Done (2, fs') /\
    cl_file_load fs' (Some "/var/clink"%string) CLM_FILENAME_PARAM_NO 2 =
      Done (Some [7; 0]).
Proof.
  destruct (settings_file_roundtrip empty
    (Some "/var/clink"%string) CLM_FILENAME_PARAM_NO [7; 0]) as (ret & fs' & Hs & Hl & _);
    [repeat constructor; unfold is_byte; lia|].
  exists fs'. assert (ret = 2) as -> by (cbv in Hs; congruence).
  split; [exact Hs|]. apply Hl. discriminate.
Defined.

End Witness.
