(* ===== verification/Slmp.v ===== *)
(** * SLMP frames (src/src/common/cl_slmp.c, src/src/common/cl_slmp_udp.c)

    Node search, set IP address and error frames: parsing, validation and
    construction, the delay of node search responses, and sending.  As in
    Iefb.v, functions returning 0 or -1 are boolean and functions with a
    result pointer return an option. *)

From S2P Require Import Prelude Packed Timer Util Types.

(** The validators below compare the 16-bit length field without converting
    it from little-endian first, so the number they see depends on the byte
    order of the host. *)
Class Host : Type := host_is_big_endian : bool.

Definition raw16 `{Host} (v : Z) : Z := if host_is_big_endian then bswap16 v else v.

(** ** Headers *)

Definition cl_slmp_parse_request_header (buffer : list Z) (recv_len : Z)
  : option cl_slmp_req_header :=
  if recv_len <? sizeof c_cl_slmp_req_header then None
  else Some (read_at c_cl_slmp_req_header buffer 0).

Definition cl_slmp_parse_response_header (buffer : list Z) (recv_len : Z)
  : option cl_slmp_resp_header :=
  if recv_len <? sizeof c_cl_slmp_resp_header then None
  else Some (read_at c_cl_slmp_resp_header buffer 0).

Definition cl_slmp_is_header_request (header : cl_slmp_req_header) : bool :=
  (lqh_sub1 header =? CL_SLMP_REQ_HEADER_SUB1) && (lqh_sub2 header =? CL_SLMP_REQ_HEADER_SUB2).

Definition cl_slmp_validate_request_header (header : cl_slmp_req_header) (recv_len : Z) : bool :=
  if negb (cl_slmp_is_header_request header) then false
  else if negb (lqh_length header + CL_SLMP_REQ_HEADER_LENGTH_OFFSET =? recv_len) then false
  else if
    negb (lqh_network_number header =? CL_SLMP_HEADER_NETWORK_NUMBER) ||
    negb (lqh_unit_number header =? CL_SLMP_HEADER_UNIT_NUMBER) ||
    negb (lqh_io_number header =? CL_SLMP_HEADER_IO_NUMBER) ||
    negb (lqh_extension header =? CL_SLMP_HEADER_EXTENSION) ||
    negb (lqh_timer header =? CL_SLMP_REQ_HEADER_TIMER)
  then false else true.

Definition cl_slmp_is_header_response (header : cl_slmp_resp_header) : bool :=
  (lsh_sub1 header =? CL_SLMP_RESP_HEADER_SUB1) && (lsh_sub2 header =? CL_SLMP_RESP_HEADER_SUB2).

Definition cl_slmp_validate_response_header (header : cl_slmp_resp_header) (recv_len : Z) : bool :=
  if negb (cl_slmp_is_header_response header) then false
  else if negb (lsh_length header + CL_SLMP_RESP_HEADER_LENGTH_OFFSET =? recv_len) then false
  else if
    negb (lsh_network_number header =? CL_SLMP_HEADER_NETWORK_NUMBER) ||
    negb (lsh_unit_number header =? CL_SLMP_HEADER_UNIT_NUMBER) ||
    negb (lsh_io_number header =? CL_SLMP_HEADER_IO_NUMBER) ||
    negb (lsh_extension header =? CL_SLMP_HEADER_EXTENSION)
  then false else true.

(** ** Node search *)

Definition cl_slmp_parse_node_search_request (buffer : list Z) (recv_len : Z)
  : option cl_slmp_node_search_request :=
  if negb (recv_len =? sizeof c_cl_slmp_node_search_request) then None
  else Some (read_at c_cl_slmp_node_search_request buffer 0).

Definition cl_slmp_parse_node_search_response (buffer : list Z) (recv_len : Z)
  : option cl_slmp_node_search_resp :=
  if negb (recv_len =? sizeof c_cl_slmp_node_search_resp) then None
  else Some (read_at c_cl_slmp_node_search_resp buffer 0).

Definition cl_slmp_validate_node_search_request `{Host}
  (request : cl_slmp_node_search_request) : bool :=
  if negb (raw16 (lqh_length (nsq_header request)) =?
             sizeof c_cl_slmp_node_search_request - CL_SLMP_RESP_HEADER_LENGTH_OFFSET)
  then false
  else if negb (nsq_master_ip_addr_size request =? CL_ADDRSIZE_IPV4) then false
  else if nsq_master_ip_addr request =? CL_IPADDR_INVALID then false
  else true.

Definition cl_slmp_validate_node_search_response `{Host}
  (response : cl_slmp_node_search_resp) : bool :=
  if negb (raw16 (lsh_length (nsr_header response)) =?
             sizeof c_cl_slmp_node_search_resp - CL_SLMP_RESP_HEADER_LENGTH_OFFSET)
  then false
  else if negb (nsr_slave_ip_addr_size response =? CL_ADDRSIZE_IPV4) then false
  else if negb (nsr_master_ip_addr_size response =? CL_ADDRSIZE_IPV4) then false
  else if negb (nsr_target_ip_addr_size response =? CL_ADDRSIZE_IPV4) then false
  else if nsr_slave_ip_addr response =? CL_IPADDR_INVALID then false
  else if negb (cl_utils_is_netmask_valid (nsr_slave_netmask response)) then false
  else if nsr_master_ip_addr response =? CL_IPADDR_INVALID then false
  else true.

(** ** Set IP address *)

Definition cl_slmp_parse_set_ip_request (buffer : list Z) (recv_len : Z)
  : option cl_slmp_set_ipaddr_request :=
  if negb (recv_len =? sizeof c_cl_slmp_set_ipaddr_request) then None
  else Some (read_at c_cl_slmp_set_ipaddr_request buffer 0).

Definition cl_slmp_parse_set_ip_response (buffer : list Z) (recv_len : Z)
  : option cl_slmp_set_ipaddr_resp :=
  if negb (recv_len =? sizeof c_cl_slmp_set_ipaddr_resp) then None
  else Some (read_at c_cl_slmp_set_ipaddr_resp buffer 0).

Definition cl_slmp_validate_set_ip_request `{Host} (request : cl_slmp_set_ipaddr_request) : bool :=
  if negb (raw16 (lqh_length (siq_header request)) =?
             sizeof c_cl_slmp_set_ipaddr_request - CL_SLMP_RESP_HEADER_LENGTH_OFFSET)
  then false
  else if
    negb (siq_master_ip_addr_size request =? CL_ADDRSIZE_IPV4) ||
    negb (siq_slave_ip_addr_size request =? CL_ADDRSIZE_IPV4) ||
    negb (siq_target_ip_addr_size request =? CL_ADDRSIZE_IPV4)
  then false
  else if negb (siq_slave_protocol_settings request =? CL_SLMP_PROTOCOL_IDENTIFIER_UDP)
  then false
  else if negb (siq_slave_hostname_size request =? CL_SLMP_SET_IP_REQ_SLAVE_HOSTNAME_SIZE)
  then false
  else if
    (siq_master_ip_addr request =? CL_IPADDR_INVALID) ||
    (siq_slave_new_ip_addr request =? CL_IPADDR_INVALID)
  then false
  else if negb (cl_utils_is_netmask_valid (siq_slave_new_netmask request)) then false
  else if negb (siq_slave_default_gateway request =? CL_SLMP_SET_IP_REQ_SLAVE_DEFAULT_GATEWAY)
  then false
  else if negb (siq_target_ip_addr request =? CL_SLMP_SET_IP_REQ_TARGET_IP_ADDR) then false
  else if negb (siq_target_port request =? CL_SLMP_SET_IP_REQ_TARGET_PORT) then false
  else true.

Definition cl_slmp_validate_set_ip_response `{Host}
  (response : cl_slmp_set_ipaddr_resp) (my_mac_addr : list Z) : bool :=
  if negb (raw16 (lsh_length (sir_header response)) =?
             sizeof c_cl_slmp_set_ipaddr_resp - CL_SLMP_RESP_HEADER_LENGTH_OFFSET)
  then false
  else
    let master_mac_addr := cl_util_copy_mac_reverse (sir_master_mac_addr response) in
    bool_decide (master_mac_addr = my_mac_addr).

(** ** Errors *)

Definition cl_slmp_parse_error_response (buffer : list Z) (recv_len : Z)
  : option cl_slmp_error_resp :=
  if negb (recv_len =? sizeof c_cl_slmp_error_resp) then None
  else Some (read_at c_cl_slmp_error_resp buffer 0).

Definition cl_slmp_validate_error_response `{Host} (response : cl_slmp_error_resp) : bool :=
  if negb (raw16 (lsh_length (ser_header response)) =?
             sizeof c_cl_slmp_error_resp - CL_SLMP_RESP_HEADER_LENGTH_OFFSET)
  then false
  else if negb (ser_error_network_number response =? CL_SLMP_HEADER_NETWORK_NUMBER) then false
  else if negb (ser_error_unit_number response =? CL_SLMP_HEADER_UNIT_NUMBER) then false
  else if negb (ser_error_io_number response =? CL_SLMP_HEADER_IO_NUMBER) then false
  else if negb (ser_error_extension response =? CL_SLMP_HEADER_EXTENSION) then false
  else true.

(** ** Construction *)

Definition cl_slmp_prepare_request_header (serial command sub_command udp_payload_length : Z)
  : cl_slmp_req_header :=
  SlmpReqHeader CL_SLMP_REQ_HEADER_SUB1 serial CL_SLMP_REQ_HEADER_SUB2
    CL_SLMP_HEADER_NETWORK_NUMBER CL_SLMP_HEADER_UNIT_NUMBER CL_SLMP_HEADER_IO_NUMBER
    CL_SLMP_HEADER_EXTENSION (u16 (udp_payload_length - CL_SLMP_REQ_HEADER_LENGTH_OFFSET))
    CL_SLMP_REQ_HEADER_TIMER command sub_command.

Definition cl_slmp_prepare_response_header (serial endcode udp_payload_len : Z)
  : cl_slmp_resp_header :=
  SlmpRespHeader CL_SLMP_RESP_HEADER_SUB1 serial CL_SLMP_RESP_HEADER_SUB2
    CL_SLMP_HEADER_NETWORK_NUMBER CL_SLMP_HEADER_UNIT_NUMBER CL_SLMP_HEADER_IO_NUMBER
    CL_SLMP_HEADER_EXTENSION
    (u16 (Z.land udp_payload_len UINT16_MAX - CL_SLMP_RESP_HEADER_LENGTH_OFFSET)) endcode.

(** Clears the buffer and assigns every field of the struct at its start. *)
Definition prepare_frame {A} (c : codec A) (buffer : list Z) (buf_size : Z) (frame : A)
  : outcome (list Z) :=
  if buf_size <? sizeof c then AssertFailed
  else Done (poke c (fun _ => frame) (splice 0 (zeros (Z.to_nat buf_size)) buffer)).

Definition cl_slmp_prepare_node_search_request_frame (buffer : list Z) (buf_size : Z)
  (master_mac_addr : list Z) (master_ip_addr request_serial : Z) : outcome (list Z) :=
  prepare_frame c_cl_slmp_node_search_request buffer buf_size
    (SlmpNodeSearchRequest
       (cl_slmp_prepare_request_header request_serial CL_SLMP_COMMAND_NODE_SEARCH
          CL_SLMP_SUBCOMMAND_NODE_SEARCH (sizeof c_cl_slmp_node_search_request))
       (cl_util_copy_mac_reverse master_mac_addr) CL_ADDRSIZE_IPV4 master_ip_addr).

Definition cl_slmp_prepare_node_search_response_frame (buffer : list Z) (buf_size : Z)
  (master_mac_addr : list Z) (master_ip_addr : Z) (slave_mac_addr : list Z)
  (slave_ip_addr slave_netmask slmp_slave_status vendor_code model_code equipment_ver
   request_serial : Z) : outcome (list Z) :=
  prepare_frame c_cl_slmp_node_search_resp buffer buf_size
    (SlmpNodeSearchResp
       (cl_slmp_prepare_response_header request_serial CL_SLMP_ENDCODE_SUCCESS
          (sizeof c_cl_slmp_node_search_resp))
       (cl_util_copy_mac_reverse master_mac_addr) CL_ADDRSIZE_IPV4 master_ip_addr
       (cl_util_copy_mac_reverse slave_mac_addr) CL_ADDRSIZE_IPV4 slave_ip_addr slave_netmask
       CL_SLMP_NODE_SEARCH_RESP_SLAVE_DEFAULT_GATEWAY
       CL_SLMP_NODE_SEARCH_RESP_SLAVE_HOSTNAME_SIZE vendor_code model_code equipment_ver
       CL_ADDRSIZE_IPV4 CL_SLMP_NODE_SEARCH_RESP_TARGET_IP_ADDR
       CL_SLMP_NODE_SEARCH_RESP_TARGET_PORT slmp_slave_status CL_SLMP_PORT
       CL_SLMP_PROTOCOL_IDENTIFIER_UDP).

Definition cl_slmp_prepare_set_ip_request_frame (buffer : list Z) (buf_size : Z)
  (master_mac_addr : list Z) (master_ip_addr request_serial : Z) (slave_mac_addr : list Z)
  (slave_new_ip_addr slave_new_netmask : Z) : outcome (list Z) :=
  prepare_frame c_cl_slmp_set_ipaddr_request buffer buf_size
    (SlmpSetIpaddrRequest
       (cl_slmp_prepare_request_header request_serial CL_SLMP_COMMAND_NODE_IPADDRESS_SET
          CL_SLMP_SUBCOMMAND_NODE_IPADDRESS_SET (sizeof c_cl_slmp_set_ipaddr_request))
       (cl_util_copy_mac_reverse master_mac_addr) CL_ADDRSIZE_IPV4 master_ip_addr
       (cl_util_copy_mac_reverse slave_mac_addr) CL_ADDRSIZE_IPV4 slave_new_ip_addr
       slave_new_netmask CL_SLMP_SET_IP_REQ_SLAVE_DEFAULT_GATEWAY
       CL_SLMP_SET_IP_REQ_SLAVE_HOSTNAME_SIZE CL_ADDRSIZE_IPV4
       CL_SLMP_SET_IP_REQ_TARGET_IP_ADDR CL_SLMP_SET_IP_REQ_TARGET_PORT
       CL_SLMP_PROTOCOL_IDENTIFIER_UDP).

Definition cl_slmp_prepare_set_ip_response_frame (buffer : list Z) (buf_size : Z)
  (master_mac_addr : list Z) (request_serial : Z) : outcome (list Z) :=
  prepare_frame c_cl_slmp_set_ipaddr_resp buffer buf_size
    (SlmpSetIpaddrResp
       (cl_slmp_prepare_response_header request_serial CL_SLMP_ENDCODE_SUCCESS
          (sizeof c_cl_slmp_set_ipaddr_resp))
       (cl_util_copy_mac_reverse master_mac_addr)).

Definition cl_slmp_prepare_error_response_frame (buffer : list Z) (buf_size command sub_command
  endcode request_serial : Z) : outcome (list Z) :=
  prepare_frame c_cl_slmp_error_resp buffer buf_size
    (SlmpErrorResp
       (cl_slmp_prepare_response_header request_serial endcode (sizeof c_cl_slmp_error_resp))
       CL_SLMP_HEADER_NETWORK_NUMBER CL_SLMP_HEADER_UNIT_NUMBER CL_SLMP_HEADER_IO_NUMBER
       CL_SLMP_HEADER_EXTENSION command sub_command).

(** ** Delay of node search responses *)

(** The loop over the bits of the last byte: [n] iterations to go. *)
Fixpoint node_search_delay_loop (n : nat) (bitposition byte5 milliseconds multiplier : Z) : Z :=
  match n with
  | O => milliseconds
  | S n =>
      node_search_delay_loop n (bitposition + 1) byte5
        (u32 (milliseconds + multiplier * Z.land (Z.shiftr byte5 bitposition) 0x01))
        (Z.shiftr multiplier 1)
  end.

Definition cl_slmp_calculate_node_search_delay (slave_mac_address : list Z) : Z :=
  let milliseconds := node_search_delay_loop 8 0 (slave_mac_address !!! 5%nat) 0 512 in
  let milliseconds := u32 (milliseconds + 2 * Z.land (slave_mac_address !!! 4%nat) 0x01) in
  let milliseconds :=
    u32 (milliseconds + Z.land (Z.shiftr (slave_mac_address !!! 4%nat) 1) 0x01) in
  u32 (CL_TIMER_MICROSECONDS_PER_MILLISECOND * milliseconds).

(** ** Sending *)

(** The socket layer of the operating system: the socket opened for a local
    address and port (-1 on failure), and the number of bytes a call sends
    (negative on failure). *)
Class Clal : Type := {
  clal_udp_open : Z -> Z -> Z;
  clal_udp_sendto : Z -> Z -> Z -> list Z -> Z
}.

(** The network settings of the operating system: the result of changing
    them (0 on success), the interface with an IP address, and the MAC
    address and netmask of an interface. *)
Class ClalNet : Type := {
  clal_set_ip_address_netmask : Z -> Z -> Z -> Z;
  clal_get_ifindex : Z -> option Z;
  clal_get_mac_address : Z -> option (list Z);
  clal_get_netmask : Z -> option Z;
  clal_init : Z;
  clal_exit : Z
}.

(** A datagram taken from a socket. *)
Record datagram := Datagram {
  dg_bytes : list Z;
  dg_remote_ip : Z;
  dg_remote_port : Z;
  dg_local_ip : Z;
  dg_ifindex : Z
}.

(** What the environment sees of a send. *)
Inductive udp_event :=
| UdpOpen (local_ip port : Z)
| UdpSendto (socket remote_ip remote_port : Z) (message : list Z)
| UdpClose (socket : Z).

(** The state is the socket; [true] for the return value 0. *)
Definition cl_slmp_udp_send `{Clal} (open_the_socket : bool) (buffer : list Z)
  (buffer_size local_ip remote_ip remote_port message_size : Z) : prog Z udp_event bool :=
  if buffer_size <? message_size then mret false else
  when open_the_socket
    (emit (UdpOpen local_ip CL_SLMP_PORT);;
     modify (fun _ => clal_udp_open local_ip CL_SLMP_PORT));;
  socket ← get;
  if socket =? -1 then mret false else
  let message := take (Z.to_nat message_size) buffer in
  let sent_size := clal_udp_sendto socket remote_ip remote_port message in
  emit (UdpSendto socket remote_ip remote_port message);;
  when open_the_socket (emit (UdpClose socket);; modify (fun _ => -1));;
  mret (negb ((sent_size <? 0) || negb (sent_size =? message_size))).
