(* ===== verification/SlmpFacts.v ===== *)
(** * Properties of the SLMP frames

    What one side prepares the other side parses and validates, on hosts with
    little-endian byte order and, because of a missing conversion, on those
    only; the delays of node search responses are bounded and spread the
    slaves by the low bits of their MAC addresses; sockets that are opened
    for sending are closed again. *)

From S2P Require Import Prelude Packed Timer Util Types Slmp.

(** ** Lemmas *)

(** A prepared frame as the receiver sees it: [received] is the sent part of
    the buffer, possibly followed by old bytes. *)
Lemma prepare_frame_sent {A} (c : codec A) `{!CodecOk c} buffer (v : A) :
  length buffer = Z.to_nat CL_BUFFER_LEN -> (c_size c <= Z.to_nat CL_BUFFER_LEN)%nat -> c_wf c v ->
  exists b, prepare_frame c buffer CL_BUFFER_LEN v = Done b /\
    bytes b /\ length b = length buffer /\
    forall rest, c_dec c (take (c_size c) b ++ rest) = v.
Proof.
  intros Hl Hs Hwf. unfold prepare_frame, sizeof.
  destruct (Z.ltb_spec CL_BUFFER_LEN (Z.of_nat (c_size c))) as [Hx|_];
    [unfold CL_BUFFER_LEN in *; lia|].
  eexists. split; [reflexivity|]. rewrite <- Hl.
  assert (Hshape : frame_shape c
    (poke c (fun _ => v) (splice 0 (zeros (length buffer)) buffer)) (length buffer) v).
  { refine (poke_frame_shape _ _ _ _ _ _ (cleared_frame_shape _ _ _) _ _);
      [lia | reflexivity | auto]. }
  split; [apply Hshape|]. split; [apply Hshape|].
  intros rest. apply (frame_shape_sent _ _ _ _ (c_size c) rest Hshape). lia.
Qed.

(** The fields of a prepared frame are in range. *)
Lemma mac_wf m : is_mac m ->
  length (cl_util_copy_mac_reverse m) = 6%nat /\ bytes (cl_util_copy_mac_reverse m).
Proof. apply is_mac_reverse. Qed.

Ltac frame_wf :=
  cbn -[cl_util_copy_mac_reverse]; unfold_widths; unfold is_mac in *;
  repeat match goal with |- _ /\ _ => split end;
  solve [assumption | lia | reflexivity | apply mac_wf; assumption
        | apply mac_wf; split; assumption | let H := fresh in intro H; discriminate H ].

Lemma ip_valid ip : ip <> CL_IPADDR_INVALID -> (ip =? CL_IPADDR_INVALID) = false.
Proof. apply Z.eqb_neq. Qed.

(** The sent part of a prepared frame, whatever the buffer held. *)
Lemma prepared_message {A} (c : codec A) `{!CodecOk c} buffer (v : A) frame :
  prepare_frame c buffer CL_BUFFER_LEN v = Done frame -> c_wf c v ->
  take (Z.to_nat (sizeof c)) frame = c_enc c v.
Proof.
  unfold prepare_frame, sizeof. destruct (_ <? _); [discriminate|]. intros [= <-] Hwf.
  rewrite Nat2Z.id. unfold poke, splice. rewrite take_0, app_nil_l, take_app_length'; [reflexivity|].
  symmetry; apply codec_length, Hwf.
Qed.

(** ** The messages *)

Definition search_request (master_mac : list Z) (master_ip serial : Z)
  : cl_slmp_node_search_request :=
  SlmpNodeSearchRequest
    (cl_slmp_prepare_request_header serial CL_SLMP_COMMAND_NODE_SEARCH
       CL_SLMP_SUBCOMMAND_NODE_SEARCH (sizeof c_cl_slmp_node_search_request))
    (cl_util_copy_mac_reverse master_mac) CL_ADDRSIZE_IPV4 master_ip.

Lemma search_request_wf master_mac master_ip serial : is_mac master_mac -> is_u32 master_ip ->
  is_u16 serial -> c_wf c_cl_slmp_node_search_request (search_request master_mac master_ip serial).
Proof. intros. frame_wf. Qed.

Lemma search_request_read `{Host} received master_mac master_ip serial :
  is_mac master_mac -> master_ip <> CL_IPADDR_INVALID ->
  let len := sizeof c_cl_slmp_node_search_request in
  let r := search_request master_mac master_ip serial in
  c_dec c_cl_slmp_node_search_request received = r ->
  cl_slmp_parse_request_header received len = Some (nsq_header r) /\
  cl_slmp_validate_request_header (nsq_header r) len = true /\
  lqh_command (nsq_header r) = CL_SLMP_COMMAND_NODE_SEARCH /\
  lqh_sub_command (nsq_header r) = CL_SLMP_SUBCOMMAND_NODE_SEARCH /\
  cl_slmp_parse_node_search_request received len = Some r /\
  cl_slmp_validate_node_search_request r = negb host_is_big_endian /\
  cl_util_copy_mac_reverse (nsq_master_mac_addr r) = master_mac.
Proof.
  intros Hmac Hip len r Hdec. repeat split.
  - apply (f_equal nsq_header) in Hdec. exact (f_equal Some Hdec).
  - exact (f_equal Some Hdec).
  - unfold cl_slmp_validate_node_search_request, r, search_request.
    cbn [nsq_master_ip_addr nsq_master_ip_addr_size nsq_header]. rewrite ip_valid by assumption.
    unfold raw16. destruct host_is_big_endian; reflexivity.
  - apply copy_mac_reverse_involutive. assumption.
Qed.

Definition search_response (master_mac : list Z) (master_ip : Z) (slave_mac : list Z)
  (slave_ip netmask status vendor model equipment serial : Z) : cl_slmp_node_search_resp :=
  SlmpNodeSearchResp
    (cl_slmp_prepare_response_header serial CL_SLMP_ENDCODE_SUCCESS
       (sizeof c_cl_slmp_node_search_resp))
    (cl_util_copy_mac_reverse master_mac) CL_ADDRSIZE_IPV4 master_ip
    (cl_util_copy_mac_reverse slave_mac) CL_ADDRSIZE_IPV4 slave_ip netmask
    CL_SLMP_NODE_SEARCH_RESP_SLAVE_DEFAULT_GATEWAY
    CL_SLMP_NODE_SEARCH_RESP_SLAVE_HOSTNAME_SIZE vendor model equipment
    CL_ADDRSIZE_IPV4 CL_SLMP_NODE_SEARCH_RESP_TARGET_IP_ADDR
    CL_SLMP_NODE_SEARCH_RESP_TARGET_PORT status CL_SLMP_PORT
    CL_SLMP_PROTOCOL_IDENTIFIER_UDP.

Lemma search_response_wf master_mac master_ip slave_mac slave_ip netmask status vendor model
  equipment serial : is_mac master_mac -> is_mac slave_mac -> is_u32 master_ip ->
  is_u32 slave_ip -> is_u32 netmask -> is_u16 status -> is_u16 vendor -> is_u32 model ->
  is_u16 equipment -> is_u16 serial ->
  c_wf c_cl_slmp_node_search_resp (search_response master_mac master_ip slave_mac slave_ip netmask
    status vendor model equipment serial).
Proof. intros. frame_wf. Qed.

Lemma search_response_read `{Host} received master_mac master_ip slave_mac slave_ip netmask status
  vendor model equipment serial :
  is_mac slave_mac -> master_ip <> CL_IPADDR_INVALID -> slave_ip <> CL_IPADDR_INVALID ->
  cl_utils_is_netmask_valid netmask = true ->
  let len := sizeof c_cl_slmp_node_search_resp in
  let r := search_response master_mac master_ip slave_mac slave_ip netmask status vendor model
             equipment serial in
  c_dec c_cl_slmp_node_search_resp received = r ->
  cl_slmp_parse_response_header received len = Some (nsr_header r) /\
  cl_slmp_validate_response_header (nsr_header r) len = true /\
  cl_slmp_parse_node_search_response received len = Some r /\
  cl_slmp_validate_node_search_response r = negb host_is_big_endian /\
  cl_util_copy_mac_reverse (nsr_slave_mac_addr r) = slave_mac.
Proof.
  intros Hsm Hmi Hsi Hnv len r Hdec. repeat split.
  - apply (f_equal nsr_header) in Hdec. exact (f_equal Some Hdec).
  - exact (f_equal Some Hdec).
  - unfold cl_slmp_validate_node_search_response, r, search_response.
    cbn [nsr_header nsr_slave_ip_addr_size nsr_master_ip_addr_size nsr_target_ip_addr_size
      nsr_slave_ip_addr nsr_slave_netmask nsr_master_ip_addr].
    rewrite !ip_valid, Hnv by assumption. unfold raw16. destruct host_is_big_endian; reflexivity.
  - apply copy_mac_reverse_involutive. assumption.
Qed.

(** ** Round trips *)

(** C36: Node search requests.  The request the master prepares arrives with
    its header accepted, its command recognised, and the master's MAC
    address (in transmission order), IP address and serial number
    unchanged; its body is accepted exactly on little-endian hosts, because
    the validator compares the length field unconverted. *)
Theorem node_search_request_roundtrip `{Host} buffer master_mac master_ip serial rest :
  length buffer = Z.to_nat CL_BUFFER_LEN -> is_mac master_mac ->
  is_u32 master_ip -> master_ip <> CL_IPADDR_INVALID -> is_u16 serial ->
  let len := sizeof c_cl_slmp_node_search_request in
  exists b r,
    cl_slmp_prepare_node_search_request_frame buffer CL_BUFFER_LEN master_mac master_ip serial
      = Done b /\
    let received := take (Z.to_nat len) b ++ rest in
    cl_slmp_parse_request_header received len = Some (nsq_header r) /\
    cl_slmp_validate_request_header (nsq_header r) len = true /\
    lqh_command (nsq_header r) = CL_SLMP_COMMAND_NODE_SEARCH /\
    lqh_sub_command (nsq_header r) = CL_SLMP_SUBCOMMAND_NODE_SEARCH /\
    cl_slmp_parse_node_search_request received len = Some r /\
    cl_slmp_validate_node_search_request r = negb host_is_big_endian /\
    cl_util_copy_mac_reverse (nsq_master_mac_addr r) = master_mac /\
    nsq_master_ip_addr r = master_ip /\ lqh_serial (nsq_header r) = serial.
Proof.
  intros Hl Hmac Hip Hip0 Hser len.
  destruct (prepare_frame_sent c_cl_slmp_node_search_request buffer
    (search_request master_mac master_ip serial) Hl) as (b & Hb & _ & _ & Hdec);
    [vm_compute; lia | apply search_request_wf; assumption |].
  exists b, (search_request master_mac master_ip serial). split; [exact Hb|]. cbv zeta.
  destruct (search_request_read _ master_mac master_ip serial Hmac Hip0 (Hdec rest))
    as (? & ? & ? & ? & ? & ? & ?). repeat (split; [assumption|]). split; reflexivity.
Qed.

Lemma node_search_request_roundtrip_witness :
  is_mac [0; 1; 2; 3; 4; 5] /\
  exists b, cl_slmp_prepare_node_search_request_frame (zeros 1500) CL_BUFFER_LEN
              [0; 1; 2; 3; 4; 5] 0xC0A80301 7 = Done b.
Proof.
  assert (Hm : is_mac [0; 1; 2; 3; 4; 5])
    by (split; [reflexivity | repeat constructor; unfold is_byte; lia]).
  split; [exact Hm|].
  destruct (@node_search_request_roundtrip false (zeros 1500) [0; 1; 2; 3; 4; 5] 0xC0A80301 7 [])
    as (b & r & Hb & _); [reflexivity | exact Hm | unfold_widths; lia | discriminate
      | unfold_widths; lia |].
  exists b. exact Hb.
Defined.

(** C37: Node search responses.  The response the slave prepares arrives
    with its header accepted and with the slave's address, netmask,
    identification, status and port unchanged; its body is accepted exactly
    on little-endian hosts. *)
Theorem node_search_response_roundtrip `{Host} buffer master_mac master_ip slave_mac slave_ip
  netmask status vendor model equipment serial rest :
  length buffer = Z.to_nat CL_BUFFER_LEN -> is_mac master_mac -> is_mac slave_mac ->
  is_u32 master_ip -> master_ip <> CL_IPADDR_INVALID ->
  is_u32 slave_ip -> slave_ip <> CL_IPADDR_INVALID ->
  is_u32 netmask -> cl_utils_is_netmask_valid netmask = true ->
  is_u16 status -> is_u16 vendor -> is_u32 model -> is_u16 equipment -> is_u16 serial ->
  let len := sizeof c_cl_slmp_node_search_resp in
  exists b r,
    cl_slmp_prepare_node_search_response_frame buffer CL_BUFFER_LEN master_mac master_ip
      slave_mac slave_ip netmask status vendor model equipment serial = Done b /\
    let received := take (Z.to_nat len) b ++ rest in
    cl_slmp_parse_response_header received len = Some (nsr_header r) /\
    cl_slmp_validate_response_header (nsr_header r) len = true /\
    cl_slmp_parse_node_search_response received len = Some r /\
    cl_slmp_validate_node_search_response r = negb host_is_big_endian /\
    cl_util_copy_mac_reverse (nsr_slave_mac_addr r) = slave_mac /\
    nsr_slave_ip_addr r = slave_ip /\ nsr_slave_netmask r = netmask /\
    nsr_vendor_code r = vendor /\ nsr_model_code r = model /\
    nsr_equipment_ver r = equipment /\ nsr_slave_status r = status /\
    nsr_slave_port r = CL_SLMP_PORT /\
    lsh_serial (nsr_header r) = serial /\ lsh_endcode (nsr_header r) = CL_SLMP_ENDCODE_SUCCESS.
Proof.
  intros Hl Hmm Hsm Hmi Hmi0 Hsi Hsi0 Hnm Hnv Hst Hv Hmo Heq Hser len.
  destruct (prepare_frame_sent c_cl_slmp_node_search_resp buffer
    (search_response master_mac master_ip slave_mac slave_ip netmask status vendor model equipment
       serial) Hl) as (b & Hb & _ & _ & Hdec);
    [vm_compute; lia | apply search_response_wf; assumption |].
  eexists b, _. split; [exact Hb|]. cbv zeta.
  destruct (search_response_read _ master_mac master_ip slave_mac slave_ip netmask status vendor
    model equipment serial Hsm Hmi0 Hsi0 Hnv (Hdec rest)) as (? & ? & ? & ? & ?).
  repeat (split; [eassumption|]). repeat split.
Qed.

Lemma node_search_response_roundtrip_witness :
  cl_utils_is_netmask_valid 0xFFFFFF00 = true /\
  exists b, cl_slmp_prepare_node_search_response_frame (zeros 1500) CL_BUFFER_LEN
    (zeros 6) 0xC0A80301 (zeros 6) 0xC0A80364 0xFFFFFF00 0 1 2 3 4 = Done b.
Proof.
  assert (Hm : is_mac (zeros 6)) by (split; [reflexivity | apply bytes_zeros]).
  split; [reflexivity|].
  destruct (@node_search_response_roundtrip false (zeros 1500) (zeros 6) 0xC0A80301 (zeros 6)
    0xC0A80364 0xFFFFFF00 0 1 2 3 4 []) as (b & r & Hb & _);
    [reflexivity | exact Hm | exact Hm | unfold_widths; lia | discriminate | unfold_widths; lia
    | discriminate | unfold_widths; lia | reflexivity | unfold_widths; lia .. |].
  exists b. exact Hb.
Defined.

(** C38: Setting the IP address.  The request the master prepares reaches
    the slave with the new address and netmask and both MAC addresses
    unchanged, and the slave's answer, prepared from the MAC address and the
    serial number it received, is recognised by the master as meant for it;
    both bodies are accepted exactly on little-endian hosts. *)
Theorem set_ip_roundtrip `{Host} buffer buffer' master_mac master_ip serial slave_mac new_ip
  new_netmask rest rest' :
  length buffer = Z.to_nat CL_BUFFER_LEN -> length buffer' = Z.to_nat CL_BUFFER_LEN ->
  is_mac master_mac -> is_mac slave_mac ->
  is_u32 master_ip -> master_ip <> CL_IPADDR_INVALID ->
  is_u32 new_ip -> new_ip <> CL_IPADDR_INVALID ->
  is_u32 new_netmask -> cl_utils_is_netmask_valid new_netmask = true -> is_u16 serial ->
  let len := sizeof c_cl_slmp_set_ipaddr_request in
  let len' := sizeof c_cl_slmp_set_ipaddr_resp in
  exists b r,
    cl_slmp_prepare_set_ip_request_frame buffer CL_BUFFER_LEN master_mac master_ip serial
      slave_mac new_ip new_netmask = Done b /\
    let received := take (Z.to_nat len) b ++ rest in
    cl_slmp_parse_request_header received len = Some (siq_header r) /\
    cl_slmp_validate_request_header (siq_header r) len = true /\
    lqh_command (siq_header r) = CL_SLMP_COMMAND_NODE_IPADDRESS_SET /\
    cl_slmp_parse_set_ip_request received len = Some r /\
    cl_slmp_validate_set_ip_request r = negb host_is_big_endian /\
    cl_util_copy_mac_reverse (siq_slave_mac_addr r) = slave_mac /\
    siq_slave_new_ip_addr r = new_ip /\ siq_slave_new_netmask r = new_netmask /\
    siq_master_ip_addr r = master_ip /\
    exists b' r',
      cl_slmp_prepare_set_ip_response_frame buffer' CL_BUFFER_LEN
        (cl_util_copy_mac_reverse (siq_master_mac_addr r)) (lqh_serial (siq_header r)) = Done b' /\
      let received' := take (Z.to_nat len') b' ++ rest' in
      cl_slmp_parse_response_header received' len' = Some (sir_header r') /\
      cl_slmp_validate_response_header (sir_header r') len' = true /\
      lsh_endcode (sir_header r') = CL_SLMP_ENDCODE_SUCCESS /\
      lsh_serial (sir_header r') = serial /\
      cl_slmp_parse_set_ip_response received' len' = Some r' /\
      forall mac, cl_slmp_validate_set_ip_response r' mac =
        negb host_is_big_endian && bool_decide (master_mac = mac).
Proof.
  intros Hl Hl' Hmm Hsm Hmi Hmi0 Hni Hni0 Hnm Hnv Hser len len'.
  unfold cl_slmp_prepare_set_ip_request_frame.
  match goal with |- context [prepare_frame ?c buffer _ ?v] =>
    destruct (prepare_frame_sent c buffer v Hl) as (b & Hb & _ & _ & Hdec);
      [vm_compute; lia | frame_wf |]; exists b, v end.
  split; [exact Hb|]. cbv zeta.
  specialize (Hdec rest). change (c_size c_cl_slmp_set_ipaddr_request) with (Z.to_nat len) in Hdec.
  set (received := take (Z.to_nat len) b ++ rest) in *. clearbody received. repeat split.
  - apply (f_equal siq_header) in Hdec. exact (f_equal Some Hdec).
  - exact (f_equal Some Hdec).
  - unfold cl_slmp_validate_set_ip_request.
    cbn [siq_header siq_master_ip_addr_size siq_slave_ip_addr_size siq_target_ip_addr_size
      siq_slave_protocol_settings siq_slave_hostname_size siq_master_ip_addr
      siq_slave_new_ip_addr siq_slave_new_netmask].
    rewrite (ip_valid master_ip), (ip_valid new_ip), Hnv by assumption.
    unfold raw16. destruct host_is_big_endian; reflexivity.
  - apply copy_mac_reverse_involutive. assumption.
  - unfold cl_slmp_prepare_set_ip_response_frame.
    cbn [siq_master_mac_addr siq_header cl_slmp_prepare_request_header lqh_serial].
    rewrite (copy_mac_reverse_involutive master_mac) by assumption.
    match goal with |- context [prepare_frame ?c buffer' _ ?v] =>
      destruct (prepare_frame_sent c buffer' v Hl') as (b' & Hb' & _ & _ & Hdec');
        [vm_compute; lia | frame_wf |]; exists b', v end.
    split; [exact Hb'|]. specialize (Hdec' rest').
    change (c_size c_cl_slmp_set_ipaddr_resp) with (Z.to_nat len') in Hdec'.
    set (received' := take (Z.to_nat len') b' ++ rest') in *. clearbody received'.
    repeat split.
    + apply (f_equal sir_header) in Hdec'. exact (f_equal Some Hdec').
    + exact (f_equal Some Hdec').
    + intros mac. unfold cl_slmp_validate_set_ip_response. cbn [sir_header sir_master_mac_addr].
      rewrite copy_mac_reverse_involutive by assumption.
      unfold raw16. destruct host_is_big_endian; reflexivity.
Qed.

Lemma set_ip_roundtrip_witness :
  cl_utils_is_netmask_valid 0xFFFF0000 = true /\
  exists b, cl_slmp_prepare_set_ip_request_frame (zeros 1500) CL_BUFFER_LEN
    (zeros 6) 0xC0A80301 9 (zeros 6) 0xC0A80364 0xFFFF0000 = Done b.
Proof.
  assert (Hm : is_mac (zeros 6)) by (split; [reflexivity | apply bytes_zeros]).
  split; [reflexivity|].
  destruct (@set_ip_roundtrip false (zeros 1500) (zeros 1500) (zeros 6) 0xC0A80301 9 (zeros 6)
    0xC0A80364 0xFFFF0000 [] []) as (b & r & Hb & _);
    [reflexivity | reflexivity | exact Hm | exact Hm | unfold_widths; lia | discriminate
    | unfold_widths; lia | discriminate | unfold_widths; lia | reflexivity | unfold_widths; lia |].
  exists b. exact Hb.
Defined.

(** Error responses. *)
Lemma error_response_roundtrip `{Host} buffer command sub_command endcode serial rest :
  length buffer = Z.to_nat CL_BUFFER_LEN ->
  is_u16 command -> is_u16 sub_command -> is_u16 endcode -> is_u16 serial ->
  let len := sizeof c_cl_slmp_error_resp in
  exists b r,
    cl_slmp_prepare_error_response_frame buffer CL_BUFFER_LEN command sub_command endcode serial
      = Done b /\
    let received := take (Z.to_nat len) b ++ rest in
    cl_slmp_parse_response_header received len = Some (ser_header r) /\
    cl_slmp_validate_response_header (ser_header r) len = true /\
    cl_slmp_parse_error_response received len = Some r /\
    cl_slmp_validate_error_response r = negb host_is_big_endian /\
    ser_command r = command /\ ser_sub_command r = sub_command /\
    lsh_endcode (ser_header r) = endcode /\ lsh_serial (ser_header r) = serial.
Proof.
  intros Hl Hc Hs He Hser len. unfold cl_slmp_prepare_error_response_frame.
  match goal with |- context [prepare_frame ?c buffer _ ?v] =>
    destruct (prepare_frame_sent c buffer v Hl) as (b & Hb & _ & _ & Hdec);
      [vm_compute; lia | frame_wf |]; exists b, v end.
  split; [exact Hb|]. cbv zeta.
  specialize (Hdec rest). change (c_size c_cl_slmp_error_resp) with (Z.to_nat len) in Hdec.
  set (received := take (Z.to_nat len) b ++ rest) in *. clearbody received. repeat split.
  - apply (f_equal ser_header) in Hdec. exact (f_equal Some Hdec).
  - exact (f_equal Some Hdec).
  - unfold cl_slmp_validate_error_response, raw16. destruct host_is_big_endian; reflexivity.
Qed.

(** ** Delay *)

(** The reversal of the ten low bits of a number, the most significant of
    the result first. *)
Fixpoint bit_reverse (w : nat) (x : Z) : Z :=
  match w with
  | O => 0
  | S w' => (x mod 2) * 2 ^ Z.of_nat w' + bit_reverse w' (x / 2)
  end.

(** The ten bits of the MAC address the delay depends on: byte 5 and the two
    low bits of byte 4. *)
Definition mac_tail (mac : list Z) : Z := (mac !!! 5%nat) + 256 * (mac !!! 4%nat mod 4).

Lemma delay_ten_bits mac : is_mac mac ->
  cl_slmp_calculate_node_search_delay mac = 1000 * bit_reverse 10 (mac_tail mac) /\
  0 <= bit_reverse 10 (mac_tail mac) <= 1023 /\
  bit_reverse 10 (bit_reverse 10 (mac_tail mac)) = mac_tail mac.
Proof.
  intros [Hl Hb]. unfold cl_slmp_calculate_node_search_delay, mac_tail.
  assert (H5 : is_byte (mac !!! 5%nat) /\ is_byte (mac !!! 4%nat)).
  { split; apply (Forall_lookup_total_1 _ _ _ Hb); lia. }
  destruct H5 as [H5 H4]. unfold is_byte in *.
  set (a := mac !!! 5%nat) in *. set (b := mac !!! 4%nat) in *. clearbody a b. clear Hl Hb mac.
  assert (Hlow : forall x, Z.land x 1 = x mod 2) by (intros; apply (Z.land_ones x 1); lia).
  rewrite !Hlow, Z.shiftr_div_pow2 by lia. change (2 ^ 1) with 2.
  replace (b / 2 mod 2) with (b mod 4 / 2 mod 2) by zlia.
  replace (b mod 2) with (b mod 4 mod 2) by zlia.
  assert (H4' : 0 <= b mod 4 < 4) by (apply Z.mod_pos_bound; lia).
  set (c := b mod 4) in *. clearbody c. clear b H4.
  pose (check := fun x => let a := x mod 256 in let c := x / 256 in
    let r := bit_reverse 10 (a + 256 * c) in
    (u32 (CL_TIMER_MICROSECONDS_PER_MILLISECOND * u32 (u32 (node_search_delay_loop 8 0 a 0 512
       + 2 * (c mod 2)) + c / 2 mod 2)) =? 1000 * r) && (0 <=? r) && (r <=? 1023) &&
    (bit_reverse 10 r =? a + 256 * c)).
  assert (Hall : forallb check (seqZ 0 1024) = true) by (vm_compute; reflexivity).
  pose proof (proj1 (List.forallb_forall _ _) Hall (a + 256 * c)
    ltac:(apply list_elem_of_In, elem_of_seqZ; lia)) as Hc. clear Hall. unfold check in Hc.
  replace ((a + 256 * c) mod 256) with a in Hc by zlia.
  replace ((a + 256 * c) / 256) with c in Hc by zlia.
  rewrite !andb_true_iff, !Z.eqb_eq, !Z.leb_le in Hc. tauto.
Qed.

(** C39: The delay before a node search response is the bit reversal of the
    ten low bits of the slave's MAC address, in milliseconds: it never
    exceeds 1023 ms, and two slaves wait the same time only when these ten
    bits agree. *)
Theorem node_search_delay_spread (mac mac' : list Z) : is_mac mac -> is_mac mac' ->
  cl_slmp_calculate_node_search_delay mac = 1000 * bit_reverse 10 (mac_tail mac) /\
  0 <= cl_slmp_calculate_node_search_delay mac <= 1023000 /\
  (cl_slmp_calculate_node_search_delay mac = cl_slmp_calculate_node_search_delay mac' <->
   mac_tail mac = mac_tail mac').
Proof.
  intros Hm Hm'. destruct (delay_ten_bits mac Hm) as (H1 & H2 & H3).
  destruct (delay_ten_bits mac' Hm') as (H1' & _ & H3'). rewrite H1, H1'.
  split; [reflexivity|]. split; [lia|]. split.
  - intros Heq. rewrite <- H3, <- H3'. f_equal. lia.
  - intros ->. reflexivity.
Qed.

Lemma node_search_delay_spread_witness :
  is_mac [0; 0; 0; 0; 1; 3] /\
  0 <= cl_slmp_calculate_node_search_delay [0; 0; 0; 0; 1; 3] <= 1023000.
Proof.
  assert (Hm : is_mac [0; 0; 0; 0; 1; 3])
    by (split; [reflexivity | repeat constructor; unfold is_byte; lia]).
  split; [exact Hm|]. apply (node_search_delay_spread _ _ Hm Hm).
Defined.

(** ** Sending *)

(** Sending an SLMP message.  With a socket of its own, the function
    opens it once, sends the message at most once and always closes what it
    opened, leaving no socket behind; without, it leaves the socket alone.  It
    reports success exactly when the operating system sent the whole
    message. *)
Lemma udp_send_socket_discipline `{Clal} (open_it : bool) buffer buffer_size local_ip remote_ip
  remote_port size socket :
  exists ok socket' events,
    cl_slmp_udp_send open_it buffer buffer_size local_ip remote_ip remote_port size socket
      = Done (ok, socket', events) /\
    let message := take (Z.to_nat size) buffer in
    let s := if open_it then clal_udp_open local_ip CL_SLMP_PORT else socket in
    let sends := [UdpSendto s remote_ip remote_port message] in
    (ok = true <-> size <= buffer_size /\ s <> -1 /\ 0 <= size /\
                   clal_udp_sendto s remote_ip remote_port message = size) /\
    socket' = (if open_it then if buffer_size <? size then socket else -1 else socket) /\
    events =
      (if buffer_size <? size then []
       else (if open_it then [UdpOpen local_ip CL_SLMP_PORT] else []) ++
            (if s =? -1 then [] else sends ++ (if open_it then [UdpClose s] else []))).
Proof.
  unfold cl_slmp_udp_send. destruct (Z.ltb_spec buffer_size size).
  - do 3 eexists. split; [reflexivity|]. cbv zeta.
    split; [split; [discriminate | lia] |].
    split; [destruct open_it; reflexivity | reflexivity].
  - assert (Hok : forall r, negb ((r <? 0) || negb (r =? size)) = true <-> 0 <= size /\ r = size).
    { intros r. rewrite negb_true_iff, orb_false_iff, negb_false_iff, Z.ltb_ge, Z.eqb_eq. lia. }
    destruct open_it; run_prog.
    + destruct (Z.eqb_spec (clal_udp_open local_ip CL_SLMP_PORT) (-1)); run_prog;
        do 3 eexists; (split; [reflexivity|]); cbv zeta; rewrite ?Hok;
        (split; [|split; [congruence|reflexivity]]); intuition congruence.
    + destruct (Z.eqb_spec socket (-1)); run_prog;
        do 3 eexists; (split; [reflexivity|]); cbv zeta; rewrite ?Hok;
        (split; [|split; [congruence|reflexivity]]); intuition congruence.
Qed.

(** ** Preparing and sending never stops at an assertion *)

Lemma prepare_frame_done {A} (c : codec A) buffer (v : A) : (c_size c <= 1500)%nat ->
  exists b, prepare_frame c buffer CL_BUFFER_LEN v = Done b.
Proof.
  intros Hs. unfold prepare_frame, sizeof, CL_BUFFER_LEN.
  destruct (Z.ltb_spec 1500 (Z.of_nat (c_size c))); [lia|]. eauto.
Qed.

Lemma udp_send_runs `{Clal} open_it buffer size lip rip rport len socket :
  wp (cl_slmp_udp_send open_it buffer size lip rip rport len) (fun _ _ _ => True) socket.
Proof.
  unfold cl_slmp_udp_send. apply wp_if; intros _; [exact I|]. destruct open_it; wp_steps;
    (apply wp_if; intros _; wp_steps; exact I).
Qed.

(** ** A concrete platform for the witnesses of the other files *)

Module SampleHost.
#[export] Instance clal : Clal :=
  { clal_udp_open := fun _ _ => 3; clal_udp_sendto := fun _ _ _ m => Z.of_nat (length m) }.
#[export] Instance clal_net : ClalNet :=
  { clal_set_ip_address_netmask := fun _ _ _ => 0;
    clal_get_ifindex := fun _ => Some 1;
    clal_get_mac_address := fun _ => Some [2; 0; 0; 0; 0; 1];
    clal_get_netmask := fun _ => Some 0xFFFFFF00; clal_init := 0; clal_exit := 0 }.
#[export] Instance host : Host := false.
End SampleHost.
