(* ===== verification/Slave.v ===== *)
(** * State of the slave stack
    (src/include/cls_api.h, src/src/common/cl_types.h, src/src/slave/cls_slave.c)

    The instance structure [cls] with everything in it, the configuration,
    the slave's state machine tables and what the environment observes of a
    slave: frames handed to the socket layer and calls of the application's
    callbacks.  Buffers are owned by the structure that the source keeps a
    pointer in; a frame's [buffer] field is the send buffer itself.  Callbacks
    are present or absent; what the application does in them is outside the
    model. *)

From S2P Require Import Prelude Packed Timer Limiter Util Types Iefb Slmp.

(** Compile-time options.  The preprocessor checks the bounds. *)
Class ClsOptions : Type := {
  CLS_MAX_OCCUPIED_STATIONS : Z;
  CLS_MAX_ok : 1 <= CLS_MAX_OCCUPIED_STATIONS <= 16;
  log_warning_enabled : bool
}.

Inductive cls_slave_state :=
| CLS_SLAVE_STATE_SLAVE_DOWN
| CLS_SLAVE_STATE_MASTER_NONE
| CLS_SLAVE_STATE_MASTER_CONTROL
| CLS_SLAVE_STATE_SLAVE_DISABLED
| CLS_SLAVE_STATE_WAIT_DISABLING_SLAVE
| CLS_SLAVE_STATE_LAST.

Inductive cls_slave_event :=
| CLS_SLAVE_EVENT_NONE
| CLS_SLAVE_EVENT_STARTUP
| CLS_SLAVE_EVENT_CYCLIC_NEW_MASTER
| CLS_SLAVE_EVENT_CYCLIC_CORRECT_MASTER
| CLS_SLAVE_EVENT_CYCLIC_WRONG_MASTER
| CLS_SLAVE_EVENT_CYCLIC_WRONG_STATIONCOUNT
| CLS_SLAVE_EVENT_CYCLIC_INCOMING_WHEN_DISABLED
| CLS_SLAVE_EVENT_TIMEOUT_MASTER
| CLS_SLAVE_EVENT_REENABLE_SLAVE
| CLS_SLAVE_EVENT_DISABLE_SLAVE
| CLS_SLAVE_EVENT_DISABLE_SLAVE_WAIT_ENDED
| CLS_SLAVE_EVENT_IP_UPDATED
| CLS_SLAVE_EVENT_LAST.

#[export] Instance cls_slave_state_eq_dec : EqDecision cls_slave_state.
Proof. solve_decision. Defined.
#[export] Instance cls_slave_event_eq_dec : EqDecision cls_slave_event.
Proof. solve_decision. Defined.

Inductive cls_error_message :=
| CLS_ERROR_SLAVE_STATION_DUPLICATION
| CLS_ERROR_MASTER_STATION_DUPLICATION
| CLS_ERROR_WRONG_NUMBER_OCCUPIED.

(** The values of the enumerations, used as message numbers of the limiters. *)
Definition cls_error_message_number (m : cls_error_message) : Z :=
  match m with
  | CLS_ERROR_SLAVE_STATION_DUPLICATION => 0
  | CLS_ERROR_MASTER_STATION_DUPLICATION => 1
  | CLS_ERROR_WRONG_NUMBER_OCCUPIED => 2
  end.

Inductive cls_cciefb_logwarning_message :=
| CLS_LOGLIMITER_MASTER_DUPLICATION
| CLS_LOGLIMITER_WRONG_NUMBER_OCCUPIED.

Definition cls_cciefb_logwarning_message_number (m : cls_cciefb_logwarning_message) : Z :=
  match m with
  | CLS_LOGLIMITER_MASTER_DUPLICATION => 0
  | CLS_LOGLIMITER_WRONG_NUMBER_OCCUPIED => 1
  end.

(** The configuration; a callback field says whether the callback is given. *)
Record cls_cfg := ClsCfg {
  vendor_code : Z;
  model_code : Z;
  equipment_ver : Z;
  num_occupied_stations : Z;
  ip_setting_allowed : bool;
  state_cb : bool;
  error_cb : bool;
  connect_cb : bool;
  disconnect_cb : bool;
  master_running_cb : bool;
  node_search_cb : bool;
  set_ip_cb : bool;
  iefb_ip_addr : Z;
  use_slmp_directed_broadcast : bool
}.
#[export] Instance cls_cfg_settable : Settable cls_cfg := fun r =>
  ClsCfg
    (vendor_code r) (model_code r) (equipment_ver r) (num_occupied_stations r)
    (ip_setting_allowed r) (state_cb r) (error_cb r) (connect_cb r) (disconnect_cb r)
    (master_running_cb r) (node_search_cb r) (set_ip_cb r) (iefb_ip_addr r)
    (use_slmp_directed_broadcast r).

(** Connection data from the master. *)
Record cls_master_connection := ClsMasterConnection {
  master_id : Z;
  clock_info : Z;
  clock_info_valid : bool;
  protocol_ver : Z;
  group_no : Z;
  parameter_no : Z;
  timeout_value : Z;
  parallel_off_timeout_count : Z;
  slave_station_no : Z;
  total_occupied_station_count : Z
}.
#[export] Instance cls_master_connection_settable : Settable cls_master_connection := fun r =>
  ClsMasterConnection
    (master_id r) (clock_info r) (clock_info_valid r) (protocol_ver r) (group_no r)
    (parameter_no r) (timeout_value r) (parallel_off_timeout_count r) (slave_station_no r)
    (total_occupied_station_count r).

Definition cls_master_connection_zero : cls_master_connection :=
  ClsMasterConnection 0 0 false 0 0 0 0 0 0 0.

(** Incoming cyclic data, as the bytes of the arrays. *)
Record cls_memory_area := ClsMemoryArea {
  ry : list Z;
  rww : list Z
}.
#[export] Instance cls_memory_area_settable : Settable cls_memory_area := fun r =>
  ClsMemoryArea
    (ry r) (rww r).

Definition cls_memory_area_zero `{ClsOptions} : cls_memory_area :=
  ClsMemoryArea (zeros (Z.to_nat (CLS_MAX_OCCUPIED_STATIONS * sizeof_ry)))
    (zeros (Z.to_nat (CLS_MAX_OCCUPIED_STATIONS * sizeof_rww))).

Record cls_trigger_data := ClsTriggerData {
  executed_before : bool;
  previous_connected_to_master : bool;
  previous_protocol_ver : Z;
  previous_master_application_status : Z
}.
#[export] Instance cls_trigger_data_settable : Settable cls_trigger_data := fun r =>
  ClsTriggerData
    (executed_before r) (previous_connected_to_master r) (previous_protocol_ver r)
    (previous_master_application_status r).

Definition cls_trigger_data_zero : cls_trigger_data := ClsTriggerData false false 0 0.

(** Data for a delayed node search response. *)
Record cls_node_search := ClsNodeSearch {
  response_timer : cl_timer;
  master_mac_address : list Z;
  master_ip_addr : Z;
  master_port : Z;
  request_serial : Z;
  slave_mac_address : list Z;
  slave_ip_address : Z;
  slave_netmask : Z
}.
#[export] Instance cls_node_search_settable : Settable cls_node_search := fun r =>
  ClsNodeSearch
    (response_timer r) (master_mac_address r) (master_ip_addr r) (master_port r)
    (request_serial r) (slave_mac_address r) (slave_ip_address r) (slave_netmask r).

Definition cls_node_search_zero : cls_node_search :=
  ClsNodeSearch cl_timer_zero (zeros 6) 0 0 0 (zeros 6) 0 0.

(** The functions the state machine's tables point to. *)
Inductive cls_action :=
| cls_iefb_slave_init
| cls_iefb_handle_wrong_master
| cls_iefb_handle_wrong_stationcount
| cls_iefb_handle_incoming_when_disabled
| cls_iefb_handle_new_or_updated_master
| cls_iefb_handle_cyclic_event
| cls_iefb_log_timeout_master
| cls_iefb_log_ip_addr_updated
| cls_iefb_log_slave_disabled
| cls_iefb_log_slave_reenabled
| cls_iefb_on_entry_master_none
| cls_iefb_on_exit_master_control
| cls_iefb_on_entry_wait_disabling_slave
| cls_iefb_on_entry_slave_disabled.

Record cls_slave_fsm := ClsSlaveFsm {
  fsm_next : cls_slave_state;
  fsm_action : option cls_action
}.

Record cls_slave_fsm_entry_exit := ClsSlaveFsmEntryExit {
  fsm_on_entry : option cls_action;
  fsm_on_exit : option cls_action
}.

(** The instance. *)
Record cls := Cls {
  config : cls_cfg;
  endcode_slave_disabled : Z;
  slave_application_status : Z;
  loglimiter : cl_limiter;
  errorlimiter : cl_limiter;
  local_management_info : Z;
  slave_err_code : Z;
  cyclic_data_area : cls_memory_area;
  cciefb_socket : Z;
  slmp_send_socket : Z;
  slmp_receive_socket : Z;
  cciefb_receivebuf : list Z;
  slmp_receivebuf : list Z;
  slmp_sendbuf : list Z;
  cciefb_resp_frame_normal : cls_cciefb_cyclic_response_info;
  cciefb_resp_frame_error : cls_cciefb_cyclic_response_info;
  master : cls_master_connection;
  state : cls_slave_state;
  fsm_matrix : cls_slave_state -> cls_slave_event -> cls_slave_fsm;
  fsm_on_entry_exit : cls_slave_state -> cls_slave_fsm_entry_exit;
  receive_timer : cl_timer;
  timer_for_disabling_slave : cl_timer;
  master_state_callback_trigger_data : cls_trigger_data;
  node_search : cls_node_search
}.
#[export] Instance cls_settable : Settable cls := fun r =>
  Cls
    (config r) (endcode_slave_disabled r) (slave_application_status r) (loglimiter r)
    (errorlimiter r) (local_management_info r) (slave_err_code r) (cyclic_data_area r)
    (cciefb_socket r) (slmp_send_socket r) (slmp_receive_socket r) (cciefb_receivebuf r)
    (slmp_receivebuf r) (slmp_sendbuf r) (cciefb_resp_frame_normal r)
    (cciefb_resp_frame_error r) (master r) (state r) (fsm_matrix r) (fsm_on_entry_exit r)
    (receive_timer r) (timer_for_disabling_slave r) (master_state_callback_trigger_data r)
    (node_search r).

Definition cl_limiter_zero : cl_limiter := Limiter cl_timer_zero 0 0 0 0.
Definition cls_response_info_zero : cls_cciefb_cyclic_response_info :=
  ClsResponseInfo (zeros (Z.to_nat CL_BUFFER_LEN)) 0 0 0 0.

(** An instance in memory that was cleared. *)
Definition cls_zero `{ClsOptions} : cls :=
  Cls (ClsCfg 0 0 0 0 false false false false false false false false 0 false) 0 0
    cl_limiter_zero cl_limiter_zero 0 0 cls_memory_area_zero 0 0 0
    (zeros (Z.to_nat CL_BUFFER_LEN)) (zeros (Z.to_nat CL_BUFFER_LEN))
    (zeros (Z.to_nat CL_BUFFER_LEN)) cls_response_info_zero cls_response_info_zero
    cls_master_connection_zero CLS_SLAVE_STATE_SLAVE_DOWN
    (fun _ _ => ClsSlaveFsm CLS_SLAVE_STATE_SLAVE_DOWN None)
    (fun _ => ClsSlaveFsmEntryExit None None)
    cl_timer_zero cl_timer_zero cls_trigger_data_zero cls_node_search_zero.

(** What the environment observes. *)
Inductive cls_output :=
| CciefbOpen (local_ip port : Z)
| CciefbSendto (socket remote_ip remote_port : Z) (frame : list Z)
| CciefbClose (socket : Z)
| SlmpUdp (e : udp_event)
| SetNetworkSettings (ifindex ip_addr netmask : Z)
| StateCb (state : cls_slave_state)
| ErrorCb (error_message : cls_error_message) (ip_addr argument_2 : Z)
| ConnectCb (master_ip_addr group_no slave_station_no : Z)
| DisconnectCb
| MasterRunningCb (connected_to_master connected_and_running stopped_by_user : bool)
    (protocol_ver master_application_status : Z)
| NodeSearchCb (master_mac_addr : list Z) (master_ip_addr : Z)
| SetIpCb (master_mac_addr : list Z) (master_ip_addr new_ip_addr new_netmask : Z)
    (ip_setting_allowed did_set_ip : bool)
| LogWarning (message : cls_cciefb_logwarning_message) (arg_num_a arg_num_b arg_num_c : Z).

Definition cls_prog (A : Type) : Type := prog cls cls_output A.

(** The copy and clear functions of the abstraction layer, as
    src/src/common/clal.h documents them: copying more than the destination
    holds is an assertion failure. *)
Definition clal_memcpy (dest src : list Z) (n : Z) : outcome (list Z) :=
  if Z.of_nat (length dest) <? n then AssertFailed
  else Done (splice 0 (take (Z.to_nat n) src) dest).

Definition clal_clear_memory (dest : list Z) (n : Z) : list Z :=
  splice 0 (zeros (Z.to_nat n)) dest.

(** ** Configuration *)

(** The pointer is [None] for [NULL]. *)
Definition cls_validate_config `{ClsOptions} (cfg : option cls_cfg) : bool :=
  match cfg with
  | None => false
  | Some cfg =>
      if negb (iefb_ip_addr cfg =? CL_IPADDR_ANY) &&
         negb (cl_utils_is_ipaddr_range_valid (iefb_ip_addr cfg)) then false
      else if (num_occupied_stations cfg <? CL_CCIEFB_MIN_OCCUPIED_STATIONS_PER_GROUP) ||
              (CLS_MAX_OCCUPIED_STATIONS <? num_occupied_stations cfg) then false
      else true
  end.
