(* ===== verification/SlaveIefb.v ===== *)
(** * Cyclic communication of the slave (src/src/slave/cls_iefb.c)

    Every function of the file, on the instance as state.  Functions
    returning 0 or -1 return a boolean.  The state machine's actions are the
    constructors of [cls_action]; [run_action] says which function each is.
    The event loop has fuel; SlaveFsm.v proves that two rounds are always
    enough. *)

From S2P Require Import Prelude Packed Signals Timer Limiter Util Types Iefb Slmp Slave.

Section SlaveIefb.
Context `{ClsOptions, Clal}.

Definition CLS_CCIEFB_WAIT_TIME_DISABLE_SLAVE : Z := 2500000.
Definition CLS_CCIEFB_LOGWARNING_RETRIGGER_PERIOD : Z := 1000000.
Definition CLS_CCIEFB_ERRORCALLBACK_RETRIGGER_PERIOD : Z := 1000000.

(** Shorthands for fields of a request. *)
Definition rq_data_header (request : cls_cciefb_cyclic_request_info)
  : cl_cciefb_cyclic_req_data_header := fq_cyclic_data_header (rq_full_headers request).
Definition rq_protocol_ver (request : cls_cciefb_cyclic_request_info) : Z :=
  cqh_protocol_ver (fq_cyclic_header (rq_full_headers request)).
Definition rq_master_local_unit_info (request : cls_cciefb_cyclic_request_info) : Z :=
  msn_master_local_unit_info (fq_master_station_notification (rq_full_headers request)).
Definition rq_clock_info (request : cls_cciefb_cyclic_request_info) : Z :=
  msn_clock_info (fq_master_station_notification (rq_full_headers request)).

Definition cls_iefb_log_warning_once (message : cls_cciefb_logwarning_message)
  (arg_num_a arg_num_b arg_num_c now : Z) : cls_prog unit :=
  if negb log_warning_enabled then mret tt else
  cls ← get;
  let (run, limiter) :=
    cl_limiter_should_run_now (loglimiter cls) (cls_cciefb_logwarning_message_number message) now in
  modify (fun cls => cls <| loglimiter := limiter |>);;
  when run (emit (LogWarning message arg_num_a arg_num_b arg_num_c)).

(** ** Cyclic data *)

Definition cls_iefb_copy_cyclic_data_from_request (request : cls_cciefb_cyclic_request_info)
  (start_number : Z) (transmission_bit : bool) : cls_prog bool :=
  cls ← get;
  let num_occupied_stations := num_occupied_stations (config cls) in
  let end_number := u16 (start_number + num_occupied_stations - 1) in
  let total_occupied := qdh_slave_total_occupied_station_count (rq_data_header request) in
  if (total_occupied =? 0) || (CL_CCIEFB_MAX_OCCUPIED_STATIONS_PER_GROUP <? total_occupied) ||
     (total_occupied <? num_occupied_stations)
  then mret false
  else if (start_number =? 0) || (CL_CCIEFB_MAX_OCCUPIED_STATIONS_PER_GROUP <? start_number)
  then mret false
  else if (CL_CCIEFB_MAX_OCCUPIED_STATIONS_PER_GROUP <? end_number) ||
          (total_occupied <? end_number)
  then mret false
  else
    match cl_iefb_request_get_ry request start_number,
          cl_iefb_request_get_rww request start_number with
    | Some our_first_request_ry, Some our_first_request_rww =>
        let request_ry := drop (Z.to_nat our_first_request_ry) (rq_buffer request) in
        let request_rww := drop (Z.to_nat our_first_request_rww) (rq_buffer request) in
        let area := cyclic_data_area cls in
        (if transmission_bit then
           new_ry ← lift_outcome (clal_memcpy (ry area) request_ry
                                    (num_occupied_stations * sizeof_ry));
           modify (fun cls => cls <| cyclic_data_area ::= (fun a => a <| ry := new_ry |>) |>);;
           new_rww ← lift_outcome (clal_memcpy (rww area) request_rww
                                     (num_occupied_stations * sizeof_rww));
           modify (fun cls => cls <| cyclic_data_area ::= (fun a => a <| rww := new_rww |>) |>)
         else
           modify (fun cls => cls <| cyclic_data_area ::= (fun a => a
             <| ry ::= (fun d => clal_clear_memory d (num_occupied_stations * sizeof_ry)) |>
             <| rww ::= (fun d => clal_clear_memory d (num_occupied_stations * sizeof_rww)) |>) |>));;
        mret true
    | _, _ => mret false
    end.

Definition cls_iefb_send_cyclic_response_frame (frame_sequence_no group_no : Z)
  (include_data : bool) (end_code remote_ip remote_port slave_ip_addr : Z) : cls_prog bool :=
  cc_assert (cl_is_slave_endcode_valid end_code);;
  cls ← get;
  let output_frame := if include_data then cciefb_resp_frame_normal cls
                      else cciefb_resp_frame_error cls in
  let output_frame :=
    cl_iefb_update_cyclic_response_frame output_frame slave_ip_addr end_code group_no
      frame_sequence_no (slave_application_status cls) (slave_err_code cls)
      (local_management_info cls) in
  modify (fun cls =>
    if include_data then cls <| cciefb_resp_frame_normal := output_frame |>
    else cls <| cciefb_resp_frame_error := output_frame |>);;
  let frame := take (Z.to_nat (ri_udp_payload_len output_frame)) (ri_buffer output_frame) in
  emit (CciefbSendto (cciefb_socket cls) remote_ip remote_port frame);;
  let sent_size := clal_udp_sendto (cciefb_socket cls) remote_ip remote_port frame in
  mret (negb ((sent_size <? 0) || negb (sent_size =? ri_udp_payload_len output_frame))).

Definition cls_iefb_send_cyclic_response_error_frame
  (request : cls_cciefb_cyclic_request_info) (end_code : Z) : cls_prog bool :=
  cls_iefb_send_cyclic_response_frame
    (qdh_frame_sequence_no (rq_data_header request)) (qdh_group_no (rq_data_header request))
    false end_code (rq_remote_ip request) (rq_remote_port request) (rq_slave_ip_addr request).

Definition cls_iefb_is_master_id_correct (cls : cls) (id : Z) : bool :=
  if master_id (master cls) =? CL_IPADDR_INVALID then false
  else id =? master_id (master cls).

(** ** Callbacks to the application *)

Definition cls_iefb_should_trigger_master_state_callback
  (executed_before connected_to_master previous_connected_to_master : bool)
  (protocol_ver previous_protocol_ver master_application_status
   previous_master_application_status : Z) : bool :=
  if negb executed_before then true
  else if negb (Bool.eqb connected_to_master previous_connected_to_master) then true
  else if negb (protocol_ver =? previous_protocol_ver) then true
  else if negb (master_application_status =? previous_master_application_status) then true
  else false.

(** Running, stopped by user, protocol version, status. *)
Definition cls_iefb_filter_master_state_callback_values (connected_to_master : bool)
  (protocol_ver master_application_status : Z) : bool * bool * Z * Z :=
  if negb connected_to_master then (false, false, 0, 0)
  else
    let running := negb (Z.land master_application_status (BIT 0) =? 0) in
    let stopped_by_user :=
      if (1 <? protocol_ver) && negb running
      then negb (Z.land master_application_status (BIT 1) =? 0) else false in
    (running, stopped_by_user, protocol_ver, master_application_status).

Definition cls_iefb_handle_master_state_callback (connected_to_master : bool)
  (protocol_ver master_application_status : Z) : cls_prog unit :=
  cls ← get;
  let t := master_state_callback_trigger_data cls in
  when (cls_iefb_should_trigger_master_state_callback (executed_before t) connected_to_master
          (previous_connected_to_master t) protocol_ver (previous_protocol_ver t)
          master_application_status (previous_master_application_status t))
    (let '(running, stopped_by_user, ver, status) :=
       cls_iefb_filter_master_state_callback_values connected_to_master protocol_ver
         master_application_status in
     when (master_running_cb (config cls))
       (emit (MasterRunningCb connected_to_master running stopped_by_user ver status)));;
  modify (fun cls => cls <| master_state_callback_trigger_data :=
    ClsTriggerData true connected_to_master protocol_ver master_application_status |>).

Definition cls_iefb_trigger_error_callback (now : Z) (error_message : cls_error_message)
  (ip_addr argument_2 : Z) : cls_prog unit :=
  cls ← get;
  let (run, limiter) :=
    cl_limiter_should_run_now (errorlimiter cls) (cls_error_message_number error_message) now in
  modify (fun cls => cls <| errorlimiter := limiter |>);;
  when (run && error_cb (config cls)) (emit (ErrorCb error_message ip_addr argument_2)).

(** ** Access to the cyclic data areas *)


Definition cls_iefb_set_rx_bit (number : Z) (value : bool) : cls_prog unit :=
  cls ← get;
  let '(areanumber, byte_in_area, mask) := cl_iefb_bit_calculate_areanumber number in
  cc_assert (areanumber <? num_occupied_stations (config cls));;
  let pos := cl_iefb_get_rx_area (cciefb_resp_frame_normal cls) areanumber + byte_in_area in
  modify (fun cls => cls <| cciefb_resp_frame_normal ::= (fun f => f <| ri_buffer ::= (fun b =>
    set_byte b pos (if value then u8 (Z.lor (byte_at b pos) mask)
                    else u8 (Z.land (byte_at b pos) (Z.lnot mask)))) |>) |>).

Definition cls_iefb_get_rx_bit (number : Z) : cls_prog bool :=
  cls ← get;
  let '(areanumber, byte_in_area, mask) := cl_iefb_bit_calculate_areanumber number in
  cc_assert (areanumber <? num_occupied_stations (config cls));;
  let pos := cl_iefb_get_rx_area (cciefb_resp_frame_normal cls) areanumber + byte_in_area in
  mret (0 <? Z.land (byte_at (ri_buffer (cciefb_resp_frame_normal cls)) pos) mask).

Definition cls_iefb_get_ry_bit (number : Z) : cls_prog bool :=
  cls ← get;
  let '(areanumber, byte_in_area, mask) := cl_iefb_bit_calculate_areanumber number in
  cc_assert (areanumber <? num_occupied_stations (config cls));;
  mret (0 <? Z.land (byte_at (ry (cyclic_data_area cls))
                       (areanumber * sizeof_ry + byte_in_area)) mask).

Definition cls_iefb_set_rwr_value (number value : Z) : cls_prog unit :=
  cls ← get;
  let '(areanumber, register_in_area) := cl_iefb_register_calculate_areanumber number in
  cc_assert (areanumber <? num_occupied_stations (config cls));;
  let pos := cl_iefb_get_rwr_area (cciefb_resp_frame_normal cls) areanumber +
             2 * register_in_area in
  modify (fun cls => cls <| cciefb_resp_frame_normal ::= (fun f => f <| ri_buffer ::= (fun b =>
    splice (Z.to_nat pos) (c_enc c_u16le value) b) |>) |>).

Definition cls_iefb_get_rwr_value (number : Z) : cls_prog Z :=
  cls ← get;
  let '(areanumber, register_in_area) := cl_iefb_register_calculate_areanumber number in
  cc_assert (areanumber <? num_occupied_stations (config cls));;
  let pos := cl_iefb_get_rwr_area (cciefb_resp_frame_normal cls) areanumber +
             2 * register_in_area in
  mret (read_at c_u16le (ri_buffer (cciefb_resp_frame_normal cls)) pos).

Definition cls_iefb_get_rww_value (number : Z) : cls_prog Z :=
  cls ← get;
  let '(areanumber, register_in_area) := cl_iefb_register_calculate_areanumber number in
  cc_assert (areanumber <? num_occupied_stations (config cls));;
  mret (read_at c_u16le (rww (cyclic_data_area cls))
          (areanumber * sizeof_rww + 2 * register_in_area)).

(** ** Actions of the state machine *)

Definition cls_iefb_clear_master_info : cls_prog unit :=
  modify (fun cls => cls
    <| master := cls_master_connection_zero <| master_id := CL_IPADDR_INVALID |> |>
    <| receive_timer ::= cl_timer_stop |>
    <| timer_for_disabling_slave ::= cl_timer_stop |>);;
  cls_iefb_handle_master_state_callback false 0 0.

(** The frames used for normal and error responses. *)
Definition cls_iefb_initialise_frame (cls : cls) (frame : cls_cciefb_cyclic_response_info)
  : outcome cls_cciefb_cyclic_response_info :=
  cl_iefb_initialise_cyclic_response_frame (ri_buffer frame) CL_BUFFER_LEN
    (num_occupied_stations (config cls)) (vendor_code (config cls)) (model_code (config cls))
    (equipment_ver (config cls)).

Definition slave_init_action : cls_prog cls_slave_event :=
  modify (fun cls => cls
    <| receive_timer ::= cl_timer_stop |>
    <| timer_for_disabling_slave ::= cl_timer_stop |>
    <| cyclic_data_area := cls_memory_area_zero |>
    <| master_state_callback_trigger_data := cls_trigger_data_zero |>);;
  cls_iefb_clear_master_info;;
  modify (fun cls => cls
    <| slave_application_status := CL_SLAVE_APPL_OPERATION_STATUS_OPERATING |>
    <| local_management_info := CL_CCIEFB_SLAVE_STATION_NOTIFICATION_DEFAULT_LOCAL_MANAG_INFO |>
    <| slave_err_code := CL_CCIEFB_SLAVE_STATION_NOTIFICATION_DEFAULT_SLAVE_ERR_CODE |>
    <| endcode_slave_disabled := CL_SLMP_ENDCODE_CCIEFB_SLAVE_REQUESTS_DISCONNECT |>);;
  cls ← get;
  normal ← lift_outcome (cls_iefb_initialise_frame cls (cciefb_resp_frame_normal cls));
  modify (fun cls => cls <| cciefb_resp_frame_normal := normal |>);;
  error ← lift_outcome (cls_iefb_initialise_frame cls (cciefb_resp_frame_error cls));
  modify (fun cls => cls <| cciefb_resp_frame_error := error |>);;
  mret CLS_SLAVE_EVENT_NONE.

Definition handle_wrong_master_action (now : Z)
  (request : option cls_cciefb_cyclic_request_info) : cls_prog cls_slave_event :=
  match request with
  | None => mret CLS_SLAVE_EVENT_NONE
  | Some request =>
      let new_master_id := qdh_master_id (rq_data_header request) in
      cls_iefb_log_warning_once CLS_LOGLIMITER_MASTER_DUPLICATION new_master_id 0 0 now;;
      cls_iefb_trigger_error_callback now CLS_ERROR_MASTER_STATION_DUPLICATION new_master_id 0;;
      cls_iefb_send_cyclic_response_error_frame request
        CL_SLMP_ENDCODE_CCIEFB_MASTER_DUPLICATION;;
      mret CLS_SLAVE_EVENT_NONE
  end.

Definition handle_wrong_stationcount_action
  (request : option cls_cciefb_cyclic_request_info) : cls_prog cls_slave_event :=
  match request with
  | None => mret CLS_SLAVE_EVENT_NONE
  | Some request =>
      cls_iefb_send_cyclic_response_error_frame request
        CL_SLMP_ENDCODE_CCIEFB_WRONG_NUMBER_OCCUPIED_STATIONS;;
      mret CLS_SLAVE_EVENT_NONE
  end.

Definition handle_incoming_when_disabled_action
  (request : option cls_cciefb_cyclic_request_info) : cls_prog cls_slave_event :=
  match request with
  | None => mret CLS_SLAVE_EVENT_NONE
  | Some request =>
      cls ← get;
      cls_iefb_send_cyclic_response_error_frame request (endcode_slave_disabled cls);;
      mret CLS_SLAVE_EVENT_NONE
  end.

Definition handle_new_or_updated_master_action (now : Z)
  (request : option cls_cciefb_cyclic_request_info) : cls_prog cls_slave_event :=
  match request with
  | None => mret CLS_SLAVE_EVENT_NONE
  | Some request =>
      let d := rq_data_header request in
      modify (fun cls => cls <| master ::= (fun m => m
        <| master_id := qdh_master_id d |>
        <| parameter_no := qdh_parameter_no d |>
        <| group_no := qdh_group_no d |>
        <| timeout_value := qdh_timeout_value d |>
        <| parallel_off_timeout_count := qdh_parallel_off_timeout_count d |>
        <| total_occupied_station_count := qdh_slave_total_occupied_station_count d |>
        <| clock_info := rq_clock_info request |>
        <| clock_info_valid := negb (rq_clock_info request =? 0) |>
        <| protocol_ver := rq_protocol_ver request |>) |>);;
      modify (fun cls => cls <| receive_timer ::= (fun t =>
        cl_timer_start t
          (u32 (cl_calculate_total_timeout_us (timeout_value (master cls))
                  (parallel_off_timeout_count (master cls)))) now) |>);;
      cls ← get;
      when (connect_cb (config cls))
        (emit (ConnectCb (master_id (master cls)) (group_no (master cls))
                 (slave_station_no (master cls))));;
      cls_iefb_handle_master_state_callback true (rq_protocol_ver request)
        (rq_master_local_unit_info request);;
      mret CLS_SLAVE_EVENT_CYCLIC_CORRECT_MASTER
  end.

Definition handle_cyclic_event_action (now : Z)
  (request : option cls_cciefb_cyclic_request_info) : cls_prog cls_slave_event :=
  match request with
  | None => mret CLS_SLAVE_EVENT_NONE
  | Some request =>
      let d := rq_data_header request in
      cls ← get;
      let transmission_bit :=
        cl_iefb_extract_my_transmission_state (qdh_cyclic_transmission_state d)
          (slave_station_no (master cls)) in
      copied ← cls_iefb_copy_cyclic_data_from_request request (slave_station_no (master cls))
                 transmission_bit;
      if negb copied then mret CLS_SLAVE_EVENT_NONE else
      modify (fun cls => cls <| master ::= (fun m => m
        <| clock_info := rq_clock_info request |>
        <| clock_info_valid := negb (rq_clock_info request =? 0) |>) |>);;
      cls_iefb_handle_master_state_callback true (rq_protocol_ver request)
        (rq_master_local_unit_info request);;
      cls_iefb_send_cyclic_response_frame (qdh_frame_sequence_no d) (qdh_group_no d)
        transmission_bit CL_SLMP_ENDCODE_SUCCESS (rq_remote_ip request)
        (rq_remote_port request) (rq_slave_ip_addr request);;
      modify (fun cls => cls <| receive_timer ::= (fun t => cl_timer_restart t now) |>);;
      mret CLS_SLAVE_EVENT_NONE
  end.

Definition on_exit_master_control_action : cls_prog cls_slave_event :=
  cls ← get;
  when (disconnect_cb (config cls)) (emit DisconnectCb);;
  mret CLS_SLAVE_EVENT_NONE.

Definition on_entry_wait_disabling_slave_action (now : Z) : cls_prog cls_slave_event :=
  cls_iefb_clear_master_info;;
  modify (fun cls => cls <| timer_for_disabling_slave ::= (fun t =>
    cl_timer_start t CLS_CCIEFB_WAIT_TIME_DISABLE_SLAVE now) |>);;
  mret CLS_SLAVE_EVENT_NONE.

Definition run_action (action : cls_action) (now : Z)
  (request : option cls_cciefb_cyclic_request_info) : cls_prog cls_slave_event :=
  match action with
  | cls_iefb_slave_init => slave_init_action
  | cls_iefb_handle_wrong_master => handle_wrong_master_action now request
  | cls_iefb_handle_wrong_stationcount => handle_wrong_stationcount_action request
  | cls_iefb_handle_incoming_when_disabled => handle_incoming_when_disabled_action request
  | cls_iefb_handle_new_or_updated_master => handle_new_or_updated_master_action now request
  | cls_iefb_handle_cyclic_event => handle_cyclic_event_action now request
  | cls_iefb_log_timeout_master | cls_iefb_log_ip_addr_updated
  | cls_iefb_log_slave_disabled | cls_iefb_log_slave_reenabled => mret CLS_SLAVE_EVENT_NONE
  | cls_iefb_on_entry_master_none => cls_iefb_clear_master_info;; mret CLS_SLAVE_EVENT_NONE
  | cls_iefb_on_exit_master_control => on_exit_master_control_action
  | cls_iefb_on_entry_wait_disabling_slave => on_entry_wait_disabling_slave_action now
  | cls_iefb_on_entry_slave_disabled =>
      modify (fun cls => cls <| timer_for_disabling_slave ::= cl_timer_stop |>);;
      mret CLS_SLAVE_EVENT_NONE
  end.

(** ** The state machine *)

Definition transitions
  : list (cls_slave_state * cls_slave_event * cls_slave_state * option cls_action) := [
  (CLS_SLAVE_STATE_SLAVE_DOWN, CLS_SLAVE_EVENT_STARTUP, CLS_SLAVE_STATE_MASTER_NONE,
    Some cls_iefb_slave_init);
  (CLS_SLAVE_STATE_MASTER_NONE, CLS_SLAVE_EVENT_CYCLIC_NEW_MASTER,
    CLS_SLAVE_STATE_MASTER_CONTROL, Some cls_iefb_handle_new_or_updated_master);
  (CLS_SLAVE_STATE_MASTER_NONE, CLS_SLAVE_EVENT_CYCLIC_WRONG_STATIONCOUNT,
    CLS_SLAVE_STATE_MASTER_NONE, Some cls_iefb_handle_wrong_stationcount);
  (CLS_SLAVE_STATE_MASTER_NONE, CLS_SLAVE_EVENT_DISABLE_SLAVE,
    CLS_SLAVE_STATE_SLAVE_DISABLED, Some cls_iefb_log_slave_disabled);
  (CLS_SLAVE_STATE_MASTER_CONTROL, CLS_SLAVE_EVENT_CYCLIC_CORRECT_MASTER,
    CLS_SLAVE_STATE_MASTER_CONTROL, Some cls_iefb_handle_cyclic_event);
  (CLS_SLAVE_STATE_MASTER_CONTROL, CLS_SLAVE_EVENT_CYCLIC_WRONG_MASTER,
    CLS_SLAVE_STATE_MASTER_CONTROL, Some cls_iefb_handle_wrong_master);
  (CLS_SLAVE_STATE_MASTER_CONTROL, CLS_SLAVE_EVENT_CYCLIC_NEW_MASTER,
    CLS_SLAVE_STATE_MASTER_CONTROL, Some cls_iefb_handle_new_or_updated_master);
  (CLS_SLAVE_STATE_MASTER_CONTROL, CLS_SLAVE_EVENT_CYCLIC_WRONG_STATIONCOUNT,
    CLS_SLAVE_STATE_MASTER_NONE, Some cls_iefb_handle_wrong_stationcount);
  (CLS_SLAVE_STATE_MASTER_CONTROL, CLS_SLAVE_EVENT_TIMEOUT_MASTER,
    CLS_SLAVE_STATE_MASTER_NONE, Some cls_iefb_log_timeout_master);
  (CLS_SLAVE_STATE_MASTER_CONTROL, CLS_SLAVE_EVENT_IP_UPDATED,
    CLS_SLAVE_STATE_MASTER_NONE, Some cls_iefb_log_ip_addr_updated);
  (CLS_SLAVE_STATE_MASTER_CONTROL, CLS_SLAVE_EVENT_DISABLE_SLAVE,
    CLS_SLAVE_STATE_WAIT_DISABLING_SLAVE, Some cls_iefb_log_slave_disabled);
  (CLS_SLAVE_STATE_WAIT_DISABLING_SLAVE, CLS_SLAVE_EVENT_REENABLE_SLAVE,
    CLS_SLAVE_STATE_MASTER_NONE, Some cls_iefb_log_slave_reenabled);
  (CLS_SLAVE_STATE_WAIT_DISABLING_SLAVE, CLS_SLAVE_EVENT_CYCLIC_INCOMING_WHEN_DISABLED,
    CLS_SLAVE_STATE_WAIT_DISABLING_SLAVE, Some cls_iefb_handle_incoming_when_disabled);
  (CLS_SLAVE_STATE_WAIT_DISABLING_SLAVE, CLS_SLAVE_EVENT_DISABLE_SLAVE_WAIT_ENDED,
    CLS_SLAVE_STATE_SLAVE_DISABLED, None);
  (CLS_SLAVE_STATE_WAIT_DISABLING_SLAVE, CLS_SLAVE_EVENT_IP_UPDATED,
    CLS_SLAVE_STATE_SLAVE_DISABLED, Some cls_iefb_log_ip_addr_updated);
  (CLS_SLAVE_STATE_SLAVE_DISABLED, CLS_SLAVE_EVENT_REENABLE_SLAVE,
    CLS_SLAVE_STATE_MASTER_NONE, Some cls_iefb_log_slave_reenabled)].

Definition state_actions
  : list (cls_slave_state * option cls_action * option cls_action) := [
  (CLS_SLAVE_STATE_MASTER_NONE, Some cls_iefb_on_entry_master_none, None);
  (CLS_SLAVE_STATE_MASTER_CONTROL, None, Some cls_iefb_on_exit_master_control);
  (CLS_SLAVE_STATE_WAIT_DISABLING_SLAVE, Some cls_iefb_on_entry_wait_disabling_slave, None);
  (CLS_SLAVE_STATE_SLAVE_DISABLED, Some cls_iefb_on_entry_slave_disabled, None)].

(** The loop; [false] when the fuel is used up. *)
Fixpoint fsm_event_loop (fuel : nat) (now : Z)
  (request : option cls_cciefb_cyclic_request_info) (event : cls_slave_event) : cls_prog bool :=
  match fuel with
  | O => mret false
  | S fuel =>
      cls ← get;
      let previous := state cls in
      let element := fsm_matrix cls previous event in
      let previous_state_actions := fsm_on_entry_exit cls previous in
      let next_state_actions := fsm_on_entry_exit cls (fsm_next element) in
      (match fsm_on_exit previous_state_actions with
       | Some on_exit =>
           if bool_decide (fsm_next element <> previous)
           then run_action on_exit now request;; mret tt
           else mret tt
       | None => mret tt
       end);;
      modify (fun cls => cls <| state := fsm_next element |>);;
      event ← match fsm_action element with
              | Some action => run_action action now request
              | None => mret CLS_SLAVE_EVENT_NONE
              end;
      cls ← get;
      (match fsm_on_entry next_state_actions with
       | Some on_entry =>
           if bool_decide (state cls <> previous)
           then run_action on_entry now request;; mret tt
           else mret tt
       | None => mret tt
       end);;
      cls ← get;
      when (bool_decide (state cls <> previous) && state_cb (config cls))
        (emit (StateCb (state cls)));;
      if bool_decide (event <> CLS_SLAVE_EVENT_NONE)
      then fsm_event_loop fuel now request event
      else mret true
  end.

Definition FSM_FUEL : nat := 2.

Definition cls_iefb_fsm_event (now : Z) (request : option cls_cciefb_cyclic_request_info)
  (event : cls_slave_event) : cls_prog unit :=
  if bool_decide (event = CLS_SLAVE_EVENT_LAST) then mret tt
  else fsm_event_loop FSM_FUEL now request event;; mret tt.

(** One assignment to the matrix. *)
Definition set_transition (matrix : cls_slave_state -> cls_slave_event -> cls_slave_fsm)
  (t : cls_slave_state * cls_slave_event * cls_slave_state * option cls_action)
  : cls_slave_state -> cls_slave_event -> cls_slave_fsm :=
  let '(s, e, next, action) := t in
  fun s' e' => if bool_decide (s' = s) && bool_decide (e' = e)
               then ClsSlaveFsm next action else matrix s' e'.

Definition set_state_actions (table : cls_slave_state -> cls_slave_fsm_entry_exit)
  (a : cls_slave_state * option cls_action * option cls_action)
  : cls_slave_state -> cls_slave_fsm_entry_exit :=
  let '(s, on_entry, on_exit) := a in
  fun s' => if bool_decide (s' = s) then ClsSlaveFsmEntryExit on_entry on_exit else table s'.

Definition initial_fsm_matrix : cls_slave_state -> cls_slave_event -> cls_slave_fsm :=
  foldl set_transition (fun s _ => ClsSlaveFsm s None) transitions.

Definition initial_fsm_on_entry_exit : cls_slave_state -> cls_slave_fsm_entry_exit :=
  foldl set_state_actions (fun _ => ClsSlaveFsmEntryExit None None) state_actions.

Definition cls_fsm_init (now : Z) : cls_prog unit :=
  modify (fun cls => cls
    <| fsm_matrix := initial_fsm_matrix |>
    <| fsm_on_entry_exit := initial_fsm_on_entry_exit |>
    <| state := CLS_SLAVE_STATE_SLAVE_DOWN |>);;
  cls_iefb_fsm_event now None CLS_SLAVE_EVENT_STARTUP.

(** ** Incoming frames *)

(** States in which all frames are discarded. *)
Definition discards_frames (s : cls_slave_state) : bool :=
  bool_decide (s = CLS_SLAVE_STATE_SLAVE_DOWN) ||
  bool_decide (s = CLS_SLAVE_STATE_SLAVE_DISABLED) ||
  bool_decide (s = CLS_SLAVE_STATE_LAST).

Definition cls_iefb_search_slave_parameters (now : Z)
  (cyclic_request : cls_cciefb_cyclic_request_info) : cls_prog bool :=
  let d := rq_data_header cyclic_request in
  let total_occupied := qdh_slave_total_occupied_station_count d in
  let transmission_states := qdh_cyclic_transmission_state d in
  cls ← get;
  if discards_frames (state cls) then mret true else
  match cl_iefb_analyze_slave_ids (rq_slave_ip_addr cyclic_request) total_occupied
          (rq_buffer cyclic_request) (rq_first_slave_id cyclic_request) with
  | None => mret false
  | Some (false, _, _) => mret true
  | Some (true, my_slave_station_no, implied_occupation_count) =>
      if negb (implied_occupation_count =? num_occupied_stations (config cls)) then
        cls_iefb_log_warning_once CLS_LOGLIMITER_WRONG_NUMBER_OCCUPIED CL_IPADDR_INVALID
          (num_occupied_stations (config cls)) implied_occupation_count now;;
        cls_iefb_trigger_error_callback now CLS_ERROR_WRONG_NUMBER_OCCUPIED CL_IPADDR_INVALID
          implied_occupation_count;;
        cls_iefb_fsm_event now (Some cyclic_request) CLS_SLAVE_EVENT_CYCLIC_WRONG_STATIONCOUNT;;
        mret true
      else
        let enabled :=
          cl_iefb_extract_my_transmission_state transmission_states my_slave_station_no in
        if bool_decide (state cls = CLS_SLAVE_STATE_WAIT_DISABLING_SLAVE) then
          when enabled
            (cls_iefb_fsm_event now (Some cyclic_request)
               CLS_SLAVE_EVENT_CYCLIC_INCOMING_WHEN_DISABLED);;
          mret true
        else if bool_decide (state cls = CLS_SLAVE_STATE_MASTER_NONE) then
          if enabled then
            cls_iefb_trigger_error_callback now CLS_ERROR_SLAVE_STATION_DUPLICATION
              CL_IPADDR_INVALID 0;;
            mret true
          else
            modify (fun cls => cls <| master ::= (fun m => m
              <| slave_station_no := my_slave_station_no |>) |>);;
            cls_iefb_fsm_event now (Some cyclic_request) CLS_SLAVE_EVENT_CYCLIC_NEW_MASTER;;
            mret true
        else if negb (cls_iefb_is_master_id_correct cls (qdh_master_id d)) then mret true
        else if enabled then mret true
        else
          modify (fun cls => cls <| master ::= (fun m => m
            <| slave_station_no := my_slave_station_no |>) |>);;
          cls_iefb_fsm_event now (Some cyclic_request) CLS_SLAVE_EVENT_CYCLIC_NEW_MASTER;;
          mret true
  end.

Definition cls_iefb_handle_cyclic_input_frame (now : Z) (buffer : list Z)
  (recv_len remote_ip remote_port slave_ip_addr : Z) : cls_prog bool :=
  if slave_ip_addr =? CL_IPADDR_INVALID then mret false else
  parsed ← lift_outcome
             (cl_iefb_parse_cyclic_request buffer recv_len remote_ip remote_port slave_ip_addr);
  match parsed with
  | None => mret false
  | Some cyclic_request =>
      cls ← get;
      if discards_frames (state cls) then mret true
      else if bool_decide (state cls <> CLS_SLAVE_STATE_MASTER_CONTROL)
      then cls_iefb_search_slave_parameters now cyclic_request
      else
        let d := rq_data_header cyclic_request in
        if negb (cls_iefb_is_master_id_correct cls (qdh_master_id d)) then
          cls_iefb_fsm_event now (Some cyclic_request) CLS_SLAVE_EVENT_CYCLIC_WRONG_MASTER;;
          mret true
        else if negb (qdh_parameter_no d =? parameter_no (master cls))
        then cls_iefb_search_slave_parameters now cyclic_request
        else if qdh_frame_sequence_no d =? 0
        then cls_iefb_search_slave_parameters now cyclic_request
        else if negb (qdh_group_no d =? group_no (master cls)) then mret true
        else
          match cl_iefb_request_get_slave_id (rq_buffer cyclic_request)
                  (rq_first_slave_id cyclic_request) (slave_station_no (master cls))
                  (qdh_slave_total_occupied_station_count d) with
          | None => mret false
          | Some extracted_slave_id =>
              if extracted_slave_id =? CL_IPADDR_INVALID then mret true
              else if negb (extracted_slave_id =? slave_ip_addr) then mret false
              else
                cls_iefb_fsm_event now (Some cyclic_request)
                  CLS_SLAVE_EVENT_CYCLIC_CORRECT_MASTER;;
                mret true
          end
  end.

Definition cls_iefb_handle_input_frame (now : Z) (buffer : list Z)
  (recv_len remote_ip remote_port slave_ip_addr : Z) : cls_prog bool :=
  match cl_iefb_parse_request_header buffer recv_len with
  | None => mret false
  | Some header =>
      if negb (cl_iefb_validate_request_header header recv_len) then mret false
      else if (rqh_command header =? CL_SLMP_COMMAND_CCIEFB_CYCLIC) &&
              (rqh_sub_command header =? CL_SLMP_SUBCOMMAND_CCIEFB_CYCLIC)
      then cls_iefb_handle_cyclic_input_frame now buffer recv_len remote_ip remote_port
             slave_ip_addr
      else mret false
  end.

(** ** Public functions *)

Definition cls_iefb_disable_slave (now : Z) (is_error : bool) : cls_prog unit :=
  modify (fun cls => cls <| endcode_slave_disabled :=
    if is_error then CL_SLMP_ENDCODE_CCIEFB_SLAVE_ERROR
    else CL_SLMP_ENDCODE_CCIEFB_SLAVE_REQUESTS_DISCONNECT |>);;
  cls_iefb_fsm_event now None CLS_SLAVE_EVENT_DISABLE_SLAVE.

Definition cls_iefb_reenable_slave (now : Z) : cls_prog unit :=
  cls_iefb_fsm_event now None CLS_SLAVE_EVENT_REENABLE_SLAVE.

Definition cls_iefb_get_master_timestamp (cls : cls) : option Z :=
  if clock_info_valid (master cls) then Some (clock_info (master cls)) else None.

(** [received] is what the socket has for us, if anything; the bytes overwrite
    the start of the receive buffer. *)
Definition cls_iefb_periodic (received : option datagram) (now : Z) : cls_prog unit :=
  (match received with
   | None => mret tt
   | Some dg =>
       modify (fun cls => cls <| cciefb_receivebuf ::= splice 0 (dg_bytes dg) |>);;
       cls ← get;
       let recv_len := Z.of_nat (length (dg_bytes dg)) in
       when (0 <? recv_len)
         (cls_iefb_handle_input_frame now (cciefb_receivebuf cls) recv_len (dg_remote_ip dg)
            (dg_remote_port dg) (dg_local_ip dg);; mret tt)
   end);;
  cls ← get;
  when (cl_timer_is_expired (receive_timer cls) now)
    (modify (fun cls => cls <| receive_timer ::= cl_timer_stop |>);;
     cls_iefb_fsm_event now None CLS_SLAVE_EVENT_TIMEOUT_MASTER);;
  cls ← get;
  when (cl_timer_is_expired (timer_for_disabling_slave cls) now)
    (modify (fun cls => cls <| timer_for_disabling_slave ::= cl_timer_stop |>);;
     cls_iefb_fsm_event now None CLS_SLAVE_EVENT_DISABLE_SLAVE_WAIT_ENDED);;
  modify (fun cls => cls
    <| errorlimiter ::= (fun l => cl_limiter_periodic l now) |>
    <| loglimiter ::= (fun l => cl_limiter_periodic l now) |>).

Definition cls_iefb_set_local_management_info (info : Z) : cls_prog unit :=
  modify (fun cls => cls <| local_management_info := info |>).
Definition cls_iefb_set_slave_application_status (status : Z) : cls_prog unit :=
  modify (fun cls => cls <| slave_application_status := status |>).
Definition cls_iefb_set_slave_error_code (code : Z) : cls_prog unit :=
  modify (fun cls => cls <| slave_err_code := code |>).
Definition cls_iefb_get_local_management_info (cls : cls) : Z := local_management_info cls.
Definition cls_iefb_get_slave_application_status (cls : cls) : Z := slave_application_status cls.
Definition cls_iefb_get_slave_error_code (cls : cls) : Z := slave_err_code cls.
Definition cls_iefb_get_master_connection_details (cls : cls) : cls_master_connection := master cls.

(** The pointers to the areas: RX and RWr point into the frame of the normal
    response, RY and RWw to the data received. *)
Inductive cls_area_pointer :=
| InResponseFrame (off : Z)
| InRyData
| InRwwData.
Definition cls_iefb_get_first_rx_area (cls : cls) : cls_area_pointer :=
  InResponseFrame (ri_first_rx (cciefb_resp_frame_normal cls)).
Definition cls_iefb_get_first_ry_area (cls : cls) : cls_area_pointer := InRyData.
Definition cls_iefb_get_first_rwr_area (cls : cls) : cls_area_pointer :=
  InResponseFrame (ri_first_rwr (cciefb_resp_frame_normal cls)).
Definition cls_iefb_get_first_rww_area (cls : cls) : cls_area_pointer := InRwwData.

Definition cls_iefb_init (now : Z) : cls_prog bool :=
  modify (fun cls => cls
    <| loglimiter ::= (fun l => cl_limiter_init l CLS_CCIEFB_LOGWARNING_RETRIGGER_PERIOD) |>
    <| errorlimiter ::= (fun l =>
         cl_limiter_init l CLS_CCIEFB_ERRORCALLBACK_RETRIGGER_PERIOD) |>);;
  cls ← get;
  let ip := iefb_ip_addr (config cls) in
  let socket := clal_udp_open ip CL_CCIEFB_PORT in
  emit (CciefbOpen ip CL_CCIEFB_PORT);;
  modify (fun cls => cls <| cciefb_socket := socket |>);;
  if socket =? -1 then mret false else
  cls_fsm_init now;;
  mret true.

Definition cls_iefb_exit : cls_prog unit :=
  cls ← get;
  emit (CciefbClose (cciefb_socket cls)).

End SlaveIefb.
