(* ===== verification/SlaveInv.v ===== *)
(** * Invariant of the slave

    What holds of a slave instance between any two calls, and the facts about
    accepted requests and about single operations that show its
    preservation. *)

From S2P Require Import Prelude Packed Signals Timer Limiter Util Types Iefb IefbFacts IefbRoundtrip.
From S2P Require Import Slmp Slave SlaveIefb.

Section SlaveInv.
Context `{ClsOptions, Clal}.

(** ** Definitions *)

(** A configuration the init function accepts, with the types of its fields. *)
Record config_ok (cfg : cls_cfg) : Prop := {
  co_valid : cls_validate_config (Some cfg) = true;
  co_vendor : is_u16 (vendor_code cfg);
  co_model : is_u32 (model_code cfg);
  co_equipment : is_u16 (equipment_ver cfg)
}.

(** A frame buffer of the slave: the headers of a response for its station
    count, whatever the runtime fields, and the pointers into it. *)
Definition response_frame_ok (cfg : cls_cfg) (f : cls_cciefb_cyclic_response_info) : Prop :=
  ri_udp_payload_len f = 59 + 72 * num_occupied_stations cfg /\ ri_first_rwr f = 59 /\
  ri_first_rx f = 59 + 64 * num_occupied_stations cfg /\
  exists slave ec g seq info err manag,
    frame_shape c_cl_cciefb_cyclic_resp_full_headers (ri_buffer f) 1500
      (response_headers (num_occupied_stations cfg) (vendor_code cfg) (model_code cfg)
         (equipment_ver cfg) slave ec g seq info err manag).

(** The part of the invariant that does not depend on the state of the
    connection. *)
Record slave_base (cfg : cls_cfg) (cls : cls) : Prop := {
  sb_config : config cls = cfg;
  sb_matrix : fsm_matrix cls = initial_fsm_matrix;
  sb_actions : fsm_on_entry_exit cls = initial_fsm_on_entry_exit;
  sb_normal : response_frame_ok cfg (cciefb_resp_frame_normal cls);
  sb_error : response_frame_ok cfg (cciefb_resp_frame_error cls);
  sb_ry : length (ry (cyclic_data_area cls)) = Z.to_nat (CLS_MAX_OCCUPIED_STATIONS * sizeof_ry) /\
          bytes (ry (cyclic_data_area cls));
  sb_rww : length (rww (cyclic_data_area cls)) =
             Z.to_nat (CLS_MAX_OCCUPIED_STATIONS * sizeof_rww) /\
           bytes (rww (cyclic_data_area cls));
  sb_buf : length (cciefb_receivebuf cls) = Z.to_nat CL_BUFFER_LEN /\
           bytes (cciefb_receivebuf cls);
  sb_error_zero : slice 59 (Z.to_nat (72 * num_occupied_stations cfg))
      (ri_buffer (cciefb_resp_frame_error cls)) =
    zeros (Z.to_nat (72 * num_occupied_stations cfg));
  sb_status : 0 <= slave_application_status cls <= 1;
  sb_err : is_u16 (slave_err_code cls);
  sb_manag : is_u32 (local_management_info cls);
  sb_endcode : endcode_slave_disabled cls = CL_SLMP_ENDCODE_CCIEFB_SLAVE_ERROR \/
               endcode_slave_disabled cls = CL_SLMP_ENDCODE_CCIEFB_SLAVE_REQUESTS_DISCONNECT
}.

(** The connection to a master: who it is, which of its stations are ours,
    and the monitoring of its frames. *)
Definition connected (cfg : cls_cfg) (cls : cls) : Prop :=
  let m := master cls in
  master_id m <> CL_IPADDR_INVALID /\ 1 <= group_no m <= 64 /\ 1 <= slave_station_no m /\
  slave_station_no m + num_occupied_stations cfg - 1 <= total_occupied_station_count m <= 16 /\
  t_state (receive_timer cls) = CL_TIMER_RUNNING /\
  t_period (receive_timer cls) =
    u32 (cl_calculate_total_timeout_us (timeout_value m) (parallel_off_timeout_count m)).

Definition not_connected (cls : cls) : Prop :=
  master cls = cls_master_connection_zero /\ receive_timer cls = cl_timer_zero.

(** The part that goes with the state. *)
Definition slave_control (cfg : cls_cfg) (cls : cls) : Prop :=
  match state cls with
  | CLS_SLAVE_STATE_MASTER_CONTROL =>
      connected cfg cls /\ timer_for_disabling_slave cls = cl_timer_zero
  | CLS_SLAVE_STATE_MASTER_NONE | CLS_SLAVE_STATE_SLAVE_DISABLED =>
      not_connected cls /\ timer_for_disabling_slave cls = cl_timer_zero
  | CLS_SLAVE_STATE_WAIT_DISABLING_SLAVE =>
      not_connected cls /\
      t_state (timer_for_disabling_slave cls) = CL_TIMER_RUNNING /\
      t_period (timer_for_disabling_slave cls) = CLS_CCIEFB_WAIT_TIME_DISABLE_SLAVE
  | CLS_SLAVE_STATE_SLAVE_DOWN | CLS_SLAVE_STATE_LAST => False
  end.

Definition slave_inv (cfg : cls_cfg) (cls : cls) : Prop :=
  slave_base cfg cls /\ slave_control cfg cls.

(** A request the parser accepted, in a receive buffer of the slave. *)
Record request_ok (r : cls_cciefb_cyclic_request_info) : Prop := {
  ro_buffer : bytes (rq_buffer r) /\ length (rq_buffer r) = Z.to_nat CL_BUFFER_LEN;
  ro_total : 1 <= qdh_slave_total_occupied_station_count (rq_data_header r) <= 16;
  ro_group : 1 <= qdh_group_no (rq_data_header r) <= 64;
  ro_seq : is_u16 (qdh_frame_sequence_no (rq_data_header r));
  ro_master : qdh_master_id (rq_data_header r) = rq_remote_ip r /\
              rq_remote_ip r <> CL_IPADDR_INVALID;
  ro_first : rq_first_slave_id r = 67 /\
    rq_first_rww r =
      Some (67 + 4 * qdh_slave_total_occupied_station_count (rq_data_header r)) /\
    rq_first_ry r =
      Some (67 + 68 * qdh_slave_total_occupied_station_count (rq_data_header r));
  ro_slave_ip : is_u32 (rq_slave_ip_addr r) /\ rq_slave_ip_addr r <> CL_IPADDR_INVALID
}.

(** The response frames among the outputs: socket, address, port and bytes. *)
Definition sent_frame (o : cls_output) : option (Z * Z * Z * list Z) :=
  match o with
  | CciefbSendto socket ip port frame => Some (socket, ip, port, frame)
  | _ => None
  end.
Definition sent_frames (o : list cls_output) : list (Z * Z * Z * list Z) := omap sent_frame o.

(** A response as the slave means it: headers and cyclic data. *)
Definition frame_contents (cfg : cls_cfg) (frame : list Z)
  (slave ec g seq info err manag : Z) (data : list Z) : Prop :=
  Z.of_nat (length frame) = 59 + 72 * num_occupied_stations cfg /\
  c_dec c_cl_cciefb_cyclic_resp_full_headers frame =
    response_headers (num_occupied_stations cfg) (vendor_code cfg) (model_code cfg)
      (equipment_ver cfg) slave ec g seq info err manag /\
  drop 59 frame = data /\ bytes frame.

(** A frame sent by the slave is a response of its size that the master
    accepts (see [response_accepted]). *)
Definition sent_frame_ok (cfg : cls_cfg) (frame : list Z) : Prop :=
  exists slave ec g seq info err manag data,
    response_values_ok slave ec g seq info err manag /\
    cl_is_slave_endcode_valid ec = true /\
    frame_contents cfg frame slave ec g seq info err manag data.

Definition outputs_ok (cfg : cls_cfg) (o : list cls_output) : Prop :=
  Forall (fun '(_, _, _, frame) => sent_frame_ok cfg frame) (sent_frames o).

(** RWr and RX as they are in a frame buffer. *)
Definition frame_data (cfg : cls_cfg) (f : cls_cciefb_cyclic_response_info) : list Z :=
  slice 59 (Z.to_nat (72 * num_occupied_stations cfg)) (ri_buffer f).

(** Operations that change the limiters and the callback data at most, and
    operations that may also update the headers of the response frames. *)
Record same_core (cls cls' : cls) : Prop := {
  sc_config : config cls' = config cls;
  sc_matrix : fsm_matrix cls' = fsm_matrix cls;
  sc_actions : fsm_on_entry_exit cls' = fsm_on_entry_exit cls;
  sc_area : cyclic_data_area cls' = cyclic_data_area cls;
  sc_buf : cciefb_receivebuf cls' = cciefb_receivebuf cls;
  sc_status : slave_application_status cls' = slave_application_status cls;
  sc_err : slave_err_code cls' = slave_err_code cls;
  sc_manag : local_management_info cls' = local_management_info cls;
  sc_endcode : endcode_slave_disabled cls' = endcode_slave_disabled cls;
  sc_socket : cciefb_socket cls' = cciefb_socket cls;
  sc_state : state cls' = state cls;
  sc_master : master cls' = master cls;
  sc_receive_timer : receive_timer cls' = receive_timer cls;
  sc_disable_timer : timer_for_disabling_slave cls' = timer_for_disabling_slave cls
}.

Definition quiet (cls cls' : cls) : Prop :=
  same_core cls cls' /\
  cciefb_resp_frame_normal cls' = cciefb_resp_frame_normal cls /\
  cciefb_resp_frame_error cls' = cciefb_resp_frame_error cls.

(** ** Lemmas: configuration and frames *)

Lemma config_stations cfg : config_ok cfg ->
  1 <= num_occupied_stations cfg <= CLS_MAX_OCCUPIED_STATIONS.
Proof.
  intros [Hv _ _ _]. unfold cls_validate_config in Hv.
  destruct (negb (iefb_ip_addr cfg =? CL_IPADDR_ANY) && _); [discriminate|].
  unfold CL_CCIEFB_MIN_OCCUPIED_STATIONS_PER_GROUP in Hv.
  destruct (Z.ltb_spec (num_occupied_stations cfg) 1) as [|Hlo]; [discriminate|].
  destruct (Z.ltb_spec CLS_MAX_OCCUPIED_STATIONS (num_occupied_stations cfg)) as [|Hhi];
    [discriminate|]. lia.
Qed.

Lemma config_params cfg : config_ok cfg ->
  response_params_ok (num_occupied_stations cfg) (vendor_code cfg) (model_code cfg)
    (equipment_ver cfg).
Proof.
  intros Hc. pose proof (config_stations cfg Hc). pose proof CLS_MAX_ok.
  destruct Hc. split; [lia|assumption..].
Qed.

Lemma initialise_frame_ok cls f : config_ok (config cls) -> length (ri_buffer f) = 1500%nat ->
  exists f', cls_iefb_initialise_frame cls f = Done f' /\ response_frame_ok (config cls) f' /\
    frame_data (config cls) f' = zeros (Z.to_nat (72 * num_occupied_stations (config cls))).
Proof.
  intros Hc Hl. pose proof (config_params _ Hc) as Hp. pose proof (sp_n _ _ _ _ Hp) as Hn.
  unfold cls_iefb_initialise_frame.
  destruct (initialise_response_frame_shape (ri_buffer f) _ _ _ _ Hp Hl)
    as (f' & -> & Hs & Hlen & Hrwr & Hrx & Hz).
  exists f'. split; [reflexivity|]. split; [unfold response_frame_ok; eauto 12|].
  unfold frame_data. rewrite Hz by lia. apply slice_zeros. lia.
Qed.

(** Updating the headers for sending. *)
Lemma update_frame_ok cfg f slave ec g seq info err manag : config_ok cfg ->
  response_frame_ok cfg f -> response_values_ok slave ec g seq info err manag ->
  let f' := cl_iefb_update_cyclic_response_frame f slave ec g seq info err manag in
  response_frame_ok cfg f' /\ frame_data cfg f' = frame_data cfg f /\
  frame_contents cfg (take (Z.to_nat (ri_udp_payload_len f')) (ri_buffer f'))
    slave ec g seq info err manag (frame_data cfg f).
Proof.
  intros Hc (Hlen & Hrwr & Hrx & slave0 & ec0 & g0 & seq0 & info0 & err0 & manag0 & Hs) Hv f'.
  pose proof (config_params cfg Hc) as [Hn _ _ _].
  destruct (update_response_frame_shape f _ _ _ _ _ _ _ _ _ _ _ _ slave ec g seq info err manag
              Hs Hv) as [Hs' Hslice]. fold f' in Hs', Hslice.
  assert (Hdata : frame_data cfg f' = frame_data cfg f) by (apply Hslice; lia).
  split; [|split; [exact Hdata|]].
  - repeat split; try assumption. eauto 10.
  - change (ri_udp_payload_len f') with (ri_udp_payload_len f). rewrite Hlen.
    destruct Hs' as (Hb' & Hl' & Hsz & Hdec). split; [|split; [|split]].
    + rewrite length_take. lia.
    + rewrite <- (app_nil_r (take _ _)).
      apply (frame_shape_sent _ _ 1500); [repeat split; assumption|].
      change (c_size _) with 59%nat. lia.
    + rewrite <- Hdata. unfold frame_data, slice.
      replace (Z.to_nat (59 + 72 * num_occupied_stations cfg))
        with (59 + Z.to_nat (72 * num_occupied_stations cfg))%nat by lia.
      symmetry. apply take_drop_commute.
    + apply bytes_take, Hb'.
Qed.

(** ** Lemmas: requests *)

Lemma parse_request_ok buffer len rip rport lip r :
  bytes buffer -> length buffer = Z.to_nat CL_BUFFER_LEN -> len <= CL_BUFFER_LEN ->
  is_u32 lip -> lip <> CL_IPADDR_INVALID ->
  cl_iefb_parse_cyclic_request buffer len rip rport lip = Done (Some r) ->
  request_ok r /\ rq_remote_ip r = rip /\ rq_remote_port r = rport /\
  rq_slave_ip_addr r = lip /\ rq_buffer r = buffer.
Proof.
  intros Hb Hl Hlen Hlip Hlip0. unfold cl_iefb_parse_cyclic_request,
    cl_iefb_parse_req_full_cyclic_headers. rewrite req_headers_size.
  destruct (Z.ltb_spec len 67); [discriminate|].
  set (h := read_at c_cl_cciefb_cyclic_req_full_headers buffer 0).
  assert (Hwf : c_wf c_cl_cciefb_cyclic_req_full_headers h).
  { apply (codec_wf (c := c_cl_cciefb_cyclic_req_full_headers) buffer); [assumption|]. rewrite Hl. cbn. lia. }
  clearbody h.
  destruct (cl_iefb_validate_req_full_cyclic_headers h len rip) eqn:Hval; [|discriminate].
  cbn [negb]. destruct (validate_req_full_inv _ _ _ Hval) as (Hn & Hg & Hm & Hm0 & _ & _ & Hsize).
  set (n := qdh_slave_total_occupied_station_count (fq_cyclic_data_header h)) in *.
  rewrite (parse_request_cyclic_data_ok len n Hn Hsize). intros [= <-].
  split; [|repeat split]. split; try assumption.
  - split; assumption.
  - clear -Hwf. destruct h as [h1 h2 h3 []]. cbn in Hwf |- *. tauto.
  - split; assumption.
  - repeat split.
  - split; assumption.
Qed.

Lemma parse_cyclic_request_never_asserts buffer len rip rport lip :
  cl_iefb_parse_cyclic_request buffer len rip rport lip <> AssertFailed.
Proof.
  unfold cl_iefb_parse_cyclic_request.
  destruct (cl_iefb_parse_req_full_cyclic_headers buffer len) as [h|]; [|discriminate].
  destruct (cl_iefb_validate_req_full_cyclic_headers h len rip) eqn:Hv; cbn [negb];
    [|discriminate].
  apply validate_req_full_inv in Hv as (Hn & _ & _ & _ & _ & _ & Hsize).
  rewrite (parse_request_cyclic_data_ok _ _ Hn Hsize). discriminate.
Qed.

End SlaveInv.
