(* ===== verification/SlaveActions.v ===== *)
(** * What the slave's operations do

    One specification per operation of SlaveIefb.v, as a weakest
    precondition: which parts of the instance change, which frames are sent,
    and that no assertion fails. *)

From S2P Require Import Prelude Packed Signals Timer Limiter Util Types Iefb IefbFacts IefbRoundtrip.
From S2P Require Import Slmp Slave SlaveIefb SlaveInv.

Section SlaveActions.
Context `{ClsOptions, Clal}.
Context (cfg : cls_cfg) (cfg_ok : config_ok cfg).

(** ** Relations between instances *)

#[local] Instance same_core_preorder : PreOrder same_core.
Proof.
  split.
  - intros s. split; reflexivity.
  - intros s1 s2 s3 [] []. split; congruence.
Qed.

#[local] Instance quiet_preorder : PreOrder quiet.
Proof.
  split.
  - intros s. split; [reflexivity|split; reflexivity].
  - intros s1 s2 s3 (H1 & H2 & H3) (H4 & H5 & H6).
    split; [etransitivity; eassumption|split; congruence].
Qed.

Lemma quiet_refl s : quiet s s.
Proof. reflexivity. Qed.
Lemma quiet_trans s1 s2 s3 : quiet s1 s2 -> quiet s2 s3 -> quiet s1 s3.
Proof. apply transitivity. Qed.

Lemma same_core_base s s' : slave_base cfg s -> same_core s s' ->
  response_frame_ok cfg (cciefb_resp_frame_normal s') ->
  response_frame_ok cfg (cciefb_resp_frame_error s') ->
  frame_data cfg (cciefb_resp_frame_error s') = frame_data cfg (cciefb_resp_frame_error s) ->
  slave_base cfg s'.
Proof.
  intros [] [] Hn He Hd. unfold frame_data in Hd. split; congruence || (rewrite ?Hd; congruence).
Qed.

Lemma quiet_base s s' : slave_base cfg s -> quiet s s' -> slave_base cfg s'.
Proof.
  intros Hb (Hc & Hn & He). apply (same_core_base s s' Hb Hc); rewrite ?Hn, ?He;
    try reflexivity; apply Hb.
Qed.

Lemma sent_frames_app o o' : sent_frames (o ++ o') = sent_frames o ++ sent_frames o'.
Proof. apply omap_app. Qed.

Lemma slave_outputs_app o o' : outputs_ok cfg o -> outputs_ok cfg o' -> outputs_ok cfg (o ++ o').
Proof.
  unfold outputs_ok. rewrite sent_frames_app. intros. apply Forall_app. split; assumption.
Qed.

Lemma outputs_ok_silent o : sent_frames o = [] -> outputs_ok cfg o.
Proof. unfold outputs_ok. intros ->. constructor. Qed.

(** ** Quiet operations *)

Ltac quiet_done :=
  repeat split; try reflexivity.

Definition silent_quiet (s : cls) {A} (_ : A) (s' : cls) (o : list cls_output) : Prop :=
  quiet s s' /\ sent_frames o = [].

Lemma log_warning_quiet msg a b c now s :
  wp (cls_iefb_log_warning_once msg a b c now) (silent_quiet s) s.
Proof.
  unfold cls_iefb_log_warning_once. destruct (negb log_warning_enabled); [wp_steps; quiet_done|].
  wp_steps. destruct (cl_limiter_should_run_now _ _ _) as [[] l]; wp_steps; quiet_done.
Qed.

Lemma error_callback_quiet now msg ip arg s :
  wp (cls_iefb_trigger_error_callback now msg ip arg) (silent_quiet s) s.
Proof.
  unfold cls_iefb_trigger_error_callback. wp_steps.
  destruct (cl_limiter_should_run_now _ _ _) as [run l]. wp_steps.
  destruct (run && error_cb (config s)); wp_steps; quiet_done.
Qed.

Lemma master_state_callback_quiet conn ver status s :
  wp (cls_iefb_handle_master_state_callback conn ver status) (fun a s' o =>
    silent_quiet s a s' o /\
    master_state_callback_trigger_data s' = ClsTriggerData true conn ver status) s.
Proof.
  unfold cls_iefb_handle_master_state_callback. wp_steps.
  destruct (cls_iefb_should_trigger_master_state_callback _ _ _ _ _ _ _); wp_steps; [|quiet_done].
  destruct (cls_iefb_filter_master_state_callback_values _ _ _) as [[[run st] v] m].
  destruct (master_running_cb (config s)); wp_steps; quiet_done.
Qed.

(** ** Sending *)

(** The frame a send uses, and what the slave writes in it. *)
Definition response_values (s : cls) (slave ec g seq : Z) : Prop :=
  response_values_ok slave ec g seq (slave_application_status s) (slave_err_code s)
    (local_management_info s).

Definition sends (s s' : cls) (o : list cls_output) (seq g : Z) (include_data : bool)
  (ec ip port slave : Z) : Prop :=
  same_core s s' /\ slave_base cfg s' /\
  frame_data cfg (cciefb_resp_frame_normal s') = frame_data cfg (cciefb_resp_frame_normal s) /\
  exists frame, sent_frames o = [(cciefb_socket s, ip, port, frame)] /\
    frame_contents cfg frame slave ec g seq (slave_application_status s) (slave_err_code s)
      (local_management_info s)
      (if include_data then frame_data cfg (cciefb_resp_frame_normal s)
       else zeros (Z.to_nat (72 * num_occupied_stations cfg))).

Lemma sends_outputs_ok s s' o seq g inc ec ip port slave :
  sends s s' o seq g inc ec ip port slave -> response_values s slave ec g seq ->
  cl_is_slave_endcode_valid ec = true -> outputs_ok cfg o.
Proof.
  intros (_ & _ & _ & frame & Ho & Hf) Hv He. unfold outputs_ok. rewrite Ho.
  repeat constructor. unfold sent_frame_ok. eauto 12.
Qed.

Lemma send_frame_spec seq g (include_data : bool) ec ip port slave s :
  slave_base cfg s -> response_values s slave ec g seq -> cl_is_slave_endcode_valid ec = true ->
  wp (cls_iefb_send_cyclic_response_frame seq g include_data ec ip port slave)
    (fun _ s' o => sends s s' o seq g include_data ec ip port slave) s.
Proof.
  intros Hb Hv He. unfold cls_iefb_send_cyclic_response_frame. wp_steps.
  apply wp_assert; [exact He|]. cbv beta. wp_steps.
  destruct include_data.
  - destruct (update_frame_ok cfg (cciefb_resp_frame_normal s) slave ec g seq _ _ _ cfg_ok
      (sb_normal _ _ Hb) Hv) as (Hok & Hd & Hc).
    assert (Hcore : same_core s (s <| cciefb_resp_frame_normal :=
      cl_iefb_update_cyclic_response_frame (cciefb_resp_frame_normal s) slave ec g seq
        (slave_application_status s) (slave_err_code s) (local_management_info s) |>))
      by (split; reflexivity).
    split; [exact Hcore|]. split; [|split; [exact Hd|]].
    + apply (same_core_base s _ Hb Hcore Hok (sb_error _ _ Hb) eq_refl).
    + eexists. split; [reflexivity|]. exact Hc.
  - destruct (update_frame_ok cfg (cciefb_resp_frame_error s) slave ec g seq _ _ _ cfg_ok
      (sb_error _ _ Hb) Hv) as (Hok & Hd & Hc).
    assert (Hcore : same_core s (s <| cciefb_resp_frame_error :=
      cl_iefb_update_cyclic_response_frame (cciefb_resp_frame_error s) slave ec g seq
        (slave_application_status s) (slave_err_code s) (local_management_info s) |>))
      by (split; reflexivity).
    split; [exact Hcore|]. split; [|split; [reflexivity|]].
    + apply (same_core_base s _ Hb Hcore (sb_normal _ _ Hb) Hok Hd).
    + eexists. split; [reflexivity|].
      change (zeros _) with (zeros (Z.to_nat (72 * num_occupied_stations cfg))).
      rewrite <- (sb_error_zero _ _ Hb). exact Hc.
Qed.

(** Values that a request supplies are fit for the response. *)
Lemma request_response_values s r ec : slave_base cfg s -> request_ok r -> is_u16 ec ->
  response_values s (rq_slave_ip_addr r) ec (qdh_group_no (rq_data_header r))
    (qdh_frame_sequence_no (rq_data_header r)).
Proof.
  intros Hb Hr He. destruct Hr. destruct Hb. split; assumption.
Qed.

Lemma endcode_u16 ec : cl_is_slave_endcode_valid ec = true -> is_u16 ec.
Proof.
  unfold cl_is_slave_endcode_valid. rewrite !orb_true_iff, !Z.eqb_eq.
  intros [[[[->| ->]| ->]| ->]| ->]; split; first [discriminate|reflexivity].
Qed.

Lemma send_error_frame_spec r ec s :
  slave_base cfg s -> request_ok r -> cl_is_slave_endcode_valid ec = true ->
  wp (cls_iefb_send_cyclic_response_error_frame r ec) (fun _ s' o =>
    sends s s' o (qdh_frame_sequence_no (rq_data_header r)) (qdh_group_no (rq_data_header r))
      false ec (rq_remote_ip r) (rq_remote_port r) (rq_slave_ip_addr r) /\ outputs_ok cfg o) s.
Proof.
  intros Hb Hr He. pose proof (request_response_values s r ec Hb Hr (endcode_u16 _ He)) as Hv.
  unfold cls_iefb_send_cyclic_response_error_frame.
  eapply wp_mono; [apply send_frame_spec; assumption|]. intros ok s' o Hs. split; [exact Hs|].
  exact (sends_outputs_ok _ _ _ _ _ _ _ _ _ _ Hs Hv He).
Qed.

(** ** Storing cyclic data *)

(** Whether our stations are among those of the request. *)
Definition station_fits (r : cls_cciefb_cyclic_request_info) (no : Z) : Prop :=
  1 <= no /\ no + num_occupied_stations cfg - 1 <=
               qdh_slave_total_occupied_station_count (rq_data_header r).

(** Our RY and RWw data in the request. *)
Definition request_ry (r : cls_cciefb_cyclic_request_info) (no : Z) : list Z :=
  slice (Z.to_nat (67 + 68 * qdh_slave_total_occupied_station_count (rq_data_header r) +
                   (no - 1) * 8))
    (Z.to_nat (num_occupied_stations cfg * 8)) (rq_buffer r).
Definition request_rww (r : cls_cciefb_cyclic_request_info) (no : Z) : list Z :=
  slice (Z.to_nat (67 + 4 * qdh_slave_total_occupied_station_count (rq_data_header r) +
                   (no - 1) * 64))
    (Z.to_nat (num_occupied_stations cfg * 64)) (rq_buffer r).

Definition stored_area (a : cls_memory_area) (r : cls_cciefb_cyclic_request_info) (no : Z)
  (transmission_bit : bool) : cls_memory_area :=
  if transmission_bit
  then ClsMemoryArea (splice 0 (request_ry r no) (ry a)) (splice 0 (request_rww r no) (rww a))
  else ClsMemoryArea (splice 0 (zeros (Z.to_nat (num_occupied_stations cfg * 8))) (ry a))
         (splice 0 (zeros (Z.to_nat (num_occupied_stations cfg * 64))) (rww a)).

Lemma request_data_ok r no : request_ok r -> station_fits r no ->
  (length (request_ry r no) = Z.to_nat (num_occupied_stations cfg * 8) /\
   bytes (request_ry r no)) /\
  (length (request_rww r no) = Z.to_nat (num_occupied_stations cfg * 64) /\
   bytes (request_rww r no)).
Proof.
  intros [[Hb Hl] Ht _ _ _ _ _] [Hno Hend]. pose proof (config_stations cfg cfg_ok).
  unfold request_ry, request_rww. change (Z.to_nat CL_BUFFER_LEN) with 1500%nat in Hl.
  split; (split; [apply length_slice; lia | apply bytes_slice; assumption]).
Qed.

Lemma stored_area_base s r no bit : slave_base cfg s -> request_ok r -> station_fits r no ->
  slave_base cfg (s <| cyclic_data_area := stored_area (cyclic_data_area s) r no bit |>).
Proof.
  intros Hb Hr Hno. destruct (request_data_ok r no Hr Hno) as [[Hl1 Hb1] [Hl2 Hb2]].
  pose proof (config_stations cfg cfg_ok).
  destruct (sb_ry _ _ Hb) as [Hl3 Hb3]. destruct (sb_rww _ _ Hb) as [Hl4 Hb4].
  unfold sizeof_ry, sizeof_rww in *.
  split; try apply Hb; destruct bit; cbn [stored_area update cyclic_data_area ry rww];
    unfold sizeof_ry, sizeof_rww; (split; [rewrite length_splice; rewrite ?length_zeros; lia | auto with clink]).
Qed.

Lemma copy_spec r no (bit : bool) s : slave_base cfg s -> request_ok r -> is_u16 no ->
  wp (cls_iefb_copy_cyclic_data_from_request r no bit) (fun copied s' o =>
    o = [] /\ (copied = true <-> station_fits r no) /\
    s' = (if copied
          then s <| cyclic_data_area := stored_area (cyclic_data_area s) r no bit |> else s)) s.
Proof.
  intros Hb Hr Hno. unfold cls_iefb_copy_cyclic_data_from_request. wp_steps.
  rewrite (sb_config _ _ Hb). destruct (ro_first _ Hr) as (_ & Hrww & Hry).
  pose proof (ro_total _ Hr) as Ht. pose proof (config_stations cfg cfg_ok) as Hn.
  pose proof CLS_MAX_ok. unfold station_fits.
  set (n := num_occupied_stations cfg) in *.
  set (total := qdh_slave_total_occupied_station_count (rq_data_header r)) in *.
  unfold CL_CCIEFB_MAX_OCCUPIED_STATIONS_PER_GROUP.
  assert (Hfail : forall s0 : cls, s0 = s -> ~ (1 <= no /\ no + n - 1 <= total) ->
    wp (mret false : cls_prog bool) (fun (copied : bool) s' (o : list cls_output) => o = [] /\
      (copied = true <-> 1 <= no /\ no + n - 1 <= total) /\
      s' = (if copied : bool
            then s <| cyclic_data_area := stored_area (cyclic_data_area s) r no bit |> else s)) s0).
  { intros s0 -> Hout. apply wp_ret. split; [reflexivity|]. split; [|reflexivity].
    split; [discriminate | tauto]. }
  destruct (Z.eqb_spec total 0); [lia|]. destruct (Z.ltb_spec 16 total); [lia|].
  destruct (Z.ltb_spec total n); cbn [orb]; [apply Hfail; [reflexivity|lia]|].
  destruct (Z.eqb_spec no 0); cbn [orb]; [apply Hfail; [reflexivity|lia]|].
  destruct (Z.ltb_spec 16 no); [apply Hfail; [reflexivity|unfold_widths; lia]|].
  rewrite u16_id by (unfold_widths; lia).
  destruct (Z.ltb_spec 16 (no + n - 1)); cbn [orb]; [apply Hfail; [reflexivity|lia]|].
  destruct (Z.ltb_spec total (no + n - 1)); [apply Hfail; [reflexivity|lia]|].
  unfold_widths. assert (Hfit : 1 <= no /\ no + n - 1 <= total) by lia.
  unfold cl_iefb_request_get_ry, cl_iefb_request_get_rww, cl_iefb_request_get_area.
  rewrite Hrww, Hry. fold (rq_data_header r). fold total.
  rewrite (proj2 (bad_station_count_false no)) by lia.
  destruct (Z.ltb_spec total no); [lia|]. cbn [orb]. wp_steps.
  destruct bit.
  - unfold clal_memcpy. rewrite (proj1 (sb_ry _ _ Hb)), (proj1 (sb_rww _ _ Hb)).
    unfold sizeof_ry, sizeof_rww.
    destruct (Z.ltb_spec (Z.of_nat (Z.to_nat (CLS_MAX_OCCUPIED_STATIONS * 8))) (n * 8)); [lia|].
    destruct (Z.ltb_spec (Z.of_nat (Z.to_nat (CLS_MAX_OCCUPIED_STATIONS * 64))) (n * 64)); [lia|].
    wp_steps. split; [reflexivity|]. split; [tauto|]. reflexivity.
  - wp_steps. split; [reflexivity|]. split; [tauto|]. reflexivity.
Qed.

(** ** Actions *)

Definition cleared (s : cls) : cls :=
  s <| master := cls_master_connection_zero |> <| receive_timer := cl_timer_zero |>
    <| timer_for_disabling_slave := cl_timer_zero |>.

Lemma clear_master_spec s :
  wp cls_iefb_clear_master_info (fun a s' o => silent_quiet (cleared s) a s' o) s.
Proof.
  unfold cls_iefb_clear_master_info. wp_steps.
  eapply wp_mono; [apply master_state_callback_quiet|].
  intros a s' o [[Hq Ho] _]. split; [exact Hq | exact Ho].
Qed.

(** The master data of a request; the station number was found before. *)
Definition master_of (r : cls_cciefb_cyclic_request_info) (no : Z) : cls_master_connection :=
  let d := rq_data_header r in
  ClsMasterConnection (qdh_master_id d) (rq_clock_info r) (negb (rq_clock_info r =? 0))
    (rq_protocol_ver r) (qdh_group_no d) (qdh_parameter_no d) (qdh_timeout_value d)
    (qdh_parallel_off_timeout_count d) no (qdh_slave_total_occupied_station_count d).

Definition monitoring (r : cls_cciefb_cyclic_request_info) (now : Z) : cl_timer :=
  Timer CL_TIMER_RUNNING
    (u32 (cl_calculate_total_timeout_us (qdh_timeout_value (rq_data_header r))
            (qdh_parallel_off_timeout_count (rq_data_header r)))) now.

Definition with_master (s : cls) (r : cls_cciefb_cyclic_request_info) (no now : Z) : cls :=
  s <| master := master_of r no |> <| receive_timer := monitoring r now |>.

Lemma new_master_spec now r s :
  wp (handle_new_or_updated_master_action now (Some r)) (fun ev s' o =>
    quiet (with_master s r (slave_station_no (master s)) now) s' /\ sent_frames o = [] /\
    ev = CLS_SLAVE_EVENT_CYCLIC_CORRECT_MASTER) s.
Proof.
  unfold handle_new_or_updated_master_action. wp_steps.
  apply wp_when; intros _; wp_steps;
    (eapply wp_mono; [apply master_state_callback_quiet|]; intros a s' o [[Hq Ho] _]; wp_steps;
     split; [exact Hq|]; split; [|reflexivity]; rewrite !app_nil_r; exact Ho).
Qed.

(** The instance after a cyclic frame was handled. *)
Definition with_cyclic_data (s : cls) (r : cls_cciefb_cyclic_request_info) (no : Z) (bit : bool)
  (now : Z) : cls :=
  s <| cyclic_data_area := stored_area (cyclic_data_area s) r no bit |>
    <| master ::= (fun m => m <| clock_info := rq_clock_info r |>
                              <| clock_info_valid := negb (rq_clock_info r =? 0) |>) |>
    <| receive_timer ::= (fun t => cl_timer_restart t now) |>.

Definition my_transmission_bit (s : cls) (r : cls_cciefb_cyclic_request_info) : bool :=
  cl_iefb_extract_my_transmission_state (qdh_cyclic_transmission_state (rq_data_header r))
    (slave_station_no (master s)).

(** The answer to a frame of our master, or nothing when our stations are
    not in the frame. *)
Definition answers (s s' : cls) (o : list cls_output) (r : cls_cciefb_cyclic_request_info)
  (now : Z) : Prop :=
  (station_fits r (slave_station_no (master s)) /\
   sends (with_cyclic_data s r (slave_station_no (master s)) (my_transmission_bit s r) now) s' o
     (qdh_frame_sequence_no (rq_data_header r)) (qdh_group_no (rq_data_header r))
     (my_transmission_bit s r) CL_SLMP_ENDCODE_SUCCESS (rq_remote_ip r) (rq_remote_port r)
     (rq_slave_ip_addr r)) \/
  (~ station_fits r (slave_station_no (master s)) /\ s' = s /\ o = []).

Lemma cyclic_event_spec now r s :
  slave_base cfg s -> request_ok r -> is_u16 (slave_station_no (master s)) ->
  wp (handle_cyclic_event_action now (Some r)) (fun ev s' o =>
    answers s s' o r now /\ outputs_ok cfg o /\ ev = CLS_SLAVE_EVENT_NONE) s.
Proof.
  intros Hb Hr Hno. unfold handle_cyclic_event_action. wp_steps.
  eapply wp_mono; [apply copy_spec; assumption|].
  intros copied s1 o1 (-> & Hcopied & ->). fold (my_transmission_bit s r). destruct copied.
  2:{ wp_steps. split; [|split; [constructor|reflexivity]].
      right. split; [|split; reflexivity]. intros Hfit. apply Hcopied in Hfit. discriminate. }
  pose proof (proj1 Hcopied eq_refl) as Hfit. cbn [negb]. wp_steps.
  pose proof (stored_area_base s r _ (my_transmission_bit s r) Hb Hr Hfit) as Hb1.
  eapply wp_mono; [apply master_state_callback_quiet|]. intros a2 s2 o2 [[Hq Ho2] _].
  assert (Hb2 : slave_base cfg s2).
  { refine (quiet_base _ _ _ Hq). split; apply Hb1. }
  apply wp_bind. eapply wp_mono.
  { apply send_frame_spec; [exact Hb2| |reflexivity].
    apply request_response_values; [exact Hb2 | exact Hr | split; [discriminate|reflexivity]]. }
  intros a3 s3 o3 Hs. wp_steps.
  assert (Hout : outputs_ok cfg o3).
  { refine (sends_outputs_ok _ _ _ _ _ _ _ _ _ _ Hs _ _); [|reflexivity].
    apply request_response_values; [exact Hb2 | exact Hr | split; [discriminate|reflexivity]]. }
  rewrite !app_nil_r. split; [left; split; [exact Hfit|] | split; [|reflexivity]].
  2:{ cbn [app]. apply slave_outputs_app; [apply outputs_ok_silent; exact Ho2 | exact Hout]. }
  destruct Hq as [Hc12 [Hn2 He2]]. destruct Hs as (Hc23 & Hb3 & Hd & frame & Ho & Hf).
  split; [|split; [|split]].
  - destruct Hc12, Hc23. split; cbn in *; congruence.
  - split; apply Hb3.
  - cbn [with_cyclic_data update cciefb_resp_frame_normal]. rewrite Hd, Hn2. reflexivity.
  - exists frame. cbn [app]. rewrite sent_frames_app, Ho2, Ho.
    rewrite (sc_socket _ _ Hc12). split; [reflexivity|].
    rewrite (sc_status _ _ Hc12), (sc_err _ _ Hc12), (sc_manag _ _ Hc12), Hn2 in Hf. exact Hf.
Qed.

End SlaveActions.
