(* ===== verification/SlaveFsm.v ===== *)
(** * The slave's state machine

    The event loop, one round at a time, and the effect of every event in
    every state it can arrive in.  In particular two rounds are always
    enough: only the connection to a master triggers a second event. *)

From S2P Require Import Prelude Packed Signals Timer Limiter Util Types Iefb IefbFacts IefbRoundtrip.
From S2P Require Import Slmp Slave SlaveIefb SlaveInv SlaveActions.

Section SlaveFsm.
Context `{ClsOptions, Clal}.
Context (cfg : cls_cfg) (cfg_ok : config_ok cfg).

(** ** One round of the event loop *)

Definition run_opt (action : option cls_action) (now : Z)
  (request : option cls_cciefb_cyclic_request_info) : cls_prog cls_slave_event :=
  match action with
  | Some action => run_action action now request
  | None => mret CLS_SLAVE_EVENT_NONE
  end.

Definition continue_loop (fuel : nat) (now : Z)
  (request : option cls_cciefb_cyclic_request_info) (event : cls_slave_event)
  (Q : bool -> cls -> list cls_output -> Prop) (s : cls) (o : list cls_output) : Prop :=
  if bool_decide (event <> CLS_SLAVE_EVENT_NONE)
  then wp (fsm_event_loop fuel now request event) (fun b s' o' => Q b s' (o ++ o')) s
  else Q true s o.

Definition state_callback (next : cls_slave_state) : list cls_output :=
  if state_cb cfg then [StateCb next] else [].

Lemma set_same_state (s : cls) : s <| state := state s |> = s.
Proof. destruct s. reflexivity. Qed.

Lemma continue_loop_eq fuel now request event Q s o o' :
  o = o' -> continue_loop fuel now request event Q s o -> continue_loop fuel now request event Q s o'.
Proof. intros ->. exact (fun H => H). Qed.

(** The tables are in place. *)
Definition has_tables (s : cls) : Prop :=
  fsm_matrix s = initial_fsm_matrix /\ fsm_on_entry_exit s = initial_fsm_on_entry_exit.

Lemma base_tables s : slave_base cfg s -> has_tables s.
Proof. intros Hb. split; apply Hb. Qed.

(** A round that stays in the state. *)
Lemma fsm_stay fuel now request event action s Q :
  has_tables s -> initial_fsm_matrix (state s) event = ClsSlaveFsm (state s) action ->
  wp (run_opt action now request) (fun event' s1 o1 => state s1 = state s /\
    continue_loop fuel now request event' Q s1 o1) s ->
  wp (fsm_event_loop (S fuel) now request event) Q s.
Proof.
  intros [Hm Ha] Htable Hact. cbn [fsm_event_loop]. wp_steps.
  rewrite Hm, Ha, Htable. cbn [fsm_next fsm_action].
  eapply wp_mono with (Q := fun _ s1 o1 => s1 = s /\ o1 = []).
  { destruct (fsm_on_exit _); [rewrite bool_decide_eq_false_2 by tauto|]; wp_steps; auto. }
  intros [] s1 o1 [-> ->]. wp_steps. rewrite set_same_state.
  change (match action with Some a => run_action a now request | None => _ end)
    with (run_opt action now request).
  eapply wp_mono; [exact Hact|]. intros event' s1 o1 [Hst Hk]. wp_steps.
  eapply wp_mono with (Q := fun _ s2 o2 => s2 = s1 /\ o2 = []).
  { destruct (fsm_on_entry _); [rewrite bool_decide_eq_false_2 by tauto|]; wp_steps; auto. }
  intros [] s2 o2 [-> ->]. wp_steps. rewrite bool_decide_eq_false_2 by tauto. cbn [andb]. wp_steps.
  unfold continue_loop in Hk. destruct (bool_decide (event' <> _)).
  - eapply wp_mono; [exact Hk|]. intros b s2 o2. cbn [app]. exact (fun H => H).
  - wp_steps. cbn [app]. rewrite !app_nil_r. exact Hk.
Qed.

(** A round that moves to another state. *)
Lemma fsm_move fuel now request event next action s Q :
  has_tables s -> initial_fsm_matrix (state s) event = ClsSlaveFsm next action ->
  next <> state s ->
  wp (run_opt (fsm_on_exit (initial_fsm_on_entry_exit (state s))) now request) (fun _ s1 o1 =>
    wp (run_opt action now request) (fun event' s2 o2 => state s2 = next /\
      wp (run_opt (fsm_on_entry (initial_fsm_on_entry_exit next)) now request) (fun _ s3 o3 =>
        state s3 = next /\ config s3 = cfg /\
        continue_loop fuel now request event' Q s3 (o1 ++ o2 ++ o3 ++ state_callback next)) s2)
      (s1 <| state := next |>)) s ->
  wp (fsm_event_loop (S fuel) now request event) Q s.
Proof.
  intros [Hm Ha] Htable Hne Hact. cbn [fsm_event_loop]. wp_steps.
  rewrite Hm, Ha, Htable. cbn [fsm_next fsm_action].
  eapply wp_mono with (Q := fun _ s1 o1 => _ s1 o1).
  { unfold run_opt at 1 in Hact. destruct (fsm_on_exit _).
    - rewrite bool_decide_eq_true_2 by exact Hne. wp_steps.
      eapply wp_mono; [exact Hact|]. intros event' s1 o1 Hk. wp_steps. rewrite app_nil_r. exact Hk.
    - exact Hact. }
  cbv beta. intros [] s1 o1 Hk1. wp_steps.
  change (match action with Some a => run_action a now request | None => _ end)
    with (run_opt action now request).
  eapply wp_mono; [exact Hk1|]. intros event' s2 o2 [Hst2 Hk2]. wp_steps.
  eapply wp_mono with (Q := fun _ s3 o3 => _ s3 o3).
  { unfold run_opt at 1 in Hk2. destruct (fsm_on_entry _).
    - rewrite bool_decide_eq_true_2 by congruence. wp_steps.
      eapply wp_mono; [exact Hk2|]. intros event'' s3 o3 Hk. wp_steps. rewrite app_nil_r. exact Hk.
    - exact Hk2. }
  cbv beta. intros [] s3 o3 (Hst3 & Hcfg & Hk). wp_steps.
  rewrite bool_decide_eq_true_2, Hst3, Hcfg by congruence. cbn [andb].
  eapply wp_mono with (Q := fun _ s4 o4 => s4 = s3 /\ o4 = state_callback next).
  { unfold state_callback. destruct (state_cb cfg); wp_steps; auto. }
  intros [] s4 o4 [-> ->]. unfold continue_loop in Hk. destruct (bool_decide (event' <> _)).
  - eapply wp_mono; [exact Hk|]. intros b s4 o4. cbn [app]. rewrite <- !app_assoc. exact (fun H => H).
  - wp_steps. cbn [app]. rewrite !app_nil_r. exact Hk.
Qed.

(** ** Events *)

(** The loop finishes within the fuel of [cls_iefb_fsm_event]. *)
Definition fires (now : Z) (request : option cls_cciefb_cyclic_request_info)
  (event : cls_slave_event) (s : cls) (Q : cls -> list cls_output -> Prop) : Prop :=
  wp (fsm_event_loop FSM_FUEL now request event) (fun b s' o => b = true /\ Q s' o) s.

Lemma fsm_event_fires now request event s Q : event <> CLS_SLAVE_EVENT_LAST ->
  fires now request event s Q ->
  wp (cls_iefb_fsm_event now request event) (fun _ s' o => Q s' o) s.
Proof.
  intros He Hf. unfold cls_iefb_fsm_event. rewrite bool_decide_eq_false_2 by exact He.
  apply wp_bind. eapply wp_mono; [exact Hf|]. intros b s' o [_ HQ]. wp_steps.
  rewrite app_nil_r. exact HQ.
Qed.

Lemma stop_here fuel now request Q s o : Q true s o ->
  continue_loop fuel now request CLS_SLAVE_EVENT_NONE Q s o.
Proof. exact (fun H => H). Qed.

Lemma state_callback_silent next : sent_frames (state_callback next) = [].
Proof. unfold state_callback. destruct (state_cb cfg); reflexivity. Qed.

(** An event without an entry in the table. *)
Lemma fires_nothing now request event s (Q : cls -> list cls_output -> Prop) :
  slave_base cfg s -> initial_fsm_matrix (state s) event = ClsSlaveFsm (state s) None ->
  Q s [] -> fires now request event s Q.
Proof.
  intros Hb Ht HQ. refine (fsm_stay _ _ _ _ _ _ _ (base_tables _ Hb) Ht _). apply wp_ret.
  split; [reflexivity|]. apply stop_here. auto.
Qed.

(** Composition of quiet steps with sending. *)
Lemma quiet_sends s s1 s2 o1 o2 seq g inc ec ip port slave :
  quiet s s1 -> sent_frames o1 = [] -> sends cfg s1 s2 o2 seq g inc ec ip port slave ->
  sends cfg s s2 (o1 ++ o2) seq g inc ec ip port slave.
Proof.
  intros (Hc & Hn & He) Ho (Hc2 & Hb2 & Hd & frame & Hf & Hframe).
  split; [destruct Hc, Hc2; split; congruence|]. split; [exact Hb2|]. rewrite <- Hn.
  split; [exact Hd|]. exists frame. rewrite sent_frames_app, Ho, Hf.
  rewrite (sc_socket _ _ Hc). split; [reflexivity|].
  rewrite (sc_status _ _ Hc), (sc_err _ _ Hc), (sc_manag _ _ Hc) in Hframe. exact Hframe.
Qed.

Lemma sends_silent s s1 o1 o2 seq g inc ec ip port slave : sent_frames o2 = [] ->
  sends cfg s s1 o1 seq g inc ec ip port slave ->
  sends cfg s s1 (o1 ++ o2) seq g inc ec ip port slave.
Proof.
  intros Ho (Hc & Hb & Hd & frame & Hf & Hframe). split; [exact Hc|]. split; [exact Hb|].
  split; [exact Hd|]. exists frame. rewrite sent_frames_app, Ho, Hf. auto.
Qed.

(** The error response to a request. *)
Definition rejects (s s' : cls) (o : list cls_output) (r : cls_cciefb_cyclic_request_info)
  (ec : Z) : Prop :=
  sends cfg s s' o (qdh_frame_sequence_no (rq_data_header r)) (qdh_group_no (rq_data_header r))
    false ec (rq_remote_ip r) (rq_remote_port r) (rq_slave_ip_addr r).

Lemma fires_correct_master now r s : slave_base cfg s -> request_ok r ->
  state s = CLS_SLAVE_STATE_MASTER_CONTROL -> is_u16 (slave_station_no (master s)) ->
  fires now (Some r) CLS_SLAVE_EVENT_CYCLIC_CORRECT_MASTER s
    (fun s' o => answers cfg s s' o r now /\ outputs_ok cfg o).
Proof.
  intros Hb Hr Hst Hno. apply (fsm_stay _ _ _ _ (Some cls_iefb_handle_cyclic_event));
    [exact (base_tables _ Hb) | rewrite Hst; reflexivity|].
  eapply wp_mono; [apply (cyclic_event_spec cfg cfg_ok); assumption|].
  intros event' s' o (Ha & Ho & ->). split; [|apply stop_here; auto].
  destruct Ha as [[_ Hs] | [_ [-> _]]]; [|reflexivity].
  destruct Hs as [Hc _]. rewrite (sc_state _ _ Hc). reflexivity.
Qed.

Lemma fires_wrong_master now r s : slave_base cfg s -> request_ok r ->
  state s = CLS_SLAVE_STATE_MASTER_CONTROL ->
  fires now (Some r) CLS_SLAVE_EVENT_CYCLIC_WRONG_MASTER s (fun s' o =>
    rejects s s' o r CL_SLMP_ENDCODE_CCIEFB_MASTER_DUPLICATION /\ outputs_ok cfg o).
Proof.
  intros Hb Hr Hst. apply (fsm_stay _ _ _ _ (Some cls_iefb_handle_wrong_master));
    [exact (base_tables _ Hb) | rewrite Hst; reflexivity|].
  cbn [run_opt run_action handle_wrong_master_action]. apply wp_bind.
  eapply wp_mono; [apply log_warning_quiet|]. intros a s1 o1 [Hq1 Ho1].
  apply wp_bind. eapply wp_mono; [apply error_callback_quiet|]. intros a2 s2 o2 [Hq2 Ho2].
  apply wp_bind. eapply wp_mono.
  { apply (send_error_frame_spec cfg cfg_ok);
      [exact (quiet_base _ _ _ (quiet_base _ _ _ Hb Hq1) Hq2) | exact Hr | reflexivity]. }
  intros a3 s3 o3 [Hs Ho3]. wp_steps. rewrite app_nil_r.
  pose proof (quiet_sends _ _ _ _ _ _ _ _ _ _ _ _ Hq1 Ho1
    (quiet_sends _ _ _ _ _ _ _ _ _ _ _ _ Hq2 Ho2 Hs)) as Hall.
  split; [rewrite (sc_state _ _ (proj1 Hall)); reflexivity|]. apply stop_here.
  split; [reflexivity|]. split; [exact Hall|].
  repeat apply slave_outputs_app; auto using outputs_ok_silent.
Qed.

Lemma fires_incoming_when_disabled now r s : slave_base cfg s -> request_ok r ->
  state s = CLS_SLAVE_STATE_WAIT_DISABLING_SLAVE ->
  fires now (Some r) CLS_SLAVE_EVENT_CYCLIC_INCOMING_WHEN_DISABLED s (fun s' o =>
    rejects s s' o r (endcode_slave_disabled s) /\ outputs_ok cfg o).
Proof.
  intros Hb Hr Hst. apply (fsm_stay _ _ _ _ (Some cls_iefb_handle_incoming_when_disabled));
    [exact (base_tables _ Hb) | rewrite Hst; reflexivity|].
  cbn [run_opt run_action handle_incoming_when_disabled_action]. wp_steps. eapply wp_mono.
  { apply (send_error_frame_spec cfg cfg_ok); [exact Hb | exact Hr|].
    destruct (sb_endcode _ _ Hb) as [-> | ->]; reflexivity. }
  intros a1 s1 o1 [Hs Ho1]. wp_steps. rewrite !app_nil_r. cbn [app].
  split; [exact (sc_state _ _ (proj1 Hs))|]. apply stop_here. auto.
Qed.

(** Leaving the connection: the exit action of [MASTER_CONTROL]. *)
Definition disconnect_callback : list cls_output :=
  if disconnect_cb cfg then [DisconnectCb] else [].

Lemma exit_control_spec now request s (Q : cls_slave_event -> cls -> list cls_output -> Prop) :
  slave_base cfg s -> (forall event, Q event s disconnect_callback) ->
  wp (run_opt (Some cls_iefb_on_exit_master_control) now request) Q s.
Proof.
  intros Hb HQ. cbn [run_opt run_action]. unfold on_exit_master_control_action. wp_steps.
  rewrite (sb_config _ _ Hb). specialize (HQ CLS_SLAVE_EVENT_NONE). revert HQ.
  unfold disconnect_callback. destruct (disconnect_cb cfg); intros HQ; wp_steps; exact HQ.
Qed.

Lemma disconnect_callback_silent : sent_frames disconnect_callback = [].
Proof. unfold disconnect_callback. destruct (disconnect_cb cfg); reflexivity. Qed.

(** Entry of [MASTER_NONE]. *)
Lemma entry_none_spec now request s (Q : cls_slave_event -> cls -> list cls_output -> Prop) :
  (forall event s' o, quiet (cleared s) s' -> sent_frames o = [] -> Q event s' o) ->
  wp (run_opt (Some cls_iefb_on_entry_master_none) now request) Q s.
Proof.
  intros HQ. cbn [run_opt run_action]. apply wp_bind.
  eapply wp_mono; [apply clear_master_spec|]. intros a s' o [Hq Ho]. wp_steps.
  rewrite app_nil_r. auto.
Qed.

(** The instance without a master, waiting for one. *)
Definition waiting (s : cls) : cls := (cleared s) <| state := CLS_SLAVE_STATE_MASTER_NONE |>.

Ltac base_parts := split; match goal with Hb : slave_base _ _ |- _ => apply Hb end.

Lemma quiet_config s s' : slave_base cfg s -> quiet s s' -> config s' = cfg.
Proof. intros Hb Hq. rewrite (sc_config _ _ (proj1 Hq)). apply Hb. Qed.

Lemma quiet_state s s' : quiet s s' -> state s' = state s.
Proof. intros Hq. apply (sc_state _ _ (proj1 Hq)). Qed.

(** The master's station count does not match ours. *)
Lemma fires_wrong_stationcount now r s : slave_base cfg s -> request_ok r ->
  fires now (Some r) CLS_SLAVE_EVENT_CYCLIC_WRONG_STATIONCOUNT s (fun s' o => outputs_ok cfg o /\
    match state s with
    | CLS_SLAVE_STATE_MASTER_NONE =>
        rejects s s' o r CL_SLMP_ENDCODE_CCIEFB_WRONG_NUMBER_OCCUPIED_STATIONS
    | CLS_SLAVE_STATE_MASTER_CONTROL =>
        rejects (waiting s) s' o r CL_SLMP_ENDCODE_CCIEFB_WRONG_NUMBER_OCCUPIED_STATIONS
    | _ => s' = s /\ o = []
    end).
Proof.
  intros Hb Hr. destruct (state s) eqn:Hst.
  1,4,5,6: (apply fires_nothing; [exact Hb | rewrite Hst; reflexivity | split; [constructor|auto]]).
  - apply (fsm_stay _ _ _ _ (Some cls_iefb_handle_wrong_stationcount));
      [exact (base_tables _ Hb) | rewrite Hst; reflexivity|].
    cbn [run_opt run_action handle_wrong_stationcount_action]. wp_steps.
    eapply wp_mono; [apply (send_error_frame_spec cfg cfg_ok); [exact Hb|exact Hr|reflexivity]|].
    intros a1 s1 o1 [Hs Ho1]. wp_steps. rewrite app_nil_r.
    split; [exact (sc_state _ _ (proj1 Hs))|]. apply stop_here. auto.
  - apply (fsm_move _ _ _ _ CLS_SLAVE_STATE_MASTER_NONE (Some cls_iefb_handle_wrong_stationcount));
      [exact (base_tables _ Hb) | rewrite Hst; reflexivity | congruence |].
    rewrite Hst. change (fsm_on_exit _) with (Some cls_iefb_on_exit_master_control).
    apply exit_control_spec; [exact Hb|]. intros _.
    cbn [run_opt run_action handle_wrong_stationcount_action]. wp_steps. eapply wp_mono.
    { apply (send_error_frame_spec cfg cfg_ok); [|exact Hr|reflexivity]. base_parts. }
    intros a1 s1 o1 [Hs Ho1]. wp_steps. rewrite app_nil_r.
    split; [exact (sc_state _ _ (proj1 Hs))|].
    change (fsm_on_entry _) with (Some cls_iefb_on_entry_master_none).
    apply entry_none_spec. intros event s2 o2 Hq Ho2.
    destruct Hs as (Hc & Hb1 & Hd & frame & Hf & Hframe).
    assert (Hb2 : slave_base cfg s2) by (refine (quiet_base _ _ _ _ Hq); base_parts).
    split; [rewrite (quiet_state _ _ Hq); exact (sc_state _ _ Hc)|].
    split; [apply Hb2|]. apply stop_here. split; [reflexivity|]. split.
    { repeat apply slave_outputs_app; auto using outputs_ok_silent, disconnect_callback_silent,
        state_callback_silent. }
    destruct Hq as (Hc2 & Hn2 & He2). split; [destruct Hc, Hc2; split; cbn in *; congruence|].
    split; [exact Hb2|]. split; [rewrite Hn2; exact Hd|]. exists frame.
    rewrite !sent_frames_app, disconnect_callback_silent, Hf, Ho2, state_callback_silent.
    split; [reflexivity|exact Hframe].
Qed.

(** The instance just after it accepted a master. *)
Definition newly_connected (s : cls) (r : cls_cciefb_cyclic_request_info) (now : Z) : cls :=
  (with_master s r (slave_station_no (master s)) now)
    <| state := CLS_SLAVE_STATE_MASTER_CONTROL |>.

(** A new master, or new parameters from our master. *)
Lemma fires_new_master now r s : slave_base cfg s -> request_ok r ->
  state s = CLS_SLAVE_STATE_MASTER_NONE \/ state s = CLS_SLAVE_STATE_MASTER_CONTROL ->
  is_u16 (slave_station_no (master s)) ->
  fires now (Some r) CLS_SLAVE_EVENT_CYCLIC_NEW_MASTER s (fun s' o => outputs_ok cfg o /\
    exists s1 o1 o2,
      quiet (newly_connected s r now) s1 /\
      sent_frames o1 = [] /\ o = o1 ++ o2 /\ answers cfg s1 s' o2 r now).
Proof.
  intros Hb Hr Hst Hno.
  assert (Hsecond : forall s1 o1,
    quiet (newly_connected s r now) s1 -> sent_frames o1 = [] ->
    continue_loop 1 now (Some r) CLS_SLAVE_EVENT_CYCLIC_CORRECT_MASTER
      (fun b s' o => b = true /\ outputs_ok cfg o /\ exists s1 o1 o2,
        quiet (newly_connected s r now) s1 /\
        sent_frames o1 = [] /\ o = o1 ++ o2 /\ answers cfg s1 s' o2 r now) s1 o1).
  { intros s1 o1 Hq Ho1.
    assert (Hb1 : slave_base cfg s1) by (refine (quiet_base _ _ _ _ Hq); base_parts).
    assert (Hst1 : state s1 = CLS_SLAVE_STATE_MASTER_CONTROL) by (apply (quiet_state _ _ Hq)).
    unfold continue_loop. rewrite bool_decide_eq_true_2 by discriminate.
    apply (fsm_stay _ _ _ _ (Some cls_iefb_handle_cyclic_event));
      [exact (base_tables _ Hb1) | rewrite Hst1; reflexivity|].
    eapply wp_mono; [apply (cyclic_event_spec cfg cfg_ok); [exact Hb1|exact Hr|]|].
    { rewrite (sc_master _ _ (proj1 Hq)). exact Hno. }
    intros event' s' o (Ha & Ho & ->). split.
    { destruct Ha as [[_ Hs] | [_ [-> _]]]; [|reflexivity].
      rewrite (sc_state _ _ (proj1 Hs)). reflexivity. }
    apply stop_here. split; [reflexivity|].
    split; [apply slave_outputs_app; [apply outputs_ok_silent|]; assumption|].
    exists s1, o1, o. auto. }
  destruct Hst as [Hst|Hst].
  - apply (fsm_move _ _ _ _ CLS_SLAVE_STATE_MASTER_CONTROL
      (Some cls_iefb_handle_new_or_updated_master));
      [exact (base_tables _ Hb) | rewrite Hst; reflexivity | congruence |].
    rewrite Hst. change (fsm_on_exit _) with (@None cls_action). cbn [run_opt]. wp_steps.
    cbn [run_action]. eapply wp_mono; [apply new_master_spec|].
    intros event' s1 o1 (Hq & Ho1 & ->).
    assert (Hb1 : slave_base cfg s1) by (refine (quiet_base _ _ _ _ Hq); base_parts).
    split; [exact (quiet_state _ _ Hq)|].
    change (fsm_on_entry _) with (@None cls_action). cbn [run_opt]. wp_steps.
    split; [exact (quiet_state _ _ Hq)|]. split; [apply Hb1|]. apply Hsecond; [exact Hq|].
    cbn [app]. rewrite sent_frames_app, Ho1. apply state_callback_silent.
  - apply (fsm_stay _ _ _ _ (Some cls_iefb_handle_new_or_updated_master));
      [exact (base_tables _ Hb) | rewrite Hst; reflexivity|].
    cbn [run_opt run_action]. eapply wp_mono; [apply new_master_spec|].
    intros event' s1 o1 (Hq & Ho1 & ->). split; [exact (quiet_state _ _ Hq)|].
    apply Hsecond; [|exact Ho1]. unfold newly_connected. rewrite <- Hst.
    change (state s) with (state (with_master s r (slave_station_no (master s)) now)).
    rewrite set_same_state. exact Hq.
Qed.

(** Transitions into [MASTER_NONE] without a response: the connection times
    out, or the application enables the slave again. *)
Lemma fires_to_none now event action s : slave_base cfg s ->
  state s <> CLS_SLAVE_STATE_MASTER_NONE ->
  initial_fsm_matrix (state s) event = ClsSlaveFsm CLS_SLAVE_STATE_MASTER_NONE (Some action) ->
  (forall s, run_action action now None s = Done (CLS_SLAVE_EVENT_NONE, s, [])) ->
  fires now None event s (fun s' o => quiet (waiting s) s' /\ sent_frames o = [] /\
    exists o1, o = (if bool_decide (state s = CLS_SLAVE_STATE_MASTER_CONTROL)
                    then disconnect_callback else []) ++ o1 ++
                   state_callback CLS_SLAVE_STATE_MASTER_NONE).
Proof.
  intros Hb Hne Ht Hact. apply (fsm_move _ _ _ _ _ _ _ _ (base_tables _ Hb) Ht); [congruence|].
  set (exit_out := if bool_decide _ then _ else _).
  assert (Hsilent : sent_frames exit_out = []).
  { unfold exit_out. case_bool_decide; [apply disconnect_callback_silent|reflexivity]. }
  assert (Hrest : wp (run_opt (Some action) now None) (fun event' s2 o2 =>
    state s2 = CLS_SLAVE_STATE_MASTER_NONE /\
    wp (run_opt (Some cls_iefb_on_entry_master_none) now None) (fun _ s3 o3 =>
      state s3 = CLS_SLAVE_STATE_MASTER_NONE /\ config s3 = cfg /\
      continue_loop 1 now None event' (fun b s' o => b = true /\ quiet (waiting s) s' /\
        sent_frames o = [] /\ exists o1, o = exit_out ++ o1 ++
          state_callback CLS_SLAVE_STATE_MASTER_NONE)
        s3 (exit_out ++ o2 ++ o3 ++ state_callback CLS_SLAVE_STATE_MASTER_NONE)) s2)
    (s <| state := CLS_SLAVE_STATE_MASTER_NONE |>)).
  { unfold wp at 1. cbn [run_opt]. rewrite Hact. split; [reflexivity|].
    apply entry_none_spec. intros event' s2 o2 Hq Ho2.
    split; [exact (quiet_state _ _ Hq)|].
    split; [rewrite (sc_config _ _ (proj1 Hq)); apply Hb|]. apply stop_here.
    split; [reflexivity|]. split; [exact Hq|]. cbn [app]. split; [|eauto].
    rewrite !sent_frames_app, Hsilent, Ho2. apply state_callback_silent. }
  destruct (state s) eqn:Hst; try discriminate Ht; try congruence; cbn [initial_fsm_on_entry_exit];
    unfold exit_out in *.
  - change (fsm_on_exit _) with (@None cls_action). cbn [run_opt]. wp_steps. exact Hrest.
  - change (fsm_on_exit _) with (Some cls_iefb_on_exit_master_control).
    apply exit_control_spec; [exact Hb|]. intros _. exact Hrest.
  - change (fsm_on_exit _) with (@None cls_action). cbn [run_opt]. wp_steps. exact Hrest.
  - change (fsm_on_exit _) with (@None cls_action). cbn [run_opt]. wp_steps. exact Hrest.
Qed.

Lemma fires_timeout now s : slave_base cfg s -> state s = CLS_SLAVE_STATE_MASTER_CONTROL ->
  fires now None CLS_SLAVE_EVENT_TIMEOUT_MASTER s (fun s' o => quiet (waiting s) s' /\
    sent_frames o = [] /\ exists o1, o = disconnect_callback ++ o1 ++
                                        state_callback CLS_SLAVE_STATE_MASTER_NONE).
Proof.
  intros Hb Hst.
  pose proof (fires_to_none now CLS_SLAVE_EVENT_TIMEOUT_MASTER cls_iefb_log_timeout_master s Hb)
    as Hf.
  rewrite Hst in Hf. exact (Hf ltac:(discriminate) eq_refl (fun s0 => eq_refl)).
Qed.

Lemma fires_reenable now s : slave_base cfg s -> state s <> CLS_SLAVE_STATE_SLAVE_DOWN ->
  fires now None CLS_SLAVE_EVENT_REENABLE_SLAVE s (fun s' o => sent_frames o = [] /\
    match state s with
    | CLS_SLAVE_STATE_WAIT_DISABLING_SLAVE | CLS_SLAVE_STATE_SLAVE_DISABLED => quiet (waiting s) s'
    | _ => s' = s
    end).
Proof.
  intros Hb Hdown. destruct (state s) eqn:Hst; try congruence.
  1,2,5: (apply fires_nothing; [exact Hb | rewrite Hst; reflexivity | auto]).
  all: eapply wp_mono; [apply (fires_to_none now _ cls_iefb_log_slave_reenabled s Hb);
         rewrite ?Hst; [discriminate|reflexivity|reflexivity]|].
  all: intros b s' o (Hb' & Hq & Ho & _); split; [exact Hb'|]; split; [exact Ho | exact Hq].
Qed.

(** The instance after the application disabled it while connected, and the
    disabled instance. *)
Definition disabling (s : cls) (now : Z) : cls :=
  (cleared s) <| timer_for_disabling_slave :=
      Timer CL_TIMER_RUNNING CLS_CCIEFB_WAIT_TIME_DISABLE_SLAVE now |>
    <| state := CLS_SLAVE_STATE_WAIT_DISABLING_SLAVE |>.

Definition disabled (s : cls) : cls :=
  s <| timer_for_disabling_slave := cl_timer_zero |> <| state := CLS_SLAVE_STATE_SLAVE_DISABLED |>.

Lemma fires_disable now s : slave_base cfg s -> state s <> CLS_SLAVE_STATE_SLAVE_DOWN ->
  fires now None CLS_SLAVE_EVENT_DISABLE_SLAVE s (fun s' o => sent_frames o = [] /\
    match state s with
    | CLS_SLAVE_STATE_MASTER_NONE => quiet (disabled s) s'
    | CLS_SLAVE_STATE_MASTER_CONTROL => quiet (disabling s now) s'
    | _ => s' = s
    end).
Proof.
  intros Hb Hdown. destruct (state s) eqn:Hst; try congruence.
  3,4,5: (apply fires_nothing; [exact Hb | rewrite Hst; reflexivity | auto]).
  - apply (fsm_move _ _ _ _ CLS_SLAVE_STATE_SLAVE_DISABLED (Some cls_iefb_log_slave_disabled));
      [exact (base_tables _ Hb) | rewrite Hst; reflexivity | congruence|].
    rewrite Hst. change (fsm_on_exit _) with (@None cls_action). cbn [run_opt]. wp_steps.
    cbn [run_action]. wp_steps. split; [reflexivity|].
    change (fsm_on_entry _) with (Some cls_iefb_on_entry_slave_disabled).
    cbn [run_opt run_action]. wp_steps. split; [reflexivity|]. split; [apply Hb|].
    apply stop_here. split; [reflexivity|]. split; [apply state_callback_silent|].
    repeat split.
  - apply (fsm_move _ _ _ _ CLS_SLAVE_STATE_WAIT_DISABLING_SLAVE
      (Some cls_iefb_log_slave_disabled)); [exact (base_tables _ Hb) | rewrite Hst; reflexivity | congruence|].
    rewrite Hst. change (fsm_on_exit _) with (Some cls_iefb_on_exit_master_control).
    apply exit_control_spec; [exact Hb|]. intros _. cbn [run_opt run_action]. wp_steps.
    split; [reflexivity|].
    change (fsm_on_entry _) with (Some cls_iefb_on_entry_wait_disabling_slave).
    cbn [run_opt run_action]. unfold on_entry_wait_disabling_slave_action. apply wp_bind.
    eapply wp_mono; [apply clear_master_spec|]. intros a s1 o1 [Hq Ho1]. wp_steps.
    split; [exact (quiet_state _ _ Hq)|].
    split; [cbn; rewrite (sc_config _ _ (proj1 Hq)); apply Hb|].
    apply stop_here. split; [reflexivity|]. split.
    + rewrite !sent_frames_app, disconnect_callback_silent, Ho1. apply state_callback_silent.
    + destruct Hq as ([] & Hn & He). split; [|split; assumption]. split; assumption || reflexivity.
Qed.

Lemma fires_wait_ended now s : slave_base cfg s ->
  state s = CLS_SLAVE_STATE_WAIT_DISABLING_SLAVE ->
  fires now None CLS_SLAVE_EVENT_DISABLE_SLAVE_WAIT_ENDED s (fun s' o =>
    sent_frames o = [] /\ quiet (disabled s) s').
Proof.
  intros Hb Hst.
  apply (fsm_move _ _ _ _ CLS_SLAVE_STATE_SLAVE_DISABLED None);
    [exact (base_tables _ Hb) | rewrite Hst; reflexivity | congruence|].
  rewrite Hst. change (fsm_on_exit _) with (@None cls_action). cbn [run_opt]. wp_steps.
  split; [reflexivity|].
  change (fsm_on_entry _) with (Some cls_iefb_on_entry_slave_disabled).
  cbn [run_opt run_action]. wp_steps. split; [reflexivity|]. split; [apply Hb|].
  apply stop_here. split; [reflexivity|]. split; [apply state_callback_silent|]. repeat split.
Qed.

(** ** Start-up *)

(** The buffers of an instance before it is started. *)
Record fresh (s : cls) : Prop := {
  fr_config : config s = cfg;
  fr_normal : length (ri_buffer (cciefb_resp_frame_normal s)) = 1500%nat;
  fr_error : length (ri_buffer (cciefb_resp_frame_error s)) = 1500%nat;
  fr_buf : length (cciefb_receivebuf s) = Z.to_nat CL_BUFFER_LEN /\ bytes (cciefb_receivebuf s)
}.

Lemma slave_init_spec s : fresh s -> has_tables s ->
  wp slave_init_action (fun event s' o => event = CLS_SLAVE_EVENT_NONE /\ sent_frames o = [] /\
    slave_base cfg s' /\ state s' = state s) s.
Proof.
  intros Hf [Hm Ha]. unfold slave_init_action. wp_steps.
  eapply wp_mono; [apply clear_master_spec|]. intros a s1 o1 [(Hc & Hn & He) Ho1]. wp_steps.
  pose proof (sc_config _ _ Hc) as Hcfg. cbn in Hcfg. rewrite (fr_config _ Hf) in Hcfg.
  match goal with |- wp (lift_outcome (cls_iefb_initialise_frame ?s ?f)) _ _ =>
    destruct (initialise_frame_ok s f) as (normal & Heq & Hok & _) end.
  { cbn. rewrite Hcfg. exact cfg_ok. }
  { cbn. rewrite Hn. apply Hf. }
  rewrite Heq. wp_steps.
  match goal with |- wp (lift_outcome (cls_iefb_initialise_frame ?s ?f)) _ _ =>
    destruct (initialise_frame_ok s f) as (error & Heq' & Hok' & Hz) end.
  { cbn. rewrite Hcfg. exact cfg_ok. }
  { cbn. rewrite He. apply Hf. }
  rewrite Heq'. wp_steps. cbn in Hok, Hok', Hz. rewrite Hcfg in Hok, Hok', Hz.
  split; [reflexivity|]. split; [rewrite !app_nil_r; exact Ho1|].
  pose proof (sc_area _ _ Hc) as Harea. pose proof (sc_buf _ _ Hc) as Hbuf.
  pose proof (sc_matrix _ _ Hc) as Hmatrix. pose proof (sc_actions _ _ Hc) as Hactions.
  cbn -[initial_fsm_matrix initial_fsm_on_entry_exit] in Harea, Hbuf, Hmatrix, Hactions.
  split; [|exact (sc_state _ _ Hc)].
  split; cbn -[initial_fsm_matrix initial_fsm_on_entry_exit].
  - exact Hcfg.
  - congruence.
  - congruence.
  - exact Hok.
  - exact Hok'.
  - rewrite Harea. split; [apply length_zeros | apply bytes_zeros].
  - rewrite Harea. split; [apply length_zeros | apply bytes_zeros].
  - rewrite Hbuf. apply Hf.
  - exact Hz.
  - unfold CL_SLAVE_APPL_OPERATION_STATUS_OPERATING. lia.
  - split; [discriminate|reflexivity].
  - split; [discriminate|reflexivity].
  - right. reflexivity.
Qed.

(** The state after start-up. *)
Definition started (s : cls) : Prop :=
  slave_inv cfg s /\ state s = CLS_SLAVE_STATE_MASTER_NONE.

Lemma cleared_control s : slave_base cfg s -> slave_base cfg (cleared s).
Proof. intros Hb. base_parts. Qed.

Lemma waiting_inv s s' : slave_base cfg s -> quiet (waiting s) s' -> started s'.
Proof.
  intros Hb Hq. assert (Hst : state s' = CLS_SLAVE_STATE_MASTER_NONE) by apply (quiet_state _ _ Hq).
  split; [|exact Hst]. split.
  - refine (quiet_base _ _ _ _ Hq). base_parts.
  - unfold slave_control. rewrite Hst. destruct Hq as [[] _].
    split; [split|]; assumption.
Qed.

Lemma startup_spec now s : fresh s ->
  wp (cls_fsm_init now) (fun _ s' o => started s' /\ sent_frames o = []) s.
Proof.
  intros Hf. unfold cls_fsm_init. wp_steps. apply fsm_event_fires; [discriminate|].
  apply (fsm_move _ _ _ _ CLS_SLAVE_STATE_MASTER_NONE (Some cls_iefb_slave_init));
    [split; reflexivity | reflexivity | discriminate|].
  change (fsm_on_exit _) with (@None cls_action). cbn [run_opt]. wp_steps. cbn [run_action].
  eapply wp_mono; [apply slave_init_spec; [|split; reflexivity]|].
  { destruct Hf. split; assumption. }
  intros event' s1 o1 (-> & Ho1 & Hb & Hst). split; [exact Hst|].
  change (fsm_on_entry _) with (Some cls_iefb_on_entry_master_none).
  apply entry_none_spec. intros event s2 o2 Hq Ho2.
  assert (Hq' : quiet (waiting s1) s2).
  { replace (waiting s1) with (cleared s1); [exact Hq|].
    rewrite <- (set_same_state (cleared s1)). change (state (cleared s1)) with (state s1).
    rewrite Hst. reflexivity. }
  destruct (waiting_inv s1 s2 Hb Hq') as [Hinv Hst2].
  split; [exact Hst2|]. split; [apply Hinv|]. apply stop_here.
  split; [reflexivity|]. split; [split; assumption|].
  rewrite !sent_frames_app, Ho1, Ho2, state_callback_silent. reflexivity.
Qed.

End SlaveFsm.
