(* ===== verification/SlaveSafety.v ===== *)
(** * Safety of the slave

    Every call keeps the invariant, stops at no assertion, finishes its event
    loop within the fuel and sends only well-formed responses. *)

From S2P Require Import Prelude Packed Signals Timer Limiter Util Types Iefb IefbFacts IefbRoundtrip.
From S2P Require Import Slmp Slave SlaveIefb SlaveInv SlaveActions SlaveFsm.

(** A found slave id has its stations inside the list. *)
Lemma locate_slave_bounds my ids : forall pos no cnt,
  locate_slave my pos ids = Some (true, no, cnt) ->
  pos <= no /\ 1 <= cnt /\ no + cnt <= pos + Z.of_nat (length ids).
Proof.
  induction ids as [|id ids IH]; intros pos no cnt; cbn [locate_slave]; [discriminate|].
  destruct (id =? my).
  - destruct (existsb _ _); [discriminate|]. intros [= <- <-].
    pose proof (run_length_bounds CL_CCIEFB_MULTISTATION_INDICATOR ids). cbn [length]. lia.
  - intros Hl. apply IH in Hl. cbn [length]. lia.
Qed.

Lemma analyze_bounds my total buffer first no cnt :
  cl_iefb_analyze_slave_ids my total buffer first = Some (true, no, cnt) ->
  1 <= no /\ 1 <= cnt /\ no + cnt - 1 <= total <= 16.
Proof.
  rewrite analyze_slave_ids_eq.
  destruct (my =? CL_IPADDR_INVALID), (bad_station_count total) eqn:Ht; try discriminate.
  apply bad_station_count_false in Ht. cbn [orb]. intros Hl. apply locate_slave_bounds in Hl.
  unfold slave_ids in Hl. rewrite length_map, length_seqZ in Hl. lia.
Qed.

Section SlaveSafety.
Context `{ClsOptions, Clal}.
Context (cfg : cls_cfg) (cfg_ok : config_ok cfg).

(** What every call achieves. *)
Definition good (s' : cls) (o : list cls_output) : Prop := slave_inv cfg s' /\ outputs_ok cfg o.

(** ** The invariant under the effects of events *)

Lemma same_core_control s s' : slave_control cfg s -> same_core s s' -> slave_control cfg s'.
Proof.
  intros Hc []. unfold slave_control, connected, not_connected in *.
  rewrite sc_state, sc_master, sc_receive_timer, sc_disable_timer. exact Hc.
Qed.

Lemma quiet_inv s s' : slave_inv cfg s -> quiet s s' -> slave_inv cfg s'.
Proof.
  intros [Hb Hc] Hq. split; [exact (quiet_base _ _ _ Hb Hq)|].
  exact (same_core_control _ _ Hc (proj1 Hq)).
Qed.

Lemma sends_inv s s' o seq g inc ec ip port slave : slave_control cfg s ->
  sends cfg s s' o seq g inc ec ip port slave -> slave_inv cfg s'.
Proof.
  intros Hc (Hcore & Hb & _). split; [exact Hb|]. exact (same_core_control _ _ Hc Hcore).
Qed.

Lemma rejects_inv s s' o r ec : slave_control cfg s -> rejects cfg s s' o r ec ->
  slave_inv cfg s'.
Proof. exact (fun Hc => sends_inv s s' o _ _ false ec _ _ _ Hc). Qed.

Lemma waiting_control s : slave_control cfg (waiting s).
Proof. repeat split. Qed.

Lemma disabling_inv s s' now : slave_base cfg s -> quiet (disabling s now) s' ->
  slave_inv cfg s'.
Proof.
  intros Hb Hq. refine (quiet_inv _ _ _ Hq). split; [split; apply Hb|]. repeat split.
Qed.

Lemma disabled_inv s s' : slave_base cfg s -> not_connected s -> quiet (disabled s) s' ->
  slave_inv cfg s'.
Proof.
  intros Hb [Hm Ht] Hq. refine (quiet_inv _ _ _ Hq).
  split; [split; apply Hb|]. repeat split; assumption.
Qed.

Lemma connected_station s : connected cfg s -> is_u16 (slave_station_no (master s)).
Proof.
  intros (_ & _ & H1 & H2 & _). pose proof (config_stations cfg cfg_ok).
  unfold is_u16. lia.
Qed.

Lemma control_connected s : slave_inv cfg s -> state s = CLS_SLAVE_STATE_MASTER_CONTROL ->
  connected cfg s /\ timer_for_disabling_slave s = cl_timer_zero.
Proof. intros [_ Hc] Hst. unfold slave_control in Hc. rewrite Hst in Hc. exact Hc. Qed.

Lemma answers_inv s s' o r now : slave_inv cfg s ->
  state s = CLS_SLAVE_STATE_MASTER_CONTROL -> answers cfg s s' o r now -> slave_inv cfg s'.
Proof.
  intros Hinv Hst [[_ Hs] | [_ [-> _]]]; [|exact Hinv].
  destruct (control_connected s Hinv Hst) as [(Hm & Hg & Hno & Hfit & Hrun & Hper) Hdt].
  refine (sends_inv _ _ _ _ _ _ _ _ _ _ _ Hs). unfold slave_control.
  change (state (with_cyclic_data _ _ _ _ _ _)) with (state s). rewrite Hst.
  split; [|exact Hdt]. unfold connected, with_cyclic_data; cbn. unfold cl_timer_restart.
  rewrite Hrun. cbn. rewrite Hrun. auto 10.
Qed.

Lemma newly_connected_inv s s1 r now : slave_base cfg s -> request_ok r ->
  timer_for_disabling_slave s = cl_timer_zero -> station_fits cfg r (slave_station_no (master s)) ->
  quiet (newly_connected s r now) s1 ->
  slave_inv cfg s1 /\ state s1 = CLS_SLAVE_STATE_MASTER_CONTROL.
Proof.
  intros Hb Hr Hdt [Hno Hfit] Hq. split; [|exact (quiet_state _ _ Hq)].
  refine (quiet_inv _ _ _ Hq). split; [split; apply Hb|].
  split; [|exact Hdt]. destruct (ro_master _ Hr) as [Hm Hm0]. pose proof (ro_total _ Hr).
  repeat split; cbn; try apply Hr; try lia; congruence.
Qed.

(** ** Incoming frames *)

(** The station number is set before the event that connects. *)
Lemma new_master_good now r s no : slave_inv cfg s -> request_ok r ->
  state s = CLS_SLAVE_STATE_MASTER_NONE \/ state s = CLS_SLAVE_STATE_MASTER_CONTROL ->
  station_fits cfg r no ->
  wp (cls_iefb_fsm_event now (Some r) CLS_SLAVE_EVENT_CYCLIC_NEW_MASTER) (fun _ s' o =>
    good s' o) (s <| master ::= (fun m => m <| slave_station_no := no |>) |>).
Proof.
  intros [Hb Hc] Hr Hst Hfit. set (s0 := s <| master ::= _ |>).
  assert (Hb0 : slave_base cfg s0) by (split; apply Hb).
  assert (Hdt : timer_for_disabling_slave s0 = cl_timer_zero).
  { unfold slave_control in Hc. destruct Hst as [Hst|Hst]; rewrite Hst in Hc; apply Hc. }
  apply fsm_event_fires; [discriminate|]. eapply wp_mono.
  { apply (fires_new_master cfg cfg_ok); [exact Hb0 | exact Hr | exact Hst |].
    pose proof (ro_total _ Hr). pose proof (config_stations cfg cfg_ok).
    destruct Hfit. cbn. unfold is_u16. lia. }
  intros b s' o (-> & Ho & s1 & o1 & o2 & Hq & Ho1 & -> & Ha). split; [reflexivity|].
  destruct (newly_connected_inv s0 s1 r now Hb0 Hr Hdt Hfit Hq) as [Hinv1 Hst1].
  split; [exact (answers_inv _ _ _ _ _ Hinv1 Hst1 Ha) | exact Ho].
Qed.

Lemma wrong_stationcount_good now r s : slave_inv cfg s -> request_ok r ->
  wp (cls_iefb_fsm_event now (Some r) CLS_SLAVE_EVENT_CYCLIC_WRONG_STATIONCOUNT)
    (fun _ s' o => good s' o) s.
Proof.
  intros [Hb Hc] Hr. apply fsm_event_fires; [discriminate|].
  eapply wp_mono; [apply (fires_wrong_stationcount cfg cfg_ok); assumption|].
  intros b s' o (-> & Ho & Hcase). split; [reflexivity|]. split; [|exact Ho].
  destruct (state s) eqn:Hst; try (destruct Hcase as [-> _]; split; assumption).
  - exact (rejects_inv _ _ _ _ _ Hc Hcase).
  - exact (rejects_inv _ _ _ _ _ (waiting_control s) Hcase).
Qed.

(** Consecutive good steps. *)
Lemma good_app s o o' : outputs_ok cfg o -> good s o' -> good s (o ++ o').
Proof. intros Ho [Hs Ho']. split; [exact Hs | apply slave_outputs_app; assumption]. Qed.

Lemma good_nil_r s o : good s o -> good s (o ++ []).
Proof. rewrite app_nil_r. exact (fun H => H). Qed.

Lemma good_silent s o : slave_inv cfg s -> sent_frames o = [] -> good s o.
Proof. intros Hs Ho. split; [exact Hs | apply outputs_ok_silent; exact Ho]. Qed.

(** A quiet operation followed by a good one. *)
Lemma then_good {A B} (m : cls_prog A) (k : A -> cls_prog B) s :
  wp m (fun a s' o => outputs_ok cfg o /\ wp (k a) (fun _ s' o => good s' o) s') s ->
  wp (m ≫= k) (fun _ s' o => good s' o) s.
Proof.
  intros Hm. apply wp_bind. eapply wp_mono; [exact Hm|]. intros a s1 o1 [Ho Hk].
  eapply wp_mono; [exact Hk|]. intros b s2 o2 Hg. apply good_app; assumption.
Qed.

Lemma good_then_ret {A B} (m : cls_prog A) (b : B) s :
  wp m (fun _ s' o => good s' o) s -> wp (m ≫= fun _ => mret b) (fun _ s' o => good s' o) s.
Proof.
  intros Hm. apply wp_bind. eapply wp_mono; [exact Hm|]. intros a s1 o1 Hg. wp_steps.
  apply good_nil_r. exact Hg.
Qed.

Lemma ret_good {A} (a : A) s : slave_inv cfg s -> wp (mret a : cls_prog A) (fun _ s' o => good s' o) s.
Proof. intros Hs. apply wp_ret. apply good_silent; [exact Hs|reflexivity]. Qed.

Lemma quiet_then_good {A B} (m : cls_prog A) (k : A -> cls_prog B) s :
  slave_inv cfg s -> wp m (silent_quiet s) s ->
  (forall a s', slave_inv cfg s' -> quiet s s' -> wp (k a) (fun _ s' o => good s' o) s') ->
  wp (m ≫= k) (fun _ s' o => good s' o) s.
Proof.
  intros Hs Hm Hk. apply then_good. eapply wp_mono; [exact Hm|]. intros a s1 o1 [Hq Ho1].
  split; [apply outputs_ok_silent; exact Ho1|]. apply Hk; [exact (quiet_inv _ _ Hs Hq) | exact Hq].
Qed.

Lemma search_good now r s : slave_inv cfg s -> request_ok r ->
  wp (cls_iefb_search_slave_parameters now r) (fun _ s' o => good s' o) s.
Proof.
  intros Hinv Hr. unfold cls_iefb_search_slave_parameters. wp_steps.
  destruct (discards_frames (state s)) eqn:Hdis; [apply ret_good; exact Hinv|].
  destruct (cl_iefb_analyze_slave_ids _ _ _ _) as [[[[] no] cnt]|] eqn:Hana;
    [|apply ret_good; exact Hinv..].
  apply analyze_bounds in Hana. rewrite (sb_config _ _ (proj1 Hinv)).
  destruct (Z.eqb_spec cnt (num_occupied_stations cfg)) as [Hcnt|_]; cbn [negb].
  2:{ apply quiet_then_good; [exact Hinv | apply log_warning_quiet|]. intros _ s1 Hinv1 _.
      apply quiet_then_good; [exact Hinv1 | apply error_callback_quiet|]. intros _ s2 Hinv2 _.
      apply good_then_ret, wrong_stationcount_good; assumption. }
  assert (Hfit : station_fits cfg r no) by (unfold station_fits; lia).
  case_bool_decide as Hwait.
  { apply good_then_ret. destruct (cl_iefb_extract_my_transmission_state _ _);
      [|apply ret_good; exact Hinv]. cbn [when].
    apply fsm_event_fires; [discriminate|]. eapply wp_mono.
    { apply (fires_incoming_when_disabled cfg cfg_ok); [apply Hinv|assumption..]. }
    intros b s' o (-> & Hrej & Ho). split; [reflexivity|].
    split; [exact (rejects_inv _ _ _ _ _ (proj2 Hinv) Hrej) | exact Ho]. }
  assert (Hconnect : state s = CLS_SLAVE_STATE_MASTER_NONE \/
                     state s = CLS_SLAVE_STATE_MASTER_CONTROL ->
    wp (modify (fun cls => cls <| master ::= (fun m => m <| slave_station_no := no |>) |>) ;;
        cls_iefb_fsm_event now (Some r) CLS_SLAVE_EVENT_CYCLIC_NEW_MASTER ;; mret true)
      (fun _ s' o => good s' o) s).
  { intros Hst. apply wp_bind, wp_modify. cbn [app]. apply good_then_ret.
    apply new_master_good; assumption. }
  case_bool_decide as Hnone.
  { destruct (cl_iefb_extract_my_transmission_state _ _); [|apply Hconnect; left; exact Hnone].
    apply quiet_then_good; [exact Hinv | apply error_callback_quiet|]. intros _ s1 Hinv1 _.
    apply ret_good. exact Hinv1. }
  destruct (negb _); [apply ret_good; exact Hinv|].
  destruct (cl_iefb_extract_my_transmission_state _ _); [apply ret_good; exact Hinv|].
  apply Hconnect. right. destruct (state s); try discriminate Hdis; congruence.
Qed.

Lemma fires_then_good now request event s : event <> CLS_SLAVE_EVENT_LAST ->
  fires now request event s good ->
  wp (cls_iefb_fsm_event now request event) (fun _ s' o => good s' o) s.
Proof. apply fsm_event_fires. Qed.

Lemma cyclic_input_good now buffer len rip rport lip s : slave_inv cfg s ->
  bytes buffer -> length buffer = Z.to_nat CL_BUFFER_LEN -> len <= CL_BUFFER_LEN -> is_u32 lip ->
  wp (cls_iefb_handle_cyclic_input_frame now buffer len rip rport lip)
    (fun _ s' o => good s' o) s.
Proof.
  intros Hinv Hb Hl Hlen Hlip. unfold cls_iefb_handle_cyclic_input_frame.
  destruct (Z.eqb_spec lip CL_IPADDR_INVALID) as [|Hlip0]; [apply ret_good; exact Hinv|].
  destruct (cl_iefb_parse_cyclic_request buffer len rip rport lip) as [[r|]|] eqn:Hparse.
  3:{ exfalso. exact (parse_cyclic_request_never_asserts _ _ _ _ _ Hparse). }
  2:{ wp_steps. apply good_silent; [exact Hinv|reflexivity]. }
  destruct (parse_request_ok _ _ _ _ _ _ Hb Hl Hlen Hlip Hlip0 Hparse) as [Hr _].
  wp_steps. cbn [app].
  destruct (discards_frames (state s)) eqn:Hdis; [apply ret_good; exact Hinv|].
  case_bool_decide as Hst; [apply search_good; assumption|].
  assert (Hst' : state s = CLS_SLAVE_STATE_MASTER_CONTROL).
  { destruct (decide (state s = CLS_SLAVE_STATE_MASTER_CONTROL)); tauto. }
  destruct (control_connected s Hinv Hst') as [Hconn _].
  destruct (negb (cls_iefb_is_master_id_correct _ _)).
  { apply good_then_ret, fires_then_good; [discriminate|]. eapply wp_mono.
    { apply (fires_wrong_master cfg cfg_ok); [apply Hinv|assumption..]. }
    intros b s' o (-> & Hrej & Ho). split; [reflexivity|].
    split; [exact (rejects_inv _ _ _ _ _ (proj2 Hinv) Hrej) | exact Ho]. }
  destruct (negb _); [apply search_good; assumption|].
  destruct (_ =? 0); [apply search_good; assumption|].
  destruct (negb _); [apply ret_good; exact Hinv|].
  destruct (cl_iefb_request_get_slave_id _ _ _ _) as [id|]; [|apply ret_good; exact Hinv].
  destruct (id =? CL_IPADDR_INVALID); [apply ret_good; exact Hinv|].
  destruct (negb _); [apply ret_good; exact Hinv|].
  apply good_then_ret, fires_then_good; [discriminate|]. eapply wp_mono.
  { apply (fires_correct_master cfg cfg_ok); [apply Hinv|assumption..|].
    apply connected_station. exact Hconn. }
  intros b s' o (-> & Ha & Ho). split; [reflexivity|].
  split; [exact (answers_inv _ _ _ _ _ Hinv Hst' Ha) | exact Ho].
Qed.

Lemma input_good now buffer len rip rport lip s : slave_inv cfg s ->
  bytes buffer -> length buffer = Z.to_nat CL_BUFFER_LEN -> len <= CL_BUFFER_LEN -> is_u32 lip ->
  wp (cls_iefb_handle_input_frame now buffer len rip rport lip) (fun _ s' o => good s' o) s.
Proof.
  intros. unfold cls_iefb_handle_input_frame.
  destruct (cl_iefb_parse_request_header buffer len); [|apply ret_good; assumption].
  destruct (negb _); [apply ret_good; assumption|].
  destruct (_ && _); [|apply ret_good; assumption]. apply cyclic_input_good; assumption.
Qed.

(** ** The periodic function *)

Record datagram_ok (dg : datagram) : Prop := {
  dg_bytes_ok : bytes (dg_bytes dg);
  dg_len_ok : Z.of_nat (length (dg_bytes dg)) <= CL_BUFFER_LEN;
  dg_local_ok : is_u32 (dg_local_ip dg)
}.

Definition received_ok (received : option datagram) : Prop :=
  match received with Some dg => datagram_ok dg | None => True end.

(** The datagram in the receive buffer. *)
Lemma receive_inv s d : slave_inv cfg s -> bytes d -> Z.of_nat (length d) <= CL_BUFFER_LEN ->
  slave_inv cfg (s <| cciefb_receivebuf ::= splice 0 d |>) /\
  bytes (splice 0 d (cciefb_receivebuf s)) /\
  length (splice 0 d (cciefb_receivebuf s)) = Z.to_nat CL_BUFFER_LEN.
Proof.
  intros [Hb Hc] Hd Hl. destruct (sb_buf _ _ Hb) as [Hbl Hbb].
  assert (Hbuf : bytes (splice 0 d (cciefb_receivebuf s)) /\
                 length (splice 0 d (cciefb_receivebuf s)) = Z.to_nat CL_BUFFER_LEN).
  { split; [auto with clink|]. rewrite length_splice by (unfold CL_BUFFER_LEN in *; lia). exact Hbl. }
  split; [|exact Hbuf]. split; [|exact Hc]. split; try apply Hb.
  cbn. destruct Hbuf. split; assumption.
Qed.

Lemma stopped_timer_expired now : cl_timer_is_expired cl_timer_zero now = false.
Proof. reflexivity. Qed.

(** Which states the two timers can expire in. *)
Lemma receive_timer_control s now : slave_inv cfg s ->
  cl_timer_is_expired (receive_timer s) now = true -> state s = CLS_SLAVE_STATE_MASTER_CONTROL.
Proof.
  intros [_ Hc] Hexp. unfold slave_control, not_connected in Hc.
  destruct (state s); try contradiction; try reflexivity; destruct Hc as [[_ Ht] _];
    rewrite Ht in Hexp; discriminate.
Qed.

Lemma disable_timer_waiting s now : slave_inv cfg s ->
  cl_timer_is_expired (timer_for_disabling_slave s) now = true ->
  state s = CLS_SLAVE_STATE_WAIT_DISABLING_SLAVE /\ not_connected s.
Proof.
  intros [_ Hc] Hexp. unfold slave_control in Hc.
  destruct (state s); try contradiction; try (destruct Hc as [_ Ht];
    rewrite Ht in Hexp; discriminate). tauto.
Qed.

(** What happens when the master is silent for too long. *)
Lemma receive_timer_good now s : slave_inv cfg s ->
  wp (when (cl_timer_is_expired (receive_timer s) now)
        (modify (fun cls => cls <| receive_timer ::= cl_timer_stop |>);;
         cls_iefb_fsm_event now None CLS_SLAVE_EVENT_TIMEOUT_MASTER))
    (fun _ s' o => good s' o) s.
Proof.
  intros Hinv. apply wp_when; intros Hexp; [|apply good_silent; [exact Hinv|reflexivity]].
  pose proof (receive_timer_control s now Hinv Hexp) as Hst.
  apply wp_bind, wp_modify. cbn [app]. apply fires_then_good; [discriminate|].
  set (s1 := s <| receive_timer ::= cl_timer_stop |>).
  assert (Hb1 : slave_base cfg s1) by (split; apply Hinv).
  eapply wp_mono; [apply (fires_timeout cfg); [exact Hb1|exact Hst]|].
  intros b s' o (-> & Hq & Ho & _). split; [reflexivity|].
  apply good_silent; [|exact Ho]. apply (waiting_inv cfg s1 s' Hb1 Hq).
Qed.

Lemma disable_timer_good now s : slave_inv cfg s ->
  wp (when (cl_timer_is_expired (timer_for_disabling_slave s) now)
        (modify (fun cls => cls <| timer_for_disabling_slave ::= cl_timer_stop |>);;
         cls_iefb_fsm_event now None CLS_SLAVE_EVENT_DISABLE_SLAVE_WAIT_ENDED))
    (fun _ s' o => good s' o) s.
Proof.
  intros Hinv. apply wp_when; intros Hexp; [|apply good_silent; [exact Hinv|reflexivity]].
  destruct (disable_timer_waiting s now Hinv Hexp) as [Hst Hnot].
  apply wp_bind, wp_modify. cbn [app]. apply fires_then_good; [discriminate|].
  set (s1 := s <| timer_for_disabling_slave ::= cl_timer_stop |>).
  assert (Hb1 : slave_base cfg s1) by (split; apply Hinv).
  eapply wp_mono; [apply (fires_wait_ended cfg); [exact Hb1|exact Hst]|].
  intros b s' o (-> & Ho & Hq). split; [reflexivity|].
  apply good_silent; [|exact Ho]. exact (disabled_inv s1 s' Hb1 Hnot Hq).
Qed.

Lemma periodic_good received now s : slave_inv cfg s -> received_ok received ->
  wp (cls_iefb_periodic received now) (fun _ s' o => good s' o) s.
Proof.
  intros Hinv Hrx. unfold cls_iefb_periodic. apply then_good.
  eapply wp_mono with (Q := fun _ s' o => good s' o).
  { destruct received as [dg|]; [|apply ret_good; exact Hinv]. destruct Hrx as [Hd Hl Hlip].
    destruct (receive_inv s (dg_bytes dg) Hinv Hd Hl) as (Hinv1 & Hb1 & Hl1).
    apply wp_bind, wp_modify. cbn [app]. wp_steps. cbn [app].
    apply wp_when; intros _; [|apply good_silent; [exact Hinv1|reflexivity]].
    apply good_then_ret, input_good; assumption. }
  intros a s1 o1 [Hinv1 Ho1]. split; [exact Ho1|]. apply wp_bind, wp_get. cbn [app].
  apply then_good. eapply wp_mono; [apply receive_timer_good; exact Hinv1|].
  intros a2 s2 o2 [Hinv2 Ho2]. split; [exact Ho2|]. apply wp_bind, wp_get. cbn [app].
  apply then_good. eapply wp_mono; [apply disable_timer_good; exact Hinv2|].
  intros a3 s3 o3 [Hinv3 Ho3]. split; [exact Ho3|]. wp_steps.
  apply good_silent; [|reflexivity]. apply (quiet_inv s3); [exact Hinv3|]. repeat split.
Qed.

End SlaveSafety.
