(* ===== verification/SlaveSlmp.v ===== *)
(** * SLMP in the slave, and the slave's API
    (src/src/slave/cls_slmp.c, src/src/common/cl_eth.c,
     src/src/slave/cls_slave.c, src/src/slave/cls_api.c)

    Node search requests are answered after a delay, requests to change the
    IP address at once.  The API functions read the clock and call the two
    communication parts; here the time is an argument. *)

From S2P Require Import Prelude Packed Signals Timer Limiter Util Types Iefb Slmp Slave SlaveIefb.

(** Address info about an incoming request. *)
Record cls_addr_info := ClsAddrInfo {
  remote_ip : Z;
  remote_port : Z;
  local_ip : Z;
  local_netmask : Z;
  local_mac_address : list Z;
  ifindex : Z
}.

Section SlaveSlmp.
Context `{ClsOptions, Clal, ClalNet, Host}.

Definition cl_eth_set_network_settings (ifindex ip netmask : Z) : cls_prog Z :=
  emit (SetNetworkSettings ifindex ip netmask);;
  mret (clal_set_ip_address_netmask ifindex ip netmask).

Definition cls_slmp_schedule_node_search_response (now : Z) (master_mac_addr : list Z)
  (addr_info : cls_addr_info) (serial : Z) : cls_prog bool :=
  let delay := cl_slmp_calculate_node_search_delay (local_mac_address addr_info) in
  modify (fun cls => cls <| node_search ::= (fun n => n
    <| master_ip_addr := remote_ip addr_info |>
    <| master_port := remote_port addr_info |>
    <| request_serial := serial |>
    <| master_mac_address := cl_util_copy_mac master_mac_addr |>
    <| slave_ip_address := local_ip addr_info |>
    <| slave_netmask := local_netmask addr_info |>
    <| slave_mac_address := cl_util_copy_mac (local_mac_address addr_info) |>
    <| response_timer ::= (fun t => cl_timer_start t delay now) |>) |>);;
  mret true.

(** Sends the first bytes of [slmp_sendbuf] through a socket of its own. *)
Definition cls_slmp_send_response (local_ip remote_ip remote_port response_len : Z)
  : cls_prog bool :=
  cls ← get;
  zoom slmp_send_socket (fun socket cls => cls <| slmp_send_socket := socket |>) SlmpUdp
    (cl_slmp_udp_send true (slmp_sendbuf cls) CL_BUFFER_LEN local_ip remote_ip remote_port
       response_len).

Definition cls_slmp_handle_node_search_request (now : Z) (inputbuffer : list Z) (recv_len : Z)
  (addr_info : cls_addr_info) : cls_prog bool :=
  match cl_slmp_parse_node_search_request inputbuffer recv_len with
  | None => mret false
  | Some request =>
      if negb (cl_slmp_validate_node_search_request request) then mret false else
      let master_ip_addr := nsq_master_ip_addr request in
      let request_serial := lqh_serial (nsq_header request) in
      let master_mac_addr := cl_util_copy_mac_reverse (nsq_master_mac_addr request) in
      if negb (master_ip_addr =? remote_ip addr_info) then mret false else
      cls ← get;
      when (node_search_cb (config cls)) (emit (NodeSearchCb master_mac_addr master_ip_addr));;
      cls_slmp_schedule_node_search_response now master_mac_addr addr_info request_serial
  end.

Definition cls_slmp_send_node_search_response : cls_prog bool :=
  cls ← get;
  let n := node_search cls in
  if master_ip_addr n =? CL_IPADDR_INVALID then mret false else
  frame ← lift_outcome
    (cl_slmp_prepare_node_search_response_frame (slmp_sendbuf cls) CL_BUFFER_LEN
       (master_mac_address n) (master_ip_addr n) (slave_mac_address n) (slave_ip_address n)
       (slave_netmask n) CL_SLMP_NODE_SEARCH_RESP_SERVER_STATUS_NORMAL
       (vendor_code (config cls)) (model_code (config cls)) (equipment_ver (config cls))
       (request_serial n));
  modify (fun cls => cls <| slmp_sendbuf := frame |>);;
  let broadcast_address :=
    if use_slmp_directed_broadcast (config cls)
    then cl_util_calc_broadcast_address (slave_netmask n) (slave_ip_address n)
    else CL_IPADDR_LOCAL_BROADCAST in
  cls_slmp_send_response (slave_ip_address n) broadcast_address (master_port n)
    (sizeof c_cl_slmp_node_search_resp).

Definition cls_slmp_handle_ipaddress_set_request (now : Z) (inputbuffer : list Z)
  (recv_len : Z) (addr_info : cls_addr_info) : cls_prog bool :=
  match cl_slmp_parse_set_ip_request inputbuffer recv_len with
  | None => mret false
  | Some request =>
      if negb (cl_slmp_validate_set_ip_request request) then mret false else
      let master_mac_addr := cl_util_copy_mac_reverse (siq_master_mac_addr request) in
      let destination_mac_addr := cl_util_copy_mac_reverse (siq_slave_mac_addr request) in
      let master_ip_addr := siq_master_ip_addr request in
      let new_ip_address := siq_slave_new_ip_addr request in
      let new_netmask := siq_slave_new_netmask request in
      let request_serial := lqh_serial (siq_header request) in
      if negb (bool_decide (destination_mac_addr = local_mac_address addr_info)) then mret true
      else if negb (master_ip_addr =? remote_ip addr_info) then mret false else
      cls ← get;
      successful ←
        (if ip_setting_allowed (config cls) then
           result ← cl_eth_set_network_settings (ifindex addr_info) new_ip_address new_netmask;
           mret (result =? 0)
         else mret false);
      let resulting_ip_address :=
        if successful : bool then new_ip_address else local_ip addr_info in
      let response_len :=
        if successful : bool then sizeof c_cl_slmp_set_ipaddr_resp
        else sizeof c_cl_slmp_error_resp in
      frame ← lift_outcome
        (if successful : bool
         then cl_slmp_prepare_set_ip_response_frame (slmp_sendbuf cls) CL_BUFFER_LEN
                master_mac_addr request_serial
         else cl_slmp_prepare_error_response_frame (slmp_sendbuf cls) CL_BUFFER_LEN
                CL_SLMP_COMMAND_NODE_IPADDRESS_SET CL_SLMP_SUBCOMMAND_NODE_IPADDRESS_SET
                CL_SLMP_ENDCODE_COMMAND_REQUEST_MSG request_serial);
      modify (fun cls => cls <| slmp_sendbuf := frame |>);;
      let broadcast_address :=
        if use_slmp_directed_broadcast (config cls)
        then cl_util_calc_broadcast_address new_netmask new_ip_address
        else CL_IPADDR_LOCAL_BROADCAST in
      send_result ← cls_slmp_send_response resulting_ip_address broadcast_address
                      (remote_port addr_info) response_len;
      when (set_ip_cb (config cls))
        (emit (SetIpCb master_mac_addr master_ip_addr new_ip_address new_netmask
                 (ip_setting_allowed (config cls))
                 (ip_setting_allowed (config cls) && successful)));;
      mret send_result
  end.

Definition cls_slmp_handle_input_frame (now : Z) (buffer : list Z) (recv_len : Z)
  (addr_info : cls_addr_info) : cls_prog bool :=
  match cl_slmp_parse_request_header buffer recv_len with
  | None => mret false
  | Some header =>
      if negb (cl_slmp_is_header_request header) then mret false
      else if negb (cl_slmp_validate_request_header header recv_len) then mret false
      else if lqh_command header =? CL_SLMP_COMMAND_NODE_SEARCH then
        if lqh_sub_command header =? CL_SLMP_SUBCOMMAND_NODE_SEARCH
        then cls_slmp_handle_node_search_request now buffer recv_len addr_info
        else mret false
      else if lqh_command header =? CL_SLMP_COMMAND_NODE_IPADDRESS_SET then
        if lqh_sub_command header =? CL_SLMP_SUBCOMMAND_NODE_IPADDRESS_SET
        then cls_slmp_handle_ipaddress_set_request now buffer recv_len addr_info
        else mret false
      else mret false
  end.

Definition cls_slmp_periodic (received : option datagram) (now : Z) : cls_prog unit :=
  cls ← get;
  when (cl_timer_is_expired (response_timer (node_search cls)) now)
    (modify (fun cls => cls <| node_search ::= (fun n => n
       <| response_timer ::= cl_timer_stop |>) |>);;
     cls_slmp_send_node_search_response;; mret tt);;
  match received with
  | None => mret tt
  | Some dg =>
      modify (fun cls => cls <| slmp_receivebuf ::= splice 0 (dg_bytes dg) |>);;
      cls ← get;
      let recv_len := Z.of_nat (length (dg_bytes dg)) in
      if 0 <? recv_len then
        match clal_get_mac_address (dg_ifindex dg), clal_get_netmask (dg_ifindex dg) with
        | Some mac, Some netmask =>
            cls_slmp_handle_input_frame now (slmp_receivebuf cls) recv_len
              (ClsAddrInfo (dg_remote_ip dg) (dg_remote_port dg) (dg_local_ip dg) netmask mac
                 (dg_ifindex dg));; mret tt
        | _, _ => mret tt
        end
      else mret tt
  end.

Definition cls_slmp_init : cls_prog bool :=
  modify (fun cls => cls <| node_search := cls_node_search_zero
                                             <| response_timer ::= cl_timer_stop |> |>);;
  let socket := clal_udp_open CL_IPADDR_ANY CL_SLMP_PORT in
  emit (SlmpUdp (UdpOpen CL_IPADDR_ANY CL_SLMP_PORT));;
  modify (fun cls => cls <| slmp_receive_socket := socket |>);;
  if socket =? -1 then mret false else
  modify (fun cls => cls <| slmp_send_socket := -1 |>);;
  mret true.

Definition cls_slmp_exit : cls_prog unit :=
  cls ← get;
  emit (SlmpUdp (UdpClose (slmp_receive_socket cls)));;
  modify (fun cls => cls <| slmp_receive_socket := -1 |>).

(** ** Instance life cycle and API *)

Definition cls_slave_init (cfg : option cls_cfg) (now : Z) : cls_prog bool :=
  modify (fun _ => cls_zero);;
  if negb (clal_init =? 0) then mret false else
  match cfg with
  | None => mret false
  | Some c =>
      if negb (cls_validate_config cfg) then mret false else
      modify (fun cls => cls <| config := c |>);;
      ok ← cls_iefb_init now;
      if negb ok then mret false else
      cls_slmp_init
  end.

Definition cls_slave_exit : cls_prog bool :=
  cls_slmp_exit;;
  cls_iefb_exit;;
  mret (clal_exit =? 0).

(** The periodic function of the API, with what the two sockets have received
    since the last call. *)
Definition cls_periodic (slmp_received cciefb_received : option datagram) (now : Z)
  : cls_prog unit :=
  cls_slmp_periodic slmp_received now;;
  cls_iefb_periodic cciefb_received now.

End SlaveSlmp.
