(* ===== verification/SlaveReach.v ===== *)
(** * Reachable states of the slave

    The life of a slave instance as a transition system: started by
    [cls_slave_init], then any sequence of API calls with any datagrams from
    the network at any times.  Every reachable instance satisfies the
    invariant, and no call stops at an assertion. *)

From S2P Require Import Prelude Packed Signals Timer Limiter Util Types Iefb IefbFacts IefbRoundtrip.
From S2P Require Import Slmp SlmpFacts Slave SlaveIefb SlaveInv SlaveActions SlaveFsm SlaveSafety.
From S2P Require Import SlaveSlmp.

Section SlaveReach.
Context `{ClsOptions, Clal, ClalNet, Host}.

(** ** The transition system *)

(** The application stores bytes behind the pointer to the RX or RWr area. *)
Definition store_rx_area (off : Z) (data : list Z) : cls_prog unit :=
  modify (fun cls => cls <| cciefb_resp_frame_normal ::= (fun f =>
    f <| ri_buffer ::= splice (Z.to_nat (ri_first_rx f + off)) data |>) |>).
Definition store_rwr_area (off : Z) (data : list Z) : cls_prog unit :=
  modify (fun cls => cls <| cciefb_resp_frame_normal ::= (fun f =>
    f <| ri_buffer ::= splice (Z.to_nat (ri_first_rwr f + off)) data |>) |>).

Inductive slave_call :=
| HandlePeriodic (slmp_received cciefb_received : option datagram)
| StopCyclicData (is_error : bool)
| RestartCyclicData
| SetRxBit (number : Z) (value : bool)
| SetRwrValue (number value : Z)
| SetApplicationStatus (status : Z)
| SetErrorCode (code : Z)
| SetLocalManagementInfo (info : Z)
| StoreRxArea (off : Z) (data : list Z)
| StoreRwrArea (off : Z) (data : list Z).

Definition run_call (c : slave_call) (now : Z) : cls_prog unit :=
  match c with
  | HandlePeriodic slmp_received cciefb_received =>
      cls_periodic slmp_received cciefb_received now
  | StopCyclicData is_error => cls_iefb_disable_slave now is_error
  | RestartCyclicData => cls_iefb_reenable_slave now
  | SetRxBit number value => cls_iefb_set_rx_bit number value
  | SetRwrValue number value => cls_iefb_set_rwr_value number value
  | SetApplicationStatus status => cls_iefb_set_slave_application_status status
  | SetErrorCode code => cls_iefb_set_slave_error_code code
  | SetLocalManagementInfo info => cls_iefb_set_local_management_info info
  | StoreRxArea off data => store_rx_area off data
  | StoreRwrArea off data => store_rwr_area off data
  end.

(** What the types of the arguments and the documentation of the API demand
    of the caller: signals exist in the configured stations, and the
    application stores inside the areas whose pointers it may write through. *)
Definition call_ok (cfg : cls_cfg) (c : slave_call) : Prop :=
  match c with
  | HandlePeriodic _ cciefb_received => received_ok cciefb_received
  | StopCyclicData _ | RestartCyclicData => True
  | SetRxBit number _ => 0 <= number < 64 * num_occupied_stations cfg
  | SetRwrValue number value => 0 <= number < 32 * num_occupied_stations cfg /\ is_u16 value
  | SetApplicationStatus status =>
      status = CL_SLAVE_APPL_OPERATION_STATUS_STOPPED \/
      status = CL_SLAVE_APPL_OPERATION_STATUS_OPERATING
  | SetErrorCode code => is_u16 code
  | SetLocalManagementInfo info => is_u32 info
  | StoreRxArea off data => bytes data /\ 0 <= off /\
      off + Z.of_nat (length data) <= 8 * num_occupied_stations cfg
  | StoreRwrArea off data => bytes data /\ 0 <= off /\
      off + Z.of_nat (length data) <= 64 * num_occupied_stations cfg
  end.

Inductive slave_reachable (cfg : cls_cfg) : cls -> Prop :=
| reach_init now s0 s o :
    cls_slave_init (Some cfg) now s0 = Done (true, s, o) -> slave_reachable cfg s
| reach_call c now s s' o :
    slave_reachable cfg s -> call_ok cfg c -> run_call c now s = Done (tt, s', o) ->
    slave_reachable cfg s'.

(** ** SLMP leaves the cyclic communication alone *)

Lemma slmp_events_silent o : sent_frames (map SlmpUdp o) = [].
Proof. induction o; [reflexivity|assumption]. Qed.

(** Operations that touch SLMP data only. *)
Definition slmp_only {A} (m : cls_prog A) : Prop := forall s, wp m (silent_quiet s) s.

Lemma slmp_bind {A B} (m : cls_prog A) (k : A -> cls_prog B) :
  slmp_only m -> (forall a, slmp_only (k a)) -> slmp_only (m ≫= k).
Proof.
  intros Hm Hk s. apply wp_bind. eapply wp_mono; [apply Hm|]. intros a s1 o1 [Hq1 Ho1].
  eapply wp_mono; [apply Hk|]. intros b s2 o2 [Hq2 Ho2].
  split; [exact (quiet_trans _ _ _ Hq1 Hq2)|]. rewrite sent_frames_app, Ho1. exact Ho2.
Qed.

Lemma slmp_get {B} (k : cls -> cls_prog B) : (forall s, slmp_only (k s)) -> slmp_only (get ≫= k).
Proof. intros Hk s. apply wp_bind, wp_get. exact (Hk s s). Qed.

Lemma slmp_ret {A} (a : A) : slmp_only (mret a : cls_prog A).
Proof. intros s. apply wp_ret. split; [apply quiet_refl | reflexivity]. Qed.

Lemma slmp_when b (m : cls_prog unit) : slmp_only m -> slmp_only (when b m).
Proof. intros Hm. destruct b; [exact Hm | apply slmp_ret]. Qed.

Lemma slmp_if {A} (b : bool) (m1 m2 : cls_prog A) :
  slmp_only m1 -> slmp_only m2 -> slmp_only (if b then m1 else m2).
Proof. destruct b; auto. Qed.

Lemma slmp_send_only lip rip rport len : slmp_only (cls_slmp_send_response lip rip rport len).
Proof.
  intros s. apply wp_bind, wp_get, wp_zoom. eapply wp_mono; [apply udp_send_runs|].
  intros a socket o _. split; [repeat split | apply slmp_events_silent].
Qed.

(** Unfolds a sequence of SLMP operations; frames are prepared without an
    assertion failing. *)
Ltac slmp_step :=
  lazymatch goal with
  | |- context [lift_outcome (prepare_frame ?c ?b CL_BUFFER_LEN ?v)] =>
      destruct (prepare_frame_done c b v) as [? ->]; [vm_compute; lia|]
  | |- slmp_only (get ≫= _) => apply slmp_get; intros ?
  | |- slmp_only (_ ≫= _) => apply slmp_bind; [|intros ?]
  | |- slmp_only (mret _) => apply slmp_ret
  | |- slmp_only (when _ _) => apply slmp_when
  | |- slmp_only (if _ then _ else _) => apply slmp_if
  | |- slmp_only (match ?x with _ => _ end) => destruct x
  | |- slmp_only (cls_slmp_send_response _ _ _ _) => apply slmp_send_only
  | |- slmp_only _ => intros ?; split; [repeat split | reflexivity]
  end.

Lemma slmp_search_response_only : slmp_only cls_slmp_send_node_search_response.
Proof.
  unfold cls_slmp_send_node_search_response, cl_slmp_prepare_node_search_response_frame.
  repeat slmp_step.
Qed.

Lemma slmp_search_request_only now buffer len ai :
  slmp_only (cls_slmp_handle_node_search_request now buffer len ai).
Proof.
  unfold cls_slmp_handle_node_search_request, cls_slmp_schedule_node_search_response.
  repeat slmp_step.
Qed.

Lemma slmp_set_request_only now buffer len ai :
  slmp_only (cls_slmp_handle_ipaddress_set_request now buffer len ai).
Proof.
  unfold cls_slmp_handle_ipaddress_set_request, cl_eth_set_network_settings,
    cl_slmp_prepare_set_ip_response_frame, cl_slmp_prepare_error_response_frame.
  destruct (cl_slmp_parse_set_ip_request buffer len); [|apply slmp_ret].
  do 3 (apply slmp_if; [apply slmp_ret|]). apply slmp_get. intros s.
  apply slmp_bind; [repeat slmp_step|]. intros []; repeat slmp_step.
Qed.

Lemma slmp_periodic_only received now : slmp_only (cls_slmp_periodic received now).
Proof.
  unfold cls_slmp_periodic. apply slmp_get. intros s. apply slmp_bind.
  - apply slmp_when. apply slmp_bind; [slmp_step|]. intros _.
    apply slmp_bind; [apply slmp_search_response_only|]. intros _. apply slmp_ret.
  - intros _. destruct received; [|apply slmp_ret]. apply slmp_bind; [slmp_step|]. intros _.
    apply slmp_get. intros s1. apply slmp_if; [|apply slmp_ret].
    destruct (clal_get_mac_address _); [|apply slmp_ret].
    destruct (clal_get_netmask _); [|apply slmp_ret].
    apply slmp_bind; [|intros _; apply slmp_ret]. unfold cls_slmp_handle_input_frame.
    destruct (cl_slmp_parse_request_header _ _); [|apply slmp_ret].
    repeat (apply slmp_if); auto using slmp_ret, slmp_search_request_only, slmp_set_request_only.
Qed.

(** ** Initialisation *)

(** The types of the configuration's fields. *)
Definition config_typed (cfg : cls_cfg) : Prop :=
  is_u16 (vendor_code cfg) /\ is_u32 (model_code cfg) /\ is_u16 (equipment_ver cfg).

Lemma slmp_init_only : slmp_only cls_slmp_init.
Proof. unfold cls_slmp_init. repeat slmp_step. Qed.

Lemma init_started cfg now s0 : config_typed cfg ->
  wp (cls_slave_init (Some cfg) now) (fun ok s o => ok = true ->
    config_ok cfg /\ started cfg s /\ sent_frames o = []) s0.
Proof.
  intros (Hv & Hm & He). unfold cls_slave_init. wp_steps.
  apply wp_if; intros _; [apply wp_ret; discriminate|].
  apply wp_if; intros Hval; [apply wp_ret; discriminate|]. apply negb_false_iff in Hval.
  assert (Hcfg : config_ok cfg) by (split; assumption).
  wp_steps. unfold cls_iefb_init. wp_steps.
  apply wp_if; intros _; [wp_steps; cbn [negb]; wp_steps; discriminate|].
  apply wp_bind. eapply wp_mono; [apply (startup_spec cfg Hcfg)|].
  { split; cbn.
    - reflexivity.
    - apply length_zeros.
    - apply length_zeros.
    - split; [apply length_zeros | apply bytes_zeros]. }
  intros a s1 o1 [[Hinv Hst] Ho1]. wp_steps. cbn [negb]. wp_steps.
  eapply wp_mono; [apply slmp_init_only|]. intros ok s2 o2 [Hq Ho2] _. split; [exact Hcfg|].
  split; [split; [exact (quiet_inv cfg _ _ Hinv Hq) | rewrite (quiet_state _ _ Hq); exact Hst]|].
  rewrite !sent_frames_app, Ho1, Ho2. reflexivity.
Qed.

(** ** Every call is good *)

Lemma good_trans cfg s o o' : outputs_ok cfg o -> good cfg s o' -> good cfg s (o ++ o').
Proof. apply good_app. Qed.

(** Writing to the cyclic data of the response frame. *)
Lemma write_data_inv cfg s off d : config_ok cfg -> slave_inv cfg s -> bytes d ->
  (59 <= off)%nat -> (off + length d <= 1500)%nat ->
  slave_inv cfg (s <| cciefb_resp_frame_normal ::= (fun f =>
                        f <| ri_buffer ::= splice off d |>) |>).
Proof.
  intros Hcfg [Hb Hc] Hd Hoff Hend. split; [|exact Hc]. split; try apply Hb.
  destruct (sb_normal _ _ Hb) as (Hlen & Hrwr & Hrx & sl & ec & g & seq & info & err & manag & Hs).
  repeat split; try assumption. exists sl, ec, g, seq, info, err, manag.
  apply (splice_frame_shape _ _ _ _ off d Hs Hd Hoff Hend).
Qed.

Lemma set_rx_bit_good cfg number value s : config_ok cfg -> slave_inv cfg s ->
  0 <= number < 64 * num_occupied_stations cfg ->
  wp (cls_iefb_set_rx_bit number value) (fun _ s' o => good cfg s' o) s.
Proof.
  intros Hcfg Hinv Hn. pose proof (config_stations cfg Hcfg). pose proof CLS_MAX_ok.
  unfold cls_iefb_set_rx_bit. wp_steps. rewrite bit_areanumber_parts by lia. wp_steps.
  rewrite (sb_config _ _ (proj1 Hinv)). apply wp_assert.
  { apply Z.ltb_lt. apply Z.div_lt_upper_bound; lia. }
  wp_steps. split; [|constructor].
  destruct (sb_normal _ _ (proj1 Hinv)) as (_ & _ & Hrx & _).
  unfold cl_iefb_get_rx_area. rewrite Hrx. unfold sizeof_rx, set_byte.
  apply write_data_inv; [assumption..| | |].
  - constructor; [|constructor]. destruct value; apply u8_range.
  - assert (0 <= number / 64) by (apply Z.div_pos; lia).
    assert (0 <= number / 8 mod 8) by (apply Z.mod_pos_bound; lia). lia.
  - assert (number / 64 < num_occupied_stations cfg) by (apply Z.div_lt_upper_bound; lia).
    assert (0 <= number / 8 mod 8 < 8) by (apply Z.mod_pos_bound; lia). cbn [length]. lia.
Qed.

Lemma set_rwr_value_good cfg number value s : config_ok cfg -> slave_inv cfg s ->
  0 <= number < 32 * num_occupied_stations cfg -> is_u16 value ->
  wp (cls_iefb_set_rwr_value number value) (fun _ s' o => good cfg s' o) s.
Proof.
  intros Hcfg Hinv Hn Hv. pose proof (config_stations cfg Hcfg). pose proof CLS_MAX_ok.
  unfold cls_iefb_set_rwr_value. wp_steps. rewrite register_areanumber_parts. wp_steps.
  rewrite (sb_config _ _ (proj1 Hinv)). apply wp_assert.
  { apply Z.ltb_lt. apply Z.div_lt_upper_bound; lia. }
  wp_steps. split; [|constructor].
  destruct (sb_normal _ _ (proj1 Hinv)) as (_ & Hrwr & _).
  unfold cl_iefb_get_rwr_area. rewrite Hrwr. unfold sizeof_rwr.
  apply write_data_inv; [assumption..| apply bytes_le_split | |].
  - assert (0 <= number / 32) by (apply Z.div_pos; lia).
    assert (0 <= number mod 32) by (apply Z.mod_pos_bound; lia). lia.
  - assert (number / 32 < num_occupied_stations cfg) by (apply Z.div_lt_upper_bound; lia).
    assert (0 <= number mod 32 < 32) by (apply Z.mod_pos_bound; lia).
    cbn [c_u16le c_enc]. rewrite length_le_split. lia.
Qed.

Lemma store_rx_good cfg off d s : config_ok cfg -> slave_inv cfg s ->
  bytes d -> 0 <= off -> off + Z.of_nat (length d) <= 8 * num_occupied_stations cfg ->
  wp (store_rx_area off d) (fun _ s' o => good cfg s' o) s.
Proof.
  intros Hcfg Hinv Hd Ho Hfit. apply wp_modify. split; [|constructor].
  destruct (sb_normal _ _ (proj1 Hinv)) as (_ & _ & Hrx & _).
  pose proof (config_stations _ Hcfg). pose proof CLS_MAX_ok.
  change (slave_inv cfg (s <| cciefb_resp_frame_normal ::= (fun f => f <| ri_buffer ::=
    splice (Z.to_nat (ri_first_rx (cciefb_resp_frame_normal s) + off)) d |>) |>)).
  rewrite Hrx. apply write_data_inv; try assumption; lia.
Qed.

Lemma store_rwr_good cfg off d s : config_ok cfg -> slave_inv cfg s ->
  bytes d -> 0 <= off -> off + Z.of_nat (length d) <= 64 * num_occupied_stations cfg ->
  wp (store_rwr_area off d) (fun _ s' o => good cfg s' o) s.
Proof.
  intros Hcfg Hinv Hd Ho Hfit. apply wp_modify. split; [|constructor].
  destruct (sb_normal _ _ (proj1 Hinv)) as (_ & Hrwr & _).
  pose proof (config_stations _ Hcfg). pose proof CLS_MAX_ok.
  change (slave_inv cfg (s <| cciefb_resp_frame_normal ::= (fun f => f <| ri_buffer ::=
    splice (Z.to_nat (ri_first_rwr (cciefb_resp_frame_normal s) + off)) d |>) |>)).
  rewrite Hrwr. apply write_data_inv; try assumption; lia.
Qed.

Lemma stop_good cfg now is_error s : slave_inv cfg s ->
  wp (cls_iefb_disable_slave now is_error) (fun _ s' o => good cfg s' o) s.
Proof.
  intros [Hb Hc]. unfold cls_iefb_disable_slave. wp_steps. cbn [app].
  set (s1 := s <| endcode_slave_disabled := _ |>).
  assert (Hb1 : slave_base cfg s1).
  { split; try apply Hb. cbn. destruct is_error; auto. }
  apply fires_then_good; [discriminate|]. eapply wp_mono; [apply (fires_disable cfg); [exact Hb1|]|].
  { change (state s1) with (state s). unfold slave_control in Hc. intros Hx. rewrite Hx in Hc.
    contradiction. }
  intros b s' o (-> & Ho & Hcase). split; [reflexivity|]. apply good_silent; [|exact Ho].
  change (state s1) with (state s) in Hcase.
  assert (Hc1 : slave_control cfg s1) by exact Hc.
  unfold slave_control in Hc. destruct (state s) eqn:Hst; try contradiction.
  - exact (disabled_inv cfg s1 s' Hb1 (proj1 Hc) Hcase).
  - exact (disabling_inv cfg s1 s' now Hb1 Hcase).
  - subst s'. split; assumption.
  - subst s'. split; assumption.
Qed.

Lemma restart_good cfg now s : slave_inv cfg s ->
  wp (cls_iefb_reenable_slave now) (fun _ s' o => good cfg s' o) s.
Proof.
  intros [Hb Hc]. apply fires_then_good; [discriminate|].
  eapply wp_mono; [apply (fires_reenable cfg); [exact Hb|]|].
  { unfold slave_control in Hc. intros Hx. rewrite Hx in Hc. contradiction. }
  intros b s' o (-> & Ho & Hcase). split; [reflexivity|]. apply good_silent; [|exact Ho].
  destruct (state s) eqn:Hst; try (subst s'; split; assumption);
    exact (proj1 (waiting_inv cfg s s' Hb Hcase)).
Qed.

Lemma call_good cfg c now s : config_ok cfg -> slave_inv cfg s -> call_ok cfg c ->
  wp (run_call c now) (fun _ s' o => good cfg s' o) s.
Proof.
  intros Hcfg Hinv Hc. destruct c as [rx1 rx2|is_error| |n v|n v|st|code|info|off d|off d];
    cbn [run_call].
  - apply quiet_then_good; [exact Hinv | apply slmp_periodic_only|]. intros _ s1 Hinv1 _.
    apply periodic_good; assumption.
  - apply stop_good. exact Hinv.
  - apply restart_good. exact Hinv.
  - apply set_rx_bit_good; assumption.
  - destruct Hc. apply set_rwr_value_good; assumption.
  - apply wp_modify. apply good_silent; [|reflexivity]. destruct Hinv as [Hb Hctl].
    split; [|exact Hctl]. split; try apply Hb. cbn. destruct Hc as [-> | ->];
      unfold CL_SLAVE_APPL_OPERATION_STATUS_STOPPED, CL_SLAVE_APPL_OPERATION_STATUS_OPERATING; lia.
  - apply wp_modify. apply good_silent; [|reflexivity]. destruct Hinv as [Hb Hctl].
    split; [|exact Hctl]. split; try apply Hb. exact Hc.
  - apply wp_modify. apply good_silent; [|reflexivity]. destruct Hinv as [Hb Hctl].
    split; [|exact Hctl]. split; try apply Hb. exact Hc.
  - destruct Hc as (Hd & Ho & Hfit). apply store_rx_good; assumption.
  - destruct Hc as (Hd & Ho & Hfit). apply store_rwr_good; assumption.
Qed.

Lemma slave_reachable_inv cfg s : config_typed cfg -> slave_reachable cfg s ->
  config_ok cfg /\ slave_inv cfg s.
Proof.
  intros Hty. induction 1 as [now s0 s o Hinit | c now s s' o Hreach [Hcfg IH] Hok Hrun].
  - pose proof (init_started cfg now s0 Hty) as Hw. unfold wp in Hw. rewrite Hinit in Hw.
    destruct (Hw eq_refl) as (Hcfg & Hst & _). split; [exact Hcfg | apply Hst].
  - pose proof (call_good cfg c now s Hcfg IH Hok) as Hw. unfold wp in Hw. rewrite Hrun in Hw.
    split; [exact Hcfg | apply Hw].
Qed.

End SlaveReach.
