(* ===== verification/SlaveSignals.v ===== *)
(** * The signals of the slave

    The bits and registers that the application exchanges with the master:
    RX and RWr in the response frame, RY and RWw in the cyclic data area. *)

From S2P Require Import Prelude Packed Signals Timer Limiter Util Types Iefb IefbFacts IefbRoundtrip.
From S2P Require Import Slmp Slave SlaveIefb SlaveInv SlaveActions SlaveFsm SlaveSafety.
From S2P Require Import SlaveSlmp SlaveReach.

Section SlaveSignals.
Context `{ClsOptions, Clal, ClalNet, Host}.
Context (cfg : cls_cfg) (cfg_ok : config_ok cfg).

Definition rx_in (f : cls_cciefb_cyclic_response_info) (n : Z) : bool :=
  bit_in (drop (Z.to_nat (ri_first_rx f)) (ri_buffer f)) n.
Definition rwr_in (f : cls_cciefb_cyclic_response_info) (n : Z) : Z :=
  register_in (drop (Z.to_nat (ri_first_rwr f)) (ri_buffer f)) n.

Definition rx_number (n : Z) : Prop := 0 <= n < 64 * num_occupied_stations cfg.
Definition register_number (n : Z) : Prop := 0 <= n < 32 * num_occupied_stations cfg.

Lemma rx_number_area n : rx_number n -> 0 <= n /\ (n / 64 <? num_occupied_stations cfg) = true.
Proof. unfold rx_number. intros. split; [lia|]. apply Z.ltb_lt, Z.div_lt_upper_bound; lia. Qed.
Lemma register_number_area n : register_number n ->
  0 <= n /\ (n / 32 <? num_occupied_stations cfg) = true.
Proof. unfold register_number. intros. split; [lia|]. apply Z.ltb_lt, Z.div_lt_upper_bound; lia. Qed.

Lemma buffer_length s : slave_base cfg s ->
  length (ri_buffer (cciefb_resp_frame_normal s)) = 1500%nat.
Proof.
  intros Hb. destruct (sb_normal _ _ Hb) as (_ & _ & _ & ? & ? & ? & ? & ? & ? & ? & Hs). apply Hs.
Qed.

(** ** Reading *)

Lemma get_rx_value s n : slave_base cfg s -> rx_number n ->
  cls_iefb_get_rx_bit n s = Done (rx_in (cciefb_resp_frame_normal s) n, s, []).
Proof.
  intros Hb Hn. destruct (rx_number_area n Hn) as [Hn0 Harea].
  unfold cls_iefb_get_rx_bit. rewrite bit_areanumber_parts by exact Hn0. run_prog.
  rewrite (sb_config _ _ Hb), Harea. do 2 f_equal. f_equal. unfold cl_iefb_get_rx_area, sizeof_rx.
  destruct (sb_normal _ _ Hb) as (_ & _ & Hrx & _).
  pose proof (config_stations cfg cfg_ok). assert (0 <= n / 8) by (apply Z.div_pos; lia).
  rewrite <- Z.add_assoc, bit_position, land_bit_testbit by (try apply Z.mod_pos_bound; lia).
  unfold rx_in, bit_in. rewrite byte_at_drop by lia. reflexivity.
Qed.

Lemma get_rwr_value s n : slave_base cfg s -> register_number n ->
  cls_iefb_get_rwr_value n s = Done (rwr_in (cciefb_resp_frame_normal s) n, s, []).
Proof.
  intros Hb Hn. destruct (register_number_area n Hn) as [Hn0 Harea].
  unfold cls_iefb_get_rwr_value. rewrite register_areanumber_parts. run_prog.
  rewrite (sb_config _ _ Hb), Harea. do 2 f_equal. f_equal.
  unfold cl_iefb_get_rwr_area, sizeof_rwr.
  destruct (sb_normal _ _ Hb) as (_ & Hrwr & _).
  rewrite <- Z.add_assoc, register_position. apply read_register; lia.
Qed.

Lemma get_ry_value s n : slave_base cfg s -> rx_number n ->
  cls_iefb_get_ry_bit n s = Done (bit_in (ry (cyclic_data_area s)) n, s, []).
Proof.
  intros Hb Hn. destruct (rx_number_area n Hn) as [Hn0 Harea].
  unfold cls_iefb_get_ry_bit. rewrite bit_areanumber_parts by exact Hn0. run_prog.
  rewrite (sb_config _ _ Hb), Harea. unfold sizeof_ry.
  rewrite bit_position, land_bit_testbit by (try apply Z.mod_pos_bound; lia). reflexivity.
Qed.

Lemma get_rww_value s n : slave_base cfg s -> register_number n ->
  cls_iefb_get_rww_value n s = Done (register_in (rww (cyclic_data_area s)) n, s, []).
Proof.
  intros Hb Hn. destruct (register_number_area n Hn) as [Hn0 Harea].
  unfold cls_iefb_get_rww_value. rewrite register_areanumber_parts. run_prog.
  rewrite (sb_config _ _ Hb), Harea. unfold sizeof_rww. rewrite register_position. reflexivity.
Qed.

(** ** Writing *)

Definition with_buffer (s : cls) (g : list Z -> list Z) : cls :=
  s <| cciefb_resp_frame_normal ::= (fun f => f <| ri_buffer ::= g |>) |>.

Lemma set_rx_value s n v : slave_base cfg s -> rx_number n ->
  exists g, cls_iefb_set_rx_bit n v s = Done (tt, with_buffer s g, []) /\
    let f := cciefb_resp_frame_normal s in
    let f' := cciefb_resp_frame_normal (with_buffer s g) in
    (forall m, rx_number m -> rx_in f' m = if m =? n then v else rx_in f m) /\
    (forall m, register_number m -> rwr_in f' m = rwr_in f m).
Proof.
  intros Hb Hn. destruct (rx_number_area n Hn) as [Hn0 Harea].
  unfold cls_iefb_set_rx_bit. rewrite bit_areanumber_parts by exact Hn0. run_prog.
  rewrite (sb_config _ _ Hb), Harea. unfold cl_iefb_get_rx_area, sizeof_rx.
  rewrite <- Z.add_assoc, bit_position by lia. eexists. split; [reflexivity|]. cbv zeta.
  unfold rx_in, rwr_in, with_buffer. cbn [update cciefb_resp_frame_normal ri_buffer ri_first_rx ri_first_rwr].
  destruct (sb_normal _ _ Hb) as (_ & Hrwr & Hrx & _). pose proof (buffer_length s Hb) as Hlen.
  rewrite Hrwr, Hrx. pose proof (config_stations cfg cfg_ok). pose proof CLS_MAX_ok.
  unfold rx_number, register_number in *. set (b := ri_buffer _) in *. split.
  - intros m Hm. apply (bit_in_put b); try rewrite Hlen; zlia.
  - intros m Hm. unfold register_in. f_equal. rewrite !slice_of_drop.
    apply slice_splice_disjoint; cbn [length]; [rewrite Hlen|]; zlia.
Qed.

Lemma set_rwr_value s n v : slave_base cfg s -> register_number n -> is_u16 v ->
  exists g, cls_iefb_set_rwr_value n v s = Done (tt, with_buffer s g, []) /\
    let f := cciefb_resp_frame_normal s in
    let f' := cciefb_resp_frame_normal (with_buffer s g) in
    (forall m, register_number m -> rwr_in f' m = if m =? n then v else rwr_in f m) /\
    (forall m, rx_number m -> rx_in f' m = rx_in f m).
Proof.
  intros Hb Hn Hv. destruct (register_number_area n Hn) as [Hn0 Harea].
  unfold cls_iefb_set_rwr_value. rewrite register_areanumber_parts. run_prog.
  rewrite (sb_config _ _ Hb), Harea. unfold cl_iefb_get_rwr_area, sizeof_rwr.
  rewrite <- Z.add_assoc, register_position. eexists. split; [reflexivity|]. cbv zeta.
  unfold rx_in, rwr_in, with_buffer. cbn [update cciefb_resp_frame_normal ri_buffer ri_first_rx ri_first_rwr].
  destruct (sb_normal _ _ Hb) as (_ & Hrwr & Hrx & _). pose proof (buffer_length s Hb) as Hlen.
  rewrite Hrwr, Hrx. pose proof (config_stations cfg cfg_ok). pose proof CLS_MAX_ok.
  unfold rx_number, register_number in *. set (b := ri_buffer _) in *. split.
  - intros m Hm. apply (register_in_put b); try rewrite Hlen; try lia; exact Hv.
  - intros m Hm. unfold bit_in. rewrite !byte_at_drop by (try (apply Z.div_pos); lia).
    rewrite byte_at_splice by (cbn [c_u16le c_enc]; rewrite ?length_le_split, Hlen; zlia).
    cbn [c_u16le c_enc]. rewrite length_le_split, decide_False by zlia. reflexivity.
Qed.

(** ** What the master sent *)

(** RY bit [n] and RWw register [n] for the slave with station number [no]. *)
Definition request_ry_bit (r : cls_cciefb_cyclic_request_info) (no n : Z) : bool :=
  bit_in (drop (Z.to_nat (67 + 68 * qdh_slave_total_occupied_station_count (rq_data_header r) +
                          8 * (no - 1))) (rq_buffer r)) n.
Definition request_rww_register (r : cls_cciefb_cyclic_request_info) (no n : Z) : Z :=
  register_in (drop (Z.to_nat (67 + 4 * qdh_slave_total_occupied_station_count (rq_data_header r) +
                               64 * (no - 1))) (rq_buffer r)) n.

Lemma stored_ry s r no (bit : bool) n : slave_base cfg s -> request_ok r -> station_fits cfg r no ->
  rx_number n ->
  bit_in (ry (stored_area cfg (cyclic_data_area s) r no bit)) n = bit && request_ry_bit r no n.
Proof.
  intros Hb Hr Hfit Hn. pose proof (config_stations cfg cfg_ok). unfold rx_number in Hn.
  destruct (sb_ry _ _ Hb) as [Hl _]. unfold sizeof_ry in Hl.
  destruct (request_data_ok cfg cfg_ok r no Hr Hfit) as [[Hlr _] _].
  assert (Hi : 0 <= n / 8 < num_occupied_stations cfg * 8) by zlia.
  unfold bit_in at 1. unfold stored_area. destruct bit; cbn [ry andb].
  - rewrite byte_at_start by lia. unfold request_ry. rewrite byte_at_slice by lia.
    unfold request_ry_bit, bit_in. do 4 f_equal. lia.
  - rewrite byte_at_start by (rewrite length_zeros; lia). rewrite byte_at_zeros by lia. apply Z.bits_0.
Qed.

Lemma stored_rww s r no (bit : bool) n : slave_base cfg s -> request_ok r ->
  station_fits cfg r no -> register_number n ->
  register_in (rww (stored_area cfg (cyclic_data_area s) r no bit)) n =
    if bit then request_rww_register r no n else 0.
Proof.
  intros Hb Hr Hfit Hn. pose proof (config_stations cfg cfg_ok). unfold register_number in Hn.
  destruct (sb_rww _ _ Hb) as [Hl _]. unfold sizeof_rww in Hl.
  destruct (request_data_ok cfg cfg_ok r no Hr Hfit) as [_ [Hlr _]].
  unfold register_in at 1, stored_area. destruct bit; cbn [rww].
  - rewrite <- (slice_slice 0 (length (request_rww cfg r no)) (Z.to_nat (2 * n))) by lia.
    rewrite slice_splice_same by lia.
    unfold request_rww. rewrite slice_slice by lia. unfold request_rww_register, register_in.
    rewrite slice_of_drop. do 3 f_equal. lia.
  - set (z := zeros _). assert (Hz : length z = Z.to_nat (num_occupied_stations cfg * 64))
      by apply length_zeros.
    rewrite <- (slice_slice 0 (length z) (Z.to_nat (2 * n))) by lia.
    rewrite slice_splice_same by lia. unfold z. rewrite slice_zeros by lia. reflexivity.
Qed.

End SlaveSignals.
