(* ===== verification/SlaveProps.v ===== *)
(** * What the slave guarantees

    Properties of every reachable slave instance: safety of all calls, the
    meaning of its states, the treatment of legitimate and illegitimate
    masters, and the disabled slave. *)

From S2P Require Import Prelude Packed Signals Timer Limiter Util Types Iefb IefbFacts IefbRoundtrip.
From S2P Require Import Slmp SlmpFacts Slave SlaveIefb SlaveInv SlaveActions SlaveFsm SlaveSafety.
From S2P Require Import SlaveSlmp SlaveReach.

(** ** A concrete environment for the witnesses *)

Module SampleEnv.
#[export] Instance options : ClsOptions :=
  { CLS_MAX_OCCUPIED_STATIONS := 4; CLS_MAX_ok := ltac:(lia); log_warning_enabled := true }.
End SampleEnv.

Module Sample.
Import SampleHost SampleEnv.

(** A slave with two stations and all callbacks. *)
Definition cfg : cls_cfg :=
  ClsCfg 0x1234 0x56789ABC 1 2 true true true true true true true true 0 false.
Definition slave_ip : Z := 0xC0A80364.
Definition master_ip : Z := 0xC0A80301.

Definition init : cls :=
  match cls_slave_init (Some cfg) 1000 cls_zero with Done (_, s, _) => s | AssertFailed => cls_zero end.

(** A request of a master to two slaves, the second of them ours with two
    stations. *)
Definition request_bytes (from seq transmission : Z) : list Z :=
  c_enc c_cl_cciefb_cyclic_req_full_headers
    (request_headers 1 500 3 from 7 3 1 seq 1600000000000 1 transmission) ++
  le_split 4 0xC0A80363 ++ le_split 4 slave_ip ++ le_split 4 CL_CCIEFB_MULTISTATION_INDICATOR ++
  replicate 192 0x5A ++ replicate 24 0x5A.
Definition dg (from seq transmission : Z) : datagram :=
  Datagram (request_bytes from seq transmission) from 61450 slave_ip 2.

Definition after {A} (m : cls_prog A) (s : cls) : cls :=
  match m s with Done (_, s, _) => s | AssertFailed => s end.

(** Connected by a first request, and after one cycle with data. *)
Definition connected : cls :=
  after (run_call (HandlePeriodic None (Some (dg master_ip 0 0))) 2000) init.
Definition exchanging : cls :=
  after (run_call (HandlePeriodic None (Some (dg master_ip 1 6))) 3000) connected.
Definition disabled : cls :=
  after (run_call (StopCyclicData false) 2000) init.

Lemma slave_cfg_typed : config_typed cfg.
Proof. repeat split; vm_compute; congruence. Qed.

Lemma slave_init_reachable : slave_reachable cfg init.
Proof. eapply (reach_init cfg 1000 cls_zero init). vm_compute. reflexivity. Qed.

Lemma request_bytes_ok from seq transmission : is_u32 from -> is_u16 seq -> is_u16 transmission ->
  bytes (request_bytes from seq transmission).
Proof.
  intros. unfold request_bytes. rewrite !bytes_app. split; [|repeat split].
  - apply codec_bytes. cbn. unfold_widths. repeat split; try lia; try (intros Hx; discriminate Hx).
    apply (bytes_zeros 14).
  - apply bytes_le_split.
  - apply bytes_le_split.
  - apply bytes_le_split.
  - apply Forall_replicate. unfold is_byte. lia.
  - apply Forall_replicate. unfold is_byte. lia.
Qed.

Lemma dg_ok from seq transmission : is_u32 from -> is_u16 seq -> is_u16 transmission ->
  datagram_ok (dg from seq transmission).
Proof.
  intros. split; [apply request_bytes_ok; assumption | | split; [discriminate|reflexivity]].
  cbn [dg dg_bytes]. unfold request_bytes. rewrite !length_app, !length_le_split, !length_replicate.
  rewrite (codec_length (CodecOk := c_cl_cciefb_cyclic_req_full_headers_ok)); [vm_compute; discriminate|].
  cbn. unfold_widths. repeat split; try lia; try (intros Hx; discriminate Hx).
  apply (bytes_zeros 14).
Qed.

Lemma connected_reachable : slave_reachable cfg connected.
Proof.
  eapply (reach_call cfg (HandlePeriodic None (Some (dg master_ip 0 0))) 2000 init connected).
  - exact slave_init_reachable.
  - apply dg_ok; split; first [discriminate|reflexivity].
  - vm_compute. reflexivity.
Qed.

Lemma disabled_reachable : slave_reachable cfg disabled.
Proof.
  eapply (reach_call cfg (StopCyclicData false) 2000 init disabled).
  - exact slave_init_reachable.
  - exact I.
  - vm_compute. reflexivity.
Qed.
End Sample.

Section SlaveProps.
Context `{ClsOptions, Clal, ClalNet, Host}.

(** ** Safety *)

(** A frame the master's parser accepts as a response of [n] stations, when
    it comes from the given address. *)
Definition master_accepts (frame : list Z) (slave_id n : Z) : Prop :=
  let len := Z.of_nat (length frame) in
  (exists hdr, cl_iefb_parse_response_header frame len = Some hdr /\
     cl_iefb_validate_response_header hdr len = true) /\
  forall port now, exists info,
    cl_iefb_parse_cyclic_response frame len slave_id port now = Done (Some info) /\
    si_number_of_occupied info = n.

Lemma sent_frame_accepted cfg frame : config_ok cfg -> sent_frame_ok cfg frame ->
  exists slave_id, master_accepts frame slave_id (num_occupied_stations cfg).
Proof.
  intros Hcfg (sl & ec & g & seq & info & err & manag & data & Hv & _ & Hlen & Hdec & _).
  exists sl. unfold master_accepts. rewrite Hlen.
  pose proof (fun port now => response_accepted frame _ _ _ _ _ _ _ _ _ _ _ port now
    (config_params cfg Hcfg) Hv Hdec) as Hacc.
  split.
  - destruct (Hacc 0 0) as (Hp1 & Hp2 & _). eauto.
  - intros port now. destruct (Hacc port now) as (_ & _ & Hp3). eauto.
Qed.

Lemma sent_frames_elem o socket ip port frame :
  CciefbSendto socket ip port frame ∈ o -> (socket, ip, port, frame) ∈ sent_frames o.
Proof. intros Hin. apply list_elem_of_omap. exists (CciefbSendto socket ip port frame). auto. Qed.

(** C8: No call can bring the slave down.  In every reachable state every
    call of the API with admissible arguments, in particular the periodic
    function with any datagrams whatever from the network, at any time,
    returns: it stops at no assertion and leaves a reachable instance behind.  Every
    cyclic frame it sends is accepted by the master's parser as a response
    of the configured number of stations. *)
Theorem slave_calls_safe cfg c now s : config_typed cfg -> slave_reachable cfg s -> call_ok cfg c ->
  exists s' o, run_call c now s = Done (tt, s', o) /\ slave_reachable cfg s' /\
    forall socket ip port frame, CciefbSendto socket ip port frame ∈ o ->
      exists slave_id, master_accepts frame slave_id (num_occupied_stations cfg).
Proof.
  intros Hty Hreach Hok. destruct (slave_reachable_inv cfg s Hty Hreach) as [Hcfg Hinv].
  pose proof (call_good cfg c now s Hcfg Hinv Hok) as Hw. apply wp_done in Hw.
  destruct Hw as ([] & s' & o & Hrun & Hinv' & Ho). exists s', o.
  split; [exact Hrun|]. split; [exact (reach_call cfg c now s s' o Hreach Hok Hrun)|].
  intros socket ip port frame Hin. apply sent_frames_elem in Hin.
  apply (sent_frame_accepted cfg frame Hcfg).
  unfold outputs_ok in Ho. rewrite Forall_forall in Ho.
  exact (Ho _ (proj1 (list_elem_of_In _ _) Hin)).
Qed.

(** C17: What the states of the slave mean.  A reachable slave has been
    started; it knows a master exactly when it is in [MASTER_CONTROL], and
    then the group number is 1 to 64, its stations lie inside the group and
    the reception of frames is monitored with the timeout the master asked
    for; in all other states the master data is cleared and nothing is
    monitored.  The timer of a disconnecting slave runs exactly in
    [WAIT_DISABLING_SLAVE]. *)
Theorem slave_state_meaning cfg s : config_typed cfg -> slave_reachable cfg s ->
  config s = cfg /\ state s <> CLS_SLAVE_STATE_SLAVE_DOWN /\ state s <> CLS_SLAVE_STATE_LAST /\
  (master_id (master s) <> CL_IPADDR_INVALID <-> state s = CLS_SLAVE_STATE_MASTER_CONTROL) /\
  (cl_timer_is_running (receive_timer s) = true <->
     state s = CLS_SLAVE_STATE_MASTER_CONTROL) /\
  (cl_timer_is_running (timer_for_disabling_slave s) = true <->
     state s = CLS_SLAVE_STATE_WAIT_DISABLING_SLAVE) /\
  (if bool_decide (state s = CLS_SLAVE_STATE_MASTER_CONTROL) then
     let m := master s in
     1 <= group_no m <= 64 /\ 1 <= slave_station_no m /\
     slave_station_no m + num_occupied_stations cfg - 1 <= total_occupied_station_count m <= 16 /\
     t_period (receive_timer s) =
       u32 (cl_calculate_total_timeout_us (timeout_value m) (parallel_off_timeout_count m))
   else master s = cls_master_connection_zero).
Proof.
  intros Hty Hreach. destruct (slave_reachable_inv cfg s Hty Hreach) as [Hcfg [Hb Hc]].
  split; [apply Hb|]. unfold slave_control, connected, not_connected in Hc.
  unfold cl_timer_is_running.
  destruct (state s) eqn:Hst; try contradiction; cbn [bool_decide] in *.
  - destruct Hc as [[-> ->] ->]. repeat split; try discriminate; try tauto;
      intros Hx; try discriminate; exfalso; apply Hx; reflexivity.
  - destruct Hc as [(Hm & Hg & Hn & Hf & Hr & Hp) ->]. rewrite Hr.
    repeat split; try discriminate; try tauto; try reflexivity; try lia; assumption.
  - destruct Hc as [[-> ->] ->]. repeat split; try discriminate; try tauto;
      intros Hx; try discriminate; exfalso; apply Hx; reflexivity.
  - destruct Hc as ([-> ->] & Hr & Hp). rewrite Hr.
    repeat split; try discriminate; try tauto; try reflexivity;
      intros Hx; try discriminate; exfalso; apply Hx; reflexivity.
Qed.

End SlaveProps.

(** ** Witnesses *)

Import SampleHost SampleEnv.

Lemma slave_calls_safe_witness :
  slave_reachable Sample.cfg Sample.connected /\
  exists s' o, run_call (HandlePeriodic None (Some (Sample.dg Sample.master_ip 1 6))) 3000
                 Sample.connected = Done (tt, s', o) /\ slave_reachable Sample.cfg s'.
Proof.
  split; [exact Sample.connected_reachable|].
  destruct (slave_calls_safe Sample.cfg (HandlePeriodic None (Some (Sample.dg Sample.master_ip 1 6)))
    3000 Sample.connected Sample.slave_cfg_typed Sample.connected_reachable) as (s' & o & Hr & Hs & _).
  - apply Sample.dg_ok; split; first [discriminate|reflexivity].
  - exists s', o. split; [exact Hr | exact Hs].
Defined.

Lemma slave_state_meaning_witness :
  slave_reachable Sample.cfg Sample.connected /\
  state Sample.connected = CLS_SLAVE_STATE_MASTER_CONTROL /\
  master_id (master Sample.connected) <> CL_IPADDR_INVALID.
Proof.
  split; [exact Sample.connected_reachable|].
  assert (Hst : state Sample.connected = CLS_SLAVE_STATE_MASTER_CONTROL)
    by (vm_compute; reflexivity).
  split; [exact Hst|].
  destruct (slave_state_meaning Sample.cfg Sample.connected Sample.slave_cfg_typed
    Sample.connected_reachable) as (_ & _ & _ & Hmaster & _).
  exact (proj2 Hmaster Hst).
Defined.
