(* ===== verification/SlaveExchange.v ===== *)
(** * The slave's conversation with its master

    The state machine against its specification, and what the slave does
    with each kind of request in each state: the connection of a master, the
    exchange of cyclic data, illegitimate masters, timeouts, and the slave
    that the application has disabled. *)

From S2P Require Import Prelude Packed Signals Timer Limiter Util Types Iefb IefbFacts IefbRoundtrip.
From S2P Require Import Slmp SlmpFacts Slave SlaveIefb SlaveInv SlaveActions SlaveFsm SlaveSafety.
From S2P Require Import SlaveSlmp SlaveReach SlaveSignals SlaveProps.

(** The state transitions of the slave station, as the protocol means them. *)
Definition slave_next_state (st : cls_slave_state) (event : cls_slave_event) : cls_slave_state :=
  match st, event with
  | CLS_SLAVE_STATE_SLAVE_DOWN, CLS_SLAVE_EVENT_STARTUP => CLS_SLAVE_STATE_MASTER_NONE
  | CLS_SLAVE_STATE_MASTER_NONE, CLS_SLAVE_EVENT_CYCLIC_NEW_MASTER =>
      CLS_SLAVE_STATE_MASTER_CONTROL
  | CLS_SLAVE_STATE_MASTER_NONE, CLS_SLAVE_EVENT_DISABLE_SLAVE => CLS_SLAVE_STATE_SLAVE_DISABLED
  | CLS_SLAVE_STATE_MASTER_CONTROL,
    (CLS_SLAVE_EVENT_CYCLIC_WRONG_STATIONCOUNT | CLS_SLAVE_EVENT_TIMEOUT_MASTER
    | CLS_SLAVE_EVENT_IP_UPDATED) => CLS_SLAVE_STATE_MASTER_NONE
  | CLS_SLAVE_STATE_MASTER_CONTROL, CLS_SLAVE_EVENT_DISABLE_SLAVE =>
      CLS_SLAVE_STATE_WAIT_DISABLING_SLAVE
  | CLS_SLAVE_STATE_WAIT_DISABLING_SLAVE, CLS_SLAVE_EVENT_REENABLE_SLAVE =>
      CLS_SLAVE_STATE_MASTER_NONE
  | CLS_SLAVE_STATE_WAIT_DISABLING_SLAVE,
    (CLS_SLAVE_EVENT_DISABLE_SLAVE_WAIT_ENDED | CLS_SLAVE_EVENT_IP_UPDATED) =>
      CLS_SLAVE_STATE_SLAVE_DISABLED
  | CLS_SLAVE_STATE_SLAVE_DISABLED, CLS_SLAVE_EVENT_REENABLE_SLAVE => CLS_SLAVE_STATE_MASTER_NONE
  | _, _ => st
  end.

Lemma table_next st event : fsm_next (initial_fsm_matrix st event) = slave_next_state st event.
Proof. destruct st, event; reflexivity. Qed.

Section SlaveExchange.
Context `{ClsOptions, Clal, ClalNet, Host}.

(** ** Termination of the event loop *)

Section Terminates.
Context (cfg : cls_cfg) (cfg_ok : config_ok cfg) (now : Z).
Context (request : option cls_cciefb_cyclic_request_info).
Hypothesis request_fine : forall r, request = Some r -> request_ok r.

(** What the actions need and keep. *)
Definition runnable (s : cls) : Prop :=
  slave_base cfg s /\ is_u16 (slave_station_no (master s)).

Definition runs_in (st : cls_slave_state) (s : cls) : Prop := runnable s /\ state s = st.

Lemma quiet_runs s s' st : runs_in st s -> quiet s s' -> runs_in st s'.
Proof.
  intros [[Hb Hn] Hst] Hq. split; [split|].
  - exact (quiet_base cfg _ _ Hb Hq).
  - rewrite (sc_master _ _ (proj1 Hq)). exact Hn.
  - rewrite (quiet_state _ _ Hq). exact Hst.
Qed.

Lemma sends_runs s s' o seq g inc ec ip port slave st : runs_in st s ->
  sends cfg s s' o seq g inc ec ip port slave -> runs_in st s'.
Proof.
  intros [[Hb Hn] Hst] (Hc & Hb' & _). split; [split; [exact Hb'|]|].
  - rewrite (sc_master _ _ Hc). exact Hn.
  - rewrite (sc_state _ _ Hc). exact Hst.
Qed.

Lemma zero_u16 : is_u16 0.
Proof. unfold is_u16. lia. Qed.

Lemma action_runs action s st : action <> cls_iefb_slave_init -> runs_in st s ->
  wp (run_action action now request) (fun event s' _ => runs_in st s' /\
    (event = CLS_SLAVE_EVENT_NONE \/
     event = CLS_SLAVE_EVENT_CYCLIC_CORRECT_MASTER /\
       action = cls_iefb_handle_new_or_updated_master)) s.
Proof.
  intros Hinit Hs. pose proof Hs as [[Hb Hn] Hst].
  assert (Hreject : forall r ec s1, request = Some r -> runs_in st s1 ->
    cl_is_slave_endcode_valid ec = true ->
    wp (cls_iefb_send_cyclic_response_error_frame r ec ;; mret CLS_SLAVE_EVENT_NONE)
      (fun event s' _ => runs_in st s' /\ (event = CLS_SLAVE_EVENT_NONE \/
        event = CLS_SLAVE_EVENT_CYCLIC_CORRECT_MASTER /\
        action = cls_iefb_handle_new_or_updated_master)) s1).
  { intros r ec s1 Hr Hs1 Hec. apply wp_bind. eapply wp_mono.
    { apply (send_error_frame_spec cfg cfg_ok); [apply Hs1 | auto | exact Hec]. }
    intros a s2 o2 [Hsend _]. wp_steps. split; [|auto].
    exact (sends_runs _ _ _ _ _ false _ _ _ _ _ Hs1 Hsend). }
  assert (Hclear : forall s1, runs_in st s1 ->
    wp cls_iefb_clear_master_info (fun _ s' _ => runs_in st s') s1).
  { intros s1 [[Hb1 Hn1] Hst1]. eapply wp_mono; [apply clear_master_spec|].
    intros a s2 o2 [Hq _]. refine (quiet_runs _ _ _ _ Hq).
    split; [split; [split; apply Hb1 | apply zero_u16]|exact Hst1]. }
  destruct action; [exfalso; apply Hinit; reflexivity|..]; unfold run_action.
  6-9: (apply wp_ret; split; [exact Hs | left; reflexivity]).
  - destruct request as [r|] eqn:Hreq; [|apply wp_ret; split; [exact Hs | left; reflexivity]].
    cbn [handle_wrong_master_action]. apply wp_bind.
    eapply wp_mono; [apply log_warning_quiet|]. intros a s1 o1 [Hq1 _].
    apply wp_bind. eapply wp_mono; [apply error_callback_quiet|]. intros a2 s2 o2 [Hq2 _].
    eapply wp_mono; [apply (Hreject r); [reflexivity | | reflexivity]|auto].
    exact (quiet_runs _ _ _ (quiet_runs _ _ _ Hs Hq1) Hq2).
  - destruct request as [r|] eqn:Hreq; [|apply wp_ret; split; [exact Hs | left; reflexivity]].
    apply (Hreject r); [reflexivity | exact Hs | reflexivity].
  - destruct request as [r|] eqn:Hreq; [|apply wp_ret; split; [exact Hs | left; reflexivity]].
    cbn [handle_incoming_when_disabled_action]. apply wp_bind, wp_get.
    apply (Hreject r); [reflexivity | exact Hs|].
    destruct (sb_endcode _ _ Hb) as [-> | ->]; reflexivity.
  - destruct request as [r|] eqn:Hreq; [|apply wp_ret; split; [exact Hs | left; reflexivity]].
    eapply wp_mono; [apply new_master_spec|]. intros event s1 o1 (Hq & _ & ->).
    split; [|right; auto]. refine (quiet_runs _ _ _ _ Hq).
    split; [split; [split; apply Hb | exact Hn]|exact Hst].
  - destruct request as [r|] eqn:Hreq; [|apply wp_ret; split; [exact Hs | left; reflexivity]].
    eapply wp_mono; [apply (cyclic_event_spec cfg cfg_ok); auto|].
    intros event s1 o1 (Ha & _ & ->). split; [|auto].
    destruct Ha as [[_ Hsend] | [_ [-> _]]]; [|exact Hs].
    destruct Hsend as (Hc & Hb1 & _). split; [split; [exact Hb1|]|].
    + rewrite (sc_master _ _ Hc). exact Hn.
    + rewrite (sc_state _ _ Hc). exact Hst.
  - apply wp_bind. eapply wp_mono; [apply Hclear; exact Hs|].
    intros a s1 o1 Hs1. wp_steps. auto.
  - unfold on_exit_master_control_action. wp_steps.
    destruct (disconnect_cb (config s)); wp_steps; auto.
  - unfold on_entry_wait_disabling_slave_action. apply wp_bind.
    eapply wp_mono; [apply Hclear; exact Hs|]. intros a s1 o1 [[Hb1 Hn1] Hst1]. wp_steps.
    split; [|auto]. split; [split; [split; apply Hb1 | exact Hn1]|exact Hst1].
  - wp_steps. split; [|auto]. split; [split; [split; apply Hb | exact Hn]|exact Hst].
Qed.

Lemma opt_runs action s st : action <> Some cls_iefb_slave_init -> runs_in st s ->
  wp (run_opt action now request) (fun event s' _ => runs_in st s' /\
    (event = CLS_SLAVE_EVENT_NONE \/
     event = CLS_SLAVE_EVENT_CYCLIC_CORRECT_MASTER /\
       action = Some cls_iefb_handle_new_or_updated_master)) s.
Proof.
  intros Ha Hs. destruct action as [action|]; cbn [run_opt]; [|wp_steps; auto].
  eapply wp_mono; [apply action_runs; [congruence|exact Hs]|].
  intros event s' o [Hs' [->|[-> ->]]]; auto.
Qed.

(** One round ends in the next state, with the rest of the loop to come. *)
Lemma round_runs fuel event s (Q : bool -> cls -> list cls_output -> Prop) :
  runnable s -> fsm_action (initial_fsm_matrix (state s) event) <> Some cls_iefb_slave_init ->
  (forall event' s' o, runs_in (slave_next_state (state s) event) s' ->
    event' = CLS_SLAVE_EVENT_NONE \/
    event' = CLS_SLAVE_EVENT_CYCLIC_CORRECT_MASTER /\
      fsm_action (initial_fsm_matrix (state s) event) =
        Some cls_iefb_handle_new_or_updated_master ->
    continue_loop fuel now request event' Q s' o) ->
  wp (fsm_event_loop (S fuel) now request event) Q s.
Proof.
  intros Hs Hinit Hk. rewrite <- table_next in Hk.
  destruct (initial_fsm_matrix (state s) event) as [next action] eqn:Ht.
  cbn [fsm_next fsm_action] in *. pose proof (base_tables cfg s (proj1 Hs)) as Htab.
  assert (Hexit : forall st, fsm_on_exit (initial_fsm_on_entry_exit st) <> Some cls_iefb_slave_init)
    by (intros []; discriminate).
  assert (Hentry : forall st, fsm_on_entry (initial_fsm_on_entry_exit st) <>
                                Some cls_iefb_slave_init) by (intros []; discriminate).
  destruct (decide (next = state s)) as [->|Hne].
  - apply (fsm_stay fuel now request event action s Q Htab Ht).
    eapply wp_mono; [apply (opt_runs action s (state s) Hinit); split; [exact Hs|reflexivity]|].
    intros event' s1 o1 [Hs1 Hev]. split; [apply Hs1|]. apply Hk; assumption.
  - apply (fsm_move cfg fuel now request event next action s Q Htab Ht Hne).
    eapply wp_mono.
    { apply (opt_runs _ s (state s)); [apply Hexit | split; [exact Hs|reflexivity]]. }
    intros _e s1 o1 [[[Hb1 Hn1] _] _].
    assert (Hs1 : runs_in next (s1 <| state := next |>)).
    { split; [split; [split; apply Hb1 | exact Hn1]|reflexivity]. }
    eapply wp_mono; [apply (opt_runs action _ next Hinit Hs1)|].
    intros event' s2 o2 [Hs2 Hev]. split; [apply Hs2|].
    eapply wp_mono; [apply (opt_runs _ s2 next); [apply Hentry|exact Hs2]|].
    intros _e2 s3 o3 [Hs3 _]. split; [apply Hs3|]. split; [apply Hs3|].
    apply Hk; assumption.
Qed.

Lemma next_of_new_master st event :
  fsm_action (initial_fsm_matrix st event) = Some cls_iefb_handle_new_or_updated_master ->
  slave_next_state st event = CLS_SLAVE_STATE_MASTER_CONTROL.
Proof. destruct st, event; cbn; intros Hx; try discriminate Hx; reflexivity. Qed.

Lemma loop_terminates event s : runnable s -> state s <> CLS_SLAVE_STATE_SLAVE_DOWN ->
  wp (fsm_event_loop FSM_FUEL now request event) (fun b s' _ =>
    b = true /\ state s' = slave_next_state (state s) event) s.
Proof.
  intros Hs Hdown.
  assert (Hinit : forall st ev, st <> CLS_SLAVE_STATE_SLAVE_DOWN ->
    fsm_action (initial_fsm_matrix st ev) <> Some cls_iefb_slave_init)
    by (intros [] [] ?; first [discriminate | congruence]).
  apply round_runs; [exact Hs | apply Hinit; exact Hdown|].
  intros event' s1 o1 [Hs1 Hst1] [->|[-> Hnew]]; [apply stop_here; auto|].
  apply next_of_new_master in Hnew. rewrite Hnew in Hst1 |- *.
  unfold continue_loop. rewrite bool_decide_eq_true_2 by discriminate.
  apply round_runs; [exact Hs1 | apply Hinit; rewrite Hst1; discriminate|].
  intros event'' s2 o2 [_ Hst2] [->|[_ Hnew2]]; rewrite Hst1 in *; [|discriminate Hnew2].
  apply stop_here. auto.
Qed.
End Terminates.

(** C19: The event loop of the slave's state machine always ends.  In every
    reachable state, for every event and with or without a request, it needs
    at most two rounds, stops at no assertion and ends in the state the
    protocol's transition table demands. *)
Theorem fsm_event_terminates cfg s now request event : config_typed cfg ->
  slave_reachable cfg s -> (forall r, request = Some r -> request_ok r) ->
  exists s' o, fsm_event_loop 2 now request event s = Done (true, s', o) /\
    state s' = slave_next_state (state s) event.
Proof.
  intros Hty Hreach Hr. destruct (slave_reachable_inv cfg s Hty Hreach) as [Hcfg [Hb Hc]].
  assert (Hs : runnable cfg s).
  { split; [exact Hb|]. unfold slave_control in Hc. destruct (state s) eqn:Hst; try contradiction;
      try (destruct Hc as [[-> _] _]; apply zero_u16).
    apply (connected_station cfg Hcfg). apply Hc. }
  assert (Hdown : state s <> CLS_SLAVE_STATE_SLAVE_DOWN).
  { intros Hx. unfold slave_control in Hc. rewrite Hx in Hc. exact Hc. }
  pose proof (loop_terminates cfg Hcfg now request Hr event s Hs Hdown) as Hw.
  apply wp_done in Hw. destruct Hw as (b & s' & o & Hrun & -> & Hst).
  exists s', o. split; [exact Hrun | exact Hst].
Qed.

(** ** Frames from the network *)

(** A datagram of [len] bytes at the start of the receive buffer is the
    request [r] from this address. *)
Definition arrives (buffer : list Z) (len rip rport lip : Z)
  (r : cls_cciefb_cyclic_request_info) : Prop :=
  bytes buffer /\ length buffer = Z.to_nat CL_BUFFER_LEN /\ len <= CL_BUFFER_LEN /\
  is_u32 lip /\ lip <> CL_IPADDR_INVALID /\
  cl_iefb_parse_cyclic_request buffer len rip rport lip = Done (Some r).

(** The outputs hold exactly one frame, which goes to the sender of [r] and
    answers it with this end code and this cyclic data. *)
Definition answered (s : cls) (o : list cls_output) (r : cls_cciefb_cyclic_request_info)
  (ec : Z) (data : list Z) : Prop :=
  exists frame,
    sent_frames o = [(cciefb_socket s, rq_remote_ip r, rq_remote_port r, frame)] /\
    frame_contents (config s) frame (rq_slave_ip_addr r) ec (qdh_group_no (rq_data_header r))
      (qdh_frame_sequence_no (rq_data_header r)) (slave_application_status s)
      (slave_err_code s) (local_management_info s) data.

Definition no_data (s : cls) : list Z :=
  zeros (Z.to_nat (72 * num_occupied_stations (config s))).

(** What the slave offers its master: RWr and RX. *)
Definition own_data (s : cls) : list Z := frame_data (config s) (cciefb_resp_frame_normal s).

Lemma arrives_request_ok buffer len rip rport lip r :
  arrives buffer len rip rport lip r -> request_ok r.
Proof.
  intros (Hb & Hl & Hlen & Hlip & Hlip0 & Hp).
  apply (parse_request_ok _ _ _ _ _ _ Hb Hl Hlen Hlip Hlip0 Hp).
Qed.

Lemma arrives_timeouts buffer len rip rport lip r : arrives buffer len rip rport lip r ->
  is_u16 (qdh_timeout_value (rq_data_header r)) /\
  is_u16 (qdh_parallel_off_timeout_count (rq_data_header r)).
Proof.
  intros (Hb & Hl & _ & _ & _ & Hp). unfold cl_iefb_parse_cyclic_request,
    cl_iefb_parse_req_full_cyclic_headers in Hp.
  destruct (len <? _); [discriminate|].
  set (h := read_at c_cl_cciefb_cyclic_req_full_headers buffer 0) in Hp.
  assert (Hwf : c_wf c_cl_cciefb_cyclic_req_full_headers h).
  { apply (codec_wf (c := c_cl_cciefb_cyclic_req_full_headers) buffer); [assumption|].
    rewrite Hl. vm_compute. lia. }
  clearbody h. destruct (negb _); [discriminate|].
  destruct (cl_iefb_parse_request_cyclic_data _ _) as [[[first rww] ry]|]; [|discriminate].
  injection Hp as <-. clear -Hwf. destruct h as [h1 h2 h3 []]. cbn in Hwf |- *. tauto.
Qed.

(** The handler up to the decision what to do with the request. *)
Lemma cyclic_input_arrives now buffer len rip rport lip r s Q :
  arrives buffer len rip rport lip r ->
  (state s = CLS_SLAVE_STATE_MASTER_CONTROL ->
   wp (let d := rq_data_header r in
       if negb (cls_iefb_is_master_id_correct s (qdh_master_id d)) then
         cls_iefb_fsm_event now (Some r) CLS_SLAVE_EVENT_CYCLIC_WRONG_MASTER;; mret true
       else if negb (qdh_parameter_no d =? parameter_no (master s))
       then cls_iefb_search_slave_parameters now r
       else if qdh_frame_sequence_no d =? 0
       then cls_iefb_search_slave_parameters now r
       else if negb (qdh_group_no d =? group_no (master s)) then mret true
       else match cl_iefb_request_get_slave_id (rq_buffer r) (rq_first_slave_id r)
                    (slave_station_no (master s))
                    (qdh_slave_total_occupied_station_count d) with
            | None => mret false
            | Some id =>
                if id =? CL_IPADDR_INVALID then mret true
                else if negb (id =? lip) then mret false
                else cls_iefb_fsm_event now (Some r) CLS_SLAVE_EVENT_CYCLIC_CORRECT_MASTER;;
                     mret true
            end) Q s) ->
  (state s <> CLS_SLAVE_STATE_MASTER_CONTROL ->
   wp (if discards_frames (state s) then mret true
       else cls_iefb_search_slave_parameters now r) Q s) ->
  wp (cls_iefb_handle_cyclic_input_frame now buffer len rip rport lip) Q s.
Proof.
  intros (_ & _ & _ & _ & Hlip & Hparse) Hcontrol Hother.
  unfold cls_iefb_handle_cyclic_input_frame. destruct (Z.eqb_spec lip CL_IPADDR_INVALID); [tauto|].
  rewrite Hparse. wp_steps. cbn [app].
  destruct (decide (state s = CLS_SLAVE_STATE_MASTER_CONTROL)) as [Hst|Hst].
  - replace (discards_frames (state s)) with false by (rewrite Hst; reflexivity).
    rewrite bool_decide_eq_false_2 by tauto. exact (Hcontrol Hst).
  - rewrite (bool_decide_eq_true_2 (state s <> _)) by exact Hst. exact (Hother Hst).
Qed.

Lemma event_then_true now request event s (Q : bool -> cls -> list cls_output -> Prop) :
  event <> CLS_SLAVE_EVENT_LAST -> fires now request event s (Q true) ->
  wp (cls_iefb_fsm_event now request event;; mret true) Q s.
Proof.
  intros He Hf. apply wp_bind. eapply wp_mono; [apply fsm_event_fires; [exact He|exact Hf]|].
  intros a s1 o1 HQ. wp_steps. rewrite app_nil_r. exact HQ.
Qed.

(** The parts of an instance that only the conversation with a master
    changes. *)
Definition same_connection (s s' : cls) : Prop :=
  state s' = state s /\ master s' = master s /\ receive_timer s' = receive_timer s /\
  cyclic_data_area s' = cyclic_data_area s.

(** What a response takes from the instance besides its cyclic data. *)
Definition same_notification (s0 s : cls) : Prop :=
  cciefb_socket s = cciefb_socket s0 /\
  slave_application_status s = slave_application_status s0 /\
  slave_err_code s = slave_err_code s0 /\ local_management_info s = local_management_info s0.

Lemma sends_answered cfg s0 s s' o r (inc : bool) ec :
  slave_base cfg s0 -> same_notification s0 s ->
  sends cfg s s' o (qdh_frame_sequence_no (rq_data_header r)) (qdh_group_no (rq_data_header r))
    inc ec (rq_remote_ip r) (rq_remote_port r) (rq_slave_ip_addr r) ->
  answered s0 o r ec (if inc then frame_data cfg (cciefb_resp_frame_normal s) else no_data s0).
Proof.
  intros Hb (Hso & Hst & He & Hm) (_ & _ & _ & frame & Ho & Hf).
  rewrite Hso in Ho. rewrite Hst, He, Hm in Hf.
  exists frame. unfold no_data. rewrite (sb_config _ _ Hb). split; [exact Ho | exact Hf].
Qed.

Lemma answered_silent s o1 o2 r ec data :
  sent_frames o1 = [] -> answered s o2 r ec data -> answered s (o1 ++ o2) r ec data.
Proof.
  intros Ho (frame & Ho2 & Hf). exists frame. rewrite sent_frames_app, Ho. split; assumption.
Qed.

(** The request of another master is refused. *)
Lemma other_master_refused cfg s now buffer len rip rport lip r : config_ok cfg -> slave_inv cfg s ->
  state s = CLS_SLAVE_STATE_MASTER_CONTROL -> arrives buffer len rip rport lip r ->
  qdh_master_id (rq_data_header r) <> master_id (master s) ->
  exists s' o,
    cls_iefb_handle_cyclic_input_frame now buffer len rip rport lip s = Done (true, s', o) /\
    answered s o r CL_SLMP_ENDCODE_CCIEFB_MASTER_DUPLICATION (no_data s) /\
    same_connection s s' /\ own_data s' = own_data s.
Proof.
  intros Hcfg [Hb Hc] Hst Harr Hid.
  pose proof (arrives_request_ok _ _ _ _ _ _ Harr) as Hr.
  assert (Hwp : wp (cls_iefb_handle_cyclic_input_frame now buffer len rip rport lip)
    (fun b s' o => b = true /\
      rejects cfg s s' o r CL_SLMP_ENDCODE_CCIEFB_MASTER_DUPLICATION) s).
  { apply (cyclic_input_arrives _ _ _ _ _ _ r); [exact Harr | intros _ | congruence].
    cbv zeta. unfold cls_iefb_is_master_id_correct.
    destruct (Z.eqb_spec (qdh_master_id (rq_data_header r)) (master_id (master s))); [tauto|].
    destruct (master_id (master s) =? CL_IPADDR_INVALID); cbn [negb];
      (apply event_then_true; [discriminate|]; eapply wp_mono;
       [apply (fires_wrong_master cfg Hcfg); assumption|]; intros b s' o (-> & Hrej & _); auto). }
  apply wp_done in Hwp. destruct Hwp as (b & s' & o & Hrun & -> & Hrej). exists s', o.
  split; [exact Hrun|]. split; [|split].
  - apply (sends_answered cfg s s s' o r false _ Hb); [repeat split | exact Hrej].
  - destruct Hrej as [[] _]. repeat split; assumption.
  - destruct Hrej as (Hcore & _ & Hd & _). unfold own_data.
    rewrite (sc_config _ _ Hcore), (sb_config _ _ Hb). exact Hd.
Qed.

(** A connected slave does not let a second master interfere.  A request
    of any other master is answered with the end code for a duplicated
    master and without data; the connection, the monitoring of our master
    and the cyclic data stay as they are. *)
Lemma wrong_master_rejected cfg s now buffer len rip rport lip r : config_typed cfg ->
  slave_reachable cfg s -> state s = CLS_SLAVE_STATE_MASTER_CONTROL ->
  arrives buffer len rip rport lip r ->
  qdh_master_id (rq_data_header r) <> master_id (master s) ->
  exists s' o,
    cls_iefb_handle_cyclic_input_frame now buffer len rip rport lip s = Done (true, s', o) /\
    answered s o r CL_SLMP_ENDCODE_CCIEFB_MASTER_DUPLICATION (no_data s) /\
    same_connection s s' /\ own_data s' = own_data s.
Proof.
  intros Hty Hreach. destruct (slave_reachable_inv cfg s Hty Hreach) as [Hcfg Hinv].
  exact (other_master_refused cfg s now buffer len rip rport lip r Hcfg Hinv).
Qed.

(** A request of the master that the slave is connected to, with the
    parameters of the connection and our address at our station number. *)
Definition from_our_master (s : cls) (r : cls_cciefb_cyclic_request_info) : Prop :=
  let d := rq_data_header r in
  qdh_master_id d = master_id (master s) /\ qdh_parameter_no d = parameter_no (master s) /\
  qdh_frame_sequence_no d <> 0 /\ qdh_group_no d = group_no (master s) /\
  qdh_slave_total_occupied_station_count d = total_occupied_station_count (master s) /\
  cl_iefb_request_get_slave_id (rq_buffer r) (rq_first_slave_id r)
    (slave_station_no (master s)) (total_occupied_station_count (master s)) =
    Some (rq_slave_ip_addr r).

(** What the application reads: the outputs of the master when the
    transmission bit is on, zeros otherwise. *)
Definition reads_data_of (cfg : cls_cfg) (s : cls) (r : cls_cciefb_cyclic_request_info) (no : Z)
  (bit : bool) : Prop :=
  (forall n, 0 <= n < 64 * num_occupied_stations cfg ->
     cls_iefb_get_ry_bit n s = Done (bit && request_ry_bit r no n, s, [])) /\
  (forall n, 0 <= n < 32 * num_occupied_stations cfg ->
     cls_iefb_get_rww_value n s = Done (if bit then request_rww_register r no n else 0, s, [])).

Lemma stored_reads cfg s s0 r no bit : config_ok cfg -> slave_base cfg s -> slave_base cfg s0 ->
  request_ok r -> station_fits cfg r no ->
  cyclic_data_area s = stored_area cfg (cyclic_data_area s0) r no bit ->
  reads_data_of cfg s r no bit.
Proof.
  intros Hcfg Hb Hb0 Hr Hfit Harea. split; intros n Hn.
  - rewrite (get_ry_value cfg s n Hb Hn), Harea, (stored_ry cfg Hcfg s0); auto.
  - rewrite (get_rww_value cfg s n Hb Hn), Harea, (stored_rww cfg Hcfg s0); auto.
Qed.

Lemma sends_keeps_own_data cfg s0 s s' o seq g inc ec ip port slave :
  slave_base cfg s0 -> config s = config s0 ->
  cciefb_resp_frame_normal s = cciefb_resp_frame_normal s0 ->
  sends cfg s s' o seq g inc ec ip port slave -> own_data s' = own_data s0.
Proof.
  intros Hb Hc Hn (Hcore & _ & Hd & _). unfold own_data.
  rewrite (sc_config _ _ Hcore), Hc, (sb_config _ _ Hb), Hd, Hn. reflexivity.
Qed.

Lemma our_master_answered cfg s now buffer len rip rport lip r : config_ok cfg -> slave_inv cfg s ->
  state s = CLS_SLAVE_STATE_MASTER_CONTROL -> arrives buffer len rip rport lip r ->
  from_our_master s r ->
  wp (cls_iefb_handle_cyclic_input_frame now buffer len rip rport lip)
    (fun b s' o => b = true /\ answers cfg s s' o r now) s.
Proof.
  intros Hcfg Hinv Hst Harr (Hid & Hpar & Hseq & Hgrp & Htot & Hslave).
  pose proof (arrives_request_ok _ _ _ _ _ _ Harr) as Hr.
  assert (Hlip : rq_slave_ip_addr r = lip).
  { destruct Harr as (H3 & H4 & H5 & H6 & H7 & H8).
    apply (parse_request_ok _ _ _ _ _ _ H3 H4 H5 H6 H7 H8). }
  destruct (control_connected cfg s Hinv Hst) as [Hconn _].
  apply (cyclic_input_arrives _ _ _ _ _ _ r); [exact Harr | intros _ | congruence].
  cbv zeta. unfold cls_iefb_is_master_id_correct.
  rewrite Hid, Hpar, Hgrp, Htot, Hslave, Hlip, !Z.eqb_refl.
  destruct (Z.eqb_spec (master_id (master s)) CL_IPADDR_INVALID);
    [exfalso; apply (proj1 Hconn); assumption|].
  destruct (Z.eqb_spec (qdh_frame_sequence_no (rq_data_header r)) 0); [tauto|].
  destruct (Z.eqb_spec lip CL_IPADDR_INVALID) as [Hx|_]; [exfalso; apply Harr in Hx; exact Hx|].
  cbn [negb]. apply event_then_true; [discriminate|]. eapply wp_mono.
  { apply (fires_correct_master cfg Hcfg); [apply Hinv | exact Hr | exact Hst |].
    apply (connected_station cfg Hcfg). exact Hconn. }
  intros b s' o (-> & Ha & _). auto.
Qed.

(** The answer, and what the application can read then. *)
Lemma connected_exchange cfg s now buffer len rip rport lip r : config_ok cfg -> slave_inv cfg s ->
  state s = CLS_SLAVE_STATE_MASTER_CONTROL ->
  arrives buffer len rip rport lip r -> from_our_master s r ->
  let bit := my_transmission_bit s r in
  exists s' o,
    cls_iefb_handle_cyclic_input_frame now buffer len rip rport lip s = Done (true, s', o) /\
    answered s o r CL_SLMP_ENDCODE_SUCCESS (if bit then own_data s else no_data s) /\
    reads_data_of cfg s' r (slave_station_no (master s)) bit /\
    own_data s' = own_data s /\
    same_core (with_cyclic_data cfg s r (slave_station_no (master s)) bit now) s'.
Proof.
  intros Hcfg Hinv Hst Harr Hours bit. pose proof (proj1 Hinv) as Hb.
  pose proof (arrives_request_ok _ _ _ _ _ _ Harr) as Hr.
  destruct (control_connected cfg s Hinv Hst) as [(_ & _ & Hno & Hfit & _) _].
  assert (Hfits : station_fits cfg r (slave_station_no (master s))).
  { destruct Hours as (_ & _ & _ & _ & Htot & _). unfold station_fits. rewrite Htot. lia. }
  pose proof (our_master_answered cfg s now _ _ _ _ _ r Hcfg Hinv Hst Harr Hours) as Hwp.
  apply wp_done in Hwp. destruct Hwp as (b & s' & o & Hrun' & -> & Ha). exists s', o.
  destruct Ha as [[_ Hs]|[Hno' _]]; [|tauto]. split; [exact Hrun'|]. split.
  { unfold own_data. rewrite (sb_config _ _ Hb).
    refine (sends_answered cfg s _ s' o r bit _ Hb _ Hs).
    repeat split. }
  pose proof Hs as (Hcore & Hb' & _). split; [|split; [|exact Hcore]].
  - apply (stored_reads cfg s' s); try assumption. exact (sc_area _ _ Hcore).
  - refine (sends_keeps_own_data cfg s _ s' _ _ _ _ _ _ _ _ Hb _ _ Hs); reflexivity.
Qed.

(** C16: A cycle of a connected slave.  A request of its master with
    unchanged parameters is answered with success, the same sequence number,
    and the slave's own data exactly when its transmission bit is on; the
    application then reads the RY bits and RWw registers that the master
    wrote for this slave (zeros when the bit is off); the connection is kept
    and its monitoring starts anew. *)
Theorem cyclic_exchange cfg s now buffer len rip rport lip r : config_typed cfg ->
  slave_reachable cfg s -> state s = CLS_SLAVE_STATE_MASTER_CONTROL ->
  arrives buffer len rip rport lip r -> from_our_master s r ->
  let bit := my_transmission_bit s r in
  exists s' o,
    cls_iefb_handle_cyclic_input_frame now buffer len rip rport lip s = Done (true, s', o) /\
    answered s o r CL_SLMP_ENDCODE_SUCCESS (if bit then own_data s else no_data s) /\
    reads_data_of cfg s' r (slave_station_no (master s)) bit /\
    state s' = CLS_SLAVE_STATE_MASTER_CONTROL /\
    master s' = (master s) <| clock_info := rq_clock_info r |>
                           <| clock_info_valid := negb (rq_clock_info r =? 0) |> /\
    receive_timer s' = (receive_timer s) <| t_timestamp := now |> /\
    own_data s' = own_data s.
Proof.
  intros Hty Hreach Hst Harr Hours bit.
  destruct (slave_reachable_inv cfg s Hty Hreach) as [Hcfg Hinv].
  destruct (control_connected cfg s Hinv Hst) as [(_ & _ & _ & _ & Hrun & _) _].
  destruct (connected_exchange cfg s now _ _ _ _ _ r Hcfg Hinv Hst Harr Hours)
    as (s' & o & Hrun' & Hans & Hread & Hown & Hcore).
  exists s', o. split; [exact Hrun'|]. split; [exact Hans|]. split; [exact Hread|].
  split; [|split; [|split; [|exact Hown]]].
  - rewrite (sc_state _ _ Hcore). exact Hst.
  - exact (sc_master _ _ Hcore).
  - rewrite (sc_receive_timer _ _ Hcore). cbn [with_cyclic_data update receive_timer].
    clear -Hrun. destruct (receive_timer s). cbn in *. subst. reflexivity.
Qed.

(** The station number is noted before the connection is made. *)
Lemma new_master_connects cfg now r s no : config_ok cfg -> slave_inv cfg s -> request_ok r ->
  state s = CLS_SLAVE_STATE_MASTER_NONE \/ state s = CLS_SLAVE_STATE_MASTER_CONTROL ->
  station_fits cfg r no ->
  wp (modify (fun cls => cls <| master ::= (fun m => m <| slave_station_no := no |>) |>) ;;
      cls_iefb_fsm_event now (Some r) CLS_SLAVE_EVENT_CYCLIC_NEW_MASTER ;; mret true)
    (fun b s' o => b = true /\ exists s1 o1 o2,
      quiet (newly_connected (s <| master ::= (fun m => m <| slave_station_no := no |>) |>) r now)
        s1 /\ sent_frames o1 = [] /\ o = o1 ++ o2 /\ answers cfg s1 s' o2 r now) s.
Proof.
  intros Hcfg [Hb Hc] Hr Hst Hfit. apply wp_bind, wp_modify. cbn [app].
  apply event_then_true; [discriminate|]. eapply wp_mono.
  { apply (fires_new_master cfg Hcfg); [split; apply Hb | exact Hr | exact Hst |].
    pose proof (ro_total _ Hr). pose proof (config_stations cfg Hcfg).
    destruct Hfit. cbn. unfold is_u16. lia. }
  intros b s' o (-> & _ & Hex). auto.
Qed.

(** The requests that make their sender the master of the slave: any that
    reaches a slave without a master, and one of its own master with other
    parameters or the first sequence number. *)
Definition offers_connection (s : cls) (r : cls_cciefb_cyclic_request_info) : Prop :=
  let d := rq_data_header r in
  state s = CLS_SLAVE_STATE_MASTER_NONE \/
  (state s = CLS_SLAVE_STATE_MASTER_CONTROL /\ qdh_master_id d = master_id (master s) /\
   (qdh_parameter_no d <> parameter_no (master s) \/ qdh_frame_sequence_no d = 0)).

(** Such a request addresses the stations of the slave, at station [no], with
    its transmission bit off. *)
Definition addresses_us (cfg : cls_cfg) (r : cls_cciefb_cyclic_request_info) (no : Z) : Prop :=
  let d := rq_data_header r in
  cl_iefb_analyze_slave_ids (rq_slave_ip_addr r) (qdh_slave_total_occupied_station_count d)
    (rq_buffer r) (rq_first_slave_id r) = Some (true, no, num_occupied_stations cfg) /\
  cl_iefb_extract_my_transmission_state (qdh_cyclic_transmission_state d) no = false.

Definition numbered (s : cls) (no : Z) : cls :=
  s <| master ::= (fun m => m <| slave_station_no := no |>) |>.

Lemma addressed_station cfg r no : addresses_us cfg r no -> station_fits cfg r no.
Proof. intros [Hana%analyze_bounds _]. unfold station_fits. lia. Qed.

Lemma connection_made cfg s now buffer len rip rport lip r no : config_ok cfg -> slave_inv cfg s ->
  offers_connection s r -> arrives buffer len rip rport lip r -> addresses_us cfg r no ->
  wp (cls_iefb_handle_cyclic_input_frame now buffer len rip rport lip)
    (fun b s' o => b = true /\ exists s1 o1 o2,
      quiet (newly_connected (numbered s no) r now) s1 /\ sent_frames o1 = [] /\ o = o1 ++ o2 /\
      answers cfg s1 s' o2 r now) s.
Proof.
  intros Hcfg Hinv Hoffer Harr Haddr. pose proof (proj1 Hinv) as Hb.
  pose proof (arrives_request_ok _ _ _ _ _ _ Harr) as Hr.
  pose proof (addressed_station cfg r no Haddr) as Hfit. destruct Haddr as [Hana Hbit].
  apply (cyclic_input_arrives _ _ _ _ _ _ r); [exact Harr | intros Hst | intros Hst];
    destruct Hoffer as [Hst'|(Hst' & Hid & Hnew)]; try congruence.
  - destruct (control_connected cfg s Hinv Hst) as [Hconn _]. cbv zeta.
    assert (Hcorrect : cls_iefb_is_master_id_correct s (qdh_master_id (rq_data_header r)) = true).
    { unfold cls_iefb_is_master_id_correct. rewrite Hid, Z.eqb_refl.
      rewrite (proj2 (Z.eqb_neq _ _) (proj1 Hconn)). reflexivity. }
    rewrite Hcorrect. cbn [negb].
    assert (Hsearch : wp (cls_iefb_search_slave_parameters now r)
      (fun b s' o => b = true /\ exists s1 o1 o2,
        quiet (newly_connected (numbered s no) r now) s1 /\ sent_frames o1 = [] /\ o = o1 ++ o2 /\
        answers cfg s1 s' o2 r now) s).
    { unfold cls_iefb_search_slave_parameters. wp_steps. cbn [app].
      replace (discards_frames (state s)) with false by (rewrite Hst; reflexivity).
      rewrite Hana, (sb_config _ _ Hb), Z.eqb_refl, Hcorrect, Hbit. cbn [negb].
      rewrite !bool_decide_eq_false_2 by congruence. apply new_master_connects; auto. }
    destruct (Z.eqb_spec (qdh_parameter_no (rq_data_header r)) (parameter_no (master s))) as [He|];
      cbn [negb]; [|exact Hsearch].
    destruct Hnew as [Hne|Hseq]; [congruence|]. rewrite Hseq. exact Hsearch.
  - replace (discards_frames (state s)) with false by (rewrite Hst'; reflexivity).
    unfold cls_iefb_search_slave_parameters. wp_steps. cbn [app].
    replace (discards_frames (state s)) with false by (rewrite Hst'; reflexivity).
    rewrite Hana, (sb_config _ _ Hb), Z.eqb_refl. cbn [negb].
    rewrite bool_decide_eq_false_2 by congruence. rewrite bool_decide_eq_true_2 by exact Hst'.
    rewrite Hbit. apply new_master_connects; auto.
Qed.

(** A slave accepts a master. *)
Lemma slave_connects cfg s now buffer len rip rport lip r no : config_ok cfg -> slave_inv cfg s ->
  state s = CLS_SLAVE_STATE_MASTER_NONE ->
  arrives buffer len rip rport lip r ->
  cl_iefb_analyze_slave_ids (rq_slave_ip_addr r)
    (qdh_slave_total_occupied_station_count (rq_data_header r)) (rq_buffer r)
    (rq_first_slave_id r) = Some (true, no, num_occupied_stations cfg) ->
  cl_iefb_extract_my_transmission_state (qdh_cyclic_transmission_state (rq_data_header r)) no =
    false ->
  exists s' o,
    cls_iefb_handle_cyclic_input_frame now buffer len rip rport lip s = Done (true, s', o) /\
    answered s o r CL_SLMP_ENDCODE_SUCCESS (no_data s) /\ reads_data_of cfg s' r no false /\
    state s' = CLS_SLAVE_STATE_MASTER_CONTROL /\ master s' = master_of r no /\
    receive_timer s' = monitoring r now /\ own_data s' = own_data s.
Proof.
  intros Hcfg Hinv Hst Harr Hana Hbit. pose proof (proj1 Hinv) as Hb.
  pose proof (arrives_request_ok _ _ _ _ _ _ Harr) as Hr.
  assert (Hfit : station_fits cfg r no).
  { apply analyze_bounds in Hana. unfold station_fits. lia. }
  pose proof (connection_made cfg s now _ _ _ _ _ r no Hcfg Hinv (or_introl Hst) Harr
    (conj Hana Hbit)) as Hwp.
  apply wp_done in Hwp. destruct Hwp as (b & s' & o & Hrun & -> & s1 & o1 & o2 & Hq & Ho1 & -> & Ha).
  exists s', (o1 ++ o2). split; [exact Hrun|].
  set (s0 := numbered s no) in Hq.
  assert (Hinv1 : slave_inv cfg s1).
  { refine (proj1 (newly_connected_inv cfg s0 s1 r now _ Hr _ Hfit Hq)); [split; apply Hb|].
    destruct Hinv as [_ Hc]. unfold slave_control in Hc. rewrite Hst in Hc. apply Hc. }
  destruct Hq as (Hc1 & Hn & _). unfold answers, my_transmission_bit in Ha.
  replace (slave_station_no (master s1)) with no in Ha by (rewrite (sc_master _ _ Hc1); reflexivity).
  rewrite Hbit in Ha. destruct Ha as [[_ Hs]|[Hx _]]; [|tauto].
  pose proof Hs as (Hcore & Hb' & _).
  split; [|split; [|split; [|split; [|split]]]].
  - apply answered_silent; [exact Ho1|]. refine (sends_answered cfg s _ s' o2 r false _ Hb _ Hs).
    repeat split; apply Hc1.
  - apply (stored_reads cfg s' s1); try assumption; [apply Hinv1 | exact (sc_area _ _ Hcore)].
  - rewrite (sc_state _ _ Hcore). exact (sc_state _ _ Hc1).
  - rewrite (sc_master _ _ Hcore). cbn [with_cyclic_data update master].
    rewrite (sc_master _ _ Hc1). reflexivity.
  - rewrite (sc_receive_timer _ _ Hcore). cbn [with_cyclic_data update receive_timer].
    rewrite (sc_receive_timer _ _ Hc1). reflexivity.
  - refine (sends_keeps_own_data cfg s _ s' _ _ _ _ _ _ _ _ Hb _ _ Hs); [apply Hc1 | exact Hn].
Qed.

(** How a master connects.  A slave without a master that finds its
    address in a request, at station [no] and followed by as many
    multistation entries as it occupies, with its transmission bit off,
    accepts the sender as its master: it remembers the master and its
    parameters, monitors it, answers with success and without data, and the
    application reads zeros. *)
Lemma master_connects cfg s now buffer len rip rport lip r no : config_typed cfg ->
  slave_reachable cfg s -> state s = CLS_SLAVE_STATE_MASTER_NONE ->
  arrives buffer len rip rport lip r ->
  cl_iefb_analyze_slave_ids (rq_slave_ip_addr r)
    (qdh_slave_total_occupied_station_count (rq_data_header r)) (rq_buffer r)
    (rq_first_slave_id r) = Some (true, no, num_occupied_stations cfg) ->
  cl_iefb_extract_my_transmission_state (qdh_cyclic_transmission_state (rq_data_header r)) no =
    false ->
  exists s' o,
    cls_iefb_handle_cyclic_input_frame now buffer len rip rport lip s = Done (true, s', o) /\
    answered s o r CL_SLMP_ENDCODE_SUCCESS (no_data s) /\ reads_data_of cfg s' r no false /\
    state s' = CLS_SLAVE_STATE_MASTER_CONTROL /\ master s' = master_of r no /\
    receive_timer s' = monitoring r now /\ own_data s' = own_data s.
Proof.
  intros Hty Hreach. destruct (slave_reachable_inv cfg s Hty Hreach) as [Hcfg Hinv].
  exact (slave_connects cfg s now buffer len rip rport lip r no Hcfg Hinv).
Qed.

(** ** The passing of time *)

(** What a datagram does to a slave that discards all frames. *)
Lemma discarded_input now buffer len rip rport lip s :
  discards_frames (state s) = true ->
  wp (cls_iefb_handle_input_frame now buffer len rip rport lip) (fun _ s' o => s' = s /\ o = []) s.
Proof.
  intros Hdis. unfold cls_iefb_handle_input_frame.
  destruct (cl_iefb_parse_request_header buffer len); [|wp_steps; auto].
  destruct (negb _); [wp_steps; auto|]. destruct (_ && _); [|wp_steps; auto].
  unfold cls_iefb_handle_cyclic_input_frame. destruct (lip =? _); [wp_steps; auto|].
  destruct (cl_iefb_parse_cyclic_request buffer len rip rport lip) as [[r|]|] eqn:Hparse.
  - wp_steps. rewrite Hdis. wp_steps. auto.
  - wp_steps. auto.
  - exfalso. exact (parse_cyclic_request_never_asserts _ _ _ _ _ Hparse).
Qed.

Lemma wp_skip b (m : cls_prog unit) (Q : unit -> cls -> list cls_output -> Prop) s :
  b = false -> Q tt s [] -> wp (when b m) Q s.
Proof. intros ->. exact (fun HQ => HQ). Qed.

(** C30: A disabled slave is silent.  Whatever arrives, the periodic function
    sends nothing, calls no callback, leaves the cyclic data alone and stays
    disabled. *)
Theorem disabled_slave_silent cfg s received now : config_typed cfg -> slave_reachable cfg s ->
  state s = CLS_SLAVE_STATE_SLAVE_DISABLED ->
  exists s', cls_iefb_periodic received now s = Done (tt, s', []) /\ same_connection s s' /\
    own_data s' = own_data s.
Proof.
  intros Hty Hreach Hst. destruct (slave_reachable_inv cfg s Hty Hreach) as [Hcfg [Hb Hc]].
  unfold slave_control in Hc. rewrite Hst in Hc. destruct Hc as [[Hm Hrt] Hdt].
  assert (Hwp : wp (cls_iefb_periodic received now) (fun _ s' o => o = [] /\
    same_connection s s' /\ own_data s' = own_data s) s).
  { unfold cls_iefb_periodic. apply wp_bind.
    eapply wp_mono with (Q := fun _ s1 o1 => o1 = [] /\
      exists g, s1 = s <| cciefb_receivebuf ::= g |>).
    { destruct received as [dg|].
      2:{ apply wp_ret. split; [reflexivity|]. exists (fun b => b). destruct s; reflexivity. }
      apply wp_bind, wp_modify. cbn [app]. wp_steps. apply wp_when; intros _; [|cbn [app]; eauto]. apply wp_bind. eapply wp_mono.
      { apply discarded_input. cbn. rewrite Hst. reflexivity. }
      intros b s1 o1 [-> ->]. wp_steps. cbn [app]. eauto. }
    intros a s1 o1 (-> & g & ->). apply wp_bind, wp_get, wp_bind, wp_skip.
    { exact (f_equal (fun t => cl_timer_is_expired t now) Hrt). }
    apply wp_bind, wp_get, wp_bind, wp_skip.
    { exact (f_equal (fun t => cl_timer_is_expired t now) Hdt). }
    apply wp_modify. repeat split. }
  apply wp_done in Hwp. destruct Hwp as ([] & s' & o & Hrun & -> & Hsame & Hown). eauto.
Qed.

(** What the periodic function does while nothing arrives. *)
Lemma supervised cfg s T T' : slave_inv cfg s ->
  state s = CLS_SLAVE_STATE_MASTER_CONTROL -> t_timestamp (receive_timer s) = u32 T ->
  0 <= T' - T < 2 ^ 31 ->
  exists s' o, cls_iefb_periodic None (u32 T') s = Done (tt, s', o) /\ sent_frames o = [] /\
    if t_period (receive_timer s) <=? T' - T
    then state s' = CLS_SLAVE_STATE_MASTER_NONE /\ master s' = cls_master_connection_zero /\
         cl_timer_is_running (receive_timer s') = false /\
         (disconnect_cb cfg = true -> DisconnectCb ∈ o)
    else same_connection s s' /\ o = [].
Proof.
  intros [Hb Hc] Hst Hts HT.
  destruct (control_connected cfg s (conj Hb Hc) Hst) as [(_ & _ & _ & _ & Hrun & _) Hdt].
  pose proof (timer_expired_elapsed (t_period (receive_timer s)) T T' HT) as Hexp.
  rewrite <- Hts, <- Hrun in Hexp.
  replace (Timer _ _ _) with (receive_timer s) in Hexp by (destruct (receive_timer s); reflexivity).
  assert (Hwp : wp (cls_iefb_periodic None (u32 T')) (fun _ s' o => sent_frames o = [] /\
    if t_period (receive_timer s) <=? T' - T
    then quiet (waiting s) (s' <| errorlimiter := errorlimiter s |> <| loglimiter := loglimiter s |>) /\
         (disconnect_cb cfg = true -> DisconnectCb ∈ o)
    else same_connection s s' /\ o = []) s).
  { unfold cls_iefb_periodic. wp_steps. cbn [app]. rewrite Hexp.
    destruct (t_period (receive_timer s) <=? T' - T).
    - cbn [when]. wp_steps. set (s1 := s <| receive_timer ::= cl_timer_stop |>). cbn [app].
      assert (Hb1 : slave_base cfg s1) by (split; apply Hb).
      eapply wp_mono; [apply fsm_event_fires; [discriminate|];
                       apply (fires_timeout cfg (u32 T') s1 Hb1 Hst)|].
      intros a s2 o2 (Hq & Ho & o1 & ->). wp_steps.
      apply wp_skip.
      { exact (f_equal (fun t => cl_timer_is_expired t (u32 T')) (sc_disable_timer _ _ (proj1 Hq))). }
      wp_steps. cbn [app]. rewrite !app_nil_r. split; [exact Ho|].
      split.
      + destruct Hq as ([] & Hn & He). repeat split; assumption.
      + intros Hcb. unfold disconnect_callback. rewrite Hcb. left.
    - wp_steps. apply wp_skip.
      { exact (f_equal (fun t => cl_timer_is_expired t (u32 T')) Hdt). }
      wp_steps. repeat split. }
  apply wp_done in Hwp. destruct Hwp as ([] & s' & o & Hrun' & Ho & Hcase). exists s', o.
  split; [exact Hrun'|]. split; [exact Ho|].
  destruct (t_period (receive_timer s) <=? T' - T); [|exact Hcase].
  destruct Hcase as [[Hcore _] Hcb]. pose proof (sc_receive_timer _ _ Hcore) as Hrt. cbn in Hrt.
  split; [exact (sc_state _ _ Hcore)|]. split; [exact (sc_master _ _ Hcore)|].
  split; [rewrite Hrt; reflexivity | exact Hcb].
Qed.

(** C20: Supervision of the master in unbounded time.  Let [T] be when the
    last frame of the master was handled and [p] the period of the
    supervision.  Up to 2^31 us later, while nothing arrives, the periodic
    function keeps the connection exactly as long as less than [p] has
    passed; from then on it drops the connection, tells the application, and
    waits for a new master. *)
Theorem master_supervision cfg s T T' : config_typed cfg -> slave_reachable cfg s ->
  state s = CLS_SLAVE_STATE_MASTER_CONTROL -> t_timestamp (receive_timer s) = u32 T ->
  0 <= T' - T < 2 ^ 31 ->
  exists s' o, cls_iefb_periodic None (u32 T') s = Done (tt, s', o) /\ sent_frames o = [] /\
    if t_period (receive_timer s) <=? T' - T
    then state s' = CLS_SLAVE_STATE_MASTER_NONE /\ master s' = cls_master_connection_zero /\
         cl_timer_is_running (receive_timer s') = false /\
         (disconnect_cb cfg = true -> DisconnectCb ∈ o)
    else same_connection s s' /\ o = [].
Proof.
  intros Hty Hreach. exact (supervised cfg s T T' (proj2 (slave_reachable_inv cfg s Hty Hreach))).
Qed.

(** What a master asks for, in microseconds: the timeout (ms) times the
    count, 500 ms and 3 times when it leaves them open. *)
Definition asked_period (r : cls_cciefb_cyclic_request_info) : Z :=
  let timeout := qdh_timeout_value (rq_data_header r) in
  let count := qdh_parallel_off_timeout_count (rq_data_header r) in
  (if timeout =? 0 then 500 else timeout) * (if count =? 0 then 3 else count) * 1000.

Lemma connection_timer cfg s s1 s' o r now : quiet (newly_connected s r now) s1 ->
  answers cfg s1 s' o r now ->
  state s' = CLS_SLAVE_STATE_MASTER_CONTROL /\ receive_timer s' = monitoring r now.
Proof.
  intros [Hc _] [[_ [Hs _]]|[_ [-> _]]].
  - rewrite (sc_state _ _ Hs), (sc_receive_timer _ _ Hs).
    cbn [with_cyclic_data update state receive_timer].
    rewrite (sc_state _ _ Hc), (sc_receive_timer _ _ Hc). split; reflexivity.
  - rewrite (sc_state _ _ Hc), (sc_receive_timer _ _ Hc). split; reflexivity.
Qed.

(** The connection after a request that made it, and its timer. *)
Lemma connection_monitored cfg s now buffer len rip rport lip r no :
  config_ok cfg -> slave_inv cfg s -> offers_connection s r -> arrives buffer len rip rport lip r ->
  addresses_us cfg r no ->
  exists s' o,
    cls_iefb_handle_cyclic_input_frame now buffer len rip rport lip s = Done (true, s', o) /\
    slave_inv cfg s' /\ state s' = CLS_SLAVE_STATE_MASTER_CONTROL /\
    receive_timer s' = Timer CL_TIMER_RUNNING (asked_period r mod 2 ^ 32) now.
Proof.
  intros Hcfg Hinv Hoffer Harr Haddr. destruct (arrives_timeouts _ _ _ _ _ _ Harr) as [Ht Hc].
  pose proof (connection_made cfg s now _ _ _ _ _ r no Hcfg Hinv Hoffer Harr Haddr) as Hwp.
  assert (Hgood : wp (cls_iefb_handle_cyclic_input_frame now buffer len rip rport lip)
    (fun _ s' o => good cfg s' o) s).
  { destruct Harr as (Hb & Hl & Hlen & Hlip & _).
    apply (cyclic_input_good cfg Hcfg); assumption. }
  pose proof (wp_and _ _ _ _ Hwp Hgood) as Hboth.
  apply wp_done in Hboth as (b & s' & o & Hrun & (-> & s1 & o1 & o2 & Hq & _ & _ & Ha) & Hinv' & _).
  destruct (connection_timer _ _ _ _ _ _ _ Hq Ha) as [Hst Htimer]. exists s', o.
  rewrite Htimer. unfold monitoring. rewrite total_timeout_exact by assumption.
  split; [exact Hrun|]. split; [exact Hinv'|]. split; [exact Hst | reflexivity].
Qed.

(** C32: The supervision time wraps around.  When a slave connects to a
    master, or takes over new parameters from its own one, the handler of the
    request starts the supervision with the period that the master asked for
    modulo 2^32 us.  This is what was asked for exactly below 2^32 us, about
    71 minutes; a longer time, which the protocol allows, becomes a shorter
    one: while nothing more arrives, the periodic function keeps the
    connection exactly as long as the period modulo 2^32 us has not passed. *)
Theorem supervision_period_wraps cfg s T buffer len rip rport lip r no :
  config_typed cfg -> slave_reachable cfg s -> offers_connection s r ->
  arrives buffer len rip rport lip r -> addresses_us cfg r no ->
  exists s' o,
    cls_iefb_handle_cyclic_input_frame (u32 T) buffer len rip rport lip s = Done (true, s', o) /\
    state s' = CLS_SLAVE_STATE_MASTER_CONTROL /\
    t_period (receive_timer s') = asked_period r mod 2 ^ 32 /\
    (t_period (receive_timer s') = asked_period r <-> asked_period r < 2 ^ 32) /\
    forall T', 0 <= T' - T < 2 ^ 31 ->
      exists s2 o2, cls_iefb_periodic None (u32 T') s' = Done (tt, s2, o2) /\
        (state s2 = CLS_SLAVE_STATE_MASTER_CONTROL <-> T' - T < asked_period r mod 2 ^ 32).
Proof.
  intros Hty Hreach Hoffer Harr Haddr. destruct (slave_reachable_inv cfg s Hty Hreach) as [Hcfg Hinv].
  destruct (connection_monitored cfg s (u32 T) _ _ _ _ _ r no Hcfg Hinv Hoffer Harr Haddr)
    as (s' & o & Hrun & Hinv' & Hst & Htimer). exists s', o. rewrite Htimer. cbn [t_period].
  split; [exact Hrun|]. split; [exact Hst|]. split; [reflexivity|]. split.
  - assert (0 <= asked_period r).
    { destruct (arrives_timeouts _ _ _ _ _ _ Harr) as [Ht Hc]. unfold asked_period, is_u16 in *.
      destruct (_ =? 0), (_ =? 0); lia. }
    split; [intros <-; apply Z.mod_pos_bound; lia | intros; apply Z.mod_small; lia].
  - intros T' HT. destruct (supervised cfg s' T T' Hinv' Hst) as (s2 & o2 & Hrun2 & _ & Hcase);
      [rewrite Htimer; reflexivity | exact HT|]. exists s2, o2. split; [exact Hrun2|].
    rewrite Htimer in Hcase. cbn [t_period] in Hcase.
    destruct (Z.leb_spec (asked_period r mod 2 ^ 32) (T' - T)).
    + destruct Hcase as [-> _]. split; [discriminate | lia].
    + destruct Hcase as [[-> _] _]. rewrite Hst. split; [lia | reflexivity].
Qed.

(** The period can even become zero: then the slave gives the master up in the
    call that connects it. *)
Example supervision_wraps_to_zero : u32 (cl_calculate_total_timeout_us 16384 32768) = 0.
Proof. vm_compute. reflexivity. Qed.

(** ** Signals *)

(** C31: The slave's own signals are independent variables.  In a reachable
    slave, setting an RX bit or an RWr register of the configured stations
    succeeds, reading it returns the new value, and all other bits and
    registers read as before. *)
Theorem own_signals_independent cfg s : config_typed cfg -> slave_reachable cfg s ->
  (forall n v, rx_number cfg n -> exists s', cls_iefb_set_rx_bit n v s = Done (tt, s', []) /\
    (forall m, rx_number cfg m -> exists b, cls_iefb_get_rx_bit m s = Done (b, s, []) /\
       cls_iefb_get_rx_bit m s' = Done (if m =? n then v else b, s', [])) /\
    (forall m, register_number cfg m -> exists w, cls_iefb_get_rwr_value m s = Done (w, s, []) /\
       cls_iefb_get_rwr_value m s' = Done (w, s', []))) /\
  (forall n v, register_number cfg n -> is_u16 v ->
   exists s', cls_iefb_set_rwr_value n v s = Done (tt, s', []) /\
    (forall m, register_number cfg m -> exists w, cls_iefb_get_rwr_value m s = Done (w, s, []) /\
       cls_iefb_get_rwr_value m s' = Done (if m =? n then v else w, s', [])) /\
    (forall m, rx_number cfg m -> exists b, cls_iefb_get_rx_bit m s = Done (b, s, []) /\
       cls_iefb_get_rx_bit m s' = Done (b, s', []))).
Proof.
  intros Hty Hreach. destruct (slave_reachable_inv cfg s Hty Hreach) as [Hcfg Hinv].
  pose proof (proj1 Hinv) as Hb. split; intros n v Hn; [|intros Hv].
  - destruct (set_rx_value cfg Hcfg s n v Hb Hn) as (g & Hset & Hrx & Hrwr).
    pose proof (set_rx_bit_good cfg n v s Hcfg Hinv Hn) as Hgood.
    unfold wp in Hgood. rewrite Hset in Hgood. destruct Hgood as [[Hb' _] _].
    eexists. split; [exact Hset|]. split; intros m Hm; eexists.
    + rewrite (get_rx_value cfg Hcfg) by assumption. split; [reflexivity|].
      rewrite (get_rx_value cfg Hcfg), Hrx by assumption. reflexivity.
    + rewrite (get_rwr_value cfg) by assumption. split; [reflexivity|].
      rewrite (get_rwr_value cfg), Hrwr by assumption. reflexivity.
  - destruct (set_rwr_value cfg Hcfg s n v Hb Hn Hv) as (g & Hset & Hrwr & Hrx).
    pose proof (set_rwr_value_good cfg n v s Hcfg Hinv Hn Hv) as Hgood.
    unfold wp in Hgood. rewrite Hset in Hgood. destruct Hgood as [[Hb' _] _].
    eexists. split; [exact Hset|]. split; intros m Hm; eexists.
    + rewrite (get_rwr_value cfg) by assumption. split; [reflexivity|].
      rewrite (get_rwr_value cfg), Hrwr by assumption. reflexivity.
    + rewrite (get_rx_value cfg Hcfg) by assumption. split; [reflexivity|].
      rewrite (get_rx_value cfg Hcfg), Hrx by assumption. reflexivity.
Qed.

End SlaveExchange.

(** ** Witnesses *)

Module ExchangeSample.
Import SampleHost SampleEnv.

Definition buffer (from seq transmission : Z) : list Z :=
  splice 0 (Sample.request_bytes from seq transmission) (zeros 1500).
Definition len : Z := 67 + 76 * 3.
Definition request (from seq transmission : Z) : cls_cciefb_cyclic_request_info :=
  match cl_iefb_parse_cyclic_request (buffer from seq transmission) len from 61450
          Sample.slave_ip with
  | Done (Some r) => r
  | _ => ClsRequestInfo 0 0 0 (c_dec c_cl_cciefb_cyclic_req_full_headers []) [] 0 None None
  end.

Lemma buffer_ok from seq transmission : is_u32 from -> is_u16 seq -> is_u16 transmission ->
  bytes (buffer from seq transmission) /\
  length (buffer from seq transmission) = Z.to_nat CL_BUFFER_LEN.
Proof.
  intros Hf Hs Ht. split.
  - apply bytes_splice; [apply Sample.request_bytes_ok; assumption | apply bytes_zeros].
  - unfold buffer. rewrite length_splice; [apply length_zeros|].
    destruct (Sample.dg_ok from seq transmission Hf Hs Ht) as [_ Hl _].
    rewrite length_zeros. unfold CL_BUFFER_LEN in Hl. cbn [Sample.dg dg_bytes] in Hl. lia.
Qed.

Lemma arrival from seq transmission : is_u32 from -> is_u16 seq -> is_u16 transmission ->
  cl_iefb_parse_cyclic_request (buffer from seq transmission) len from 61450 Sample.slave_ip =
    Done (Some (request from seq transmission)) ->
  arrives (buffer from seq transmission) len from 61450 Sample.slave_ip
    (request from seq transmission).
Proof.
  intros Hf Hs Ht Hparse. destruct (buffer_ok from seq transmission Hf Hs Ht).
  repeat split; try assumption; discriminate.
Qed.
End ExchangeSample.

Import SampleHost SampleEnv ExchangeSample.

Lemma fsm_event_terminates_witness :
  slave_reachable Sample.cfg Sample.connected /\
  exists s' o, fsm_event_loop 2 3000 None CLS_SLAVE_EVENT_TIMEOUT_MASTER Sample.connected =
    Done (true, s', o).
Proof.
  split; [exact Sample.connected_reachable|].
  destruct (fsm_event_terminates Sample.cfg Sample.connected 3000 None
    CLS_SLAVE_EVENT_TIMEOUT_MASTER Sample.slave_cfg_typed Sample.connected_reachable)
    as (s' & o & Hrun & _); [discriminate|]. exists s', o. exact Hrun.
Defined.

Lemma wrong_master_rejected_witness :
  exists s' o,
    cls_iefb_handle_cyclic_input_frame 3000 (buffer 0xC0A80302 1 6) len 0xC0A80302 61450
      Sample.slave_ip Sample.connected = Done (true, s', o) /\
    same_connection Sample.connected s'.
Proof.
  destruct (wrong_master_rejected Sample.cfg Sample.connected 3000 (buffer 0xC0A80302 1 6) len
    0xC0A80302 61450 Sample.slave_ip (request 0xC0A80302 1 6) Sample.slave_cfg_typed
    Sample.connected_reachable) as (s' & o & Hrun & _ & Hsame & _).
  - vm_compute. reflexivity.
  - apply arrival; [split; first [discriminate|reflexivity].. | vm_compute; reflexivity].
  - vm_compute. discriminate.
  - exists s', o. split; [exact Hrun | exact Hsame].
Defined.

Lemma cyclic_exchange_witness :
  from_our_master Sample.connected (request Sample.master_ip 1 6) /\
  exists s' o,
    cls_iefb_handle_cyclic_input_frame 3000 (buffer Sample.master_ip 1 6) len Sample.master_ip
      61450 Sample.slave_ip Sample.connected = Done (true, s', o) /\
    reads_data_of Sample.cfg s' (request Sample.master_ip 1 6) 2 true.
Proof.
  assert (Hours : from_our_master Sample.connected (request Sample.master_ip 1 6)).
  { repeat split; vm_compute; first [reflexivity | discriminate]. }
  split; [exact Hours|].
  destruct (cyclic_exchange Sample.cfg Sample.connected 3000 (buffer Sample.master_ip 1 6) len
    Sample.master_ip 61450 Sample.slave_ip (request Sample.master_ip 1 6) Sample.slave_cfg_typed
    Sample.connected_reachable) as (s' & o & Hrun & _ & Hread & _).
  - vm_compute. reflexivity.
  - apply arrival; [split; first [discriminate|reflexivity].. | vm_compute; reflexivity].
  - exact Hours.
  - assert (Hno : slave_station_no (master Sample.connected) = 2) by (vm_compute; reflexivity).
    assert (Hbit : my_transmission_bit Sample.connected (request Sample.master_ip 1 6) = true)
      by (vm_compute; reflexivity).
    rewrite Hno, Hbit in Hread. exists s', o. split; [exact Hrun | exact Hread].
Defined.

Lemma master_connects_witness :
  exists s' o,
    cls_iefb_handle_cyclic_input_frame 2000 (buffer Sample.master_ip 0 0) len Sample.master_ip
      61450 Sample.slave_ip Sample.init = Done (true, s', o) /\
    state s' = CLS_SLAVE_STATE_MASTER_CONTROL.
Proof.
  destruct (master_connects Sample.cfg Sample.init 2000 (buffer Sample.master_ip 0 0) len
    Sample.master_ip 61450 Sample.slave_ip (request Sample.master_ip 0 0) 2 Sample.slave_cfg_typed
    Sample.slave_init_reachable) as (s' & o & Hrun & _ & _ & Hst & _).
  - vm_compute. reflexivity.
  - apply arrival; [split; first [discriminate|reflexivity].. | vm_compute; reflexivity].
  - vm_compute. reflexivity.
  - vm_compute. reflexivity.
  - exists s', o. split; [exact Hrun | exact Hst].
Defined.

Lemma disabled_slave_silent_witness :
  state Sample.disabled = CLS_SLAVE_STATE_SLAVE_DISABLED /\
  exists s', cls_iefb_periodic (Some (Sample.dg Sample.master_ip 0 0)) 3000 Sample.disabled =
    Done (tt, s', []).
Proof.
  assert (Hst : state Sample.disabled = CLS_SLAVE_STATE_SLAVE_DISABLED)
    by (vm_compute; reflexivity).
  split; [exact Hst|].
  destruct (disabled_slave_silent Sample.cfg Sample.disabled
    (Some (Sample.dg Sample.master_ip 0 0)) 3000 Sample.slave_cfg_typed Sample.disabled_reachable Hst)
    as (s' & Hrun & _). exists s'. exact Hrun.
Defined.

Lemma master_supervision_witness :
  t_period (receive_timer Sample.connected) = 1500000 /\
  exists s' o, cls_iefb_periodic None (u32 1502000) Sample.connected = Done (tt, s', o) /\
    state s' = CLS_SLAVE_STATE_MASTER_NONE.
Proof.
  assert (Hp : t_period (receive_timer Sample.connected) = 1500000) by (vm_compute; reflexivity).
  split; [exact Hp|].
  destruct (master_supervision Sample.cfg Sample.connected 2000 1502000 Sample.slave_cfg_typed
    Sample.connected_reachable) as (s' & o & Hrun & _ & Hcase).
  - vm_compute. reflexivity.
  - vm_compute. reflexivity.
  - lia.
  - rewrite Hp in Hcase. exists s', o. split; [exact Hrun | apply Hcase].
Defined.

Lemma supervision_period_wraps_witness :
  let r := request Sample.master_ip 0 0 in
  asked_period r = 500 * 3 * 1000 /\
  exists s' o,
    cls_iefb_handle_cyclic_input_frame (u32 2000) (buffer Sample.master_ip 0 0) len Sample.master_ip
      61450 Sample.slave_ip Sample.init = Done (true, s', o) /\
    t_period (receive_timer s') = asked_period r.
Proof.
  intros r. split; [vm_compute; reflexivity|].
  destruct (supervision_period_wraps Sample.cfg Sample.init 2000 (buffer Sample.master_ip 0 0) len
    Sample.master_ip 61450 Sample.slave_ip r 2 Sample.slave_cfg_typed Sample.slave_init_reachable)
    as (s' & o & Hrun & _ & _ & Hiff & _).
  - left. vm_compute. reflexivity.
  - apply arrival; [split; first [discriminate|reflexivity].. | vm_compute; reflexivity].
  - split; vm_compute; reflexivity.
  - exists s', o. split; [exact Hrun|]. apply Hiff. vm_compute. reflexivity.
Defined.

(** New parameters of the master that the slave is connected to. *)
Lemma updated_parameters_supervised :
  let r := request Sample.master_ip 0 0 in
  offers_connection Sample.connected r /\
  exists s' o,
    cls_iefb_handle_cyclic_input_frame (u32 3000) (buffer Sample.master_ip 0 0) len Sample.master_ip
      61450 Sample.slave_ip Sample.connected = Done (true, s', o) /\
    receive_timer s' = Timer CL_TIMER_RUNNING (500 * 3 * 1000) 3000.
Proof.
  intros r. assert (Hoffer : offers_connection Sample.connected r).
  { right. split; [vm_compute; reflexivity|]. split; [vm_compute; reflexivity|].
    right. vm_compute. reflexivity. }
  split; [exact Hoffer|].
  destruct (slave_reachable_inv _ _ Sample.slave_cfg_typed Sample.connected_reachable) as [Hcfg Hinv].
  destruct (connection_monitored Sample.cfg Sample.connected (u32 3000) (buffer Sample.master_ip 0 0)
    len Sample.master_ip 61450 Sample.slave_ip r 2 Hcfg Hinv Hoffer)
    as (s' & o & Hrun & _ & _ & Htimer).
  - apply arrival; [split; first [discriminate|reflexivity].. | vm_compute; reflexivity].
  - split; vm_compute; reflexivity.
  - exists s', o. split; [exact Hrun | exact Htimer].
Qed.

Lemma own_signals_independent_witness :
  rx_number Sample.cfg 70 /\
  exists s', cls_iefb_set_rx_bit 70 true Sample.connected = Done (tt, s', []) /\
    cls_iefb_get_rx_bit 70 s' = Done (true, s', []).
Proof.
  assert (Hn : rx_number Sample.cfg 70) by (vm_compute; split; [discriminate|reflexivity]).
  split; [exact Hn|].
  destruct (own_signals_independent Sample.cfg Sample.connected Sample.slave_cfg_typed
    Sample.connected_reachable) as [Hrx _].
  destruct (Hrx 70 true Hn) as (s' & Hset & Hget & _). destruct (Hget 70 Hn) as (b & _ & Hb).
  exists s'. split; [exact Hset | exact Hb].
Defined.
