(* ===== verification/SlaveCalls.v ===== *)
(** * The calls of the slave that receive a datagram

    The periodic function of the API handles SLMP first, then at most one
    datagram of the cyclic communication, then the timers.  What a handler
    does to the instance and to the network is therefore what the call does,
    as long as the master is not given up in the same call. *)

From S2P Require Import Prelude Packed Signals Timer Limiter Util Types Iefb IefbFacts IefbRoundtrip.
From S2P Require Import Slmp SlmpFacts Slave SlaveIefb SlaveInv SlaveActions SlaveFsm SlaveSafety.
From S2P Require Import SlaveSlmp SlaveReach SlaveSignals SlaveProps SlaveExchange.

Section SlaveCalls.
Context `{ClsOptions, Clal, ClalNet, Host}.
Context (cfg : cls_cfg) (cfg_ok : config_ok cfg).

(** The instance when the handler is called: SLMP has run, and the datagram
    is in the receive buffer. *)
Definition receiving (s : cls) (data : list Z) (s2 : cls) : Prop :=
  exists s1, quiet s s1 /\ s2 = s1 <| cciefb_receivebuf := splice 0 data (cciefb_receivebuf s) |>.

(** No timer of the connection expires. *)
Definition in_time (now : Z) (s : cls) : Prop :=
  cl_timer_is_expired (receive_timer s) now = false /\
  cl_timer_is_expired (timer_for_disabling_slave s) now = false.

(** What the application and the master see of an instance. *)
Record same_view (s s' : cls) : Prop := {
  sv_state : state s' = state s;
  sv_master : master s' = master s;
  sv_timer : receive_timer s' = receive_timer s;
  sv_disable : timer_for_disabling_slave s' = timer_for_disabling_slave s;
  sv_area : cyclic_data_area s' = cyclic_data_area s;
  sv_data : own_data s' = own_data s;
  sv_config : config s' = config s;
  sv_notification : same_notification s s'
}.

Lemma same_view_trans s s1 s2 : same_view s s1 -> same_view s1 s2 -> same_view s s2.
Proof.
  intros [] [? ? ? ? ? ? ? (Hn1 & Hn2 & Hn3 & Hn4)]. split; try congruence.
  destruct sv_notification0 as (Hm1 & Hm2 & Hm3 & Hm4). repeat split; congruence.
Qed.

Lemma quiet_view s s' : quiet s s' -> same_view s s'.
Proof.
  intros ([] & Hn & _). split; try assumption.
  - unfold own_data. rewrite Hn, sc_config. reflexivity.
  - repeat split; assumption.
Qed.

Lemma receiving_view s data s2 : receiving s data s2 -> same_view s s2.
Proof.
  intros (s1 & Hq & ->). destruct (quiet_view _ _ Hq). split; assumption.
Qed.

Lemma receiving_inv s data s2 : slave_inv cfg s -> bytes data -> Z.of_nat (length data) <= CL_BUFFER_LEN ->
  receiving s data s2 ->
  slave_inv cfg s2 /\ cciefb_receivebuf s2 = splice 0 data (cciefb_receivebuf s).
Proof.
  intros Hinv Hd Hl (s1 & Hq & ->). split; [|reflexivity].
  pose proof (quiet_inv cfg s s1 Hinv Hq) as Hinv1.
  rewrite <- (sc_buf _ _ (proj1 Hq)). apply (receive_inv cfg s1 data Hinv1 Hd Hl).
Qed.

(** A connected slave that was heard in time. *)
Lemma connected_in_time s now : slave_inv cfg s -> state s = CLS_SLAVE_STATE_MASTER_CONTROL ->
  cl_timer_is_expired (receive_timer s) now = false -> in_time now s.
Proof.
  intros Hinv Hst Ht. split; [exact Ht|].
  destruct (control_connected cfg s Hinv Hst) as [_ Hd]. rewrite Hd. reflexivity.
Qed.

Lemma heard_now p now : 0 < p -> cl_timer_is_expired (Timer CL_TIMER_RUNNING p now) now = false.
Proof.
  intros Hp. unfold cl_timer_is_expired. cbn [t_state t_period t_timestamp].
  rewrite Z.sub_diag. change (u32 0) with 0. destruct (_ <? _); [reflexivity|].
  apply Z.leb_gt. exact Hp.
Qed.

(** The call around the handler. *)
Lemma periodic_receives slmp dg now s (K : cls -> list cls_output -> Prop) :
  0 < Z.of_nat (length (dg_bytes dg)) ->
  (forall s2, receiving s (dg_bytes dg) s2 ->
     wp (cls_iefb_handle_input_frame now (cciefb_receivebuf s2) (Z.of_nat (length (dg_bytes dg)))
           (dg_remote_ip dg) (dg_remote_port dg) (dg_local_ip dg))
       (fun _ s' o => in_time now s' /\ K s' o) s2) ->
  wp (run_call (HandlePeriodic slmp (Some dg)) now) (fun _ s3 o3 => exists s' o,
    K s' o /\ quiet s' s3 /\ sent_frames o3 = sent_frames o) s.
Proof.
  intros Hl Hhandle. cbn [run_call]. unfold cls_periodic. apply wp_bind.
  eapply wp_mono; [apply slmp_periodic_only|]. intros [] s1 o1 [Hq Ho1].
  unfold cls_iefb_periodic. apply wp_bind.
  eapply wp_mono with (Q := fun _ s' o => in_time now s' /\ K s' o).
  { apply wp_bind, wp_modify. cbn [app]. apply wp_bind, wp_get. cbn [app].
    apply wp_when; intros Hc; [|apply Z.ltb_ge in Hc; lia]. apply wp_bind.
    eapply wp_mono; [apply Hhandle|].
    - exists s1. split; [exact Hq|]. rewrite <- (sc_buf _ _ (proj1 Hq)). reflexivity.
    - intros b s' o HK. apply wp_ret. rewrite app_nil_r. exact HK. }
  intros [] s' o [[Ht Hd] HK]. apply wp_bind, wp_get, wp_bind, wp_skip; [exact Ht|].
  apply wp_bind, wp_get, wp_bind, wp_skip; [exact Hd|]. apply wp_modify.
  exists s', o. split; [exact HK|]. split; [repeat split|].
  rewrite !sent_frames_app, Ho1. cbn. rewrite app_nil_r. reflexivity.
Qed.

(** A call whose handler answers and leaves the slave connected. *)
Lemma periodic_answers slmp dg now s (P : cls -> list Z -> Prop) : slave_inv cfg s -> datagram_ok dg ->
  0 < Z.of_nat (length (dg_bytes dg)) ->
  (forall s2, same_view s s2 -> slave_inv cfg s2 -> exists s' o answer,
     cls_iefb_handle_input_frame now (splice 0 (dg_bytes dg) (cciefb_receivebuf s))
       (Z.of_nat (length (dg_bytes dg))) (dg_remote_ip dg) (dg_remote_port dg) (dg_local_ip dg) s2 =
       Done (true, s', o) /\
     sent_frames o = [(cciefb_socket s2, dg_remote_ip dg, dg_remote_port dg, answer)] /\
     state s' = CLS_SLAVE_STATE_MASTER_CONTROL /\
     cl_timer_is_expired (receive_timer s') now = false /\ P s' answer) ->
  exists s' s3 o answer,
    run_call (HandlePeriodic slmp (Some dg)) now s = Done (tt, s3, o) /\
    sent_frames o = [(cciefb_socket s, dg_remote_ip dg, dg_remote_port dg, answer)] /\
    P s' answer /\ same_view s' s3 /\ slave_inv cfg s' /\ slave_inv cfg s3.
Proof.
  intros Hinv [Hby Hlen Hlip] Hpos Hhandle.
  assert (Hw : wp (run_call (HandlePeriodic slmp (Some dg)) now) (fun _ s3 o3 => exists s' o,
    (slave_inv cfg s' /\ exists answer, P s' answer /\
     sent_frames o = [(cciefb_socket s, dg_remote_ip dg, dg_remote_port dg, answer)]) /\
    quiet s' s3 /\ sent_frames o3 = sent_frames o) s).
  { apply periodic_receives; [exact Hpos|]. intros s2 Hs2.
    destruct (receiving_inv s _ s2 Hinv Hby Hlen Hs2) as [Hinv2 ->].
    destruct (receive_inv cfg s _ Hinv Hby Hlen) as (_ & Hb & Hl).
    pose proof (input_good cfg cfg_ok now _ (Z.of_nat (length (dg_bytes dg))) (dg_remote_ip dg)
      (dg_remote_port dg) (dg_local_ip dg) s2 Hinv2 Hb Hl Hlen Hlip) as Hgood.
    pose proof (receiving_view _ _ _ Hs2) as Hview.
    destruct (Hhandle s2 Hview Hinv2) as (s' & o & answer & Hrun & Ho & Hst & Ht & HP).
    unfold wp in *. rewrite Hrun in *. destruct Hgood as [Hinv' _].
    split; [apply connected_in_time; assumption|]. split; [exact Hinv'|]. exists answer.
    split; [exact HP|]. rewrite Ho. rewrite (proj1 (sv_notification _ _ Hview)). reflexivity. }
  apply wp_done in Hw as ([] & s3 & o3 & Hrun & s' & o & (Hinv' & answer & HP & Ho) & Hq & Ho3).
  exists s', s3, o3, answer. split; [exact Hrun|]. split; [congruence|]. split; [exact HP|].
  split; [exact (quiet_view _ _ Hq)|]. split; [exact Hinv'|exact (quiet_inv cfg _ _ Hinv' Hq)].
Qed.

(** A call without a datagram of the cyclic communication. *)
Lemma periodic_silent slmp now s : in_time now s ->
  wp (run_call (HandlePeriodic slmp None) now) (fun _ s' _ => quiet s s') s.
Proof.
  intros [Ht Hd]. cbn [run_call]. unfold cls_periodic. apply wp_bind.
  eapply wp_mono; [apply slmp_periodic_only|]. intros [] s1 o1 [Hq _].
  unfold cls_iefb_periodic. apply wp_bind, wp_ret. apply wp_bind, wp_get, wp_bind, wp_skip.
  { rewrite (sc_receive_timer _ _ (proj1 Hq)). exact Ht. }
  apply wp_bind, wp_get, wp_bind, wp_skip; [rewrite (sc_disable_timer _ _ (proj1 Hq)); exact Hd|].
  apply wp_modify. destruct Hq as ([] & Hn & He). repeat split; assumption.
Qed.

(** The application reads the same after operations that keep the view. *)
Lemma view_reads s s' : slave_base cfg s -> slave_base cfg s' -> same_view s s' ->
  (forall n v, 0 <= n < 64 * num_occupied_stations cfg ->
     cls_iefb_get_ry_bit n s = Done (v, s, []) -> cls_iefb_get_ry_bit n s' = Done (v, s', [])) /\
  (forall n v, 0 <= n < 32 * num_occupied_stations cfg ->
     cls_iefb_get_rww_value n s = Done (v, s, []) -> cls_iefb_get_rww_value n s' = Done (v, s', [])).
Proof.
  intros Hb Hb' Hv. split; intros n v Hn.
  - rewrite (get_ry_value cfg s n Hb Hn), (get_ry_value cfg s' n Hb' Hn), (sv_area _ _ Hv).
    intros [= ->]. reflexivity.
  - rewrite (get_rww_value cfg s n Hb Hn), (get_rww_value cfg s' n Hb' Hn), (sv_area _ _ Hv).
    intros [= ->]. reflexivity.
Qed.

End SlaveCalls.
