(* ===== verification/SlaveApi.v ===== *)
(** * The API of the slave (src/src/slave/cls_api.c)

    Every function of the file, on handles; what an application can do with
    them, and that whatever it does every result has the range that the
    types and the documentation of the API declare. *)

From S2P Require Import Prelude Api Packed Signals Timer Limiter Util Types Iefb IefbFacts.
From S2P Require Import Slmp SlmpFacts Slave SlaveIefb SlaveInv SlaveActions SlaveFsm SlaveSafety.
From S2P Require Import SlaveSlmp SlaveReach SlaveSignals SlaveProps.

#[local] Open Scope Z_scope.

(** ** Definitions *)

Abbreviation cls_handle_prog := (handle_prog cls cls_output).

Section SlaveApi.
Context `{ClsOptions, Clal, ClalNet, Host}.

(** [now] is what [os_get_current_time_us] returns. *)
Definition cls_init_only (cfg : option cls_cfg) (now : Z) : cls_handle_prog Z :=
  null_returns (-1) (returns_int (cls_slave_init cfg now)).

Definition cls_init (memory_left : bool) (cfg : option cls_cfg) (now : Z)
  : outcome (option cls * list cls_output) :=
  allocate_and_init cls_zero memory_left (cls_init_only cfg now).

Definition cls_exit : cls_handle_prog Z := null_returns (-1) (returns_int cls_slave_exit).

(** What the sockets have received is an argument, as in [cls_periodic]. *)
Definition cls_handle_periodic (slmp_received cciefb_received : option datagram) (now : Z)
  : cls_handle_prog unit :=
  asserted (cls_slmp_periodic slmp_received now;; cls_iefb_periodic cciefb_received now).

Definition cls_stop_cyclic_data (is_error : bool) (now : Z) : cls_handle_prog unit :=
  asserted (cls_iefb_disable_slave now is_error).
Definition cls_restart_cyclic_data (now : Z) : cls_handle_prog unit :=
  asserted (cls_iefb_reenable_slave now).

(** Returns 0 and the timestamp, or -1 ([None]). *)
Definition cls_get_master_timestamp : cls_handle_prog (option Z) :=
  null_returns None (query cls_iefb_get_master_timestamp).

Definition cls_set_slave_application_status (slave_application_status : Z) : cls_handle_prog unit :=
  asserted (cls_iefb_set_slave_application_status slave_application_status).
Definition cls_get_slave_application_status : cls_handle_prog Z :=
  asserted (query cls_iefb_get_slave_application_status).
Definition cls_set_local_management_info (local_management_info : Z) : cls_handle_prog unit :=
  asserted (cls_iefb_set_local_management_info local_management_info).
Definition cls_get_local_management_info : cls_handle_prog Z :=
  asserted (query cls_iefb_get_local_management_info).
Definition cls_set_slave_error_code (slave_err_code : Z) : cls_handle_prog unit :=
  asserted (cls_iefb_set_slave_error_code slave_err_code).
Definition cls_get_slave_error_code : cls_handle_prog Z :=
  asserted (query cls_iefb_get_slave_error_code).

Definition cls_get_master_connection_details : cls_handle_prog (option cls_master_connection) :=
  null_returns None (query (fun cls => Some (cls_iefb_get_master_connection_details cls))).

(** Pointers to the areas; [None] for [NULL]. *)
Definition cls_get_first_rx_area : cls_handle_prog (option cls_area_pointer) :=
  null_returns None (query (fun cls => Some (cls_iefb_get_first_rx_area cls))).
Definition cls_get_first_ry_area : cls_handle_prog (option cls_area_pointer) :=
  null_returns None (query (fun cls => Some (cls_iefb_get_first_ry_area cls))).
Definition cls_get_first_rwr_area : cls_handle_prog (option cls_area_pointer) :=
  null_returns None (query (fun cls => Some (cls_iefb_get_first_rwr_area cls))).
Definition cls_get_first_rww_area : cls_handle_prog (option cls_area_pointer) :=
  null_returns None (query (fun cls => Some (cls_iefb_get_first_rww_area cls))).

Definition cls_set_rx_bit (number : Z) (value : bool) : cls_handle_prog unit :=
  asserted (cls_iefb_set_rx_bit number value).
Definition cls_get_rx_bit (number : Z) : cls_handle_prog bool :=
  asserted (cls_iefb_get_rx_bit number).
Definition cls_get_ry_bit (number : Z) : cls_handle_prog bool :=
  asserted (cls_iefb_get_ry_bit number).
Definition cls_set_rwr_value (number value : Z) : cls_handle_prog unit :=
  asserted (cls_iefb_set_rwr_value number value).
Definition cls_get_rwr_value (number : Z) : cls_handle_prog Z :=
  asserted (cls_iefb_get_rwr_value number).
Definition cls_get_rww_value (number : Z) : cls_handle_prog Z :=
  asserted (cls_iefb_get_rww_value number).

(** ** Calls, by the type of their results *)

Inductive cls_api : Type -> Type :=
| ApiHandlePeriodic (slmp_received cciefb_received : option datagram) : cls_api unit
| ApiStopCyclicData (is_error : bool) : cls_api unit
| ApiRestartCyclicData : cls_api unit
| ApiGetMasterTimestamp : cls_api (option Z)
| ApiSetSlaveApplicationStatus (status : Z) : cls_api unit
| ApiGetSlaveApplicationStatus : cls_api Z
| ApiSetLocalManagementInfo (info : Z) : cls_api unit
| ApiGetLocalManagementInfo : cls_api Z
| ApiSetSlaveErrorCode (code : Z) : cls_api unit
| ApiGetSlaveErrorCode : cls_api Z
| ApiGetMasterConnectionDetails : cls_api (option cls_master_connection)
| ApiGetFirstRxArea : cls_api (option cls_area_pointer)
| ApiGetFirstRyArea : cls_api (option cls_area_pointer)
| ApiGetFirstRwrArea : cls_api (option cls_area_pointer)
| ApiGetFirstRwwArea : cls_api (option cls_area_pointer)
| ApiSetRxBit (number : Z) (value : bool) : cls_api unit
| ApiGetRxBit (number : Z) : cls_api bool
| ApiGetRyBit (number : Z) : cls_api bool
| ApiSetRwrValue (number value : Z) : cls_api unit
| ApiGetRwrValue (number : Z) : cls_api Z
| ApiGetRwwValue (number : Z) : cls_api Z
| ApiStoreRxArea (off : Z) (data : list Z) : cls_api unit
| ApiStoreRwrArea (off : Z) (data : list Z) : cls_api unit.

Definition run_api {A} (c : cls_api A) (now : Z) : cls_handle_prog A :=
  match c in cls_api A return cls_handle_prog A with
  | ApiHandlePeriodic slmp_received cciefb_received =>
      cls_handle_periodic slmp_received cciefb_received now
  | ApiStopCyclicData is_error => cls_stop_cyclic_data is_error now
  | ApiRestartCyclicData => cls_restart_cyclic_data now
  | ApiGetMasterTimestamp => cls_get_master_timestamp
  | ApiSetSlaveApplicationStatus status => cls_set_slave_application_status status
  | ApiGetSlaveApplicationStatus => cls_get_slave_application_status
  | ApiSetLocalManagementInfo info => cls_set_local_management_info info
  | ApiGetLocalManagementInfo => cls_get_local_management_info
  | ApiSetSlaveErrorCode code => cls_set_slave_error_code code
  | ApiGetSlaveErrorCode => cls_get_slave_error_code
  | ApiGetMasterConnectionDetails => cls_get_master_connection_details
  | ApiGetFirstRxArea => cls_get_first_rx_area
  | ApiGetFirstRyArea => cls_get_first_ry_area
  | ApiGetFirstRwrArea => cls_get_first_rwr_area
  | ApiGetFirstRwwArea => cls_get_first_rww_area
  | ApiSetRxBit number value => cls_set_rx_bit number value
  | ApiGetRxBit number => cls_get_rx_bit number
  | ApiGetRyBit number => cls_get_ry_bit number
  | ApiSetRwrValue number value => cls_set_rwr_value number value
  | ApiGetRwrValue number => cls_get_rwr_value number
  | ApiGetRwwValue number => cls_get_rww_value number
  | ApiStoreRxArea off data => asserted (store_rx_area off data)
  | ApiStoreRwrArea off data => asserted (store_rwr_area off data)
  end.

(** The call of the transition system behind a function that changes the
    instance. *)
Definition call_of {A} (c : cls_api A) : option slave_call :=
  match c with
  | ApiHandlePeriodic slmp_received cciefb_received =>
      Some (HandlePeriodic slmp_received cciefb_received)
  | ApiStopCyclicData is_error => Some (StopCyclicData is_error)
  | ApiRestartCyclicData => Some RestartCyclicData
  | ApiSetSlaveApplicationStatus status => Some (SetApplicationStatus status)
  | ApiSetLocalManagementInfo info => Some (SetLocalManagementInfo info)
  | ApiSetSlaveErrorCode code => Some (SetErrorCode code)
  | ApiSetRxBit number value => Some (SetRxBit number value)
  | ApiSetRwrValue number value => Some (SetRwrValue number value)
  | ApiStoreRxArea off data => Some (StoreRxArea off data)
  | ApiStoreRwrArea off data => Some (StoreRwrArea off data)
  | _ => None
  end.

(** What the documentation of the API demands of the caller. *)
Definition api_args_ok (cfg : cls_cfg) {A} (c : cls_api A) : Prop :=
  match c with
  | ApiGetRxBit number | ApiGetRyBit number => rx_number cfg number
  | ApiGetRwrValue number | ApiGetRwwValue number => register_number cfg number
  | c => match call_of c with Some call => call_ok cfg call | None => True end
  end.

(** *** The ranges of the results *)

(** A pointer to [n] bytes that lie inside what it points into. *)
Definition bytes_inside_area (s : cls) (pointer : cls_area_pointer) (n : Z) : Prop :=
  match pointer with
  | InResponseFrame off =>
      let f := cciefb_resp_frame_normal s in
      sizeof c_cl_cciefb_cyclic_resp_full_headers <= off /\
      off + n <= ri_udp_payload_len f <= Z.of_nat (length (ri_buffer f))
  | InRyData => n <= Z.of_nat (length (ry (cyclic_data_area s)))
  | InRwwData => n <= Z.of_nat (length (rww (cyclic_data_area s)))
  end.

Definition connection_ok (cfg : cls_cfg) (details : cls_master_connection) : Prop :=
  details = cls_master_connection_zero \/
  (master_id details <> CL_IPADDR_INVALID /\ 1 <= group_no details <= 64 /\
   1 <= slave_station_no details /\
   slave_station_no details + num_occupied_stations cfg - 1 <=
     total_occupied_station_count details <= 16).

(** The result [r] of a call on an instance [s]. *)
Definition api_result_ok (cfg : cls_cfg) {A} (c : cls_api A) (s : cls) : A -> Prop :=
  match c in cls_api A return A -> Prop with
  | ApiGetSlaveApplicationStatus => fun r => 0 <= r <= 1
  | ApiGetLocalManagementInfo => is_u32
  | ApiGetSlaveErrorCode | ApiGetRwrValue _ | ApiGetRwwValue _ => is_u16
  | ApiGetMasterConnectionDetails => fun r =>
      exists details, r = Some details /\ connection_ok cfg details
  | ApiGetFirstRxArea | ApiGetFirstRyArea => fun r =>
      exists pointer, r = Some pointer /\ bytes_inside_area s pointer (8 * num_occupied_stations cfg)
  | ApiGetFirstRwrArea | ApiGetFirstRwwArea => fun r =>
      exists pointer, r = Some pointer /\ bytes_inside_area s pointer (64 * num_occupied_stations cfg)
  | _ => fun _ => True
  end.

(** What a call on [NULL] returns; [None] when it stops at an assertion. *)
Definition null_result {A} (c : cls_api A) : option A :=
  match c in cls_api A return option A with
  | ApiGetMasterTimestamp => Some None
  | ApiGetMasterConnectionDetails => Some None
  | ApiGetFirstRxArea | ApiGetFirstRyArea | ApiGetFirstRwrArea | ApiGetFirstRwwArea => Some None
  | _ => None
  end.

Definition api_runs (cfg : cls_cfg) {A} (c : cls_api A) (now : Z) (s : cls) : Prop :=
  exists r s' o, run_api c now (Some s) = Done (r, Some s', o) /\ api_result_ok cfg c s r /\
    slave_reachable cfg s' /\ (call_of c = None -> s' = s /\ o = []).

(** ** Lemmas *)

Section Instance.
Context (cfg : cls_cfg) (s : cls) (typed : config_typed cfg) (reachable : slave_reachable cfg s).

(** A function that only reads. *)
Lemma slave_query_runs {A} (c : cls_api A) now r : run_api c now (Some s) = Done (r, Some s, []) ->
  api_result_ok cfg c s r -> api_runs cfg c now s.
Proof. intros Hrun Hr. exists r, s, []. auto. Qed.

(** A function that changes the instance. *)
Lemma slave_unit_runs (c : cls_api unit) call now : call_of c = Some call -> call_ok cfg call ->
  (forall r, api_result_ok cfg c s r) -> run_api c now = asserted (run_call call now) ->
  api_runs cfg c now s.
Proof.
  intros Hcall Hok Hr Hrun. destruct (slave_reachable_inv cfg s typed reachable) as [Hcfg Hinv].
  pose proof (call_good cfg call now s Hcfg Hinv Hok) as Hw. apply wp_done in Hw.
  destruct Hw as ([] & s' & o & Hdone & _). exists tt, s', o.
  split; [rewrite Hrun; exact (on_instance_done _ _ _ _ _ _ Hdone)|]. split; [apply Hr|].
  split; [exact (reach_call cfg call now s s' o reachable Hok Hdone)|]. rewrite Hcall. discriminate.
Qed.

Lemma register_range mem n : bytes mem -> is_u16 (register_in mem n).
Proof.
  intros Hb. unfold register_in. set (off := Z.to_nat _).
  pose proof (le_combine_range (slice off 2 mem) (bytes_slice _ _ _ Hb)) as Hr.
  assert (Hlen : (length (slice off 2 mem) <= 2)%nat) by (unfold slice; rewrite length_take; lia).
  split; [apply Hr|]. eapply Z.lt_le_trans; [apply Hr|]. apply Z.pow_le_mono_r; lia.
Qed.

Lemma connection_details_ok : slave_inv cfg s -> connection_ok cfg (master s).
Proof.
  intros [_ Hc]. unfold slave_control, connected, not_connected in Hc. unfold connection_ok.
  destruct (state s); try contradiction; tauto.
Qed.

Lemma areas_inside : config_ok cfg -> slave_base cfg s ->
  bytes_inside_area s (cls_iefb_get_first_rx_area s) (8 * num_occupied_stations cfg) /\
  bytes_inside_area s (cls_iefb_get_first_ry_area s) (8 * num_occupied_stations cfg) /\
  bytes_inside_area s (cls_iefb_get_first_rwr_area s) (64 * num_occupied_stations cfg) /\
  bytes_inside_area s (cls_iefb_get_first_rww_area s) (64 * num_occupied_stations cfg).
Proof.
  intros Hcfg Hb. pose proof (config_stations cfg Hcfg). pose proof CLS_MAX_ok.
  pose proof (buffer_length cfg s Hb) as Hlen.
  destruct (sb_normal _ _ Hb) as (Hpl & Hrwr & Hrx & _). destruct (sb_ry _ _ Hb) as [Hry _].
  destruct (sb_rww _ _ Hb) as [Hrww _]. cbn -[Z.mul sizeof]. rewrite Hpl, Hrwr, Hrx, Hlen, Hry, Hrww.
  change (sizeof c_cl_cciefb_cyclic_resp_full_headers) with 59. unfold sizeof_ry, sizeof_rww. lia.
Qed.

Lemma slave_api_call_runs A (c : cls_api A) now : api_args_ok cfg c -> api_runs cfg c now s.
Proof.
  intros Hargs. destruct (slave_reachable_inv cfg s typed reachable) as [Hcfg Hinv].
  pose proof (proj1 Hinv) as Hb. pose proof (areas_inside Hcfg Hb) as (Hx & Hy & Hr & Hw).
  destruct c; cbn in Hargs;
    try (eapply slave_unit_runs; [reflexivity|exact Hargs|exact (fun _ => I)|reflexivity]).
  - eapply slave_query_runs; [reflexivity|exact I].
  - eapply slave_query_runs; [reflexivity|apply Hb].
  - eapply slave_query_runs; [reflexivity|apply Hb].
  - eapply slave_query_runs; [reflexivity|apply Hb].
  - eapply slave_query_runs; [reflexivity|]. eexists. split; [reflexivity|exact (connection_details_ok Hinv)].
  - eapply slave_query_runs; [reflexivity|]. eexists. split; [reflexivity|exact Hx].
  - eapply slave_query_runs; [reflexivity|]. eexists. split; [reflexivity|exact Hy].
  - eapply slave_query_runs; [reflexivity|]. eexists. split; [reflexivity|exact Hr].
  - eapply slave_query_runs; [reflexivity|]. eexists. split; [reflexivity|exact Hw].
  - eapply slave_query_runs; [apply on_instance_done; eapply get_rx_value; eassumption|exact I].
  - eapply slave_query_runs; [apply on_instance_done; eapply get_ry_value; eassumption|exact I].
  - eapply slave_query_runs; [apply on_instance_done; eapply get_rwr_value; eassumption|].
    apply register_range, bytes_drop.
    destruct (sb_normal _ _ Hb) as (_ & _ & _ & ? & ? & ? & ? & ? & ? & ? & Hs). apply Hs.
  - eapply slave_query_runs; [apply on_instance_done; eapply get_rww_value; eassumption|].
    apply register_range, Hb.
Qed.
End Instance.

(** C22: The results of the slave's API have the types it declares.  The
    start returns [NULL] or a handle to a started instance of the
    configuration.  On such a handle, and after any calls with admissible
    arguments, every function of the API returns: it stops at no assertion
    and its result is in its range.  Registers and the error code have 16
    bits, the management information 32; the connection details are cleared
    or tell a master whose group contains all stations of the slave; the
    areas that the pointers lead to lie inside the frame that is sent or the
    data that was received, for all configured stations.  Functions that only
    read leave the instance alone.  On [NULL] the functions that can report
    an error do, the others stop at their assertion. *)
Theorem slave_api_results_typed cfg : config_typed cfg ->
  (forall memory_left now, exists handle o,
     cls_init memory_left (Some cfg) now = Done (handle, o) /\
     forall s, handle = Some s -> slave_reachable cfg s) /\
  (forall A (c : cls_api A) now s, slave_reachable cfg s -> api_args_ok cfg c ->
     api_runs cfg c now s) /\
  (forall A (c : cls_api A) now, run_api c now None =
     match null_result c with Some r => Done (r, None, []) | None => AssertFailed end).
Proof.
  intros Hty. split; [|split].
  - intros memory_left now. pose proof (init_started cfg now cls_zero Hty) as Hw.
    apply wp_done in Hw as (b & s & o & Hrun & _).
    destruct (allocation_runs cls_zero memory_left _ b s o Hrun) as (handle & o' & Hinit).
    exists handle, o'. split; [exact Hinit|]. intros s1 ->.
    destruct (allocated_started _ _ _ _ _ Hinit) as [Hx|(s2 & [= ->] & Hrun2)]; [discriminate Hx|].
    exact (reach_init cfg now cls_zero s2 o' Hrun2).
  - intros A c now s Hs Hargs. exact (slave_api_call_runs cfg s Hty Hs A c now Hargs).
  - intros A c now. destruct c; reflexivity.
Qed.
End SlaveApi.

(** ** Example *)

Section ApiWitness.
Import SampleHost SampleEnv SlaveProps.Sample.

Lemma slave_api_results_typed_witness : exists details,
  run_api ApiGetMasterConnectionDetails 5000 (Some connected) =
    Done (Some details, Some connected, []) /\ connection_ok cfg details.
Proof.
  destruct (slave_api_results_typed cfg slave_cfg_typed) as (_ & Hcalls & _).
  destruct (Hcalls _ ApiGetMasterConnectionDetails 5000 connected connected_reachable I)
    as (r & s' & o & Hrun & (details & -> & Hok) & _ & Hsame).
  destruct (Hsame eq_refl) as [-> ->]. exists details. split; [exact Hrun|exact Hok].
Defined.
End ApiWitness.
