(* ===== verification/Master.v ===== *)
(** * Data of the master (src/src/common/cl_types.h, src/include/clm_api.h)

    The configuration, the state of groups and slave devices, the instance,
    and what the environment observes of it.  Arrays are lists of the length
    the C declaration gives; [group_at] and its kin are the array accesses. *)

From S2P Require Import Prelude Packed Timer Limiter Util Types Iefb.
From S2P Require Import Slmp.

(** Compile-time options, with the limits that clm_master.c checks. *)
Class ClmOptions := {
  CLM_MAX_GROUPS : Z;
  CLM_MAX_OCCUPIED_STATIONS_PER_GROUP : Z;
  CLM_MAX_NODE_SEARCH_DEVICES : Z;
  clm_max_groups_ok : 1 <= CLM_MAX_GROUPS <= 64;
  clm_max_stations_ok : 1 <= CLM_MAX_OCCUPIED_STATIONS_PER_GROUP <= 16;
  clm_max_node_search_ok : 0 <= CLM_MAX_NODE_SEARCH_DEVICES
}.

(** ** Enumerations *)

Inductive clm_master_state :=
| CLM_MASTER_STATE_DOWN
| CLM_MASTER_STATE_STANDBY
| CLM_MASTER_STATE_ARBITRATION
| CLM_MASTER_STATE_RUNNING.
#[export] Instance clm_master_state_eq_dec : EqDecision clm_master_state.
Proof. solve_decision. Defined.

Inductive clm_group_state :=
| CLM_GROUP_STATE_MASTER_DOWN
| CLM_GROUP_STATE_MASTER_LISTEN
| CLM_GROUP_STATE_MASTER_ARBITRATION
| CLM_GROUP_STATE_MASTER_LINK_SCAN_COMP
| CLM_GROUP_STATE_MASTER_LINK_SCAN
| CLM_GROUP_STATE_LAST.
#[export] Instance clm_group_state_eq_dec : EqDecision clm_group_state.
Proof. solve_decision. Defined.

Inductive clm_device_state :=
| CLM_DEVICE_STATE_MASTER_DOWN
| CLM_DEVICE_STATE_LISTEN
| CLM_DEVICE_STATE_WAIT_TD
| CLM_DEVICE_STATE_CYCLIC_SUSPEND
| CLM_DEVICE_STATE_CYCLIC_SENT
| CLM_DEVICE_STATE_CYCLIC_SENDING
| CLM_DEVICE_STATE_LAST.
#[export] Instance clm_device_state_eq_dec : EqDecision clm_device_state.
Proof. solve_decision. Defined.

Inductive clm_group_event :=
| CLM_GROUP_EVENT_NONE
| CLM_GROUP_EVENT_STARTUP
| CLM_GROUP_EVENT_PARAMETER_CHANGE
| CLM_GROUP_EVENT_NEW_CONFIG
| CLM_GROUP_EVENT_ARBITRATION_DONE
| CLM_GROUP_EVENT_REQ_FROM_OTHER
| CLM_GROUP_EVENT_MASTERDUPL_ALARM
| CLM_GROUP_EVENT_LINKSCAN_START
| CLM_GROUP_EVENT_LINKSCAN_TIMEOUT
| CLM_GROUP_EVENT_LINKSCAN_COMPLETE
| CLM_GROUP_EVENT_LAST.
#[export] Instance clm_group_event_eq_dec : EqDecision clm_group_event.
Proof. solve_decision. Defined.

Inductive clm_device_event :=
| CLM_DEVICE_EVENT_NONE
| CLM_DEVICE_EVENT_GROUP_STARTUP
| CLM_DEVICE_EVENT_GROUP_STANDBY
| CLM_DEVICE_EVENT_GROUP_TIMEOUT
| CLM_DEVICE_EVENT_GROUP_ALL_RESPONDED
| CLM_DEVICE_EVENT_RECEIVE_OK
| CLM_DEVICE_EVENT_RECEIVE_ERROR
| CLM_DEVICE_EVENT_SCAN_START_DEVICE_START
| CLM_DEVICE_EVENT_SCAN_START_DEVICE_STOP
| CLM_DEVICE_EVENT_TIMEOUTCOUNTER_FULL
| CLM_DEVICE_EVENT_TIMEOUTCOUNTER_NOT_FULL
| CLM_DEVICE_EVENT_SLAVE_DUPLICATION
| CLM_DEVICE_EVENT_LAST.
#[export] Instance clm_device_event_eq_dec : EqDecision clm_device_event.
Proof. solve_decision. Defined.

Inductive clm_error_message :=
| CLM_ERROR_ARBITRATION_FAILED
| CLM_ERROR_SLAVE_DUPLICATION
| CLM_ERROR_SLAVE_REPORTS_WRONG_NUMBER_OCCUPIED
| CLM_ERROR_SLAVE_REPORTS_MASTER_DUPLICATION.

(** The value of the enumeration, used as message number of the limiter. *)
Definition clm_error_message_number (m : clm_error_message) : Z :=
  match m with
  | CLM_ERROR_ARBITRATION_FAILED => 0
  | CLM_ERROR_SLAVE_DUPLICATION => 1
  | CLM_ERROR_SLAVE_REPORTS_WRONG_NUMBER_OCCUPIED => 2
  | CLM_ERROR_SLAVE_REPORTS_MASTER_DUPLICATION => 3
  end.

Inductive clm_master_setip_status :=
| CLM_MASTER_SET_IP_STATUS_SUCCESS
| CLM_MASTER_SET_IP_STATUS_ERROR
| CLM_MASTER_SET_IP_STATUS_TIMEOUT.

(** ** Configuration *)

Record clm_slave_device_setting := ClmSlaveDeviceSetting {
  ds_slave_id : Z;
  ds_num_occupied_stations : Z;
  ds_reserved_slave_device : bool
}.
#[export] Instance clm_slave_device_setting_inhabited : Inhabited clm_slave_device_setting :=
  populate (ClmSlaveDeviceSetting 0 0 false).

Record clm_group_setting := ClmGroupSetting {
  gs_timeout_value : Z;
  gs_parallel_off_timeout_count : Z;
  gs_use_constant_link_scan_time : bool;
  gs_num_slave_devices : Z;
  gs_slave_devices : list clm_slave_device_setting
}.
#[export] Instance clm_group_setting_inhabited : Inhabited clm_group_setting :=
  populate (ClmGroupSetting 0 0 false 0 []).

Record clm_slave_hierarchy := ClmSlaveHierarchy {
  sh_number_of_groups : Z;
  sh_groups : list clm_group_setting
}.

(** A callback field says whether the callback is given. *)
Record clm_cfg := ClmCfg {
  mc_state_cb : bool;
  mc_connect_cb : bool;
  mc_disconnect_cb : bool;
  mc_linkscan_cb : bool;
  mc_alarm_cb : bool;
  mc_error_cb : bool;
  mc_changed_slave_info_cb : bool;
  mc_node_search_cfm_cb : bool;
  mc_set_ip_cfm_cb : bool;
  mc_hier : clm_slave_hierarchy;
  mc_protocol_ver : Z;
  mc_arbitration_time : Z;
  mc_callback_time_node_search : Z;
  mc_callback_time_set_ip : Z;
  mc_max_statistics_samples : Z;
  mc_use_separate_arbitration_socket : bool;
  mc_use_slmp_directed_broadcast : bool;
  mc_use_single_slmp_socket : bool;
  mc_master_id : Z
}.

Definition setting_of_group (cfg : clm_cfg) (g : Z) : clm_group_setting :=
  sh_groups (mc_hier cfg) !!! Z.to_nat g.
Definition setting_of_device (group_setting : clm_group_setting) (d : Z)
  : clm_slave_device_setting := gs_slave_devices group_setting !!! Z.to_nat d.

(** ** State of a slave device in the master *)

Record clm_device_framevalues := ClmDeviceFramevalues {
  fv_has_been_received : bool;
  fv_num_occupied_stations : Z;
  fv_protocol_ver : Z;
  fv_end_code : Z;
  fv_vendor_code : Z;
  fv_model_code : Z;
  fv_equipment_ver : Z;
  fv_slave_local_unit_info : Z;
  fv_local_management_info : Z;
  fv_slave_err_code : Z;
  fv_slave_id : Z;
  fv_group_no : Z;
  fv_frame_sequence_no : Z;
  fv_response_time : Z
}.
Definition clm_device_framevalues_zero : clm_device_framevalues :=
  ClmDeviceFramevalues false 0 0 0 0 0 0 0 0 0 0 0 0 0.

Record clm_slave_device_time_statistics := ClmTimeStatistics {
  ts_number_of_samples : Z;
  ts_sum : Z;
  ts_min : Z;
  ts_average : Z;
  ts_max : Z
}.
#[export] Instance clm_slave_device_time_statistics_settable :
  Settable clm_slave_device_time_statistics := fun t =>
  ClmTimeStatistics (ts_number_of_samples t) (ts_sum t) (ts_min t) (ts_average t) (ts_max t).

Record clm_slave_device_statistics := ClmStatistics {
  st_number_of_connects : Z;
  st_number_of_disconnects : Z;
  st_number_of_timeouts : Z;
  st_number_of_sent_frames : Z;
  st_number_of_incoming_frames : Z;
  st_number_of_incoming_alarm_frames : Z;
  st_number_of_incoming_invalid_frames : Z;
  st_measured_time : clm_slave_device_time_statistics
}.
#[export] Instance clm_slave_device_statistics_settable : Settable clm_slave_device_statistics :=
  fun s => ClmStatistics (st_number_of_connects s) (st_number_of_disconnects s)
    (st_number_of_timeouts s) (st_number_of_sent_frames s) (st_number_of_incoming_frames s)
    (st_number_of_incoming_alarm_frames s) (st_number_of_incoming_invalid_frames s)
    (st_measured_time s).
Definition clm_statistics_zero : clm_slave_device_statistics :=
  ClmStatistics 0 0 0 0 0 0 0 (ClmTimeStatistics 0 0 0 0 0).

Record clm_slave_device_data := ClmSlaveDeviceData {
  d_device_index : Z;
  d_enabled : bool;
  d_transmission_bit : bool;
  d_force_transmission_bit : bool;
  d_timeout_count : Z;
  d_slave_station_no : Z;
  d_device_state : clm_device_state;
  d_latest_frame : clm_device_framevalues;
  d_statistics : clm_slave_device_statistics
}.
#[export] Instance clm_slave_device_data_settable : Settable clm_slave_device_data := fun d =>
  ClmSlaveDeviceData (d_device_index d) (d_enabled d) (d_transmission_bit d)
    (d_force_transmission_bit d) (d_timeout_count d) (d_slave_station_no d) (d_device_state d)
    (d_latest_frame d) (d_statistics d).
Definition clm_slave_device_data_zero : clm_slave_device_data :=
  ClmSlaveDeviceData 0 false false false 0 0 CLM_DEVICE_STATE_MASTER_DOWN
    clm_device_framevalues_zero clm_statistics_zero.
#[export] Instance clm_slave_device_data_inhabited : Inhabited clm_slave_device_data :=
  populate clm_slave_device_data_zero.

(** ** State of a group *)

(** One list of bytes per area. *)
Record clm_group_memory_area := ClmGroupMemoryArea {
  ma_rx : list Z;
  ma_ry : list Z;
  ma_rwr : list Z;
  ma_rww : list Z
}.
#[export] Instance clm_group_memory_area_settable : Settable clm_group_memory_area := fun a =>
  ClmGroupMemoryArea (ma_rx a) (ma_ry a) (ma_rwr a) (ma_rww a).

(** The send buffer is the buffer of the request frame. *)
Record clm_group_data := ClmGroupData {
  g_group_index : Z;
  g_total_occupied : Z;
  g_frame_sequence_no : Z;
  g_cyclic_transmission_state : Z;
  g_timestamp_link_scan_start : Z;
  g_group_state : clm_group_state;
  g_response_wait_timer : cl_timer;
  g_constant_linkscan_timer : cl_timer;
  g_req_frame : clm_cciefb_cyclic_request_info;
  g_slave_devices : list clm_slave_device_data;
  g_memory_area : clm_group_memory_area
}.
#[export] Instance clm_group_data_settable : Settable clm_group_data := fun g =>
  ClmGroupData (g_group_index g) (g_total_occupied g) (g_frame_sequence_no g)
    (g_cyclic_transmission_state g) (g_timestamp_link_scan_start g) (g_group_state g)
    (g_response_wait_timer g) (g_constant_linkscan_timer g) (g_req_frame g) (g_slave_devices g)
    (g_memory_area g).

Definition clm_request_info_zero : clm_cciefb_cyclic_request_info :=
  ClmRequestInfo (zeros (Z.to_nat CL_BUFFER_LEN)) 0 0 0 0 0.
Definition clm_group_memory_area_zero `{ClmOptions} : clm_group_memory_area :=
  let n := CLM_MAX_OCCUPIED_STATIONS_PER_GROUP in
  ClmGroupMemoryArea (zeros (Z.to_nat (n * sizeof_rx))) (zeros (Z.to_nat (n * sizeof_ry)))
    (zeros (Z.to_nat (n * sizeof_rwr))) (zeros (Z.to_nat (n * sizeof_rww))).
Definition clm_group_data_zero `{ClmOptions} : clm_group_data :=
  ClmGroupData 0 0 0 0 0 CLM_GROUP_STATE_MASTER_DOWN cl_timer_zero cl_timer_zero
    clm_request_info_zero
    (replicate (Z.to_nat CLM_MAX_OCCUPIED_STATIONS_PER_GROUP) clm_slave_device_data_zero)
    clm_group_memory_area_zero.
#[export] Instance clm_group_data_inhabited : Inhabited clm_group_data :=
  populate (ClmGroupData 0 0 0 0 0 CLM_GROUP_STATE_MASTER_DOWN cl_timer_zero cl_timer_zero
    clm_request_info_zero [] (ClmGroupMemoryArea [] [] [] [])).

Definition device_at (group_data : clm_group_data) (d : Z) : clm_slave_device_data :=
  g_slave_devices group_data !!! Z.to_nat d.

(** ** State machine tables *)

(** The functions the tables point to. *)
Inductive clm_device_action :=
| clm_iefb_device_init
| clm_iefb_set_data_ip
| clm_iefb_evaluate_timeoutcounter
| clm_iefb_reset_timeout_count.

Inductive clm_group_action :=
| clm_iefb_group_init
| clm_iefb_group_new_config
| clm_iefb_on_arbitration_failed
| clm_iefb_on_arbitration_done
| clm_iefb_on_linkscan_start
| clm_iefb_on_linkscan_timeout
| clm_iefb_on_linkscan_complete
| clm_iefb_group_on_entry_listen
| clm_iefb_group_on_entry_arbitration
| clm_iefb_group_on_entry_scan_complete.

Record clm_device_fsm := ClmDeviceFsm {
  dfsm_next : clm_device_state;
  dfsm_action : option clm_device_action
}.
Record clm_device_fsm_entry_exit := ClmDeviceFsmEntryExit {
  dfsm_on_entry : option clm_device_action;
  dfsm_on_exit : option clm_device_action
}.
Record clm_group_fsm := ClmGroupFsm {
  gfsm_next : clm_group_state;
  gfsm_action : option clm_group_action
}.
Record clm_group_fsm_entry_exit := ClmGroupFsmEntryExit {
  gfsm_on_entry : option clm_group_action;
  gfsm_on_exit : option clm_group_action
}.

(** ** The instance *)

Record clm_node_search_response_entry := ClmNodeSearchResponseEntry {
  ne_slave_id : Z;
  ne_slave_netmask : Z;
  ne_slave_mac_addr : list Z;
  ne_vendor_code : Z;
  ne_model_code : Z;
  ne_equipment_ver : Z
}.

Definition clm_node_search_response_entry_zero : clm_node_search_response_entry :=
  ClmNodeSearchResponseEntry 0 0 (zeros 6) 0 0 0.

Record clm_node_search_db := ClmNodeSearchDb {
  nd_count : Z;
  nd_stored : Z;
  nd_entries : list clm_node_search_response_entry
}.
#[export] Instance clm_node_search_db_settable : Settable clm_node_search_db := fun n =>
  ClmNodeSearchDb (nd_count n) (nd_stored n) (nd_entries n).

(** Without the names of the network interface and of the directory of the
    settings file. *)
Record clm := Clm {
  m_slmp_broadcast_ip : Z;
  m_iefb_broadcast_ip : Z;
  m_master_netmask : Z;
  m_mac_address : list Z;
  m_ifindex : Z;
  m_latest_conflicting_master_ip : Z;
  m_config : clm_cfg;
  m_device_fsm_matrix : clm_device_state -> clm_device_event -> clm_device_fsm;
  m_device_fsm_on_entry_exit : clm_device_state -> clm_device_fsm_entry_exit;
  m_group_fsm_matrix : clm_group_state -> clm_group_event -> clm_group_fsm;
  m_group_fsm_on_entry_exit : clm_group_state -> clm_group_fsm_entry_exit;
  m_slmp_request_serial : Z;
  m_master_state : clm_master_state;
  m_parameter_no : Z;
  m_master_local_unit_info : Z;
  m_arbitration_timer : cl_timer;
  m_node_search_serial : Z;
  m_node_search_timer : cl_timer;
  m_set_ip_request_serial : Z;
  m_set_ip_request_timer : cl_timer;
  m_node_search_db : clm_node_search_db;
  m_groups : list clm_group_data;
  m_errorlimiter : cl_limiter;
  m_cciefb_socket : Z;
  m_cciefb_arbitration_socket : Z;
  m_slmp_send_socket : Z;
  m_slmp_receive_socket : Z;
  m_cciefb_receivebuf : list Z;
  m_slmp_receivebuf : list Z;
  m_slmp_sendbuf : list Z
}.
#[export] Instance clm_settable : Settable clm := fun m =>
  Clm (m_slmp_broadcast_ip m) (m_iefb_broadcast_ip m) (m_master_netmask m) (m_mac_address m)
    (m_ifindex m) (m_latest_conflicting_master_ip m) (m_config m) (m_device_fsm_matrix m)
    (m_device_fsm_on_entry_exit m) (m_group_fsm_matrix m) (m_group_fsm_on_entry_exit m)
    (m_slmp_request_serial m) (m_master_state m) (m_parameter_no m) (m_master_local_unit_info m)
    (m_arbitration_timer m) (m_node_search_serial m) (m_node_search_timer m)
    (m_set_ip_request_serial m) (m_set_ip_request_timer m) (m_node_search_db m) (m_groups m)
    (m_errorlimiter m) (m_cciefb_socket m) (m_cciefb_arbitration_socket m)
    (m_slmp_send_socket m) (m_slmp_receive_socket m) (m_cciefb_receivebuf m)
    (m_slmp_receivebuf m) (m_slmp_sendbuf m).

(** An instance in memory that was cleared. *)
Definition clm_zero `{ClmOptions} : clm :=
  let buffer := zeros (Z.to_nat CL_BUFFER_LEN) in
  let groups := Z.to_nat CLM_MAX_GROUPS in
  Clm 0 0 0 (zeros 6) 0 0
    (ClmCfg false false false false false false false false false
       (ClmSlaveHierarchy 0 (replicate groups inhabitant)) 0 0 0 0 0 false false false 0)
    (fun _ _ => ClmDeviceFsm CLM_DEVICE_STATE_MASTER_DOWN None)
    (fun _ => ClmDeviceFsmEntryExit None None)
    (fun _ _ => ClmGroupFsm CLM_GROUP_STATE_MASTER_DOWN None)
    (fun _ => ClmGroupFsmEntryExit None None)
    0 CLM_MASTER_STATE_DOWN 0 0 cl_timer_zero 0 cl_timer_zero 0 cl_timer_zero
    (ClmNodeSearchDb 0 0
       (replicate (Z.to_nat CLM_MAX_NODE_SEARCH_DEVICES) clm_node_search_response_entry_zero))
    (replicate groups clm_group_data_zero)
    (Limiter cl_timer_zero 0 0 0 0) 0 0 0 0 buffer buffer buffer.

(** What the environment observes. *)
Inductive clm_output :=
| ClmCciefbOpen (local_ip port : Z)
| ClmCciefbSendto (socket remote_ip remote_port : Z) (frame : list Z)
| ClmCciefbClose (socket : Z)
| ClmSlmpUdp (e : udp_event)
| ClmStateCb (state : clm_master_state)
| ClmConnectCb (group_index slave_device_index slave_id : Z)
| ClmDisconnectCb (group_index slave_device_index slave_id : Z)
| ClmLinkscanCb (group_index : Z) (success : bool)
| ClmAlarmCb (group_index slave_device_index end_code slave_err_code local_management_info : Z)
| ClmErrorCb (error_message : clm_error_message) (ip_addr argument_2 : Z)
| ClmChangedSlaveInfoCb (group_index slave_device_index end_code slave_err_code
    local_management_info : Z)
| ClmNodeSearchCfmCb (db : clm_node_search_db)
| ClmSetIpCfmCb (status : clm_master_setip_status)
| ClmSaveParameterNo (parameter_no : Z).

Definition clm_prog (A : Type) : Type := prog clm clm_output A.

(** ** Access to arrays *)

Definition group_at (m : clm) (g : Z) : clm_group_data := m_groups m !!! Z.to_nat g.
Definition update_group (g : Z) (f : clm_group_data -> clm_group_data) (m : clm) : clm :=
  m <| m_groups ::= alter f (Z.to_nat g) |>.
Definition update_device (d : Z) (f : clm_slave_device_data -> clm_slave_device_data)
  (group_data : clm_group_data) : clm_group_data :=
  group_data <| g_slave_devices ::= alter f (Z.to_nat d) |>.

(** A copy of [d] to an offset of a memory area, and [n] bytes at an offset.
    Accesses outside of the area are failures, so that a program that never
    fails never leaves its memory areas. *)
Definition store (off : Z) (d mem : list Z) : outcome (list Z) :=
  if (off <? 0) || (Z.of_nat (length mem) <? off + Z.of_nat (length d)) then AssertFailed
  else Done (splice (Z.to_nat off) d mem).
Definition load (off n : Z) (mem : list Z) : outcome (list Z) :=
  if (off <? 0) || (n <? 0) || (Z.of_nat (length mem) <? off + n) then AssertFailed
  else Done (slice (Z.to_nat off) (Z.to_nat n) mem).

(** The group or device that a pointer argument points to, read and written. *)
Definition get_group (g : Z) : clm_prog clm_group_data := clm ← get; mret (group_at clm g).
Definition modify_group (g : Z) (f : clm_group_data -> clm_group_data) : clm_prog unit :=
  modify (update_group g f).
Definition get_device (g d : Z) : clm_prog clm_slave_device_data :=
  clm ← get; mret (device_at (group_at clm g) d).
Definition modify_device (g d : Z) (f : clm_slave_device_data -> clm_slave_device_data)
  : clm_prog unit := modify (update_group g (update_device d f)).

(** A counter of 32 bits. *)
Definition increment (x : Z) : Z := u32 (x + 1).
Definition count_in (counter : clm_slave_device_statistics -> Z)
  `{Field _ _ counter} (d : clm_slave_device_data) : clm_slave_device_data :=
  d <| d_statistics ::= update counter increment |>.
