(* ===== verification/Literals.v ===== *)
(** * Names of states and events

    The descriptions that the stack writes to its log
    (src/src/common/cl_literals.c). An argument is an enumerator, or [None]
    for a value of the C type that is none. *)

From Stdlib Require Import String.
From S2P Require Import Prelude Slave Master.

#[local] Open Scope string_scope.

(** ** Definitions *)

Definition cl_literals_get_master_state (state : option clm_master_state) : string :=
  match state with
  | Some CLM_MASTER_STATE_DOWN => "STATE_DOWN"
  | Some CLM_MASTER_STATE_STANDBY => "STATE_STANDBY"
  | Some CLM_MASTER_STATE_ARBITRATION => "STATE_ARBITRATION"
  | Some CLM_MASTER_STATE_RUNNING => "STATE_RUNNING"
  | None => "unknown state"
  end.

Definition cl_literals_get_group_event (event : option clm_group_event) : string :=
  match event with
  | Some CLM_GROUP_EVENT_NONE => "EVENT_NONE"
  | Some CLM_GROUP_EVENT_STARTUP => "EVENT_STARTUP"
  | Some CLM_GROUP_EVENT_PARAMETER_CHANGE => "EVENT_PARAMETER_CHANGE"
  | Some CLM_GROUP_EVENT_NEW_CONFIG => "EVENT_NEW_CONFIG"
  | Some CLM_GROUP_EVENT_ARBITRATION_DONE => "EVENT_ARBITRATION_DONE"
  | Some CLM_GROUP_EVENT_REQ_FROM_OTHER => "EVENT_REQ_FROM_OTHER"
  | Some CLM_GROUP_EVENT_MASTERDUPL_ALARM => "EVENT_MASTERDUPL_ALARM"
  | Some CLM_GROUP_EVENT_LINKSCAN_START => "EVENT_LINKSCAN_START"
  | Some CLM_GROUP_EVENT_LINKSCAN_TIMEOUT => "EVENT_LINKSCAN_TIMEOUT"
  | Some CLM_GROUP_EVENT_LINKSCAN_COMPLETE => "EVENT_LINKSCAN_COMPLETE"
  | Some CLM_GROUP_EVENT_LAST => "EVENT_LAST (dummy state)"
  | None => "unknown event"
  end.

Definition cl_literals_get_group_state (state : option clm_group_state) : string :=
  match state with
  | Some CLM_GROUP_STATE_MASTER_DOWN => "STATE_MASTER_DOWN"
  | Some CLM_GROUP_STATE_MASTER_LISTEN => "STATE_MASTER_LISTEN"
  | Some CLM_GROUP_STATE_MASTER_ARBITRATION => "STATE_MASTER_ARBITRATION"
  | Some CLM_GROUP_STATE_MASTER_LINK_SCAN_COMP => "STATE_MASTER_LINK_SCAN_COMP"
  | Some CLM_GROUP_STATE_MASTER_LINK_SCAN => "STATE_MASTER_LINK_SCAN"
  | Some CLM_GROUP_STATE_LAST => "STATE_LAST (dummy state)"
  | None => "unknown state"
  end.

Definition cl_literals_get_device_state (state : option clm_device_state) : string :=
  match state with
  | Some CLM_DEVICE_STATE_MASTER_DOWN => "STATE_MASTER_DOWN"
  | Some CLM_DEVICE_STATE_LISTEN => "STATE_LISTEN"
  | Some CLM_DEVICE_STATE_WAIT_TD => "STATE_WAIT_TD"
  | Some CLM_DEVICE_STATE_CYCLIC_SUSPEND => "STATE_CYCLIC_SUSPEND"
  | Some CLM_DEVICE_STATE_CYCLIC_SENT => "STATE_CYCLIC_SENT"
  | Some CLM_DEVICE_STATE_CYCLIC_SENDING => "STATE_CYCLIC_SENDING"
  | Some CLM_DEVICE_STATE_LAST => "STATE_LAST (dummy state)"
  | None => "unknown state"
  end.

Definition cl_literals_get_device_event (event : option clm_device_event) : string :=
  match event with
  | Some CLM_DEVICE_EVENT_NONE => "EVENT_NONE (dummy state)"
  | Some CLM_DEVICE_EVENT_GROUP_STARTUP => "EVENT_GROUP_STARTUP"
  | Some CLM_DEVICE_EVENT_GROUP_STANDBY => "EVENT_GROUP_STANDBY"
  | Some CLM_DEVICE_EVENT_GROUP_TIMEOUT => "EVENT_GROUP_TIMEOUT"
  | Some CLM_DEVICE_EVENT_GROUP_ALL_RESPONDED => "EVENT_GROUP_ALL_RESPONDED"
  | Some CLM_DEVICE_EVENT_RECEIVE_OK => "EVENT_RECEIVE_OK"
  | Some CLM_DEVICE_EVENT_RECEIVE_ERROR => "EVENT_RECEIVE_ERROR"
  | Some CLM_DEVICE_EVENT_SCAN_START_DEVICE_START => "EVENT_SCAN_START_DEVICE_START"
  | Some CLM_DEVICE_EVENT_SCAN_START_DEVICE_STOP => "EVENT_SCAN_START_DEVICE_STOP"
  | Some CLM_DEVICE_EVENT_TIMEOUTCOUNTER_FULL => "EVENT_TIMEOUTCOUNTER_FULL"
  | Some CLM_DEVICE_EVENT_TIMEOUTCOUNTER_NOT_FULL => "EVENT_TIMEOUTCOUNTER_NOT_FULL"
  | Some CLM_DEVICE_EVENT_SLAVE_DUPLICATION => "EVENT_SLAVE_DUPLICATION"
  | Some CLM_DEVICE_EVENT_LAST => "EVENT_LAST (dummy state)"
  | None => "unknown event"
  end.

Definition cl_literals_get_master_error_message (message : option clm_error_message) : string :=
  match message with
  | Some CLM_ERROR_ARBITRATION_FAILED => "ARBITRATION_FAILED"
  | Some CLM_ERROR_SLAVE_DUPLICATION => "SLAVE_DUPLICATION"
  | Some CLM_ERROR_SLAVE_REPORTS_WRONG_NUMBER_OCCUPIED => "SLAVE_REPORTS_WRONG_NUMBER_OCCUPIED"
  | Some CLM_ERROR_SLAVE_REPORTS_MASTER_DUPLICATION => "SLAVE_REPORTS_MASTER_DUPLICATION"
  | None => "unknown error"
  end.

Definition cl_literals_get_master_set_ip_result (message : option clm_master_setip_status) : string :=
  match message with
  | Some CLM_MASTER_SET_IP_STATUS_SUCCESS => "STATUS_SUCCESS"
  | Some CLM_MASTER_SET_IP_STATUS_ERROR => "STATUS_ERROR"
  | Some CLM_MASTER_SET_IP_STATUS_TIMEOUT => "STATUS_TIMEOUT"
  | None => "unknown result"
  end.

Definition cl_literals_get_slave_error_message (message : option cls_error_message) : string :=
  match message with
  | Some CLS_ERROR_SLAVE_STATION_DUPLICATION => "SLAVE_STATION_DUPLICATION"
  | Some CLS_ERROR_MASTER_STATION_DUPLICATION => "MASTER_STATION_DUPLICATION"
  | Some CLS_ERROR_WRONG_NUMBER_OCCUPIED => "WRONG_NUMBER_OCCUPIED"
  | None => "unknown error"
  end.

Definition cl_literals_get_slave_state (state : option cls_slave_state) : string :=
  match state with
  | Some CLS_SLAVE_STATE_SLAVE_DOWN => "STATE_SLAVE_DOWN"
  | Some CLS_SLAVE_STATE_MASTER_NONE => "STATE_MASTER_NONE"
  | Some CLS_SLAVE_STATE_MASTER_CONTROL => "STATE_MASTER_CONTROL"
  | Some CLS_SLAVE_STATE_SLAVE_DISABLED => "STATE_SLAVE_DISABLED"
  | Some CLS_SLAVE_STATE_WAIT_DISABLING_SLAVE => "STATE_WAIT_DISABLING_SLAVE"
  | Some CLS_SLAVE_STATE_LAST => "STATE_LAST (dummy state)"
  | None => "unknown state"
  end.

Definition cl_literals_get_slave_event (event : option cls_slave_event) : string :=
  match event with
  | Some CLS_SLAVE_EVENT_NONE => "EVENT_NONE (dummy state)"
  | Some CLS_SLAVE_EVENT_STARTUP => "EVENT_STARTUP"
  | Some CLS_SLAVE_EVENT_CYCLIC_NEW_MASTER => "EVENT_CYCLIC_NEW_MASTER"
  | Some CLS_SLAVE_EVENT_CYCLIC_CORRECT_MASTER => "EVENT_CYCLIC_CORRECT_MASTER"
  | Some CLS_SLAVE_EVENT_CYCLIC_WRONG_MASTER => "EVENT_CYCLIC_WRONG_MASTER"
  | Some CLS_SLAVE_EVENT_CYCLIC_WRONG_STATIONCOUNT => "EVENT_CYCLIC_WRONG_STATIONCOUNT"
  | Some CLS_SLAVE_EVENT_CYCLIC_INCOMING_WHEN_DISABLED => "EVENT_CYCLIC_INCOMING_WHEN_DISABLED"
  | Some CLS_SLAVE_EVENT_TIMEOUT_MASTER => "EVENT_TIMEOUT_MASTER"
  | Some CLS_SLAVE_EVENT_REENABLE_SLAVE => "EVENT_REENABLE_SLAVE"
  | Some CLS_SLAVE_EVENT_DISABLE_SLAVE => "EVENT_DISABLE_SLAVE"
  | Some CLS_SLAVE_EVENT_DISABLE_SLAVE_WAIT_ENDED => "EVENT_DISABLE_SLAVE_WAIT_ENDED"
  | Some CLS_SLAVE_EVENT_IP_UPDATED => "EVENT_IP_UPDATED"
  | Some CLS_SLAVE_EVENT_LAST => "EVENT_LAST (dummy state)"
  | None => "unknown event"
  end.

(** ** Lemmas *)

(** A log tells the states, events and messages apart. *)
#[export] Instance master_state_name_inj : Inj (=) (=) cl_literals_get_master_state.
Proof. intros [[]|] [[]|] Heq; first [reflexivity|discriminate Heq]. Qed.
#[export] Instance group_event_name_inj : Inj (=) (=) cl_literals_get_group_event.
Proof. intros [[]|] [[]|] Heq; first [reflexivity|discriminate Heq]. Qed.
#[export] Instance group_state_name_inj : Inj (=) (=) cl_literals_get_group_state.
Proof. intros [[]|] [[]|] Heq; first [reflexivity|discriminate Heq]. Qed.
#[export] Instance device_state_name_inj : Inj (=) (=) cl_literals_get_device_state.
Proof. intros [[]|] [[]|] Heq; first [reflexivity|discriminate Heq]. Qed.
#[export] Instance device_event_name_inj : Inj (=) (=) cl_literals_get_device_event.
Proof. intros [[]|] [[]|] Heq; first [reflexivity|discriminate Heq]. Qed.
#[export] Instance master_error_message_name_inj : Inj (=) (=) cl_literals_get_master_error_message.
Proof. intros [[]|] [[]|] Heq; first [reflexivity|discriminate Heq]. Qed.
#[export] Instance master_set_ip_result_name_inj : Inj (=) (=) cl_literals_get_master_set_ip_result.
Proof. intros [[]|] [[]|] Heq; first [reflexivity|discriminate Heq]. Qed.
#[export] Instance slave_error_message_name_inj : Inj (=) (=) cl_literals_get_slave_error_message.
Proof. intros [[]|] [[]|] Heq; first [reflexivity|discriminate Heq]. Qed.
#[export] Instance slave_state_name_inj : Inj (=) (=) cl_literals_get_slave_state.
Proof. intros [[]|] [[]|] Heq; first [reflexivity|discriminate Heq]. Qed.
#[export] Instance slave_event_name_inj : Inj (=) (=) cl_literals_get_slave_event.
Proof. intros [[]|] [[]|] Heq; first [reflexivity|discriminate Heq]. Qed.
