(* ===== verification/MasterIefb.v ===== *)
(** * Cyclic communication of the master (src/src/master/clm_iefb.c)

    Every function of the file, on the instance as state; [g] and [d] are the
    group and the device that a function's pointer arguments point to.
    Functions returning 0 or -1 return a boolean.  The actions of the two
    state machines are the constructors of [clm_device_action] and
    [clm_group_action].  The event loops have fuel; MasterDevice.v and
    MasterEvents.v prove that two rounds are always enough. *)

From S2P Require Import Prelude Packed Signals Timer Limiter Util Types Iefb Slmp Master.

(** The time of day in milliseconds, at a moment of the microsecond clock. *)
Class ClalClock := clal_get_unix_timestamp_ms : Z -> Z.

#[export] Instance outcome_ret : MRet outcome := fun A a => Done a.
#[export] Instance outcome_bind : MBind outcome := fun A B k x =>
  match x with Done a => k a | AssertFailed => AssertFailed end.

Definition CLM_CCIEFB_ERRORCALLBACK_RETRIGGER_PERIOD : Z := 1000000.

(** The loop over the indices 0 to [n - 1]. *)
Fixpoint for_each (indices : list Z) (body : Z -> clm_prog unit) : clm_prog unit :=
  match indices with
  | [] => mret tt
  | i :: indices => body i;; for_each indices body
  end.
Definition for_range (n : Z) (body : Z -> clm_prog unit) : clm_prog unit :=
  for_each (seqZ 0 n) body.

(** ** Numbers *)

Definition clm_iefb_update_frame_sequence_no (frame_sequence_no : Z) : Z :=
  if frame_sequence_no =? UINT16_MAX then 1 else u16 (frame_sequence_no + 1).

Definition clm_iefb_calc_master_local_unit_info (protocol_ver : Z) (running stopped_by_user : bool)
  : Z :=
  if running then CL_CCIEFB_MASTER_LOCAL_UNIT_INFO_RUNNING
  else if (protocol_ver <? 2) || negb stopped_by_user
  then CL_CCIEFB_MASTER_LOCAL_UNIT_INFO_STOPPED
  else CL_CCIEFB_MASTER_LOCAL_UNIT_INFO_STOPPED_BY_USER.

(** The sum of the stations of the first [n] devices, from [start]. *)
Definition add_occupied (group_setting : clm_group_setting) (start n : Z) : Z :=
  foldl (fun total d => u16 (total + ds_num_occupied_stations (setting_of_device group_setting d)))
    start (seqZ 0 n).

Definition clm_iefb_calc_occupied_per_group (group_setting : clm_group_setting) : Z :=
  add_occupied group_setting 0 (gs_num_slave_devices group_setting).

Definition clm_iefb_calc_slave_station_no (group_setting : clm_group_setting)
  (slave_device_index : Z) : option Z :=
  if gs_num_slave_devices group_setting <=? slave_device_index then None
  else Some (add_occupied group_setting 1 slave_device_index).

Definition clm_iefb_calc_slave_device_index (group_setting : clm_group_setting) (ip_addr : Z)
  : option Z :=
  List.find (fun index => ds_slave_id (setting_of_device group_setting index) =? ip_addr)
    (seqZ 0 (gs_num_slave_devices group_setting)).

(** The two loops; [has_received] is the flag they carry. *)
Fixpoint received_first_frame (devices : list clm_slave_device_data) (has_received : bool) : bool :=
  match devices with
  | [] => has_received
  | device :: devices =>
      if bool_decide (d_device_state device = CLM_DEVICE_STATE_WAIT_TD) then false
      else received_first_frame devices
             (if bool_decide (d_device_state device = CLM_DEVICE_STATE_CYCLIC_SENT)
              then true else has_received)
  end.
Fixpoint received_later_frame (devices : list clm_slave_device_data) (has_received : bool) : bool :=
  match devices with
  | [] => has_received
  | device :: devices =>
      if d_transmission_bit device &&
         bool_decide (d_device_state device = CLM_DEVICE_STATE_CYCLIC_SENDING) then false
      else received_later_frame devices (if d_transmission_bit device then true else has_received)
  end.

Definition clm_iefb_group_have_received_from_all_devices (group_setting : clm_group_setting)
  (group_data : clm_group_data) : bool :=
  let devices := map (device_at group_data) (seqZ 0 (gs_num_slave_devices group_setting)) in
  if g_frame_sequence_no group_data =? 0 then received_first_frame devices false
  else received_later_frame devices false.

(** ** The request frame *)

(** What the loops write for one device. *)
Definition device_slave_ids (setting : clm_slave_device_setting) : list Z :=
  map (fun occupied_index => if occupied_index =? 0 then ds_slave_id setting
                             else CL_CCIEFB_MULTISTATION_INDICATOR)
    (seqZ 0 (ds_num_occupied_stations setting)).
Definition group_slave_ids (group_setting : clm_group_setting) : list Z :=
  concat (map (fun d => device_slave_ids (setting_of_device group_setting d))
            (seqZ 0 (gs_num_slave_devices group_setting))).

Fixpoint store_slave_ids (ids : list Z) (pos first_slave_id : Z) (buffer : list Z)
  : outcome (list Z) :=
  match ids with
  | [] => Done buffer
  | id :: ids =>
      buffer ← store (first_slave_id + sizeof_ipaddr * pos) (c_enc c_u32le id) buffer;
      store_slave_ids ids (u16 (pos + 1)) first_slave_id buffer
  end.

Definition clm_iefb_initialise_request_slave_ids (req_frame : clm_cciefb_cyclic_request_info)
  (group_setting : clm_group_setting) : outcome clm_cciefb_cyclic_request_info :=
  buffer ← store_slave_ids (group_slave_ids group_setting) 0 (qi_first_slave_id req_frame)
             (qi_buffer req_frame);
  mret (req_frame <| qi_buffer := buffer |>).

Definition clm_iefb_update_request_slave_id (req_frame : clm_cciefb_cyclic_request_info)
  (slave_station_no : Z) (enable : bool) (slave_id : Z) : outcome clm_cciefb_cyclic_request_info :=
  if slave_station_no <? 1 then AssertFailed else
  let pos := slave_station_no - 1 in
  buffer ← store (qi_first_slave_id req_frame + sizeof_ipaddr * pos)
             (c_enc c_u32le (if enable then slave_id else CL_IPADDR_INVALID))
             (qi_buffer req_frame);
  mret (req_frame <| qi_buffer := buffer |>).

(** [clal_memcpy] from [src] at [src_off] to [dest] at [dest_off]. *)
Definition copy_bytes (dest : list Z) (dest_off : Z) (src : list Z) (src_off n : Z)
  : outcome (list Z) :=
  data ← load src_off n src; store dest_off data dest.
(** [clal_clear_memory] of [n] bytes at an offset. *)
Definition clear_bytes (dest : list Z) (dest_off n : Z) : outcome (list Z) :=
  store dest_off (zeros (Z.to_nat n)) dest.

Definition clm_iefb_update_request_frame_cyclic_data_one_device
  (req_frame : clm_cciefb_cyclic_request_info) (group_cyclic_data : clm_group_memory_area)
  (slave_station_no num_occupied_stations : Z) (valid : bool)
  : outcome clm_cciefb_cyclic_request_info :=
  let start_index := u16 (slave_station_no - 1) in
  let num_rww_bytes := num_occupied_stations * sizeof_rww in
  let num_ry_bytes := num_occupied_stations * sizeof_ry in
  let rww_off := qi_first_rww req_frame + start_index * sizeof_rww in
  let ry_off := qi_first_ry req_frame + start_index * sizeof_ry in
  buffer ← (if valid then
              buffer ← copy_bytes (qi_buffer req_frame) rww_off (ma_rww group_cyclic_data)
                         (start_index * sizeof_rww) num_rww_bytes;
              copy_bytes buffer ry_off (ma_ry group_cyclic_data) (start_index * sizeof_ry)
                num_ry_bytes
            else
              buffer ← clear_bytes (qi_buffer req_frame) rww_off num_rww_bytes;
              clear_bytes buffer ry_off num_ry_bytes);
  mret (req_frame <| qi_buffer := buffer |>).

(** ** What is kept of a response *)

Definition clm_iefb_store_incoming_slave_runtime_info
  (cyclic_response : clm_cciefb_cyclic_response_info) (transmission_timestamp : Z)
  : clm_device_framevalues :=
  let headers := si_full_headers cyclic_response in
  let notification := fs_slave_station_notification headers in
  ClmDeviceFramevalues true (si_number_of_occupied cyclic_response)
    (csh_protocol_ver (fs_cyclic_header headers)) (csh_end_code (fs_cyclic_header headers))
    (ssn_vendor_code notification) (ssn_model_code notification) (ssn_equipment_ver notification)
    (ssn_slave_local_unit_info notification) (ssn_local_management_info notification)
    (ssn_slave_err_code notification) (sdh_slave_id (fs_cyclic_data_header headers))
    (sdh_group_no (fs_cyclic_data_header headers))
    (sdh_frame_sequence_no (fs_cyclic_data_header headers))
    (u32 (si_reception_timestamp cyclic_response - transmission_timestamp)).

Definition clm_iefb_statistics_update_response_time (statistics : clm_slave_device_statistics)
  (max_number_of_samples response_time : Z) : clm_slave_device_statistics :=
  let t := st_measured_time statistics in
  if (ts_number_of_samples t <? max_number_of_samples) && (ts_sum t <? UINT32_MAX / 2) then
    let n := u32 (ts_number_of_samples t + 1) in
    let sum := u32 (ts_sum t + response_time) in
    statistics <| st_measured_time :=
      ClmTimeStatistics n sum (Z.min response_time (ts_min t)) (sum / n)
        (Z.max response_time (ts_max t)) |>
  else statistics.

Definition clm_iefb_statistics_clear : clm_slave_device_statistics :=
  clm_statistics_zero <| st_measured_time ::= (fun t => t <| ts_min := UINT32_MAX |>) |>.
Definition clm_iefb_latest_received_clear : clm_device_framevalues := clm_device_framevalues_zero.

Definition clm_iefb_store_incoming_cyclic_data (group_cyclic_data : clm_group_memory_area)
  (cyclic_response : clm_cciefb_cyclic_response_info) (slave_station_no num_occupied_stations : Z)
  (valid : bool) : outcome clm_group_memory_area :=
  let first_index := u16 (slave_station_no - 1) in
  let num_rwr_bytes := num_occupied_stations * sizeof_rwr in
  let num_rx_bytes := num_occupied_stations * sizeof_rx in
  if valid then
    rwr ← copy_bytes (ma_rwr group_cyclic_data) (first_index * sizeof_rwr)
            (si_buffer cyclic_response) (si_first_rwr cyclic_response) num_rwr_bytes;
    rx ← copy_bytes (ma_rx group_cyclic_data) (first_index * sizeof_rx)
           (si_buffer cyclic_response) (si_first_rx cyclic_response) num_rx_bytes;
    mret (group_cyclic_data <| ma_rwr := rwr |> <| ma_rx := rx |>)
  else
    rwr ← clear_bytes (ma_rwr group_cyclic_data) (first_index * sizeof_rwr) num_rwr_bytes;
    rx ← clear_bytes (ma_rx group_cyclic_data) (first_index * sizeof_rx) num_rx_bytes;
    mret (group_cyclic_data <| ma_rwr := rwr |> <| ma_rx := rx |>).

Section MasterIefb.
Context `{ClmOptions, Clal, ClalClock}.

Definition clm_iefb_send_cyclic_request_frame (socket destination_ip_addr g : Z)
  (unix_timestamp_ms master_local_unit_info : Z) : clm_prog bool :=
  modify_group g (fun group_data => group_data <| g_req_frame ::= (fun frame =>
    cl_iefb_update_request_frame_headers frame (g_frame_sequence_no group_data)
      unix_timestamp_ms master_local_unit_info (g_cyclic_transmission_state group_data)) |>);;
  group_data ← get_group g;
  let req_frame := g_req_frame group_data in
  let frame := take (Z.to_nat (qi_udp_payload_len req_frame)) (qi_buffer req_frame) in
  emit (ClmCciefbSendto socket destination_ip_addr CL_CCIEFB_PORT frame);;
  let sent_size := clal_udp_sendto socket destination_ip_addr CL_CCIEFB_PORT frame in
  mret (negb ((sent_size <? 0) || negb (sent_size =? qi_udp_payload_len req_frame))).

(** ** Callbacks to the application *)

Definition clm_iefb_set_master_state (new_state : clm_master_state) : clm_prog unit :=
  clm ← get;
  when (bool_decide (new_state <> m_master_state clm))
    (when (mc_state_cb (m_config clm)) (emit (ClmStateCb new_state));;
     modify (fun clm => clm <| m_master_state := new_state |>)).

Definition clm_iefb_trigger_linkscan_callback (g : Z) (success : bool) : clm_prog unit :=
  clm ← get;
  when (mc_linkscan_cb (m_config clm))
    (emit (ClmLinkscanCb (g_group_index (group_at clm g)) success)).

Definition clm_iefb_trigger_error_callback (now : Z) (error_message : clm_error_message)
  (ip_addr argument_2 : Z) : clm_prog unit :=
  clm ← get;
  let (run, limiter) :=
    cl_limiter_should_run_now (m_errorlimiter clm) (clm_error_message_number error_message) now in
  modify (fun clm => clm <| m_errorlimiter := limiter |>);;
  when (run && mc_error_cb (m_config clm)) (emit (ClmErrorCb error_message ip_addr argument_2)).

(** The settings of the group and device behind two pointers. *)
Definition group_setting_of (clm : clm) (g : Z) : clm_group_setting :=
  setting_of_group (m_config clm) (g_group_index (group_at clm g)).
Definition device_setting_of (clm : clm) (g d : Z) : clm_slave_device_setting :=
  setting_of_device (group_setting_of clm g) (d_device_index (device_at (group_at clm g) d)).

Definition clm_iefb_trigger_connect_callback (g d : Z) : clm_prog unit :=
  clm ← get;
  when (mc_connect_cb (m_config clm))
    (emit (ClmConnectCb (g_group_index (group_at clm g))
             (d_device_index (device_at (group_at clm g) d))
             (ds_slave_id (device_setting_of clm g d)))).

Definition clm_iefb_trigger_disconnect_callback (g d : Z) : clm_prog unit :=
  clm ← get;
  when (mc_disconnect_cb (m_config clm))
    (emit (ClmDisconnectCb (g_group_index (group_at clm g))
             (d_device_index (device_at (group_at clm g) d))
             (ds_slave_id (device_setting_of clm g d)))).

Definition clm_iefb_trigger_slaveinfo_callback
  (group_index slave_device_index end_code slave_err_code local_management_info : Z)
  : clm_prog unit :=
  clm ← get;
  when (mc_changed_slave_info_cb (m_config clm))
    (emit (ClmChangedSlaveInfoCb group_index slave_device_index end_code slave_err_code
             local_management_info)).

Definition clm_iefb_trigger_alarmframe_callback
  (group_index slave_device_index end_code slave_err_code local_management_info : Z)
  : clm_prog unit :=
  clm ← get;
  when (mc_alarm_cb (m_config clm))
    (emit (ClmAlarmCb group_index slave_device_index end_code slave_err_code
             local_management_info)).

(** ** Group parameters *)

Definition clm_iefb_reflect_group_parameters (g : Z) : clm_prog unit :=
  clm ← get;
  let group_setting := group_setting_of clm g in
  modify_group g (fun group_data => group_data
    <| g_total_occupied := clm_iefb_calc_occupied_per_group group_setting |>
    <| g_frame_sequence_no := 0 |>
    <| g_cyclic_transmission_state :=
         CL_CCIEFB_CYCLIC_REQ_DATA_HEADER_CYCLIC_TR_STATE_ALL_OFF |>);;
  for_range (gs_num_slave_devices group_setting) (fun d =>
    modify_device g d (fun device => device <| d_timeout_count := 0 |>);;
    match clm_iefb_calc_slave_station_no group_setting d with
    | Some no => modify_device g d (fun device => device <| d_slave_station_no := no |>)
    | None => cc_assert false
    end);;
  clm ← get;
  let group_data := group_at clm g in
  req_frame ← lift_outcome (cl_iefb_initialise_request_frame
    (qi_buffer (g_req_frame group_data)) CL_BUFFER_LEN (mc_protocol_ver (m_config clm))
    (gs_timeout_value group_setting) (gs_parallel_off_timeout_count group_setting)
    (mc_master_id (m_config clm)) (g_group_index group_data + 1) (g_total_occupied group_data)
    (m_parameter_no clm));
  modify_group g (fun group_data => group_data <| g_req_frame := req_frame |>);;
  req_frame ← lift_outcome (clm_iefb_initialise_request_slave_ids req_frame group_setting);
  modify_group g (fun group_data => group_data <| g_req_frame := req_frame |>).

(** ** Actions of the device state machine *)

Definition device_init_action (g d : Z) : clm_prog clm_device_event :=
  clm ← get;
  let slave_device_setting := device_setting_of clm g d in
  modify_device g d (fun device => device
    <| d_enabled := negb (ds_reserved_slave_device slave_device_setting) |>
    <| d_transmission_bit := false |>
    <| d_statistics := clm_iefb_statistics_clear |>
    <| d_latest_frame := clm_iefb_latest_received_clear |>
    <| d_timeout_count := 0 |>
    <| d_slave_station_no := 0 |>);;
  mret CLM_DEVICE_EVENT_NONE.

Definition set_data_ip_action (g d : Z) (new_state : clm_device_state) : clm_prog clm_device_event :=
  clm ← get;
  let slave_device_setting := device_setting_of clm g d in
  let transmission_bit := d_transmission_bit (device_at (group_at clm g) d) in
  (if bool_decide (new_state = CLM_DEVICE_STATE_CYCLIC_SENDING) then
     when (negb transmission_bit)
       (modify_device g d (count_in st_number_of_connects);;
        clm_iefb_trigger_connect_callback g d);;
     modify_device g d (fun device => device <| d_transmission_bit := true |>)
   else
     when transmission_bit
       (modify_device g d (count_in st_number_of_disconnects);;
        clm_iefb_trigger_disconnect_callback g d);;
     modify_device g d (fun device => device <| d_transmission_bit := false |>));;
  device ← get_device g d;
  let combined_transmission_bit := d_transmission_bit device || d_force_transmission_bit device in
  let no := d_slave_station_no device in
  modify_group g (fun group_data => group_data <| g_cyclic_transmission_state ::= (fun st =>
    cl_iefb_set_cyclic_transmission_state st no combined_transmission_bit) |>);;
  group_data ← get_group g;
  req_frame ← lift_outcome (clm_iefb_update_request_slave_id (g_req_frame group_data) no
    (bool_decide (new_state <> CLM_DEVICE_STATE_CYCLIC_SUSPEND)) (ds_slave_id slave_device_setting));
  modify_group g (fun group_data => group_data <| g_req_frame := req_frame |>);;
  req_frame ← lift_outcome (clm_iefb_update_request_frame_cyclic_data_one_device req_frame
    (g_memory_area group_data) no (ds_num_occupied_stations slave_device_setting)
    combined_transmission_bit);
  modify_group g (fun group_data => group_data <| g_req_frame := req_frame |>);;
  when (d_enabled device) (modify_device g d (count_in st_number_of_sent_frames));;
  mret CLM_DEVICE_EVENT_NONE.

Definition evaluate_timeoutcounter_action (g d : Z) : clm_prog clm_device_event :=
  clm ← get;
  let group_setting := group_setting_of clm g in
  modify_device g d (fun device => device <| d_timeout_count ::= (fun c => u16 (c + 1)) |>);;
  device ← get_device g d;
  if gs_parallel_off_timeout_count group_setting <=? d_timeout_count device then
    modify_device g d (count_in st_number_of_timeouts);;
    mret CLM_DEVICE_EVENT_TIMEOUTCOUNTER_FULL
  else mret CLM_DEVICE_EVENT_TIMEOUTCOUNTER_NOT_FULL.

Definition reset_timeout_count_action (g d : Z) : clm_prog clm_device_event :=
  modify_device g d (fun device => device <| d_timeout_count := 0 |>);;
  mret CLM_DEVICE_EVENT_NONE.

Definition run_device_action (action : clm_device_action) (g d : Z) (new_state : clm_device_state)
  : clm_prog clm_device_event :=
  match action with
  | clm_iefb_device_init => device_init_action g d
  | clm_iefb_set_data_ip => set_data_ip_action g d new_state
  | clm_iefb_evaluate_timeoutcounter => evaluate_timeoutcounter_action g d
  | clm_iefb_reset_timeout_count => reset_timeout_count_action g d
  end.

(** ** The device state machine *)

Definition device_transitions
  : list (clm_device_state * clm_device_event * clm_device_state * option clm_device_action) := [
  (CLM_DEVICE_STATE_MASTER_DOWN, CLM_DEVICE_EVENT_GROUP_STARTUP, CLM_DEVICE_STATE_LISTEN,
    Some clm_iefb_device_init);
  (CLM_DEVICE_STATE_LISTEN, CLM_DEVICE_EVENT_GROUP_STANDBY, CLM_DEVICE_STATE_LISTEN, None);
  (CLM_DEVICE_STATE_LISTEN, CLM_DEVICE_EVENT_SCAN_START_DEVICE_START, CLM_DEVICE_STATE_WAIT_TD,
    Some clm_iefb_set_data_ip);
  (CLM_DEVICE_STATE_LISTEN, CLM_DEVICE_EVENT_SCAN_START_DEVICE_STOP,
    CLM_DEVICE_STATE_CYCLIC_SUSPEND, Some clm_iefb_set_data_ip);
  (CLM_DEVICE_STATE_LISTEN, CLM_DEVICE_EVENT_SLAVE_DUPLICATION, CLM_DEVICE_STATE_LISTEN, None);
  (CLM_DEVICE_STATE_WAIT_TD, CLM_DEVICE_EVENT_GROUP_STANDBY, CLM_DEVICE_STATE_LISTEN, None);
  (CLM_DEVICE_STATE_WAIT_TD, CLM_DEVICE_EVENT_RECEIVE_OK, CLM_DEVICE_STATE_CYCLIC_SENT, None);
  (CLM_DEVICE_STATE_WAIT_TD, CLM_DEVICE_EVENT_RECEIVE_ERROR, CLM_DEVICE_STATE_LISTEN, None);
  (CLM_DEVICE_STATE_WAIT_TD, CLM_DEVICE_EVENT_GROUP_TIMEOUT, CLM_DEVICE_STATE_LISTEN, None);
  (CLM_DEVICE_STATE_WAIT_TD, CLM_DEVICE_EVENT_GROUP_ALL_RESPONDED, CLM_DEVICE_STATE_LISTEN, None);
  (CLM_DEVICE_STATE_WAIT_TD, CLM_DEVICE_EVENT_SLAVE_DUPLICATION, CLM_DEVICE_STATE_LISTEN, None);
  (CLM_DEVICE_STATE_CYCLIC_SUSPEND, CLM_DEVICE_EVENT_GROUP_STANDBY, CLM_DEVICE_STATE_LISTEN, None);
  (CLM_DEVICE_STATE_CYCLIC_SUSPEND, CLM_DEVICE_EVENT_GROUP_TIMEOUT, CLM_DEVICE_STATE_LISTEN, None);
  (CLM_DEVICE_STATE_CYCLIC_SUSPEND, CLM_DEVICE_EVENT_GROUP_ALL_RESPONDED, CLM_DEVICE_STATE_LISTEN,
    None);
  (CLM_DEVICE_STATE_CYCLIC_SUSPEND, CLM_DEVICE_EVENT_SLAVE_DUPLICATION, CLM_DEVICE_STATE_LISTEN,
    None);
  (CLM_DEVICE_STATE_CYCLIC_SENT, CLM_DEVICE_EVENT_GROUP_STANDBY, CLM_DEVICE_STATE_LISTEN, None);
  (CLM_DEVICE_STATE_CYCLIC_SENT, CLM_DEVICE_EVENT_SCAN_START_DEVICE_START,
    CLM_DEVICE_STATE_CYCLIC_SENDING, Some clm_iefb_set_data_ip);
  (CLM_DEVICE_STATE_CYCLIC_SENT, CLM_DEVICE_EVENT_SCAN_START_DEVICE_STOP,
    CLM_DEVICE_STATE_CYCLIC_SUSPEND, None);
  (CLM_DEVICE_STATE_CYCLIC_SENT, CLM_DEVICE_EVENT_SLAVE_DUPLICATION, CLM_DEVICE_STATE_LISTEN, None);
  (CLM_DEVICE_STATE_CYCLIC_SENDING, CLM_DEVICE_EVENT_GROUP_STANDBY, CLM_DEVICE_STATE_LISTEN, None);
  (CLM_DEVICE_STATE_CYCLIC_SENDING, CLM_DEVICE_EVENT_RECEIVE_OK, CLM_DEVICE_STATE_CYCLIC_SENT,
    Some clm_iefb_reset_timeout_count);
  (CLM_DEVICE_STATE_CYCLIC_SENDING, CLM_DEVICE_EVENT_RECEIVE_ERROR, CLM_DEVICE_STATE_LISTEN, None);
  (CLM_DEVICE_STATE_CYCLIC_SENDING, CLM_DEVICE_EVENT_GROUP_TIMEOUT,
    CLM_DEVICE_STATE_CYCLIC_SENDING, Some clm_iefb_evaluate_timeoutcounter);
  (CLM_DEVICE_STATE_CYCLIC_SENDING, CLM_DEVICE_EVENT_TIMEOUTCOUNTER_FULL, CLM_DEVICE_STATE_LISTEN,
    None);
  (CLM_DEVICE_STATE_CYCLIC_SENDING, CLM_DEVICE_EVENT_TIMEOUTCOUNTER_NOT_FULL,
    CLM_DEVICE_STATE_CYCLIC_SENT, None);
  (CLM_DEVICE_STATE_CYCLIC_SENDING, CLM_DEVICE_EVENT_SLAVE_DUPLICATION, CLM_DEVICE_STATE_LISTEN,
    None)].

Definition device_state_actions
  : list (clm_device_state * option clm_device_action * option clm_device_action) := [
  (CLM_DEVICE_STATE_LISTEN, Some clm_iefb_reset_timeout_count, None)].

(** The loop; [false] when the fuel is used up. *)
Fixpoint device_event_loop (fuel : nat) (g d : Z) (event : clm_device_event) : clm_prog bool :=
  match fuel with
  | O => mret false
  | S fuel =>
      clm ← get;
      let previous := d_device_state (device_at (group_at clm g) d) in
      let element := m_device_fsm_matrix clm previous event in
      let next_state_actions := m_device_fsm_on_entry_exit clm (dfsm_next element) in
      modify_device g d (fun device => device <| d_device_state := dfsm_next element |>);;
      event ← match dfsm_action element with
              | Some action => run_device_action action g d (dfsm_next element)
              | None => mret CLM_DEVICE_EVENT_NONE
              end;
      device ← get_device g d;
      (match dfsm_on_entry next_state_actions with
       | Some on_entry =>
           if bool_decide (d_device_state device <> previous)
           then run_device_action on_entry g d (d_device_state device);; mret tt
           else mret tt
       | None => mret tt
       end);;
      if bool_decide (event <> CLM_DEVICE_EVENT_NONE) then device_event_loop fuel g d event
      else mret true
  end.

Definition MASTER_FSM_FUEL : nat := 2.

Definition clm_iefb_device_fsm_event (g d : Z) (event : clm_device_event) : clm_prog unit :=
  if bool_decide (event = CLM_DEVICE_EVENT_LAST) then mret tt
  else device_event_loop MASTER_FSM_FUEL g d event;; mret tt.

Definition clm_iefb_device_fsm_event_all_in_group (g : Z) (event : clm_device_event)
  : clm_prog unit :=
  clm ← get;
  for_range (gs_num_slave_devices (group_setting_of clm g)) (fun d =>
    clm_iefb_device_fsm_event g d event).

(** One assignment to the matrix, and to the entry and exit actions. *)
Definition set_device_transition
  (matrix : clm_device_state -> clm_device_event -> clm_device_fsm)
  (t : clm_device_state * clm_device_event * clm_device_state * option clm_device_action)
  : clm_device_state -> clm_device_event -> clm_device_fsm :=
  let '(s, e, next, action) := t in
  fun s' e' => if bool_decide (s' = s) && bool_decide (e' = e)
               then ClmDeviceFsm next action else matrix s' e'.
Definition set_device_state_actions (table : clm_device_state -> clm_device_fsm_entry_exit)
  (a : clm_device_state * option clm_device_action * option clm_device_action)
  : clm_device_state -> clm_device_fsm_entry_exit :=
  let '(s, on_entry, on_exit) := a in
  fun s' => if bool_decide (s' = s) then ClmDeviceFsmEntryExit on_entry on_exit else table s'.

Definition device_matrix : clm_device_state -> clm_device_event -> clm_device_fsm :=
  foldl set_device_transition (fun s _ => ClmDeviceFsm s None) device_transitions.
Definition device_on_entry_exit : clm_device_state -> clm_device_fsm_entry_exit :=
  foldl set_device_state_actions (fun _ => ClmDeviceFsmEntryExit None None) device_state_actions.

Definition clm_iefb_device_fsm_tables_init : clm_prog unit :=
  modify (fun clm => clm <| m_device_fsm_matrix := device_matrix |>
                         <| m_device_fsm_on_entry_exit := device_on_entry_exit |>).

(** ** Actions of the group state machine *)

Definition group_init_action (g : Z) : clm_prog clm_group_event :=
  clm ← get;
  let group_setting := group_setting_of clm g in
  modify_group g (fun group_data => group_data
    <| g_response_wait_timer ::= cl_timer_stop |>
    <| g_constant_linkscan_timer ::= cl_timer_stop |>
    <| g_total_occupied := 0 |>
    <| g_frame_sequence_no := 0 |>
    <| g_timestamp_link_scan_start := 0 |>
    <| g_cyclic_transmission_state :=
         CL_CCIEFB_CYCLIC_REQ_DATA_HEADER_CYCLIC_TR_STATE_ALL_OFF |>);;
  for_range (gs_num_slave_devices group_setting) (fun d =>
    modify_device g d (fun device => device
      <| d_device_index := d |> <| d_device_state := CLM_DEVICE_STATE_MASTER_DOWN |>));;
  clm_iefb_device_fsm_event_all_in_group g CLM_DEVICE_EVENT_GROUP_STARTUP;;
  mret CLM_GROUP_EVENT_NONE.

Definition group_new_config_action (g now : Z) : clm_prog clm_group_event :=
  clm_iefb_reflect_group_parameters g;;
  modify (fun clm => clm <| m_arbitration_timer ::= (fun t =>
    cl_timer_start_if_not_running t
      (mc_arbitration_time (m_config clm) * CL_TIMER_MICROSECONDS_PER_MILLISECOND) now) |>);;
  mret CLM_GROUP_EVENT_NONE.

Definition on_arbitration_failed_action (now : Z) : clm_prog clm_group_event :=
  clm ← get;
  clm_iefb_trigger_error_callback now CLM_ERROR_ARBITRATION_FAILED
    (m_latest_conflicting_master_ip clm) 0;;
  mret CLM_GROUP_EVENT_NONE.

Definition on_linkscan_start_action (g now : Z) : clm_prog clm_group_event :=
  let unix_timestamp_ms := clal_get_unix_timestamp_ms now in
  clm ← get;
  let group_setting := group_setting_of clm g in
  for_range (gs_num_slave_devices group_setting) (fun d =>
    device ← get_device g d;
    clm_iefb_device_fsm_event g d
      (if d_enabled device then CLM_DEVICE_EVENT_SCAN_START_DEVICE_START
       else CLM_DEVICE_EVENT_SCAN_START_DEVICE_STOP));;
  modify_group g (fun group_data => group_data <| g_timestamp_link_scan_start := now |>);;
  clm ← get;
  clm_iefb_send_cyclic_request_frame (m_cciefb_socket clm) (m_iefb_broadcast_ip clm) g
    unix_timestamp_ms (m_master_local_unit_info clm);;
  let period := gs_timeout_value group_setting * CL_TIMER_MICROSECONDS_PER_MILLISECOND in
  modify_group g (fun group_data => group_data <| g_response_wait_timer ::= (fun t =>
    cl_timer_start t period now) |>);;
  when (gs_use_constant_link_scan_time group_setting)
    (modify_group g (fun group_data => group_data <| g_constant_linkscan_timer ::= (fun t =>
       cl_timer_start t period now) |>));;
  mret CLM_GROUP_EVENT_NONE.

(** The last part of a link scan. *)
Definition advance_frame_sequence_no (g : Z) : clm_prog unit :=
  modify_group g (fun group_data => group_data
    <| g_frame_sequence_no ::= clm_iefb_update_frame_sequence_no |>).

Definition on_linkscan_timeout_action (g : Z) : clm_prog clm_group_event :=
  clm_iefb_device_fsm_event_all_in_group g CLM_DEVICE_EVENT_GROUP_TIMEOUT;;
  clm_iefb_trigger_linkscan_callback g false;;
  advance_frame_sequence_no g;;
  mret CLM_GROUP_EVENT_LINKSCAN_START.

Definition on_linkscan_complete_action (g : Z) : clm_prog clm_group_event :=
  clm ← get;
  let group_setting := group_setting_of clm g in
  modify_group g (fun group_data => group_data <| g_response_wait_timer ::= cl_timer_stop |>);;
  clm_iefb_device_fsm_event_all_in_group g CLM_DEVICE_EVENT_GROUP_ALL_RESPONDED;;
  clm_iefb_trigger_linkscan_callback g true;;
  advance_frame_sequence_no g;;
  mret (if gs_use_constant_link_scan_time group_setting then CLM_GROUP_EVENT_NONE
        else CLM_GROUP_EVENT_LINKSCAN_START).

Definition group_on_entry_listen_action (g : Z) : clm_prog clm_group_event :=
  modify (fun clm => clm <| m_arbitration_timer ::= cl_timer_stop |>);;
  clm_iefb_device_fsm_event_all_in_group g CLM_DEVICE_EVENT_GROUP_STANDBY;;
  clm_iefb_set_master_state CLM_MASTER_STATE_STANDBY;;
  mret CLM_GROUP_EVENT_NONE.

Definition run_group_action (action : clm_group_action) (g now : Z) : clm_prog clm_group_event :=
  match action with
  | clm_iefb_group_init => group_init_action g
  | clm_iefb_group_new_config => group_new_config_action g now
  | clm_iefb_on_arbitration_failed => on_arbitration_failed_action now
  | clm_iefb_on_arbitration_done => mret CLM_GROUP_EVENT_LINKSCAN_START
  | clm_iefb_on_linkscan_start => on_linkscan_start_action g now
  | clm_iefb_on_linkscan_timeout => on_linkscan_timeout_action g
  | clm_iefb_on_linkscan_complete => on_linkscan_complete_action g
  | clm_iefb_group_on_entry_listen => group_on_entry_listen_action g
  | clm_iefb_group_on_entry_arbitration =>
      clm_iefb_set_master_state CLM_MASTER_STATE_ARBITRATION;; mret CLM_GROUP_EVENT_NONE
  | clm_iefb_group_on_entry_scan_complete =>
      clm_iefb_set_master_state CLM_MASTER_STATE_RUNNING;; mret CLM_GROUP_EVENT_NONE
  end.

(** ** The group state machine *)

Definition group_transitions
  : list (clm_group_state * clm_group_event * clm_group_state * option clm_group_action) := [
  (CLM_GROUP_STATE_MASTER_DOWN, CLM_GROUP_EVENT_STARTUP, CLM_GROUP_STATE_MASTER_LISTEN,
    Some clm_iefb_group_init);
  (CLM_GROUP_STATE_MASTER_LISTEN, CLM_GROUP_EVENT_NEW_CONFIG, CLM_GROUP_STATE_MASTER_ARBITRATION,
    Some clm_iefb_group_new_config);
  (CLM_GROUP_STATE_MASTER_LISTEN, CLM_GROUP_EVENT_PARAMETER_CHANGE, CLM_GROUP_STATE_MASTER_LISTEN,
    None);
  (CLM_GROUP_STATE_MASTER_ARBITRATION, CLM_GROUP_EVENT_PARAMETER_CHANGE,
    CLM_GROUP_STATE_MASTER_LISTEN, None);
  (CLM_GROUP_STATE_MASTER_ARBITRATION, CLM_GROUP_EVENT_ARBITRATION_DONE,
    CLM_GROUP_STATE_MASTER_LINK_SCAN_COMP, Some clm_iefb_on_arbitration_done);
  (CLM_GROUP_STATE_MASTER_ARBITRATION, CLM_GROUP_EVENT_REQ_FROM_OTHER,
    CLM_GROUP_STATE_MASTER_LISTEN, Some clm_iefb_on_arbitration_failed);
  (CLM_GROUP_STATE_MASTER_LINK_SCAN_COMP, CLM_GROUP_EVENT_PARAMETER_CHANGE,
    CLM_GROUP_STATE_MASTER_LISTEN, None);
  (CLM_GROUP_STATE_MASTER_LINK_SCAN_COMP, CLM_GROUP_EVENT_LINKSCAN_START,
    CLM_GROUP_STATE_MASTER_LINK_SCAN, Some clm_iefb_on_linkscan_start);
  (CLM_GROUP_STATE_MASTER_LINK_SCAN_COMP, CLM_GROUP_EVENT_REQ_FROM_OTHER,
    CLM_GROUP_STATE_MASTER_LINK_SCAN_COMP, None);
  (CLM_GROUP_STATE_MASTER_LINK_SCAN_COMP, CLM_GROUP_EVENT_MASTERDUPL_ALARM,
    CLM_GROUP_STATE_MASTER_LISTEN, None);
  (CLM_GROUP_STATE_MASTER_LINK_SCAN, CLM_GROUP_EVENT_PARAMETER_CHANGE,
    CLM_GROUP_STATE_MASTER_LISTEN, None);
  (CLM_GROUP_STATE_MASTER_LINK_SCAN, CLM_GROUP_EVENT_LINKSCAN_COMPLETE,
    CLM_GROUP_STATE_MASTER_LINK_SCAN_COMP, Some clm_iefb_on_linkscan_complete);
  (CLM_GROUP_STATE_MASTER_LINK_SCAN, CLM_GROUP_EVENT_LINKSCAN_TIMEOUT,
    CLM_GROUP_STATE_MASTER_LINK_SCAN_COMP, Some clm_iefb_on_linkscan_timeout);
  (CLM_GROUP_STATE_MASTER_LINK_SCAN, CLM_GROUP_EVENT_REQ_FROM_OTHER,
    CLM_GROUP_STATE_MASTER_LINK_SCAN, None);
  (CLM_GROUP_STATE_MASTER_LINK_SCAN, CLM_GROUP_EVENT_MASTERDUPL_ALARM,
    CLM_GROUP_STATE_MASTER_LISTEN, None)].

Definition group_state_actions
  : list (clm_group_state * option clm_group_action * option clm_group_action) := [
  (CLM_GROUP_STATE_MASTER_LISTEN, Some clm_iefb_group_on_entry_listen, None);
  (CLM_GROUP_STATE_MASTER_ARBITRATION, Some clm_iefb_group_on_entry_arbitration, None);
  (CLM_GROUP_STATE_MASTER_LINK_SCAN_COMP, Some clm_iefb_group_on_entry_scan_complete, None)].

(** The loop; [false] when the fuel is used up. *)
Fixpoint group_event_loop (fuel : nat) (g now : Z) (event : clm_group_event) : clm_prog bool :=
  match fuel with
  | O => mret false
  | S fuel =>
      clm ← get;
      let previous := g_group_state (group_at clm g) in
      let element := m_group_fsm_matrix clm previous event in
      let next_state_actions := m_group_fsm_on_entry_exit clm (gfsm_next element) in
      modify_group g (fun group_data => group_data <| g_group_state := gfsm_next element |>);;
      event ← match gfsm_action element with
              | Some action => run_group_action action g now
              | None => mret CLM_GROUP_EVENT_NONE
              end;
      group_data ← get_group g;
      (match gfsm_on_entry next_state_actions with
       | Some on_entry =>
           if bool_decide (g_group_state group_data <> previous)
           then run_group_action on_entry g now;; mret tt
           else mret tt
       | None => mret tt
       end);;
      if bool_decide (event <> CLM_GROUP_EVENT_NONE) then group_event_loop fuel g now event
      else mret true
  end.

Definition clm_iefb_group_fsm_event (g now : Z) (event : clm_group_event) : clm_prog unit :=
  if bool_decide (event = CLM_GROUP_EVENT_LAST) then mret tt
  else group_event_loop MASTER_FSM_FUEL g now event;; mret tt.

Definition number_of_groups (clm : clm) : Z := sh_number_of_groups (mc_hier (m_config clm)).

Definition clm_iefb_group_fsm_event_all (now : Z) (event : clm_group_event) : clm_prog unit :=
  clm ← get;
  for_range (number_of_groups clm) (fun g => clm_iefb_group_fsm_event g now event).

Definition set_group_transition
  (matrix : clm_group_state -> clm_group_event -> clm_group_fsm)
  (t : clm_group_state * clm_group_event * clm_group_state * option clm_group_action)
  : clm_group_state -> clm_group_event -> clm_group_fsm :=
  let '(s, e, next, action) := t in
  fun s' e' => if bool_decide (s' = s) && bool_decide (e' = e)
               then ClmGroupFsm next action else matrix s' e'.
Definition set_group_state_actions (table : clm_group_state -> clm_group_fsm_entry_exit)
  (a : clm_group_state * option clm_group_action * option clm_group_action)
  : clm_group_state -> clm_group_fsm_entry_exit :=
  let '(s, on_entry, on_exit) := a in
  fun s' => if bool_decide (s' = s) then ClmGroupFsmEntryExit on_entry on_exit else table s'.

Definition group_matrix : clm_group_state -> clm_group_event -> clm_group_fsm :=
  foldl set_group_transition (fun s _ => ClmGroupFsm s None) group_transitions.
Definition group_on_entry_exit : clm_group_state -> clm_group_fsm_entry_exit :=
  foldl set_group_state_actions (fun _ => ClmGroupFsmEntryExit None None) group_state_actions.

Definition clm_iefb_group_fsm_tables_init : clm_prog unit :=
  modify (fun clm => clm <| m_group_fsm_matrix := group_matrix |>
                         <| m_group_fsm_on_entry_exit := group_on_entry_exit |>).

Definition clm_iefb_monitor_all_group_timers (now : Z) : clm_prog unit :=
  clm ← get;
  for_range (number_of_groups clm) (fun g =>
    group_data ← get_group g;
    when (cl_timer_is_expired (g_response_wait_timer group_data) now)
      (modify_group g (fun group_data => group_data <| g_response_wait_timer ::= cl_timer_stop |>);;
       clm_iefb_group_fsm_event g now CLM_GROUP_EVENT_LINKSCAN_TIMEOUT);;
    group_data ← get_group g;
    when (cl_timer_is_expired (g_constant_linkscan_timer group_data) now)
      (modify_group g (fun group_data => group_data
         <| g_constant_linkscan_timer ::= cl_timer_stop |>);;
       clm_iefb_group_fsm_event g now CLM_GROUP_EVENT_LINKSCAN_START)).

(** The call of [cl_file_save_if_modified] is an output. *)
Definition clm_iefb_handle_new_config (now : Z) : clm_prog unit :=
  modify (fun clm => clm <| m_parameter_no ::= (fun no => u16 (no + 1)) |>);;
  clm ← get;
  emit (ClmSaveParameterNo (m_parameter_no clm));;
  clm_iefb_group_fsm_event_all now CLM_GROUP_EVENT_NEW_CONFIG.

(** ** Incoming frames *)

(** An invalid frame is counted. *)
Definition count_invalid_frame (g d : Z) : clm_prog unit :=
  modify_device g d (count_in st_number_of_incoming_invalid_frames).
Definition count_alarm_frame (g d : Z) : clm_prog unit :=
  modify_device g d (count_in st_number_of_incoming_alarm_frames).

(** The part of [clm_iefb_handle_response_frame] after the checks: the
    response is stored and the state machines are told. *)
Definition store_response_values (g d : Z) (cyclic_response : clm_cciefb_cyclic_response_info)
  : clm_prog unit :=
  modify_group g (fun group_data => update_device d (fun device => device
    <| d_latest_frame := clm_iefb_store_incoming_slave_runtime_info cyclic_response
                           (g_timestamp_link_scan_start group_data) |>) group_data);;
  clm ← get;
  modify_device g d (fun device => device <| d_statistics ::= (fun statistics =>
    clm_iefb_statistics_update_response_time statistics (mc_max_statistics_samples (m_config clm))
      (fv_response_time (d_latest_frame device))) |>).

Definition store_response_data (g d : Z) (cyclic_response : clm_cciefb_cyclic_response_info)
  (slave_device_setting : clm_slave_device_setting) : clm_prog unit :=
  group_data ← get_group g;
  let device := device_at group_data d in
  memory_area ← lift_outcome (clm_iefb_store_incoming_cyclic_data (g_memory_area group_data)
    cyclic_response (d_slave_station_no device) (ds_num_occupied_stations slave_device_setting)
    (d_transmission_bit device));
  modify_group g (fun group_data => group_data <| g_memory_area := memory_area |>).

Definition complete_link_scan (now g : Z) : clm_prog unit :=
  clm ← get;
  when (clm_iefb_group_have_received_from_all_devices (setting_of_group (m_config clm) g)
          (group_at clm g))
    (clm_iefb_group_fsm_event g now CLM_GROUP_EVENT_LINKSCAN_COMPLETE).

Definition response_fsm_events (now g d end_code : Z) : clm_prog unit :=
  if end_code =? CL_SLMP_ENDCODE_CCIEFB_MASTER_DUPLICATION then
    clm_iefb_group_fsm_event_all now CLM_GROUP_EVENT_MASTERDUPL_ALARM
  else
    clm_iefb_device_fsm_event g d
      (if end_code =? CL_SLMP_ENDCODE_SUCCESS then CLM_DEVICE_EVENT_RECEIVE_OK
       else CLM_DEVICE_EVENT_RECEIVE_ERROR);;
    complete_link_scan now g.

Definition store_response (now g d end_code : Z) (cyclic_response : clm_cciefb_cyclic_response_info)
  (slave_device_setting : clm_slave_device_setting) : clm_prog unit :=
  store_response_values g d cyclic_response;;
  store_response_data g d cyclic_response slave_device_setting;;
  response_fsm_events now g d end_code.

(** The parts of the function between the checks: the errors that a response
    reports, and what changed since the latest response. *)
Definition report_errors (now g d end_code remote_ip : Z) : clm_prog unit :=
  when (end_code =? CL_SLMP_ENDCODE_CCIEFB_WRONG_NUMBER_OCCUPIED_STATIONS)
    (count_alarm_frame g d;;
     clm_iefb_trigger_error_callback now CLM_ERROR_SLAVE_REPORTS_WRONG_NUMBER_OCCUPIED
       remote_ip 0);;
  when (end_code =? CL_SLMP_ENDCODE_CCIEFB_MASTER_DUPLICATION)
    (count_alarm_frame g d;;
     clm_iefb_trigger_error_callback now CLM_ERROR_SLAVE_REPORTS_MASTER_DUPLICATION remote_ip 0).

Definition report_changes (g d end_code slave_err_code local_management_info : Z)
  (latest : clm_device_framevalues) : clm_prog unit :=
  when ((end_code =? CL_SLMP_ENDCODE_CCIEFB_SLAVE_ERROR) ||
        (end_code =? CL_SLMP_ENDCODE_CCIEFB_SLAVE_REQUESTS_DISCONNECT))
    (count_alarm_frame g d;;
     when (negb (end_code =? fv_end_code latest))
       (clm_iefb_trigger_alarmframe_callback g d end_code slave_err_code
          local_management_info));;
  when (fv_has_been_received latest &&
        (negb (slave_err_code =? fv_slave_err_code latest) ||
         negb (local_management_info =? fv_local_management_info latest)))
    (clm_iefb_trigger_slaveinfo_callback g d end_code slave_err_code local_management_info).

(** The part that follows when the sender is known. *)
Definition handle_device_response (now g d remote_ip : Z)
  (cyclic_response : clm_cciefb_cyclic_response_info)
  (slave_device_setting : clm_slave_device_setting) : clm_prog bool :=
  let headers := si_full_headers cyclic_response in
  modify_device g d (count_in st_number_of_incoming_frames);;
  group_data ← get_group g;
  let device := device_at group_data d in
  let latest := d_latest_frame device in
  let frame_sequence_no := sdh_frame_sequence_no (fs_cyclic_data_header headers) in
  if negb (d_enabled device) then count_invalid_frame g d;; mret false
  else if fv_has_been_received latest &&
          (frame_sequence_no =? fv_frame_sequence_no latest) &&
          bool_decide (d_device_state device <> CLM_DEVICE_STATE_LISTEN)
  then
    count_invalid_frame g d;;
    clm_iefb_trigger_error_callback now CLM_ERROR_SLAVE_DUPLICATION remote_ip 0;;
    clm_iefb_device_fsm_event g d CLM_DEVICE_EVENT_SLAVE_DUPLICATION;;
    mret false
  else if d_transmission_bit device && negb (frame_sequence_no =? g_frame_sequence_no group_data)
  then count_invalid_frame g d;; mret false
  else
    let end_code := csh_end_code (fs_cyclic_header headers) in
    let slave_err_code := ssn_slave_err_code (fs_slave_station_notification headers) in
    let local_management_info :=
      ssn_local_management_info (fs_slave_station_notification headers) in
    report_errors now g d end_code remote_ip;;
    if negb (si_number_of_occupied cyclic_response =?
             ds_num_occupied_stations slave_device_setting)
    then count_invalid_frame g d;; mret false
    else
      report_changes g d end_code slave_err_code local_management_info latest;;
      store_response now g d end_code cyclic_response slave_device_setting;;
      mret true.

Definition clm_iefb_handle_response_frame (now : Z) (buffer : list Z)
  (recv_len remote_ip remote_port : Z) : clm_prog bool :=
  clm ← get;
  if mc_master_id (m_config clm) =? CL_IPADDR_INVALID then mret false else
  parsed ← lift_outcome (cl_iefb_parse_cyclic_response buffer recv_len remote_ip remote_port now);
  match parsed with
  | None => mret false
  | Some cyclic_response =>
      let group_no := sdh_group_no (fs_cyclic_data_header (si_full_headers cyclic_response)) in
      if number_of_groups clm <? group_no then mret false else
      let g := group_no - 1 in
      let group_setting := setting_of_group (m_config clm) g in
      match clm_iefb_calc_slave_device_index group_setting remote_ip with
      | None => mret false
      | Some d =>
          handle_device_response now g d remote_ip cyclic_response
            (setting_of_device group_setting d)
      end
  end.

Definition clm_iefb_handle_request_frame (now remote_ip : Z) : clm_prog bool :=
  modify (fun clm => clm <| m_latest_conflicting_master_ip := remote_ip |>);;
  clm_iefb_group_fsm_event_all now CLM_GROUP_EVENT_REQ_FROM_OTHER;;
  mret true.

Definition clm_iefb_handle_input_frame (now : Z) (buffer : list Z)
  (recv_len remote_ip remote_port : Z) : clm_prog bool :=
  clm ← get;
  if remote_ip =? mc_master_id (m_config clm) then mret true else
  match cl_iefb_parse_response_header buffer recv_len with
  | None => mret false
  | Some response_header =>
      if negb (cl_iefb_validate_response_header response_header recv_len) then
        match cl_iefb_parse_request_header buffer recv_len with
        | None => mret false
        | Some request_header =>
            if negb (cl_iefb_validate_request_header request_header recv_len) then mret false
            else if negb (rqh_command request_header =? CL_SLMP_COMMAND_CCIEFB_CYCLIC) ||
                    negb (rqh_sub_command request_header =? CL_SLMP_SUBCOMMAND_CCIEFB_CYCLIC)
            then mret false
            else clm_iefb_handle_request_frame now remote_ip
        end
      else clm_iefb_handle_response_frame now buffer recv_len remote_ip remote_port
  end.

(** ** Access to the cyclic data *)

(** Number of occupied stations of a device (0 when there is no such device)
    and the index of its first station. *)
Definition clm_iefb_get_occupied_and_position (clm : clm) (group_index slave_device_index : Z)
  : Z * Z :=
  if number_of_groups clm <=? group_index then (0, 0)
  else
    let group_setting := setting_of_group (m_config clm) group_index in
    if gs_num_slave_devices group_setting <=? slave_device_index then (0, 0)
    else
      (ds_num_occupied_stations (setting_of_device group_setting slave_device_index),
       u16 (d_slave_station_no (device_at (group_at clm group_index) slave_device_index) - 1)).

(** The four areas of a group, and a pointer to a station of one of them. *)
Inductive signal_area := AREA_RX | AREA_RY | AREA_RWR | AREA_RWW.
Definition area_of (area : signal_area) (memory_area : clm_group_memory_area) : list Z :=
  match area with
  | AREA_RX => ma_rx memory_area
  | AREA_RY => ma_ry memory_area
  | AREA_RWR => ma_rwr memory_area
  | AREA_RWW => ma_rww memory_area
  end.
Record area_pointer := AreaPointer { ap_area : signal_area; ap_group : Z; ap_station : Z }.

(** The pointer to an area of a group, [None] for [NULL], and the number of
    its stations; the functions for the four areas differ in the area only. *)
Definition first_area (area : signal_area) (clm : clm) (group_index : Z)
  : option area_pointer * Z :=
  if number_of_groups clm <=? group_index then (None, 0)
  else (Some (AreaPointer area group_index 0), g_total_occupied (group_at clm group_index)).
Definition clm_iefb_get_first_rx_area (clm : clm) : Z -> option area_pointer * Z :=
  first_area AREA_RX clm.
Definition clm_iefb_get_first_ry_area (clm : clm) : Z -> option area_pointer * Z :=
  first_area AREA_RY clm.
Definition clm_iefb_get_first_rwr_area (clm : clm) : Z -> option area_pointer * Z :=
  first_area AREA_RWR clm.
Definition clm_iefb_get_first_rww_area (clm : clm) : Z -> option area_pointer * Z :=
  first_area AREA_RWW clm.

(** The same for an area of a device. *)
Definition first_device_area (get_first_area : Z -> option area_pointer * Z) (clm : clm)
  (group_index slave_device_index : Z) : outcome (option area_pointer * Z) :=
  let (occupied, pos) :=
    clm_iefb_get_occupied_and_position clm group_index slave_device_index in
  if occupied =? 0 then Done (None, 0)
  else match get_first_area group_index with
       | (None, _) => AssertFailed
       | (Some p, _) =>
           Done (Some (AreaPointer (ap_area p) (ap_group p) (ap_station p + pos)), occupied)
       end.
Definition clm_iefb_get_first_device_rx_area (clm : clm)
  : Z -> Z -> outcome (option area_pointer * Z) :=
  first_device_area (clm_iefb_get_first_rx_area clm) clm.
Definition clm_iefb_get_first_device_ry_area (clm : clm)
  : Z -> Z -> outcome (option area_pointer * Z) :=
  first_device_area (clm_iefb_get_first_ry_area clm) clm.
Definition clm_iefb_get_first_device_rwr_area (clm : clm)
  : Z -> Z -> outcome (option area_pointer * Z) :=
  first_device_area (clm_iefb_get_first_rwr_area clm) clm.
Definition clm_iefb_get_first_device_rww_area (clm : clm)
  : Z -> Z -> outcome (option area_pointer * Z) :=
  first_device_area (clm_iefb_get_first_rww_area clm) clm.

(** Area [areanumber] of a device, with the assertions of the access
    functions: its memory, and its first station in it. *)
Definition checked_area (get_area : clm -> Z -> Z -> outcome (option area_pointer * Z))
  (group_index slave_device_index areanumber : Z) : clm_prog (list Z * Z) :=
  clm ← get;
  area ← lift_outcome (get_area clm group_index slave_device_index);
  let (first_area, num_occupied_stations) := area : option area_pointer * Z in
  cc_assert (negb (num_occupied_stations =? 0));;
  cc_assert (areanumber <? num_occupied_stations);;
  match first_area with
  | None => cc_assert false;; mret ([], 0)
  | Some p => mret (area_of (ap_area p) (g_memory_area (group_at clm (ap_group p))),
                    ap_station p + areanumber)
  end.

Definition get_area_bit (get_area : clm -> Z -> Z -> outcome (option area_pointer * Z))
  (group_index slave_device_index number : Z) : clm_prog bool :=
  let '(areanumber, byte_in_area, mask) := cl_iefb_bit_calculate_areanumber number in
  area ← checked_area get_area group_index slave_device_index areanumber;
  byte ← lift_outcome (load (area.2 * sizeof_rx + byte_in_area) 1 area.1);
  mret (0 <? Z.land (le_combine byte) mask).

Definition get_area_value (get_area : clm -> Z -> Z -> outcome (option area_pointer * Z))
  (group_index slave_device_index number : Z) : clm_prog Z :=
  let (areanumber, register_in_area) := cl_iefb_register_calculate_areanumber number in
  area ← checked_area get_area group_index slave_device_index areanumber;
  word ← lift_outcome (load (area.2 * sizeof_rwr + 2 * register_in_area) 2 area.1);
  mret (le_combine word).

Definition clm_iefb_get_rx_bit : Z -> Z -> Z -> clm_prog bool :=
  get_area_bit clm_iefb_get_first_device_rx_area.
Definition clm_iefb_get_ry_bit : Z -> Z -> Z -> clm_prog bool :=
  get_area_bit clm_iefb_get_first_device_ry_area.
Definition clm_iefb_get_rwr_value : Z -> Z -> Z -> clm_prog Z :=
  get_area_value clm_iefb_get_first_device_rwr_area.
Definition clm_iefb_get_rww_value : Z -> Z -> Z -> clm_prog Z :=
  get_area_value clm_iefb_get_first_device_rww_area.

Definition clm_iefb_set_ry_bit (group_index slave_device_index number : Z) (value : bool)
  : clm_prog unit :=
  let '(areanumber, byte_in_area, mask) := cl_iefb_bit_calculate_areanumber number in
  area ← checked_area clm_iefb_get_first_device_ry_area group_index slave_device_index areanumber;
  let off := area.2 * sizeof_ry + byte_in_area in
  byte ← lift_outcome (load off 1 area.1);
  let b := le_combine byte in
  mem ← lift_outcome (store off [if value then u8 (Z.lor b mask)
                                 else u8 (Z.land b (Z.lnot mask))] area.1);
  modify_group group_index (fun group_data => group_data
    <| g_memory_area ::= (fun a => a <| ma_ry := mem |>) |>).

Definition clm_iefb_set_rww_value (group_index slave_device_index number value : Z)
  : clm_prog unit :=
  let (areanumber, register_in_area) := cl_iefb_register_calculate_areanumber number in
  area ← checked_area clm_iefb_get_first_device_rww_area group_index slave_device_index areanumber;
  mem ← lift_outcome (store (area.2 * sizeof_rww + 2 * register_in_area) (c_enc c_u16le value)
                        area.1);
  modify_group group_index (fun group_data => group_data
    <| g_memory_area ::= (fun a => a <| ma_rww := mem |>) |>).

(** ** Settings at run time *)

Definition clm_iefb_set_master_application_status (running stopped_by_user : bool)
  : clm_prog unit :=
  modify (fun clm => clm <| m_master_local_unit_info :=
    clm_iefb_calc_master_local_unit_info (mc_protocol_ver (m_config clm)) running
      stopped_by_user |>).

Definition clm_iefb_get_master_application_status (clm : clm) : Z := m_master_local_unit_info clm.

(** The details that the two status functions fill in. *)
Record clm_master_status_details := ClmMasterStatusDetails {
  md_master_state : clm_master_state;
  md_parameter_no : Z;
  md_node_search_serial : Z;
  md_set_ip_request_serial : Z
}.
Record clm_group_status_details := ClmGroupStatusDetails {
  gd_group_index : Z;
  gd_total_occupied : Z;
  gd_frame_sequence_no : Z;
  gd_cyclic_transmission_state : Z;
  gd_timestamp_link_scan_start : Z;
  gd_group_state : clm_group_state
}.

Definition clm_iefb_get_master_status (clm : clm) : clm_master_status_details :=
  ClmMasterStatusDetails (m_master_state clm) (m_parameter_no clm) (m_node_search_serial clm)
    (m_set_ip_request_serial clm).

Definition clm_iefb_get_group_status (clm : clm) (group_index : Z)
  : option clm_group_status_details :=
  if number_of_groups clm <=? group_index then None
  else
    let group_data := group_at clm group_index in
    Some (ClmGroupStatusDetails (g_group_index group_data) (g_total_occupied group_data)
      (g_frame_sequence_no group_data) (g_cyclic_transmission_state group_data)
      (g_timestamp_link_scan_start group_data) (g_group_state group_data)).

Definition no_such_device (clm : clm) (group_index slave_device_index : Z) : bool :=
  (number_of_groups clm <=? group_index) ||
  (gs_num_slave_devices (setting_of_group (m_config clm) group_index) <=? slave_device_index).

Definition clm_iefb_set_slave_communication_status (group_index slave_device_index : Z)
  (enabled : bool) : clm_prog bool :=
  clm ← get;
  if no_such_device clm group_index slave_device_index then mret false else
  modify_device group_index slave_device_index (fun device => device <| d_enabled := enabled |>);;
  mret true.

Definition clm_iefb_force_cyclic_transmission_bit (group_index slave_device_index : Z)
  (force : bool) : clm_prog bool :=
  clm ← get;
  if no_such_device clm group_index slave_device_index then mret false else
  modify_device group_index slave_device_index (fun device => device
    <| d_force_transmission_bit := force |>);;
  mret true.

Definition clm_iefb_get_device_connection_details (clm : clm) (group_index slave_device_index : Z)
  : option clm_slave_device_data :=
  if no_such_device clm group_index slave_device_index then None
  else Some (device_at (group_at clm group_index) slave_device_index).

Definition clm_iefb_statistics_clear_all : clm_prog unit :=
  clm ← get;
  for_range (number_of_groups clm) (fun g =>
    for_range (gs_num_slave_devices (setting_of_group (m_config clm) g)) (fun d =>
      modify_device g d (fun device => device
        <| d_statistics := clm_iefb_statistics_clear |>
        <| d_latest_frame := clm_iefb_latest_received_clear |>))).

(** ** Periodic function, start and stop *)

(** The datagram is in the receive buffer. *)
Definition handle_datagram (now : Z) (dg : datagram) : clm_prog unit :=
  modify (fun clm => clm <| m_cciefb_receivebuf ::= splice 0 (dg_bytes dg) |>);;
  clm ← get;
  let recv_len := Z.of_nat (length (dg_bytes dg)) in
  when (0 <? recv_len)
    (clm_iefb_handle_input_frame now (m_cciefb_receivebuf clm) recv_len (dg_remote_ip dg)
       (dg_remote_port dg);; mret tt).

(** The loop ends when the socket has no datagram left, or at an empty one. *)
Fixpoint receive_loop (now : Z) (queue : list datagram) : clm_prog unit :=
  match queue with
  | [] => mret tt
  | dg :: queue =>
      handle_datagram now dg;;
      if 0 <? Z.of_nat (length (dg_bytes dg)) then receive_loop now queue else mret tt
  end.

(** [arbitration] and [queue] are what the two sockets have for us. *)
Definition clm_iefb_periodic (arbitration : option datagram) (queue : list datagram)
  (now : Z) : clm_prog unit :=
  modify (fun clm => clm <| m_errorlimiter ::= (fun l => cl_limiter_periodic l now) |>);;
  clm ← get;
  when (cl_timer_is_expired (m_arbitration_timer clm) now)
    (modify (fun clm => clm <| m_arbitration_timer ::= cl_timer_stop |>);;
     clm_iefb_group_fsm_event_all now CLM_GROUP_EVENT_ARBITRATION_DONE);;
  clm_iefb_monitor_all_group_timers now;;
  clm ← get;
  when (mc_use_separate_arbitration_socket (m_config clm))
    (match arbitration with Some dg => handle_datagram now dg | None => mret tt end);;
  receive_loop now queue.

(** The last part of [clm_iefb_init]. *)
Definition start_groups (now : Z) : clm_prog unit :=
  modify (fun clm => clm
    <| m_groups := replicate (Z.to_nat CLM_MAX_GROUPS) clm_group_data_zero |>);;
  clm ← get;
  for_range (number_of_groups clm) (fun g =>
    modify_group g (fun group_data => group_data
      <| g_group_state := CLM_GROUP_STATE_MASTER_DOWN |> <| g_group_index := g |>));;
  clm_iefb_group_fsm_event_all now CLM_GROUP_EVENT_STARTUP;;
  clm_iefb_handle_new_config now.

Definition clm_iefb_init (now : Z) : clm_prog bool :=
  modify (fun clm => clm <| m_errorlimiter ::= (fun l =>
    cl_limiter_init l CLM_CCIEFB_ERRORCALLBACK_RETRIGGER_PERIOD) |>);;
  clm ← get;
  let socket := clal_udp_open (mc_master_id (m_config clm)) CL_CCIEFB_PORT in
  emit (ClmCciefbOpen (mc_master_id (m_config clm)) CL_CCIEFB_PORT);;
  modify (fun clm => clm <| m_cciefb_socket := socket |>);;
  if socket =? -1 then mret false else
  let separate := mc_use_separate_arbitration_socket (m_config clm) in
  let arbitration_socket := clal_udp_open (m_iefb_broadcast_ip clm) CL_CCIEFB_PORT in
  when separate
    (emit (ClmCciefbOpen (m_iefb_broadcast_ip clm) CL_CCIEFB_PORT);;
     modify (fun clm => clm <| m_cciefb_arbitration_socket := arbitration_socket |>));;
  if separate && (arbitration_socket =? -1) then mret false else
  modify (fun clm => clm
    <| m_latest_conflicting_master_ip := CL_IPADDR_INVALID |>
    <| m_master_state := CLM_MASTER_STATE_DOWN |>
    <| m_master_local_unit_info := CL_CCIEFB_MASTER_LOCAL_UNIT_INFO_RUNNING |>
    <| m_arbitration_timer ::= cl_timer_stop |>);;
  clm_iefb_device_fsm_tables_init;;
  clm_iefb_group_fsm_tables_init;;
  start_groups now;;
  mret true.

Definition clm_iefb_exit : clm_prog unit :=
  clm ← get;
  emit (ClmCciefbClose (m_cciefb_socket clm));;
  modify (fun clm => clm <| m_cciefb_socket := -1 |>);;
  when (mc_use_separate_arbitration_socket (m_config clm))
    (emit (ClmCciefbClose (m_cciefb_arbitration_socket clm));;
     modify (fun clm => clm <| m_cciefb_arbitration_socket := -1 |>)).

End MasterIefb.
