(* ===== verification/MasterConfig.v ===== *)
(** * Validation of the master's configuration (src/src/master/clm_master.c)

    The checks of [clm_validate_config] and [clm_validate_config_duplicates],
    and what an accepted configuration looks like: the facts about stations
    and addresses that the rest of the master relies on. *)

From S2P Require Import Prelude Packed Signals Timer Limiter Util Types Iefb Slmp Master MasterIefb.

Definition CL_CCIEFB_MAX_TIMEOUT_CONSTANT_LINKSCAN : Z := 2000.
Definition CL_CCIEFB_MAX_OCCUPIED_STATIONS_FOR_ALL_GROUPS : Z := 64.

Section MasterConfig.
Context `{ClmOptions}.

(** ** Definitions *)

(** The checks of one slave device. *)
Definition validate_slave_device (cfg : clm_cfg) (slave_device_setting : clm_slave_device_setting)
  : bool :=
  if negb (cl_utils_is_ipaddr_range_valid (ds_slave_id slave_device_setting)) then false
  else if ds_slave_id slave_device_setting =? mc_master_id cfg then false
  else if (ds_num_occupied_stations slave_device_setting =? 0) ||
          (CLM_MAX_OCCUPIED_STATIONS_PER_GROUP <? ds_num_occupied_stations slave_device_setting)
  then false
  else true.

Definition group_devices (group_setting : clm_group_setting) : list clm_slave_device_setting :=
  map (setting_of_device group_setting) (seqZ 0 (gs_num_slave_devices group_setting)).

(** The sum of the stations of devices, from [start]. *)
Definition add_stations (start : Z) (devices : list clm_slave_device_setting) : Z :=
  foldl (fun total device => u16 (total + ds_num_occupied_stations device)) start devices.

(** The checks of one group. *)
Definition validate_group (cfg : clm_cfg) (group_setting : clm_group_setting) : bool :=
  let num_slave_devices := gs_num_slave_devices group_setting in
  if gs_timeout_value group_setting <? CL_CCIEFB_MIN_TIMEOUT then false
  else if gs_use_constant_link_scan_time group_setting &&
          (CL_CCIEFB_MAX_TIMEOUT_CONSTANT_LINKSCAN <? gs_timeout_value group_setting)
  then false
  else if gs_parallel_off_timeout_count group_setting <? CL_CCIEFB_MIN_TIMEOUT_COUNT then false
  else if (num_slave_devices =? 0) || (CLM_MAX_OCCUPIED_STATIONS_PER_GROUP <? num_slave_devices)
  then false
  else if negb (forallb (validate_slave_device cfg) (group_devices group_setting)) then false
  else if CLM_MAX_OCCUPIED_STATIONS_PER_GROUP <? add_stations 0 (group_devices group_setting)
  then false
  else true.

Definition config_groups (cfg : clm_cfg) : list clm_group_setting :=
  map (setting_of_group cfg) (seqZ 0 (sh_number_of_groups (mc_hier cfg))).

(** [None] for a null pointer. *)
Definition clm_validate_config (cfg : option clm_cfg) : bool :=
  match cfg with
  | None => false
  | Some cfg =>
      let number_of_groups := sh_number_of_groups (mc_hier cfg) in
      if (mc_protocol_ver cfg <? CL_CCIEFB_MIN_SUPPORTED_PROTOCOL_VER) ||
         (CL_CCIEFB_MAX_SUPPORTED_PROTOCOL_VER <? mc_protocol_ver cfg)
      then false
      else if negb (cl_utils_is_ipaddr_range_valid (mc_master_id cfg)) then false
      else if (number_of_groups <? CL_CCIEFB_MIN_GROUP_NO) || (CLM_MAX_GROUPS <? number_of_groups)
      then false
      else if negb (forallb (validate_group cfg) (config_groups cfg)) then false
      else if CL_CCIEFB_MAX_OCCUPIED_STATIONS_FOR_ALL_GROUPS <?
              foldl (fun total group_setting => add_stations total (group_devices group_setting)) 0
                (config_groups cfg)
      then false
      else true
  end.

(** The four loops: no two different devices have the same slave id. *)
Definition clm_validate_config_duplicates (cfg : clm_cfg) : bool :=
  let groups := seqZ 0 (sh_number_of_groups (mc_hier cfg)) in
  let devices g := seqZ 0 (gs_num_slave_devices (setting_of_group cfg g)) in
  let slave_id g d := ds_slave_id (setting_of_device (setting_of_group cfg g) d) in
  forallb (fun gi => forallb (fun sdi => forallb (fun inner_gi => forallb (fun inner_sdi =>
    ((inner_gi =? gi) && (inner_sdi =? sdi)) ||
    negb (slave_id gi sdi =? slave_id inner_gi inner_sdi))
    (devices inner_gi)) groups) (devices gi)) groups.

(** ** What a valid configuration guarantees *)

(** The types of the fields. *)
Record cfg_types (cfg : clm_cfg) : Prop := {
  ct_master_id : is_u32 (mc_master_id cfg);
  ct_arbitration : is_u16 (mc_arbitration_time cfg);
  ct_callbacks : is_u16 (mc_callback_time_node_search cfg) /\ is_u16 (mc_callback_time_set_ip cfg);
  ct_groups : Forall (fun gs => is_u16 (gs_timeout_value gs) /\
    is_u16 (gs_parallel_off_timeout_count gs) /\ is_u16 (gs_num_slave_devices gs) /\
    Forall (fun ds => is_u32 (ds_slave_id ds) /\ is_u16 (ds_num_occupied_stations ds))
      (gs_slave_devices gs)) (sh_groups (mc_hier cfg));
  ct_arrays : length (sh_groups (mc_hier cfg)) = Z.to_nat CLM_MAX_GROUPS /\
    Forall (fun gs => length (gs_slave_devices gs) =
              Z.to_nat CLM_MAX_OCCUPIED_STATIONS_PER_GROUP) (sh_groups (mc_hier cfg))
}.

(** A group and a device that the configuration has. *)
Definition has_group (cfg : clm_cfg) (g : Z) : Prop := 0 <= g < sh_number_of_groups (mc_hier cfg).
Definition has_device (cfg : clm_cfg) (g d : Z) : Prop :=
  has_group cfg g /\ 0 <= d < gs_num_slave_devices (setting_of_group cfg g).

(** Stations before device [d] of a group, without wrap-around. *)
Definition stations_before (group_setting : clm_group_setting) (d : Z) : Z :=
  foldr Z.add 0 (map (fun d => ds_num_occupied_stations (setting_of_device group_setting d))
                   (seqZ 0 d)).
Definition total_stations (group_setting : clm_group_setting) : Z :=
  stations_before group_setting (gs_num_slave_devices group_setting).

Record group_ok (cfg : clm_cfg) (group_setting : clm_group_setting) : Prop := {
  go_timeout : 1 <= gs_timeout_value group_setting < 2 ^ 16;
  go_count : 1 <= gs_parallel_off_timeout_count group_setting < 2 ^ 16;
  go_devices : 1 <= gs_num_slave_devices group_setting <= CLM_MAX_OCCUPIED_STATIONS_PER_GROUP;
  go_stations : 1 <= total_stations group_setting <= CLM_MAX_OCCUPIED_STATIONS_PER_GROUP;
  go_device : forall d, 0 <= d < gs_num_slave_devices group_setting ->
    let device := setting_of_device group_setting d in
    1 <= ds_num_occupied_stations device <= CLM_MAX_OCCUPIED_STATIONS_PER_GROUP /\
    is_u32 (ds_slave_id device) /\ ds_slave_id device <> CL_IPADDR_INVALID /\
    ds_slave_id device <> mc_master_id cfg;
  go_multistation : forall d, 0 <= d < gs_num_slave_devices group_setting ->
    ds_slave_id (setting_of_device group_setting d) <> CL_CCIEFB_MULTISTATION_INDICATOR
}.

Record clm_config_ok (cfg : clm_cfg) : Prop := {
  cok_ver : 1 <= mc_protocol_ver cfg <= 2;
  cok_master : is_u32 (mc_master_id cfg) /\ mc_master_id cfg <> CL_IPADDR_INVALID;
  cok_groups : 1 <= sh_number_of_groups (mc_hier cfg) <= CLM_MAX_GROUPS;
  cok_group : forall g, has_group cfg g -> group_ok cfg (setting_of_group cfg g);
  cok_arbitration : is_u16 (mc_arbitration_time cfg)
}.

(** ** Lemmas: sums of stations *)

Lemma foldr_add_app l1 l2 : foldr Z.add 0 (l1 ++ l2) = foldr Z.add 0 l1 + foldr Z.add 0 l2.
Proof. induction l1; cbn [foldr app]; lia. Qed.

Lemma stations_before_S gs d : 0 <= d ->
  stations_before gs (d + 1) =
    stations_before gs d + ds_num_occupied_stations (setting_of_device gs d).
Proof.
  intros Hd. unfold stations_before. rewrite seqZ_app by lia. rewrite map_app, foldr_add_app.
  rewrite Z.add_0_l, (seqZ_cons d 1) by lia. rewrite (seqZ_nil (Z.succ d)) by lia. cbn [map foldr]. lia.
Qed.

Lemma stations_before_app gs d k : 0 <= d -> 0 <= k ->
  stations_before gs (d + k) = stations_before gs d +
    foldr Z.add 0 (map (fun d => ds_num_occupied_stations (setting_of_device gs d)) (seqZ d k)).
Proof.
  intros Hd Hk. unfold stations_before. rewrite seqZ_app by lia.
  rewrite map_app, foldr_add_app, Z.add_0_l. reflexivity.
Qed.

Lemma foldr_add_nonneg l : Forall (fun x => 0 <= x) l -> 0 <= foldr Z.add 0 l.
Proof. induction 1; cbn [foldr]; lia. Qed.

(** A loop that sums in 16 bits, without wrap-around. *)
Lemma foldl_u16_sum {A} (f : A -> Z) start l : 0 <= start ->
  Forall (fun x => 0 <= f x) l -> start + foldr Z.add 0 (map f l) < 2 ^ 16 ->
  foldl (fun total x => u16 (total + f x)) start l = start + foldr Z.add 0 (map f l).
Proof.
  intros Hs Hl. revert start Hs. induction Hl as [|x l Hx Hl IH]; intros start Hs Hb;
    cbn [foldl foldr map] in *; [lia|].
  pose proof (foldr_add_nonneg (map f l)) as Hn. rewrite Forall_map in Hn. specialize (Hn Hl).
  cbv beta in Hx. rewrite u16_id by zlia. rewrite IH; lia.
Qed.

Lemma foldr_add_bound m l : Forall (fun x => x <= m) l ->
  foldr Z.add 0 l <= m * Z.of_nat (length l).
Proof. induction 1; cbn [foldr length]; lia. Qed.

Lemma Forall_indices (P : Z -> Prop) n : (forall i, 0 <= i < n -> P i) -> Forall P (seqZ 0 n).
Proof. intros HP. apply Forall_seqZ. intros i Hi. apply HP. lia. Qed.

Section Group.
Context (cfg : clm_cfg) (gs : clm_group_setting) (gs_ok : group_ok cfg gs).

Lemma device_stations d : 0 <= d < gs_num_slave_devices gs ->
  1 <= ds_num_occupied_stations (setting_of_device gs d) <= CLM_MAX_OCCUPIED_STATIONS_PER_GROUP.
Proof. intros Hd. apply (go_device _ _ gs_ok d Hd). Qed.

Lemma stations_before_mono d d' : 0 <= d <= d' -> d' <= gs_num_slave_devices gs ->
  stations_before gs d + (d' - d) <= stations_before gs d'.
Proof.
  intros Hd Hn0. assert (0 <= d) as Hd0 by lia. revert Hn0. replace d' with (d + (d' - d)) at 1 3 by lia.
  assert (Hk : 0 <= d' - d) by lia. revert Hk. generalize (d' - d). clear d' Hd.
  refine (natlike_ind _ _ _).
  - rewrite Z.add_0_r. intros _. lia.
  - intros k Hk IH Hn. replace (d + Z.succ k) with (d + k + 1) by lia.
    rewrite stations_before_S by lia. pose proof (device_stations (d + k)). lia.
Qed.

Lemma stations_before_0 : stations_before gs 0 = 0.
Proof. reflexivity. Qed.

(** The stations of a device lie inside the group. *)
Lemma stations_inside d : 0 <= d < gs_num_slave_devices gs ->
  0 <= stations_before gs d /\
  stations_before gs d + ds_num_occupied_stations (setting_of_device gs d) <= total_stations gs.
Proof.
  intros Hd. pose proof (stations_before_mono 0 d) as H0. rewrite stations_before_0 in H0.
  pose proof (stations_before_mono (d + 1) (gs_num_slave_devices gs)) as H1.
  rewrite stations_before_S in H1 by lia. unfold total_stations. lia.
Qed.

(** Every station belongs to a device. *)
Lemma station_device d i : 0 <= d <= gs_num_slave_devices gs -> 0 <= i < stations_before gs d ->
  exists d', 0 <= d' < d /\ stations_before gs d' <= i <
    stations_before gs d' + ds_num_occupied_stations (setting_of_device gs d').
Proof.
  intros [Hd Hn]. revert Hn. pattern d. apply natlike_ind; [|clear d Hd; intros d Hd IH|exact Hd].
  - rewrite stations_before_0. lia.
  - intros Hn Hi. unfold Z.succ in *. rewrite stations_before_S in Hi by lia.
    destruct (Z.lt_ge_cases i (stations_before gs d)) as [Hlt|Hge].
    + destruct IH as (d' & Hd' & Hr); [lia|lia|]. exists d'. split; [lia|exact Hr].
    + exists d. split; lia.
Qed.

Lemma add_occupied_sum start d : 0 <= start <= 1 -> 0 <= d <= gs_num_slave_devices gs ->
  add_occupied gs start d = start + stations_before gs d.
Proof.
  intros Hs Hd. unfold add_occupied, stations_before.
  apply (foldl_u16_sum (fun d => ds_num_occupied_stations (setting_of_device gs d))).
  - lia.
  - apply Forall_indices. intros i Hi. pose proof (device_stations i). lia.
  - fold (stations_before gs d). pose proof (stations_before_mono d (gs_num_slave_devices gs)).
    pose proof (go_stations _ _ gs_ok) as Ht. unfold total_stations in Ht.
    pose proof clm_max_stations_ok. lia.
Qed.

Lemma calc_occupied_per_group : clm_iefb_calc_occupied_per_group gs = total_stations gs.
Proof.
  unfold clm_iefb_calc_occupied_per_group. rewrite add_occupied_sum; [reflexivity|lia|].
  pose proof (go_devices _ _ gs_ok). lia.
Qed.

Lemma calc_slave_station_no d : 0 <= d < gs_num_slave_devices gs ->
  clm_iefb_calc_slave_station_no gs d = Some (1 + stations_before gs d).
Proof.
  intros Hd. unfold clm_iefb_calc_slave_station_no.
  destruct (Z.leb_spec (gs_num_slave_devices gs) d); [lia|].
  rewrite add_occupied_sum by lia. reflexivity.
Qed.

End Group.

(** ** The validation accepts only such configurations *)

Lemma ip_range_valid ip : cl_utils_is_ipaddr_range_valid ip = true ->
  ip <> CL_IPADDR_INVALID /\ ip <> CL_CCIEFB_MULTISTATION_INDICATOR.
Proof.
  unfold cl_utils_is_ipaddr_range_valid. destruct (Z.eqb_spec ip CL_IPADDR_INVALID); [discriminate|].
  destruct (Z.ltb_spec 0xDFFFFFFE ip); [discriminate|]. intros _. split; [assumption|].
  unfold CL_CCIEFB_MULTISTATION_INDICATOR, UINT32_MAX. lia.
Qed.

Lemma Forall_lookup_total {A} `{Inhabited A} (P : A -> Prop) l i :
  Forall P l -> (i < length l)%nat -> P (l !!! i).
Proof.
  intros Hl Hi. destruct (lookup_lt_is_Some_2 l i Hi) as [x Hx].
  rewrite list_lookup_total_alt, Hx. cbn. rewrite Forall_lookup in Hl. eauto.
Qed.

Lemma validate_slave_device_ok cfg ds : validate_slave_device cfg ds = true ->
  is_u16 (ds_num_occupied_stations ds) ->
  1 <= ds_num_occupied_stations ds <= CLM_MAX_OCCUPIED_STATIONS_PER_GROUP /\
  ds_slave_id ds <> CL_IPADDR_INVALID /\ ds_slave_id ds <> mc_master_id cfg /\
  ds_slave_id ds <> CL_CCIEFB_MULTISTATION_INDICATOR.
Proof.
  unfold validate_slave_device. intros Hv Ht.
  destruct (cl_utils_is_ipaddr_range_valid _) eqn:Hr; cbn [negb] in Hv; [|discriminate].
  apply ip_range_valid in Hr as [Hr Hm]. destruct (Z.eqb_spec (ds_slave_id ds) (mc_master_id cfg)); [discriminate|].
  destruct (Z.eqb_spec (ds_num_occupied_stations ds) 0); [discriminate|].
  destruct (Z.ltb_spec CLM_MAX_OCCUPIED_STATIONS_PER_GROUP (ds_num_occupied_stations ds));
    [discriminate|].
  split; [zlia|]. auto.
Qed.

Lemma validate_group_ok cfg g : cfg_types cfg -> 0 <= g < CLM_MAX_GROUPS ->
  validate_group cfg (setting_of_group cfg g) = true ->
  group_ok cfg (setting_of_group cfg g).
Proof.
  intros [_ _ _ Ht [Hlen Hlens]] Hg Hv. set (gs := setting_of_group cfg g) in *.
  assert (Hin : forall P, Forall P (sh_groups (mc_hier cfg)) -> P gs).
  { intros P HP. unfold gs, setting_of_group. apply (Forall_lookup_total P); [exact HP|lia]. }
  apply Hin in Ht as (Htimeout & Hcount & Hn & Hds). apply Hin in Hlens. clear Hin.
  unfold validate_group in Hv. clearbody gs. pose proof clm_max_stations_ok as Hmax.
  destruct (Z.ltb_spec (gs_timeout_value gs) CL_CCIEFB_MIN_TIMEOUT) as [|H1]; [discriminate|].
  destruct (gs_use_constant_link_scan_time gs && _); [discriminate|].
  destruct (Z.ltb_spec (gs_parallel_off_timeout_count gs) CL_CCIEFB_MIN_TIMEOUT_COUNT) as [|H2];
    [discriminate|].
  destruct (Z.eqb_spec (gs_num_slave_devices gs) 0) as [|H3]; [discriminate|].
  destruct (Z.ltb_spec CLM_MAX_OCCUPIED_STATIONS_PER_GROUP (gs_num_slave_devices gs)) as [|H4];
    [discriminate|].
  destruct (forallb _ _) eqn:Hall; cbn [negb orb] in Hv; [|discriminate].
  unfold CL_CCIEFB_MIN_TIMEOUT, CL_CCIEFB_MIN_TIMEOUT_COUNT in *.
  assert (Hdev : forall d, 0 <= d < gs_num_slave_devices gs ->
    let device := setting_of_device gs d in
    1 <= ds_num_occupied_stations device <= CLM_MAX_OCCUPIED_STATIONS_PER_GROUP /\
    is_u32 (ds_slave_id device) /\ ds_slave_id device <> CL_IPADDR_INVALID /\
    ds_slave_id device <> mc_master_id cfg /\
    ds_slave_id device <> CL_CCIEFB_MULTISTATION_INDICATOR).
  { intros d Hd device. rewrite forallb_forall in Hall.
    assert (is_u32 (ds_slave_id device) /\ is_u16 (ds_num_occupied_stations device)) as [Hid Hno].
    { apply (Forall_lookup_total _ _ _ Hds). rewrite Hlens. lia. }
    destruct (validate_slave_device_ok cfg device) as (Ha & Hb & Hc & Hd2);
      [|exact Hno|repeat split; assumption || apply Ha || apply Hid].
    apply Hall. unfold group_devices. apply in_map, list_elem_of_In, elem_of_seqZ. lia. }
  assert (Hsum : add_stations 0 (group_devices gs) = total_stations gs).
  { unfold add_stations, total_stations, stations_before, group_devices.
    rewrite (foldl_u16_sum ds_num_occupied_stations).
    - rewrite map_map. apply Z.add_0_l.
    - lia.
    - apply Forall_map, Forall_indices. intros i Hi. destruct (Hdev i Hi). cbn. lia.
    - rewrite map_map. match goal with |- _ + foldr Z.add 0 ?l < _ =>
        pose proof (foldr_add_bound 16 l) as Hb end.
      rewrite length_map, length_seqZ in Hb. enough (Forall (fun x => x <= 16)
        (map (fun x => ds_num_occupied_stations (setting_of_device gs x))
           (seqZ 0 (gs_num_slave_devices gs)))) by (specialize (Hb ltac:(assumption)); lia).
      apply Forall_map, Forall_indices. intros i Hi. destruct (Hdev i Hi). cbn. lia. }
  rewrite Hsum in Hv.
  destruct (Z.ltb_spec CLM_MAX_OCCUPIED_STATIONS_PER_GROUP (total_stations gs)); [discriminate|].
  assert (1 <= total_stations gs).
  { unfold total_stations, stations_before.
    rewrite seqZ_cons by zlia. cbn [map foldr].
    pose proof (Hdev 0 ltac:(zlia)) as [Hd0 _].
    match goal with |- _ <= _ + foldr Z.add 0 ?l => pose proof (foldr_add_nonneg l) as Hb end.
    enough (Forall (fun x => 0 <= x)
        (map (fun x => ds_num_occupied_stations (setting_of_device gs x))
           (seqZ (Z.succ 0) (Z.pred (gs_num_slave_devices gs)))))
      by (specialize (Hb ltac:(assumption)); lia).
    apply Forall_map, Forall_seqZ. intros i Hi.
    pose proof (Hdev i ltac:(lia)) as [? _]. cbn. lia. }
  split; try zlia.
  - intros d Hd. destruct (Hdev d Hd) as (A & B & C & D & _). cbv zeta. auto.
  - intros d Hd. apply (Hdev d Hd).
Qed.

Lemma validate_config_ok cfg : cfg_types cfg -> clm_validate_config (Some cfg) = true ->
  clm_config_ok cfg.
Proof.
  intros Ht Hv. unfold clm_validate_config in Hv.
  destruct (Z.ltb_spec (mc_protocol_ver cfg) CL_CCIEFB_MIN_SUPPORTED_PROTOCOL_VER) as [|H1];
    [discriminate|].
  destruct (Z.ltb_spec CL_CCIEFB_MAX_SUPPORTED_PROTOCOL_VER (mc_protocol_ver cfg)) as [|H2];
    [discriminate|].
  destruct (cl_utils_is_ipaddr_range_valid _) eqn:Hr; cbn [negb orb] in Hv; [|discriminate].
  destruct (Z.ltb_spec (sh_number_of_groups (mc_hier cfg)) CL_CCIEFB_MIN_GROUP_NO) as [|H3];
    [discriminate|].
  destruct (Z.ltb_spec CLM_MAX_GROUPS (sh_number_of_groups (mc_hier cfg))) as [|H4];
    [discriminate|].
  destruct (forallb _ _) eqn:Hall; cbn [negb orb] in Hv; [|discriminate].
  unfold CL_CCIEFB_MIN_SUPPORTED_PROTOCOL_VER, CL_CCIEFB_MAX_SUPPORTED_PROTOCOL_VER,
    CL_CCIEFB_MIN_GROUP_NO in *.
  split; try lia.
  - split; [apply Ht|apply ip_range_valid, Hr].
  - intros g Hg. unfold has_group in Hg. apply validate_group_ok; [exact Ht|lia|].
    rewrite forallb_forall in Hall. apply Hall.
    apply in_map, list_elem_of_In, elem_of_seqZ. lia.
  - apply Ht.
Qed.

End MasterConfig.
