(* ===== verification/MasterConfigSpec.v ===== *)
(** * The accepted configurations, declaratively

    The checks of a configuration accept exactly the configurations that the
    declarative description [config_accepted] describes: the sums in 16 bits
    do not wrap around, and the loops look at every device and at every pair
    of devices. *)

From S2P Require Import Prelude Packed Signals Timer Limiter Util Types Iefb Slmp Master MasterIefb.
From S2P Require Import MasterConfig.

Section MasterConfigSpec.
Context `{ClmOptions}.

Definition address_allowed (ip : Z) : Prop := 1 <= ip <= 0xDFFFFFFE.

Record device_accepted (cfg : clm_cfg) (device : clm_slave_device_setting) : Prop := {
  da_address : address_allowed (ds_slave_id device);
  da_other : ds_slave_id device <> mc_master_id cfg;
  da_stations : 1 <= ds_num_occupied_stations device <= CLM_MAX_OCCUPIED_STATIONS_PER_GROUP
}.

Record group_accepted (cfg : clm_cfg) (gs : clm_group_setting) : Prop := {
  ga_timeout : 1 <= gs_timeout_value gs;
  ga_constant : gs_use_constant_link_scan_time gs = true -> gs_timeout_value gs <= 2000;
  ga_count : 1 <= gs_parallel_off_timeout_count gs;
  ga_devices : 1 <= gs_num_slave_devices gs <= CLM_MAX_OCCUPIED_STATIONS_PER_GROUP;
  ga_device : forall d, 0 <= d < gs_num_slave_devices gs ->
    device_accepted cfg (setting_of_device gs d);
  ga_total : total_stations gs <= CLM_MAX_OCCUPIED_STATIONS_PER_GROUP
}.

Record config_accepted (cfg : clm_cfg) : Prop := {
  ca_version : 1 <= mc_protocol_ver cfg <= 2;
  ca_master : address_allowed (mc_master_id cfg);
  ca_groups : 1 <= sh_number_of_groups (mc_hier cfg) <= CLM_MAX_GROUPS;
  ca_group : forall g, has_group cfg g -> group_accepted cfg (setting_of_group cfg g);
  ca_total : foldr Z.add 0 (map (fun g => total_stations (setting_of_group cfg g))
               (seqZ 0 (sh_number_of_groups (mc_hier cfg)))) <= 64
}.

(** No address is given to two devices. *)
Definition addresses_unique (cfg : clm_cfg) : Prop :=
  forall g d g' d', has_device cfg g d -> has_device cfg g' d' ->
    ds_slave_id (setting_of_device (setting_of_group cfg g) d) =
      ds_slave_id (setting_of_device (setting_of_group cfg g') d') -> g = g' /\ d = d'.

(** ** Lemmas *)

Lemma guard_true (b x : bool) : (if b then false else x) = true <-> b = false /\ x = true.
Proof. destruct b; intuition discriminate. Qed.

Lemma outside_false x lo hi : (x <? lo) || (hi <? x) = false <-> lo <= x <= hi.
Proof. rewrite orb_false_iff, !Z.ltb_ge. lia. Qed.

Lemma range_valid_spec ip : is_u32 ip ->
  cl_utils_is_ipaddr_range_valid ip = true <-> address_allowed ip.
Proof.
  intros Hip. unfold cl_utils_is_ipaddr_range_valid, is_u32, address_allowed, CL_IPADDR_INVALID in *.
  destruct (Z.eqb_spec ip 0); [|destruct (Z.ltb_spec 0xDFFFFFFE ip)]; intuition (lia || discriminate).
Qed.

Lemma forallb_indices P n : forallb P (seqZ 0 n) = true <-> forall i, 0 <= i < n -> P i = true.
Proof.
  rewrite forallb_forall. split; intros HP i Hi; apply HP.
  - apply list_elem_of_In, elem_of_seqZ. lia.
  - apply list_elem_of_In, elem_of_seqZ in Hi. lia.
Qed.

Lemma forallb_map {A B} (P : B -> bool) (f : A -> B) l :
  forallb P (map f l) = forallb (fun a => P (f a)) l.
Proof. induction l; cbn [forallb map]; congruence. Qed.

Lemma validate_slave_device_spec cfg device : is_u32 (ds_slave_id device) ->
  is_u16 (ds_num_occupied_stations device) ->
  validate_slave_device cfg device = true <-> device_accepted cfg device.
Proof.
  intros Hid Hno. unfold validate_slave_device. rewrite !guard_true, negb_false_iff.
  rewrite range_valid_spec, Z.eqb_neq by exact Hid. rewrite orb_false_iff, Z.eqb_neq, Z.ltb_ge.
  unfold is_u16 in Hno. split.
  - intros (Ha & Hb & Hc & _). split; [exact Ha|exact Hb|lia].
  - intros [Ha Hb Hc]. split; [exact Ha|]. split; [exact Hb|]. split; [lia|reflexivity].
Qed.

(** The sums of stations in 16 bits. *)
Lemma stations_sum gs : (forall d, 0 <= d < gs_num_slave_devices gs ->
    0 <= ds_num_occupied_stations (setting_of_device gs d) <= CLM_MAX_OCCUPIED_STATIONS_PER_GROUP) ->
  gs_num_slave_devices gs <= CLM_MAX_OCCUPIED_STATIONS_PER_GROUP ->
  0 <= total_stations gs <= 256.
Proof.
  intros Hd Hn. pose proof clm_max_stations_ok as Hmax. unfold total_stations, stations_before. split.
  - apply foldr_add_nonneg, Forall_map, Forall_indices. intros i Hi. destruct (Hd i Hi). cbn. lia.
  - etransitivity; [apply (foldr_add_bound 16)|].
    + apply Forall_map, Forall_indices. intros i Hi. destruct (Hd i Hi). cbn. lia.
    + rewrite length_map, length_seqZ. lia.
Qed.

Lemma add_stations_sum start gs : (forall d, 0 <= d < gs_num_slave_devices gs ->
    0 <= ds_num_occupied_stations (setting_of_device gs d) <= CLM_MAX_OCCUPIED_STATIONS_PER_GROUP) ->
  0 <= start -> start + total_stations gs < 2 ^ 16 ->
  add_stations start (group_devices gs) = start + total_stations gs.
Proof.
  intros Hd Hs Hb. unfold add_stations, group_devices, total_stations, stations_before in *.
  rewrite (foldl_u16_sum ds_num_occupied_stations); [rewrite map_map; reflexivity|exact Hs| |].
  - apply Forall_map, Forall_indices. intros i Hi. destruct (Hd i Hi). cbn. lia.
  - rewrite map_map. exact Hb.
Qed.

Definition typed_group (gs : clm_group_setting) : Prop :=
  is_u16 (gs_timeout_value gs) /\ is_u16 (gs_parallel_off_timeout_count gs) /\
  is_u16 (gs_num_slave_devices gs) /\
  forall d, 0 <= d < CLM_MAX_OCCUPIED_STATIONS_PER_GROUP ->
    is_u32 (ds_slave_id (setting_of_device gs d)) /\
    is_u16 (ds_num_occupied_stations (setting_of_device gs d)).

Lemma types_group cfg g : cfg_types cfg -> 0 <= g < CLM_MAX_GROUPS ->
  typed_group (setting_of_group cfg g).
Proof.
  intros [_ _ _ Ht [Hlen Hlens]] Hg. set (gs := setting_of_group cfg g).
  assert (Hin : forall P, Forall P (sh_groups (mc_hier cfg)) -> P gs).
  { intros P HP. apply (Forall_lookup_total P); [exact HP|lia]. }
  apply Hin in Ht as (Htimeout & Hcount & Hn & Hds). apply Hin in Hlens.
  repeat split; try (apply Htimeout || apply Hcount || apply Hn);
    apply (Forall_lookup_total _ _ (Z.to_nat d) Hds); lia.
Qed.

Lemma validate_group_spec cfg gs : typed_group gs ->
  validate_group cfg gs = true <-> group_accepted cfg gs.
Proof.
  intros (Ht & Hc & Hn & Hd). unfold validate_group. rewrite !guard_true, negb_false_iff.
  unfold group_devices at 1. rewrite forallb_map, forallb_indices.
  unfold CL_CCIEFB_MIN_TIMEOUT, CL_CCIEFB_MIN_TIMEOUT_COUNT, CL_CCIEFB_MAX_TIMEOUT_CONSTANT_LINKSCAN.
  rewrite andb_false_iff, orb_false_iff, !Z.ltb_ge, Z.eqb_neq. unfold is_u16 in Hn.
  assert (Hdev : gs_num_slave_devices gs <= CLM_MAX_OCCUPIED_STATIONS_PER_GROUP ->
    (forall d, 0 <= d < gs_num_slave_devices gs ->
       validate_slave_device cfg (setting_of_device gs d) = true) <->
    forall d, 0 <= d < gs_num_slave_devices gs -> device_accepted cfg (setting_of_device gs d)).
  { intros Hmax. split; intros Hall d Hr; destruct (Hd d ltac:(lia)) as [Hid Hno];
      apply (validate_slave_device_spec cfg _ Hid Hno), Hall, Hr. }
  assert (Hsum : gs_num_slave_devices gs <= CLM_MAX_OCCUPIED_STATIONS_PER_GROUP ->
    (forall d, 0 <= d < gs_num_slave_devices gs -> device_accepted cfg (setting_of_device gs d)) ->
    add_stations 0 (group_devices gs) = total_stations gs).
  { intros Hmax Hall. assert (Hb : forall d, 0 <= d < gs_num_slave_devices gs ->
      0 <= ds_num_occupied_stations (setting_of_device gs d) <= CLM_MAX_OCCUPIED_STATIONS_PER_GROUP)
      by (intros d Hr; pose proof (da_stations _ _ (Hall d Hr)); lia).
    pose proof (stations_sum gs Hb Hmax). rewrite (add_stations_sum 0) by (assumption || lia). lia. }
  split.
  - intros (H1 & H2 & H3 & (H4 & H5) & H6 & H7 & _). rewrite Hdev in H6 by exact H5.
    rewrite Hsum in H7 by assumption. split; try assumption; try lia.
    intros Hconst. destruct H2 as [H2|H2]; [congruence|exact H2].
  - intros [H1 H2 H3 [H4 H5] H6 H7]. rewrite Hdev, Hsum by assumption.
    split; [exact H1|]. split; [|split; [exact H3|split; [lia|auto]]].
    destruct (gs_use_constant_link_scan_time gs); [right; auto|left; reflexivity].
Qed.

(** The loop that sums the stations of all groups. *)
Lemma all_groups_sum cfg l start : 0 <= start ->
  Forall (fun g => group_accepted cfg (setting_of_group cfg g)) l ->
  start + 16 * Z.of_nat (length l) < 2 ^ 16 ->
  foldl (fun total group_setting => add_stations total (group_devices group_setting)) start
    (map (setting_of_group cfg) l) =
  start + foldr Z.add 0 (map (fun g => total_stations (setting_of_group cfg g)) l).
Proof.
  intros Hs Hl. pose proof clm_max_stations_ok as Hmax. revert start Hs.
  induction Hl as [|g l Hg Hl IH]; intros start Hs Hb; cbn [map foldl foldr length] in *; [lia|].
  assert (Hd : forall d, 0 <= d < gs_num_slave_devices (setting_of_group cfg g) ->
    0 <= ds_num_occupied_stations (setting_of_device (setting_of_group cfg g) d) <=
      CLM_MAX_OCCUPIED_STATIONS_PER_GROUP)
    by (intros d Hr; pose proof (da_stations _ _ (ga_device _ _ Hg d Hr)); lia).
  pose proof (stations_sum _ Hd ltac:(apply (ga_devices _ _ Hg))) as Ht. pose proof (ga_total _ _ Hg).
  rewrite add_stations_sum by (assumption || lia). rewrite IH by lia. lia.
Qed.

Lemma validate_config_spec cfg : cfg_types cfg ->
  clm_validate_config (Some cfg) = true <-> config_accepted cfg.
Proof.
  intros Hty. unfold clm_validate_config. rewrite !guard_true, !negb_false_iff.
  unfold CL_CCIEFB_MIN_SUPPORTED_PROTOCOL_VER, CL_CCIEFB_MAX_SUPPORTED_PROTOCOL_VER,
    CL_CCIEFB_MIN_GROUP_NO, CL_CCIEFB_MAX_OCCUPIED_STATIONS_FOR_ALL_GROUPS.
  rewrite !outside_false, range_valid_spec, Z.ltb_ge by apply Hty.
  unfold config_groups at 1. rewrite forallb_map, forallb_indices. pose proof clm_max_groups_ok as Hmax.
  assert (Hgroups : sh_number_of_groups (mc_hier cfg) <= CLM_MAX_GROUPS ->
    (forall g, 0 <= g < sh_number_of_groups (mc_hier cfg) ->
       validate_group cfg (setting_of_group cfg g) = true) <->
    forall g, has_group cfg g -> group_accepted cfg (setting_of_group cfg g)).
  { intros Hle. split; intros Hall g Hg; unfold has_group in *;
      apply (validate_group_spec cfg _ (types_group cfg g Hty ltac:(lia))), Hall, Hg. }
  assert (Hsum : sh_number_of_groups (mc_hier cfg) <= CLM_MAX_GROUPS ->
    (forall g, has_group cfg g -> group_accepted cfg (setting_of_group cfg g)) ->
    foldl (fun total group_setting => add_stations total (group_devices group_setting)) 0
      (config_groups cfg) =
    foldr Z.add 0 (map (fun g => total_stations (setting_of_group cfg g))
      (seqZ 0 (sh_number_of_groups (mc_hier cfg))))).
  { intros Hle Hall. unfold config_groups. rewrite (all_groups_sum cfg); [lia|lia| |].
    - apply Forall_indices. exact Hall.
    - rewrite length_seqZ. lia. }
  split.
  - intros (H1 & H2 & H3 & H4 & H5 & _). rewrite Hgroups in H4 by apply H3.
    rewrite Hsum in H5 by (apply H3 || exact H4). split; assumption.
  - intros [H1 H2 H3 H4 H5]. rewrite Hgroups, Hsum by (apply H3 || exact H4). auto 10.
Qed.

Lemma validate_duplicates_spec cfg :
  clm_validate_config_duplicates cfg = true <-> addresses_unique cfg.
Proof.
  unfold clm_validate_config_duplicates, addresses_unique, has_device, has_group. split.
  - intros Hall g d g' d' [Hg Hd] [Hg' Hd'] Heq. rewrite forallb_indices in Hall.
    specialize (Hall g Hg). cbv beta in Hall. rewrite forallb_indices in Hall.
    specialize (Hall d Hd). cbv beta in Hall. rewrite forallb_indices in Hall.
    specialize (Hall g' Hg'). cbv beta in Hall. rewrite forallb_indices in Hall.
    specialize (Hall d' Hd'). cbv beta in Hall. rewrite Heq, Z.eqb_refl, orb_false_r in Hall.
    apply andb_true_iff in Hall as [?%Z.eqb_eq ?%Z.eqb_eq]. lia.
  - intros Hu. apply forallb_indices. intros g Hg. apply forallb_indices. intros d Hd.
    apply forallb_indices. intros g' Hg'. apply forallb_indices. intros d' Hd'. apply orb_true_iff.
    destruct (Z.eqb_spec (ds_slave_id (setting_of_device (setting_of_group cfg g) d))
      (ds_slave_id (setting_of_device (setting_of_group cfg g') d'))) as [Heq|]; [left|right; reflexivity].
    destruct (Hu g d g' d' (conj Hg Hd) (conj Hg' Hd') Heq) as [-> ->]. rewrite !Z.eqb_refl. reflexivity.
Qed.

End MasterConfigSpec.
