(* ===== verification/MasterSlmp.v ===== *)
(** * SLMP in the master, and the master's API
    (src/src/master/clm_slmp.c, src/src/common/cl_eth.c,
     src/src/master/clm_master.c, src/src/master/clm_api.c)

    Node searches and changes of a slave's IP address: a request is
    broadcast with a serial number, and the responses that carry it are
    evaluated until a timer expires.  The API functions read the clock and
    call the two communication parts; here the time is an argument. *)

From Stdlib Require Import String.
From S2P Require Import Prelude Packed Timer Limiter Util Types Iefb File Slmp Master.
From S2P Require Import MasterIefb MasterConfig.

#[local] Open Scope Z_scope.

Definition CLM_SLMP_SERIAL_NONE : Z := -1.
Definition CLM_DEFAULT_PARAMETER_NO : Z := 0.

(** The counters of the database have 8 bits. *)
Definition clm_slmp_node_search_add_db `{ClmOptions} (node_search_db : clm_node_search_db)
  (resp : cl_slmp_node_search_resp) : outcome (bool * clm_node_search_db) :=
  let db := node_search_db <| nd_count ::= (fun n => u8 (n + 1)) |> in
  if nd_stored db =? CLM_MAX_NODE_SEARCH_DEVICES then Done (false, db)
  else if Z.of_nat (List.length (nd_entries db)) <=? nd_stored db then AssertFailed
  else
    let node_search_result := ClmNodeSearchResponseEntry (nsr_slave_ip_addr resp)
      (nsr_slave_netmask resp) (cl_util_copy_mac_reverse (nsr_slave_mac_addr resp))
      (nsr_vendor_code resp) (nsr_model_code resp) (nsr_equipment_ver resp) in
    Done (true, db <| nd_entries ::= (fun l => <[Z.to_nat (nd_stored db) := node_search_result]> l) |>
                   <| nd_stored ::= (fun n => u8 (n + 1)) |>).

Definition clm_slmp_node_search_clear_db (node_search_db : clm_node_search_db)
  : clm_node_search_db := node_search_db <| nd_count := 0 |> <| nd_stored := 0 |>.

Section MasterSlmp.
Context `{ClmOptions, Clal, ClalNet, Host}.

Definition clm_slmp_get_node_search_result (clm : clm) : clm_node_search_db := m_node_search_db clm.

(** Sends the first bytes of [slmp_sendbuf], through the receive socket or
    through a socket of its own. *)
Definition clm_slmp_send_request (request_len : Z) : clm_prog bool :=
  clm ← get;
  let send open_it := cl_slmp_udp_send open_it (m_slmp_sendbuf clm) CL_BUFFER_LEN
    (mc_master_id (m_config clm)) (m_slmp_broadcast_ip clm) CL_SLMP_PORT request_len in
  if mc_use_single_slmp_socket (m_config clm)
  then zoom m_slmp_receive_socket (fun socket clm => clm <| m_slmp_receive_socket := socket |>)
         ClmSlmpUdp (send false)
  else zoom m_slmp_send_socket (fun socket clm => clm <| m_slmp_send_socket := socket |>)
         ClmSlmpUdp (send true).

(** ** Notifications *)

Definition clm_slmp_node_search_notify_results : clm_prog unit :=
  clm ← get;
  when (mc_node_search_cfm_cb (m_config clm)) (emit (ClmNodeSearchCfmCb (m_node_search_db clm)));;
  modify (fun clm => clm <| m_node_search_serial := CLM_SLMP_SERIAL_NONE |>).

Definition clm_slmp_set_ip_notify_cfm (status : clm_master_setip_status) : clm_prog unit :=
  modify (fun clm => clm <| m_set_ip_request_timer ::= cl_timer_stop |>);;
  clm ← get;
  when (mc_set_ip_cfm_cb (m_config clm)) (emit (ClmSetIpCfmCb status));;
  modify (fun clm => clm <| m_set_ip_request_serial := CLM_SLMP_SERIAL_NONE |>).

(** ** Incoming frames *)

Definition clm_slmp_handle_set_ip_error (inputbuffer : list Z) (recv_len : Z) : clm_prog bool :=
  match cl_slmp_parse_error_response inputbuffer recv_len with
  | None => mret false
  | Some error_resp =>
      if negb (cl_slmp_validate_error_response error_resp) then mret false
      else if negb (ser_command error_resp =? CL_SLMP_COMMAND_NODE_IPADDRESS_SET) ||
              negb (ser_sub_command error_resp =? CL_SLMP_SUBCOMMAND_NODE_IPADDRESS_SET)
      then mret false
      else clm_slmp_set_ip_notify_cfm CLM_MASTER_SET_IP_STATUS_ERROR;; mret true
  end.

Definition clm_slmp_handle_node_search_response (inputbuffer : list Z) (recv_len : Z)
  : clm_prog bool :=
  match cl_slmp_parse_node_search_response inputbuffer recv_len with
  | None => mret false
  | Some node_search_resp =>
      if negb (cl_slmp_validate_node_search_response node_search_resp) then mret false else
      clm ← get;
      result ← lift_outcome (clm_slmp_node_search_add_db (m_node_search_db clm) node_search_resp);
      modify (fun clm => clm <| m_node_search_db := result.2 |>);;
      mret true
  end.

Definition clm_slmp_handle_set_ipaddr_response (inputbuffer : list Z) (recv_len : Z)
  : clm_prog bool :=
  match cl_slmp_parse_set_ip_response inputbuffer recv_len with
  | None => mret false
  | Some set_ipaddr_resp =>
      clm ← get;
      if negb (cl_slmp_validate_set_ip_response set_ipaddr_resp (m_mac_address clm))
      then mret false
      else clm_slmp_set_ip_notify_cfm CLM_MASTER_SET_IP_STATUS_SUCCESS;; mret true
  end.

Definition clm_slmp_handle_input_frame (buffer : list Z) (recv_len ifindex : Z) : clm_prog bool :=
  match cl_slmp_parse_response_header buffer recv_len with
  | None => mret false
  | Some header =>
      if negb (cl_slmp_is_header_response header) then mret false
      else if negb (cl_slmp_validate_response_header header recv_len) then mret false
      else
        clm ← get;
        if negb (ifindex =? m_ifindex clm) then mret false
        else if lsh_serial header =? m_node_search_serial clm then
          clm_slmp_handle_node_search_response buffer recv_len
        else if lsh_serial header =? m_set_ip_request_serial clm then
          if lsh_endcode header =? CL_SLMP_ENDCODE_SUCCESS
          then clm_slmp_handle_set_ipaddr_response buffer recv_len
          else clm_slmp_handle_set_ip_error buffer recv_len
        else mret false
  end.

(** ** Requests of the application *)

Definition clm_slmp_perform_node_search (now : Z) : clm_prog bool :=
  clm ← get;
  if negb (m_node_search_serial clm =? CLM_SLMP_SERIAL_NONE) then mret false else
  modify (fun clm => clm <| m_node_search_serial := m_slmp_request_serial clm |>
                         <| m_node_search_db ::= clm_slmp_node_search_clear_db |>);;
  clm ← get;
  frame ← lift_outcome (cl_slmp_prepare_node_search_request_frame (m_slmp_sendbuf clm) CL_BUFFER_LEN
    (m_mac_address clm) (mc_master_id (m_config clm)) (u16 (m_node_search_serial clm)));
  modify (fun clm => clm <| m_slmp_sendbuf := frame |>
                         <| m_slmp_request_serial ::= (fun n => u16 (n + 1)) |>);;
  sent ← clm_slmp_send_request (sizeof c_cl_slmp_node_search_request);
  if negb sent then
    modify (fun clm => clm <| m_node_search_serial := CLM_SLMP_SERIAL_NONE |>);;
    mret false
  else
    modify (fun clm => clm <| m_node_search_timer ::= (fun t => cl_timer_start t
      (mc_callback_time_node_search (m_config clm) * CL_TIMER_MICROSECONDS_PER_MILLISECOND)
      now) |>);;
    mret true.

Definition clm_slmp_perform_set_ipaddr_request (now : Z) (slave_mac_addr : list Z)
  (slave_new_ip_addr slave_new_netmask : Z) : clm_prog bool :=
  clm ← get;
  if negb (m_set_ip_request_serial clm =? CLM_SLMP_SERIAL_NONE) then mret false
  else if slave_new_ip_addr =? CL_IPADDR_INVALID then mret false
  else if negb (cl_utils_is_netmask_valid slave_new_netmask) then mret false else
  modify (fun clm => clm <| m_set_ip_request_serial := m_slmp_request_serial clm |>);;
  clm ← get;
  frame ← lift_outcome (cl_slmp_prepare_set_ip_request_frame (m_slmp_sendbuf clm) CL_BUFFER_LEN
    (m_mac_address clm) (mc_master_id (m_config clm)) (u16 (m_set_ip_request_serial clm))
    slave_mac_addr slave_new_ip_addr slave_new_netmask);
  modify (fun clm => clm <| m_slmp_sendbuf := frame |>
                         <| m_slmp_request_serial ::= (fun n => u16 (n + 1)) |>);;
  sent ← clm_slmp_send_request (sizeof c_cl_slmp_set_ipaddr_request);
  if negb sent then
    modify (fun clm => clm <| m_set_ip_request_serial := CLM_SLMP_SERIAL_NONE |>);;
    mret false
  else
    modify (fun clm => clm <| m_set_ip_request_timer ::= (fun t => cl_timer_start t
      (mc_callback_time_set_ip (m_config clm) * CL_TIMER_MICROSECONDS_PER_MILLISECOND) now) |>);;
    mret true.

(** ** Periodic function, start and stop *)

Definition clm_slmp_check_timeouts (now : Z) : clm_prog unit :=
  clm ← get;
  when (cl_timer_is_expired (m_node_search_timer clm) now)
    (modify (fun clm => clm <| m_node_search_timer ::= cl_timer_stop |>);;
     clm_slmp_node_search_notify_results);;
  clm ← get;
  when (cl_timer_is_expired (m_set_ip_request_timer clm) now)
    (modify (fun clm => clm <| m_set_ip_request_timer ::= cl_timer_stop |>);;
     clm_slmp_set_ip_notify_cfm CLM_MASTER_SET_IP_STATUS_TIMEOUT).

(** The loop ends when the socket has no datagram left, or at an empty one. *)
Fixpoint slmp_receive_loop (queue : list datagram) : clm_prog unit :=
  match queue with
  | [] => mret tt
  | dg :: queue =>
      modify (fun clm => clm <| m_slmp_receivebuf ::= splice 0 (dg_bytes dg) |>);;
      clm ← get;
      let recv_len := Z.of_nat (List.length (dg_bytes dg)) in
      if 0 <? recv_len then
        clm_slmp_handle_input_frame (m_slmp_receivebuf clm) recv_len (dg_ifindex dg);;
        slmp_receive_loop queue
      else mret tt
  end.

Definition clm_slmp_periodic (queue : list datagram) (now : Z) : clm_prog unit :=
  clm_slmp_check_timeouts now;;
  slmp_receive_loop queue.

Definition clm_slmp_init : clm_prog bool :=
  modify (fun clm => clm
    <| m_slmp_request_serial := 0 |>
    <| m_node_search_serial := CLM_SLMP_SERIAL_NONE |>
    <| m_set_ip_request_serial := CLM_SLMP_SERIAL_NONE |>
    <| m_node_search_timer ::= cl_timer_stop |>
    <| m_set_ip_request_timer ::= cl_timer_stop |>
    <| m_node_search_db ::= clm_slmp_node_search_clear_db |>);;
  let socket := clal_udp_open CL_IPADDR_ANY CL_SLMP_PORT in
  emit (ClmSlmpUdp (UdpOpen CL_IPADDR_ANY CL_SLMP_PORT));;
  modify (fun clm => clm <| m_slmp_receive_socket := socket |>);;
  if socket =? -1 then mret false else
  modify (fun clm => clm <| m_slmp_send_socket := -1 |>);;
  mret true.

Definition clm_slmp_exit : clm_prog unit :=
  clm ← get;
  emit (ClmSlmpUdp (UdpClose (m_slmp_receive_socket clm)));;
  modify (fun clm => clm <| m_slmp_receive_socket := -1 |>).

(** ** Instance life cycle and API *)

(** The interface index, the netmask and the MAC address of the interface
    with an address; the name of the interface is not modelled. *)
Definition cl_eth_get_network_settings (ip_addr : Z) : option (Z * Z * list Z) :=
  match clal_get_ifindex ip_addr with
  | None => None
  | Some ifindex =>
      match clal_get_mac_address ifindex with
      | None => None
      | Some mac_address =>
          match clal_get_netmask ifindex with
          | None => None
          | Some netmask => Some (ifindex, netmask, mac_address)
          end
      end
  end.

Definition clm_master_eth_init : clm_prog bool :=
  clm ← get;
  match cl_eth_get_network_settings (mc_master_id (m_config clm)) with
  | None => mret false
  | Some (ifindex, netmask, mac_address) =>
      let iefb_broadcast_ip := cl_util_calc_broadcast_address netmask (mc_master_id (m_config clm)) in
      modify (fun clm => clm
        <| m_ifindex := ifindex |> <| m_master_netmask := netmask |>
        <| m_mac_address := mac_address |> <| m_iefb_broadcast_ip := iefb_broadcast_ip |>
        <| m_slmp_broadcast_ip := if mc_use_slmp_directed_broadcast (m_config clm)
                                  then iefb_broadcast_ip else CL_IPADDR_LOCAL_BROADCAST |>);;
      mret true
  end.

Definition clm_master_eth_exit : clm_prog unit :=
  modify (fun clm => clm
    <| m_iefb_broadcast_ip := CL_IPADDR_INVALID |> <| m_master_netmask := CL_IPADDR_INVALID |>
    <| m_mac_address := zeros 6 |> <| m_ifindex := 0 |>).

Context `{ClalClock, FileOptions, ClalFile}.

(** [file_directory] is the field of the configuration with that name. *)
Definition clm_master_init (fs : file_system) (file_directory : string) (cfg : option clm_cfg)
  (now : Z) : clm_prog bool :=
  modify (fun _ => clm_zero);;
  if negb (clal_init =? 0) then mret false else
  match cfg with
  | None => mret false
  | Some c =>
      if negb (clm_validate_config cfg) then mret false else
      modify (fun clm => clm <| m_config := c |>);;
      loaded ← lift_outcome (cl_file_load fs (Some file_directory) CLM_FILENAME_PARAM_NO 2);
      modify (fun clm => clm <| m_parameter_no :=
        match loaded with
        | Some object => raw16 (c_dec c_u16le object)
        | None => CLM_DEFAULT_PARAMETER_NO
        end |>);;
      ok ← clm_master_eth_init;
      if negb ok then mret false
      else if negb (clm_validate_config_duplicates c) then mret false
      else
        ok ← clm_iefb_init now;
        if negb ok then mret false else clm_slmp_init
  end.

Definition clm_master_exit : clm_prog bool :=
  clm_slmp_exit;;
  clm_iefb_exit;;
  clm_master_eth_exit;;
  mret (clal_exit =? 0).

(** What the sockets have received since the last call. *)
Definition clm_periodic (slmp_queue : list datagram) (arbitration : option datagram)
  (cciefb_queue : list datagram) (now : Z) : clm_prog unit :=
  clm_slmp_periodic slmp_queue now;;
  clm_iefb_periodic arbitration cciefb_queue now.

End MasterSlmp.
