(* ===== verification/MasterInv.v ===== *)
(** * Invariant of the master

    What holds of a master instance between any two calls, and a calculus
    for the programs of MasterIefb.v that work on one group: their state is
    always the instance they started with, with the data of that group put
    in place ([put_group]). *)

From S2P Require Import Prelude Packed Signals Timer Limiter Util Types Iefb IefbFacts IefbRoundtrip.
From S2P Require Import Slmp Master MasterIefb MasterConfig.

(** ** Definitions *)

(** The parts of a request frame that belong to a device: its entry among
    the slave ids, and its stations in the two data areas. *)
Definition frame_id (buffer : list Z) (pos : Z) : Z := read_at c_u32le buffer (67 + pos * 4).
Definition frame_rww (n : Z) (buffer : list Z) (pos k : Z) : list Z :=
  slice (Z.to_nat (67 + 4 * n + 64 * pos)) (Z.to_nat (64 * k)) buffer.
Definition frame_ry (n : Z) (buffer : list Z) (pos k : Z) : list Z :=
  slice (Z.to_nat (67 + 68 * n + 8 * pos)) (Z.to_nat (8 * k)) buffer.

(** The number of the parameters that a frame carries, and the one that the
    group is going to send. *)
Definition frame_parameter (buffer : list Z) : Z :=
  qdh_parameter_no (fq_cyclic_data_header (c_dec c_cl_cciefb_cyclic_req_full_headers buffer)).
Definition parameter_of (gd : clm_group_data) : Z := frame_parameter (qi_buffer (g_req_frame gd)).

Section MasterInv.
Context `{ClmOptions, Clal, ClalClock}.

(** The slave ids of a device in a frame: its id, or none when it is
    disconnected, and the multistation entries. *)
Definition device_ids_ok (gs : clm_group_setting) (buffer : list Z) (d : Z) : Prop :=
  let device := setting_of_device gs d in
  (frame_id buffer (stations_before gs d) = ds_slave_id device \/
   frame_id buffer (stations_before gs d) = CL_IPADDR_INVALID) /\
  forall k, 1 <= k < ds_num_occupied_stations device ->
    frame_id buffer (stations_before gs d + k) = CL_CCIEFB_MULTISTATION_INDICATOR.

(** The frame of a group: the headers of a request of the configuration,
    whatever the runtime fields, the pointers into it, and the ids. *)
Record request_frame_ok (cfg : clm_cfg) (g : Z) (f : clm_cciefb_cyclic_request_info) : Prop := {
  rf_len : qi_udp_payload_len f = 67 + 76 * total_stations (setting_of_group cfg g);
  rf_ids : qi_first_slave_id f = 67;
  rf_rww : qi_first_rww f = 67 + 4 * total_stations (setting_of_group cfg g);
  rf_ry : qi_first_ry f = 67 + 68 * total_stations (setting_of_group cfg g);
  rf_shape : exists param seq clock info state, is_u16 param /\
    frame_shape c_cl_cciefb_cyclic_req_full_headers (qi_buffer f) 1500
      (request_headers (mc_protocol_ver cfg) (gs_timeout_value (setting_of_group cfg g))
         (gs_parallel_off_timeout_count (setting_of_group cfg g)) (mc_master_id cfg) (g + 1)
         (total_stations (setting_of_group cfg g)) param seq clock info state);
  rf_devices : forall d, 0 <= d < gs_num_slave_devices (setting_of_group cfg g) ->
    device_ids_ok (setting_of_group cfg g) (qi_buffer f) d
}.

Definition area_ok (size : Z) (area : list Z) : Prop :=
  length area = Z.to_nat (CLM_MAX_OCCUPIED_STATIONS_PER_GROUP * size) /\ bytes area.

Record memory_ok (a : clm_group_memory_area) : Prop := {
  mo_rx : area_ok 8 (ma_rx a);
  mo_ry : area_ok 8 (ma_ry a);
  mo_rwr : area_ok 64 (ma_rwr a);
  mo_rww : area_ok 64 (ma_rww a)
}.

(** The transmission bit goes with the state: a device is sent cyclic data
    while it is CYCLIC_SENDING and none while it is WAIT_TD. *)
Record device_inv (gs : clm_group_setting) (d : Z) (device : clm_slave_device_data) : Prop := {
  di_index : d_device_index device = d;
  di_station : d_slave_station_no device = 1 + stations_before gs d;
  di_state : d_device_state device <> CLM_DEVICE_STATE_MASTER_DOWN /\
             d_device_state device <> CLM_DEVICE_STATE_LAST;
  di_sending : d_device_state device = CLM_DEVICE_STATE_CYCLIC_SENDING ->
               d_transmission_bit device = true;
  di_wait : d_device_state device = CLM_DEVICE_STATE_WAIT_TD ->
            d_transmission_bit device = false;
  di_timeouts : is_u16 (d_timeout_count device)
}.

(** What holds of a group whatever its state. *)
Record group_base (cfg : clm_cfg) (g : Z) (gd : clm_group_data) : Prop := {
  gb_index : g_group_index gd = g;
  gb_total : g_total_occupied gd = total_stations (setting_of_group cfg g);
  gb_seq : is_u16 (g_frame_sequence_no gd);
  gb_state_bits : is_u16 (g_cyclic_transmission_state gd);
  gb_length : length (g_slave_devices gd) = Z.to_nat CLM_MAX_OCCUPIED_STATIONS_PER_GROUP;
  gb_devices : forall d, 0 <= d < gs_num_slave_devices (setting_of_group cfg g) ->
    device_inv (setting_of_group cfg g) d (device_at gd d);
  gb_memory : memory_ok (g_memory_area gd);
  gb_frame : request_frame_ok cfg g (g_req_frame gd)
}.

(** A timer that was started with the timeout of the group. *)
Definition timer_of_group (gs : clm_group_setting) (t : cl_timer) : Prop :=
  t_state t = CL_TIMER_RUNNING /\
  t_period t = gs_timeout_value gs * CL_TIMER_MICROSECONDS_PER_MILLISECOND.

(** No device waits for a response. *)
Definition rested (cfg : clm_cfg) (g : Z) (gd : clm_group_data) : Prop :=
  forall d, 0 <= d < gs_num_slave_devices (setting_of_group cfg g) ->
    d_device_state (device_at gd d) = CLM_DEVICE_STATE_LISTEN \/
    d_device_state (device_at gd d) = CLM_DEVICE_STATE_CYCLIC_SENT.
Definition all_listen (cfg : clm_cfg) (g : Z) (gd : clm_group_data) : Prop :=
  forall d, 0 <= d < gs_num_slave_devices (setting_of_group cfg g) ->
    d_device_state (device_at gd d) = CLM_DEVICE_STATE_LISTEN.
Definition none_sending (cfg : clm_cfg) (g : Z) (gd : clm_group_data) : Prop :=
  forall d, 0 <= d < gs_num_slave_devices (setting_of_group cfg g) ->
    d_device_state (device_at gd d) <> CLM_DEVICE_STATE_CYCLIC_SENDING.

(** What goes with the state of the group.  Between two calls a link scan is
    supervised, and a finished one waits for the end of a constant link scan
    time. *)
Definition group_control (cfg : clm_cfg) (g : Z) (gd : clm_group_data) : Prop :=
  let gs := setting_of_group cfg g in
  match g_group_state gd with
  | CLM_GROUP_STATE_MASTER_DOWN | CLM_GROUP_STATE_LAST => False
  | CLM_GROUP_STATE_MASTER_LISTEN => all_listen cfg g gd
  | CLM_GROUP_STATE_MASTER_ARBITRATION => all_listen cfg g gd /\ g_frame_sequence_no gd = 0
  | CLM_GROUP_STATE_MASTER_LINK_SCAN_COMP =>
      rested cfg g gd /\ g_frame_sequence_no gd <> 0 /\
      gs_use_constant_link_scan_time gs = true /\ timer_of_group gs (g_constant_linkscan_timer gd)
  | CLM_GROUP_STATE_MASTER_LINK_SCAN =>
      timer_of_group gs (g_response_wait_timer gd) /\
      (gs_use_constant_link_scan_time gs = true ->
       g_constant_linkscan_timer gd = g_response_wait_timer gd) /\
      (g_frame_sequence_no gd = 0 -> none_sending cfg g gd)
  end.

(** The database of the node search never overflows. *)
Definition search_db_ok (db : clm_node_search_db) : Prop :=
  length (nd_entries db) = Z.to_nat CLM_MAX_NODE_SEARCH_DEVICES /\
  0 <= nd_stored db <= CLM_MAX_NODE_SEARCH_DEVICES.

(** The part of the instance that does not belong to a group. *)
Record master_base (cfg : clm_cfg) (m : clm) : Prop := {
  mb_config : m_config m = cfg;
  mb_device_matrix : m_device_fsm_matrix m = device_matrix;
  mb_device_actions : m_device_fsm_on_entry_exit m = device_on_entry_exit;
  mb_group_matrix : m_group_fsm_matrix m = group_matrix;
  mb_group_actions : m_group_fsm_on_entry_exit m = group_on_entry_exit;
  mb_groups : length (m_groups m) = Z.to_nat CLM_MAX_GROUPS;
  mb_buf : length (m_cciefb_receivebuf m) = Z.to_nat CL_BUFFER_LEN /\
           bytes (m_cciefb_receivebuf m);
  mb_param : is_u16 (m_parameter_no m);
  mb_info : 0 <= m_master_local_unit_info m < 2 ^ mc_protocol_ver cfg;
  mb_db : search_db_ok (m_node_search_db m)
}.

Definition master_inv (cfg : clm_cfg) (m : clm) : Prop :=
  master_base cfg m /\
  forall g, has_group cfg g -> group_base cfg g (group_at m g) /\ group_control cfg g (group_at m g).

(** ** One group put in place *)

Definition put_group (g : Z) (gd : clm_group_data) (m : clm) : clm := update_group g (fun _ => gd) m.
Definition put_device (d : Z) (device : clm_slave_device_data) (gd : clm_group_data)
  : clm_group_data := update_device d (fun _ => device) gd.

Lemma update_put_group g f gd m : update_group g f (put_group g gd m) = put_group g (f gd) m.
Proof.
  unfold put_group, update_group. destruct m. cbn. f_equal.
  rewrite list_alter_alter_eq. reflexivity.
Qed.

Lemma put_put_group g gd gd' m : put_group g gd' (put_group g gd m) = put_group g gd' m.
Proof. apply update_put_group. Qed.

Lemma group_at_put g gd m : 0 <= g < Z.of_nat (length (m_groups m)) ->
  group_at (put_group g gd m) g = gd.
Proof.
  intros Hg. unfold group_at, put_group, update_group. cbn.
  rewrite list_lookup_total_alter_eq by lia. reflexivity.
Qed.

Lemma group_at_put_other g g' gd m : 0 <= g -> 0 <= g' -> g <> g' ->
  group_at (put_group g gd m) g' = group_at m g'.
Proof.
  intros. unfold group_at, put_group, update_group. cbn.
  apply list_lookup_total_alter_ne. lia.
Qed.

Lemma put_group_same g m : 0 <= g < Z.of_nat (length (m_groups m)) ->
  put_group g (group_at m g) m = m.
Proof.
  intros Hg. unfold put_group, update_group, group_at. destruct m. cbn in *. f_equal.
  apply list_eq. intros i. rewrite list_lookup_alter. case_decide; [subst|reflexivity].
  destruct (lookup_lt_is_Some_2 m_groups (Z.to_nat g)) as [x Hx]; [lia|].
  rewrite list_lookup_total_alt, Hx. reflexivity.
Qed.

Lemma update_put_device d f device gd :
  update_device d f (put_device d device gd) = put_device d (f device) gd.
Proof.
  unfold put_device, update_device. destruct gd. cbn. f_equal.
  rewrite list_alter_alter_eq. reflexivity.
Qed.

Lemma device_at_put d device gd : 0 <= d < Z.of_nat (length (g_slave_devices gd)) ->
  device_at (put_device d device gd) d = device.
Proof.
  intros Hd. unfold device_at, put_device, update_device. cbn.
  rewrite list_lookup_total_alter_eq by lia. reflexivity.
Qed.

Lemma device_at_put_other d d' device gd : 0 <= d -> 0 <= d' -> d <> d' ->
  device_at (put_device d device gd) d' = device_at gd d'.
Proof.
  intros. unfold device_at, put_device, update_device. cbn.
  apply list_lookup_total_alter_ne. lia.
Qed.

Lemma put_device_same d gd : 0 <= d < Z.of_nat (length (g_slave_devices gd)) ->
  put_device d (device_at gd d) gd = gd.
Proof.
  intros Hd. unfold put_device, update_device, device_at. destruct gd. cbn in *. f_equal.
  apply list_eq. intros i. rewrite list_lookup_alter. case_decide; [subst|reflexivity].
  destruct (lookup_lt_is_Some_2 g_slave_devices (Z.to_nat d)) as [x Hx]; [lia|].
  rewrite list_lookup_total_alt, Hx. reflexivity.
Qed.

Lemma update_device_put d f gd : 0 <= d < Z.of_nat (length (g_slave_devices gd)) ->
  update_device d f gd = put_device d (f (device_at gd d)) gd.
Proof. intros Hd. rewrite <- (put_device_same d gd Hd) at 1. apply update_put_device. Qed.

Lemma length_put_device d device gd :
  length (g_slave_devices (put_device d device gd)) = length (g_slave_devices gd).
Proof. apply length_alter. Qed.

End MasterInv.
