(* ===== verification/MasterFrame.v ===== *)
(** * The request frame of a group

    What the functions that write into the frame do to the parts of the
    devices: the slave ids, RWw and RY.  Only the part of the device at hand
    changes. *)

From S2P Require Import Prelude Packed Signals Timer Limiter Util Types Iefb IefbFacts IefbRoundtrip.
From S2P Require Import Slmp Master MasterIefb MasterConfig MasterInv.

(** ** Stores and loads inside their areas *)

Lemma store_ok off d mem : 0 <= off -> off + Z.of_nat (length d) <= Z.of_nat (length mem) ->
  store off d mem = Done (splice (Z.to_nat off) d mem).
Proof.
  intros Hoff Hfit. unfold store. destruct (Z.ltb_spec off 0); [lia|].
  destruct (Z.ltb_spec (Z.of_nat (length mem)) (off + Z.of_nat (length d))); [lia|]. reflexivity.
Qed.

Lemma load_ok off n mem : 0 <= off -> 0 <= n -> off + n <= Z.of_nat (length mem) ->
  load off n mem = Done (slice (Z.to_nat off) (Z.to_nat n) mem).
Proof.
  intros Hoff Hn Hfit. unfold load. destruct (Z.ltb_spec off 0); [lia|].
  destruct (Z.ltb_spec n 0); [lia|].
  destruct (Z.ltb_spec (Z.of_nat (length mem)) (off + n)); [lia|]. reflexivity.
Qed.

Lemma copy_bytes_ok dest dest_off src src_off n :
  0 <= dest_off -> 0 <= src_off -> 0 <= n -> dest_off + n <= Z.of_nat (length dest) ->
  src_off + n <= Z.of_nat (length src) ->
  copy_bytes dest dest_off src src_off n =
    Done (splice (Z.to_nat dest_off) (slice (Z.to_nat src_off) (Z.to_nat n) src) dest).
Proof.
  intros. unfold copy_bytes. rewrite load_ok by lia. cbn. rewrite store_ok; [reflexivity|lia|].
  rewrite length_slice by lia. lia.
Qed.

Lemma clear_bytes_ok dest dest_off n :
  0 <= dest_off -> 0 <= n -> dest_off + n <= Z.of_nat (length dest) ->
  clear_bytes dest dest_off n = Done (splice (Z.to_nat dest_off) (zeros (Z.to_nat n)) dest).
Proof. intros. unfold clear_bytes. apply store_ok; [lia|]. rewrite length_zeros. lia. Qed.

(** ** The three parts of a frame *)

(** Station [n] of a frame of [total] stations has its parts at these
    offsets; writing one leaves the others alone. *)
Lemma frame_id_alt buffer pos : 0 <= pos -> (Z.to_nat (67 + 4 * pos) + 4 <= length buffer)%nat ->
  frame_id buffer pos = le_combine (slice (Z.to_nat (67 + 4 * pos)) 4 buffer).
Proof.
  intros Hpos Hfit. unfold frame_id, read_at. cbn [c_dec c_u32le].
  replace (67 + pos * 4) with (67 + 4 * pos) by lia. reflexivity.
Qed.

Lemma frame_id_splice_same pos buffer id : 0 <= pos < 16 -> length buffer = 1500%nat -> is_u32 id ->
  frame_id (splice (Z.to_nat (67 + 4 * pos)) (c_enc c_u32le id) buffer) pos = id.
Proof.
  intros Hpos Hl Hid. assert (Hlen : length (c_enc c_u32le id) = 4%nat) by apply length_le_split.
  rewrite frame_id_alt by (rewrite ?length_splice; lia).
  pose proof (slice_splice_same (Z.to_nat (67 + 4 * pos)) (c_enc c_u32le id) buffer) as Hs.
  rewrite Hlen in Hs. rewrite Hs by lia. apply le_combine_split_id. zlia.
Qed.

Lemma frame_id_splice_other buffer off d pos' : length buffer = 1500%nat -> 0 <= pos' < 16 ->
  (off + length d <= 1500)%nat ->
  (off + length d <= Z.to_nat (67 + 4 * pos') \/ Z.to_nat (67 + 4 * pos') + 4 <= off)%nat ->
  frame_id (splice off d buffer) pos' = frame_id buffer pos'.
Proof.
  intros Hl Hpos' Hfit Hdis. rewrite !frame_id_alt by (rewrite ?length_splice; lia).
  f_equal. apply slice_splice_disjoint; lia.
Qed.

Lemma frame_rww_splice_other total buffer off d pos' k : length buffer = 1500%nat ->
  0 <= total -> 0 <= pos' -> 0 <= k -> (off + length d <= 1500)%nat ->
  (off + length d <= Z.to_nat (67 + 4 * total + 64 * pos') \/
   Z.to_nat (67 + 4 * total + 64 * (pos' + k)) <= off)%nat ->
  frame_rww total (splice off d buffer) pos' k = frame_rww total buffer pos' k.
Proof. intros. unfold frame_rww. apply slice_splice_disjoint; lia. Qed.

Lemma frame_ry_splice_other total buffer off d pos' k : length buffer = 1500%nat ->
  0 <= total -> 0 <= pos' -> 0 <= k -> (off + length d <= 1500)%nat ->
  (off + length d <= Z.to_nat (67 + 68 * total + 8 * pos') \/
   Z.to_nat (67 + 68 * total + 8 * (pos' + k)) <= off)%nat ->
  frame_ry total (splice off d buffer) pos' k = frame_ry total buffer pos' k.
Proof. intros. unfold frame_ry. apply slice_splice_disjoint; lia. Qed.


(** ** Writing the part of one device *)

Section Master.
Context `{ClmOptions, Clal, ClalClock}.

(** [f'] is [f] with the part of the stations [pos .. pos + k - 1]
    written. *)
Record part_written (total pos k : Z) (id : Z) (rww ry : list Z)
  (f f' : clm_cciefb_cyclic_request_info) : Prop := {
  pw_sizes : qi_udp_payload_len f' = qi_udp_payload_len f /\
             qi_first_slave_id f' = qi_first_slave_id f /\
             qi_first_rww f' = qi_first_rww f /\ qi_first_ry f' = qi_first_ry f;
  pw_shape : forall h,
    frame_shape c_cl_cciefb_cyclic_req_full_headers (qi_buffer f) 1500 h ->
    frame_shape c_cl_cciefb_cyclic_req_full_headers (qi_buffer f') 1500 h;
  pw_id : frame_id (qi_buffer f') pos = id;
  pw_rww : frame_rww total (qi_buffer f') pos k = rww;
  pw_ry : frame_ry total (qi_buffer f') pos k = ry;
  pw_other_id : forall pos', 0 <= pos' < total -> pos' <> pos ->
    frame_id (qi_buffer f') pos' = frame_id (qi_buffer f) pos';
  pw_other_data : forall pos' k', 0 <= pos' -> 0 <= k' -> pos' + k' <= total ->
    pos' + k' <= pos \/ pos + k <= pos' ->
    frame_rww total (qi_buffer f') pos' k' = frame_rww total (qi_buffer f) pos' k' /\
    frame_ry total (qi_buffer f') pos' k' = frame_ry total (qi_buffer f) pos' k'
}.

(** The data of a device in the memory area, or zeros. *)
Definition area_part (size : Z) (area : list Z) (pos k : Z) : list Z :=
  slice (Z.to_nat (size * pos)) (Z.to_nat (size * k)) area.
Definition sent_part (size : Z) (area : list Z) (pos k : Z) (valid : bool) : list Z :=
  if valid then area_part size area pos k else zeros (Z.to_nat (size * k)).

Lemma sent_part_ok size area pos k valid : 0 <= size -> 0 <= pos -> 0 <= k ->
  pos + k <= CLM_MAX_OCCUPIED_STATIONS_PER_GROUP -> area_ok size area ->
  bytes (sent_part size area pos k valid) /\
  length (sent_part size area pos k valid) = Z.to_nat (size * k).
Proof.
  intros Hs Hpos Hk Hfit [Hl Hb]. unfold sent_part, area_part. destruct valid.
  - split; [auto with clink|]. apply length_slice. rewrite Hl. nia.
  - split; [auto with clink|apply length_zeros].
Qed.

(** The two functions that write a device's part, one after the other, as
    [clm_iefb_set_data_ip] calls them. *)
Lemma write_part total pos k id enable valid a f h :
  0 <= pos -> 1 <= k -> pos + k <= total -> total <= CLM_MAX_OCCUPIED_STATIONS_PER_GROUP ->
  is_u32 id -> memory_ok a ->
  frame_shape c_cl_cciefb_cyclic_req_full_headers (qi_buffer f) 1500 h ->
  qi_first_slave_id f = 67 -> qi_first_rww f = 67 + 4 * total ->
  qi_first_ry f = 67 + 68 * total ->
  exists f1 f',
    clm_iefb_update_request_slave_id f (1 + pos) enable id = Done f1 /\
    clm_iefb_update_request_frame_cyclic_data_one_device f1 a (1 + pos) k valid = Done f' /\
    part_written total pos k (if enable then id else CL_IPADDR_INVALID)
      (sent_part 64 (ma_rww a) pos k valid) (sent_part 8 (ma_ry a) pos k valid) f f'.
Proof.
  intros Hpos Hk Htot Hmax Hid Ha Hsh Hf1 Hf2 Hf3. pose proof clm_max_stations_ok as Hst.
  pose proof (proj1 (proj2 Hsh)) as Hl. pose proof (mo_rww _ Ha) as Hrww.
  pose proof (mo_ry _ Ha) as Hry.
  destruct (sent_part_ok 64 (ma_rww a) pos k valid) as [Hwb Hwl]; try lia; try assumption.
  destruct (sent_part_ok 8 (ma_ry a) pos k valid) as [Hyb Hyl]; try lia; try assumption.
  set (id' := if enable then id else CL_IPADDR_INVALID).
  assert (Hid' : is_u32 id') by (subst id'; destruct enable; [assumption|split; [discriminate|reflexivity]]).
  set (b1 := splice (Z.to_nat (67 + 4 * pos)) (c_enc c_u32le id') (qi_buffer f)).
  assert (Hle : length (c_enc c_u32le id') = 4%nat) by apply length_le_split.
  assert (Hl1 : length b1 = 1500%nat) by (unfold b1; rewrite length_splice; lia).
  set (b2 := splice (Z.to_nat (67 + 4 * total + 64 * pos))
               (sent_part 64 (ma_rww a) pos k valid) b1).
  assert (Hl2 : length b2 = 1500%nat) by (unfold b2; rewrite length_splice; lia).
  set (b3 := splice (Z.to_nat (67 + 68 * total + 8 * pos))
               (sent_part 8 (ma_ry a) pos k valid) b2).
  exists (f <| qi_buffer := b1 |>), (f <| qi_buffer := b3 |>).
  split; [|split].
  - unfold clm_iefb_update_request_slave_id. destruct (Z.ltb_spec (1 + pos) 1); [lia|].
    rewrite Hf1. replace (1 + pos - 1) with pos by lia. fold id'.
    rewrite store_ok; [reflexivity|unfold sizeof_ipaddr; lia|].
    rewrite Hle. unfold sizeof_ipaddr. lia.
  - unfold clm_iefb_update_request_frame_cyclic_data_one_device. cbv zeta.
    replace (u16 (1 + pos - 1)) with pos by (rewrite u16_id by zlia; lia).
    cbn [qi_buffer qi_first_rww qi_first_ry update]. rewrite Hf2, Hf3.
    unfold sizeof_rww, sizeof_ry. fold b1.
    destruct Hrww as [Hrwwl _], Hry as [Hryl _].
    replace (67 + 4 * total + pos * 64) with (67 + 4 * total + 64 * pos) by lia.
    replace (67 + 68 * total + pos * 8) with (67 + 68 * total + 8 * pos) by lia.
    replace (pos * 64) with (64 * pos) by lia. replace (pos * 8) with (8 * pos) by lia.
    replace (k * 64) with (64 * k) by lia. replace (k * 8) with (8 * k) by lia.
    unfold b3, b2, sent_part, area_part. destruct valid.
    + rewrite copy_bytes_ok by nia. cbn [mbind outcome_bind]. rewrite copy_bytes_ok; [reflexivity|..]; try nia.
      rewrite length_splice; rewrite ?length_slice; nia.
    + rewrite clear_bytes_ok by nia. cbn [mbind outcome_bind]. rewrite clear_bytes_ok; [reflexivity|..]; try nia.
      rewrite length_splice; rewrite ?length_zeros; nia.
  - assert (Hl3 : length b3 = 1500%nat) by (unfold b3; rewrite length_splice; lia).
    split; cbn [qi_buffer qi_udp_payload_len qi_first_slave_id qi_first_rww qi_first_ry update].
    + auto.
    + intros h' Hh'. assert (Hle' : bytes (c_enc c_u32le id')) by apply bytes_le_split.
      repeat (apply splice_frame_shape; [exact _| |assumption| |]); try assumption; try lia;
        change (c_size c_cl_cciefb_cyclic_req_full_headers) with 67%nat; lia.
    + unfold b3. rewrite frame_id_splice_other by lia.
      unfold b2. rewrite frame_id_splice_other by lia.
      unfold b1. apply frame_id_splice_same; assumption || lia.
    + unfold b3. rewrite frame_rww_splice_other by lia.
      unfold b2, frame_rww. rewrite <- Hwl. apply slice_splice_same. lia.
    + unfold b3, frame_ry. rewrite <- Hyl. apply slice_splice_same. lia.
    + intros pos' Hpos' Hne. unfold b3. rewrite frame_id_splice_other by lia.
      unfold b2. rewrite frame_id_splice_other by lia.
      unfold b1. apply frame_id_splice_other; lia.
    + intros pos' k' Hpos' Hk' Hin Hdis. split.
      * unfold b3. rewrite frame_rww_splice_other by lia.
        unfold b2. rewrite frame_rww_splice_other by lia.
        unfold b1. apply frame_rww_splice_other; lia.
      * unfold b3. rewrite frame_ry_splice_other by lia.
        unfold b2. rewrite frame_ry_splice_other by lia.
        unfold b1. apply frame_ry_splice_other; lia.
Qed.

(** The headers stay as they are. *)
Lemma part_written_parameter total pos k id rww ry f f' h :
  frame_shape c_cl_cciefb_cyclic_req_full_headers (qi_buffer f) 1500 h ->
  part_written total pos k id rww ry f f' ->
  frame_parameter (qi_buffer f') = frame_parameter (qi_buffer f).
Proof.
  intros Hsh Hw. destruct (pw_shape _ _ _ _ _ _ _ _ Hw h Hsh) as (_ & _ & _ & Hd').
  destruct Hsh as (_ & _ & _ & Hd). unfold frame_parameter. rewrite Hd, Hd'. reflexivity.
Qed.
End Master.
