(* ===== verification/MasterDevice.v ===== *)
(** * The state machine of a slave device in the master

    Programs that work on one group, the action that writes a device's part
    of the request frame, and the effect of every event of the device state
    machine.  Two rounds of the event loop are always enough: only the
    evaluation of the timeout counter triggers a second event. *)

From S2P Require Import Prelude Packed Signals Timer Limiter Util Types Iefb IefbFacts IefbRoundtrip.
From S2P Require Import Slmp Master MasterIefb MasterConfig MasterInv MasterFrame.

Section MasterDevice.
Context `{ClmOptions, Clal, ClalClock}.
Context (cfg : clm_cfg) (cfg_ok : clm_config_ok cfg).
Context (g : Z) (g_ok : has_group cfg g).
Context (m : clm) (m_ok : master_base cfg m).

Abbreviation gs := (setting_of_group cfg g).

(** ** Programs on one group *)

(** [P] started with [gd] as the data of the group changes that group only,
    and [Q] holds of what it leaves. *)
Definition gwp {A} (P : clm_prog A) (Q : A -> clm_group_data -> list clm_output -> Prop)
  (gd : clm_group_data) : Prop :=
  wp P (fun a s o => exists gd', s = put_group g gd' m /\ Q a gd' o) (put_group g gd m).

Lemma group_index_ok : 0 <= g < Z.of_nat (length (m_groups m)).
Proof.
  rewrite (mb_groups _ _ m_ok). pose proof (cok_groups _ cfg_ok). unfold has_group in g_ok. lia.
Qed.

Lemma group_here gd : group_at (put_group g gd m) g = gd.
Proof. apply group_at_put, group_index_ok. Qed.

Lemma gwp_ret {A} (a : A) Q gd : Q a gd [] -> gwp (mret a) Q gd.
Proof. intros HQ. apply wp_ret. eauto. Qed.

Lemma gwp_bind {A B} (P : clm_prog A) (k : A -> clm_prog B) Q gd :
  gwp P (fun a gd' o => gwp (k a) (fun b gd'' o' => Q b gd'' (o ++ o')) gd') gd ->
  gwp (P ≫= k) Q gd.
Proof.
  intros HP. apply wp_bind. eapply wp_mono; [exact HP|]. intros a s o (gd' & -> & Hk). exact Hk.
Qed.

Lemma gwp_get Q gd : Q (put_group g gd m) gd [] -> gwp get Q gd.
Proof. intros HQ. apply wp_get. eauto. Qed.

Lemma gwp_get_group Q gd : Q gd gd [] -> gwp (get_group g) Q gd.
Proof. intros HQ. unfold get_group. apply wp_bind. apply wp_get. rewrite group_here.
  apply wp_ret. eauto. Qed.

Lemma gwp_get_device d Q gd : Q (device_at gd d) gd [] -> gwp (get_device g d) Q gd.
Proof. intros HQ. unfold get_device. apply wp_bind. apply wp_get. rewrite group_here.
  apply wp_ret. eauto. Qed.

Lemma gwp_modify_group f Q gd : Q tt (f gd) [] -> gwp (modify_group g f) Q gd.
Proof. intros HQ. apply wp_modify. rewrite update_put_group. eauto. Qed.

Lemma gwp_modify_device d f Q gd :
  Q tt (update_device d f gd) [] -> gwp (modify_device g d f) Q gd.
Proof. intros HQ. apply wp_modify. rewrite update_put_group. eauto. Qed.

Lemma gwp_emit o Q gd : Q tt gd [o] -> gwp (emit o) Q gd.
Proof. intros HQ. apply wp_emit. eauto. Qed.

Lemma gwp_lift {A} (x : outcome A) a Q gd : x = Done a -> Q a gd [] -> gwp (lift_outcome x) Q gd.
Proof. intros -> HQ. apply wp_lift. eauto. Qed.

Lemma gwp_when b P Q gd :
  (b = true -> gwp P Q gd) -> (b = false -> Q tt gd []) -> gwp (when b P) Q gd.
Proof. destruct b; cbn [when]; [auto|]. intros _ HQ. apply gwp_ret. auto. Qed.

Lemma gwp_mono {A} (P : clm_prog A) (Q Q' : A -> clm_group_data -> list clm_output -> Prop) gd :
  gwp P Q gd -> (forall a gd' o, Q a gd' o -> Q' a gd' o) -> gwp P Q' gd.
Proof. intros HP HQ. eapply wp_mono; [exact HP|]. intros a s o (gd' & -> & Hq). eauto. Qed.

(** A loop over the devices, with an invariant on the index. *)
Lemma gwp_for_range n body (I : Z -> clm_group_data -> list clm_output -> Prop) gd : 0 <= n ->
  I 0 gd [] ->
  (forall i gd' o, 0 <= i < n -> I i gd' o ->
     gwp (body i) (fun _ gd'' o' => I (i + 1) gd'' (o ++ o')) gd') ->
  gwp (for_range n body) (fun _ gd' o => I n gd' o) gd.
Proof.
  intros Hn HI Hbody. unfold for_range.
  assert (Hgen : forall k i gd' o, Z.of_nat k = n - i -> 0 <= i -> I i gd' o ->
            gwp (for_each (seqZ i (n - i)) body) (fun _ gd'' o' => I n gd'' (o ++ o')) gd').
  { induction k as [|k IH]; intros i gd' o Hk Hi Hinv.
    - rewrite seqZ_nil by lia. apply gwp_ret. rewrite app_nil_r.
      replace n with i by lia. exact Hinv.
    - rewrite seqZ_cons by lia. cbn [for_each]. apply gwp_bind.
      eapply gwp_mono; [apply Hbody; [lia|exact Hinv]|]. intros [] gd'' o' Hinv'. cbn beta.
      replace (Z.succ i) with (i + 1) by lia. replace (Z.pred (n - i)) with (n - (i + 1)) by lia.
      eapply gwp_mono; [apply IH; [lia|lia|exact Hinv']|]. intros [] gd3 o3.
      rewrite app_assoc. exact (fun H => H). }
  specialize (Hgen (Z.to_nat n) 0 gd [] ltac:(lia) ltac:(lia) HI).
  rewrite Z.sub_0_r in Hgen. exact Hgen.
Qed.

End MasterDevice.

Ltac gwp_step :=
  lazymatch goal with
  | |- gwp _ _ (mbind _ _) _ _ => apply gwp_bind
  | |- gwp _ _ (mret _) _ _ => apply gwp_ret
  | |- gwp _ _ get _ _ => apply gwp_get
  | |- gwp _ _ (get_group _) _ _ => eapply gwp_get_group
  | |- gwp _ _ (get_device _ _) _ _ => eapply gwp_get_device
  | |- gwp _ _ (modify_group _ _) _ _ => apply gwp_modify_group
  | |- gwp _ _ (modify_device _ _ _) _ _ => apply gwp_modify_device
  | |- gwp _ _ (emit _) _ _ => apply gwp_emit
  end; try eassumption; cbv beta.
Ltac gwp_steps := repeat gwp_step.

Section DeviceActions.
Context `{ClmOptions, Clal, ClalClock}.
Context (cfg : clm_cfg) (cfg_ok : clm_config_ok cfg).
Context (g : Z) (g_ok : has_group cfg g).
Context (m : clm) (m_ok : master_base cfg m).

Abbreviation gs := (setting_of_group cfg g).
Abbreviation gwp := (gwp g m).

Lemma list_alter_group_id d gd : update_device d (fun device => device) gd = gd.
Proof.
  unfold update_device. destruct gd. cbn. f_equal. apply list_alter_id. reflexivity.
Qed.

(** ** Actions *)

(** The part of the group data that the actions on device [d] rely on. *)
Record writable (d : Z) (gd : clm_group_data) : Prop := {
  wr_device : 0 <= d < gs_num_slave_devices gs;
  wr_index : g_group_index gd = g;
  wr_length : length (g_slave_devices gd) = Z.to_nat CLM_MAX_OCCUPIED_STATIONS_PER_GROUP;
  wr_device_index : d_device_index (device_at gd d) = d;
  wr_station : d_slave_station_no (device_at gd d) = 1 + stations_before gs d;
  wr_memory : memory_ok (g_memory_area gd);
  wr_frame : request_frame_ok cfg g (g_req_frame gd)
}.

Definition connection_callback (d : Z) (old new : bool) : list clm_output :=
  let slave_id := ds_slave_id (setting_of_device gs d) in
  if new && negb old then (if mc_connect_cb cfg then [ClmConnectCb g d slave_id] else [])
  else if old && negb new then (if mc_disconnect_cb cfg then [ClmDisconnectCb g d slave_id] else [])
  else [].

(** What [clm_iefb_set_data_ip] leaves when the device enters [new_state]. *)
Definition data_ip_set (d : Z) (new_state : clm_device_state) (gd gd' : clm_group_data)
  : Prop :=
  let device := device_at gd d in
  let sending := bool_decide (new_state = CLM_DEVICE_STATE_CYCLIC_SENDING) in
  let valid := sending || d_force_transmission_bit device in
  let pos := stations_before gs d in
  let k := ds_num_occupied_stations (setting_of_device gs d) in
  exists statistics frame,
    gd' = put_device d (device <| d_transmission_bit := sending |>
                               <| d_statistics := statistics |>) gd
            <| g_cyclic_transmission_state ::= (fun st =>
                 cl_iefb_set_cyclic_transmission_state st (1 + pos) valid) |>
            <| g_req_frame := frame |> /\
    part_written (total_stations gs) pos k
      (if bool_decide (new_state <> CLM_DEVICE_STATE_CYCLIC_SUSPEND)
       then ds_slave_id (setting_of_device gs d) else CL_IPADDR_INVALID)
      (sent_part 64 (ma_rww (g_memory_area gd)) pos k valid)
      (sent_part 8 (ma_ry (g_memory_area gd)) pos k valid)
      (g_req_frame gd) frame.

Lemma this_group_ok : group_ok cfg gs.
Proof. apply cok_group; assumption. Qed.

Lemma setting_here gd : g_group_index gd = g ->
  group_setting_of (put_group g gd m) g = gs.
Proof.
  intros Hi. unfold group_setting_of. rewrite (group_here cfg) by assumption. rewrite Hi.
  change (m_config (put_group g gd m)) with (m_config m). rewrite (mb_config _ _ m_ok). reflexivity.
Qed.

Lemma device_setting_here d gd : g_group_index gd = g -> d_device_index (device_at gd d) = d ->
  device_setting_of (put_group g gd m) g d = setting_of_device gs d.
Proof.
  intros Hi Hd. unfold device_setting_of. rewrite setting_here by assumption.
  rewrite (group_here cfg) by assumption. rewrite Hd. reflexivity.
Qed.

Lemma device_in_array d gd : writable d gd -> 0 <= d < Z.of_nat (length (g_slave_devices gd)).
Proof.
  intros Hw. rewrite (wr_length _ _ Hw). pose proof (wr_device _ _ Hw).
  pose proof (go_devices _ _ this_group_ok). lia.
Qed.

Lemma gwp_connect_callback d Q gd : writable d gd ->
  Q tt gd (connection_callback d false true) ->
  gwp (clm_iefb_trigger_connect_callback g d) Q gd.
Proof.
  intros Hw HQ. unfold clm_iefb_trigger_connect_callback. gwp_steps.
  change (m_config (put_group g gd m)) with (m_config m). rewrite (mb_config _ _ m_ok).
  rewrite (group_here cfg), (wr_index _ _ Hw), (wr_device_index _ _ Hw) by assumption.
  rewrite device_setting_here by apply Hw.
  unfold connection_callback in HQ. cbn [andb negb] in HQ.
  apply gwp_when; intros Hcb; rewrite Hcb in HQ; [apply gwp_emit|]; exact HQ.
Qed.

Lemma gwp_disconnect_callback d Q gd : writable d gd ->
  Q tt gd (connection_callback d true false) ->
  gwp (clm_iefb_trigger_disconnect_callback g d) Q gd.
Proof.
  intros Hw HQ. unfold clm_iefb_trigger_disconnect_callback. gwp_steps.
  change (m_config (put_group g gd m)) with (m_config m). rewrite (mb_config _ _ m_ok).
  rewrite (group_here cfg), (wr_index _ _ Hw), (wr_device_index _ _ Hw) by assumption.
  rewrite device_setting_here by apply Hw.
  unfold connection_callback in HQ. cbn [andb negb] in HQ.
  apply gwp_when; intros Hcb; rewrite Hcb in HQ; [apply gwp_emit|]; exact HQ.
Qed.

(** Changes of a device that keep its place. *)
Lemma writable_device d f gd : writable d gd ->
  (forall device, d_device_index (f device) = d_device_index device) ->
  (forall device, d_slave_station_no (f device) = d_slave_station_no device) ->
  writable d (update_device d f gd).
Proof.
  intros Hw Hi Hs. pose proof (device_in_array d gd Hw) as Hd.
  assert (Hat : device_at (update_device d f gd) d = f (device_at gd d)).
  { rewrite <- (put_device_same d gd Hd) at 1. rewrite update_put_device. apply device_at_put, Hd. }
  destruct Hw. split; try assumption.
  - cbn. rewrite length_alter. assumption.
  - rewrite Hat, Hi. assumption.
  - rewrite Hat, Hs. assumption.
Qed.

(** The first half of the action: the connection is counted and reported. *)
Lemma gwp_connection d (sending : bool) (Q : unit -> clm_group_data -> list clm_output -> Prop) gd : writable d gd ->
  (forall statistics, Q tt (put_device d ((device_at gd d) <| d_transmission_bit := sending |>
      <| d_statistics := statistics |>) gd)
     (connection_callback d (d_transmission_bit (device_at gd d)) sending)) ->
  gwp (if sending then
         when (negb (d_transmission_bit (device_at gd d)))
           (modify_device g d (count_in st_number_of_connects);;
            clm_iefb_trigger_connect_callback g d);;
         modify_device g d (fun device => device <| d_transmission_bit := true |>)
       else
         when (d_transmission_bit (device_at gd d))
           (modify_device g d (count_in st_number_of_disconnects);;
            clm_iefb_trigger_disconnect_callback g d);;
         modify_device g d (fun device => device <| d_transmission_bit := false |>)) Q gd.
Proof.
  intros Hw HQ. pose proof (device_in_array d gd Hw) as Hd.
  set (dev := device_at gd d) in *.
  assert (Hgd : gd = put_device d dev gd) by (symmetry; apply put_device_same, Hd).
  destruct sending; apply gwp_bind; apply gwp_when; intros Htb; gwp_steps.
  - apply gwp_connect_callback; [apply writable_device; auto|]. gwp_steps. rewrite app_nil_r.
    rewrite Hgd, !update_put_device. apply negb_true_iff in Htb. rewrite Htb in HQ.
    apply (HQ (update st_number_of_connects increment (d_statistics dev))).
  - rewrite Hgd, update_put_device. apply negb_false_iff in Htb. rewrite Htb in HQ.
    apply (HQ (d_statistics dev)).
  - apply gwp_disconnect_callback; [apply writable_device; auto|]. gwp_steps. rewrite app_nil_r.
    rewrite Hgd, !update_put_device. rewrite Htb in HQ.
    apply (HQ (update st_number_of_disconnects increment (d_statistics dev))).
  - rewrite Hgd, update_put_device. rewrite Htb in HQ. apply (HQ (d_statistics dev)).
Qed.

Lemma set_data_ip_ok d new_state gd : writable d gd ->
  gwp (set_data_ip_action g d new_state) (fun event gd' o =>
    event = CLM_DEVICE_EVENT_NONE /\ data_ip_set d new_state gd gd' /\
    o = connection_callback d (d_transmission_bit (device_at gd d))
          (bool_decide (new_state = CLM_DEVICE_STATE_CYCLIC_SENDING))) gd.
Proof.
  intros Hw. pose proof (device_in_array d gd Hw) as Hd. unfold set_data_ip_action. gwp_steps.
  rewrite device_setting_here, (group_here cfg) by (assumption || apply Hw).
  apply gwp_connection; [exact Hw|]. intros statistics.
  set (dev' := (device_at gd d) <| d_transmission_bit := _ |> <| d_statistics := statistics |>).
  gwp_steps. rewrite device_at_put by assumption.
  change (d_slave_station_no dev') with (d_slave_station_no (device_at gd d)).
  change (d_force_transmission_bit dev') with (d_force_transmission_bit (device_at gd d)).
  rewrite (wr_station _ _ Hw).
  set (valid := d_transmission_bit dev' || d_force_transmission_bit (device_at gd d)).
  pose proof (wr_frame _ _ Hw) as [Hlen Hids Hrww Hry (param & seq & clock & info & st & _ & Hsh) _].
  destruct (go_device _ _ this_group_ok d (wr_device _ _ Hw)) as (Hk & Hid & _ & _).
  pose proof (stations_inside cfg gs this_group_ok d (wr_device _ _ Hw)) as [Hpos Hin].
  pose proof (go_stations _ _ this_group_ok) as [_ Htot]. apply proj1 in Hk.
  destruct (write_part (total_stations gs) (stations_before gs d)
              (ds_num_occupied_stations (setting_of_device gs d))
              (ds_slave_id (setting_of_device gs d))
              (bool_decide (new_state <> CLM_DEVICE_STATE_CYCLIC_SUSPEND)) valid
              (g_memory_area gd) (g_req_frame gd) _ Hpos Hk Hin Htot Hid
              (wr_memory _ _ Hw) Hsh Hids Hrww Hry) as (f1 & f2 & H1f & H2f & Hpart).
  eapply gwp_lift; [exact H1f|]. gwp_steps. eapply gwp_lift; [exact H2f|]. gwp_steps.
  assert (Hgoal : forall statistics' gd', gd' = put_device d (dev' <| d_statistics := statistics' |>) gd
            <| g_cyclic_transmission_state ::= (fun st =>
                 cl_iefb_set_cyclic_transmission_state st (1 + stations_before gs d) valid) |>
            <| g_req_frame := f2 |> -> data_ip_set d new_state gd gd').
  { intros statistics' gd' ->. exists statistics', f2. split; [reflexivity|exact Hpart]. }
  apply gwp_when; intros Hen; gwp_steps; (split; [reflexivity|]);
    (split; [|cbn [app]; rewrite ?app_nil_r; reflexivity]).
  - apply (Hgoal (update st_number_of_sent_frames increment (d_statistics dev'))).
    unfold put_device, update_device. destruct gd. cbn. f_equal. rewrite list_alter_alter_eq.
    reflexivity.
  - apply (Hgoal (d_statistics dev')). reflexivity.
Qed.

Lemma data_ip_set_device d new_state gd gd' : 0 <= d < Z.of_nat (length (g_slave_devices gd)) ->
  data_ip_set d new_state gd gd' ->
  (exists statistics, device_at gd' d = (device_at gd d)
     <| d_transmission_bit := bool_decide (new_state = CLM_DEVICE_STATE_CYCLIC_SENDING) |>
     <| d_statistics := statistics |>) /\
  forall d', 0 <= d' -> d' <> d -> device_at gd' d' = device_at gd d'.
Proof.
  intros Hd (statistics & f & -> & _). split.
  - exists statistics.
    match goal with |- device_at ?x d = _ => change (device_at x d) with
      (device_at (put_device d ((device_at gd d)
         <| d_transmission_bit := bool_decide (new_state = CLM_DEVICE_STATE_CYCLIC_SENDING) |>
         <| d_statistics := statistics |>) gd) d) end.
    apply device_at_put, Hd.
  - intros d' Hd' Hne.
    match goal with |- device_at ?x d' = _ => change (device_at x d') with
      (device_at (put_device d ((device_at gd d)
         <| d_transmission_bit := bool_decide (new_state = CLM_DEVICE_STATE_CYCLIC_SENDING) |>
         <| d_statistics := statistics |>) gd) d') end.
    apply device_at_put_other; lia.
Qed.

(** ** The event loop *)

Definition run_device_opt (action : option clm_device_action) (d : Z) (next : clm_device_state)
  : clm_prog clm_device_event :=
  match action with
  | Some action => run_device_action action g d next
  | None => mret CLM_DEVICE_EVENT_NONE
  end.

(** Entering LISTEN resets the timeout counter. *)
Definition enter_device (previous next : clm_device_state) (device : clm_slave_device_data)
  : clm_slave_device_data :=
  if bool_decide (next = CLM_DEVICE_STATE_LISTEN) && bool_decide (next <> previous)
  then device <| d_timeout_count := 0 |> else device.

Definition continue_device (fuel : nat) (d : Z) (event : clm_device_event)
  (Q : bool -> clm_group_data -> list clm_output -> Prop) (gd : clm_group_data)
  (o : list clm_output) : Prop :=
  if bool_decide (event <> CLM_DEVICE_EVENT_NONE)
  then gwp (device_event_loop fuel g d event) (fun b gd' o' => Q b gd' (o ++ o')) gd
  else Q true gd o.

Lemma device_entry st : dfsm_on_entry (device_on_entry_exit st) =
  if bool_decide (st = CLM_DEVICE_STATE_LISTEN) then Some clm_iefb_reset_timeout_count else None.
Proof. destruct st; vm_compute; reflexivity. Qed.

(** One round of the loop. *)
Lemma device_round fuel d event gd next action Q :
  0 <= d < Z.of_nat (length (g_slave_devices gd)) ->
  device_matrix (d_device_state (device_at gd d)) event = ClmDeviceFsm next action ->
  let dev := device_at gd d in
  gwp (run_device_opt action d next) (fun event' gd1 o1 =>
    d_device_state (device_at gd1 d) = next /\
    continue_device fuel d event' Q (update_device d (enter_device (d_device_state dev) next) gd1) o1)
    (put_device d (dev <| d_device_state := next |>) gd) ->
  gwp (device_event_loop (S fuel) g d event) Q gd.
Proof.
  intros Hd Htable dev Hact. cbn [device_event_loop]. gwp_steps. rewrite (group_here cfg) by assumption.
  change (m_device_fsm_matrix (put_group g gd m)) with (m_device_fsm_matrix m).
  change (m_device_fsm_on_entry_exit (put_group g gd m)) with (m_device_fsm_on_entry_exit m).
  rewrite (mb_device_matrix _ _ m_ok), (mb_device_actions _ _ m_ok), Htable.
  cbn [dfsm_next dfsm_action]. rewrite device_entry. gwp_steps.
  replace (update_device d _ gd) with (put_device d (dev <| d_device_state := next |>) gd)
    by (unfold dev; rewrite <- (put_device_same d gd Hd) at 3; rewrite update_put_device; reflexivity).
  change (match action with Some a => run_device_action a g d next | None => _ end)
    with (run_device_opt action d next).
  eapply gwp_mono; [exact Hact|]. intros event' gd1 o1 [Hst Hk]. gwp_steps. rewrite Hst.
  set (gd2 := update_device d (enter_device (d_device_state dev) next) gd1) in Hk.
  eapply (gwp_mono g m) with (Q := fun _ gd' o' => gd' = gd2 /\ o' = []).
  { unfold gd2, enter_device. fold dev. destruct (bool_decide (next = _)); cbn [andb].
    - destruct (bool_decide (next <> d_device_state dev)).
      + cbn [run_device_action]. unfold reset_timeout_count_action. gwp_steps. auto.
      + gwp_steps. split; [|reflexivity]. symmetry. apply list_alter_group_id.
    - gwp_steps. split; [|reflexivity]. symmetry. apply list_alter_group_id. }
  intros [] gd3 o3 [-> ->]. unfold continue_device in Hk.
  destruct (bool_decide (event' <> _)).
  - eapply gwp_mono; [exact Hk|]. intros b gd4 o4. cbn [app]. exact (fun H => H).
  - gwp_steps. cbn [app]. rewrite !app_nil_r. exact Hk.
Qed.

(** ** Events *)

(** The effect of an event, by the entry of the table for the state the
    device is in. *)
Definition device_stepped (d : Z) (event : clm_device_event) (gd gd' : clm_group_data)
  (o : list clm_output) : Prop :=
  let dev := device_at gd d in
  let previous := d_device_state dev in
  let next := dfsm_next (device_matrix previous event) in
  match dfsm_action (device_matrix previous event) with
  | None =>
      gd' = put_device d (enter_device previous next (dev <| d_device_state := next |>)) gd /\ o = []
  | Some clm_iefb_set_data_ip =>
      data_ip_set d next (put_device d (dev <| d_device_state := next |>) gd) gd' /\
      o = connection_callback d (d_transmission_bit dev)
            (bool_decide (next = CLM_DEVICE_STATE_CYCLIC_SENDING))
  | Some clm_iefb_reset_timeout_count =>
      gd' = put_device d (dev <| d_device_state := next |> <| d_timeout_count := 0 |>) gd /\ o = []
  | Some clm_iefb_evaluate_timeoutcounter =>
      let count := u16 (d_timeout_count dev + 1) in
      o = [] /\ exists statistics,
        gd' = put_device d (if gs_parallel_off_timeout_count gs <=? count
                            then dev <| d_device_state := CLM_DEVICE_STATE_LISTEN |>
                                     <| d_timeout_count := 0 |> <| d_statistics := statistics |>
                            else dev <| d_device_state := CLM_DEVICE_STATE_CYCLIC_SENT |>
                                     <| d_timeout_count := count |>
                                     <| d_statistics := statistics |>) gd
  | Some clm_iefb_device_init => False
  end.

Lemma writable_put d device gd : writable d gd ->
  d_device_index device = d -> d_slave_station_no device = 1 + stations_before gs d ->
  writable d (put_device d device gd).
Proof.
  intros Hw Hi Hs. pose proof (device_in_array d gd Hw) as Hd. destruct Hw. split; try assumption.
  - rewrite length_put_device. assumption.
  - rewrite device_at_put by assumption. exact Hi.
  - rewrite device_at_put by assumption. exact Hs.
Qed.

Lemma put_put_device d device device' gd :
  put_device d device' (put_device d device gd) = put_device d device' gd.
Proof. apply update_put_device. Qed.

(** The table has the evaluation of the timeouts in one entry only, and
    never leads back to the state before the start. *)
Lemma device_matrix_shape st event : st <> CLM_DEVICE_STATE_MASTER_DOWN ->
  let next := dfsm_next (device_matrix st event) in
  next <> CLM_DEVICE_STATE_MASTER_DOWN /\
  (next = CLM_DEVICE_STATE_LAST -> st = CLM_DEVICE_STATE_LAST) /\
  match dfsm_action (device_matrix st event) with
  | Some clm_iefb_device_init => False
  | Some clm_iefb_set_data_ip =>
      (event = CLM_DEVICE_EVENT_SCAN_START_DEVICE_START \/
       event = CLM_DEVICE_EVENT_SCAN_START_DEVICE_STOP) /\
      (next = CLM_DEVICE_STATE_WAIT_TD \/ next = CLM_DEVICE_STATE_CYCLIC_SUSPEND \/
       next = CLM_DEVICE_STATE_CYCLIC_SENDING)
  | Some clm_iefb_evaluate_timeoutcounter =>
      st = CLM_DEVICE_STATE_CYCLIC_SENDING /\ event = CLM_DEVICE_EVENT_GROUP_TIMEOUT /\
      next = CLM_DEVICE_STATE_CYCLIC_SENDING
  | Some clm_iefb_reset_timeout_count =>
      st = CLM_DEVICE_STATE_CYCLIC_SENDING /\ event = CLM_DEVICE_EVENT_RECEIVE_OK /\
      next = CLM_DEVICE_STATE_CYCLIC_SENT
  | None =>
      next = st \/ next = CLM_DEVICE_STATE_LISTEN \/ next = CLM_DEVICE_STATE_CYCLIC_SENT \/
      next = CLM_DEVICE_STATE_CYCLIC_SUSPEND
  end.
Proof.
  destruct st, event; intros Hst; try congruence; vm_compute; intuition congruence.
Qed.

Lemma enter_device_put d previous next device gd : 0 <= d < Z.of_nat (length (g_slave_devices gd)) ->
  update_device d (enter_device previous next) (put_device d device gd) =
    put_device d (enter_device previous next device) gd.
Proof. intros. apply update_put_device. Qed.

Lemma device_event_ok d event gd : writable d gd ->
  d_device_state (device_at gd d) <> CLM_DEVICE_STATE_MASTER_DOWN ->
  gwp (device_event_loop MASTER_FSM_FUEL g d event)
    (fun b gd' o => b = true /\ device_stepped d event gd gd' o) gd.
Proof.
  intros Hw Hst. pose proof (device_in_array d gd Hw) as Hd. unfold device_stepped.
  destruct (device_matrix_shape _ event Hst) as (_ & _ & Hshape).
  destruct (device_matrix (d_device_state (device_at gd d)) event) as [next action] eqn:Ht.
  cbn [dfsm_next dfsm_action] in *.
  eapply device_round; [exact Hd|exact Ht|]. set (dev := device_at gd d) in *.
  assert (Hw1 : writable d (put_device d (dev <| d_device_state := next |>) gd))
    by (apply writable_put; apply Hw).
  destruct action as [[]|]; cbn [run_device_opt run_device_action].
  - destruct Hshape.
  - eapply gwp_mono; [apply set_data_ip_ok, Hw1|]. intros event' gd1 o1 (-> & Hset & ->).
    rewrite device_at_put in * by assumption. unfold continue_device.
    rewrite bool_decide_eq_false_2 by tauto. replace (update_device _ _ gd1) with gd1.
    + split; [|split; [reflexivity|split; [exact Hset|reflexivity]]].
      apply data_ip_set_device in Hset as [[statistics ->] _];
        [|rewrite length_put_device; assumption].
      rewrite device_at_put by assumption. reflexivity.
    + unfold enter_device. rewrite bool_decide_eq_false_2 by (destruct Hshape as [_ [->|[->| ->]]]; discriminate). cbn [andb].
      symmetry. apply list_alter_group_id.
  - destruct Hshape as (Hprev & -> & ->). unfold evaluate_timeoutcounter_action. gwp_steps.
    rewrite setting_here by apply Hw1. rewrite update_put_device.
    rewrite device_at_put by assumption. cbn [d_timeout_count update].
    set (count := u16 (d_timeout_count dev + 1)).
    set (dev1 := dev <| d_device_state := CLM_DEVICE_STATE_CYCLIC_SENDING |>
                     <| d_timeout_count := count |>).
    change (update d_timeout_count _ (dev <| d_device_state := _ |>)) with dev1.
    assert (Hsecond : forall event' dev' next',
      dev' = dev1 <| d_statistics := d_statistics dev' |> ->
      device_matrix CLM_DEVICE_STATE_CYCLIC_SENDING event' = ClmDeviceFsm next' None ->
      gwp (device_event_loop 1 g d event') (fun b gd' o' => b = true /\ o' = [] /\
         gd' = put_device d (enter_device CLM_DEVICE_STATE_CYCLIC_SENDING next'
                               (dev' <| d_device_state := next' |>)) gd) (put_device d dev' gd)).
    { intros event' dev' next' Hdev' Htable.
      assert (Hw' : writable d (put_device d dev' gd))
        by (rewrite Hdev'; apply writable_put; apply Hw).
      eapply device_round; rewrite ?device_at_put by assumption;
        [exact (device_in_array d _ Hw')| |].
      - rewrite Hdev'. exact Htable.
      - cbn [run_device_opt]. gwp_steps. rewrite put_put_device, device_at_put by assumption.
        split; [reflexivity|]. unfold continue_device. rewrite bool_decide_eq_false_2 by tauto.
        rewrite update_put_device, Hdev'. auto. }
    destruct (Z.leb_spec (gs_parallel_off_timeout_count gs) count) as [Hfull|Hnot]; gwp_steps.
    + rewrite update_put_device. set (dev2 := count_in st_number_of_timeouts dev1).
      rewrite device_at_put by assumption. split; [reflexivity|].
      unfold continue_device. rewrite bool_decide_eq_true_2 by discriminate.
      unfold enter_device. rewrite bool_decide_eq_false_2 by discriminate. cbn [andb].
      rewrite list_alter_group_id.
      eapply gwp_mono; [apply (Hsecond _ dev2 CLM_DEVICE_STATE_LISTEN); reflexivity|].
      intros b gd' o' (-> & -> & ->). split; [reflexivity|]. split; [reflexivity|].
      exists (d_statistics dev2). reflexivity.
    + rewrite device_at_put by assumption. split; [reflexivity|].
      unfold continue_device. rewrite bool_decide_eq_true_2 by discriminate.
      unfold enter_device. rewrite bool_decide_eq_false_2 by discriminate. cbn [andb].
      rewrite list_alter_group_id.
      eapply gwp_mono; [apply (Hsecond _ dev1 CLM_DEVICE_STATE_CYCLIC_SENT); reflexivity|].
      intros b gd' o' (-> & -> & ->). split; [reflexivity|]. split; [reflexivity|].
      exists (d_statistics dev1). reflexivity.
  - destruct Hshape as (Hprev & -> & ->). unfold reset_timeout_count_action. gwp_steps.
    rewrite update_put_device, device_at_put by assumption. split; [reflexivity|].
    unfold continue_device. rewrite bool_decide_eq_false_2 by tauto.
    unfold enter_device. rewrite bool_decide_eq_false_2 by discriminate. cbn [andb].
    rewrite list_alter_group_id. auto.
  - gwp_steps. rewrite device_at_put by assumption. split; [reflexivity|].
    unfold continue_device. rewrite bool_decide_eq_false_2 by tauto.
    rewrite update_put_device. auto.
Qed.

End DeviceActions.
