(* ===== verification/MasterGroup.v ===== *)
(** * Device events in a group

    The events of the device state machine preserve what holds of a group,
    one at a time and for all devices of the group, and write the parts of
    the devices into the request frame. *)

From S2P Require Import Prelude Packed Signals Timer Limiter Util Types Iefb IefbFacts IefbRoundtrip.
From S2P Require Import Slmp Master MasterIefb MasterConfig MasterInv MasterFrame MasterDevice.

Section MasterGroup.
Context `{ClmOptions, Clal, ClalClock}.
Context (cfg : clm_cfg) (cfg_ok : clm_config_ok cfg).
Context (g : Z) (g_ok : has_group cfg g).

Abbreviation gs := (setting_of_group cfg g).

(** Everything of the group but its devices, the transmission bits and the
    frame. *)
Record same_group (gd gd' : clm_group_data) : Prop := {
  sg_index : g_group_index gd' = g_group_index gd;
  sg_total : g_total_occupied gd' = g_total_occupied gd;
  sg_seq : g_frame_sequence_no gd' = g_frame_sequence_no gd;
  sg_state : g_group_state gd' = g_group_state gd;
  sg_timestamp : g_timestamp_link_scan_start gd' = g_timestamp_link_scan_start gd;
  sg_wait : g_response_wait_timer gd' = g_response_wait_timer gd;
  sg_constant : g_constant_linkscan_timer gd' = g_constant_linkscan_timer gd;
  sg_memory : g_memory_area gd' = g_memory_area gd;
  sg_length : length (g_slave_devices gd') = length (g_slave_devices gd)
}.

Lemma same_group_refl gd : same_group gd gd.
Proof. split; reflexivity. Qed.

Lemma same_group_trans gd1 gd2 gd3 : same_group gd1 gd2 -> same_group gd2 gd3 -> same_group gd1 gd3.
Proof. intros [] []. split; congruence. Qed.

Lemma same_group_put d device gd : same_group gd (put_device d device gd).
Proof. split; try reflexivity. apply length_put_device. Qed.

(** Writing the part of a device keeps the frame in shape. *)
Lemma part_written_frame_ok d f f' rww ry (id : Z) : 0 <= d < gs_num_slave_devices gs ->
  request_frame_ok cfg g f ->
  id = ds_slave_id (setting_of_device gs d) \/ id = CL_IPADDR_INVALID ->
  part_written (total_stations gs) (stations_before gs d)
    (ds_num_occupied_stations (setting_of_device gs d)) id rww ry f f' ->
  request_frame_ok cfg g f'.
Proof.
  intros Hd [Hlen Hids Hrww Hry (param & seq & clock & info & st & Hp & Hsh) Hdev] Hid
    [(H1' & H2' & H3' & H4') Hshape Hpid _ _ Hother _].
  split; try congruence; [exists param, seq, clock, info, st; auto|].
  pose proof (this_group_ok cfg cfg_ok g g_ok) as Hgs. intros d' Hd'.
  pose proof (stations_inside cfg gs Hgs d Hd) as Hin.
  pose proof (stations_inside cfg gs Hgs d' Hd') as Hin'.
  pose proof (device_stations cfg gs Hgs d Hd) as Hk.
  pose proof (device_stations cfg gs Hgs d' Hd') as Hk'.
  destruct (Hdev d' Hd') as [Hfirst Hmulti]. split.
  - destruct (Z.eq_dec d' d) as [->|Hne]; [rewrite Hpid; exact Hid|].
    rewrite Hother; [exact Hfirst|lia|].
    destruct (Z.lt_total d d') as [Hlt|[|Hlt]]; [|congruence|].
    + pose proof (stations_before_mono cfg gs Hgs d d'). lia.
    + pose proof (stations_before_mono cfg gs Hgs d' d). lia.
  - intros k Hkk. rewrite Hother; [apply Hmulti, Hkk|lia|].
    destruct (Z.lt_total d d') as [Hlt|[Heq|Hlt]]; [|subst; lia|].
    + pose proof (stations_before_mono cfg gs Hgs d d'). lia.
    + pose proof (stations_before_mono cfg gs Hgs (d' + 1) d) as Hm.
      rewrite stations_before_S in Hm by lia. lia.
Qed.

Lemma base_writable d gd : 0 <= d < gs_num_slave_devices gs -> group_base cfg g gd ->
  writable cfg g d gd.
Proof.
  intros Hd Hb. destruct (gb_devices _ _ _ Hb d Hd). destruct Hb. split; assumption.
Qed.

(** The device after a step. *)
Lemma device_stepped_device d event gd gd' o : 0 <= d < gs_num_slave_devices gs ->
  group_base cfg g gd -> device_stepped cfg g d event gd gd' o ->
  device_inv gs d (device_at gd' d) /\
  (forall d', 0 <= d' -> d' <> d -> device_at gd' d' = device_at gd d').
Proof.
  intros Hd Hb Hstep. pose proof (gb_devices _ _ _ Hb d Hd) as Hdev.
  pose proof (device_in_array cfg cfg_ok g g_ok d gd (base_writable d gd Hd Hb)) as Hr.
  destruct (device_matrix_shape _ event (proj1 (di_state _ _ _ Hdev))) as (Hdown & Hlast & Hshape).
  unfold device_stepped in Hstep. set (dev := device_at gd d) in *.
  set (next := dfsm_next (device_matrix (d_device_state dev) event)) in *.
  assert (Hst : next <> CLM_DEVICE_STATE_MASTER_DOWN /\ next <> CLM_DEVICE_STATE_LAST)
    by (pose proof (di_state _ _ _ Hdev); tauto).
  assert (Hother : forall x d', 0 <= d' -> d' <> d -> device_at (put_device d x gd) d' = device_at gd d').
  { intros. apply device_at_put_other; lia. }
  destruct (dfsm_action _) as [[]|]; cbn beta iota in *.
  - destruct Hstep.
  - destruct Hstep as [Hset _]. apply data_ip_set_device in Hset as [[statistics ->] Ho];
      [|rewrite length_put_device; assumption].
    rewrite device_at_put by assumption. split.
    + destruct Hdev as [Hi Hs _ _ _ Ht]. split; cbn; try assumption.
      * intros E. rewrite E. reflexivity.
      * intros E. rewrite E. reflexivity.
    + intros d' Hd' Hne. rewrite Ho by assumption. apply Hother; assumption.
  - destruct Hstep as (_ & statistics & ->). rewrite device_at_put by assumption.
    split; [|intros; apply Hother; assumption].
    destruct Hdev as [Hi Hs _ _ _ Ht].
    destruct (_ <=? _); split; cbn; try assumption; try (split; discriminate); try discriminate;
      auto with clink. split; lia.
  - destruct Hstep as (-> & _). rewrite device_at_put by assumption.
    split; [|intros; apply Hother; assumption]. destruct Hshape as (_ & _ & Hn).
    destruct Hdev as [Hi Hs _ _ _ Ht]. split; cbn; try assumption; try congruence. split; lia.
  - destruct Hstep as (-> & _). rewrite device_at_put by assumption.
    split; [|intros; apply Hother; assumption].
    assert (Hinv : device_inv gs d (dev <| d_device_state := next |>)).
    { destruct Hdev as [Hi Hs _ Hsend Hwait Ht]. split; cbn; try assumption.
      - intros E. destruct Hshape as [F|[F|[F|F]]]; try congruence. rewrite F in E. auto.
      - intros E. destruct Hshape as [F|[F|[F|F]]]; try congruence. rewrite F in E. auto. }
    unfold enter_device. destruct (_ && _); [|exact Hinv].
    destruct Hinv as [Hi Hs Hss Hsend Hwait Ht]. split; cbn; try assumption. split; lia.
Qed.

Lemma set_transmission_state_u16 st no b :
  is_u16 st -> is_u16 (cl_iefb_set_cyclic_transmission_state st no b).
Proof.
  intros Hst. unfold cl_iefb_set_cyclic_transmission_state. destruct (_ || _); [exact Hst|].
  destruct b; auto with clink.
Qed.

Lemma device_stepped_rest d event gd gd' o : 0 <= d < gs_num_slave_devices gs ->
  group_base cfg g gd -> device_stepped cfg g d event gd gd' o ->
  same_group gd gd' /\ is_u16 (g_cyclic_transmission_state gd') /\
  request_frame_ok cfg g (g_req_frame gd').
Proof.
  intros Hd Hb Hstep. unfold device_stepped in Hstep.
  assert (Hput : forall x, gd' = put_device d x gd -> same_group gd gd' /\
    is_u16 (g_cyclic_transmission_state gd') /\ request_frame_ok cfg g (g_req_frame gd')).
  { intros x ->. split; [apply same_group_put|]. split; apply Hb. }
  destruct (dfsm_action _) as [[]|].
  - destruct Hstep.
  - destruct Hstep as [(statistics & f & -> & Hpart) _]. split; [|split].
    + split; try reflexivity. cbn. rewrite !length_alter. reflexivity.
    + apply set_transmission_state_u16, Hb.
    + eapply part_written_frame_ok; [exact Hd|apply Hb| |exact Hpart].
      destruct (bool_decide _); auto.
  - destruct Hstep as (_ & statistics & Hgd'). exact (Hput _ Hgd').
  - destruct Hstep as (Hgd' & _). exact (Hput _ Hgd').
  - destruct Hstep as (Hgd' & _). exact (Hput _ Hgd').
Qed.

(** The invariant of the group is preserved. *)
Lemma device_stepped_base d event gd gd' o : 0 <= d < gs_num_slave_devices gs ->
  group_base cfg g gd -> device_stepped cfg g d event gd gd' o -> group_base cfg g gd'.
Proof.
  intros Hd Hb Hstep. destruct (device_stepped_device d event gd gd' o Hd Hb Hstep) as [Hdev Ho].
  destruct (device_stepped_rest d event gd gd' o Hd Hb Hstep) as ([] & Hbits & Hframe).
  destruct Hb. split; try congruence.
  intros d' Hd'. destruct (Z.eq_dec d' d) as [->|Hne]; [exact Hdev|].
  rewrite Ho by lia. auto.
Qed.

End MasterGroup.
