(* ===== verification/MasterScan.v ===== *)
(** * Events for all devices of a group

    What an event does to a device, apart from the frame; the loops that
    raise an event for every device; and the parts of all devices in the
    request frame when a link scan starts. *)

From S2P Require Import Prelude Packed Signals Timer Limiter Util Types Iefb IefbFacts IefbRoundtrip.
From S2P Require Import Slmp Master MasterIefb MasterConfig MasterInv MasterFrame MasterDevice.
From S2P Require Import MasterGroup.

Section MasterScan.
Context `{ClmOptions, Clal, ClalClock}.
Context (cfg : clm_cfg) (cfg_ok : clm_config_ok cfg).
Context (g : Z) (g_ok : has_group cfg g).
Context (m : clm) (m_ok : master_base cfg m).

Abbreviation gs := (setting_of_group cfg g).
Abbreviation gwp := (gwp g m).

(** ** Definitions *)

(** The device after an event. *)
Definition device_changed (event : clm_device_event) (dev dev' : clm_slave_device_data) : Prop :=
  let previous := d_device_state dev in
  let next := dfsm_next (device_matrix previous event) in
  match dfsm_action (device_matrix previous event) with
  | None => dev' = enter_device previous next (dev <| d_device_state := next |>)
  | Some clm_iefb_set_data_ip => exists statistics,
      dev' = dev <| d_device_state := next |>
        <| d_transmission_bit := bool_decide (next = CLM_DEVICE_STATE_CYCLIC_SENDING) |>
        <| d_statistics := statistics |>
  | Some clm_iefb_reset_timeout_count =>
      dev' = dev <| d_device_state := next |> <| d_timeout_count := 0 |>
  | Some clm_iefb_evaluate_timeoutcounter => exists statistics,
      let count := u16 (d_timeout_count dev + 1) in
      dev' = if gs_parallel_off_timeout_count gs <=? count
             then dev <| d_device_state := CLM_DEVICE_STATE_LISTEN |>
                      <| d_timeout_count := 0 |> <| d_statistics := statistics |>
             else dev <| d_device_state := CLM_DEVICE_STATE_CYCLIC_SENT |>
                      <| d_timeout_count := count |> <| d_statistics := statistics |>
  | Some clm_iefb_device_init => False
  end.

(** The transmission bit, the slave id, RWw and RY of a device as the group
    is going to send them. *)
Definition device_part (d : Z) (gd : clm_group_data) : bool * Z * list Z * list Z :=
  let pos := stations_before gs d in
  let k := ds_num_occupied_stations (setting_of_device gs d) in
  let buffer := qi_buffer (g_req_frame gd) in
  (cl_iefb_extract_my_transmission_state (g_cyclic_transmission_state gd) (1 + pos),
   frame_id buffer pos, frame_rww (total_stations gs) buffer pos k,
   frame_ry (total_stations gs) buffer pos k).

(** The part that entering [next] with [clm_iefb_set_data_ip] writes. *)
Definition part_for (d : Z) (next : clm_device_state) (gd : clm_group_data)
  : bool * Z * list Z * list Z :=
  let pos := stations_before gs d in
  let k := ds_num_occupied_stations (setting_of_device gs d) in
  let valid := bool_decide (next = CLM_DEVICE_STATE_CYCLIC_SENDING) ||
               d_force_transmission_bit (device_at gd d) in
  (valid,
   if bool_decide (next <> CLM_DEVICE_STATE_CYCLIC_SUSPEND)
   then ds_slave_id (setting_of_device gs d) else CL_IPADDR_INVALID,
   sent_part 64 (ma_rww (g_memory_area gd)) pos k valid,
   sent_part 8 (ma_ry (g_memory_area gd)) pos k valid).

(** Events that write no frame. *)
Definition silent_event (event : clm_device_event) : Prop :=
  event <> CLM_DEVICE_EVENT_SCAN_START_DEVICE_START /\
  event <> CLM_DEVICE_EVENT_SCAN_START_DEVICE_STOP.

(** The event of a device when a link scan starts. *)
Definition scan_event (dev : clm_slave_device_data) : clm_device_event :=
  if d_enabled dev then CLM_DEVICE_EVENT_SCAN_START_DEVICE_START
  else CLM_DEVICE_EVENT_SCAN_START_DEVICE_STOP.

(** The part of a device after the start of a scan. *)
Definition scan_part (d : Z) (gd : clm_group_data) : bool * Z * list Z * list Z :=
  let dev := device_at gd d in
  let element := device_matrix (d_device_state dev) (scan_event dev) in
  match dfsm_action element with
  | Some clm_iefb_set_data_ip => part_for d (dfsm_next element) gd
  | _ => device_part d gd
  end.

(** ** One event *)

Lemma stations_disjoint d d' : 0 <= d < gs_num_slave_devices gs ->
  0 <= d' < gs_num_slave_devices gs -> d <> d' ->
  stations_before gs d + ds_num_occupied_stations (setting_of_device gs d) <=
    stations_before gs d' \/
  stations_before gs d' + ds_num_occupied_stations (setting_of_device gs d') <=
    stations_before gs d.
Proof.
  intros Hd Hd' Hne. pose proof (this_group_ok cfg cfg_ok g g_ok) as Hgs.
  destruct (Z.lt_total d d') as [Hlt|[|Hlt]]; [left|congruence|right].
  - pose proof (stations_before_mono cfg gs Hgs (d + 1) d') as Hm.
    rewrite stations_before_S in Hm by lia. lia.
  - pose proof (stations_before_mono cfg gs Hgs (d' + 1) d) as Hm.
    rewrite stations_before_S in Hm by lia. lia.
Qed.

(** A device's own part after the write, and the parts of the others. *)
Lemma data_ip_set_parts d next gd gd' : 0 <= d < gs_num_slave_devices gs ->
  is_u16 (g_cyclic_transmission_state gd) ->
  data_ip_set cfg g d next gd gd' ->
  device_part d gd' = part_for d next gd /\
  forall d', 0 <= d' < gs_num_slave_devices gs -> d' <> d -> device_part d' gd' = device_part d' gd.
Proof.
  intros Hd Hbits (statistics & f & -> & [_ _ Hid Hrww Hry Hoid Hodata]).
  pose proof (this_group_ok cfg cfg_ok g g_ok) as Hgs. pose proof clm_max_stations_ok as Hmax.
  pose proof (go_stations _ _ Hgs) as Htot.
  pose proof (stations_inside cfg gs Hgs d Hd) as Hin.
  pose proof (device_stations cfg gs Hgs d Hd) as Hk.
  assert (Hno : forall p, 0 <= p < 16 -> bad_station_count (1 + p) = false)
    by (intros; apply bad_station_count_false; lia).
  unfold device_part, part_for.
  cbn [g_req_frame g_cyclic_transmission_state g_memory_area update put_device update_device
       g_slave_devices].
  set (valid := bool_decide (next = _) || _). split.
  - f_equal; [f_equal; [f_equal|]|]; try assumption.
    rewrite transmission_state_set_extract by (try assumption; zlia).
    rewrite Z.eqb_refl, Hno by lia. reflexivity.
  - intros d' Hd' Hne. pose proof (stations_inside cfg gs Hgs d' Hd') as Hin'.
    pose proof (device_stations cfg gs Hgs d' Hd') as Hk'.
    pose proof (stations_disjoint d d' Hd Hd' ltac:(congruence)) as Hdis.
    destruct (Hodata (stations_before gs d') (ds_num_occupied_stations (setting_of_device gs d'))
                ltac:(lia) ltac:(lia) ltac:(lia) ltac:(lia)) as [Hw Hy].
    f_equal; [f_equal; [f_equal|]|]; try assumption.
    + rewrite transmission_state_set_extract by (try assumption; zlia).
      destruct (Z.eqb_spec (1 + stations_before gs d) (1 + stations_before gs d')); [lia|].
      reflexivity.
    + apply Hoid; lia.
Qed.

Lemma data_ip_set_parameter d next gd gd' : request_frame_ok cfg g (g_req_frame gd) ->
  data_ip_set cfg g d next gd gd' -> parameter_of gd' = parameter_of gd.
Proof.
  intros [_ _ _ _ (param & seq & clock & info & st & _ & Hsh) _] (statistics & f & -> & Hw).
  exact (part_written_parameter _ _ _ _ _ _ _ _ _ Hsh Hw).
Qed.

Lemma device_stepped_parameter d event gd gd' o : group_base cfg g gd ->
  device_stepped cfg g d event gd gd' o -> parameter_of gd' = parameter_of gd.
Proof.
  intros Hb Hstep. unfold device_stepped in Hstep. destruct (dfsm_action _) as [[]|].
  - destruct Hstep.
  - destruct Hstep as [Hset _]. exact (data_ip_set_parameter d _ (put_device d _ gd) gd' (gb_frame _ _ _ Hb) Hset).
  - destruct Hstep as (_ & statistics & ->). reflexivity.
  - destruct Hstep as (-> & _). reflexivity.
  - destruct Hstep as (-> & _). reflexivity.
Qed.

Lemma device_part_put d d' x gd : device_part d (put_device d' x gd) = device_part d gd.
Proof. reflexivity. Qed.

Lemma device_stepped_changed d event gd gd' o : 0 <= d < gs_num_slave_devices gs ->
  group_base cfg g gd -> device_stepped cfg g d event gd gd' o ->
  device_changed event (device_at gd d) (device_at gd' d).
Proof.
  intros Hd Hb Hstep.
  pose proof (device_in_array cfg cfg_ok g g_ok d gd (base_writable cfg g d gd Hd Hb)) as Hr.
  unfold device_stepped in Hstep. unfold device_changed.
  destruct (dfsm_action _) as [[]|].
  - exact Hstep.
  - destruct Hstep as [Hset _]. apply data_ip_set_device in Hset as [[statistics ->] _];
      [|rewrite length_put_device; assumption].
    rewrite device_at_put by assumption. eauto.
  - destruct Hstep as (_ & statistics & ->). exists statistics. apply device_at_put, Hr.
  - destruct Hstep as (-> & _). apply device_at_put, Hr.
  - destruct Hstep as (-> & _). apply device_at_put, Hr.
Qed.

Lemma silent_action st event : st <> CLM_DEVICE_STATE_MASTER_DOWN -> silent_event event ->
  dfsm_action (device_matrix st event) <> Some clm_iefb_set_data_ip.
Proof. intros Hst [H1' H2'] F. destruct st, event; vm_compute in F; congruence. Qed.

Lemma device_stepped_silent d event gd gd' o : silent_event event ->
  d_device_state (device_at gd d) <> CLM_DEVICE_STATE_MASTER_DOWN ->
  device_stepped cfg g d event gd gd' o ->
  o = [] /\ exists device, gd' = put_device d device gd.
Proof.
  intros Hs Hst Hstep. pose proof (silent_action _ _ Hst Hs) as Hna.
  unfold device_stepped in Hstep. destruct (dfsm_action _) as [[]|].
  - destruct Hstep.
  - congruence.
  - destruct Hstep as (-> & statistics & ->). eauto.
  - destruct Hstep as (-> & ->). eauto.
  - destruct Hstep as (-> & ->). eauto.
Qed.

Lemma device_fsm_event_ok d event gd : 0 <= d < gs_num_slave_devices gs ->
  group_base cfg g gd -> event <> CLM_DEVICE_EVENT_LAST ->
  gwp (clm_iefb_device_fsm_event g d event)
    (fun _ gd' o => device_stepped cfg g d event gd gd' o) gd.
Proof.
  intros Hd Hb He. unfold clm_iefb_device_fsm_event.
  rewrite bool_decide_eq_false_2 by assumption. apply gwp_bind.
  eapply gwp_mono; [apply (device_event_ok cfg); try assumption|].
  - apply base_writable; assumption.
  - apply (di_state _ _ _ (gb_devices _ _ _ Hb d Hd)).
  - intros b gd' o [_ Hstep]. apply gwp_ret. rewrite app_nil_r. exact Hstep.
Qed.

(** ** Events for all devices *)

(** Silent events change the devices and nothing else. *)
Record all_changed (event : clm_device_event) (gd gd' : clm_group_data) : Prop := {
  ac_base : group_base cfg g gd';
  ac_same : same_group gd gd';
  ac_frame : g_req_frame gd' = g_req_frame gd;
  ac_bits : g_cyclic_transmission_state gd' = g_cyclic_transmission_state gd;
  ac_devices : forall d, 0 <= d < gs_num_slave_devices gs ->
    device_changed event (device_at gd d) (device_at gd' d)
}.

Lemma event_all_ok event gd : group_base cfg g gd -> event <> CLM_DEVICE_EVENT_LAST ->
  silent_event event ->
  gwp (clm_iefb_device_fsm_event_all_in_group g event)
    (fun _ gd' o => all_changed event gd gd' /\ o = []) gd.
Proof.
  intros Hb He Hs. pose proof (this_group_ok cfg cfg_ok g g_ok) as Hgs.
  pose proof (go_devices _ _ Hgs) as Hn. unfold clm_iefb_device_fsm_event_all_in_group.
  apply gwp_bind. apply gwp_get. rewrite (setting_here cfg) by (assumption || apply Hb).
  cbn [app].
  pose (I := fun (i : Z) gd' (o : list clm_output) =>
    group_base cfg g gd' /\ same_group gd gd' /\ g_req_frame gd' = g_req_frame gd /\
    g_cyclic_transmission_state gd' = g_cyclic_transmission_state gd /\
    (forall d, 0 <= d < gs_num_slave_devices gs ->
      if d <? i then device_changed event (device_at gd d) (device_at gd' d)
      else device_at gd' d = device_at gd d) /\ o = []).
  eapply gwp_mono; [apply (gwp_for_range g m _ _ I); [lia| |]|].
  - split; [exact Hb|]. split; [apply same_group_refl|]. repeat split.
    intros d Hd. destruct (Z.ltb_spec d 0); [lia|reflexivity].
  - intros i gd' o Hi (Hb' & Hsame & Hf & Hbits & Hdevs & ->).
    eapply gwp_mono; [apply device_fsm_event_ok; assumption|].
    intros [] gd'' o' Hstep. cbn [app].
    pose proof (device_stepped_base cfg cfg_ok g g_ok _ _ _ _ _ Hi Hb' Hstep) as Hb''.
    pose proof (device_stepped_device cfg cfg_ok g g_ok _ _ _ _ _ Hi Hb' Hstep) as [_ Hother].
    pose proof (device_stepped_rest cfg cfg_ok g g_ok _ _ _ _ _ Hi Hb' Hstep) as (Hs1 & _ & _).
    pose proof (device_stepped_changed _ _ _ _ _ Hi Hb' Hstep) as Hch.
    destruct (device_stepped_silent _ _ _ _ _ Hs (proj1 (di_state _ _ _ (gb_devices _ _ _ Hb' i Hi)))
                Hstep) as [-> [dev Hput]].
    split; [exact Hb''|]. split; [eapply same_group_trans; eassumption|].
    split; [rewrite Hput; exact Hf|]. split; [rewrite Hput; exact Hbits|]. split; [|reflexivity].
    intros d Hd. specialize (Hdevs d Hd).
    destruct (Z.ltb_spec d (i + 1)), (Z.ltb_spec d i); try lia.
    + rewrite Hother by lia. exact Hdevs.
    + assert (d = i) as -> by lia. rewrite Hdevs in Hch. exact Hch.
    + rewrite Hother by lia. exact Hdevs.
  - intros [] gd' o (Hb' & Hsame & Hf & Hbits & Hdevs & ->). split; [|reflexivity].
    split; try assumption. intros d Hd. specialize (Hdevs d Hd).
    destruct (Z.ltb_spec d (gs_num_slave_devices gs)); [exact Hdevs|lia].
Qed.

(** ** The start of a link scan *)

(** The devices and their parts after the first [i] events of a scan. *)
Record scan_started (i : Z) (gd gd' : clm_group_data) : Prop := {
  ss_base : group_base cfg g gd';
  ss_same : same_group gd gd';
  ss_device : forall d, 0 <= d < gs_num_slave_devices gs ->
    if d <? i then device_changed (scan_event (device_at gd d)) (device_at gd d) (device_at gd' d)
    else device_at gd' d = device_at gd d;
  ss_part : forall d, 0 <= d < gs_num_slave_devices gs ->
    device_part d gd' = if d <? i then scan_part d gd else device_part d gd;
  ss_parameter : parameter_of gd' = parameter_of gd
}.

(** The connections a scan start makes and breaks, in the order of the
    devices. *)
Definition scan_callback (gd : clm_group_data) (d : Z) : list clm_output :=
  let dev := device_at gd d in
  let element := device_matrix (d_device_state dev) (scan_event dev) in
  match dfsm_action element with
  | Some clm_iefb_set_data_ip =>
      connection_callback cfg g d (d_transmission_bit dev)
        (bool_decide (dfsm_next element = CLM_DEVICE_STATE_CYCLIC_SENDING))
  | _ => []
  end.

Lemma scan_event_not_last dev : scan_event dev <> CLM_DEVICE_EVENT_LAST.
Proof. unfold scan_event. destruct (d_enabled dev); discriminate. Qed.

Lemma scan_step i gd gd' gd'' o : 0 <= i < gs_num_slave_devices gs -> group_base cfg g gd ->
  scan_started i gd gd' ->
  device_stepped cfg g i (scan_event (device_at gd i)) gd' gd'' o ->
  scan_started (i + 1) gd gd'' /\ o = scan_callback gd i.
Proof.
  intros Hi Hb0 [Hb' Hsame Hdevs Hparts Hpar] Hstep.
  pose proof (device_stepped_base cfg cfg_ok g g_ok _ _ _ _ _ Hi Hb' Hstep) as Hb''.
  pose proof (device_stepped_device cfg cfg_ok g g_ok _ _ _ _ _ Hi Hb' Hstep) as [_ Hother].
  pose proof (device_stepped_rest cfg cfg_ok g g_ok _ _ _ _ _ Hi Hb' Hstep) as (Hs1 & _ & _).
  pose proof (device_stepped_changed _ _ _ _ _ Hi Hb' Hstep) as Hch.
  pose proof (Hdevs i Hi) as Hat. destruct (Z.ltb_spec i i); [lia|].
  pose proof (device_in_array cfg cfg_ok g g_ok i gd' (base_writable cfg g i gd' Hi Hb')) as Hr.
  assert (Hres : (device_part i gd'' = scan_part i gd /\
    forall d, 0 <= d < gs_num_slave_devices gs -> d <> i -> device_part d gd'' = device_part d gd')
    /\ o = scan_callback gd i).
  { unfold device_stepped in Hstep. rewrite Hat in Hstep. unfold scan_part, scan_callback.
    specialize (Hparts i Hi). destruct (Z.ltb_spec i i); [lia|].
    destruct (dfsm_action _) as [[]|].
    - destruct Hstep.
    - destruct Hstep as [Hset ->]. split; [|reflexivity].
      apply data_ip_set_parts in Hset as [Hp Hpo]; [|exact Hi|apply Hb'].
      split; [|exact Hpo]. rewrite Hp. unfold part_for.
      rewrite device_at_put by assumption. cbn [g_memory_area put_device update_device update].
      rewrite (sg_memory _ _ Hsame). reflexivity.
    - destruct Hstep as (-> & statistics & ->). rewrite device_part_put. auto.
    - destruct Hstep as (-> & ->). rewrite device_part_put. auto.
    - destruct Hstep as (-> & ->). rewrite device_part_put. auto. }
  destruct Hres as [[Hp Hpo] ->]. split; [|reflexivity]. rewrite Hat in Hch.
  split; [exact Hb''|eapply same_group_trans; eassumption| | |]; try intros d Hd.
  - specialize (Hdevs d Hd). destruct (Z.ltb_spec d (i + 1)), (Z.ltb_spec d i); try lia.
    + rewrite Hother by lia. exact Hdevs.
    + assert (d = i) as -> by lia. exact Hch.
    + rewrite Hother by lia. exact Hdevs.
  - specialize (Hparts d Hd). destruct (Z.ltb_spec d (i + 1)), (Z.ltb_spec d i); try lia.
    + rewrite Hpo by lia. exact Hparts.
    + assert (d = i) as -> by lia. exact Hp.
    + rewrite Hpo by lia. exact Hparts.
  - rewrite <- Hpar. exact (device_stepped_parameter _ _ _ _ _ Hb' Hstep).
Qed.

Lemma scan_loop_ok gd : group_base cfg g gd ->
  gwp (for_range (gs_num_slave_devices gs) (fun d =>
         device ← get_device g d;
         clm_iefb_device_fsm_event g d
           (if d_enabled device then CLM_DEVICE_EVENT_SCAN_START_DEVICE_START
            else CLM_DEVICE_EVENT_SCAN_START_DEVICE_STOP)))
    (fun _ gd' o => scan_started (gs_num_slave_devices gs) gd gd' /\
       o = concat (map (scan_callback gd) (seqZ 0 (gs_num_slave_devices gs)))) gd.
Proof.
  intros Hb. pose proof (this_group_ok cfg cfg_ok g g_ok) as Hgs.
  pose proof (go_devices _ _ Hgs) as Hn.
  apply (gwp_for_range g m _ _ (fun i gd' o => scan_started i gd gd' /\
           o = concat (map (scan_callback gd) (seqZ 0 i)))); [lia| |].
  - split; [|reflexivity]. split; [exact Hb|apply same_group_refl| | |]; [| |reflexivity];
      intros d Hd; (destruct (Z.ltb_spec d 0); [lia|reflexivity]).
  - intros i gd' o Hi [Hss ->]. apply gwp_bind. eapply gwp_get_device; try eassumption.
    pose proof (ss_device _ _ _ Hss i Hi) as Hat. destruct (Z.ltb_spec i i); [lia|].
    rewrite Hat. fold (scan_event (device_at gd i)).
    eapply gwp_mono; [apply device_fsm_event_ok;
      [exact Hi|apply (ss_base _ _ _ Hss)|apply scan_event_not_last]|].
    intros [] gd'' o' Hstep. cbn [app].
    destruct (scan_step _ _ _ _ _ Hi Hb Hss Hstep) as [Hss' ->]. split; [exact Hss'|].
    rewrite seqZ_app by lia. rewrite map_app, concat_app. f_equal.
    rewrite Z.add_0_l, (seqZ_cons i 1) by lia. rewrite (seqZ_nil (Z.succ i)) by lia.
    cbn [map concat]. rewrite app_nil_r. reflexivity.
Qed.

End MasterScan.
