(* ===== verification/MasterFsm.v ===== *)
(** * The state machine of a group

    The actions of the group state machine, one round of its event loop, and
    the effect of every event.  Besides the group, its actions change the
    state of the master, the limiter of error callbacks and the arbitration
    timer. *)

From S2P Require Import Prelude Packed Signals Timer Limiter Util Types Iefb IefbFacts IefbRoundtrip.
From S2P Require Import Slmp Master MasterIefb MasterConfig MasterInv MasterFrame MasterDevice.
From S2P Require Import MasterGroup MasterScan.

(** The part of a device in the bytes of a request. *)
Definition part_of_frame (gs : clm_group_setting) (d : Z) (bits : Z) (frame : list Z)
  : bool * Z * list Z * list Z :=
  let pos := stations_before gs d in
  let k := ds_num_occupied_stations (setting_of_device gs d) in
  (cl_iefb_extract_my_transmission_state bits (1 + pos), frame_id frame pos,
   frame_rww (total_stations gs) frame pos k, frame_ry (total_stations gs) frame pos k).

(** What the group actions change outside of the group. *)
Record env := Env { e_state : clm_master_state; e_limiter : cl_limiter; e_timer : cl_timer }.
Definition with_env (e : env) (m : clm) : clm :=
  m <| m_master_state := e_state e |> <| m_errorlimiter := e_limiter e |>
    <| m_arbitration_timer := e_timer e |>.
Definition env_of (m : clm) : env :=
  Env (m_master_state m) (m_errorlimiter m) (m_arbitration_timer m).

Lemma with_env_of m : with_env (env_of m) m = m.
Proof. destruct m. reflexivity. Qed.
Lemma with_env_env e e' m : with_env e' (with_env e m) = with_env e' m.
Proof. reflexivity. Qed.

Section MasterFsm.
Context `{ClmOptions, Clal, ClalClock}.
Context (clock_ok : forall now, is_u64 (clal_get_unix_timestamp_ms now)).
Context (cfg : clm_cfg) (cfg_ok : clm_config_ok cfg).
Context (g : Z) (g_ok : has_group cfg g).
Context (m : clm) (m_ok : master_base cfg m).

Abbreviation gs := (setting_of_group cfg g).

(** ** The request that starts a scan *)

(** [frame] is a request of the master with the sequence number, the
    transmission bits and the parts of the devices that [gd] has. *)
Record sent_request (gd : clm_group_data) (now info : Z) (frame : list Z) : Prop := {
  sq_bytes : bytes frame;
  sq_length : Z.of_nat (length frame) = 67 + 76 * total_stations gs;
  sq_headers : is_u16 (parameter_of gd) /\
    c_dec c_cl_cciefb_cyclic_req_full_headers frame =
      request_headers (mc_protocol_ver cfg) (gs_timeout_value gs)
        (gs_parallel_off_timeout_count gs) (mc_master_id cfg) (g + 1) (total_stations gs)
        (parameter_of gd) (g_frame_sequence_no gd) (clal_get_unix_timestamp_ms now) info
        (g_cyclic_transmission_state gd);
  sq_parts : forall d, 0 <= d < gs_num_slave_devices gs ->
    part_of_frame gs d (g_cyclic_transmission_state gd) frame = device_part cfg g d gd;
  sq_ids : forall d, 0 <= d < gs_num_slave_devices gs -> device_ids_ok gs frame d
}.

Lemma request_params : forall param, is_u16 param ->
  request_params_ok (mc_protocol_ver cfg) (gs_timeout_value gs) (gs_parallel_off_timeout_count gs)
    (mc_master_id cfg) (g + 1) (total_stations gs) param.
Proof.
  intros param Hp. pose proof (this_group_ok cfg cfg_ok g g_ok) as Hgs.
  pose proof (go_timeout _ _ Hgs). pose proof (go_count _ _ Hgs). pose proof (go_stations _ _ Hgs).
  pose proof (cok_groups _ cfg_ok). pose proof clm_max_groups_ok. pose proof clm_max_stations_ok.
  unfold has_group in g_ok.
  split; try apply cfg_ok; try assumption; unfold_widths; lia.
Qed.

(** Updating the headers keeps the parts, and so does sending. *)
Lemma update_headers_frame gd clock info : group_base cfg g gd -> is_u64 clock ->
  0 <= info < 2 ^ mc_protocol_ver cfg ->
  let f := cl_iefb_update_request_frame_headers (g_req_frame gd) (g_frame_sequence_no gd) clock info
             (g_cyclic_transmission_state gd) in
  (is_u16 (parameter_of gd) /\
    frame_shape c_cl_cciefb_cyclic_req_full_headers (qi_buffer f) 1500
      (request_headers (mc_protocol_ver cfg) (gs_timeout_value gs)
         (gs_parallel_off_timeout_count gs) (mc_master_id cfg) (g + 1) (total_stations gs)
         (parameter_of gd) (g_frame_sequence_no gd) clock info (g_cyclic_transmission_state gd))) /\
  forall off k, (67 <= off)%nat -> slice off k (qi_buffer f) = slice off k (qi_buffer (g_req_frame gd)).
Proof.
  intros Hb Hclock Hinfo f.
  destruct (gb_frame _ _ _ Hb) as [_ _ _ _ (param & seq & clock0 & info0 & st & Hp & Hsh) _].
  assert (Hv : request_values_ok (mc_protocol_ver cfg) (g_frame_sequence_no gd) clock info
                 (g_cyclic_transmission_state gd))
    by (split; [apply Hb|]; split; [assumption|]; split; [assumption|apply Hb]).
  pose proof (update_request_frame_shape _ _ _ _ _ _ _ _ _ _ _ _ _ _ _ _ _ Hsh
                (cok_ver _ cfg_ok) Hv) as Hsh'.
  assert (Heq : parameter_of gd = param).
  { destruct Hsh as (_ & _ & _ & Hd). unfold parameter_of, frame_parameter. rewrite Hd. reflexivity. }
  split; [rewrite Heq; split; [exact Hp|exact Hsh']|].
  intros off k Hoff.
  exact (update_request_frame_slice _ _ _ _ _ _ _ _ _ _ _ _ _ _ _ _ _ off k Hsh
           (cok_ver _ cfg_ok) Hv Hoff).
Qed.

(** Slices of a prefix that is long enough. *)
Lemma slice_take off k n l : (off + k <= n)%nat -> slice off k (take n l) = slice off k l.
Proof.
  intros Hn. apply list_eq. intros i. rewrite !lookup_slice. destruct (decide (i < k)%nat); [|reflexivity].
  rewrite lookup_take_lt by lia. reflexivity.
Qed.

Lemma frame_id_slice buffer pos :
  frame_id buffer pos = le_combine (slice (Z.to_nat (67 + 4 * pos)) 4 buffer).
Proof.
  unfold frame_id, read_at. cbn [c_dec c_u32le]. replace (67 + pos * 4) with (67 + 4 * pos) by lia.
  reflexivity.
Qed.

(** The parts of a device only depend on the bytes of its stations. *)
Lemma part_of_frame_eq d bits frame frame' : 0 <= d < gs_num_slave_devices gs ->
  (forall off k, (67 <= off)%nat -> (off + k <= Z.to_nat (67 + 76 * total_stations gs))%nat ->
     slice off k frame = slice off k frame') ->
  part_of_frame gs d bits frame = part_of_frame gs d bits frame' /\
  (device_ids_ok gs frame d <-> device_ids_ok gs frame' d).
Proof.
  intros Hd Heq. pose proof (this_group_ok cfg cfg_ok g g_ok) as Hgs.
  pose proof (stations_inside cfg gs Hgs d Hd) as [Hpos Hin].
  pose proof (device_stations cfg gs Hgs d Hd) as Hk.
  assert (Hid : forall pos, 0 <= pos < total_stations gs -> frame_id frame pos = frame_id frame' pos)
    by (intros pos Hpos'; rewrite !frame_id_slice; f_equal; apply Heq; lia).
  split.
  - unfold part_of_frame, frame_rww, frame_ry. rewrite Hid by lia. rewrite !Heq by lia. reflexivity.
  - unfold device_ids_ok. rewrite Hid by lia. split; intros [H1' H2']; (split; [exact H1'|]);
      intros k Hkk; specialize (H2' k Hkk); rewrite Hid in * by lia; exact H2'.
Qed.

Definition request_in (f : clm_cciefb_cyclic_request_info) : list Z :=
  take (Z.to_nat (qi_udp_payload_len f)) (qi_buffer f).

Lemma sent_request_ok gd now info : group_base cfg g gd -> 0 <= info < 2 ^ mc_protocol_ver cfg ->
  let f := cl_iefb_update_request_frame_headers (g_req_frame gd) (g_frame_sequence_no gd)
             (clal_get_unix_timestamp_ms now) info (g_cyclic_transmission_state gd) in
  sent_request gd now info (request_in f) /\ request_frame_ok cfg g f /\
  parameter_of (gd <| g_req_frame := f |>) = parameter_of gd /\
  forall d, 0 <= d < gs_num_slave_devices gs ->
    device_part cfg g d (gd <| g_req_frame := f |>) = device_part cfg g d gd.
Proof.
  intros Hb Hinfo f. pose proof (this_group_ok cfg cfg_ok g g_ok) as Hgs.
  pose proof (go_stations _ _ Hgs) as Htot. pose proof clm_max_stations_ok as Hmax.
  destruct (update_headers_frame gd (clal_get_unix_timestamp_ms now) info Hb (clock_ok now) Hinfo)
    as [(Hp & Hsh) Hslice]. fold f in Hsh, Hslice.
  pose proof Hsh as (Hby & Hl & _ & Hdec).
  destruct (gb_frame _ _ _ Hb) as [Hlen Hids Hrww Hry _ Hdevs].
  change (qi_udp_payload_len f) with (qi_udp_payload_len (g_req_frame gd)).
  assert (Hframe : request_in f = take (Z.to_nat (67 + 76 * total_stations gs)) (qi_buffer f)).
  { unfold request_in. change (qi_udp_payload_len f) with (qi_udp_payload_len (g_req_frame gd)).
    rewrite Hlen. reflexivity. }
  assert (Heq : forall off k, (67 <= off)%nat ->
    (off + k <= Z.to_nat (67 + 76 * total_stations gs))%nat ->
    slice off k (request_in f) = slice off k (qi_buffer (g_req_frame gd))).
  { intros off k H1' H2'. rewrite Hframe, slice_take by lia. apply Hslice, H1'. }
  split; [|split; [|split]].
  - split.
    + rewrite Hframe. auto with clink.
    + rewrite Hframe, length_take. lia.
    + split; [exact Hp|]. rewrite Hframe, <- (app_nil_r (take _ _)).
      apply (frame_shape_sent _ _ 1500); [exact Hsh|].
      change (c_size c_cl_cciefb_cyclic_req_full_headers) with 67%nat. lia.
    + intros d Hd. apply (part_of_frame_eq d _ _ _ Hd Heq).
    + intros d Hd. apply (part_of_frame_eq d (g_cyclic_transmission_state gd) _ _ Hd Heq). auto.
  - split; try assumption; [eauto 10|]. intros d Hd.
    apply (part_of_frame_eq d (g_cyclic_transmission_state gd) _ (qi_buffer (g_req_frame gd)) Hd);
      [intros off k H1' _; apply Hslice, H1'|auto].
  - change (frame_parameter (qi_buffer f) = parameter_of gd). unfold frame_parameter.
    rewrite Hdec. reflexivity.
  - intros d Hd.
    apply (part_of_frame_eq d (g_cyclic_transmission_state gd) (qi_buffer f)
             (qi_buffer (g_req_frame gd)) Hd). intros off k H1' _. apply Hslice, H1'.
Qed.

(** ** The scan actions *)

Abbreviation gwp := (gwp g m).

Definition started_timer (now : Z) : cl_timer :=
  Timer CL_TIMER_RUNNING (gs_timeout_value gs * CL_TIMER_MICROSECONDS_PER_MILLISECOND) now.

(** The start of a link scan: every device gets its event, one request is
    sent to all of them, and the wait for the responses is supervised. *)
Record scan_sent (now : Z) (gd gd' : clm_group_data) (o : list clm_output) : Prop := {
  sc_frame : exists frame,
    sent_request gd' now (m_master_local_unit_info m) frame /\
    o = concat (map (scan_callback cfg g gd) (seqZ 0 (gs_num_slave_devices gs))) ++
        [ClmCciefbSendto (m_cciefb_socket m) (m_iefb_broadcast_ip m) CL_CCIEFB_PORT frame];
  sc_base : group_base cfg g gd';
  sc_parts : forall d, 0 <= d < gs_num_slave_devices gs ->
    device_part cfg g d gd' = scan_part cfg g d gd;
  sc_devices : forall d, 0 <= d < gs_num_slave_devices gs ->
    device_changed cfg g (scan_event (device_at gd d)) (device_at gd d) (device_at gd' d);
  sc_seq : g_frame_sequence_no gd' = g_frame_sequence_no gd;
  sc_state : g_group_state gd' = g_group_state gd;
  sc_memory : g_memory_area gd' = g_memory_area gd;
  sc_timestamp : g_timestamp_link_scan_start gd' = now;
  sc_wait : g_response_wait_timer gd' = started_timer now;
  sc_constant : g_constant_linkscan_timer gd' =
    if gs_use_constant_link_scan_time gs then started_timer now else g_constant_linkscan_timer gd;
  sc_parameter : parameter_of gd' = parameter_of gd
}.

(** Other fields of a group do not matter for what holds of it. *)
Lemma group_base_same gd gd' : group_base cfg g gd -> same_group gd gd' ->
  g_slave_devices gd' = g_slave_devices gd -> is_u16 (g_cyclic_transmission_state gd') ->
  request_frame_ok cfg g (g_req_frame gd') -> group_base cfg g gd'.
Proof.
  intros Hb [] Hdev Hbits Hf. destruct Hb. split; try congruence.
  intros d Hd. unfold device_at. rewrite Hdev. apply gb_devices; assumption.
Qed.

Lemma linkscan_start_ok gd now : group_base cfg g gd ->
  gwp (on_linkscan_start_action g now) (fun event gd' o =>
    event = CLM_GROUP_EVENT_NONE /\ scan_sent now gd gd' o) gd.
Proof.
  intros Hb. unfold on_linkscan_start_action. gwp_steps.
  rewrite (setting_here cfg) by (assumption || apply Hb).
  eapply gwp_mono; [apply (scan_loop_ok cfg cfg_ok g g_ok m m_ok), Hb|].
  intros [] gd1 o1 [Hss ->]. gwp_steps. unfold clm_iefb_send_cyclic_request_frame. gwp_steps.
  set (gd2 := update g_timestamp_link_scan_start (fun _ => now) gd1).
  change (m_cciefb_socket (put_group g gd2 m)) with (m_cciefb_socket m).
  change (m_iefb_broadcast_ip (put_group g gd2 m)) with (m_iefb_broadcast_ip m).
  change (m_master_local_unit_info (put_group g gd2 m)) with (m_master_local_unit_info m).
  pose proof (ss_base _ _ _ _ _ Hss) as Hb1.
  destruct (sent_request_ok gd1 now (m_master_local_unit_info m) Hb1 (mb_info _ _ m_ok))
    as (Hsent & Hf & Hpar & Hparts).
  set (f := cl_iefb_update_request_frame_headers (g_req_frame gd1) _ _ _ _) in *.
  assert (Hall : forall gd', gd' = gd2 <| g_req_frame := f |>
      <| g_response_wait_timer := started_timer now |>
      <| g_constant_linkscan_timer := if gs_use_constant_link_scan_time gs then started_timer now
           else g_constant_linkscan_timer gd1 |> ->
    scan_sent now gd gd' (concat (map (scan_callback cfg g gd) (seqZ 0 (gs_num_slave_devices gs))) ++
        [ClmCciefbSendto (m_cciefb_socket m) (m_iefb_broadcast_ip m) CL_CCIEFB_PORT (request_in f)])).
  { intros gd' ->. destruct Hss as [_ [] Hdevs Hps Hpar1].
    split; try (cbn; congruence || reflexivity).
    - exists (request_in f). split; [|reflexivity]. destruct Hsent as [A B C D E]. rewrite <- Hpar in C.
      split; [exact A|exact B|exact C| |exact E].
      intros d Hd. specialize (D d Hd). exact (eq_trans D (eq_sym (Hparts d Hd))).
    - destruct Hb1. split; try assumption.
    - intros d Hd. specialize (Hps d Hd). destruct (Z.ltb_spec d (gs_num_slave_devices gs)); [|lia].
      rewrite <- Hps. apply (Hparts d Hd).
    - intros d Hd. specialize (Hdevs d Hd). destruct (Z.ltb_spec d (gs_num_slave_devices gs)); [|lia].
      exact Hdevs.
    - cbn. destruct (gs_use_constant_link_scan_time gs); congruence.
    - exact (eq_trans Hpar Hpar1). }
  apply gwp_when; intros Hc; rewrite Hc in Hall; gwp_steps; (split; [reflexivity|]);
    cbn [app]; apply Hall; reflexivity.
Qed.

Definition linkscan_callback (success : bool) : list clm_output :=
  if mc_linkscan_cb cfg then [ClmLinkscanCb g success] else [].

Lemma linkscan_callback_ok success gd : g_group_index gd = g ->
  gwp (clm_iefb_trigger_linkscan_callback g success)
    (fun _ gd' o => gd' = gd /\ o = linkscan_callback success) gd.
Proof.
  intros Hi. unfold clm_iefb_trigger_linkscan_callback. gwp_steps.
  change (m_config (put_group g gd m)) with (m_config m). rewrite (mb_config _ _ m_ok).
  rewrite (group_here cfg), Hi by assumption. unfold linkscan_callback.
  apply gwp_when; intros ->; gwp_steps; auto.
Qed.

Lemma sequence_no_next seq : is_u16 seq ->
  is_u16 (clm_iefb_update_frame_sequence_no seq) /\ clm_iefb_update_frame_sequence_no seq <> 0 /\
  clm_iefb_update_frame_sequence_no seq = seq mod UINT16_MAX + 1.
Proof.
  intros Hs. unfold clm_iefb_update_frame_sequence_no, UINT16_MAX in *. unfold_widths.
  destruct (Z.eqb_spec seq 0xFFFF) as [->|Hne]; [repeat split; lia|].
  rewrite u16_id by zlia. rewrite Z.mod_small by lia. lia.
Qed.

(** The end of a link scan: the devices get [event], the sequence number
    advances. *)
Definition scan_ended (event : clm_device_event) (gd gd' : clm_group_data) : Prop :=
  exists gd1, all_changed cfg g event gd gd1 /\
    gd' = gd1 <| g_frame_sequence_no ::= clm_iefb_update_frame_sequence_no |>.

Lemma scan_ended_base event gd gd' : scan_ended event gd gd' -> group_base cfg g gd'.
Proof.
  intros (gd1 & [Hb _ _ _ _] & ->). pose proof (sequence_no_next _ (gb_seq _ _ _ Hb)) as (Hs & _).
  destruct Hb. split; assumption.
Qed.

Lemma linkscan_timeout_ok gd : group_base cfg g gd ->
  gwp (on_linkscan_timeout_action g) (fun event gd' o =>
    event = CLM_GROUP_EVENT_LINKSCAN_START /\
    scan_ended CLM_DEVICE_EVENT_GROUP_TIMEOUT gd gd' /\ o = linkscan_callback false) gd.
Proof.
  intros Hb. unfold on_linkscan_timeout_action, advance_frame_sequence_no. gwp_steps.
  eapply gwp_mono; [apply (event_all_ok cfg cfg_ok g g_ok m m_ok); [exact Hb|discriminate|]|].
  { split; discriminate. }
  intros [] gd1 o1 [Hall ->]. gwp_steps.
  eapply gwp_mono; [apply linkscan_callback_ok, (ac_base _ _ _ _ _ Hall)|].
  intros [] gd2 o2 [-> ->]. gwp_steps. cbn [app]. rewrite !app_nil_r. split; [reflexivity|].
  split; [|reflexivity]. exists gd1. auto.
Qed.

Lemma stop_wait_base gd : group_base cfg g gd ->
  group_base cfg g (gd <| g_response_wait_timer ::= cl_timer_stop |>).
Proof. intros []. split; assumption. Qed.

Lemma linkscan_complete_ok gd : group_base cfg g gd ->
  gwp (on_linkscan_complete_action g) (fun event gd' o =>
    event = (if gs_use_constant_link_scan_time gs then CLM_GROUP_EVENT_NONE
             else CLM_GROUP_EVENT_LINKSCAN_START) /\
    scan_ended CLM_DEVICE_EVENT_GROUP_ALL_RESPONDED
      (gd <| g_response_wait_timer ::= cl_timer_stop |>) gd' /\ o = linkscan_callback true) gd.
Proof.
  intros Hb. unfold on_linkscan_complete_action, advance_frame_sequence_no. gwp_steps.
  rewrite (setting_here cfg) by (assumption || apply Hb).
  eapply gwp_mono; [apply (event_all_ok cfg cfg_ok g g_ok m m_ok);
    [apply stop_wait_base, Hb|discriminate|]|].
  { split; discriminate. }
  intros [] gd1 o1 [Hall ->]. gwp_steps.
  eapply gwp_mono; [apply linkscan_callback_ok, (ac_base _ _ _ _ _ Hall)|].
  intros [] gd2 o2 [-> ->]. gwp_steps. cbn [app]. rewrite !app_nil_r. split; [reflexivity|].
  split; [|reflexivity]. exists gd1. auto.
Qed.

End MasterFsm.
