(* ===== verification/MasterEvents.v ===== *)
(** * The events of a group

    One round of the event loop of the group state machine, and the effect
    of every event that is raised after the start.  Two rounds are always
    enough: only the end of the arbitration and the end of a link scan
    trigger a second event, the start of the next scan. *)

From S2P Require Import Prelude Packed Signals Timer Limiter Util Types Iefb IefbFacts IefbRoundtrip.
From S2P Require Import Slmp Master MasterIefb MasterConfig MasterInv MasterFrame MasterDevice.
From S2P Require Import MasterGroup MasterScan MasterFsm.

Section MasterEvents.
Context `{ClmOptions, Clal, ClalClock}.
Context (clock_ok : forall now, is_u64 (clal_get_unix_timestamp_ms now)).
Context (cfg : clm_cfg) (cfg_ok : clm_config_ok cfg).
Context (g : Z) (g_ok : has_group cfg g).
Context (m : clm) (m_ok : master_base cfg m).

Abbreviation gs := (setting_of_group cfg g).

(** ** Programs on one group and the environment of the groups *)

Definition ewp {A} (P : clm_prog A) (Q : A -> env -> clm_group_data -> list clm_output -> Prop)
  (e : env) (gd : clm_group_data) : Prop :=
  wp P (fun a s o => exists e' gd', s = put_group g gd' (with_env e' m) /\ Q a e' gd' o)
    (put_group g gd (with_env e m)).

Lemma env_base e : master_base cfg (with_env e m).
Proof. destruct m_ok. split; assumption. Qed.

Lemma ewp_ret {A} (a : A) Q e gd : Q a e gd [] -> ewp (mret a) Q e gd.
Proof. intros HQ. apply wp_ret. eauto. Qed.

Lemma ewp_bind {A B} (P : clm_prog A) (k : A -> clm_prog B) Q e gd :
  ewp P (fun a e' gd' o => ewp (k a) (fun b e'' gd'' o' => Q b e'' gd'' (o ++ o')) e' gd') e gd ->
  ewp (P ≫= k) Q e gd.
Proof.
  intros HP. apply wp_bind. eapply wp_mono; [exact HP|].
  intros a s o (e' & gd' & -> & Hk). exact Hk.
Qed.

Lemma ewp_mono {A} (P : clm_prog A) (Q Q' : A -> env -> clm_group_data -> list clm_output -> Prop)
  e gd : ewp P Q e gd -> (forall a e' gd' o, Q a e' gd' o -> Q' a e' gd' o) -> ewp P Q' e gd.
Proof.
  intros HP HQ. eapply wp_mono; [exact HP|]. intros a s o (e' & gd' & -> & Hq). eauto 6.
Qed.

(** A program that leaves the environment alone. *)
Lemma ewp_group {A} (P : clm_prog A) Q e gd :
  gwp g (with_env e m) P (fun a gd' o => Q a e gd' o) gd -> ewp P Q e gd.
Proof. intros HP. eapply wp_mono; [exact HP|]. intros a s o (gd' & -> & HQ). eauto. Qed.

Definition state_callback (old new : clm_master_state) : list clm_output :=
  if bool_decide (new <> old) && mc_state_cb cfg then [ClmStateCb new] else [].

Lemma ewp_set_master_state new Q e gd :
  Q tt (Env new (e_limiter e) (e_timer e)) gd (state_callback (e_state e) new) ->
  ewp (clm_iefb_set_master_state new) Q e gd.
Proof.
  intros HQ. unfold clm_iefb_set_master_state, ewp. wp_steps.
  change (m_master_state (put_group g gd (with_env e m))) with (e_state e).
  change (m_config (put_group g gd (with_env e m))) with (m_config m).
  rewrite (mb_config _ _ m_ok). unfold state_callback in HQ.
  apply wp_when; intros Hne; rewrite Hne in HQ; cbn [andb] in HQ.
  - apply wp_bind. apply wp_when; intros Hcb; rewrite Hcb in HQ; wp_steps; cbn [app];
      exists (Env new (e_limiter e) (e_timer e)), gd; (split; [reflexivity|]); rewrite ?app_nil_r; exact HQ.
  - exists e, gd. split; [reflexivity|]. apply bool_decide_eq_false in Hne.
    replace e with (Env new (e_limiter e) (e_timer e)) at 1; [exact HQ|].
    destruct e as [st l t]. cbn in *. f_equal. destruct (decide (new = st)); tauto.
Qed.

Lemma ewp_stop_arbitration Q e gd :
  Q tt (Env (e_state e) (e_limiter e) cl_timer_zero) gd [] ->
  ewp (modify (fun clm => clm <| m_arbitration_timer ::= cl_timer_stop |>)) Q e gd.
Proof.
  intros HQ. apply wp_modify. exists (Env (e_state e) (e_limiter e) cl_timer_zero), gd.
  split; [reflexivity|exact HQ].
Qed.

(** ** One round of the event loop *)

Definition run_group_opt (action : option clm_group_action) (now : Z) : clm_prog clm_group_event :=
  match action with
  | Some action => run_group_action action g now
  | None => mret CLM_GROUP_EVENT_NONE
  end.

Definition group_entry (previous next : clm_group_state) : option clm_group_action :=
  if bool_decide (next <> previous) then gfsm_on_entry (group_on_entry_exit next) else None.

Definition continue_group (fuel : nat) (now : Z) (event : clm_group_event)
  (Q : bool -> env -> clm_group_data -> list clm_output -> Prop) (e : env) (gd : clm_group_data)
  (o : list clm_output) : Prop :=
  if bool_decide (event <> CLM_GROUP_EVENT_NONE)
  then ewp (group_event_loop fuel g now event) (fun b e' gd' o' => Q b e' gd' (o ++ o')) e gd
  else Q true e gd o.

Lemma group_round fuel now event e gd next action Q :
  group_matrix (g_group_state gd) event = ClmGroupFsm next action ->
  ewp (run_group_opt action now) (fun event' e1 gd1 o1 =>
    g_group_state gd1 = next /\
    ewp (run_group_opt (group_entry (g_group_state gd) next) now)
      (fun _ e2 gd2 o2 => continue_group fuel now event' Q e2 gd2 (o1 ++ o2)) e1 gd1)
    e (gd <| g_group_state := next |>) ->
  ewp (group_event_loop (S fuel) g now event) Q e gd.
Proof.
  intros Htable Hact. pose proof (env_base e) as Hme. cbn [group_event_loop].
  apply ewp_bind. apply ewp_group, gwp_get. cbn [app].
  rewrite (group_here cfg) by assumption.
  change (m_group_fsm_matrix (put_group g gd (with_env e m))) with (m_group_fsm_matrix m).
  change (m_group_fsm_on_entry_exit (put_group g gd (with_env e m)))
    with (m_group_fsm_on_entry_exit m).
  rewrite (mb_group_matrix _ _ m_ok), (mb_group_actions _ _ m_ok), Htable.
  cbn [gfsm_next gfsm_action].
  apply ewp_bind. apply ewp_group, gwp_modify_group. cbn [app]. apply ewp_bind.
  change (match action with Some a => run_group_action a g now | None => _ end)
    with (run_group_opt action now).
  eapply ewp_mono; [exact Hact|]. intros event' e1 gd1 o1 [Hst Hk]. cbn beta.
  pose proof (env_base e1) as Hme1.
  apply ewp_bind. apply ewp_group. eapply gwp_get_group; try eassumption. cbn [app].
  apply ewp_bind. rewrite Hst.
  eapply ewp_mono with (Q := fun _ e2 gd2 o2 => continue_group fuel now event' Q e2 gd2 (o1 ++ o2)).
  { unfold group_entry in Hk. destruct (gfsm_on_entry _) as [on_entry|].
    - destruct (bool_decide (next <> g_group_state gd)).
      + apply ewp_bind. eapply ewp_mono; [exact Hk|]. intros event'' e2 gd2 o2 Hk'.
        apply ewp_ret. rewrite app_nil_r. exact Hk'.
      + exact Hk.
    - replace (run_group_opt _ now) with (mret CLM_GROUP_EVENT_NONE : clm_prog _) in Hk
        by (destruct (bool_decide _); reflexivity). exact Hk. }
  intros [] e2 gd2 o2 Hk'. unfold continue_group in Hk'.
  destruct (bool_decide (event' <> _)).
  - eapply ewp_mono; [exact Hk'|]. intros b e3 gd3 o3. cbn [app]. rewrite <- !app_assoc.
    exact (fun H => H).
  - apply ewp_ret. cbn [app]. rewrite !app_nil_r. exact Hk'.
Qed.

(** ** The effect of events *)

(** The events that are raised once the group is configured. *)
Definition runtime_event (event : clm_group_event) : Prop :=
  match event with
  | CLM_GROUP_EVENT_ARBITRATION_DONE | CLM_GROUP_EVENT_REQ_FROM_OTHER
  | CLM_GROUP_EVENT_MASTERDUPL_ALARM | CLM_GROUP_EVENT_LINKSCAN_START
  | CLM_GROUP_EVENT_LINKSCAN_TIMEOUT | CLM_GROUP_EVENT_LINKSCAN_COMPLETE => True
  | _ => False
  end.

(** The table has no entry, or one that does nothing. *)
Definition ignored (st : clm_group_state) (event : clm_group_event) : bool :=
  bool_decide (gfsm_next (group_matrix st event) = st) &&
  match gfsm_action (group_matrix st event) with None => true | Some _ => false end.

Definition error_callback (e : env) (now : Z) (message : clm_error_message) (ip : Z)
  : env * list clm_output :=
  let (run, limiter) :=
    cl_limiter_should_run_now (e_limiter e) (clm_error_message_number message) now in
  (Env (e_state e) limiter (e_timer e),
   if run && mc_error_cb cfg then [ClmErrorCb message ip 0] else []).

Definition standing_by (e : env) : env := Env CLM_MASTER_STATE_STANDBY (e_limiter e) cl_timer_zero.
Definition running (e : env) : env := Env CLM_MASTER_STATE_RUNNING (e_limiter e) (e_timer e).

(** One event of the group state machine, all rounds of it. *)
Inductive group_step (now : Z)
  : clm_group_event -> env -> clm_group_data -> env -> clm_group_data -> list clm_output -> Prop :=
| step_arbitration_done e gd gd' o :
    g_group_state gd = CLM_GROUP_STATE_MASTER_ARBITRATION ->
    scan_sent cfg g m now (gd <| g_group_state := CLM_GROUP_STATE_MASTER_LINK_SCAN |>) gd' o ->
    group_step now CLM_GROUP_EVENT_ARBITRATION_DONE e gd (running e) gd'
      (state_callback (e_state e) CLM_MASTER_STATE_RUNNING ++ o)
| step_conflict e gd gd' :
    g_group_state gd = CLM_GROUP_STATE_MASTER_ARBITRATION ->
    all_changed cfg g CLM_DEVICE_EVENT_GROUP_STANDBY
      (gd <| g_group_state := CLM_GROUP_STATE_MASTER_LISTEN |>) gd' ->
    let r := error_callback e now CLM_ERROR_ARBITRATION_FAILED
               (m_latest_conflicting_master_ip m) in
    group_step now CLM_GROUP_EVENT_REQ_FROM_OTHER e gd (standing_by r.1) gd'
      (r.2 ++ state_callback (e_state e) CLM_MASTER_STATE_STANDBY)
| step_duplicate e gd gd' :
    g_group_state gd = CLM_GROUP_STATE_MASTER_LINK_SCAN \/
    g_group_state gd = CLM_GROUP_STATE_MASTER_LINK_SCAN_COMP ->
    all_changed cfg g CLM_DEVICE_EVENT_GROUP_STANDBY
      (gd <| g_group_state := CLM_GROUP_STATE_MASTER_LISTEN |>) gd' ->
    group_step now CLM_GROUP_EVENT_MASTERDUPL_ALARM e gd (standing_by e) gd'
      (state_callback (e_state e) CLM_MASTER_STATE_STANDBY)
| step_start e gd gd' o :
    g_group_state gd = CLM_GROUP_STATE_MASTER_LINK_SCAN_COMP ->
    scan_sent cfg g m now (gd <| g_group_state := CLM_GROUP_STATE_MASTER_LINK_SCAN |>) gd' o ->
    group_step now CLM_GROUP_EVENT_LINKSCAN_START e gd e gd' o
| step_timeout e gd gd1 gd' o :
    g_group_state gd = CLM_GROUP_STATE_MASTER_LINK_SCAN ->
    scan_ended cfg g CLM_DEVICE_EVENT_GROUP_TIMEOUT
      (gd <| g_group_state := CLM_GROUP_STATE_MASTER_LINK_SCAN_COMP |>) gd1 ->
    scan_sent cfg g m now (gd1 <| g_group_state := CLM_GROUP_STATE_MASTER_LINK_SCAN |>) gd' o ->
    group_step now CLM_GROUP_EVENT_LINKSCAN_TIMEOUT e gd (running e) gd'
      (linkscan_callback cfg g false ++ state_callback (e_state e) CLM_MASTER_STATE_RUNNING ++ o)
| step_complete_constant e gd gd' :
    g_group_state gd = CLM_GROUP_STATE_MASTER_LINK_SCAN ->
    gs_use_constant_link_scan_time gs = true ->
    scan_ended cfg g CLM_DEVICE_EVENT_GROUP_ALL_RESPONDED
      (gd <| g_group_state := CLM_GROUP_STATE_MASTER_LINK_SCAN_COMP |>
          <| g_response_wait_timer ::= cl_timer_stop |>) gd' ->
    group_step now CLM_GROUP_EVENT_LINKSCAN_COMPLETE e gd (running e) gd'
      (linkscan_callback cfg g true ++ state_callback (e_state e) CLM_MASTER_STATE_RUNNING)
| step_complete e gd gd1 gd' o :
    g_group_state gd = CLM_GROUP_STATE_MASTER_LINK_SCAN ->
    gs_use_constant_link_scan_time gs = false ->
    scan_ended cfg g CLM_DEVICE_EVENT_GROUP_ALL_RESPONDED
      (gd <| g_group_state := CLM_GROUP_STATE_MASTER_LINK_SCAN_COMP |>
          <| g_response_wait_timer ::= cl_timer_stop |>) gd1 ->
    scan_sent cfg g m now (gd1 <| g_group_state := CLM_GROUP_STATE_MASTER_LINK_SCAN |>) gd' o ->
    group_step now CLM_GROUP_EVENT_LINKSCAN_COMPLETE e gd (running e) gd'
      (linkscan_callback cfg g true ++ state_callback (e_state e) CLM_MASTER_STATE_RUNNING ++ o)
| step_ignored event e gd :
    ignored (g_group_state gd) event = true -> group_step now event e gd e gd [].

(** The step reads the sockets, the addresses and the unit info of the
    instance only. *)
Lemma scan_sent_same m1 m2 now gd gd' o :
  m_cciefb_socket m1 = m_cciefb_socket m2 -> m_iefb_broadcast_ip m1 = m_iefb_broadcast_ip m2 ->
  m_master_local_unit_info m1 = m_master_local_unit_info m2 ->
  scan_sent cfg g m1 now gd gd' o -> scan_sent cfg g m2 now gd gd' o.
Proof. intros Hs Hi Hu []. rewrite Hs, Hi, Hu in *. split; assumption. Qed.

(** ** Actions *)

Lemma scan_sent_env e now gd gd' o :
  scan_sent cfg g (with_env e m) now gd gd' o -> scan_sent cfg g m now gd gd' o.
Proof. apply scan_sent_same; reflexivity. Qed.

Lemma set_group_state_base st gd : group_base cfg g gd -> group_base cfg g (gd <| g_group_state := st |>).
Proof. intros []. split; assumption. Qed.

Lemma ewp_scan_start now e gd Q : group_base cfg g gd ->
  (forall gd' o, scan_sent cfg g m now gd gd' o -> Q CLM_GROUP_EVENT_NONE e gd' o) ->
  ewp (on_linkscan_start_action g now) Q e gd.
Proof.
  intros Hb HQ. pose proof (env_base e) as Hme. apply ewp_group.
  eapply gwp_mono; [apply (linkscan_start_ok clock_ok cfg cfg_ok g g_ok); assumption|].
  intros event gd' o [-> Hs]. apply HQ, (scan_sent_env e), Hs.
Qed.

Lemma ewp_entry_listen now e gd Q : group_base cfg g gd ->
  (forall gd', all_changed cfg g CLM_DEVICE_EVENT_GROUP_STANDBY gd gd' ->
     Q CLM_GROUP_EVENT_NONE (standing_by e) gd'
       (state_callback (e_state e) CLM_MASTER_STATE_STANDBY)) ->
  ewp (run_group_action clm_iefb_group_on_entry_listen g now) Q e gd.
Proof.
  intros Hb HQ. cbn [run_group_action]. unfold group_on_entry_listen_action.
  apply ewp_bind, ewp_stop_arbitration. set (e1 := Env _ _ _). pose proof (env_base e1) as Hme.
  apply ewp_bind, ewp_group.
  eapply gwp_mono; [apply (event_all_ok cfg cfg_ok g g_ok _ Hme); [exact Hb|discriminate|]|].
  { split; discriminate. }
  intros [] gd' o [Hall ->]. cbn [app]. apply ewp_bind, ewp_set_master_state.
  apply ewp_ret. rewrite app_nil_r. apply HQ, Hall.
Qed.

Lemma ewp_error_callback now message e gd Q :
  let r := error_callback e now message (m_latest_conflicting_master_ip m) in
  Q tt r.1 gd r.2 ->
  ewp (clm_iefb_trigger_error_callback now message (m_latest_conflicting_master_ip m) 0) Q e gd.
Proof.
  unfold error_callback, clm_iefb_trigger_error_callback, ewp.
  destruct (cl_limiter_should_run_now (e_limiter e) _ now) as [run limiter] eqn:Hl. intros HQ.
  wp_steps. change (m_errorlimiter (put_group g gd (with_env e m))) with (e_limiter e).
  rewrite Hl. change (m_config (put_group g gd (with_env e m))) with (m_config m).
  rewrite (mb_config _ _ m_ok). wp_steps. cbn [app].
  set (e' := Env (e_state e) limiter (e_timer e)) in *.
  apply wp_when; intros Hrun; rewrite Hrun in HQ; [wp_steps|]; exists e', gd;
    (split; [reflexivity|exact HQ]).
Qed.

(** ** Events *)

(** The loop finishes within the fuel of [clm_iefb_group_fsm_event]. *)
Definition group_fires (now : Z) (event : clm_group_event) (e : env) (gd : clm_group_data)
  : Prop :=
  ewp (group_event_loop MASTER_FSM_FUEL g now event)
    (fun b e' gd' o => b = true /\ group_step now event e gd e' gd' o) e gd.

Lemma group_event_ignored now event e gd : ignored (g_group_state gd) event = true ->
  group_fires now event e gd.
Proof.
  intros Hi. pose proof Hi as Hi'. unfold ignored in Hi. apply andb_true_iff in Hi as [Hn Ha].
  apply bool_decide_eq_true in Hn.
  destruct (group_matrix (g_group_state gd) event) as [next action] eqn:Ht.
  cbn [gfsm_next gfsm_action] in *. destruct action; [discriminate|]. subst next.
  eapply group_round; [exact Ht|]. cbn [run_group_opt]. apply ewp_ret. split; [reflexivity|].
  unfold group_entry. rewrite bool_decide_eq_false_2 by tauto. cbn [run_group_opt]. apply ewp_ret.
  unfold continue_group. rewrite bool_decide_eq_false_2 by tauto. split; [reflexivity|].
  replace (gd <| g_group_state := g_group_state gd |>) with gd by (destruct gd; reflexivity).
  apply step_ignored, Hi'.
Qed.

(** The second round: the next scan starts. *)
Lemma continue_scan now e gd o Q : group_base cfg g gd ->
  g_group_state gd = CLM_GROUP_STATE_MASTER_LINK_SCAN_COMP ->
  (forall gd' o', scan_sent cfg g m now
     (gd <| g_group_state := CLM_GROUP_STATE_MASTER_LINK_SCAN |>) gd' o' -> Q true e gd' (o ++ o')) ->
  continue_group 1 now CLM_GROUP_EVENT_LINKSCAN_START Q e gd o.
Proof.
  intros Hb Hst HQ. unfold continue_group. rewrite bool_decide_eq_true_2 by discriminate.
  eapply group_round; [rewrite Hst; vm_compute; reflexivity|]. rewrite Hst.
  cbn [run_group_opt run_group_action]. apply ewp_scan_start; [apply set_group_state_base, Hb|].
  intros gd' o' Hs. split; [rewrite (sc_state _ _ _ _ _ _ _ Hs); reflexivity|].
  change (group_entry _ _) with (None : option clm_group_action). apply ewp_ret.
  unfold continue_group. rewrite bool_decide_eq_false_2 by tauto. rewrite app_nil_r. auto.
Qed.

(** A round that enters LINK_SCAN_COMP. *)
Lemma ewp_entry_complete now e gd Q :
  Q CLM_GROUP_EVENT_NONE (running e) gd (state_callback (e_state e) CLM_MASTER_STATE_RUNNING) ->
  ewp (run_group_action clm_iefb_group_on_entry_scan_complete g now) Q e gd.
Proof.
  intros HQ. cbn [run_group_action]. apply ewp_bind, ewp_set_master_state, ewp_ret.
  rewrite app_nil_r. exact HQ.
Qed.

Lemma group_event_arbitration_done now e gd : group_base cfg g gd ->
  g_group_state gd = CLM_GROUP_STATE_MASTER_ARBITRATION ->
  group_fires now CLM_GROUP_EVENT_ARBITRATION_DONE e gd.
Proof.
  intros Hb Hst. eapply group_round; [rewrite Hst; vm_compute; reflexivity|]. rewrite Hst.
  cbn [run_group_opt run_group_action]. apply ewp_ret. split; [reflexivity|].
  change (group_entry _ _) with (Some clm_iefb_group_on_entry_scan_complete).
  apply ewp_entry_complete. cbn [app].
  apply continue_scan; [apply set_group_state_base, Hb|reflexivity|].
  intros gd' o' Hs. split; [reflexivity|]. apply step_arbitration_done; assumption.
Qed.

Lemma group_event_conflict now e gd : group_base cfg g gd ->
  g_group_state gd = CLM_GROUP_STATE_MASTER_ARBITRATION ->
  group_fires now CLM_GROUP_EVENT_REQ_FROM_OTHER e gd.
Proof.
  intros Hb Hst. eapply group_round; [rewrite Hst; vm_compute; reflexivity|]. rewrite Hst.
  cbn [run_group_opt run_group_action]. unfold on_arbitration_failed_action.
  apply ewp_bind. pose proof (env_base e) as Hme. apply ewp_group, gwp_get. apply ewp_bind.
  change (m_latest_conflicting_master_ip (put_group g _ (with_env e m)))
    with (m_latest_conflicting_master_ip m).
  apply ewp_error_callback. set (r := error_callback _ _ _ _). apply ewp_ret.
  split; [reflexivity|]. cbn [app].
  change (group_entry _ _) with (Some clm_iefb_group_on_entry_listen).
  apply ewp_entry_listen; [apply set_group_state_base, Hb|]. intros gd' Hall.
  unfold continue_group. rewrite bool_decide_eq_false_2 by tauto. split; [reflexivity|].
  rewrite app_nil_r. replace (e_state r.1) with (e_state e).
  - apply step_conflict; assumption.
  - unfold r, error_callback. destruct (cl_limiter_should_run_now _ _ _). reflexivity.
Qed.

Lemma group_event_duplicate now e gd : group_base cfg g gd ->
  g_group_state gd = CLM_GROUP_STATE_MASTER_LINK_SCAN \/
  g_group_state gd = CLM_GROUP_STATE_MASTER_LINK_SCAN_COMP ->
  group_fires now CLM_GROUP_EVENT_MASTERDUPL_ALARM e gd.
Proof.
  intros Hb Hst. eapply group_round with (next := CLM_GROUP_STATE_MASTER_LISTEN) (action := None).
  { destruct Hst as [-> | ->]; vm_compute; reflexivity. }
  cbn [run_group_opt]. apply ewp_ret. split; [reflexivity|].
  replace (group_entry _ _) with (Some clm_iefb_group_on_entry_listen)
    by (destruct Hst as [-> | ->]; reflexivity).
  apply ewp_entry_listen; [apply set_group_state_base, Hb|]. intros gd' Hall.
  unfold continue_group. rewrite bool_decide_eq_false_2 by tauto. split; [reflexivity|].
  cbn [app]. apply step_duplicate; assumption.
Qed.

Lemma group_event_start now e gd : group_base cfg g gd ->
  g_group_state gd = CLM_GROUP_STATE_MASTER_LINK_SCAN_COMP ->
  group_fires now CLM_GROUP_EVENT_LINKSCAN_START e gd.
Proof.
  intros Hb Hst. eapply group_round; [rewrite Hst; vm_compute; reflexivity|]. rewrite Hst.
  cbn [run_group_opt run_group_action]. apply ewp_scan_start; [apply set_group_state_base, Hb|].
  intros gd' o' Hs. split; [rewrite (sc_state _ _ _ _ _ _ _ Hs); reflexivity|].
  change (group_entry _ _) with (None : option clm_group_action). apply ewp_ret.
  unfold continue_group. rewrite bool_decide_eq_false_2 by tauto. rewrite app_nil_r.
  split; [reflexivity|]. apply step_start; assumption.
Qed.

Lemma scan_ended_state event gd gd' : scan_ended cfg g event gd gd' ->
  g_group_state gd' = g_group_state gd.
Proof. intros (gd1 & [_ [] _ _ _] & ->). assumption. Qed.

Lemma group_event_timeout now e gd : group_base cfg g gd ->
  g_group_state gd = CLM_GROUP_STATE_MASTER_LINK_SCAN ->
  group_fires now CLM_GROUP_EVENT_LINKSCAN_TIMEOUT e gd.
Proof.
  intros Hb Hst. eapply group_round; [rewrite Hst; vm_compute; reflexivity|]. rewrite Hst.
  cbn [run_group_opt run_group_action]. pose proof (env_base e) as Hme. apply ewp_group.
  eapply gwp_mono; [apply (linkscan_timeout_ok cfg cfg_ok g g_ok); [exact Hme|]|].
  { apply set_group_state_base, Hb. }
  intros event gd1 o1 (-> & Hend & ->).
  split; [rewrite (scan_ended_state _ _ _ Hend); reflexivity|].
  change (group_entry _ _) with (Some clm_iefb_group_on_entry_scan_complete).
  apply ewp_entry_complete. apply continue_scan.
  - apply (scan_ended_base cfg g _ _ _ Hend).
  - rewrite (scan_ended_state _ _ _ Hend). reflexivity.
  - intros gd' o' Hs. split; [reflexivity|]. rewrite <- app_assoc.
    apply (step_timeout now e gd gd1); assumption.
Qed.

Lemma group_event_complete now e gd : group_base cfg g gd ->
  g_group_state gd = CLM_GROUP_STATE_MASTER_LINK_SCAN ->
  group_fires now CLM_GROUP_EVENT_LINKSCAN_COMPLETE e gd.
Proof.
  intros Hb Hst. eapply group_round; [rewrite Hst; vm_compute; reflexivity|]. rewrite Hst.
  cbn [run_group_opt run_group_action]. pose proof (env_base e) as Hme. apply ewp_group.
  eapply gwp_mono; [apply (linkscan_complete_ok cfg cfg_ok g g_ok); [exact Hme|]|].
  { apply set_group_state_base, Hb. }
  intros event gd1 o1 (-> & Hend & ->).
  split; [rewrite (scan_ended_state _ _ _ Hend); reflexivity|].
  change (group_entry _ _) with (Some clm_iefb_group_on_entry_scan_complete).
  apply ewp_entry_complete. destruct (gs_use_constant_link_scan_time gs) eqn:Hconst.
  - unfold continue_group. rewrite bool_decide_eq_false_2 by tauto. split; [reflexivity|].
    apply step_complete_constant; assumption.
  - apply continue_scan.
    + apply (scan_ended_base cfg g _ _ _ Hend).
    + rewrite (scan_ended_state _ _ _ Hend). reflexivity.
    + intros gd' o' Hs. split; [reflexivity|]. rewrite <- app_assoc.
      apply (step_complete now e gd gd1); assumption.
Qed.

(** Every event that is raised at run time, in every state. *)
Lemma group_event_ok now event e gd : group_base cfg g gd ->
  g_group_state gd <> CLM_GROUP_STATE_MASTER_DOWN -> runtime_event event ->
  group_fires now event e gd.
Proof.
  intros Hb Hst Hev.
  destruct (ignored (g_group_state gd) event) eqn:Hi; [apply group_event_ignored, Hi|].
  destruct (g_group_state gd) eqn:Hs; try (destruct Hst; reflexivity); destruct event;
    try destruct Hev;
    try (vm_compute in Hi; discriminate Hi);
    first [exact (group_event_arbitration_done _ _ _ Hb Hs) | exact (group_event_conflict _ _ _ Hb Hs)
      | exact (group_event_duplicate _ _ _ Hb (or_introl Hs))
      | exact (group_event_duplicate _ _ _ Hb (or_intror Hs))
      | exact (group_event_start _ _ _ Hb Hs) | exact (group_event_timeout _ _ _ Hb Hs)
      | exact (group_event_complete _ _ _ Hb Hs)].
Qed.

End MasterEvents.

Lemma group_step_same `{ClmOptions, Clal, ClalClock} cfg g m1 m2 now event e gd e' gd' o :
  m_cciefb_socket m1 = m_cciefb_socket m2 -> m_iefb_broadcast_ip m1 = m_iefb_broadcast_ip m2 ->
  m_master_local_unit_info m1 = m_master_local_unit_info m2 ->
  m_latest_conflicting_master_ip m1 = m_latest_conflicting_master_ip m2 ->
  group_step cfg g m1 now event e gd e' gd' o -> group_step cfg g m2 now event e gd e' gd' o.
Proof.
  intros Hs Hi Hu Hl Hstep. pose proof (scan_sent_same cfg g m1 m2) as Hsent. destruct Hstep.
  - eapply step_arbitration_done; eauto.
  - subst r. rewrite Hl. apply step_conflict; assumption.
  - apply step_duplicate; assumption.
  - eapply step_start; eauto.
  - eapply step_timeout; eauto.
  - apply step_complete_constant; assumption.
  - eapply step_complete; eauto.
  - apply step_ignored. assumption.
Qed.
