(* ===== verification/MasterControl.v ===== *)
(** * What goes with the state of a group

    The events of a group preserve its invariant: the states the devices can
    be in, the sequence number and the timers that run, for every state of
    the group; and when a link scan counts as complete. *)

From S2P Require Import Prelude Packed Signals Timer Limiter Util Types Iefb IefbFacts IefbRoundtrip.
From S2P Require Import Slmp Master MasterIefb MasterConfig MasterInv MasterFrame MasterDevice.
From S2P Require Import MasterGroup MasterScan MasterFsm MasterEvents.

Section MasterControl.
Context `{ClmOptions, Clal, ClalClock}.
Context (cfg : clm_cfg) (cfg_ok : clm_config_ok cfg).
Context (g : Z) (g_ok : has_group cfg g).

Abbreviation gs := (setting_of_group cfg g).

(** ** States of the devices after an event *)

Lemma enter_device_state previous next dev :
  d_device_state (enter_device previous next dev) = d_device_state dev.
Proof. unfold enter_device. destruct (_ && _); reflexivity. Qed.

Lemma device_changed_state event dev dev' :
  device_changed cfg g event dev dev' ->
  d_device_state dev' = dfsm_next (device_matrix (d_device_state dev) event) \/
  (d_device_state dev = CLM_DEVICE_STATE_CYCLIC_SENDING /\
   event = CLM_DEVICE_EVENT_GROUP_TIMEOUT /\
   (d_device_state dev' = CLM_DEVICE_STATE_LISTEN \/
    d_device_state dev' = CLM_DEVICE_STATE_CYCLIC_SENT)) \/
  d_device_state dev = CLM_DEVICE_STATE_MASTER_DOWN.
Proof.
  intros Hc. destruct (decide (d_device_state dev = CLM_DEVICE_STATE_MASTER_DOWN)) as [|Hd]; [tauto|].
  pose proof (device_matrix_shape _ event Hd) as (_ & _ & Hshape).
  unfold device_changed in Hc. destruct (dfsm_action _) as [[]|].
  - destruct Hc.
  - destruct Hc as [statistics ->]. left. reflexivity.
  - destruct Hc as [statistics ->]. destruct Hshape as (Hs & He & _). right; left.
    split; [exact Hs|]. split; [exact He|]. destruct (_ <=? _); [left|right]; reflexivity.
  - rewrite Hc. left. reflexivity.
  - rewrite Hc. left. rewrite enter_device_state. reflexivity.
Qed.

Lemma timeout_rests dev dev' : device_changed cfg g CLM_DEVICE_EVENT_GROUP_TIMEOUT dev dev' ->
  d_device_state dev <> CLM_DEVICE_STATE_MASTER_DOWN -> d_device_state dev <> CLM_DEVICE_STATE_LAST ->
  d_device_state dev' = CLM_DEVICE_STATE_LISTEN \/ d_device_state dev' = CLM_DEVICE_STATE_CYCLIC_SENT.
Proof.
  intros Hc Hd Hl. unfold device_changed in Hc.
  destruct (d_device_state dev) eqn:Hs; cbn in Hc; try congruence; try (rewrite Hc; cbn; tauto).
  destruct Hc as [statistics ->]. destruct (_ <=? _); cbn; tauto.
Qed.

Lemma responded_rests dev dev' :
  device_changed cfg g CLM_DEVICE_EVENT_GROUP_ALL_RESPONDED dev dev' ->
  d_device_state dev <> CLM_DEVICE_STATE_MASTER_DOWN -> d_device_state dev <> CLM_DEVICE_STATE_LAST ->
  d_device_state dev <> CLM_DEVICE_STATE_CYCLIC_SENDING ->
  d_device_state dev' = CLM_DEVICE_STATE_LISTEN \/ d_device_state dev' = CLM_DEVICE_STATE_CYCLIC_SENT.
Proof.
  intros Hc Hd Hl Hn. unfold device_changed in Hc.
  destruct (d_device_state dev) eqn:Hs; cbn in Hc; try congruence; rewrite Hc; cbn; tauto.
Qed.

Lemma standby_listens dev dev' : device_changed cfg g CLM_DEVICE_EVENT_GROUP_STANDBY dev dev' ->
  d_device_state dev <> CLM_DEVICE_STATE_MASTER_DOWN -> d_device_state dev <> CLM_DEVICE_STATE_LAST ->
  d_device_state dev' = CLM_DEVICE_STATE_LISTEN.
Proof.
  intros Hc Hd Hl. unfold device_changed in Hc.
  destruct (d_device_state dev) eqn:Hs; cbn in Hc; try congruence; rewrite Hc; reflexivity.
Qed.

(** The first scan sends cyclic data to no device. *)
Lemma first_scan_waits dev dev' : device_changed cfg g (scan_event dev) dev dev' ->
  d_device_state dev = CLM_DEVICE_STATE_LISTEN ->
  d_device_state dev' <> CLM_DEVICE_STATE_CYCLIC_SENDING.
Proof.
  intros Hc Hs. unfold device_changed, scan_event in Hc. rewrite Hs in Hc.
  destruct (d_enabled dev); cbn in Hc; destruct Hc as [statistics ->]; discriminate.
Qed.

Lemma rested_device gd d : rested cfg g gd -> 0 <= d < gs_num_slave_devices gs ->
  d_device_state (device_at gd d) <> CLM_DEVICE_STATE_CYCLIC_SENDING.
Proof. intros Hr Hd. destruct (Hr d Hd) as [-> | ->]; discriminate. Qed.

(** ** Groups *)

Lemma all_changed_states event gd gd' (P Q : clm_slave_device_data -> Prop) :
  all_changed cfg g event gd gd' -> group_base cfg g gd ->
  (forall dev dev', device_changed cfg g event dev dev' ->
     d_device_state dev <> CLM_DEVICE_STATE_MASTER_DOWN ->
     d_device_state dev <> CLM_DEVICE_STATE_LAST -> P dev -> Q dev') ->
  (forall d, 0 <= d < gs_num_slave_devices gs -> P (device_at gd d)) ->
  forall d, 0 <= d < gs_num_slave_devices gs -> Q (device_at gd' d).
Proof.
  intros Hall Hb Hstep HP d Hd. pose proof (di_state _ _ _ (gb_devices _ _ _ Hb d Hd)) as [H1' H2'].
  apply (Hstep _ _ (ac_devices _ _ _ _ _ Hall d Hd)); auto.
Qed.

Lemma standby_group gd gd' : group_base cfg g gd ->
  all_changed cfg g CLM_DEVICE_EVENT_GROUP_STANDBY
    (gd <| g_group_state := CLM_GROUP_STATE_MASTER_LISTEN |>) gd' ->
  group_base cfg g gd' /\ group_control cfg g gd'.
Proof.
  intros Hb Hall. split; [apply Hall|]. unfold group_control.
  rewrite (sg_state _ _ (ac_same _ _ _ _ _ Hall)). cbn [g_group_state update].
  unfold all_listen. apply (all_changed_states _ _ _ (fun _ => True)
    (fun dev => d_device_state dev = CLM_DEVICE_STATE_LISTEN) Hall);
    [apply (set_group_state_base cfg g), Hb| |auto].
  intros dev dev' Hc Hd Hl _. exact (standby_listens _ _ Hc Hd Hl).
Qed.

Lemma ended_timeout gd gd' : group_base cfg g gd ->
  scan_ended cfg g CLM_DEVICE_EVENT_GROUP_TIMEOUT gd gd' ->
  rested cfg g gd' /\ g_frame_sequence_no gd' <> 0.
Proof.
  intros Hb (gd1 & Hall & ->). split.
  - unfold rested. change (forall d, 0 <= d < gs_num_slave_devices gs ->
      d_device_state (device_at gd1 d) = CLM_DEVICE_STATE_LISTEN \/
      d_device_state (device_at gd1 d) = CLM_DEVICE_STATE_CYCLIC_SENT).
    apply (all_changed_states _ _ _ (fun _ => True)
      (fun dev => d_device_state dev = CLM_DEVICE_STATE_LISTEN \/
                  d_device_state dev = CLM_DEVICE_STATE_CYCLIC_SENT) Hall Hb); [|auto].
    intros dev dev' Hc Hd Hl _. exact (timeout_rests _ _ Hc Hd Hl).
  - apply sequence_no_next, Hall.
Qed.

Lemma ended_complete gd gd' : group_base cfg g gd -> none_sending cfg g gd ->
  scan_ended cfg g CLM_DEVICE_EVENT_GROUP_ALL_RESPONDED gd gd' ->
  rested cfg g gd' /\ g_frame_sequence_no gd' <> 0.
Proof.
  intros Hb Hn (gd1 & Hall & ->). split.
  - unfold rested. change (forall d, 0 <= d < gs_num_slave_devices gs ->
      d_device_state (device_at gd1 d) = CLM_DEVICE_STATE_LISTEN \/
      d_device_state (device_at gd1 d) = CLM_DEVICE_STATE_CYCLIC_SENT).
    apply (all_changed_states _ _ _ (fun dev => d_device_state dev <> CLM_DEVICE_STATE_CYCLIC_SENDING)
      (fun dev => d_device_state dev = CLM_DEVICE_STATE_LISTEN \/
                  d_device_state dev = CLM_DEVICE_STATE_CYCLIC_SENT) Hall Hb); [|exact Hn].
    intros dev dev' Hc Hd Hl Hs. exact (responded_rests _ _ Hc Hd Hl Hs).
  - apply sequence_no_next, Hall.
Qed.

Lemma scan_control m now gd gd' o : group_base cfg g gd ->
  g_frame_sequence_no gd <> 0 \/ all_listen cfg g gd ->
  scan_sent cfg g m now (gd <| g_group_state := CLM_GROUP_STATE_MASTER_LINK_SCAN |>) gd' o ->
  group_base cfg g gd' /\ group_control cfg g gd'.
Proof.
  intros Hb Hfirst []. split; [assumption|]. unfold group_control. rewrite sc_state.
  cbn [g_group_state update]. rewrite sc_wait. split; [split; reflexivity|]. split.
  - intros Hc. rewrite sc_constant, Hc. reflexivity.
  - intros Hseq d Hd. rewrite sc_seq in Hseq. cbn in Hseq. destruct Hfirst as [|Hl]; [tauto|].
    apply (first_scan_waits _ _ (sc_devices d Hd)), Hl, Hd.
Qed.

(** ** Events *)

(** What an event relies on: the invariant, of which the monitoring of the
    timers leaves out the timer it has just stopped. *)
Definition group_pre (event : clm_group_event) (gd : clm_group_data) : Prop :=
  match event, g_group_state gd with
  | CLM_GROUP_EVENT_LINKSCAN_TIMEOUT, CLM_GROUP_STATE_MASTER_LINK_SCAN => True
  | CLM_GROUP_EVENT_LINKSCAN_START, CLM_GROUP_STATE_MASTER_LINK_SCAN_COMP =>
      rested cfg g gd /\ g_frame_sequence_no gd <> 0
  | CLM_GROUP_EVENT_LINKSCAN_COMPLETE, CLM_GROUP_STATE_MASTER_LINK_SCAN =>
      group_control cfg g gd /\ none_sending cfg g gd
  | _, _ => group_control cfg g gd
  end.

Lemma group_step_inv m now event e gd e' gd' o : group_base cfg g gd -> group_pre event gd ->
  group_step cfg g m now event e gd e' gd' o ->
  group_base cfg g gd' /\ group_control cfg g gd'.
Proof.
  intros Hb Hpre Hstep. unfold group_pre in Hpre.
  destruct Hstep as [e gd gd' o Hs Hsent|e gd gd' Hs Hall|e gd gd' Hs Hall|e gd gd' o Hs Hsent
    |e gd gd1 gd' o Hs Hend Hsent|e gd gd' Hs Hconst Hend|e gd gd1 gd' o Hs Hconst Hend Hsent
    |event e gd Hi].
  - refine (scan_control m now gd gd' o Hb _ Hsent). right.
    unfold group_control in Hpre. rewrite Hs in Hpre. apply Hpre.
  - exact (standby_group gd gd' Hb Hall).
  - exact (standby_group gd gd' Hb Hall).
  - refine (scan_control m now gd gd' o Hb _ Hsent). left. rewrite Hs in Hpre. apply Hpre.
  - refine (scan_control m now gd1 gd' o _ _ Hsent); [apply (scan_ended_base cfg g _ _ _ Hend)|].
    left. apply (ended_timeout _ _ (set_group_state_base cfg g _ gd Hb) Hend).
  - rewrite Hs in Hpre. destruct Hpre as [Hctl Hn].
    pose proof (scan_ended_base cfg g _ _ _ Hend) as Hb'. split; [exact Hb'|].
    destruct (ended_complete _ _ (stop_wait_base cfg g _ (set_group_state_base cfg g _ gd Hb)) Hn Hend)
      as [Hr Hq].
    unfold group_control in Hctl |- *. rewrite Hs in Hctl.
    rewrite (scan_ended_state cfg g _ _ _ Hend). cbn [g_group_state update].
    split; [exact Hr|]. split; [exact Hq|]. split; [exact Hconst|].
    destruct Hend as (gd1 & Hall & ->). destruct Hctl as (Ht & Hsame & _).
    change (g_constant_linkscan_timer (gd1 <| g_frame_sequence_no ::= _ |>))
      with (g_constant_linkscan_timer gd1).
    rewrite (sg_constant _ _ (ac_same _ _ _ _ _ Hall)). cbn [g_constant_linkscan_timer update].
    rewrite Hsame by exact Hconst. exact Ht.
  - rewrite Hs in Hpre. destruct Hpre as [_ Hn].
    refine (scan_control m now gd1 gd' o _ _ Hsent); [apply (scan_ended_base cfg g _ _ _ Hend)|].
    left. apply (ended_complete _ _ (stop_wait_base cfg g _ (set_group_state_base cfg g _ gd Hb)) Hn Hend).
  - split; [exact Hb|]. destruct (g_group_state gd) eqn:Hs, event; try exact Hpre;
      try (vm_compute in Hi; discriminate Hi).
Qed.

(** The invariant gives what an event relies on. *)
Lemma event_pre event gd : group_control cfg g gd ->
  (event = CLM_GROUP_EVENT_LINKSCAN_COMPLETE -> none_sending cfg g gd) -> group_pre event gd.
Proof.
  unfold group_pre. intros Hc Hn. unfold group_control in *.
  destruct event, (g_group_state gd); try exact Hc; try exact I; try (split; [|auto]); apply Hc.
Qed.

(** A device that is sent data is not in the first scan. *)
Lemma sending_sequence gd d : group_control cfg g gd -> 0 <= d < gs_num_slave_devices gs ->
  d_device_state (device_at gd d) = CLM_DEVICE_STATE_CYCLIC_SENDING ->
  g_frame_sequence_no gd = 0 -> False.
Proof.
  unfold group_control. intros Hc Hd Hs Hz. destruct (g_group_state gd).
  - exact Hc.
  - specialize (Hc d Hd). congruence.
  - destruct Hc as [Hc _]. specialize (Hc d Hd). congruence.
  - destruct Hc as (_ & Hne & _). contradiction.
  - destruct Hc as (_ & _ & Hn). exact (Hn Hz d Hd Hs).
  - exact Hc.
Qed.

(** ** When a link scan is complete *)

Lemma received_later_frame_none devices b : received_later_frame devices b = true ->
  Forall (fun dev => d_device_state dev = CLM_DEVICE_STATE_CYCLIC_SENDING ->
                     d_transmission_bit dev = false) devices.
Proof.
  revert b. induction devices as [|dev devices IH]; intros b Hr; [constructor|].
  cbn [received_later_frame] in Hr. destruct (d_transmission_bit dev) eqn:Ht; cbn [andb] in Hr.
  - destruct (bool_decide _) eqn:Hs; [discriminate|]. apply bool_decide_eq_false in Hs.
    constructor; [tauto|]. eapply IH, Hr.
  - constructor; [auto|]. eapply IH, Hr.
Qed.

Lemma received_from_all_none_sending gd : group_base cfg g gd ->
  (g_frame_sequence_no gd = 0 -> none_sending cfg g gd) ->
  clm_iefb_group_have_received_from_all_devices gs gd = true -> none_sending cfg g gd.
Proof.
  intros Hb Hfirst Hr. unfold clm_iefb_group_have_received_from_all_devices in Hr.
  destruct (Z.eqb_spec (g_frame_sequence_no gd) 0) as [Hz|Hz]; [auto|].
  apply received_later_frame_none in Hr. rewrite Forall_map in Hr. intros d Hd Hs.
  rewrite Forall_seqZ in Hr. specialize (Hr d ltac:(lia) Hs).
  rewrite (di_sending _ _ _ (gb_devices _ _ _ Hb d Hd) Hs) in Hr. discriminate.
Qed.

End MasterControl.
