(* ===== verification/MasterSafety.v ===== *)
(** * The operations of the master preserve its invariant

    Every operation, started in a state of the invariant, stops at no
    assertion and inside its memory areas, leaves a state of the invariant
    and sends only requests that the slaves accept. *)

From S2P Require Import Prelude Packed Signals Timer Limiter Util Types Iefb IefbFacts IefbRoundtrip.
From S2P Require Import Slmp Master MasterIefb MasterConfig MasterInv MasterFrame MasterDevice.
From S2P Require Import MasterGroup MasterScan MasterFsm MasterEvents MasterControl.

(** The size of a response with more than 16 stations. *)
Definition oversized (len : Z) : Prop :=
  exists n, 17 <= n <= 20 /\ len = cl_calculate_cyclic_response_size n.

(** What makes the parser of responses stop at an assertion
    (see [parse_cyclic_response_assert_iff]), and a datagram that gets there. *)
Definition stops_parser (buffer : list Z) (len remote_ip : Z) : Prop :=
  cl_iefb_validate_resp_full_cyclic_headers
    (read_at c_cl_cciefb_cyclic_resp_full_headers buffer 0) len remote_ip = true /\ oversized len.
Definition fatal (buffer : list Z) (len remote_ip : Z) : Prop :=
  (exists header, cl_iefb_parse_response_header buffer len = Some header /\
     cl_iefb_validate_response_header header len = true) /\ stops_parser buffer len remote_ip.

(** A datagram that fits the receive buffer and is not one of these. *)
Definition datagram_ok (dg : datagram) : Prop :=
  bytes (dg_bytes dg) /\ Z.of_nat (length (dg_bytes dg)) <= CL_BUFFER_LEN /\
  ~ fatal (dg_bytes dg) (Z.of_nat (length (dg_bytes dg))) (dg_remote_ip dg).

(** The headers of a datagram at the start of the receive buffer. *)
Lemma splice_dec {A} (c : codec A) `{!CodecOk c} d old : (c_size c <= length d)%nat ->
  c_dec c (splice 0 d old) = c_dec c d.
Proof.
  intros Hl. unfold splice. rewrite take_0. cbn [app].
  rewrite codec_prefix, (codec_prefix d), take_app_le by exact Hl. reflexivity.
Qed.

Lemma fatal_received d old ip : fatal (splice 0 d old) (Z.of_nat (length d)) ip ->
  fatal d (Z.of_nat (length d)) ip.
Proof.
  intros ((header & Hp & Hv) & Hf & n & Hn & Hl). rewrite response_size in Hl.
  split; [|split; [|exists n; rewrite response_size; auto]].
  - exists header. split; [|exact Hv]. rewrite <- Hp. unfold cl_iefb_parse_response_header.
    change (read_at ?c ?buffer 0) with (c_dec c buffer).
    rewrite (splice_dec c_cl_cciefb_resp_header); [reflexivity|]. change (c_size _) with 11%nat. lia.
  - change (read_at ?c ?buffer 0) with (c_dec c buffer) in *.
    rewrite (splice_dec c_cl_cciefb_cyclic_resp_full_headers) in Hf; [exact Hf|].
    change (c_size _) with 59%nat. lia.
Qed.

(** Other sizes are harmless. *)
Lemma not_fatal buffer len ip : ~ oversized len -> ~ fatal buffer len ip.
Proof. intros Hno (_ & _ & Hf). exact (Hno Hf). Qed.

(** What the master knows of a response that its parser accepts. *)
Record response_ok (buffer : list Z) (recv_len remote_ip : Z) (r : clm_cciefb_cyclic_response_info)
  : Prop := {
  ro_buffer : si_buffer r = buffer;
  ro_group : 1 <= sdh_group_no (fs_cyclic_data_header (si_full_headers r)) <= 64;
  ro_stations : 1 <= si_number_of_occupied r <= 16;
  ro_size : recv_len = 59 + 72 * si_number_of_occupied r;
  ro_rwr : si_first_rwr r = 59;
  ro_rx : si_first_rx r = 59 + 64 * si_number_of_occupied r;
  ro_headers : si_full_headers r = read_at c_cl_cciefb_cyclic_resp_full_headers buffer 0;
  ro_slave : sdh_slave_id (fs_cyclic_data_header (si_full_headers r)) = remote_ip
}.

Lemma parse_response_ok buffer recv_len remote_ip remote_port now :
  0 <= recv_len <= CL_BUFFER_LEN -> ~ stops_parser buffer recv_len remote_ip ->
  exists parsed,
    cl_iefb_parse_cyclic_response buffer recv_len remote_ip remote_port now = Done parsed /\
    match parsed with
    | None => True
    | Some r => response_ok buffer recv_len remote_ip r /\ si_reception_timestamp r = now
    end.
Proof.
  intros Hlen Hno. unfold CL_BUFFER_LEN in Hlen.
  unfold cl_iefb_parse_cyclic_response, cl_iefb_parse_resp_full_cyclic_headers.
  rewrite resp_headers_size. pose proof (occupied_stations_eq recv_len) as Hinv.
  destruct (Z.ltb_spec recv_len 59) as [Hs|Hs]; [exists None; auto|].
  set (h := read_at c_cl_cciefb_cyclic_resp_full_headers buffer 0).
  destruct (cl_iefb_validate_resp_full_cyclic_headers h recv_len remote_ip) eqn:Hv; simpl negb; cbn iota; [|exists None; auto].
  destruct (Z.eqb_spec (cl_calculate_number_of_occupied_stations recv_len) 0) as [H0|H0]; [exists None; auto|].
  set (n := cl_calculate_number_of_occupied_stations recv_len) in *.
  assert (Hn : 0 < n).
  { assert (0 <= n); [|lia]. unfold n, cl_calculate_number_of_occupied_stations.
    case_match; [lia|]. unfold UINT16_MAX. change 0xFFFF with (2 ^ 16 - 1).
    rewrite land_low_mask by lia. apply Z.mod_pos_bound. lia. }
  destruct (proj1 (Hinv n ltac:(unfold is_u64; lia) Hn) eq_refl) as [Hn2 Hsz].
  assert (Hn16 : 1 <= n <= 16).
  { split; [lia|]. apply Z.nlt_ge. intros Hgt. apply Hno. split; [exact Hv|]. exists n. split; [|exact Hsz].
    rewrite response_size in Hsz. lia. }
  rewrite response_size in Hsz. unfold cl_iefb_parse_response_cyclic_data.
  rewrite resp_headers_size. unfold sizeof_rwr, sizeof_rx.
  rewrite (proj2 (bad_station_count_false n) Hn16).
  destruct (Z.ltb_spec recv_len (59 + n * 64 + n * 8)); [lia|].
  eexists. split; [reflexivity|]. split; [|reflexivity].
  unfold cl_iefb_validate_resp_full_cyclic_headers in Hv.
  destruct (negb (cl_iefb_validate_cyclic_resp_header _)); [discriminate|].
  destruct (negb (cl_iefb_validate_slave_station_notification _)); [discriminate|].
  destruct (cl_iefb_validate_resp_cyclic_data_header _ _) eqn:Hd; cbn [negb] in Hv; [|discriminate].
  unfold cl_iefb_validate_resp_cyclic_data_header in Hd.
  destruct (_ || _) eqn:Hg in Hd; [discriminate|].
  apply orb_false_iff in Hg as [Hg1%Z.ltb_ge Hg2%Z.ltb_ge].
  unfold CL_CCIEFB_MIN_GROUP_NO, CL_CCIEFB_MAX_GROUP_NO in *.
  destruct (negb (sdh_reserved2 _ =? _)); [discriminate|].
  destruct (_ || _) eqn:Hid in Hd; [discriminate|].
  apply orb_false_iff in Hid as [_ Hid%negb_false_iff%Z.eqb_eq].
  clearbody n. split; cbn [si_buffer si_full_headers si_number_of_occupied si_first_rwr si_first_rx];
    try assumption; try reflexivity; lia.
Qed.

(** A loop over all groups, with an invariant. *)
Lemma wp_for_groups n body (I : Z -> clm -> list clm_output -> Prop) m : 0 <= n -> I 0 m [] ->
  (forall i m' o, 0 <= i < n -> I i m' o ->
     wp (body i) (fun _ m'' o' => I (i + 1) m'' (o ++ o')) m') ->
  wp (for_range n body) (fun _ m' o => I n m' o) m.
Proof.
  intros Hn HI Hbody. unfold for_range.
  assert (Hgen : forall k i m' o, Z.of_nat k = n - i -> 0 <= i -> I i m' o ->
    wp (for_each (seqZ i (n - i)) body) (fun _ m'' o' => I n m'' (o ++ o')) m').
  { induction k as [|k IH]; intros i m' o Hk Hi Hinv.
    - rewrite seqZ_nil by lia. apply wp_ret. rewrite app_nil_r. replace n with i by lia. exact Hinv.
    - rewrite seqZ_cons by lia. cbn [for_each]. apply wp_bind.
      eapply wp_mono; [apply Hbody; [lia|exact Hinv]|]. intros [] m'' o' Hinv'. cbn beta.
      replace (Z.succ i) with (i + 1) by lia. replace (Z.pred (n - i)) with (n - (i + 1)) by lia.
      eapply wp_mono; [apply (IH (i + 1) m'' (o ++ o')); [lia|lia|exact Hinv']|].
      intros [] m3 o3 H3'. rewrite app_assoc. exact H3'. }
  specialize (Hgen (Z.to_nat n) 0 m [] ltac:(lia) ltac:(lia) HI). rewrite Z.sub_0_r in Hgen.
  eapply wp_mono; [exact Hgen|]. intros [] m' o Ho. exact Ho.
Qed.

Section MasterSafety.
Context `{ClmOptions, Clal, ClalClock}.
Context (clock_ok : forall now, is_u64 (clal_get_unix_timestamp_ms now)).
Context (cfg : clm_cfg) (cfg_ok : clm_config_ok cfg).

(** ** Definitions *)

(** A frame is a request of the configuration: the slaves accept it (see
    [request_accepted]). *)
Definition request_sent (frame : list Z) : Prop :=
  exists g param seq clock info state,
    has_group cfg g /\ bytes frame /\
    let gs := setting_of_group cfg g in
    Z.of_nat (length frame) = 67 + 76 * total_stations gs /\
    request_params_ok (mc_protocol_ver cfg) (gs_timeout_value gs)
      (gs_parallel_off_timeout_count gs) (mc_master_id cfg) (g + 1) (total_stations gs) param /\
    request_values_ok (mc_protocol_ver cfg) seq clock info state /\
    c_dec c_cl_cciefb_cyclic_req_full_headers frame =
      request_headers (mc_protocol_ver cfg) (gs_timeout_value gs)
        (gs_parallel_off_timeout_count gs) (mc_master_id cfg) (g + 1) (total_stations gs) param
        seq clock info state.

Definition outputs_ok (o : list clm_output) : Prop :=
  forall socket ip port frame, ClmCciefbSendto socket ip port frame ∈ o -> request_sent frame.

(** A program that preserves the invariant. *)
Definition keeps {A} (P : clm_prog A) : Prop :=
  forall m, master_inv cfg m -> wp P (fun _ m' o => master_inv cfg m' /\ outputs_ok o) m.

Lemma outputs_ok_nil : outputs_ok [].
Proof. intros ? ? ? ? Hin. apply elem_of_nil in Hin. destruct Hin. Qed.

Lemma master_outputs_app o1 o2 : outputs_ok o1 -> outputs_ok o2 -> outputs_ok (o1 ++ o2).
Proof. intros H1' H2' socket ip port frame [Hin|Hin]%elem_of_app; eauto. Qed.

(** Outputs without frames. *)
Definition no_frame (o : clm_output) : Prop :=
  match o with ClmCciefbSendto _ _ _ _ => False | _ => True end.
Lemma outputs_ok_no_frames o : Forall no_frame o -> outputs_ok o.
Proof.
  intros Ho socket ip port frame Hin. rewrite Forall_forall in Ho. apply list_elem_of_In in Hin. destruct (Ho _ Hin).
Qed.

Lemma keeps_bind {A B} (P : clm_prog A) (k : A -> clm_prog B) :
  keeps P -> (forall a, keeps (k a)) -> keeps (P ≫= k).
Proof.
  intros HP Hk m Hm. apply wp_bind. eapply wp_mono; [apply HP, Hm|].
  intros a m' o [Hm' Ho]. eapply wp_mono; [apply Hk, Hm'|].
  intros b m'' o' [Hm'' Ho']. split; [exact Hm''|]. apply master_outputs_app; assumption.
Qed.

Lemma keeps_ret {A} (a : A) : keeps (mret a).
Proof. intros m Hm. apply wp_ret. split; [exact Hm|apply outputs_ok_nil]. Qed.

Lemma keeps_get {B} (k : clm -> clm_prog B) :
  (forall m, master_inv cfg m -> wp (k m) (fun _ m' o => master_inv cfg m' /\ outputs_ok o) m) ->
  keeps (get ≫= k).
Proof. intros Hk m Hm. apply wp_bind. wp_steps. apply Hk, Hm. Qed.

Lemma keeps_emit o : no_frame o -> keeps (emit o).
Proof.
  intros Ho m Hm. apply wp_emit. split; [exact Hm|]. apply outputs_ok_no_frames.
  constructor; [exact Ho|constructor].
Qed.

Lemma keeps_modify f : (forall m, master_inv cfg m -> master_inv cfg (f m)) -> keeps (modify f).
Proof. intros Hf m Hm. apply wp_modify. split; [apply Hf, Hm|apply outputs_ok_nil]. Qed.

Lemma keeps_when b P : keeps P -> keeps (when b P).
Proof. intros HP. destruct b; [exact HP|apply keeps_ret]. Qed.

Lemma keeps_for_range n body : (forall i, 0 <= i < n -> keeps (body i)) -> keeps (for_range n body).
Proof.
  intros Hb. unfold for_range.
  assert (Hl : Forall (fun i => 0 <= i < n) (seqZ 0 n)) by (apply Forall_seqZ; lia).
  induction Hl as [|i l Hi Hl IH]; cbn [for_each]; [apply keeps_ret|].
  apply keeps_bind; auto.
Qed.

(** ** The invariant and one group *)

Lemma groups_length m g : master_base cfg m -> has_group cfg g ->
  0 <= g < Z.of_nat (length (m_groups m)).
Proof. intros Hm Hg. exact (group_index_ok cfg cfg_ok g Hg m Hm). Qed.

(** Every group but one. *)
Definition others_inv (g : Z) (m : clm) : Prop :=
  forall g', has_group cfg g' -> g' <> g ->
    group_base cfg g' (group_at m g') /\ group_control cfg g' (group_at m g').

Lemma put_group_base g gd e m : master_base cfg m -> master_base cfg (put_group g gd (with_env e m)).
Proof. intros []. split; try assumption. cbn. rewrite length_alter. assumption. Qed.

Lemma put_group_inv g gd e m : has_group cfg g -> master_base cfg m -> others_inv g m ->
  group_base cfg g gd -> group_control cfg g gd -> master_inv cfg (put_group g gd (with_env e m)).
Proof.
  intros Hg Hm Ho Hb Hc. split; [apply put_group_base, Hm|]. intros g' Hg'.
  destruct (Z.eq_dec g' g) as [->|Hne].
  - rewrite group_at_put by exact (groups_length m g Hm Hg). auto.
  - rewrite group_at_put_other by (unfold has_group in *; lia).
    change (group_at (with_env e m) g') with (group_at m g'). auto.
Qed.

Lemma master_others m g : master_inv cfg m -> others_inv g m.
Proof. intros [_ Hall] g' Hg' _. auto. Qed.

(** A change of one group that keeps what holds of it. *)
Lemma update_group_inv g f m : has_group cfg g -> master_inv cfg m ->
  (forall gd, group_base cfg g gd -> group_control cfg g gd ->
     group_base cfg g (f gd) /\ group_control cfg g (f gd)) ->
  master_inv cfg (update_group g f m).
Proof.
  intros Hg Hm Hf. pose proof (groups_length m g (proj1 Hm) Hg) as Hlen.
  rewrite <- (put_group_same g m Hlen) at 1. rewrite update_put_group.
  replace m with (with_env (env_of m) m) at 2 by apply with_env_of.
  destruct (proj2 Hm g Hg) as [Hb Hc]. destruct (Hf _ Hb Hc) as [Hb' Hc'].
  apply put_group_inv; [exact Hg|apply Hm|apply master_others, Hm|exact Hb'|exact Hc'].
Qed.

(** ** Events of a group *)

Lemma group_event_wp m g now event : has_group cfg g -> master_base cfg m ->
  group_base cfg g (group_at m g) -> g_group_state (group_at m g) <> CLM_GROUP_STATE_MASTER_DOWN ->
  runtime_event event ->
  wp (clm_iefb_group_fsm_event g now event) (fun _ m' o => exists e' gd',
    m' = put_group g gd' (with_env e' m) /\
    group_step cfg g m now event (env_of m) (group_at m g) e' gd' o) m.
Proof.
  intros Hg Hm Hb Hst Hev. unfold clm_iefb_group_fsm_event.
  rewrite bool_decide_eq_false_2 by (intros ->; exact Hev).
  apply wp_bind.
  pose proof (group_event_ok clock_ok cfg cfg_ok g Hg m Hm now event (env_of m) _ Hb Hst Hev) as Hf.
  unfold group_fires, ewp in Hf. rewrite with_env_of in Hf.
  rewrite (put_group_same g m (groups_length m g Hm Hg)) in Hf.
  eapply wp_mono; [exact Hf|]. intros b m' o (e' & gd' & -> & _ & Hstep). wp_steps.
  rewrite app_nil_r. eauto.
Qed.

Lemma no_frame_callbacks g : Forall no_frame (linkscan_callback cfg g true) /\
  Forall no_frame (linkscan_callback cfg g false) /\
  (forall old new, Forall no_frame (state_callback cfg old new)) /\
  (forall e now message ip, Forall no_frame (error_callback cfg e now message ip).2) /\
  (forall gd d, Forall no_frame (scan_callback cfg g gd d)).
Proof.
  unfold linkscan_callback, state_callback, error_callback, scan_callback, connection_callback.
  repeat split; intros; repeat (case_match; try (cbn; repeat constructor)).
Qed.

Lemma scan_sent_outputs m g now gd gd' o : has_group cfg g -> master_base cfg m ->
  group_base cfg g gd -> scan_sent cfg g m now gd gd' o -> outputs_ok o.
Proof.
  intros Hg Hm Hb [(frame & [Hby Hlen (Hp & Hdec) _ _] & ->) Hb' _ _ _ _ _ _ _ _ _].
  apply master_outputs_app.
  - apply outputs_ok_no_frames. rewrite Forall_forall. intros x Hx.
    apply in_concat in Hx as (l & Hl & Hx). apply in_map_iff in Hl as (d & <- & _).
    destruct (no_frame_callbacks g) as (_ & _ & _ & _ & Hn). specialize (Hn gd d).
    rewrite Forall_forall in Hn. auto.
  - intros socket ip port frame' Hin. apply list_elem_of_singleton in Hin.
    injection Hin as _ _ _ ->. unfold request_sent.
    exists g, (parameter_of gd'), (g_frame_sequence_no gd'), (clal_get_unix_timestamp_ms now),
      (m_master_local_unit_info m), (g_cyclic_transmission_state gd').
    split; [exact Hg|]. split; [exact Hby|]. cbv zeta. split; [exact Hlen|].
    split; [apply (request_params cfg cfg_ok g Hg _ Hp)|]. split; [|exact Hdec].
    split; [apply Hb'|]. split; [apply clock_ok|]. split; [apply Hm|apply Hb'].
Qed.

Lemma group_step_outputs m g now event e gd e' gd' o : has_group cfg g -> master_base cfg m ->
  group_base cfg g gd -> group_step cfg g m now event e gd e' gd' o -> outputs_ok o.
Proof.
  intros Hg Hm Hb Hstep. destruct (no_frame_callbacks g) as (Ht & Hf & Hsc & Hec & _).
  destruct Hstep as [e gd gd' o _ Hs|e gd gd' _ _|e gd gd' _ _|e gd gd' o _ Hs
    |e gd gd1 gd' o _ He Hs|e gd gd' _ _ _|e gd gd1 gd' o _ _ He Hs|event e gd _].
  all: repeat apply master_outputs_app; try (apply outputs_ok_no_frames; subst; auto; fail);
    try apply outputs_ok_nil; try (apply outputs_ok_no_frames, Hec).
  - refine (scan_sent_outputs m g now _ _ _ Hg Hm _ Hs). apply (set_group_state_base cfg g), Hb.
  - refine (scan_sent_outputs m g now _ _ _ Hg Hm _ Hs). apply (set_group_state_base cfg g), Hb.
  - refine (scan_sent_outputs m g now _ _ _ Hg Hm _ Hs). apply (set_group_state_base cfg g).
    apply (scan_ended_base cfg g _ _ _ He).
  - refine (scan_sent_outputs m g now _ _ _ Hg Hm _ Hs). apply (set_group_state_base cfg g).
    apply (scan_ended_base cfg g _ _ _ He).
Qed.

Lemma group_control_started g gd : group_control cfg g gd ->
  g_group_state gd <> CLM_GROUP_STATE_MASTER_DOWN.
Proof. unfold group_control. intros Hc Hs. rewrite Hs in Hc. exact Hc. Qed.

(** An event whose preconditions hold restores the invariant. *)
Lemma group_event_inv m g now event : has_group cfg g -> master_base cfg m -> others_inv g m ->
  group_base cfg g (group_at m g) -> g_group_state (group_at m g) <> CLM_GROUP_STATE_MASTER_DOWN ->
  group_pre cfg g event (group_at m g) -> runtime_event event ->
  wp (clm_iefb_group_fsm_event g now event) (fun _ m' o => master_inv cfg m' /\ outputs_ok o) m.
Proof.
  intros Hg Hm Ho Hb Hst Hpre Hev.
  eapply wp_mono; [apply (group_event_wp m g now event Hg Hm Hb Hst Hev)|].
  intros _ m' o (e' & gd' & -> & Hstep).
  destruct (group_step_inv cfg g m now event _ _ _ _ _ Hb Hpre Hstep) as [Hb' Hc'].
  split; [apply put_group_inv; assumption|].
  exact (group_step_outputs m g now event _ _ _ _ _ Hg Hm Hb Hstep).
Qed.

(** Events that rely on nothing but the invariant. *)
Definition plain_event (event : clm_group_event) : Prop :=
  event = CLM_GROUP_EVENT_ARBITRATION_DONE \/ event = CLM_GROUP_EVENT_REQ_FROM_OTHER \/
  event = CLM_GROUP_EVENT_MASTERDUPL_ALARM.

Lemma keeps_group_event g now event : has_group cfg g -> plain_event event ->
  keeps (clm_iefb_group_fsm_event g now event).
Proof.
  intros Hg Hev m Hm. destruct (proj2 Hm g Hg) as [Hb Hc].
  apply group_event_inv; [exact Hg|apply Hm|apply master_others, Hm|exact Hb| | |].
  - apply (group_control_started g), Hc.
  - destruct Hev as [-> |[-> | ->]]; exact Hc.
  - destruct Hev as [-> |[-> | ->]]; exact I.
Qed.

Lemma config_groups_eq m : master_inv cfg m ->
  number_of_groups m = sh_number_of_groups (mc_hier cfg).
Proof. intros [Hm _]. pose proof (mb_config _ _ Hm) as Hcfg. unfold number_of_groups. rewrite Hcfg. reflexivity. Qed.

Lemma keeps_group_event_all now event : plain_event event ->
  keeps (clm_iefb_group_fsm_event_all now event).
Proof.
  intros Hev. apply keeps_get. intros m Hm. rewrite (config_groups_eq m Hm).
  apply keeps_for_range; [|exact Hm]. intros g Hg. apply keeps_group_event; assumption.
Qed.

(** ** The timers *)

Lemma started_not_expired g now : has_group cfg g ->
  cl_timer_is_expired (started_timer cfg g now) now = false.
Proof.
  intros Hg. pose proof (go_timeout _ _ (cok_group _ cfg_ok g Hg)).
  unfold cl_timer_is_expired, started_timer. cbn [t_state t_timestamp t_period].
  rewrite Z.sub_diag. change (u32 0) with 0. destruct (_ <? 0); [reflexivity|].
  apply Z.leb_gt. unfold CL_TIMER_MICROSECONDS_PER_MILLISECOND. lia.
Qed.

Lemma modify_group_put g f m : has_group cfg g -> master_base cfg m ->
  update_group g f m = put_group g (f (group_at m g)) (with_env (env_of m) m).
Proof.
  intros Hg Hm. rewrite with_env_of.
  rewrite <- (put_group_same g m (groups_length m g Hm Hg)) at 1. apply update_put_group.
Qed.

(** The preconditions of an event after a change of the group that keeps its
    base and its state. *)
Lemma changed_group_event g f now event m Q : has_group cfg g -> master_inv cfg m ->
  group_base cfg g (f (group_at m g)) ->
  g_group_state (f (group_at m g)) = g_group_state (group_at m g) ->
  group_pre cfg g event (f (group_at m g)) -> runtime_event event ->
  (forall m' o e' gd', master_inv cfg m' -> outputs_ok o ->
     m' = put_group g gd' (with_env e' m) -> group_at m' g = gd' ->
     group_step cfg g m now event (env_of m) (f (group_at m g)) e' gd' o -> Q tt m' o) ->
  wp (modify_group g f;; clm_iefb_group_fsm_event g now event) Q m.
Proof.
  intros Hg Hm Hb Hst Hpre Hev HQ. pose proof (groups_length m g (proj1 Hm) Hg) as Hlen.
  destruct (proj2 Hm g Hg) as [_ Hc]. apply wp_bind, wp_modify.
  rewrite (modify_group_put g f m Hg (proj1 Hm)), with_env_of.
  set (gd := f (group_at m g)) in *. set (m1 := put_group g gd m).
  assert (Hm1 : master_base cfg m1)
    by (unfold m1; rewrite <- (with_env_of m) at 1; apply put_group_base, Hm).
  assert (Hat : group_at m1 g = gd) by (apply group_at_put, Hlen).
  assert (Ho1 : others_inv g m1).
  { intros g' Hg' Hne. unfold m1. rewrite group_at_put_other by (unfold has_group in *; lia).
    apply (proj2 Hm g' Hg'). }
  eapply wp_mono; [apply (group_event_wp m1 g now event Hg Hm1)|]; rewrite ?Hat.
  - exact Hb.
  - rewrite Hst. apply (group_control_started g _ Hc).
  - exact Hev.
  - intros [] m' o (e' & gd' & -> & Hstep).
    assert (Hinv : group_base cfg g gd' /\ group_control cfg g gd')
      by exact (group_step_inv cfg g m1 now event _ _ _ _ _ Hb Hpre Hstep).
    apply (HQ _ _ e' gd').
    + apply put_group_inv; [exact Hg|exact Hm1|exact Ho1|apply Hinv|apply Hinv].
    + exact (group_step_outputs m1 g now event _ _ _ _ _ Hg Hm1 Hb Hstep).
    + unfold m1. change (with_env e' (put_group g gd m)) with (put_group g gd (with_env e' m)).
      apply put_put_group.
    + apply group_at_put. exact (groups_length (with_env e' m1) g (env_base cfg m1 Hm1 e') Hg).
    + apply (group_step_same cfg g m1 m); [reflexivity..|exact Hstep].
Qed.

Definition stop_wait (gd : clm_group_data) : clm_group_data :=
  gd <| g_response_wait_timer ::= cl_timer_stop |>.
Definition stop_constant (gd : clm_group_data) : clm_group_data :=
  gd <| g_constant_linkscan_timer ::= cl_timer_stop |>.

(** When its timer has expired, the event on the group with the timer
    stopped, and otherwise nothing. *)
Definition timer_fires (expired : bool) (stop : clm_group_data -> clm_group_data)
  (event : clm_group_event) (g now : Z) (m m' : clm) (o : list clm_output) : Prop :=
  if expired then exists e' gd',
    group_base cfg g (stop (group_at m g)) /\ group_pre cfg g event (stop (group_at m g)) /\
    m' = put_group g gd' (with_env e' m) /\
    group_step cfg g m now event (env_of m) (stop (group_at m g)) e' gd' o
  else m' = m /\ o = [].

Lemma wait_timer_inv g now m : has_group cfg g -> master_inv cfg m ->
  wp (when (cl_timer_is_expired (g_response_wait_timer (group_at m g)) now)
        (modify_group g (fun group_data => group_data <| g_response_wait_timer ::= cl_timer_stop |>);;
         clm_iefb_group_fsm_event g now CLM_GROUP_EVENT_LINKSCAN_TIMEOUT))
    (fun _ m' o => (master_inv cfg m' /\ outputs_ok o) /\
       cl_timer_is_expired (g_response_wait_timer (group_at m' g)) now = false /\
       timer_fires (cl_timer_is_expired (g_response_wait_timer (group_at m g)) now) stop_wait
         CLM_GROUP_EVENT_LINKSCAN_TIMEOUT g now m m' o) m.
Proof.
  intros Hg Hm. destruct (proj2 Hm g Hg) as [Hb Hc]. apply wp_when; intros He.
  - rewrite He. assert (Hb' : group_base cfg g (stop_wait (group_at m g))) by apply stop_wait_base, Hb.
    assert (Hpre : group_pre cfg g CLM_GROUP_EVENT_LINKSCAN_TIMEOUT (stop_wait (group_at m g))).
    { unfold group_pre, group_control in *. cbn [g_group_state update stop_wait].
      destruct (g_group_state (group_at m g)); try exact I; exact Hc. }
    apply changed_group_event; [exact Hg|exact Hm|exact Hb'|reflexivity|exact Hpre|exact I|].
    intros m' o e' gd' Hm' Ho Heq Hat Hstep. split; [split; assumption|]. rewrite Hat.
    split; [|exists e', gd'; auto]. clear Heq. inversion Hstep; subst; [|reflexivity].
    match goal with Hs : scan_sent _ _ _ _ _ _ _ |- _ => rewrite (sc_wait _ _ _ _ _ _ _ Hs) end.
    apply started_not_expired, Hg.
  - split; [split; [exact Hm|apply outputs_ok_nil]|]. split; [exact He|].
    rewrite He. split; reflexivity.
Qed.

Lemma constant_timer_inv g now m : has_group cfg g -> master_inv cfg m ->
  cl_timer_is_expired (g_response_wait_timer (group_at m g)) now = false ->
  wp (when (cl_timer_is_expired (g_constant_linkscan_timer (group_at m g)) now)
        (modify_group g (fun group_data => group_data
           <| g_constant_linkscan_timer ::= cl_timer_stop |>);;
         clm_iefb_group_fsm_event g now CLM_GROUP_EVENT_LINKSCAN_START))
    (fun _ m' o => (master_inv cfg m' /\ outputs_ok o) /\
       timer_fires (cl_timer_is_expired (g_constant_linkscan_timer (group_at m g)) now) stop_constant
         CLM_GROUP_EVENT_LINKSCAN_START g now m m' o) m.
Proof.
  intros Hg Hm Hwait. destruct (proj2 Hm g Hg) as [Hb Hc]. apply wp_when; intros He; rewrite He.
  - assert (Hb' : group_base cfg g (stop_constant (group_at m g))) by (destruct Hb; split; assumption).
    assert (Hpre : group_pre cfg g CLM_GROUP_EVENT_LINKSCAN_START (stop_constant (group_at m g))).
    { unfold group_pre, group_control in *. cbn [g_group_state update stop_constant].
      destruct (g_group_state (group_at m g)); try exact Hc.
      - destruct Hc as (Hr & Hq & _). split; assumption.
      - destruct Hc as (Ht & Hsame & Hf). split; [exact Ht|]. split; [|exact Hf].
        intros Hconst. rewrite <- (Hsame Hconst), He in Hwait. discriminate. }
    apply changed_group_event; [exact Hg|exact Hm|exact Hb'|reflexivity|exact Hpre|exact I|].
    intros m' o e' gd' Hm' Ho Heq _ Hstep. split; [split; assumption|]. exists e', gd'. auto.
  - split; [split; [exact Hm|apply outputs_ok_nil]|split; reflexivity].
Qed.

Lemma keeps_monitor_timers now : keeps (clm_iefb_monitor_all_group_timers now).
Proof.
  apply keeps_get. intros m Hm. rewrite (config_groups_eq m Hm).
  apply keeps_for_range; [|exact Hm]. clear m Hm. intros g Hg m Hm.
  apply wp_bind. unfold get_group at 1. wp_steps.
  eapply wp_mono; [apply (wait_timer_inv g now m Hg Hm)|]. intros [] m1 o1 ([Hm1 Ho1] & Hwait & _).
  apply wp_bind. unfold get_group at 1. wp_steps.
  eapply wp_mono; [apply (constant_timer_inv g now m1 Hg Hm1 Hwait)|].
  intros [] m2 o2 [[Hm2 Ho2] _]. split; [exact Hm2|]. cbn [app]. apply master_outputs_app; assumption.
Qed.

End MasterSafety.
