(* ===== verification/MasterResponse.v ===== *)
(** * Responses

    What the master stores of a response, and that every incoming frame
    leaves the invariant in place. *)

From S2P Require Import Prelude Packed Signals Timer Limiter Util Types Iefb IefbFacts IefbRoundtrip.
From S2P Require Import Slmp Master MasterIefb MasterConfig MasterInv MasterFrame MasterDevice.
From S2P Require Import MasterGroup MasterScan MasterFsm MasterEvents MasterControl MasterSafety.

Section MasterResponse.
Context `{ClmOptions, Clal, ClalClock}.
Context (clock_ok : forall now, is_u64 (clal_get_unix_timestamp_ms now)).
Context (cfg : clm_cfg) (cfg_ok : clm_config_ok cfg).

Abbreviation keeps := (keeps cfg).

(** ** The memory area *)

(** What a response brings for an area: its data, or zeros while the device
    is not sent cyclic data. *)
Definition received_part (off size k : Z) (buffer : list Z) (valid : bool) : list Z :=
  if valid then slice (Z.to_nat off) (Z.to_nat (size * k)) buffer else zeros (Z.to_nat (size * k)).

Lemma received_part_ok off size k buffer valid : 0 <= off -> 0 <= size -> 0 <= k ->
  bytes buffer -> off + size * k <= Z.of_nat (length buffer) ->
  bytes (received_part off size k buffer valid) /\
  length (received_part off size k buffer valid) = Z.to_nat (size * k).
Proof.
  intros Ho Hs Hk Hb Hfit. unfold received_part. destruct valid.
  - split; [auto with clink|]. apply length_slice. nia.
  - split; [auto with clink|apply length_zeros].
Qed.

Lemma area_write size area pos k data : 0 <= size -> 0 <= pos -> 0 <= k ->
  pos + k <= CLM_MAX_OCCUPIED_STATIONS_PER_GROUP -> area_ok size area -> bytes data ->
  length data = Z.to_nat (size * k) ->
  area_ok size (splice (Z.to_nat (size * pos)) data area).
Proof.
  intros Hs Hp Hk Hfit [Hl Hb] Hd Hdl. split; [|auto with clink].
  rewrite length_splice; [exact Hl|]. rewrite Hdl, Hl. nia.
Qed.

Lemma store_incoming_ok a r pos k valid : memory_ok a -> 0 <= pos -> 1 <= k <= 16 ->
  pos + k <= CLM_MAX_OCCUPIED_STATIONS_PER_GROUP -> bytes (si_buffer r) ->
  length (si_buffer r) = 1500%nat -> si_first_rwr r = 59 -> si_first_rx r = 59 + 64 * k ->
  exists a', clm_iefb_store_incoming_cyclic_data a r (1 + pos) k valid = Done a' /\
    a' = a <| ma_rwr := splice (Z.to_nat (64 * pos))
                          (received_part 59 64 k (si_buffer r) valid) (ma_rwr a) |>
           <| ma_rx := splice (Z.to_nat (8 * pos))
                         (received_part (59 + 64 * k) 8 k (si_buffer r) valid) (ma_rx a) |> /\
    memory_ok a'.
Proof.
  intros Ha Hp Hk Hfit Hb Hl Hrwr Hrx. pose proof clm_max_stations_ok as Hmax.
  set (a' := a <| ma_rwr := _ |> <| ma_rx := _ |>). exists a'.
  split; [|split; [reflexivity|]].
  - unfold clm_iefb_store_incoming_cyclic_data. cbv zeta.
    replace (u16 (1 + pos - 1)) with pos by (rewrite u16_id by zlia; lia).
    rewrite Hrwr, Hrx. unfold sizeof_rwr, sizeof_rx.
    replace (pos * 64) with (64 * pos) by lia. replace (pos * 8) with (8 * pos) by lia.
    replace (k * 64) with (64 * k) by lia. replace (k * 8) with (8 * k) by lia.
    destruct (mo_rwr _ Ha) as [Hwl _], (mo_rx _ Ha) as [Hxl _].
    unfold a', received_part. destruct valid.
    + rewrite copy_bytes_ok by nia. cbn [mbind outcome_bind]. rewrite copy_bytes_ok by nia. reflexivity.
    + rewrite clear_bytes_ok by nia. cbn [mbind outcome_bind]. rewrite clear_bytes_ok by nia. reflexivity.
  - destruct (received_part_ok 59 64 k (si_buffer r) valid) as [Hw1 Hw2]; try lia; try assumption.
    destruct (received_part_ok (59 + 64 * k) 8 k (si_buffer r) valid) as [Hx1 Hx2]; try lia;
      try assumption.
    destruct Ha. split; try assumption; cbn [ma_rx ma_rwr a' update];
      apply (area_write _ _ _ k); assumption || lia.
Qed.

(** ** Changes of one device *)

(** A change of the bookkeeping of a device. *)
Lemma bookkeeping_inv g d f gd : has_group cfg g ->
  0 <= d < gs_num_slave_devices (setting_of_group cfg g) ->
  (forall dev, d_device_index (f dev) = d_device_index dev /\
     d_slave_station_no (f dev) = d_slave_station_no dev /\
     d_device_state (f dev) = d_device_state dev /\
     d_transmission_bit (f dev) = d_transmission_bit dev /\
     d_timeout_count (f dev) = d_timeout_count dev) ->
  group_base cfg g gd -> group_control cfg g gd ->
  group_base cfg g (update_device d f gd) /\ group_control cfg g (update_device d f gd).
Proof.
  intros Hg Hd Hf Hb Hc.
  pose proof (device_in_array cfg cfg_ok g Hg d gd (base_writable cfg g d gd Hd Hb)) as Hr.
  assert (Hat : forall d', 0 <= d' < gs_num_slave_devices (setting_of_group cfg g) ->
    device_at (update_device d f gd) d' = if Z.eqb d' d then f (device_at gd d') else device_at gd d').
  { intros d' Hd'. destruct (Z.eqb_spec d' d) as [->|Hne].
    - unfold device_at, update_device. cbn. apply list_lookup_total_alter_eq. lia.
    - unfold device_at, update_device. cbn. apply list_lookup_total_alter_ne. lia. }
  assert (Hst : forall d', 0 <= d' < gs_num_slave_devices (setting_of_group cfg g) ->
    d_device_state (device_at (update_device d f gd) d') = d_device_state (device_at gd d')).
  { intros d' Hd'. rewrite Hat by assumption. destruct (_ =? _); [apply Hf|reflexivity]. }
  split.
  - destruct Hb. split; try assumption; [cbn; rewrite length_alter; assumption|].
    intros d' Hd'. specialize (gb_devices d' Hd'). rewrite Hat by assumption.
    destruct (_ =? _); [|exact gb_devices]. destruct gb_devices.
    destruct (Hf (device_at gd d')) as (E1 & E2 & E3 & E4 & E5).
    split; rewrite ?E1, ?E2, ?E3, ?E4, ?E5; assumption.
  - unfold group_control in *. cbn [g_group_state update_device update].
    destruct (g_group_state gd); try exact Hc.
    + intros d' Hd'. rewrite Hst by assumption. auto.
    + destruct Hc as [Hl Hq]. split; [|exact Hq]. intros d' Hd'. rewrite Hst by assumption. auto.
    + destruct Hc as [Hl Hq]. split; [|exact Hq]. intros d' Hd'. rewrite Hst by assumption. auto.
    + destruct Hc as (Ht & Hsame & Hq). split; [exact Ht|]. split; [exact Hsame|].
      intros Hz d' Hd'. rewrite Hst by assumption. exact (Hq Hz d' Hd').
Qed.

Lemma keeps_bookkeeping g d f : has_device cfg g d ->
  (forall dev, d_device_index (f dev) = d_device_index dev /\
     d_slave_station_no (f dev) = d_slave_station_no dev /\
     d_device_state (f dev) = d_device_state dev /\
     d_transmission_bit (f dev) = d_transmission_bit dev /\
     d_timeout_count (f dev) = d_timeout_count dev) -> keeps (modify_device g d f).
Proof.
  intros [Hg Hd] Hf. apply keeps_modify. intros m Hm.
  apply (update_group_inv cfg cfg_ok); [exact Hg|exact Hm|].
  intros gd Hb Hc. apply bookkeeping_inv; assumption.
Qed.

Lemma keeps_count counter `{Field _ _ counter} g d : has_device cfg g d ->
  keeps (modify_device g d (count_in counter)).
Proof. intros Hd. apply keeps_bookkeeping; [exact Hd|]. repeat split. Qed.

(** ** Events of a device *)

(** The events that responses raise. *)
Definition response_event (event : clm_device_event) : Prop :=
  event = CLM_DEVICE_EVENT_RECEIVE_OK \/ event = CLM_DEVICE_EVENT_RECEIVE_ERROR \/
  event = CLM_DEVICE_EVENT_SLAVE_DUPLICATION.

Lemma response_event_state g event dev dev' : response_event event ->
  device_changed cfg g event dev dev' -> d_device_state dev <> CLM_DEVICE_STATE_MASTER_DOWN ->
  (d_device_state dev = CLM_DEVICE_STATE_LISTEN -> d_device_state dev' = CLM_DEVICE_STATE_LISTEN) /\
  (d_device_state dev = CLM_DEVICE_STATE_CYCLIC_SENT ->
     d_device_state dev' = CLM_DEVICE_STATE_LISTEN \/
     d_device_state dev' = CLM_DEVICE_STATE_CYCLIC_SENT) /\
  (d_device_state dev <> CLM_DEVICE_STATE_CYCLIC_SENDING ->
     d_device_state dev' <> CLM_DEVICE_STATE_CYCLIC_SENDING).
Proof.
  intros He Hc Hd. unfold device_changed in Hc.
  destruct (d_device_state dev) eqn:Hs; try (destruct Hd; reflexivity);
    destruct He as [-> |[-> | ->]]; cbn in Hc; rewrite Hc; cbn; rewrite ?Hs;
    repeat split; auto; discriminate.
Qed.

Lemma device_event_control g d event gd gd' o : has_group cfg g ->
  0 <= d < gs_num_slave_devices (setting_of_group cfg g) -> response_event event ->
  group_base cfg g gd -> group_control cfg g gd -> device_stepped cfg g d event gd gd' o ->
  group_control cfg g gd' /\ o = [].
Proof.
  intros Hg Hd He Hb Hc Hstep.
  pose proof (device_stepped_device cfg cfg_ok g Hg _ _ _ _ _ Hd Hb Hstep) as [_ Hother].
  pose proof (device_stepped_changed cfg cfg_ok g Hg _ _ _ _ _ Hd Hb Hstep) as Hch.
  pose proof (device_stepped_rest cfg cfg_ok g Hg _ _ _ _ _ Hd Hb Hstep) as ([] & _ & _).
  pose proof (proj1 (di_state _ _ _ (gb_devices _ _ _ Hb d Hd))) as Hdown.
  destruct (response_event_state g event _ _ He Hch Hdown) as (Hl & Hsent & Hsending).
  assert (Hsil : silent_event event) by (destruct He as [-> |[-> | ->]]; split; discriminate).
  split; [|apply (device_stepped_silent cfg g d event gd gd' o Hsil Hdown Hstep)].
  unfold group_control in *. rewrite sg_state, ?sg_seq, ?sg_wait, ?sg_constant.
  destruct (g_group_state gd); try exact Hc.
  - intros d' Hd'. destruct (Z.eq_dec d' d) as [->|Hne]; [auto|]. rewrite Hother by lia. auto.
  - destruct Hc as [Hc Hq]. split; [|exact Hq].
    intros d' Hd'. destruct (Z.eq_dec d' d) as [->|Hne]; [auto|]. rewrite Hother by lia. auto.
  - destruct Hc as [Hc Hq]. split; [|exact Hq].
    intros d' Hd'. destruct (Z.eq_dec d' d) as [->|Hne]; [|rewrite Hother by lia; auto].
    destruct (Hc d Hd) as [E|E]; auto.
  - destruct Hc as (Ht & Hsame & Hq). split; [exact Ht|]. split; [exact Hsame|].
    intros Hz d' Hd'. specialize (Hq Hz d' Hd').
    destruct (Z.eq_dec d' d) as [->|Hne]; [auto|]. rewrite Hother by lia. exact Hq.
Qed.

(** A device event, as a change of the group in the instance. *)
Lemma device_event_wp m g d event : has_device cfg g d -> master_inv cfg m ->
  event <> CLM_DEVICE_EVENT_LAST ->
  wp (clm_iefb_device_fsm_event g d event) (fun _ m' o => exists gd',
    m' = put_group g gd' m /\ device_stepped cfg g d event (group_at m g) gd' o) m.
Proof.
  intros [Hg Hd] Hm He. destruct (proj2 Hm g Hg) as [Hb _].
  pose proof (device_fsm_event_ok cfg cfg_ok g Hg m (proj1 Hm) d event _ Hd Hb He) as Hw.
  unfold gwp in Hw. rewrite put_group_same in Hw
    by exact (groups_length cfg cfg_ok m g (proj1 Hm) Hg). exact Hw.
Qed.

Lemma keeps_device_event g d event : has_device cfg g d -> response_event event ->
  keeps (clm_iefb_device_fsm_event g d event).
Proof.
  intros Hgd He m Hm. pose proof Hgd as [Hg Hd]. destruct (proj2 Hm g Hg) as [Hb Hc].
  eapply wp_mono; [apply (device_event_wp m g d event Hgd Hm)|].
  { destruct He as [-> |[-> | ->]]; discriminate. }
  intros [] m' o (gd' & -> & Hstep).
  pose proof (device_stepped_base cfg cfg_ok g Hg _ _ _ _ _ Hd Hb Hstep) as Hb'.
  destruct (device_event_control g d event _ _ _ Hg Hd He Hb Hc Hstep) as [Hc' ->].
  split; [|apply outputs_ok_nil]. replace m with (with_env (env_of m) m) by apply with_env_of.
  apply put_group_inv; [exact cfg_ok|exact Hg|apply Hm|apply master_others, Hm|exact Hb'|exact Hc'].
Qed.

(** ** A response is stored *)

Lemma device_in_base m g d : has_device cfg g d -> master_inv cfg m ->
  device_inv (setting_of_group cfg g) d (device_at (group_at m g) d).
Proof. intros [Hg Hd] Hm. apply (gb_devices _ _ _ (proj1 (proj2 Hm g Hg)) d Hd). Qed.

(** A new memory area of a group. *)
Lemma keeps_memory g a : has_group cfg g -> memory_ok a ->
  keeps (modify_group g (fun group_data => group_data <| g_memory_area := a |>)).
Proof.
  intros Hg Ha. apply keeps_modify. intros m Hm. apply (update_group_inv cfg cfg_ok); [exact Hg|exact Hm|].
  intros gd [] Hc. split; [split; assumption|exact Hc].
Qed.

Lemma complete_pre g gd : group_base cfg g gd -> group_control cfg g gd ->
  clm_iefb_group_have_received_from_all_devices (setting_of_group cfg g) gd = true ->
  group_pre cfg g CLM_GROUP_EVENT_LINKSCAN_COMPLETE gd.
Proof.
  intros Hb Hc Hr. unfold group_pre. destruct (g_group_state gd) eqn:Hs; try exact Hc.
  split; [exact Hc|]. unfold group_control in Hc. rewrite Hs in Hc.
  exact (received_from_all_none_sending cfg g _ Hb (proj2 (proj2 Hc)) Hr).
Qed.

Lemma keeps_complete g now : has_group cfg g -> keeps (complete_link_scan now g).
Proof.
  intros Hg. apply keeps_get. intros m Hm. rewrite (mb_config _ _ (proj1 Hm)).
  destruct (proj2 Hm g Hg) as [Hb Hc].
  apply wp_when; intros Hr; [|split; [exact Hm|apply outputs_ok_nil]].
  apply (group_event_inv clock_ok cfg cfg_ok);
    [exact Hg|apply Hm|apply master_others, Hm|exact Hb|apply (group_control_started cfg g), Hc| |exact I].
  apply complete_pre; assumption.
Qed.

Lemma keeps_response_values g d r : has_device cfg g d -> keeps (store_response_values g d r).
Proof.
  intros Hgd. pose proof Hgd as [Hg Hd]. apply keeps_bind.
  - apply keeps_modify. intros m Hm. apply (update_group_inv cfg cfg_ok); [exact Hg|exact Hm|].
    intros gd Hb Hc. apply bookkeeping_inv; try assumption. repeat split.
  - intros []. apply keeps_get. intros m Hm.
    apply keeps_bookkeeping; [exact Hgd| |exact Hm]. repeat split.
Qed.

(** The areas of a group after the response of a device. *)
Definition received_areas (gd : clm_group_data) (gs : clm_group_setting) (d : Z) (buffer : list Z)
  : clm_group_memory_area :=
  let pos := stations_before gs d in
  let k := ds_num_occupied_stations (setting_of_device gs d) in
  let valid := d_transmission_bit (device_at gd d) in
  (g_memory_area gd)
    <| ma_rwr ::= splice (Z.to_nat (64 * pos)) (received_part 59 64 k buffer valid) |>
    <| ma_rx ::= splice (Z.to_nat (8 * pos)) (received_part (59 + 64 * k) 8 k buffer valid) |>.

Lemma store_data_wp m g d r recv_len remote_ip buffer Q :
  let gs := setting_of_group cfg g in
  has_device cfg g d -> master_inv cfg m -> bytes buffer -> length buffer = 1500%nat ->
  response_ok buffer recv_len remote_ip r ->
  si_number_of_occupied r = ds_num_occupied_stations (setting_of_device gs d) ->
  (memory_ok (received_areas (group_at m g) gs d buffer) ->
   Q tt (update_group g (fun gd => gd <| g_memory_area := received_areas (group_at m g) gs d buffer |>) m) []) ->
  wp (store_response_data g d r (setting_of_device gs d)) Q m.
Proof.
  intros gs [Hg Hd] Hm Hby Hl Hr Hk HQ. unfold store_response_data.
  apply wp_bind. unfold get_group at 1. wp_steps. cbn [app].
  pose proof (cok_group _ cfg_ok g Hg) as Hgs.
  pose proof (device_in_base m g d (conj Hg Hd) Hm) as Hdev.
  pose proof (stations_inside cfg _ Hgs d Hd) as [Hpos Hin]. pose proof (go_stations _ _ Hgs) as Htot.
  pose proof clm_max_stations_ok as Hmax. pose proof (device_stations cfg _ Hgs d Hd) as Hkd.
  rewrite (di_station _ _ _ Hdev). fold gs in Hpos, Hin, Htot, Hkd |- *.
  destruct (store_incoming_ok (g_memory_area (group_at m g)) r (stations_before gs d)
    (ds_num_occupied_stations (setting_of_device gs d))
    (d_transmission_bit (device_at (group_at m g) d))) as (a' & Hrun & Ha' & Hok);
    rewrite ?(ro_buffer _ _ _ _ Hr), <- ?Hk; try assumption; try lia; try apply Hr.
  { apply (gb_memory _ _ _ (proj1 (proj2 Hm g Hg))). }
  rewrite (ro_buffer _ _ _ _ Hr) in Ha'. rewrite Hk, Hrun. subst a'. wp_steps. apply HQ, Hok.
Qed.

Lemma keeps_response_data g d r recv_len remote_ip buffer : has_device cfg g d ->
  bytes buffer -> length buffer = 1500%nat -> response_ok buffer recv_len remote_ip r ->
  si_number_of_occupied r = ds_num_occupied_stations (setting_of_device (setting_of_group cfg g) d) ->
  keeps (store_response_data g d r (setting_of_device (setting_of_group cfg g) d)).
Proof.
  intros Hgd Hby Hl Hr Hk m Hm.
  eapply store_data_wp; [exact Hgd|exact Hm|exact Hby|exact Hl|exact Hr|exact Hk|].
  intros Ha. exact (keeps_memory g _ (proj1 Hgd) Ha m Hm).
Qed.

Lemma keeps_store_response now g d end_code r recv_len remote_ip buffer : has_device cfg g d ->
  bytes buffer -> length buffer = 1500%nat -> response_ok buffer recv_len remote_ip r ->
  si_number_of_occupied r = ds_num_occupied_stations (setting_of_device (setting_of_group cfg g) d) ->
  keeps (store_response now g d end_code r (setting_of_device (setting_of_group cfg g) d)).
Proof.
  intros Hgd Hby Hl Hr Hk. pose proof Hgd as [Hg Hd].
  apply keeps_bind; [apply keeps_response_values, Hgd|]. intros []. apply keeps_bind.
  - eapply keeps_response_data; eassumption.
  - intros []. unfold response_fsm_events. destruct (_ =? _).
    + apply (keeps_group_event_all clock_ok cfg cfg_ok). right; right. reflexivity.
    + apply keeps_bind; [|intros []; apply keeps_complete, Hg].
      apply keeps_device_event; [exact Hgd|]. destruct (_ =? _); [left|right; left]; reflexivity.
Qed.

(** ** Callbacks *)

Lemma keeps_slaveinfo_callback g d end_code slave_err_code info :
  keeps (clm_iefb_trigger_slaveinfo_callback g d end_code slave_err_code info).
Proof.
  apply keeps_get. intros m Hm. apply keeps_when; [|exact Hm]. apply keeps_emit. exact I.
Qed.

Lemma keeps_alarmframe_callback g d end_code slave_err_code info :
  keeps (clm_iefb_trigger_alarmframe_callback g d end_code slave_err_code info).
Proof.
  apply keeps_get. intros m Hm. apply keeps_when; [|exact Hm]. apply keeps_emit. exact I.
Qed.

(** Changes outside of the groups. *)
Lemma keeps_outside f :
  (forall m, master_base cfg m -> master_base cfg (f m) /\ m_groups (f m) = m_groups m) ->
  keeps (modify f).
Proof.
  intros Hf. apply keeps_modify. intros m [Hm Hall]. destruct (Hf m Hm) as [Hb Hg].
  split; [exact Hb|]. intros g Hgg. unfold group_at. rewrite Hg. exact (Hall g Hgg).
Qed.

Lemma keeps_error_callback now message ip argument :
  keeps (clm_iefb_trigger_error_callback now message ip argument).
Proof.
  apply keeps_get. intros m Hm.
  destruct (cl_limiter_should_run_now _ _ _) as [run limiter].
  apply (keeps_bind cfg); [| |exact Hm].
  - apply keeps_outside. intros m' []. split; [split; assumption|reflexivity].
  - intros []. apply keeps_when, keeps_emit. exact I.
Qed.

(** ** Response frames *)

Lemma find_device gs ip d : clm_iefb_calc_slave_device_index gs ip = Some d ->
  0 <= d < gs_num_slave_devices gs /\ ds_slave_id (setting_of_device gs d) = ip.
Proof.
  unfold clm_iefb_calc_slave_device_index. intros Hf. apply find_some in Hf as [Hin Heq].
  apply list_elem_of_In, elem_of_seqZ in Hin. split; [lia|]. apply Z.eqb_eq, Heq.
Qed.

Lemma duplication_is_response : response_event CLM_DEVICE_EVENT_SLAVE_DUPLICATION.
Proof. right; right. reflexivity. Qed.

#[local] Hint Resolve keeps_ret keeps_count keeps_error_callback keeps_slaveinfo_callback
  keeps_alarmframe_callback keeps_when duplication_is_response keeps_device_event : clink.

Ltac keeps_steps := repeat first [solve [auto with clink] | apply keeps_bind; [|intros []]].

Lemma keeps_report_errors now g d end_code ip : has_device cfg g d ->
  keeps (report_errors now g d end_code ip).
Proof.
  intros Hgd. unfold report_errors, count_alarm_frame. apply keeps_bind; [|intros []];
    apply keeps_when; keeps_steps.
Qed.

Lemma keeps_report_changes g d end_code err info latest : has_device cfg g d ->
  keeps (report_changes g d end_code err info latest).
Proof.
  intros Hgd. unfold report_changes, count_alarm_frame. apply keeps_bind; [|intros []];
    apply keeps_when; keeps_steps.
Qed.

Lemma keeps_device_response now g d remote_ip r recv_len buffer : has_device cfg g d ->
  bytes buffer -> length buffer = 1500%nat -> response_ok buffer recv_len remote_ip r ->
  keeps (handle_device_response now g d remote_ip r
           (setting_of_device (setting_of_group cfg g) d)).
Proof.
  intros Hgd Hby Hl Hr. apply keeps_bind; [auto with clink|]. intros [].
  intros m Hm. apply wp_bind. unfold get_group at 1. wp_steps. cbn [app].
  generalize (group_at m g). revert m Hm. intros m Hm gd. revert m Hm.
  match goal with |- forall m, _ -> wp ?P ?Q m => change (keeps P) end. unfold count_invalid_frame.
  destruct (negb (d_enabled _)); [keeps_steps|]. destruct (_ && _ && _); [keeps_steps|].
  destruct (_ && _); [keeps_steps|]. apply keeps_bind; [apply keeps_report_errors, Hgd|]. intros [].
  destruct (Z.eqb_spec (si_number_of_occupied r)
    (ds_num_occupied_stations (setting_of_device (setting_of_group cfg g) d))) as [Hk|Hk];
    cbn [negb]; [|keeps_steps].
  apply keeps_bind; [apply keeps_report_changes, Hgd|]. intros [].
  apply keeps_bind; [|intros []; apply keeps_ret].
  eapply keeps_store_response; eassumption.
Qed.

Lemma keeps_response_frame now buffer recv_len remote_ip remote_port :
  bytes buffer -> length buffer = 1500%nat -> 0 <= recv_len <= CL_BUFFER_LEN ->
  ~ stops_parser buffer recv_len remote_ip ->
  keeps (clm_iefb_handle_response_frame now buffer recv_len remote_ip remote_port).
Proof.
  intros Hby Hl Hlen Hno. apply keeps_get. intros m Hm. rewrite (config_groups_eq cfg m Hm).
  rewrite (mb_config _ _ (proj1 Hm)).
  destruct (_ =? CL_IPADDR_INVALID); [apply keeps_ret, Hm|].
  destruct (parse_response_ok buffer recv_len remote_ip remote_port now Hlen Hno)
    as (parsed & -> & Hparsed).
  apply wp_bind, wp_lift. cbn [app]. destruct parsed as [r|]; [|apply keeps_ret, Hm].
  destruct Hparsed as [Hr _]. pose proof (ro_group _ _ _ _ Hr) as Hgno.
  destruct (Z.ltb_spec (sh_number_of_groups (mc_hier cfg))
    (sdh_group_no (fs_cyclic_data_header (si_full_headers r)))); [apply keeps_ret, Hm|].
  destruct (clm_iefb_calc_slave_device_index _ remote_ip) as [d|] eqn:Hd; [|apply keeps_ret, Hm].
  apply find_device in Hd as [Hd _].
  eapply keeps_device_response; try eassumption. split; [unfold has_group; lia|exact Hd].
Qed.

(** ** All frames *)

Lemma keeps_request_frame now remote_ip : keeps (clm_iefb_handle_request_frame now remote_ip).
Proof.
  apply keeps_bind; [|intros []; apply keeps_bind; [|intros []; apply keeps_ret]].
  - apply keeps_outside. intros m []. split; [split; assumption|reflexivity].
  - apply (keeps_group_event_all clock_ok cfg cfg_ok). right; left. reflexivity.
Qed.

Lemma keeps_input_frame now buffer recv_len remote_ip remote_port :
  bytes buffer -> length buffer = 1500%nat -> 0 <= recv_len <= CL_BUFFER_LEN ->
  ~ fatal buffer recv_len remote_ip ->
  keeps (clm_iefb_handle_input_frame now buffer recv_len remote_ip remote_port).
Proof.
  intros Hby Hl Hlen Hno. apply keeps_get. intros m Hm.
  destruct (remote_ip =? _); [apply keeps_ret, Hm|].
  destruct (cl_iefb_parse_response_header _ _) as [header|] eqn:Hhd; [|apply keeps_ret, Hm].
  destruct (cl_iefb_validate_response_header header recv_len) eqn:Hval; cbn [negb].
  { apply keeps_response_frame; try assumption. intros Hs. apply Hno. split; [eauto|exact Hs]. }
  destruct (cl_iefb_parse_request_header _ _); [|apply keeps_ret, Hm].
  destruct (negb _); [apply keeps_ret, Hm|]. destruct (_ || _); [apply keeps_ret, Hm|].
  apply keeps_request_frame, Hm.
Qed.

Lemma keeps_receive_buffer dg : datagram_ok dg ->
  keeps (modify (fun clm => clm <| m_cciefb_receivebuf ::= splice 0 (dg_bytes dg) |>)).
Proof.
  intros (Hby & Hlen & _). unfold CL_BUFFER_LEN in Hlen. apply keeps_outside. intros m [].
  split; [|reflexivity]. split; try assumption.
  cbn [m_cciefb_receivebuf update]. destruct mb_buf as [Hl Hb]. unfold CL_BUFFER_LEN in *.
  rewrite length_splice by lia. auto with clink.
Qed.

(** A datagram is handled in the receive buffer. *)
Lemma wp_datagram now dg Q m : datagram_ok dg -> master_inv cfg m ->
  let m1 := m <| m_cciefb_receivebuf ::= splice 0 (dg_bytes dg) |> in
  let len := Z.of_nat (length (dg_bytes dg)) in
  (master_inv cfg m1 -> bytes (m_cciefb_receivebuf m1) -> length (m_cciefb_receivebuf m1) = 1500%nat ->
   0 <= len <= CL_BUFFER_LEN -> ~ fatal (m_cciefb_receivebuf m1) len (dg_remote_ip dg) ->
   wp (when (0 <? len) (clm_iefb_handle_input_frame now (m_cciefb_receivebuf m1) len (dg_remote_ip dg)
         (dg_remote_port dg);; mret tt)) Q m1) ->
  wp (handle_datagram now dg) Q m.
Proof.
  intros Hdg Hm m1 len Hk. pose proof (keeps_receive_buffer dg Hdg m Hm) as [Hm1 _].
  destruct Hdg as (_ & Hlen & Hno). apply wp_bind, wp_modify. cbn [app]. fold m1 in Hm1 |- *.
  destruct (mb_buf _ _ (proj1 Hm1)) as [Hl Hb]. apply wp_bind, wp_get. cbn [app]. fold len.
  eapply wp_mono; [apply Hk; try assumption|]; [unfold len; lia| |auto].
  intros Hf. exact (Hno (fatal_received _ _ _ Hf)).
Qed.

Lemma keeps_datagram now dg : datagram_ok dg -> keeps (handle_datagram now dg).
Proof.
  intros Hdg m Hm. apply wp_datagram; [exact Hdg|exact Hm|]. intros Hm1 Hb Hl Hlen Hno.
  revert Hm1. match goal with |- _ -> wp ?P _ ?m1 => revert Hb Hl Hno; generalize (m_cciefb_receivebuf m1) end.
  intros buffer Hb Hl Hno Hm1. apply keeps_when; [|exact Hm1].
  apply keeps_bind; [apply keeps_input_frame; assumption|intros []; apply keeps_ret].
Qed.

Lemma keeps_receive_loop now queue : Forall datagram_ok queue -> keeps (receive_loop now queue).
Proof.
  induction 1 as [|dg queue Hdg Hq IH]; cbn [receive_loop]; [apply keeps_ret|].
  apply keeps_bind; [apply keeps_datagram, Hdg|]. intros []. destruct (0 <? _); [exact IH|].
  apply keeps_ret.
Qed.

Lemma keeps_periodic arbitration queue now :
  (forall dg, arbitration = Some dg -> datagram_ok dg) -> Forall datagram_ok queue ->
  keeps (clm_iefb_periodic arbitration queue now).
Proof.
  intros Ha Hq. unfold clm_iefb_periodic. apply keeps_bind; [|intros []].
  { apply keeps_outside. intros m []. split; [split; assumption|reflexivity]. }
  apply keeps_get. intros m Hm. apply (keeps_bind cfg); [|intros []|exact Hm].
  { apply keeps_when. apply keeps_bind;
      [|intros []; apply (keeps_group_event_all clock_ok cfg cfg_ok); left; reflexivity].
    apply keeps_outside. intros m' []. split; [split; assumption|reflexivity]. }
  apply keeps_bind; [apply (keeps_monitor_timers clock_ok cfg cfg_ok)|intros []].
  apply keeps_get. intros m1 Hm1. apply (keeps_bind cfg); [|intros []|exact Hm1].
  - apply keeps_when. destruct arbitration as [dg|]; [|apply keeps_ret]. apply keeps_datagram. auto.
  - apply keeps_receive_loop, Hq.
Qed.

End MasterResponse.
