(* ===== verification/MasterSettings.v ===== *)
(** * Access to the master at run time

    The functions with which the application reads and writes cyclic data
    and changes settings leave the invariant in place, for the groups,
    devices and signal numbers that the configuration has; and a signal is
    read back as it was written, without touching any other signal. *)

From S2P Require Import Prelude Packed Signals Timer Limiter Util Types Iefb IefbFacts IefbRoundtrip.
From S2P Require Import Slmp Master MasterIefb MasterConfig MasterInv MasterFrame MasterDevice.
From S2P Require Import MasterGroup MasterScan MasterFsm MasterEvents MasterControl MasterSafety.
From S2P Require Import MasterResponse.

Section MasterSettings.
Context `{ClmOptions, Clal, ClalClock}.
Context (clock_ok : forall now, is_u64 (clal_get_unix_timestamp_ms now)).
Context (cfg : clm_cfg) (cfg_ok : clm_config_ok cfg).

Abbreviation keeps := (keeps cfg).

(** Stations of a device in its group. *)
Definition device_pos (g d : Z) : Z := stations_before (setting_of_group cfg g) d.
Definition device_size (g d : Z) : Z :=
  ds_num_occupied_stations (setting_of_device (setting_of_group cfg g) d).

Lemma device_inside g d : has_device cfg g d ->
  0 <= device_pos g d /\ 1 <= device_size g d /\
  device_pos g d + device_size g d <= CLM_MAX_OCCUPIED_STATIONS_PER_GROUP.
Proof.
  intros [Hg Hd]. pose proof (cok_group _ cfg_ok g Hg) as Hgs.
  pose proof (stations_inside cfg _ Hgs d Hd). pose proof (device_stations cfg _ Hgs d Hd).
  pose proof (go_stations _ _ Hgs). unfold device_pos, device_size. lia.
Qed.

Lemma occupied_and_position m g d : master_inv cfg m -> has_device cfg g d ->
  clm_iefb_get_occupied_and_position m g d = (device_size g d, device_pos g d).
Proof.
  intros Hm Hgd. pose proof (device_inside g d Hgd) as Hin. pose proof Hgd as [Hg Hd].
  unfold clm_iefb_get_occupied_and_position. rewrite (config_groups_eq cfg m Hm).
  destruct (Z.leb_spec (sh_number_of_groups (mc_hier cfg)) g); [unfold has_group in Hg; lia|].
  rewrite (mb_config _ _ (proj1 Hm)).
  destruct (Z.leb_spec (gs_num_slave_devices (setting_of_group cfg g)) d); [lia|].
  rewrite (di_station _ _ _ (device_in_base cfg m g d Hgd Hm)).
  unfold device_size, device_pos in *. rewrite u16_id; [f_equal; lia|].
  pose proof clm_max_stations_ok. unfold is_u16. lia.
Qed.

(** Devices that do not exist have no area. *)
Lemma no_position m g d : master_inv cfg m -> 0 <= g -> 0 <= d -> ~ has_device cfg g d ->
  clm_iefb_get_occupied_and_position m g d = (0, 0).
Proof.
  intros Hm Hg Hd Hno. unfold clm_iefb_get_occupied_and_position.
  rewrite (config_groups_eq cfg m Hm), (mb_config _ _ (proj1 Hm)).
  destruct (Z.leb_spec (sh_number_of_groups (mc_hier cfg)) g); [reflexivity|].
  destruct (Z.leb_spec (gs_num_slave_devices (setting_of_group cfg g)) d); [reflexivity|].
  destruct Hno. split; [unfold has_group|]; lia.
Qed.

(** The four functions that return an area of a device. *)
Definition device_area (area : signal_area) (clm : clm) : Z -> Z -> outcome (option area_pointer * Z) :=
  first_device_area (first_area area clm) clm.

Lemma checked_area_eq area m g d areanumber : master_inv cfg m -> has_device cfg g d ->
  0 <= areanumber < device_size g d ->
  checked_area (device_area area) g d areanumber m =
    Done ((area_of area (g_memory_area (group_at m g)), device_pos g d + areanumber), m, []).
Proof.
  intros Hm Hgd Ha. pose proof (device_inside g d Hgd) as Hin.
  unfold checked_area, device_area, first_device_area.
  cbv beta iota delta [mbind prog_bind get].
  rewrite (occupied_and_position m g d Hm Hgd).
  unfold first_area. rewrite (config_groups_eq cfg m Hm).
  destruct (Z.eqb_spec (device_size g d) 0); [lia|].
  destruct (Z.leb_spec (sh_number_of_groups (mc_hier cfg)) g);
    [destruct Hgd as [Hg _]; unfold has_group in Hg; lia|].
  cbn [lift_outcome]. unfold cc_assert. destruct (Z.eqb_spec (device_size g d) 0); [lia|].
  cbn [negb]. destruct (Z.ltb_spec areanumber (device_size g d)); [reflexivity|lia].
Qed.

(** ** The areas of a group *)

Lemma memory_of m g : master_inv cfg m -> has_group cfg g ->
  memory_ok (g_memory_area (group_at m g)).
Proof. intros Hm Hg. apply (gb_memory _ _ _ (proj1 (proj2 Hm g Hg))). Qed.

Lemma store_area_ok size off data mem : 0 <= size -> area_ok size mem -> 0 <= off ->
  off + Z.of_nat (length data) <= CLM_MAX_OCCUPIED_STATIONS_PER_GROUP * size -> bytes data ->
  store off data mem = Done (splice (Z.to_nat off) data mem) /\
  area_ok size (splice (Z.to_nat off) data mem).
Proof.
  intros Hs [Hl Hb] Ho Hfit Hd. pose proof clm_max_stations_ok.
  split; [apply store_ok; lia|]. split; [|auto with clink]. rewrite length_splice; [exact Hl|]. lia.
Qed.

(** ** Reading *)

(** The cyclic data of a device in an area: its bits and registers. *)
Definition device_bit (area : signal_area) (m : clm) (g d n : Z) : bool :=
  bit_in (drop (Z.to_nat (8 * device_pos g d)) (area_of area (g_memory_area (group_at m g)))) n.
Definition device_register (area : signal_area) (m : clm) (g d n : Z) : Z :=
  register_in (drop (Z.to_nat (64 * device_pos g d)) (area_of area (g_memory_area (group_at m g)))) n.

(** Numbers of the signals of a device. *)
Definition bit_number (g d n : Z) : Prop := 0 <= n < 64 * device_size g d.
Definition register_number (g d n : Z) : Prop := 0 <= n < 32 * device_size g d.

Lemma get_bit_value area m g d n : master_inv cfg m -> has_device cfg g d -> bit_number g d n ->
  area_ok 8 (area_of area (g_memory_area (group_at m g))) ->
  get_area_bit (device_area area) g d n m = Done (device_bit area m g d n, m, []).
Proof.
  intros Hm Hgd Hn [Hl _]. pose proof (device_inside g d Hgd) as Hin. unfold bit_number in Hn.
  unfold get_area_bit. rewrite bit_areanumber_parts by lia.
  cbv beta iota delta [mbind prog_bind].
  rewrite (checked_area_eq area m g d _ Hm Hgd) by zlia. unfold sizeof_rx.
  run_prog. cbn [fst snd area_of].
  replace ((device_pos g d + n / 64) * 8 + n / 8 mod 8)
    with (8 * device_pos g d + n / 8) by (pose proof (bit_position n ltac:(lia)); lia).
  rewrite load_ok by zlia. change (Z.to_nat 1) with 1%nat. rewrite byte_of_slice by zlia.
  rewrite land_bit_testbit by (apply Z.mod_pos_bound; lia).
  unfold device_bit, bit_in. rewrite byte_at_drop by (try apply Z.div_pos; lia).
  do 5 f_equal. zlia.
Qed.

Lemma get_register_value area m g d n : master_inv cfg m -> has_device cfg g d ->
  register_number g d n -> area_ok 64 (area_of area (g_memory_area (group_at m g))) ->
  get_area_value (device_area area) g d n m = Done (device_register area m g d n, m, []).
Proof.
  intros Hm Hgd Hn [Hl _]. pose proof (device_inside g d Hgd) as Hin. unfold register_number in Hn.
  unfold get_area_value. rewrite register_areanumber_parts.
  cbv beta iota delta [mbind prog_bind].
  rewrite (checked_area_eq area m g d _ Hm Hgd) by zlia. unfold sizeof_rwr.
  run_prog. cbn [fst snd area_of].
  replace ((device_pos g d + n / 32) * 64 + 2 * (n mod 32))
    with (64 * device_pos g d + 2 * n) by (pose proof (register_position n); lia).
  rewrite load_ok by lia. unfold device_register, register_in. rewrite slice_of_drop.
  rewrite Z2Nat.inj_add by lia. reflexivity.
Qed.

(** ** Writing *)

Definition with_memory (g : Z) (f : clm_group_memory_area -> clm_group_memory_area) (m : clm) : clm :=
  update_group g (fun gd => gd <| g_memory_area ::= f |>) m.

Lemma memory_inv g f m : has_group cfg g -> master_inv cfg m ->
  memory_ok (f (g_memory_area (group_at m g))) -> master_inv cfg (with_memory g f m).
Proof.
  intros Hg Hm Hf. pose proof (groups_length cfg cfg_ok m g (proj1 Hm) Hg) as Hlen.
  unfold with_memory. rewrite (modify_group_put cfg cfg_ok) by (assumption || apply Hm).
  destruct (proj2 Hm g Hg) as [[] Hc].
  apply put_group_inv; [exact cfg_ok|exact Hg|apply Hm|apply master_others, Hm| |exact Hc].
  split; assumption.
Qed.

Lemma set_ry_value m g d n v : master_inv cfg m -> has_device cfg g d -> bit_number g d n ->
  let area := ma_ry (g_memory_area (group_at m g)) in
  let off := 8 * device_pos g d + n / 8 in
  let ry := set_byte area off (put_bit (byte_at area off) (n mod 8) v) in
  clm_iefb_set_ry_bit g d n v m = Done (tt, with_memory g (fun a => a <| ma_ry := ry |>) m, []) /\
  area_ok 8 ry.
Proof.
  intros Hm Hgd Hn area off ry. pose proof (device_inside g d Hgd) as Hin. unfold bit_number in Hn.
  pose proof (memory_of m g Hm (proj1 Hgd)) as Ha. destruct (mo_ry _ Ha) as [Hl Hb].
  fold area in Hl, Hb. assert (Hoff : 0 <= off < CLM_MAX_OCCUPIED_STATIONS_PER_GROUP * 8)
    by (unfold off; zlia).
  destruct (store_area_ok 8 off [put_bit (byte_at area off) (n mod 8) v] area) as [Hst Hok];
    [lia|split; assumption|lia|cbn [length]; lia|
     constructor; [apply put_bit_byte|constructor]|].
  split; [|exact Hok].
  unfold clm_iefb_set_ry_bit. change (clm_iefb_get_first_device_ry_area) with (device_area AREA_RY).
  rewrite bit_areanumber_parts by lia.
  cbv beta iota delta [mbind prog_bind].
  rewrite (checked_area_eq AREA_RY m g d _ Hm Hgd) by zlia. unfold sizeof_ry. run_prog. cbn [fst snd area_of].
  replace ((device_pos g d + n / 64) * 8 + n / 8 mod 8) with off
    by (unfold off; pose proof (bit_position n ltac:(lia)); lia).
  fold area. rewrite load_ok by lia. change (Z.to_nat 1) with 1%nat.
  rewrite byte_of_slice by lia. rewrite Z2Nat.id by lia.
  fold (put_bit (byte_at area off) (n mod 8) v). rewrite Hst. reflexivity.
Qed.

Lemma set_rww_value m g d n v : master_inv cfg m -> has_device cfg g d -> register_number g d n ->
  let off := 64 * device_pos g d + 2 * n in
  let rww := splice (Z.to_nat off) (c_enc c_u16le v) (ma_rww (g_memory_area (group_at m g))) in
  clm_iefb_set_rww_value g d n v m = Done (tt, with_memory g (fun a => a <| ma_rww := rww |>) m, []) /\
  area_ok 64 rww.
Proof.
  intros Hm Hgd Hn off rww. pose proof (device_inside g d Hgd) as Hin. unfold register_number in Hn.
  pose proof (memory_of m g Hm (proj1 Hgd)) as Ha.
  destruct (store_area_ok 64 off (c_enc c_u16le v) (ma_rww (g_memory_area (group_at m g))))
    as [Hst Hok]; [lia|apply Ha|unfold off; lia| |apply bytes_le_split|].
  { cbn [c_enc c_u16le]. rewrite length_le_split. unfold off. lia. }
  split; [|exact Hok]. unfold clm_iefb_set_rww_value.
  change (clm_iefb_get_first_device_rww_area) with (device_area AREA_RWW). rewrite register_areanumber_parts.
  cbv beta iota delta [mbind prog_bind].
  rewrite (checked_area_eq AREA_RWW m g d _ Hm Hgd) by zlia. unfold sizeof_rww. run_prog. cbn [fst snd area_of].
  replace ((device_pos g d + n / 32) * 64 + 2 * (n mod 32)) with off
    by (unfold off; pose proof (register_position n); lia).
  rewrite Hst. reflexivity.
Qed.

(** ** Stores of the application *)

(** Bytes of a station in an area. *)
Definition station_size (area : signal_area) : Z :=
  match area with AREA_RX | AREA_RY => 8 | AREA_RWR | AREA_RWW => 64 end.
Definition with_area (area : signal_area) (mem : list Z) (a : clm_group_memory_area)
  : clm_group_memory_area :=
  match area with
  | AREA_RX => a <| ma_rx := mem |>
  | AREA_RY => a <| ma_ry := mem |>
  | AREA_RWR => a <| ma_rwr := mem |>
  | AREA_RWW => a <| ma_rww := mem |>
  end.

(** The application stores bytes in an area of a group, through a pointer
    that the API gave it. *)
Definition store_area (area : signal_area) (g off : Z) (data : list Z) : clm_prog unit :=
  group_data ← get_group g;
  mem ← lift_outcome (store off data (area_of area (g_memory_area group_data)));
  modify_group g (fun group_data => group_data <| g_memory_area ::= with_area area mem |>).

Lemma area_of_ok area a : memory_ok a -> area_ok (station_size area) (area_of area a).
Proof. intros []. destruct area; assumption. Qed.

Lemma with_area_ok area mem a : memory_ok a -> area_ok (station_size area) mem ->
  memory_ok (with_area area mem a).
Proof. intros [] Hmem. destruct area; split; assumption. Qed.

(** ** All signals at once *)

(** The position of a signal in the area of its group, [size] signals per
    station, tells the device and the number. *)
Lemma signal_position size g d n d' n' : 0 < size -> has_device cfg g d -> has_device cfg g d' ->
  0 <= n < size * device_size g d -> 0 <= n' < size * device_size g d' ->
  (size * device_pos g d' + n' =? size * device_pos g d + n) =
    bool_decide (d' = d /\ n' = n).
Proof.
  intros Hs Hd Hd' Hn Hn'. destruct (decide (d' = d)) as [->|Hne].
  - destruct (Z.eqb_spec (size * device_pos g d + n') (size * device_pos g d + n));
      [rewrite bool_decide_eq_true_2 by lia|rewrite bool_decide_eq_false_2 by lia]; reflexivity.
  - rewrite bool_decide_eq_false_2 by tauto. apply Z.eqb_neq.
    destruct (stations_disjoint cfg cfg_ok g (proj1 Hd) d d' (proj2 Hd) (proj2 Hd') ltac:(lia))
      as [Hx|Hx]; fold (device_pos g d) (device_pos g d') (device_size g d) (device_size g d') in Hx;
      apply (Z.mul_le_mono_nonneg_l _ _ size) in Hx; lia.
Qed.

Lemma device_bit_position area m g d n : has_device cfg g d -> bit_number g d n ->
  device_bit area m g d n =
    bit_in (area_of area (g_memory_area (group_at m g))) (64 * device_pos g d + n).
Proof.
  intros Hd Hn. pose proof (device_inside g d Hd). unfold bit_number in Hn. unfold device_bit, bit_in.
  rewrite byte_at_drop by (try apply Z.div_pos; lia).
  replace (64 * device_pos g d + n) with (n + 8 * device_pos g d * 8) by lia.
  rewrite Z.div_add, Z.mod_add by lia. f_equal. f_equal. lia.
Qed.

Lemma device_register_position area m g d n : has_device cfg g d -> register_number g d n ->
  device_register area m g d n =
    register_in (area_of area (g_memory_area (group_at m g))) (32 * device_pos g d + n).
Proof.
  intros Hd Hn. pose proof (device_inside g d Hd). unfold register_number in Hn.
  unfold device_register, register_in. rewrite slice_of_drop. f_equal. f_equal. lia.
Qed.

(** What the application reads of all signals. *)
Definition signals (A : Type) : Type := Z -> Z -> Z -> A.
Definition override {A} (f : signals A) (g d n : Z) (v : A) : signals A :=
  fun g' d' n' => if bool_decide (g' = g /\ d' = d /\ n' = n) then v else f g' d' n'.
Lemma override_here {A} (f : signals A) g d n v d' n' :
  override f g d n v g d' n' = if bool_decide (d' = d /\ n' = n) then v else f g d' n'.
Proof.
  unfold override. f_equal. destruct (decide (d' = d /\ n' = n)).
  - rewrite !bool_decide_eq_true_2 by tauto. reflexivity.
  - rewrite !bool_decide_eq_false_2 by tauto. reflexivity.
Qed.

Definition reads_signals (m : clm) (rx ry : signals bool) (rwr rww : signals Z) : Prop :=
  forall g d, has_device cfg g d ->
    (forall n, bit_number g d n ->
       clm_iefb_get_rx_bit g d n m = Done (rx g d n, m, []) /\
       clm_iefb_get_ry_bit g d n m = Done (ry g d n, m, [])) /\
    (forall n, register_number g d n ->
       clm_iefb_get_rwr_value g d n m = Done (rwr g d n, m, []) /\
       clm_iefb_get_rww_value g d n m = Done (rww g d n, m, [])).

(** Two descriptions of the same signals. *)
Definition same_signals (m : clm) (rx ry : signals bool) (rwr rww : signals Z) : Prop :=
  forall g d, has_device cfg g d ->
    (forall n, bit_number g d n ->
       device_bit AREA_RX m g d n = rx g d n /\ device_bit AREA_RY m g d n = ry g d n) /\
    (forall n, register_number g d n ->
       device_register AREA_RWR m g d n = rwr g d n /\ device_register AREA_RWW m g d n = rww g d n).

Lemma reads_same_signals m rx ry rwr rww : master_inv cfg m -> same_signals m rx ry rwr rww ->
  reads_signals m rx ry rwr rww.
Proof.
  intros Hm Hs g d Hgd. destruct (Hs g d Hgd) as [Hb Hr].
  destruct (memory_of m g Hm (proj1 Hgd)) as [Hrx Hry Hrwr Hrww].
  split; intros n Hn; [destruct (Hb n Hn) as [<- <-]|destruct (Hr n Hn) as [<- <-]]; split.
  - exact (get_bit_value AREA_RX m g d n Hm Hgd Hn Hrx).
  - exact (get_bit_value AREA_RY m g d n Hm Hgd Hn Hry).
  - exact (get_register_value AREA_RWR m g d n Hm Hgd Hn Hrwr).
  - exact (get_register_value AREA_RWW m g d n Hm Hgd Hn Hrww).
Qed.

Lemma with_memory_other g f m g' : has_group cfg g -> has_group cfg g' -> g' <> g ->
  group_at (with_memory g f m) g' = group_at m g'.
Proof.
  intros [Hg _] [Hg' _] Hne. unfold with_memory, group_at, update_group. cbn.
  apply list_lookup_total_alter_ne. lia.
Qed.

Lemma with_memory_here g f m : has_group cfg g -> master_inv cfg m ->
  g_memory_area (group_at (with_memory g f m) g) = f (g_memory_area (group_at m g)).
Proof.
  intros Hg Hm. pose proof (groups_length cfg cfg_ok m g (proj1 Hm) Hg).
  unfold with_memory, group_at, update_group. cbn.
  rewrite list_lookup_total_alter_eq by lia. reflexivity.
Qed.

Lemma same_signals_other f g m : has_group cfg g -> (forall g' d,
    has_device cfg g' d -> g' <> g ->
    forall area n, device_bit area (with_memory g f m) g' d n = device_bit area m g' d n /\
      device_register area (with_memory g f m) g' d n = device_register area m g' d n).
Proof.
  intros Hg g' d Hgd Hne area n. unfold device_bit, device_register.
  rewrite with_memory_other by (assumption || apply Hgd). split; reflexivity.
Qed.

Lemma signals_of m : same_signals m (device_bit AREA_RX m) (device_bit AREA_RY m)
  (device_register AREA_RWR m) (device_register AREA_RWW m).
Proof. intros g d _. repeat split; reflexivity. Qed.

Lemma signals_after_ry m g d n v : master_inv cfg m -> has_device cfg g d -> bit_number g d n ->
  exists m', clm_iefb_set_ry_bit g d n v m = Done (tt, m', []) /\ master_inv cfg m' /\
    same_signals m' (device_bit AREA_RX m) (override (device_bit AREA_RY m) g d n v)
      (device_register AREA_RWR m) (device_register AREA_RWW m).
Proof.
  intros Hm Hgd Hn. destruct (set_ry_value m g d n v Hm Hgd Hn) as [Hrun Hok].
  pose proof (memory_of m g Hm (proj1 Hgd)) as Ha. pose proof (device_inside g d Hgd) as Hin.
  eexists. split; [exact Hrun|]. set (ry := set_byte _ _ _) in *.
  set (f := fun a : clm_group_memory_area => a <| ma_ry := ry |>).
  assert (Hm' : master_inv cfg (with_memory g f m))
    by (apply memory_inv; [apply Hgd|exact Hm|destruct Ha; split; assumption]).
  split; [exact Hm'|]. intros g' d' Hgd'. destruct (decide (g' = g)) as [->|Hne].
  2: { pose proof (same_signals_other f g m (proj1 Hgd) g' d' Hgd' Hne) as Hs. split; intros n' Hn'.
    - unfold override. rewrite bool_decide_eq_false_2 by tauto. split; apply Hs.
    - split; apply Hs. }
  pose proof (with_memory_here g f m (proj1 Hgd) Hm) as Hhere.
  split; intros n' Hn'.
  - rewrite !device_bit_position, Hhere by assumption. split; [reflexivity|].
    cbn [area_of]. unfold f. cbn [ma_ry update].
    pose proof (bit_in_put (ma_ry (g_memory_area (group_at m g))) 0 (64 * device_pos g d + n) v
      (64 * device_pos g d' + n')) as Hp. rewrite !drop_0, !Z.add_0_l in Hp.
    destruct (mo_ry _ Ha) as [Hl _]. unfold bit_number in *. pose proof (device_inside g d' Hgd').
    replace ((64 * device_pos g d + n) / 8) with (8 * device_pos g d + n / 8) in Hp by zlia.
    replace ((64 * device_pos g d + n) mod 8) with (n mod 8) in Hp by zlia.
    unfold ry. rewrite Hp by zlia.
    rewrite (signal_position 64) by (assumption || lia).
    rewrite override_here, device_bit_position by assumption. reflexivity.
  - rewrite !device_register_position, Hhere by assumption. split; reflexivity.
Qed.

Lemma signals_after_rww m g d n v : master_inv cfg m -> has_device cfg g d ->
  register_number g d n -> is_u16 v ->
  exists m', clm_iefb_set_rww_value g d n v m = Done (tt, m', []) /\ master_inv cfg m' /\
    same_signals m' (device_bit AREA_RX m) (device_bit AREA_RY m)
      (device_register AREA_RWR m) (override (device_register AREA_RWW m) g d n v).
Proof.
  intros Hm Hgd Hn Hv. destruct (set_rww_value m g d n v Hm Hgd Hn) as [Hrun Hok].
  pose proof (memory_of m g Hm (proj1 Hgd)) as Ha. pose proof (device_inside g d Hgd) as Hin.
  eexists. split; [exact Hrun|]. set (rww := splice _ _ _) in *.
  set (f := fun a : clm_group_memory_area => a <| ma_rww := rww |>).
  assert (Hm' : master_inv cfg (with_memory g f m))
    by (apply memory_inv; [apply Hgd|exact Hm|destruct Ha; split; assumption]).
  split; [exact Hm'|]. intros g' d' Hgd'. destruct (decide (g' = g)) as [->|Hne].
  2: { pose proof (same_signals_other f g m (proj1 Hgd) g' d' Hgd' Hne) as Hs. split; intros n' Hn'.
    - split; apply Hs.
    - unfold override. rewrite bool_decide_eq_false_2 by tauto. split; apply Hs. }
  pose proof (with_memory_here g f m (proj1 Hgd) Hm) as Hhere.
  split; intros n' Hn'.
  - rewrite !device_bit_position, Hhere by assumption. split; reflexivity.
  - rewrite !device_register_position, Hhere by assumption. split; [reflexivity|].
    cbn [area_of]. unfold f. cbn [ma_rww update].
    pose proof (register_in_put (ma_rww (g_memory_area (group_at m g))) 0
      (32 * device_pos g d + n) v (32 * device_pos g d' + n')) as Hp.
    rewrite !drop_0, !Z.add_0_l in Hp. destruct (mo_rww _ Ha) as [Hl _].
    unfold register_number in *. pose proof (device_inside g d' Hgd').
    replace (2 * (32 * device_pos g d + n)) with (64 * device_pos g d + 2 * n) in Hp by lia.
    unfold rww. rewrite Hp by (assumption || lia).
    rewrite (signal_position 32) by (assumption || lia).
    rewrite override_here, device_register_position by assumption. reflexivity.
Qed.

(** ** The invariant *)

(** A program with a result that is known. *)
Lemma keeps_done {A} (P : clm_prog A) m a m' : P m = Done (a, m', []) -> master_inv cfg m' ->
  wp P (fun _ m' o => master_inv cfg m' /\ outputs_ok cfg o) m.
Proof. intros Hp Hm'. unfold wp. rewrite Hp. split; [exact Hm'|apply outputs_ok_nil]. Qed.

Lemma keeps_set_ry g d n v : has_device cfg g d -> bit_number g d n ->
  keeps (clm_iefb_set_ry_bit g d n v).
Proof.
  intros Hgd Hn m Hm. destruct (set_ry_value m g d n v Hm Hgd Hn) as [Hrun Hok].
  eapply keeps_done; [exact Hrun|]. apply memory_inv; [apply Hgd|exact Hm|].
  destruct (memory_of m g Hm (proj1 Hgd)). split; assumption.
Qed.

Lemma keeps_set_rww g d n v : has_device cfg g d -> register_number g d n ->
  keeps (clm_iefb_set_rww_value g d n v).
Proof.
  intros Hgd Hn m Hm. destruct (set_rww_value m g d n v Hm Hgd Hn) as [Hrun Hok].
  eapply keeps_done; [exact Hrun|]. apply memory_inv; [apply Hgd|exact Hm|].
  destruct (memory_of m g Hm (proj1 Hgd)). split; assumption.
Qed.

Lemma keeps_store_area area g off data : has_group cfg g -> bytes data -> 0 <= off ->
  off + Z.of_nat (length data) <= station_size area * total_stations (setting_of_group cfg g) ->
  keeps (store_area area g off data).
Proof.
  intros Hg Hd Ho Hfit m Hm. pose proof (memory_of m g Hm Hg) as Hmem.
  pose proof (go_stations _ _ (cok_group _ cfg_ok g Hg)) as Htotal.
  assert (Hs : 0 <= station_size area) by (destruct area; discriminate).
  assert (Hsize : off + Z.of_nat (length data) <=
    CLM_MAX_OCCUPIED_STATIONS_PER_GROUP * station_size area) by nia.
  destruct (store_area_ok (station_size area) off data _ Hs (area_of_ok area _ Hmem) Ho Hsize Hd)
    as [Hst Hok]. eapply keeps_done.
  - unfold store_area, get_group, modify_group. run_prog. rewrite Hst. reflexivity.
  - apply (memory_inv g); [exact Hg|exact Hm|]. exact (with_area_ok area _ _ Hmem Hok).
Qed.

Lemma unit_info_range ver running stopped : 1 <= ver <= 2 ->
  0 <= clm_iefb_calc_master_local_unit_info ver running stopped < 2 ^ ver.
Proof.
  intros Hv. assert (ver = 1 \/ ver = 2) as [-> | ->] by lia;
    destruct running, stopped; cbv; split; congruence || reflexivity.
Qed.

Lemma keeps_application_status running stopped :
  keeps (clm_iefb_set_master_application_status running stopped).
Proof.
  apply keeps_outside. intros m []. split; [|reflexivity]. split; try assumption.
  cbn [m_master_local_unit_info update]. rewrite mb_config. apply unit_info_range, cfg_ok.
Qed.

(** Settings of a device: nothing happens when it does not exist. *)
Lemma keeps_device_setting g d f : 0 <= g -> 0 <= d ->
  (forall dev, d_device_index (f dev) = d_device_index dev /\
     d_slave_station_no (f dev) = d_slave_station_no dev /\
     d_device_state (f dev) = d_device_state dev /\
     d_transmission_bit (f dev) = d_transmission_bit dev /\
     d_timeout_count (f dev) = d_timeout_count dev) ->
  keeps (clm ← get; if no_such_device clm g d then mret false else modify_device g d f;; mret true).
Proof.
  intros Hg Hd Hf. apply keeps_get. intros m Hm. unfold no_such_device.
  rewrite (config_groups_eq cfg m Hm), (mb_config _ _ (proj1 Hm)).
  destruct (Z.leb_spec (sh_number_of_groups (mc_hier cfg)) g); [apply keeps_ret, Hm|].
  destruct (Z.leb_spec (gs_num_slave_devices (setting_of_group cfg g)) d); [apply keeps_ret, Hm|].
  apply (keeps_bind cfg); [|intros []; apply keeps_ret|exact Hm].
  apply (keeps_bookkeeping cfg cfg_ok); [|exact Hf]. split; [unfold has_group|]; lia.
Qed.

Lemma keeps_clear_statistics : keeps clm_iefb_statistics_clear_all.
Proof.
  apply keeps_get. intros m Hm. rewrite (config_groups_eq cfg m Hm), (mb_config _ _ (proj1 Hm)).
  apply keeps_for_range; [|exact Hm]. intros g Hg. apply keeps_for_range. intros d Hd.
  apply (keeps_bookkeeping cfg cfg_ok); [split; [exact Hg|exact Hd]|]. repeat split.
Qed.

End MasterSettings.
