(* ===== verification/MasterOutgoing.v ===== *)
(** * What a scan sends

    The request that an event of a group sends, what it carries for every
    device by the state of the device, and how the devices that have answered
    are asked again. *)

From S2P Require Import Prelude Packed Signals Timer Limiter Util Types Iefb IefbFacts IefbRoundtrip.
From S2P Require Import Slmp Master MasterIefb MasterConfig MasterInv MasterFrame MasterDevice.
From S2P Require Import MasterGroup MasterScan MasterFsm MasterEvents MasterControl MasterSafety.

#[local] Open Scope Z_scope.

Section MasterOutgoing.
Context `{ClmOptions, Clal, ClalClock}.

(** The part for a device with this id, when its data is valid or not. *)
Definition output_part (gs : clm_group_setting) (d : Z) (a : clm_group_memory_area) (id : Z)
  (valid : bool) : bool * Z * list Z * list Z :=
  let pos := stations_before gs d in
  let k := ds_num_occupied_stations (setting_of_device gs d) in
  (valid, id, sent_part 64 (ma_rww a) pos k valid, sent_part 8 (ma_ry a) pos k valid).

(** What a request carries for a device, by the state of the device once the
    request is sent. *)
Definition carries (gs : clm_group_setting) (d : Z) (a : clm_group_memory_area)
  (dev : clm_slave_device_data) (previous part : bool * Z * list Z * list Z) : Prop :=
  let id := ds_slave_id (setting_of_device gs d) in
  let force := d_force_transmission_bit dev in
  match d_device_state dev with
  | CLM_DEVICE_STATE_CYCLIC_SENDING => part = output_part gs d a id true
  | CLM_DEVICE_STATE_WAIT_TD => part = output_part gs d a id force
  | CLM_DEVICE_STATE_CYCLIC_SUSPEND =>
      part = output_part gs d a CL_IPADDR_INVALID force \/ part = previous
  | _ => False
  end.

(** ** The frame of a step *)

Section Step.
Context (cfg : clm_cfg) (g : Z).
Abbreviation gs := (setting_of_group cfg g).

Lemma device_changed_settings event dev dev' : device_changed cfg g event dev dev' ->
  d_enabled dev' = d_enabled dev /\
  d_force_transmission_bit dev' = d_force_transmission_bit dev.
Proof.
  unfold device_changed. destruct (dfsm_action _) as [[]|].
  - intros [].
  - intros [st ->]. split; reflexivity.
  - intros [st ->]. destruct (_ <=? _); split; reflexivity.
  - intros ->. split; reflexivity.
  - intros ->. unfold enter_device. destruct (_ && _); split; reflexivity.
Qed.

(** The group when a scan starts within a step. *)
Record scan_from (gd gd1 : clm_group_data) : Prop := {
  sf_base : group_base cfg g gd1;
  sf_rested : rested cfg g gd1;
  sf_memory : g_memory_area gd1 = g_memory_area gd;
  sf_part : forall d, device_part cfg g d gd1 = device_part cfg g d gd
}.

Lemma scan_from_ended event gd gd0 gd1 : g_memory_area gd0 = g_memory_area gd ->
  g_cyclic_transmission_state gd0 = g_cyclic_transmission_state gd ->
  g_req_frame gd0 = g_req_frame gd -> scan_ended cfg g event gd0 gd1 -> rested cfg g gd1 ->
  scan_from gd (gd1 <| g_group_state := CLM_GROUP_STATE_MASTER_LINK_SCAN |>).
Proof.
  intros Hm0 Hb0 Hf0 He Hr. pose proof (scan_ended_base cfg g _ _ _ He) as Hb.
  destruct He as (gd2 & [Hb2 Hs Hf Hbits _] & ->). split.
  - apply set_group_state_base, Hb.
  - exact Hr.
  - rewrite <- Hm0. exact (sg_memory _ _ Hs).
  - intros d. unfold device_part.
    change (g_cyclic_transmission_state (_ <| g_group_state := _ |>)) with (g_cyclic_transmission_state gd2).
    change (g_req_frame (_ <| g_group_state := _ |>)) with (g_req_frame gd2).
    rewrite Hbits, Hf, Hb0, Hf0. reflexivity.
Qed.

Lemma scan_from_here gd : group_base cfg g gd -> rested cfg g gd ->
  scan_from gd (gd <| g_group_state := CLM_GROUP_STATE_MASTER_LINK_SCAN |>).
Proof.
  intros Hb Hr. split; [apply set_group_state_base, Hb|exact Hr|reflexivity|reflexivity].
Qed.

Lemma all_listen_rested gd : all_listen cfg g gd -> rested cfg g gd.
Proof. intros Hl d Hd. left. exact (Hl d Hd). Qed.

(** Every frame of a step is the request of a scan that starts in it. *)
Lemma step_request m now event e gd e' gd' o socket ip port frame :
  group_base cfg g gd -> group_pre cfg g event gd ->
  group_step cfg g m now event e gd e' gd' o ->
  ClmCciefbSendto socket ip port frame ∈ o ->
  exists gd1 o1, scan_from gd gd1 /\ scan_sent cfg g m now gd1 gd' o1 /\
    ClmCciefbSendto socket ip port frame ∈ o1 /\
    g_group_state gd1 = CLM_GROUP_STATE_MASTER_LINK_SCAN.
Proof.
  intros Hb Hc Hstep Hin. destruct (no_frame_callbacks cfg g) as (Ht & Hf & Hsc & Hec & _).
  assert (Hskip : forall o1 o2, Forall no_frame o1 ->
    ClmCciefbSendto socket ip port frame ∈ o1 ++ o2 -> ClmCciefbSendto socket ip port frame ∈ o2).
  { intros o1 o2 Ho1 [Hx|Hx]%elem_of_app; [|exact Hx]. rewrite Forall_forall in Ho1.
    apply list_elem_of_In in Hx. destruct (Ho1 _ Hx). }
  assert (Hnot : forall o1, Forall no_frame o1 -> ClmCciefbSendto socket ip port frame ∉ o1).
  { intros o1 Ho1 Hx. apply (Hskip o1 []) in Ho1; [apply elem_of_nil in Ho1; exact Ho1|].
    rewrite app_nil_r. exact Hx. }
  unfold group_pre, group_control in Hc.
  destruct Hstep as [e gd gd' o Hs Hsent|e gd gd' Hs Hall r|e gd gd' Hs Hall|e gd gd' o Hs Hsent
    |e gd gd1 gd' o Hs He Hsent|e gd gd' Hs Hcon He|e gd gd1 gd' o Hs Hcon He Hsent|event e gd Hi];
    try rewrite Hs in Hc.
  - apply Hskip in Hin; [|apply Hsc]. eexists _, o. split; [|split; [exact Hsent|split; [exact Hin|reflexivity]]].
    apply scan_from_here; [exact Hb|]. apply all_listen_rested, Hc.
  - exfalso. apply Hskip in Hin; [|apply Hec]. exact (Hnot _ (Hsc _ _) Hin).
  - exfalso. exact (Hnot _ (Hsc _ _) Hin).
  - eexists _, o. split; [|split; [exact Hsent|split; [exact Hin|reflexivity]]]. apply scan_from_here; [exact Hb|apply Hc].
  - apply Hskip in Hin; [|exact Hf]. apply Hskip in Hin; [|apply Hsc].
    eexists _, o. split; [|split; [exact Hsent|split; [exact Hin|reflexivity]]].
    pose proof (ended_timeout cfg g _ _ (set_group_state_base cfg g _ gd Hb) He) as [Hr _].
    refine (scan_from_ended _ gd _ gd1 _ _ _ He Hr); reflexivity.
  - exfalso. apply Hskip in Hin; [|exact Ht]. exact (Hnot _ (Hsc _ _) Hin).
  - apply Hskip in Hin; [|exact Ht]. apply Hskip in Hin; [|apply Hsc].
    eexists _, o. split; [|split; [exact Hsent|split; [exact Hin|reflexivity]]].
    pose proof (ended_complete cfg g _ _ (stop_wait_base cfg g _ (set_group_state_base cfg g _ gd Hb))
      (proj2 Hc) He) as [Hr _].
    refine (scan_from_ended _ gd _ gd1 _ _ _ He Hr); reflexivity.
  - exfalso. apply elem_of_nil in Hin. exact Hin.
Qed.

(** The part of a device that had rested. *)
Lemma rested_scan_part d gd gd1 gd' o m now : scan_from gd gd1 -> scan_sent cfg g m now gd1 gd' o ->
  0 <= d < gs_num_slave_devices gs ->
  carries gs d (g_memory_area gd) (device_at gd' d) (device_part cfg g d gd)
    (device_part cfg g d gd').
Proof.
  intros [Hb Hr Hm Hp] Hsent Hd. rewrite (sc_parts _ _ _ _ _ _ _ Hsent d Hd).
  pose proof (sc_devices _ _ _ _ _ _ _ Hsent d Hd) as Hch.
  destruct (device_changed_settings _ _ _ Hch) as [_ Hforce].
  apply device_changed_state in Hch. unfold scan_part, carries. rewrite Hforce, <- Hm, <- Hp.
  unfold scan_event in *.
  destruct (Hr d Hd) as [Hst|Hst], (d_enabled (device_at gd1 d)); rewrite Hst in *;
    (destruct Hch as [Hn|[[Hx _]|Hx]]; [|discriminate Hx|discriminate Hx]);
    match type of Hn with _ = ?next => let v := eval vm_compute in next in change next with v in Hn end;
    rewrite Hn.
  - reflexivity.
  - left. reflexivity.
  - reflexivity.
  - right. reflexivity.
Qed.

(** A device is sent data by a scan only while it is enabled. *)
Lemma sending_enabled d gd gd1 gd' o m now : scan_from gd gd1 -> scan_sent cfg g m now gd1 gd' o ->
  0 <= d < gs_num_slave_devices gs ->
  d_device_state (device_at gd' d) = CLM_DEVICE_STATE_CYCLIC_SENDING ->
  d_enabled (device_at gd' d) = true.
Proof.
  intros Hfrom Hsent Hd Hse. pose proof (sc_devices _ _ _ _ _ _ _ Hsent d Hd) as Hch.
  destruct (device_changed_settings _ _ _ Hch) as [-> _].
  apply device_changed_state in Hch. unfold scan_event in Hch.
  destruct (d_enabled (device_at gd1 d)); [reflexivity|exfalso].
  destruct (sf_rested _ _ Hfrom d Hd) as [Hst|Hst]; rewrite Hst, Hse in Hch;
    (destruct Hch as [Hn|[[Hx _]|Hx]]; [|discriminate Hx|discriminate Hx]);
    vm_compute in Hn; discriminate Hn.
Qed.

Lemma device_changed_enabled event dev dev' : device_changed cfg g event dev dev' ->
  d_enabled dev' = d_enabled dev.
Proof.
  unfold device_changed. destruct (dfsm_action _) as [[]|].
  - intros [].
  - intros [st ->]. reflexivity.
  - intros [st ->]. destruct (_ <=? _); reflexivity.
  - intros ->. reflexivity.
  - intros ->. unfold enter_device. destruct (_ && _); reflexivity.
Qed.

(** The parameters of a group stay the same at run time. *)
Lemma group_step_parameter m now event e gd e' gd' o :
  group_step cfg g m now event e gd e' gd' o -> parameter_of gd' = parameter_of gd.
Proof.
  assert (Hc : forall ev gd gd', all_changed cfg g ev gd gd' -> parameter_of gd' = parameter_of gd)
    by (intros ev gd0 gd0' Ha; unfold parameter_of; rewrite (ac_frame _ _ _ _ _ Ha); reflexivity).
  assert (He : forall ev gd gd', scan_ended cfg g ev gd gd' -> parameter_of gd' = parameter_of gd)
    by (intros ev gd0 gd0' (gd1 & Ha & ->); exact (Hc _ _ _ Ha)).
  intros Hstep. destruct Hstep as [e gd gd' o _ Hs|e gd gd' _ Ha r|e gd gd' _ Ha|e gd gd' o _ Hs
    |e gd gd1 gd' o _ Hen Hs|e gd gd' _ _ Hen|e gd gd1 gd' o _ _ Hen Hs|event e gd _].
  - exact (sc_parameter _ _ _ _ _ _ _ Hs).
  - exact (Hc _ _ _ Ha).
  - exact (Hc _ _ _ Ha).
  - exact (sc_parameter _ _ _ _ _ _ _ Hs).
  - etransitivity; [exact (sc_parameter _ _ _ _ _ _ _ Hs)|exact (He _ _ _ Hen)].
  - exact (He _ _ _ Hen).
  - etransitivity; [exact (sc_parameter _ _ _ _ _ _ _ Hs)|exact (He _ _ _ Hen)].
  - reflexivity.
Qed.

End Step.

(** ** Requests *)

(** [frame] is the request that takes group [g] from [gd] to [gd']. *)
Record request_of (cfg : clm_cfg) (g now info : Z) (gd gd' : clm_group_data) (frame : list Z)
  : Prop := {
  qo_sent : sent_request cfg g gd' now info frame;
  qo_memory : g_memory_area gd' = g_memory_area gd;
  qo_carries : forall d, 0 <= d < gs_num_slave_devices (setting_of_group cfg g) ->
    carries (setting_of_group cfg g) d (g_memory_area gd) (device_at gd' d)
      (device_part cfg g d gd) (device_part cfg g d gd') /\
    (d_device_state (device_at gd' d) = CLM_DEVICE_STATE_CYCLIC_SENDING ->
     d_enabled (device_at gd' d) = true);
  qo_parameter : parameter_of gd' = parameter_of gd;
  qo_state : g_group_state gd' = CLM_GROUP_STATE_MASTER_LINK_SCAN;
  qo_wait : g_response_wait_timer gd' = started_timer cfg g now
}.

(** Every frame that an event sends is a request of the group. *)
Lemma event_request cfg m g now event e gd e' gd' o socket ip port frame :
  group_base cfg g gd -> group_pre cfg g event gd -> group_step cfg g m now event e gd e' gd' o ->
  ClmCciefbSendto socket ip port frame ∈ o ->
  (socket = m_cciefb_socket m /\ ip = m_iefb_broadcast_ip m /\ port = CL_CCIEFB_PORT) /\
  request_of cfg g now (m_master_local_unit_info m) gd gd' frame.
Proof.
  intros Hgb Hpre Hstep Hin.
  destruct (step_request cfg g m now event _ _ _ _ _ _ _ _ _ Hgb Hpre Hstep Hin)
    as (gd1 & o1 & Hfrom & Hsent & Hin1 & Hstate).
  pose proof (sc_frame _ _ _ _ _ _ _ Hsent) as (frame1 & Hreq & ->).
  apply elem_of_app in Hin1 as [Hin1|Hin1].
  { exfalso. apply list_elem_of_In, in_concat in Hin1 as (l & Hl & Hx).
    apply in_map_iff in Hl as (d & <- & _). destruct (no_frame_callbacks cfg g) as (_ & _ & _ & _ & Hs).
    specialize (Hs gd1 d). rewrite Forall_forall in Hs. exact (Hs _ Hx). }
  apply list_elem_of_singleton in Hin1. injection Hin1 as -> -> -> ->.
  split; [auto|]. split.
  - exact Hreq.
  - rewrite (sc_memory _ _ _ _ _ _ _ Hsent). exact (sf_memory _ _ _ _ Hfrom).
  - intros d Hd. split; [exact (rested_scan_part cfg g d _ _ _ _ _ _ Hfrom Hsent Hd)|].
    exact (sending_enabled cfg g d _ _ _ _ _ _ Hfrom Hsent Hd).
  - exact (group_step_parameter cfg g _ _ _ _ _ _ _ _ Hstep).
  - rewrite (sc_state _ _ _ _ _ _ _ Hsent). exact Hstate.
  - exact (sc_wait _ _ _ _ _ _ _ Hsent).
Qed.

(** ** Devices that are asked again and again *)

(** The latest response of the device has this sequence number, or another
    one, if there is one. *)
Definition heard (dev : clm_slave_device_data) (seq : Z) : Prop :=
  fv_has_been_received (d_latest_frame dev) = true -> fv_frame_sequence_no (d_latest_frame dev) = seq.
Definition unheard (dev : clm_slave_device_data) (seq : Z) : Prop :=
  fv_has_been_received (d_latest_frame dev) = true -> fv_frame_sequence_no (d_latest_frame dev) <> seq.

(** An enabled device has answered the scan; it may be over, and the next one
    not yet started. *)
Definition answered (gd : clm_group_data) (d : Z) : Prop :=
  let dev := device_at gd d in
  d_enabled dev = true /\ d_device_state dev = CLM_DEVICE_STATE_CYCLIC_SENT /\
  (g_group_state gd = CLM_GROUP_STATE_MASTER_LINK_SCAN /\ heard dev (g_frame_sequence_no gd) \/
   g_group_state gd = CLM_GROUP_STATE_MASTER_LINK_SCAN_COMP /\ unheard dev (g_frame_sequence_no gd)).

(** An enabled device was sent cyclic data and has not answered. *)
Definition asked (gd : clm_group_data) (d : Z) : Prop :=
  let dev := device_at gd d in
  d_enabled dev = true /\ d_device_state dev = CLM_DEVICE_STATE_CYCLIC_SENDING /\
  g_group_state gd = CLM_GROUP_STATE_MASTER_LINK_SCAN /\ unheard dev (g_frame_sequence_no gd).

(** The scan that asks the device is sent now. *)
Definition asks_now (cfg : clm_cfg) (g now info : Z) (gd gd' : clm_group_data) (d : Z)
  (o : list clm_output) : Prop :=
  asked gd' d /\
  exists socket ip port frame, ClmCciefbSendto socket ip port frame ∈ o /\
    request_of cfg g now info gd gd' frame.

Section Again.
Context (cfg : clm_cfg) (g d : Z) (has : has_device cfg g d).

(** The end of a scan leaves a device that has answered. *)
Lemma ended_sent event gd gd' :
  event = CLM_DEVICE_EVENT_GROUP_ALL_RESPONDED \/ event = CLM_DEVICE_EVENT_GROUP_TIMEOUT ->
  scan_ended cfg g event gd gd' ->
  d_device_state (device_at gd d) = CLM_DEVICE_STATE_CYCLIC_SENT ->
  device_at gd' d = device_at gd d.
Proof.
  intros Hev (gd1 & Ha & ->) Hs. pose proof (ac_devices _ _ _ _ _ Ha d (proj2 has)) as Hch.
  unfold device_changed in Hch. rewrite Hs in Hch. change (device_at gd1 d = device_at gd d).
  destruct Hev as [-> | ->]; cbn in Hch; rewrite Hch;
    destruct (device_at gd d); cbn in *; subst; reflexivity.
Qed.

(** The sequence number changes at the end of a scan. *)
Lemma ended_unheard event gd gd' : group_base cfg g gd ->
  event = CLM_DEVICE_EVENT_GROUP_ALL_RESPONDED \/ event = CLM_DEVICE_EVENT_GROUP_TIMEOUT ->
  scan_ended cfg g event gd gd' ->
  d_device_state (device_at gd d) = CLM_DEVICE_STATE_CYCLIC_SENT ->
  heard (device_at gd d) (g_frame_sequence_no gd) ->
  device_at gd' d = device_at gd d /\ unheard (device_at gd' d) (g_frame_sequence_no gd').
Proof.
  intros Hb Hev He Hs Hheard. pose proof (ended_sent event gd gd' Hev He Hs) as Hat.
  split; [exact Hat|]. rewrite Hat. intros Hr Heq. specialize (Hheard Hr).
  destruct He as (gd1 & Ha & ->). cbn [g_frame_sequence_no update] in Heq.
  pose proof (sg_seq _ _ (ac_same _ _ _ _ _ Ha)) as Hseq.
  destruct (sequence_no_next _ (gb_seq _ _ _ Hb)) as (_ & _ & Hn).
  rewrite Hseq, Hn in Heq. pose proof (gb_seq _ _ _ Hb) as Hu. unfold UINT16_MAX in Heq.
  assert (g_frame_sequence_no gd = g_frame_sequence_no gd mod 65535 + 1) as Hc by congruence.
  unfold_widths. clear -Hc Hu. zlia.
Qed.

(** The next scan asks it again. *)
Lemma started_asked m now gd gd' o : scan_sent cfg g m now gd gd' o ->
  g_group_state gd = CLM_GROUP_STATE_MASTER_LINK_SCAN ->
  d_enabled (device_at gd d) = true ->
  d_device_state (device_at gd d) = CLM_DEVICE_STATE_CYCLIC_SENT ->
  unheard (device_at gd d) (g_frame_sequence_no gd) -> asked gd' d.
Proof.
  intros Hsent Hst Hen Hs Hun. pose proof (sc_devices _ _ _ _ _ _ _ Hsent d (proj2 has)) as Hch.
  unfold asked, unheard in *. rewrite (device_changed_enabled _ _ _ _ _ Hch), (sc_state _ _ _ _ _ _ _ Hsent),
    (sc_seq _ _ _ _ _ _ _ Hsent).
  unfold device_changed, scan_event in Hch. rewrite Hen, Hs in Hch. cbn in Hch.
  destruct Hch as [st ->]. auto.
Qed.

(** So does a scan that follows the end of another one at once. *)
Lemma ended_asked m now event gd gd1 gd' o : group_base cfg g gd ->
  event = CLM_DEVICE_EVENT_GROUP_ALL_RESPONDED \/ event = CLM_DEVICE_EVENT_GROUP_TIMEOUT ->
  scan_ended cfg g event gd gd1 ->
  scan_sent cfg g m now (gd1 <| g_group_state := CLM_GROUP_STATE_MASTER_LINK_SCAN |>) gd' o ->
  d_enabled (device_at gd d) = true ->
  d_device_state (device_at gd d) = CLM_DEVICE_STATE_CYCLIC_SENT ->
  heard (device_at gd d) (g_frame_sequence_no gd) -> asked gd' d.
Proof.
  intros Hb Hev He Hsent Hen Hs Hh. destruct (ended_unheard _ _ _ Hb Hev He Hs Hh) as [Hat Hun].
  eapply started_asked; [exact Hsent|reflexivity| | |exact Hun];
    change (device_at (gd1 <| g_group_state := _ |>) d) with (device_at gd1 d); rewrite Hat; assumption.
Qed.

(** What an event does to a device that has answered. *)
Lemma event_asks m now event e gd e' gd' o : group_base cfg g gd -> group_pre cfg g event gd ->
  event <> CLM_GROUP_EVENT_MASTERDUPL_ALARM -> group_step cfg g m now event e gd e' gd' o ->
  answered gd d ->
  answered gd' d /\ Forall no_frame o \/ asks_now cfg g now (m_master_local_unit_info m) gd gd' d o.
Proof.
  intros Hb Hpre Hev Hstep (Hen & Hs & Hcase).
  pose proof (event_request cfg m g now event e gd e' gd' o) as Hreq.
  destruct (no_frame_callbacks cfg g) as (Hcomplete & _ & Hstate & _).
  assert (Hnow : asked gd' d -> (exists o0 gd0 gd1 o1, o = o0 ++ o1 /\ scan_sent cfg g m now gd0 gd1 o1) ->
    asks_now cfg g now (m_master_local_unit_info m) gd gd' d o).
  { intros Ha (o0 & gd0 & gd1 & o1 & -> & Hsent). split; [exact Ha|].
    destruct (sc_frame _ _ _ _ _ _ _ Hsent) as (frame & _ & ->). do 4 eexists.
    assert (Hin : ClmCciefbSendto (m_cciefb_socket m) (m_iefb_broadcast_ip m) CL_CCIEFB_PORT frame ∈
      o0 ++ concat (map (scan_callback cfg g gd0) (seqZ 0 (gs_num_slave_devices (setting_of_group cfg g)))) ++
        [ClmCciefbSendto (m_cciefb_socket m) (m_iefb_broadcast_ip m) CL_CCIEFB_PORT frame])
      by (rewrite !elem_of_app, list_elem_of_singleton; auto).
    split; [exact Hin|]. eapply Hreq; eassumption. }
  destruct Hstep as [e gd gd' o Hst Hsent|e gd gd' Hst Ha r|e gd gd' Hst Ha|e gd gd' o Hst Hsent
    |e gd gd1 gd' o Hst He Hsent|e gd gd' Hst _ He|e gd gd1 gd' o Hst _ He Hsent|event e gd Hi].
  - destruct Hcase as [[Hx _]|[Hx _]]; congruence.
  - destruct Hcase as [[Hx _]|[Hx _]]; congruence.
  - destruct (Hev eq_refl).
  - right. destruct Hcase as [[Hx _]|[_ Hun]]; [congruence|].
    apply Hnow; [|exists [], (gd <| g_group_state := CLM_GROUP_STATE_MASTER_LINK_SCAN |>), gd', o; split; [reflexivity|exact Hsent]].
    eapply started_asked; [exact Hsent|reflexivity|exact Hen|exact Hs|exact Hun].
  - right. destruct Hcase as [[_ Hh]|[Hx _]]; [|congruence].
    apply Hnow; [|do 4 eexists; split; [rewrite app_assoc; reflexivity|exact Hsent]].
    refine (ended_asked m now _ _ _ _ _ _ (or_intror eq_refl) He Hsent Hen Hs Hh).
    apply (set_group_state_base cfg g _ gd Hb).
  - left. split; [|apply Forall_app; auto]. destruct Hcase as [[_ Hh]|[Hx _]]; [|congruence].
    destruct (ended_unheard _ _ _ (stop_wait_base cfg g _ (set_group_state_base cfg g _ gd Hb))
      (or_introl eq_refl) He Hs Hh) as [Hat Hun].
    split; [rewrite Hat; exact Hen|]. split; [rewrite Hat; exact Hs|]. right. split; [|exact Hun].
    rewrite (scan_ended_state cfg g _ _ _ He). reflexivity.
  - right. destruct Hcase as [[_ Hh]|[Hx _]]; [|congruence].
    apply Hnow; [|do 4 eexists; split; [rewrite app_assoc; reflexivity|exact Hsent]].
    refine (ended_asked m now _ _ _ _ _ _ (or_introl eq_refl) He Hsent Hen Hs Hh).
    apply (stop_wait_base cfg g _ (set_group_state_base cfg g _ gd Hb)).
  - left. split; [|constructor]. split; [exact Hen|]. auto.
Qed.

End Again.

(** The exchange with the device goes on: it has answered, and no frame was
    sent; or it is asked again, by every frame that was sent. *)
Definition goes_on (cfg : clm_cfg) (g now : Z) (gd' : clm_group_data) (d : Z) (o : list clm_output)
  : Prop :=
  answered gd' d /\ Forall no_frame o \/
  exists info gd, 0 <= info < 2 ^ mc_protocol_ver cfg /\ asks_now cfg g now info gd gd' d o /\
    forall socket ip port frame, ClmCciefbSendto socket ip port frame ∈ o ->
      request_of cfg g now info gd gd' frame.

Lemma no_frame_in o socket ip port frame : Forall no_frame o -> ClmCciefbSendto socket ip port frame ∉ o.
Proof. intros Ho Hin%list_elem_of_In. rewrite Forall_forall in Ho. exact (Ho _ Hin). Qed.

(** Callbacks before or after it do not matter. *)
Lemma goes_on_app cfg g now gd' d o1 o o2 : Forall no_frame o1 -> Forall no_frame o2 ->
  goes_on cfg g now gd' d o -> goes_on cfg g now gd' d (o1 ++ o ++ o2).
Proof.
  intros Ho1 Ho2 [[Ha Ho]|(info & gd & Hinfo & (Ha & s & ip & p & frame & Hin & Hr) & Hall)].
  - left. split; [exact Ha|]. rewrite !Forall_app. auto.
  - right. exists info, gd. split; [exact Hinfo|]. split; [split; [exact Ha|]|].
    + exists s, ip, p, frame. rewrite !elem_of_app. auto.
    + intros s' ip' p' frame' [Hx|[Hx|Hx]%elem_of_app]%elem_of_app;
        [destruct (no_frame_in _ _ _ _ _ Ho1 Hx)|eauto|destruct (no_frame_in _ _ _ _ _ Ho2 Hx)].
Qed.

End MasterOutgoing.
