(* ===== verification/MasterInputs.v ===== *)
(** * What responses change

    Only a response that passes all checks changes the cyclic data that the
    master has received; it changes the inputs of the device that sent it,
    and nothing else. *)

From S2P Require Import Prelude Packed Signals Timer Limiter Util Types Iefb IefbFacts IefbRoundtrip.
From S2P Require Import Slmp Master MasterIefb MasterConfig MasterInv MasterFrame MasterDevice.
From S2P Require Import MasterGroup MasterScan MasterFsm MasterEvents MasterControl MasterSafety.
From S2P Require Import MasterResponse MasterSettings MasterOutgoing.

Section MasterInputs.
Context `{ClmOptions, Clal, ClalClock}.
Context (clock_ok : forall now, is_u64 (clal_get_unix_timestamp_ms now)).
Context (cfg : clm_cfg) (cfg_ok : clm_config_ok cfg).

(** ** Programs that relate the instance before and after *)

(** What the exchange of cyclic data depends on. *)
Definition device_status (dev : clm_slave_device_data) : bool * clm_device_state * bool * bool :=
  (d_enabled dev, d_device_state dev, d_transmission_bit dev, d_force_transmission_bit dev).
Definition group_status (gd : clm_group_data)
  : clm_group_state * Z * clm_cciefb_cyclic_request_info * Z :=
  (g_group_state gd, g_frame_sequence_no gd, g_req_frame gd, g_cyclic_transmission_state gd).

(** The cyclic data is the same, and the devices that exchange it. *)
Definition same_areas (m m' : clm) : Prop :=
  forall g, has_group cfg g -> g_memory_area (group_at m' g) = g_memory_area (group_at m g).
Definition same_exchange (m m' : clm) : Prop :=
  same_areas m m' /\
  (forall g, has_group cfg g -> group_status (group_at m' g) = group_status (group_at m g)) /\
  forall g d, has_device cfg g d ->
    device_status (device_at (group_at m' g) d) = device_status (device_at (group_at m g) d).

#[export] Instance same_areas_refl : Reflexive same_areas.
Proof. intros m g _. reflexivity. Qed.
#[export] Instance same_areas_trans : Transitive same_areas.
Proof. intros m1 m2 m3 H12 H23 g Hg. rewrite H23, H12 by exact Hg. reflexivity. Qed.
#[export] Instance same_exchange_refl : Reflexive same_exchange.
Proof. intros m. split; [reflexivity|]. split; reflexivity. Qed.
#[export] Instance same_exchange_trans : Transitive same_exchange.
Proof.
  intros m1 m2 m3 (H12 & G12 & T12) (H23 & G23 & T23). split; [etransitivity; eassumption|]. split.
  - intros g Hg. rewrite G23, G12 by exact Hg. reflexivity.
  - intros g d Hd. rewrite T23, T12 by exact Hd. reflexivity.
Qed.

Lemma same_exchange_state m m' g : has_group cfg g -> same_exchange m m' ->
  g_group_state (group_at m' g) = g_group_state (group_at m g).
Proof. intros Hg (_ & Hs & _). exact (f_equal (fun s => s.1.1.1) (Hs g Hg)). Qed.

(** The areas stay the same whatever is sent; or the exchange does, and no
    frame is sent. *)
Abbreviation step_relation := (clm -> clm -> list clm_output -> Prop).
Definition keeps_areas : step_relation := fun m m' _ => same_areas m m'.
Definition keeps_exchange : step_relation := fun m m' o => same_exchange m m' /\ Forall no_frame o.

Class Composes (R : step_relation) : Prop := {
  composes_nil : forall m, R m m [];
  composes_app : forall m m1 m2 o1 o2, R m m1 o1 -> R m1 m2 o2 -> R m m2 (o1 ++ o2)
}.

#[export] Instance keeps_areas_composes : Composes keeps_areas.
Proof. split; [intros m g _; reflexivity|]. intros m m1 m2 o1 o2 H1' H2'. exact (transitivity H1' H2'). Qed.
#[export] Instance keeps_exchange_composes : Composes keeps_exchange.
Proof.
  split; [split; [reflexivity|constructor]|]. intros m m1 m2 o1 o2 [H1' Ho1] [H2' Ho2].
  split; [exact (transitivity H1' H2')|]. apply Forall_app. auto.
Qed.

Definition moves (R : step_relation) {A} (P : clm_prog A) : Prop :=
  forall m, master_inv cfg m -> wp P (fun _ m' o => master_inv cfg m' /\ R m m' o) m.

Lemma moves_intro R {A} (P : clm_prog A) : keeps cfg P ->
  (forall m, master_inv cfg m -> wp P (fun _ m' o => R m m' o) m) -> moves R P.
Proof.
  intros HP HR m Hm. specialize (HP m Hm). specialize (HR m Hm). unfold wp in *.
  destruct (P m) as [[[a m'] o]|]; [|exact HR]. split; [apply HP|exact HR].
Qed.

Lemma moves_weaken (R R' : step_relation) {A} (P : clm_prog A) :
  (forall m m' o, R m m' o -> R' m m' o) ->
  moves R P -> moves R' P.
Proof.
  intros HR HP m Hm. eapply wp_mono; [apply (HP m Hm)|]. intros a m' o [Hm' Hr]. auto.
Qed.

Section Calculus.
Context (R : step_relation) `{!Composes R}.

Lemma moves_bind {A B} (P : clm_prog A) (k : A -> clm_prog B) :
  moves R P -> (forall a, moves R (k a)) -> moves R (P ≫= k).
Proof.
  intros HP Hk m Hm. apply wp_bind. eapply wp_mono; [apply (HP m Hm)|]. intros a m1 o1 [Hm1 H1'].
  eapply wp_mono; [apply (Hk a m1 Hm1)|]. intros b m2 o2 [Hm2 H2'].
  split; [exact Hm2|exact (composes_app _ _ _ _ _ H1' H2')].
Qed.

Lemma moves_ret {A} (a : A) : moves R (mret a).
Proof. intros m Hm. apply wp_ret. split; [exact Hm|apply composes_nil]. Qed.

Lemma moves_emit x : (forall m, R m m [x]) -> moves R (emit x).
Proof. intros Hx m Hm. apply wp_emit. split; [exact Hm|apply Hx]. Qed.

Lemma moves_get {B} (k : clm -> clm_prog B) :
  (forall m, master_inv cfg m -> wp (k m) (fun _ m' o => master_inv cfg m' /\ R m m' o) m) ->
  moves R (get ≫= k).
Proof. intros Hk m Hm. apply wp_bind. wp_steps. apply Hk, Hm. Qed.

Lemma moves_when b P : moves R P -> moves R (when b P).
Proof. intros HP. destruct b; [exact HP|apply moves_ret]. Qed.

Lemma moves_for_range n body : (forall i, 0 <= i < n -> moves R (body i)) ->
  moves R (for_range n body).
Proof.
  intros Hb. unfold for_range.
  assert (Hl : Forall (fun i => 0 <= i < n) (seqZ 0 n)) by (apply Forall_seqZ; lia).
  induction Hl as [|i l Hi Hl IH]; cbn [for_each]; [apply moves_ret|].
  apply moves_bind; auto.
Qed.

End Calculus.

(** ** Bookkeeping *)

Lemma same_exchange_groups m m' : m_groups m' = m_groups m -> same_exchange m m'.
Proof.
  intros Hg. assert (Hat : forall g, group_at m' g = group_at m g)
    by (intros g; unfold group_at; rewrite Hg; reflexivity).
  split; [intros g _|split; [intros g _|intros g d _]]; rewrite Hat; reflexivity.
Qed.

Lemma same_exchange_device g d f m : has_device cfg g d -> master_inv cfg m ->
  (forall dev, device_status (f dev) = device_status dev) ->
  same_exchange m (update_group g (update_device d f) m).
Proof.
  intros [Hg Hd] Hm Hf. pose proof (groups_length cfg cfg_ok m g (proj1 Hm) Hg) as Hlen.
  rewrite (modify_group_put cfg cfg_ok), with_env_of by (assumption || apply Hm).
  split; [|split].
  - intros g' Hg'. destruct (Z.eq_dec g' g) as [->|Hne].
    + rewrite group_at_put by exact Hlen. reflexivity.
    + rewrite group_at_put_other by (unfold has_group in *; lia). reflexivity.
  - intros g' Hg'. destruct (Z.eq_dec g' g) as [->|Hne].
    + rewrite group_at_put by exact Hlen. reflexivity.
    + rewrite group_at_put_other by (unfold has_group in *; lia). reflexivity.
  - intros g' d' [Hg' Hd']. destruct (Z.eq_dec g' g) as [->|Hne].
    + rewrite group_at_put by exact Hlen.
      pose proof (device_in_array cfg cfg_ok g Hg d _
        (base_writable cfg g d _ Hd (proj1 (proj2 Hm g Hg)))) as Hin.
      rewrite update_device_put by exact Hin. destruct (Z.eq_dec d' d) as [->|Hned].
      * rewrite device_at_put by exact Hin. apply Hf.
      * rewrite device_at_put_other by lia. reflexivity.
    + rewrite group_at_put_other by (unfold has_group in *; lia). reflexivity.
Qed.

Lemma moves_device g d f : has_device cfg g d -> keeps cfg (modify_device g d f) ->
  (forall dev, device_status (f dev) = device_status dev) ->
  moves keeps_exchange (modify_device g d f).
Proof.
  intros Hgd Hk Hf. apply moves_intro; [exact Hk|]. intros m Hm. apply wp_modify. split; [|constructor].
  apply same_exchange_device; assumption.
Qed.

Lemma moves_count counter `{Field _ _ counter} g d : has_device cfg g d ->
  moves keeps_exchange (modify_device g d (count_in counter)).
Proof.
  intros Hgd. apply moves_device; [exact Hgd|apply keeps_count; assumption|]. intros dev. reflexivity.
Qed.

Lemma moves_outside f :
  (forall m, master_base cfg m -> master_base cfg (f m) /\ m_groups (f m) = m_groups m) ->
  moves keeps_exchange (modify f).
Proof.
  intros Hf. apply moves_intro; [apply (keeps_outside cfg), Hf|]. intros m Hm.
  apply wp_modify. split; [apply same_exchange_groups, Hf, Hm|constructor].
Qed.

Lemma keeps_exchange_callback x : no_frame x -> forall m, keeps_exchange m m [x].
Proof. intros Hx m. split; [reflexivity|]. constructor; [exact Hx|constructor]. Qed.

Lemma moves_error_callback now message ip argument :
  moves keeps_exchange (clm_iefb_trigger_error_callback now message ip argument).
Proof.
  unfold clm_iefb_trigger_error_callback. apply moves_get. intros m Hm.
  destruct (cl_limiter_should_run_now _ _ _) as [run limiter].
  apply (moves_bind keeps_exchange); [| |exact Hm].
  - apply moves_outside. intros m' []. split; [split; assumption|reflexivity].
  - intros []. apply (moves_when keeps_exchange), (moves_emit keeps_exchange), keeps_exchange_callback; exact I.
Qed.

Lemma moves_slaveinfo_callback g d end_code err info :
  moves keeps_exchange (clm_iefb_trigger_slaveinfo_callback g d end_code err info).
Proof.
  apply moves_get. intros m Hm.
  apply (moves_when keeps_exchange), Hm. apply (moves_emit keeps_exchange), keeps_exchange_callback; exact I.
Qed.

Lemma moves_alarmframe_callback g d end_code err info :
  moves keeps_exchange (clm_iefb_trigger_alarmframe_callback g d end_code err info).
Proof.
  apply moves_get. intros m Hm.
  apply (moves_when keeps_exchange), Hm. apply (moves_emit keeps_exchange), keeps_exchange_callback; exact I.
Qed.

#[local] Hint Resolve moves_ret moves_count moves_error_callback moves_slaveinfo_callback
  moves_alarmframe_callback moves_when same_exchange_refl : clink.
Ltac moves_steps :=
  repeat first [solve [auto with clink]
               | apply (moves_bind keeps_exchange); [|intros []]
               | apply (moves_when keeps_exchange)].

Lemma moves_report_errors now g d end_code ip : has_device cfg g d ->
  moves keeps_exchange (report_errors now g d end_code ip).
Proof. intros Hgd. unfold report_errors, count_alarm_frame. moves_steps. Qed.

Lemma moves_report_changes g d end_code err info latest : has_device cfg g d ->
  moves keeps_exchange (report_changes g d end_code err info latest).
Proof. intros Hgd. unfold report_changes, count_alarm_frame. moves_steps. Qed.

Lemma moves_response_values g d r : has_device cfg g d ->
  moves keeps_exchange (store_response_values g d r).
Proof.
  intros Hgd. apply moves_intro; [apply (keeps_response_values cfg cfg_ok), Hgd|].
  intros m Hm. unfold store_response_values. apply wp_bind, wp_modify. apply wp_bind, wp_get.
  unfold modify_device, modify_group. apply wp_modify. cbn [app]. split; [|constructor].
  set (f1 := fun gd => update_device d _ gd). set (m1 := update_group g f1 m).
  assert (Hm1 : master_inv cfg m1).
  { apply (update_group_inv cfg cfg_ok); [apply Hgd|exact Hm|]. intros gd Hb Hc.
    apply bookkeeping_inv; try assumption; try apply Hgd. repeat split. }
  etransitivity; [|apply same_exchange_device; [exact Hgd|exact Hm1|reflexivity]].
  unfold m1. set (f := fun device : clm_slave_device_data => device <| d_latest_frame :=
    clm_iefb_store_incoming_slave_runtime_info r (g_timestamp_link_scan_start (group_at m g)) |>).
  pose proof (same_exchange_device g d f m Hgd Hm (fun dev => eq_refl)) as Hs.
  rewrite (modify_group_put cfg cfg_ok) in Hs |- * by (apply Hgd || apply Hm). exact Hs.
Qed.

(** The device after a change. *)
Lemma updated_device g d (f : clm_group_data -> clm_slave_device_data -> clm_slave_device_data) m :
  has_device cfg g d -> master_inv cfg m ->
  device_at (group_at (update_group g (fun gd => update_device d (f gd) gd) m) g) d =
    f (group_at m g) (device_at (group_at m g) d).
Proof.
  intros [Hg Hd] Hm. pose proof (groups_length cfg cfg_ok m g (proj1 Hm) Hg) as Hlen.
  rewrite (modify_group_put cfg cfg_ok), with_env_of by (assumption || apply Hm).
  rewrite group_at_put by exact Hlen.
  pose proof (device_in_array cfg cfg_ok g Hg d _
    (base_writable cfg g d _ Hd (proj1 (proj2 Hm g Hg)))) as Hin.
  rewrite update_device_put by exact Hin. apply device_at_put, Hin.
Qed.

(** The device has answered with the sequence number of the response. *)
Lemma response_values_heard g d r m : has_device cfg g d -> master_inv cfg m ->
  wp (store_response_values g d r) (fun _ m1 _ => heard (device_at (group_at m1 g) d)
    (sdh_frame_sequence_no (fs_cyclic_data_header (si_full_headers r)))) m.
Proof.
  intros Hgd Hm. unfold store_response_values. apply wp_bind, wp_modify. apply wp_bind, wp_get.
  unfold modify_device, modify_group. apply wp_modify. cbn [app].
  set (f1 := fun gd => update_device d _ gd). set (m1 := update_group g f1 m).
  assert (Hm1 : master_inv cfg m1).
  { apply (update_group_inv cfg cfg_ok); [apply Hgd|exact Hm|]. intros gd Hb Hc.
    apply bookkeeping_inv; try assumption; try apply Hgd. repeat split. }
  intros _. rewrite (updated_device g d (fun _ => _) m1 Hgd Hm1).
  change (d_latest_frame (?dev <| d_statistics ::= _ |>)) with (d_latest_frame dev).
  unfold m1, f1. rewrite (updated_device g d (fun gd dev => dev <| d_latest_frame := _ |>) m Hgd Hm).
  reflexivity.
Qed.

(** ** Events *)

Lemma group_step_areas m g now event e gd e' gd' o : group_step cfg g m now event e gd e' gd' o ->
  g_memory_area gd' = g_memory_area gd.
Proof.
  assert (Hc : forall ev gd gd', all_changed cfg g ev gd gd' -> g_memory_area gd' = g_memory_area gd)
    by (intros ev gd0 gd0' Ha; exact (sg_memory _ _ (ac_same _ _ _ _ _ Ha))).
  assert (He : forall ev gd gd', scan_ended cfg g ev gd gd' -> g_memory_area gd' = g_memory_area gd)
    by (intros ev gd0 gd0' (gd1 & Ha & ->); exact (Hc _ _ _ Ha)).
  intros Hstep. destruct Hstep as [e gd gd' o _ Hs|e gd gd' _ Ha r|e gd gd' _ Ha|e gd gd' o _ Hs
    |e gd gd1 gd' o _ Hen Hs|e gd gd' _ _ Hen|e gd gd1 gd' o _ _ Hen Hs|event e gd _].
  - exact (sc_memory _ _ _ _ _ _ _ Hs).
  - exact (Hc _ _ _ Ha).
  - exact (Hc _ _ _ Ha).
  - exact (sc_memory _ _ _ _ _ _ _ Hs).
  - rewrite (sc_memory _ _ _ _ _ _ _ Hs). exact (He _ _ _ Hen).
  - exact (He _ _ _ Hen).
  - rewrite (sc_memory _ _ _ _ _ _ _ Hs). exact (He _ _ _ Hen).
  - reflexivity.
Qed.

Lemma same_areas_put g gd e m : has_group cfg g -> master_inv cfg m ->
  g_memory_area gd = g_memory_area (group_at m g) -> same_areas m (put_group g gd (with_env e m)).
Proof.
  intros Hg Hm Ha g' Hg'. pose proof (groups_length cfg cfg_ok m g (proj1 Hm) Hg) as Hlen.
  destruct (Z.eq_dec g' g) as [->|Hne].
  - rewrite group_at_put by exact Hlen. exact Ha.
  - rewrite group_at_put_other by (unfold has_group in *; lia). reflexivity.
Qed.

(** An event of a group, whatever it leads to. *)
Lemma group_event_areas g now event m : has_group cfg g -> master_inv cfg m -> runtime_event event ->
  wp (clm_iefb_group_fsm_event g now event) (fun _ m' _ => same_areas m m') m.
Proof.
  intros Hg Hm Hev. destruct (proj2 Hm g Hg) as [Hb Hc].
  eapply wp_mono; [apply (group_event_wp clock_ok cfg cfg_ok m g now event Hg (proj1 Hm) Hb
    (group_control_started cfg g _ Hc) Hev)|].
  intros _ m' o (e' & gd' & -> & Hstep). apply same_areas_put; [exact Hg|exact Hm|].
  exact (group_step_areas _ _ _ _ _ _ _ _ _ Hstep).
Qed.

Lemma moves_group_event_all now event : plain_event event ->
  moves keeps_areas (clm_iefb_group_fsm_event_all now event).
Proof.
  intros Hev. apply moves_get. intros m Hm. rewrite (config_groups_eq cfg m Hm).
  apply (moves_for_range keeps_areas); [|exact Hm]. intros g Hg.
  apply moves_intro; [apply (keeps_group_event clock_ok cfg cfg_ok); assumption|].
  intros m' Hm'. apply group_event_areas; [exact Hg|exact Hm'|].
  destruct Hev as [-> |[-> | ->]]; exact I.
Qed.

Lemma moves_complete g now : has_group cfg g -> moves keeps_areas (complete_link_scan now g).
Proof.
  intros Hg. apply moves_intro; [apply (keeps_complete clock_ok cfg cfg_ok), Hg|]. intros m Hm.
  apply wp_bind, wp_get. apply wp_when; intros _; [|intros g' _; reflexivity].
  apply group_event_areas; [exact Hg|exact Hm|exact I].
Qed.

Lemma device_stepped_areas g d event gd gd' o : device_stepped cfg g d event gd gd' o ->
  g_memory_area gd' = g_memory_area gd.
Proof.
  unfold device_stepped. destruct (dfsm_action _) as [[]|].
  - intros [].
  - intros [(st & frame & -> & _) _]. reflexivity.
  - intros [_ [st ->]]. reflexivity.
  - intros [-> _]. reflexivity.
  - intros [-> _]. reflexivity.
Qed.

Lemma moves_device_event g d event : has_device cfg g d -> response_event event ->
  moves keeps_areas (clm_iefb_device_fsm_event g d event).
Proof.
  intros Hgd Hev. apply moves_intro; [apply (keeps_device_event cfg cfg_ok); assumption|].
  intros m Hm. eapply wp_mono; [apply (device_event_wp cfg cfg_ok m g d event Hgd Hm)|].
  { destruct Hev as [-> |[-> | ->]]; discriminate. }
  intros _ m' o (gd' & -> & Hst). rewrite <- (with_env_of m) at 2.
  apply same_areas_put; [apply Hgd|exact Hm|exact (device_stepped_areas _ _ _ _ _ _ Hst)].
Qed.

Lemma moves_fsm_events now g d end_code : has_device cfg g d ->
  moves keeps_areas (response_fsm_events now g d end_code).
Proof.
  intros Hgd. unfold response_fsm_events. destruct (_ =? _).
  - apply moves_group_event_all. right. right. reflexivity.
  - apply (moves_bind keeps_areas); [|intros []; apply moves_complete, Hgd].
    apply moves_device_event; [exact Hgd|]. destruct (_ =? _); [left|right; left]; reflexivity.
Qed.

(** ** The connection to the device *)

(** What becomes of an enabled device that the scan asked, and that has
    answered it. *)
Definition link_answered (now : Z) (m m' : clm) (g d : Z) (o : list clm_output) : Prop :=
  let gd := group_at m g in
  let dev := device_at gd d in
  d_enabled dev = true ->
  d_device_state dev = CLM_DEVICE_STATE_WAIT_TD \/
  d_device_state dev = CLM_DEVICE_STATE_CYCLIC_SENDING ->
  g_group_state gd = CLM_GROUP_STATE_MASTER_LINK_SCAN ->
  goes_on cfg g now (group_at m' g) d o /\ parameter_of (group_at m' g) = parameter_of gd.

(** Only the status of the device and the frame count. *)
Definition same_link (m m1 : clm) (g d : Z) : Prop :=
  group_status (group_at m1 g) = group_status (group_at m g) /\
  device_status (device_at (group_at m1 g) d) = device_status (device_at (group_at m g) d).

Lemma same_exchange_link m m1 g d : has_device cfg g d -> same_exchange m m1 -> same_link m m1 g d.
Proof. intros Hgd (_ & Hg & Hd). split; [exact (Hg g (proj1 Hgd))|exact (Hd g d Hgd)]. Qed.

Lemma link_answered_from now m m1 m' g d o1 o o2 : Forall no_frame o1 -> Forall no_frame o2 ->
  same_link m m1 g d ->
  link_answered now m1 m' g d o -> link_answered now m m' g d (o1 ++ o ++ o2).
Proof.
  intros Ho1 Ho2 [Hst Hdev] Hl Hen Hs Hscan. unfold link_answered in Hl.
  injection Hst as Hst _ Hframe _. injection Hdev as He Hs' _ _.
  unfold parameter_of in *. rewrite He, Hs', Hst, Hframe in Hl. destruct (Hl Hen Hs Hscan) as [Hon Hp].
  split; [exact (goes_on_app _ _ _ _ _ _ _ _ Ho1 Ho2 Hon)|exact Hp].
Qed.

(** The answer that a device is waited for. *)
Lemma answered_sent g d gd gd' o : has_device cfg g d -> group_base cfg g gd ->
  device_stepped cfg g d CLM_DEVICE_EVENT_RECEIVE_OK gd gd' o ->
  d_device_state (device_at gd d) = CLM_DEVICE_STATE_WAIT_TD \/
  d_device_state (device_at gd d) = CLM_DEVICE_STATE_CYCLIC_SENDING ->
  d_enabled (device_at gd' d) = d_enabled (device_at gd d) /\
  d_device_state (device_at gd' d) = CLM_DEVICE_STATE_CYCLIC_SENT /\
  d_latest_frame (device_at gd' d) = d_latest_frame (device_at gd d).
Proof.
  intros [Hg Hd] Hb Hstep Hs.
  pose proof (device_stepped_changed cfg cfg_ok g Hg _ _ _ _ _ Hd Hb Hstep) as Hch.
  split; [exact (device_changed_enabled _ _ _ _ _ Hch)|]. unfold device_changed in Hch.
  destruct Hs as [Hs|Hs]; rewrite Hs in Hch; cbn in Hch; rewrite Hch; split; reflexivity.
Qed.

Lemma fsm_events_link now g d m : has_device cfg g d -> master_inv cfg m ->
  heard (device_at (group_at m g) d) (g_frame_sequence_no (group_at m g)) ->
  wp (response_fsm_events now g d CL_SLMP_ENDCODE_SUCCESS) (fun _ m' o => link_answered now m m' g d o) m.
Proof.
  intros Hgd Hm Hheard. pose proof Hgd as [Hg Hd]. destruct (proj2 Hm g Hg) as [Hb Hc].
  pose proof (groups_length cfg cfg_ok m g (proj1 Hm) Hg) as Hlen.
  unfold response_fsm_events.
  replace (CL_SLMP_ENDCODE_SUCCESS =? CL_SLMP_ENDCODE_CCIEFB_MASTER_DUPLICATION) with false by reflexivity.
  rewrite Z.eqb_refl. apply wp_bind.
  eapply wp_mono; [apply (device_event_wp cfg cfg_ok m g d _ Hgd Hm); discriminate|].
  intros [] m1 o1 (gd1 & -> & Hstep).
  assert (Hat : group_at (put_group g gd1 m) g = gd1) by exact (group_at_put g gd1 m Hlen).
  destruct (device_event_control cfg cfg_ok g d _ _ _ _ Hg Hd (or_introl eq_refl) Hb Hc Hstep) as [Hc1 ->].
  pose proof (device_stepped_base cfg cfg_ok g Hg _ _ _ _ _ Hd Hb Hstep) as Hb1.
  assert (Hm1 : master_inv cfg (put_group g gd1 m)).
  { replace m with (with_env (env_of m) m) by apply with_env_of.
    apply put_group_inv; [exact cfg_ok|exact Hg|apply Hm|apply master_others, Hm|exact Hb1|exact Hc1]. }
  pose proof (answered_sent g d _ _ _ Hgd Hb Hstep) as Hans.
  pose proof (device_stepped_parameter cfg g d _ _ _ _ Hb Hstep) as Hpar.
  pose proof (device_stepped_rest cfg cfg_ok g Hg _ _ _ _ _ Hd Hb Hstep) as (Hsame & _).
  assert (Hafter : d_enabled (device_at (group_at m g) d) = true ->
    d_device_state (device_at (group_at m g) d) = CLM_DEVICE_STATE_WAIT_TD \/
    d_device_state (device_at (group_at m g) d) = CLM_DEVICE_STATE_CYCLIC_SENDING ->
    g_group_state (group_at m g) = CLM_GROUP_STATE_MASTER_LINK_SCAN -> answered gd1 d).
  { intros Hen Hs Hscan. destruct (Hans Hs) as (Hen1 & Hs1 & Hl1). split; [congruence|]. split; [exact Hs1|].
    left. unfold heard in *. rewrite Hl1, (sg_seq _ _ Hsame), (sg_state _ _ Hsame). auto. }
  set (m1 := put_group g gd1 m) in *. unfold complete_link_scan. apply wp_bind, wp_get. cbn [app].
  apply wp_when; intros Hr.
  - rewrite <- Hat in Hb1, Hc1. rewrite (mb_config _ _ (proj1 Hm1)) in Hr.
    pose proof (complete_pre cfg g _ Hb1 Hc1 Hr) as Hpre.
    eapply wp_mono; [apply (group_event_wp clock_ok cfg cfg_ok m1 g now CLM_GROUP_EVENT_LINKSCAN_COMPLETE Hg (proj1 Hm1) Hb1
      (group_control_started cfg g _ Hc1) I)|].
    intros _ m' o (e' & gd' & -> & Hgs) Hen Hs Hscan. specialize (Hafter Hen Hs Hscan). cbn [app].
    rewrite (group_at_put g gd' (with_env e' m1) (groups_length cfg cfg_ok m1 g (proj1 Hm1) Hg)).
    rewrite Hat in *. split; [|rewrite (group_step_parameter _ _ _ _ _ _ _ _ _ _ Hgs); exact Hpar].
    destruct (event_asks cfg g d Hgd m1 now _ _ _ _ _ _ Hb1 Hpre ltac:(discriminate) Hgs Hafter) as [Ha|Ha];
      [left; exact Ha|right]. exists (m_master_local_unit_info m1), gd1.
    split; [exact (mb_info _ _ (proj1 Hm1))|]. split; [exact Ha|]. intros socket ip port frame Hin.
    apply (event_request cfg m1 g now _ _ _ _ _ _ _ _ _ _ Hb1 Hpre Hgs Hin).
  - intros Hen Hs Hscan. rewrite Hat. split; [|exact Hpar].
    left. split; [exact (Hafter Hen Hs Hscan)|constructor].
Qed.

(** ** The alarm of a duplicated master *)

(** The group scanned before, and listens now. *)
Definition alarmed (m m' : clm) (g : Z) : Prop :=
  g_group_state (group_at m g) = CLM_GROUP_STATE_MASTER_LINK_SCAN \/
  g_group_state (group_at m g) = CLM_GROUP_STATE_MASTER_LINK_SCAN_COMP ->
  g_group_state (group_at m' g) = CLM_GROUP_STATE_MASTER_LISTEN.

Lemma alarmed_from m m1 m' g : g_group_state (group_at m1 g) = g_group_state (group_at m g) ->
  alarmed m1 m' g -> alarmed m m' g.
Proof. unfold alarmed. intros ->. exact (fun Ha => Ha). Qed.

Lemma alarm_step g m now e gd e' gd' o :
  group_step cfg g m now CLM_GROUP_EVENT_MASTERDUPL_ALARM e gd e' gd' o ->
  g_group_state gd = CLM_GROUP_STATE_MASTER_LINK_SCAN \/
  g_group_state gd = CLM_GROUP_STATE_MASTER_LINK_SCAN_COMP ->
  g_group_state gd' = CLM_GROUP_STATE_MASTER_LISTEN.
Proof.
  intros Hstep Hs. inversion Hstep as [| |? ? ? _ Ha| | | | |? ? ? Hi]; subst.
  - rewrite (sg_state _ _ (ac_same _ _ _ _ _ Ha)). reflexivity.
  - destruct Hs as [Hs|Hs]; rewrite Hs in Hi; vm_compute in Hi; discriminate Hi.
Qed.

Lemma alarm_all now g m : has_group cfg g -> master_inv cfg m ->
  wp (clm_iefb_group_fsm_event_all now CLM_GROUP_EVENT_MASTERDUPL_ALARM)
    (fun _ m' _ => alarmed m m' g) m.
Proof.
  intros Hg Hm. unfold clm_iefb_group_fsm_event_all. wp_steps. rewrite (config_groups_eq cfg m Hm).
  assert (Hev : plain_event CLM_GROUP_EVENT_MASTERDUPL_ALARM) by (right; right; reflexivity).
  assert (Hn : 0 <= g < sh_number_of_groups (mc_hier cfg)) by exact Hg.
  eapply wp_mono; [apply (wp_for_groups _ _ (fun i m' _ => master_inv cfg m' /\
    (i <= g -> group_at m' g = group_at m g) /\ (g < i -> alarmed m m' g))); [lia| |]|].
  - split; [exact Hm|]. split; [reflexivity|lia].
  - intros i m1 o1 Hi (Hm1 & Hbefore & Hafter). assert (Hgi : has_group cfg i) by exact Hi.
    destruct (proj2 Hm1 i Hgi) as [Hb Hc].
    pose proof (keeps_group_event clock_ok cfg cfg_ok i now _ Hgi Hev m1 Hm1) as Hk.
    pose proof (group_event_wp clock_ok cfg cfg_ok m1 i now CLM_GROUP_EVENT_MASTERDUPL_ALARM Hgi
      (proj1 Hm1) Hb (group_control_started cfg i _ Hc) I) as Hw. unfold wp in *.
    destruct (clm_iefb_group_fsm_event i now _ m1) as [[[a m2] o2]|]; [|exact Hk].
    destruct Hw as (e' & gd' & -> & Hstep). split; [apply Hk|].
    pose proof (groups_length cfg cfg_ok m1 i (proj1 Hm1) Hgi) as Hlen. unfold has_group in Hg, Hgi.
    destruct (Z.eq_dec g i) as [->|Hne].
    + split; [lia|]. intros _. unfold alarmed. rewrite <- (Hbefore ltac:(lia)), group_at_put by exact Hlen.
      exact (alarm_step i m1 now _ _ _ _ _ Hstep).
    + unfold alarmed. rewrite group_at_put_other by lia. split; intros Hle.
      * apply Hbefore. lia.
      * apply Hafter. lia.
  - intros [] m' o (_ & _ & Ha). apply Ha. lia.
Qed.

Lemma fsm_events_both now g d end_code m : has_device cfg g d -> master_inv cfg m ->
  wp (response_fsm_events now g d end_code) (fun _ m' o => same_areas m m' /\
    (end_code = CL_SLMP_ENDCODE_SUCCESS ->
     heard (device_at (group_at m g) d) (g_frame_sequence_no (group_at m g)) ->
     link_answered now m m' g d o) /\
    (end_code = CL_SLMP_ENDCODE_CCIEFB_MASTER_DUPLICATION -> alarmed m m' g)) m.
Proof.
  intros Hgd Hm. pose proof (moves_fsm_events now g d end_code Hgd m Hm) as Hw.
  destruct (Z.eq_dec end_code CL_SLMP_ENDCODE_SUCCESS) as [->|Hne].
  - pose proof (fsm_events_link now g d m Hgd Hm) as Hw'. unfold wp in *.
    destruct (response_fsm_events _ _ _ _ m) as [[[a m'] o]|]; [|exact Hw].
    split; [apply Hw|]. split; [intros _; exact Hw'|discriminate].
  - destruct (Z.eq_dec end_code CL_SLMP_ENDCODE_CCIEFB_MASTER_DUPLICATION) as [->|Hnd].
    + pose proof (alarm_all now g m (proj1 Hgd) Hm) as Hw'. unfold response_fsm_events in *.
      rewrite Z.eqb_refl in *. unfold wp in *.
      destruct (clm_iefb_group_fsm_event_all _ _ m) as [[[a m'] o]|]; [|exact Hw].
      split; [apply Hw|]. split; [discriminate|intros _; exact Hw'].
    + eapply wp_mono; [exact Hw|]. intros a m' o [_ Ha]. split; [exact Ha|]. split; tauto.
Qed.

(** ** Responses *)

(** The checks of a response from a device, once its sender is known. *)
Record response_fits (m : clm) (g d : Z) (r : clm_cciefb_cyclic_response_info) : Prop := {
  rt_enabled : d_enabled (device_at (group_at m g) d) = true;
  rt_new : let latest := d_latest_frame (device_at (group_at m g) d) in
    fv_has_been_received latest = true ->
    sdh_frame_sequence_no (fs_cyclic_data_header (si_full_headers r)) = fv_frame_sequence_no latest ->
    d_device_state (device_at (group_at m g) d) = CLM_DEVICE_STATE_LISTEN;
  rt_sequence : d_transmission_bit (device_at (group_at m g) d) = true ->
    sdh_frame_sequence_no (fs_cyclic_data_header (si_full_headers r)) =
      g_frame_sequence_no (group_at m g);
  rt_stations : si_number_of_occupied r =
    ds_num_occupied_stations (setting_of_device (setting_of_group cfg g) d)
}.

(** The cyclic data afterwards: the inputs of the device are those of the
    response, or zeros while it is not sent cyclic data. *)
Definition inputs_received (m m' : clm) (g d : Z) (buffer : list Z) : Prop :=
  g_memory_area (group_at m' g) =
    received_areas (group_at m g) (setting_of_group cfg g) d buffer /\
  forall g', has_group cfg g' -> g' <> g ->
    g_memory_area (group_at m' g') = g_memory_area (group_at m g').

Lemma received_areas_same m m1 g d buffer : has_device cfg g d -> same_exchange m m1 ->
  received_areas (group_at m1 g) (setting_of_group cfg g) d buffer =
    received_areas (group_at m g) (setting_of_group cfg g) d buffer.
Proof.
  intros Hgd (Ha & _ & Hb). unfold received_areas. rewrite (Ha g (proj1 Hgd)).
  pose proof (f_equal (fun st => st.1.2) (Hb g d Hgd)) as Hbit. cbn in Hbit. rewrite Hbit. reflexivity.
Qed.

(** The response has the sequence number of the scan. *)
Definition in_sequence (m : clm) (g : Z) (r : clm_cciefb_cyclic_response_info) : Prop :=
  sdh_frame_sequence_no (fs_cyclic_data_header (si_full_headers r)) =
    g_frame_sequence_no (group_at m g).

Lemma store_response_wp now g d end_code r recv_len remote_ip buffer m : has_device cfg g d ->
  bytes buffer -> length buffer = 1500%nat -> response_ok buffer recv_len remote_ip r ->
  si_number_of_occupied r = ds_num_occupied_stations (setting_of_device (setting_of_group cfg g) d) ->
  master_inv cfg m ->
  wp (store_response now g d end_code r (setting_of_device (setting_of_group cfg g) d))
    (fun _ m' o => inputs_received m m' g d buffer /\
       (end_code = CL_SLMP_ENDCODE_SUCCESS -> in_sequence m g r -> link_answered now m m' g d o) /\
       (end_code = CL_SLMP_ENDCODE_CCIEFB_MASTER_DUPLICATION -> alarmed m m' g)) m.
Proof.
  intros Hgd Hby Hl Hr Hk Hm. apply wp_bind.
  eapply wp_mono; [apply wp_and; [apply (moves_response_values g d r Hgd m Hm)|
    apply (response_values_heard g d r m Hgd Hm)]|]. intros [] m1 o1 [(Hm1 & H1' & Ho1) Hheard].
  apply wp_bind. apply (store_data_wp cfg cfg_ok m1 g d r recv_len remote_ip buffer); try assumption.
  intros Hok. rewrite (received_areas_same m m1 g d buffer Hgd H1') in *.
  set (m2 := update_group g _ m1).
  assert (Hm2 : master_inv cfg m2).
  { apply (memory_inv cfg cfg_ok g (fun _ => received_areas _ _ _ _)); [apply Hgd|exact Hm1|exact Hok]. }
  eapply wp_mono; [apply (fsm_events_both now g d end_code m2 Hgd Hm2)|].
  assert (Hat : group_at m2 g = (group_at m1 g) <| g_memory_area :=
    received_areas (group_at m g) (setting_of_group cfg g) d buffer |>).
  { unfold m2. rewrite (modify_group_put cfg cfg_ok), with_env_of by (apply Hgd || apply Hm1).
    apply group_at_put, (groups_length cfg cfg_ok m1 g (proj1 Hm1) (proj1 Hgd)). }
  intros _ m' o (Ha & Hlink & Halarm). split; [split|split].
  - rewrite (Ha g (proj1 Hgd)).
    exact (with_memory_here cfg cfg_ok g (fun _ => received_areas _ _ _ _) m1 (proj1 Hgd) Hm1).
  - intros g' Hg' Hne. rewrite (Ha g' Hg'), <- (proj1 H1' g' Hg').
    f_equal. exact (with_memory_other cfg g (fun _ => received_areas _ _ _ _) m1 g' (proj1 Hgd) Hg' Hne).
  - intros Hec Hseq. destruct (same_exchange_link m m1 g d Hgd H1') as [E1' E2'].
    cbn [app]. rewrite <- (app_nil_r o).
    apply (link_answered_from now m m2 m' g d); [exact Ho1|constructor| |apply (Hlink Hec)].
    + split; rewrite Hat; assumption.
    + rewrite Hat. change (heard (device_at (group_at m1 g) d) (g_frame_sequence_no (group_at m1 g))).
      injection E1' as _ Hs _ _. rewrite Hs, <- Hseq. exact Hheard.
  - intros Hec. apply (alarmed_from m m2 m' g); [|exact (Halarm Hec)].
    rewrite Hat. exact (same_exchange_state m m1 g (proj1 Hgd) H1').
Qed.

Lemma counted_device g d m : has_device cfg g d -> master_inv cfg m ->
  let m1 := update_group g (update_device d (count_in st_number_of_incoming_frames)) m in
  group_at m1 g = put_device d (count_in st_number_of_incoming_frames (device_at (group_at m g) d))
                    (group_at m g) /\
  device_at (group_at m1 g) d = count_in st_number_of_incoming_frames (device_at (group_at m g) d).
Proof.
  intros [Hg Hd] Hm m1. pose proof (groups_length cfg cfg_ok m g (proj1 Hm) Hg) as Hlen.
  pose proof (device_in_array cfg cfg_ok g Hg d _
    (base_writable cfg g d _ Hd (proj1 (proj2 Hm g Hg)))) as Hin.
  assert (Hgat : group_at m1 g = put_device d (count_in st_number_of_incoming_frames
    (device_at (group_at m g) d)) (group_at m g)).
  { unfold m1. rewrite (modify_group_put cfg cfg_ok), with_env_of by (assumption || apply Hm).
    rewrite group_at_put by exact Hlen. apply update_device_put, Hin. }
  split; [exact Hgat|]. rewrite Hgat. apply device_at_put, Hin.
Qed.

(** What an accepted response does: its inputs are received, with the end
    code of success and the sequence number of the scan the device is connected, and with that of a duplicated
    master the group stops to scan. *)
Definition response_taken (now : Z) (m m' : clm) (g d : Z) (r : clm_cciefb_cyclic_response_info)
  (buffer : list Z) (o : list clm_output) : Prop :=
  inputs_received m m' g d buffer /\
  (csh_end_code (fs_cyclic_header (si_full_headers r)) = CL_SLMP_ENDCODE_SUCCESS ->
   in_sequence m g r -> link_answered now m m' g d o) /\
  (csh_end_code (fs_cyclic_header (si_full_headers r)) = CL_SLMP_ENDCODE_CCIEFB_MASTER_DUPLICATION ->
   alarmed m m' g).

(** Programs that refuse a frame. *)
Definition refuses (P : clm_prog bool) : Prop :=
  forall m, master_inv cfg m -> wp P (fun b m' _ => b = false /\ same_areas m m') m.

Lemma refuses_ret : refuses (mret false).
Proof. intros m _. apply wp_ret. split; [reflexivity|reflexivity]. Qed.

Lemma refuses_bind {A} (P : clm_prog A) (k : A -> clm_prog bool) : moves keeps_areas P ->
  (forall a, refuses (k a)) -> refuses (P ≫= k).
Proof.
  intros HP Hk m Hm. apply wp_bind. eapply wp_mono; [apply (HP m Hm)|]. intros a m1 o1 [Hm1 H1'].
  eapply wp_mono; [apply (Hk a m1 Hm1)|]. intros b m' o' [Hb H2']. split; [exact Hb|].
  etransitivity; eassumption.
Qed.

(** Either the response fits, and the inputs are received, or the cyclic
    data stays as it is. *)
Lemma device_response_wp now g d remote_ip r recv_len buffer m : has_device cfg g d ->
  bytes buffer -> length buffer = 1500%nat -> response_ok buffer recv_len remote_ip r ->
  master_inv cfg m ->
  wp (handle_device_response now g d remote_ip r (setting_of_device (setting_of_group cfg g) d))
    (fun b m' o => (response_fits m g d r /\ b = true /\ response_taken now m m' g d r buffer o) \/
                   (~ response_fits m g d r /\ b = false /\ same_areas m m')) m.
Proof.
  intros Hgd Hby Hl Hr Hm. apply wp_bind, wp_modify. cbn [app].
  change (fun gd => update_device d (count_in st_number_of_incoming_frames) gd)
    with (update_device d (count_in st_number_of_incoming_frames)).
  pose proof (moves_count st_number_of_incoming_frames g d Hgd m Hm) as Hmv.
  destruct (counted_device g d m Hgd Hm) as [_ Hdev].
  assert (Hseq : g_frame_sequence_no (group_at (update_group g
      (update_device d (count_in st_number_of_incoming_frames)) m) g) =
    g_frame_sequence_no (group_at m g)) by (rewrite (proj1 (counted_device g d m Hgd Hm)); reflexivity).
  set (m1 := update_group g _ m) in *.
  change (master_inv cfg m1 /\ same_exchange m m1 /\ Forall no_frame []) in Hmv. destruct Hmv as (Hm1 & H1' & _).
  clearbody m1. apply wp_bind. unfold get_group at 1. wp_steps. cbn [app]. cbv zeta.
  rewrite Hdev, Hseq. set (dev := device_at (group_at m g) d) in *.
  change (d_enabled (count_in st_number_of_incoming_frames dev)) with (d_enabled dev).
  change (d_latest_frame (count_in st_number_of_incoming_frames dev)) with (d_latest_frame dev).
  change (d_device_state (count_in st_number_of_incoming_frames dev)) with (d_device_state dev).
  change (d_transmission_bit (count_in st_number_of_incoming_frames dev)) with (d_transmission_bit dev).
  set (seq := sdh_frame_sequence_no _) in *.
  assert (Hrefuse : forall P m2, master_inv cfg m2 -> same_areas m m2 -> refuses P ->
    ~ response_fits m g d r -> forall Q : bool -> clm -> list clm_output -> Prop,
    (forall b m' o, ~ response_fits m g d r /\ b = false /\ same_areas m m' -> Q b m' o) -> wp P Q m2).
  { intros P m2 Hm2 H2' HP Hno Q HQ. eapply wp_mono; [apply (HP m2 Hm2)|].
    intros b m' o' [Hb Ha]. apply HQ. split; [exact Hno|]. split; [exact Hb|].
    etransitivity; eassumption. }
  assert (Hweak : forall A (P : clm_prog A), moves keeps_exchange P -> moves keeps_areas P)
    by (intros A P; apply moves_weaken; intros ? ? ? Hx; apply Hx).
  pose proof (Hweak _ _ (moves_count st_number_of_incoming_invalid_frames g d Hgd)) as Hcount.
  fold (count_invalid_frame g d) in Hcount.
  pose proof (refuses_bind _ (fun _ => mret false) Hcount (fun _ => refuses_ret)) as Hinvalid.
  destruct (d_enabled dev) eqn:Hen; cbn [negb].
  2: { apply Hrefuse; [exact Hm1|apply H1'|exact Hinvalid| |auto]. intros [He _ _ _]. fold dev in He. congruence. }
  destruct (_ && _ && _) eqn:Hdup.
  { apply Hrefuse; [exact Hm1|apply H1'| | |auto].
    - apply refuses_bind; [exact Hcount|intros []].
      apply refuses_bind; [apply Hweak, moves_error_callback|intros []].
      apply refuses_bind; [|intros []; exact refuses_ret].
      apply moves_device_event; [exact Hgd|right; right; reflexivity].
    - apply andb_true_iff in Hdup as [[Hrec Heq%Z.eqb_eq]%andb_true_iff Hst%bool_decide_eq_true].
      intros [_ Hnew _ _]. apply Hst, Hnew; assumption. }
  assert (Hnew : fv_has_been_received (d_latest_frame dev) = true ->
    seq = fv_frame_sequence_no (d_latest_frame dev) -> d_device_state dev = CLM_DEVICE_STATE_LISTEN).
  { intros Hrec Heq. rewrite Hrec, Heq, Z.eqb_refl in Hdup. apply bool_decide_eq_false in Hdup.
    destruct (decide (d_device_state dev = CLM_DEVICE_STATE_LISTEN)); tauto. }
  destruct (d_transmission_bit dev && _) eqn:Hbit.
  { apply Hrefuse; [exact Hm1|apply H1'|exact Hinvalid| |auto]. intros [_ _ Hs _].
    apply andb_true_iff in Hbit as [Hb Hne%negb_true_iff%Z.eqb_neq]. apply Hne, Hs, Hb. }
  apply wp_bind. eapply wp_mono; [apply (moves_report_errors now g d _ remote_ip Hgd m1 Hm1)|].
  intros [] m2 o2 (Hm2 & H2' & Ho2). assert (H12 : same_exchange m m2) by (etransitivity; eassumption).
  destruct (Z.eqb_spec (si_number_of_occupied r)
    (ds_num_occupied_stations (setting_of_device (setting_of_group cfg g) d))) as [Hk|Hk];
    cbn [negb].
  2: { apply Hrefuse; [exact Hm2|apply H12|exact Hinvalid| |auto]. intros [_ _ _ Hs]. exact (Hk Hs). }
  apply wp_bind. eapply wp_mono; [eapply (moves_report_changes g d _ _ _ _ Hgd m2 Hm2)|].
  intros [] m3 o3 (Hm3 & H3' & Ho3). assert (H13 : same_exchange m m3) by (etransitivity; eassumption).
  apply wp_bind.
  eapply wp_mono; [eapply (store_response_wp now g d _ r recv_len remote_ip buffer m3); eassumption|].
  intros [] m' o' ([Hhere Hother] & Hlink & Halarm). apply wp_ret. left.
  split; [|split; [reflexivity|split; [split|split]]].
  - split; [exact Hen|exact Hnew| |exact Hk]. intros Hb. fold dev in Hb. fold seq.
    rewrite Hb in Hbit. apply negb_false_iff, Z.eqb_eq in Hbit. exact Hbit.
  - rewrite Hhere. apply received_areas_same; assumption.
  - intros g' Hg' Hne. rewrite (Hother g' Hg' Hne). apply (proj1 H13 g' Hg').
  - intros Hec Hinseq. destruct (same_exchange_link m m3 g d Hgd H13) as [E1' E2'].
    rewrite !app_assoc, <- app_assoc.
    apply (link_answered_from now m m3 m' g d); [repeat apply Forall_app_2; assumption|constructor|split; assumption|].
    apply (Hlink Hec). injection E1' as _ Hs _ _. unfold in_sequence in *. rewrite Hs. exact Hinseq.
  - intros Hec. apply (alarmed_from m m3 m' g); [|exact (Halarm Hec)].
    exact (same_exchange_state m m3 g (proj1 Hgd) H13).
Qed.

(** ** Frames *)

(** A datagram is a response of device [d] of group [g] that passes all
    checks. *)
Record response_arrives (m : clm) (now : Z) (buffer : list Z) (len ip port g d : Z)
  (r : clm_cciefb_cyclic_response_info) : Prop := {
  ra_sender : ip <> mc_master_id cfg;
  ra_header : exists header, cl_iefb_parse_response_header buffer len = Some header /\
    cl_iefb_validate_response_header header len = true;
  ra_parse : cl_iefb_parse_cyclic_response buffer len ip port now = Done (Some r);
  ra_group : sdh_group_no (fs_cyclic_data_header (si_full_headers r)) = g + 1;
  ra_device : has_device cfg g d /\
    clm_iefb_calc_slave_device_index (setting_of_group cfg g) ip = Some d;
  ra_fits : response_fits m g d r
}.

Definition frame_outcome (m : clm) (now : Z) (buffer : list Z) (len ip port : Z)
  (b : bool) (m' : clm) (o : list clm_output) : Prop :=
  (exists g d r, response_arrives m now buffer len ip port g d r /\ b = true /\
     response_taken now m m' g d r buffer o) \/
  ((forall g d r, ~ response_arrives m now buffer len ip port g d r) /\ same_areas m m').

Lemma response_frame_wp now buffer len ip port header m :
  bytes buffer -> length buffer = 1500%nat -> 0 <= len <= CL_BUFFER_LEN ->
  ~ stops_parser buffer len ip -> ip <> mc_master_id cfg -> cl_iefb_parse_response_header buffer len = Some header ->
  cl_iefb_validate_response_header header len = true -> master_inv cfg m ->
  wp (clm_iefb_handle_response_frame now buffer len ip port) (frame_outcome m now buffer len ip port) m.
Proof.
  intros Hby Hl Hlen Hno Hip Hhd Hval Hm. apply wp_bind, wp_get. cbn [app].
  rewrite (config_groups_eq cfg m Hm), (mb_config _ _ (proj1 Hm)).
  destruct (Z.eqb_spec (mc_master_id cfg) CL_IPADDR_INVALID) as [Hinv|_].
  { destruct (cok_master _ cfg_ok). contradiction. }
  destruct (parse_response_ok buffer len ip port now Hlen Hno) as (parsed & Hp & Hparsed).
  rewrite Hp. apply wp_bind, wp_lift. cbn [app].
  assert (Hrefuse : (forall g d r, ~ response_arrives m now buffer len ip port g d r) ->
    wp (mret false : clm_prog bool) (frame_outcome m now buffer len ip port) m)
    by (intros Hx; apply wp_ret; right; split; [exact Hx|reflexivity]).
  destruct parsed as [r|]; [|apply Hrefuse; intros g d r []; congruence].
  destruct Hparsed as [Hr _]. pose proof (ro_group _ _ _ _ Hr) as Hgno.
  set (no := sdh_group_no _) in *.
  assert (Hsame : forall g d r', response_arrives m now buffer len ip port g d r' ->
    r' = r /\ g = no - 1 /\ has_device cfg g d /\
    clm_iefb_calc_slave_device_index (setting_of_group cfg g) ip = Some d /\ response_fits m g d r).
  { intros g d r' [_ _ Hp' Hg [Hgd Hd] Hf]. assert (r' = r) as -> by congruence.
    fold no in Hg. split; [reflexivity|]. split; [lia|]. auto. }
  destruct (Z.ltb_spec (sh_number_of_groups (mc_hier cfg)) no).
  { apply Hrefuse. intros g d r' Hx. destruct (Hsame _ _ _ Hx) as (_ & -> & [[] _] & _). lia. }
  destruct (clm_iefb_calc_slave_device_index _ ip) as [d|] eqn:Hd.
  2: { apply Hrefuse. intros g d r' Hx. destruct (Hsame _ _ _ Hx) as (_ & -> & _ & Hx' & _). congruence. }
  pose proof (find_device _ _ _ Hd) as [Hdn _].
  assert (Hgd : has_device cfg (no - 1) d) by (split; [unfold has_group; lia|exact Hdn]).
  eapply wp_mono; [apply (device_response_wp now (no - 1) d ip r len buffer m); assumption|].
  intros b m' o [(Hf & -> & Hi)|(Hf & -> & Ha)].
  - left. exists (no - 1), d, r. split; [|auto]. split; try assumption; eauto.
    change (no = no - 1 + 1). lia.
  - right. split; [|exact Ha]. intros g' d' r' Hx.
    destruct (Hsame _ _ _ Hx) as (_ & -> & _ & Hd' & Hf'). assert (d' = d) as -> by congruence. auto.
Qed.

(** Any datagram: what does not arrive as a response leaves the cyclic data
    alone. *)
Lemma input_frame_wp now buffer len ip port m :
  bytes buffer -> length buffer = 1500%nat -> 0 <= len <= CL_BUFFER_LEN ->
  ~ fatal buffer len ip -> master_inv cfg m ->
  wp (clm_iefb_handle_input_frame now buffer len ip port) (frame_outcome m now buffer len ip port) m.
Proof.
  intros Hby Hl Hlen Hno Hm. apply wp_bind, wp_get. cbn [app].
  rewrite (mb_config _ _ (proj1 Hm)).
  assert (Hskip : forall (P : clm_prog bool), moves keeps_areas P ->
    (forall g d r, ~ response_arrives m now buffer len ip port g d r) ->
    wp P (frame_outcome m now buffer len ip port) m).
  { intros P HP Hx. eapply wp_mono; [apply (HP m Hm)|]. intros b m' o [_ Ha]. right. auto. }
  destruct (Z.eqb_spec ip (mc_master_id cfg)) as [Hip|Hip].
  { apply Hskip; [apply (moves_ret keeps_areas)|]. intros g d r []. contradiction. }
  destruct (cl_iefb_parse_response_header buffer len) as [header|] eqn:Hhd.
  2: { apply Hskip; [apply (moves_ret keeps_areas)|]. intros g d r [_ (h & Hh & _) _ _ _ _]. congruence. }
  destruct (cl_iefb_validate_response_header header len) eqn:Hval; cbn [negb].
  { apply (response_frame_wp now buffer len ip port header); try assumption.
    intros Hs. apply Hno. split; [eauto|exact Hs]. }
  assert (Hnot : forall g d r, ~ response_arrives m now buffer len ip port g d r)
    by (intros g d r [_ (h & Hh & Hv) _ _ _ _]; congruence).
  destruct (cl_iefb_parse_request_header _ _); [|apply Hskip; [apply (moves_ret keeps_areas)|exact Hnot]].
  destruct (negb _); [apply Hskip; [apply (moves_ret keeps_areas)|exact Hnot]|].
  destruct (_ || _); [apply Hskip; [apply (moves_ret keeps_areas)|exact Hnot]|].
  apply Hskip; [|exact Hnot]. apply (moves_bind keeps_areas).
  - apply (moves_weaken keeps_exchange keeps_areas); [intros ? ? ? Hx; apply Hx|].
    apply moves_outside. intros m' []. split; [split; assumption|reflexivity].
  - intros []. apply (moves_bind keeps_areas); [|intros []; apply (moves_ret keeps_areas)].
    apply moves_group_event_all. right. left. reflexivity.
Qed.

(** ** What the application reads afterwards *)

Definition replace_device {A} (f : signals A) (g d : Z) (h : Z -> A) : signals A :=
  fun g' d' n => if bool_decide (g' = g /\ d' = d) then h n else f g' d' n.

Lemma same_areas_signals m m' : same_areas m m' ->
  same_signals cfg m' (device_bit cfg AREA_RX m) (device_bit cfg AREA_RY m)
    (device_register cfg AREA_RWR m) (device_register cfg AREA_RWW m).
Proof.
  intros Ha g d Hgd. unfold device_bit, device_register. rewrite (Ha g (proj1 Hgd)).
  repeat split; reflexivity.
Qed.

(** The inputs in a response of a device with [k] stations. *)
Definition response_bit (k : Z) (buffer : list Z) (valid : bool) (n : Z) : bool :=
  valid && bit_in (drop (Z.to_nat (59 + 64 * k)) buffer) n.
Definition response_register (buffer : list Z) (valid : bool) (n : Z) : Z :=
  if valid then register_in (drop 59 buffer) n else 0.

Lemma replace_here {A} (f : signals A) g d h d' n :
  replace_device f g d h g d' n = if decide (d' = d) then h n else f g d' n.
Proof.
  unfold replace_device. destruct (decide (d' = d)).
  - rewrite bool_decide_eq_true_2 by tauto. reflexivity.
  - rewrite bool_decide_eq_false_2 by tauto. reflexivity.
Qed.

(** The stations of a device in an area with [size] signals per station. *)
Lemma device_range size g d d' n : 0 < size -> has_device cfg g d -> has_device cfg g d' ->
  0 <= n < size * device_size cfg g d' ->
  size * device_pos cfg g d <= size * device_pos cfg g d' + n <
    size * (device_pos cfg g d + device_size cfg g d) <-> d' = d.
Proof.
  intros Hs Hd Hd' Hn. split; [|intros ->; lia]. intros Hr.
  pose proof (device_inside cfg cfg_ok g d Hd).
  pose proof (signal_position cfg cfg_ok size g d
    (size * device_pos cfg g d' + n - size * device_pos cfg g d) d' n Hs Hd Hd' ltac:(lia) Hn) as Hp.
  replace (size * device_pos cfg g d + _) with (size * device_pos cfg g d' + n) in Hp by lia.
  rewrite Z.eqb_refl in Hp. symmetry in Hp. apply bool_decide_eq_true in Hp. tauto.
Qed.

Lemma received_rx m m' g d d' n buffer : has_device cfg g d -> has_device cfg g d' ->
  master_inv cfg m -> bytes buffer -> length buffer = 1500%nat ->
  inputs_received m m' g d buffer -> bit_number cfg g d' n ->
  device_bit cfg AREA_RX m' g d' n =
    if decide (d' = d)
    then response_bit (device_size cfg g d) buffer (d_transmission_bit (device_at (group_at m g) d)) n
    else device_bit cfg AREA_RX m g d' n.
Proof.
  intros Hd Hd' Hm Hby Hl [Hmem _] Hn. pose proof (device_inside cfg cfg_ok g d Hd) as Hin.
  pose proof (device_inside cfg cfg_ok g d' Hd') as Hin'. unfold bit_number in Hn.
  destruct (mo_rx _ (memory_of cfg m g Hm (proj1 Hd))) as [Hlen _].
  pose proof clm_max_stations_ok as Hmax.
  rewrite !(device_bit_position cfg cfg_ok), Hmem by assumption. cbn [area_of].
  unfold received_areas. cbn [ma_rx update]. fold (device_pos cfg g d). fold (device_size cfg g d).
  set (valid := d_transmission_bit _).
  destruct (received_part_ok (59 + 64 * device_size cfg g d) 8 (device_size cfg g d) buffer valid)
    as [_ Hpart]; try assumption; try lia.
  rewrite bit_in_splice by (rewrite ?Hpart; lia). rewrite Hpart.
  destruct (decide (d' = d)) as [->|Hne].
  - rewrite decide_True by lia.
    replace (64 * device_pos cfg g d + n - 8 * Z.of_nat (Z.to_nat (8 * device_pos cfg g d))) with n by lia.
    unfold received_part, response_bit. destruct valid; cbn [andb].
    + apply bit_in_slice. lia.
    + apply bit_in_zeros. lia.
  - rewrite decide_False; [reflexivity|]. intros Hr. apply Hne.
    apply (device_range 64 g d d' n); try assumption; lia.
Qed.

Lemma received_rwr m m' g d d' n buffer : has_device cfg g d -> has_device cfg g d' ->
  master_inv cfg m -> bytes buffer -> length buffer = 1500%nat ->
  inputs_received m m' g d buffer -> register_number cfg g d' n ->
  device_register cfg AREA_RWR m' g d' n =
    if decide (d' = d)
    then response_register buffer (d_transmission_bit (device_at (group_at m g) d)) n
    else device_register cfg AREA_RWR m g d' n.
Proof.
  intros Hd Hd' Hm Hby Hl [Hmem _] Hn. pose proof (device_inside cfg cfg_ok g d Hd) as Hin.
  pose proof (device_inside cfg cfg_ok g d' Hd') as Hin'. unfold register_number in Hn.
  destruct (mo_rwr _ (memory_of cfg m g Hm (proj1 Hd))) as [Hlen _].
  pose proof clm_max_stations_ok as Hmax.
  rewrite !(device_register_position cfg cfg_ok), Hmem by assumption. cbn [area_of].
  unfold received_areas. cbn [ma_rwr update]. fold (device_pos cfg g d). fold (device_size cfg g d).
  set (valid := d_transmission_bit _).
  destruct (received_part_ok 59 64 (device_size cfg g d) buffer valid)
    as [_ Hpart]; try assumption; try lia.
  replace (Z.to_nat (64 * device_pos cfg g d)) with (2 * Z.to_nat (32 * device_pos cfg g d))%nat by lia.
  assert (Hhalf : length (received_part 59 64 (device_size cfg g d) buffer valid) =
    (2 * Z.to_nat (32 * device_size cfg g d))%nat) by lia.
  rewrite register_in_splice by (rewrite ?Hhalf; first [lia|eexists; reflexivity]).
  rewrite Hhalf, Nat.div2_double. destruct (decide (d' = d)) as [->|Hne].
  - rewrite decide_True by lia.
    replace (32 * device_pos cfg g d + n - Z.of_nat (Z.to_nat (32 * device_pos cfg g d))) with n by lia.
    unfold received_part, response_register. destruct valid.
    + apply register_in_slice; lia.
    + apply register_in_zeros. lia.
  - rewrite decide_False; [reflexivity|]. intros Hr. apply Hne.
    apply (device_range 32 g d d' n); try assumption; lia.
Qed.

Lemma received_signals m m' g d buffer : has_device cfg g d -> master_inv cfg m ->
  bytes buffer -> length buffer = 1500%nat -> inputs_received m m' g d buffer ->
  let valid := d_transmission_bit (device_at (group_at m g) d) in
  same_signals cfg m'
    (replace_device (device_bit cfg AREA_RX m) g d
       (response_bit (device_size cfg g d) buffer valid))
    (device_bit cfg AREA_RY m)
    (replace_device (device_register cfg AREA_RWR m) g d (response_register buffer valid))
    (device_register cfg AREA_RWW m).
Proof.
  intros Hd Hm Hby Hl Hi valid g' d' Hd'. pose proof Hi as [Hmem Hother].
  destruct (Z.eq_dec g' g) as [->|Hne].
  - split; intros n Hn; rewrite replace_here.
    + split; [exact (received_rx m m' g d d' n buffer Hd Hd' Hm Hby Hl Hi Hn)|].
      unfold device_bit. rewrite Hmem. reflexivity.
    + split; [exact (received_rwr m m' g d d' n buffer Hd Hd' Hm Hby Hl Hi Hn)|].
      unfold device_register. rewrite Hmem. reflexivity.
  - specialize (Hother g' (proj1 Hd') Hne). unfold replace_device.
    rewrite bool_decide_eq_false_2 by tauto.
    split; intros n Hn; unfold device_bit, device_register; rewrite Hother; split; reflexivity.
Qed.

End MasterInputs.
