(* ===== verification/MasterStart.v ===== *)
(** * The start of the master

    [clm_iefb_init] starts every group and configures it: the request frame
    is built, the stations are numbered, and the group waits for the end of
    the arbitration.  Its result satisfies the invariant. *)

From S2P Require Import Prelude Packed Signals Timer Limiter Util Types Iefb IefbFacts IefbRoundtrip.
From S2P Require Import Slmp Master MasterIefb MasterConfig MasterInv MasterFrame MasterDevice.
From S2P Require Import MasterGroup MasterScan MasterFsm MasterEvents MasterControl MasterSafety.
From S2P Require Import MasterResponse.

(** ** The slave ids of a new frame *)

Section SlaveIds.
Context `{ClmOptions, Clal, ClalClock}.

(** The loop writes the ids one after the other. *)
Definition id_bytes (ids : list Z) : list Z := concat (map (c_enc c_u32le) ids).

Lemma length_id_bytes ids : length (id_bytes ids) = (4 * length ids)%nat.
Proof.
  unfold id_bytes. induction ids as [|id ids IH]; [reflexivity|].
  cbn [map concat length]. rewrite length_app, IH. cbn [c_enc c_u32le]. rewrite length_le_split. lia.
Qed.

Lemma bytes_id_bytes ids : bytes (id_bytes ids).
Proof.
  unfold id_bytes. induction ids as [|id ids IH]; [constructor|].
  cbn [map concat]. apply bytes_app. split; [apply bytes_le_split|exact IH].
Qed.

Lemma splice_splice_next off a b l : (off + length a + length b <= length l)%nat ->
  splice (off + length a) b (splice off a l) = splice off (a ++ b) l.
Proof.
  intros Hl. apply list_eq. intros i. rewrite !lookup_splice by (rewrite ?length_splice, ?length_app; lia).
  rewrite length_app. repeat case_decide; try lia.
  - rewrite lookup_app_r by lia. f_equal. lia.
  - rewrite lookup_app_l by lia. reflexivity.
  - reflexivity.
Qed.

Lemma splice_nil off l : (off <= length l)%nat -> splice off [] l = l.
Proof. intros Ho. unfold splice. cbn [length app]. rewrite Nat.add_0_r. apply take_drop. Qed.

Lemma store_slave_ids_eq ids pos buffer : 0 <= pos -> length buffer = 1500%nat ->
  pos + Z.of_nat (length ids) <= 16 ->
  store_slave_ids ids pos 67 buffer = Done (splice (Z.to_nat (67 + 4 * pos)) (id_bytes ids) buffer).
Proof.
  revert pos buffer. induction ids as [|id ids IH]; intros pos buffer Hp Hl Hfit.
  - cbn [store_slave_ids]. unfold id_bytes. cbn [map concat]. rewrite splice_nil by lia. reflexivity.
  - cbn [store_slave_ids length] in *. unfold sizeof_ipaddr.
    assert (Hle : length (c_enc c_u32le id) = 4%nat) by apply length_le_split.
    rewrite store_ok by lia. cbn [mbind outcome_bind]. rewrite u16_id by zlia.
    rewrite IH by (rewrite ?length_splice; lia). f_equal.
    replace (Z.to_nat (67 + 4 * (pos + 1)))
      with (Z.to_nat (67 + 4 * pos) + length (c_enc c_u32le id))%nat by lia.
    rewrite splice_splice_next by (rewrite ?length_id_bytes; lia). reflexivity.
Qed.

Lemma id_bytes_lookup ids i id rest : (forall x, x ∈ ids -> is_u32 x) -> ids !! i = Some id ->
  le_combine (slice (4 * i) 4 (id_bytes ids ++ rest)) = id.
Proof.
  intros Hu. revert i. induction ids as [|x ids IH]; intros i Hi; [discriminate|].
  unfold id_bytes. cbn [map concat]. fold (id_bytes ids).
  assert (Hle : length (c_enc c_u32le x) = 4%nat) by apply length_le_split.
  destruct i as [|i]; cbn [lookup list_lookup] in Hi.
  - injection Hi as ->. rewrite <- app_assoc.
    replace (4 * 0)%nat with 0%nat by lia. rewrite slice_app_l by lia.
    unfold slice. rewrite drop_0, take_ge by lia. apply le_combine_split_id.
    specialize (Hu id ltac:(left)). zlia.
  - rewrite <- app_assoc, slice_app_r by lia. rewrite Hle.
    replace (4 * S i - 4)%nat with (4 * i)%nat by lia. apply IH; [|exact Hi].
    intros y Hy. apply Hu. right. exact Hy.
Qed.

(** The ids of a group, station by station. *)
Definition id_of_station (ds : clm_slave_device_setting) (k : Z) : Z :=
  if k =? 0 then ds_slave_id ds else CL_CCIEFB_MULTISTATION_INDICATOR.

Lemma device_slave_ids_lookup ds k : 0 <= k < ds_num_occupied_stations ds ->
  device_slave_ids ds !! Z.to_nat k = Some (id_of_station ds k).
Proof.
  intros Hk. unfold device_slave_ids. rewrite list_lookup_fmap, lookup_seqZ_lt by lia.
  cbn. rewrite Z2Nat.id by lia. reflexivity.
Qed.

Lemma length_device_slave_ids ds : length (device_slave_ids ds) = Z.to_nat (ds_num_occupied_stations ds).
Proof. unfold device_slave_ids. rewrite length_map, length_seqZ. reflexivity. Qed.

Section Group.
Context (cfg : clm_cfg) (gs : clm_group_setting) (gs_ok : group_ok cfg gs).

Definition ids_before (d : Z) : list Z :=
  concat (map (fun d => device_slave_ids (setting_of_device gs d)) (seqZ 0 d)).

Lemma length_ids_before d : 0 <= d <= gs_num_slave_devices gs ->
  Z.of_nat (length (ids_before d)) = stations_before gs d.
Proof.
  intros [Hd Hn]. revert Hn. refine (natlike_ind (fun d => d <= gs_num_slave_devices gs ->
    Z.of_nat (length (ids_before d)) = stations_before gs d) _ _ d Hd); [reflexivity|].
  clear d Hd. intros d Hd IH Hn. replace (Z.succ d) with (d + 1) by lia.
  rewrite stations_before_S by lia. unfold ids_before. rewrite seqZ_app by lia.
  rewrite map_app, concat_app, length_app. fold (ids_before d).
  rewrite Z.add_0_l, (seqZ_cons d 1), (seqZ_nil (Z.succ d)) by lia. cbn [map concat].
  rewrite app_nil_r, length_device_slave_ids. pose proof (device_stations cfg gs gs_ok d). lia.
Qed.

Lemma group_ids_split d : 0 <= d < gs_num_slave_devices gs ->
  exists rest, group_slave_ids gs = ids_before d ++ device_slave_ids (setting_of_device gs d) ++ rest.
Proof.
  intros Hd. unfold group_slave_ids, ids_before.
  replace (gs_num_slave_devices gs) with (d + (gs_num_slave_devices gs - d)) by lia.
  rewrite seqZ_app by lia. rewrite map_app, concat_app, Z.add_0_l.
  rewrite (seqZ_cons d) by lia. cbn [map concat]. eexists. reflexivity.
Qed.

Lemma group_slave_ids_lookup d k : 0 <= d < gs_num_slave_devices gs ->
  0 <= k < ds_num_occupied_stations (setting_of_device gs d) ->
  group_slave_ids gs !! Z.to_nat (stations_before gs d + k) =
    Some (id_of_station (setting_of_device gs d) k).
Proof.
  intros Hd Hk. destruct (group_ids_split d Hd) as [rest ->].
  pose proof (length_ids_before d ltac:(lia)) as Hl.
  rewrite lookup_app_r by lia.
  replace (Z.to_nat (stations_before gs d + k) - length (ids_before d))%nat with (Z.to_nat k) by lia.
  rewrite lookup_app_l by (rewrite length_device_slave_ids; lia).
  apply device_slave_ids_lookup, Hk.
Qed.

Lemma length_group_slave_ids : Z.of_nat (length (group_slave_ids gs)) = total_stations gs.
Proof. apply length_ids_before. pose proof (go_devices _ _ gs_ok). lia. Qed.

Lemma group_slave_ids_u32 x : x ∈ group_slave_ids gs -> is_u32 x.
Proof.
  unfold group_slave_ids. intros Hx. apply list_elem_of_In, in_concat in Hx as (l & Hl & Hx).
  apply in_map_iff in Hl as (d & <- & Hd). apply list_elem_of_In, elem_of_seqZ in Hd.
  unfold device_slave_ids in Hx. apply in_map_iff in Hx as (k & <- & _).
  destruct (k =? 0); [apply (go_device _ _ gs_ok d); lia|]. split; [discriminate|reflexivity].
Qed.

(** The frame with its ids. *)
Lemma initialised_ids f h : qi_first_slave_id f = 67 ->
  frame_shape c_cl_cciefb_cyclic_req_full_headers (qi_buffer f) 1500 h ->
  exists f', clm_iefb_initialise_request_slave_ids f gs = Done f' /\
    qi_udp_payload_len f' = qi_udp_payload_len f /\ qi_first_slave_id f' = 67 /\
    qi_first_rww f' = qi_first_rww f /\ qi_first_ry f' = qi_first_ry f /\
    frame_shape c_cl_cciefb_cyclic_req_full_headers (qi_buffer f') 1500 h /\
    forall d, 0 <= d < gs_num_slave_devices gs -> device_ids_ok gs (qi_buffer f') d.
Proof.
  intros Hf Hsh. pose proof (proj1 (proj2 Hsh)) as Hl.
  pose proof length_group_slave_ids as Hlen. pose proof (go_stations _ _ gs_ok) as Htot.
  pose proof clm_max_stations_ok as Hmax.
  set (b := splice 67 (id_bytes (group_slave_ids gs)) (qi_buffer f)).
  assert (Hfit : (67 + length (id_bytes (group_slave_ids gs)) <= 1500)%nat)
    by (rewrite length_id_bytes; lia).
  exists (f <| qi_buffer := b |>). split.
  { unfold clm_iefb_initialise_request_slave_ids. rewrite Hf, store_slave_ids_eq by lia. reflexivity. }
  cbn [qi_udp_payload_len qi_first_slave_id qi_first_rww qi_first_ry qi_buffer update].
  do 4 (split; [assumption || reflexivity|]). split.
  { apply splice_frame_shape; [exact _|exact Hsh|apply bytes_id_bytes| |exact Hfit].
    change (c_size c_cl_cciefb_cyclic_req_full_headers) with 67%nat. lia. }
  assert (Hat : forall d k, 0 <= d < gs_num_slave_devices gs ->
    0 <= k < ds_num_occupied_stations (setting_of_device gs d) ->
    frame_id b (stations_before gs d + k) = id_of_station (setting_of_device gs d) k).
  { intros d k Hd Hk. pose proof (stations_inside cfg gs gs_ok d Hd) as [Hpos Hin].
    assert (Hb1 : slice 67 (length (id_bytes (group_slave_ids gs))) b = id_bytes (group_slave_ids gs))
      by (apply slice_splice_same; lia).
    assert (Hlb : length b = 1500%nat) by (unfold b; rewrite length_splice; lia).
    rewrite frame_id_alt by lia.
    replace (Z.to_nat (67 + 4 * (stations_before gs d + k)))
      with (67 + 4 * Z.to_nat (stations_before gs d + k))%nat by lia.
    rewrite <- (slice_slice 67 (length (id_bytes (group_slave_ids gs)))) by (rewrite length_id_bytes; lia).
    rewrite Hb1, <- (app_nil_r (id_bytes _)).
    apply id_bytes_lookup; [exact group_slave_ids_u32|apply group_slave_ids_lookup; assumption]. }
  intros d Hd. pose proof (device_stations cfg gs gs_ok d Hd) as Hk. split.
  - left. rewrite <- (Z.add_0_r (stations_before gs d)), Hat by lia. reflexivity.
  - intros k Hk'. rewrite Hat by lia. unfold id_of_station.
    destruct (Z.eqb_spec k 0); [lia|reflexivity].
Qed.
End Group.
End SlaveIds.

(** ** One group *)

Section StartGroup.
Context `{ClmOptions, Clal, ClalClock}.
Context (cfg : clm_cfg) (cfg_ok : clm_config_ok cfg).
Context (g : Z) (g_ok : has_group cfg g).
Context (m : clm) (m_ok : master_base cfg m).

Abbreviation gs := (setting_of_group cfg g).
Abbreviation gwp := (gwp g m).

(** A group before its parameters are known. *)
Record blank_group (gd : clm_group_data) : Prop := {
  bl_index : g_group_index gd = g;
  bl_length : length (g_slave_devices gd) = Z.to_nat CLM_MAX_OCCUPIED_STATIONS_PER_GROUP;
  bl_memory : memory_ok (g_memory_area gd);
  bl_buffer : length (qi_buffer (g_req_frame gd)) = 1500%nat
}.

(** A device that has been started: enabled unless it is reserved. *)
Definition device_started (d : Z) (dev : clm_slave_device_data) : Prop :=
  d_device_index dev = d /\ d_device_state dev = CLM_DEVICE_STATE_LISTEN /\
  d_enabled dev = negb (ds_reserved_slave_device (setting_of_device gs d)) /\
  d_transmission_bit dev = false /\ d_timeout_count dev = 0.

Lemma blank_device gd d : blank_group gd -> 0 <= d < gs_num_slave_devices gs ->
  0 <= d < Z.of_nat (length (g_slave_devices gd)).
Proof.
  intros Hb Hd. rewrite (bl_length _ Hb). pose proof (go_devices _ _ (this_group_ok cfg cfg_ok g g_ok)). lia.
Qed.

Lemma blank_put d dev gd : blank_group gd -> blank_group (put_device d dev gd).
Proof. intros []. split; try assumption. rewrite length_put_device. assumption. Qed.

Lemma device_index_at d gd dev : g_group_index gd = g -> 0 <= d < Z.of_nat (length (g_slave_devices gd)) ->
  d_device_index dev = d ->
  device_setting_of (put_group g (put_device d dev gd) m) g d = setting_of_device gs d.
Proof.
  intros Hi Hd Hdev. apply (device_setting_here cfg cfg_ok g g_ok m m_ok); [exact Hi|].
  rewrite device_at_put by exact Hd. exact Hdev.
Qed.

Lemma device_startup d gd : blank_group gd -> 0 <= d < gs_num_slave_devices gs ->
  d_device_index (device_at gd d) = d ->
  d_device_state (device_at gd d) = CLM_DEVICE_STATE_MASTER_DOWN ->
  gwp (clm_iefb_device_fsm_event g d CLM_DEVICE_EVENT_GROUP_STARTUP)
    (fun _ gd' o => o = [] /\ exists dev', gd' = put_device d dev' gd /\ device_started d dev') gd.
Proof.
  intros Hb Hd Hi Hst. pose proof (blank_device gd d Hb Hd) as Hin.
  unfold clm_iefb_device_fsm_event. rewrite bool_decide_eq_false_2 by discriminate.
  apply gwp_bind. eapply (device_round cfg cfg_ok g g_ok m m_ok); [exact Hin|rewrite Hst; vm_compute; reflexivity|].
  cbn [run_device_opt run_device_action]. unfold device_init_action. gwp_steps.
  rewrite device_index_at by (assumption || apply Hb). rewrite update_put_device, Hst.
  rewrite device_at_put by assumption. split; [reflexivity|].
  unfold continue_device. rewrite bool_decide_eq_false_2 by tauto.
  rewrite update_put_device. gwp_steps. split; [reflexivity|]. eexists. split; [reflexivity|].
  unfold enter_device. cbn. repeat split. exact Hi.
Qed.

Lemma device_standby d gd : blank_group gd -> 0 <= d < gs_num_slave_devices gs ->
  d_device_state (device_at gd d) = CLM_DEVICE_STATE_LISTEN ->
  gwp (clm_iefb_device_fsm_event g d CLM_DEVICE_EVENT_GROUP_STANDBY) (fun _ gd' o => o = [] /\ gd' = gd) gd.
Proof.
  intros Hb Hd Hst. pose proof (blank_device gd d Hb Hd) as Hin.
  unfold clm_iefb_device_fsm_event. rewrite bool_decide_eq_false_2 by discriminate.
  apply gwp_bind. eapply (device_round cfg cfg_ok g g_ok m m_ok); [exact Hin|rewrite Hst; vm_compute; reflexivity|].
  cbn [run_device_opt]. gwp_steps. rewrite device_at_put by assumption. split; [reflexivity|].
  unfold continue_device. rewrite bool_decide_eq_false_2 by tauto. rewrite update_put_device, Hst.
  gwp_steps. split; [reflexivity|].
  transitivity (put_device d (device_at gd d) gd); [|apply put_device_same, Hin]. f_equal.
  unfold enter_device. rewrite (bool_decide_eq_false_2 (_ <> _)), andb_false_r by tauto.
  destruct (device_at gd d). cbn in *. rewrite Hst. reflexivity.
Qed.

(** ** Loops over the devices of a blank group *)

(** A loop whose body changes one device, from [P] to [Q]. *)
Lemma gwp_for_devices body (P Q : Z -> clm_slave_device_data -> Prop) gd :
  blank_group gd ->
  (forall d gd', 0 <= d < gs_num_slave_devices gs -> blank_group gd' -> P d (device_at gd' d) ->
     gwp (body d) (fun _ gd'' o => o = [] /\ exists dev', gd'' = put_device d dev' gd' /\ Q d dev') gd') ->
  (forall d, 0 <= d < gs_num_slave_devices gs -> P d (device_at gd d)) ->
  gwp (for_range (gs_num_slave_devices gs) body) (fun _ gd' o => o = [] /\
    (exists devices, gd' = gd <| g_slave_devices := devices |>) /\ blank_group gd' /\
    forall d, 0 <= d < gs_num_slave_devices gs -> Q d (device_at gd' d)) gd.
Proof.
  intros Hb Hbody HP. pose proof (go_devices _ _ (this_group_ok cfg cfg_ok g g_ok)) as Hn.
  pose (I := fun (i : Z) gd' (o : list clm_output) => o = [] /\
    (exists devices, gd' = gd <| g_slave_devices := devices |>) /\ blank_group gd' /\
    forall d, 0 <= d < gs_num_slave_devices gs ->
      if d <? i then Q d (device_at gd' d) else device_at gd' d = device_at gd d).
  eapply (gwp_mono g m) with (Q := fun _ gd' o => I (gs_num_slave_devices gs) gd' o).
  - apply (gwp_for_range g m); [lia| |].
    + split; [reflexivity|]. split; [exists (g_slave_devices gd); destruct gd; reflexivity|].
      split; [exact Hb|]. intros d Hd. destruct (Z.ltb_spec d 0); [lia|reflexivity].
    + intros i gd' o Hi (-> & [devices ->] & Hb' & Hdev).
      set (gd' := gd <| g_slave_devices := devices |>) in *.
      eapply gwp_mono; [apply (Hbody i); [exact Hi|exact Hb'|]|].
      * specialize (Hdev i Hi). rewrite Z.ltb_irrefl in Hdev. rewrite Hdev. auto.
      * intros _ gd'' o (-> & dev' & -> & HQ). split; [reflexivity|].
        split; [exists (alter (fun _ => dev') (Z.to_nat i) devices); reflexivity|].
        split; [apply blank_put, Hb'|]. intros d Hd. specialize (Hdev d Hd).
        destruct (Z.eq_dec d i) as [->|Hne].
        { destruct (Z.ltb_spec i (i + 1)); [|lia].
          rewrite device_at_put by (apply (blank_device gd'); assumption). exact HQ. }
        { rewrite device_at_put_other by lia.
          destruct (Z.ltb_spec d i), (Z.ltb_spec d (i + 1)); try lia; exact Hdev. }
  - intros _ gd' o (-> & Hex & Hb' & Hdev). split; [reflexivity|]. split; [exact Hex|].
    split; [exact Hb'|]. intros d Hd. specialize (Hdev d Hd).
    destruct (Z.ltb_spec d (gs_num_slave_devices gs)); [exact Hdev|lia].
Qed.

(** ** The start of a group *)

Lemma group_init_ok gd : blank_group gd ->
  gwp (group_init_action g) (fun event gd' o => event = CLM_GROUP_EVENT_NONE /\ o = [] /\
    blank_group gd' /\ g_group_state gd' = g_group_state gd /\
    g_frame_sequence_no gd' = 0 /\
    forall d, 0 <= d < gs_num_slave_devices gs -> device_started d (device_at gd' d)) gd.
Proof.
  intros Hb. unfold group_init_action. gwp_steps. rewrite (setting_here cfg) by (assumption || apply Hb).
  match goal with |- MasterDevice.gwp _ _ _ _ ?x => set (gd1 := x) end.
  assert (Hb1 : blank_group gd1) by (destruct Hb; split; assumption).
  eapply gwp_mono; [apply (gwp_for_devices _ (fun _ _ => True)
    (fun d dev => d_device_index dev = d /\ d_device_state dev = CLM_DEVICE_STATE_MASTER_DOWN)); auto|].
  { intros d gd' Hd Hb' _. gwp_steps. split; [reflexivity|].
    eexists. split; [apply update_device_put, (blank_device gd' d Hb' Hd)|]. split; reflexivity. }
  intros _ gd2 o2 (-> & [devs ->] & Hb2 & Hdev2). cbn [app].
  unfold clm_iefb_device_fsm_event_all_in_group. gwp_steps.
  rewrite (setting_here cfg) by (assumption || apply Hb2).
  eapply gwp_mono; [apply (gwp_for_devices _
    (fun d dev => d_device_index dev = d /\ d_device_state dev = CLM_DEVICE_STATE_MASTER_DOWN)
    device_started); auto|].
  { intros d gd' Hd Hb' [Hi Hst]. apply device_startup; assumption. }
  intros _ gd3 o3 (-> & [devs' ->] & Hb3 & Hdev3). gwp_steps. repeat (split; [reflexivity|]).
  split; [exact Hb3|]. split; [reflexivity|]. split; [reflexivity|]. exact Hdev3.
Qed.

(** ** The parameters of a group *)

Definition device_configured (d : Z) (dev : clm_slave_device_data) : Prop :=
  device_started d dev /\ d_slave_station_no dev = 1 + stations_before gs d.

Lemma configured_inv d dev : device_configured d dev -> device_inv gs d dev.
Proof.
  intros [(Hi & Hst & _ & Htb & Htc) Hno]. split; try assumption.
  - rewrite Hst. split; discriminate.
  - rewrite Hst. discriminate.
  - auto.
  - rewrite Htc. split; [discriminate|reflexivity].
Qed.

Lemma reflect_parameters_ok gd : blank_group gd ->
  (forall d, 0 <= d < gs_num_slave_devices gs -> device_started d (device_at gd d)) ->
  gwp (clm_iefb_reflect_group_parameters g) (fun _ gd' o => o = [] /\
    group_base cfg g gd' /\ g_group_state gd' = g_group_state gd /\ g_frame_sequence_no gd' = 0 /\
    forall d, 0 <= d < gs_num_slave_devices gs -> device_configured d (device_at gd' d)) gd.
Proof.
  intros Hb Hstarted. pose proof (this_group_ok cfg cfg_ok g g_ok) as Hgs.
  unfold clm_iefb_reflect_group_parameters. gwp_steps.
  rewrite (setting_here cfg) by (assumption || apply Hb).
  rewrite (calc_occupied_per_group cfg gs Hgs).
  match goal with |- MasterDevice.gwp _ _ _ _ ?x => set (gd1 := x) end.
  assert (Hb1 : blank_group gd1) by (destruct Hb; split; assumption).
  eapply gwp_mono; [apply (gwp_for_devices _ device_started device_configured); auto|].
  { intros d gd' Hd Hb' (Hi & Hst & Hen & Htb & _). pose proof (blank_device gd' d Hb' Hd) as Hin.
    rewrite (calc_slave_station_no cfg gs Hgs d Hd). gwp_steps. split; [reflexivity|].
    rewrite (update_device_put _ _ gd' Hin), update_put_device. eexists. split; [reflexivity|].
    repeat split; assumption. }
  intros _ gd2 o2 (-> & [devs ->] & Hb2 & Hdev2). set (gd2 := gd1 <| g_slave_devices := devs |>) in *.
  cbn [app]. gwp_steps. rewrite (group_here cfg) by assumption.
  change (m_config (put_group g gd2 m)) with (m_config m). rewrite (mb_config _ _ m_ok).
  change (m_parameter_no (put_group g gd2 m)) with (m_parameter_no m).
  change (g_total_occupied gd2) with (total_stations gs). rewrite (bl_index _ Hb2).
  pose proof (request_params cfg cfg_ok g g_ok _ (mb_param _ _ m_ok)) as Hp.
  destruct (initialise_request_frame_shape _ _ _ _ _ _ _ _ Hp (bl_buffer _ Hb2))
    as (f & Hf & Hsh & _ & Hlen & Hid & Hrww & Hry).
  eapply gwp_lift; [exact Hf|]. gwp_steps.
  destruct (initialised_ids cfg gs Hgs f _ Hid Hsh) as (f' & Hf' & Hlen' & Hid' & Hrww' & Hry' & Hsh' & Hids).
  eapply gwp_lift; [exact Hf'|]. gwp_steps. split; [reflexivity|].
  split; [|split; [reflexivity|split; [reflexivity|exact Hdev2]]].
  destruct Hb2 as [Hgi Hgl Hgm _]. split; try assumption; try reflexivity.
  - split; [discriminate|reflexivity].
  - split; [discriminate|reflexivity].
  - intros d Hd. apply configured_inv, Hdev2, Hd.
  - rewrite <- Hlen' in Hlen. rewrite <- Hrww' in Hrww. rewrite <- Hry' in Hry.
    split; [exact Hlen|exact Hid'|exact Hrww|exact Hry| |exact Hids].
    exists (m_parameter_no m), 0, 0, 0, 0. split; [apply m_ok|exact Hsh'].
Qed.

(** ** The two events of the start *)

Lemma standby_all gd : blank_group gd ->
  (forall d, 0 <= d < gs_num_slave_devices gs -> device_started d (device_at gd d)) ->
  gwp (clm_iefb_device_fsm_event_all_in_group g CLM_DEVICE_EVENT_GROUP_STANDBY) (fun _ gd' o =>
    o = [] /\ (exists devices, gd' = gd <| g_slave_devices := devices |>) /\ blank_group gd' /\
    forall d, 0 <= d < gs_num_slave_devices gs -> device_started d (device_at gd' d)) gd.
Proof.
  intros Hb Hdev. unfold clm_iefb_device_fsm_event_all_in_group. gwp_steps.
  rewrite (setting_here cfg) by (assumption || apply Hb).
  eapply gwp_mono; [apply (gwp_for_devices _ device_started device_started); auto|].
  { intros d gd' Hd Hb' Hs. eapply gwp_mono; [apply device_standby; [exact Hb'|exact Hd|apply Hs]|].
    cbv beta. intros _ gd'' o [Ho Heq]. subst o gd''. split; [reflexivity|]. exists (device_at gd' d).
    split; [symmetry; apply put_device_same, (blank_device gd' d Hb' Hd)|exact Hs]. }
  intros a gd' o Hq. exact Hq.
Qed.

End StartGroup.

Section StartEvents.
Context `{ClmOptions, Clal, ClalClock}.
Context (cfg : clm_cfg) (cfg_ok : clm_config_ok cfg).
Context (g : Z) (g_ok : has_group cfg g).
Context (m : clm) (m_ok : master_base cfg m).

Abbreviation gs := (setting_of_group cfg g).
Abbreviation ewp := (ewp g m).

(** A group that has been started, and one that has its parameters. *)
Definition group_started (gd : clm_group_data) : Prop :=
  blank_group g gd /\ g_group_state gd = CLM_GROUP_STATE_MASTER_LISTEN /\
  forall d, 0 <= d < gs_num_slave_devices gs -> device_started cfg g d (device_at gd d).
Definition group_configured (gd : clm_group_data) : Prop :=
  group_base cfg g gd /\ g_group_state gd = CLM_GROUP_STATE_MASTER_ARBITRATION /\
  g_frame_sequence_no gd = 0 /\
  forall d, 0 <= d < gs_num_slave_devices gs -> device_configured cfg g d (device_at gd d).

Lemma configured_control gd : group_configured gd -> group_control cfg g gd.
Proof.
  intros (_ & Hst & Hseq & Hdev). unfold group_control. rewrite Hst. split; [|exact Hseq].
  intros d Hd. apply (Hdev d Hd).
Qed.

Lemma startup_ok now e gd : blank_group g gd -> g_group_state gd = CLM_GROUP_STATE_MASTER_DOWN ->
  ewp (clm_iefb_group_fsm_event g now CLM_GROUP_EVENT_STARTUP) (fun _ e' gd' o =>
    group_started gd' /\ Forall no_frame o /\ e' = standing_by e) e gd.
Proof.
  intros Hb Hst. pose proof (env_base cfg m m_ok) as Hme. unfold clm_iefb_group_fsm_event.
  rewrite bool_decide_eq_false_2 by discriminate. apply ewp_bind.
  eapply (group_round cfg cfg_ok g g_ok m m_ok); [rewrite Hst; vm_compute; reflexivity|]. rewrite Hst.
  cbn [run_group_opt run_group_action]. apply ewp_group.
  eapply gwp_mono; [apply (group_init_ok cfg cfg_ok g g_ok _ (Hme e)); destruct Hb; split; assumption|].
  intros event gd1 o1 (-> & -> & Hb1 & Hst1 & _ & Hdev1). split; [exact Hst1|].
  change (group_entry _ _) with (Some clm_iefb_group_on_entry_listen).
  cbn [run_group_opt run_group_action]. unfold group_on_entry_listen_action.
  apply ewp_bind, ewp_stop_arbitration. set (e1 := Env _ _ _). apply ewp_bind, ewp_group.
  eapply gwp_mono; [apply (standby_all cfg cfg_ok g g_ok _ (Hme e1)); assumption|].
  intros _ gd2 o2 (-> & [devs ->] & Hb2 & Hdev2). cbn [app].
  apply ewp_bind, (ewp_set_master_state cfg g m m_ok), ewp_ret.
  unfold continue_group. rewrite bool_decide_eq_false_2 by tauto. apply ewp_ret.
  split; [split; [exact Hb2|split; [exact Hst1|exact Hdev2]]|]. split; [|reflexivity].
  rewrite !app_nil_r. apply (no_frame_callbacks cfg g).
Qed.

Lemma new_config_ok now e gd : group_started gd ->
  ewp (clm_iefb_group_fsm_event g now CLM_GROUP_EVENT_NEW_CONFIG) (fun _ e' gd' o =>
    group_configured gd' /\ Forall no_frame o /\
    e' = Env CLM_MASTER_STATE_ARBITRATION (e_limiter e)
           (cl_timer_start_if_not_running (e_timer e)
              (mc_arbitration_time cfg * CL_TIMER_MICROSECONDS_PER_MILLISECOND) now)) e gd.
Proof.
  intros (Hb & Hst & Hdev). pose proof (env_base cfg m m_ok) as Hme. unfold clm_iefb_group_fsm_event.
  rewrite bool_decide_eq_false_2 by discriminate. apply ewp_bind.
  eapply (group_round cfg cfg_ok g g_ok m m_ok); [rewrite Hst; vm_compute; reflexivity|]. rewrite Hst.
  cbn [run_group_opt run_group_action]. unfold group_new_config_action. apply ewp_bind, ewp_group.
  eapply gwp_mono; [apply (reflect_parameters_ok cfg cfg_ok g g_ok _ (Hme e)); [destruct Hb; split; assumption|exact Hdev]|].
  intros _ gd1 o1 (-> & Hb1 & Hst1 & Hseq1 & Hdev1). cbn [app]. apply ewp_bind.
  set (timer := cl_timer_start_if_not_running (e_timer e)
    (mc_arbitration_time cfg * CL_TIMER_MICROSECONDS_PER_MILLISECOND) now).
  apply wp_modify. exists (Env (e_state e) (e_limiter e) timer), gd1. split.
  { unfold timer. rewrite <- (mb_config _ _ m_ok). reflexivity. }
  apply ewp_ret. split; [exact Hst1|].
  change (group_entry _ _) with (Some clm_iefb_group_on_entry_arbitration).
  cbn [run_group_opt run_group_action].
  apply ewp_bind, (ewp_set_master_state cfg g m m_ok), ewp_ret.
  unfold continue_group. rewrite bool_decide_eq_false_2 by tauto. apply ewp_ret.
  split; [split; [exact Hb1|split; [exact Hst1|split; [exact Hseq1|exact Hdev1]]]|].
  split; [|reflexivity]. rewrite !app_nil_r. apply (no_frame_callbacks cfg g).
Qed.

End StartEvents.

(** ** All groups *)

Section Init.
Context `{ClmOptions, Clal, ClalClock}.
Context (cfg : clm_cfg) (cfg_ok : clm_config_ok cfg).

(** A program that works on a group and the environment of the groups, takes
    the group from [P] to [Q] and leaves an environment of [E]. *)
Definition group_program (P Q : Z -> clm_group_data -> Prop) (E : env -> Prop)
  (body : Z -> clm_prog unit) : Prop :=
  forall g m, has_group cfg g -> master_base cfg m -> P g (group_at m g) ->
    wp (body g) (fun _ m' o => exists e' gd', m' = put_group g gd' (with_env e' m) /\
      Q g gd' /\ E e' /\ Forall no_frame o) m.

Lemma ewp_group_program P Q (E : env -> Prop) body :
  (forall g m e gd, has_group cfg g -> master_base cfg m -> P g gd ->
     ewp g m (body g) (fun _ e' gd' o => Q g gd' /\ E e' /\ Forall no_frame o) e gd) ->
  group_program P Q E body.
Proof.
  intros Hb g m Hg Hm HP. specialize (Hb g m (env_of m) (group_at m g) Hg Hm HP). unfold ewp in Hb.
  rewrite with_env_of, (put_group_same g m (groups_length cfg cfg_ok m g Hm Hg)) in Hb. exact Hb.
Qed.

Lemma wp_all_groups P Q (E : env -> Prop) body m : group_program P Q E body -> master_base cfg m ->
  (forall g, has_group cfg g -> P g (group_at m g)) ->
  wp (for_range (sh_number_of_groups (mc_hier cfg)) body) (fun _ m' o => master_base cfg m' /\
    (forall g, has_group cfg g -> Q g (group_at m' g)) /\ E (env_of m') /\ Forall no_frame o) m.
Proof.
  intros Hbody Hm HP. pose proof (cok_groups _ cfg_ok) as [Hn1 _]. unfold for_range.
  set (n := sh_number_of_groups (mc_hier cfg)) in *.
  cut (forall k i m, Z.of_nat k = n - i -> 0 <= i -> master_base cfg m ->
    (forall g, has_group cfg g -> if g <? i then Q g (group_at m g) else P g (group_at m g)) ->
    (0 < i -> E (env_of m)) ->
    wp (for_each (seqZ i (n - i)) body) (fun _ m' o => master_base cfg m' /\
      (forall g, has_group cfg g -> Q g (group_at m' g)) /\ E (env_of m') /\ Forall no_frame o) m).
  { intros Hcut. specialize (Hcut (Z.to_nat n) 0 m ltac:(lia) ltac:(lia) Hm).
    rewrite Z.sub_0_r in Hcut. apply Hcut; [|lia]. intros g Hg. destruct (Z.ltb_spec g 0); [|auto].
    unfold has_group in Hg. lia. }
  clear m Hm HP. induction k as [|k IH]; intros i m Hk Hi Hm HPQ HE.
  - rewrite seqZ_nil by lia. apply wp_ret. split; [exact Hm|]. split; [|split; [apply HE; lia|constructor]].
    intros g Hg. specialize (HPQ g Hg). destruct (Z.ltb_spec g i); [exact HPQ|].
    unfold has_group in Hg. lia.
  - rewrite seqZ_cons by lia. cbn [for_each].
    assert (Hgi : has_group cfg i) by (unfold has_group; lia). apply wp_bind.
    eapply wp_mono; [apply (Hbody i m Hgi Hm); specialize (HPQ i Hgi);
      rewrite Z.ltb_irrefl in HPQ; exact HPQ|].
    intros [] m1 o1 (e1 & gd1 & -> & HQ & He1 & Ho). replace (Z.pred (n - i)) with (n - (i + 1)) by lia.
    change (Z.succ i) with (i + 1).
    pose proof (put_group_base cfg i gd1 e1 m Hm) as Hm1.
    eapply wp_mono; [apply (IH (i + 1)); [lia|lia|exact Hm1| |]|].
    + intros g Hg. specialize (HPQ g Hg). destruct (Z.eq_dec g i) as [->|Hne].
      * destruct (Z.ltb_spec i (i + 1)); [|lia].
        rewrite group_at_put; [exact HQ|]. exact (groups_length cfg cfg_ok (with_env e1 m) i
          (env_base cfg m Hm e1) Hgi).
      * rewrite group_at_put_other by (unfold has_group in *; lia).
        change (group_at (with_env e1 m) g) with (group_at m g).
        destruct (Z.ltb_spec g i), (Z.ltb_spec g (i + 1)); try lia; exact HPQ.
    + intros _. destruct e1. exact He1.
    + intros [] m2 o2 (Hm2 & HQ2 & He2 & Ho2). split; [exact Hm2|]. split; [exact HQ2|].
      split; [exact He2|]. apply Forall_app. split; assumption.
Qed.

Lemma zero_group_blank g gd : gd = clm_group_data_zero ->
  blank_group g (gd <| g_group_state := CLM_GROUP_STATE_MASTER_DOWN |> <| g_group_index := g |>).
Proof.
  intros ->. split.
  - reflexivity.
  - apply length_replicate.
  - split; (split; [apply length_zeros|apply bytes_zeros]).
  - apply length_zeros.
Qed.

(** What the start relies on: the configuration is in place, and the
    receive buffer and the parameter number have their types. *)
Record init_ready (m : clm) : Prop := {
  ir_config : m_config m = cfg;
  ir_buf : length (m_cciefb_receivebuf m) = Z.to_nat CL_BUFFER_LEN /\ bytes (m_cciefb_receivebuf m);
  ir_param : is_u16 (m_parameter_no m);
  ir_db : search_db_ok (m_node_search_db m)
}.

Definition all_configured (m : clm) : Prop :=
  forall g, has_group cfg g -> group_configured cfg g (group_at m g).

Lemma configured_master m : master_base cfg m -> all_configured m -> master_inv cfg m.
Proof.
  intros Hm Hall. split; [exact Hm|]. intros g Hg. split; [apply (Hall g Hg)|].
  apply configured_control, (Hall g Hg).
Qed.

Lemma startup_program now : group_program
  (fun g gd => blank_group g gd /\ g_group_state gd = CLM_GROUP_STATE_MASTER_DOWN)
  (group_started cfg) (fun _ => True) (fun g => clm_iefb_group_fsm_event g now CLM_GROUP_EVENT_STARTUP).
Proof.
  apply ewp_group_program. intros g m e gd Hg Hm [Hb Hst].
  eapply ewp_mono; [apply (startup_ok cfg cfg_ok g Hg m Hm now e gd Hb Hst)|].
  intros _ e' gd' o (Hs & Ho & _). split; [exact Hs|]. split; [exact I|exact Ho].
Qed.

Definition in_arbitration (e : env) : Prop := e_state e = CLM_MASTER_STATE_ARBITRATION.

Lemma new_config_program now : group_program (group_started cfg) (group_configured cfg) in_arbitration
  (fun g => clm_iefb_group_fsm_event g now CLM_GROUP_EVENT_NEW_CONFIG).
Proof.
  apply ewp_group_program. intros g m e gd Hg Hm Hs.
  eapply ewp_mono; [apply (new_config_ok cfg cfg_ok g Hg m Hm now e gd Hs)|].
  intros _ e' gd' o (Hc & Ho & ->). split; [exact Hc|]. split; [reflexivity|exact Ho].
Qed.

Lemma event_all_eq now event m : m_config m = cfg ->
  clm_iefb_group_fsm_event_all now event m =
    for_range (sh_number_of_groups (mc_hier cfg)) (fun g => clm_iefb_group_fsm_event g now event) m.
Proof.
  intros Hc. unfold clm_iefb_group_fsm_event_all, number_of_groups, mbind, prog_bind, get.
  rewrite Hc. destruct (for_range _ _ m) as [[[a s] o]|]; reflexivity.
Qed.

Lemma wp_event_all now event P Q E m :
  group_program P Q E (fun g => clm_iefb_group_fsm_event g now event) -> master_base cfg m ->
  (forall g, has_group cfg g -> P g (group_at m g)) ->
  wp (clm_iefb_group_fsm_event_all now event) (fun _ m' o => master_base cfg m' /\
    (forall g, has_group cfg g -> Q g (group_at m' g)) /\ E (env_of m') /\ Forall no_frame o) m.
Proof.
  intros Hp Hm HP. unfold wp. rewrite (event_all_eq now event m (mb_config _ _ Hm)).
  exact (wp_all_groups P Q E _ m Hp Hm HP).
Qed.

Lemma new_config_all now m : master_base cfg m ->
  (forall g, has_group cfg g -> group_started cfg g (group_at m g)) ->
  wp (clm_iefb_handle_new_config now) (fun _ m' o =>
    master_base cfg m' /\ all_configured m' /\
    m_master_state m' = CLM_MASTER_STATE_ARBITRATION /\ Forall no_frame o) m.
Proof.
  intros Hm Hs. unfold clm_iefb_handle_new_config. apply wp_bind, wp_modify. wp_steps. cbn [app].
  set (m1 := m <| m_parameter_no ::= _ |>).
  assert (Hm1 : master_base cfg m1) by (destruct Hm; split; try assumption; apply u16_range).
  eapply wp_mono; [apply (wp_event_all now _ _ _ _ m1 (new_config_program now) Hm1); exact Hs|].
  intros [] m' o (Hm' & Hall & Hst & Ho). split; [exact Hm'|]. split; [exact Hall|].
  split; [exact Hst|]. constructor; [exact I|exact Ho].
Qed.

(** The groups are cleared and started. *)
Definition groups_cleared (m : clm) : Prop :=
  m_groups m = replicate (Z.to_nat CLM_MAX_GROUPS) clm_group_data_zero.

Lemma cleared_group m g : groups_cleared m -> has_group cfg g -> group_at m g = clm_group_data_zero.
Proof.
  intros Hm Hg. unfold group_at. rewrite Hm, list_lookup_total_alt, lookup_replicate_2; [reflexivity|].
  pose proof (cok_groups _ cfg_ok). unfold has_group in Hg. lia.
Qed.

(** Everything of [master_base] but the length of the array of groups. *)
Definition cleared_base (m : clm) : Prop :=
  master_base cfg (m <| m_groups := replicate (Z.to_nat CLM_MAX_GROUPS) clm_group_data_zero |>).

Lemma start_groups_ok now m : cleared_base m ->
  wp (start_groups now) (fun _ m' o => Forall no_frame o /\ master_base cfg m' /\ all_configured m' /\
    m_master_state m' = CLM_MASTER_STATE_ARBITRATION) m.
Proof.
  intros Hm. apply wp_bind, wp_modify. cbn [app].
  set (m1 := m <| m_groups := _ |>). assert (Hc : groups_cleared m1) by reflexivity.
  change (master_base cfg m1) in Hm. clearbody m1. apply wp_bind, wp_get. cbn [app].
  unfold number_of_groups. rewrite (mb_config _ _ Hm). apply wp_bind.
  eapply wp_mono; [apply (wp_all_groups (fun _ gd => gd = clm_group_data_zero)
    (fun g gd => blank_group g gd /\ g_group_state gd = CLM_GROUP_STATE_MASTER_DOWN)
    (fun _ => True)); [|exact Hm|]|].
  - apply ewp_group_program. intros g m2 e gd Hg Hm2 Hz.
    apply ewp_group, gwp_modify_group. split; [|split; [exact I|constructor]]. split; [|reflexivity].
    apply zero_group_blank, Hz.
  - intros g Hg. apply cleared_group; assumption.
  - intros [] m2 o2 (Hm2 & Hb2 & _ & Ho2). apply wp_bind.
    eapply wp_mono; [apply (wp_event_all now _ _ _ _ m2 (startup_program now) Hm2 Hb2)|].
    intros [] m3 o3 (Hm3 & Hs3 & _ & Ho3).
    eapply wp_mono; [apply (new_config_all now m3 Hm3 Hs3)|].
    intros [] m4 o4 (Hm4 & Hall & Hst4 & Ho4). split; [|split; [|split]; assumption].
    rewrite !Forall_app. repeat split; assumption.
Qed.

Lemma init_ok now m : init_ready m ->
  wp (clm_iefb_init now) (fun ok m' o => Forall no_frame o /\
    (ok = true -> master_base cfg m' /\ all_configured m' /\
       m_master_state m' = CLM_MASTER_STATE_ARBITRATION)) m.
Proof.
  intros [Hcfg Hbuf Hpar Hdb]. unfold clm_iefb_init. wp_steps. cbn [app].
  apply wp_if; intros Hsock; wp_steps.
  { split; [|discriminate]. repeat constructor. }
  eapply wp_mono with (Q := fun _ m' o => Forall no_frame o /\ init_ready m').
  { apply wp_when; intros _; wp_steps; (split; [repeat constructor|split; assumption]). }
  intros [] m1 o1 [Ho1 [Hcfg1 Hbuf1 Hpar1 Hdb1]]. apply wp_if; intros Hsep; wp_steps.
  { split; [|discriminate]. rewrite app_nil_r. constructor; [exact I|exact Ho1]. }
  unfold clm_iefb_device_fsm_tables_init, clm_iefb_group_fsm_tables_init. wp_steps. cbn [app].
  match goal with |- wp _ _ ?s => set (m2 := s) end.
  assert (Hm2 : cleared_base m2).
  { split; try reflexivity; try assumption.
    - apply length_replicate.
    - pose proof (cok_ver _ cfg_ok). assert (2 ^ 1 <= 2 ^ mc_protocol_ver cfg)
        by (apply Z.pow_le_mono_r; lia). cbn. unfold CL_CCIEFB_MASTER_LOCAL_UNIT_INFO_RUNNING. lia. }
  eapply wp_mono; [apply (start_groups_ok now m2 Hm2)|].
  intros [] m3 o3 (Ho3 & Hm3). wp_steps. split; [|auto].
  rewrite app_nil_r. constructor; [exact I|]. apply Forall_app. split; assumption.
Qed.

End Init.
