(* ===== verification/MasterReach.v ===== *)
(** * Reachable states of the master

    The life of a master instance as a transition system: started by
    [clm_master_init], then any sequence of API calls with any datagrams
    from the network at any times.  Every reachable instance satisfies the
    invariant, and no call stops at an assertion or leaves its memory
    areas. *)

From Stdlib Require Import String.
From S2P Require Import Prelude Packed Signals Timer Limiter Util Types Iefb IefbFacts IefbRoundtrip.
From S2P Require Import File FileFacts Slmp SlmpFacts Master MasterIefb MasterConfig MasterSlmp.
From S2P Require Import MasterInv MasterFrame MasterDevice MasterGroup MasterScan MasterFsm.
From S2P Require Import MasterEvents MasterControl MasterSafety MasterResponse MasterSettings.
From S2P Require Import MasterStart.

#[local] Open Scope Z_scope.

Section MasterReach.
Context `{ClmOptions, Clal, ClalNet, Host, ClalClock, FileOptions, ClalFileOk}.
Context (clock_ok : forall now, is_u64 (clal_get_unix_timestamp_ms now)).

(** ** SLMP leaves the cyclic communication alone *)

Section Slmp.
Context (cfg : clm_cfg) (cfg_ok : clm_config_ok cfg).

Abbreviation keeps := (keeps cfg).

(** Changes of the fields that only SLMP uses. *)
Lemma keeps_slmp_field f :
  (forall m, m_config (f m) = m_config m /\ m_groups (f m) = m_groups m /\
     m_device_fsm_matrix (f m) = m_device_fsm_matrix m /\
     m_device_fsm_on_entry_exit (f m) = m_device_fsm_on_entry_exit m /\
     m_group_fsm_matrix (f m) = m_group_fsm_matrix m /\
     m_group_fsm_on_entry_exit (f m) = m_group_fsm_on_entry_exit m /\
     m_cciefb_receivebuf (f m) = m_cciefb_receivebuf m /\
     m_parameter_no (f m) = m_parameter_no m /\
     m_master_local_unit_info (f m) = m_master_local_unit_info m) ->
  (forall m, search_db_ok (m_node_search_db m) -> search_db_ok (m_node_search_db (f m))) ->
  keeps (modify f).
Proof.
  intros Hf Hdb. apply keeps_outside. intros m [].
  destruct (Hf m) as (E1 & E2 & E3 & E4 & E5 & E6 & E7 & E8 & E9).
  split; [|exact E2]. split; rewrite ?E1, ?E2, ?E3, ?E4, ?E5, ?E6, ?E7, ?E8, ?E9; auto.
Qed.

(** The count of the answers, an 8-bit field, starts again behind 255: the
    256th answer of a search makes it fall below the number of the entries. *)
Lemma node_search_count_wraps db resp : nd_stored db = CLM_MAX_NODE_SEARCH_DEVICES ->
  nd_count db = 255 -> exists db', clm_slmp_node_search_add_db db resp = Done (false, db') /\
    nd_count db' = 0 /\ nd_stored db' = nd_stored db.
Proof.
  intros Hs Hc. unfold clm_slmp_node_search_add_db. cbn [nd_stored update].
  rewrite (proj2 (Z.eqb_eq _ _) Hs). eexists. split; [reflexivity|].
  split; [|reflexivity]. cbn [nd_count update]. rewrite Hc. reflexivity.
Qed.

Lemma add_db_ok db resp : search_db_ok db ->
  exists r, clm_slmp_node_search_add_db db resp = Done r /\ search_db_ok r.2.
Proof.
  intros [Hl Hs]. unfold clm_slmp_node_search_add_db. pose proof clm_max_node_search_ok.
  cbn [nd_stored nd_entries update].
  destruct (Z.eqb_spec (nd_stored db) CLM_MAX_NODE_SEARCH_DEVICES).
  - eexists. split; [reflexivity|]. split; [exact Hl|]. cbn. lia.
  - destruct (Z.leb_spec (Z.of_nat (List.length (nd_entries db))) (nd_stored db)); [lia|].
    eexists. split; [reflexivity|]. split; cbn [snd nd_entries nd_stored update].
    + rewrite length_insert. exact Hl.
    + pose proof (u8_range (nd_stored db + 1)) as Hr. unfold is_u8 in Hr.
      assert (u8 (nd_stored db + 1) <= nd_stored db + 1) by (apply Z.mod_le; lia). lia.
Qed.

Lemma keeps_send_request len : keeps (clm_slmp_send_request len).
Proof.
  apply keeps_get. intros m Hm.
  assert (Hz : forall view put open_it buffer lip rip,
    (forall socket, keeps (modify (put socket))) ->
    wp (zoom view put ClmSlmpUdp (cl_slmp_udp_send open_it buffer CL_BUFFER_LEN lip rip
          CL_SLMP_PORT len)) (fun _ m' o => master_inv cfg m' /\ outputs_ok cfg o) m).
  { intros view put open_it buffer lip rip Hput. apply wp_zoom.
    eapply wp_mono; [apply udp_send_runs|]. intros b socket o _. split.
    - apply (Hput socket m Hm).
    - apply outputs_ok_no_frames. apply Forall_map, Forall_true. intros ?. exact I. }
  destruct (mc_use_single_slmp_socket (m_config m)); apply Hz; intros socket;
    (apply keeps_slmp_field; [intros m'; repeat split|intros m' Hdb; exact Hdb]).
Qed.

Ltac slmp_field := apply keeps_slmp_field; [intros ?; repeat split|intros ? Hdb; exact Hdb].

Lemma keeps_run {A} (P : clm_prog A) m : keeps P -> master_inv cfg m ->
  wp P (fun _ m' o => master_inv cfg m' /\ outputs_ok cfg o) m.
Proof. intros HP. apply HP. Qed.

(** Steps of a sequence of SLMP operations. *)
Ltac keeps_slmp :=
  repeat lazymatch goal with
  | |- MasterSafety.keeps _ (get ≫= _) => apply keeps_get; intros ? ?; cbv beta zeta
  | |- MasterSafety.keeps _ (_ ≫= _) => apply keeps_bind; [|intros ?]
  | |- wp _ _ _ => apply keeps_run; [|assumption]
  | |- MasterSafety.keeps _ (mret _) => apply keeps_ret
  | |- MasterSafety.keeps _ (emit _) => apply keeps_emit; exact I
  | |- MasterSafety.keeps _ (when _ _) => apply keeps_when
  | |- MasterSafety.keeps _ (if ?b then _ else _) => destruct b
  | |- MasterSafety.keeps _ (match ?x with _ => _ end) => destruct x
  | |- MasterSafety.keeps _ (modify _) => slmp_field
  | |- MasterSafety.keeps _ (clm_slmp_send_request _) => apply keeps_send_request
  end.

Lemma keeps_search_notify : keeps clm_slmp_node_search_notify_results.
Proof. unfold clm_slmp_node_search_notify_results. keeps_slmp. Qed.

Lemma keeps_set_ip_notify status : keeps (clm_slmp_set_ip_notify_cfm status).
Proof. unfold clm_slmp_set_ip_notify_cfm. keeps_slmp. Qed.

#[local] Hint Resolve keeps_search_notify keeps_set_ip_notify : clink.

Lemma keeps_search_response buffer len : keeps (clm_slmp_handle_node_search_response buffer len).
Proof.
  unfold clm_slmp_handle_node_search_response.
  destruct (cl_slmp_parse_node_search_response buffer len) as [resp|]; [|apply keeps_ret].
  destruct (negb _); [apply keeps_ret|]. apply keeps_get. intros m Hm.
  destruct (add_db_ok (m_node_search_db m) resp (mb_db _ _ (proj1 Hm))) as (r & -> & Hr).
  apply wp_bind, wp_lift. cbn [app]. apply keeps_run; [|exact Hm].
  apply keeps_bind; [|intros []; apply keeps_ret].
  apply keeps_slmp_field; [intros ?; repeat split|intros ? _; exact Hr].
Qed.

Lemma keeps_slmp_frame buffer len ifindex : keeps (clm_slmp_handle_input_frame buffer len ifindex).
Proof.
  unfold clm_slmp_handle_input_frame, clm_slmp_handle_set_ipaddr_response,
    clm_slmp_handle_set_ip_error.
  keeps_slmp; auto using keeps_search_response with clink.
Qed.

Lemma prepared_frame {A} (c : codec A) buffer v (k : list Z -> clm_prog bool) :
  (c_size c <= 1500)%nat -> (forall frame, keeps (k frame)) ->
  keeps (frame ← lift_outcome (prepare_frame c buffer CL_BUFFER_LEN v); k frame).
Proof.
  intros Hs Hk. destruct (prepare_frame_done c buffer v Hs) as [frame ->].
  intros m Hm. apply wp_bind, wp_lift. exact (Hk frame m Hm).
Qed.

Lemma keeps_node_search now : keeps (clm_slmp_perform_node_search now).
Proof.
  unfold clm_slmp_perform_node_search, cl_slmp_prepare_node_search_request_frame.
  apply keeps_get. intros m Hm. cbv beta. apply keeps_run; [|exact Hm].
  destruct (negb _); [apply keeps_ret|]. apply keeps_bind.
  - apply keeps_slmp_field; [intros ?; repeat split|]. intros m' [Hl Hs]. split; [exact Hl|].
    cbn. pose proof clm_max_node_search_ok. lia.
  - intros []. apply keeps_get. intros m1 Hm1. cbv beta. apply keeps_run; [|exact Hm1].
    apply prepared_frame; [vm_compute; lia|]. intros frame. keeps_slmp.
Qed.

Lemma keeps_set_ipaddr now mac ip netmask :
  keeps (clm_slmp_perform_set_ipaddr_request now mac ip netmask).
Proof.
  unfold clm_slmp_perform_set_ipaddr_request, cl_slmp_prepare_set_ip_request_frame.
  apply keeps_get. intros m Hm. cbv beta. apply keeps_run; [|exact Hm].
  destruct (negb _); [apply keeps_ret|]. destruct (_ =? _); [apply keeps_ret|].
  destruct (negb _); [apply keeps_ret|]. apply keeps_bind; [slmp_field|].
  intros []. apply keeps_get. intros m1 Hm1. cbv beta. apply keeps_run; [|exact Hm1].
  apply prepared_frame; [vm_compute; lia|]. intros frame. keeps_slmp.
Qed.

Lemma keeps_slmp_periodic queue now : keeps (clm_slmp_periodic queue now).
Proof.
  apply keeps_bind.
  - unfold clm_slmp_check_timeouts. keeps_slmp; auto with clink.
  - intros []. induction queue as [|dg queue IH]; cbn [slmp_receive_loop]; [apply keeps_ret|].
    apply keeps_bind; [slmp_field|]. intros []. apply keeps_get. intros m Hm. cbv beta zeta.
    apply keeps_run; [|exact Hm]. destruct (0 <? _); [|apply keeps_ret].
    apply keeps_bind; [apply keeps_slmp_frame|]. intros b. exact IH.
Qed.

End Slmp.

(** ** The start *)

Lemma parameter_no_loaded fs directory loaded :
  cl_file_load fs directory CLM_FILENAME_PARAM_NO 2 = Done loaded ->
  is_u16 (match loaded with Some object => raw16 (c_dec c_u16le object)
          | None => CLM_DEFAULT_PARAMETER_NO end).
Proof.
  intros Hl. destruct loaded as [object|]; [|split; [discriminate|reflexivity]].
  unfold cl_file_load in Hl. destruct (file_path directory _) as [[path|]|]; try discriminate.
  destruct (clal_load_file fs path _ 2) as [[header data]|] eqn:Hf; [|discriminate].
  destruct (negb _); [discriminate|]. destruct (negb _); [discriminate|].
  injection Hl as <-. apply loaded_object in Hf as [Hb Hlen]; [|discriminate|discriminate].
  assert (Hr : 0 <= c_dec c_u16le data < 2 ^ 16)
    by (apply (codec_wf (c := c_u16le) data Hb); change (c_size c_u16le) with 2%nat; lia).
  unfold raw16. destruct host_is_big_endian; [|exact Hr]. unfold bswap16, is_u16. zlia.
Qed.

(** What a started master is: its configuration passed the checks, and every
    group has its parameters and waits for the end of the arbitration. *)
Record master_started (cfg : clm_cfg) (m : clm) : Prop := {
  ms_valid : clm_validate_config (Some cfg) = true;
  ms_distinct : clm_validate_config_duplicates cfg = true;
  ms_base : master_base cfg m;
  ms_groups : all_configured cfg m;
  ms_state : m_master_state m = CLM_MASTER_STATE_ARBITRATION
}.

Lemma slmp_init_ok cfg m : master_started cfg m ->
  wp clm_slmp_init (fun ok m' o => Forall no_frame o /\ master_started cfg m') m.
Proof.
  intros [Hv Hd Hm Hg Hst]. unfold clm_slmp_init. wp_steps. cbn [app].
  assert (Hdb : search_db_ok (clm_slmp_node_search_clear_db (m_node_search_db m))).
  { destruct (mb_db _ _ Hm) as [Hl Hs]. pose proof clm_max_node_search_ok.
    split; [exact Hl|]. cbn. lia. }
  apply wp_if; intros _; wp_steps; (split; [repeat constructor|]);
    (split; [exact Hv|exact Hd| |exact Hg|exact Hst]); destruct Hm; split; assumption.
Qed.

Lemma zero_db_ok : search_db_ok (m_node_search_db clm_zero).
Proof.
  pose proof clm_max_node_search_ok. split; [apply length_replicate|]. cbn. lia.
Qed.

Lemma eth_init_ok cfg m : init_ready cfg m ->
  wp clm_master_eth_init (fun ok m' o => o = [] /\ init_ready cfg m') m.
Proof.
  intros [Hc Hb Hp Hd]. unfold clm_master_eth_init. wp_steps.
  destruct (cl_eth_get_network_settings _) as [[[ifindex netmask] mac]|]; wp_steps;
    (split; [reflexivity|]); split; assumption.
Qed.

Lemma master_init_ok fs directory cfg now m0 :
  (forall c, cfg = Some c -> cfg_types c) ->
  wp (clm_master_init fs directory cfg now) (fun ok m o => Forall no_frame o /\
    (ok = true -> exists c, cfg = Some c /\ master_started c m)) m0.
Proof.
  intros Htypes. unfold clm_master_init. wp_steps. cbn [app].
  assert (Hfail : forall m, wp (mret false) (fun ok m o => Forall no_frame o /\
    (ok = true -> exists c, cfg = Some c /\ master_started c m)) m)
    by (intros m; apply wp_ret; split; [constructor|discriminate]).
  apply wp_if; intros _; [apply Hfail|]. destruct cfg as [c|]; [|apply Hfail].
  apply wp_if; intros Hv; [apply Hfail|]. apply negb_false_iff in Hv.
  pose proof (validate_config_ok c (Htypes c eq_refl) Hv) as Hok. wp_steps. cbn [app].
  destruct (load_done fs (Some directory) CLM_FILENAME_PARAM_NO 2) as [loaded Hl].
  rewrite Hl. wp_steps. cbn [app].
  pose proof (parameter_no_loaded fs (Some directory) loaded Hl) as Hp.
  match goal with |- wp _ _ ?s => set (m1 := s) end.
  eapply wp_mono; [apply (eth_init_ok c m1)|].
  { split; [reflexivity|split; [apply length_zeros|apply bytes_zeros]|exact Hp|apply zero_db_ok]. }
  intros ok m2 o2 [-> Hr2]. apply wp_if; intros _; [apply Hfail|].
  apply wp_if; intros Hd; [apply Hfail|]. apply negb_false_iff in Hd. apply wp_bind.
  eapply wp_mono; [apply (init_ok c Hok now m2 Hr2)|]. intros ok3 m3 o3 [Ho3 Hm3].
  apply wp_if; intros Hok3; [apply wp_ret; cbn [app]; rewrite app_nil_r; split; [exact Ho3|discriminate]|].
  apply negb_false_iff in Hok3. destruct (Hm3 Hok3) as (Hm & Hg & Hst).
  eapply wp_mono; [apply (slmp_init_ok c m3)|]; [split; assumption|].
  intros ok4 m4 o4 [Ho4 Hm4]. cbn [app]. split; [apply Forall_app; split; assumption|eauto].
Qed.

(** ** The transition system *)

Inductive master_call :=
| MasterPeriodic (slmp_queue : list datagram) (arbitration : option datagram)
    (cciefb_queue : list datagram)
| SetRyBit (g d number : Z) (value : bool)
| SetRwwValue (g d number value : Z)
| SetMasterApplicationStatus (running stopped_by_user : bool)
| SetSlaveCommunicationStatus (g d : Z) (enabled : bool)
| ForceCyclicTransmissionBit (g d : Z) (force : bool)
| ClearStatistics
| PerformNodeSearch
| SetSlaveIpaddr (slave_mac_addr : list Z) (slave_new_ip_addr slave_new_netmask : Z)
| StoreArea (area : signal_area) (g off : Z) (data : list Z).

Definition run_call (c : master_call) (now : Z) : clm_prog unit :=
  match c with
  | MasterPeriodic slmp_queue arbitration cciefb_queue =>
      clm_periodic slmp_queue arbitration cciefb_queue now
  | SetRyBit g d number value => clm_iefb_set_ry_bit g d number value
  | SetRwwValue g d number value => clm_iefb_set_rww_value g d number value
  | SetMasterApplicationStatus running stopped_by_user =>
      clm_iefb_set_master_application_status running stopped_by_user
  | SetSlaveCommunicationStatus g d enabled =>
      clm_iefb_set_slave_communication_status g d enabled;; mret tt
  | ForceCyclicTransmissionBit g d force =>
      clm_iefb_force_cyclic_transmission_bit g d force;; mret tt
  | ClearStatistics => clm_iefb_statistics_clear_all
  | PerformNodeSearch => clm_slmp_perform_node_search now;; mret tt
  | SetSlaveIpaddr mac ip netmask => clm_slmp_perform_set_ipaddr_request now mac ip netmask;; mret tt
  | StoreArea area g off data => store_area area g off data
  end.

(** What the types of the arguments and the documentation of the API demand
    of the caller: signals exist in the configured stations, and the
    application stores inside the areas whose pointers it may write through.
    Datagrams fit the receive buffer. *)
Definition call_ok (cfg : clm_cfg) (c : master_call) : Prop :=
  match c with
  | MasterPeriodic slmp_queue arbitration cciefb_queue =>
      Forall (fun dg => bytes (dg_bytes dg)) slmp_queue /\
      (forall dg, arbitration = Some dg -> datagram_ok dg) /\ Forall datagram_ok cciefb_queue
  | SetRyBit g d number _ => has_device cfg g d /\ bit_number cfg g d number
  | SetRwwValue g d number _ => has_device cfg g d /\ register_number cfg g d number
  | SetSlaveCommunicationStatus g d _ | ForceCyclicTransmissionBit g d _ => 0 <= g /\ 0 <= d
  | StoreArea area g off data =>
      (area = AREA_RY \/ area = AREA_RWW) /\ has_group cfg g /\ bytes data /\ 0 <= off /\
      off + Z.of_nat (length data) <= station_size area * total_stations (setting_of_group cfg g)
  | _ => True
  end.

Inductive master_reachable (cfg : clm_cfg) : clm -> Prop :=
| master_reach_init fs directory now m0 m o :
    clm_master_init fs directory (Some cfg) now m0 = Done (true, m, o) -> master_reachable cfg m
| master_reach_call c now m m' o :
    master_reachable cfg m -> call_ok cfg c -> run_call c now m = Done (tt, m', o) ->
    master_reachable cfg m'.

Lemma keeps_call cfg c now : clm_config_ok cfg -> call_ok cfg c -> keeps cfg (run_call c now).
Proof.
  intros Hok Hc. destruct c; cbn [run_call call_ok] in *.
  - destruct Hc as (_ & Ha & Hq). apply keeps_bind; [apply keeps_slmp_periodic|intros []].
    apply keeps_periodic; assumption.
  - apply keeps_set_ry; tauto.
  - apply keeps_set_rww; tauto.
  - apply keeps_application_status, Hok.
  - apply keeps_bind; [|intros []; apply keeps_ret].
    apply (keeps_device_setting cfg Hok); tauto.
  - apply keeps_bind; [|intros []; apply keeps_ret].
    apply (keeps_device_setting cfg Hok); tauto.
  - apply keeps_clear_statistics, Hok.
  - apply keeps_bind; [|intros []; apply keeps_ret]. apply keeps_node_search.
  - apply keeps_bind; [|intros []; apply keeps_ret]. apply keeps_set_ipaddr.
  - destruct Hc as (_ & Hg & Hd & Ho & Hfit). apply keeps_store_area; assumption.
Qed.

Lemma master_reachable_inv cfg m : cfg_types cfg -> master_reachable cfg m ->
  clm_config_ok cfg /\ clm_validate_config_duplicates cfg = true /\ master_inv cfg m.
Proof.
  intros Hty. induction 1 as [fs directory now m0 m o Hrun|c now m m' o Hreach IH Hc Hrun].
  - pose proof (master_init_ok fs directory (Some cfg) now m0) as Hw. unfold wp in Hw.
    rewrite Hrun in Hw. destruct Hw as [_ Hs]; [intros c [= <-]; exact Hty|].
    destruct (Hs eq_refl) as (c & [= <-] & [Hv Hd Hm Hg _]).
    pose proof (validate_config_ok cfg Hty Hv) as Hok. split; [exact Hok|]. split; [exact Hd|].
    exact (configured_master cfg m Hm Hg).
  - destruct IH as (Hok & Hd & Hinv). split; [exact Hok|]. split; [exact Hd|].
    pose proof (keeps_call cfg c now Hok Hc m Hinv) as Hw. unfold wp in Hw. rewrite Hrun in Hw.
    apply Hw.
Qed.

Lemma call_runs cfg c now m : cfg_types cfg -> master_reachable cfg m -> call_ok cfg c ->
  exists m' o, run_call c now m = Done (tt, m', o) /\ master_reachable cfg m' /\
    master_inv cfg m' /\ outputs_ok cfg o.
Proof.
  intros Hty Hreach Hc. destruct (master_reachable_inv cfg m Hty Hreach) as (Hok & Hd & Hinv).
  pose proof (keeps_call cfg c now Hok Hc m Hinv) as Hw. apply wp_done in Hw.
  destruct Hw as ([] & m' & o & Hrun & Hinv' & Ho). exists m', o. split; [exact Hrun|].
  split; [exact (master_reach_call cfg c now m m' o Hreach Hc Hrun)|]. split; assumption.
Qed.

(** A frame is accepted by the parser of a slave that gets it from the
    master. *)
Definition slave_accepts (cfg : clm_cfg) (frame : list Z) : Prop :=
  forall port local, exists r,
    cl_iefb_parse_cyclic_request frame (Z.of_nat (List.length frame)) (mc_master_id cfg) port local =
      Done (Some r).

Lemma request_sent_accepted cfg frame : request_sent cfg frame -> slave_accepts cfg frame.
Proof.
  intros (g & param & seq & clock & info & state & _ & _ & Hlen & Hp & Hv & Hdec) port local.
  rewrite Hlen. destruct (request_accepted _ _ _ _ _ _ _ _ _ _ _ _ port local Hp Hv Hdec)
    as (_ & _ & Hr). eauto.
Qed.

End MasterReach.
