(* ===== verification/MasterProps.v ===== *)
(** * What the master guarantees

    Properties of every reachable master: safety of all calls, the meaning
    of the states of the groups and devices, the signals of the application,
    and the configurations that are accepted. *)

From Stdlib Require Import String.
From S2P Require Import Prelude Packed Signals Timer Limiter Util Types Iefb IefbFacts IefbRoundtrip.
From S2P Require Import File FileFacts Slmp SlmpFacts Master MasterIefb MasterConfig MasterSlmp.
From S2P Require Import MasterInv MasterFrame MasterDevice MasterGroup MasterScan MasterFsm.
From S2P Require Import MasterEvents MasterControl MasterSafety MasterResponse MasterSettings.
From S2P Require Import MasterStart MasterReach MasterConfigSpec.

#[local] Open Scope Z_scope.

(** ** A concrete environment for the witnesses *)

Module SampleMasterEnv.
#[export] Instance options : ClmOptions :=
  { CLM_MAX_GROUPS := 2; CLM_MAX_OCCUPIED_STATIONS_PER_GROUP := 4;
    CLM_MAX_NODE_SEARCH_DEVICES := 3; clm_max_groups_ok := ltac:(lia);
    clm_max_stations_ok := ltac:(lia); clm_max_node_search_ok := ltac:(lia) }.
#[export] Instance clock : ClalClock := fun now => u32 now / 1000.

Lemma clock_ok now : is_u64 (clal_get_unix_timestamp_ms now).
Proof.
  unfold clal_get_unix_timestamp_ms, clock, u32, is_u64.
  pose proof (Z.mod_pos_bound now (2 ^ 32)) as Hm.
  split; [apply Z.div_pos; lia|]. apply Z.div_lt_upper_bound; lia.
Qed.
End SampleMasterEnv.

Module SampleMaster.
Import SampleHost SampleMasterEnv SampleFiles.

Definition master_ip : Z := 0xC0A80301.
Definition slave_ip : Z := 0xC0A80364.
Definition other_ip : Z := 0xC0A80365.

(** One group: a slave with two stations after one with a single station. *)
Definition group (constant : bool) : clm_group_setting :=
  ClmGroupSetting 500 2 constant 2
    [ClmSlaveDeviceSetting other_ip 1 false; ClmSlaveDeviceSetting slave_ip 2 false;
     inhabitant; inhabitant].
Definition cfg : clm_cfg :=
  ClmCfg true true true true true true true true true
    (ClmSlaveHierarchy 1 [group false; ClmGroupSetting 0 0 false 0 (replicate 4 inhabitant)])
    2 100 1300 2000 1000 false false true master_ip.

(** A program that runs to its end, and the state it leaves. *)
Definition after {A} (P : clm_prog A) (m : clm) : clm :=
  match P m with Done (_, m, _) => m | AssertFailed => m end.
Definition runs {A} (P : clm_prog A) (m : clm) (ok : A -> bool) : bool :=
  match P m with Done (a, _, _) => ok a | AssertFailed => false end.

Lemma after_runs {A} (P : clm_prog A) m ok : runs P m ok = true ->
  exists a o, P m = Done (a, after P m, o) /\ ok a = true.
Proof. unfold runs, after. destruct (P m) as [[[a m'] o]|]; [eauto|discriminate]. Qed.

Definition init : clm := after (clm_master_init empty "/var/clink" (Some cfg) 1000) clm_zero.

(** The arbitration has ended and the first link scan is under way. *)
Definition quiet_call : master_call := MasterPeriodic [] None [].
Definition scanning : clm := after (run_call quiet_call 200000) init.
(** No slave has answered, the second scan is under way. *)
Definition unanswered : clm := after (run_call quiet_call 800000) scanning.

Lemma cfg_typed : cfg_types cfg.
Proof.
  split; [split; [discriminate|reflexivity]..|split; (split; [discriminate|reflexivity])| |].
  - repeat first [apply Forall_nil_2|apply Forall_cons_2|split]; first [discriminate|reflexivity].
  - split; [reflexivity|]. repeat constructor.
Qed.

Lemma init_reachable : master_reachable cfg init.
Proof.
  destruct (after_runs (clm_master_init empty "/var/clink" (Some cfg) 1000) clm_zero id)
    as ([] & o & Hrun & Ha); [vm_compute; reflexivity| |discriminate Ha].
  exact (master_reach_init cfg _ _ _ _ _ o Hrun).
Qed.

(** One more call. *)
Lemma after_reachable c now m : master_reachable cfg m -> call_ok cfg c ->
  runs (run_call c now) m (fun _ => true) = true ->
  master_reachable cfg (after (run_call c now) m).
Proof.
  intros Hm Hc Hr. destruct (after_runs _ _ _ Hr) as ([] & o & Hrun & _).
  exact (master_reach_call cfg c now m _ o Hm Hc Hrun).
Qed.

Lemma quiet_call_ok : call_ok cfg quiet_call.
Proof. split; [constructor|]. split; [discriminate|constructor]. Qed.

Lemma scanning_reachable : master_reachable cfg scanning.
Proof.
  apply after_reachable; [exact init_reachable|exact quiet_call_ok|vm_compute; reflexivity].
Qed.

Lemma unanswered_reachable : master_reachable cfg unanswered.
Proof.
  apply after_reachable; [exact scanning_reachable|exact quiet_call_ok|vm_compute; reflexivity].
Qed.
(** The frame that a program of the master sends first. *)
Definition first_frame (o : list clm_output) : list Z :=
  match omap (fun x => match x with ClmCciefbSendto _ _ _ frame => Some frame | _ => None end) o with
  | frame :: _ => frame
  | [] => []
  end.
Definition master_frame {A} (P : clm_prog A) (m : clm) : list Z :=
  match P m with Done (_, _, o) => first_frame o | AssertFailed => [] end.

Lemma checked_bytes l : forallb (fun b => (0 <=? b) && (b <? 256)) l = true -> bytes l.
Proof.
  intros Hl. rewrite forallb_forall in Hl. apply Forall_forall. intros b Hb.
  specialize (Hl b Hb). apply andb_true_iff in Hl as [?%Z.leb_le ?%Z.ltb_lt]. split; lia.
Qed.

(** While the arbitration lasts the request of another master arrives. *)
Definition request : list Z := master_frame (run_call quiet_call 200000) init.
Definition foreign_call : master_call :=
  MasterPeriodic [] None [Datagram request other_ip 61450 master_ip 1].
Definition defeated : clm := after (run_call foreign_call 50000) init.

Lemma foreign_call_ok : call_ok cfg foreign_call.
Proof.
  assert (Hl : Z.of_nat (List.length request) = 295) by (vm_compute; reflexivity).
  split; [constructor|]. split; [discriminate|]. constructor; [|constructor].
  split; [apply checked_bytes; vm_compute; reflexivity|]. cbn [dg_bytes]. rewrite Hl.
  split; [discriminate|]. apply not_fatal. intros (n & Hn & Heq). rewrite response_size in Heq. lia.
Qed.

Lemma defeated_reachable : master_reachable cfg defeated.
Proof.
  apply after_reachable; [exact init_reachable|exact foreign_call_ok|vm_compute; reflexivity].
Qed.
End SampleMaster.

Section MasterProps.
Context `{ClmOptions, Clal, ClalNet, Host, ClalClock, FileOptions, ClalFileOk}.
Context (clock_ok : forall now, is_u64 (clal_get_unix_timestamp_ms now)).

(** ** The configuration *)

(** C28: The checks of the master's configuration are exact.  The start
    accepts a configuration exactly when the version, addresses, numbers of
    groups, devices and stations, timeouts and the constant link scan time
    are in their ranges, and rejects it for its addresses exactly when two
    devices of any groups share one.  The sums of stations in 16 bits never
    wrap around. *)
Theorem config_checks_exact cfg : cfg_types cfg ->
  (clm_validate_config (Some cfg) = true <-> config_accepted cfg) /\
  (clm_validate_config_duplicates cfg = true <-> addresses_unique cfg).
Proof.
  intros Hty. split; [exact (validate_config_spec cfg Hty)|exact (validate_duplicates_spec cfg)].
Qed.

(** ** Safety *)

(** C6: No call can bring the master down.  In every reachable state every
    call of the API with admissible arguments, in particular the periodic
    function with any datagrams at any time, except well-formed responses with
    more than 16 stations (exactly those of [parse_cyclic_response_assert_iff]),
    returns: it stops at no assertion, stays inside its memory areas and
    leaves a reachable instance behind.  Every cyclic request it sends is
    accepted by the parser of the slaves. *)
Theorem master_calls_safe cfg c now m : cfg_types cfg -> master_reachable cfg m -> call_ok cfg c ->
  exists m' o, run_call c now m = Done (tt, m', o) /\ master_reachable cfg m' /\
    forall socket ip port frame, ClmCciefbSendto socket ip port frame ∈ o ->
      slave_accepts cfg frame.
Proof.
  intros Hty Hreach Hc.
  destruct (call_runs clock_ok cfg c now m Hty Hreach Hc) as (m' & o & Hrun & Hr' & _ & Ho).
  exists m', o. split; [exact Hrun|]. split; [exact Hr'|]. intros socket ip port frame Hin.
  apply (request_sent_accepted cfg frame), (Ho _ _ _ _ Hin).
Qed.

(** ** The meaning of the states *)

(** What holds of a device of a group. *)
Definition device_meaning (cfg : clm_cfg) (g d : Z) (m : clm) : Prop :=
  let gs := setting_of_group cfg g in
  let dev := device_at (group_at m g) d in
  d_slave_station_no dev = 1 + stations_before gs d /\
  d_device_state dev <> CLM_DEVICE_STATE_MASTER_DOWN /\
  d_device_state dev <> CLM_DEVICE_STATE_LAST /\
  (d_device_state dev = CLM_DEVICE_STATE_CYCLIC_SENDING -> d_transmission_bit dev = true) /\
  (d_device_state dev = CLM_DEVICE_STATE_WAIT_TD -> d_transmission_bit dev = false).

(** C10: What the states of the master mean.  In a reachable master every
    group has been started.  Its stations are numbered from 1 without gaps in
    the order of the devices.  A device that is sent cyclic data has its
    transmission bit on, one that only waits for a response has it off.  All
    devices of a group that listens or takes part in the arbitration are
    disconnected; sequence number 0 belongs to the first scan alone; during a
    link scan the wait for the responses is supervised with the timeout of
    the group, and a finished one waits for the end of a constant link scan
    time, with no device left that was sent data and has not answered. *)
Theorem master_state_meaning cfg m g : cfg_types cfg -> master_reachable cfg m -> has_group cfg g ->
  let gs := setting_of_group cfg g in
  let gd := group_at m g in
  let period := gs_timeout_value gs * 1000 in
  m_config m = cfg /\
  (forall d, has_device cfg g d -> device_meaning cfg g d m /\
     (has_device cfg g (d + 1) ->
      d_slave_station_no (device_at gd (d + 1)) =
        d_slave_station_no (device_at gd d) + ds_num_occupied_stations (setting_of_device gs d))) /\
  match g_group_state gd with
  | CLM_GROUP_STATE_MASTER_LISTEN => all_listen cfg g gd
  | CLM_GROUP_STATE_MASTER_ARBITRATION => all_listen cfg g gd /\ g_frame_sequence_no gd = 0
  | CLM_GROUP_STATE_MASTER_LINK_SCAN =>
      cl_timer_is_running (g_response_wait_timer gd) = true /\
      t_period (g_response_wait_timer gd) = period /\
      (g_frame_sequence_no gd = 0 -> none_sending cfg g gd)
  | CLM_GROUP_STATE_MASTER_LINK_SCAN_COMP =>
      g_frame_sequence_no gd <> 0 /\ none_sending cfg g gd /\
      gs_use_constant_link_scan_time gs = true /\
      cl_timer_is_running (g_constant_linkscan_timer gd) = true /\
      t_period (g_constant_linkscan_timer gd) = period
  | _ => False
  end.
Proof.
  intros Hty Hreach Hg gs gd period.
  destruct (master_reachable_inv clock_ok cfg m Hty Hreach) as (_ & _ & Hb & Hgs).
  destruct (Hgs g Hg) as [Hgb Hgc]. split; [apply Hb|]. split.
  - intros d Hd. destruct (gb_devices _ _ _ Hgb d (proj2 Hd)) as [_ Hno [Hs1 Hs2] Hse Hw _].
    split; [repeat split; assumption|]. intros Hd1.
    destruct (gb_devices _ _ _ Hgb (d + 1) (proj2 Hd1)) as [_ Hno1 _ _ _ _].
    unfold gd, gs. rewrite Hno, Hno1, stations_before_S by apply Hd. lia.
  - unfold group_control, timer_of_group in Hgc. fold gd gs in Hgc. unfold cl_timer_is_running.
    destruct (g_group_state gd); try exact Hgc.
    + destruct Hgc as (Hrest & Hseq & Hc & Hrun & Hp). rewrite Hrun, Hp.
      split; [exact Hseq|]. split; [|repeat split; assumption].
      intros d Hd. destruct (Hrest d Hd) as [-> | ->]; discriminate.
    + destruct Hgc as ((Hrun & Hp) & _ & Hseq). rewrite Hrun, Hp. auto.
Qed.

(** ** The state machine of a group *)

(** The state transitions of a group, as the protocol means them; the end of
    a link scan starts the next one. *)
Definition group_next_state (gs : clm_group_setting) (st : clm_group_state)
  (event : clm_group_event) : clm_group_state :=
  match st, event with
  | CLM_GROUP_STATE_MASTER_ARBITRATION, CLM_GROUP_EVENT_ARBITRATION_DONE =>
      CLM_GROUP_STATE_MASTER_LINK_SCAN
  | CLM_GROUP_STATE_MASTER_ARBITRATION, CLM_GROUP_EVENT_REQ_FROM_OTHER =>
      CLM_GROUP_STATE_MASTER_LISTEN
  | (CLM_GROUP_STATE_MASTER_LINK_SCAN | CLM_GROUP_STATE_MASTER_LINK_SCAN_COMP),
    CLM_GROUP_EVENT_MASTERDUPL_ALARM => CLM_GROUP_STATE_MASTER_LISTEN
  | CLM_GROUP_STATE_MASTER_LINK_SCAN_COMP, CLM_GROUP_EVENT_LINKSCAN_START =>
      CLM_GROUP_STATE_MASTER_LINK_SCAN
  | CLM_GROUP_STATE_MASTER_LINK_SCAN, CLM_GROUP_EVENT_LINKSCAN_COMPLETE =>
      if gs_use_constant_link_scan_time gs then CLM_GROUP_STATE_MASTER_LINK_SCAN_COMP
      else CLM_GROUP_STATE_MASTER_LINK_SCAN
  | _, _ => st
  end.

Lemma all_changed_state cfg g event gd gd' : all_changed cfg g event gd gd' ->
  g_group_state gd' = g_group_state gd.
Proof. intros Hc. exact (sg_state _ _ (ac_same _ _ _ _ _ Hc)). Qed.

Lemma group_step_state cfg g m now event e gd e' gd' o :
  group_step cfg g m now event e gd e' gd' o -> runtime_event event ->
  g_group_state gd' = group_next_state (setting_of_group cfg g) (g_group_state gd) event.
Proof.
  intros Hs Hev. unfold group_next_state.
  destruct Hs as [? ? ? ? Hst Hsent|? ? ? Hst Hc|? ? ? Hst Hc|? ? ? ? Hst Hsent
    |? ? ? ? ? Hst _ Hsent|? ? ? Hst Hcon He|? ? ? ? ? Hst Hcon _ Hsent|event e gd Hig].
  1,4,5,7: (rewrite Hst, ?Hcon; exact (sc_state _ _ _ _ _ _ _ Hsent)).
  - rewrite Hst. exact (all_changed_state _ _ _ _ _ Hc).
  - destruct Hst as [-> | ->]; exact (all_changed_state _ _ _ _ _ Hc).
  - rewrite Hst, Hcon. exact (scan_ended_state cfg g _ _ _ He).
  - destruct (g_group_state gd), event; try contradiction; try discriminate Hig; reflexivity.
Qed.

(** An event of a group in a reachable master. *)
Lemma group_event_runs cfg m g now event : cfg_types cfg -> master_reachable cfg m ->
  has_group cfg g -> runtime_event event ->
  exists e' gd' o,
    group_event_loop 2 g now event m = Done (true, put_group g gd' (with_env e' m), o) /\
    group_step cfg g m now event (env_of m) (group_at m g) e' gd' o.
Proof.
  intros Hty Hreach Hg Hev.
  destruct (master_reachable_inv clock_ok cfg m Hty Hreach) as (Hok & _ & Hb & Hgs).
  destruct (Hgs g Hg) as [Hgb Hgc].
  assert (Hdown : g_group_state (group_at m g) <> CLM_GROUP_STATE_MASTER_DOWN)
    by (intros Hx; unfold group_control in Hgc; rewrite Hx in Hgc; exact Hgc).
  pose proof (group_event_ok clock_ok cfg Hok g Hg m Hb now event (env_of m) _ Hgb Hdown Hev) as Hw.
  unfold group_fires, ewp in Hw. rewrite with_env_of in Hw.
  rewrite put_group_same in Hw by exact (groups_length cfg Hok m g Hb Hg).
  apply wp_done in Hw. destruct Hw as (b & m' & o & Hrun & e' & gd' & -> & -> & Hstep). eauto 6.
Qed.

(** C15: The event loop of a group's state machine always ends and refines
    the protocol's step relation.  In every reachable master, every event
    that is raised at run time takes at most two rounds of the loop and stops
    at no assertion; it changes that group, the state of the master, the
    limiter and the arbitration timer only, by a step that [group_step]
    allows, and ends in the state of the transition table. *)
Theorem group_event_terminates cfg m g now event : cfg_types cfg -> master_reachable cfg m ->
  has_group cfg g -> runtime_event event ->
  exists e' gd' o,
    group_event_loop 2 g now event m = Done (true, put_group g gd' (with_env e' m), o) /\
    group_step cfg g m now event (env_of m) (group_at m g) e' gd' o /\
    g_group_state gd' =
      group_next_state (setting_of_group cfg g) (g_group_state (group_at m g)) event.
Proof.
  intros Hty Hreach Hg Hev.
  destruct (group_event_runs cfg m g now event Hty Hreach Hg Hev) as (e' & gd' & o & Hrun & Hs).
  exists e', gd', o. split; [exact Hrun|]. split; [exact Hs|].
  exact (group_step_state _ _ _ _ _ _ _ _ _ _ Hs Hev).
Qed.

(** ** Signals *)

(** C18: The signals of the master are independent variables.  In a
    reachable master all bits and registers of all configured devices can be
    read; setting an RY bit or an RWw register of a device succeeds, it then
    has the new value, and all other signals, of this device and of all
    others in all groups, read as before. *)
Theorem master_signals_independent cfg m : cfg_types cfg -> master_reachable cfg m ->
  exists rx ry rwr rww, reads_signals cfg m rx ry rwr rww /\
    (forall g d n v, has_device cfg g d -> bit_number cfg g d n ->
       exists m', clm_iefb_set_ry_bit g d n v m = Done (tt, m', []) /\
         reads_signals cfg m' rx (override ry g d n v) rwr rww) /\
    (forall g d n v, has_device cfg g d -> register_number cfg g d n -> is_u16 v ->
       exists m', clm_iefb_set_rww_value g d n v m = Done (tt, m', []) /\
         reads_signals cfg m' rx ry rwr (override rww g d n v)).
Proof.
  intros Hty Hreach. destruct (master_reachable_inv clock_ok cfg m Hty Hreach) as (Hok & _ & Hm).
  exists (device_bit cfg AREA_RX m), (device_bit cfg AREA_RY m),
    (device_register cfg AREA_RWR m), (device_register cfg AREA_RWW m). split; [|split].
  - apply reads_same_signals; [exact Hok|exact Hm|apply signals_of].
  - intros g d n v Hd Hn. destruct (signals_after_ry cfg Hok m g d n v Hm Hd Hn) as (m' & Hr & Hm' & Hs).
    exists m'. split; [exact Hr|]. apply reads_same_signals; assumption.
  - intros g d n v Hd Hn Hv.
    destruct (signals_after_rww cfg Hok m g d n v Hm Hd Hn Hv) as (m' & Hr & Hm' & Hs).
    exists m'. split; [exact Hr|]. apply reads_same_signals; assumption.
Qed.

End MasterProps.

(** ** Witnesses *)

Section Witnesses.
Import SampleHost SampleMasterEnv SampleFiles SampleMaster.

Lemma config_checks_exact_witness : config_accepted cfg.
Proof.
  destruct (config_checks_exact cfg cfg_typed) as [Hv _]. apply Hv. vm_compute. reflexivity.
Defined.

Lemma master_calls_safe_witness :
  master_reachable cfg scanning /\
  exists m' o, run_call quiet_call 800000 scanning = Done (tt, m', o) /\ master_reachable cfg m'.
Proof.
  split; [exact scanning_reachable|].
  destruct (master_calls_safe clock_ok cfg quiet_call 800000 scanning cfg_typed scanning_reachable
    quiet_call_ok) as (m' & o & Hrun & Hr & _). exists m', o. split; [exact Hrun|exact Hr].
Defined.

Lemma master_state_meaning_witness :
  g_group_state (group_at scanning 0) = CLM_GROUP_STATE_MASTER_LINK_SCAN /\
  d_slave_station_no (device_at (group_at scanning 0) 1) = 2.
Proof.
  split; [vm_compute; reflexivity|].
  destruct (master_state_meaning clock_ok cfg scanning 0 cfg_typed scanning_reachable)
    as (_ & Hd & _); [vm_compute; split; [discriminate|reflexivity]|].
  destruct (Hd 1) as [[Hno _] _]; [vm_compute; repeat split; discriminate|]. exact Hno.
Defined.

Lemma group_event_terminates_witness :
  exists m' o,
    group_event_loop 2 0 800000 CLM_GROUP_EVENT_LINKSCAN_TIMEOUT scanning = Done (true, m', o).
Proof.
  destruct (group_event_terminates clock_ok cfg scanning 0 800000 CLM_GROUP_EVENT_LINKSCAN_TIMEOUT
    cfg_typed scanning_reachable) as (e' & gd' & o & Hrun & _);
    [vm_compute; split; [discriminate|reflexivity]|exact I|]. eexists _, o. exact Hrun.
Defined.

Lemma master_signals_independent_witness :
  exists m', clm_iefb_set_ry_bit 0 1 70 true scanning = Done (tt, m', []) /\
    clm_iefb_get_ry_bit 0 1 70 m' = Done (true, m', []).
Proof.
  assert (Hd : has_device cfg 0 1) by (vm_compute; repeat split; discriminate).
  assert (Hn : bit_number cfg 0 1 70) by (vm_compute; split; [discriminate|reflexivity]).
  destruct (master_signals_independent clock_ok cfg scanning cfg_typed scanning_reachable)
    as (rx & ry & rwr & rww & _ & Hset & _). destruct (Hset 0 1 70 true Hd Hn) as (m' & Hrun & Hr).
  exists m'. split; [exact Hrun|]. destruct (Hr 0 1 Hd) as [Hb _]. destruct (Hb 70 Hn) as [_ Hy].
  unfold override in Hy. rewrite bool_decide_eq_true_2 in Hy by auto. exact Hy.
Defined.

End Witnesses.
