(* ===== verification/MasterExchange.v ===== *)
(** * The master's conversation with its slaves

    What the request of a link scan carries for every device, what the
    master stores of a response and when it refuses one, and what happens to
    a device that does not answer. *)

From Stdlib Require Import String.
From S2P Require Import Prelude Packed Signals Timer Limiter Util Types Iefb IefbFacts IefbRoundtrip.
From S2P Require Import File FileFacts Slmp SlmpFacts Master MasterIefb MasterConfig MasterSlmp.
From S2P Require Import MasterInv MasterFrame MasterDevice MasterGroup MasterScan MasterFsm.
From S2P Require Import MasterEvents MasterControl MasterSafety MasterResponse MasterSettings.
From S2P Require Import MasterOutgoing MasterInputs MasterStart MasterReach MasterProps.

#[local] Open Scope Z_scope.

(** ** Definitions *)

(** The part of a device in the bytes of a request: its transmission bit,
    its slave id, and its registers and bits. *)
Definition frame_part (gs : clm_group_setting) (d : Z) (frame : list Z)
  : bool * Z * list Z * list Z :=
  part_of_frame gs d (qdh_cyclic_transmission_state (fq_cyclic_data_header
    (c_dec c_cl_cciefb_cyclic_req_full_headers frame))) frame.

Section MasterExchange.
Context `{ClmOptions, Clal, ClalNet, Host, ClalClock, FileOptions, ClalFileOk}.
Context (clock_ok : forall now, is_u64 (clal_get_unix_timestamp_ms now)).

(** C9: The request of a link scan carries the outputs of the application.
    In a reachable master, whatever event at run time lets a group send a
    frame, the frame is broadcast once from the socket of the master, with
    the parameters and the sequence number of the group.  For every device
    it carries, by the state the device then has: while cyclic data is
    exchanged, the transmission bit, the device's address and exactly the
    RWw registers and RY bits that the application set for it; while the
    device is connecting, its address without data (unless the bit is
    forced); for a disabled device no address and no data, except that the
    first request after it was disabled may repeat the previous one. *)
Theorem link_scan_request cfg m g now event : cfg_types cfg -> master_reachable cfg m ->
  has_group cfg g -> runtime_event event ->
  (event = CLM_GROUP_EVENT_LINKSCAN_COMPLETE -> none_sending cfg g (group_at m g)) ->
  let gs := setting_of_group cfg g in
  exists e' gd' o,
    group_event_loop 2 g now event m = Done (true, put_group g gd' (with_env e' m), o) /\
    forall socket ip port frame, ClmCciefbSendto socket ip port frame ∈ o ->
      socket = m_cciefb_socket m /\ ip = m_iefb_broadcast_ip m /\ port = CL_CCIEFB_PORT /\
      (exists param, c_dec c_cl_cciefb_cyclic_req_full_headers frame =
         request_headers (mc_protocol_ver cfg) (gs_timeout_value gs)
           (gs_parallel_off_timeout_count gs) (mc_master_id cfg) (g + 1) (total_stations gs) param
           (g_frame_sequence_no gd') (clal_get_unix_timestamp_ms now) (m_master_local_unit_info m)
           (g_cyclic_transmission_state gd')) /\
      forall d, has_device cfg g d ->
        carries gs d (g_memory_area (group_at m g)) (device_at gd' d)
          (device_part cfg g d (group_at m g)) (frame_part gs d frame).
Proof.
  intros Hty Hreach Hg Hev Hn gs.
  destruct (group_event_runs clock_ok cfg m g now event Hty Hreach Hg Hev)
    as (e' & gd' & o & Hrun & Hstep). exists e', gd', o. split; [exact Hrun|].
  intros socket ip port frame Hin.
  destruct (master_reachable_inv clock_ok cfg m Hty Hreach) as (Hok & _ & Hm).
  destruct (proj2 Hm g Hg) as [Hb Hc].
  destruct (event_request cfg m g now event _ _ _ _ _ _ _ _ _ Hb (event_pre cfg g _ _ Hc Hn) Hstep Hin)
    as ((-> & -> & ->) & [[_ _ (_ & Hdec) Hparts _] _ Hcarries _ _ _]).
  split; [reflexivity|]. split; [reflexivity|]. split; [reflexivity|].
  split; [eexists; exact Hdec|]. intros d [_ Hd]. unfold frame_part. rewrite Hdec.
  cbn [fq_cyclic_data_header request_headers qdh_cyclic_transmission_state].
  fold gs in Hparts. rewrite (Hparts d Hd). exact (proj1 (Hcarries d Hd)).
Qed.

(** ** Responses *)

(** C7: Only a valid response changes what the application reads, and it
    changes the inputs of its sender alone.  Whatever datagram a reachable
    master handles (except those of [parse_cyclic_response_assert_iff]): if it is a well-formed response from a configured device
    of the group it names, the device is enabled, the response is not a
    duplicate, has the sequence number of the scan (when the device exchanges
    data) and the configured number of stations, then the application reads
    its RX bits and RWr registers as the device sent them (zeros while the
    device is not sent cyclic data).  All other signals, and after any other
    datagram all signals, read as before. *)
Theorem inputs_from_responses cfg m now buffer len ip port : cfg_types cfg ->
  master_reachable cfg m -> bytes buffer -> length buffer = 1500%nat ->
  0 <= len <= CL_BUFFER_LEN -> ~ fatal buffer len ip ->
  exists m' b o rx ry rwr rww,
    clm_iefb_handle_input_frame now buffer len ip port m = Done (b, m', o) /\
    reads_signals cfg m rx ry rwr rww /\
    ((exists g d r, response_arrives cfg m now buffer len ip port g d r /\ b = true /\
        let valid := d_transmission_bit (device_at (group_at m g) d) in
        reads_signals cfg m'
          (replace_device rx g d (response_bit (device_size cfg g d) buffer valid)) ry
          (replace_device rwr g d (response_register buffer valid)) rww) \/
     ((forall g d r, ~ response_arrives cfg m now buffer len ip port g d r) /\
      reads_signals cfg m' rx ry rwr rww)).
Proof.
  intros Hty Hreach Hby Hl Hlen Hno.
  destruct (master_reachable_inv clock_ok cfg m Hty Hreach) as (Hok & _ & Hm).
  pose proof (input_frame_wp clock_ok cfg Hok now buffer len ip port m Hby Hl Hlen Hno Hm) as Hw.
  pose proof (keeps_input_frame clock_ok cfg Hok now buffer len ip port Hby Hl Hlen Hno m Hm) as Hk.
  apply wp_done in Hw as (b & m' & o & Hrun & Hout). unfold wp in Hk. rewrite Hrun in Hk.
  destruct Hk as [Hm' _]. exists m', b, o, (device_bit cfg AREA_RX m), (device_bit cfg AREA_RY m),
    (device_register cfg AREA_RWR m), (device_register cfg AREA_RWW m).
  split; [exact Hrun|]. split; [apply reads_same_signals; [exact Hok|exact Hm|apply signals_of]|].
  destruct Hout as [(g & d & r & Ha & Hb & Hi & _)|[Hx Ha]]; [left|right].
  - exists g, d, r. split; [exact Ha|]. split; [exact Hb|].
    apply reads_same_signals; [exact Hok|exact Hm'|].
    apply (received_signals cfg Hok m m' g d buffer); try assumption. apply (ra_device _ _ _ _ _ _ _ _ _ _ Ha).
  - split; [exact Hx|]. apply reads_same_signals; [exact Hok|exact Hm'|].
    apply same_areas_signals, Ha.
Qed.

End MasterExchange.

(** ** Example: the group of [SampleMaster] *)

Section MasterExchangeWitnesses.
Import SampleHost SampleMasterEnv SampleFiles SampleMaster.

Lemma sample_group : has_group cfg 0.
Proof. vm_compute. split; [discriminate|reflexivity]. Qed.

Lemma sample_device : has_device cfg 0 1.
Proof. vm_compute. repeat split; discriminate. Qed.

Definition is_frame (x : clm_output) : bool :=
  match x with ClmCciefbSendto _ _ _ _ => true | _ => false end.

(** The second scan sends a request, in which the device has an address. *)
Lemma link_scan_request_witness :
  exists m1 o socket ip port frame valid,
    group_event_loop 2 0 800000 CLM_GROUP_EVENT_LINKSCAN_TIMEOUT scanning = Done (true, m1, o) /\
    ClmCciefbSendto socket ip port frame ∈ o /\
    frame_part (group false) 1 frame =
      output_part (group false) 1 (g_memory_area (group_at scanning 0)) slave_ip valid.
Proof.
  destruct (link_scan_request clock_ok cfg scanning 0 800000 CLM_GROUP_EVENT_LINKSCAN_TIMEOUT
    cfg_typed scanning_reachable sample_group I) as (e' & gd' & o & Hrun & Hframes).
  - intros Hx. discriminate Hx.
  - assert (Hc : existsb is_frame o && bool_decide (d_device_state (device_at gd' 1) = CLM_DEVICE_STATE_WAIT_TD) = true).
    { enough (Hc : match group_event_loop 2 0 800000 CLM_GROUP_EVENT_LINKSCAN_TIMEOUT scanning with
        | Done (_, m1, o) => existsb is_frame o &&
            bool_decide (d_device_state (device_at (group_at m1 0) 1) = CLM_DEVICE_STATE_WAIT_TD)
        | AssertFailed => false end = true); [|vm_compute; reflexivity].
      rewrite Hrun in Hc. rewrite group_at_put in Hc by (vm_compute; split; [discriminate|reflexivity]).
      exact Hc. }
    apply andb_true_iff in Hc as [(x & Hx & Hf)%existsb_exists Hst%bool_decide_eq_true].
    destruct x; try discriminate Hf.
    apply list_elem_of_In in Hx. destruct (Hframes _ _ _ _ Hx) as (_ & _ & _ & _ & Hparts).
    specialize (Hparts 1 sample_device). unfold carries in Hparts. rewrite Hst in Hparts.
    exact (ex_intro _ _ (ex_intro _ _ (ex_intro _ _ (ex_intro _ _ (ex_intro _ _ (ex_intro _ _ (ex_intro _ _
      (conj Hrun (conj Hx Hparts))))))))).
Defined.

(** The response of the slave to the first scan, with data. *)
Definition response : list Z :=
  match cl_iefb_initialise_cyclic_response_frame (zeros 1500) CL_BUFFER_LEN 2 0x1234 0x56789ABC 0x1111 with
  | Done fi => splice 59 (replicate 144 0x5A) (ri_buffer
      (cl_iefb_update_cyclic_response_frame fi slave_ip CL_SLMP_ENDCODE_SUCCESS 1
        (g_frame_sequence_no (group_at scanning 0)) 1 0 0))
  | AssertFailed => []
  end.

Lemma response_bytes : bytes response.
Proof.
  apply Forall_forall. intros b Hb.
  assert (Hc : forallb (fun b => (0 <=? b) && (b <? 256)) response = true) by (vm_compute; reflexivity).
  rewrite forallb_forall in Hc. specialize (Hc b Hb).
  apply andb_true_iff in Hc as [?%Z.leb_le ?%Z.ltb_lt]. split; lia.
Qed.

Lemma response_is_new : exists r, response_arrives cfg scanning 300000 response 203 slave_ip 61450 0 1 r.
Proof.
  eexists. split.
  - vm_compute. discriminate.
  - eexists. split; vm_compute; reflexivity.
  - vm_compute. reflexivity.
  - vm_compute. reflexivity.
  - split; [exact sample_device|vm_compute; reflexivity].
  - split; vm_compute; try reflexivity; intros; first [discriminate|reflexivity].
Qed.

Lemma inputs_from_responses_witness :
  exists m' o rx ry rwr rww buffer, buffer = response /\
    clm_iefb_handle_input_frame 300000 response 203 slave_ip 61450 scanning = Done (true, m', o) /\
    reads_signals cfg m'
      (replace_device rx 0 1 (response_bit 2 buffer false)) ry
      (replace_device rwr 0 1 (response_register buffer false)) rww.
Proof.
  destruct (inputs_from_responses clock_ok cfg scanning 300000 response 203 slave_ip 61450
    cfg_typed scanning_reachable response_bytes) as (m' & b & o & rx & ry & rwr & rww & Hrun & _ & Hout).
  - vm_compute. reflexivity.
  - vm_compute. split; discriminate.
  - apply not_fatal. intros (n & Hn & Hl). rewrite response_size in Hl. lia.
  - destruct response_is_new as (r & Hr).
    destruct Hout as [(g & d & r' & Ha & Hb & Hreads)|[Hnot _]]; [|destruct (Hnot 0 1 r Hr)].
    subst b. exists m', o, rx, ry, rwr, rww, response. split; [reflexivity|]. split; [exact Hrun|].
    pose proof (ra_parse _ _ _ _ _ _ _ _ _ _ Hr) as Hp1. pose proof (ra_parse _ _ _ _ _ _ _ _ _ _ Ha) as Hp2.
    rewrite Hp1 in Hp2. injection Hp2 as <-.
    pose proof (ra_group _ _ _ _ _ _ _ _ _ _ Hr) as Hg1. pose proof (ra_group _ _ _ _ _ _ _ _ _ _ Ha) as Hg2.
    rewrite Hg1 in Hg2. assert (g = 0) as -> by lia.
    pose proof (proj2 (ra_device _ _ _ _ _ _ _ _ _ _ Hr)) as Hd1.
    pose proof (proj2 (ra_device _ _ _ _ _ _ _ _ _ _ Ha)) as Hd2.
    rewrite Hd1 in Hd2. injection Hd2 as <-. exact Hreads.
Defined.
End MasterExchangeWitnesses.
