(* ===== verification/MasterLeaves.v ===== *)
(** * What the cyclic communication of the master leaves alone

    A calculus for programs that keep a part of the instance, with outputs
    of a given kind, and its first use: at run time the cyclic communication
    touches neither SLMP nor the sockets. *)

From Stdlib Require Import String.
From S2P Require Import Prelude Packed Signals Timer Limiter Util Types Iefb File Slmp SlmpFacts.
From S2P Require Import Master MasterIefb MasterConfig MasterSlmp MasterSettings.

#[local] Open Scope Z_scope.

(** ** Definitions *)

(** The part of the instance that belongs to SLMP. *)
Record slmp_part := SlmpPart {
  p_config : clm_cfg;
  p_serial : Z;
  p_search_serial : Z;
  p_search_timer : cl_timer;
  p_set_ip_serial : Z;
  p_set_ip_timer : cl_timer;
  p_db : clm_node_search_db;
  p_interface : Z * Z * list Z;
  p_sockets : Z * Z;
  p_buffer : list Z
}.

Definition slmp_part_of (m : clm) : slmp_part :=
  SlmpPart (m_config m) (m_slmp_request_serial m) (m_node_search_serial m) (m_node_search_timer m)
    (m_set_ip_request_serial m) (m_set_ip_request_timer m) (m_node_search_db m)
    (m_slmp_broadcast_ip m, m_ifindex m, m_mac_address m)
    (m_slmp_send_socket m, m_slmp_receive_socket m) (m_slmp_receivebuf m).

(** What the application and the network see of SLMP. *)
Definition slmp_output (x : clm_output) : bool :=
  match x with ClmSlmpUdp _ | ClmNodeSearchCfmCb _ | ClmSetIpCfmCb _ => true | _ => false end.
Definition slmp_outputs : list clm_output -> list clm_output := List.filter slmp_output.

(** What lies outside of the cyclic communication: SLMP, and the sockets. *)
Definition outside_of (m : clm) : slmp_part * (Z * Z) :=
  (slmp_part_of m, (m_cciefb_socket m, m_cciefb_arbitration_socket m)).
Definition outside_output (x : clm_output) : bool :=
  match x with ClmCciefbOpen _ _ | ClmCciefbClose _ => true | _ => slmp_output x end.

(** Kinds of outputs that sequences of operations keep. *)
Class OutputKind (Q : list clm_output -> Prop) : Prop := {
  kind_nil : Q [];
  kind_app o o' : Q o -> Q o' -> Q (o ++ o')
}.

(** None of the outputs is of interest. *)
Definition none_of (f : clm_output -> bool) (o : list clm_output) : Prop := List.filter f o = [].

(** If the program returns, the view is the same and the outputs are of the
    kind. *)
Definition leaves {V} (view : clm -> V) (Q : list clm_output -> Prop) {A} (P : clm_prog A) : Prop :=
  forall m,
  match P m with
  | Done (_, m', o) => view m' = view m /\ Q o
  | AssertFailed => True
  end.

Abbreviation leaves_slmp := (leaves slmp_part_of (none_of slmp_output)).
Abbreviation leaves_outside := (leaves outside_of (none_of outside_output)).

(** ** Lemmas: the calculus *)

#[export] Instance none_of_kind f : OutputKind (none_of f).
Proof.
  split; [reflexivity|]. unfold none_of. intros o o' Ho Ho'.
  rewrite List.filter_app, Ho, Ho'. reflexivity.
Qed.

Section Calculus.
Context {V : Type} (view : clm -> V) (Q : list clm_output -> Prop) `{!OutputKind Q}.

Abbreviation leaves := (leaves view Q).

Lemma leaves_ret {A} (a : A) : leaves (mret a : clm_prog A).
Proof. intros m. split; [reflexivity|apply kind_nil]. Qed.

Lemma leaves_bind {A B} (P : clm_prog A) (k : A -> clm_prog B) :
  leaves P -> (forall a, leaves (k a)) -> leaves (P ≫= k).
Proof.
  intros HP Hk m. unfold mbind, prog_bind. specialize (HP m).
  destruct (P m) as [[[a m1] o1]|]; [|exact I]. specialize (Hk a m1).
  destruct (k a m1) as [[[b m2] o2]|]; [|exact I]. destruct HP as [Hs1 Ho1], Hk as [Hs2 Ho2].
  split; [rewrite Hs2; exact Hs1|]. apply kind_app; assumption.
Qed.

Lemma leaves_get {B} (k : clm -> clm_prog B) : (forall m, leaves (k m)) -> leaves (get ≫= k).
Proof.
  intros Hk. apply leaves_bind; [|exact Hk]. intros m. split; [reflexivity|apply kind_nil].
Qed.

Lemma leaves_modify f : (forall m, view (f m) = view m) -> leaves (modify f).
Proof. intros Hf m. split; [apply Hf|apply kind_nil]. Qed.

Lemma leaves_emit x : Q [x] -> leaves (emit x).
Proof. intros Hx m. split; [reflexivity|exact Hx]. Qed.

Lemma leaves_when b P : leaves P -> leaves (when b P).
Proof. intros HP. destruct b; [exact HP|apply leaves_ret]. Qed.

Lemma leaves_assert b : leaves (cc_assert b).
Proof. intros m. unfold cc_assert. destruct b; [split; [reflexivity|apply kind_nil]|exact I]. Qed.

Lemma leaves_lift {A} (x : outcome A) : leaves (lift_outcome x).
Proof. intros m. unfold lift_outcome. destruct x; [split; [reflexivity|apply kind_nil]|exact I]. Qed.

Lemma leaves_for_each indices body : (forall i, leaves (body i)) -> leaves (for_each indices body).
Proof.
  intros Hb. induction indices; cbn [for_each]; [apply leaves_ret|].
  apply leaves_bind; [apply Hb|]. intros _. assumption.
Qed.

Lemma leaves_run {A} (P : clm_prog A) m a m' o : leaves P -> P m = Done (a, m', o) ->
  view m' = view m /\ Q o.
Proof. intros HP Hrun. specialize (HP m). rewrite Hrun in HP. exact HP. Qed.
End Calculus.

(** Less of the instance and fewer outputs. *)
Lemma leaves_weaken {V V'} (view : clm -> V) (view' : clm -> V') (Q Q' : list clm_output -> Prop)
  {A} (P : clm_prog A) :
  (forall m m', view m' = view m -> view' m' = view' m) -> (forall o, Q o -> Q' o) ->
  leaves view Q P -> leaves view' Q' P.
Proof.
  intros Hview HQ HP m. specialize (HP m). destruct (P m) as [[[a m'] o]|]; [|exact I].
  destruct HP as [Hm Ho]. auto.
Qed.

Lemma outside_silent o : none_of outside_output o -> none_of slmp_output o.
Proof.
  unfold none_of. induction o as [|x o IH]; [reflexivity|]. destruct x; cbn; try discriminate; exact IH.
Qed.

Lemma outside_slmp {A} (P : clm_prog A) : leaves_outside P -> leaves_slmp P.
Proof.
  apply leaves_weaken; [|exact outside_silent]. intros m m' Hm. exact (f_equal fst Hm).
Qed.

Create HintDb leaves.

(** A change outside of the view. *)
Ltac leaves_same := first [reflexivity | solve [eauto with leaves]].

(** One step through a program; unknown programs are looked up. *)
Ltac leaves_step :=
  lazymatch goal with
  | |- leaves _ _ (get ≫= _) => apply leaves_get; [exact _|]; intros ?; cbv beta zeta
  | |- leaves _ _ (_ ≫= _) => apply leaves_bind; [exact _| |intros ?]
  | |- leaves _ _ (mret _) => apply leaves_ret; exact _
  | |- leaves _ _ (modify _) => apply leaves_modify; [exact _|]; intros ?; leaves_same
  | |- leaves _ _ (modify_group _ _) => apply leaves_modify; [exact _|]; intros ?; leaves_same
  | |- leaves _ _ (modify_device _ _ _) => apply leaves_modify; [exact _|]; intros ?; leaves_same
  | |- leaves _ _ (get_group _) => apply leaves_get; [exact _|]; intros ?
  | |- leaves _ _ (get_device _ _) => apply leaves_get; [exact _|]; intros ?
  | |- leaves _ _ (emit _) => apply leaves_emit; first [reflexivity|exact (conj eq_refl (Permutation_refl _))]
  | |- leaves _ _ (when _ _) => apply leaves_when; [exact _|]
  | |- leaves _ _ (cc_assert _) => apply leaves_assert; exact _
  | |- leaves _ _ (lift_outcome _) => apply leaves_lift; exact _
  | |- leaves _ _ (for_range _ _) => apply leaves_for_each; [exact _|]; intros ?
  | |- leaves _ _ (if ?b then _ else _) => destruct b
  | |- leaves _ _ (match ?x with _ => _ end) => destruct x
  | |- leaves _ _ _ => solve [eauto with leaves]
  end.
Ltac leaves := repeat leaves_step.

(** ** Lemmas: the cyclic communication *)

Section Leaves.
Context `{ClmOptions, Clal, ClalClock}.

Lemma leaves_device_action action g d st : leaves_outside (run_device_action action g d st).
Proof.
  destruct action; cbn [run_device_action];
    unfold device_init_action, set_data_ip_action, evaluate_timeoutcounter_action,
      reset_timeout_count_action, clm_iefb_trigger_connect_callback,
      clm_iefb_trigger_disconnect_callback; leaves.
Qed.
#[local] Hint Resolve leaves_device_action : leaves.

Lemma leaves_device_loop fuel g d event : leaves_outside (device_event_loop fuel g d event).
Proof. revert event. induction fuel; intros event; cbn [device_event_loop]; leaves. Qed.
#[local] Hint Resolve leaves_device_loop : leaves.

Lemma leaves_device_event g d event : leaves_outside (clm_iefb_device_fsm_event g d event).
Proof. unfold clm_iefb_device_fsm_event. leaves. Qed.
#[local] Hint Resolve leaves_device_event : leaves.

Lemma leaves_device_events g event : leaves_outside (clm_iefb_device_fsm_event_all_in_group g event).
Proof. unfold clm_iefb_device_fsm_event_all_in_group. leaves. Qed.
#[local] Hint Resolve leaves_device_events : leaves.

Lemma leaves_error now message ip n :
  leaves_outside (clm_iefb_trigger_error_callback now message ip n).
Proof. unfold clm_iefb_trigger_error_callback. leaves. Qed.
#[local] Hint Resolve leaves_error : leaves.

Lemma leaves_master_state st : leaves_outside (clm_iefb_set_master_state st).
Proof. unfold clm_iefb_set_master_state. leaves. Qed.
#[local] Hint Resolve leaves_master_state : leaves.

Lemma leaves_group_action action g now : leaves_outside (run_group_action action g now).
Proof.
  destruct action; cbn [run_group_action];
    unfold group_init_action, group_new_config_action, on_arbitration_failed_action,
      on_linkscan_start_action, on_linkscan_timeout_action, on_linkscan_complete_action,
      group_on_entry_listen_action, clm_iefb_reflect_group_parameters,
      clm_iefb_send_cyclic_request_frame, clm_iefb_trigger_linkscan_callback,
      advance_frame_sequence_no; leaves.
Qed.
#[local] Hint Resolve leaves_group_action : leaves.

Lemma leaves_group_loop fuel g now event : leaves_outside (group_event_loop fuel g now event).
Proof. revert event. induction fuel; intros event; cbn [group_event_loop]; leaves. Qed.
#[local] Hint Resolve leaves_group_loop : leaves.

Lemma leaves_group_event g now event : leaves_outside (clm_iefb_group_fsm_event g now event).
Proof. unfold clm_iefb_group_fsm_event. leaves. Qed.
#[local] Hint Resolve leaves_group_event : leaves.

Lemma leaves_group_events now event : leaves_outside (clm_iefb_group_fsm_event_all now event).
Proof. unfold clm_iefb_group_fsm_event_all. leaves. Qed.
#[local] Hint Resolve leaves_group_events : leaves.

Lemma leaves_input_frame now buffer len ip port :
  leaves_outside (clm_iefb_handle_input_frame now buffer len ip port).
Proof.
  unfold clm_iefb_handle_input_frame, clm_iefb_handle_request_frame,
    clm_iefb_handle_response_frame, handle_device_response, store_response, store_response_values,
    store_response_data, response_fsm_events, complete_link_scan, report_errors, report_changes,
    count_invalid_frame, count_alarm_frame, clm_iefb_trigger_alarmframe_callback,
    clm_iefb_trigger_slaveinfo_callback. leaves.
Qed.
#[local] Hint Resolve leaves_input_frame : leaves.

Lemma leaves_datagram now dg : leaves_outside (handle_datagram now dg).
Proof. unfold handle_datagram. leaves. Qed.
#[local] Hint Resolve leaves_datagram : leaves.

Lemma leaves_receive now queue : leaves_outside (receive_loop now queue).
Proof. induction queue; cbn [receive_loop]; leaves. Qed.
#[local] Hint Resolve leaves_receive : leaves.

Lemma leaves_periodic arbitration queue now :
  leaves_outside (clm_iefb_periodic arbitration queue now).
Proof. unfold clm_iefb_periodic, clm_iefb_monitor_all_group_timers. leaves. Qed.

Lemma leaves_settings g d n v w running stopped enabled :
  leaves_outside (clm_iefb_set_ry_bit g d n v) /\ leaves_outside (clm_iefb_set_rww_value g d n w) /\
  leaves_outside (clm_iefb_set_master_application_status running stopped) /\
  leaves_outside (clm_iefb_set_slave_communication_status g d enabled) /\
  leaves_outside (clm_iefb_force_cyclic_transmission_bit g d enabled) /\
  leaves_outside clm_iefb_statistics_clear_all.
Proof.
  unfold clm_iefb_set_ry_bit, clm_iefb_set_rww_value, checked_area,
    clm_iefb_set_master_application_status, clm_iefb_set_slave_communication_status,
    clm_iefb_force_cyclic_transmission_bit, clm_iefb_statistics_clear_all.
  repeat match goal with |- _ /\ _ => split end; leaves.
Qed.

Lemma leaves_store_area area g off data : leaves_outside (store_area area g off data).
Proof. unfold store_area. leaves. Qed.

End Leaves.

(** ** Lemmas: SLMP leaves the cyclic communication alone *)

Section SlmpLeaves.
Context `{ClmOptions, Clal, ClalNet, Host}.

(** The socket that an output opens, if the platform has one, and the socket
    that it closes. *)
Definition opened (x : clm_output) : option Z :=
  match x with
  | ClmCciefbOpen ip port | ClmSlmpUdp (UdpOpen ip port) =>
      let socket := clal_udp_open ip port in
      if socket =? -1 then None else Some socket
  | _ => None
  end.
Definition closed (x : clm_output) : option Z :=
  match x with
  | ClmCciefbClose socket | ClmSlmpUdp (UdpClose socket) => Some socket
  | _ => None
  end.

(** Every socket that is opened is closed again. *)
Definition balanced (o : list clm_output) : Prop := omap opened o ≡ₚ omap closed o.

Definition cyclic_output (x : clm_output) : bool :=
  match x with ClmSlmpUdp _ | ClmNodeSearchCfmCb _ | ClmSetIpCfmCb _ => false | _ => true end.

(** The part of the instance that belongs to the cyclic communication, and
    the sockets that are open between two calls. *)
Definition cyclic_of (m : clm)
  : clm_cfg * list clm_group_data * (cl_timer * clm_master_state * Z) * (Z * Z * Z) :=
  (m_config m, m_groups m, (m_arbitration_timer m, m_master_state m, m_master_local_unit_info m),
   (m_cciefb_socket m, m_cciefb_arbitration_socket m, m_slmp_receive_socket m)).
Definition slmp_outputs_only (o : list clm_output) : Prop := none_of cyclic_output o /\ balanced o.

Abbreviation leaves_cyclic := (leaves cyclic_of slmp_outputs_only).

#[export] Instance balanced_kind : OutputKind balanced.
Proof.
  unfold balanced. split; [reflexivity|]. intros o o' Ho Ho'. rewrite !omap_app.
  exact (Permutation_app Ho Ho').
Qed.

#[export] Instance slmp_outputs_only_kind : OutputKind slmp_outputs_only.
Proof.
  split; [split; apply kind_nil|]. intros o o' [H1' H2'] [H3' H4']. split; apply kind_app; assumption.
Qed.

Lemma send_keeps len : leaves_cyclic (clm_slmp_send_request len).
Proof.
  intros m. unfold clm_slmp_send_request, mbind, prog_bind, get.
  destruct (mc_use_single_slmp_socket (m_config m)); unfold zoom.
  - destruct (udp_send_socket_discipline false (m_slmp_sendbuf m) CL_BUFFER_LEN
      (mc_master_id (m_config m)) (m_slmp_broadcast_ip m) CL_SLMP_PORT len (m_slmp_receive_socket m))
      as (ok & socket & events & -> & _ & -> & ->). split; [reflexivity|].
    destruct (_ <? len); [apply kind_nil|]. destruct (_ =? -1); exact (conj eq_refl (Permutation_refl _)).
  - destruct (udp_send_socket_discipline true (m_slmp_sendbuf m) CL_BUFFER_LEN
      (mc_master_id (m_config m)) (m_slmp_broadcast_ip m) CL_SLMP_PORT len (m_slmp_send_socket m))
      as (ok & socket & events & -> & _ & -> & ->). split; [reflexivity|].
    destruct (_ <? len); [apply kind_nil|]. unfold slmp_outputs_only, balanced, none_of.
    destruct (Z.eqb_spec (clal_udp_open (mc_master_id (m_config m)) CL_SLMP_PORT) (-1)) as [He|He];
      cbn; [rewrite (proj2 (Z.eqb_eq _ _) He)|rewrite (proj2 (Z.eqb_neq _ _) He)]; split; reflexivity.
Qed.
#[local] Hint Resolve send_keeps : leaves.

Lemma search_notify_keeps : leaves_cyclic clm_slmp_node_search_notify_results.
Proof. unfold clm_slmp_node_search_notify_results. leaves. Qed.
#[local] Hint Resolve search_notify_keeps : leaves.

Lemma set_ip_notify_keeps status : leaves_cyclic (clm_slmp_set_ip_notify_cfm status).
Proof. unfold clm_slmp_set_ip_notify_cfm. leaves. Qed.
#[local] Hint Resolve set_ip_notify_keeps : leaves.

Lemma slmp_frame_keeps buffer len ifindex : leaves_cyclic (clm_slmp_handle_input_frame buffer len ifindex).
Proof.
  unfold clm_slmp_handle_input_frame, clm_slmp_handle_node_search_response,
    clm_slmp_handle_set_ipaddr_response, clm_slmp_handle_set_ip_error. leaves.
Qed.
#[local] Hint Resolve slmp_frame_keeps : leaves.

Lemma slmp_receive_keeps queue : leaves_cyclic (slmp_receive_loop queue).
Proof. induction queue; cbn [slmp_receive_loop]; leaves. Qed.
#[local] Hint Resolve slmp_receive_keeps : leaves.

Lemma slmp_leaves_cyclic now mac ip netmask queue :
  leaves_cyclic (clm_slmp_perform_node_search now) /\
  leaves_cyclic (clm_slmp_perform_set_ipaddr_request now mac ip netmask) /\
  leaves_cyclic (clm_slmp_periodic queue now).
Proof.
  unfold clm_slmp_perform_node_search, clm_slmp_perform_set_ipaddr_request, clm_slmp_periodic,
    clm_slmp_check_timeouts. repeat match goal with |- _ /\ _ => split end; leaves.
Qed.
End SlmpLeaves.

Abbreviation leaves_cyclic := (leaves cyclic_of slmp_outputs_only).
