(* ===== verification/MasterCalls.v ===== *)
(** * The requests of a call of the master

    At the start of every call of the periodic function the arbitration
    timer and the timers of the groups are evaluated.  A group then sends
    one request, if its time has come, or nothing; and once it has sent one,
    the rest of the call leaves the group as it is. *)

From Stdlib Require Import String.
From S2P Require Import Prelude Packed Signals Timer Limiter Util Types Iefb IefbFacts IefbRoundtrip.
From S2P Require Import File FileFacts Slmp SlmpFacts Master MasterIefb MasterConfig MasterSlmp.
From S2P Require Import MasterInv MasterFrame MasterDevice MasterGroup MasterScan MasterFsm.
From S2P Require Import MasterEvents MasterControl MasterSafety MasterResponse MasterSettings.
From S2P Require Import MasterOutgoing MasterInputs MasterStart MasterReach MasterProps MasterExchange MasterLeaves.

#[local] Open Scope Z_scope.

Section MasterCalls.
Context `{ClmOptions, Clal, ClalNet, Host, ClalClock, FileOptions, ClalFileOk}.
Context (clock_ok : forall now, is_u64 (clal_get_unix_timestamp_ms now)).
Context (cfg : clm_cfg) (cfg_ok : clm_config_ok cfg).

(** ** Definitions *)

(** A link scan whose time for the responses has not passed. *)
Definition scanning (now : Z) (gd : clm_group_data) : Prop :=
  g_group_state gd = CLM_GROUP_STATE_MASTER_LINK_SCAN /\
  cl_timer_is_expired (g_response_wait_timer gd) now = false.

(** Only timers of the group were stopped, after their time. *)
Definition evaluated (now : Z) (t t' : cl_timer) : Prop :=
  t' = t \/ cl_timer_is_expired t now = true /\ t' = cl_timer_stop t.
Definition quiet (now : Z) (gd gd' : clm_group_data) : Prop :=
  exists wait constant,
    gd' = gd <| g_response_wait_timer := wait |> <| g_constant_linkscan_timer := constant |> /\
    evaluated now (g_response_wait_timer gd) wait /\
    evaluated now (g_constant_linkscan_timer gd) constant.

(** The time of the group has come: to give up waiting for the responses of
    the scan, or to start the next one. *)
Definition due (now : Z) (gd : clm_group_data) : Prop :=
  g_group_state gd = CLM_GROUP_STATE_MASTER_LINK_SCAN /\
    cl_timer_is_expired (g_response_wait_timer gd) now = true \/
  g_group_state gd = CLM_GROUP_STATE_MASTER_LINK_SCAN_COMP /\
    cl_timer_is_expired (g_constant_linkscan_timer gd) now = true.

(** The devices that had answered are asked again. *)
Definition asks_again (g now info : Z) (gd gd' : clm_group_data) (o : list clm_output) : Prop :=
  forall d, has_device cfg g d -> answered gd d -> asks_now cfg g now info gd gd' d o.

(** How far the evaluation of the timers has come: a group is as before the
    call, or it has just started a scan; and every frame is the request of
    such a group. *)
Record stage (m : clm) (now : Z) (m' : clm) (o : list clm_output) : Prop := {
  st_inv : master_inv cfg m';
  st_info : m_master_local_unit_info m' = m_master_local_unit_info m;
  st_groups : forall g, has_group cfg g ->
    quiet now (group_at m g) (group_at m' g) \/
    ~ scanning now (group_at m g) /\ scanning now (group_at m' g) /\
    asks_again g now (m_master_local_unit_info m) (group_at m g) (group_at m' g) o;
  st_frames : forall socket ip port frame, ClmCciefbSendto socket ip port frame ∈ o ->
    exists g, has_group cfg g /\ ~ scanning now (group_at m g) /\
      request_of cfg g now (m_master_local_unit_info m) (group_at m g) (group_at m' g) frame
}.

(** ** Lemmas: groups that rest *)

Lemma evaluated_kept now t t' : evaluated now t t' -> cl_timer_is_expired t now = false -> t' = t.
Proof. intros [->|[He _]] Hn; [reflexivity|congruence]. Qed.

Lemma evaluated_trans now t t1 t2 : evaluated now t t1 -> evaluated now t1 t2 -> evaluated now t t2.
Proof.
  intros [->|[He ->]] Ht2; [exact Ht2|]. right. split; [exact He|].
  destruct Ht2 as [->|[Hx _]]; [reflexivity|discriminate Hx].
Qed.

Lemma rests_refl now gd : quiet now gd gd.
Proof.
  exists (g_response_wait_timer gd), (g_constant_linkscan_timer gd). destruct gd.
  split; [reflexivity|]. split; left; reflexivity.
Qed.

Lemma rests_trans now gd gd1 gd2 : quiet now gd gd1 -> quiet now gd1 gd2 -> quiet now gd gd2.
Proof.
  intros (w1 & c1 & -> & Hw1 & Hc1) (w2 & c2 & -> & Hw2 & Hc2). exists w2, c2. split; [reflexivity|].
  split; eapply evaluated_trans; eassumption.
Qed.

Lemma quiet_scanning now gd gd' : quiet now gd gd' -> scanning now gd -> scanning now gd'.
Proof.
  intros (w & c & -> & Hw & _) [Hs He]. split; [exact Hs|]. cbn [g_response_wait_timer update].
  rewrite (evaluated_kept _ _ _ Hw He). exact He.
Qed.

Lemma quiet_stop_wait now gd : cl_timer_is_expired (g_response_wait_timer gd) now = true ->
  quiet now gd (stop_wait gd).
Proof.
  intros He. exists (cl_timer_stop (g_response_wait_timer gd)), (g_constant_linkscan_timer gd).
  split; [destruct gd; reflexivity|]. split; [right; auto|left; reflexivity].
Qed.

Lemma quiet_stop_constant now gd : cl_timer_is_expired (g_constant_linkscan_timer gd) now = true ->
  quiet now gd (stop_constant gd).
Proof.
  intros He. exists (g_response_wait_timer gd), (cl_timer_stop (g_constant_linkscan_timer gd)).
  split; [destruct gd; reflexivity|]. split; [left; reflexivity|right; auto].
Qed.

(** A group that is in time afterwards was so before, or it scans. *)
Lemma quiet_not_due g now gd gd' : group_control cfg g gd' -> ~ due now gd' -> quiet now gd gd' ->
  ~ due now gd.
Proof.
  intros Hc Hno (w & c & -> & Hw & Hk) [[Hs He]|[Hs He]]; unfold group_control in Hc;
    cbn [g_group_state g_response_wait_timer g_constant_linkscan_timer update] in Hc; rewrite Hs in Hc.
  - destruct Hw as [->|[_ ->]]; [|destruct Hc as ([Hx _] & _); discriminate Hx].
    apply Hno. left. auto.
  - destruct Hk as [->|[_ ->]]; [|destruct Hc as (_ & _ & _ & Hx & _); discriminate Hx].
    apply Hno. right. auto.
Qed.

Lemma request_quiet_before g now info gd gd1 gd' frame : quiet now gd gd1 ->
  request_of cfg g now info gd1 gd' frame -> request_of cfg g now info gd gd' frame.
Proof. intros (w & c & -> & _) []. split; assumption. Qed.

Lemma request_scanning g now info gd gd' frame : has_group cfg g ->
  request_of cfg g now info gd gd' frame -> scanning now gd'.
Proof.
  intros Hg []. split; [assumption|]. rewrite qo_wait. apply (started_not_expired cfg cfg_ok), Hg.
Qed.

Lemma request_quiet_after g now info gd gd' gd2 frame : has_group cfg g -> quiet now gd' gd2 ->
  request_of cfg g now info gd gd' frame -> request_of cfg g now info gd gd2 frame.
Proof.
  intros Hg (w & c & -> & Hw & _) Hr. destruct (request_scanning _ _ _ _ _ _ Hg Hr) as [_ He].
  apply evaluated_kept in Hw; [|exact He]. destruct Hr as [[] ]. split; try assumption.
  - split; assumption.
  - cbn [g_response_wait_timer update]. rewrite Hw. exact qo_wait.
Qed.

Lemma quiet_answered now gd gd' d : quiet now gd gd' -> answered gd d -> answered gd' d.
Proof. intros (w & c & -> & _) Ha. exact Ha. Qed.

Lemma asks_quiet_before g now info gd gd1 gd' o : quiet now gd gd1 ->
  asks_again g now info gd1 gd' o -> asks_again g now info gd gd' o.
Proof.
  intros Hq Ha d Hd Han.
  destruct (Ha d Hd (quiet_answered _ _ _ _ Hq Han)) as (Has & s & ip & p & frame & Hin & Hr).
  split; [exact Has|]. exists s, ip, p, frame. split; [exact Hin|].
  exact (request_quiet_before _ _ _ _ _ _ _ Hq Hr).
Qed.

Lemma asks_quiet_after g now info gd gd' gd2 o : has_group cfg g -> quiet now gd' gd2 ->
  asks_again g now info gd gd' o -> asks_again g now info gd gd2 o.
Proof.
  intros Hg Hq Ha d Hd Han. destruct (Ha d Hd Han) as (Has & s & ip & p & frame & Hin & Hr).
  split; [|exists s, ip, p, frame; split; [exact Hin|exact (request_quiet_after _ _ _ _ _ _ _ Hg Hq Hr)]].
  destruct Hq as (w & c & -> & _). exact Has.
Qed.

Lemma asks_incl g now info gd gd' o o' : o ⊆ o' ->
  asks_again g now info gd gd' o -> asks_again g now info gd gd' o'.
Proof.
  intros Hincl Ha d Hd Han. destruct (Ha d Hd Han) as (Has & s & ip & p & frame & Hin & Hr).
  split; [exact Has|]. exists s, ip, p, frame. auto.
Qed.

(** ** Lemmas: stages *)

Lemma stage_refl m now : master_inv cfg m -> stage m now m [].
Proof.
  intros Hm. split; [exact Hm|reflexivity| |].
  - intros g _. left. apply rests_refl.
  - intros ? ? ? ? Hin. apply elem_of_nil in Hin. destruct Hin.
Qed.

(** What an event does to the group: nothing, or it lets it scan. *)
Definition rests_or_scans (g now info : Z) (gd gd' : clm_group_data) (o : list clm_output) : Prop :=
  (quiet now gd gd' /\ Forall no_frame o) \/
  (~ scanning now gd /\ scanning now gd' /\ asks_again g now info gd gd' o /\
   forall socket ip port frame, ClmCciefbSendto socket ip port frame ∈ o ->
     request_of cfg g now info gd gd' frame).

Lemma stage_group m now m1 o i e' gd' o' : has_group cfg i -> stage m now m1 o ->
  let m2 := put_group i gd' (with_env e' m1) in master_inv cfg m2 ->
  rests_or_scans i now (m_master_local_unit_info m) (group_at m1 i) gd' o' ->
  stage m now m2 (o ++ o').
Proof.
  intros Hi [Hm1 Hinfo Hgroups Hframes] m2 Hm2 Hcase.
  pose proof (groups_length cfg cfg_ok m1 i (proj1 Hm1) Hi) as Hlen.
  assert (Hat : group_at m2 i = gd') by (apply group_at_put; exact Hlen).
  assert (Hother : forall g, has_group cfg g -> g <> i -> group_at m2 g = group_at m1 g).
  { intros g Hg Hne. unfold m2. rewrite group_at_put_other by (unfold has_group in *; lia). reflexivity. }
  assert (Hstart : ~ scanning now (group_at m1 i) -> quiet now (group_at m i) (group_at m1 i)).
  { intros Hno. destruct (Hgroups i Hi) as [Hq|(_ & Hs & _)]; [exact Hq|destruct (Hno Hs)]. }
  split; [exact Hm2|exact Hinfo| |].
  - intros g Hg. destruct (Z.eq_dec g i) as [->|Hne].
    2: { rewrite (Hother g Hg Hne). destruct (Hgroups g Hg) as [Hq|(Hn & Hs & Ha)]; [left; exact Hq|right].
         split; [exact Hn|]. split; [exact Hs|]. apply (asks_incl _ _ _ _ _ o); [|exact Ha].
         intros x Hx. apply elem_of_app. auto. }
    rewrite Hat. destruct Hcase as [[Hq _]|(Hno & Hs & Ha & _)].
    + destruct (Hgroups i Hi) as [Hq1|(Hn & Hs1 & Ha1)].
      * left. exact (rests_trans _ _ _ _ Hq1 Hq).
      * right. split; [exact Hn|]. split; [exact (quiet_scanning _ _ _ Hq Hs1)|].
        apply (asks_incl _ _ _ _ _ o); [intros x Hx; apply elem_of_app; auto|].
        exact (asks_quiet_after _ _ _ _ _ _ _ Hi Hq Ha1).
    + right. pose proof (Hstart Hno) as Hq0. split; [|split; [exact Hs|]].
      * intros Hs0. apply Hno. exact (quiet_scanning _ _ _ Hq0 Hs0).
      * apply (asks_incl _ _ _ _ _ o'); [intros x Hx; apply elem_of_app; auto|].
        exact (asks_quiet_before _ _ _ _ _ _ _ Hq0 Ha).
  - intros socket ip port frame [Hin|Hin]%elem_of_app.
    + destruct (Hframes _ _ _ _ Hin) as (g & Hg & Hn & Hr). exists g. split; [exact Hg|].
      split; [exact Hn|]. destruct (Z.eq_dec g i) as [->|Hne]; [|rewrite (Hother g Hg Hne); exact Hr].
      rewrite Hat. destruct Hcase as [[Hq _]|(Hno & _)].
      * exact (request_quiet_after _ _ _ _ _ _ _ Hg Hq Hr).
      * destruct (Hno (request_scanning _ _ _ _ _ _ Hg Hr)).
    + destruct Hcase as [[_ Hnf]|(Hno & _ & _ & Hr)].
      * rewrite Forall_forall in Hnf. apply list_elem_of_In in Hin. destruct (Hnf _ Hin).
      * exists i. split; [exact Hi|]. specialize (Hstart Hno). split.
        -- intros Hs0. exact (Hno (quiet_scanning _ _ _ Hstart Hs0)).
        -- rewrite Hat. exact (request_quiet_before _ _ _ _ _ _ _ Hstart (Hr _ _ _ _ Hin)).
Qed.

(** ** Lemmas: the timers *)

(** The events of the timers. *)
Definition timer_event (event : clm_group_event) : Prop :=
  event = CLM_GROUP_EVENT_ARBITRATION_DONE \/ event = CLM_GROUP_EVENT_LINKSCAN_TIMEOUT \/
  event = CLM_GROUP_EVENT_LINKSCAN_START.

Lemma scan_sent_scanning g m now gd gd' o : has_group cfg g ->
  scan_sent cfg g m now (gd <| g_group_state := CLM_GROUP_STATE_MASTER_LINK_SCAN |>) gd' o ->
  scanning now gd'.
Proof.
  intros Hg Hs. split; [rewrite (sc_state _ _ _ _ _ _ _ Hs); reflexivity|].
  rewrite (sc_wait _ _ _ _ _ _ _ Hs). apply (started_not_expired cfg cfg_ok), Hg.
Qed.

Lemma scan_sent_frame g m now gd gd' o0 o o1 : scan_sent cfg g m now gd gd' o -> o1 = o0 ++ o ->
  exists socket ip port frame, ClmCciefbSendto socket ip port frame ∈ o1.
Proof.
  intros Hs ->. destruct (sc_frame _ _ _ _ _ _ _ Hs) as (frame & _ & ->).
  do 4 eexists. rewrite !elem_of_app, list_elem_of_singleton. right. right. reflexivity.
Qed.

Lemma step_rests_or_scans g m now event e gd0 gd e' gd' o : has_group cfg g -> timer_event event ->
  group_base cfg g gd -> group_pre cfg g event gd -> quiet now gd0 gd ->
  (event = CLM_GROUP_EVENT_LINKSCAN_TIMEOUT -> ~ scanning now gd0) ->
  group_step cfg g m now event e gd e' gd' o ->
  rests_or_scans g now (m_master_local_unit_info m) gd0 gd' o.
Proof.
  intros Hg Hev Hb Hpre Hq Hexp Hstep.
  assert (Hr : forall socket ip port frame, ClmCciefbSendto socket ip port frame ∈ o ->
    request_of cfg g now (m_master_local_unit_info m) gd0 gd' frame).
  { intros socket ip port frame Hin. apply (request_quiet_before _ _ _ _ _ _ _ Hq).
    apply (event_request cfg m g now event _ _ _ _ _ _ _ _ _ Hb Hpre Hstep Hin). }
  assert (Hag : (exists socket ip port frame, ClmCciefbSendto socket ip port frame ∈ o) ->
    asks_again g now (m_master_local_unit_info m) gd0 gd' o).
  { intros (s & ip & p & frame & Hin). apply (asks_quiet_before g now _ gd0 gd gd' o Hq). intros d Hd Ha.
    assert (Hne : event <> CLM_GROUP_EVENT_MASTERDUPL_ALARM) by (destruct Hev as [->|[->| ->]]; discriminate).
    destruct (event_asks cfg g d Hd m now event _ _ _ _ _ Hb Hpre Hne Hstep Ha) as [[_ Ho]|Ha']; [|exact Ha'].
    destruct (no_frame_in _ _ _ _ _ Ho Hin). }
  assert (Hstate : g_group_state gd = g_group_state gd0) by (destruct Hq as (w & c & -> & _); reflexivity).
  assert (Hno : g_group_state gd <> CLM_GROUP_STATE_MASTER_LINK_SCAN -> ~ scanning now gd0)
    by (intros Hne [Hs _]; rewrite Hstate in Hne; exact (Hne Hs)).
  clear Hb Hpre Hstate.
  destruct Hstep as [e gd gd' o Hst Hs|e gd gd' Hst Ha r|e gd gd' Hst Ha|e gd gd' o Hst Hs
    |e gd gd1 gd' o Hst He Hs|e gd gd' Hst _ He|e gd gd1 gd' o Hst _ He Hs|event e gd Hi];
    try (destruct Hev as [Hx|[Hx|Hx]]; discriminate Hx).
  - right. split; [apply Hno; rewrite Hst; discriminate|]. split; [exact (scan_sent_scanning _ _ _ _ _ _ Hg Hs)|].
    split; [apply Hag, (scan_sent_frame _ _ _ _ _ _ _ _ Hs eq_refl)|exact Hr].
  - right. split; [apply Hno; rewrite Hst; discriminate|]. split; [exact (scan_sent_scanning _ _ _ _ _ _ Hg Hs)|].
    split; [apply Hag, (scan_sent_frame _ _ _ _ _ _ _ _ Hs (eq_refl : _ = [] ++ _))|exact Hr].
  - right. split; [apply Hexp; reflexivity|]. split; [exact (scan_sent_scanning _ _ _ _ _ _ Hg Hs)|].
    split; [apply Hag, (scan_sent_frame _ _ _ _ _ _ _ _ Hs (app_assoc _ _ _))|exact Hr].
  - left. split; [exact Hq|constructor].
Qed.

Lemma timer_stage expired stop event m now m1 m2 o o' g : has_group cfg g -> timer_event event ->
  stage m now m1 o -> master_inv cfg m2 ->
  (expired = true -> quiet now (group_at m1 g) (stop (group_at m1 g)) /\
     (event = CLM_GROUP_EVENT_LINKSCAN_TIMEOUT -> ~ scanning now (group_at m1 g))) ->
  timer_fires cfg expired stop event g now m1 m2 o' -> stage m now m2 (o ++ o').
Proof.
  intros Hg Hev Hst Hm2 Hexp. unfold timer_fires. destruct expired.
  - intros (e' & gd' & Hb & Hpre & -> & Hstep). destruct (Hexp eq_refl) as [Hq Hno].
    apply (stage_group m now m1); [exact Hg|exact Hst|exact Hm2|].
    rewrite <- (st_info _ _ _ _ Hst). eapply step_rests_or_scans; eassumption.
  - intros [-> ->]. rewrite app_nil_r. exact Hst.
Qed.

(** Other groups stay as they are. *)
Lemma fires_other expired stop event g now m m' o i : has_group cfg g -> has_group cfg i -> i <> g ->
  timer_fires cfg expired stop event g now m m' o -> group_at m' i = group_at m i.
Proof.
  intros Hg Hi Hne. unfold timer_fires. destruct expired; [|intros [-> _]; reflexivity].
  intros (e' & gd' & _ & _ & -> & _). rewrite group_at_put_other by (unfold has_group in *; lia). reflexivity.
Qed.

(** After both timers were evaluated the group is in time. *)
Lemma constant_not_due g now m m' o : has_group cfg g -> master_inv cfg m ->
  cl_timer_is_expired (g_response_wait_timer (group_at m g)) now = false ->
  timer_fires cfg (cl_timer_is_expired (g_constant_linkscan_timer (group_at m g)) now) stop_constant
    CLM_GROUP_EVENT_LINKSCAN_START g now m m' o -> ~ due now (group_at m' g).
Proof.
  intros Hg Hm Hwait Hf. unfold timer_fires in Hf.
  destruct (cl_timer_is_expired (g_constant_linkscan_timer _) now) eqn:Hk.
  2: { destruct Hf as [-> _]. intros [[_ He]|[_ He]]; congruence. }
  destruct Hf as (e' & gd' & _ & _ & -> & Hstep).
  rewrite group_at_put by exact (groups_length cfg cfg_ok m g (proj1 Hm) Hg).
  inversion Hstep as [| | |? ? ? ? _ Hs| | | |? ? ? Hi]; subst.
  - destruct (scan_sent_scanning _ _ _ _ _ _ Hg Hs) as [Hst He]. intros [[_ Hx]|[Hx _]]; congruence.
  - intros [[_ Hx]|[Hx _]]; [|rewrite Hx in Hi; vm_compute in Hi; discriminate Hi].
    change (cl_timer_is_expired (g_response_wait_timer (group_at m g)) now = true) in Hx. congruence.
Qed.

Lemma monitor_stage m now m1 o : stage m now m1 o ->
  wp (clm_iefb_monitor_all_group_timers now) (fun _ m2 o' => stage m now m2 (o ++ o') /\
    forall g, has_group cfg g -> ~ due now (group_at m2 g)) m1.
Proof.
  intros Hst. unfold clm_iefb_monitor_all_group_timers. wp_steps.
  rewrite (config_groups_eq cfg m1 (st_inv _ _ _ _ Hst)). pose proof (cok_groups _ cfg_ok) as [Hn _].
  eapply wp_mono; [apply (wp_for_groups _ _ (fun i m2 o' => stage m now m2 (o ++ o') /\
    forall g, 0 <= g < i -> ~ due now (group_at m2 g)));
    [lia|split; [rewrite app_nil_r; exact Hst|lia]|]|intros [] m2 o2 H2'; exact H2'].
  clear m1 Hst. intros g m1 o1 Hg [Hst Hdue]. pose proof (st_inv _ _ _ _ Hst) as Hm1.
  apply wp_bind. unfold get_group at 1. wp_steps.
  eapply wp_mono; [apply (wait_timer_inv clock_ok cfg cfg_ok g now m1 Hg Hm1)|].
  intros [] m2 o2 ([Hm2 _] & Hwait & Hf2). cbn [app].
  assert (Hst2 : stage m now m2 ((o ++ o1) ++ o2)).
  { eapply timer_stage; [exact Hg|right; left; reflexivity|exact Hst|exact Hm2| |exact Hf2].
    intros He. split; [apply quiet_stop_wait, He|]. intros _ [_ Hx]. congruence. }
  apply wp_bind. unfold get_group at 1. wp_steps.
  eapply wp_mono; [apply (constant_timer_inv clock_ok cfg cfg_ok g now m2 Hg Hm2 Hwait)|].
  intros [] m3 o3 ([Hm3 _] & Hf3). cbn [app]. split.
  - replace (o ++ o1 ++ o2 ++ o3) with (((o ++ o1) ++ o2) ++ o3) by (rewrite <- !app_assoc; reflexivity).
    eapply timer_stage; [exact Hg|right; right; reflexivity|exact Hst2|exact Hm3| |exact Hf3].
    intros He. split; [apply quiet_stop_constant, He|discriminate].
  - intros i Hi. destruct (Z.eq_dec i g) as [->|Hne].
    + exact (constant_not_due g now m2 m3 o3 Hg Hm2 Hwait Hf3).
    + assert (Hgi : has_group cfg i) by (unfold has_group in *; lia).
      rewrite (fires_other _ _ _ _ _ _ _ _ i Hg Hgi Hne Hf3), (fires_other _ _ _ _ _ _ _ _ i Hg Hgi Hne Hf2).
      apply Hdue. lia.
Qed.

Lemma arbitration_stage_all m now m1 o : stage m now m1 o ->
  wp (clm_iefb_group_fsm_event_all now CLM_GROUP_EVENT_ARBITRATION_DONE)
    (fun _ m2 o' => stage m now m2 (o ++ o')) m1.
Proof.
  intros Hst. unfold clm_iefb_group_fsm_event_all. wp_steps.
  rewrite (config_groups_eq cfg m1 (st_inv _ _ _ _ Hst)). pose proof (cok_groups _ cfg_ok) as [Hn _].
  apply (wp_for_groups _ _ (fun i m2 o' => stage m now m2 (o ++ o'))); [lia|rewrite app_nil_r; exact Hst|].
  clear m1 Hst. intros g m1 o1 Hg Hst. pose proof (st_inv _ _ _ _ Hst) as Hm1.
  destruct (proj2 Hm1 g Hg) as [Hb Hc].
  assert (Hev : plain_event CLM_GROUP_EVENT_ARBITRATION_DONE) by (left; reflexivity).
  pose proof (keeps_group_event clock_ok cfg cfg_ok g now _ Hg Hev m1 Hm1) as Hk.
  pose proof (group_event_wp clock_ok cfg cfg_ok m1 g now CLM_GROUP_EVENT_ARBITRATION_DONE Hg
    (proj1 Hm1) Hb (group_control_started cfg g _ Hc) I) as Hw. unfold wp in *.
  destruct (clm_iefb_group_fsm_event g now _ m1) as [[[a m2] o2]|]; [|exact Hk].
  destruct Hw as (e' & gd' & -> & Hstep). rewrite app_assoc.
  apply (stage_group m now m1); [exact Hg|exact Hst|apply Hk|]. rewrite <- (st_info _ _ _ _ Hst).
  eapply step_rests_or_scans; [exact Hg|left; reflexivity|exact Hb|exact Hc|apply rests_refl|discriminate|exact Hstep].
Qed.

(** A change that touches neither the groups nor the unit information. *)
Lemma stage_outside m now m1 m2 o : stage m now m1 o -> master_inv cfg m2 ->
  m_groups m2 = m_groups m1 -> m_master_local_unit_info m2 = m_master_local_unit_info m1 ->
  stage m now m2 o.
Proof.
  intros [Hm1 Hinfo Hgroups Hframes] Hm2 Hg Hi.
  assert (Hat : forall g, group_at m2 g = group_at m1 g) by (intros g; unfold group_at; rewrite Hg; reflexivity).
  split; [exact Hm2|congruence| |].
  - intros g Hgg. rewrite Hat. apply Hgroups, Hgg.
  - intros socket ip port frame Hin. destruct (Hframes _ _ _ _ Hin) as (g & Hgg & Hn & Hr).
    exists g. rewrite Hat. auto.
Qed.

(** ** Lemmas: calls *)

(** The part of the periodic function that follows the timers. *)
Definition receive_part (arbitration : option datagram) (queue : list datagram) (now : Z)
  : clm_prog unit :=
  clm ← get;
  when (mc_use_separate_arbitration_socket (m_config clm))
    (match arbitration with Some dg => handle_datagram now dg | None => mret tt end);;
  receive_loop now queue.

Lemma periodic_stages arbitration queue now m m1 o Q : stage m now m1 o ->
  (forall m2 o', stage m now m2 (o ++ o') -> (forall g, has_group cfg g -> ~ due now (group_at m2 g)) ->
     wp (receive_part arbitration queue now) (fun a m3 o3 => Q a m3 (o' ++ o3)) m2) ->
  wp (clm_iefb_periodic arbitration queue now) Q m1.
Proof.
  intros Hst HQ. pose proof (st_inv _ _ _ _ Hst) as Hm1. unfold clm_iefb_periodic.
  apply wp_bind, wp_modify. cbn [app]. set (m2 := m1 <| m_errorlimiter ::= _ |>).
  assert (Hst2 : stage m now m2 o).
  { apply (stage_outside m now m1); [exact Hst| |reflexivity|reflexivity].
    destruct Hm1 as [[] Hg]. split; [split; assumption|exact Hg]. }
  clearbody m2. apply wp_bind, wp_get. cbn [app]. apply wp_bind.
  eapply wp_mono with (Q := fun _ m3 o3 => stage m now m3 (o ++ o3)).
  { apply wp_when; intros _; [|rewrite app_nil_r; exact Hst2]. apply wp_bind, wp_modify. cbn [app].
    apply arbitration_stage_all. apply (stage_outside m now m2); [exact Hst2| |reflexivity|reflexivity].
    destruct (st_inv _ _ _ _ Hst2) as [[] Hg]. split; [split; assumption|exact Hg]. }
  intros [] m3 o3 Hst3. apply wp_bind. eapply wp_mono; [apply (monitor_stage m now m3 _ Hst3)|].
  intros [] m4 o4 [Hst4 Hdue]. rewrite <- app_assoc in Hst4. specialize (HQ m4 (o3 ++ o4) Hst4 Hdue).
  eapply wp_mono; [exact HQ|]. intros a m5 o5 HQ'. cbn beta in HQ'. rewrite <- app_assoc in HQ'. exact HQ'.
Qed.

(** SLMP comes first, and leaves the groups alone. *)
Lemma slmp_stage sq now m : master_inv cfg m ->
  wp (clm_slmp_periodic sq now) (fun _ m1 o => stage m now m1 [] /\ none_of cyclic_output o) m.
Proof.
  intros Hm. pose proof (keeps_slmp_periodic cfg sq now m Hm) as Hk.
  destruct (slmp_leaves_cyclic now [] 0 0 sq) as (_ & _ & Hl). specialize (Hl m). unfold wp in *.
  destruct (clm_slmp_periodic sq now m) as [[[a m1] o]|]; [|exact Hk]. destruct Hl as [Hv [Ho _]].
  split; [|exact Ho]. apply (stage_outside m now m); [apply stage_refl, Hm|apply Hk| |].
  - exact (f_equal (fun v => v.1.1.2) Hv).
  - exact (f_equal (fun v => v.1.2.2) Hv).
Qed.

Lemma no_request o socket ip port frame : none_of cyclic_output o -> ClmCciefbSendto socket ip port frame ∉ o.
Proof.
  intros Ho Hin%list_elem_of_In. assert (Hf : List.In (ClmCciefbSendto socket ip port frame)
    (List.filter cyclic_output o)) by (apply List.filter_In; auto). rewrite Ho in Hf. destruct Hf.
Qed.

Lemma stage_prefix m now m1 o1 o : none_of cyclic_output o1 -> stage m now m1 o -> stage m now m1 (o1 ++ o).
Proof.
  intros Ho1 [Hm1 Hi Hg Hf]. split; [exact Hm1|exact Hi| |].
  - intros g Hgg. destruct (Hg g Hgg) as [Hq|(Hn & Hs & Ha)]; [left; exact Hq|right].
    split; [exact Hn|]. split; [exact Hs|]. apply (asks_incl _ _ _ _ _ o); [|exact Ha].
    intros x Hx. apply elem_of_app. auto.
  - intros socket ip port frame [Hin|Hin]%elem_of_app; [destruct (no_request _ _ _ _ _ Ho1 Hin)|eauto].
Qed.

(** A call without datagrams. *)
Lemma silent_call_stage sq now m : master_inv cfg m ->
  wp (run_call (MasterPeriodic sq None []) now) (fun _ m1 o => stage m now m1 o /\
    forall g, has_group cfg g -> ~ due now (group_at m1 g)) m.
Proof.
  intros Hm. apply wp_bind. eapply wp_mono; [apply (slmp_stage sq now m Hm)|].
  intros [] m1 o1 [Hst1 Ho1]. apply (periodic_stages None [] now m m1 []); [exact Hst1|].
  cbn [app]. intros m2 o2 Hst2 Hdue. unfold receive_part. apply wp_bind, wp_get. apply wp_bind.
  assert (Hend : stage m now m2 (o1 ++ o2 ++ [])).
  { rewrite app_nil_r. apply stage_prefix; assumption. }
  apply wp_when; intros _; [apply wp_ret|]; cbn [receive_loop]; apply wp_ret; exact (conj Hend Hdue).
Qed.

(** A call with one datagram: it is handled when the timers have been
    evaluated. *)
Lemma datagram_call_stage sq dg now m (Q : clm -> list clm_output -> Prop) : master_inv cfg m ->
  (forall m2 o, stage m now m2 o -> wp (handle_datagram now dg) (fun _ m3 o3 => Q m3 (o ++ o3)) m2) ->
  wp (run_call (MasterPeriodic sq None [dg]) now) (fun _ m3 o => Q m3 o) m.
Proof.
  intros Hm HQ. apply wp_bind. eapply wp_mono; [apply (slmp_stage sq now m Hm)|].
  intros [] m1 o1 [Hst1 Ho1]. apply (periodic_stages None [dg] now m m1 []); [exact Hst1|].
  intros m2 o2 Hst2 _. cbn [app] in Hst2. unfold receive_part. apply wp_bind, wp_get. apply wp_bind.
  assert (Hrec : wp (receive_loop now [dg]) (fun _ m3 o3 => Q m3 (o1 ++ o2 ++ o3)) m2).
  { cbn [receive_loop]. apply wp_bind. eapply wp_mono; [exact (HQ m2 _ (stage_prefix _ _ _ _ _ Ho1 Hst2))|].
    intros [] m3 o3 HQ3. rewrite <- app_assoc in HQ3.
    destruct (0 <? _); apply wp_ret; rewrite app_nil_r; exact HQ3. }
  apply wp_when; intros _; [apply wp_ret|]; exact Hrec.
Qed.

End MasterCalls.
