(* ===== verification/MasterModes.v ===== *)
(** * The modes of the master

    Over all of its groups and events a master is a machine with three
    modes: it waits for other masters (ARBITRATION), it scans (RUNNING), or
    it has given way (STANDBY).  Every call of every reachable instance is a
    run of this machine, and what the call emits is what the machine permits:
    cyclic requests are sent by a running master only, and a master that has
    given way never sends one again. *)

From Stdlib Require Import String.
From S2P Require Import Prelude Packed Signals Timer Limiter Util Types Iefb IefbFacts IefbRoundtrip.
From S2P Require Import File FileFacts Slmp SlmpFacts Master MasterIefb MasterConfig MasterSlmp.
From S2P Require Import MasterConfigSpec MasterInv MasterFrame MasterDevice MasterGroup MasterScan.
From S2P Require Import MasterFsm MasterEvents MasterControl MasterSafety MasterResponse.
From S2P Require Import MasterSettings MasterStart MasterReach MasterProps MasterLeaves.

#[local] Open Scope Z_scope.

(** ** The machine *)

(** The changes of the mode: nobody else is there, another master is heard
    during the arbitration, a slave reports that it has another master. *)
Inductive mode_change : clm_master_state -> clm_master_state -> Prop :=
| arbitration_won : mode_change CLM_MASTER_STATE_ARBITRATION CLM_MASTER_STATE_RUNNING
| arbitration_lost : mode_change CLM_MASTER_STATE_ARBITRATION CLM_MASTER_STATE_STANDBY
| master_duplicated : mode_change CLM_MASTER_STATE_RUNNING CLM_MASTER_STATE_STANDBY.

(** What a master may emit in a mode; the callback for a new mode belongs to
    the change. *)
Definition permitted (mode : clm_master_state) (x : clm_output) : bool :=
  match x with
  | ClmCciefbSendto _ _ _ _ | ClmConnectCb _ _ _ | ClmDisconnectCb _ _ _ | ClmLinkscanCb _ _ =>
      bool_decide (mode = CLM_MASTER_STATE_RUNNING)
  | ClmStateCb _ => false
  | _ => true
  end.

(** The runs of the machine, with what is emitted. *)
Inductive mode_run (cfg : clm_cfg)
  : clm_master_state -> list clm_output -> clm_master_state -> Prop :=
| run_stay mode : mode_run cfg mode [] mode
| run_output mode x o mode' :
    permitted mode x = true -> mode_run cfg mode o mode' -> mode_run cfg mode (x :: o) mode'
| run_change mode next o mode' :
    mode_change mode next -> mode_run cfg next o mode' ->
    mode_run cfg mode (state_callback cfg mode next ++ o) mode'.

(** The mode that a state of a group belongs to, and the mode after an event
    of the groups. *)
Definition group_mode (st : clm_group_state) : clm_master_state :=
  match st with
  | CLM_GROUP_STATE_MASTER_LISTEN => CLM_MASTER_STATE_STANDBY
  | CLM_GROUP_STATE_MASTER_ARBITRATION => CLM_MASTER_STATE_ARBITRATION
  | CLM_GROUP_STATE_MASTER_LINK_SCAN_COMP | CLM_GROUP_STATE_MASTER_LINK_SCAN =>
      CLM_MASTER_STATE_RUNNING
  | _ => CLM_MASTER_STATE_DOWN
  end.
Definition mode_after (event : clm_group_event) (mode : clm_master_state) : clm_master_state :=
  match event, mode with
  | CLM_GROUP_EVENT_ARBITRATION_DONE, CLM_MASTER_STATE_ARBITRATION => CLM_MASTER_STATE_RUNNING
  | CLM_GROUP_EVENT_REQ_FROM_OTHER, CLM_MASTER_STATE_ARBITRATION => CLM_MASTER_STATE_STANDBY
  | CLM_GROUP_EVENT_MASTERDUPL_ALARM, CLM_MASTER_STATE_RUNNING => CLM_MASTER_STATE_STANDBY
  | _, _ => mode
  end.

(** All groups are in states of the mode that the application is told. *)
Definition in_mode (cfg : clm_cfg) (m : clm) : Prop :=
  forall g, has_group cfg g -> group_mode (g_group_state (group_at m g)) = m_master_state m.

(** What the mode is read from, and outputs that every mode permits. *)
Definition mode_of (m : clm) : clm_master_state * list clm_group_state :=
  (m_master_state m, map g_group_state (m_groups m)).
Definition mode_output (x : clm_output) : bool := negb (permitted CLM_MASTER_STATE_STANDBY x).

Abbreviation leaves_mode := (leaves mode_of (none_of mode_output)).

(** ** Lemmas: runs *)

Section Runs.
Context (cfg : clm_cfg).

Lemma run_app mode o mode1 o' mode' : mode_run cfg mode o mode1 -> mode_run cfg mode1 o' mode' ->
  mode_run cfg mode (o ++ o') mode'.
Proof.
  intros Hrun Hrun'. induction Hrun as [|mode x o mode1 Hx _ IH|mode next o mode1 Hc _ IH]; [exact Hrun'| |].
  - apply run_output; auto.
  - rewrite <- app_assoc. apply (run_change cfg mode next); auto.
Qed.

Lemma run_outputs mode o : Forall (fun x => permitted mode x = true) o -> mode_run cfg mode o mode.
Proof. induction 1; [apply run_stay|apply run_output; assumption]. Qed.

(** The callback is emitted when the mode changes, and not otherwise. *)
Lemma run_to mode next : mode = next \/ mode_change mode next ->
  mode_run cfg mode (state_callback cfg mode next) next.
Proof.
  intros [->|Hc].
  - unfold state_callback. rewrite bool_decide_eq_false_2 by tauto. apply run_stay.
  - rewrite <- (app_nil_r (state_callback cfg mode next)). apply (run_change cfg _ _ _ _ Hc), run_stay.
Qed.

Lemma run_standby o mode : mode_run cfg CLM_MASTER_STATE_STANDBY o mode ->
  mode = CLM_MASTER_STATE_STANDBY /\
  Forall (fun x => permitted CLM_MASTER_STATE_STANDBY x = true) o.
Proof.
  remember CLM_MASTER_STATE_STANDBY as start eqn:Hs.
  induction 1 as [|mode x o mode' Hx _ IH|mode next o mode' Hc _ _]; subst.
  - auto.
  - destruct IH as [-> Ho]; auto.
  - inversion Hc.
Qed.

Lemma permitted_everywhere mode x : permitted CLM_MASTER_STATE_STANDBY x = true -> permitted mode x = true.
Proof. destruct x; try discriminate; reflexivity. Qed.

Lemma quiet_run mode o : none_of mode_output o -> mode_run cfg mode o mode.
Proof.
  intros Ho. apply run_outputs, Forall_forall. intros x Hx.
  apply permitted_everywhere. destruct (permitted CLM_MASTER_STATE_STANDBY x) eqn:Hp; [reflexivity|].
  assert (Hin : List.In x (List.filter mode_output o))
    by (apply List.filter_In; unfold mode_output; rewrite Hp; auto).
  rewrite Ho in Hin. destruct Hin.
Qed.
End Runs.

(** ** Lemmas: events *)

Section Events.
Context `{ClmOptions, Clal, ClalClock}.
Context (cfg : clm_cfg) (g : Z).

Lemma scan_runs m now gd gd' o : scan_sent cfg g m now gd gd' o ->
  Forall (fun x => permitted CLM_MASTER_STATE_RUNNING x = true) o.
Proof.
  intros [(frame & _ & ->) _ _ _ _ _ _ _ _ _ _]. apply Forall_app. split; [|repeat constructor].
  apply Forall_concat, Forall_map, Forall_forall. intros d _. unfold scan_callback, connection_callback.
  repeat (case_match; try solve [repeat constructor]).
Qed.

Lemma linkscan_runs success :
  mode_run cfg CLM_MASTER_STATE_RUNNING (linkscan_callback cfg g success) CLM_MASTER_STATE_RUNNING.
Proof. apply run_outputs. unfold linkscan_callback. destruct (mc_linkscan_cb cfg); repeat constructor. Qed.

Lemma error_runs mode e now message ip : mode_run cfg mode (error_callback cfg e now message ip).2 mode.
Proof.
  apply run_outputs. unfold error_callback. destruct (cl_limiter_should_run_now _ _ _) as [run limiter].
  cbn [snd]. destruct (_ && _); repeat constructor.
Qed.

Lemma ignored_mode st event : ignored st event = true -> group_mode st <> CLM_MASTER_STATE_DOWN ->
  mode_after event (group_mode st) = group_mode st.
Proof.
  intros Hi Hst. destruct st; try (destruct Hst; reflexivity); destruct event;
    first [reflexivity|vm_compute in Hi; discriminate Hi].
Qed.

(** An event on a group, while the instance is in the mode of the group or
    already in the mode after the event. *)
Lemma group_step_mode m now event e gd e' gd' o : group_step cfg g m now event e gd e' gd' o ->
  let mode := group_mode (g_group_state gd) in
  mode <> CLM_MASTER_STATE_DOWN -> e_state e = mode \/ e_state e = mode_after event mode ->
  group_mode (g_group_state gd') = mode_after event mode /\ e_state e' = mode_after event mode /\
  mode_run cfg (e_state e) o (e_state e').
Proof.
  assert (Hsc : forall gd gd' o, scan_sent cfg g m now gd gd' o -> g_group_state gd' = g_group_state gd /\
    mode_run cfg CLM_MASTER_STATE_RUNNING o CLM_MASTER_STATE_RUNNING).
  { intros gd1 gd2 o1 Hs. split; [exact (sc_state _ _ _ _ _ _ _ Hs)|apply run_outputs, (scan_runs _ _ _ _ _ Hs)]. }
  intros Hstep mode Hdown. subst mode.
  destruct Hstep as [e gd gd' o Hst Hs|e gd gd' Hst Ha r|e gd gd' Hst Ha|e gd gd' o Hst Hs
    |e gd gd1 gd' o Hst He Hs|e gd gd' Hst _ He|e gd gd1 gd' o Hst _ He Hs|event e gd Hi].
  all: try (destruct (Hsc _ _ _ Hs) as [Hs1 Hs2]; rewrite Hs1).
  all: try rewrite (scan_ended_state cfg g _ _ _ He).
  all: try rewrite (sg_state _ _ (ac_same _ _ _ _ _ Ha)).
  all: cbn [g_group_state update].
  - rewrite Hst. intros Hm. split; [reflexivity|]. split; [reflexivity|].
    apply (run_app cfg _ _ CLM_MASTER_STATE_RUNNING); [|exact Hs2].
    apply run_to. destruct Hm as [->| ->]; [right; constructor|left; reflexivity].
  - rewrite Hst. intros Hm. split; [reflexivity|]. split; [reflexivity|].
    apply (run_app cfg _ _ (e_state e)); [apply error_runs|].
    apply run_to. destruct Hm as [->| ->]; [right; constructor|left; reflexivity].
  - intros Hm. split; [destruct Hst as [-> | ->]; reflexivity|].
    split; [destruct Hst as [-> | ->]; reflexivity|]. apply run_to.
    destruct Hst as [Hst|Hst]; rewrite Hst in Hm;
      (destruct Hm as [->| ->]; [right; constructor|left; reflexivity]).
  - rewrite Hst. intros Hm. assert (Hr : e_state e = CLM_MASTER_STATE_RUNNING) by (destruct Hm; assumption).
    rewrite Hr. auto.
  - rewrite Hst. intros Hm. assert (Hr : e_state e = CLM_MASTER_STATE_RUNNING) by (destruct Hm; assumption).
    rewrite Hr. split; [reflexivity|]. split; [reflexivity|].
    apply (run_app cfg _ _ CLM_MASTER_STATE_RUNNING); [apply linkscan_runs|].
    apply (run_app cfg _ _ CLM_MASTER_STATE_RUNNING); [apply run_to; auto|exact Hs2].
  - rewrite Hst. intros Hm. assert (Hr : e_state e = CLM_MASTER_STATE_RUNNING) by (destruct Hm; assumption).
    rewrite Hr. split; [reflexivity|]. split; [reflexivity|].
    apply (run_app cfg _ _ CLM_MASTER_STATE_RUNNING); [apply linkscan_runs|apply run_to; auto].
  - rewrite Hst. intros Hm. assert (Hr : e_state e = CLM_MASTER_STATE_RUNNING) by (destruct Hm; assumption).
    rewrite Hr. split; [reflexivity|]. split; [reflexivity|].
    apply (run_app cfg _ _ CLM_MASTER_STATE_RUNNING); [apply linkscan_runs|].
    apply (run_app cfg _ _ CLM_MASTER_STATE_RUNNING); [apply run_to; auto|exact Hs2].
  - rewrite (ignored_mode _ _ Hi Hdown). intros Hm.
    assert (Hr : e_state e = group_mode (g_group_state gd)) by (destruct Hm; assumption).
    split; [reflexivity|]. split; [exact Hr|apply run_stay].
Qed.
End Events.

(** ** Lemmas: programs *)

Section Follows.
Context `{ClmOptions, Clal, ClalClock}.
Context (clock_ok : forall now, is_u64 (clal_get_unix_timestamp_ms now)).
Context (cfg : clm_cfg) (cfg_ok : clm_config_ok cfg).

(** A program whose effect is a run of the machine. *)
Definition follows {A} (P : clm_prog A) : Prop :=
  forall m, master_inv cfg m -> in_mode cfg m ->
  wp P (fun _ m' o => master_inv cfg m' /\ in_mode cfg m' /\
    mode_run cfg (m_master_state m) o (m_master_state m')) m.

Lemma follows_ret {A} (a : A) : follows (mret a).
Proof. intros m Hm Hi. apply wp_ret. split; [exact Hm|]. split; [exact Hi|apply run_stay]. Qed.

Lemma follows_bind {A B} (P : clm_prog A) (k : A -> clm_prog B) :
  follows P -> (forall a, follows (k a)) -> follows (P ≫= k).
Proof.
  intros HP Hk m Hm Hi. apply wp_bind. eapply wp_mono; [apply (HP m Hm Hi)|].
  intros a m1 o1 (Hm1 & Hi1 & Hr1). eapply wp_mono; [apply (Hk a m1 Hm1 Hi1)|].
  intros b m2 o2 (Hm2 & Hi2 & Hr2). split; [exact Hm2|]. split; [exact Hi2|].
  exact (run_app cfg _ _ _ _ _ Hr1 Hr2).
Qed.

Lemma follows_get {B} (k : clm -> clm_prog B) :
  (forall m, master_inv cfg m -> follows (k m)) -> follows (get ≫= k).
Proof. intros Hk m Hm Hi. apply wp_bind, wp_get. apply (Hk m Hm m Hm Hi). Qed.

Lemma follows_when b P : follows P -> follows (when b P).
Proof. intros HP. destruct b; [exact HP|apply follows_ret]. Qed.

Lemma follows_for_range n body : (forall i, 0 <= i < n -> follows (body i)) -> follows (for_range n body).
Proof.
  intros Hb. unfold for_range.
  assert (Hl : Forall (fun i => 0 <= i < n) (seqZ 0 n)) by (apply Forall_seqZ; lia).
  induction Hl as [|i l Hi Hl IH]; cbn [for_each]; [apply follows_ret|]. apply follows_bind; auto.
Qed.

Lemma mode_group m m' g : mode_of m' = mode_of m -> 0 <= g < Z.of_nat (length (m_groups m)) ->
  g_group_state (group_at m' g) = g_group_state (group_at m g).
Proof.
  intros Hv Hg. apply (f_equal snd) in Hv. cbn in Hv. unfold group_at. rewrite !list_lookup_total_alt.
  pose proof (f_equal length Hv) as Hl. rewrite !length_map in Hl.
  destruct (lookup_lt_is_Some_2 (m_groups m) (Z.to_nat g)) as [gd Hgd]; [lia|].
  destruct (lookup_lt_is_Some_2 (m_groups m') (Z.to_nat g)) as [gd' Hgd']; [lia|].
  apply (f_equal (fun l => l !! Z.to_nat g)) in Hv. rewrite !list_lookup_fmap, Hgd, Hgd' in Hv.
  rewrite Hgd, Hgd'. injection Hv as Hv. exact Hv.
Qed.

Lemma same_mode m m' : master_inv cfg m -> in_mode cfg m -> mode_of m' = mode_of m -> in_mode cfg m'.
Proof.
  intros Hm Hi Hv g Hg. rewrite (mode_group m m' g Hv (groups_length cfg cfg_ok m g (proj1 Hm) Hg)).
  rewrite (Hi g Hg). symmetry. exact (f_equal fst Hv).
Qed.

(** A program that leaves the mode alone. *)
Lemma follows_leaves {A} (P : clm_prog A) : keeps cfg P -> leaves_mode P -> follows P.
Proof.
  intros HP Hl m Hm Hi. specialize (HP m Hm). specialize (Hl m). unfold wp in *.
  destruct (P m) as [[[a m'] o]|]; [|exact HP]. destruct Hl as [Hv Ho]. split; [apply HP|].
  split; [exact (same_mode m m' Hm Hi Hv)|].
  replace (m_master_state m') with (m_master_state m) by (symmetry; exact (f_equal fst Hv)).
  apply quiet_run, Ho.
Qed.

(** *** Events of the groups *)

Lemma mode_up m g : master_inv cfg m -> has_group cfg g ->
  group_mode (g_group_state (group_at m g)) <> CLM_MASTER_STATE_DOWN.
Proof.
  intros Hm Hg. destruct (proj2 Hm g Hg) as [_ Hc]. unfold group_control in Hc.
  destruct (g_group_state (group_at m g)); cbn; try discriminate; destruct Hc.
Qed.

(** An event that does not change the mode, as a step of one group. *)
Lemma step_follows g m now event gd e' gd' o : has_group cfg g -> master_inv cfg m -> in_mode cfg m ->
  g_group_state gd = g_group_state (group_at m g) ->
  (forall mode, mode_after event mode = mode) -> group_step cfg g m now event (env_of m) gd e' gd' o ->
  let m' := put_group g gd' (with_env e' m) in
  in_mode cfg m' /\ m_master_state m' = m_master_state m /\
  mode_run cfg (m_master_state m) o (m_master_state m').
Proof.
  intros Hg Hm Hi Hst Hsame Hstep m'. pose proof (Hi g Hg) as Hmode.
  destruct (group_step_mode cfg g m now event _ _ _ _ _ Hstep) as (Hg' & He' & Hrun).
  - rewrite Hst. exact (mode_up m g Hm Hg).
  - left. rewrite Hst. symmetry. exact Hmode.
  - rewrite Hsame, Hst, Hmode in Hg', He'. split; [|split; [exact He'|exact Hrun]]. intros g' Hgg.
    change (m_master_state m') with (e_state e'). rewrite He'.
    pose proof (groups_length cfg cfg_ok m g (proj1 Hm) Hg) as Hlen.
    destruct (Z.eq_dec g' g) as [->|Hne]; unfold m'.
    + rewrite group_at_put by exact Hlen. exact Hg'.
    + rewrite group_at_put_other by (unfold has_group in *; lia). exact (Hi g' Hgg).
Qed.

Lemma timer_fires_follows expired stop event g now m m' o : has_group cfg g -> master_inv cfg m ->
  in_mode cfg m -> (forall gd, g_group_state (stop gd) = g_group_state gd) ->
  (forall mode, mode_after event mode = mode) ->
  timer_fires cfg expired stop event g now m m' o ->
  in_mode cfg m' /\ m_master_state m' = m_master_state m /\ mode_run cfg (m_master_state m) o (m_master_state m').
Proof.
  intros Hg Hm Hi Hstop Hsame. unfold timer_fires. destruct expired.
  - intros (e' & gd' & _ & _ & -> & Hstep). eapply step_follows; [assumption..|apply Hstop|exact Hsame|exact Hstep].
  - intros [-> ->]. split; [exact Hi|]. split; [reflexivity|apply run_stay].
Qed.

(** A program that does not change the mode, although groups may step. *)
Definition stays {A} (P : clm_prog A) : Prop :=
  forall m, master_inv cfg m -> in_mode cfg m ->
  wp P (fun _ m' o => master_inv cfg m' /\ in_mode cfg m' /\ m_master_state m' = m_master_state m /\
    mode_run cfg (m_master_state m) o (m_master_state m')) m.

Lemma stays_bind {A B} (P : clm_prog A) (k : A -> clm_prog B) :
  stays P -> (forall a, stays (k a)) -> stays (P ≫= k).
Proof.
  intros HP Hk m Hm Hi. apply wp_bind. eapply wp_mono; [apply (HP m Hm Hi)|].
  intros a m1 o1 (Hm1 & Hi1 & Hs1 & Hr1). eapply wp_mono; [apply (Hk a m1 Hm1 Hi1)|].
  intros b m2 o2 (Hm2 & Hi2 & Hs2 & Hr2). split; [exact Hm2|]. split; [exact Hi2|].
  split; [congruence|exact (run_app cfg _ _ _ _ _ Hr1 Hr2)].
Qed.

Lemma stays_ret {A} (a : A) : stays (mret a).
Proof. intros m Hm Hi. apply wp_ret. split; [exact Hm|]. split; [exact Hi|]. split; [reflexivity|apply run_stay]. Qed.

Lemma stays_leaves {A} (P : clm_prog A) : keeps cfg P -> leaves_mode P -> stays P.
Proof.
  intros HP Hl m Hm Hi. pose proof (follows_leaves P HP Hl m Hm Hi) as Hf. specialize (Hl m).
  unfold wp in *. destruct (P m) as [[[a m'] o]|]; [|exact Hf]. destruct Hf as (Hm' & Hi' & Hr).
  split; [exact Hm'|]. split; [exact Hi'|]. split; [|exact Hr]. exact (f_equal fst (proj1 Hl)).
Qed.

Lemma stays_for_range n body : (forall i, 0 <= i < n -> stays (body i)) -> stays (for_range n body).
Proof.
  intros Hb. unfold for_range.
  assert (Hl : Forall (fun i => 0 <= i < n) (seqZ 0 n)) by (apply Forall_seqZ; lia).
  induction Hl as [|i l Hi Hl IH]; cbn [for_each]; [apply stays_ret|]. apply stays_bind; auto.
Qed.

Lemma stays_timers now : stays (clm_iefb_monitor_all_group_timers now).
Proof.
  intros m0 Hm0 Hi0. apply wp_bind, wp_get. rewrite (config_groups_eq cfg m0 Hm0).
  cbn [app]. revert m0 Hm0 Hi0.
  match goal with |- forall m, _ -> _ -> wp ?P _ m => change (stays P) end.
  apply stays_for_range. intros g Hg m Hm Hi.
  apply wp_bind. unfold get_group at 1. wp_steps.
  eapply wp_mono; [apply (wait_timer_inv clock_ok cfg cfg_ok g now m Hg Hm)|].
  intros [] m1 o1 ([Hm1 _] & Hwait & Hf1).
  destruct (timer_fires_follows _ stop_wait CLM_GROUP_EVENT_LINKSCAN_TIMEOUT g now m m1 o1 Hg Hm Hi
    (fun gd => eq_refl) (fun mode => eq_refl) Hf1) as (Hi1 & Hs1 & Hr1).
  apply wp_bind. unfold get_group at 1. wp_steps.
  eapply wp_mono; [apply (constant_timer_inv clock_ok cfg cfg_ok g now m1 Hg Hm1 Hwait)|].
  intros [] m2 o2 ([Hm2 _] & Hf2).
  destruct (timer_fires_follows _ stop_constant CLM_GROUP_EVENT_LINKSCAN_START g now m1 m2 o2 Hg Hm1 Hi1
    (fun gd => eq_refl) (fun mode => eq_refl) Hf2) as (Hi2 & Hs2 & Hr2).
  split; [exact Hm2|]. split; [exact Hi2|]. cbn [app].
  split; [congruence|exact (run_app cfg _ _ _ _ _ Hr1 Hr2)].
Qed.

Lemma follows_stays {A} (P : clm_prog A) : stays P -> follows P.
Proof.
  intros HP m Hm Hi. eapply wp_mono; [apply (HP m Hm Hi)|]. intros a m' o (Hm' & Hi' & _ & Hr). auto.
Qed.

Lemma follows_timers now : follows (clm_iefb_monitor_all_group_timers now).
Proof. apply follows_stays, stays_timers. Qed.

Lemma follows_complete g now : has_group cfg g -> follows (complete_link_scan now g).
Proof.
  intros Hg m Hm Hi. pose proof (keeps_complete clock_ok cfg cfg_ok g now Hg m Hm) as Hk.
  destruct (proj2 Hm g Hg) as [Hb Hc].
  assert (Hw : wp (complete_link_scan now g) (fun _ m' o => in_mode cfg m' /\
    mode_run cfg (m_master_state m) o (m_master_state m')) m).
  { apply wp_bind, wp_get. apply wp_when; intros _; [|split; [exact Hi|apply run_stay]].
    eapply wp_mono; [apply (group_event_wp clock_ok cfg cfg_ok m g now); [exact Hg|apply Hm|exact Hb|
      apply (group_control_started cfg g _ Hc)|exact I]|].
    intros [] m' o (e' & gd' & -> & Hstep).
    destruct (step_follows g m now CLM_GROUP_EVENT_LINKSCAN_COMPLETE _ e' gd' o Hg Hm Hi eq_refl
      (fun mode => eq_refl) Hstep) as (Hi' & _ & Hr'). auto. }
  unfold wp in *. destruct (complete_link_scan now g m) as [[[a m'] o]|]; [|exact Hw].
  split; [apply Hk|exact Hw].
Qed.

(** An event for all groups takes them to the next mode one by one. *)
Lemma follows_event_all now event : plain_event event ->
  forall m, master_inv cfg m -> in_mode cfg m ->
  wp (clm_iefb_group_fsm_event_all now event) (fun _ m' o => master_inv cfg m' /\ in_mode cfg m' /\
    m_master_state m' = mode_after event (m_master_state m) /\
    mode_run cfg (m_master_state m) o (m_master_state m')) m.
Proof.
  intros Hev m Hm Hi. unfold clm_iefb_group_fsm_event_all. wp_steps.
  rewrite (config_groups_eq cfg m Hm). pose proof (cok_groups _ cfg_ok) as [Hn _].
  set (mode := m_master_state m) in *. set (next := mode_after event mode). cbn [app].
  eapply wp_mono; [apply (wp_for_groups _ _ (fun i m' o => master_inv cfg m' /\
    (forall g, has_group cfg g ->
       group_mode (g_group_state (group_at m' g)) = if g <? i then next else mode) /\
    m_master_state m' = (if 0 <? i then next else mode) /\
    mode_run cfg mode o (m_master_state m'))); [lia| |]|].
  - split; [exact Hm|]. split; [|split; [reflexivity|apply run_stay]].
    intros g Hg. destruct (Z.ltb_spec g 0); [unfold has_group in Hg; lia|exact (Hi g Hg)].
  - intros i m1 o1 Hir (Hm1 & Hg1 & Hs1 & Hr1). assert (Hgi : has_group cfg i) by exact Hir.
    destruct (proj2 Hm1 i Hgi) as [Hb Hc].
    pose proof (keeps_group_event clock_ok cfg cfg_ok i now event Hgi Hev m1 Hm1) as Hk.
    assert (Hw : wp (clm_iefb_group_fsm_event i now event) (fun _ m' o => exists e' gd',
      m' = put_group i gd' (with_env e' m1) /\
      group_step cfg i m1 now event (env_of m1) (group_at m1 i) e' gd' o) m1).
    { apply (group_event_wp clock_ok cfg cfg_ok m1 i now event Hgi (proj1 Hm1) Hb
        (group_control_started cfg i _ Hc)). destruct Hev as [-> |[-> | ->]]; exact I. }
    unfold wp in *. destruct (clm_iefb_group_fsm_event i now event m1) as [[[a m2] o2]|]; [|exact Hk].
    destruct Hw as (e' & gd' & -> & Hstep). split; [apply Hk|].
    pose proof (Hg1 i Hgi) as Hmode. rewrite Z.ltb_irrefl in Hmode.
    destruct (group_step_mode cfg i m1 now event _ _ _ _ _ Hstep) as (Hg' & He' & Hrun);
      [exact (mode_up m1 i Hm1 Hgi)| |]; rewrite ?Hmode in *.
    { change (e_state (env_of m1)) with (m_master_state m1). rewrite Hs1. destruct (0 <? i); auto. }
    change (m_master_state (put_group i gd' (with_env e' m1))) with (e_state e').
    destruct (Z.ltb_spec 0 (i + 1)); [|lia].
    split; [|split; [exact He'|exact (run_app cfg _ _ _ _ _ Hr1 Hrun)]].
    intros g Hg. pose proof (groups_length cfg cfg_ok m1 i (proj1 Hm1) Hgi) as Hlen.
    destruct (Z.eq_dec g i) as [->|Hne].
    + rewrite group_at_put by exact Hlen. destruct (Z.ltb_spec i (i + 1)); [exact Hg'|lia].
    + rewrite group_at_put_other by (unfold has_group in *; lia).
      change (group_at (with_env e' m1) g) with (group_at m1 g). rewrite (Hg1 g Hg).
      destruct (Z.ltb_spec g i), (Z.ltb_spec g (i + 1)); try lia; reflexivity.
  - intros [] m' o (Hm' & Hg' & Hs' & Hr'). destruct (Z.ltb_spec 0 (sh_number_of_groups (mc_hier cfg))); [|lia].
    split; [exact Hm'|]. split; [|split; assumption]. intros g Hg. rewrite (Hg' g Hg), Hs'.
    destruct (Z.ltb_spec g (sh_number_of_groups (mc_hier cfg))); [reflexivity|unfold has_group in Hg; lia].
Qed.

Lemma follows_all now event : plain_event event -> follows (clm_iefb_group_fsm_event_all now event).
Proof.
  intros Hev m Hm Hi. eapply wp_mono; [apply (follows_event_all now event Hev m Hm Hi)|].
  intros a m' o (Hm' & Hi' & _ & Hr). auto.
Qed.

Lemma follows_device_event g d event : has_device cfg g d -> response_event event ->
  follows (clm_iefb_device_fsm_event g d event).
Proof.
  intros Hgd Hev m Hm Hi. pose proof (keeps_device_event cfg cfg_ok g d event Hgd Hev m Hm) as Hk.
  assert (Hne : event <> CLM_DEVICE_EVENT_LAST) by (destruct Hev as [-> |[-> | ->]]; discriminate).
  pose proof (device_event_wp cfg cfg_ok m g d event Hgd Hm Hne) as Hw. unfold wp in *.
  destruct (clm_iefb_device_fsm_event g d event m) as [[[a m'] o]|]; [|exact Hk].
  split; [apply Hk|]. destruct Hw as (gd' & -> & Hst). destruct Hgd as [Hg Hd].
  destruct (proj2 Hm g Hg) as [Hb Hc].
  pose proof (device_stepped_rest cfg cfg_ok g Hg _ _ _ _ _ Hd Hb Hst) as (Hsame & _ & _).
  destruct (device_event_control cfg cfg_ok g d event _ _ _ Hg Hd Hev Hb Hc Hst) as [_ ->].
  split; [|apply run_stay]. intros g' Hg'. pose proof (groups_length cfg cfg_ok m g (proj1 Hm) Hg) as Hlen.
  destruct (Z.eq_dec g' g) as [->|Hn].
  - rewrite group_at_put by exact Hlen. rewrite (sg_state _ _ Hsame). exact (Hi g Hg).
  - rewrite group_at_put_other by (unfold has_group in *; lia). exact (Hi g' Hg').
Qed.
End Follows.

(** *** Frames *)

(** A change of a group that keeps its state. *)
Lemma mode_update_group g f m : (forall gd, g_group_state (f gd) = g_group_state gd) ->
  mode_of (update_group g f m) = mode_of m.
Proof.
  intros Hf. unfold mode_of, update_group. cbn. f_equal. apply list_eq. intros i.
  rewrite !list_lookup_fmap, list_lookup_alter. case_decide; [|reflexivity]. subst i.
  destruct (m_groups m !! Z.to_nat g) as [gd|]; [|reflexivity]. cbn. f_equal. apply Hf.
Qed.
#[export] Hint Resolve mode_update_group : leaves.

Section Frames.
Context `{ClmOptions, Clal, ClalClock}.
Context (clock_ok : forall now, is_u64 (clal_get_unix_timestamp_ms now)).
Context (cfg : clm_cfg) (cfg_ok : clm_config_ok cfg).

Abbreviation follows := (follows cfg).

Lemma leaves_error_mode now message ip n : leaves_mode (clm_iefb_trigger_error_callback now message ip n).
Proof. unfold clm_iefb_trigger_error_callback. leaves. Qed.
#[local] Hint Resolve leaves_error_mode : leaves.

Lemma follows_error now message ip n : follows (clm_iefb_trigger_error_callback now message ip n).
Proof. apply (follows_leaves cfg cfg_ok); [apply keeps_error_callback|apply leaves_error_mode]. Qed.

Lemma follows_invalid g d : has_device cfg g d -> follows (count_invalid_frame g d).
Proof.
  intros Hgd. apply (follows_leaves cfg cfg_ok); [apply (keeps_count cfg cfg_ok), Hgd|].
  unfold count_invalid_frame. leaves.
Qed.

Lemma follows_fsm_events now g d end_code : has_device cfg g d ->
  follows (response_fsm_events now g d end_code).
Proof.
  intros Hgd. unfold response_fsm_events. destruct (_ =? _).
  - apply (follows_all clock_ok cfg cfg_ok). right; right. reflexivity.
  - apply (follows_bind cfg); [|intros []; apply (follows_complete clock_ok cfg cfg_ok), Hgd].
    apply (follows_device_event cfg cfg_ok); [exact Hgd|].
    destruct (_ =? _); [left|right; left]; reflexivity.
Qed.

Lemma follows_store_response now g d end_code r recv_len remote_ip buffer : has_device cfg g d ->
  bytes buffer -> length buffer = 1500%nat -> response_ok buffer recv_len remote_ip r ->
  si_number_of_occupied r = ds_num_occupied_stations (setting_of_device (setting_of_group cfg g) d) ->
  follows (store_response now g d end_code r (setting_of_device (setting_of_group cfg g) d)).
Proof.
  intros Hgd Hby Hl Hr Hk. unfold store_response.
  apply (follows_bind cfg); [|intros []; apply (follows_bind cfg); [|intros []]].
  - apply (follows_leaves cfg cfg_ok); [apply (keeps_response_values cfg cfg_ok), Hgd|].
    unfold store_response_values. leaves.
  - apply (follows_leaves cfg cfg_ok); [eapply (keeps_response_data cfg cfg_ok); eassumption|].
    unfold store_response_data. leaves.
  - apply follows_fsm_events, Hgd.
Qed.

#[local] Hint Resolve follows_ret follows_error follows_invalid duplication_is_response : clink.

Lemma follows_device_response now g d remote_ip r recv_len buffer : has_device cfg g d ->
  bytes buffer -> length buffer = 1500%nat -> response_ok buffer recv_len remote_ip r ->
  follows (handle_device_response now g d remote_ip r (setting_of_device (setting_of_group cfg g) d)).
Proof.
  intros Hgd Hby Hl Hr. apply (follows_bind cfg); [|intros []].
  { apply (follows_leaves cfg cfg_ok); [apply (keeps_count cfg cfg_ok), Hgd|leaves]. }
  apply (follows_get cfg). intros m _.
  assert (Hinvalid : follows (count_invalid_frame g d;; mret false))
    by (apply (follows_bind cfg); auto with clink).
  destruct (negb (d_enabled _)); [exact Hinvalid|]. destruct (_ && _ && _).
  { apply (follows_bind cfg); [auto with clink|intros []].
    apply (follows_bind cfg); [auto with clink|intros []].
    apply (follows_bind cfg); [|intros []; auto with clink].
    apply (follows_device_event cfg cfg_ok); auto with clink. }
  destruct (_ && _); [exact Hinvalid|]. apply (follows_bind cfg); [|intros []].
  { apply (follows_leaves cfg cfg_ok); [apply (keeps_report_errors cfg cfg_ok), Hgd|].
    unfold report_errors, count_alarm_frame. leaves. }
  destruct (Z.eqb_spec (si_number_of_occupied r)
    (ds_num_occupied_stations (setting_of_device (setting_of_group cfg g) d))) as [Hk|Hk];
    cbn [negb]; [|exact Hinvalid].
  apply (follows_bind cfg); [|intros []].
  { apply (follows_leaves cfg cfg_ok); [apply (keeps_report_changes cfg cfg_ok), Hgd|].
    unfold report_changes, count_alarm_frame, clm_iefb_trigger_slaveinfo_callback,
      clm_iefb_trigger_alarmframe_callback. leaves. }
  apply (follows_bind cfg); [|intros []; auto with clink]. eapply follows_store_response; eassumption.
Qed.

Lemma follows_response_frame now buffer len ip port : bytes buffer -> length buffer = 1500%nat ->
  0 <= len <= CL_BUFFER_LEN -> ~ stops_parser buffer len ip ->
  follows (clm_iefb_handle_response_frame now buffer len ip port).
Proof.
  intros Hby Hl Hlen Hno. apply (follows_get cfg). intros m Hm. rewrite (config_groups_eq cfg m Hm).
  rewrite (mb_config _ _ (proj1 Hm)). destruct (_ =? CL_IPADDR_INVALID); [apply follows_ret|].
  destruct (parse_response_ok buffer len ip port now Hlen Hno) as (parsed & -> & Hparsed).
  intros m' Hm' Hi'. apply wp_bind, wp_lift. cbn [app]. revert m' Hm' Hi'.
  match goal with |- forall m, _ -> _ -> wp ?P _ m => change (follows P) end.
  destruct parsed as [r|]; [|apply follows_ret].
  destruct Hparsed as [Hr _]. pose proof (ro_group _ _ _ _ Hr) as Hgno.
  destruct (Z.ltb_spec (sh_number_of_groups (mc_hier cfg))
    (sdh_group_no (fs_cyclic_data_header (si_full_headers r)))); [apply follows_ret|].
  destruct (clm_iefb_calc_slave_device_index _ ip) as [d|] eqn:Hd; [|apply follows_ret].
  apply find_device in Hd as [Hd _].
  eapply follows_device_response; try eassumption. split; [unfold has_group; lia|exact Hd].
Qed.

Lemma follows_input_frame now buffer len ip port : bytes buffer -> length buffer = 1500%nat ->
  0 <= len <= CL_BUFFER_LEN -> ~ fatal buffer len ip ->
  follows (clm_iefb_handle_input_frame now buffer len ip port).
Proof.
  intros Hby Hl Hlen Hno. apply (follows_get cfg). intros m Hm.
  destruct (ip =? _); [apply follows_ret|].
  destruct (cl_iefb_parse_response_header _ _) as [header|] eqn:Hhd; [|apply follows_ret].
  destruct (cl_iefb_validate_response_header header len) eqn:Hval; cbn [negb].
  { apply follows_response_frame; try assumption. intros Hs. apply Hno. split; [eauto|exact Hs]. }
  destruct (cl_iefb_parse_request_header _ _); [|apply follows_ret].
  destruct (negb _); [apply follows_ret|]. destruct (_ || _); [apply follows_ret|].
  apply (follows_bind cfg); [|intros []; apply (follows_bind cfg); [|intros []; apply follows_ret]].
  - apply (follows_leaves cfg cfg_ok); [|leaves].
    apply keeps_outside. intros m' []. split; [split; assumption|reflexivity].
  - apply (follows_all clock_ok cfg cfg_ok). right; left. reflexivity.
Qed.

Lemma follows_datagram now dg : datagram_ok dg -> follows (handle_datagram now dg).
Proof.
  intros Hdg m Hm Hi. apply (wp_datagram cfg); [exact Hdg|exact Hm|]. intros Hm1 Hb Hl Hlen Hno.
  refine (follows_when cfg _ _ _ _ Hm1 Hi).
  apply (follows_bind cfg); [apply follows_input_frame; assumption|intros b; apply follows_ret].
Qed.

Lemma follows_receive_loop now queue : Forall datagram_ok queue -> follows (receive_loop now queue).
Proof.
  induction 1 as [|dg queue Hdg Hq IH]; cbn [receive_loop]; [apply follows_ret|].
  apply (follows_bind cfg); [apply follows_datagram, Hdg|]. intros []. destruct (0 <? _); [exact IH|].
  apply follows_ret.
Qed.

Lemma follows_periodic arbitration queue now :
  (forall dg, arbitration = Some dg -> datagram_ok dg) -> Forall datagram_ok queue ->
  follows (clm_iefb_periodic arbitration queue now).
Proof.
  intros Ha Hq. unfold clm_iefb_periodic. apply (follows_bind cfg); [|intros []].
  { apply (follows_leaves cfg cfg_ok); [|leaves].
    apply keeps_outside. intros m []. split; [split; assumption|reflexivity]. }
  apply (follows_get cfg). intros m Hm. apply (follows_bind cfg); [|intros []].
  { apply follows_when, (follows_bind cfg);
      [|intros []; apply (follows_all clock_ok cfg cfg_ok); left; reflexivity].
    apply (follows_leaves cfg cfg_ok); [|leaves].
    apply keeps_outside. intros m' []. split; [split; assumption|reflexivity]. }
  apply (follows_bind cfg); [apply (follows_timers clock_ok cfg cfg_ok)|intros []].
  apply (follows_get cfg). intros m1 Hm1. apply (follows_bind cfg); [|intros []].
  - apply follows_when. destruct arbitration as [dg|]; [|apply follows_ret]. apply follows_datagram. auto.
  - apply follows_receive_loop, Hq.
Qed.

End Frames.

(** *** Calls *)

Section Modes.
Context `{ClmOptions, Clal, ClalNet, Host, ClalClock, FileOptions, ClalFileOk}.
Context (clock_ok : forall now, is_u64 (clal_get_unix_timestamp_ms now)).

(** SLMP emits nothing that depends on the mode. *)
Lemma slmp_quiet o : slmp_outputs_only o -> none_of mode_output o.
Proof.
  intros [Ho _]. unfold none_of in *. induction o as [|x o IH]; [reflexivity|].
  destruct x; cbn in *; try discriminate Ho; apply IH, Ho.
Qed.

Lemma slmp_leaves_mode {A} (P : clm_prog A) : leaves_cyclic P -> leaves_mode P.
Proof.
  apply leaves_weaken; [|exact slmp_quiet]. intros m m' Hm. unfold mode_of.
  rewrite (f_equal (fun v => v.1.2.1.2) Hm : m_master_state m' = m_master_state m).
  rewrite (f_equal (fun v => v.1.1.2) Hm : m_groups m' = m_groups m). reflexivity.
Qed.

Lemma settings_leave_mode g d n v w running stopped enabled area off data :
  leaves_mode (clm_iefb_set_ry_bit g d n v) /\ leaves_mode (clm_iefb_set_rww_value g d n w) /\
  leaves_mode (clm_iefb_set_master_application_status running stopped) /\
  leaves_mode (clm_iefb_set_slave_communication_status g d enabled) /\
  leaves_mode (clm_iefb_force_cyclic_transmission_bit g d enabled) /\
  leaves_mode clm_iefb_statistics_clear_all /\ leaves_mode (store_area area g off data).
Proof.
  unfold clm_iefb_set_ry_bit, clm_iefb_set_rww_value, checked_area, store_area,
    clm_iefb_set_master_application_status, clm_iefb_set_slave_communication_status,
    clm_iefb_force_cyclic_transmission_bit, clm_iefb_statistics_clear_all.
  repeat match goal with |- _ /\ _ => split end; leaves.
Qed.

Lemma call_follows_modes cfg c now : clm_config_ok cfg -> call_ok cfg c -> follows cfg (run_call c now).
Proof.
  intros Hok Hc. destruct c as [sq arb cq|g d n v|g d n w|running stopped|g d enabled|g d force| | |mac ip mask
    |area g off data].
  { destruct Hc as (Hsq & Ha & Hq). apply (follows_bind cfg).
    - apply (follows_leaves cfg Hok); [apply keeps_slmp_periodic|].
      apply slmp_leaves_mode, (slmp_leaves_cyclic now [] 0 0 sq).
    - intros []. apply (follows_periodic clock_ok cfg Hok); assumption. }
  all: apply (follows_leaves cfg Hok); [apply (keeps_call clock_ok cfg _ now Hok Hc)|]; cbn [run_call].
  1: exact (proj1 (settings_leave_mode g d n v 0 false false false AREA_RX 0 [])).
  1: exact (proj1 (proj2 (settings_leave_mode g d n false w false false false AREA_RX 0 []))).
  1: apply (settings_leave_mode 0 0 0 false 0 running stopped false AREA_RX 0 []).
  1: apply leaves_bind; [exact _|apply (settings_leave_mode g d 0 false 0 false false enabled AREA_RX 0 [])|intros b; leaves].
  1: apply leaves_bind; [exact _|apply (settings_leave_mode g d 0 false 0 false false force AREA_RX 0 [])|intros b; leaves].
  1: apply (settings_leave_mode 0 0 0 false 0 false false false AREA_RX 0 []).
  1: apply leaves_bind; [exact _|apply slmp_leaves_mode, (slmp_leaves_cyclic now [] 0 0 [])|intros b; leaves].
  1: apply leaves_bind; [exact _|apply slmp_leaves_mode, (slmp_leaves_cyclic now mac ip mask [])|intros b; leaves].
  apply (settings_leave_mode g 0 0 false 0 false false false area off data).
Qed.

(** The application is always told the mode of the groups. *)
Lemma reachable_in_mode cfg m : cfg_types cfg -> master_reachable cfg m -> in_mode cfg m.
Proof.
  intros Hty. induction 1 as [fs directory now m0 m o Hrun|c now m m' o Hreach IH Hc Hrun].
  - pose proof (master_init_ok fs directory (Some cfg) now m0) as Hw. unfold wp in Hw.
    rewrite Hrun in Hw. destruct Hw as [_ Hs]; [intros c [= <-]; exact Hty|].
    destruct (Hs eq_refl) as (c & [= <-] & [_ _ _ Hg Hst]). intros g Hgg.
    destruct (Hg g Hgg) as (_ & Hgst & _). rewrite Hgst, Hst. reflexivity.
  - destruct (master_reachable_inv clock_ok cfg m Hty Hreach) as (Hok & _ & Hm).
    pose proof (call_follows_modes cfg c now Hok Hc m Hm IH) as Hw. unfold wp in Hw.
    rewrite Hrun in Hw. apply Hw.
Qed.

(** Calls at given times, one after the other. *)
Fixpoint run_calls (calls : list (master_call * Z)) : clm_prog unit :=
  match calls with
  | [] => mret tt
  | (c, now) :: calls => run_call c now;; run_calls calls
  end.

Lemma calls_follow cfg calls m : cfg_types cfg -> master_reachable cfg m ->
  Forall (fun call => call_ok cfg call.1) calls ->
  exists m' o, run_calls calls m = Done (tt, m', o) /\ master_reachable cfg m' /\
    mode_run cfg (m_master_state m) o (m_master_state m').
Proof.
  intros Hty Hreach Hc. revert m Hreach.
  induction Hc as [|[c now] calls Hc _ IH]; intros m Hreach; cbn [run_calls].
  { exists m, []. split; [reflexivity|]. split; [exact Hreach|apply run_stay]. }
  destruct (master_reachable_inv clock_ok cfg m Hty Hreach) as (Hok & _ & Hm).
  pose proof (call_follows_modes cfg c now Hok Hc m Hm (reachable_in_mode cfg m Hty Hreach)) as Hw.
  apply wp_done in Hw as ([] & m1 & o1 & Hrun & _ & _ & Hr1).
  destruct (IH m1 (master_reach_call cfg c now m m1 o1 Hreach Hc Hrun)) as (m2 & o2 & Hrun2 & Hreach2 & Hr2).
  exists m2, (o1 ++ o2). split; [|split; [exact Hreach2|exact (run_app cfg _ _ _ _ _ Hr1 Hr2)]].
  unfold mbind, prog_bind. rewrite Hrun, Hrun2. reflexivity.
Qed.

(** A master that has given way stays away: once the mode is STANDBY, after a
    lost arbitration or a report of a duplicated master, no sequence of calls
    sends a cyclic request, and the mode and the groups stay as they are. *)
Lemma standby_stays cfg calls m : cfg_types cfg -> master_reachable cfg m ->
  m_master_state m = CLM_MASTER_STATE_STANDBY -> Forall (fun call => call_ok cfg call.1) calls ->
  exists m' o, run_calls calls m = Done (tt, m', o) /\
    (forall socket ip port frame, ~ ClmCciefbSendto socket ip port frame ∈ o) /\
    m_master_state m' = CLM_MASTER_STATE_STANDBY /\
    forall g, has_group cfg g -> g_group_state (group_at m' g) = CLM_GROUP_STATE_MASTER_LISTEN.
Proof.
  intros Hty Hreach Hst Hc. destruct (calls_follow cfg calls m Hty Hreach Hc) as (m' & o & Hrun & Hreach' & Hr).
  rewrite Hst in Hr. apply run_standby in Hr as [Hst' Ho]. exists m', o. split; [exact Hrun|].
  split; [|split; [exact Hst'|]].
  - intros socket ip port frame Hin%list_elem_of_In. rewrite Forall_forall in Ho.
    specialize (Ho _ Hin). discriminate Ho.
  - intros g Hg. pose proof (reachable_in_mode cfg m' Hty Hreach' g Hg) as Hmode. rewrite Hst' in Hmode.
    destruct (g_group_state (group_at m' g)); try discriminate Hmode. reflexivity.
Qed.

(** C12: The master implements the machine of the modes.  Any sequence of
    calls of any reachable master, with any datagrams, is a run of the
    machine from the mode that the application was told to the mode that it
    is told then, through the callbacks of the changes on the way; and
    before and after every call all groups are in states of that mode. *)
Theorem master_implements_modes cfg calls m : cfg_types cfg -> master_reachable cfg m ->
  Forall (fun call => call_ok cfg call.1) calls ->
  exists m' o, run_calls calls m = Done (tt, m', o) /\
    mode_run cfg (m_master_state m) o (m_master_state m') /\ in_mode cfg m /\ in_mode cfg m'.
Proof.
  intros Hty Hreach Hc. destruct (calls_follow cfg calls m Hty Hreach Hc) as (m' & o & Hrun & Hreach' & Hr).
  exists m', o. split; [exact Hrun|]. split; [exact Hr|].
  split; apply reachable_in_mode; assumption.
Qed.

End Modes.

(** ** Witnesses *)

Section ModesWitnesses.
Import SampleHost SampleMasterEnv SampleFiles SampleMaster.

Lemma master_implements_modes_witness :
  exists m' o, run_calls [(foreign_call, 50000); (quiet_call, 900000)] init = Done (tt, m', o) /\
    mode_run cfg CLM_MASTER_STATE_ARBITRATION o (m_master_state m').
Proof.
  destruct (master_implements_modes clock_ok cfg [(foreign_call, 50000); (quiet_call, 900000)] init
    cfg_typed init_reachable) as (m' & o & Hrun & Hr & _).
  - constructor; [exact foreign_call_ok|]. constructor; [exact quiet_call_ok|constructor].
  - exists m', o. split; [exact Hrun|].
    replace CLM_MASTER_STATE_ARBITRATION with (m_master_state init) by (vm_compute; reflexivity). exact Hr.
Defined.
End ModesWitnesses.
