(* ===== verification/MasterArbitration.v ===== *)
(** * The arbitration of the master

    A master that hears the request of another one gives way while it still
    waits for that, and goes on scanning once it has started.  Here a whole
    call of the periodic function is followed that receives such a request,
    on either of the two sockets. *)

From Stdlib Require Import String.
From S2P Require Import Prelude Packed Signals Timer Limiter Util Types Iefb IefbFacts IefbRoundtrip.
From S2P Require Import File FileFacts Slmp SlmpFacts Master MasterIefb MasterConfig MasterSlmp.
From S2P Require Import MasterConfigSpec MasterInv MasterFrame MasterDevice MasterGroup MasterScan.
From S2P Require Import MasterFsm MasterEvents MasterControl MasterSafety MasterResponse.
From S2P Require Import MasterSettings MasterStart MasterReach MasterProps MasterLeaves MasterCalls.
From S2P Require Import MasterModes.

#[local] Open Scope Z_scope.

(** ** Definitions *)

(** A datagram with the header of a cyclic request. *)
Record is_request (buffer : list Z) (len : Z) : Prop := {
  ir_response : exists header, cl_iefb_parse_response_header buffer len = Some header /\
    cl_iefb_validate_response_header header len = false;
  ir_request : exists header, cl_iefb_parse_request_header buffer len = Some header /\
    cl_iefb_validate_request_header header len = true /\
    rqh_command header = CL_SLMP_COMMAND_CCIEFB_CYCLIC /\
    rqh_sub_command header = CL_SLMP_SUBCOMMAND_CCIEFB_CYCLIC
}.

(** What the two sockets have, if it is this datagram alone. *)
Definition heard (cfg : clm_cfg) (dg : datagram) (arbitration : option datagram)
  (queue : list datagram) : Prop :=
  (mc_use_separate_arbitration_socket cfg = true /\ arbitration = Some dg /\ queue = []) \/
  (arbitration = None /\ queue = [dg]).

(** ** Lemmas *)

(** The first field of both headers is at the same place. *)
Lemma request_is_no_response buffer len :
  rqh_reserved1 (c_dec c_cl_cciefb_req_header buffer) = CL_CCIEFB_REQ_HEADER_RESERVED1 ->
  cl_iefb_validate_response_header (c_dec c_cl_cciefb_resp_header buffer) len = false.
Proof.
  intros Hr.
  change (rqh_reserved1 (c_dec c_cl_cciefb_req_header buffer))
    with (rsh_reserved1 (c_dec c_cl_cciefb_resp_header buffer)) in Hr.
  unfold cl_iefb_validate_response_header. destruct (negb _); [reflexivity|]. rewrite Hr. reflexivity.
Qed.

Lemma request_header_request buffer n ver timeout count master group param seq clock info state :
  let h := request_headers ver timeout count master group n param seq clock info state in
  request_params_ok ver timeout count master group n param ->
  request_values_ok ver seq clock info state ->
  c_dec c_cl_cciefb_cyclic_req_full_headers buffer = h -> is_request buffer (67 + 76 * n).
Proof.
  intros h Hp Hv Hdec. pose proof (rp_n _ _ _ _ _ _ _ Hp) as Hn.
  destruct (request_accepted buffer _ _ _ _ _ _ _ _ _ _ _ 0 0 Hp Hv Hdec) as (Hparse & Hvalid & _).
  split; [|eexists; split; [exact Hparse|]; split; [exact Hvalid|]; split; reflexivity].
  unfold cl_iefb_parse_request_header, cl_iefb_parse_response_header in *.
  change (sizeof c_cl_cciefb_req_header) with 15 in Hparse.
  change (sizeof c_cl_cciefb_resp_header) with 11.
  destruct (Z.ltb_spec (67 + 76 * n) 15) as [|_]; [lia|]. destruct (Z.ltb_spec (67 + 76 * n) 11) as [|_]; [lia|].
  eexists. split; [reflexivity|]. change (read_at ?c buffer 0) with (c_dec c buffer) in *.
  apply request_is_no_response.
  assert (Hq : c_dec c_cl_cciefb_req_header buffer = fq_req_header h)
    by exact (f_equal (fun x => match x with Some y => y | None => fq_req_header h end) Hparse).
  rewrite Hq. reflexivity.
Qed.

Section Arbitration.
Context `{ClmOptions, Clal, ClalNet, Host, ClalClock, FileOptions, ClalFileOk}.
Context (clock_ok : forall now, is_u64 (clal_get_unix_timestamp_ms now)).
Context (cfg : clm_cfg) (cfg_ok : clm_config_ok cfg).

(** What a master has become after the request of another one. *)
Definition gave_way (m : clm) (m' : clm) (o : list clm_output) : Prop :=
  master_inv cfg m' /\ in_mode cfg m' /\
  m_master_state m' = mode_after CLM_GROUP_EVENT_REQ_FROM_OTHER (m_master_state m) /\
  mode_run cfg (m_master_state m) o (m_master_state m').

Lemma foreign_request_wp now buffer len ip port m : master_inv cfg m -> in_mode cfg m ->
  ip <> mc_master_id cfg -> is_request buffer len ->
  wp (clm_iefb_handle_input_frame now buffer len ip port) (fun _ m' o => gave_way m m' o) m.
Proof.
  intros Hm Hi Hip [(rh & Hrh & Hrv) (qh & Hqh & Hqv & Hc & Hsc)].
  apply wp_bind, wp_get. cbn [app]. rewrite (mb_config _ _ (proj1 Hm)).
  destruct (Z.eqb_spec ip (mc_master_id cfg)) as [He|_]; [destruct (Hip He)|].
  rewrite Hrh, Hrv, Hqh, Hqv, Hc, Hsc, !Z.eqb_refl. cbn [negb orb].
  apply wp_bind, wp_modify. cbn [app].
  set (m1 := m <| m_latest_conflicting_master_ip := ip |>).
  assert (Hm1 : master_inv cfg m1)
    by (destruct Hm as [[] Hg]; split; [split; assumption|exact Hg]).
  assert (Hev : plain_event CLM_GROUP_EVENT_REQ_FROM_OTHER) by (right; left; reflexivity).
  apply wp_bind. eapply wp_mono; [apply (follows_event_all clock_ok cfg cfg_ok now _ Hev m1 Hm1 Hi)|].
  intros [] m2 o2 (Hm2 & Hi2 & Hs2 & Hr2). apply wp_ret. rewrite app_nil_r.
  split; [exact Hm2|]. split; [exact Hi2|]. split; [exact Hs2|exact Hr2].
Qed.

Lemma is_request_received d old : is_request d (Z.of_nat (length d)) ->
  is_request (splice 0 d old) (Z.of_nat (length d)).
Proof.
  intros [(rh & Hrh & Hrv) (qh & Hqh & Hq)]. unfold cl_iefb_parse_response_header in Hrh.
  unfold cl_iefb_parse_request_header in Hqh.
  change (sizeof c_cl_cciefb_req_header) with 15 in Hqh.
  change (sizeof c_cl_cciefb_resp_header) with 11 in Hrh.
  destruct (Z.ltb_spec (Z.of_nat (length d)) 15) as [|Hl]; [discriminate Hqh|].
  destruct (Z.ltb_spec (Z.of_nat (length d)) 11) as [|_]; [discriminate Hrh|].
  change (read_at ?c d 0) with (c_dec c d) in *. split.
  - exists rh. split; [|exact Hrv]. unfold cl_iefb_parse_response_header.
    change (sizeof c_cl_cciefb_resp_header) with 11. destruct (Z.ltb_spec (Z.of_nat (length d)) 11); [lia|].
    change (read_at ?c ?b 0) with (c_dec c b).
    rewrite (splice_dec c_cl_cciefb_resp_header); [exact Hrh|]. change (c_size _) with 11%nat. lia.
  - exists qh. split; [|exact Hq]. unfold cl_iefb_parse_request_header.
    change (sizeof c_cl_cciefb_req_header) with 15. destruct (Z.ltb_spec (Z.of_nat (length d)) 15); [lia|].
    change (read_at ?c ?b 0) with (c_dec c b).
    rewrite (splice_dec c_cl_cciefb_req_header); [exact Hqh|]. change (c_size _) with 15%nat. lia.
Qed.

Lemma request_not_fatal buffer len ip : is_request buffer len -> ~ fatal buffer len ip.
Proof. intros [(rh & Hrh & Hrv) _] ((header & Hh & Hv) & _). congruence. Qed.

Lemma foreign_datagram_wp now dg m : master_inv cfg m -> in_mode cfg m -> datagram_ok dg ->
  0 < Z.of_nat (length (dg_bytes dg)) -> dg_remote_ip dg <> mc_master_id cfg ->
  is_request (dg_bytes dg) (Z.of_nat (length (dg_bytes dg))) ->
  wp (handle_datagram now dg) (fun _ m' o => gave_way m m' o) m.
Proof.
  intros Hm Hi Hdg Hpos Hip Hreq. apply (wp_datagram cfg); [exact Hdg|exact Hm|].
  intros Hm1 _ _ _ _. set (m1 := m <| m_cciefb_receivebuf ::= _ |>) in *.
  apply wp_when; intros Hc; [|apply Z.ltb_ge in Hc; lia]. apply wp_bind.
  eapply wp_mono; [apply (foreign_request_wp now _ _ _ _ m1 Hm1 Hi Hip)|].
  - exact (is_request_received _ _ Hreq).
  - intros b m' o Hg. apply wp_ret. rewrite app_nil_r. exact Hg.
Qed.

Lemma gave_way_after m m1 m' o o' : m_master_state m1 = m_master_state m ->
  mode_run cfg (m_master_state m) o (m_master_state m1) -> gave_way m1 m' o' -> gave_way m m' (o ++ o').
Proof.
  intros Hs Hr (Hm' & Hi' & Hs' & Hr'). split; [exact Hm'|]. split; [exact Hi'|].
  split; [congruence|exact (run_app cfg _ _ _ _ _ Hr Hr')].
Qed.

(** What comes before the datagrams in a call, while the arbitration lasts. *)
Lemma waiting_part sq arbitration queue now m Q : master_inv cfg m -> in_mode cfg m ->
  cl_timer_is_expired (m_arbitration_timer m) now = false ->
  (forall m1 o1, master_inv cfg m1 -> in_mode cfg m1 -> m_master_state m1 = m_master_state m ->
     mode_run cfg (m_master_state m) o1 (m_master_state m1) ->
     wp (receive_part arbitration queue now) (fun a m2 o2 => Q a m2 (o1 ++ o2)) m1) ->
  wp (run_call (MasterPeriodic sq arbitration queue) now) Q m.
Proof.
  intros Hm Hi Hw HQ. apply wp_bind.
  assert (Hslmp : wp (clm_slmp_periodic sq now) (fun _ m1 o1 => (master_inv cfg m1 /\ in_mode cfg m1 /\
    m_master_state m1 = m_master_state m /\ mode_run cfg (m_master_state m) o1 (m_master_state m1)) /\
    m_arbitration_timer m1 = m_arbitration_timer m) m).
  { pose proof (stays_leaves cfg cfg_ok _ (keeps_slmp_periodic cfg sq now)
      (slmp_leaves_mode _ (proj2 (proj2 (slmp_leaves_cyclic now [] 0 0 sq)))) m Hm Hi) as Hs.
    destruct (slmp_leaves_cyclic now [] 0 0 sq) as (_ & _ & Hl). specialize (Hl m). unfold wp in *.
    destruct (clm_slmp_periodic sq now m) as [[[a m1] o1]|]; [|exact Hs]. split; [exact Hs|].
    exact (f_equal (fun v => v.1.2.1.1) (proj1 Hl)). }
  eapply wp_mono; [exact Hslmp|]. intros [] m1 o1 ((Hm1 & Hi1 & Hs1 & Hr1) & Ht).
  unfold clm_iefb_periodic. apply wp_bind, wp_modify. cbn [app].
  set (m2 := m1 <| m_errorlimiter ::= _ |>).
  assert (Hm2 : master_inv cfg m2)
    by (destruct Hm1 as [[] Hg]; split; [split; assumption|exact Hg]).
  apply wp_bind, wp_get, wp_bind.
  change (m_arbitration_timer m2) with (m_arbitration_timer m1). rewrite Ht, Hw. apply wp_ret.
  cbn [app]. apply wp_bind. eapply wp_mono; [apply (stays_timers clock_ok cfg cfg_ok now m2 Hm2 Hi1)|].
  intros [] m3 o3 (Hm3 & Hi3 & Hs3 & Hr3). change (m_master_state m2) with (m_master_state m1) in *.
  assert (Hs : m_master_state m3 = m_master_state m) by congruence.
  eapply wp_mono; [apply (HQ m3 (o1 ++ o3) Hm3 Hi3 Hs (run_app cfg _ _ _ _ _ Hr1 Hr3))|].
  intros a m4 o4 HQ4. cbn beta in HQ4. rewrite <- app_assoc in HQ4. exact HQ4.
Qed.

(** The call that hears the request. *)
Lemma foreign_call_wp sq arbitration queue dg now m : master_inv cfg m -> in_mode cfg m ->
  cl_timer_is_expired (m_arbitration_timer m) now = false -> heard cfg dg arbitration queue ->
  datagram_ok dg -> 0 < Z.of_nat (length (dg_bytes dg)) -> dg_remote_ip dg <> mc_master_id cfg ->
  is_request (dg_bytes dg) (Z.of_nat (length (dg_bytes dg))) ->
  wp (run_call (MasterPeriodic sq arbitration queue) now) (fun _ m' o => gave_way m m' o) m.
Proof.
  intros Hm Hi Hw Hheard Hdg Hpos Hip Hreq. apply waiting_part; [assumption..|].
  intros m1 o1 Hm1 Hi1 Hs1 Hr1. apply wp_bind, wp_get, wp_bind. rewrite (mb_config _ _ (proj1 Hm1)).
  cbn [app]. assert (Hdo : wp (handle_datagram now dg) (fun _ m2 o2 => gave_way m m2 (o1 ++ o2)) m1).
  { eapply wp_mono; [apply (foreign_datagram_wp now dg m1); assumption|].
    intros a m2 o2. apply gave_way_after; assumption. }
  destruct Hheard as [(Hsep & -> & ->)|[-> ->]].
  - rewrite Hsep. eapply wp_mono; [exact Hdo|]. intros a m2 o2 Hg. apply wp_ret. rewrite app_nil_r. exact Hg.
  - apply wp_when; intros _; [apply wp_ret|]; (cbn [app receive_loop]; apply wp_bind;
      eapply wp_mono; [exact Hdo|]; intros a m2 o2 Hg; destruct (0 <? _); apply wp_ret;
      rewrite app_nil_r; exact Hg).
Qed.

End Arbitration.
