(* ===== verification/MasterRequests.v ===== *)
(** * The requests of the master's application

    Node searches and changes of an IP address are requests that run while
    the cyclic communication goes on.  Here the two parts are separated: the
    cyclic communication leaves everything that belongs to SLMP alone, so the
    life of a request, from its start to the one confirmation that ends it,
    can be stated for every reachable master. *)

From Stdlib Require Import String.
From S2P Require Import Prelude Packed Signals Timer Limiter Util Types Iefb File FileFacts.
From S2P Require Import Slmp SlmpFacts Master MasterIefb MasterConfig MasterSlmp.
From S2P Require Import MasterInv MasterSafety MasterSettings MasterLeaves MasterReach MasterProps.

#[local] Open Scope Z_scope.

(** ** Lemmas: the start of the cyclic communication *)

Section Init.
Context `{ClmOptions, Clal, ClalClock}.

Lemma leaves_init now : leaves_slmp (clm_iefb_init now).
Proof.
  pose proof (fun now event => outside_slmp _ (leaves_group_events now event)) as Hevents.
  unfold clm_iefb_init, start_groups, clm_iefb_handle_new_config, clm_iefb_device_fsm_tables_init,
    clm_iefb_group_fsm_tables_init. leaves.
Qed.

End Init.

(** ** The abstract specification of requests

    A request of either kind is idle or runs since some time; times are
    unbounded here, the master has their last 32 bits. *)

Inductive request := Idle | Running (since : Z).

Record requests := Requests { q_search : request; q_set_ip : request }.

Definition confirmation (x : clm_output) : bool :=
  match x with ClmNodeSearchCfmCb _ | ClmSetIpCfmCb _ => true | _ => false end.
Definition confirmations : list clm_output -> list clm_output := List.filter confirmation.

(** The messages sent by SLMP, with their addresses. *)
Definition slmp_sends (o : list clm_output) : list (Z * Z * list Z) :=
  omap (fun x => match x with ClmSlmpUdp (UdpSendto _ ip port message) => Some (ip, port, message)
                         | _ => None end) o.

Section Specification.
Context (cfg : clm_cfg).

Definition search_period : Z := mc_callback_time_node_search cfg * 1000.
Definition set_ip_period : Z := mc_callback_time_set_ip cfg * 1000.
Definition search_cfm (db : clm_node_search_db) : list clm_output :=
  if mc_node_search_cfm_cb cfg then [ClmNodeSearchCfmCb db] else [].
Definition set_ip_cfm (status : clm_master_setip_status) : list clm_output :=
  if mc_set_ip_cfm_cb cfg then [ClmSetIpCfmCb status] else [].

(** A running request ends when its period has passed. *)
Definition time_out (period T : Z) (cfm : list clm_output) (r : request)
  : request * list clm_output :=
  match r with
  | Running t => if t + period <=? T then (Idle, cfm) else (r, [])
  | Idle => (Idle, [])
  end.

(** The answer of a slave ends it, too. *)
Definition answered (answer : option clm_master_setip_status) (r : request)
  : request * list clm_output :=
  match r, answer with
  | Running _, Some status => (Idle, set_ip_cfm status)
  | _, _ => (r, [])
  end.

(** A request starts, when it can be sent; one that runs refuses another. *)
Definition start (sent : bool) (T : Z) (r : request) : request :=
  match r with
  | Idle => if sent then Running T else Idle
  | Running _ => r
  end.

Definition spec_step (db : clm_node_search_db) (sent : bool)
  (answer : option clm_master_setip_status) (c : master_call) (T : Z) (q : requests)
  : requests * list clm_output :=
  match c with
  | PerformNodeSearch => (Requests (start sent T (q_search q)) (q_set_ip q), [])
  | SetSlaveIpaddr _ _ _ => (Requests (q_search q) (start sent T (q_set_ip q)), [])
  | MasterPeriodic _ _ _ =>
      let (s, o1) := time_out search_period T (search_cfm db) (q_search q) in
      let (i, o2) := time_out set_ip_period T (set_ip_cfm CLM_MASTER_SET_IP_STATUS_TIMEOUT)
                       (q_set_ip q) in
      let (i, o3) := answered answer i in
      (Requests s i, o1 ++ o2 ++ o3)
  | _ => (q, [])
  end.

(** Whether a call is a request that the specification lets start. *)
Definition may_start (c : master_call) (q : requests) : bool :=
  match c, q_search q, q_set_ip q with
  | PerformNodeSearch, Idle, _ => true
  | SetSlaveIpaddr _ ip netmask, _, Idle =>
      negb (ip =? CL_IPADDR_INVALID) && cl_utils_is_netmask_valid netmask
  | _, _, _ => false
  end.

(** The serial number and the timer of a request. *)
Definition request_matches (period serial : Z) (timer : cl_timer) (r : request) : Prop :=
  match r with
  | Idle => serial = CLM_SLMP_SERIAL_NONE /\ timer = cl_timer_zero
  | Running t => is_u16 serial /\ timer = Timer CL_TIMER_RUNNING period (u32 t)
  end.

Definition requests_match (p : slmp_part) (q : requests) : Prop :=
  request_matches search_period (p_search_serial p) (p_search_timer p) (q_search q) /\
  request_matches set_ip_period (p_set_ip_serial p) (p_set_ip_timer p) (q_set_ip q).

(** A running request is looked at before its clock has gone half around. *)
Definition in_time (T : Z) (r : request) : Prop :=
  match r with Idle => True | Running t => 0 <= T - t < 2 ^ 31 end.

(** What always holds of the SLMP part. *)
Record slmp_ok (p : slmp_part) : Prop := {
  so_config : p_config p = cfg;
  so_serial : is_u16 (p_serial p);
  so_buffer : bytes (p_buffer p);
  so_socket : snd (p_sockets p) <> -1
}.

Definition matches (m : clm) (q : requests) : Prop :=
  slmp_ok (slmp_part_of m) /\ requests_match (slmp_part_of m) q.
End Specification.

(** ** Lemmas: the implementation follows the specification *)

(** What a program does if it returns. *)
Definition returns {A} (P : clm_prog A) (Q : A -> clm -> list clm_output -> Prop) (m : clm) : Prop :=
  forall a m' o, P m = Done (a, m', o) -> Q a m' o.

Lemma returns_bind {A B} (P : clm_prog A) (k : A -> clm_prog B) Q m :
  returns P (fun a m1 o1 => returns (k a) (fun b m2 o2 => Q b m2 (o1 ++ o2)) m1) m ->
  returns (P ≫= k) Q m.
Proof.
  intros HP b m2 o. unfold mbind, prog_bind. unfold returns in HP.
  destruct (P m) as [[[a m1] o1]|]; [|discriminate]. specialize (HP a m1 o1 eq_refl).
  destruct (k a m1) as [[[b' m2'] o2]|]; [|discriminate]. intros [= <- <- <-].
  exact (HP _ _ _ eq_refl).
Qed.

Lemma returns_mono {A} (P : clm_prog A) (Q Q' : A -> clm -> list clm_output -> Prop) m :
  returns P Q m -> (forall a m' o, Q a m' o -> Q' a m' o) -> returns P Q' m.
Proof. intros HP HQ a m' o Hrun. apply HQ, HP, Hrun. Qed.

Lemma returns_done {A} (P : clm_prog A) Q m a m1 o1 : P m = Done (a, m1, o1) -> Q a m1 o1 ->
  returns P Q m.
Proof. intros Hrun HQ a' m' o'. rewrite Hrun. intros [= <- <- <-]. exact HQ. Qed.

Lemma returns_ret {A} (a : A) (Q : A -> clm -> list clm_output -> Prop) m :
  Q a m [] -> returns (mret a) Q m.
Proof. apply returns_done. reflexivity. Qed.

Lemma returns_get (Q : clm -> clm -> list clm_output -> Prop) m : Q m m [] -> returns get Q m.
Proof. apply returns_done. reflexivity. Qed.

Lemma returns_modify f (Q : unit -> clm -> list clm_output -> Prop) m :
  Q tt (f m) [] -> returns (modify f) Q m.
Proof. apply returns_done. reflexivity. Qed.

Lemma returns_lift {A} (x : outcome A) (Q : A -> clm -> list clm_output -> Prop) m :
  (forall a, x = Done a -> Q a m []) -> returns (lift_outcome x) Q m.
Proof.
  intros HQ a m' o. unfold lift_outcome. destruct x; [|discriminate]. intros [= <- <- <-]. auto.
Qed.

Lemma returns_emit x (Q : unit -> clm -> list clm_output -> Prop) m :
  Q tt m [x] -> returns (emit x) Q m.
Proof. apply returns_done. reflexivity. Qed.

Lemma returns_leaves {A} (P : clm_prog A) m : leaves_slmp P ->
  returns P (fun _ m' o => slmp_part_of m' = slmp_part_of m /\ slmp_outputs o = []) m.
Proof. intros HP a m' o Hrun. exact (leaves_run _ _ P m a m' o HP Hrun). Qed.

(** Symbolic execution, up to the next test. *)
Ltac returns_step :=
  lazymatch goal with
  | |- returns (_ ≫= _) _ _ => apply returns_bind
  | |- returns (mret _) _ _ => apply returns_ret
  | |- returns get _ _ => apply returns_get
  | |- returns (modify _) _ _ => apply returns_modify
  | |- returns (emit _) _ _ => apply returns_emit
  | |- returns (when true _) _ _ => unfold when
  | |- returns (when false _) _ _ => unfold when
  end; cbv beta.
Ltac returns_steps := repeat returns_step.

Section Requests.
Context `{ClmOptions, Clal, ClalNet, Host, ClalClock, FileOptions, ClalFileOk}.

Section Configured.
Context (cfg : clm_cfg) (cfg_ok : cfg_types cfg).

Abbreviation matches := (matches cfg).

Lemma expired_time_out period T cfm r serial timer :
  request_matches period serial timer r -> in_time T r ->
  time_out period T cfm r =
    (if cl_timer_is_expired timer (u32 T) then Idle else r,
     if cl_timer_is_expired timer (u32 T) then cfm else []).
Proof.
  destruct r as [|t]; cbn.
  - intros [_ ->] _. reflexivity.
  - intros [_ ->] Ht. rewrite timer_expired_elapsed by lia.
    replace (period <=? T - t) with (t + period <=? T).
    + destruct (_ <=? _); reflexivity.
    + destruct (Z.leb_spec (t + period) T), (Z.leb_spec period (T - t)); lia || reflexivity.
Qed.

Lemma search_expires m q T : matches m q -> in_time T (q_search q) ->
  returns (when (cl_timer_is_expired (m_node_search_timer m) (u32 T))
    (modify (fun clm => clm <| m_node_search_timer ::= cl_timer_stop |>);;
     clm_slmp_node_search_notify_results)) (fun _ m' o =>
    let s := time_out (search_period cfg) T (search_cfm cfg (m_node_search_db m)) (q_search q) in
    matches m' (Requests s.1 (q_set_ip q)) /\ o = s.2) m.
Proof.
  intros [[Hc Hs Hb Hk] [Hms Hmi]] Hts. cbn in Hms, Hc.
  rewrite (expired_time_out _ _ _ _ _ _ Hms Hts).
  destruct (cl_timer_is_expired (m_node_search_timer m) (u32 T)).
  - unfold clm_slmp_node_search_notify_results, search_cfm. returns_steps.
    cbn [m_config update]. rewrite (f_equal mc_node_search_cfm_cb Hc).
    destruct (mc_node_search_cfm_cb cfg); returns_steps;
      (split; [split; [split; [exact Hc|exact Hs|exact Hb|exact Hk]|split; [split; reflexivity|exact Hmi]]|reflexivity]).
  - returns_steps. split; [split; [split; [exact Hc|exact Hs|exact Hb|exact Hk]|split; [exact Hms|exact Hmi]]|reflexivity].
Qed.

Lemma set_ip_ends status m q : matches m q ->
  returns (clm_slmp_set_ip_notify_cfm status)
    (fun _ m' o => matches m' (Requests (q_search q) Idle) /\ o = set_ip_cfm cfg status) m.
Proof.
  intros [[Hc Hs Hb Hk] [Hms Hmi]]. unfold clm_slmp_set_ip_notify_cfm, set_ip_cfm. cbn in Hc.
  returns_steps. cbn [m_config update]. rewrite (f_equal mc_set_ip_cfm_cb Hc).
    destruct (mc_set_ip_cfm_cb cfg); returns_steps;
    (split; [split; [split; [exact Hc|exact Hs|exact Hb|exact Hk]|split; [exact Hms|split; reflexivity]]|reflexivity]).
Qed.

Lemma set_ip_expires m q T : matches m q -> in_time T (q_set_ip q) ->
  returns (when (cl_timer_is_expired (m_set_ip_request_timer m) (u32 T))
    (modify (fun clm => clm <| m_set_ip_request_timer ::= cl_timer_stop |>);;
     clm_slmp_set_ip_notify_cfm CLM_MASTER_SET_IP_STATUS_TIMEOUT)) (fun _ m' o =>
    let i := time_out (set_ip_period cfg) T (set_ip_cfm cfg CLM_MASTER_SET_IP_STATUS_TIMEOUT)
               (q_set_ip q) in
    matches m' (Requests (q_search q) i.1) /\ o = i.2) m.
Proof.
  intros [[Hc Hs Hb Hk] [Hms Hmi]] Hti. pose proof Hmi as Hmi'. cbn in Hmi', Hc.
  rewrite (expired_time_out _ _ _ _ _ _ Hmi' Hti).
  destruct (cl_timer_is_expired (m_set_ip_request_timer m) (u32 T)).
  - unfold clm_slmp_set_ip_notify_cfm, set_ip_cfm. returns_steps.
    cbn [m_config update]. rewrite (f_equal mc_set_ip_cfm_cb Hc).
    destruct (mc_set_ip_cfm_cb cfg); returns_steps;
      (split; [split; [split; [exact Hc|exact Hs|exact Hb|exact Hk]|split; [exact Hms|split; reflexivity]]|reflexivity]).
  - returns_steps. split; [split; [split; [exact Hc|exact Hs|exact Hb|exact Hk]|split; [exact Hms|exact Hmi]]|reflexivity].
Qed.

Lemma timeouts_match m q T : matches m q -> in_time T (q_search q) -> in_time T (q_set_ip q) ->
  returns (clm_slmp_check_timeouts (u32 T)) (fun _ m' o =>
    let s := time_out (search_period cfg) T (search_cfm cfg (m_node_search_db m)) (q_search q) in
    let i := time_out (set_ip_period cfg) T (set_ip_cfm cfg CLM_MASTER_SET_IP_STATUS_TIMEOUT)
               (q_set_ip q) in
    matches m' (Requests s.1 i.1) /\ o = s.2 ++ i.2) m.
Proof.
  intros Hm Hts Hti. unfold clm_slmp_check_timeouts. returns_step. returns_step. returns_step.
  eapply returns_mono; [exact (search_expires m q T Hm Hts)|]. intros [] m1 o1 [Hm1 ->].
  returns_step. returns_step.
  eapply returns_mono; [exact (set_ip_expires m1 _ T Hm1 Hti)|]. intros [] m2 o2 [Hm2 ->].
  split; [exact Hm2|reflexivity].
Qed.

(** ** Incoming frames *)

Lemma header_serial buffer len header : bytes buffer ->
  cl_slmp_parse_response_header buffer len = Some header -> lsh_serial header <> CLM_SLMP_SERIAL_NONE.
Proof.
  intros Hb. unfold cl_slmp_parse_response_header. destruct (_ <? _); [discriminate|].
  intros [= <-]. cbn -[le_combine]. unfold CLM_SLMP_SERIAL_NONE.
  match goal with |- le_combine ?l <> _ => pose proof (le_combine_range l) as Hr end.
  assert (0 <= le_combine (take 2 (drop 2 (drop (Z.to_nat 0) buffer)))) by (apply Hr; auto with clink).
  lia.
Qed.

(** What a frame does to the requests. *)
Definition frame_effect (q : requests) (m' : clm) (o : list clm_output) : Prop :=
  exists answer, answer <> Some CLM_MASTER_SET_IP_STATUS_TIMEOUT /\
    matches m' (Requests (q_search q) (answered cfg answer (q_set_ip q)).1) /\
    o = (answered cfg answer (q_set_ip q)).2.

Lemma no_effect m q : matches m q -> frame_effect q m [].
Proof.
  intros Hm. exists None. split; [discriminate|]. destruct q as [s []]; cbn; auto.
Qed.

Lemma answer_effect status m q : status <> CLM_MASTER_SET_IP_STATUS_TIMEOUT -> matches m q ->
  m_set_ip_request_serial m <> CLM_SLMP_SERIAL_NONE ->
  returns (clm_slmp_set_ip_notify_cfm status;; mret true) (fun _ => frame_effect q) m.
Proof.
  intros Hst Hm Hser. destruct (q_set_ip q) as [|t] eqn:Hq.
  { exfalso. apply Hser. pose proof (proj2 (proj2 Hm)) as Hx. rewrite Hq in Hx. apply Hx. }
  returns_step. eapply returns_mono; [exact (set_ip_ends status m q Hm)|]. intros [] m1 o1 [Hm1 ->].
  returns_steps. exists (Some status). split; [intros [= ?]; auto|]. rewrite Hq, app_nil_r. cbn. auto.
Qed.

Lemma frame_match m q buffer len ifindex : bytes buffer -> matches m q ->
  returns (clm_slmp_handle_input_frame buffer len ifindex) (fun _ => frame_effect q) m.
Proof.
  intros Hby Hm. unfold clm_slmp_handle_input_frame.
  assert (Hno : forall b : bool, returns (mret b) (fun _ => frame_effect q) m)
    by (intros b; apply returns_ret, no_effect, Hm).
  destruct (cl_slmp_parse_response_header buffer len) as [header|] eqn:Hh; [|apply Hno].
  pose proof (header_serial _ _ _ Hby Hh) as Hser.
  destruct (negb _); [apply Hno|]. destruct (negb _); [apply Hno|]. returns_step. returns_step.
  cbn [app]. destruct (negb _); [apply Hno|]. destruct (lsh_serial header =? m_node_search_serial m).
  - unfold clm_slmp_handle_node_search_response.
    destruct (cl_slmp_parse_node_search_response buffer len); [|apply Hno].
    destruct (negb _); [apply Hno|]. returns_step. returns_step. returns_step. apply returns_lift.
    intros r _. returns_steps. apply no_effect. destruct Hm as [[Hc Hs Hb Hk] Hr].
    split; [split; [exact Hc|exact Hs|exact Hb|exact Hk]|exact Hr].
  - destruct (Z.eqb_spec (lsh_serial header) (m_set_ip_request_serial m)) as [He|]; [|apply Hno].
    rewrite He in Hser. destruct (lsh_endcode header =? CL_SLMP_ENDCODE_SUCCESS).
    + unfold clm_slmp_handle_set_ipaddr_response.
      destruct (cl_slmp_parse_set_ip_response buffer len); [|apply Hno]. returns_step. returns_step.
      cbn [app]. destruct (negb _); [apply Hno|]. apply answer_effect; [discriminate|assumption..].
    + unfold clm_slmp_handle_set_ip_error.
      destruct (cl_slmp_parse_error_response buffer len); [|apply Hno]. destruct (negb _); [apply Hno|].
      destruct (_ || _); [apply Hno|]. apply answer_effect; [discriminate|assumption..].
Qed.

Lemma effect_trans q m1 o1 m2 o2 : frame_effect q m1 o1 ->
  (forall q1, matches m1 q1 -> frame_effect q1 m2 o2) -> frame_effect q m2 (o1 ++ o2).
Proof.
  intros (a & Ha & Hm1 & ->) Hk. destruct (Hk _ Hm1) as (a2 & Ha2 & Hm2 & ->).
  destruct q as [s [|t]], a as [st|]; cbn in *.
  - exists None. split; [discriminate|]. auto.
  - exists None. split; [discriminate|]. auto.
  - exists (Some st). split; [exact Ha|]. split; [exact Hm2|]. cbn. rewrite app_nil_r. reflexivity.
  - exists a2. auto.
Qed.

Lemma queue_match queue : Forall (fun dg => bytes (dg_bytes dg)) queue -> forall m q, matches m q ->
  returns (slmp_receive_loop queue) (fun _ => frame_effect q) m.
Proof.
  induction 1 as [|dg queue Hdg _ IH]; intros m q Hm; cbn [slmp_receive_loop].
  { apply returns_ret, no_effect, Hm. }
  returns_step. returns_step. returns_step. returns_step. cbn [app].
  match goal with |- returns _ _ ?m1 => set (m0 := m1) end.
  assert (Hb : bytes (m_slmp_receivebuf m0)).
  { apply bytes_splice; [exact Hdg|exact (so_buffer _ _ (proj1 Hm))]. }
  assert (Hm0 : matches m0 q).
  { destruct Hm as [[Hc Hs _ Hk] Hr]. split; [split; [exact Hc|exact Hs|exact Hb|exact Hk]|exact Hr]. }
  destruct (0 <? _); [|apply returns_ret, no_effect, Hm0]. returns_step.
  eapply returns_mono; [exact (frame_match m0 q _ _ _ Hb Hm0)|]. intros b m1 o1 He.
  intros a m2 o2 Hrun. refine (effect_trans q m1 o1 m2 o2 He _). intros q1 Hm1.
  exact (IH m1 q1 Hm1 a m2 o2 Hrun).
Qed.

(** ** Starting a request *)

(** At most one message is sent, and one if the result says so. *)
Definition one_send (sent : bool) (ip : Z) (message : list Z) (o : list clm_output) : Prop :=
  confirmations o = [] /\
  (slmp_sends o = [(ip, CL_SLMP_PORT, message)] \/ sent = false /\ slmp_sends o = []).

Lemma udp_send_events open_it buffer lip rip len socket : 
  match cl_slmp_udp_send open_it buffer CL_BUFFER_LEN lip rip CL_SLMP_PORT len socket with
  | Done (sent, socket', o) =>
      (open_it = false -> socket' = socket) /\
      one_send sent rip (take (Z.to_nat len) buffer) (map ClmSlmpUdp o)
  | AssertFailed => True
  end.
Proof.
  unfold cl_slmp_udp_send, one_send. destruct (CL_BUFFER_LEN <? len); [cbn; auto|].
  destruct open_it; run_prog.
  - destruct (_ =? -1); run_prog; (split; [discriminate|]); cbn; auto.
  - destruct (socket =? -1); run_prog; (split; [reflexivity|]); cbn; auto.
Qed.

(** A new send socket. *)
Definition with_socket (socket : Z) (p : slmp_part) : slmp_part :=
  SlmpPart (p_config p) (p_serial p) (p_search_serial p) (p_search_timer p) (p_set_ip_serial p)
    (p_set_ip_timer p) (p_db p) (p_interface p) (socket, snd (p_sockets p)) (p_buffer p).

Lemma send_returns m len :
  returns (clm_slmp_send_request len) (fun sent m' o =>
    (exists socket, slmp_part_of m' = with_socket socket (slmp_part_of m)) /\
    one_send sent (m_slmp_broadcast_ip m) (take (Z.to_nat len) (m_slmp_sendbuf m)) o) m.
Proof.
  unfold clm_slmp_send_request. returns_step. returns_step.
  destruct (mc_use_single_slmp_socket (m_config m)); intros sent m' o; unfold zoom.
  - pose proof (udp_send_events false (m_slmp_sendbuf m) (mc_master_id (m_config m))
      (m_slmp_broadcast_ip m) len (m_slmp_receive_socket m)) as He.
    destruct (cl_slmp_udp_send _ _ _ _ _ _ _ _) as [[[b s'] o']|]; [|discriminate].
    intros [= <- <- <-]. destruct He as [Hsock He]. rewrite (Hsock eq_refl). cbn [app].
    split; [exists (m_slmp_send_socket m); reflexivity|exact He].
  - pose proof (udp_send_events true (m_slmp_sendbuf m) (mc_master_id (m_config m))
      (m_slmp_broadcast_ip m) len (m_slmp_send_socket m)) as He.
    destruct (cl_slmp_udp_send _ _ _ _ _ _ _ _) as [[[b s'] o']|]; [|discriminate].
    intros [= <- <- <-]. destruct He as [_ He]. cbn [app].
    split; [exists s'; reflexivity|exact He].
Qed.

(** A node search that starts. *)
Definition search_starts (T : Z) (q : requests) (m : clm) (sent : bool) (m' : clm)
  (o : list clm_output) : Prop :=
  matches m' (Requests (start sent T (q_search q)) (q_set_ip q)) /\
  exists frame,
    cl_slmp_prepare_node_search_request_frame (m_slmp_sendbuf m) CL_BUFFER_LEN (m_mac_address m)
      (mc_master_id cfg) (m_slmp_request_serial m) = Done frame /\
    one_send sent (m_slmp_broadcast_ip m)
      (take (Z.to_nat (sizeof c_cl_slmp_node_search_request)) frame) o /\
    (sent = true -> m_node_search_serial m' = m_slmp_request_serial m /\
       m_node_search_db m' = clm_slmp_node_search_clear_db (m_node_search_db m) /\
       m_ifindex m' = m_ifindex m).

Lemma search_match m q T : matches m q -> q_search q = Idle ->
  returns (clm_slmp_perform_node_search (u32 T)) (search_starts T q m) m.
Proof.
  intros [[Hc Hs Hb Hk] [Hms Hmi]] Hq. rewrite Hq in Hms. destruct Hms as [Hser Htimer].
  cbn in Hser, Htimer, Hc. unfold clm_slmp_perform_node_search. returns_step. returns_step.
  rewrite Hser. change (negb (_ =? _)) with false. cbv iota. returns_step. returns_step.
  match goal with |- returns _ _ ?s => set (m1 := s) end.
  assert (E1 : m_slmp_sendbuf m1 = m_slmp_sendbuf m /\ slmp_part_of m1 =
    SlmpPart cfg (m_slmp_request_serial m) (m_slmp_request_serial m) cl_timer_zero
      (m_set_ip_request_serial m) (m_set_ip_request_timer m)
      (clm_slmp_node_search_clear_db (m_node_search_db m)) (p_interface (slmp_part_of m))
      (p_sockets (slmp_part_of m)) (m_slmp_receivebuf m)).
  { rewrite <- Hc, <- Htimer. split; reflexivity. }
  clearbody m1. destruct E1 as [Ebuf E1]. unfold slmp_part_of at 1 in E1. cbn in E1.
  injection E1 as E11 E12 E13 E14 E15 E16 E17 E18 E19 E1a E1b E1c E1d.
  returns_step. returns_step. returns_step. apply returns_lift. intros frame.
  rewrite Ebuf, E13, E11, E1a, u16_id by exact Hs. intros Hframe. returns_step. returns_step.
  match goal with |- returns _ _ ?s => set (m2 := s) end.
  assert (E2 : m_slmp_sendbuf m2 = frame /\ m_slmp_broadcast_ip m2 = m_slmp_broadcast_ip m /\
    slmp_part_of m2 =
      SlmpPart cfg (u16 (m_slmp_request_serial m + 1)) (m_slmp_request_serial m) cl_timer_zero
        (m_set_ip_request_serial m) (m_set_ip_request_timer m)
        (clm_slmp_node_search_clear_db (m_node_search_db m)) (p_interface (slmp_part_of m))
        (p_sockets (slmp_part_of m)) (m_slmp_receivebuf m)).
  { split; [reflexivity|]. split; [exact E18|]. unfold slmp_part_of. cbn -[u16].
    rewrite E11, E12, E13, E14, E15, E16, E17, E18, E19, E1a, E1b, E1c, E1d. reflexivity. }
  clearbody m2. clear E11 E12 E13 E14 E15 E16 E17 E18 E19 E1a E1b E1c E1d.
  destruct E2 as (Ebuf2 & Ebc2 & E2). returns_step.
  eapply returns_mono; [apply send_returns|]. intros sent m3 o [(socket & E3) Hsend].
  rewrite E2 in E3. rewrite Ebuf2, Ebc2 in Hsend.
  assert (Hend : forall m4, slmp_part_of m4 = SlmpPart cfg (u16 (m_slmp_request_serial m + 1))
      (if sent then m_slmp_request_serial m else CLM_SLMP_SERIAL_NONE)
      (if sent then Timer CL_TIMER_RUNNING (search_period cfg) (u32 T) else cl_timer_zero)
      (m_set_ip_request_serial m) (m_set_ip_request_timer m)
      (clm_slmp_node_search_clear_db (m_node_search_db m)) (p_interface (slmp_part_of m))
      (socket, m_slmp_receive_socket m) (m_slmp_receivebuf m) ->
    search_starts T q m sent m4 o).
  { intros m4 E4. split.
    - split; rewrite E4.
      + split; [reflexivity|apply u16_range|exact Hb|exact Hk].
      + split; [|exact Hmi]. rewrite Hq. destruct sent; [split; [exact Hs|reflexivity]|split; reflexivity].
    - exists frame. split; [exact Hframe|]. split; [exact Hsend|]. intros ->.
      unfold slmp_part_of in E4. injection E4 as ? ? ? ? ? ? ? ? ? ? ? ? ?. auto. }
  clear E2. unfold slmp_part_of, with_socket in E3. cbn in E3.
  injection E3 as E31 E32 E33 E34 E35 E36 E37 E38 E39 E40 E41 E42 E43.
  destruct sent; cbn [negb]; cbv iota; returns_steps; cbn [app]; rewrite app_nil_r; apply Hend;
    unfold slmp_part_of, search_period, CL_TIMER_MICROSECONDS_PER_MILLISECOND; cbn -[u16 u32 Z.mul];
    rewrite ?E31, ?E32, ?E33, ?E34, ?E35, ?E36, ?E37, ?E38, ?E39, ?E40, ?E41, ?E42, ?E43; reflexivity.
Qed.

(** A change of an IP address that starts. *)
Definition set_ip_starts (T : Z) (q : requests) (m : clm) (mac : list Z) (ip netmask : Z)
  (sent : bool) (m' : clm) (o : list clm_output) : Prop :=
  matches m' (Requests (q_search q) (start sent T (q_set_ip q))) /\
  exists frame,
    cl_slmp_prepare_set_ip_request_frame (m_slmp_sendbuf m) CL_BUFFER_LEN (m_mac_address m)
      (mc_master_id cfg) (m_slmp_request_serial m) mac ip netmask = Done frame /\
    one_send sent (m_slmp_broadcast_ip m)
      (take (Z.to_nat (sizeof c_cl_slmp_set_ipaddr_request)) frame) o /\
    (sent = true -> m_set_ip_request_serial m' = m_slmp_request_serial m /\
       m_ifindex m' = m_ifindex m /\ m_mac_address m' = m_mac_address m).

Lemma set_ip_match m q T mac ip netmask : matches m q -> q_set_ip q = Idle ->
  ip <> CL_IPADDR_INVALID -> cl_utils_is_netmask_valid netmask = true ->
  returns (clm_slmp_perform_set_ipaddr_request (u32 T) mac ip netmask)
    (set_ip_starts T q m mac ip netmask) m.
Proof.
  intros [[Hc Hs Hb Hk] [Hms Hmi]] Hq Hip Hnm. rewrite Hq in Hmi. destruct Hmi as [Hser Htimer].
  cbn in Hser, Htimer, Hc. unfold clm_slmp_perform_set_ipaddr_request. returns_step. returns_step.
  rewrite Hser, (proj2 (Z.eqb_neq _ _) Hip), Hnm. change (negb (_ =? _)) with false.
  cbn [negb]. cbv iota. returns_step. returns_step.
  match goal with |- returns _ _ ?s => set (m1 := s) end.
  assert (E1 : m_slmp_sendbuf m1 = m_slmp_sendbuf m /\ slmp_part_of m1 =
    SlmpPart cfg (m_slmp_request_serial m) (m_node_search_serial m) (m_node_search_timer m)
      (m_slmp_request_serial m) cl_timer_zero (m_node_search_db m) (p_interface (slmp_part_of m))
      (p_sockets (slmp_part_of m)) (m_slmp_receivebuf m)).
  { rewrite <- Hc, <- Htimer. split; reflexivity. }
  clearbody m1. destruct E1 as [Ebuf E1]. unfold slmp_part_of at 1 in E1. cbn in E1.
  injection E1 as E11 E12 E13 E14 E15 E16 E17 E18 E19 E1a E1b E1c E1d.
  returns_step. returns_step. returns_step. apply returns_lift. intros frame.
  rewrite Ebuf, E15, E11, E1a, u16_id by exact Hs. intros Hframe. returns_step. returns_step.
  match goal with |- returns _ _ ?s => set (m2 := s) end.
  assert (E2 : m_slmp_sendbuf m2 = frame /\ m_slmp_broadcast_ip m2 = m_slmp_broadcast_ip m /\
    slmp_part_of m2 =
      SlmpPart cfg (u16 (m_slmp_request_serial m + 1)) (m_node_search_serial m)
        (m_node_search_timer m) (m_slmp_request_serial m) cl_timer_zero (m_node_search_db m)
        (p_interface (slmp_part_of m)) (p_sockets (slmp_part_of m)) (m_slmp_receivebuf m)).
  { split; [reflexivity|]. split; [exact E18|]. unfold slmp_part_of. cbn -[u16].
    rewrite E11, E12, E13, E14, E15, E16, E17, E18, E19, E1a, E1b, E1c, E1d. reflexivity. }
  clearbody m2. clear E11 E12 E13 E14 E15 E16 E17 E18 E19 E1a E1b E1c E1d.
  destruct E2 as (Ebuf2 & Ebc2 & E2). returns_step.
  eapply returns_mono; [apply send_returns|]. intros sent m3 o [(socket & E3) Hsend].
  rewrite E2 in E3. rewrite Ebuf2, Ebc2 in Hsend.
  assert (Hend : forall m4, slmp_part_of m4 = SlmpPart cfg (u16 (m_slmp_request_serial m + 1))
      (m_node_search_serial m) (m_node_search_timer m)
      (if sent then m_slmp_request_serial m else CLM_SLMP_SERIAL_NONE)
      (if sent then Timer CL_TIMER_RUNNING (set_ip_period cfg) (u32 T) else cl_timer_zero)
      (m_node_search_db m) (p_interface (slmp_part_of m))
      (socket, m_slmp_receive_socket m) (m_slmp_receivebuf m) ->
    set_ip_starts T q m mac ip netmask sent m4 o).
  { intros m4 E4. split.
    - split; rewrite E4.
      + split; [reflexivity|apply u16_range|exact Hb|exact Hk].
      + split; [exact Hms|]. rewrite Hq. destruct sent; [split; [exact Hs|reflexivity]|split; reflexivity].
    - exists frame. split; [exact Hframe|]. split; [exact Hsend|]. intros ->.
      unfold slmp_part_of in E4. injection E4 as ? ? ? ? ? ? ? ? ? ? ? ? ?. auto. }
  clear E2. unfold slmp_part_of, with_socket in E3. cbn in E3.
  injection E3 as E31 E32 E33 E34 E35 E36 E37 E38 E39 E40 E41 E42 E43.
  destruct sent; cbn [negb]; cbv iota; returns_steps; cbn [app]; rewrite app_nil_r; apply Hend;
    unfold slmp_part_of, set_ip_period, CL_TIMER_MICROSECONDS_PER_MILLISECOND; cbn -[u16 u32 Z.mul];
    rewrite ?E31, ?E32, ?E33, ?E34, ?E35, ?E36, ?E37, ?E38, ?E39, ?E40, ?E41, ?E42, ?E43; reflexivity.
Qed.

(** ** Every call *)

Lemma confirmations_app o o' : confirmations (o ++ o') = confirmations o ++ confirmations o'.
Proof. apply List.filter_app. Qed.

Lemma sends_app o o' : slmp_sends (o ++ o') = slmp_sends o ++ slmp_sends o'.
Proof. apply omap_app. Qed.

Lemma silent_outputs o : slmp_outputs o = [] -> confirmations o = [] /\ slmp_sends o = [].
Proof.
  induction o as [|x o IH]; [split; reflexivity|]. unfold slmp_outputs, confirmations. cbn.
  destruct x; cbn; intros Hx; try discriminate Hx; apply IH, Hx.
Qed.

Lemma leaves_match {A} (P : clm_prog A) m q : leaves_slmp P -> matches m q ->
  returns P (fun _ m' o => matches m' q /\ confirmations o = [] /\ slmp_sends o = []) m.
Proof.
  intros HP Hm. eapply returns_mono; [apply returns_leaves, HP|]. intros a m' o [Hp Ho].
  split; [|exact (silent_outputs o Ho)]. unfold MasterRequests.matches in *. rewrite Hp. exact Hm.
Qed.

Lemma cfm_lists db status r :
  confirmations (search_cfm cfg db) = search_cfm cfg db /\ slmp_sends (search_cfm cfg db) = [] /\
  confirmations (set_ip_cfm cfg status) = set_ip_cfm cfg status /\
  slmp_sends (set_ip_cfm cfg status) = [] /\
  forall answer, confirmations (answered cfg answer r).2 = (answered cfg answer r).2 /\
    slmp_sends (answered cfg answer r).2 = [].
Proof.
  unfold answered, search_cfm, set_ip_cfm.
  destruct (mc_node_search_cfm_cb cfg), (mc_set_ip_cfm_cb cfg), r; repeat split; destruct answer; reflexivity.
Qed.

Lemma time_out_list period T cfm r : confirmations cfm = cfm -> slmp_sends cfm = [] ->
  confirmations (time_out period T cfm r).2 = (time_out period T cfm r).2 /\
  slmp_sends (time_out period T cfm r).2 = [].
Proof. intros Hc Hs. destruct r as [|t]; cbn; [auto|]. destruct (_ <=? _); cbn; auto. Qed.

(** What the specification says of a call. *)
Definition follows (c : master_call) (T : Z) (q : requests) (m m' : clm) (o : list clm_output)
  : Prop :=
  exists sent answer, answer <> Some CLM_MASTER_SET_IP_STATUS_TIMEOUT /\
    (sent = true -> may_start c q = true /\ exists message, slmp_sends o = [message]) /\
    (slmp_sends o <> [] -> may_start c q = true) /\
    let step := spec_step cfg (m_node_search_db m) sent answer c T q in
    matches m' step.1 /\ confirmations o = step.2.

Lemma follows_same c T q m m' o : (forall db, spec_step cfg db false None c T q = (q, [])) ->
  matches m' q -> confirmations o = [] -> slmp_sends o = [] -> follows c T q m m' o.
Proof.
  intros Hc Hm Ho Hs. exists false, None. split; [discriminate|]. split; [discriminate|].
  split; [rewrite Hs; intros []; reflexivity|]. cbv zeta. rewrite Hc. auto.
Qed.

Lemma periodic_follows slmp_queue arbitration cciefb_queue T q m : matches m q ->
  Forall (fun dg => bytes (dg_bytes dg)) slmp_queue ->
  in_time T (q_search q) -> in_time T (q_set_ip q) ->
  returns (clm_periodic slmp_queue arbitration cciefb_queue (u32 T)) (fun _ =>
    follows (MasterPeriodic slmp_queue arbitration cciefb_queue) T q m) m.
Proof.
  intros Hm Hq Hts Hti. unfold clm_periodic, clm_slmp_periodic.
  returns_step. returns_step. eapply returns_mono; [exact (timeouts_match m q T Hm Hts Hti)|].
  intros [] m1 o1 [Hm1 ->]. eapply returns_mono; [exact (queue_match _ Hq m1 _ Hm1)|].
  intros [] m2 o2 (answer & Ha & Hm2 & ->). cbn [q_set_ip q_search] in *.
  eapply returns_mono; [apply (leaves_match _ _ _ (outside_slmp _ (leaves_periodic _ _ _)) Hm2)|].
  intros [] m3 o3 (Hm3 & Hc3 & Hs3).
  exists false, answer. split; [exact Ha|]. split; [discriminate|]. cbn [spec_step].
  set (s := time_out (search_period cfg) T (search_cfm cfg (m_node_search_db m)) (q_search q)) in *.
  set (i := time_out (set_ip_period cfg) T (set_ip_cfm cfg CLM_MASTER_SET_IP_STATUS_TIMEOUT)
              (q_set_ip q)) in *.
  destruct (cfm_lists (m_node_search_db m) CLM_MASTER_SET_IP_STATUS_TIMEOUT i.1)
    as (Hcs & Hss & Hci & Hsi & Han). destruct (Han answer) as [Hca Hsa].
  destruct (time_out_list (search_period cfg) T _ (q_search q) Hcs Hss) as [Hcs' Hss'].
  destruct (time_out_list (set_ip_period cfg) T _ (q_set_ip q) Hci Hsi) as [Hci' Hsi'].
  fold s in Hcs', Hss'. fold i in Hci', Hsi'. split.
  - rewrite !sends_app, Hss', Hsi', Hsa, Hs3. intros []. reflexivity.
  - rewrite !confirmations_app, Hcs', Hci', Hca, Hc3, app_nil_r. clearbody s i.
    destruct s as [s o1], i as [i o2]. cbn in *. destruct (answered cfg answer i). cbn in *.
    split; [exact Hm3|]. rewrite app_assoc. reflexivity.
Qed.

Lemma search_refused now q m t : matches m q -> q_search q = Running t ->
  clm_slmp_perform_node_search now m = Done (false, m, []).
Proof.
  intros Hm Hq. pose proof (proj1 (proj2 Hm)) as Hr. rewrite Hq in Hr. destruct Hr as [Hser _].
  cbn in Hser. unfold clm_slmp_perform_node_search, mbind, prog_bind, get.
  destruct (Z.eqb_spec (m_node_search_serial m) CLM_SLMP_SERIAL_NONE) as [He|]; [|reflexivity].
  rewrite He in Hser. unfold is_u16, CLM_SLMP_SERIAL_NONE in Hser. lia.
Qed.

Lemma search_follows T q m : matches m q ->
  returns (run_call PerformNodeSearch (u32 T)) (fun _ => follows PerformNodeSearch T q m) m.
Proof.
  intros Hm. cbn [run_call]. returns_step. destruct (q_search q) as [|t] eqn:Hq.
  - eapply returns_mono; [exact (search_match m q T Hm Hq)|].
    intros sent m1 o1 (Hm1 & frame & _ & [Hc Hsend] & _). returns_step. rewrite app_nil_r.
    exists sent, None. split; [discriminate|]. cbn [may_start spec_step]. rewrite Hq in *.
    split; [intros ->; split; [reflexivity|]; destruct Hsend as [->|[Hx _]]; [eauto|discriminate Hx]|].
    split; [reflexivity|]. cbn. auto.
  - eapply returns_done; [exact (search_refused _ q m t Hm Hq)|]. returns_step.
    apply follows_same; try reflexivity; [|exact Hm].
    intros db. cbn [spec_step]. rewrite Hq. destruct q as [s i]. cbn in Hq. subst s. reflexivity.
Qed.

Lemma set_ip_refused now q m mac ip netmask : matches m q ->
  may_start (SetSlaveIpaddr mac ip netmask) q = false ->
  clm_slmp_perform_set_ipaddr_request now mac ip netmask m = Done (false, m, []).
Proof.
  intros Hm Hmay. pose proof (proj2 (proj2 Hm)) as Hr. cbn in Hr.
  unfold clm_slmp_perform_set_ipaddr_request. unfold mbind, prog_bind, get.
  destruct (Z.eqb_spec (m_set_ip_request_serial m) CLM_SLMP_SERIAL_NONE) as [Hser|]; [|reflexivity].
  cbn [negb]. destruct (q_set_ip q) as [|t] eqn:Hq.
  - cbn [may_start] in Hmay. rewrite Hq in Hmay.
    assert (Hx : negb (ip =? CL_IPADDR_INVALID) && cl_utils_is_netmask_valid netmask = false)
      by (destruct (q_search q); exact Hmay).
    destruct (ip =? CL_IPADDR_INVALID); [reflexivity|]. cbn [negb andb] in Hx. rewrite Hx. reflexivity.
  - destruct Hr as [Hu _]. rewrite Hser in Hu. unfold is_u16, CLM_SLMP_SERIAL_NONE in Hu. lia.
Qed.

Lemma set_ip_follows T q m mac ip netmask : matches m q ->
  returns (run_call (SetSlaveIpaddr mac ip netmask) (u32 T))
    (fun _ => follows (SetSlaveIpaddr mac ip netmask) T q m) m.
Proof.
  intros Hm. cbn [run_call]. returns_step.
  destruct (may_start (SetSlaveIpaddr mac ip netmask) q) eqn:Hmay.
  - pose proof Hmay as Hx. cbn [may_start] in Hx. destruct (q_set_ip q) eqn:Hq;
      [|destruct (q_search q); discriminate Hx].
    assert (Hvalid : negb (ip =? CL_IPADDR_INVALID) && cl_utils_is_netmask_valid netmask = true)
      by (destruct (q_search q); exact Hx).
    apply andb_true_iff in Hvalid as [Hip%negb_true_iff%Z.eqb_neq Hnm].
    eapply returns_mono; [exact (set_ip_match m q T mac ip netmask Hm Hq Hip Hnm)|].
    intros sent m1 o1 (Hm1 & frame & _ & [Hc Hsend] & _). returns_step. rewrite app_nil_r.
    exists sent, None. split; [discriminate|]. rewrite Hmay. cbn [spec_step].
    split; [intros ->; split; [reflexivity|]; destruct Hsend as [->|[Hy _]]; [eauto|discriminate Hy]|].
    split; [reflexivity|]. auto.
  - eapply returns_done; [exact (set_ip_refused _ q m mac ip netmask Hm Hmay)|]. returns_step.
    exists false, None. split; [discriminate|]. split; [discriminate|].
    split; [intros []; reflexivity|]. cbn [spec_step]. destruct q as [s []]; auto.
Qed.

Lemma call_follows c T q m : matches m q -> call_ok cfg c ->
  in_time T (q_search q) -> in_time T (q_set_ip q) ->
  returns (run_call c (u32 T)) (fun _ => follows c T q m) m.
Proof.
  intros Hm Hc Hts Hti.
  assert (Hleaves : forall P : clm_prog unit, leaves_slmp P ->
    (forall db, spec_step cfg db false None c T q = (q, [])) -> returns P (fun _ => follows c T q m) m).
  { intros P HP Hspec. eapply returns_mono; [exact (leaves_match P m q HP Hm)|].
    intros [] m' o (Hm' & Ho & Hs). exact (follows_same c T q m m' o Hspec Hm' Ho Hs). }
  destruct c as [sq a cq|g d n v|g d n v|running stopped|g d e|g d f| | |mac ip netmask|area g off data];
    try (apply Hleaves; [apply outside_slmp|intros db; reflexivity]; cbn [run_call]).
  - apply periodic_follows; try assumption. apply Hc.
  - apply (leaves_settings g d n v 0 false false false).
  - apply (leaves_settings g d n false v false false false).
  - apply (leaves_settings 0 0 0 false 0 running stopped false).
  - apply leaves_bind; [exact _|apply (leaves_settings g d 0 false 0 false false e)|]. intros b. apply leaves_ret; exact _.
  - apply leaves_bind; [exact _|apply (leaves_settings g d 0 false 0 false false f)|]. intros b. apply leaves_ret; exact _.
  - apply (leaves_settings 0 0 0 false 0 false false false).
  - exact (search_follows T q m Hm).
  - exact (set_ip_follows T q m mac ip netmask Hm).
  - apply leaves_store_area.
Qed.

(** ** The start *)

(** What the start keeps on its way. *)
Definition preparing (m : clm) : Prop := m_config m = cfg /\ bytes (m_slmp_receivebuf m).

Lemma slmp_init_match m : preparing m ->
  returns clm_slmp_init (fun ok m' _ => ok = true -> matches m' (Requests Idle Idle)) m.
Proof.
  intros [Hc Hb]. unfold clm_slmp_init. do 3 returns_step. returns_step. returns_step. returns_step.
  destruct (Z.eqb_spec (clal_udp_open CL_IPADDR_ANY CL_SLMP_PORT) (-1)) as [|Hk];
    returns_steps; [discriminate|]. intros _. split.
  - split; [exact Hc|unfold is_u16; cbn; lia|exact Hb|exact Hk].
  - split; split; reflexivity.
Qed.

Lemma eth_init_prepares m : preparing m ->
  returns clm_master_eth_init (fun _ m' _ => preparing m') m.
Proof.
  intros Hp. unfold clm_master_eth_init. returns_step. returns_step.
  destruct (cl_eth_get_network_settings _) as [[[i n] mac]|]; returns_steps; exact Hp.
Qed.

Lemma master_init_match fs directory now m :
  returns (clm_master_init fs directory (Some cfg) now)
    (fun ok m' _ => ok = true -> matches m' (Requests Idle Idle)) m.
Proof.
  unfold clm_master_init. returns_step. returns_step.
  destruct (negb _); [returns_step; discriminate|]. destruct (negb _); [returns_step; discriminate|].
  do 2 returns_step. returns_step. apply returns_lift. intros loaded _. do 2 returns_step. returns_step.
  match goal with |- returns _ _ ?s => set (m1 := s) end.
  assert (Hp : preparing m1) by (split; [reflexivity|apply bytes_zeros]). clearbody m1.
  eapply returns_mono; [exact (eth_init_prepares m1 Hp)|]. intros ok m2 o2 Hp2.
  destruct (negb ok); [returns_step; discriminate|]. destruct (negb _); [returns_step; discriminate|].
  returns_step. eapply returns_mono; [apply returns_leaves, leaves_init|]. intros ok3 m3 o3 [Hp3 _].
  destruct (negb ok3); [returns_step; discriminate|].
  eapply returns_mono; [apply slmp_init_match|].
  - split; [rewrite (f_equal p_config Hp3 : m_config m3 = m_config m2); apply Hp2|].
    rewrite (f_equal p_buffer Hp3 : m_slmp_receivebuf m3 = m_slmp_receivebuf m2). apply Hp2.
  - intros ok4 m4 o4 Hend. exact Hend.
Qed.

End Configured.

Context (clock_ok : forall now, is_u64 (clal_get_unix_timestamp_ms now)).

(** C11: The master's requests refine their abstract specification: a node
    search and a change of an IP address are each idle or running since some
    time.  A started master has both idle.  In a reachable master every call
    does what the specification allows: a request that runs refuses another
    one and then nothing is sent; one that starts sends exactly one message;
    invalid arguments start nothing; a running request is confirmed to the
    application exactly once, if it has registered the callback, by the
    periodic function - at the end of its
    period with what was found or as timed out, or, for an IP address, before
    that by the answer of the slave - and then it is idle again; nothing else
    confirms, and nothing else sends.  Times are unbounded; the periodic
    function must run once in 35 minutes. *)
Theorem requests_refine_specification cfg : cfg_types cfg ->
  (forall fs directory now m0 m o,
     clm_master_init fs directory (Some cfg) now m0 = Done (true, m, o) ->
     matches cfg m (Requests Idle Idle)) /\
  (forall c T q m, master_reachable cfg m -> matches cfg m q -> call_ok cfg c ->
     in_time T (q_search q) -> in_time T (q_set_ip q) ->
     exists m' o, run_call c (u32 T) m = Done (tt, m', o) /\ follows cfg c T q m m' o).
Proof.
  intros Hty. split.
  - intros fs directory now m0 m o Hrun. exact (master_init_match cfg fs directory now m0 _ _ _ Hrun eq_refl).
  - intros c T q m Hreach Hm Hc Hts Hti.
    destruct (call_runs clock_ok cfg c (u32 T) m Hty Hreach Hc) as (m' & o & Hrun & _).
    exists m', o. split; [exact Hrun|]. exact (call_follows cfg c T q m Hm Hc Hts Hti _ _ _ Hrun).
Qed.

End Requests.

(** ** Example: a node search of [SampleMaster] *)

Section RequestsWitness.
Import SampleHost SampleMasterEnv SampleFiles SampleMaster.

(** The first search starts. *)
Lemma requests_refine_specification_witness :
  exists m' o sent answer,
    run_call PerformNodeSearch (u32 5000) init = Done (tt, m', o) /\
    matches cfg m' (spec_step cfg (m_node_search_db init) sent answer PerformNodeSearch 5000
                      (Requests Idle Idle)).1 /\
    (sent = true -> exists message, slmp_sends o = [message]).
Proof.
  destruct (requests_refine_specification clock_ok cfg cfg_typed) as [Hinit Hcall].
  destruct (after_runs (clm_master_init empty "/var/clink" (Some cfg) 1000) clm_zero id)
    as ([] & o0 & Hrun0 & Ha); [vm_compute; reflexivity| |discriminate Ha].
  destruct (Hcall PerformNodeSearch 5000 (Requests Idle Idle) init init_reachable
    (Hinit _ _ _ _ _ _ Hrun0) I I I) as (m' & o & Hrun & sent & answer & _ & Hsent & _ & Hm & _).
  exists m', o, sent, answer. split; [exact Hrun|]. split; [exact Hm|]. apply Hsent.
Defined.
End RequestsWitness.
