(* ===== verification/MasterSockets.v ===== *)
(** * The sockets of the master

    Which sockets are open in the life of a master, from its start to its
    exit: between two calls only the ones of the instance, and none after the
    exit. *)

From Stdlib Require Import String.
From S2P Require Import Prelude Packed Signals Timer Limiter Util Types Iefb File FileFacts.
From S2P Require Import Slmp SlmpFacts Master MasterIefb MasterConfig MasterSlmp MasterInv.
From S2P Require Import MasterSettings MasterLeaves MasterReach MasterProps MasterRequests.

#[local] Open Scope Z_scope.

Section MasterSockets.
Context `{ClmOptions, Clal, ClalNet, Host, ClalClock, FileOptions, ClalFileOk}.

(** ** Definitions *)

(** [held] are the sockets that are open after the outputs [o]. *)
Definition leaves_open (o : list clm_output) (held : list Z) : Prop :=
  omap opened o ≡ₚ omap closed o ++ held.

(** The sockets of an instance. *)
Definition sockets_of (m : clm) : list Z :=
  m_cciefb_socket m ::
  (if mc_use_separate_arbitration_socket (m_config m) then [m_cciefb_arbitration_socket m] else []) ++
  [m_slmp_receive_socket m].

(** The life of an instance with all its outputs. *)
Inductive master_life (cfg : clm_cfg) : clm -> list clm_output -> Prop :=
| life_init fs directory now m0 m o :
    clm_master_init fs directory (Some cfg) now m0 = Done (true, m, o) -> master_life cfg m o
| life_call c now m m' o o' :
    master_life cfg m o -> call_ok cfg c -> run_call c now m = Done (tt, m', o') ->
    master_life cfg m' (o ++ o').

(** ** Lemmas *)

Definition sockets_view (m : clm) : clm_cfg * (Z * Z * Z) :=
  (m_config m, (m_cciefb_socket m, m_cciefb_arbitration_socket m, m_slmp_receive_socket m)).

Abbreviation keeps_sockets := (leaves sockets_view balanced).

Lemma same_sockets m m' : sockets_view m' = sockets_view m -> sockets_of m' = sockets_of m.
Proof. intros [= Ec E1 E2 E3]. unfold sockets_of. rewrite Ec, E1, E2, E3. reflexivity. Qed.

Lemma balanced_leaves_open o o' held : leaves_open o held -> balanced o' ->
  leaves_open (o ++ o') held.
Proof.
  unfold leaves_open, balanced. intros Ho Ho'. rewrite !omap_app.
  rewrite (Permutation_app Ho Ho'), <- !app_assoc.
  apply Permutation_app_head, Permutation_app_comm.
Qed.

Lemma quiet_balanced o : none_of outside_output o -> omap opened o = [] /\ omap closed o = [].
Proof.
  unfold none_of. induction o as [|x o IH]; [split; reflexivity|].
  destruct x; cbn; try discriminate; exact IH.
Qed.

Lemma outside_keeps {A} (P : clm_prog A) : leaves_outside P -> keeps_sockets P.
Proof.
  apply leaves_weaken.
  - intros m m' Hm. injection Hm as Ec E1 E2 E3 E4 E5 E6 E7 E8 E9 E10 E11 E12 E13 E14.
    unfold sockets_view. congruence.
  - intros o Ho. unfold balanced. destruct (quiet_balanced o Ho) as [-> ->]. reflexivity.
Qed.

(** *** Every call *)

Lemma slmp_keeps {A} (P : clm_prog A) : leaves_cyclic P -> keeps_sockets P.
Proof.
  apply leaves_weaken; [|intros o Ho; apply Ho].
  intros m m' Hm. injection Hm as Ec Eg Et E1 E2 E3. unfold sockets_view. congruence.
Qed.

Lemma call_keeps c now : keeps_sockets (run_call c now).
Proof.
  pose proof (fun g d n v w r s e => leaves_settings g d n v w r s e) as Hs.
  destruct c as [sq a cq|g d n v|g d n v|running stopped|g d e|g d f| | |mac ip netmask|area g off data];
    cbn [run_call].
  - apply leaves_bind; [exact _|apply slmp_keeps, (slmp_leaves_cyclic now [] 0 0 sq)|intros []].
    apply outside_keeps, leaves_periodic.
  - apply outside_keeps, (Hs g d n v 0 false false false).
  - apply outside_keeps, (Hs g d n false v false false false).
  - apply outside_keeps, (Hs 0 0 0 false 0 running stopped false).
  - apply leaves_bind; [exact _|apply outside_keeps, (Hs g d 0 false 0 false false e)|].
    intros b. apply leaves_ret; exact _.
  - apply leaves_bind; [exact _|apply outside_keeps, (Hs g d 0 false 0 false false f)|].
    intros b. apply leaves_ret; exact _.
  - apply outside_keeps, (Hs 0 0 0 false 0 false false false).
  - apply leaves_bind; [exact _|apply slmp_keeps, (slmp_leaves_cyclic now [] 0 0 [])|]. intros b. apply leaves_ret; exact _.
  - apply leaves_bind; [exact _|apply slmp_keeps, (slmp_leaves_cyclic now mac ip netmask [])|].
    intros b. apply leaves_ret; exact _.
  - apply outside_keeps, leaves_store_area.
Qed.

(** *** Start and exit *)

Lemma start_keeps now f : (forall m, sockets_view (f m) = sockets_view m) ->
  keeps_sockets (modify f;; clm_iefb_device_fsm_tables_init;; clm_iefb_group_fsm_tables_init;;
    start_groups now;; mret true).
Proof.
  intros Hf. apply leaves_bind; [exact _|apply leaves_modify; [exact _|exact Hf]|intros []].
  apply outside_keeps. pose proof leaves_group_events as Hevents.
  unfold start_groups, clm_iefb_handle_new_config, clm_iefb_device_fsm_tables_init,
    clm_iefb_group_fsm_tables_init. leaves.
Qed.

(** The sockets of the cyclic communication. *)
Definition cciefb_sockets (m : clm) : list Z :=
  m_cciefb_socket m ::
  (if mc_use_separate_arbitration_socket (m_config m) then [m_cciefb_arbitration_socket m] else []).

Lemma same_cciefb_sockets m m' : sockets_view m' = sockets_view m ->
  cciefb_sockets m' = cciefb_sockets m.
Proof. intros [= Ec E1 E2 E3]. unfold cciefb_sockets. rewrite Ec, E1, E2. reflexivity. Qed.

Lemma started_open now f m o : (forall m, sockets_view (f m) = sockets_view m) ->
  leaves_open o (cciefb_sockets m) ->
  returns (modify f;; clm_iefb_device_fsm_tables_init;; clm_iefb_group_fsm_tables_init;;
    start_groups now;; mret true)
    (fun ok m' o' => ok = true -> leaves_open (o ++ o') (cciefb_sockets m')) m.
Proof.
  intros Hf Ho b m' o' Hrun _.
  destruct (leaves_run _ _ _ m b m' o' (start_keeps now f Hf) Hrun) as [Hm Hb].
  rewrite (same_cciefb_sockets m m' Hm). apply balanced_leaves_open; assumption.
Qed.

Lemma iefb_init_opens now m :
  returns (clm_iefb_init now) (fun ok m' o => ok = true -> leaves_open o (cciefb_sockets m')) m.
Proof.
  unfold clm_iefb_init. returns_step. returns_step.
  set (m1 := m <| m_errorlimiter ::= _ |>). returns_step. returns_step. cbv zeta.
  set (ip := mc_master_id (m_config m1)). set (ip' := m_iefb_broadcast_ip m1).
  set (separate := mc_use_separate_arbitration_socket (m_config m1)).
  assert (Hsep : mc_use_separate_arbitration_socket (m_config m1) = separate) by reflexivity.
  clearbody ip ip' separate m1. do 4 returns_step.
  destruct (clal_udp_open ip CL_CCIEFB_PORT =? -1) eqn:Hk; [returns_step; discriminate|].
  returns_step. destruct separate; unfold when.
  - do 3 returns_step. cbn [andb].
    destruct (clal_udp_open ip' CL_CCIEFB_PORT =? -1) eqn:Hk'; [returns_step; discriminate|].
    eapply returns_mono; [eapply (started_open now _ _ [ClmCciefbOpen ip CL_CCIEFB_PORT;
      ClmCciefbOpen ip' CL_CCIEFB_PORT]); [reflexivity|]|].
    + unfold leaves_open, cciefb_sockets. cbn -[Z.eqb]. rewrite Hk, Hk', Hsep. reflexivity.
    + intros b m2 o Hend. exact Hend.
  - returns_step. cbn [andb].
    eapply returns_mono; [eapply (started_open now _ _ [ClmCciefbOpen ip CL_CCIEFB_PORT]);
      [reflexivity|]|].
    + unfold leaves_open, cciefb_sockets. cbn -[Z.eqb]. rewrite Hk, Hsep. reflexivity.
    + intros b m2 o Hend. exact Hend.
Qed.

Lemma one_more_open o held x socket : leaves_open o held -> opened x = Some socket ->
  closed x = None -> leaves_open (o ++ [x]) (held ++ [socket]).
Proof.
  intros Ho Hx Hc. unfold leaves_open in *. rewrite !omap_app. cbn. rewrite Hx, Hc, app_nil_r, app_assoc.
  exact (Permutation_app_tail [socket] Ho).
Qed.

Lemma slmp_init_opens m o : leaves_open o (cciefb_sockets m) ->
  returns clm_slmp_init (fun ok m' o' => ok = true -> leaves_open (o ++ o') (sockets_of m')) m.
Proof.
  intros Ho. unfold clm_slmp_init. do 6 returns_step.
  destruct (clal_udp_open CL_IPADDR_ANY CL_SLMP_PORT =? -1) eqn:Hk; returns_steps; [discriminate|].
  intros _. apply (one_more_open o (cciefb_sockets m)); [exact Ho| |reflexivity].
  cbn -[Z.eqb]. rewrite Hk. reflexivity.
Qed.

Lemma init_opens cfg fs directory now m0 :
  returns (clm_master_init fs directory (Some cfg) now)
    (fun ok m o => ok = true -> leaves_open o (sockets_of m)) m0.
Proof.
  unfold clm_master_init. do 2 returns_step.
  destruct (negb _); [returns_step; discriminate|]. destruct (negb _); [returns_step; discriminate|].
  do 2 returns_step. returns_step. apply returns_lift. intros loaded _. do 2 returns_step. returns_step.
  assert (Heth : forall Q m, (forall ok m', Q ok m' []) -> returns clm_master_eth_init Q m).
  { intros Q m HQ. unfold clm_master_eth_init. do 2 returns_step.
    destruct (cl_eth_get_network_settings _) as [[[i n] mac]|]; returns_steps; apply HQ. }
  apply Heth. intros ok m2. destruct (negb ok); [returns_step; discriminate|].
  destruct (negb _); [returns_step; discriminate|]. returns_step.
  eapply returns_mono; [apply iefb_init_opens|]. intros ok3 m3 o3 Ho3.
  destruct ok3; cbn [negb]; cbv iota; [|returns_step; discriminate].
  eapply returns_mono; [apply slmp_init_opens, Ho3; reflexivity|].
  intros ok4 m4 o4 Ho4. exact Ho4.
Qed.

Lemma exit_closes m :
  wp clm_master_exit (fun _ _ o => omap opened o = [] /\ omap closed o ≡ₚ sockets_of m) m.
Proof.
  unfold clm_master_exit, clm_slmp_exit, clm_iefb_exit, clm_master_eth_exit. wp_steps.
  unfold sockets_of.
  change (m_config (m <| m_slmp_receive_socket := -1 |>)) with (m_config m).
  change (m_cciefb_socket (m <| m_slmp_receive_socket := -1 |>)) with (m_cciefb_socket m).
  change (m_cciefb_arbitration_socket (m <| m_slmp_receive_socket := -1 |>))
    with (m_cciefb_arbitration_socket m).
  destruct (mc_use_separate_arbitration_socket (m_config m)); unfold when; wp_steps; cbn;
    (split; [reflexivity|]).
  - exact (Permutation_app_comm [_] [_; _]).
  - apply perm_swap.
Qed.

Lemma life_opens cfg m o : master_life cfg m o -> leaves_open o (sockets_of m).
Proof.
  induction 1 as [fs directory now m0 m o Hrun|c now m m' o o' _ IH _ Hrun].
  - exact (init_opens cfg fs directory now m0 _ _ _ Hrun eq_refl).
  - destruct (leaves_run _ _ _ m tt m' o' (call_keeps c now) Hrun) as [Hm Hb].
    rewrite (same_sockets m m' Hm). apply balanced_leaves_open; assumption.
Qed.

(** C23: No socket leaks.  Between any two calls in the life of a master the
    sockets that it has opened and not yet closed are exactly those of the
    instance, the ones for cyclic data and SLMP and the one for arbitration
    if it is used: every request it sends through a socket of its own gives
    that back.  The exit always runs to its end and closes exactly these,
    so over a whole life every socket is closed as often as it was opened. *)
Theorem master_sockets_released cfg m o : master_life cfg m o ->
  leaves_open o (sockets_of m) /\
  exists ok m' o', clm_master_exit m = Done (ok, m', o') /\ balanced (o ++ o').
Proof.
  intros Hlife. pose proof (life_opens cfg m o Hlife) as Ho. split; [exact Ho|].
  pose proof (exit_closes m) as Hw.
  apply wp_done in Hw as (ok & m' & o' & Hrun & Hopen & Hclose).
  exists ok, m', o'. split; [exact Hrun|]. unfold balanced, leaves_open in *.
  rewrite !omap_app, Hopen, app_nil_r, Ho, Hclose. reflexivity.
Qed.
End MasterSockets.

(** ** Examples *)

Section SocketWitness.
Import SampleHost SampleMasterEnv SampleFiles SampleMaster.

Lemma master_sockets_released_witness : exists o,
  leaves_open o (sockets_of scanning) /\
  exists ok m' o', clm_master_exit scanning = Done (ok, m', o') /\ balanced (o ++ o').
Proof.
  destruct (after_runs (clm_master_init empty "/var/clink" (Some cfg) 1000) clm_zero id)
    as ([] & o & Hrun & Ha); [vm_compute; reflexivity| |discriminate Ha].
  destruct (after_runs (run_call quiet_call 200000) init (fun _ => true)) as ([] & o' & Hrun' & _);
    [vm_compute; reflexivity|].
  exists (o ++ o'). apply (master_sockets_released cfg). eapply life_call; [|exact quiet_call_ok|exact Hrun'].
  eapply life_init. exact Hrun.
Defined.
End SocketWitness.

(** When the port of SLMP is in use, the start fails at its last step; the
    socket for cyclic data that it has opened before stays open. *)
Section FailedStart.
Import SampleHost SampleMasterEnv SampleFiles.

#[local] Instance slmp_port_in_use : Clal :=
  { clal_udp_open := fun _ port => if port =? CL_SLMP_PORT then -1 else 7;
    clal_udp_sendto := fun _ _ _ m => Z.of_nat (List.length m) }.

Definition start_result : option (bool * list Z * list Z) :=
  match clm_master_init empty "/var/clink" (Some SampleMaster.cfg) 1000 clm_zero with
  | Done (ok, _, o) => Some (ok, omap opened o, omap closed o)
  | AssertFailed => None
  end.

Lemma failed_start_keeps_socket : start_result = Some (false, [7], []).
Proof. vm_compute. reflexivity. Qed.
End FailedStart.
