(* ===== verification/MasterApi.v ===== *)
(** * The API of the master (src/src/master/clm_api.c)

    Every function of the file, on handles; what an application can do with
    them, and that whatever it does every result has the range that the
    types and the documentation of the API declare. *)

From Stdlib Require Import String.
From S2P Require Import Prelude Api Packed Signals Timer Limiter Util Types Iefb File FileFacts.
From S2P Require Import Slmp SlmpFacts Master MasterIefb MasterConfig MasterSlmp MasterInv.
From S2P Require Import MasterSafety MasterResponse MasterSettings MasterReach MasterProps.

#[local] Open Scope Z_scope.

(** ** Definitions *)

Abbreviation clm_handle_prog := (handle_prog clm clm_output).

Section MasterApi.
Context `{ClmOptions, Clal, ClalNet, Host, ClalClock, FileOptions, ClalFileOk}.

(** [now] is what [os_get_current_time_us] returns; [fs] are the files of the
    platform. *)
Definition clm_init_only (fs : file_system) (file_directory : string) (cfg : option clm_cfg)
  (now : Z) : clm_handle_prog Z :=
  null_returns (-1) (returns_int (clm_master_init fs file_directory cfg now)).

Definition clm_init (fs : file_system) (file_directory : string) (memory_left : bool)
  (cfg : option clm_cfg) (now : Z) : outcome (option clm * list clm_output) :=
  allocate_and_init clm_zero memory_left (clm_init_only fs file_directory cfg now).

Definition clm_exit : clm_handle_prog Z := null_returns (-1) (returns_int clm_master_exit).

(** What the sockets have received is an argument, as in [clm_periodic]. *)
Definition clm_handle_periodic (slmp_queue : list datagram) (arbitration : option datagram)
  (cciefb_queue : list datagram) (now : Z) : clm_handle_prog unit :=
  asserted (clm_slmp_periodic slmp_queue now;; clm_iefb_periodic arbitration cciefb_queue now).

Definition clm_set_master_application_status (running stopped_by_user : bool)
  : clm_handle_prog unit :=
  asserted (clm_iefb_set_master_application_status running stopped_by_user).
Definition clm_get_master_application_status : clm_handle_prog Z :=
  asserted (query clm_iefb_get_master_application_status).

Definition clm_set_slave_communication_status (group_index slave_device_index : Z)
  (enabled : bool) : clm_handle_prog Z :=
  asserted (returns_int
    (clm_iefb_set_slave_communication_status group_index slave_device_index enabled)).
Definition clm_force_cyclic_transmission_bit (group_index slave_device_index : Z) (force : bool)
  : clm_handle_prog Z :=
  asserted (returns_int
    (clm_iefb_force_cyclic_transmission_bit group_index slave_device_index force)).

Definition clm_clear_statistics : clm_handle_prog unit := asserted clm_iefb_statistics_clear_all.

(** The status functions return 0 and fill in the details, or -1 ([None]). *)
Definition clm_get_master_status : clm_handle_prog (option clm_master_status_details) :=
  null_returns None (query (fun clm => Some (clm_iefb_get_master_status clm))).
Definition clm_get_group_status (group_index : Z)
  : clm_handle_prog (option clm_group_status_details) :=
  null_returns None (query (fun clm => clm_iefb_get_group_status clm group_index)).
Definition clm_get_device_connection_details (group_index slave_device_index : Z)
  : clm_handle_prog (option clm_slave_device_data) :=
  null_returns None (query (fun clm =>
    clm_iefb_get_device_connection_details clm group_index slave_device_index)).

Definition clm_perform_node_search (now : Z) : clm_handle_prog Z :=
  asserted (returns_int (clm_slmp_perform_node_search now)).
Definition clm_get_node_search_result : clm_handle_prog clm_node_search_db :=
  asserted (query clm_slmp_get_node_search_result).
Definition clm_set_slave_ipaddr (now : Z) (slave_mac_addr : list Z)
  (slave_new_ip_addr slave_new_netmask : Z) : clm_handle_prog Z :=
  asserted (returns_int (clm_slmp_perform_set_ipaddr_request now slave_mac_addr slave_new_ip_addr
    slave_new_netmask)).

(** The pointer, [None] for [NULL], and the number of stations behind it. *)
Definition clm_get_first_rx_area (group_index : Z) : clm_handle_prog (option area_pointer * Z) :=
  null_returns (None, 0) (query (fun clm => clm_iefb_get_first_rx_area clm group_index)).
Definition clm_get_first_ry_area (group_index : Z) : clm_handle_prog (option area_pointer * Z) :=
  null_returns (None, 0) (query (fun clm => clm_iefb_get_first_ry_area clm group_index)).
Definition clm_get_first_rwr_area (group_index : Z) : clm_handle_prog (option area_pointer * Z) :=
  null_returns (None, 0) (query (fun clm => clm_iefb_get_first_rwr_area clm group_index)).
Definition clm_get_first_rww_area (group_index : Z) : clm_handle_prog (option area_pointer * Z) :=
  null_returns (None, 0) (query (fun clm => clm_iefb_get_first_rww_area clm group_index)).

Definition clm_get_first_device_rx_area (group_index slave_device_index : Z)
  : clm_handle_prog (option area_pointer * Z) :=
  null_returns (None, 0) (checked_query (fun clm =>
    clm_iefb_get_first_device_rx_area clm group_index slave_device_index)).
Definition clm_get_first_device_ry_area (group_index slave_device_index : Z)
  : clm_handle_prog (option area_pointer * Z) :=
  null_returns (None, 0) (checked_query (fun clm =>
    clm_iefb_get_first_device_ry_area clm group_index slave_device_index)).
Definition clm_get_first_device_rwr_area (group_index slave_device_index : Z)
  : clm_handle_prog (option area_pointer * Z) :=
  null_returns (None, 0) (checked_query (fun clm =>
    clm_iefb_get_first_device_rwr_area clm group_index slave_device_index)).
Definition clm_get_first_device_rww_area (group_index slave_device_index : Z)
  : clm_handle_prog (option area_pointer * Z) :=
  null_returns (None, 0) (checked_query (fun clm =>
    clm_iefb_get_first_device_rww_area clm group_index slave_device_index)).

Definition clm_get_rx_bit (group_index slave_device_index number : Z) : clm_handle_prog bool :=
  asserted (clm_iefb_get_rx_bit group_index slave_device_index number).
Definition clm_set_ry_bit (group_index slave_device_index number : Z) (value : bool)
  : clm_handle_prog unit :=
  asserted (clm_iefb_set_ry_bit group_index slave_device_index number value).
Definition clm_get_ry_bit (group_index slave_device_index number : Z) : clm_handle_prog bool :=
  asserted (clm_iefb_get_ry_bit group_index slave_device_index number).
Definition clm_get_rwr_value (group_index slave_device_index number : Z) : clm_handle_prog Z :=
  asserted (clm_iefb_get_rwr_value group_index slave_device_index number).
Definition clm_set_rww_value (group_index slave_device_index number value : Z)
  : clm_handle_prog unit :=
  asserted (clm_iefb_set_rww_value group_index slave_device_index number value).
Definition clm_get_rww_value (group_index slave_device_index number : Z) : clm_handle_prog Z :=
  asserted (clm_iefb_get_rww_value group_index slave_device_index number).

(** ** Calls, by the type of their results *)

Inductive clm_api : Type -> Type :=
| ApiHandlePeriodic (slmp_queue : list datagram) (arbitration : option datagram)
    (cciefb_queue : list datagram) : clm_api unit
| ApiSetMasterApplicationStatus (running stopped_by_user : bool) : clm_api unit
| ApiGetMasterApplicationStatus : clm_api Z
| ApiSetSlaveCommunicationStatus (g d : Z) (enabled : bool) : clm_api Z
| ApiForceCyclicTransmissionBit (g d : Z) (force : bool) : clm_api Z
| ApiClearStatistics : clm_api unit
| ApiGetMasterStatus : clm_api (option clm_master_status_details)
| ApiGetGroupStatus (g : Z) : clm_api (option clm_group_status_details)
| ApiGetDeviceConnectionDetails (g d : Z) : clm_api (option clm_slave_device_data)
| ApiPerformNodeSearch : clm_api Z
| ApiGetNodeSearchResult : clm_api clm_node_search_db
| ApiSetSlaveIpaddr (slave_mac_addr : list Z) (slave_new_ip_addr slave_new_netmask : Z) : clm_api Z
| ApiGetFirstArea (area : signal_area) (g : Z) : clm_api (option area_pointer * Z)
| ApiGetFirstDeviceArea (area : signal_area) (g d : Z) : clm_api (option area_pointer * Z)
| ApiGetRxBit (g d number : Z) : clm_api bool
| ApiSetRyBit (g d number : Z) (value : bool) : clm_api unit
| ApiGetRyBit (g d number : Z) : clm_api bool
| ApiGetRwrValue (g d number : Z) : clm_api Z
| ApiSetRwwValue (g d number value : Z) : clm_api unit
| ApiGetRwwValue (g d number : Z) : clm_api Z
| ApiStoreArea (area : signal_area) (g off : Z) (data : list Z) : clm_api unit.

Definition get_first_area (area : signal_area) : Z -> clm_handle_prog (option area_pointer * Z) :=
  match area with
  | AREA_RX => clm_get_first_rx_area
  | AREA_RY => clm_get_first_ry_area
  | AREA_RWR => clm_get_first_rwr_area
  | AREA_RWW => clm_get_first_rww_area
  end.
Definition get_first_device_area (area : signal_area)
  : Z -> Z -> clm_handle_prog (option area_pointer * Z) :=
  match area with
  | AREA_RX => clm_get_first_device_rx_area
  | AREA_RY => clm_get_first_device_ry_area
  | AREA_RWR => clm_get_first_device_rwr_area
  | AREA_RWW => clm_get_first_device_rww_area
  end.

Definition run_api {A} (c : clm_api A) (now : Z) : clm_handle_prog A :=
  match c in clm_api A return clm_handle_prog A with
  | ApiHandlePeriodic slmp_queue arbitration cciefb_queue =>
      clm_handle_periodic slmp_queue arbitration cciefb_queue now
  | ApiSetMasterApplicationStatus running stopped_by_user =>
      clm_set_master_application_status running stopped_by_user
  | ApiGetMasterApplicationStatus => clm_get_master_application_status
  | ApiSetSlaveCommunicationStatus g d enabled => clm_set_slave_communication_status g d enabled
  | ApiForceCyclicTransmissionBit g d force => clm_force_cyclic_transmission_bit g d force
  | ApiClearStatistics => clm_clear_statistics
  | ApiGetMasterStatus => clm_get_master_status
  | ApiGetGroupStatus g => clm_get_group_status g
  | ApiGetDeviceConnectionDetails g d => clm_get_device_connection_details g d
  | ApiPerformNodeSearch => clm_perform_node_search now
  | ApiGetNodeSearchResult => clm_get_node_search_result
  | ApiSetSlaveIpaddr mac ip netmask => clm_set_slave_ipaddr now mac ip netmask
  | ApiGetFirstArea area g => get_first_area area g
  | ApiGetFirstDeviceArea area g d => get_first_device_area area g d
  | ApiGetRxBit g d number => clm_get_rx_bit g d number
  | ApiSetRyBit g d number value => clm_set_ry_bit g d number value
  | ApiGetRyBit g d number => clm_get_ry_bit g d number
  | ApiGetRwrValue g d number => clm_get_rwr_value g d number
  | ApiSetRwwValue g d number value => clm_set_rww_value g d number value
  | ApiGetRwwValue g d number => clm_get_rww_value g d number
  | ApiStoreArea area g off data => asserted (store_area area g off data)
  end.

(** The call of the transition system behind a function that changes the
    instance. *)
Definition call_of {A} (c : clm_api A) : option master_call :=
  match c with
  | ApiHandlePeriodic slmp_queue arbitration cciefb_queue =>
      Some (MasterPeriodic slmp_queue arbitration cciefb_queue)
  | ApiSetMasterApplicationStatus running stopped_by_user =>
      Some (SetMasterApplicationStatus running stopped_by_user)
  | ApiSetSlaveCommunicationStatus g d enabled => Some (SetSlaveCommunicationStatus g d enabled)
  | ApiForceCyclicTransmissionBit g d force => Some (ForceCyclicTransmissionBit g d force)
  | ApiClearStatistics => Some ClearStatistics
  | ApiPerformNodeSearch => Some PerformNodeSearch
  | ApiSetSlaveIpaddr mac ip netmask => Some (SetSlaveIpaddr mac ip netmask)
  | ApiSetRyBit g d number value => Some (SetRyBit g d number value)
  | ApiSetRwwValue g d number value => Some (SetRwwValue g d number value)
  | ApiStoreArea area g off data => Some (StoreArea area g off data)
  | _ => None
  end.

(** What the documentation of the API demands of the caller. *)
Definition api_args_ok (cfg : clm_cfg) {A} (c : clm_api A) : Prop :=
  match c with
  | ApiGetGroupStatus g | ApiGetFirstArea _ g => 0 <= g
  | ApiGetDeviceConnectionDetails g d | ApiGetFirstDeviceArea _ g d => 0 <= g /\ 0 <= d
  | ApiGetRxBit g d number | ApiGetRyBit g d number =>
      has_device cfg g d /\ bit_number cfg g d number
  | ApiGetRwrValue g d number | ApiGetRwwValue g d number =>
      has_device cfg g d /\ register_number cfg g d number
  | c => match call_of c with Some call => call_ok cfg call | None => True end
  end.

(** *** The ranges of the results *)

Definition zero_iff (P : Prop) (result : Z) : Prop :=
  (result = 0 /\ P) \/ (result = -1 /\ ~ P).

Definition group_status_ok (cfg : clm_cfg) (g : Z) (details : clm_group_status_details) : Prop :=
  gd_group_index details = g /\
  gd_total_occupied details = total_stations (setting_of_group cfg g) /\
  1 <= gd_total_occupied details <= CLM_MAX_OCCUPIED_STATIONS_PER_GROUP /\
  is_u16 (gd_frame_sequence_no details) /\ is_u16 (gd_cyclic_transmission_state details) /\
  gd_group_state details <> CLM_GROUP_STATE_MASTER_DOWN /\
  gd_group_state details <> CLM_GROUP_STATE_LAST.

Definition device_details_ok (cfg : clm_cfg) (g d : Z) (device : clm_slave_device_data) : Prop :=
  d_device_index device = d /\ 1 <= d_slave_station_no device /\
  d_slave_station_no device + device_size cfg g d - 1 <= total_stations (setting_of_group cfg g) /\
  d_device_state device <> CLM_DEVICE_STATE_MASTER_DOWN /\
  d_device_state device <> CLM_DEVICE_STATE_LAST /\ is_u16 (d_timeout_count device).

(** The pointer is to station [first] of the area of the group, and [n]
    stations from there on lie inside. *)
Definition stations_inside_area (cfg : clm_cfg) (area : signal_area) (g : Z) (m : clm)
  (first : Z) (pointer : option area_pointer) (n : Z) : Prop :=
  pointer = Some (AreaPointer area g first) /\ 0 <= first /\ 1 <= n /\
    first + n <= total_stations (setting_of_group cfg g) /\
    station_size area * (first + n) <=
      Z.of_nat (List.length (area_of area (g_memory_area (group_at m g)))).

(** The result [r] of a call on an instance [m]. *)
Definition api_result_ok (cfg : clm_cfg) {A} (c : clm_api A) (m : clm) : A -> Prop :=
  match c in clm_api A return A -> Prop with
  | ApiGetMasterApplicationStatus => fun r => 0 <= r < 2 ^ mc_protocol_ver cfg
  | ApiSetSlaveCommunicationStatus g d _ | ApiForceCyclicTransmissionBit g d _ =>
      zero_iff (has_device cfg g d)
  | ApiGetMasterStatus => fun r => exists details, r = Some details /\ is_u16 (md_parameter_no details)
  | ApiGetGroupStatus g => fun r =>
      match r with Some details => has_group cfg g /\ group_status_ok cfg g details
      | None => ~ has_group cfg g end
  | ApiGetDeviceConnectionDetails g d => fun r =>
      match r with Some device => has_device cfg g d /\ device_details_ok cfg g d device
      | None => ~ has_device cfg g d end
  | ApiPerformNodeSearch | ApiSetSlaveIpaddr _ _ _ => fun r => r = 0 \/ r = -1
  | ApiGetNodeSearchResult => search_db_ok
  | ApiGetFirstArea area g => fun '(pointer, n) =>
      (has_group cfg g /\ n = total_stations (setting_of_group cfg g) /\
         stations_inside_area cfg area g m 0 pointer n) \/
      (~ has_group cfg g /\ pointer = None /\ n = 0)
  | ApiGetFirstDeviceArea area g d => fun '(pointer, n) =>
      (has_device cfg g d /\ n = device_size cfg g d /\
         stations_inside_area cfg area g m (device_pos cfg g d) pointer n) \/
      (~ has_device cfg g d /\ pointer = None /\ n = 0)
  | ApiGetRwrValue _ _ _ | ApiGetRwwValue _ _ _ => is_u16
  | _ => fun _ => True
  end.

(** What a call on [NULL] returns; [None] when it stops at an assertion. *)
Definition null_result {A} (c : clm_api A) : option A :=
  match c in clm_api A return option A with
  | ApiGetMasterStatus => Some None
  | ApiGetGroupStatus _ => Some None
  | ApiGetDeviceConnectionDetails _ _ => Some None
  | ApiGetFirstArea _ _ | ApiGetFirstDeviceArea _ _ _ => Some (None, 0)
  | _ => None
  end.

(** ** Lemmas *)

Context (clock_ok : forall now, is_u64 (clal_get_unix_timestamp_ms now)).

Section Instance.
Context (cfg : clm_cfg) (cfg_ok : clm_config_ok cfg) (m : clm) (inv : master_inv cfg m).

Lemma group_missing g : 0 <= g ->
  (number_of_groups m <=? g) = true <-> ~ has_group cfg g.
Proof.
  intros Hg. rewrite (config_groups_eq cfg m inv), Z.leb_le. unfold has_group. lia.
Qed.

Lemma device_missing g d : 0 <= g -> 0 <= d -> no_such_device m g d = true <-> ~ has_device cfg g d.
Proof.
  intros Hg Hd. unfold no_such_device. rewrite orb_true_iff, (group_missing g Hg), Z.leb_le.
  rewrite (mb_config _ _ (proj1 inv)). unfold has_device, has_group. lia.
Qed.

Lemma total_of_group g : has_group cfg g ->
  g_total_occupied (group_at m g) = total_stations (setting_of_group cfg g) /\
  1 <= total_stations (setting_of_group cfg g) <= CLM_MAX_OCCUPIED_STATIONS_PER_GROUP.
Proof.
  intros Hg. split; [apply (gb_total _ _ _ (proj1 (proj2 inv g Hg)))|].
  apply (go_stations _ _ (cok_group _ cfg_ok g Hg)).
Qed.

Lemma stations_in_area area g first n : has_group cfg g -> 0 <= first -> 1 <= n ->
  first + n <= total_stations (setting_of_group cfg g) ->
  stations_inside_area cfg area g m first (Some (AreaPointer area g first)) n.
Proof.
  intros Hg Hf Hn Hfit. destruct (total_of_group g Hg) as [_ Ht].
  destruct (area_of_ok area _ (memory_of cfg m g inv Hg)) as [Hl _].
  assert (Hs : 0 <= station_size area) by (destruct area; discriminate).
  repeat (split; [first [reflexivity|assumption]|]). rewrite Hl. nia.
Qed.

Lemma first_area_ok area g : 0 <= g ->
  api_result_ok cfg (ApiGetFirstArea area g) m (first_area area m g).
Proof.
  intros Hg. cbn. unfold first_area. destruct (number_of_groups m <=? g) eqn:Hn.
  - right. split; [exact (proj1 (group_missing g Hg) Hn)|auto].
  - left. assert (Hgroup : has_group cfg g).
    { rewrite <- not_true_iff_false, (group_missing g Hg) in Hn. unfold has_group in *. lia. }
    destruct (total_of_group g Hgroup) as [-> Ht]. split; [exact Hgroup|]. split; [reflexivity|].
    apply stations_in_area; [exact Hgroup|lia..].
Qed.

Lemma first_device_area_ok area g d : 0 <= g -> 0 <= d ->
  exists r, first_device_area (first_area area m) m g d = Done r /\
    api_result_ok cfg (ApiGetFirstDeviceArea area g d) m r.
Proof.
  intros Hg Hd. unfold first_device_area. destruct (no_such_device m g d) eqn:Hn.
  - apply (device_missing g d Hg Hd) in Hn. rewrite (no_position cfg m g d inv Hg Hd Hn).
    eexists. split; [reflexivity|]. right. auto.
  - assert (Hgd : has_device cfg g d).
    { rewrite <- not_true_iff_false, (device_missing g d Hg Hd) in Hn.
      unfold has_device, has_group in *. lia. }
    rewrite (occupied_and_position cfg cfg_ok m g d inv Hgd).
    destruct (device_inside cfg cfg_ok g d Hgd) as (Hp & Hs & _). unfold first_area.
    destruct (number_of_groups m <=? g) eqn:Hgn; [destruct (proj1 (group_missing g Hg) Hgn), Hgd; assumption|].
    rewrite (proj2 (Z.eqb_neq _ _)) by lia. eexists. split; [reflexivity|]. left.
    pose proof (stations_inside cfg _ (cok_group _ cfg_ok g (proj1 Hgd)) d (proj2 Hgd)) as [_ Hfit].
    split; [exact Hgd|]. split; [reflexivity|].
    exact (stations_in_area area g _ _ (proj1 Hgd) Hp Hs Hfit).
Qed.

Lemma group_status_result g : 0 <= g ->
  api_result_ok cfg (ApiGetGroupStatus g) m (clm_iefb_get_group_status m g).
Proof.
  intros Hg. cbn. unfold clm_iefb_get_group_status. destruct (number_of_groups m <=? g) eqn:Hn.
  - exact (proj1 (group_missing g Hg) Hn).
  - assert (Hgroup : has_group cfg g).
    { rewrite <- not_true_iff_false, (group_missing g Hg) in Hn. unfold has_group in *. lia. }
    destruct (proj2 inv g Hgroup) as [[] Hc]. destruct (total_of_group g Hgroup) as [Ht Hr].
    split; [exact Hgroup|]. unfold group_status_ok. cbn. rewrite Ht.
    repeat (split; [first [assumption|apply Hr|reflexivity]|]). unfold group_control in Hc.
    destruct (g_group_state (group_at m g)); try contradiction; split; discriminate.
Qed.

Lemma device_details_result g d : 0 <= g -> 0 <= d ->
  api_result_ok cfg (ApiGetDeviceConnectionDetails g d) m
    (clm_iefb_get_device_connection_details m g d).
Proof.
  intros Hg Hd. cbn. unfold clm_iefb_get_device_connection_details.
  destruct (no_such_device m g d) eqn:Hn; [exact (proj1 (device_missing g d Hg Hd) Hn)|].
  assert (Hgd : has_device cfg g d).
  { rewrite <- not_true_iff_false, (device_missing g d Hg Hd) in Hn.
    unfold has_device, has_group in *. lia. }
  destruct (device_in_base cfg m g d Hgd inv) as [Hi Hs [Hst1 Hst2] _ _ Ht].
  pose proof (stations_inside cfg _ (cok_group _ cfg_ok g (proj1 Hgd)) d (proj2 Hgd)).
  split; [exact Hgd|]. unfold device_details_ok, device_size. rewrite Hs.
  repeat (split; [first [assumption|lia]|]). exact Ht.
Qed.

(** The functions that change a setting of a device. *)
Lemma device_setting_result g d (f : clm_slave_device_data -> clm_slave_device_data) :
  0 <= g -> 0 <= d -> exists b m',
    (clm ← get; if no_such_device clm g d then mret false else modify_device g d f;; mret true) m =
      Done (b, m', []) /\ zero_iff (has_device cfg g d) (int_of_success b).
Proof.
  intros Hg Hd. unfold mbind, prog_bind, get. destruct (no_such_device m g d) eqn:Hn.
  - eexists _, _. split; [reflexivity|]. right. split; [reflexivity|].
    exact (proj1 (device_missing g d Hg Hd) Hn).
  - eexists _, _. split; [reflexivity|]. left. split; [reflexivity|].
    rewrite <- not_true_iff_false, (device_missing g d Hg Hd) in Hn. unfold has_device, has_group in *.
    lia.
Qed.

Lemma register_result area g d n : area_ok 64 (area_of area (g_memory_area (group_at m g))) ->
  has_device cfg g d -> register_number cfg g d n ->
  exists v, get_area_value (device_area area) g d n m = Done (v, m, []) /\ is_u16 v.
Proof.
  intros Ha Hgd Hn. eexists.
  split; [exact (get_register_value cfg cfg_ok area m g d n inv Hgd Hn Ha)|].
  unfold device_register, register_in.
  set (area' := area_of area _) in *. set (off := Z.to_nat _). set (pos := Z.to_nat _).
  pose proof (le_combine_range (slice off 2 (drop pos area'))
    (bytes_slice _ _ _ (bytes_drop _ _ (proj2 Ha)))) as Hr.
  assert (Hlen : (length (slice off 2 (drop pos area')) <= 2)%nat) by (unfold slice; rewrite length_take; lia).
  unfold is_u16. split; [apply Hr|]. eapply Z.lt_le_trans; [apply Hr|].
  apply Z.pow_le_mono_r; lia.
Qed.

Lemma bit_result area g d n : area_ok 8 (area_of area (g_memory_area (group_at m g))) ->
  has_device cfg g d -> bit_number cfg g d n ->
  exists b, get_area_bit (device_area area) g d n m = Done (b, m, []).
Proof.
  intros Ha Hgd Hn. eexists. exact (get_bit_value cfg cfg_ok area m g d n inv Hgd Hn Ha).
Qed.
End Instance.

(** ** Calls *)

Definition api_runs (cfg : clm_cfg) {A} (c : clm_api A) (now : Z) (m : clm) : Prop :=
  exists r m' o, run_api c now (Some m) = Done (r, Some m', o) /\ api_result_ok cfg c m r /\
    master_reachable cfg m' /\ (call_of c = None -> m' = m /\ o = []).

Lemma discard_runs {A} (P : clm_prog A) m m' o : (P;; mret tt) m = Done (tt, m', o) ->
  exists a, P m = Done (a, m', o).
Proof.
  unfold mbind, prog_bind. destruct (P m) as [[[a s] o1]|]; [|discriminate]. cbn.
  rewrite app_nil_r. intros [= -> ->]. eauto.
Qed.

(** A function that only reads. *)
Lemma query_runs cfg {A} (c : clm_api A) now m r : master_reachable cfg m ->
  run_api c now (Some m) = Done (r, Some m, []) -> api_result_ok cfg c m r -> api_runs cfg c now m.
Proof. intros Hm Hrun Hr. exists r, m, []. auto. Qed.

(** A function that changes the instance. *)
Lemma change_runs cfg {A} (c : clm_api A) call now m : cfg_types cfg -> master_reachable cfg m ->
  call_of c = Some call -> call_ok cfg call ->
  (forall m' o, run_call call now m = Done (tt, m', o) ->
     exists r, run_api c now (Some m) = Done (r, Some m', o) /\ api_result_ok cfg c m r) ->
  api_runs cfg c now m.
Proof.
  intros Hty Hm Hcall Hok Hr.
  destruct (call_runs clock_ok cfg call now m Hty Hm Hok) as (m' & o & Hrun & Hm' & _).
  destruct (Hr m' o Hrun) as (r & Hapi & Hres). exists r, m', o. rewrite Hcall.
  split; [exact Hapi|]. split; [exact Hres|]. split; [exact Hm'|discriminate].
Qed.

(** The functions without a result, and the ones that return 0 or -1. *)
Lemma unit_runs cfg (c : clm_api unit) call now m : cfg_types cfg -> master_reachable cfg m ->
  call_of c = Some call -> call_ok cfg call -> (forall r, api_result_ok cfg c m r) ->
  run_api c now = asserted (run_call call now) -> api_runs cfg c now m.
Proof.
  intros Hty Hm Hcall Hok Hr Hrun. apply (change_runs cfg c call now m Hty Hm Hcall Hok).
  intros m' o Ho. exists tt. split; [|apply Hr]. rewrite Hrun. exact (on_instance_done _ _ _ _ _ _ Ho).
Qed.

Lemma int_runs cfg (c : clm_api Z) call (P : clm_prog bool) now m : cfg_types cfg ->
  master_reachable cfg m -> call_of c = Some call -> call_ok cfg call ->
  (forall b m' o, P m = Done (b, m', o) -> api_result_ok cfg c m (int_of_success b)) ->
  run_call call now = (P;; mret tt) -> run_api c now = asserted (returns_int P) ->
  api_runs cfg c now m.
Proof.
  intros Hty Hm Hcall Hok Hr Hc Hrun. apply (change_runs cfg c call now m Hty Hm Hcall Hok).
  rewrite Hc, Hrun. intros m' o Ho. destruct (discard_runs P m m' o Ho) as (b & Hb).
  exists (int_of_success b). split; [|exact (Hr b m' o Hb)].
  apply on_instance_done, returns_int_done, Hb.
Qed.

Lemma success_range b : int_of_success b = 0 \/ int_of_success b = -1.
Proof. destruct b; auto. Qed.

Lemma area_query_runs cfg area g now m : master_reachable cfg m ->
  api_result_ok cfg (ApiGetFirstArea area g) m (first_area area m g) ->
  api_runs cfg (ApiGetFirstArea area g) now m.
Proof.
  intros Hm Hr. apply (query_runs cfg _ now m (first_area area m g) Hm); [|exact Hr].
  destruct area; reflexivity.
Qed.

Lemma device_area_query_runs cfg area g d now m : master_reachable cfg m ->
  (exists r, first_device_area (first_area area m) m g d = Done r /\
     api_result_ok cfg (ApiGetFirstDeviceArea area g d) m r) ->
  api_runs cfg (ApiGetFirstDeviceArea area g d) now m.
Proof.
  intros Hm (r & Hrun & Hr). apply (query_runs cfg _ now m r Hm); [|exact Hr].
  destruct area; apply on_instance_done, checked_query_done; exact Hrun.
Qed.

Section Reading.
Context (cfg : clm_cfg) (m : clm) (typed : cfg_types cfg) (reachable : master_reachable cfg m).

Lemma bit_runs area (c : clm_api bool) g d n now : station_size area = 8 ->
  has_device cfg g d -> bit_number cfg g d n -> (forall b, api_result_ok cfg c m b) ->
  run_api c now = asserted (get_area_bit (device_area area) g d n) -> api_runs cfg c now m.
Proof.
  intros Hs Hgd Hn Hr Hrun.
  destruct (master_reachable_inv clock_ok cfg m typed reachable) as (Hok & _ & Hinv).
  pose proof (area_of_ok area _ (memory_of cfg m g Hinv (proj1 Hgd))) as Ha. rewrite Hs in Ha.
  destruct (bit_result cfg Hok m Hinv area g d n Ha Hgd Hn) as (b & Hb).
  apply (query_runs cfg c now m b reachable); [|apply Hr]. rewrite Hrun.
  exact (on_instance_done _ _ _ _ _ _ Hb).
Qed.

Lemma register_runs area (c : clm_api Z) g d n now : station_size area = 64 ->
  has_device cfg g d -> register_number cfg g d n -> (forall v, is_u16 v -> api_result_ok cfg c m v) ->
  run_api c now = asserted (get_area_value (device_area area) g d n) -> api_runs cfg c now m.
Proof.
  intros Hs Hgd Hn Hr Hrun.
  destruct (master_reachable_inv clock_ok cfg m typed reachable) as (Hok & _ & Hinv).
  pose proof (area_of_ok area _ (memory_of cfg m g Hinv (proj1 Hgd))) as Ha. rewrite Hs in Ha.
  destruct (register_result cfg Hok m Hinv area g d n Ha Hgd Hn) as (v & Hv & Hu).
  apply (query_runs cfg c now m v reachable); [|apply Hr, Hu]. rewrite Hrun.
  exact (on_instance_done _ _ _ _ _ _ Hv).
Qed.

Lemma setting_runs (c : clm_api Z) call g d f now : call_of c = Some call -> call_ok cfg call ->
  0 <= g /\ 0 <= d -> let P := (clm ← get; if no_such_device clm g d then mret false
    else modify_device g d f;; mret true) : clm_prog bool in
  (forall r, zero_iff (has_device cfg g d) r -> api_result_ok cfg c m r) ->
  run_call call now = (P;; mret tt) -> run_api c now = asserted (returns_int P) ->
  api_runs cfg c now m.
Proof.
  intros Hcall Hok [Hg Hd] P Hr Hc Hrun.
  destruct (master_reachable_inv clock_ok cfg m typed reachable) as (_ & _ & Hinv).
  apply (int_runs cfg c call P now m typed reachable Hcall Hok); [|exact Hc|exact Hrun].
  destruct (device_setting_result cfg m Hinv g d f Hg Hd) as (b & m' & Hb & Hres).
  intros b1 m1 o1 Hb1. assert (Heq : Done (b1, m1, o1) = Done (b, m', [])) by (rewrite <- Hb1; exact Hb).
  injection Heq as -> _ _. apply Hr, Hres.
Qed.
End Reading.

Lemma api_call_runs cfg A (c : clm_api A) now m : cfg_types cfg -> master_reachable cfg m ->
  api_args_ok cfg c -> api_runs cfg c now m.
Proof.
  intros Hty Hm Hargs. destruct (master_reachable_inv clock_ok cfg m Hty Hm) as (Hok & _ & Hinv).
  destruct c as [sq a cq|running stopped| |g d e|g d f| | |g|g d| | |mac ip netmask|area g|area g d
    |g d n|g d n v|g d n|g d n|g d n v|g d n|area g off data]; cbn in Hargs;
    try (eapply unit_runs; [exact Hty|exact Hm|reflexivity|exact Hargs|exact (fun _ => I)|reflexivity]).
  - eapply query_runs; [exact Hm|reflexivity|]. exact (mb_info _ _ (proj1 Hinv)).
  - eapply setting_runs; [exact Hty|exact Hm|reflexivity|exact Hargs|exact Hargs|auto|reflexivity..].
  - eapply setting_runs; [exact Hty|exact Hm|reflexivity|exact Hargs|exact Hargs|auto|reflexivity..].
  - eapply query_runs; [exact Hm|reflexivity|]. eexists. split; [reflexivity|].
    exact (mb_param _ _ (proj1 Hinv)).
  - eapply query_runs; [exact Hm|reflexivity|]. exact (group_status_result cfg Hok m Hinv g Hargs).
  - eapply query_runs; [exact Hm|reflexivity|].
    exact (device_details_result cfg Hok m Hinv g d (proj1 Hargs) (proj2 Hargs)).
  - eapply int_runs; [exact Hty|exact Hm|reflexivity|exact Hargs| |reflexivity..].
    intros b _ _ _. apply success_range.
  - eapply query_runs; [exact Hm|reflexivity|]. exact (mb_db _ _ (proj1 Hinv)).
  - eapply int_runs; [exact Hty|exact Hm|reflexivity|exact Hargs| |reflexivity..].
    intros b _ _ _. apply success_range.
  - apply area_query_runs; [exact Hm|]. exact (first_area_ok cfg Hok m Hinv area g Hargs).
  - apply device_area_query_runs; [exact Hm|].
    exact (first_device_area_ok cfg Hok m Hinv area g d (proj1 Hargs) (proj2 Hargs)).
  - eapply (bit_runs cfg m Hty Hm AREA_RX _ g d n); [reflexivity|apply Hargs..|exact (fun _ => I)|reflexivity].
  - eapply (bit_runs cfg m Hty Hm AREA_RY _ g d n); [reflexivity|apply Hargs..|exact (fun _ => I)|reflexivity].
  - eapply (register_runs cfg m Hty Hm AREA_RWR _ g d n); [reflexivity|apply Hargs..|auto|reflexivity].
  - eapply (register_runs cfg m Hty Hm AREA_RWW _ g d n); [reflexivity|apply Hargs..|auto|reflexivity].
Qed.

Lemma init_handle fs file_directory memory_left cfg now :
  (forall c, cfg = Some c -> cfg_types c) ->
  exists handle o, clm_init fs file_directory memory_left cfg now = Done (handle, o) /\
    forall m, handle = Some m -> exists c, cfg = Some c /\ master_reachable c m.
Proof.
  intros Hty. pose proof (master_init_ok fs file_directory cfg now clm_zero Hty) as Hw.
  apply wp_done in Hw as (b & m & o & Hrun & _ & Hok).
  destruct (allocation_runs clm_zero memory_left _ b m o Hrun) as (handle & o' & Hinit).
  exists handle, o'. split; [exact Hinit|]. intros m1 ->.
  destruct (allocated_started _ _ _ _ _ Hinit) as [Hx|(m2 & [= ->] & Hrun2)]; [discriminate Hx|].
  rewrite Hrun in Hrun2. injection Hrun2 as -> -> ->.
  destruct (Hok eq_refl) as (c & -> & _). exists c. split; [reflexivity|].
  exact (master_reach_init c fs file_directory now clm_zero m2 o' Hrun).
Qed.

(** C21: The results of the master's API have the types it declares.  The
    start returns [NULL] or a handle to a started instance of the
    configuration.  On such a handle, and after any calls with admissible
    arguments, every function of the API returns: it stops at no assertion
    and its result is in its range.  Status words and registers have 16 bits,
    functions that return an integer return 0 or -1, and 0 for a device
    exactly when the configuration has it; status functions fill in details
    exactly for groups and devices that exist, in a state of the protocol;
    a pointer to an area is [NULL] exactly when there is no such group or
    device, and otherwise all stations behind it lie inside the memory of the
    area.  Functions that only read leave the instance alone.  On [NULL] the
    functions that can report an error do, the others stop at their
    assertion. *)
Theorem api_results_typed cfg : cfg_types cfg ->
  (forall fs file_directory memory_left now, exists handle o,
     clm_init fs file_directory memory_left (Some cfg) now = Done (handle, o) /\
     forall m, handle = Some m -> master_reachable cfg m) /\
  (forall A (c : clm_api A) now m, master_reachable cfg m -> api_args_ok cfg c ->
     api_runs cfg c now m) /\
  (forall A (c : clm_api A) now, run_api c now None =
     match null_result c with Some r => Done (r, None, []) | None => AssertFailed end).
Proof.
  intros Hty. split; [|split].
  - intros fs file_directory memory_left now.
    destruct (init_handle fs file_directory memory_left (Some cfg) now) as (handle & o & Hrun & Hok);
      [intros c [= <-]; exact Hty|].
    exists handle, o. split; [exact Hrun|]. intros m Hm. destruct (Hok m Hm) as (c & [= <-] & Hr).
    exact Hr.
  - intros A c now m Hm Hargs. exact (api_call_runs cfg A c now m Hty Hm Hargs).
  - intros A c now. destruct c; try reflexivity; destruct area; reflexivity.
Qed.
End MasterApi.

(** ** Example *)

Section ApiWitness.
Import SampleHost SampleMasterEnv SampleFiles SampleMaster.

Lemma api_results_typed_witness : exists n,
  run_api (ApiGetFirstDeviceArea AREA_RY 0 1) 900000 (Some scanning) =
    Done ((Some (AreaPointer AREA_RY 0 (device_pos cfg 0 1)), n), Some scanning, []) /\ 1 <= n.
Proof.
  destruct (api_results_typed clock_ok cfg cfg_typed) as (_ & Hcalls & _).
  destruct (Hcalls _ (ApiGetFirstDeviceArea AREA_RY 0 1) 900000 scanning scanning_reachable)
    as ([pointer n] & m' & o & Hrun & Hres & _ & Hsame); [split; discriminate|].
  destruct (Hsame eq_refl) as [-> ->].
  destruct Hres as [(_ & _ & -> & _ & Hn & _)|(Hno & _)].
  - exists n. split; [exact Hrun|exact Hn].
  - destruct Hno. vm_compute. repeat split; discriminate.
Defined.
End ApiWitness.
