(* ===== verification/Cycle.v ===== *)
(** * The halves of a cycle

    What the calls of the two stacks do with the frames of the other one: how
    a slave sees the request of the master and what the call that receives it
    does when the master is its own, a new one or another one; and how the
    master sees the answer.  The theorems that put the halves together are in
    Exchange.v and Duplicate.v. *)

From Stdlib Require Import String.
From S2P Require Import Prelude Packed Signals Timer Limiter Util Types Iefb IefbFacts IefbRoundtrip.
From S2P Require Import File FileFacts Slmp SlmpFacts.
From S2P Require Slave SlaveIefb SlaveInv SlaveActions SlaveFsm SlaveSafety SlaveSlmp SlaveReach.
From S2P Require SlaveSignals SlaveProps SlaveExchange SlaveCalls.
From S2P Require Import Master MasterIefb MasterConfig MasterSlmp MasterConfigSpec.
From S2P Require Import MasterInv MasterFrame MasterDevice MasterGroup MasterScan MasterFsm.
From S2P Require Import MasterEvents MasterControl MasterSafety MasterResponse MasterSettings.
From S2P Require Import MasterOutgoing MasterInputs MasterStart MasterReach MasterProps MasterExchange MasterLeaves.
From S2P Require Import MasterCalls.

#[local] Open Scope Z_scope.

Import Slave SlaveIefb.

(** ** Definitions *)

(** A datagram in a receive buffer with old contents. *)
Definition received (frame old : list Z) : list Z := splice 0 frame old.
Definition buffer_ok (old : list Z) : Prop := bytes old /\ List.length old = 1500%nat.

Lemma received_bytes frame old : bytes frame -> (List.length frame <= 1500)%nat -> buffer_ok old ->
  bytes (received frame old) /\ List.length (received frame old) = 1500%nat.
Proof.
  intros Hf Hl [Hb Ho]. split; [apply bytes_splice; assumption|].
  unfold received. rewrite length_splice by lia. exact Ho.
Qed.

Lemma received_eq frame old : received frame old = (frame ++ drop (List.length frame) old)%list.
Proof. reflexivity. Qed.

Lemma received_slice frame old off k : (off + k <= List.length frame)%nat ->
  slice off k (received frame old) = slice off k frame.
Proof. intros Hk. rewrite received_eq. apply slice_app_l. exact Hk. Qed.

Lemma received_dec {A} (c : codec A) `{!CodecOk c} frame old :
  (c_size c <= List.length frame)%nat -> c_dec c (received frame old) = c_dec c frame.
Proof. exact (splice_dec c frame old). Qed.

Section Exchange.
Context `{ClsOptions, ClmOptions, Clal, ClalNet, Host, ClalClock, FileOptions, ClalFileOk}.
Context (clock_ok : forall now, is_u64 (clal_get_unix_timestamp_ms now)).

(** The time after which the slaves of a group give up a silent master. *)
Definition supervision (mcfg : clm_cfg) (g : Z) : Z :=
  let gs := setting_of_group mcfg g in
  u32 (cl_calculate_total_timeout_us (gs_timeout_value gs) (gs_parallel_off_timeout_count gs)).

(** The slave is device [d] of group [g]: it is connected to the master, with
    parameters of this number, supervises it, and occupies the stations of
    the device. *)
Record is_device (mcfg : clm_cfg) (g d parameter : Z) (scfg : cls_cfg) (s : cls) : Prop := {
  is_state : state s = CLS_SLAVE_STATE_MASTER_CONTROL;
  is_master : master_id (master s) = mc_master_id mcfg;
  is_parameter : parameter_no (master s) = parameter;
  is_group : group_no (master s) = g + 1;
  is_total : total_occupied_station_count (master s) = total_stations (setting_of_group mcfg g);
  is_station : slave_station_no (master s) = 1 + device_pos mcfg g d;
  is_period : t_period (receive_timer s) = supervision mcfg g;
  is_size : num_occupied_stations scfg = device_size mcfg g d
}.

(** The device exchanges cyclic data: it has answered, or it is asked. *)
Definition linked (gd : clm_group_data) (d : Z) : Prop := answered gd d \/ asked gd d.

(** Master and slave are connected: both exchange cyclic data, with the same
    parameters. *)
Definition paired (mcfg : clm_cfg) (g d : Z) (m : clm) (scfg : cls_cfg) (s : cls) : Prop :=
  linked (group_at m g) d /\ is_device mcfg g d (parameter_of (group_at m g)) scfg s.

(** A request of the group among the outputs of a call. *)
Definition frame_group (frame : list Z) : Z :=
  qdh_group_no (fq_cyclic_data_header (c_dec c_cl_cciefb_cyclic_req_full_headers frame)).
Definition request_in (g : Z) (frame : list Z) (o : list clm_output) : Prop :=
  exists socket ip port, ClmCciefbSendto socket ip port frame ∈ o /\ frame_group frame = g + 1.

(** A call has left a device that had answered, or it has sent the request
    that asks it again. *)
Definition asks_or_rests (mcfg : clm_cfg) (g now : Z) (gd' : clm_group_data) (d : Z)
  (o : list clm_output) : Prop :=
  answered gd' d /\ (forall frame, ~ request_in g frame o) \/
  exists info gd, 0 <= info < 2 ^ mc_protocol_ver mcfg /\ asked gd' d /\
    (exists frame, request_in g frame o) /\
    forall frame, request_in g frame o -> request_of mcfg g now info gd gd' frame.

Lemma asks_linked mcfg g now gd' d o : asks_or_rests mcfg g now gd' d o -> linked gd' d.
Proof. intros [[Ha _]|(info & gd & _ & Ha & _)]; [left|right]; exact Ha. Qed.

Definition address (mcfg : clm_cfg) (g d : Z) : Z :=
  ds_slave_id (setting_of_device (setting_of_group mcfg g) d).

Section Cycle.
Context (mcfg : clm_cfg) (mcfg_ok : clm_config_ok mcfg).
Context (g d : Z) (has : has_device mcfg g d).
Abbreviation gs := (setting_of_group mcfg g).

(** ** From the master to the slave *)

(** With unique addresses the master finds the device. *)
Lemma found_device : addresses_unique mcfg ->
  clm_iefb_calc_slave_device_index gs (address mcfg g d) = Some d.
Proof.
  intros Hu. destruct (clm_iefb_calc_slave_device_index gs (address mcfg g d)) as [d'|] eqn:Hd.
  - apply find_device in Hd as [Hr Hid]. f_equal.
    apply (Hu g d' g d (conj (proj1 has) Hr) has Hid).
  - exfalso. unfold clm_iefb_calc_slave_device_index in Hd.
    pose proof (List.find_none _ _ Hd d) as Hx.
    assert (Hin : List.In d (seqZ 0 (gs_num_slave_devices gs)))
      by (apply list_elem_of_In, elem_of_seqZ; destruct has; lia).
    specialize (Hx Hin). unfold address in Hx. rewrite Z.eqb_refl in Hx. discriminate.
Qed.

(** Only the entry of the device has its address. *)
Lemma other_station frame i : addresses_unique mcfg ->
  (forall d', 0 <= d' < gs_num_slave_devices gs -> device_ids_ok gs frame d') ->
  0 <= i < total_stations gs -> i <> device_pos mcfg g d -> frame_id frame i <> address mcfg g d.
Proof.
  intros Hu Hids Hi Hne. pose proof (cok_group _ mcfg_ok g (proj1 has)) as Hgs.
  pose proof (go_devices _ _ Hgs) as Hn.
  destruct (station_device gs (gs_num_slave_devices gs) i) as (d' & Hd' & Hr); [lia|exact Hi|].
  destruct (Hids d' Hd') as [Hfirst Hmulti].
  destruct (go_device _ _ Hgs d (proj2 has)) as (_ & _ & Hvalid & _).
  pose proof (go_multistation _ _ Hgs d (proj2 has)) as Hm.
  destruct (Z.eq_dec i (stations_before gs d')) as [->|Hlater].
  - destruct Hfirst as [Hf|Hf]; rewrite Hf; [|intros Heq; exact (Hvalid (eq_sym Heq))]. intros Heq.
    destruct (Hu g d' g d (conj (proj1 has) Hd') has Heq) as [_ ->]. exact (Hne eq_refl).
  - replace i with (stations_before gs d' + (i - stations_before gs d')) by lia.
    rewrite Hmulti by lia. intros Heq. exact (Hm (eq_sym Heq)).
Qed.

Lemma ids_of_request frame : addresses_unique mcfg ->
  (forall d', 0 <= d' < gs_num_slave_devices gs -> device_ids_ok gs frame d') ->
  frame_id frame (device_pos mcfg g d) = address mcfg g d ->
  locate_slave (address mcfg g d) 1 (map (frame_id frame) (seqZ 0 (total_stations gs))) =
    Some (true, 1 + device_pos mcfg g d, device_size mcfg g d).
Proof.
  intros Hu Hids Hown. pose proof (cok_group _ mcfg_ok g (proj1 has)) as Hgs.
  pose proof (stations_inside mcfg gs Hgs d (proj2 has)) as [Hpos Hend].
  pose proof (device_stations mcfg gs Hgs d (proj2 has)) as Hk.
  pose proof (fun i => other_station frame i Hu Hids) as Hother.
  destruct (Hids d (proj2 has)) as [_ Hmulti].
  unfold device_pos, device_size in *. set (pos := stations_before gs d) in *.
  set (k := ds_num_occupied_stations _) in *. set (rest := total_stations gs - pos - k).
  replace (total_stations gs) with (pos + (1 + (k - 1 + rest))) by lia.
  rewrite !seqZ_app, !map_app by lia. rewrite (seqZ_cons (0 + pos)), (seqZ_nil _ (Z.pred 1)) by lia.
  cbn [map app]. rewrite Z.add_0_l, Hown.
  assert (Hrun : map (frame_id frame) (seqZ (pos + 1) (k - 1)) =
    replicate (Z.to_nat (k - 1)) CL_CCIEFB_MULTISTATION_INDICATOR).
  { symmetry. apply replicate_as_Forall. rewrite length_map, length_seqZ. split; [reflexivity|].
    apply Forall_map, Forall_seqZ. intros i Hi. cbv beta.
    replace i with (pos + (i - pos)) by lia. rewrite Hmulti by lia. reflexivity. }
  rewrite Hrun. rewrite locate_slave_here.
  - rewrite length_map, length_seqZ. f_equal. f_equal; [f_equal|]; lia.
  - apply Forall_map, Forall_seqZ. intros i Hi. apply Hother; lia.
  - apply Forall_map, Forall_seqZ. intros i Hi. apply Hother; lia.
  - exact (go_multistation _ _ Hgs d (proj2 has)).
  - destruct (Z.eq_dec rest 0) as [->|Hr]; [rewrite seqZ_nil by lia; exact I|].
    rewrite seqZ_cons by lia. cbn [map].
    assert (Hd' : 0 <= d + 1 < gs_num_slave_devices gs).
    { destruct has as [_ Hd]. destruct (Z.eq_dec (d + 1) (gs_num_slave_devices gs)) as [He|He]; [|lia].
      exfalso. apply Hr. unfold rest, total_stations. rewrite <- He, stations_before_S by lia. lia. }
    replace (pos + 1 + (k - 1)) with (stations_before gs (d + 1))
      by (rewrite stations_before_S by (destruct has; lia); lia).
    destruct (Hids (d + 1) Hd') as [[Hf|Hf] _]; rewrite Hf; [|discriminate].
    exact (go_multistation _ _ Hgs (d + 1) Hd').
Qed.

(** A request that carries the outputs of the device, as the slave sees it. *)
Lemma request_arrives gd now info frame old rport : group_base mcfg g gd ->
  0 <= info < 2 ^ mc_protocol_ver mcfg -> sent_request mcfg g gd now info frame -> buffer_ok old ->
  exists h,
    c_dec c_cl_cciefb_cyclic_req_full_headers frame = h /\
    (forall now_s s, cls_iefb_handle_input_frame now_s (received frame old)
       (Z.of_nat (List.length frame)) (mc_master_id mcfg) rport (address mcfg g d) s =
     cls_iefb_handle_cyclic_input_frame now_s (received frame old)
       (Z.of_nat (List.length frame)) (mc_master_id mcfg) rport (address mcfg g d) s) /\
    SlaveExchange.arrives (received frame old) (Z.of_nat (List.length frame)) (mc_master_id mcfg)
      rport (address mcfg g d)
      (ClsRequestInfo (mc_master_id mcfg) rport (address mcfg g d) h (received frame old) 67
         (Some (67 + 4 * total_stations gs)) (Some (67 + 68 * total_stations gs))) /\
    qdh_slave_total_occupied_station_count (fq_cyclic_data_header h) = total_stations gs /\
    qdh_master_id (fq_cyclic_data_header h) = mc_master_id mcfg /\
    qdh_group_no (fq_cyclic_data_header h) = g + 1 /\
    qdh_frame_sequence_no (fq_cyclic_data_header h) = g_frame_sequence_no gd /\
    qdh_cyclic_transmission_state (fq_cyclic_data_header h) = g_cyclic_transmission_state gd /\
    qdh_parameter_no (fq_cyclic_data_header h) = parameter_of gd /\
    u32 (cl_calculate_total_timeout_us (qdh_timeout_value (fq_cyclic_data_header h))
           (qdh_parallel_off_timeout_count (fq_cyclic_data_header h))) = supervision mcfg g.
Proof.
  intros Hb Hinfo [Hby Hlen (Hp & Hdec) _ _] Hold.
  pose proof (cok_group _ mcfg_ok g (proj1 has)) as Hgs. pose proof (go_stations _ _ Hgs) as Htot.
  pose proof clm_max_stations_ok as Hmax.
  destruct (received_bytes frame old Hby ltac:(lia) Hold) as [Hrb Hrl].
  eexists. split; [exact Hdec|].
  destruct (request_accepted (received frame old) _ _ _ _ _ _ _ (g_frame_sequence_no gd)
    (clal_get_unix_timestamp_ms now) info (g_cyclic_transmission_state gd) rport (address mcfg g d)
    (request_params mcfg mcfg_ok g (proj1 has) _ Hp)) as (Hparse & Hvalid & Hreq).
  { split; [apply Hb|]. split; [apply clock_ok|]. split; [exact Hinfo|apply Hb]. }
  { rewrite (received_dec c_cl_cciefb_cyclic_req_full_headers); [exact Hdec|].
    change (c_size _) with 67%nat. lia. }
  rewrite <- Hlen in Hparse, Hvalid, Hreq. split; [|split; [|repeat split; reflexivity]].
  - intros now_s s. unfold cls_iefb_handle_input_frame. rewrite Hparse, Hvalid. reflexivity.
  - destruct (go_device _ _ Hgs d (proj2 has)) as (_ & Hid & Hid0 & _).
    split; [exact Hrb|]. split; [rewrite Hrl; reflexivity|]. split; [unfold CL_BUFFER_LEN; lia|].
    split; [exact Hid|]. split; [exact Hid0|exact Hreq].
Qed.

(** What the slave takes from the areas of the request. *)
Lemma request_signals h frame old rport : List.length frame = Z.to_nat (67 + 76 * total_stations gs) ->
  qdh_slave_total_occupied_station_count (fq_cyclic_data_header h) = total_stations gs ->
  let r := ClsRequestInfo (mc_master_id mcfg) rport (address mcfg g d) h (received frame old) 67
         (Some (67 + 4 * total_stations gs)) (Some (67 + 68 * total_stations gs)) in
  let pos := device_pos mcfg g d in
  let k := device_size mcfg g d in
  (forall n, bit_number mcfg g d n -> SlaveSignals.request_ry_bit r (1 + pos) n =
     bit_in (frame_ry (total_stations gs) frame pos k) n) /\
  (forall n, register_number mcfg g d n -> SlaveSignals.request_rww_register r (1 + pos) n =
     register_in (frame_rww (total_stations gs) frame pos k) n).
Proof.
  intros Hlen Htot r pos k. pose proof (device_inside mcfg mcfg_ok g d has) as Hin.
  pose proof (stations_inside mcfg _ (cok_group _ mcfg_ok g (proj1 has)) d (proj2 has)) as [_ Hend].
  fold (device_pos mcfg g d) (device_size mcfg g d) in Hend. fold pos k in Hin, Hend.
  unfold SlaveSignals.request_ry_bit, SlaveSignals.request_rww_register, rq_data_header, frame_ry,
    frame_rww, bit_number, register_number.
  cbn [rq_full_headers rq_buffer r]. rewrite Htot.
  replace (1 + pos - 1) with pos by lia.
  split; intros n Hn; fold k in Hn.
  - rewrite <- (received_slice frame old) by lia. rewrite bit_in_slice by lia. reflexivity.
  - rewrite <- (received_slice frame old) by lia. rewrite register_in_slice by lia. reflexivity.
Qed.

(** The outputs of the device in a memory area. *)
Lemma part_signals m : master_inv mcfg m ->
  let a := g_memory_area (group_at m g) in
  (forall n, bit_number mcfg g d n ->
     bit_in (area_part 8 (ma_ry a) (device_pos mcfg g d) (device_size mcfg g d)) n =
       device_bit mcfg AREA_RY m g d n) /\
  (forall n, register_number mcfg g d n ->
     register_in (area_part 64 (ma_rww a) (device_pos mcfg g d) (device_size mcfg g d)) n =
       device_register mcfg AREA_RWW m g d n).
Proof.
  intros Hm a. unfold area_part, bit_number, register_number. split; intros n Hn.
  - rewrite bit_in_slice by lia. reflexivity.
  - rewrite register_in_slice by lia. reflexivity.
Qed.

(** The slave answers, and its application reads the outputs. *)
Lemma slave_receives m gd now info frame scfg s now_s old rport : master_inv mcfg m ->
  group_base mcfg g gd -> 0 <= info < 2 ^ mc_protocol_ver mcfg ->
  sent_request mcfg g gd now info frame -> buffer_ok old -> g_frame_sequence_no gd <> 0 ->
  device_part mcfg g d gd = output_part gs d (g_memory_area (group_at m g)) (address mcfg g d) true ->
  SlaveInv.config_ok scfg -> SlaveInv.slave_inv scfg s -> 0 < supervision mcfg g ->
  is_device mcfg g d (parameter_of gd) scfg s ->
  exists s' so answer,
    cls_iefb_handle_input_frame now_s (received frame old) (Z.of_nat (List.length frame))
      (mc_master_id mcfg) rport (address mcfg g d) s = Done (true, s', so) /\
    SlaveInv.sent_frames so = [(cciefb_socket s, mc_master_id mcfg, rport, answer)] /\
    SlaveInv.frame_contents scfg answer (address mcfg g d) CL_SLMP_ENDCODE_SUCCESS (g + 1)
      (g_frame_sequence_no gd) (slave_application_status s) (slave_err_code s)
      (local_management_info s) (SlaveExchange.own_data s) /\
    is_device mcfg g d (parameter_of gd) scfg s' /\
    cl_timer_is_expired (receive_timer s') now_s = false /\
    (forall n, bit_number mcfg g d n ->
       cls_iefb_get_ry_bit n s' = Done (device_bit mcfg AREA_RY m g d n, s', [])) /\
    (forall n, register_number mcfg g d n ->
       cls_iefb_get_rww_value n s' = Done (device_register mcfg AREA_RWW m g d n, s', [])).
Proof.
  intros Hm Hb Hinfo Hsent Hold Hseq Hpart Hscfg Hsinv Hsup [Hst Hma Hpa Hgr Hto Hno Hper Hk].
  destruct (request_arrives gd now info frame old rport Hb Hinfo Hsent Hold)
    as (h & Hdec & Hdisp & Harr & Htot & Hmaster & Hgroup & Hsequence & Hbits & Hparam & Hsuper).
  set (r := ClsRequestInfo _ _ _ _ _ _ _ _) in *.
  pose proof (cok_group _ mcfg_ok g (proj1 has)) as Hgs. pose proof (go_stations _ _ Hgs) as Htots.
  pose proof clm_max_stations_ok as Hmax. pose proof (device_inside mcfg mcfg_ok g d has) as Hin.
  pose proof (stations_inside mcfg _ Hgs d (proj2 has)) as [_ Hend].
  fold (device_pos mcfg g d) (device_size mcfg g d) in Hend.
  pose proof (sq_length _ _ _ _ _ _ Hsent) as Hlen. rewrite <- (sq_parts _ _ _ _ _ _ Hsent d (proj2 has)) in Hpart.
  unfold part_of_frame, output_part in Hpart. injection Hpart as Hbit Hid Hrww Hry.
  fold (device_pos mcfg g d) (device_size mcfg g d) in Hbit, Hid, Hrww, Hry.
  assert (Hours : SlaveExchange.from_our_master s r).
  { unfold SlaveExchange.from_our_master, rq_data_header. cbn [rq_full_headers rq_buffer
      rq_first_slave_id rq_slave_ip_addr r]. rewrite Hto, Hno, Htot, Hma, Hpa, Hgr.
    repeat split; try assumption; try congruence.
    rewrite slave_id_in_range by lia. f_equal.
    replace (1 + device_pos mcfg g d - 1) with (device_pos mcfg g d) by lia.
    change (frame_id (received frame old) (device_pos mcfg g d) = address mcfg g d).
    rewrite <- Hid, !frame_id_slice, received_slice by lia. reflexivity. }
  destruct (SlaveExchange.connected_exchange scfg s now_s _ _ _ _ _ r Hscfg Hsinv Hst Harr Hours)
    as (s' & so & Hrun & (answer & Hframes & Hcont) & [Hry' Hrww'] & _ & Hcore).
  assert (Hmybit : SlaveActions.my_transmission_bit s r = true).
  { unfold SlaveActions.my_transmission_bit, rq_data_header. cbn [rq_full_headers r].
    rewrite Hbits, Hno. exact Hbit. }
  rewrite Hmybit in *. unfold rq_data_header in Hcont. cbn [rq_full_headers rq_slave_ip_addr r] in Hcont.
  rewrite Hgroup, Hsequence, (SlaveInv.sb_config _ _ (proj1 Hsinv)) in Hcont.
  exists s', so, answer. split; [rewrite Hdisp; exact Hrun|]. split; [exact Hframes|]. split; [exact Hcont|].
  destruct (SlaveSafety.control_connected scfg s Hsinv Hst) as [(_ & _ & _ & _ & Hrunning & _) _].
  assert (Ht : receive_timer s' = Timer CL_TIMER_RUNNING (supervision mcfg g) now_s).
  { rewrite (SlaveInv.sc_receive_timer _ _ Hcore).
    cbn [SlaveActions.with_cyclic_data update receive_timer]. clear -Hrunning Hper.
    destruct (receive_timer s). cbn in *. subst. reflexivity. }
  split.
  { split; rewrite ?(SlaveInv.sc_master _ _ Hcore), ?(SlaveInv.sc_state _ _ Hcore), ?Ht; auto. }
  split; [rewrite Ht; apply SlaveCalls.heard_now, Hsup|].
  destruct (request_signals h frame old rport ltac:(lia) Htot) as [Hsry Hsrww].
  destruct (part_signals m Hm) as [Hpry Hprww]. unfold sent_part in *. rewrite Hno in *.
  split; intros n Hn.
  - rewrite <- (Hpry n Hn), <- Hry, <- (Hsry n Hn). apply Hry'. rewrite Hk. exact Hn.
  - rewrite <- (Hprww n Hn), <- Hrww, <- (Hsrww n Hn). apply Hrww'. rewrite Hk. exact Hn.
Qed.

(** A slave without a master accepts the one that asks for it. *)
Lemma slave_accepts gd now info frame scfg s now_s old rport : addresses_unique mcfg ->
  group_base mcfg g gd -> 0 <= info < 2 ^ mc_protocol_ver mcfg ->
  sent_request mcfg g gd now info frame -> buffer_ok old ->
  (device_part mcfg g d gd).1.1 = (false, address mcfg g d) ->
  SlaveInv.config_ok scfg -> SlaveInv.slave_inv scfg s -> 0 < supervision mcfg g ->
  state s = CLS_SLAVE_STATE_MASTER_NONE -> num_occupied_stations scfg = device_size mcfg g d ->
  exists s' so answer,
    cls_iefb_handle_input_frame now_s (received frame old) (Z.of_nat (List.length frame))
      (mc_master_id mcfg) rport (address mcfg g d) s = Done (true, s', so) /\
    SlaveInv.sent_frames so = [(cciefb_socket s, mc_master_id mcfg, rport, answer)] /\
    SlaveInv.frame_contents scfg answer (address mcfg g d) CL_SLMP_ENDCODE_SUCCESS (g + 1)
      (g_frame_sequence_no gd) (slave_application_status s) (slave_err_code s)
      (local_management_info s) (SlaveExchange.no_data s) /\
    is_device mcfg g d (parameter_of gd) scfg s' /\
    cl_timer_is_expired (receive_timer s') now_s = false.
Proof.
  intros Hu Hb Hinfo Hsent Hold Hpart Hscfg Hsinv Hsup Hst Hk.
  destruct (request_arrives gd now info frame old rport Hb Hinfo Hsent Hold)
    as (h & Hdec & Hdisp & Harr & Htot & Hmaster & Hgroup & Hsequence & Hbits & Hparam & Hsuper).
  set (r := ClsRequestInfo _ _ _ _ _ _ _ _) in *.
  pose proof (cok_group _ mcfg_ok g (proj1 has)) as Hgs. pose proof (go_stations _ _ Hgs) as Htots.
  pose proof clm_max_stations_ok as Hmax. pose proof (device_inside mcfg mcfg_ok g d has) as Hin.
  pose proof (sq_length _ _ _ _ _ _ Hsent) as Hlen.
  rewrite <- (sq_parts _ _ _ _ _ _ Hsent d (proj2 has)) in Hpart.
  unfold part_of_frame in Hpart. cbn [fst] in Hpart. injection Hpart as Hbit Hid.
  fold (device_pos mcfg g d) in Hbit, Hid.
  assert (Hana : cl_iefb_analyze_slave_ids (rq_slave_ip_addr r)
    (qdh_slave_total_occupied_station_count (rq_data_header r)) (rq_buffer r) (rq_first_slave_id r) =
    Some (true, 1 + device_pos mcfg g d, num_occupied_stations scfg)).
  { unfold rq_data_header. cbn [rq_full_headers rq_buffer rq_first_slave_id rq_slave_ip_addr r].
    rewrite analyze_slave_ids_eq, Htot, Hk.
    assert (Hid0 : address mcfg g d <> CL_IPADDR_INVALID) by apply (go_device _ _ Hgs d (proj2 has)).
    rewrite (proj2 (Z.eqb_neq _ _) Hid0). rewrite (proj2 (bad_station_count_false _)) by lia.
    cbn [orb]. rewrite <- (ids_of_request frame Hu (sq_ids _ _ _ _ _ _ Hsent) Hid). f_equal.
    unfold slave_ids. apply map_ext_in. intros i Hi%list_elem_of_In%elem_of_seqZ.
    change (frame_id (received frame old) i = frame_id frame i).
    rewrite !frame_id_slice, received_slice by lia. reflexivity. }
  destruct (SlaveExchange.slave_connects scfg s now_s _ _ _ _ _ r _ Hscfg Hsinv Hst Harr Hana)
    as (s' & so & Hrun & (answer & Hframes & Hcont) & _ & Hst' & Hma & Ht & _).
  { unfold rq_data_header. cbn [rq_full_headers r]. rewrite Hbits. exact Hbit. }
  unfold rq_data_header in Hcont. cbn [rq_full_headers rq_slave_ip_addr r] in Hcont.
  rewrite Hgroup, Hsequence, (SlaveInv.sb_config _ _ (proj1 Hsinv)) in Hcont.
  exists s', so, answer. split; [rewrite Hdisp; exact Hrun|]. split; [exact Hframes|]. split; [exact Hcont|].
  unfold SlaveActions.monitoring, rq_data_header in Ht. cbn [rq_full_headers r] in Ht. rewrite Hsuper in Ht.
  split; [|rewrite Ht; apply SlaveCalls.heard_now, Hsup].
  split; rewrite ?Hma, ?Ht; unfold SlaveActions.master_of, rq_data_header; cbn [rq_full_headers r
    master_id parameter_no group_no total_occupied_station_count slave_station_no]; auto.
Qed.

(** A slave with another master refuses the request. *)
Lemma slave_refuses gd now info frame scfg s now_s old rport : group_base mcfg g gd ->
  0 <= info < 2 ^ mc_protocol_ver mcfg -> sent_request mcfg g gd now info frame -> buffer_ok old ->
  SlaveInv.config_ok scfg -> SlaveInv.slave_inv scfg s -> state s = CLS_SLAVE_STATE_MASTER_CONTROL ->
  master_id (master s) <> mc_master_id mcfg ->
  exists s' so answer,
    cls_iefb_handle_input_frame now_s (received frame old) (Z.of_nat (List.length frame))
      (mc_master_id mcfg) rport (address mcfg g d) s = Done (true, s', so) /\
    SlaveInv.sent_frames so = [(cciefb_socket s, mc_master_id mcfg, rport, answer)] /\
    SlaveInv.frame_contents scfg answer (address mcfg g d)
      CL_SLMP_ENDCODE_CCIEFB_MASTER_DUPLICATION (g + 1)
      (g_frame_sequence_no gd) (slave_application_status s) (slave_err_code s)
      (local_management_info s) (SlaveExchange.no_data s) /\
    SlaveExchange.same_connection s s' /\ SlaveExchange.own_data s' = SlaveExchange.own_data s.
Proof.
  intros Hb Hinfo Hsent Hold Hscfg Hsinv Hst Hother.
  destruct (request_arrives gd now info frame old rport Hb Hinfo Hsent Hold)
    as (h & _ & Hdisp & Harr & _ & Hmaster & Hgroup & Hsequence & _).
  set (r := ClsRequestInfo _ _ _ _ _ _ _ _) in *.
  destruct (SlaveExchange.other_master_refused scfg s now_s _ _ _ _ _ r Hscfg Hsinv Hst Harr)
    as (s' & so & Hrun & (answer & Hframes & Hcont) & Hsame & Hown).
  { unfold rq_data_header. cbn [rq_full_headers r]. congruence. }
  unfold rq_data_header in Hcont. cbn [rq_full_headers rq_slave_ip_addr r] in Hcont.
  rewrite Hgroup, Hsequence, (SlaveInv.sb_config _ _ (proj1 Hsinv)) in Hcont.
  exists s', so, answer. split; [rewrite Hdisp; exact Hrun|]. auto.
Qed.

(** *** Calls of the slave *)

(** The datagram that the request is. *)
Definition request_datagram (frame : list Z) (rport ifx : Z) : datagram :=
  Datagram frame (mc_master_id mcfg) rport (address mcfg g d) ifx.

Lemma request_is_datagram gd now info frame rport ifx : sent_request mcfg g gd now info frame ->
  SlaveSafety.datagram_ok (request_datagram frame rport ifx) /\ (0 < List.length frame)%nat.
Proof.
  intros Hsent. pose proof (sq_length _ _ _ _ _ _ Hsent) as Hlen.
  pose proof (cok_group _ mcfg_ok g (proj1 has)) as Hgs. pose proof (go_stations _ _ Hgs) as Htot.
  pose proof clm_max_stations_ok as Hmax. destruct (go_device _ _ Hgs d (proj2 has)) as (_ & Hid & _).
  split; [|lia]. split; [exact (sq_bytes _ _ _ _ _ _ Hsent)| |exact Hid]. cbn [dg_bytes request_datagram].
  unfold CL_BUFFER_LEN. lia.
Qed.

Lemma slave_call gd now info frame scfg s slmp rport ifx now_s (P : cls -> list Z -> Prop) :
  sent_request mcfg g gd now info frame -> SlaveInv.config_ok scfg -> SlaveInv.slave_inv scfg s ->
  (forall s2 old, SlaveCalls.same_view s s2 -> SlaveInv.slave_inv scfg s2 -> buffer_ok old ->
     exists s' o answer,
       cls_iefb_handle_input_frame now_s (received frame old) (Z.of_nat (List.length frame))
         (mc_master_id mcfg) rport (address mcfg g d) s2 = Done (true, s', o) /\
       SlaveInv.sent_frames o = [(cciefb_socket s2, mc_master_id mcfg, rport, answer)] /\
       state s' = CLS_SLAVE_STATE_MASTER_CONTROL /\
       cl_timer_is_expired (receive_timer s') now_s = false /\ P s' answer) ->
  exists s' s3 o answer,
    SlaveReach.run_call (SlaveReach.HandlePeriodic slmp (Some (request_datagram frame rport ifx)))
      now_s s = Done (tt, s3, o) /\
    SlaveInv.sent_frames o = [(cciefb_socket s, mc_master_id mcfg, rport, answer)] /\
    P s' answer /\ SlaveCalls.same_view s' s3 /\
    SlaveInv.slave_inv scfg s' /\ SlaveInv.slave_inv scfg s3.
Proof.
  intros Hsent Hscfg Hsinv Hhandle.
  destruct (request_is_datagram gd now info frame rport ifx Hsent) as [Hdg Hpos].
  destruct (SlaveInv.sb_buf _ _ (proj1 Hsinv)) as [Hbl Hbb].
  apply (SlaveCalls.periodic_answers scfg Hscfg slmp (request_datagram frame rport ifx) now_s s P Hsinv Hdg).
  - cbn [dg_bytes request_datagram]. lia.
  - intros s2 Hv Hinv2. apply Hhandle; [exact Hv|exact Hinv2|]. split; [exact Hbb|exact Hbl].
Qed.

Lemma is_device_view parameter scfg s s' : SlaveCalls.same_view s s' ->
  is_device mcfg g d parameter scfg s -> is_device mcfg g d parameter scfg s'.
Proof. intros [] []. split; congruence. Qed.

(** An answer carries the notification of the slave before the call. *)
Lemma contents_view scfg s s' answer ec seq data : SlaveCalls.same_view s s' ->
  SlaveInv.frame_contents scfg answer (address mcfg g d) ec (g + 1) seq (slave_application_status s')
    (slave_err_code s') (local_management_info s') data ->
  SlaveInv.frame_contents scfg answer (address mcfg g d) ec (g + 1) seq (slave_application_status s)
    (slave_err_code s) (local_management_info s) data.
Proof. intros Hv. destruct (SlaveCalls.sv_notification _ _ Hv) as (_ & -> & -> & ->). exact (fun Hx => Hx). Qed.

Lemma no_data_view s s' : SlaveCalls.same_view s s' -> SlaveExchange.no_data s' = SlaveExchange.no_data s.
Proof. intros Hv. unfold SlaveExchange.no_data. rewrite (SlaveCalls.sv_config _ _ Hv). reflexivity. Qed.

Lemma slave_call_exchanges m gd now info frame scfg s slmp rport ifx now_s : master_inv mcfg m ->
  group_base mcfg g gd -> 0 <= info < 2 ^ mc_protocol_ver mcfg ->
  sent_request mcfg g gd now info frame -> g_frame_sequence_no gd <> 0 ->
  device_part mcfg g d gd = output_part gs d (g_memory_area (group_at m g)) (address mcfg g d) true ->
  SlaveInv.config_ok scfg -> SlaveInv.slave_inv scfg s -> 0 < supervision mcfg g ->
  is_device mcfg g d (parameter_of gd) scfg s ->
  exists s3 o answer,
    SlaveReach.run_call (SlaveReach.HandlePeriodic slmp (Some (request_datagram frame rport ifx)))
      now_s s = Done (tt, s3, o) /\
    SlaveInv.sent_frames o = [(cciefb_socket s, mc_master_id mcfg, rport, answer)] /\
    SlaveInv.frame_contents scfg answer (address mcfg g d) CL_SLMP_ENDCODE_SUCCESS (g + 1)
      (g_frame_sequence_no gd) (slave_application_status s) (slave_err_code s)
      (local_management_info s) (SlaveExchange.own_data s) /\
    is_device mcfg g d (parameter_of gd) scfg s3 /\
    (forall n, bit_number mcfg g d n ->
       cls_iefb_get_ry_bit n s3 = Done (device_bit mcfg AREA_RY m g d n, s3, [])) /\
    (forall n, register_number mcfg g d n ->
       cls_iefb_get_rww_value n s3 = Done (device_register mcfg AREA_RWW m g d n, s3, [])).
Proof.
  intros Hm Hb Hinfo Hsent Hseq Hpart Hscfg Hsinv Hsup Hdevice.
  destruct (slave_call gd now info frame scfg s slmp rport ifx now_s (fun s' answer =>
    SlaveInv.frame_contents scfg answer (address mcfg g d) CL_SLMP_ENDCODE_SUCCESS (g + 1)
      (g_frame_sequence_no gd) (slave_application_status s) (slave_err_code s)
      (local_management_info s) (SlaveExchange.own_data s) /\
    is_device mcfg g d (parameter_of gd) scfg s' /\
    (forall n, bit_number mcfg g d n ->
       cls_iefb_get_ry_bit n s' = Done (device_bit mcfg AREA_RY m g d n, s', [])) /\
    (forall n, register_number mcfg g d n ->
       cls_iefb_get_rww_value n s' = Done (device_register mcfg AREA_RWW m g d n, s', [])))
    Hsent Hscfg Hsinv) as (s' & s3 & o & answer & Hrun & Ho & (Hcont & Hdev & Hry & Hrww) & Hv & Hi' & Hi3).
  - intros s2 old Hv Hinv2 Hold. pose proof (is_device_view _ _ _ _ Hv Hdevice) as Hdevice2.
    destruct (slave_receives m gd now info frame scfg s2 now_s old rport Hm Hb Hinfo Hsent Hold Hseq
      Hpart Hscfg Hinv2 Hsup Hdevice2) as (s' & so & answer & Hrun & Hframes & Hcont & Hdev & Ht & Hreads).
    exists s', so, answer. split; [exact Hrun|]. split; [exact Hframes|].
    split; [apply Hdev|]. split; [exact Ht|]. split; [|split; [exact Hdev|exact Hreads]].
    apply (contents_view _ _ _ _ _ _ _ Hv). rewrite <- (SlaveCalls.sv_data _ _ Hv). exact Hcont.
  - exists s3, o, answer. split; [exact Hrun|]. split; [exact Ho|]. split; [exact Hcont|].
    split; [exact (is_device_view _ _ _ _ Hv Hdev)|].
    destruct (SlaveCalls.view_reads scfg s' s3 (proj1 Hi') (proj1 Hi3) Hv) as [Hvry Hvrww].
    pose proof (is_size _ _ _ _ _ _ Hdev) as Hk. rewrite Hk in Hvry, Hvrww.
    split; intros n Hn; [apply Hvry|apply Hvrww]; auto.
Qed.

Lemma slave_call_accepts gd now info frame scfg s slmp rport ifx now_s : addresses_unique mcfg ->
  group_base mcfg g gd -> 0 <= info < 2 ^ mc_protocol_ver mcfg ->
  sent_request mcfg g gd now info frame -> (device_part mcfg g d gd).1.1 = (false, address mcfg g d) ->
  SlaveInv.config_ok scfg -> SlaveInv.slave_inv scfg s -> 0 < supervision mcfg g ->
  state s = CLS_SLAVE_STATE_MASTER_NONE -> num_occupied_stations scfg = device_size mcfg g d ->
  exists s3 o answer,
    SlaveReach.run_call (SlaveReach.HandlePeriodic slmp (Some (request_datagram frame rport ifx)))
      now_s s = Done (tt, s3, o) /\
    SlaveInv.sent_frames o = [(cciefb_socket s, mc_master_id mcfg, rport, answer)] /\
    SlaveInv.frame_contents scfg answer (address mcfg g d) CL_SLMP_ENDCODE_SUCCESS (g + 1)
      (g_frame_sequence_no gd) (slave_application_status s) (slave_err_code s)
      (local_management_info s) (SlaveExchange.no_data s) /\
    is_device mcfg g d (parameter_of gd) scfg s3.
Proof.
  intros Hu Hb Hinfo Hsent Hpart Hscfg Hsinv Hsup Hst Hk.
  destruct (slave_call gd now info frame scfg s slmp rport ifx now_s (fun s' answer =>
    SlaveInv.frame_contents scfg answer (address mcfg g d) CL_SLMP_ENDCODE_SUCCESS (g + 1)
      (g_frame_sequence_no gd) (slave_application_status s) (slave_err_code s)
      (local_management_info s) (SlaveExchange.no_data s) /\
    is_device mcfg g d (parameter_of gd) scfg s')
    Hsent Hscfg Hsinv) as (s' & s3 & o & answer & Hrun & Ho & (Hcont & Hdev) & Hv & _).
  - intros s2 old Hv Hinv2 Hold.
    assert (Hst2 : state s2 = CLS_SLAVE_STATE_MASTER_NONE) by (rewrite (SlaveCalls.sv_state _ _ Hv); exact Hst).
    destruct (slave_accepts gd now info frame scfg s2 now_s old rport Hu Hb Hinfo Hsent Hold
      Hpart Hscfg Hinv2 Hsup Hst2 Hk) as (s' & so & answer & Hrun & Hframes & Hcont & Hdev & Ht).
    exists s', so, answer. split; [exact Hrun|]. split; [exact Hframes|].
    split; [apply Hdev|]. split; [exact Ht|]. split; [|exact Hdev].
    apply (contents_view _ _ _ _ _ _ _ Hv). rewrite <- (no_data_view _ _ Hv). exact Hcont.
  - exists s3, o, answer. split; [exact Hrun|]. split; [exact Ho|]. split; [exact Hcont|].
    exact (is_device_view _ _ _ _ Hv Hdev).
Qed.

Lemma slave_call_refuses gd now info frame scfg s slmp rport ifx now_s : group_base mcfg g gd ->
  0 <= info < 2 ^ mc_protocol_ver mcfg -> sent_request mcfg g gd now info frame ->
  SlaveInv.config_ok scfg -> SlaveInv.slave_inv scfg s -> state s = CLS_SLAVE_STATE_MASTER_CONTROL ->
  master_id (master s) <> mc_master_id mcfg -> cl_timer_is_expired (receive_timer s) now_s = false ->
  exists s3 o answer,
    SlaveReach.run_call (SlaveReach.HandlePeriodic slmp (Some (request_datagram frame rport ifx)))
      now_s s = Done (tt, s3, o) /\
    SlaveInv.sent_frames o = [(cciefb_socket s, mc_master_id mcfg, rport, answer)] /\
    SlaveInv.frame_contents scfg answer (address mcfg g d)
      CL_SLMP_ENDCODE_CCIEFB_MASTER_DUPLICATION (g + 1)
      (g_frame_sequence_no gd) (slave_application_status s) (slave_err_code s)
      (local_management_info s) (SlaveExchange.no_data s) /\
    SlaveExchange.same_connection s s3 /\ SlaveExchange.own_data s3 = SlaveExchange.own_data s.
Proof.
  intros Hb Hinfo Hsent Hscfg Hsinv Hst Hother Htime.
  destruct (slave_call gd now info frame scfg s slmp rport ifx now_s (fun s' answer =>
    SlaveInv.frame_contents scfg answer (address mcfg g d)
      CL_SLMP_ENDCODE_CCIEFB_MASTER_DUPLICATION (g + 1)
      (g_frame_sequence_no gd) (slave_application_status s) (slave_err_code s)
      (local_management_info s) (SlaveExchange.no_data s) /\
    SlaveExchange.same_connection s s' /\ SlaveExchange.own_data s' = SlaveExchange.own_data s)
    Hsent Hscfg Hsinv) as (s' & s3 & o & answer & Hrun & Ho & (Hcont & Hsame & Hown) & Hv & _).
  - intros s2 old Hv Hinv2 Hold. pose proof Hv as [Hv1 Hv2 Hv3 Hv4 Hv5 Hv6 Hv7 Hv8].
    destruct (slave_refuses gd now info frame scfg s2 now_s old rport Hb Hinfo Hsent Hold
      Hscfg Hinv2) as (s' & so & answer & Hrun & Hframes & Hcont & Hsame & Hown); [congruence..|].
    exists s', so, answer. split; [exact Hrun|]. split; [exact Hframes|].
    destruct Hsame as (Hs1 & Hs2 & Hs3 & Hs4). split; [congruence|]. split; [congruence|].
    split; [|split; [repeat split; congruence|congruence]].
    apply (contents_view _ _ _ _ _ _ _ Hv). rewrite <- (no_data_view _ _ Hv). exact Hcont.
  - exists s3, o, answer. split; [exact Hrun|]. split; [exact Ho|]. split; [exact Hcont|].
    destruct Hsame as (Hs1 & Hs2 & Hs3 & Hs4). destruct Hv. split; [repeat split; congruence|congruence].
Qed.

(** ** From the slave to the master *)

(** The own signals of a slave are those that it sends. *)
Lemma own_signals scfg s k : SlaveInv.config_ok scfg -> SlaveInv.slave_base scfg s ->
  num_occupied_stations scfg = k ->
  (forall n, 0 <= n < 64 * k -> cls_iefb_get_rx_bit n s =
     Done (bit_in (slice (Z.to_nat (64 * k)) (Z.to_nat (8 * k)) (SlaveExchange.own_data s)) n, s, [])) /\
  (forall n, 0 <= n < 32 * k -> cls_iefb_get_rwr_value n s =
     Done (register_in (slice 0 (Z.to_nat (64 * k)) (SlaveExchange.own_data s)) n, s, [])).
Proof.
  intros Hcfg Hb <-. unfold SlaveExchange.own_data, SlaveInv.frame_data.
  rewrite (SlaveInv.sb_config _ _ Hb). pose proof (SlaveInv.config_stations scfg Hcfg).
  destruct (SlaveInv.sb_normal _ _ Hb) as (_ & Hrwr & Hrx & _).
  rewrite !slice_slice by lia. split; intros n Hn.
  - rewrite (SlaveSignals.get_rx_value scfg Hcfg s n Hb Hn). unfold SlaveSignals.rx_in. rewrite Hrx.
    rewrite bit_in_slice by lia.
    replace (59 + Z.to_nat (64 * num_occupied_stations scfg))%nat
      with (Z.to_nat (59 + 64 * num_occupied_stations scfg)) by lia. reflexivity.
  - rewrite (SlaveSignals.get_rwr_value scfg s n Hb Hn). unfold SlaveSignals.rwr_in. rewrite Hrwr.
    rewrite register_in_slice by lia. reflexivity.
Qed.

Lemma answer_signals answer old k data : 0 <= k -> Z.of_nat (List.length answer) = 59 + 72 * k ->
  drop 59 answer = data ->
  (forall n, 0 <= n < 64 * k -> response_bit k (received answer old) true n =
     bit_in (slice (Z.to_nat (64 * k)) (Z.to_nat (8 * k)) data) n) /\
  (forall n, 0 <= n < 32 * k -> response_register (received answer old) true n =
     register_in (slice 0 (Z.to_nat (64 * k)) data) n).
Proof.
  intros Hk Hlen <-. rewrite !slice_of_drop. unfold response_bit, response_register. split; intros n Hn.
  - cbn [andb]. rewrite <- (bit_in_slice _ (Z.to_nat (8 * k))) by lia.
    rewrite received_slice by lia. do 2 f_equal. lia.
  - rewrite <- (register_in_slice 59 (Z.to_nat (64 * k))) by lia.
    rewrite received_slice by lia. reflexivity.
Qed.

(** The answer of the slave fits, and its inputs are received. *)
Lemma master_takes m answer old rport now_m scfg ec seq info err manag data :
  SlaveInv.config_ok scfg -> addresses_unique mcfg -> num_occupied_stations scfg = device_size mcfg g d ->
  master_inv mcfg m -> buffer_ok old ->
  is_u16 ec -> 0 <= info <= 1 -> is_u16 err -> is_u32 manag ->
  SlaveInv.frame_contents scfg answer (address mcfg g d) ec (g + 1) seq info err manag data ->
  d_enabled (device_at (group_at m g) d) = true ->
  seq = g_frame_sequence_no (group_at m g) ->
  (fv_has_been_received (d_latest_frame (device_at (group_at m g) d)) = true ->
   fv_frame_sequence_no (d_latest_frame (device_at (group_at m g) d)) <> seq) ->
  exists m' mo,
    clm_iefb_handle_input_frame now_m (received answer old) (Z.of_nat (List.length answer))
      (address mcfg g d) rport m = Done (true, m', mo) /\
    master_inv mcfg m' /\ inputs_received mcfg m m' g d (received answer old) /\
    (ec = CL_SLMP_ENDCODE_SUCCESS -> link_answered mcfg now_m m m' g d mo) /\
    (ec = CL_SLMP_ENDCODE_CCIEFB_MASTER_DUPLICATION -> alarmed m m' g).
Proof.
  intros Hscfg Huniq Hk Hm Hold Hec Hinfo Herr Hmanag (Hlen & Hdec & Hdata & Hby) Hen Hseq Hnew.
  pose proof (SlaveInv.config_params scfg Hscfg) as Hpar. pose proof (sp_n _ _ _ _ Hpar) as Hn.
  pose proof (cok_group _ mcfg_ok g (proj1 has)) as Hgs. pose proof (proj1 has) as Hg.
  pose proof (cok_groups _ mcfg_ok) as Hgn. pose proof clm_max_groups_ok as Hgmax.
  destruct (go_device _ _ Hgs d (proj2 has)) as (_ & Hid & Hid0 & Hidm).
  fold (address mcfg g d) in Hid, Hid0, Hidm.
  pose proof (proj1 (proj2 Hm g Hg)) as Hgb. unfold has_group in Hg.
  destruct (received_bytes answer old Hby ltac:(lia) Hold) as [Hrb Hrl].
  assert (Hval : response_values_ok (address mcfg g d) ec (g + 1) seq info err manag).
  { split; try assumption; try (split; [|]; assumption); try lia.
    rewrite Hseq. apply Hgb. }
  destruct (response_accepted (received answer old) _ _ _ _ _ _ _ _ _ _ _ rport now_m Hpar Hval)
    as (Hp1 & Hp2 & Hp3).
  { rewrite (received_dec c_cl_cciefb_cyclic_resp_full_headers); [exact Hdec|].
    change (c_size _) with 59%nat. lia. }
  rewrite <- Hlen in Hp1, Hp2, Hp3. set (len := Z.of_nat _) in *.
  assert (Hlen1 : 0 <= len <= CL_BUFFER_LEN) by (unfold CL_BUFFER_LEN; lia).
  assert (Hno : ~ fatal (received answer old) len (address mcfg g d)).
  { apply not_fatal. intros (k & Hk1 & Hk2). rewrite response_size in Hk2. lia. }
  pose proof (input_frame_wp clock_ok mcfg mcfg_ok now_m _ len (address mcfg g d) rport m Hrb Hrl
    Hlen1 Hno Hm) as Hw.
  pose proof (keeps_input_frame clock_ok mcfg mcfg_ok now_m _ len (address mcfg g d) rport Hrb Hrl
    Hlen1 Hno m Hm) as Hkeep.
  apply wp_done in Hw as (b & m' & mo & Hrun & Hout). unfold wp in Hkeep. rewrite Hrun in Hkeep.
  set (r := ClmResponseInfo _ _ _ _ _ _ _ _) in Hp3.
  assert (Ha : response_arrives mcfg m now_m (received answer old) len (address mcfg g d) rport g d r).
  { split.
    - exact Hidm.
    - eauto.
    - exact Hp3.
    - reflexivity.
    - split; [exact has|]. apply found_device; assumption.
    - split; [exact Hen| | |].
      + intros latest Hr He. exfalso. exact (Hnew Hr (eq_sym He)).
      + intros _. exact Hseq.
      + exact Hk. }
  exists m', mo. destruct Hout as [(g' & d' & r' & Ha' & -> & Hi & Hlink & Halarm)|[Hx _]]; [|destruct (Hx _ _ _ Ha)].
  assert (r' = r) as -> by (pose proof (ra_parse _ _ _ _ _ _ _ _ _ _ Ha'); congruence).
  pose proof (ra_group _ _ _ _ _ _ _ _ _ _ Ha') as Hg'. cbn in Hg'.
  assert (g' = g) as -> by lia.
  pose proof (ra_device _ _ _ _ _ _ _ _ _ _ Ha') as [_ Hd'].
  pose proof (ra_device _ _ _ _ _ _ _ _ _ _ Ha) as [_ Hd].
  assert (d' = d) as -> by congruence.
  split; [exact Hrun|]. split; [apply Hkeep|]. split; [exact Hi|].
  split; [|exact Halarm]. intros Hsucc. apply (Hlink Hsucc). exact Hseq.
Qed.

Lemma quiet_group now gd gd' : MasterCalls.quiet now gd gd' ->
  (forall d', device_at gd' d' = device_at gd d') /\ g_frame_sequence_no gd' = g_frame_sequence_no gd /\
  g_group_state gd' = g_group_state gd /\ parameter_of gd' = parameter_of gd.
Proof. intros (w & c & -> & _). repeat split. Qed.

Lemma request_of_group gi now info gd gd' frame : request_of mcfg gi now info gd gd' frame ->
  frame_group frame = gi + 1.
Proof.
  intros [[_ _ (_ & Hdec) _ _] _ _ _ _ _]. unfold frame_group. rewrite Hdec. reflexivity.
Qed.

(** The requests of the group that the timers cause. *)
Lemma stage_request now m m' o frame : MasterCalls.stage mcfg m now m' o -> request_in g frame o ->
  ~ MasterCalls.scanning now (group_at m g) /\
  request_of mcfg g now (m_master_local_unit_info m) (group_at m g) (group_at m' g) frame.
Proof.
  intros Hst (socket & ip & port & Hin & Hgr).
  destruct (st_frames _ _ _ _ _ Hst _ _ _ _ Hin) as (gi & _ & Hno & Hr).
  rewrite (request_of_group _ _ _ _ _ _ Hr) in Hgr. assert (gi = g) as -> by lia. auto.
Qed.

(** The timers, while the device is asked and after it has answered. *)
Lemma stage_waits now m m' o : MasterCalls.stage mcfg m now m' o ->
  MasterCalls.scanning now (group_at m g) ->
  MasterCalls.quiet now (group_at m g) (group_at m' g) /\ forall frame, ~ request_in g frame o.
Proof.
  intros Hst Hscan. split.
  - destruct (st_groups _ _ _ _ _ Hst g (proj1 has)) as [Hq|[Hno _]]; [exact Hq|destruct (Hno Hscan)].
  - intros frame Hf. destruct (stage_request _ _ _ _ _ Hst Hf) as [Hno _]. exact (Hno Hscan).
Qed.

Lemma stage_asks now m m' o : master_inv mcfg m -> MasterCalls.stage mcfg m now m' o ->
  answered (group_at m g) d ->
  asks_or_rests mcfg g now (group_at m' g) d o /\
  parameter_of (group_at m' g) = parameter_of (group_at m g).
Proof.
  intros Hm Hst Ha. pose proof (fun frame => stage_request now m m' o frame Hst) as Hreq.
  destruct (st_groups _ _ _ _ _ Hst g (proj1 has)) as [Hq|(_ & _ & Hag)].
  - split; [left|apply (quiet_group _ _ _ Hq)].
    pose proof (MasterCalls.quiet_answered _ _ _ d Hq Ha) as Ha'. split; [exact Ha'|].
    intros frame Hf. destruct (Hreq frame Hf) as [_ [_ _ Hcarries _ _ _]].
    destruct (Hcarries d (proj2 has)) as [Hc _]. destruct Ha' as (_ & Hs & _).
    unfold carries in Hc. rewrite Hs in Hc. exact Hc.
  - destruct (Hag d has Ha) as (Hasked & socket & ip & port & frame & Hin & Hr).
    split; [right|exact (qo_parameter _ _ _ _ _ _ _ Hr)].
    exists (m_master_local_unit_info m), (group_at m g). split; [exact (mb_info _ _ (proj1 Hm))|].
    split; [exact Hasked|]. split.
    + exists frame, socket, ip, port. split; [exact Hin|]. exact (request_of_group _ _ _ _ _ _ Hr).
    + intros frame' Hf. apply (Hreq frame' Hf).
Qed.

(** When its time has come, it is asked. *)
Lemma stage_starts now m m' o : MasterCalls.stage mcfg m now m' o ->
  ~ MasterCalls.due now (group_at m' g) -> answered (group_at m g) d ->
  MasterCalls.due now (group_at m g) ->
  asked (group_at m' g) d /\ exists frame, request_in g frame o.
Proof.
  intros Hst Hno Ha Hdue. destruct (st_groups _ _ _ _ _ Hst g (proj1 has)) as [Hq|(_ & _ & Hag)].
  - exfalso. refine (MasterCalls.quiet_not_due mcfg g now _ _ _ Hno Hq Hdue).
    apply (proj2 (st_inv _ _ _ _ _ Hst) g (proj1 has)).
  - destruct (Hag d has Ha) as (Hasked & socket & ip & port & frame & Hin & Hr). split; [exact Hasked|].
    exists frame, socket, ip, port. split; [exact Hin|exact (request_of_group _ _ _ _ _ _ Hr)].
Qed.

(** The answer ends the scan or leaves it, after timers that kept silent. *)
Lemma goes_on_asks now gd' o1 o2 : (forall frame, ~ request_in g frame o1) ->
  goes_on mcfg g now gd' d o2 -> asks_or_rests mcfg g now gd' d (o1 ++ o2).
Proof.
  intros Hno Hon.
  assert (Happ : forall frame, request_in g frame (o1 ++ o2) ->
    exists socket ip port, ClmCciefbSendto socket ip port frame ∈ o2).
  { intros frame (socket & ip & port & [Hin|Hin]%elem_of_app & Hgr); [|eauto].
    destruct (Hno frame). exists socket, ip, port. auto. }
  destruct Hon as [[Ha Ho]|(info & gd & Hinfo & (Ha & s & ip & p & frame & Hin & Hr) & Hall)].
  - left. split; [exact Ha|]. intros frame (s & ip & p & Hin)%Happ. exact (no_frame_in _ _ _ _ _ Ho Hin).
  - right. exists info, gd. split; [exact Hinfo|]. split; [exact Ha|]. split.
    + exists frame, s, ip, p. split; [apply elem_of_app; auto|exact (request_of_group _ _ _ _ _ _ Hr)].
    + intros frame' (s' & ip' & p' & Hin')%Happ. exact (Hall _ _ _ _ Hin').
Qed.

(** What the master reads once it has taken the answer. *)
Lemma answer_read scfg s answer old m m' : SlaveInv.config_ok scfg -> SlaveInv.slave_base scfg s ->
  num_occupied_stations scfg = device_size mcfg g d -> master_inv mcfg m -> master_inv mcfg m' ->
  d_transmission_bit (device_at (group_at m g) d) = true ->
  Z.of_nat (List.length answer) = 59 + 72 * num_occupied_stations scfg /\
    drop 59 answer = SlaveExchange.own_data s /\ bytes answer ->
  buffer_ok old -> inputs_received mcfg m m' g d (received answer old) ->
  (forall n, bit_number mcfg g d n -> exists rx : bool,
     cls_iefb_get_rx_bit n s = Done (rx, s, []) /\ clm_iefb_get_rx_bit g d n m' = Done (rx, m', [])) /\
  (forall n, register_number mcfg g d n -> exists rwr : Z,
     cls_iefb_get_rwr_value n s = Done (rwr, s, []) /\
     clm_iefb_get_rwr_value g d n m' = Done (rwr, m', [])).
Proof.
  intros Hscfg Hsb Hk Hm Hm' Hbit (Hlen & Hdata & Hby) Hold Hi. rewrite Hk in Hlen.
  pose proof (device_inside mcfg mcfg_ok g d has) as Hins. pose proof clm_max_stations_ok as Hmax.
  destruct (received_bytes answer old Hby ltac:(lia) Hold) as [Hrb Hrl].
  pose proof (received_signals mcfg mcfg_ok m m' g d _ has Hm Hrb Hrl Hi) as Hsig. cbv zeta in Hsig.
  rewrite Hbit in Hsig.
  pose proof (reads_same_signals mcfg mcfg_ok m' _ _ _ _ Hm' Hsig g d has) as [Hb2 Hr2].
  destruct (own_signals scfg s _ Hscfg Hsb Hk) as [Hob Hor].
  destruct (answer_signals answer old (device_size mcfg g d) _ ltac:(lia) Hlen Hdata) as [Hab Har].
  split; intros n Hnum; eexists.
  - split; [apply (Hob n Hnum)|]. rewrite (proj1 (Hb2 n Hnum)), replace_here, decide_True by reflexivity.
    rewrite (Hab n Hnum). reflexivity.
  - split; [apply (Hor n Hnum)|]. rewrite (proj1 (Hr2 n Hnum)), replace_here, decide_True by reflexivity.
    rewrite (Har n Hnum). reflexivity.
Qed.

Lemma frame_contents_data scfg answer slave ec gno seq info err manag data :
  SlaveInv.frame_contents scfg answer slave ec gno seq info err manag data ->
  Z.of_nat (List.length answer) = 59 + 72 * num_occupied_stations scfg /\ drop 59 answer = data /\
  bytes answer.
Proof. intros (Hlen & _ & Hdata & Hby). auto. Qed.

(** *** Calls of the master *)

(** The datagram that the answer is. *)
Definition answer_datagram (answer : list Z) (rport lip ifx : Z) : datagram :=
  Datagram answer (address mcfg g d) rport lip ifx.

Lemma answer_is_datagram scfg answer ec seq info err manag data rport lip ifx : SlaveInv.config_ok scfg ->
  SlaveInv.frame_contents scfg answer (address mcfg g d) ec (g + 1) seq info err manag data ->
  datagram_ok (answer_datagram answer rport lip ifx).
Proof.
  intros Hscfg (Hlen & _ & _ & Hby). pose proof (SlaveInv.config_params scfg Hscfg) as Hpar.
  pose proof (sp_n _ _ _ _ Hpar) as Hn. split; [exact Hby|]. cbn [dg_bytes answer_datagram].
  split; [unfold CL_BUFFER_LEN; lia|]. apply not_fatal. intros (k & Hk1 & Hk2). rewrite response_size in Hk2. lia.
Qed.

Lemma answer_call_ok sq scfg answer ec seq info err manag data rport lip ifx :
  SlaveInv.config_ok scfg -> call_ok mcfg (MasterPeriodic sq None []) ->
  SlaveInv.frame_contents scfg answer (address mcfg g d) ec (g + 1) seq info err manag data ->
  call_ok mcfg (MasterPeriodic sq None [answer_datagram answer rport lip ifx]).
Proof.
  intros Hscfg (Hsq & _ & _) Hcont. split; [exact Hsq|]. split; [discriminate|].
  constructor; [|constructor]. exact (answer_is_datagram scfg _ _ _ _ _ _ _ rport lip ifx Hscfg Hcont).
Qed.

(** The call that receives the answer while the scan waits for it. *)
Lemma master_call_takes m answer rport lip ifx sq now_m scfg ec seq info err manag data :
  SlaveInv.config_ok scfg -> addresses_unique mcfg -> num_occupied_stations scfg = device_size mcfg g d ->
  master_inv mcfg m -> MasterCalls.scanning now_m (group_at m g) ->
  is_u16 ec -> 0 <= info <= 1 -> is_u16 err -> is_u32 manag ->
  SlaveInv.frame_contents scfg answer (address mcfg g d) ec (g + 1) seq info err manag data ->
  d_enabled (device_at (group_at m g) d) = true ->
  seq = g_frame_sequence_no (group_at m g) ->
  (fv_has_been_received (d_latest_frame (device_at (group_at m g) d)) = true ->
   fv_frame_sequence_no (d_latest_frame (device_at (group_at m g) d)) <> seq) ->
  exists m' mo,
    run_call (MasterPeriodic sq None [answer_datagram answer rport lip ifx]) now_m m =
      Done (tt, m', mo) /\
    (exists m2 old, master_inv mcfg m2 /\ MasterCalls.quiet now_m (group_at m g) (group_at m2 g) /\
       buffer_ok old /\ inputs_received mcfg m2 m' g d (received answer old)) /\ master_inv mcfg m' /\
    (ec = CL_SLMP_ENDCODE_SUCCESS ->
     d_device_state (device_at (group_at m g) d) = CLM_DEVICE_STATE_WAIT_TD \/
     d_device_state (device_at (group_at m g) d) = CLM_DEVICE_STATE_CYCLIC_SENDING ->
     asks_or_rests mcfg g now_m (group_at m' g) d mo /\
     parameter_of (group_at m' g) = parameter_of (group_at m g)) /\
    (ec = CL_SLMP_ENDCODE_CCIEFB_MASTER_DUPLICATION -> alarmed m m' g).
Proof.
  intros Hscfg Huniq Hk Hm Hscan Hec Hinfo Herr Hmanag Hcont Hen Hseq Hnew.
  destruct (answer_is_datagram scfg _ _ _ _ _ _ _ rport lip ifx Hscfg Hcont) as (Hby & Hlen & _).
  match goal with |- exists m' mo, ?run = _ /\ @?Q m' mo =>
    assert (Hw : wp (run_call (MasterPeriodic sq None [answer_datagram answer rport lip ifx]) now_m)
      (fun _ m' mo => Q m' mo) m) end.
  2:{ apply wp_done in Hw as ([] & m' & mo & Hrun & HQ). exists m', mo. split; [exact Hrun|exact HQ]. }
  apply (datagram_call_stage clock_ok mcfg mcfg_ok sq _ now_m m _ Hm).
  intros m2 o Hst. pose proof (st_inv _ _ _ _ _ Hst) as Hm2.
  destruct (stage_waits _ _ _ _ Hst Hscan) as [Hq Hno].
  destruct (quiet_group _ _ _ Hq) as (Hdev & Hsq & Hgst & Hpar).
  assert (Hbuf : buffer_ok (m_cciefb_receivebuf m2)) by (destruct (mb_buf _ _ (proj1 Hm2)); split; assumption).
  pose proof (keeps_receive_buffer mcfg _ (answer_is_datagram scfg _ _ _ _ _ _ _ rport lip ifx Hscfg Hcont) m2 Hm2)
    as [Hm3 _].
  apply wp_bind, wp_modify. cbn [app]. set (m3 := m2 <| m_cciefb_receivebuf ::= _ |>) in *.
  apply wp_bind, wp_get. cbn [app dg_bytes answer_datagram].
  change (group_at m2 g) with (group_at m3 g) in Hq, Hdev, Hsq, Hgst, Hpar.
  destruct (master_takes m3 answer (m_cciefb_receivebuf m2) rport now_m scfg ec seq info err manag data
    Hscfg Huniq Hk Hm3 Hbuf Hec Hinfo Herr Hmanag Hcont) as (m' & mo & Hrun & Hm' & Hi & Hlink & Halarm);
    [rewrite ?Hdev, ?Hsq; assumption..|].
  change (m_cciefb_receivebuf m3) with (received answer (m_cciefb_receivebuf m2)).
  apply wp_when; intros Hpos; [|exfalso; apply Z.ltb_ge in Hpos; destruct Hcont; pose proof
    (sp_n _ _ _ _ (SlaveInv.config_params scfg Hscfg)); lia].
  apply wp_bind. unfold wp. cbn [dg_remote_ip dg_remote_port answer_datagram]. rewrite Hrun. apply wp_ret.
  split; [exists m3, (m_cciefb_receivebuf m2); auto|]. split; [exact Hm'|].
  split; [|unfold alarmed in *; rewrite <- Hgst; exact Halarm].
  intros Hsucc Hst'. unfold link_answered in Hlink. rewrite (Hdev d), Hpar, Hgst in Hlink.
  destruct (Hlink Hsucc Hen Hst' (proj1 Hscan)) as [Hon Hp]. split; [|exact Hp].
  rewrite app_nil_r. apply goes_on_asks; assumption.
Qed.

End Cycle.

(** ** A call of the master *)

Lemma silent_call mcfg m now sq : cfg_types mcfg -> master_reachable mcfg m ->
  call_ok mcfg (MasterPeriodic sq None []) ->
  exists m1 o, run_call (MasterPeriodic sq None []) now m = Done (tt, m1, o) /\
    master_reachable mcfg m1 /\ MasterCalls.stage mcfg m now m1 o /\
    forall g, has_group mcfg g -> ~ MasterCalls.due now (group_at m1 g).
Proof.
  intros Hty Hreach Hc. destruct (MasterReach.master_reachable_inv clock_ok mcfg m Hty Hreach) as (Hok & _ & Hm).
  pose proof (silent_call_stage clock_ok mcfg Hok sq now m Hm) as Hw.
  apply wp_done in Hw as ([] & m1 & o & Hrun & Hst). exists m1, o. split; [exact Hrun|].
  split; [exact (master_reach_call mcfg _ now m m1 o Hreach Hc Hrun)|exact Hst].
Qed.

(** Every frame that a call sends is the request of a group. *)
Lemma call_requests mcfg m now sq : cfg_types mcfg -> master_reachable mcfg m ->
  call_ok mcfg (MasterPeriodic sq None []) ->
  exists m1 o, run_call (MasterPeriodic sq None []) now m = Done (tt, m1, o) /\
    master_reachable mcfg m1 /\ master_inv mcfg m1 /\
    forall socket ip port frame, ClmCciefbSendto socket ip port frame ∈ o ->
      exists g, has_group mcfg g /\
        request_of mcfg g now (m_master_local_unit_info m) (group_at m g) (group_at m1 g) frame.
Proof.
  intros Hty Hreach Hc. destruct (silent_call mcfg m now sq Hty Hreach Hc) as (m1 & o & Hrun & Hreach1 & Hst & _).
  exists m1, o. split; [exact Hrun|]. split; [exact Hreach1|].
  split; [exact (st_inv _ _ _ _ _ Hst)|]. intros socket ip port frame Hin.
  destruct (st_frames _ _ _ _ _ Hst _ _ _ _ Hin) as (g & Hg & _ & Hr). eauto.
Qed.

End Exchange.
