(* ===== verification/Exchange.v ===== *)
(** * The exchange of master and slave

    The two stacks together, as their applications call them: a call of the
    master sends the request of a link scan, a call of the slave receives it
    and answers, and a call of the master receives the answer.  What either
    application reads is what the other one has written. *)

From Stdlib Require Import String.
From S2P Require Import Prelude Packed Signals Timer Limiter Util Types Iefb IefbFacts IefbRoundtrip.
From S2P Require Import File FileFacts Slmp SlmpFacts.
From S2P Require Slave SlaveIefb SlaveInv SlaveActions SlaveFsm SlaveSafety SlaveSlmp SlaveReach.
From S2P Require SlaveSignals SlaveProps SlaveExchange SlaveCalls.
From S2P Require Import Master MasterIefb MasterConfig MasterSlmp MasterConfigSpec.
From S2P Require Import MasterInv MasterFrame MasterDevice MasterGroup MasterScan MasterFsm.
From S2P Require Import MasterEvents MasterControl MasterSafety MasterResponse MasterSettings.
From S2P Require Import MasterOutgoing MasterInputs MasterStart MasterReach MasterProps MasterExchange MasterLeaves.
From S2P Require Import MasterCalls Cycle.

#[local] Open Scope Z_scope.

Import Slave SlaveIefb.

Section Exchange.
Context `{ClsOptions, ClmOptions, Clal, ClalNet, Host, ClalClock, FileOptions, ClalFileOk}.
Context (clock_ok : forall now, is_u64 (clal_get_unix_timestamp_ms now)).

(** C1: The two stacks exchange their data.  Let the periodic function of a
    reachable master send a request, and let a reachable slave be a device of
    its group: connected to the master, with its parameters, at its stations.
    The periodic function of the slave that receives the request answers it
    with one frame, and the application of the slave then reads exactly the
    RY bits and RWw registers that the application of the master had set.
    When the periodic function of the master receives this answer in time,
    the application of the master reads exactly the RX bits and RWr registers
    that the application of the slave had set; and the two stay connected,
    for the next scan.  The master must not have taken a response of the
    device with this sequence number before, and the supervision time of the
    group must not wrap around to zero. *)
Theorem cyclic_data_exchanged mcfg m now sq scfg s : cfg_types mcfg ->
  SlaveReach.config_typed scfg -> master_reachable mcfg m -> SlaveReach.slave_reachable scfg s ->
  call_ok mcfg (MasterPeriodic sq None []) ->
  exists m1 o, run_call (MasterPeriodic sq None []) now m = Done (tt, m1, o) /\
  forall socket ip port frame, ClmCciefbSendto socket ip port frame ∈ o ->
  exists g, has_group mcfg g /\
  forall d, has_device mcfg g d -> is_device mcfg g d (parameter_of (group_at m g)) scfg s ->
    0 < supervision mcfg g ->
    let dev := device_at (group_at m1 g) d in
    d_device_state dev = CLM_DEVICE_STATE_CYCLIC_SENDING ->
    (fv_has_been_received (d_latest_frame dev) = true ->
     fv_frame_sequence_no (d_latest_frame dev) <> g_frame_sequence_no (group_at m1 g)) ->
  forall slmp rport_s if_s now_s, exists s' so answer,
    SlaveReach.run_call (SlaveReach.HandlePeriodic slmp
      (Some (request_datagram mcfg g d frame rport_s if_s))) now_s s = Done (tt, s', so) /\
    SlaveInv.sent_frames so = [(cciefb_socket s, mc_master_id mcfg, rport_s, answer)] /\
  forall sq_m rport_m lip if_m now_m, call_ok mcfg (MasterPeriodic sq_m None []) ->
    cl_timer_is_expired (g_response_wait_timer (group_at m1 g)) now_m = false ->
  exists m2 mo,
    run_call (MasterPeriodic sq_m None [answer_datagram mcfg g d answer rport_m lip if_m]) now_m m1 =
      Done (tt, m2, mo) /\
    (forall n, bit_number mcfg g d n -> exists ry rx : bool,
       clm_iefb_get_ry_bit g d n m = Done (ry, m, []) /\
       cls_iefb_get_ry_bit n s' = Done (ry, s', []) /\
       cls_iefb_get_rx_bit n s = Done (rx, s, []) /\
       clm_iefb_get_rx_bit g d n m2 = Done (rx, m2, [])) /\
    (forall n, register_number mcfg g d n -> exists rww rwr : Z,
       clm_iefb_get_rww_value g d n m = Done (rww, m, []) /\
       cls_iefb_get_rww_value n s' = Done (rww, s', []) /\
       cls_iefb_get_rwr_value n s = Done (rwr, s, []) /\
       clm_iefb_get_rwr_value g d n m2 = Done (rwr, m2, [])) /\
    paired mcfg g d m2 scfg s'.
Proof.
  intros Hty Hsty Hreach Hsreach Hc.
  destruct (MasterReach.master_reachable_inv clock_ok mcfg m Hty Hreach) as (Hok & Huniq & Hm).
  apply validate_duplicates_spec in Huniq.
  destruct (SlaveReach.slave_reachable_inv scfg s Hsty Hsreach) as [Hscfg Hsinv].
  destruct (call_requests clock_ok mcfg m now sq Hty Hreach Hc) as (m1 & o & Hrun & _ & Hm1 & Hreq).
  exists m1, o. split; [exact Hrun|]. intros socket ip port frame Hin.
  destruct (Hreq _ _ _ _ Hin) as (g & Hg & [Hsent _ Hcarries Hparam Hgst _]). exists g. split; [exact Hg|].
  intros d Hgd Hdevice Hsup dev Hse Hnew slmp rport_s if_s now_s. unfold dev in *.
  destruct (Hcarries d (proj2 Hgd)) as [Hpart Hena]. specialize (Hena Hse).
  unfold carries in Hpart. rewrite Hse in Hpart. destruct (proj2 Hm1 g Hg) as [Hgb' Hgc'].
  assert (Hseq : g_frame_sequence_no (group_at m1 g) <> 0).
  { intros Hz. exact (sending_sequence mcfg g _ d Hgc' (proj2 Hgd) Hse Hz). }
  rewrite <- Hparam in Hdevice.
  destruct (slave_call_exchanges clock_ok mcfg Hok g d Hgd m _ now _ frame scfg s slmp rport_s if_s now_s
    Hm Hgb' (mb_info _ _ (proj1 Hm)) Hsent Hseq Hpart Hscfg Hsinv Hsup Hdevice)
    as (s' & so & answer & Hsrun & Hframes & Hcont & Hdevice' & Hry & Hrww).
  exists s', so, answer. split; [exact Hsrun|]. split; [exact Hframes|].
  intros sq_m rport_m lip if_m now_m _ Hwait. pose proof (proj1 Hsinv) as Hsb.
  assert (Hk : num_occupied_stations scfg = device_size mcfg g d) by apply Hdevice.
  destruct (master_call_takes clock_ok mcfg Hok g d Hgd m1 answer rport_m lip if_m sq_m now_m scfg
    CL_SLMP_ENDCODE_SUCCESS _ _ _ _ _ Hscfg Huniq Hk Hm1 (conj Hgst Hwait) ltac:(split; [discriminate|reflexivity])
    (SlaveInv.sb_status _ _ Hsb) (SlaveInv.sb_err _ _ Hsb) (SlaveInv.sb_manag _ _ Hsb) Hcont Hena eq_refl Hnew)
    as (m2 & mo & Hmrun & (m1' & old & Hm1' & Hq & Hold & Hi) & Hm2 & Hlink & _).
  exists m2, mo. split; [exact Hmrun|].
  destruct (gb_devices _ _ _ Hgb' d (proj2 Hgd)) as [_ _ _ Hbit _ _]. specialize (Hbit Hse).
  rewrite <- (proj1 (quiet_group _ _ _ Hq) d) in Hbit.
  destruct (answer_read mcfg Hok g d Hgd scfg s answer old m1' m2 Hscfg Hsb Hk Hm1' Hm2 Hbit
    (frame_contents_data _ _ _ _ _ _ _ _ _ _ Hcont) Hold Hi) as [Hrx Hrwr].
  pose proof (reads_same_signals mcfg Hok m _ _ _ _ Hm (signals_of mcfg m) g d Hgd) as [Hb0 Hr0].
  split; [|split].
  - intros n Hnum. destruct (Hrx n Hnum) as (rx & Hrx1 & Hrx2). eexists _, rx.
    split; [apply (Hb0 n Hnum)|]. split; [apply (Hry n Hnum)|]. auto.
  - intros n Hnum. destruct (Hrwr n Hnum) as (rwr & Hrwr1 & Hrwr2). eexists _, rwr.
    split; [apply (Hr0 n Hnum)|]. split; [apply (Hrww n Hnum)|]. auto.
  - destruct (Hlink eq_refl (or_intror Hse)) as [Hl Hp]. split; [exact (asks_linked _ _ _ _ _ _ Hl)|]. rewrite Hp. exact Hdevice'.
Qed.

(** C3: How a slave and its master get connected.  Let the periodic function
    of a reachable master send a request while an enabled device waits to be
    connected, its transmission bit not forced, and let a reachable slave
    without a master have the address of the device and its number of
    stations.  Then the slave that receives the request finds its stations in
    it, accepts the master and answers; the call of the master that receives
    the answer in time takes it; and from then on the two are connected, so
    that the next scan exchanges their data. *)
Theorem slave_gets_connected mcfg m now sq scfg s : cfg_types mcfg ->
  SlaveReach.config_typed scfg -> master_reachable mcfg m -> SlaveReach.slave_reachable scfg s ->
  call_ok mcfg (MasterPeriodic sq None []) -> state s = CLS_SLAVE_STATE_MASTER_NONE ->
  exists m1 o, run_call (MasterPeriodic sq None []) now m = Done (tt, m1, o) /\
  forall socket ip port frame, ClmCciefbSendto socket ip port frame ∈ o ->
  exists g, has_group mcfg g /\
  forall d, has_device mcfg g d -> num_occupied_stations scfg = device_size mcfg g d ->
    0 < supervision mcfg g ->
    let dev := device_at (group_at m1 g) d in
    d_device_state dev = CLM_DEVICE_STATE_WAIT_TD -> d_enabled dev = true ->
    d_force_transmission_bit dev = false ->
    (fv_has_been_received (d_latest_frame dev) = true ->
     fv_frame_sequence_no (d_latest_frame dev) <> g_frame_sequence_no (group_at m1 g)) ->
  forall slmp rport_s if_s now_s, exists s' so answer,
    SlaveReach.run_call (SlaveReach.HandlePeriodic slmp
      (Some (request_datagram mcfg g d frame rport_s if_s))) now_s s = Done (tt, s', so) /\
    SlaveInv.sent_frames so = [(cciefb_socket s, mc_master_id mcfg, rport_s, answer)] /\
  forall sq_m rport_m lip if_m now_m, call_ok mcfg (MasterPeriodic sq_m None []) ->
    cl_timer_is_expired (g_response_wait_timer (group_at m1 g)) now_m = false ->
  exists m2 mo,
    run_call (MasterPeriodic sq_m None [answer_datagram mcfg g d answer rport_m lip if_m]) now_m m1 =
      Done (tt, m2, mo) /\
    paired mcfg g d m2 scfg s'.
Proof.
  intros Hty Hsty Hreach Hsreach Hc Hst.
  destruct (MasterReach.master_reachable_inv clock_ok mcfg m Hty Hreach) as (Hok & Huniq & Hm).
  apply validate_duplicates_spec in Huniq.
  destruct (SlaveReach.slave_reachable_inv scfg s Hsty Hsreach) as [Hscfg Hsinv].
  destruct (call_requests clock_ok mcfg m now sq Hty Hreach Hc) as (m1 & o & Hrun & _ & Hm1 & Hreq).
  exists m1, o. split; [exact Hrun|]. intros socket ip port frame Hin.
  destruct (Hreq _ _ _ _ Hin) as (g & Hg & [Hsent _ Hcarries _ Hgst _]). exists g. split; [exact Hg|].
  intros d Hgd Hk Hsup dev Hw Hena Hforce Hnew slmp rport_s if_s now_s. unfold dev in *.
  destruct (Hcarries d (proj2 Hgd)) as [Hpart _]. unfold carries in Hpart. rewrite Hw, Hforce in Hpart.
  destruct (slave_call_accepts clock_ok mcfg Hok g d Hgd _ now _ frame scfg s slmp rport_s if_s now_s Huniq
    (proj1 (proj2 Hm1 g Hg)) (mb_info _ _ (proj1 Hm)) Hsent (f_equal (fun p => p.1.1) Hpart)
    Hscfg Hsinv Hsup Hst Hk) as (s' & so & answer & Hsrun & Hframes & Hcont & Hdevice).
  exists s', so, answer. split; [exact Hsrun|]. split; [exact Hframes|].
  intros sq_m rport_m lip if_m now_m _ Hwait. pose proof (proj1 Hsinv) as Hsb.
  destruct (master_call_takes clock_ok mcfg Hok g d Hgd m1 answer rport_m lip if_m sq_m now_m scfg
    CL_SLMP_ENDCODE_SUCCESS _ _ _ _ _ Hscfg Huniq Hk Hm1 (conj Hgst Hwait) ltac:(split; [discriminate|reflexivity])
    (SlaveInv.sb_status _ _ Hsb) (SlaveInv.sb_err _ _ Hsb) (SlaveInv.sb_manag _ _ Hsb) Hcont Hena eq_refl Hnew)
    as (m2 & mo & Hmrun & _ & _ & Hlink & _).
  exists m2, mo. split; [exact Hmrun|].
  destruct (Hlink eq_refl (or_introl Hw)) as [Hl Hp]. split; [exact (asks_linked _ _ _ _ _ _ Hl)|]. rewrite Hp. exact Hdevice.
Qed.

End Exchange.

(** ** Witness *)

(** The sample slave is the second device of the sample master: it is
    connected by the request of the first scan, the master handles its
    answer, and the next scan sends it cyclic data. *)
Module CycleSample.
Import SampleHost SlaveProps.SampleEnv SampleMasterEnv SampleFiles.

Definition slave_ip : Z := SampleMaster.slave_ip.
Definition master_ip : Z := SampleMaster.master_ip.

Definition slave_frame {A} (P : cls_prog A) (s : cls) : list Z :=
  match P s with
  | Done (_, _, o) => match SlaveInv.sent_frames o with (_, frame) :: _ => frame | [] => [] end
  | AssertFailed => []
  end.

Definition request1 : list Z :=
  SampleMaster.master_frame (run_call SampleMaster.quiet_call 200000) SampleMaster.init.
Definition slave_call : SlaveReach.slave_call :=
  SlaveReach.HandlePeriodic None (Some (Datagram request1 master_ip 61450 slave_ip 1)).
Definition slave : cls := SlaveProps.Sample.after (SlaveReach.run_call slave_call 1000) SlaveProps.Sample.init.
Definition answer1 : list Z := slave_frame (SlaveReach.run_call slave_call 1000) SlaveProps.Sample.init.
Definition master_call : MasterReach.master_call :=
  MasterPeriodic [] None [Datagram answer1 slave_ip 61450 master_ip 1].
Definition master : clm := SampleMaster.after (run_call master_call 210000) SampleMaster.scanning.

Lemma slave_after {A} (P : cls_prog A) s :
  match P s with Done _ => true | AssertFailed => false end = true ->
  exists a o, P s = Done (a, SlaveProps.Sample.after P s, o).
Proof. unfold SlaveProps.Sample.after. destruct (P s) as [[[a s'] o]|]; [eauto|discriminate]. Qed.

Lemma slave_is_reachable : SlaveReach.slave_reachable SlaveProps.Sample.cfg slave.
Proof.
  destruct (slave_after (SlaveReach.run_call slave_call 1000) SlaveProps.Sample.init)
    as ([] & o & Hrun); [vm_compute; reflexivity|].
  eapply SlaveReach.reach_call; [exact SlaveProps.Sample.slave_init_reachable| |exact Hrun].
  split; [apply SampleMaster.checked_bytes; vm_compute; reflexivity|vm_compute; discriminate|].
  split; [discriminate|reflexivity].
Qed.

Lemma answer_length : Z.of_nat (List.length answer1) = 203.
Proof. vm_compute. reflexivity. Qed.

Lemma answer_bytes : bytes answer1.
Proof. apply SampleMaster.checked_bytes. vm_compute. reflexivity. Qed.

Lemma answer_ok : datagram_ok (Datagram answer1 slave_ip 61450 master_ip 1).
Proof.
  split; [exact answer_bytes|]. split; cbn [dg_bytes]; rewrite answer_length.
  - discriminate.
  - apply not_fatal. intros (n & Hn & Hl). rewrite response_size in Hl. lia.
Qed.

Lemma master_call_ok : call_ok SampleMaster.cfg master_call.
Proof.
  split; [constructor|]. split; [discriminate|]. constructor; [exact answer_ok|constructor].
Qed.

Lemma master_is_reachable : master_reachable SampleMaster.cfg master.
Proof.
  apply SampleMaster.after_reachable.
  - exact SampleMaster.scanning_reachable.
  - exact master_call_ok.
  - vm_compute. reflexivity.
Qed.

(** Decides what the theorems ask of the call that sends the request. *)
Definition sends_and_waits (m1 : clm) (o : list clm_output) (now : Z) : bool :=
  negb (cl_timer_is_expired (g_response_wait_timer (group_at m1 0)) now) &&
  existsb (fun x => match x with ClmCciefbSendto _ _ _ _ => true | _ => false end) o.
Definition ready (m1 : clm) (o : list clm_output) : bool :=
  let dev := device_at (group_at m1 0) 1 in
  bool_decide (d_device_state dev = CLM_DEVICE_STATE_CYCLIC_SENDING) &&
  negb (fv_frame_sequence_no (d_latest_frame dev) =? g_frame_sequence_no (group_at m1 0)) &&
  sends_and_waits m1 o 820000.
Definition asking (m1 : clm) (o : list clm_output) : bool :=
  let dev := device_at (group_at m1 0) 1 in
  bool_decide (d_device_state dev = CLM_DEVICE_STATE_WAIT_TD) && d_enabled dev &&
  negb (d_force_transmission_bit dev) && negb (fv_has_been_received (d_latest_frame dev)) &&
  sends_and_waits m1 o 210000.

(** The call that sends it. *)
Lemma call_gives m now check m1 o :
  match run_call SampleMaster.quiet_call now m with
  | Done (_, m1, o) => check m1 o | AssertFailed => false end = true ->
  run_call SampleMaster.quiet_call now m = Done (tt, m1, o) -> check m1 o = true.
Proof. intros Hc Hrun. rewrite Hrun in Hc. exact Hc. Qed.

Lemma scan_ready m1 o : run_call SampleMaster.quiet_call 800000 master = Done (tt, m1, o) ->
  ready m1 o = true.
Proof. apply (call_gives master 800000 ready). vm_compute. reflexivity. Qed.

Lemma scan_asks m1 o : run_call SampleMaster.quiet_call 200000 SampleMaster.init = Done (tt, m1, o) ->
  asking m1 o = true.
Proof. apply (call_gives SampleMaster.init 200000 asking). vm_compute. reflexivity. Qed.

Lemma only_group g : has_group SampleMaster.cfg g -> g = 0.
Proof. unfold has_group. cbn. lia. Qed.

Lemma request_in_outputs o :
  existsb (fun x => match x with ClmCciefbSendto _ _ _ _ => true | _ => false end) o = true ->
  exists socket ip port frame, ClmCciefbSendto socket ip port frame ∈ o.
Proof.
  intros (x & Hx & Hs)%existsb_exists. destruct x; try discriminate Hs.
  apply list_elem_of_In in Hx. eauto.
Qed.

Lemma sent_in_time m1 o now : sends_and_waits m1 o now = true ->
  cl_timer_is_expired (g_response_wait_timer (group_at m1 0)) now = false /\
  exists socket ip port frame, ClmCciefbSendto socket ip port frame ∈ o.
Proof.
  intros [Hwait%negb_true_iff Ho]%andb_true_iff. split; [exact Hwait|exact (request_in_outputs o Ho)].
Qed.

Lemma sample_supervision : 0 < supervision SampleMaster.cfg 0.
Proof. vm_compute. reflexivity. Qed.

Lemma sample_has_device : has_device SampleMaster.cfg 0 1.
Proof. vm_compute. repeat split; discriminate. Qed.

Lemma sample_bit : bit_number SampleMaster.cfg 0 1 70.
Proof. vm_compute. split; [discriminate|reflexivity]. Qed.

Lemma sample_size : num_occupied_stations SlaveProps.Sample.cfg = device_size SampleMaster.cfg 0 1.
Proof. vm_compute. reflexivity. Qed.

Lemma slave_without_master : state SlaveProps.Sample.init = CLS_SLAVE_STATE_MASTER_NONE.
Proof. vm_compute. reflexivity. Qed.

Lemma slave_is_device :
  is_device SampleMaster.cfg 0 1 (parameter_of (group_at master 0)) SlaveProps.Sample.cfg slave.
Proof. split; vm_compute; reflexivity. Qed.
End CycleSample.

Section CycleWitness.
Import SampleHost SlaveProps.SampleEnv SampleMasterEnv SampleFiles CycleSample.

Lemma cyclic_data_exchanged_witness :
  exists m1 o frame s' so answer m2 mo ry,
    run_call SampleMaster.quiet_call 800000 CycleSample.master = Done (tt, m1, o) /\
    SlaveReach.run_call (SlaveReach.HandlePeriodic None
      (Some (Datagram frame master_ip 61450 slave_ip 1))) 2000 slave = Done (tt, s', so) /\
    run_call (MasterPeriodic [] None [Datagram answer slave_ip 61450 master_ip 1]) 820000 m1 =
      Done (tt, m2, mo) /\
    clm_iefb_get_ry_bit 0 1 70 CycleSample.master = Done (ry, CycleSample.master, []) /\
    cls_iefb_get_ry_bit 70 s' = Done (ry, s', []).
Proof.
  destruct (cyclic_data_exchanged clock_ok SampleMaster.cfg CycleSample.master 800000 []
    SlaveProps.Sample.cfg slave SampleMaster.cfg_typed SlaveProps.Sample.slave_cfg_typed
    master_is_reachable slave_is_reachable SampleMaster.quiet_call_ok) as (m1 & o & Hrun & Hcycle).
  pose proof (scan_ready m1 o Hrun) as Hready.
  unfold ready in Hready. apply andb_true_iff in Hready as [[Hse%bool_decide_eq_true
    Hne%negb_true_iff%Z.eqb_neq]%andb_true_iff (Hwait & socket & ip & port & frame & Hx)%sent_in_time].
  destruct (Hcycle socket ip port frame Hx) as (g & ->%only_group & Hdev).
  destruct (Hdev 1 sample_has_device slave_is_device sample_supervision Hse (fun _ => Hne) None 61450 1 2000)
    as (s' & so & answer & Hs & _ & Htakes).
  destruct (Htakes [] 61450 master_ip 1 820000 SampleMaster.quiet_call_ok Hwait)
    as (m2 & mo & Hm2 & Hbits & _).
  destruct (Hbits 70 sample_bit) as (ry & rx & Hm & Hs' & _).
  exists m1, o, frame, s', so, answer, m2, mo, ry. auto.
Defined.

(** The first request after the arbitration connects the sample slave. *)
Lemma slave_gets_connected_witness :
  exists m1 o frame s' so answer m2 mo,
    run_call SampleMaster.quiet_call 200000 SampleMaster.init = Done (tt, m1, o) /\
    SlaveReach.run_call (SlaveReach.HandlePeriodic None
      (Some (Datagram frame master_ip 61450 slave_ip 1))) 1000 SlaveProps.Sample.init =
      Done (tt, s', so) /\
    run_call (MasterPeriodic [] None [Datagram answer slave_ip 61450 master_ip 1]) 210000 m1 =
      Done (tt, m2, mo) /\
    paired SampleMaster.cfg 0 1 m2 SlaveProps.Sample.cfg s'.
Proof.
  destruct (slave_gets_connected clock_ok SampleMaster.cfg SampleMaster.init 200000 []
    SlaveProps.Sample.cfg SlaveProps.Sample.init SampleMaster.cfg_typed
    SlaveProps.Sample.slave_cfg_typed SampleMaster.init_reachable SlaveProps.Sample.slave_init_reachable
    SampleMaster.quiet_call_ok) as (m1 & o & Hrun & Hconnect).
  { exact slave_without_master. }
  pose proof (scan_asks m1 o Hrun) as Hask.
  unfold asking in Hask. apply andb_true_iff in Hask as [Hask (Hwait & socket & ip & port & frame & Hx)%sent_in_time].
  apply andb_true_iff in Hask as [Hask Hnew%negb_true_iff].
  apply andb_true_iff in Hask as [[Hw%bool_decide_eq_true Hen]%andb_true_iff Hforce%negb_true_iff].
  destruct (Hconnect socket ip port frame Hx) as (g & ->%only_group & Hdev).
  destruct (Hdev 1 sample_has_device sample_size sample_supervision Hw Hen Hforce
    (fun Hrec => False_rect _ (diff_false_true (eq_trans (eq_sym Hnew) Hrec))) None 61450 1 1000)
    as (s' & so & answer & Hs & _ & Htakes).
  destruct (Htakes [] 61450 master_ip 1 210000 SampleMaster.quiet_call_ok Hwait) as (m2 & mo & Hm2 & Hp).
  exists m1, o, frame, s', so, answer, m2, mo. auto.
Defined.
End CycleWitness.
