(* ===== verification/Link.v ===== *)
(** * The link of a master and a slave

    The two stacks over any number of calls: the master and the slave call
    their periodic functions, the frames that they send are received in
    time, and the applications use the API in between.  The link between
    them lasts, and every frame carries the data of its sender. *)

From Stdlib Require Import String.
From stdpp Require Import relations.
From S2P Require Import Prelude Packed Signals Timer Limiter Util Types Iefb IefbFacts IefbRoundtrip.
From S2P Require Import File FileFacts Slmp SlmpFacts.
From S2P Require Slave SlaveIefb SlaveInv SlaveActions SlaveFsm SlaveSafety SlaveSlmp SlaveReach.
From S2P Require SlaveSignals SlaveProps SlaveExchange SlaveCalls.
From S2P Require Import Master MasterIefb MasterConfig MasterSlmp MasterConfigSpec.
From S2P Require Import MasterInv MasterFrame MasterDevice MasterGroup MasterScan MasterFsm.
From S2P Require Import MasterEvents MasterControl MasterSafety MasterResponse MasterSettings.
From S2P Require Import MasterOutgoing MasterInputs MasterStart MasterReach MasterProps MasterExchange MasterLeaves.
From S2P Require Import MasterCalls Cycle Exchange.

#[local] Open Scope Z_scope.

Import Slave SlaveIefb.

(** ** Definitions *)

(** What is between the two: nothing, or a frame, with the state of its
    sender. *)
Inductive wire :=
| Silence
| Request (sent : clm) (frame : list Z)
| Answer (sent : cls) (frame : list Z).

(** What the application of the master may call: everything but what ends
    the link, or the count of the frames. *)
Definition master_application (c : master_call) : bool :=
  match c with
  | MasterPeriodic _ _ _ | SetSlaveCommunicationStatus _ _ _ | ClearStatistics => false
  | _ => true
  end.
Definition slave_application (c : SlaveReach.slave_call) : bool :=
  match c with
  | SlaveReach.HandlePeriodic _ _ | SlaveReach.StopCyclicData _ | SlaveReach.RestartCyclicData => false
  | _ => true
  end.

Section Link.
Context `{ClsOptions, ClmOptions, Clal, ClalNet, Host, ClalClock, FileOptions, ClalFileOk}.
Context (clock_ok : forall now, is_u64 (clal_get_unix_timestamp_ms now)).
Context (mcfg : clm_cfg) (scfg : cls_cfg) (g d : Z).

(** The master still waits for the responses of the scan. *)
Definition waits (now : Z) (m : clm) : Prop :=
  cl_timer_is_expired (g_response_wait_timer (group_at m g)) now = false.

(** A call of the master sends a request of the group, or it does not. *)
Definition next_wire (w : wire) (m' : clm) (o : list clm_output) (w' : wire) : Prop :=
  (exists frame, request_in g frame o /\ w' = Request m' frame) \/
  (forall frame, ~ request_in g frame o) /\ w' = w.

(** The steps of the two stacks.  While a frame is under way no time-out is
    evaluated by the master, and none by the slave. *)
Inductive link_step : clm * cls * wire -> clm * cls * wire -> Prop :=
| step_master_silent m s w sq now m' o w' :
    call_ok mcfg (MasterPeriodic sq None []) -> (w <> Silence -> waits now m) ->
    run_call (MasterPeriodic sq None []) now m = Done (tt, m', o) -> next_wire w m' o w' ->
    link_step (m, s, w) (m', s, w')
| step_slave_receives m s sent frame slmp rport ifx now s' o answer :
    SlaveReach.run_call (SlaveReach.HandlePeriodic slmp
      (Some (request_datagram mcfg g d frame rport ifx))) now s = Done (tt, s', o) ->
    SlaveInv.sent_frames o = [(cciefb_socket s, mc_master_id mcfg, rport, answer)] ->
    link_step (m, s, Request sent frame) (m, s', Answer s answer)
| step_master_receives m s sent answer sq rport lip ifx now m' o w' :
    call_ok mcfg (MasterPeriodic sq None []) -> waits now m ->
    run_call (MasterPeriodic sq None [answer_datagram mcfg g d answer rport lip ifx]) now m =
      Done (tt, m', o) -> next_wire Silence m' o w' ->
    link_step (m, s, Answer sent answer) (m', s, w')
| step_slave_silent m s w slmp now s' o :
    cl_timer_is_expired (receive_timer s) now = false ->
    SlaveReach.run_call (SlaveReach.HandlePeriodic slmp None) now s = Done (tt, s', o) ->
    link_step (m, s, w) (m, s', w)
| step_master_application m s w c now m' o :
    master_application c = true -> call_ok mcfg c -> run_call c now m = Done (tt, m', o) ->
    link_step (m, s, w) (m', s, w)
| step_slave_application m s w c now s' o :
    slave_application c = true -> SlaveReach.call_ok scfg c ->
    SlaveReach.run_call c now s = Done (tt, s', o) ->
    link_step (m, s, w) (m, s', w).

(** *** The invariant of the link *)

(** What the link depends on in the master. *)
Definition device_view (dev : clm_slave_device_data)
  : bool * clm_device_state * clm_device_framevalues :=
  (d_enabled dev, d_device_state dev, d_latest_frame dev).
Definition group_view (gd : clm_group_data) : Z * clm_group_state * cl_timer * Z :=
  (g_frame_sequence_no gd, g_group_state gd, g_response_wait_timer gd, parameter_of gd).
Definition link_view (m : clm) :=
  (group_view (group_at m g), device_view (device_at (group_at m g) d)).

Definition under_way (m : clm) (w : wire) : Prop :=
  match w with
  | Silence => answered (group_at m g) d
  | Request sent frame =>
      link_view m = link_view sent /\ asked (group_at sent g) d /\ master_reachable mcfg sent /\
      exists now info gd, 0 <= info < 2 ^ mc_protocol_ver mcfg /\
        request_of mcfg g now info gd (group_at sent g) frame
  | Answer sent frame =>
      asked (group_at m g) d /\ SlaveReach.slave_reachable scfg sent /\
      SlaveInv.frame_contents scfg frame (address mcfg g d) CL_SLMP_ENDCODE_SUCCESS (g + 1)
        (g_frame_sequence_no (group_at m g)) (slave_application_status sent) (slave_err_code sent)
        (local_management_info sent) (SlaveExchange.own_data sent)
  end.

Record link_up (p : clm * cls * wire) : Prop := {
  lu_master : master_reachable mcfg p.1.1;
  lu_slave : SlaveReach.slave_reachable scfg p.1.2;
  lu_device : is_device mcfg g d (parameter_of (group_at p.1.1 g)) scfg p.1.2;
  lu_wire : under_way p.1.1 p.2
}.

(** ** Lemmas: what the applications do *)

Lemma total_alter {A B} `{Inhabited A} (v : A -> B) (f : A -> A) (l : list A) i j :
  (forall x, v (f x) = v x) -> v (alter f i l !!! j) = v (l !!! j).
Proof.
  intros Hf. rewrite !list_lookup_total_alt, list_lookup_alter. case_decide as Hij; [|reflexivity].
  subst j. destruct (l !! i); cbn; [apply Hf|reflexivity].
Qed.

Lemma link_view_group i f m :
  (forall gd, group_view (f gd) = group_view gd /\
     device_view (device_at (f gd) d) = device_view (device_at gd d)) ->
  link_view (update_group i f m) = link_view m.
Proof.
  intros Hf. unfold link_view, group_at, update_group. cbn [m_groups update].
  apply (total_alter (fun gd => (group_view gd, device_view (device_at gd d)))).
  intros gd. destruct (Hf gd) as [-> ->]. reflexivity.
Qed.

Lemma device_view_device i f gd : (forall dev, device_view (f dev) = device_view dev) ->
  device_view (device_at (update_device i f gd) d) = device_view (device_at gd d).
Proof. intros Hf. unfold device_at, update_device. cbn. apply total_alter, Hf. Qed.

#[local] Instance any_output : OutputKind (fun _ : list clm_output => True).
Proof. split; auto. Qed.
Abbreviation leaves_link := (leaves link_view (fun _ => True)).

#[local] Hint Resolve link_view_group device_view_device : leaves.
#[local] Hint Extern 1 (link_view _ = link_view _) => apply link_view_group; intros ?; split; reflexivity : leaves.
#[local] Hint Extern 1 (link_view (update_group _ (update_device _ _) _) = _) =>
  apply link_view_group; intros ?; split; [reflexivity|apply device_view_device; reflexivity] : leaves.

Lemma slmp_leaves_link {A} (P : clm_prog A) : leaves_cyclic P -> leaves_link P.
Proof.
  apply leaves_weaken; [|auto]. intros m m' Hm. unfold link_view, group_at.
  rewrite (f_equal (fun v => v.1.1.2) Hm : m_groups m' = m_groups m). reflexivity.
Qed.

Lemma application_leaves_link c now : master_application c = true -> leaves_link (run_call c now).
Proof.
  intros Hc. destruct c as [| i j n v|i j n v|running stopped| |i j force| | |mac ip mask|area i off data];
    try discriminate Hc; cbn [run_call];
    unfold clm_iefb_set_ry_bit, clm_iefb_set_rww_value, checked_area, store_area,
      clm_iefb_set_master_application_status, clm_iefb_force_cyclic_transmission_bit.
  1-4: leaves.
  1: apply leaves_bind; [exact _|apply slmp_leaves_link, (slmp_leaves_cyclic now [] 0 0 [])|intros b; leaves].
  1: apply leaves_bind; [exact _|apply slmp_leaves_link, (slmp_leaves_cyclic now mac ip mask [])|intros b; leaves].
  leaves.
Qed.

Lemma view_fields m m' : link_view m' = link_view m ->
  (asked (group_at m g) d -> asked (group_at m' g) d) /\
  (answered (group_at m g) d -> answered (group_at m' g) d) /\
  parameter_of (group_at m' g) = parameter_of (group_at m g) /\
  g_frame_sequence_no (group_at m' g) = g_frame_sequence_no (group_at m g).
Proof.
  intros [= Hseq Hst Hw Hp He Hs Hl]. unfold asked, answered, heard, unheard.
  rewrite Hseq, Hst, Hp, He, Hs, Hl. auto.
Qed.

(** Changes of the own data and the notification of the slave. *)
Lemma slave_application_leaves c now s : SlaveInv.config_ok scfg -> SlaveInv.slave_base scfg s ->
  slave_application c = true -> SlaveReach.call_ok scfg c ->
  wp (SlaveReach.run_call c now) (fun _ s' _ => state s' = state s /\ master s' = master s /\
    receive_timer s' = receive_timer s) s.
Proof.
  intros Hcfg Hb Hc Hok. destruct c as [| | |n v|n v|st|code|info|off data|off data];
    try discriminate Hc; cbn [SlaveReach.run_call SlaveReach.call_ok] in *; unfold wp.
  - destruct (SlaveSignals.set_rx_value scfg Hcfg s n v Hb Hok) as (f & -> & _). auto.
  - destruct (SlaveSignals.set_rwr_value scfg Hcfg s n v Hb (proj1 Hok) (proj2 Hok)) as (f & -> & _). auto.
  - cbn. auto.
  - cbn. auto.
  - cbn. auto.
  - cbn. auto.
  - cbn. auto.
Qed.

(** ** Lemmas: the periodic functions *)

Section Steps.
Context (mcfg_typed : cfg_types mcfg) (scfg_typed : SlaveReach.config_typed scfg).
Context (has : has_device mcfg g d) (supervised : 0 < supervision mcfg g).

(** A call that sends the next request, or leaves the device that has
    answered. *)
Lemma next_link now m m' s o w' : master_reachable mcfg m' -> SlaveReach.slave_reachable scfg s ->
  is_device mcfg g d (parameter_of (group_at m g)) scfg s ->
  asks_or_rests mcfg g now (group_at m' g) d o ->
  parameter_of (group_at m' g) = parameter_of (group_at m g) ->
  next_wire Silence m' o w' -> link_up (m', s, w').
Proof.
  intros Hm' Hs Hdev Hasks Hp Hw. split; [exact Hm'|exact Hs|cbn [fst snd]; rewrite Hp; exact Hdev|].
  cbn [fst snd]. destruct Hasks as [[Ha Hno]|(info & gd & Hinfo & Ha & (frame0 & Hf0) & Hall)].
  - destruct Hw as [(frame & Hf & _)|[_ ->]]; [destruct (Hno frame Hf)|exact Ha].
  - destruct Hw as [(frame & Hf & ->)|[Hno _]]; [|destruct (Hno frame0 Hf0)].
    split; [reflexivity|]. split; [exact Ha|]. split; [exact Hm'|]. exists now, info, gd.
    split; [exact Hinfo|exact (Hall frame Hf)].
Qed.

Lemma under_way_asked m w : under_way m w -> w <> Silence -> asked (group_at m g) d.
Proof.
  intros Hw Hne. destruct w; [destruct (Hne eq_refl)| |apply Hw].
  destruct Hw as (Hv & Ha & _). exact (proj1 (view_fields _ _ Hv) Ha).
Qed.

Lemma quiet_link now m m' : waits now m -> MasterCalls.quiet now (group_at m g) (group_at m' g) ->
  link_view m' = link_view m.
Proof.
  intros Hwait (wt & c & Heq & Hw & _). apply MasterCalls.evaluated_kept in Hw; [|exact Hwait].
  unfold link_view. rewrite Heq, Hw. reflexivity.
Qed.

(** Changes that the view does not show. *)
Lemma link_same m m' s s' w : master_reachable mcfg m' -> SlaveReach.slave_reachable scfg s' ->
  link_view m' = link_view m ->
  (forall p, is_device mcfg g d p scfg s -> is_device mcfg g d p scfg s') ->
  link_up (m, s, w) -> link_up (m', s', w).
Proof.
  intros Hm' Hs' Hv Hdev [_ _ Hd Hw]. destruct (view_fields _ _ Hv) as (Ha & Han & Hp & Hseq).
  cbn [fst snd] in *. split; cbn [fst snd]; [exact Hm'|exact Hs'|rewrite Hp; auto|].
  destruct w as [|sent frame|sent frame]; cbn [fst snd under_way] in *.
  - exact (Han Hw).
  - destruct Hw as [Hv' Hw]. split; [congruence|exact Hw].
  - destruct Hw as (Hask & Hr & Hc). split; [exact (Ha Hask)|]. split; [exact Hr|]. rewrite Hseq. exact Hc.
Qed.

Lemma master_silent m s w sq now : link_up (m, s, w) -> call_ok mcfg (MasterPeriodic sq None []) ->
  (w <> Silence -> waits now m) ->
  exists m' o, run_call (MasterPeriodic sq None []) now m = Done (tt, m', o) /\
    (forall w', next_wire w m' o w' -> link_up (m', s, w')) /\
    (w = Silence -> MasterCalls.due now (group_at m g) -> exists frame, request_in g frame o).
Proof.
  intros Hup Hc Hwait. pose proof Hup as [Hreach Hs Hdev Hw]. cbn [fst snd] in *.
  destruct (MasterReach.master_reachable_inv clock_ok mcfg m mcfg_typed Hreach) as (Hok & _ & Hm).
  destruct (silent_call clock_ok mcfg m now sq mcfg_typed Hreach Hc) as (m' & o & Hrun & Hm' & Hst & Hdue).
  exists m', o. split; [exact Hrun|].
  assert (Hcase : w = Silence \/ w <> Silence) by (destruct w; [left; reflexivity|right; discriminate..]).
  destruct Hcase as [->|Hne].
  - destruct (stage_asks mcfg g d has now m m' o Hm Hst Hw) as [Hasks Hp]. split.
    + intros w'. apply (next_link now m); assumption.
    + intros _ Hd. apply (stage_starts mcfg g d has now m m' o Hst (Hdue g (proj1 has)) Hw Hd).
  - pose proof (under_way_asked m w Hw Hne) as (_ & _ & Hscan & _). specialize (Hwait Hne).
    destruct (stage_waits mcfg g d has now m m' o Hst (conj Hscan Hwait)) as [Hq Hno].
    split; [|intros Hx; destruct (Hne Hx)]. intros w' [(frame & Hf & _)|[_ ->]]; [destruct (Hno frame Hf)|].
    apply (link_same m m' s s w); auto. exact (quiet_link now m m' Hwait Hq).
Qed.

(** The request reaches the slave. *)
Definition request_read (sent : clm) (s' : cls) : Prop :=
  (forall n, bit_number mcfg g d n -> exists ry : bool,
     clm_iefb_get_ry_bit g d n sent = Done (ry, sent, []) /\ cls_iefb_get_ry_bit n s' = Done (ry, s', [])) /\
  (forall n, register_number mcfg g d n -> exists rww : Z,
     clm_iefb_get_rww_value g d n sent = Done (rww, sent, []) /\
     cls_iefb_get_rww_value n s' = Done (rww, s', [])).

Lemma request_delivered m s sent frame slmp rport ifx now : link_up (m, s, Request sent frame) ->
  exists s' o answer,
    SlaveReach.run_call (SlaveReach.HandlePeriodic slmp
      (Some (request_datagram mcfg g d frame rport ifx))) now s = Done (tt, s', o) /\
    SlaveInv.sent_frames o = [(cciefb_socket s, mc_master_id mcfg, rport, answer)] /\
    link_up (m, s', Answer s answer) /\ request_read sent s'.
Proof.
  intros [Hm Hs Hdev (Hv & Ha & Hreach & t & info & gd & Hinfo & Hr)]. cbn [fst snd] in *.
  destruct (MasterReach.master_reachable_inv clock_ok mcfg sent mcfg_typed Hreach) as (Hok & _ & Hi).
  destruct (SlaveReach.slave_reachable_inv scfg s scfg_typed Hs) as [Hscfg Hsinv].
  destruct (view_fields _ _ Hv) as (Hask & _ & Hp & Hseq). pose proof Ha as (_ & Hse & _).
  destruct (proj2 Hi g (proj1 has)) as [Hb Hc]. destruct Hr as [Hsent Hmem Hcarries _ _ _].
  destruct (Hcarries d (proj2 has)) as [Hpart _]. unfold carries in Hpart. rewrite Hse, <- Hmem in Hpart.
  rewrite Hp in Hdev.
  destruct (slave_call_exchanges clock_ok mcfg Hok g d has sent _ t info frame scfg s slmp rport ifx now
    Hi Hb Hinfo Hsent (sending_sequence mcfg g _ d Hc (proj2 has) Hse) Hpart Hscfg Hsinv supervised Hdev)
    as (s' & o & answer & Hrun & Hframes & Hcont & Hdev' & Hry & Hrww).
  exists s', o, answer. split; [exact Hrun|]. split; [exact Hframes|].
  pose proof (reads_same_signals mcfg Hok sent _ _ _ _ Hi (signals_of mcfg sent) g d has) as [Hb0 Hr0].
  split; [|split].
  - split; cbn [fst snd]; [exact Hm| |rewrite Hp; exact Hdev'|].
    + refine (SlaveReach.reach_call scfg _ now s s' o Hs _ Hrun).
      apply (request_is_datagram mcfg Hok g d has _ t info frame rport ifx Hsent).
    + split; [exact (Hask Ha)|]. split; [exact Hs|]. rewrite Hseq. exact Hcont.
  - intros n Hn. eexists. split; [apply (Hb0 n Hn)|apply (Hry n Hn)].
  - intros n Hn. eexists. split; [apply (Hr0 n Hn)|apply (Hrww n Hn)].
Qed.

(** The answer reaches the master. *)
Definition answer_read_by (sent : cls) (m' : clm) : Prop :=
  (forall n, bit_number mcfg g d n -> exists rx : bool,
     cls_iefb_get_rx_bit n sent = Done (rx, sent, []) /\ clm_iefb_get_rx_bit g d n m' = Done (rx, m', [])) /\
  (forall n, register_number mcfg g d n -> exists rwr : Z,
     cls_iefb_get_rwr_value n sent = Done (rwr, sent, []) /\
     clm_iefb_get_rwr_value g d n m' = Done (rwr, m', [])).

Lemma answer_delivered m s sent answer sq rport lip ifx now : link_up (m, s, Answer sent answer) ->
  call_ok mcfg (MasterPeriodic sq None []) -> waits now m ->
  exists m' o,
    run_call (MasterPeriodic sq None [answer_datagram mcfg g d answer rport lip ifx]) now m =
      Done (tt, m', o) /\
    (forall w', next_wire Silence m' o w' -> link_up (m', s, w')) /\ answer_read_by sent m'.
Proof.
  intros [Hreach Hs Hdev (Ha & Hsent & Hcont)] Hc Hwait. cbn [fst snd] in *.
  destruct (MasterReach.master_reachable_inv clock_ok mcfg m mcfg_typed Hreach) as (Hok & Huniq & Hm).
  apply validate_duplicates_spec in Huniq.
  destruct (SlaveReach.slave_reachable_inv scfg sent scfg_typed Hsent) as [Hscfg [Hsb _]].
  pose proof (is_size _ _ _ _ _ _ Hdev) as Hk. pose proof Ha as (Hen & Hse & Hst & Hun).
  destruct (master_call_takes clock_ok mcfg Hok g d has m answer rport lip ifx sq now scfg
    CL_SLMP_ENDCODE_SUCCESS _ _ _ _ _ Hscfg Huniq Hk Hm (conj Hst Hwait) ltac:(split; [discriminate|reflexivity])
    (SlaveInv.sb_status _ _ Hsb) (SlaveInv.sb_err _ _ Hsb) (SlaveInv.sb_manag _ _ Hsb) Hcont Hen eq_refl Hun)
    as (m' & o & Hrun & (m1 & old & Hm1 & Hq & Hold & Hi) & Hm' & Hlink & _).
  exists m', o. split; [exact Hrun|]. destruct (Hlink eq_refl (or_intror Hse)) as [Hasks Hp].
  assert (Hreach' : master_reachable mcfg m').
  { refine (master_reach_call mcfg _ now m m' o Hreach _ Hrun).
    exact (answer_call_ok mcfg g d sq scfg _ _ _ _ _ _ _ rport lip ifx Hscfg Hc Hcont). }
  split; [intros w'; apply (next_link now m); assumption|].
  destruct (gb_devices _ _ _ (proj1 (proj2 Hm g (proj1 has))) d (proj2 has)) as [_ _ _ Hbit _ _].
  specialize (Hbit Hse). rewrite <- (proj1 (quiet_group _ _ _ Hq) d) in Hbit.
  exact (answer_read mcfg Hok g d has scfg sent answer old m1 m' Hscfg Hsb Hk Hm1 Hm' Hbit
    (frame_contents_data _ _ _ _ _ _ _ _ _ _ Hcont) Hold Hi).
Qed.

Lemma slave_silent m s w slmp now s' o : link_up (m, s, w) ->
  cl_timer_is_expired (receive_timer s) now = false ->
  SlaveReach.run_call (SlaveReach.HandlePeriodic slmp None) now s = Done (tt, s', o) ->
  link_up (m, s', w).
Proof.
  intros Hup Ht Hrun. pose proof Hup as [Hm Hs Hdev _]. cbn [fst snd] in *.
  destruct (SlaveReach.slave_reachable_inv scfg s scfg_typed Hs) as [Hscfg Hsinv].
  pose proof (SlaveCalls.connected_in_time scfg s now Hsinv (is_state _ _ _ _ _ _ Hdev) Ht) as Hin.
  pose proof (SlaveCalls.periodic_silent slmp now s Hin) as Hw. unfold wp in Hw. rewrite Hrun in Hw.
  apply (link_same m m s s' w); [exact Hm| |reflexivity| |exact Hup].
  - refine (SlaveReach.reach_call scfg _ now s s' o Hs _ Hrun). exact I.
  - intros p. apply is_device_view, SlaveCalls.quiet_view, Hw.
Qed.

(** *** The invariant *)

Lemma link_step_up p p' : link_up p -> link_step p p' -> link_up p'.
Proof.
  intros Hup Hstep. destruct Hstep as [m s w sq now m' o w' Hc Hwait Hrun Hw
    |m s sent frame slmp rport ifx now s' o answer Hrun Hframes
    |m s sent answer sq rport lip ifx now m' o w' Hc Hwait Hrun Hw
    |m s w slmp now s' o Ht Hrun|m s w c now m' o Hc Hok Hrun|m s w c now s' o Hc Hok Hrun].
  - destruct (master_silent m s w sq now Hup Hc Hwait) as (m1 & o1 & Hrun1 & Hnext & _).
    rewrite Hrun in Hrun1. injection Hrun1 as <- <-. exact (Hnext w' Hw).
  - destruct (request_delivered m s sent frame slmp rport ifx now Hup)
      as (s1 & o1 & answer1 & Hrun1 & Hframes1 & Hup1 & _).
    rewrite Hrun in Hrun1. injection Hrun1 as <- <-. rewrite Hframes in Hframes1.
    injection Hframes1 as <-. exact Hup1.
  - destruct (answer_delivered m s sent answer sq rport lip ifx now Hup Hc Hwait)
      as (m1 & o1 & Hrun1 & Hnext & _).
    rewrite Hrun in Hrun1. injection Hrun1 as <- <-. exact (Hnext w' Hw).
  - exact (slave_silent m s w slmp now s' o Hup Ht Hrun).
  - pose proof Hup as [Hm Hs _ _]. cbn [fst snd] in *.
    apply (link_same m m' s s w); [|exact Hs| |auto|exact Hup].
    + exact (master_reach_call mcfg c now m m' o Hm Hok Hrun).
    + apply (leaves_run link_view (fun _ => True) _ m tt m' o (application_leaves_link c now Hc) Hrun).
  - pose proof Hup as [Hm Hs _ _]. cbn [fst snd] in *.
    destruct (SlaveReach.slave_reachable_inv scfg s scfg_typed Hs) as [Hscfg [Hsb _]].
    pose proof (slave_application_leaves c now s Hscfg Hsb Hc Hok) as Hw. unfold wp in Hw.
    rewrite Hrun in Hw. destruct Hw as (Hst & Hma & Ht).
    apply (link_same m m s s' w); [exact Hm| |reflexivity| |exact Hup].
    + exact (SlaveReach.reach_call scfg c now s s' o Hs Hok Hrun).
    + intros p []. split; congruence.
Qed.

Lemma link_run_up p p' : link_up p -> rtc link_step p p' -> link_up p'.
Proof. intros Hup Hrun. induction Hrun; [exact Hup|]. eauto using link_step_up. Qed.

End Steps.

(** C2: The link lasts, and data goes on being exchanged.  Let a reachable
    slave be a device of a reachable master, and let the device have answered
    the latest scan.  Then the following holds after any number of steps:
    silent calls of either side, calls that receive the frame that is under
    way, before the time-out of the other side, and calls of both
    applications.  The two are still connected.  If nothing is under way, the
    next call of the master whose timers have run out sends a request.  If a
    request is under way, the call of the slave that receives it answers with
    one frame, and the application of the slave then reads the RY bits and
    RWw registers that the application of the master had set when the request
    was sent.  If an answer is under way, the application of the master reads,
    after the call that receives it in time, the RX bits and RWr registers
    that the application of the slave had set when it answered. *)
Theorem link_lasts m s m' s' w : cfg_types mcfg -> SlaveReach.config_typed scfg ->
  has_device mcfg g d -> 0 < supervision mcfg g ->
  master_reachable mcfg m -> SlaveReach.slave_reachable scfg s ->
  answered (group_at m g) d -> is_device mcfg g d (parameter_of (group_at m g)) scfg s ->
  rtc link_step (m, s, Silence) (m', s', w) ->
  paired mcfg g d m' scfg s' /\
  match w with
  | Silence => forall sq now, call_ok mcfg (MasterPeriodic sq None []) ->
      MasterCalls.due now (group_at m' g) ->
      exists m2 o frame, run_call (MasterPeriodic sq None []) now m' = Done (tt, m2, o) /\
        request_in g frame o
  | Request sent frame => forall slmp rport ifx now, exists s2 o answer,
      SlaveReach.run_call (SlaveReach.HandlePeriodic slmp
        (Some (request_datagram mcfg g d frame rport ifx))) now s' = Done (tt, s2, o) /\
      SlaveInv.sent_frames o = [(cciefb_socket s', mc_master_id mcfg, rport, answer)] /\
      request_read sent s2
  | Answer sent answer => forall sq rport lip ifx now, call_ok mcfg (MasterPeriodic sq None []) ->
      waits now m' ->
      exists m2 o, run_call (MasterPeriodic sq None [answer_datagram mcfg g d answer rport lip ifx]) now m' =
        Done (tt, m2, o) /\ answer_read_by sent m2
  end.
Proof.
  intros Hty Hsty Hgd Hsup Hm Hs Ha Hdev Hrun.
  assert (Hup : link_up (m', s', w)).
  { refine (link_run_up Hty Hsty Hgd Hsup _ _ _ Hrun). split; assumption. }
  split.
  - split; [|exact (lu_device _ Hup)]. pose proof (lu_wire _ Hup) as Hw. cbn [fst snd] in Hw.
    destruct w; [left; exact Hw|right..]; apply (under_way_asked m' _ Hw); discriminate.
  - destruct w as [|sent frame|sent answer].
    + intros sq now Hc Hdue. destruct (master_silent Hty Hgd m' s' Silence sq now Hup Hc) as
        (m2 & o & Hr & _ & Hf); [intros Hx; destruct (Hx eq_refl)|].
      destruct (Hf eq_refl Hdue) as (frame & Hin). exists m2, o, frame. auto.
    + intros slmp rport ifx now. destruct (request_delivered Hty Hsty Hgd Hsup m' s' sent frame slmp rport ifx now Hup)
        as (s2 & o & answer & Hr & Hframes & _ & Hread). exists s2, o, answer. auto.
    + intros sq rport lip ifx now Hc Hwait.
      destruct (answer_delivered Hty Hsty Hgd m' s' sent answer sq rport lip ifx now Hup Hc Hwait)
        as (m2 & o & Hr & _ & Hread). exists m2, o. auto.
Qed.

End Link.

(** ** Witness *)

(** The sample slave has answered the first scan of the sample master; the
    next three steps are the request, the answer and its receipt. *)
Module LinkSample.
Import SampleHost SlaveProps.SampleEnv SampleMasterEnv SampleFiles Exchange.CycleSample.

Lemma device_answered : answered (group_at CycleSample.master 0) 1.
Proof. vm_compute. repeat split; auto. Qed.

Lemma scan_due : MasterCalls.due 800000 (group_at CycleSample.master 0).
Proof. vm_compute. auto. Qed.

Lemma answer_in_time m1 o : run_call SampleMaster.quiet_call 800000 CycleSample.master = Done (tt, m1, o) ->
  waits 0 820000 m1.
Proof.
  intros Hrun. pose proof (scan_ready m1 o Hrun) as Hr. unfold ready in Hr.
  apply andb_true_iff in Hr as [_ Hs]. exact (proj1 (sent_in_time m1 o 820000 Hs)).
Qed.
End LinkSample.

Section LinkWitness.
Import SampleHost SlaveProps.SampleEnv SampleMasterEnv SampleFiles Exchange.CycleSample LinkSample.

Lemma link_lasts_witness :
  exists m1 o frame s1 so answer m2 mo rx,
    run_call SampleMaster.quiet_call 800000 CycleSample.master = Done (tt, m1, o) /\
    SlaveReach.run_call (SlaveReach.HandlePeriodic None
      (Some (Datagram frame master_ip 61450 slave_ip 1))) 2000 slave = Done (tt, s1, so) /\
    run_call (MasterPeriodic [] None [Datagram answer slave_ip 61450 master_ip 1]) 820000 m1 =
      Done (tt, m2, mo) /\
    cls_iefb_get_rx_bit 70 slave = Done (rx, slave, []) /\
    clm_iefb_get_rx_bit 0 1 70 m2 = Done (rx, m2, []).
Proof.
  pose proof (fun m' s' w => link_lasts clock_ok SampleMaster.cfg SlaveProps.Sample.cfg 0 1 CycleSample.master
    slave m' s' w SampleMaster.cfg_typed SlaveProps.Sample.slave_cfg_typed sample_has_device sample_supervision
    master_is_reachable slave_is_reachable device_answered slave_is_device) as Hlasts.
  destruct (Hlasts _ _ _ (rtc_refl _ _)) as [_ Hsilent].
  destruct (Hsilent [] 800000 SampleMaster.quiet_call_ok scan_due) as (m1 & o & frame & Hrun & Hf).
  assert (Hstep1 : rtc (link_step SampleMaster.cfg SlaveProps.Sample.cfg 0 1)
    (CycleSample.master, slave, Silence) (m1, slave, Request m1 frame)).
  { apply rtc_once. eapply step_master_silent; [exact SampleMaster.quiet_call_ok|intros Hx; destruct (Hx eq_refl)
      |exact Hrun|left; eauto]. }
  destruct (Hlasts _ _ _ Hstep1) as [_ Hrequest].
  destruct (Hrequest None 61450 1 2000) as (s1 & so & answer & Hs1 & Hframes & _).
  assert (Hstep2 : rtc (link_step SampleMaster.cfg SlaveProps.Sample.cfg 0 1)
    (CycleSample.master, slave, Silence) (m1, s1, Answer slave answer)).
  { eapply rtc_r; [exact Hstep1|]. eapply step_slave_receives; eassumption. }
  destruct (Hlasts _ _ _ Hstep2) as [_ Hanswer].
  destruct (Hanswer [] 61450 master_ip 1 820000 SampleMaster.quiet_call_ok (answer_in_time m1 o Hrun))
    as (m2 & mo & Hm2 & Hbits & _).
  destruct (Hbits 70 sample_bit) as (rx & Hs & Hm).
  exists m1, o, frame, s1, so, answer, m2, mo, rx. auto.
Defined.
End LinkWitness.
