(* ===== verification/Duplicate.v ===== *)
(** * Two masters in one network

    First come, first served: a master that is started while another one
    scans hears its request during the arbitration and gives way, and the
    other one does not mind a newcomer.  If the arbitration did not hear
    anything, a slave that is connected to one master answers the request of
    the other one with the end code for a duplicated master; the master that
    receives it gives way, and the slave and its own master go on as before. *)

From Stdlib Require Import String.
From S2P Require Import Prelude Packed Signals Timer Limiter Util Types Iefb IefbFacts IefbRoundtrip.
From S2P Require Import File FileFacts Slmp SlmpFacts.
From S2P Require Slave SlaveIefb SlaveInv SlaveActions SlaveFsm SlaveSafety SlaveSlmp SlaveReach.
From S2P Require SlaveSignals SlaveProps SlaveExchange SlaveCalls.
From S2P Require Import Master MasterIefb MasterConfig MasterSlmp MasterConfigSpec.
From S2P Require Import MasterInv MasterFrame MasterDevice MasterGroup MasterScan MasterFsm.
From S2P Require Import MasterEvents MasterControl MasterSafety MasterResponse MasterSettings.
From S2P Require Import MasterOutgoing MasterInputs MasterStart MasterReach MasterProps MasterExchange MasterLeaves.
From S2P Require Import MasterCalls MasterModes MasterArbitration Cycle Exchange.

#[local] Open Scope Z_scope.

Import Slave SlaveIefb.

Section Duplicate.
Context `{ClsOptions, ClmOptions, Clal, ClalNet, Host, ClalClock, FileOptions, ClalFileOk}.
Context (clock_ok : forall now, is_u64 (clal_get_unix_timestamp_ms now)).

(** The end code is one of 16 bits. *)
Lemma duplication_endcode : is_u16 CL_SLMP_ENDCODE_CCIEFB_MASTER_DUPLICATION.
Proof. split; [discriminate|reflexivity]. Qed.

(** A reachable master one of whose groups listens has given way. *)
Lemma listening_standby mcfg m g : cfg_types mcfg -> master_reachable mcfg m -> has_group mcfg g ->
  g_group_state (group_at m g) = CLM_GROUP_STATE_MASTER_LISTEN ->
  m_master_state m = CLM_MASTER_STATE_STANDBY.
Proof.
  intros Hty Hreach Hg Hst. rewrite <- (reachable_in_mode clock_ok mcfg m Hty Hreach g Hg), Hst. reflexivity.
Qed.

(** C4: A second master withdraws.  Let the periodic function of a reachable
    master send a request while one of the enabled devices of the group,
    with its number of stations, is a reachable slave that is connected to
    another master.  The call of the slave that receives the request answers
    it without data, and leaves the connection, the cyclic data and the
    supervision of its own master as they are.  The call of the sender that
    receives this answer in time takes all of its groups out of the scans and
    the instance to STANDBY; and no sequence of calls afterwards, with
    whatever datagrams, sends a request again. *)
Theorem second_master_withdraws mcfg m now sq scfg s : cfg_types mcfg ->
  SlaveReach.config_typed scfg -> master_reachable mcfg m -> SlaveReach.slave_reachable scfg s ->
  call_ok mcfg (MasterPeriodic sq None []) ->
  state s = CLS_SLAVE_STATE_MASTER_CONTROL -> master_id (master s) <> mc_master_id mcfg ->
  exists m1 o, run_call (MasterPeriodic sq None []) now m = Done (tt, m1, o) /\
  forall socket ip port frame, ClmCciefbSendto socket ip port frame ∈ o ->
  exists g, has_group mcfg g /\
  forall d, has_device mcfg g d -> num_occupied_stations scfg = device_size mcfg g d ->
    let dev := device_at (group_at m1 g) d in
    d_enabled dev = true ->
    (fv_has_been_received (d_latest_frame dev) = true ->
     fv_frame_sequence_no (d_latest_frame dev) <> g_frame_sequence_no (group_at m1 g)) ->
  forall slmp rport_s if_s now_s, cl_timer_is_expired (receive_timer s) now_s = false ->
  exists s' so answer,
    SlaveReach.run_call (SlaveReach.HandlePeriodic slmp
      (Some (request_datagram mcfg g d frame rport_s if_s))) now_s s = Done (tt, s', so) /\
    SlaveInv.sent_frames so = [(cciefb_socket s, mc_master_id mcfg, rport_s, answer)] /\
    SlaveExchange.same_connection s s' /\ SlaveExchange.own_data s' = SlaveExchange.own_data s /\
  forall sq_m rport_m lip if_m now_m, call_ok mcfg (MasterPeriodic sq_m None []) ->
    cl_timer_is_expired (g_response_wait_timer (group_at m1 g)) now_m = false ->
  exists m2 mo,
    run_call (MasterPeriodic sq_m None [answer_datagram mcfg g d answer rport_m lip if_m]) now_m m1 =
      Done (tt, m2, mo) /\
    m_master_state m2 = CLM_MASTER_STATE_STANDBY /\ in_mode mcfg m2 /\
    forall calls, Forall (fun call => call_ok mcfg call.1) calls ->
      exists m3 o3, run_calls calls m2 = Done (tt, m3, o3) /\
        forall socket ip port frame, ~ ClmCciefbSendto socket ip port frame ∈ o3.
Proof.
  intros Hty Hsty Hreach Hsreach Hc Hst Hother.
  destruct (MasterReach.master_reachable_inv clock_ok mcfg m Hty Hreach) as (Hok & Huniq & Hm).
  apply validate_duplicates_spec in Huniq.
  destruct (SlaveReach.slave_reachable_inv scfg s Hsty Hsreach) as [Hscfg Hsinv].
  destruct (call_requests clock_ok mcfg m now sq Hty Hreach Hc) as (m1 & o & Hrun & Hreach1 & Hm1 & Hreq).
  exists m1, o. split; [exact Hrun|]. intros socket ip port frame Hin.
  destruct (Hreq _ _ _ _ Hin) as (g & Hg & [Hsent _ _ _ Hgst _]). exists g. split; [exact Hg|].
  intros d Hgd Hk dev Hena Hnew slmp rport_s if_s now_s Htime. unfold dev in *.
  destruct (slave_call_refuses clock_ok mcfg Hok g d Hgd _ now _ frame scfg s slmp rport_s if_s now_s
    (proj1 (proj2 Hm1 g Hg)) (mb_info _ _ (proj1 Hm)) Hsent Hscfg Hsinv Hst Hother Htime)
    as (s' & so & answer & Hsrun & Hframes & Hcont & Hsame & Hown).
  exists s', so, answer. split; [exact Hsrun|]. split; [exact Hframes|]. split; [exact Hsame|].
  split; [exact Hown|]. intros sq_m rport_m lip if_m now_m Hcm Hwait. pose proof (proj1 Hsinv) as Hsb.
  destruct (master_call_takes clock_ok mcfg Hok g d Hgd m1 answer rport_m lip if_m sq_m now_m scfg
    _ _ _ _ _ _ Hscfg Huniq Hk Hm1 (conj Hgst Hwait) duplication_endcode (SlaveInv.sb_status _ _ Hsb)
    (SlaveInv.sb_err _ _ Hsb) (SlaveInv.sb_manag _ _ Hsb) Hcont Hena eq_refl Hnew)
    as (m2 & mo & Hmrun & _ & _ & _ & Halarm).
  assert (Hreach2 : master_reachable mcfg m2).
  { refine (master_reach_call mcfg _ now_m m1 m2 mo Hreach1 _ Hmrun).
    exact (answer_call_ok mcfg g d sq_m scfg _ _ _ _ _ _ _ rport_m lip if_m Hscfg Hcm Hcont). }
  assert (Hstandby : m_master_state m2 = CLM_MASTER_STATE_STANDBY).
  { apply (listening_standby mcfg m2 g Hty Hreach2 Hg). apply (Halarm eq_refl). left. exact Hgst. }
  exists m2, mo. split; [exact Hmrun|]. split; [exact Hstandby|].
  split; [exact (reachable_in_mode clock_ok mcfg m2 Hty Hreach2)|].
  intros calls Hcalls.
  destruct (standby_stays clock_ok mcfg calls m2 Hty Hreach2 Hstandby Hcalls) as (m3 & o3 & Hrun3 & Ho3 & _).
  exists m3, o3. auto.
Qed.

(** The datagram of a request that a group sends. *)
Lemma request_is_request mcfg g gd now info frame : clm_config_ok mcfg -> has_group mcfg g ->
  group_base mcfg g gd -> 0 <= info < 2 ^ mc_protocol_ver mcfg ->
  sent_request mcfg g gd now info frame ->
  is_request frame (Z.of_nat (List.length frame)) /\ bytes frame /\
  67 <= Z.of_nat (List.length frame) <= CL_BUFFER_LEN.
Proof.
  intros Hok Hg Hb Hinfo [Hby Hlen (Hp & Hdec) _ _].
  pose proof (cok_group _ Hok g Hg) as Hgs. pose proof (go_stations _ _ Hgs) as Htot.
  pose proof clm_max_stations_ok as Hmax. split; [|split; [exact Hby|rewrite Hlen; unfold CL_BUFFER_LEN; lia]].
  rewrite Hlen. refine (request_header_request frame _ _ _ _ _ _ _ _ _ _ _
    (request_params mcfg Hok g Hg _ Hp) _ Hdec).
  split; [apply Hb|]. split; [apply clock_ok|]. split; [exact Hinfo|apply Hb].
Qed.

(** C5: The arbitration protects the master that is already there.  Let the
    periodic function of a reachable master send a request, and let the
    periodic function of another reachable master receive it, on either of
    its sockets, before its arbitration time has passed.  If it still waits
    in the arbitration, it gives way with all of its groups: it goes to
    STANDBY, and no sequence of calls afterwards, with whatever datagrams,
    sends a request.  If it has started to scan, the request does not stop
    it; and a call never emits more than its modes permit. *)
Theorem newcomer_gives_way mcfg m now sq ncfg n : cfg_types mcfg -> cfg_types ncfg ->
  master_reachable mcfg m -> master_reachable ncfg n -> mc_master_id mcfg <> mc_master_id ncfg ->
  call_ok mcfg (MasterPeriodic sq None []) ->
  exists m1 o, run_call (MasterPeriodic sq None []) now m = Done (tt, m1, o) /\
  forall socket ip port frame, ClmCciefbSendto socket ip port frame ∈ o ->
  forall sq_n arbitration queue rport lip ifx now_n, call_ok ncfg (MasterPeriodic sq_n None []) ->
    heard ncfg (Datagram frame (mc_master_id mcfg) rport lip ifx) arbitration queue ->
    cl_timer_is_expired (m_arbitration_timer n) now_n = false ->
  exists n1 no, run_call (MasterPeriodic sq_n arbitration queue) now_n n = Done (tt, n1, no) /\
    mode_run ncfg (m_master_state n) no (m_master_state n1) /\ in_mode ncfg n1 /\
    (m_master_state n = CLM_MASTER_STATE_RUNNING -> m_master_state n1 = CLM_MASTER_STATE_RUNNING) /\
    (m_master_state n = CLM_MASTER_STATE_ARBITRATION ->
       m_master_state n1 = CLM_MASTER_STATE_STANDBY /\
       forall calls, Forall (fun call => call_ok ncfg call.1) calls ->
         exists n2 o2, run_calls calls n1 = Done (tt, n2, o2) /\
           forall socket ip port frame, ~ ClmCciefbSendto socket ip port frame ∈ o2).
Proof.
  intros Hty Htyn Hreach Hreachn Hid Hc.
  destruct (MasterReach.master_reachable_inv clock_ok mcfg m Hty Hreach) as (Hok & _ & Hm).
  destruct (MasterReach.master_reachable_inv clock_ok ncfg n Htyn Hreachn) as (Hokn & _ & Hn).
  destruct (call_requests clock_ok mcfg m now sq Hty Hreach Hc) as (m1 & o & Hrun & _ & Hm1 & Hreq).
  exists m1, o. split; [exact Hrun|]. intros socket ip port frame Hin.
  destruct (Hreq _ _ _ _ Hin) as (g & Hg & [Hsent _ _ _ _ _]).
  destruct (request_is_request mcfg g _ now _ frame Hok Hg (proj1 (proj2 Hm1 g Hg))
    (mb_info _ _ (proj1 Hm)) Hsent) as (Hisreq & Hby & Hlo & Hhi).
  intros sq_n arbitration queue rport lip ifx now_n Hcn Hheard Hwait.
  set (dg := Datagram frame _ rport lip ifx) in *.
  assert (Hdg : datagram_ok dg) by (split; [exact Hby|]; split; [exact Hhi|apply request_not_fatal, Hisreq]).
  pose proof (foreign_call_wp clock_ok ncfg Hokn sq_n arbitration queue dg now_n n Hn
    (reachable_in_mode clock_ok ncfg n Htyn Hreachn) Hwait Hheard Hdg) as Hw.
  apply wp_done in Hw as ([] & n1 & no & Hrunn & _ & Hi1 & Hs1 & Hr1);
    [|cbn [dg_bytes dg]; lia|exact Hid|exact Hisreq].
  assert (Hreach1 : master_reachable ncfg n1).
  { refine (master_reach_call ncfg _ now_n n n1 no Hreachn _ Hrunn). destruct Hcn as (Hsq & _ & _).
    destruct Hheard as [(_ & -> & ->)|[-> ->]]; (split; [exact Hsq|]; split).
    - intros dg' [= <-]. exact Hdg.
    - constructor.
    - discriminate.
    - constructor; [exact Hdg|constructor]. }
  exists n1, no. split; [exact Hrunn|]. split; [exact Hr1|]. split; [exact Hi1|].
  rewrite Hs1. split; intros Hst; rewrite Hst; [reflexivity|]. split; [reflexivity|].
  intros calls Hcalls. rewrite Hst in Hs1.
  destruct (standby_stays clock_ok ncfg calls n1 Htyn Hreach1 Hs1 Hcalls) as (n2 & o2 & Hrun2 & Ho2 & _).
  exists n2, o2. auto.
Qed.

End Duplicate.

(** ** Witness *)

(** The sample slave has another master when the request of the sample
    master arrives. *)
Module DuplicateSample.
Import SampleHost SlaveProps.SampleEnv SampleMasterEnv SampleFiles CycleSample.

Definition other_master : Z := 0xC0A80302.
Definition first_call : SlaveReach.slave_call :=
  SlaveReach.HandlePeriodic None (Some (SlaveProps.Sample.dg other_master 0 0)).
Definition taken : cls := SlaveProps.Sample.after (SlaveReach.run_call first_call 500) SlaveProps.Sample.init.

Lemma taken_reachable : SlaveReach.slave_reachable SlaveProps.Sample.cfg taken.
Proof.
  destruct (slave_after (SlaveReach.run_call first_call 500) SlaveProps.Sample.init)
    as ([] & o & Hrun); [vm_compute; reflexivity|].
  eapply SlaveReach.reach_call; [exact SlaveProps.Sample.slave_init_reachable| |exact Hrun].
  apply SlaveProps.Sample.dg_ok; (split; [first [discriminate|reflexivity]|reflexivity]).
Qed.

Lemma taken_state : state taken = CLS_SLAVE_STATE_MASTER_CONTROL.
Proof. vm_compute. reflexivity. Qed.

Lemma taken_by_other : master_id (Slave.master taken) <> mc_master_id SampleMaster.cfg.
Proof. vm_compute. discriminate. Qed.

Lemma taken_in_time : cl_timer_is_expired (receive_timer taken) 1000 = false.
Proof. vm_compute. reflexivity. Qed.

(** A second master, started while the sample master still arbitrates. *)
Definition newcomer_cfg : clm_cfg :=
  ClmCfg true true true true true true true true true
    (ClmSlaveHierarchy 1 [SampleMaster.group false;
       ClmGroupSetting 0 0 false 0 (replicate 4 inhabitant)])
    2 100 1300 2000 1000 false false true other_master.
Definition newcomer : clm :=
  SampleMaster.after (clm_master_init empty "/var/clink" (Some newcomer_cfg) 150000) clm_zero.

Lemma newcomer_typed : cfg_types newcomer_cfg.
Proof.
  split; [split; [discriminate|reflexivity]..|split; (split; [discriminate|reflexivity])| |].
  - repeat first [apply Forall_nil_2|apply Forall_cons_2|split]; first [discriminate|reflexivity].
  - split; [reflexivity|]. repeat constructor.
Qed.

Lemma newcomer_reachable : master_reachable newcomer_cfg newcomer.
Proof.
  destruct (SampleMaster.after_runs (clm_master_init empty "/var/clink" (Some newcomer_cfg) 150000) clm_zero id)
    as ([] & o & Hrun & Ha); [vm_compute; reflexivity| |discriminate Ha].
  exact (master_reach_init newcomer_cfg _ _ _ _ _ o Hrun).
Qed.

Lemma newcomer_waits : m_master_state newcomer = CLM_MASTER_STATE_ARBITRATION /\
  cl_timer_is_expired (m_arbitration_timer newcomer) 201000 = false.
Proof. vm_compute. split; reflexivity. Qed.

Lemma quiet_newcomer : call_ok newcomer_cfg (MasterPeriodic [] None []).
Proof. split; [constructor|]. split; [discriminate|constructor]. Qed.

Lemma other_id : mc_master_id SampleMaster.cfg <> mc_master_id newcomer_cfg.
Proof. vm_compute. discriminate. Qed.
End DuplicateSample.

Section DuplicateWitness.
Import SampleHost SlaveProps.SampleEnv SampleMasterEnv SampleFiles CycleSample DuplicateSample.

Lemma second_master_withdraws_witness :
  exists m1 o frame s' so answer m2 mo,
    run_call SampleMaster.quiet_call 200000 SampleMaster.init = Done (tt, m1, o) /\
    SlaveReach.run_call (SlaveReach.HandlePeriodic None
      (Some (Datagram frame master_ip 61450 slave_ip 1))) 1000 taken = Done (tt, s', so) /\
    run_call (MasterPeriodic [] None [Datagram answer slave_ip 61450 master_ip 1]) 210000 m1 =
      Done (tt, m2, mo) /\
    m_master_state m2 = CLM_MASTER_STATE_STANDBY.
Proof.
  destruct (second_master_withdraws clock_ok SampleMaster.cfg SampleMaster.init 200000 []
    SlaveProps.Sample.cfg taken SampleMaster.cfg_typed
    SlaveProps.Sample.slave_cfg_typed SampleMaster.init_reachable taken_reachable
    SampleMaster.quiet_call_ok taken_state taken_by_other) as (m1 & o & Hrun & Hrequest).
  pose proof (scan_asks m1 o Hrun) as Hask.
  unfold asking in Hask. apply andb_true_iff in Hask as [Hask (Hwait & socket & ip & port & frame & Hx)%sent_in_time].
  apply andb_true_iff in Hask as [Hask Hnew%negb_true_iff].
  apply andb_true_iff in Hask as [[_ Hen]%andb_true_iff _].
  destruct (Hrequest socket ip port frame Hx) as (g & ->%only_group & Hdev).
  destruct (Hdev 1 sample_has_device sample_size Hen
    (fun Hrec => False_rect _ (diff_false_true (eq_trans (eq_sym Hnew) Hrec))) None 61450 1 1000 taken_in_time)
    as (s' & so & answer & Hs & _ & _ & _ & Htakes).
  destruct (Htakes [] 61450 master_ip 1 210000 SampleMaster.quiet_call_ok Hwait) as (m2 & mo & Hm2 & Hp & _).
  exists m1, o, frame, s', so, answer, m2, mo. auto.
Defined.

(** The request of the sample master stops the newcomer. *)
Lemma newcomer_gives_way_witness :
  exists m1 o frame n1 no,
    run_call SampleMaster.quiet_call 200000 SampleMaster.init = Done (tt, m1, o) /\
    run_call (MasterPeriodic [] None [Datagram frame master_ip 61450 other_master 1]) 201000 newcomer =
      Done (tt, n1, no) /\
    m_master_state n1 = CLM_MASTER_STATE_STANDBY.
Proof.
  destruct (newcomer_gives_way clock_ok SampleMaster.cfg SampleMaster.init 200000 [] newcomer_cfg newcomer
    SampleMaster.cfg_typed newcomer_typed SampleMaster.init_reachable newcomer_reachable other_id
    SampleMaster.quiet_call_ok) as (m1 & o & Hrun & Hheard).
  pose proof (scan_asks m1 o Hrun) as Hask.
  unfold asking in Hask. apply andb_true_iff in Hask as [_ (_ & socket & ip & port & frame & Hx)%sent_in_time].
  destruct (Hheard socket ip port frame Hx [] None [Datagram frame master_ip 61450 other_master 1]
    61450 other_master 1 201000 quiet_newcomer (or_intror (conj eq_refl eq_refl)) (proj2 newcomer_waits))
    as (n1 & no & Hn & _ & _ & _ & Hlost).
  destruct (Hlost (proj1 newcomer_waits)) as [Hstandby _].
  exists m1, o, frame, n1, no. auto.
Defined.
End DuplicateWitness.
