(* ===== verification/Discovery.v ===== *)
(** * A node search of master and slave

    The two stacks together during a node search: the request that the master
    broadcasts reaches a slave, the slave answers after its delay, and the
    answer puts the slave into the database of the master. *)

From Stdlib Require Import String.
From S2P Require Import Prelude Packed Timer Limiter Util Types Iefb File FileFacts Slmp SlmpFacts.
From S2P Require Slave SlaveSlmp SlaveReach SlaveProps.
From S2P Require Import Master MasterIefb MasterConfig MasterSlmp MasterInv MasterStart.
From S2P Require Import MasterReach MasterProps MasterRequests Cycle Exchange.

#[local] Open Scope Z_scope.

Import Slave SlaveSlmp.

(** ** Definitions *)

(** The interface on which a slave gets datagrams. *)
Record slave_interface `{ClalNet} (ifx : Z) (mac : list Z) (ip netmask : Z) : Prop := {
  if_mac : clal_get_mac_address ifx = Some mac /\ is_mac mac;
  if_netmask : clal_get_netmask ifx = Some netmask /\ is_u32 netmask /\
    cl_utils_is_netmask_valid netmask = true;
  if_ip : is_u32 ip /\ ip <> CL_IPADDR_INVALID
}.

(** The entry of a slave in the database. *)
Definition slave_entry (scfg : cls_cfg) (mac : list Z) (ip netmask : Z)
  : clm_node_search_response_entry :=
  ClmNodeSearchResponseEntry ip netmask mac (vendor_code scfg) (model_code scfg)
    (equipment_ver scfg).

(** A database with one more slave. *)
Definition slave_added (entry : clm_node_search_response_entry) (db db' : clm_node_search_db)
  : Prop :=
  nd_count db' = u8 (nd_count db + 1) /\ nd_stored db' = nd_stored db + 1 /\
  nd_entries db' = <[Z.to_nat (nd_stored db) := entry]> (nd_entries db).

(** Where a slave sends its answer to: the broadcast address of its subnet
    when the application asked for that, else that of the local network. *)
Definition answer_address (scfg : cls_cfg) (ip netmask : Z) : Z :=
  if use_slmp_directed_broadcast scfg then Z.lor ip (UINT32_MAX - netmask) else UINT32_MAX.

(** What is seen of one message from a socket of its own; nothing is sent when
    the socket cannot be opened. *)
Definition message_sent `{Clal} (local_ip remote_ip remote_port : Z) (message : list Z)
  : list cls_output :=
  let socket := clal_udp_open local_ip CL_SLMP_PORT in
  map SlmpUdp (UdpOpen local_ip CL_SLMP_PORT ::
    if socket =? -1 then []
    else [UdpSendto socket remote_ip remote_port message; UdpClose socket]).

Section Discovery.
Context `{ClsOptions, ClmOptions, Clal, ClalNet, Host, ClalClock, FileOptions, ClalFileOk}.
Context (little : host_is_big_endian = false).
Context (counters : CLM_MAX_NODE_SEARCH_DEVICES <= 255).
Context (clock_ok : forall now, is_u64 (clal_get_unix_timestamp_ms now)).

(** ** The slave *)

Section Slave.
Context (mmac : list Z) (mip serial port : Z) (ifx : Z) (mac : list Z) (ip netmask : Z).
Context (mmac_ok : is_mac mmac) (mip_ok : is_u32 mip /\ mip <> CL_IPADDR_INVALID).
Context (serial_ok : is_u16 serial) (interface : slave_interface ifx mac ip netmask).

Abbreviation request := (c_enc c_cl_slmp_node_search_request (search_request mmac mip serial)).

(** What the slave remembers of the request. *)
Definition scheduled (T : Z) : cls_node_search :=
  ClsNodeSearch (Timer CL_TIMER_RUNNING (cl_slmp_calculate_node_search_delay mac) (u32 T))
    mmac mip port serial mac ip netmask.

Lemma request_length : Z.of_nat (List.length request) = sizeof c_cl_slmp_node_search_request.
Proof. reflexivity. Qed.

Lemma schedule_wp T s : is_mac mac ->
  wp (cls_slmp_schedule_node_search_response (u32 T) mmac (ClsAddrInfo mip port ip netmask mac ifx)
    serial) (fun _ s1 _ => config s1 = config s /\ node_search s1 = scheduled T) s.
Proof.
  intros Hmac. unfold cls_slmp_schedule_node_search_response.
  cbn [remote_ip remote_port local_ip local_netmask local_mac_address ifindex].
  rewrite (copy_mac_id mmac), (copy_mac_id mac) by assumption. wp_steps. split; reflexivity.
Qed.

Lemma slave_hears T s : cl_timer_is_expired (response_timer (node_search s)) (u32 T) = false ->
  wp (cls_slmp_periodic (Some (Datagram request mip port ip ifx)) (u32 T)) (fun _ s1 _ =>
    config s1 = config s /\ node_search s1 = scheduled T) s.
Proof.
  intros Ht. destruct interface as [[Hmac mac_ok] [Hnm _] _]. unfold cls_slmp_periodic.
  wp_steps. rewrite Ht. wp_steps. cbn [dg_bytes dg_ifindex].
  rewrite request_length. change (0 <? _) with true. cbv iota. rewrite Hmac, Hnm. wp_steps.
  set (buffer := slmp_receivebuf _).
  assert (Hdec : c_dec c_cl_slmp_node_search_request buffer = search_request mmac mip serial).
  { unfold buffer, splice. cbn [slmp_receivebuf update]. apply codec_roundtrip, search_request_wf; tauto. }
  destruct (search_request_read buffer mmac mip serial mmac_ok (proj2 mip_ok) Hdec)
    as (Hparse & Hval & Hcmd & Hsub & Hreq & Hok & Hmmac).
  unfold cls_slmp_handle_input_frame. rewrite Hparse.
  change (cl_slmp_is_header_request _) with true. rewrite Hval, Hcmd, Hsub.
  unfold cls_slmp_handle_node_search_request. rewrite Hreq, Hok, little, Hmmac.
  change (CL_SLMP_COMMAND_NODE_SEARCH =? CL_SLMP_COMMAND_NODE_SEARCH) with true.
  change (CL_SLMP_SUBCOMMAND_NODE_SEARCH =? CL_SLMP_SUBCOMMAND_NODE_SEARCH) with true.
  cbn [negb remote_ip dg_remote_ip dg_remote_port dg_local_ip]. cbv iota.
  change (nsq_master_ip_addr _) with mip. rewrite Z.eqb_refl. cbn [negb]. cbv iota.
  apply wp_bind. cbn [app]. set (s0 := s <| slmp_receivebuf ::= splice 0 request |>).
  assert (Hsched : wp (cls_slmp_schedule_node_search_response (u32 T) mmac
      (ClsAddrInfo mip port ip netmask mac ifx) serial) (fun _ s1 _ =>
      config s1 = config s /\ node_search s1 = scheduled T) s0) by exact (schedule_wp T s0 mac_ok).
  apply wp_get, wp_bind. cbn [app]. apply wp_when; intros _; [apply wp_emit|];
    (eapply wp_mono; [exact Hsched|]; intros b s1 o1 Hs1; exact Hs1).
Qed.

(** ** The answer *)

Abbreviation answer scfg := (c_enc c_cl_slmp_node_search_resp (search_response mmac mip mac ip netmask
  CL_SLMP_NODE_SEARCH_RESP_SERVER_STATUS_NORMAL (vendor_code scfg) (model_code scfg)
  (equipment_ver scfg) serial)).

Lemma slave_waits Ts Tr s : node_search s = scheduled Ts -> 0 <= Tr - Ts < 2 ^ 31 ->
  Tr < Ts + cl_slmp_calculate_node_search_delay mac ->
  cls_slmp_periodic None (u32 Tr) s = Done (tt, s, []).
Proof.
  intros Hn Ht Hd. unfold cls_slmp_periodic, mbind, prog_bind, get. rewrite Hn.
  cbn [response_timer scheduled]. rewrite timer_expired_elapsed by exact Ht.
  rewrite (proj2 (Z.leb_gt _ _)) by lia. reflexivity.
Qed.

Lemma send_response_wp lip rip rport len s : len <= CL_BUFFER_LEN ->
  wp (cls_slmp_send_response lip rip rport len) (fun _ s' o => node_search s' = node_search s /\
    o = message_sent lip rip rport (take (Z.to_nat len) (slmp_sendbuf s))) s.
Proof.
  intros Hlen. unfold cls_slmp_send_response, cl_slmp_udp_send, message_sent. wp_steps. apply wp_zoom.
  rewrite (proj2 (Z.ltb_ge _ _) Hlen). wp_steps.
  destruct (clal_udp_open lip CL_SLMP_PORT =? -1); wp_steps; split; reflexivity.
Qed.

Lemma answer_address_ok scfg : (if use_slmp_directed_broadcast scfg
  then cl_util_calc_broadcast_address netmask ip else CL_IPADDR_LOCAL_BROADCAST) =
  answer_address scfg ip netmask.
Proof.
  unfold answer_address. destruct (use_slmp_directed_broadcast scfg); [|reflexivity].
  destruct interface as [_ (_ & Hnm & _) [_ Hip0]]. unfold cl_util_calc_broadcast_address.
  rewrite (proj2 (Z.eqb_neq _ _) Hip0). f_equal. unfold not32, Z.lnot, u32. unfold_widths.
  rewrite <- (Z.mod_small (4294967295 - netmask) (2 ^ 32)) by lia.
  replace (Z.pred (- netmask)) with (4294967295 - netmask + (-1) * 2 ^ 32) by lia.
  apply Z.mod_add. discriminate.
Qed.

Lemma search_answer_wp T timer s : SlaveReach.config_typed (config s) ->
  node_search s = (scheduled T) <| response_timer := timer |> ->
  wp cls_slmp_send_node_search_response (fun _ s' o => node_search s' = node_search s /\
    o = message_sent ip (answer_address (config s) ip netmask) port (answer (config s))) s.
Proof.
  intros (Hv & Hmo & Heq) Hn. pose proof (answer_address_ok (config s)) as Haddr.
  destruct interface as [[_ mac_ok] (_ & Hnm & _) [Hip _]].
  unfold cls_slmp_send_node_search_response. wp_steps. rewrite Hn.
  cbn [scheduled master_ip_addr master_mac_address master_port request_serial slave_mac_address
    slave_ip_address slave_netmask update]. rewrite (ip_valid mip) by apply mip_ok.
  destruct (prepare_frame_done c_cl_slmp_node_search_resp (slmp_sendbuf s)
    (search_response mmac mip mac ip netmask CL_SLMP_NODE_SEARCH_RESP_SERVER_STATUS_NORMAL
       (vendor_code (config s)) (model_code (config s)) (equipment_ver (config s)) serial))
    as (frame & Hframe); [vm_compute; lia|].
  pose proof (prepared_message _ _ _ _ Hframe) as Hmsg.
  unfold cl_slmp_prepare_node_search_response_frame. unfold search_response in Hframe at 1.
  rewrite Hframe. wp_steps. cbn [app].
  eapply wp_mono; [apply send_response_wp; vm_compute; discriminate|].
  intros b s1 o [Hn1 ->]. cbn [slmp_sendbuf node_search update] in Hn1 |- *. rewrite Hmsg.
  - rewrite Haddr, Hn1. split; [exact Hn | reflexivity].
  - apply search_response_wf; try assumption; [apply mip_ok|]. vm_compute. split; [discriminate|reflexivity].
Qed.

(** The answer is sent once: the timer of the delay is stopped then. *)
Lemma slave_answers Ts Tr s : node_search s = scheduled Ts -> 0 <= Tr - Ts < 2 ^ 31 ->
  Ts + cl_slmp_calculate_node_search_delay mac <= Tr -> SlaveReach.config_typed (config s) ->
  wp (cls_slmp_periodic None (u32 Tr)) (fun _ s' o =>
    o = message_sent ip (answer_address (config s) ip netmask) port (answer (config s)) /\
    forall now, cls_slmp_periodic None now s' = Done (tt, s', [])) s.
Proof.
  intros Hn Ht Hd Hcfg. unfold cls_slmp_periodic at 1. wp_steps. rewrite Hn.
  cbn [response_timer scheduled]. rewrite timer_expired_elapsed by exact Ht.
  rewrite (proj2 (Z.leb_le _ _)) by lia. unfold when. wp_steps.
  eapply wp_mono; [apply (search_answer_wp Ts cl_timer_zero)|].
  - exact Hcfg.
  - cbn [node_search update]. rewrite Hn. reflexivity.
  - intros b s1 o [Hn1 ->]. wp_steps. cbn [app]. rewrite !app_nil_r. split; [reflexivity|].
    intros now. unfold cls_slmp_periodic, mbind, prog_bind, get. rewrite Hn1.
    cbn [node_search update]. rewrite Hn. reflexivity.
Qed.
End Slave.

(** ** The master *)

Lemma database_grows db r entry : search_db_ok db -> nd_stored db < CLM_MAX_NODE_SEARCH_DEVICES ->
  entry = ClmNodeSearchResponseEntry (nsr_slave_ip_addr r) (nsr_slave_netmask r)
    (cl_util_copy_mac_reverse (nsr_slave_mac_addr r)) (nsr_vendor_code r) (nsr_model_code r)
    (nsr_equipment_ver r) ->
  exists db', clm_slmp_node_search_add_db db r = Done (true, db') /\ slave_added entry db db'.
Proof.
  intros [Hl Hs] Hfree ->. pose proof clm_max_node_search_ok. unfold clm_slmp_node_search_add_db.
  cbn [nd_stored nd_entries update]. rewrite (proj2 (Z.eqb_neq _ _)) by lia.
  rewrite (proj2 (Z.leb_gt _ _)) by lia. eexists. split; [reflexivity|].
  split; [reflexivity|]. split; [|reflexivity]. apply u8_id. unfold is_u8. lia.
Qed.

Lemma response_stored m r buffer len entry :
  cl_slmp_parse_response_header buffer len = Some (nsr_header r) ->
  cl_slmp_is_header_response (nsr_header r) = true ->
  cl_slmp_validate_response_header (nsr_header r) len = true ->
  cl_slmp_parse_node_search_response buffer len = Some r ->
  cl_slmp_validate_node_search_response r = true ->
  lsh_serial (nsr_header r) = m_node_search_serial m ->
  search_db_ok (m_node_search_db m) ->
  nd_stored (m_node_search_db m) < CLM_MAX_NODE_SEARCH_DEVICES ->
  entry = ClmNodeSearchResponseEntry (nsr_slave_ip_addr r) (nsr_slave_netmask r)
    (cl_util_copy_mac_reverse (nsr_slave_mac_addr r)) (nsr_vendor_code r) (nsr_model_code r)
    (nsr_equipment_ver r) ->
  exists db, clm_slmp_handle_input_frame buffer len (m_ifindex m) m =
      Done (true, m <| m_node_search_db := db |>, []) /\
    slave_added entry (m_node_search_db m) db.
Proof.
  intros Hparse Hkind Hval Hresp Hok Hser Hdb Hfree He.
  destruct (database_grows _ r entry Hdb Hfree He) as (db & Hadd & Hgrown). exists db.
  split; [|exact Hgrown]. unfold clm_slmp_handle_input_frame. rewrite Hparse, Hkind, Hval.
  cbn [negb]. unfold mbind, prog_bind, get. rewrite Z.eqb_refl, Hser, Z.eqb_refl. cbn [negb].
  unfold clm_slmp_handle_node_search_response. rewrite Hresp, Hok. cbn [negb].
  unfold mbind, prog_bind, get, lift_outcome. rewrite Hadd. reflexivity.
Qed.

(** C13: A node search finds the slaves.  In a reachable master let a node
    search start and be sent.  A slave that gets the broadcast request from
    the master keeps silent until its delay has passed.  Then it sends exactly
    one answer: from a socket on the interface that got the request, to the
    port the request came from, at the broadcast address of its subnet or of
    the local network as it is configured; should that socket not open, it
    sends nothing; and in either case it is silent afterwards.  When the answer
    reaches the master while the search runs, the slave is put into the
    database, with the address, netmask and MAC address of the interface on
    which it got the request, and with its identification.  This holds on
    hosts with little-endian byte order, for a database whose size fits its
    8-bit counter, whatever the buffers held and whatever both do in the
    meantime apart from this search. *)
Theorem slave_found_by_node_search mcfg m q T m1 o : cfg_types mcfg -> master_reachable mcfg m ->
  matches mcfg m q -> is_mac (m_mac_address m) ->
  clm_slmp_perform_node_search (u32 T) m = Done (true, m1, o) ->
  exists request, slmp_sends o = [(m_slmp_broadcast_ip m, CL_SLMP_PORT, request)] /\
  forall ifx mac ip netmask port s Ts, slave_interface ifx mac ip netmask ->
    SlaveReach.config_typed (config s) ->
    cl_timer_is_expired (response_timer (node_search s)) (u32 Ts) = false ->
    exists s1 so, cls_slmp_periodic
        (Some (Datagram request (mc_master_id mcfg) port ip ifx)) (u32 Ts) s = Done (tt, s1, so) /\
      config s1 = config s /\
    forall s2 Tr, node_search s2 = node_search s1 -> config s2 = config s ->
      0 <= Tr - Ts < 2 ^ 31 ->
      (Tr < Ts + cl_slmp_calculate_node_search_delay mac ->
         cls_slmp_periodic None (u32 Tr) s2 = Done (tt, s2, [])) /\
      (Ts + cl_slmp_calculate_node_search_delay mac <= Tr ->
         exists s3 answer,
           cls_slmp_periodic None (u32 Tr) s2 = Done (tt, s3,
             message_sent ip (answer_address (config s) ip netmask) port answer) /\
           (forall now, cls_slmp_periodic None now s3 = Done (tt, s3, [])) /\
           forall m2 old, m_node_search_serial m2 = m_node_search_serial m1 ->
             search_db_ok (m_node_search_db m2) ->
             nd_stored (m_node_search_db m2) < CLM_MAX_NODE_SEARCH_DEVICES ->
             exists db, clm_slmp_handle_input_frame (received answer old)
                 (Z.of_nat (List.length answer)) (m_ifindex m2) m2 =
                 Done (true, m2 <| m_node_search_db := db |>, []) /\
               slave_added (slave_entry (config s) mac ip netmask) (m_node_search_db m2) db).
Proof.
  intros Hty Hreach Hm Hmac Hrun.
  destruct (master_reachable_inv clock_ok mcfg m Hty Hreach) as ([_ [Hid Hid0] _ _ _] & _ & _).
  destruct (q_search q) as [|t] eqn:Hq.
  2:{ rewrite (search_refused mcfg _ q m t Hm Hq) in Hrun. discriminate Hrun. }
  destruct (search_match mcfg m q T Hm Hq _ _ _ Hrun) as (_ & frame & Hframe & [_ Hsend] & Hstarted).
  destruct (Hstarted eq_refl) as (Hser1 & _). destruct Hsend as [Hsend|[Hx _]]; [|discriminate Hx].
  pose proof (so_serial _ _ (proj1 Hm)) as Hser. cbn in Hser.
  rewrite (prepared_message c_cl_slmp_node_search_request _
    (search_request (m_mac_address m) (mc_master_id mcfg) (m_slmp_request_serial m)) _ Hframe) in Hsend
    by (apply search_request_wf; assumption).
  eexists. split; [exact Hsend|]. intros ifx mac ip netmask port s Ts Hif Hscfg Htimer.
  pose proof (slave_hears _ _ _ port ifx mac ip netmask Hmac (conj Hid Hid0) Hser Hif Ts s Htimer) as Hw.
  apply wp_done in Hw as ([] & s1 & so & Hsrun & Hc1 & Hn1). exists s1, so. split; [exact Hsrun|].
  split; [exact Hc1|].
  intros s2 Tr Hn2 Hc2 Ht. rewrite Hn1 in Hn2. split.
  { intros Hd. exact (slave_waits _ _ _ _ _ _ _ Ts Tr s2 Hn2 Ht Hd). }
  intros Hd. rewrite <- Hc2 in Hscfg.
  pose proof (slave_answers _ _ _ port ifx mac ip netmask Hmac (conj Hid Hid0) Hser Hif Ts Tr s2 Hn2 Ht Hd
    Hscfg) as Hw. apply wp_done in Hw as ([] & s3 & so3 & Hrun3 & -> & Honce).
  rewrite Hc2 in Hrun3, Hscfg. eexists s3, _. split; [exact Hrun3|]. split; [exact Honce|].
  intros m2 old Hser2 Hdb Hfree. destruct Hif as [[_ mac_ok] (_ & Hnm & Hnv) [Hip Hip0]].
  destruct Hscfg as (Hv & Hmo & Heq).
  match goal with |- context [c_enc _ ?v] => set (r := v) end.
  assert (Hdec : c_dec c_cl_slmp_node_search_resp (received (c_enc c_cl_slmp_node_search_resp r) old) = r).
  { apply codec_roundtrip, search_response_wf; try assumption. split; [discriminate|reflexivity]. }
  destruct (search_response_read _ _ _ _ _ _ _ _ _ _ _ mac_ok Hid0 Hip0 Hnv Hdec)
    as (Hparse & Hval & Hresp & Hok & Hrmac).
  rewrite little in Hok.
  apply (response_stored m2 r _ (sizeof c_cl_slmp_node_search_resp)); try assumption; try reflexivity.
  - rewrite Hser2, Hser1. reflexivity.
  - unfold slave_entry. fold r in Hrmac. rewrite Hrmac. reflexivity.
Qed.

End Discovery.

(** ** Example: the master of [SampleMaster] finds a slave *)

Section DiscoveryWitness.
Import SampleHost SlaveProps.SampleEnv SampleMasterEnv SampleFiles SampleMaster.

Lemma sample_little : host_is_big_endian = false.
Proof. reflexivity. Qed.

Lemma sample_counters : CLM_MAX_NODE_SEARCH_DEVICES <= 255.
Proof. discriminate. Qed.

Lemma sample_interface : slave_interface 1 [2; 0; 0; 0; 0; 1] slave_ip 0xFFFFFF00.
Proof.
  split.
  - split; [reflexivity|]. split; [reflexivity|]. repeat constructor; discriminate.
  - split; [reflexivity|]. split; [split; [discriminate|reflexivity]|reflexivity].
  - split; [split; [discriminate|reflexivity]|discriminate].
Qed.

(** Decides what is asked of the state after the search started. *)
Definition searching (m1 : clm) : bool :=
  (List.length (nd_entries (m_node_search_db m1)) =? 3)%nat && (nd_stored (m_node_search_db m1) =? 0).

Lemma sample_matches : matches cfg init (Requests Idle Idle) /\ is_mac (m_mac_address init).
Proof.
  split.
  - destruct (after_runs (clm_master_init empty "/var/clink" (Some cfg) 1000) clm_zero id)
      as ([] & o0 & Hrun0 & Ha); [vm_compute; reflexivity| |discriminate Ha].
    exact (master_init_match cfg _ _ _ _ _ _ _ Hrun0 eq_refl).
  - split; [vm_compute; reflexivity|].
    assert (Hc : forallb (fun b => (0 <=? b) && (b <? 256)) (m_mac_address init) = true)
      by (vm_compute; reflexivity). apply SampleMaster.checked_bytes, Hc.
Qed.

Lemma slave_found_by_node_search_witness :
  exists m1 o request s1 so s3 answer socket m3 db,
    clm_slmp_perform_node_search (u32 5000) init = Done (true, m1, o) /\
    slmp_sends o = [(m_slmp_broadcast_ip init, CL_SLMP_PORT, request)] /\
    cls_slmp_periodic (Some (Datagram request master_ip 45239 slave_ip 1)) (u32 6000)
      SlaveProps.Sample.init = Done (tt, s1, so) /\
    cls_slmp_periodic None (u32 2000000) s1 = Done (tt, s3,
      [SlmpUdp (UdpOpen slave_ip CL_SLMP_PORT);
       SlmpUdp (UdpSendto socket UINT32_MAX 45239 answer); SlmpUdp (UdpClose socket)]) /\
    clm_slmp_handle_input_frame (received answer []) (Z.of_nat (List.length answer)) (m_ifindex m1)
      m1 = Done (true, m3, []) /\
    m_node_search_db m3 = db /\ nd_stored db = 1.
Proof.
  destruct (after_runs (clm_slmp_perform_node_search (u32 5000)) init id)
    as ([] & o & Hrun & Ha); [vm_compute; reflexivity| |discriminate Ha].
  set (m1 := after (clm_slmp_perform_node_search (u32 5000)) init) in *.
  assert (Hs : searching m1 = true) by (vm_compute; reflexivity). unfold searching in Hs.
  apply andb_true_iff in Hs as [Hlen%Nat.eqb_eq Hst%Z.eqb_eq].
  destruct sample_matches as [Hm Hmac].
  destruct (slave_found_by_node_search sample_little sample_counters clock_ok cfg init
    (Requests Idle Idle) 5000 m1 o cfg_typed init_reachable Hm Hmac Hrun)
    as (request & Hsends & Hslave).
  destruct (Hslave 1 [2; 0; 0; 0; 0; 1] slave_ip 0xFFFFFF00 45239 SlaveProps.Sample.init 6000
    sample_interface) as (s1 & so & Hhears & Hc1 & Hlater).
  - exact SlaveProps.Sample.slave_cfg_typed.
  - vm_compute. reflexivity.
  - destruct (Hlater s1 2000000 eq_refl Hc1) as [_ Hanswer]; [lia|].
    destruct Hanswer as (s3 & answer & Hanswers & _ & Hstored);
      [vm_compute; discriminate|].
    destruct (Hstored m1 [] eq_refl) as (db & Hrun3 & _ & Hgrown & _).
    + split; [exact Hlen|]. rewrite Hst. vm_compute. split; discriminate.
    + rewrite Hst. reflexivity.
    + exists m1, o, request, s1, so, s3, answer, (clal_udp_open slave_ip CL_SLMP_PORT),
        (m1 <| m_node_search_db := db |>), db.
      rewrite Hst in Hgrown. auto 10.
Defined.
End DiscoveryWitness.
