(* ===== verification/MasterSupervision.v ===== *)
(** * Supervision of the devices by the master

    What happens to a device that falls silent: every link scan that ends by
    its timeout counts, and when the configured number has passed the device
    is disconnected, once; after that the master goes on asking for it. *)

From S2P Require Import Prelude Packed Signals Timer Limiter Util Types Iefb IefbFacts IefbRoundtrip.
From S2P Require Import File FileFacts Slmp SlmpFacts Master MasterIefb MasterConfig MasterSlmp.
From S2P Require Import MasterInv MasterFrame MasterDevice MasterGroup MasterScan MasterFsm.
From S2P Require Import MasterEvents MasterControl MasterSafety MasterResponse MasterLeaves.
From S2P Require Import MasterSettings MasterReach MasterProps.
From S2P Require SlaveProps Exchange.

#[local] Open Scope Z_scope.

(** ** Definitions *)

(** The connection to a device that does not answer: up, after so many
    missed scans, or lost. *)
Inductive link := Alive (missed : Z) | Lost.

Section MasterSupervision.
Context `{ClmOptions, Clal, ClalNet, Host, ClalClock, FileOptions, ClalFileOk}.
Context (clock_ok : forall now, is_u64 (clal_get_unix_timestamp_ms now)).
Context (cfg : clm_cfg) (cfg_ok : clm_config_ok cfg).
Context (g d : Z) (device_ok : has_device cfg g d).

Abbreviation gs := (setting_of_group cfg g).
Abbreviation limit := (gs_parallel_off_timeout_count gs).
Abbreviation period := (gs_timeout_value gs * CL_TIMER_MICROSECONDS_PER_MILLISECOND).

(** The disconnections of the device that the application is told of. *)
Definition is_disconnection (x : clm_output) : bool :=
  match x with ClmDisconnectCb g' d' _ => (g' =? g) && (d' =? d) | _ => false end.
Definition disconnections : list clm_output -> list clm_output := List.filter is_disconnection.

(** The state of a device in which the master sees its connection so. *)
Definition link_of (device : clm_slave_device_data) (l : link) : Prop :=
  d_enabled device = true /\
  match l with
  | Alive missed => d_device_state device = CLM_DEVICE_STATE_CYCLIC_SENDING /\
                    d_timeout_count device = missed /\ 0 <= missed < limit
  | Lost => d_device_state device = CLM_DEVICE_STATE_WAIT_TD
  end.

(** A link scan of the group is under way since [T0]. *)
Definition scanning_since (gd : clm_group_data) (T0 : Z) : Prop :=
  g_group_state gd = CLM_GROUP_STATE_MASTER_LINK_SCAN /\
  g_response_wait_timer gd = started_timer cfg g (u32 T0).

Definition watched (gd : clm_group_data) (s : Z * link) : Prop :=
  scanning_since gd s.1 /\ link_of (device_at gd d) s.2.

(** The specification: a missed scan, and the time [T] of a call. *)
Definition miss (l : link) : link :=
  match l with
  | Alive missed => if limit <=? missed + 1 then Lost else Alive (missed + 1)
  | Lost => Lost
  end.
Definition tick (s : Z * link) (T : Z) : Z * link :=
  if s.1 + period <=? T then (T, miss s.2) else s.
Definition told (l l' : link) : list clm_output :=
  match l, l' with
  | Alive _, Lost =>
      if mc_disconnect_cb cfg then [ClmDisconnectCb g d (ds_slave_id (setting_of_device gs d))]
      else []
  | _, _ => []
  end.

(** Calls of the periodic function in which no cyclic frame arrives, each
    with the SLMP frames it receives and its time. *)
Fixpoint silent_calls (calls : list (list datagram * Z)) : clm_prog unit :=
  match calls with
  | [] => mret tt
  | (slmp_queue, T) :: calls =>
      run_call (MasterPeriodic slmp_queue None []) (u32 T);; silent_calls calls
  end.

Definition ticks (s : Z * link) (Ts : list Z) : Z * link := fold_left tick Ts s.

(** Calls at most [D] apart, after a first point in time. *)
Fixpoint spaced (D T : Z) (Ts : list Z) : Prop :=
  match Ts with
  | [] => True
  | T' :: Ts => T <= T' <= T + D /\ spaced D T' Ts
  end.

(** The time of the last call. *)
Fixpoint final (T : Z) (Ts : list Z) : Z :=
  match Ts with [] => T | T' :: Ts => final T' Ts end.

(** ** Lemmas: one missed scan *)

Lemma disconnections_app o o' : disconnections (o ++ o') = disconnections o ++ disconnections o'.
Proof. apply List.filter_app. Qed.

Lemma callbacks_silent :
  (forall b g', disconnections (linkscan_callback cfg g' b) = []) /\
  (forall old new, disconnections (state_callback cfg old new) = []) /\
  (forall e now message ip, disconnections (error_callback cfg e now message ip).2 = []).
Proof.
  unfold linkscan_callback, state_callback, error_callback.
  repeat split; intros; repeat (case_match; try reflexivity).
Qed.

(** A scan start of any group disconnects the device only if it is its. *)
Lemma connection_others g' d' old new : g' <> g \/ d' <> d ->
  disconnections (connection_callback cfg g' d' old new) = [].
Proof.
  intros Hne. unfold connection_callback.
  destruct (new && negb old); [destruct (mc_connect_cb cfg); reflexivity|].
  destruct (old && negb new); [|reflexivity]. destruct (mc_disconnect_cb cfg); [|reflexivity].
  cbn. destruct (Z.eqb_spec g' g), (Z.eqb_spec d' d); try reflexivity. lia.
Qed.

Lemma scan_callback_others g' gd d' : g' <> g \/ d' <> d ->
  disconnections (scan_callback cfg g' gd d') = [].
Proof.
  intros Hne. unfold scan_callback. destruct (dfsm_action _) as [[]|]; try reflexivity.
  apply connection_others, Hne.
Qed.

Lemma scan_callbacks_filtered g' gd ds :
  disconnections (concat (map (scan_callback cfg g' gd) ds)) =
    concat (map (fun d' => disconnections (scan_callback cfg g' gd d')) ds).
Proof.
  induction ds as [|d' ds IH]; [reflexivity|]. cbn [map concat]. rewrite disconnections_app, IH.
  reflexivity.
Qed.

Lemma concat_single {A} (f : Z -> list A) n : 0 <= d < n -> (forall d', d' <> d -> f d' = []) ->
  concat (map f (seqZ 0 n)) = f d.
Proof.
  intros Hd Hf. assert (Hnil : forall l, Forall (fun d' => d' <> d) l -> concat (map f l) = []).
  { induction 1 as [|d' l Hne _ IH]; [reflexivity|]. cbn. rewrite Hf, IH by assumption. reflexivity. }
  replace n with (d + (1 + (n - d - 1))) by lia.
  rewrite !seqZ_app, !map_app, !concat_app by lia. rewrite (seqZ_cons (0 + d)), (seqZ_nil _ (Z.pred 1)) by lia.
  cbn [map concat]. rewrite Hnil by (apply Forall_seqZ; lia).
  rewrite Hnil by (apply Forall_seqZ; lia). rewrite !app_nil_r. reflexivity.
Qed.

Lemma scan_start_disconnections m now gd gd' o : scan_sent cfg g m now gd gd' o ->
  disconnections o = disconnections (scan_callback cfg g gd d).
Proof.
  intros [(frame & _ & ->) _ _ _ _ _ _ _ _ _ _]. rewrite disconnections_app, scan_callbacks_filtered.
  rewrite (concat_single _ (gs_num_slave_devices gs)); [|apply device_ok|].
  - apply app_nil_r.
  - intros d' Hne. apply scan_callback_others. right. exact Hne.
Qed.

Lemma other_scan_silent g' m now gd gd' o : g' <> g -> scan_sent cfg g' m now gd gd' o ->
  disconnections o = [].
Proof.
  intros Hne [(frame & _ & ->) _ _ _ _ _ _ _ _ _ _]. rewrite disconnections_app, scan_callbacks_filtered.
  rewrite app_nil_r. induction (seqZ 0 _) as [|d' ds IH]; [reflexivity|]. cbn [map concat].
  rewrite IH, scan_callback_others by auto. reflexivity.
Qed.

(** The events of other groups tell nothing of the device. *)
Lemma other_step_silent g' m now event e gd e' gd' o : g' <> g ->
  group_step cfg g' m now event e gd e' gd' o -> disconnections o = [].
Proof.
  intros Hne Hstep. destruct callbacks_silent as (Hl & Hs & He).
  pose proof (fun gd gd' o => other_scan_silent g' m now gd gd' o Hne) as Hscan.
  destruct Hstep as [e gd gd' o _ Hsent|e gd gd' _ _|e gd gd' _ _|e gd gd' o _ Hsent
    |e gd gd1 gd' o _ _ Hsent|e gd gd' _ _ _|e gd gd1 gd' o _ _ _ Hsent|event e gd _];
    rewrite ?disconnections_app, ?Hl, ?Hs; try (apply Hscan in Hsent; rewrite Hsent); try reflexivity.
  subst r. rewrite He. reflexivity.
Qed.

(** *** The device *)

Lemma missed_transitions :
  device_matrix CLM_DEVICE_STATE_CYCLIC_SENDING CLM_DEVICE_EVENT_GROUP_TIMEOUT =
    ClmDeviceFsm CLM_DEVICE_STATE_CYCLIC_SENDING (Some clm_iefb_evaluate_timeoutcounter) /\
  device_matrix CLM_DEVICE_STATE_WAIT_TD CLM_DEVICE_EVENT_GROUP_TIMEOUT =
    ClmDeviceFsm CLM_DEVICE_STATE_LISTEN None /\
  device_matrix CLM_DEVICE_STATE_LISTEN CLM_DEVICE_EVENT_SCAN_START_DEVICE_START =
    ClmDeviceFsm CLM_DEVICE_STATE_WAIT_TD (Some clm_iefb_set_data_ip) /\
  device_matrix CLM_DEVICE_STATE_CYCLIC_SENT CLM_DEVICE_EVENT_SCAN_START_DEVICE_START =
    ClmDeviceFsm CLM_DEVICE_STATE_CYCLIC_SENDING (Some clm_iefb_set_data_ip).
Proof. repeat split; vm_compute; reflexivity. Qed.

(** Before the next scan a device is connected, or waits to be asked. *)
Definition between (device : clm_slave_device_data) (bit : bool) (l : link) : Prop :=
  d_enabled device = true /\ d_transmission_bit device = bit /\
  match l with
  | Alive missed => d_device_state device = CLM_DEVICE_STATE_CYCLIC_SENT /\
                    d_timeout_count device = missed /\ 0 <= missed < limit
  | Lost => d_device_state device = CLM_DEVICE_STATE_LISTEN
  end.

Lemma device_misses device device1 l : device_inv gs d device -> link_of device l ->
  device_changed cfg g CLM_DEVICE_EVENT_GROUP_TIMEOUT device device1 ->
  between device1 (match l with Alive _ => true | Lost => false end) (miss l).
Proof.
  intros Hinv [Hen Hl] Hch. destruct missed_transitions as (H1' & H2' & _).
  pose proof (go_count _ _ (cok_group _ cfg_ok g (proj1 device_ok))) as Hcount.
  unfold device_changed in Hch. destruct l as [c|].
  - destruct Hl as (Hst & Hc & Hr). pose proof (di_sending _ _ _ Hinv Hst) as Hbit.
    rewrite Hst, H1' in Hch. cbn [dfsm_action dfsm_next] in Hch. destruct Hch as (statistics & Hd).
    rewrite Hc, u16_id in Hd by (unfold is_u16; lia). unfold between, miss.
    destruct (limit <=? c + 1) eqn:Hfull; rewrite Hd; cbn [update d_enabled d_transmission_bit
      d_device_state d_timeout_count]; split_and!; try assumption; try reflexivity;
      apply Z.leb_gt in Hfull; lia.
  - pose proof (di_wait _ _ _ Hinv Hl) as Hbit. rewrite Hl, H2' in Hch.
    cbn [dfsm_action dfsm_next] in Hch. unfold enter_device in Hch. cbn [bool_decide andb] in Hch.
    rewrite Hch. split; [exact Hen|]. split; [exact Hbit|reflexivity].
Qed.

Lemma device_asked gd gd' bit l : between (device_at gd d) bit l ->
  device_changed cfg g (scan_event (device_at gd d)) (device_at gd d) (device_at gd' d) ->
  link_of (device_at gd' d) l /\
  scan_callback cfg g gd d =
    connection_callback cfg g d bit (match l with Alive _ => true | Lost => false end).
Proof.
  intros (Hen & Hbit & Hl) Hch. destruct missed_transitions as (_ & _ & H3' & H4').
  unfold scan_callback, device_changed, scan_event in *. rewrite Hen, Hbit in *. destruct l as [c|].
  - destruct Hl as (Hst & Hc & Hr). rewrite Hst, H4' in *. cbn [dfsm_action dfsm_next] in *.
    destruct Hch as (statistics & ->). split; [|reflexivity]. split; [exact Hen|].
    split; [reflexivity|]. split; [exact Hc|exact Hr].
  - rewrite Hl, H3' in *. cbn [dfsm_action dfsm_next] in *. destruct Hch as (statistics & ->).
    split; [|reflexivity]. split; [exact Hen|reflexivity].
Qed.

Lemma told_connection l :
  disconnections (connection_callback cfg g d (match l with Alive _ => true | Lost => false end)
    (match miss l with Alive _ => true | Lost => false end)) = told l (miss l).
Proof.
  unfold connection_callback, told, miss.
  destruct l as [c|]; [destruct (limit <=? c + 1)|]; try reflexivity. cbn [andb negb].
  destruct (mc_disconnect_cb cfg); [|reflexivity]. cbn. rewrite !Z.eqb_refl. reflexivity.
Qed.

(** *** The group *)

Lemma scan_missed m now gd gd1 gd' o l T : group_base cfg g gd -> now = u32 T ->
  link_of (device_at gd d) l ->
  scan_ended cfg g CLM_DEVICE_EVENT_GROUP_TIMEOUT gd gd1 ->
  scan_sent cfg g m now (gd1 <| g_group_state := CLM_GROUP_STATE_MASTER_LINK_SCAN |>) gd' o ->
  watched gd' (T, miss l) /\ disconnections o = told l (miss l).
Proof.
  intros Hb -> Hl (gd0 & Hall & ->) Hsent.
  pose proof (gb_devices _ _ _ Hb d (proj2 device_ok)) as Hinv.
  pose proof (device_misses _ _ l Hinv Hl (ac_devices _ _ _ _ _ Hall d (proj2 device_ok))) as Hbtw.
  pose proof (sc_devices _ _ _ _ _ _ _ Hsent d (proj2 device_ok)) as Hch.
  destruct (device_asked _ _ _ (miss l) Hbtw Hch) as [Hl' Hcb]. split; [split; [split|]|].
  - exact (sc_state _ _ _ _ _ _ _ Hsent).
  - exact (sc_wait _ _ _ _ _ _ _ Hsent).
  - exact Hl'.
  - rewrite (scan_start_disconnections _ _ _ _ _ Hsent). rewrite <- told_connection.
    exact (f_equal disconnections Hcb).
Qed.

(** *** The timers *)

(** What a part of a call at [T] does to the device. *)
Definition does (T : Z) (f : Z * link -> Z * link) (m m' : clm) (o : list clm_output) : Prop :=
  forall s, watched (group_at m g) s -> 0 <= T - s.1 < 2 ^ 31 ->
    watched (group_at m' g) (f s) /\ disconnections o = told s.2 (f s).2.

(** The part works on group [i]: it does nothing to the device of another
    group. *)
Definition passes (i T : Z) (f : Z * link -> Z * link) (m m' : clm) (o : list clm_output) : Prop :=
  (i <> g -> group_at m' g = group_at m g /\ disconnections o = []) /\
  (i = g -> does T f m m' o).

Lemma told_same l : told l l = [].
Proof. destruct l; reflexivity. Qed.

Lemma passes_same i T m : passes i T (fun s => s) m m [].
Proof. split; [auto|]. intros _ s Hs _. rewrite told_same. auto. Qed.

Lemma other_group_same i e gd m : has_group cfg i -> i <> g ->
  group_at (put_group i gd (with_env e m)) g = group_at m g.
Proof.
  intros Hi Hne. pose proof (proj1 device_ok) as Hg. unfold has_group in *.
  rewrite group_at_put_other by lia. reflexivity.
Qed.

(** An event that the device's group does not heed. *)
Lemma heedless m now event e gd e' gd' o T0 : scanning_since gd T0 ->
  event = CLM_GROUP_EVENT_LINKSCAN_START \/ event = CLM_GROUP_EVENT_ARBITRATION_DONE ->
  group_step cfg g m now event e gd e' gd' o -> gd' = gd /\ o = [].
Proof.
  intros [Hst _] Hev Hstep.
  destruct Hstep as [e gd gd' o Hs _|e gd gd' Hs _|e gd gd' Hs _|e gd gd' o Hs _
    |e gd gd1 gd' o Hs _ _|e gd gd' Hs _ _|e gd gd1 gd' o Hs _ _ _|event e gd _];
    try (destruct Hev; discriminate); try (rewrite Hst in Hs; discriminate Hs). auto.
Qed.

(** The end of the time for the responses. *)
Lemma timeout_step m now e gd e' gd' o : g_group_state gd = CLM_GROUP_STATE_MASTER_LINK_SCAN ->
  group_step cfg g m now CLM_GROUP_EVENT_LINKSCAN_TIMEOUT e gd e' gd' o ->
  exists gd1 o1, scan_ended cfg g CLM_DEVICE_EVENT_GROUP_TIMEOUT
      (gd <| g_group_state := CLM_GROUP_STATE_MASTER_LINK_SCAN_COMP |>) gd1 /\
    scan_sent cfg g m now (gd1 <| g_group_state := CLM_GROUP_STATE_MASTER_LINK_SCAN |>) gd' o1 /\
    disconnections o = disconnections o1.
Proof.
  intros Hst Hstep. destruct callbacks_silent as (Hlc & Hsc & _).
  inversion Hstep as [| | | |e1 gd1 gd2 gd3 o1 _ Hend Hsent| | |event e1 gd1 Hig]; subst.
  - exists gd2, o1. split; [exact Hend|]. split; [exact Hsent|].
    rewrite !disconnections_app, Hlc, Hsc. reflexivity.
  - rewrite Hst in Hig. vm_compute in Hig. discriminate Hig.
Qed.

Lemma wait_expired T0 T gd : scanning_since gd T0 -> 0 <= T - T0 < 2 ^ 31 ->
  cl_timer_is_expired (g_response_wait_timer gd) (u32 T) = (T0 + period <=? T).
Proof.
  intros [_ ->] HT. unfold started_timer. rewrite timer_expired_elapsed by exact HT.
  destruct (Z.leb_spec period (T - T0)), (Z.leb_spec (T0 + period) T); lia || reflexivity.
Qed.

Lemma wait_stage i T m : has_group cfg i -> master_inv cfg m ->
  wp (when (cl_timer_is_expired (g_response_wait_timer (group_at m i)) (u32 T))
        (modify_group i (fun group_data => group_data <| g_response_wait_timer ::= cl_timer_stop |>);;
         clm_iefb_group_fsm_event i (u32 T) CLM_GROUP_EVENT_LINKSCAN_TIMEOUT))
    (fun _ m' o => master_inv cfg m' /\
       cl_timer_is_expired (g_response_wait_timer (group_at m' i)) (u32 T) = false /\
       passes i T (fun s => tick s T) m m' o) m.
Proof.
  intros Hi Hm. destruct (proj2 Hm i Hi) as [Hb Hc]. apply wp_when; intros He.
  - apply (changed_group_event clock_ok cfg cfg_ok); [exact Hi|exact Hm|apply stop_wait_base, Hb
      |reflexivity| |exact I|].
    + unfold group_pre, group_control in *. cbn [g_group_state update].
      destruct (g_group_state (group_at m i)); try exact I; exact Hc.
    + intros m' o e' gd' Hm' _ Heq Hat Hstep. split; [exact Hm'|]. split.
      * rewrite Hat. inversion Hstep; subst; [|reflexivity].
        match goal with Hs : scan_sent _ _ _ _ _ _ _ |- _ => rewrite (sc_wait _ _ _ _ _ _ _ Hs) end.
        apply (started_not_expired cfg cfg_ok), Hi.
      * split.
        { intros Hne. split; [rewrite Heq; apply other_group_same; assumption|].
          exact (other_step_silent i m _ _ _ _ _ _ _ Hne Hstep). }
        intros -> [T0 l] [Hscan Hl] HT. cbn [fst snd] in *.
        unfold tick. cbn [fst snd]. rewrite (wait_expired T0 T _ Hscan HT) in He. rewrite He.
        rewrite Hat.
        assert (Hst1 : g_group_state ((group_at m g) <| g_response_wait_timer ::= cl_timer_stop |>) =
          CLM_GROUP_STATE_MASTER_LINK_SCAN) by (cbn [g_group_state update]; apply Hscan).
        destruct (timeout_step m _ _ _ _ _ _ Hst1 Hstep) as (gd1 & o1 & Hend & Hsent & ->).
        eapply scan_missed; [|reflexivity| |exact Hend|exact Hsent]; [|exact Hl].
        apply set_group_state_base, stop_wait_base, Hb.
  - split; [exact Hm|]. split; [exact He|]. split; [auto|]. intros -> s Hs HT.
    unfold tick. rewrite <- (wait_expired s.1 T _ (proj1 Hs) HT), He, told_same. auto.
Qed.

Lemma constant_stage i T m : has_group cfg i -> master_inv cfg m ->
  cl_timer_is_expired (g_response_wait_timer (group_at m i)) (u32 T) = false ->
  wp (when (cl_timer_is_expired (g_constant_linkscan_timer (group_at m i)) (u32 T))
        (modify_group i (fun group_data => group_data
           <| g_constant_linkscan_timer ::= cl_timer_stop |>);;
         clm_iefb_group_fsm_event i (u32 T) CLM_GROUP_EVENT_LINKSCAN_START))
    (fun _ m' o => master_inv cfg m' /\ passes i T (fun s => s) m m' o) m.
Proof.
  intros Hi Hm Hwait. destruct (proj2 Hm i Hi) as [Hb Hc]. apply wp_when; intros He.
  - apply (changed_group_event clock_ok cfg cfg_ok); [exact Hi|exact Hm| |reflexivity| |exact I|].
    + destruct Hb. split; assumption.
    + unfold group_pre, group_control in *. cbn [g_group_state update].
      destruct (g_group_state (group_at m i)); try exact Hc.
      * destruct Hc as (Hr & Hq & _). split; assumption.
      * destruct Hc as (Ht & Hsame & Hf). split; [exact Ht|]. split; [|exact Hf].
        intros Hconst. rewrite <- (Hsame Hconst), He in Hwait. discriminate.
    + intros m' o e' gd' Hm' _ Heq Hat Hstep. split; [exact Hm'|]. split.
      { intros Hne. split; [rewrite Heq; apply other_group_same; assumption|].
        exact (other_step_silent i m _ _ _ _ _ _ _ Hne Hstep). }
      intros -> s Hs HT. rewrite Hat.
      assert (Hscan : scanning_since ((group_at m g) <| g_constant_linkscan_timer ::= cl_timer_stop |>)
        s.1) by (destruct Hs as [[Hst Ht] _]; split; [exact Hst|exact Ht]).
      destruct (heedless m _ _ _ _ _ _ _ s.1 Hscan (or_introl eq_refl) Hstep) as [-> ->].
      rewrite told_same. split; [exact Hs|reflexivity].
  - split; [exact Hm|apply passes_same].
Qed.

Lemma does_then T f m m1 m2 o1 o2 : (forall s, (f s).1 = s.1 \/ (f s).1 = T) ->
  does T f m m1 o1 -> does T (fun s => s) m1 m2 o2 -> does T f m m2 (o1 ++ o2).
Proof.
  intros Hf H1' H2' s Hs HT. destruct (H1' s Hs HT) as [Hs1 Ho1].
  destruct (H2' (f s) Hs1) as [Hs2 Ho2]; [destruct (Hf s) as [-> | ->]; lia|].
  split; [exact Hs2|]. rewrite disconnections_app, Ho1, Ho2, told_same. apply app_nil_r.
Qed.

Lemma then_does T f m m1 m2 o1 o2 : does T (fun s => s) m m1 o1 -> does T f m1 m2 o2 ->
  does T f m m2 (o1 ++ o2).
Proof.
  intros H1' H2' s Hs HT. destruct (H1' s Hs HT) as [Hs1 Ho1]. destruct (H2' s Hs1 HT) as [Hs2 Ho2].
  split; [exact Hs2|]. rewrite disconnections_app, Ho1, Ho2, told_same. reflexivity.
Qed.

Lemma same_does T m m' o : group_at m' g = group_at m g -> disconnections o = [] ->
  does T (fun s => s) m m' o.
Proof. intros Hm Ho s Hs _. rewrite Hm, Ho, told_same. auto. Qed.

Lemma tick_time s T : (tick s T).1 = s.1 \/ (tick s T).1 = T.
Proof. unfold tick. destruct (_ <=? T); auto. Qed.

Lemma passes_then i T m m1 m2 o1 o2 : passes i T (fun s => tick s T) m m1 o1 ->
  passes i T (fun s => s) m1 m2 o2 -> passes i T (fun s => tick s T) m m2 (o1 ++ o2).
Proof.
  intros [Hn1 He1] [Hn2 He2]. split.
  - intros Hne. destruct (Hn1 Hne) as [Hm1 Ho1], (Hn2 Hne) as [Hm2 Ho2].
    rewrite disconnections_app, Hm2, Ho1, Ho2. auto.
  - intros Heq. apply (does_then T _ m m1 m2); [intros s; apply tick_time|apply He1, Heq|apply He2, Heq].
Qed.

(** The two timers of a group. *)
Lemma group_timers_ok i T m : has_group cfg i -> master_inv cfg m ->
  wp (group_data ← get_group i;
      when (cl_timer_is_expired (g_response_wait_timer group_data) (u32 T))
        (modify_group i (fun group_data => group_data <| g_response_wait_timer ::= cl_timer_stop |>);;
         clm_iefb_group_fsm_event i (u32 T) CLM_GROUP_EVENT_LINKSCAN_TIMEOUT);;
      group_data ← get_group i;
      when (cl_timer_is_expired (g_constant_linkscan_timer group_data) (u32 T))
        (modify_group i (fun group_data => group_data
           <| g_constant_linkscan_timer ::= cl_timer_stop |>);;
         clm_iefb_group_fsm_event i (u32 T) CLM_GROUP_EVENT_LINKSCAN_START))
    (fun _ m' o => master_inv cfg m' /\ passes i T (fun s => tick s T) m m' o) m.
Proof.
  intros Hi Hm. apply wp_bind. unfold get_group at 1. wp_steps.
  eapply wp_mono; [apply (wait_stage i T m Hi Hm)|]. intros [] m1 o1 (Hm1 & Hwait & Hp1).
  apply wp_bind. unfold get_group at 1. wp_steps.
  eapply wp_mono; [apply (constant_stage i T m1 Hi Hm1 Hwait)|].
  intros [] m2 o2 (Hm2 & Hp2). split; [exact Hm2|]. exact (passes_then i T m m1 m2 o1 o2 Hp1 Hp2).
Qed.

(** A loop whose body does [f] to the device when it comes to its group. *)
Lemma groups_do n body T f m : master_inv cfg m -> n = sh_number_of_groups (mc_hier cfg) ->
  (forall s, (f s).1 = s.1 \/ (f s).1 = T) ->
  (forall i m1, has_group cfg i -> master_inv cfg m1 ->
     wp (body i) (fun _ m2 o => master_inv cfg m2 /\ passes i T f m1 m2 o) m1) ->
  wp (for_range n body) (fun _ m' o => master_inv cfg m' /\ does T f m m' o) m.
Proof.
  intros Hm -> Hf Hbody. pose proof (proj1 device_ok) as Hg. unfold has_group in Hg.
  eapply wp_mono; [apply (wp_for_groups _ _ (fun i m' o => master_inv cfg m' /\
    (i <= g -> group_at m' g = group_at m g /\ disconnections o = []) /\
    (g < i -> does T f m m' o))); [lia| |]|].
  - split; [exact Hm|]. split; [auto|lia].
  - intros i m1 o1 Hi (Hm1 & Hbefore & Hafter).
    eapply wp_mono; [apply (Hbody i m1 Hi Hm1)|]. intros [] m2 o2 (Hm2 & Hother & Hown).
    split; [exact Hm2|]. split; intros Hle.
    + destruct Hbefore as [Hb1 Hb2]; [lia|]. destruct Hother as [Ho1 Ho2]; [lia|].
      rewrite disconnections_app, Ho1, Ho2, Hb2. auto.
    + destruct (Z.eq_dec i g) as [->|Hne].
      * destruct Hbefore as [Hb1 Hb2]; [lia|]. apply (then_does T f m m1 m2); [|apply Hown; reflexivity].
        apply same_does; assumption.
      * apply (does_then T f m m1 m2 o1 o2 Hf); [apply Hafter; lia|].
        destruct (Hother Hne) as [Ho1 Ho2]. apply same_does; assumption.
  - intros [] m' o (Hm' & _ & Hd). split; [exact Hm'|]. apply Hd. lia.
Qed.

(** *** A call without datagrams *)

Lemma arbitration_stage i T m : has_group cfg i -> master_inv cfg m ->
  wp (clm_iefb_group_fsm_event i (u32 T) CLM_GROUP_EVENT_ARBITRATION_DONE)
    (fun _ m' o => master_inv cfg m' /\ passes i T (fun s => s) m m' o) m.
Proof.
  intros Hi Hm. destruct (proj2 Hm i Hi) as [Hb Hc].
  eapply wp_mono; [apply (group_event_wp clock_ok cfg cfg_ok m i); [exact Hi|apply Hm|exact Hb| |exact I]|].
  { apply (group_control_started cfg i _ Hc). }
  intros [] m' o (e' & gd' & -> & Hstep). split.
  - destruct (group_step_inv cfg i m _ CLM_GROUP_EVENT_ARBITRATION_DONE _ _ _ _ _ Hb Hc Hstep) as [Hb' Hc'].
    apply (put_group_inv cfg cfg_ok); [exact Hi|apply Hm|apply (master_others cfg), Hm|exact Hb'|exact Hc'].
  - split.
    + intros Hne. split; [apply other_group_same; assumption|].
      exact (other_step_silent i m _ _ _ _ _ _ _ Hne Hstep).
    + intros -> s Hs HT.
      destruct (heedless m _ _ _ _ _ _ _ s.1 (proj1 Hs) (or_intror eq_refl) Hstep) as [-> ->].
      rewrite told_same. split; [|reflexivity].
      rewrite group_at_put by exact (groups_length cfg cfg_ok (with_env e' m) g (env_base cfg m (proj1 Hm) e') Hi).
      exact Hs.
Qed.

Lemma arbitration_does T m : master_inv cfg m ->
  wp (clm_iefb_group_fsm_event_all (u32 T) CLM_GROUP_EVENT_ARBITRATION_DONE)
    (fun _ m' o => master_inv cfg m' /\ does T (fun s => s) m m' o) m.
Proof.
  intros Hm. unfold clm_iefb_group_fsm_event_all. wp_steps.
  apply groups_do; [exact Hm|exact (config_groups_eq cfg m Hm)|auto|].
  intros i m1 Hi Hm1. exact (arbitration_stage i T m1 Hi Hm1).
Qed.

Lemma timers_do T m : master_inv cfg m ->
  wp (clm_iefb_monitor_all_group_timers (u32 T))
    (fun _ m' o => master_inv cfg m' /\ does T (fun s => tick s T) m m' o) m.
Proof.
  intros Hm. unfold clm_iefb_monitor_all_group_timers. wp_steps.
  apply groups_do; [exact Hm|exact (config_groups_eq cfg m Hm)|intros s; apply tick_time|].
  intros i m1 Hi Hm1. exact (group_timers_ok i T m1 Hi Hm1).
Qed.

(** Changes outside of the groups. *)
Lemma outside_inv f m : (forall m, master_base cfg m -> master_base cfg (f m) /\ m_groups (f m) = m_groups m) ->
  master_inv cfg m -> master_inv cfg (f m) /\ group_at (f m) g = group_at m g.
Proof.
  intros Hf [Hb Hg]. destruct (Hf m Hb) as [Hb' Heq]. unfold master_inv, group_at in *.
  rewrite Heq. auto.
Qed.

Lemma iefb_periodic_does T m : master_inv cfg m ->
  wp (clm_iefb_periodic None [] (u32 T))
    (fun _ m' o => master_inv cfg m' /\ does T (fun s => tick s T) m m' o) m.
Proof.
  intros Hm. unfold clm_iefb_periodic. wp_steps. set (m1 := m <| m_errorlimiter ::= _ |>).
  destruct (outside_inv (fun m => m <| m_errorlimiter ::= (fun l => cl_limiter_periodic l (u32 T)) |>) m)
    as [Hm1 Hat1]; [intros m' []; split; [split; assumption|reflexivity]|exact Hm|].
  fold m1 in Hm1, Hat1. clearbody m1.
  eapply wp_mono with (Q := fun _ m2 o => master_inv cfg m2 /\ does T (fun s => s) m m2 o).
  - apply wp_when; intros _; [|split; [exact Hm1|]; apply same_does; [exact Hat1|reflexivity]].
    wp_steps. set (m2 := m1 <| m_arbitration_timer ::= _ |>).
    destruct (outside_inv (fun m => m <| m_arbitration_timer ::= cl_timer_stop |>) m1)
      as [Hm2 Hat2]; [intros m' []; split; [split; assumption|reflexivity]|exact Hm1|].
    fold m2 in Hm2, Hat2. clearbody m2.
    eapply wp_mono; [apply (arbitration_does T m2 Hm2)|]. intros [] m3 o3 [Hm3 Hd3].
    split; [exact Hm3|]. apply (then_does T _ m m2 m3 [] o3); [|exact Hd3].
    apply same_does; [rewrite Hat2; exact Hat1|reflexivity].
  - intros [] m2 o2 [Hm2 Hd2]. apply wp_bind.
    eapply wp_mono; [apply (timers_do T m2 Hm2)|]. intros [] m3 o3 [Hm3 Hd3].
    wp_steps. apply wp_when; intros _; wp_steps; cbn [receive_loop]; wp_steps;
      (split; [exact Hm3|]); rewrite ?app_nil_r; exact (then_does T _ m m2 m3 o2 o3 Hd2 Hd3).
Qed.

(** *** Calls with SLMP frames *)

Lemma slmp_disconnects_nothing o : slmp_outputs_only o -> disconnections o = [].
Proof.
  intros [Ho _]. unfold none_of in Ho. induction o as [|x o IH]; [reflexivity|].
  destruct x; cbn in *; try discriminate Ho; exact (IH Ho).
Qed.

Lemma slmp_does queue T m : master_inv cfg m ->
  wp (clm_slmp_periodic queue (u32 T))
    (fun _ m' o => master_inv cfg m' /\ does T (fun s => s) m m' o) m.
Proof.
  intros Hm. pose proof (keeps_slmp_periodic cfg queue (u32 T) m Hm) as Hw.
  destruct (slmp_leaves_cyclic (u32 T) [] 0 0 queue) as (_ & _ & Hl). specialize (Hl m).
  unfold wp in *. destruct (clm_slmp_periodic queue (u32 T) m) as [[[[] m'] o]|]; [|exact Hw].
  destruct Hw as [Hm' _], Hl as [Hview Ho]. split; [exact Hm'|].
  apply same_does; [|exact (slmp_disconnects_nothing o Ho)].
  unfold group_at. pose proof (f_equal (fun v => v.1.1.2) Hview) as Hgroups. cbn in Hgroups.
  rewrite Hgroups. reflexivity.
Qed.

Lemma periodic_does queue T m : master_inv cfg m ->
  wp (run_call (MasterPeriodic queue None []) (u32 T))
    (fun _ m' o => master_inv cfg m' /\ does T (fun s => tick s T) m m' o) m.
Proof.
  intros Hm. cbn [run_call]. unfold clm_periodic. apply wp_bind.
  eapply wp_mono; [apply (slmp_does queue T m Hm)|]. intros [] m1 o1 [Hm1 Hd1].
  eapply wp_mono; [apply (iefb_periodic_does T m1 Hm1)|]. intros [] m2 o2 [Hm2 Hd2].
  split; [exact Hm2|]. exact (then_does T _ m m1 m2 o1 o2 Hd1 Hd2).
Qed.

(** *** The specification *)

Lemma told_trans l l' l'' : (l = Lost -> l' = Lost) -> (l' = Lost -> l'' = Lost) ->
  told l l' ++ told l' l'' = told l l''.
Proof.
  intros H1' H2'. destruct l, l'; try discriminate (H1' eq_refl).
  - reflexivity.
  - rewrite (H2' eq_refl). apply app_nil_r.
  - rewrite (H2' eq_refl). reflexivity.
Qed.

Lemma ticks_lost s Ts : s.2 = Lost -> (ticks s Ts).2 = Lost.
Proof.
  revert s. induction Ts as [|T Ts IH]; intros s Hs; [exact Hs|]. apply IH. unfold tick.
  destruct (_ <=? T); [cbn [snd]; rewrite Hs; reflexivity|exact Hs].
Qed.

Lemma period_bounds : 0 < period < 2 ^ 27.
Proof.
  pose proof (go_timeout _ _ (cok_group _ cfg_ok g (proj1 device_ok))). unfold
    CL_TIMER_MICROSECONDS_PER_MILLISECOND. lia.
Qed.

Lemma last_later D T Ts : spaced D T Ts -> T <= final T Ts.
Proof.
  revert T. induction Ts as [|T' Ts IH]; intros T Hsp; [cbn; lia|]. destruct Hsp as [HT Hsp].
  cbn [final]. specialize (IH T' Hsp). lia.
Qed.

(** A device is not given up before it has missed all its scans... *)
Lemma ticks_early D Ts t c T : spaced D T Ts -> c < limit -> t <= T ->
  final T Ts < t + (limit - c) * period -> exists c', (ticks (t, Alive c) Ts).2 = Alive c'.
Proof.
  pose proof period_bounds as HP. revert t c T.
  induction Ts as [|T' Ts IH]; intros t c T Hsp Hc HT Hlast; [eexists; reflexivity|].
  destruct Hsp as [HT' Hsp]. cbn [final] in Hlast. pose proof (last_later D T' Ts Hsp).
  cbn [ticks fold_left]. change (fold_left tick Ts ?s) with (ticks s Ts). unfold tick, miss.
  cbn [fst snd]. destruct (Z.leb_spec (t + period) T'); [|apply (IH t c T'); auto; lia].
  destruct (Z.leb_spec limit (c + 1)).
  - replace (limit - c) with 1 in Hlast by lia. lia.
  - apply (IH T' (c + 1) T'); [exact Hsp|lia|lia|]. nia.
Qed.

(** ... and no later than the calls allow. *)
Lemma ticks_late D Ts t c T : 0 <= D -> spaced D T Ts -> c < limit -> t <= T < t + period ->
  t + (limit - c) * (period + D) <= final T Ts -> (ticks (t, Alive c) Ts).2 = Lost.
Proof.
  pose proof period_bounds as HP. intros HD. revert t c T.
  induction Ts as [|T' Ts IH]; intros t c T Hsp Hc HT Hlast; [cbn in Hlast; nia|].
  destruct Hsp as [HT' Hsp]. cbn [final] in Hlast.
  cbn [ticks fold_left]. change (fold_left tick Ts ?s) with (ticks s Ts). unfold tick, miss.
  cbn [fst snd]. destruct (Z.leb_spec (t + period) T'); [|apply (IH t c T'); auto; lia].
  destruct (Z.leb_spec limit (c + 1)).
  - apply ticks_lost. reflexivity.
  - apply (IH T' (c + 1) T'); [exact Hsp|lia|lia|]. nia.
Qed.

Lemma ticks_step s T Ts : ticks s (T :: Ts) = ticks (tick s T) Ts.
Proof. reflexivity. Qed.

(** A step of the specification loses a device for good. *)
Lemma tick_lost s T : s.2 = Lost -> (tick s T).2 = Lost.
Proof. exact (ticks_lost s [T]). Qed.

(** *** All calls *)

Lemma silent_calls_do calls D : cfg_types cfg -> D <= 2 ^ 30 ->
  Forall (fun call => Forall (fun dg => bytes (dg_bytes dg)) call.1) calls ->
  forall m s T, master_reachable cfg m -> watched (group_at m g) s -> s.1 <= T < s.1 + period ->
  spaced D T (map snd calls) ->
  exists m' o, silent_calls calls m = Done (tt, m', o) /\ master_reachable cfg m' /\
    watched (group_at m' g) (ticks s (map snd calls)) /\
    disconnections o = told s.2 (ticks s (map snd calls)).2.
Proof.
  intros Hty HD. pose proof period_bounds as HP.
  induction 1 as [|[queue T'] calls Hq _ IH]; intros m s T Hreach Hs HT Hsp.
  { exists m, []. cbn. rewrite told_same. auto. }
  destruct Hsp as [HT' Hsp]. cbn [map snd fst] in *.
  assert (Hc : call_ok cfg (MasterPeriodic queue None [])).
  { split; [exact Hq|]. split; [discriminate|constructor]. }
  destruct (call_runs clock_ok cfg _ (u32 T') m Hty Hreach Hc) as (m1 & o1 & Hrun & Hreach1 & _ & _).
  destruct (master_reachable_inv clock_ok cfg m Hty Hreach) as (_ & _ & Hm).
  pose proof (periodic_does queue T' m Hm) as Hw. unfold wp in Hw. rewrite Hrun in Hw.
  destruct Hw as [_ Hd]. destruct (Hd s Hs) as [Hs1 Ho1]; [lia|].
  destruct (IH m1 (tick s T') T') as (m2 & o2 & Hrun2 & Hreach2 & Hs2 & Ho2);
    [exact Hreach1|exact Hs1| |exact Hsp|].
  { unfold tick. destruct (Z.leb_spec (s.1 + period) T'); cbn [fst]; lia. }
  exists m2, (o1 ++ o2). rewrite ticks_step. split; [|split; [exact Hreach2|split; [exact Hs2|]]].
  - cbn [silent_calls]. unfold mbind, prog_bind. rewrite Hrun, Hrun2. reflexivity.
  - rewrite disconnections_app, Ho1, Ho2. apply told_trans; [apply tick_lost|apply ticks_lost].
Qed.
End MasterSupervision.

(** ** Properties *)

Section Supervised.
Context `{ClmOptions, Clal, ClalNet, Host, ClalClock, FileOptions, ClalFileOk}.
Context (clock_ok : forall now, is_u64 (clal_get_unix_timestamp_ms now)).

(** C14: supervision of a device by the master, in unbounded time on the
    wrapping clock. A device of a reachable master has missed [c] link scans
    and the next one was sent at [T0]. From then on no cyclic frame arrives;
    SLMP frames may. The periodic function is called at any times, at most
    [D] apart (at most half of the range of the clock). Then every call
    returns; the state of the device and what the application is told follow
    the specification [ticks]: a scan whose period has passed counts, the
    next one starts at that call, and the device is lost when the configured
    number is reached. So before the remaining scans could have timed out
    the device is still connected and nothing is reported; once they must
    have timed out the device waits to be asked again, and the application
    has been told of its disconnection exactly once. *)
Theorem silent_device_disconnected cfg m g d T0 c D calls : cfg_types cfg -> master_reachable cfg m ->
  has_device cfg g d -> watched cfg g d (group_at m g) (T0, Alive c) -> 0 <= D <= 2 ^ 30 ->
  Forall (fun call => Forall (fun dg => bytes (dg_bytes dg)) call.1) calls ->
  spaced D T0 (map snd calls) ->
  let limit := gs_parallel_off_timeout_count (setting_of_group cfg g) in
  let period := gs_timeout_value (setting_of_group cfg g) * CL_TIMER_MICROSECONDS_PER_MILLISECOND in
  exists m' o, silent_calls calls m = Done (tt, m', o) /\ master_reachable cfg m' /\
    watched cfg g d (group_at m' g) (ticks cfg g (T0, Alive c) (map snd calls)) /\
    (final T0 (map snd calls) < T0 + (limit - c) * period ->
     d_device_state (device_at (group_at m' g) d) = CLM_DEVICE_STATE_CYCLIC_SENDING /\
     disconnections g d o = []) /\
    (T0 + (limit - c) * (period + D) <= final T0 (map snd calls) ->
     d_device_state (device_at (group_at m' g) d) = CLM_DEVICE_STATE_WAIT_TD /\
     disconnections g d o =
       if mc_disconnect_cb cfg
       then [ClmDisconnectCb g d (ds_slave_id (setting_of_device (setting_of_group cfg g) d))] else []).
Proof.
  intros Hty Hreach Hd Hs HD Hq Hsp. cbv zeta.
  destruct (master_reachable_inv clock_ok cfg m Hty Hreach) as (Hok & _ & _).
  pose proof (period_bounds cfg Hok g d Hd) as HP. pose proof (proj2 (proj2 Hs)) as (_ & _ & Hc).
  destruct (silent_calls_do clock_ok cfg Hok g d Hd calls D Hty (proj2 HD) Hq m (T0, Alive c) T0)
    as (m' & o & Hrun & Hreach' & Hs' & Ho); [exact Hreach|exact Hs|cbn [fst]; lia|exact Hsp|].
  exists m', o. split; [exact Hrun|]. split; [exact Hreach'|]. split; [exact Hs'|].
  destruct Hs' as [_ [_ Hl]]. split; intros Hlast.
  - destruct (ticks_early cfg Hok g d Hd D _ T0 c T0 Hsp (proj2 Hc)) as [c' Hc']; [lia|exact Hlast|].
    rewrite Hc' in Hl, Ho. split; [apply Hl|exact Ho].
  - pose proof (ticks_late cfg Hok g d Hd D _ T0 c T0 (proj1 HD) Hsp (proj2 Hc)) as Hlost.
    rewrite Hlost in Hl, Ho by (lia || exact Hlast). split; [exact Hl|exact Ho].
Qed.
End Supervised.

(** ** Example: a device of [SampleMaster] falls silent after one answer *)

Section SilentWitness.
Import SampleHost SlaveProps.SampleEnv SampleMasterEnv SampleFiles.

(** The scan after the one that it has answered. *)
Definition silent_master : clm :=
  SampleMaster.after (run_call SampleMaster.quiet_call 800000) Exchange.CycleSample.master.

Definition silence : list (list datagram * Z) :=
  map (fun T => ([], T)) [1050000; 1300000; 1550000; 1800000; 2050000; 2300000].

Lemma silent_device_disconnected_witness : exists m' o,
  silent_calls silence silent_master = Done (tt, m', o) /\
  d_device_state (device_at (group_at m' 0) 1) = CLM_DEVICE_STATE_WAIT_TD /\
  disconnections 0 1 o = [ClmDisconnectCb 0 1 SampleMaster.slave_ip].
Proof.
  destruct (silent_device_disconnected clock_ok SampleMaster.cfg silent_master 0 1 800000 0
    250000 silence) as (m' & o & Hrun & _ & _ & _ & Hlost).
  - exact SampleMaster.cfg_typed.
  - apply SampleMaster.after_reachable; [exact Exchange.CycleSample.master_is_reachable
      |exact SampleMaster.quiet_call_ok|vm_compute; reflexivity].
  - vm_compute. repeat split; discriminate.
  - repeat split; vm_compute; first [reflexivity|discriminate].
  - split; discriminate.
  - repeat constructor.
  - repeat split; discriminate.
  - exists m', o. split; [exact Hrun|]. apply Hlost. vm_compute. discriminate.
Defined.
End SilentWitness.
